(* ===== verification/_CoqProject ===== *)
-Q . S2P
Prelude.v
Machine.v
Memory.v
State.v
Spinlock.v
Kalloc.v
Vm.v
VmSpec.v
Proc.v
Signals.v
Process.v
Kthread.v
Csem.v
FsState.v
Sleeplock.v
Bio.v
Log.v
Fs.v
FsSpec.v
Console.v
File.v
PipeSpec.v
Virtio.v
VirtioSpec.v
Printf.v
Sysargs.v
Exec.v
Sysfile.v
Sysproc.v
Trap.v
TrapSpec.v
Start.v
User.v
Grep.v
Sh.v
ShSpec.v
Programs.v
Umalloc.v
UmallocSpec.v
Mkfs.v
MkfsSpec.v
MkfsImage.v
FileSpec.v
DirSpec.v
PathSpec.v
TruncSpec.v
Grind.v
MountSpec.v
