(* ===== verification/Prelude.v ===== *)
(** * A verification library for the xv6 kernel with signals, threads and semaphores

    The program is a teaching operating system for a RISC-V multiprocessor: the
    xv6 kernel, extended with signals, kernel threads inside a process, binary
    semaphores in the kernel and counting semaphores in user space.  The library
    translates the C sources into executable definitions and proves what the
    components promise.

    ** How the code is modelled

    A kernel function is a computation of the monad [M] below on an explicit
    state.  Its outcome is [Done] with a value and the new state, [Panic] (a
    call of [panic]), [Fault] (an invalid pointer or an index out of the bounds
    of an array), [Hang] (a loop that can never end, such as [acquire] of a lock
    that nobody will release), [NoFuel], or [Swtch]: the thread gives the
    processor to another context and the rest of its work is kept as a
    continuation.  The state [kstate] (State.v) is one record of the kernel's
    global variables: byte memory, control registers of the running hart, CPUs,
    locks, the process table, and the free list; its parameter is instantiated
    by [ext] (FsState.v), the variables of the file system and the devices.
    Integers are of type [Z] with the conversions [u8], [u16], [u32], [u64] and
    [s32] where C converts; a pointer to an element of a table is its index, a
    pointer to a page is its address, a null pointer [None] or 0.

    A user program is a computation of the monad [UM] (User.v) on the state of
    the system outside it: it returns, exits with a status, is replaced by
    another program, or faults.  Its strings are lists of bytes, its buffers
    values that are passed on; the shell's parser has a monad of its own, whose
    state is the position in the line.

    ** The files

    - Prelude.v: the monad, loops, machine integers, generic lemmas and tactics.
    - Machine.v, Start.v: param.h, memlayout.h, riscv.h and the machine-mode
      start.c.
    - Memory.v: byte memory and string.c.  State.v: proc.h and the globals.
    - Spinlock.v: spinlock.c, as operations of one hart, and in [Module Smp] as
      the atomic steps of any number of harts.
    - Kalloc.v: kalloc.c.  Vm.v: vm.c, on page tables kept in the byte memory.
      VmSpec.v: copying and shrinking an address space, and giving back a page
      table that could not be completed.
    - Proc.v, Process.v, Signals.v, Kthread.v: the parts of proc.c: the tables,
      sleep, wakeup and kill; fork, exit, wait and the scheduler; signals; binary
      semaphores and kernel threads.
    - Csem.v: user/Csemaphore.c, as calls of the kernel and in [Module Conc] as
      the interleaved steps of threads.
    - FsState.v: the structures of the file system and the devices.
      Sleeplock.v, Bio.v, Log.v, Fs.v, File.v: sleeplock.c, bio.c, log.c, fs.c,
      file.c and pipe.c.  FsSpec.v and PipeSpec.v: what the file system's
      allocator and inodes, and the pipes, guarantee, and how many blocks running
      operations may log.  On top of FsSpec.v, and
      each on the one before: FileSpec.v (the content of files), DirSpec.v
      (directories as maps) and PathSpec.v (the walk along a path); TruncSpec.v
      is what freeing the blocks of a file does.
    - Console.v, Printf.v, Virtio.v: uart.c and console.c, printf.c,
      virtio_disk.c.  VirtioSpec.v: the descriptors of the disk driver.
    - Sysargs.v, Exec.v, Sysfile.v, Sysproc.v, Trap.v: the system calls, exec.c,
      the dispatch of syscall.c, plic.c, trap.c and main.c.  TrapSpec.v: a system
      call from the trap to its effect.
    - User.v: the effects of a user program, the system calls as the class
      [Sys], and user/ulib.c and user/printf.c ([Module Ulib], [Uprintf]).
      Grep.v: user/grep.c.  Sh.v: user/sh.c; ShSpec.v: its grammar.  Programs.v:
      the other programs of user/, with stressfs.c and forktest.c; Grind.v:
      user/grind.c.  Umalloc.v: user/umalloc.c; UmallocSpec.v: the invariant of
      its free list.
    - Mkfs.v: mkfs/mkfs.c, on the sectors of the image.  MkfsSpec.v and
      MkfsImage.v: appending to a file, and the image as a list of files.
      MountSpec.v: the kernel's file system on such an image.

    Components meet at interfaces that are classes: [FsOps] is what the process
    code needs of files and inodes (implemented in File.v), [DiskOps] with the
    law [DiskOk] is the disk as the buffer cache sees it (an ideal disk in Bio.v,
    the driver in Virtio.v), [Devices] the hardware behind the device registers,
    [Symbols] with [SymbolsOk] the addresses that the linker chooses.

    ** What is proved

    - Memory: [memmove], [safestrcpy] and [strncmp] against their meaning; the
      page allocator refines a stack of pages and starts with every page of RAM;
      [mappages] and [uvmalloc] keep the page tables well formed and map exactly
      what was asked for; [copyout] and [copyin] are inverse, and confined to
      pages mapped for the user; [uvmcopy] gives the child its own copy of every
      page and leaves the parent alone; [uvmdealloc] gives back exactly the pages
      it unmaps.
    - Concurrency: for every interleaving, mutual exclusion of the spin lock, and
      that what its callers see is an execution of an atomic lock; nesting of
      [push_off]; sleep and wakeup lose no wakeup; a thread waits at a closed
      binary semaphore however often it is woken, and closes it when it finds it
      open; the counting semaphore counts exactly, threads that use it never run
      for ever and stop only when they have finished or no unit is left, and
      they all finish when they give units before they take any and there are
      enough, for every interleaving.
    - Processes and signals: allocation of processes, and that a failed one gives
      back the slot and the memory; exactness of [wakeup] and [kill], delivery of
      signals, and that [sigret] undoes [usersignal].
    - File system: the cache returns what was written; a crash at any point of a
      commit leaves all or nothing of the transaction; the block allocator and
      the inodes on disk keep what was stored; [writei] and [readi] implement
      writing and reading a sequence of bytes, through direct and indirect blocks,
      and [itrunc] frees exactly the blocks of the file, while other files keep
      their content; a directory is a finite map from names to inodes; path names
      are split as the reference function splits them, and [namei] and
      [nameiparent] walk the tree of these maps and keep the count of references;
      a pipe is a queue of bytes.
    - Devices and output: disk requests own their descriptors and give them back;
      printed numbers read back.
    - User space: the shell's parser ends on every line, with the command of the
      tree that the grammar gives the line, and with an error exactly when there
      is no tree; [match] of grep decides the language of the pattern, and on a
      text without NUL and with lines that fit its buffer grep prints the complete
      lines that match, however the reads divide the file; [malloc] and [free]
      never fault and never hand out overlapping blocks, for every sequence of
      requests of at most 2^31 - 48 bytes; the generator of grind is that of Park
      and Miller.
    - The image: mkfs builds a file system whose superblock, bitmap and inodes
      the definitions of the kernel read back as the files it was given; on that
      image [namei], [ilock] and [readi] find every file by its path and return
      its bytes.
    - Errors: theorems about what the code does where it does not do what it
      means to: signals that lose a context, a lock kept on an error path, a join
      that does not wait, a missing check of a null pointer, a log that admits
      more blocks than it can log, a signal that reaches an unused slot, and a
      return from a signal handler that loses a register.

    ** Bounds

    A loop over an array is a recursion on it.  A loop that waits for another
    thread or a device tests its condition at most [rounds] times (class
    [Rounds], Sleeplock.v) and gives [NoFuel] when they are used up; theorems
    hold for every positive number.  Copy loops are given one round for every
    page or block they can touch, [mappages] one for every page of its range,
    which callers never leave empty, [free_chain] one more than there are
    descriptors, the number printer 32 digits: enough for every input, which is
    part of the theorems about them.  The parser's recursion is given four times
    the length of the line, the loops of [malloc] and [free] a turn for every
    header in memory, [iappend] a turn for every byte; the theorems show that
    these are enough.  [namex] has one round more than the path has bytes, which
    is enough for every path.  Loops of programs that read until the end of a
    file, and the endless loops of grind, take their fuel as an argument.

    ** Abstractions

    The definitions over [kstate] run one hart at a time, other threads run at
    [Swtch]; true interleavings are in the modules [Smp] and [Conc].  A local
    variable that C leaves uninitialised starts as zero.  A call of [printf]
    appends to the record [k_out] except in Printf.v, which models [printf]
    itself.  [sleep] and the scheduler switch by [Swtch] instead of saving
    registers.  Memory barriers have no effect.  [readi] and [writei] of a local
    variable of the kernel take and return its bytes.  Strings are lists that
    end at a NUL or at their end.  Signed arithmetic wraps where C leaves
    overflow undefined ([printint] of the least [int]).  The headers of
    umalloc.c are kept by their address, as if two of them less than 16 bytes
    apart did not overlap; the theorem about it has the memory end at least one
    header above [base].  [fork] in a user program is a call that returns the
    child's number or 0: what the other of the two processes does is another
    run.

    ** Not modelled

    Assembly (entry.S, swtch.S, trampoline.S, kernelvec.S, invokeSigRet.S,
    initcode.S); ramdisk.c, which is not built and does not fit [struct buf];
    headers that only declare; usys.pl, which generates the stubs of the system
    calls; and the test programs usertests.c and test.c: sequences of system calls
    with no state of their own, whose outcome is that of the kernel functions. *)

From stdpp Require Export base list list_numbers gmap strings.
From Stdlib Require Export ZArith Lia.

#[global] Open Scope Z_scope.

(** ** Machine integers *)

(** [u8], [u16], [u32] and [u64] are the conversions to the C types [uchar],
    [ushort], [uint] and [uint64]; [s32] is the conversion to [int]. *)
Definition u8 (z : Z) : Z := z mod 2 ^ 8.
Definition u16 (z : Z) : Z := z mod 2 ^ 16.
Definition u32 (z : Z) : Z := z mod 2 ^ 32.
Definition u64 (z : Z) : Z := z mod 2 ^ 64.
Definition s32 (z : Z) : Z := (z + 2 ^ 31) mod 2 ^ 32 - 2 ^ 31.
Definition s16 (z : Z) : Z := (z + 2 ^ 15) mod 2 ^ 16 - 2 ^ 15.

(** [1 << n] seen as a [uint]. *)
Definition bit (n : Z) : Z := Z.shiftl 1 n.

(** A C condition on an integer: non-zero is true. *)
Definition truthy (z : Z) : bool := negb (z =? 0).

(** ** The effect monad

    A kernel function runs on a state and either returns, panics, dereferences
    an invalid pointer, waits for ever in a spin loop, runs out of the fuel a
    bounded loop was given, or gives up the processor in [swtch].  In the last
    case the outcome holds the state at the switch and the rest of the
    computation, which runs on the state found when the thread is resumed. *)
Inductive res (S A : Type) : Type :=
| Done (a : A) (s : S)
| Panic (msg : string) (s : S)
| Fault (s : S)
| Hang (s : S)
| NoFuel (s : S)
| Swtch (target : option (nat * nat)) (s : S) (k : S -> res S A).

Arguments Done {S A} a s.
Arguments Panic {S A} msg s.
Arguments Fault {S A} s.
Arguments Hang {S A} s.
Arguments NoFuel {S A} s.
Arguments Swtch {S A} target s k.

Definition M (S A : Type) : Type := S -> res S A.

Fixpoint rbind {S A B} (r : res S A) (f : A -> M S B) : res S B :=
  match r with
  | Done a s => f a s
  | Panic m s => Panic m s
  | Fault s => Fault s
  | Hang s => Hang s
  | NoFuel s => NoFuel s
  | Swtch t s k => Swtch t s (fun s' => rbind (k s') f)
  end.

#[global] Instance M_ret S : MRet (M S) := fun A a s => Done a s.
#[global] Instance M_bind S : MBind (M S) := fun A B f m s => rbind (m s) f.

Definition get_st {S} : M S S := fun s => Done s s.
Definition gets {S A} (f : S -> A) : M S A := fun s => Done (f s) s.
Definition modify {S} (f : S -> S) : M S unit := fun s => Done tt (f s).
Definition panic {S A} (msg : string) : M S A := fun s => Panic msg s.
Definition fault {S A} : M S A := fun s => Fault s.
Definition hang {S A} : M S A := fun s => Hang s.
Definition no_fuel {S A} : M S A := fun s => NoFuel s.

(** [of_option o] dereferences a pointer: a null or dangling one faults. *)
Definition of_option {S A} (o : option A) : M S A :=
  match o with Some a => mret a | None => fault end.

Definition when {S} (b : bool) (m : M S unit) : M S unit :=
  if b then m else mret tt.

(** [for_each l body] is a C loop over the elements [l] without early exit. *)
Fixpoint for_each {S A} (l : list A) (body : A -> M S unit) : M S unit :=
  match l with
  | [] => mret tt
  | x :: l' => body x;; for_each l' body
  end.

(** [for_until l body] is a C loop that a [return], [break] or [goto] may
    leave: the body gives [Some] for that. *)
Fixpoint for_until {S A B} (l : list A) (body : A -> M S (option B)) : M S (option B) :=
  match l with
  | [] => mret None
  | x :: l' => r ← body x; match r with Some b => mret (Some b) | None => for_until l' body end
  end.

(** [loop n body] repeats [body] until it gives [Some], at most [n] times. *)
Fixpoint loop {S B} (n : nat) (body : M S (option B)) : M S B :=
  match n with
  | O => no_fuel
  | Datatypes.S n' => r ← body; match r with Some b => mret b | None => loop n' body end
  end.

(** ** Equality of computations up to the resumptions

    Two outcomes are equivalent when they agree and their resumptions agree on
    every state: function extensionality is not assumed. *)
Inductive res_eq {S A} : res S A -> res S A -> Prop :=
| eq_Done a s : res_eq (Done a s) (Done a s)
| eq_Panic m s : res_eq (Panic m s) (Panic m s)
| eq_Fault s : res_eq (Fault s) (Fault s)
| eq_Hang s : res_eq (Hang s) (Hang s)
| eq_NoFuel s : res_eq (NoFuel s) (NoFuel s)
| eq_Swtch t s k k' : (forall s', res_eq (k s') (k' s')) -> res_eq (Swtch t s k) (Swtch t s k').

Definition M_eq {S A} (m m' : M S A) : Prop := forall s, res_eq (m s) (m' s).

Section MonadLaws.
Context {S : Type}.

Lemma res_eq_refl {A} (r : res S A) : res_eq r r.
Proof. induction r; constructor; auto. Qed.

Lemma res_eq_sym {A} (r r' : res S A) : res_eq r r' -> res_eq r' r.
Proof. induction 1; constructor; auto. Qed.

Lemma res_eq_trans {A} (r1 r2 : res S A) :
  res_eq r1 r2 -> forall r3, res_eq r2 r3 -> res_eq r1 r3.
Proof. induction 1; inversion 1; subst; constructor; eauto. Qed.

#[global] Instance M_eq_equiv {A} : Equivalence (@M_eq S A).
Proof.
  split.
  - intros m s. apply res_eq_refl.
  - intros m m' H s. apply res_eq_sym, H.
  - intros m1 m2 m3 H1 H2 s. eapply res_eq_trans; eauto.
Qed.

Lemma rbind_proper {A B} (r r' : res S A) (f f' : A -> M S B) :
  res_eq r r' -> (forall a, M_eq (f a) (f' a)) -> res_eq (rbind r f) (rbind r' f').
Proof. intros H Hf. induction H; simpl; try constructor; auto. apply Hf. Qed.

#[global] Instance mbind_proper {A B} :
  Proper (pointwise_relation A M_eq ==> M_eq ==> M_eq) (@mbind (M S) _ A B).
Proof. intros f f' Hf m m' Hm s. apply rbind_proper; [apply Hm | apply Hf]. Qed.

Lemma mbind_ret_l {A B} (a : A) (f : A -> M S B) : M_eq (mret a ≫= f) (f a).
Proof. intros s. apply res_eq_refl. Qed.

Lemma mbind_ret_r {A} (m : M S A) : M_eq (m ≫= mret) m.
Proof. intros s. unfold mbind, M_bind. induction (m s); simpl; constructor; auto. Qed.

Lemma mbind_assoc {A B C} (m : M S A) (f : A -> M S B) (g : B -> M S C) :
  M_eq ((m ≫= f) ≫= g) (m ≫= (fun a => f a ≫= g)).
Proof.
  intros s. unfold mbind, M_bind. induction (m s); simpl; try constructor; auto.
  apply res_eq_refl.
Qed.

End MonadLaws.

(** ** Running a computation step by step *)

Lemma bind_Done {S A B} (m : M S A) (f : A -> M S B) s a s' :
  m s = Done a s' -> (m ≫= f) s = f a s'.
Proof. intros H. unfold mbind, M_bind. by rewrite H. Qed.

Lemma bind_Panic {S A B} (m : M S A) (f : A -> M S B) s msg s' :
  m s = Panic msg s' -> (m ≫= f) s = Panic msg s'.
Proof. intros H. unfold mbind, M_bind. by rewrite H. Qed.

Lemma bind_Fault {S A B} (m : M S A) (f : A -> M S B) s s' :
  m s = Fault s' -> (m ≫= f) s = Fault s'.
Proof. intros H. unfold mbind, M_bind. by rewrite H. Qed.

Lemma bind_Hang {S A B} (m : M S A) (f : A -> M S B) s s' :
  m s = Hang s' -> (m ≫= f) s = Hang s'.
Proof. intros H. unfold mbind, M_bind. by rewrite H. Qed.

Lemma bind_Swtch {S A B} (m : M S A) (f : A -> M S B) s t s' k :
  m s = Swtch t s' k -> (m ≫= f) s = Swtch t s' (fun x => rbind (k x) f).
Proof. intros H. unfold mbind, M_bind. by rewrite H. Qed.

(** [mstep H] advances the goal over the first call of a sequence, whose
    outcome the equation [H] gives. *)
Ltac mstep H :=
  first [ erewrite (bind_Done _ _ _ _ _ H)
        | erewrite (bind_Panic _ _ _ _ _ H)
        | erewrite (bind_Fault _ _ _ _ H)
        | erewrite (bind_Hang _ _ _ _ H)
        | erewrite (bind_Swtch _ _ _ _ _ _ H) ].

(** The outcome of the first steps of a longer sequence. *)
Lemma seq2_Done {S A} (a b : M S unit) (k : M S A) s s' :
  (a;; b) s = Done tt s' -> (a;; b;; k) s = k s'.
Proof. unfold mbind, M_bind. destruct (a s) as [[] s1| | | | |]; try done. cbn. by intros ->. Qed.

Lemma seq3_Done {S A} (a b c : M S unit) (k : M S A) s s' :
  (a;; b;; c) s = Done tt s' -> (a;; b;; c;; k) s = k s'.
Proof.
  unfold mbind, M_bind. destruct (a s) as [[] s1| | | | |]; try done. cbn.
  destruct (b s1) as [[] s2| | | | |]; try done. cbn. by intros ->.
Qed.

Lemma when_true {S} (m : M S unit) : when true m = m.
Proof. done. Qed.

Lemma when_false {S} (m : M S unit) : when false m = mret tt.
Proof. done. Qed.

Lemma bind_ret {S A B} (a : A) (f : A -> M S B) s : (mret a ≫= f) s = f a s.
Proof. done. Qed.

Lemma bind_gets {S A B} (g : S -> A) (f : A -> M S B) s : (gets g ≫= f) s = f (g s) s.
Proof. done. Qed.

Lemma bind_get_st {S B} (f : S -> M S B) s : (get_st ≫= f) s = f s s.
Proof. done. Qed.

Lemma bind_modify {S B} (g : S -> S) (f : unit -> M S B) s : (modify g ≫= f) s = f tt (g s).
Proof. done. Qed.

Lemma bind_panic {S A B} msg (f : A -> M S B) s : (panic msg ≫= f) s = Panic msg s.
Proof. done. Qed.

Lemma bind_fault {S A B} (f : A -> M S B) s : (fault ≫= f) s = Fault s.
Proof. done. Qed.

Lemma bind_of_option {S A B} (o : option A) a (f : A -> M S B) s :
  o = Some a -> (of_option o ≫= f) s = f a s.
Proof. by intros ->. Qed.

(** ** The hint database of the development *)
Create HintDb xv6.
Create Rewrite HintDb xv6_rw.
Create Rewrite HintDb mrun.
#[export] Hint Rewrite @bind_ret @bind_gets @bind_get_st @bind_modify @bind_panic @bind_fault : mrun.

(** [mrun] runs the primitive effects at the head of the goal. *)
Ltac mrun := autorewrite with mrun; cbn beta.

(** ** Arithmetic *)

Ltac Zify.zify_post_hook ::= Z.to_euclidean_division_equations.

Lemma u8_range z : 0 <= u8 z < 256.
Proof. unfold u8. lia. Qed.

Lemma u32_range z : 0 <= u32 z < 2 ^ 32.
Proof. unfold u32. lia. Qed.

Lemma u64_range z : 0 <= u64 z < 2 ^ 64.
Proof. unfold u64. lia. Qed.

Lemma u8_small z : 0 <= z < 256 -> u8 z = z.
Proof. unfold u8. lia. Qed.

Lemma u32_small z : 0 <= z < 2 ^ 32 -> u32 z = z.
Proof. unfold u32. lia. Qed.

Lemma u64_small z : 0 <= z < 2 ^ 64 -> u64 z = z.
Proof. unfold u64. lia. Qed.

Lemma s32_range z : - 2 ^ 31 <= s32 z < 2 ^ 31.
Proof. unfold s32. lia. Qed.

Lemma s32_small z : - 2 ^ 31 <= z < 2 ^ 31 -> s32 z = z.
Proof. unfold s32. lia. Qed.

#[export] Hint Rewrite u8_small u32_small u64_small s32_small using lia : xv6_rw.
#[export] Hint Resolve u8_range u32_range u64_range s32_range : xv6.

Lemma bit_pow n : 0 <= n -> bit n = 2 ^ n.
Proof. intros H. unfold bit. rewrite Z.shiftl_mul_pow2 by lia. lia. Qed.

Lemma bit_testbit n m : 0 <= n -> Z.testbit (bit n) m = (m =? n).
Proof.
  intros H. rewrite bit_pow by lia. destruct (Z.eqb_spec m n) as [->|Hne].
  - apply Z.pow2_bits_true. lia.
  - apply Z.pow2_bits_false. lia.
Qed.

(** A bit is set in a mask exactly when the bitwise and with it is not zero. *)
Lemma truthy_land_bit x n : 0 <= n -> truthy (Z.land x (bit n)) = Z.testbit x n.
Proof.
  intros Hn. unfold truthy.
  assert (H : Z.land x (bit n) = if Z.testbit x n then bit n else 0).
  { apply Z.bits_inj'. intros m Hm. rewrite Z.land_spec, bit_testbit by lia.
    destruct (Z.eqb_spec m n) as [->|Hne].
    - destruct (Z.testbit x n); rewrite ?bit_testbit, ?Z.testbit_0_l, ?Z.eqb_refl by lia; done.
    - destruct (Z.testbit x n); rewrite ?bit_testbit, ?Z.testbit_0_l, ?andb_false_r by lia;
        [|done]. by rewrite (proj2 (Z.eqb_neq m n)). }
  rewrite H. destruct (Z.testbit x n); [|done].
  rewrite bit_pow by lia. destruct (Z.eqb_spec (2 ^ n) 0); [lia|done].
Qed.

(** ** Lists *)

Lemma alter_same {A} (l : list A) i x f : l !! i = Some x -> f x = x -> alter f i l = l.
Proof.
  intros Hx Hf. apply list_eq. intros j. destruct (decide (i = j)) as [<-|Hne].
  - rewrite list_lookup_alter_eq, Hx. simpl. by rewrite Hf.
  - by rewrite list_lookup_alter_ne.
Qed.

Lemma alter_ext_at {A} (l : list A) i x f g : l !! i = Some x -> f x = g x -> alter f i l = alter g i l.
Proof.
  intros Hx Hf. apply list_eq. intros j. destruct (decide (i = j)) as [<-|Hne].
  - rewrite !list_lookup_alter_eq, Hx. simpl. by rewrite Hf.
  - by rewrite !list_lookup_alter_ne.
Qed.

Lemma alter_alter {A} (l : list A) i f g : alter f i (alter g i l) = alter (fun x => f (g x)) i l.
Proof.
  apply list_eq. intros j. destruct (decide (i = j)) as [<-|Hne].
  - rewrite !list_lookup_alter_eq. by destruct (l !! i).
  - by rewrite !list_lookup_alter_ne.
Qed.

Lemma alter_insert {A} (l : list A) i x f : l !! i = Some x -> alter f i l = <[i := f x]> l.
Proof.
  intros Hx. apply list_eq. intros j. destruct (decide (i = j)) as [<-|Hne].
  - rewrite list_lookup_alter_eq, Hx, list_lookup_insert_eq; [done|by apply lookup_lt_Some in Hx].
  - by rewrite list_lookup_alter_ne, list_lookup_insert_ne.
Qed.

Lemma alter_id_fun {A} (l : list A) i f : (forall x, f x = x) -> alter f i l = l.
Proof.
  intros Hf. destruct (l !! i) as [x|] eqn:Hx; [by apply (alter_same _ _ x)|].
  apply list_eq. intros j. destruct (decide (i = j)) as [<-|Hne].
  - by rewrite list_lookup_alter_eq, Hx.
  - by rewrite list_lookup_alter_ne.
Qed.

(** Updating every position in turn is a map. *)
Lemma foldl_alter_imap {A} (f : nat -> A -> A) (l : list A) :
  foldl (fun l i => alter (f i) i l) l (seq 0 (length l)) = imap f l.
Proof.
  assert (Hg : forall n k, foldl (fun l i => alter (f i) i l) l (seq 0 n) !! k =
    if decide (k < n)%nat then f k <$> l !! k else l !! k).
  { induction n as [|n IH]; intros k; [by destruct (decide _); [lia|]|].
    rewrite seq_S, foldl_snoc. cbn [Nat.add]. destruct (decide (n = k)) as [<-|Hne].
    - rewrite list_lookup_alter_eq, IH. destruct (decide (n < n)%nat), (decide (n < S n)%nat); try lia; done.
    - rewrite list_lookup_alter_ne, IH by done.
      destruct (decide (k < n)%nat), (decide (k < S n)%nat); try lia; done. }
  apply list_eq. intros k. rewrite Hg, list_lookup_imap.
  destruct (decide (k < length l)%nat); [done|]. by rewrite lookup_ge_None_2 by lia.
Qed.

(** A search loop: bodies that find nothing and change nothing are skipped. *)
Lemma for_until_skip {S A B} (l1 l2 : list A) (body : A -> M S (option B)) s :
  (forall x, x ∈ l1 -> body x s = Done None s) -> for_until (l1 ++ l2) body s = for_until l2 body s.
Proof.
  induction l1 as [|x l1 IH]; intros Hb; [done|]. cbn [app for_until].
  mstep (Hb x ltac:(by left)). apply IH. intros y Hy. apply Hb. by right.
Qed.

Lemma for_until_none {S A B} (l : list A) (body : A -> M S (option B)) s :
  (forall x, x ∈ l -> body x s = Done None s) -> for_until l body s = Done None s.
Proof. intros Hb. rewrite <- (app_nil_r l), for_until_skip by done. done. Qed.

Lemma for_until_found {S B} n i (body : nat -> M S (option B)) s b s' :
  (i < n)%nat -> (forall k, (k < i)%nat -> body k s = Done None s) -> body i s = Done (Some b) s' ->
  for_until (seq 0 n) body s = Done (Some b) s'.
Proof.
  intros Hi Hb Hf. replace n with (i + Datatypes.S (n - i - 1))%nat by lia. rewrite seq_app, for_until_skip.
  - cbn [seq for_until Nat.add]. by mstep Hf.
  - intros k Hk. apply elem_of_seq in Hk. apply Hb. lia.
Qed.

(** A loop whose first turns keep an invariant and do not stop. *)
Lemma for_until_inv {S B} (P : S -> Prop) n (body : nat -> M S (option B)) : forall i j s,
  (i <= n)%nat -> P s -> (forall k s, (j <= k < j + i)%nat -> P s -> exists s', body k s = Done None s' /\ P s') ->
  exists s', P s' /\ for_until (seq j n) body s = for_until (seq (j + i) (n - i)) body s'.
Proof.
  revert n. intros n i. revert n. induction i as [|i IH]; intros n j s Hi HP Hb.
  - exists s. split; [done|]. by rewrite Nat.add_0_r, Nat.sub_0_r.
  - destruct n as [|n]; [lia|]. cbn [seq for_until]. destruct (Hb j s) as (s1 & Hr & HP1); [lia|done|].
    mstep Hr. destruct (IH n (Datatypes.S j) s1 ltac:(lia) HP1) as (s' & HP' & Hr'); [intros k s2 Hk; apply Hb; lia|].
    exists s'. split; [done|]. rewrite Hr'. f_equal. by replace (Datatypes.S j + i)%nat with (j + Datatypes.S i)%nat by lia.
Qed.

(** A loop whose turns keep an invariant. *)
Lemma for_each_inv {S} (P : nat -> S -> Prop) (body : nat -> M S unit) n : forall j s,
  P j s -> (forall k s, (j <= k < j + n)%nat -> P k s -> exists s', body k s = Done tt s' /\ P (Datatypes.S k) s') ->
  exists s', for_each (seq j n) body s = Done tt s' /\ P (j + n)%nat s'.
Proof.
  induction n as [|n IH]; intros j s HP Hb; [exists s; by rewrite Nat.add_0_r|].
  cbn [seq for_each]. destruct (Hb j s) as (s1 & Hr & HP1); [lia|done|]. mstep Hr.
  destruct (IH (Datatypes.S j) s1 HP1) as (s' & Hr' & HP'); [intros k s2 Hk; apply Hb; lia|].
  exists s'. split; [exact Hr'|]. by replace (j + Datatypes.S n)%nat with (Datatypes.S j + n)%nat by lia.
Qed.

(** The parts of a sequence that comes to its end. *)
Lemma bind_Done_inv {S A B} (m : M S A) (f : A -> M S B) s b s' :
  (m ≫= f) s = Done b s' -> exists a s1, m s = Done a s1 /\ f a s1 = Done b s'.
Proof. unfold mbind, M_bind. destruct (m s) as [a s1| | | | |]; try done. cbn. eauto. Qed.

Lemma for_each_app {S A} (l1 l2 : list A) (body : A -> M S unit) s s' :
  for_each l1 body s = Done tt s' -> for_each (l1 ++ l2) body s = for_each l2 body s'.
Proof.
  revert s. induction l1 as [|x l1 IH]; intros s E; cbn [app for_each] in *; [by injection E as ->|].
  unfold mbind, M_bind in *. destruct (body x s) as [[] s1| | | | |] eqn:Eb; try done. by apply IH.
Qed.

Lemma for_each_idle {S A} (l : list A) (body : A -> M S unit) s :
  (forall x, x ∈ l -> body x s = Done tt s) -> for_each l body s = Done tt s.
Proof.
  induction l as [|x l IH]; intros Hb; [done|]. cbn [for_each]. mstep (Hb x ltac:(by left)).
  apply IH. intros y Hy. apply Hb. by right.
Qed.

Lemma seq_split3 k n m : seq k (n + S m) = seq k n ++ (k + n)%nat :: seq (S (k + n)) m.
Proof. rewrite seq_app. cbn. f_equal. Qed.

(** ** Sums over lists *)

Fixpoint zsum {A} (f : A -> Z) (l : list A) : Z :=
  match l with [] => 0 | x :: l' => f x + zsum f l' end.

Lemma zsum_insert {A} (f : A -> Z) l i x y :
  l !! i = Some x -> zsum f (<[i := y]> l) = zsum f l - f x + f y.
Proof.
  revert i. induction l as [|z l IH]; intros [|i] Hx; try done.
  - injection Hx as ->. cbn. lia.
  - change (f z + zsum f (<[i := y]> l) = f z + zsum f l - f x + f y). rewrite (IH _ Hx). lia.
Qed.

Lemma zsum_nonneg {A} (f : A -> Z) l : (forall x, 0 <= f x) -> 0 <= zsum f l.
Proof. intros Hf. induction l as [|x l IH]; cbn; [lia|]. specialize (Hf x). lia. Qed.

Lemma zsum_le {A} (f : A -> Z) l i x : (forall y, 0 <= f y) -> l !! i = Some x -> f x <= zsum f l.
Proof.
  intros Hf. revert i. induction l as [|z l IH]; intros [|i] Hx; try done.
  - injection Hx as ->. cbn. pose proof (zsum_nonneg f l Hf). lia.
  - cbn in *. specialize (IH _ Hx). specialize (Hf z). lia.
Qed.

Lemma zsum_ext_at {A} (f g : A -> Z) l : (forall i x, l !! i = Some x -> f x = g x) -> zsum f l = zsum g l.
Proof.
  induction l as [|x l IH]; intros Hf; [done|]. cbn. rewrite (Hf O x) by done. f_equal.
  apply IH. intros i y Hy. by apply (Hf (S i)).
Qed.

Lemma zsum_zero {A} (f : A -> Z) l : (forall i x, l !! i = Some x -> f x = 0) -> zsum f l = 0.
Proof.
  intros Hf. rewrite (zsum_ext_at f (fun _ => 0)) by done. clear Hf. induction l as [|x l IH]; cbn; lia.
Qed.

(** Two positions of a list whose values sum to at most one cannot both count. *)
Lemma zsum_two {A} (f : A -> Z) l i j x y :
  (forall z, 0 <= f z) -> l !! i = Some x -> l !! j = Some y -> i <> j -> f x + f y <= zsum f l.
Proof.
  intros Hf. revert i j. induction l as [|z l IH]; intros [|i] [|j] Hx Hy Hne; try done.
  - injection Hx as ->. cbn. pose proof (zsum_le f l j y Hf Hy). lia.
  - injection Hy as ->. cbn. pose proof (zsum_le f l i x Hf Hx). lia.
  - cbn in *. specialize (IH i j Hx Hy ltac:(lia)). specialize (Hf z). lia.
Qed.

Lemma zsum_sub {A} (f g : A -> Z) l : zsum (fun x => f x - g x) l = zsum f l - zsum g l.
Proof. induction l as [|x l IH]; cbn; lia. Qed.

(** ** One round of a loop *)

Lemma loop_found {S B} n (body : M S (option B)) s b s' :
  body s = Done (Some b) s' -> loop (Datatypes.S n) body s = Done b s'.
Proof. intros Hb. cbn [loop]. by mstep Hb. Qed.

Lemma loop_again {S B} n (body : M S (option B)) s s' :
  body s = Done None s' -> loop (Datatypes.S n) body s = loop n body s'.
Proof. intros Hb. cbn [loop]. by mstep Hb. Qed.

Lemma loop_Swtch {S B} n (body : M S (option B)) s t s' k :
  body s = Swtch t s' k ->
  loop (Datatypes.S n) body s = Swtch t s' (fun x => rbind (k x) (fun r =>
    match r with Some b => mret b | None => loop n body end)).
Proof. intros Hb. cbn [loop]. by mstep Hb. Qed.
