(* ===== verification/Machine.v ===== *)
(** * Constants of the machine and of the kernel configuration

    The macros of kernel/param.h, kernel/memlayout.h and the page-table part of
    kernel/riscv.h, and the arithmetic facts about them that the memory
    components use. *)

From S2P Require Import Prelude.

(** ** kernel/param.h *)
Definition NPROC : nat := 64.
Definition NTHREAD : nat := 8.
Definition NCPU : nat := 8.
Definition NOFILE : nat := 16.
Definition NFILE : nat := 100.
Definition NINODE : nat := 50.
Definition NDEV : Z := 10.
Definition ROOTDEV : Z := 1.
Definition MAXARG : nat := 32.
Definition MAXOPBLOCKS : Z := 10.
Definition LOGSIZE : Z := MAXOPBLOCKS * 3.
Definition NBUF : nat := 30.
Definition FSSIZE : Z := 1000.
Definition MAXPATH : Z := 128.
Definition SIGNALS_SIZE : Z := 32.
Definition MAX_STACK_SIZE : Z := 4000.
Definition SIG_DFL : Z := 0.
Definition SIG_IGN : Z := 1.
Definition SIGKILL : Z := 9.
Definition SIGSTOP : Z := 17.
Definition SIGCONT : Z := 19.
Definition MAX_BSEM : nat := 128.

(** ** kernel/riscv.h, the paging part *)
Definition PGSIZE : Z := 4096.
Definition PGSHIFT : Z := 12.

(** [(sz + PGSIZE-1) & ~(PGSIZE-1)] on a [uint64]. *)
Definition PGROUNDUP (sz : Z) : Z := Z.land (u64 (sz + PGSIZE - 1)) (Z.lnot (PGSIZE - 1)).
Definition PGROUNDDOWN (a : Z) : Z := Z.land a (Z.lnot (PGSIZE - 1)).

Definition PTE_V : Z := Z.shiftl 1 0.
Definition PTE_R : Z := Z.shiftl 1 1.
Definition PTE_W : Z := Z.shiftl 1 2.
Definition PTE_X : Z := Z.shiftl 1 3.
Definition PTE_U : Z := Z.shiftl 1 4.

Definition PA2PTE (pa : Z) : Z := u64 (Z.shiftl (Z.shiftr pa 12) 10).
Definition PTE2PA (pte : Z) : Z := u64 (Z.shiftl (Z.shiftr pte 10) 12).
Definition PTE_FLAGS (pte : Z) : Z := Z.land pte 0x3FF.

Definition PXMASK : Z := 0x1FF.
Definition PXSHIFT (level : Z) : Z := PGSHIFT + 9 * level.
Definition PX (level va : Z) : Z := Z.land (Z.shiftr va (PXSHIFT level)) PXMASK.

Definition MAXVA : Z := Z.shiftl 1 (9 + 9 + 9 + 12 - 1).

(** ** kernel/memlayout.h *)
Definition UART0 : Z := 0x10000000.
Definition VIRTIO0 : Z := 0x10001000.
Definition PLIC : Z := 0x0c000000.
Definition KERNBASE : Z := 0x80000000.
Definition PHYSTOP : Z := KERNBASE + 128 * 1024 * 1024.
Definition TRAMPOLINE : Z := MAXVA - PGSIZE.
Definition KSTACK (p : Z) : Z := TRAMPOLINE - (p + 1) * 2 * PGSIZE.
Definition TRAPFRAME : Z := TRAMPOLINE - PGSIZE.

(** ** struct trapframe of kernel/proc.h

    The fields, 64-bit words each, and their offsets. *)

Inductive tf_field :=
  | tf_kernel_satp | tf_kernel_sp | tf_kernel_trap | tf_epc | tf_kernel_hartid | tf_ra | tf_sp
  | tf_gp | tf_tp | tf_t0 | tf_t1 | tf_t2 | tf_s0 | tf_s1 | tf_a0 | tf_a1 | tf_a2 | tf_a3 | tf_a4
  | tf_a5 | tf_a6 | tf_a7 | tf_s2 | tf_s3 | tf_s4 | tf_s5 | tf_s6 | tf_s7 | tf_s8 | tf_s9 | tf_s10
  | tf_s11 | tf_t3 | tf_t4 | tf_t5 | tf_t6.

Definition tf_offset (f : tf_field) : Z :=
  match f with
  | tf_kernel_satp => 0 | tf_kernel_sp => 8 | tf_kernel_trap => 16 | tf_epc => 24
  | tf_kernel_hartid => 32 | tf_ra => 40 | tf_sp => 48 | tf_gp => 56 | tf_tp => 64 | tf_t0 => 72
  | tf_t1 => 80 | tf_t2 => 88 | tf_s0 => 96 | tf_s1 => 104 | tf_a0 => 112 | tf_a1 => 120
  | tf_a2 => 128 | tf_a3 => 136 | tf_a4 => 144 | tf_a5 => 152 | tf_a6 => 160 | tf_a7 => 168
  | tf_s2 => 176 | tf_s3 => 184 | tf_s4 => 192 | tf_s5 => 200 | tf_s6 => 208 | tf_s7 => 216
  | tf_s8 => 224 | tf_s9 => 232 | tf_s10 => 240 | tf_s11 => 248 | tf_t3 => 256 | tf_t4 => 264
  | tf_t5 => 272 | tf_t6 => 280
  end.
Coercion tf_offset : tf_field >-> Z.

Definition sizeof_trapframe : nat := 288.

(** ** kernel/fcntl.h *)
Inductive open_flag := O_RDONLY | O_WRONLY | O_RDWR | O_CREATE | O_TRUNC.

Definition flag_bits (f : open_flag) : Z :=
  match f with O_RDONLY => 0x000 | O_WRONLY => 0x001 | O_RDWR => 0x002 | O_CREATE => 0x200 | O_TRUNC => 0x400 end.
Coercion flag_bits : open_flag >-> Z.

(** ** Symbols the assembler and the linker define

    [sym_end] is the first address after the kernel image, [sym_etext] the end
    of its code, [sym_trampoline] the page of kernel/trampoline.S,
    [sym_uservec] and [sym_userret] its two entry points, [sym_kernelvec] the
    vector of kernel/kernelvec.S, [sym_forkret] and [sym_usertrap] the addresses of
    the C functions the kernel stores in memory, and [sigret_code] the bytes
    between [start_ret] and [end_ret] of kernel/invokeSigRet.S. *)
Class Symbols := {
  sym_end : Z;
  sym_etext : Z;
  sym_trampoline : Z;
  sym_uservec : Z;
  sym_userret : Z;
  sym_kernelvec : Z;
  sym_forkret : Z;
  sym_usertrap : Z;
  sigret_code : list Z
}.

(** What kernel/kernel.ld guarantees about them. *)
Class SymbolsOk `{Symbols} : Prop := {
  sym_end_range : KERNBASE < sym_end <= PHYSTOP;
  sym_trampoline_aligned : sym_trampoline mod PGSIZE = 0;
  sym_trampoline_range : KERNBASE <= sym_trampoline < sym_end;
  sigret_code_short : (0 < length sigret_code < 4096)%nat;
  sigret_code_bytes : Forall (fun b => 0 <= b < 256) sigret_code
}.

(** ** Page arithmetic *)

Lemma land_lnot_pow2 x n : 0 <= n -> Z.land x (Z.lnot (2 ^ n - 1)) = x - x mod 2 ^ n.
Proof.
  intros Hn. replace (2 ^ n - 1) with (Z.ones n) by (rewrite Z.ones_equiv; lia).
  rewrite <- Z.ldiff_land, Z.ldiff_ones_r, Z.shiftl_mul_pow2, Z.shiftr_div_pow2 by lia.
  pose proof (Z.div_mod x (2 ^ n)). lia.
Qed.

Lemma PGROUNDDOWN_eq a : PGROUNDDOWN a = a - a mod 4096.
Proof. apply (land_lnot_pow2 a 12). lia. Qed.

Lemma PGROUNDUP_eq sz :
  0 <= sz <= 2 ^ 64 - 4096 -> PGROUNDUP sz = (sz + 4095) - (sz + 4095) mod 4096.
Proof.
  intros H. unfold PGROUNDUP, PGSIZE. rewrite u64_small by lia.
  replace (sz + 4096 - 1) with (sz + 4095) by lia. apply (land_lnot_pow2 _ 12). lia.
Qed.

Lemma PGROUNDUP_aligned sz : PGROUNDUP sz mod 4096 = 0.
Proof.
  unfold PGROUNDUP, PGSIZE. change (4096 - 1) with (2 ^ 12 - 1).
  rewrite land_lnot_pow2 by lia. lia.
Qed.

Lemma PX_eq level va :
  0 <= level -> PX level va = (va / 2 ^ (12 + 9 * level)) mod 512.
Proof.
  intros H. unfold PX, PXSHIFT, PGSHIFT, PXMASK. change 0x1FF with (Z.ones 9).
  rewrite Z.land_ones, Z.shiftr_div_pow2 by lia. done.
Qed.

Lemma PX_range level va : 0 <= level -> 0 <= PX level va < 512.
Proof. intros H. rewrite PX_eq by lia. lia. Qed.

(** Three indices determine the page of a virtual address. *)
Lemma PX_inj va va' :
  0 <= va < MAXVA -> 0 <= va' < MAXVA ->
  PX 2 va = PX 2 va' -> PX 1 va = PX 1 va' -> PX 0 va = PX 0 va' ->
  PGROUNDDOWN va = PGROUNDDOWN va'.
Proof.
  rewrite !PGROUNDDOWN_eq, !PX_eq by lia.
  change (MAXVA) with (2 ^ 38).
  change (12 + 9 * 2) with 30. change (12 + 9 * 1) with 21. change (12 + 9 * 0) with 12.
  change (2 ^ 30) with (2 ^ 21 * 512). change (2 ^ 21) with (2 ^ 12 * 512).
  change (2 ^ 12) with 4096. lia.
Qed.

Lemma PTE2PA_eq pte : 0 <= pte < 2 ^ 54 -> PTE2PA pte = pte / 1024 * 4096.
Proof.
  intros H. unfold PTE2PA. rewrite Z.shiftl_mul_pow2, Z.shiftr_div_pow2 by lia.
  change (2 ^ 10) with 1024. change (2 ^ 12) with 4096.
  rewrite u64_small; lia.
Qed.

Lemma PA2PTE_eq pa : 0 <= pa < 2 ^ 56 -> PA2PTE pa = pa / 4096 * 1024.
Proof.
  intros H. unfold PA2PTE. rewrite Z.shiftl_mul_pow2, Z.shiftr_div_pow2 by lia.
  change (2 ^ 10) with 1024. change (2 ^ 12) with 4096.
  rewrite u64_small; lia.
Qed.

Lemma land_low_high a f n : 0 <= n -> 0 <= f < 2 ^ n -> a mod 2 ^ n = 0 -> Z.land a f = 0.
Proof.
  intros Hn Hf Ha. apply Z.bits_inj'. intros i Hi. rewrite Z.land_spec, Z.testbit_0_l.
  destruct (Z.lt_ge_cases i n).
  - rewrite (Z.div_mod a (2 ^ n)), Ha, Z.add_0_r, Z.mul_comm, Z.mul_pow2_bits_low by lia. done.
  - rewrite <- (Z.mod_small f (2 ^ n)), Z.mod_pow2_bits_high by lia. apply andb_false_r.
Qed.

Lemma lor_low a f : 0 <= f < 1024 -> a mod 1024 = 0 -> Z.lor a f = a + f.
Proof.
  intros Hf Ha. symmetry. apply Z.add_nocarry_lor.
  apply (land_low_high _ _ 10); [lia|done|done].
Qed.

Lemma lor_lt_pow2 a b n : 0 <= n -> 0 <= a < 2 ^ n -> 0 <= b < 2 ^ n -> 0 <= Z.lor a b < 2 ^ n.
Proof.
  intros Hn Ha Hb. split; [apply Z.lor_nonneg; lia|].
  rewrite <- (Z.mod_small a (2 ^ n)), <- (Z.mod_small b (2 ^ n)) by lia.
  rewrite <- !Z.land_ones by lia. rewrite <- Z.land_lor_distr_l, Z.land_ones by lia.
  apply Z.mod_pos_bound. lia.
Qed.

(** A page-table entry gives back the page and the flags it was built from. *)
Lemma pte_roundtrip pa perm :
  0 <= pa < 2 ^ 56 -> pa mod 4096 = 0 -> 0 <= perm < 1024 ->
  let pte := Z.lor (Z.lor (PA2PTE pa) perm) PTE_V in
  PTE2PA pte = pa /\ PTE_FLAGS pte = Z.lor perm PTE_V /\ 0 <= pte < 2 ^ 54.
Proof.
  intros Hpa Hal Hperm pte.
  assert (Hf : 0 <= Z.lor perm PTE_V < 1024).
  { apply (lor_lt_pow2 _ _ 10); [lia|lia|]. change PTE_V with 1. lia. }
  assert (Hpte : pte = pa / 4096 * 1024 + Z.lor perm PTE_V).
  { unfold pte. rewrite <- Z.lor_assoc, PA2PTE_eq by lia. apply lor_low; lia. }
  rewrite Hpte. split_and!.
  - rewrite PTE2PA_eq by lia. lia.
  - unfold PTE_FLAGS. change 0x3FF with (Z.ones 10). rewrite Z.land_ones by lia.
    change (2 ^ 10) with 1024. lia.
  - lia.
  - lia.
Qed.

(** Symbols of one build of the kernel, for concrete evaluations; the code of
    [start_ret] is [li a7, 24; ecall]. *)
Definition sample_symbols : Symbols := {|
  sym_end := 0x80021000;
  sym_etext := 0x80008000;
  sym_trampoline := 0x80007000;
  sym_uservec := 0x80007000;
  sym_userret := 0x80007090;
  sym_kernelvec := 0x80005c00;
  sym_forkret := 0x80001900;
  sym_usertrap := 0x80002700;
  sigret_code := [0x93; 0x08; 0x80; 0x01; 0x73; 0; 0; 0]
|}.

Lemma sample_symbols_ok : @SymbolsOk sample_symbols.
Proof.
  split; [vm_compute; intuition congruence|reflexivity|vm_compute; intuition congruence|cbn; lia|].
  cbn. repeat (constructor; [lia|]). constructor.
Qed.
