(* ===== verification/Memory.v ===== *)
(** * Byte memory and the string routines of kernel/string.c

    Physical memory is a finite map from addresses to bytes; an address that
    was never written reads as zero.  Multi-byte accesses are little endian, as
    on RISC-V.  [memset], [memcmp], [memmove], [strncmp], [strncpy],
    [safestrcpy] and [strlen] follow the loops of kernel/string.c, byte by
    byte, on that memory. *)

From S2P Require Import Prelude Machine.

Abbreviation mem := (gmap Z Z).

Definition ld8 (m : mem) (a : Z) : Z := u8 (default 0 (m !! a)).
Definition st8 (m : mem) (a v : Z) : mem := <[a := u8 v]> m.

Fixpoint load_le (n : nat) (m : mem) (a : Z) : Z :=
  match n with
  | O => 0
  | S n' => ld8 m a + 256 * load_le n' m (a + 1)
  end.

Fixpoint store_le (n : nat) (m : mem) (a v : Z) : mem :=
  match n with
  | O => m
  | S n' => store_le n' (st8 m a v) (a + 1) (v / 256)
  end.

Definition load32 : mem -> Z -> Z := load_le 4.
Definition load64 : mem -> Z -> Z := load_le 8.
Definition store32 : mem -> Z -> Z -> mem := store_le 4.
Definition store64 : mem -> Z -> Z -> mem := store_le 8.

(** Object copies out of and into memory. *)
Fixpoint read_bytes (m : mem) (a : Z) (n : nat) : list Z :=
  match n with
  | O => []
  | S n' => ld8 m a :: read_bytes m (a + 1) n'
  end.

Fixpoint write_bytes (m : mem) (a : Z) (l : list Z) : mem :=
  match l with
  | [] => m
  | b :: l' => write_bytes (st8 m a b) (a + 1) l'
  end.

(** The bytes of an integer object, and the integer of some bytes. *)
Fixpoint le_bytes (n : nat) (v : Z) : list Z :=
  match n with O => [] | S n' => u8 v :: le_bytes n' (v / 256) end.

Fixpoint le_val (l : list Z) : Z :=
  match l with [] => 0 | b :: l' => b + 256 * le_val l' end.

(** ** kernel/string.c *)

Fixpoint memset (m : mem) (dst c : Z) (n : nat) : mem :=
  match n with
  | O => m
  | S n' => memset (st8 m dst c) (dst + 1) c n'
  end.

Fixpoint memcmp (m : mem) (s1 s2 : Z) (n : nat) : Z :=
  match n with
  | O => 0
  | S n' =>
      if negb (ld8 m s1 =? ld8 m s2) then ld8 m s1 - ld8 m s2
      else memcmp m (s1 + 1) (s2 + 1) n'
  end.

(** [while(n-- > 0) *--d = *--s;] *)
Fixpoint memmove_down (m : mem) (d s : Z) (n : nat) : mem :=
  match n with
  | O => m
  | S n' => memmove_down (st8 m (d - 1) (ld8 m (s - 1))) (d - 1) (s - 1) n'
  end.

(** [while(n-- > 0) *d++ = *s++;] *)
Fixpoint memmove_up (m : mem) (d s : Z) (n : nat) : mem :=
  match n with
  | O => m
  | S n' => memmove_up (st8 m d (ld8 m s)) (d + 1) (s + 1) n'
  end.

Definition memmove (m : mem) (dst src : Z) (n : nat) : mem :=
  if (src <? dst) && (dst <? src + Z.of_nat n)
  then memmove_down m (dst + Z.of_nat n) (src + Z.of_nat n) n
  else memmove_up m dst src n.

Definition memcpy (m : mem) (dst src : Z) (n : nat) : mem := memmove m dst src n.

Fixpoint strncmp (m : mem) (p q : Z) (n : nat) : Z :=
  match n with
  | O => 0
  | S n' =>
      if truthy (ld8 m p) && (ld8 m p =? ld8 m q)
      then strncmp m (p + 1) (q + 1) n'
      else ld8 m p - ld8 m q
  end.

Fixpoint strncpy_loop (m : mem) (s t : Z) (n : nat) : mem :=
  match n with
  | O => m
  | S n' =>
      let c := ld8 m t in
      let m' := st8 m s c in
      if negb (c =? 0) then strncpy_loop m' (s + 1) (t + 1) n'
      else memset m' (s + 1) 0 n'
  end.

Definition strncpy (m : mem) (s t n : Z) : mem := strncpy_loop m s t (Z.to_nat n).

(** The loop of [safestrcpy]: [n] is the value of the counter after the
    pre-decrement of the loop condition.  A copied NUL leaves the loop with [s]
    already past it. *)
Fixpoint safestrcpy_loop (m : mem) (s t : Z) (n : nat) : mem :=
  match n with
  | O => st8 m s 0
  | S n' =>
      let c := ld8 m t in
      let m' := st8 m s c in
      if negb (c =? 0) then safestrcpy_loop m' (s + 1) (t + 1) n'
      else st8 m' (s + 1) 0
  end.

Definition safestrcpy (m : mem) (s t n : Z) : mem :=
  if n <=? 0 then m else safestrcpy_loop m s t (Z.to_nat (n - 1)).

(** [strlen] scans for a NUL; the fuel bounds the scan. *)
Fixpoint strlen (fuel : nat) (m : mem) (s : Z) : option Z :=
  match fuel with
  | O => None
  | S f => if ld8 m s =? 0 then Some 0 else n ← strlen f m (s + 1); Some (n + 1)
  end.

(** ** Integer objects *)

Lemma length_le_bytes n v : length (le_bytes n v) = n.
Proof. revert v. induction n; intros v; cbn; auto. Qed.

Lemma le_val_bytes n v : 0 <= v < 256 ^ Z.of_nat n -> le_val (le_bytes n v) = v.
Proof.
  revert v. induction n as [|n IH]; intros v Hv; cbn [le_bytes le_val].
  - simpl in Hv. lia.
  - rewrite Nat2Z.inj_succ, Z.pow_succ_r in Hv by lia. rewrite IH by lia. unfold u8. lia.
Qed.

Lemma le_bytes_range n v : Forall (fun b => 0 <= b < 256) (le_bytes n v).
Proof. revert v. induction n; intros v; constructor; [unfold u8; lia|auto]. Qed.

Lemma le_val_read n m a : le_val (read_bytes m a n) = load_le n m a.
Proof. revert a. induction n as [|n IH]; intros a; cbn; [done|]. by rewrite IH. Qed.

(** ** Single bytes *)

Lemma ld8_range m a : 0 <= ld8 m a < 256.
Proof. apply u8_range. Qed.

Lemma u8_ld8 m a : u8 (ld8 m a) = ld8 m a.
Proof. apply u8_small, ld8_range. Qed.

Lemma ld8_st8 m a v b : ld8 (st8 m a v) b = if a =? b then u8 v else ld8 m b.
Proof.
  unfold ld8, st8. destruct (Z.eqb_spec a b) as [->|Hne].
  - rewrite lookup_insert_eq. simpl. apply u8_small, u8_range.
  - by rewrite lookup_insert_ne.
Qed.

Lemma ld8_st8_ne m a v b : a <> b -> ld8 (st8 m a v) b = ld8 m b.
Proof. intros H. rewrite ld8_st8. by rewrite (proj2 (Z.eqb_neq a b)). Qed.

Lemma ld8_st8_eq m a v : ld8 (st8 m a v) a = u8 v.
Proof. by rewrite ld8_st8, Z.eqb_refl. Qed.

#[export] Hint Resolve ld8_range : xv6.
#[export] Hint Rewrite u8_ld8 ld8_st8_eq : xv6_rw.

(** [byte_cases] splits on every boolean comparison of integers in the goal
    and solves the arithmetic. *)
Ltac byte_cases :=
  repeat match goal with
  | |- context [?a <=? ?b] => destruct (Z.leb_spec a b); cbn [andb orb negb]
  | |- context [?a <? ?b] => destruct (Z.ltb_spec a b); cbn [andb orb negb]
  | |- context [?a =? ?b] => destruct (Z.eqb_spec a b); cbn [andb orb negb]
  end; try lia.

(** ** Ranges *)

Lemma ld8_memset n m dst c a :
  ld8 (memset m dst c n) a =
  if (dst <=? a) && (a <? dst + Z.of_nat n) then u8 c else ld8 m a.
Proof.
  revert m dst. induction n as [|n IH]; intros m dst; cbn [memset].
  - byte_cases; done.
  - rewrite IH, ld8_st8. byte_cases; done.
Qed.

Lemma ld8_memmove_up n m d s a :
  s >= d \/ s + Z.of_nat n <= d ->
  ld8 (memmove_up m d s n) a =
  if (d <=? a) && (a <? d + Z.of_nat n) then ld8 m (s + (a - d)) else ld8 m a.
Proof.
  revert m d s. induction n as [|n IH]; intros m d s H; cbn [memmove_up].
  - byte_cases; done.
  - rewrite IH by lia. rewrite !ld8_st8, u8_ld8.
    byte_cases; try done; f_equal; lia.
Qed.

Lemma ld8_memmove_down n m d s a :
  s <= d ->
  ld8 (memmove_down m d s n) a =
  if (d - Z.of_nat n <=? a) && (a <? d) then ld8 m (s + (a - d)) else ld8 m a.
Proof.
  revert m d s. induction n as [|n IH]; intros m d s H; cbn [memmove_down].
  - byte_cases; done.
  - rewrite IH by lia. rewrite !ld8_st8, u8_ld8.
    byte_cases; try done; f_equal; lia.
Qed.

(** What [memmove] does to every byte, whether or not the areas overlap. *)
Lemma ld8_memmove m dst src n a :
  ld8 (memmove m dst src n) a =
  if (dst <=? a) && (a <? dst + Z.of_nat n) then ld8 m (src + (a - dst)) else ld8 m a.
Proof.
  unfold memmove. destruct (Z.ltb_spec src dst), (Z.ltb_spec dst (src + Z.of_nat n)); cbn [andb].
  - rewrite ld8_memmove_down by lia. byte_cases; try done; f_equal; lia.
  - apply ld8_memmove_up. lia.
  - apply ld8_memmove_up. lia.
  - apply ld8_memmove_up. lia.
Qed.

(** ** Little-endian words *)

Lemma load_le_range n m a : 0 <= load_le n m a < 256 ^ Z.of_nat n.
Proof.
  revert a. induction n as [|n IH]; intros a; cbn [load_le]; [lia|].
  specialize (IH (a + 1)). pose proof (ld8_range m a).
  rewrite Nat2Z.inj_succ, Z.pow_succ_r by lia. lia.
Qed.

Lemma load_le_ext n m m' a :
  (forall b, a <= b < a + Z.of_nat n -> ld8 m b = ld8 m' b) -> load_le n m a = load_le n m' a.
Proof.
  revert a. induction n as [|n IH]; intros a H; cbn [load_le]; [done|].
  rewrite (H a), (IH (a + 1)) by lia || (intros; apply H; lia). done.
Qed.

Lemma ld8_store_le n m a v b :
  ld8 (store_le n m a v) b =
  if (a <=? b) && (b <? a + Z.of_nat n) then u8 (v / 256 ^ (b - a)) else ld8 m b.
Proof.
  revert m a v. induction n as [|n IH]; intros m a v; cbn [store_le].
  - byte_cases; done.
  - rewrite IH, ld8_st8. byte_cases; try done.
    + replace (b - a) with (Z.succ (b - (a + 1))) by lia.
      rewrite Z.pow_succ_r, Z.div_div by lia. done.
    + subst. replace (b - b) with 0 by lia. by rewrite Z.div_1_r.
Qed.

Lemma load_store_other n k m a b v :
  b + Z.of_nat n <= a \/ a + Z.of_nat k <= b ->
  load_le n (store_le k m a v) b = load_le n m b.
Proof. intros H. apply load_le_ext. intros c Hc. rewrite ld8_store_le. byte_cases. Qed.

Lemma load_store_same n m a v :
  0 <= v < 256 ^ Z.of_nat n -> load_le n (store_le n m a v) a = v.
Proof.
  revert m a v. induction n as [|n IH]; intros m a v Hv; cbn [load_le store_le].
  - simpl in Hv. lia.
  - rewrite ld8_store_le. rewrite Nat2Z.inj_succ, Z.pow_succ_r in Hv by lia.
    rewrite IH by lia. byte_cases. rewrite ld8_st8_eq. unfold u8. lia.
Qed.

Lemma load64_store64_same m a v : 0 <= v < 2 ^ 64 -> load64 (store64 m a v) a = v.
Proof. intros H. apply (load_store_same 8). exact H. Qed.

Lemma load64_store64_other m a b v :
  b + 8 <= a \/ a + 8 <= b -> load64 (store64 m a v) b = load64 m b.
Proof. intros H. apply (load_store_other 8 8). lia. Qed.

Lemma load64_range m a : 0 <= load64 m a < 2 ^ 64.
Proof. apply (load_le_range 8). Qed.

Lemma load64_ext m m' a :
  (forall b, a <= b < a + 8 -> ld8 m b = ld8 m' b) -> load64 m a = load64 m' a.
Proof. intros H. apply load_le_ext. exact H. Qed.

Lemma load64_memset_out m dst c n a :
  a + 8 <= dst \/ dst + Z.of_nat n <= a -> load64 (memset m dst c n) a = load64 m a.
Proof. intros H. apply load64_ext. intros b Hb. rewrite ld8_memset. byte_cases. Qed.

Lemma load64_memset_zero m dst n a :
  dst <= a -> a + 8 <= dst + Z.of_nat n -> load64 (memset m dst 0 n) a = 0.
Proof.
  intros H1 H2. assert (H : forall b, a <= b < a + 8 -> ld8 (memset m dst 0 n) b = 0).
  { intros b Hb. rewrite ld8_memset. byte_cases. done. }
  unfold load64. cbn [load_le]. rewrite !H by lia. done.
Qed.

Lemma load64_empty a : load64 ∅ a = 0.
Proof. unfold load64. cbn [load_le]. unfold ld8. by rewrite !lookup_empty. Qed.

#[export] Hint Rewrite load64_store64_same using lia : xv6_rw.

(** ** Objects *)

Lemma length_read_bytes n m a : length (read_bytes m a n) = n.
Proof. revert a. induction n; intros a; simpl; auto. Qed.

Lemma lookup_read_bytes n m a i :
  (i < n)%nat -> read_bytes m a n !! i = Some (ld8 m (a + Z.of_nat i)).
Proof.
  revert a i. induction n as [|n IH]; intros a i Hi; [lia|]. destruct i as [|i]; simpl.
  - by rewrite Z.add_0_r.
  - rewrite IH by lia. do 2 f_equal. lia.
Qed.

Lemma ld8_write_bytes l m a b :
  ld8 (write_bytes m a l) b =
  if (a <=? b) && (b <? a + Z.of_nat (length l))
  then u8 (default 0 (l !! Z.to_nat (b - a))) else ld8 m b.
Proof.
  revert m a. induction l as [|x l IH]; intros m a; cbn [write_bytes length].
  - byte_cases; done.
  - rewrite IH, ld8_st8. byte_cases; try done.
    + replace (Z.to_nat (b - a)) with (S (Z.to_nat (b - (a + 1)))) by lia. done.
    + subst. by replace (Z.to_nat (b - b)) with O by lia.
Qed.

Lemma read_bytes_ext n m m' a :
  (forall b, a <= b < a + Z.of_nat n -> ld8 m b = ld8 m' b) ->
  read_bytes m a n = read_bytes m' a n.
Proof.
  revert a. induction n as [|n IH]; intros a H; cbn [read_bytes]; [done|].
  rewrite (H a), (IH (a + 1)) by lia || (intros; apply H; lia). done.
Qed.

Lemma read_write_bytes m a l n :
  Forall (fun b => 0 <= b < 256) l -> length l = n -> read_bytes (write_bytes m a l) a n = l.
Proof.
  intros Hl <-. apply list_eq. intros i. destruct (decide (i < length l)%nat) as [Hi|Hi].
  - rewrite lookup_read_bytes by done. destruct (lookup_lt_is_Some_2 l i Hi) as [x Hx].
    rewrite ld8_write_bytes. byte_cases.
    replace (Z.to_nat _) with i by lia. rewrite Hx. simpl. f_equal. apply u8_small.
    exact (Forall_lookup_1 _ _ _ _ Hl Hx).
  - rewrite !lookup_ge_None_2; [done|lia|]. rewrite length_read_bytes. lia.
Qed.

Lemma read_bytes_range m a n : Forall (fun b => 0 <= b < 256) (read_bytes m a n).
Proof. revert a. induction n; intros a; constructor; auto with xv6. Qed.

(** ** String comparison and copy *)

(** [no_nul m p k]: no NUL among the first [k] characters at [p]. *)
Definition no_nul (m : mem) (p : Z) (k : nat) : Prop :=
  forall i, (i < k)%nat -> ld8 m (p + Z.of_nat i) <> 0.

(** The strings at [p] and [q] agree on their first [n] characters: up to [n],
    or up to and including a common NUL. *)
Definition str_agree (m : mem) (p q : Z) (n : nat) : Prop :=
  forall i, (i < n)%nat -> no_nul m p i -> ld8 m (p + Z.of_nat i) = ld8 m (q + Z.of_nat i).

Lemma str_agree_cons m p q n :
  str_agree m p q (S n) <->
  ld8 m p = ld8 m q /\ (ld8 m p <> 0 -> str_agree m (p + 1) (q + 1) n).
Proof.
  split.
  - intros H. split.
    + specialize (H 0%nat). rewrite !Z.add_0_r in H. apply H; [lia|]. intros i Hi. lia.
    + intros Hp i Hi Hn. specialize (H (S i)).
      rewrite !Nat2Z.inj_succ in H. unfold Z.succ in H.
      replace (p + 1 + Z.of_nat i) with (p + (Z.of_nat i + 1)) by lia.
      replace (q + 1 + Z.of_nat i) with (q + (Z.of_nat i + 1)) by lia.
      apply H; [lia|]. intros [|j] Hj; [by rewrite Z.add_0_r|].
      specialize (Hn j). replace (p + Z.of_nat (S j)) with (p + 1 + Z.of_nat j) by lia.
      apply Hn. lia.
  - intros [H0 H] [|i] Hi Hn; [by rewrite !Z.add_0_r|].
    assert (Hp : ld8 m p <> 0) by (specialize (Hn 0%nat); rewrite Z.add_0_r in Hn; apply Hn; lia).
    specialize (H Hp i).
    replace (p + Z.of_nat (S i)) with (p + 1 + Z.of_nat i) by lia.
    replace (q + Z.of_nat (S i)) with (q + 1 + Z.of_nat i) by lia.
    apply H; [lia|]. intros j Hj. specialize (Hn (S j)).
    replace (p + 1 + Z.of_nat j) with (p + Z.of_nat (S j)) by lia. apply Hn. lia.
Qed.

Lemma strncmp_agree n m p q : strncmp m p q n = 0 <-> str_agree m p q n.
Proof.
  revert p q. induction n as [|n IH]; intros p q; cbn [strncmp].
  - split; [|done]. intros _ i Hi. lia.
  - rewrite str_agree_cons. unfold truthy.
    destruct (Z.eqb_spec (ld8 m p) 0) as [Hp|Hp], (Z.eqb_spec (ld8 m p) (ld8 m q)) as [He|He];
      cbn [negb andb]; try (split; [intros; lia|intros [??]; lia]).
    rewrite IH. split; [auto|]. intros [_ H]. auto.
Qed.

Lemma ld8_strncpy_out n m s t a :
  ~ (s <= a < s + Z.of_nat n) -> ld8 (strncpy_loop m s t n) a = ld8 m a.
Proof.
  revert m s t. induction n as [|n IH]; intros m s t H; cbn [strncpy_loop]; [done|].
  destruct (negb _).
  - rewrite IH by lia. apply ld8_st8_ne. lia.
  - rewrite ld8_memset, ld8_st8_ne by lia. byte_cases; done.
Qed.

Lemma ld8_strncpy_in n m s t i :
  t + Z.of_nat n <= s \/ s + Z.of_nat n <= t -> (i < n)%nat ->
  (no_nul m t i -> ld8 (strncpy_loop m s t n) (s + Z.of_nat i) = ld8 m (t + Z.of_nat i)) /\
  (~ no_nul m t i -> ld8 (strncpy_loop m s t n) (s + Z.of_nat i) = 0).
Proof.
  revert m s t i. induction n as [|n IH]; intros m s t i Hd Hi; [lia|]. cbn [strncpy_loop].
  destruct i as [|i].
  { rewrite !Z.add_0_r. split; [intros _|intros H; destruct H; intros j Hj; lia].
    destruct (negb _).
    - rewrite ld8_strncpy_out, ld8_st8_eq by lia. apply u8_ld8.
    - rewrite ld8_memset, ld8_st8_eq. byte_cases. apply u8_ld8. }
  replace (s + Z.of_nat (S i)) with (s + 1 + Z.of_nat i) by lia.
  replace (t + Z.of_nat (S i)) with (t + 1 + Z.of_nat i) by lia.
  assert (Hshift : forall m', (forall b, t <= b < t + Z.of_nat (S n) -> ld8 m' b = ld8 m b) ->
            no_nul m t (S i) <-> ld8 m t <> 0 /\ no_nul m' (t + 1) i).
  { intros m' Hm'. split.
    - intros H. split; [specialize (H 0%nat); rewrite Z.add_0_r in H; apply H; lia|].
      intros j Hj. specialize (H (S j)). rewrite Hm' by lia.
      replace (t + 1 + Z.of_nat j) with (t + Z.of_nat (S j)) by lia. apply H. lia.
    - intros [H0 H] [|j] Hj; [by rewrite Z.add_0_r|]. specialize (H j). rewrite Hm' in H by lia.
      replace (t + Z.of_nat (S j)) with (t + 1 + Z.of_nat j) by lia. apply H. lia. }
  destruct (Z.eqb_spec (ld8 m t) 0) as [Hz|Hz]; cbn [negb].
  - rewrite ld8_memset. byte_cases. split; [|done].
    intros Hnn. specialize (Hnn 0%nat). rewrite Z.add_0_r in Hnn. destruct Hnn; [lia|done].
  - assert (Hm' : forall b, t <= b < t + Z.of_nat (S n) ->
                    ld8 (st8 m s (ld8 m t)) b = ld8 m b) by (intros; apply ld8_st8_ne; lia).
    destruct (IH (st8 m s (ld8 m t)) (s + 1) (t + 1) i ltac:(lia) ltac:(lia)) as [H1 H2].
    rewrite (Hshift _ Hm'). rewrite Hm' in H1 by lia. split; [intros [_ H]; auto|].
    intros H. apply H2. tauto.
Qed.

Lemma ld8_safestrcpy_out n m s t a :
  ~ (s <= a <= s + Z.of_nat n) -> ld8 (safestrcpy_loop m s t n) a = ld8 m a.
Proof.
  revert m s t. induction n as [|n IH]; intros m s t H; cbn [safestrcpy_loop].
  - apply ld8_st8_ne. lia.
  - destruct (negb _).
    + rewrite IH by lia. apply ld8_st8_ne. lia.
    + rewrite !ld8_st8_ne by lia. done.
Qed.

(** The copied string has length [k], the smaller of the source's length and
    [n], keeps the source's characters and is NUL-terminated. *)
Lemma safestrcpy_loop_copy n m s t :
  t + Z.of_nat n <= s \/ s + Z.of_nat n < t ->
  exists k, (k <= n)%nat /\ no_nul m t k /\ (k = n \/ ld8 m (t + Z.of_nat k) = 0) /\
    ld8 (safestrcpy_loop m s t n) (s + Z.of_nat k) = 0 /\
    forall i, (i < k)%nat ->
      ld8 (safestrcpy_loop m s t n) (s + Z.of_nat i) = ld8 m (t + Z.of_nat i).
Proof.
  revert m s t. induction n as [|n IH]; intros m s t Hd; cbn [safestrcpy_loop].
  - exists 0%nat. rewrite !Z.add_0_r, ld8_st8_eq. split_and!; [lia| |by left|done|lia].
    intros i Hi. lia.
  - destruct (Z.eqb_spec (ld8 m t) 0) as [Hz|Hz]; cbn [negb].
    + exists 0%nat. rewrite !Z.add_0_r, ld8_st8_ne, ld8_st8_eq by lia.
      split_and!; [lia| |by right|by rewrite Hz|lia]. intros i Hi. lia.
    + set (m' := st8 m s (ld8 m t)).
      assert (Hm' : forall b, t <= b <= t + Z.of_nat n -> ld8 m' b = ld8 m b).
      { intros b Hb. apply ld8_st8_ne. lia. }
      destruct (IH m' (s + 1) (t + 1) ltac:(lia)) as (k & Hk & Hnn & Hend & H0 & Hc).
      exists (S k). rewrite !Nat2Z.inj_succ, <- !Z.add_1_l, !Z.add_assoc. split_and!; [lia| | |done|].
      * intros [|j] Hj; [by rewrite Z.add_0_r|]. specialize (Hnn j ltac:(lia)).
        rewrite Hm' in Hnn by lia. by replace (t + Z.of_nat (S j)) with (t + 1 + Z.of_nat j) by lia.
      * destruct (decide (k = n)) as [->|Hkn]; [by left|right].
        destruct Hend as [?|Hend]; [lia|]. rewrite Hm' in Hend by lia. done.
      * intros [|i] Hi.
        -- rewrite !Z.add_0_r, ld8_safestrcpy_out by lia. unfold m'. rewrite ld8_st8_eq. apply u8_ld8.
        -- rewrite !Nat2Z.inj_succ, <- !Z.add_1_l, !Z.add_assoc, Hc by lia. apply Hm'. lia.
Qed.

(** ** Properties of kernel/string.c *)

(** [memmove] copies as if through a temporary buffer: every byte of the
    destination area becomes the byte the source area held before the call,
    for overlapping areas in either direction, and no other byte changes. *)
Theorem memmove_correct (m : mem) (dst src : Z) (n : nat) :
  read_bytes (memmove m dst src n) dst n = read_bytes m src n /\
  forall a, ~ (dst <= a < dst + Z.of_nat n) -> ld8 (memmove m dst src n) a = ld8 m a.
Proof.
  split.
  - apply list_eq. intros i. destruct (decide (i < n)%nat) as [Hi|Hi].
    + rewrite !lookup_read_bytes, ld8_memmove by done. byte_cases. do 2 f_equal. lia.
    + rewrite !lookup_ge_None_2 by (rewrite length_read_bytes; lia). done.
  - intros a Ha. rewrite ld8_memmove. byte_cases.
Qed.

(** [safestrcpy] on areas that do not overlap writes only inside the [n]
    bytes of the destination and leaves there a NUL-terminated string: the
    source string itself when it fits, its first [n - 1] characters when it
    does not. *)
Theorem safestrcpy_terminates (m : mem) (s t n : Z) :
  0 < n -> t + n <= s \/ s + n <= t ->
  (forall a, ~ (s <= a < s + n) -> ld8 (safestrcpy m s t n) a = ld8 m a) /\
  exists k, 0 <= k < n /\ no_nul m t (Z.to_nat k) /\ (k = n - 1 \/ ld8 m (t + k) = 0) /\
    ld8 (safestrcpy m s t n) (s + k) = 0 /\
    forall i, 0 <= i < k -> ld8 (safestrcpy m s t n) (s + i) = ld8 m (t + i).
Proof.
  intros Hn Hd. unfold safestrcpy. rewrite (proj2 (Z.leb_gt n 0)) by lia. split.
  - intros a Ha. apply ld8_safestrcpy_out. lia.
  - destruct (safestrcpy_loop_copy (Z.to_nat (n - 1)) m s t ltac:(lia))
      as (k & Hk & Hnn & Hend & H0 & Hc).
    exists (Z.of_nat k). rewrite Nat2Z.id. split_and!; [lia|lia|done| |done|].
    + destruct Hend; [left; lia|by right].
    + intros i Hi. specialize (Hc (Z.to_nat i) ltac:(lia)).
      by rewrite !Z2Nat.id in Hc by lia.
Qed.

Definition str_abc : mem := write_bytes ∅ 100 [97; 98; 99; 0].

Lemma safestrcpy_terminates_witness :
  exists k, 0 <= k < 3 /\ ld8 (safestrcpy str_abc 10 100 3) (10 + k) = 0.
Proof.
  destruct (safestrcpy_terminates str_abc 10 100 3 ltac:(lia) ltac:(lia))
    as [_ (k & Hk & _ & _ & H0 & _)].
  exists k. split; assumption.
Defined.

(** [strncmp] returns 0 exactly when the two strings agree on their first
    [n] characters, a common NUL ending the comparison. *)
Theorem strncmp_zero_iff (m : mem) (p q : Z) (n : nat) :
  strncmp m p q n = 0 <-> str_agree m p q n.
Proof. apply strncmp_agree. Qed.

(** Loops over memory are run by their lemmas, not by unfolding. *)
#[global] Opaque memset memmove read_bytes write_bytes load_le store_le.
