(* ===== verification/State.v ===== *)
(** * The kernel's state

    The structures of kernel/proc.h as records, the global variables of the
    kernel as one record [kstate], and the operations that read and update
    them.  A pointer to a process is its index in the table [proc], a pointer
    to a thread a pair of a process index and an index into [threads]; a null
    pointer is [None].  The state of the layers above the process table (files,
    inodes, devices) is the parameter [X]. *)

From S2P Require Import Prelude Machine Memory.

(** [enum states] *)
Inductive procstate := UNUSED | USED | SLEEPING | RUNNABLE | RUNNING | ZOMBIE.

(** The addresses the kernel sleeps on: [struct proc *], [struct thread *],
    [&chanel], [&ticks], [&log], [&pi->nread], [&pi->nwrite], a sleep lock,
    [&cons.r], [&uart_tx_r], [&disk.free[0]] and a buffer. *)
Inductive chan :=
| ChProc (i : nat) | ChThread (i j : nat) | ChChanel | ChTicks | ChLog
| ChPipeRead (pi : Z) | ChPipeWrite (pi : Z) | ChSleep (n : nat)
| ChCons | ChUart | ChDiskFree | ChBuf (b : nat).

(** The kernel's spin locks. *)
Inductive lock_id :=
| PidLock | TidLock | WaitLock | JoinLock | TicksLock | KmemLock
| FtableLock | ItableLock | BcacheLock | LogLock | ConsLock | UartTxLock | PrLock | VdiskLock
| ProcLock (i : nat) | PipeLock (pi : Z) | SleepLk (n : nat).

(** ** Decidable equality *)
#[global] Instance procstate_eq_dec : EqDecision procstate.
Proof. solve_decision. Defined.
#[global] Instance chan_eq_dec : EqDecision chan.
Proof. solve_decision. Defined.
#[global] Instance lock_id_eq_dec : EqDecision lock_id.
Proof. solve_decision. Defined.

Definition lock_id_code (l : lock_id) : nat * Z :=
  match l with
  | PidLock => (0%nat, 0) | TidLock => (1%nat, 0) | WaitLock => (2%nat, 0) | JoinLock => (3%nat, 0)
  | TicksLock => (4%nat, 0) | KmemLock => (5%nat, 0) | FtableLock => (6%nat, 0)
  | ItableLock => (7%nat, 0) | BcacheLock => (8%nat, 0) | LogLock => (9%nat, 0)
  | ConsLock => (10%nat, 0) | UartTxLock => (11%nat, 0) | PrLock => (12%nat, 0)
  | VdiskLock => (13%nat, 0) | ProcLock i => (14%nat, Z.of_nat i) | PipeLock a => (15%nat, a)
  | SleepLk n => (16%nat, Z.of_nat n)
  end.

Definition lock_id_decode (c : nat * Z) : option lock_id :=
  match c with
  | (0%nat, _) => Some PidLock | (1%nat, _) => Some TidLock | (2%nat, _) => Some WaitLock
  | (3%nat, _) => Some JoinLock | (4%nat, _) => Some TicksLock | (5%nat, _) => Some KmemLock
  | (6%nat, _) => Some FtableLock | (7%nat, _) => Some ItableLock | (8%nat, _) => Some BcacheLock
  | (9%nat, _) => Some LogLock | (10%nat, _) => Some ConsLock | (11%nat, _) => Some UartTxLock
  | (12%nat, _) => Some PrLock | (13%nat, _) => Some VdiskLock
  | (14%nat, z) => Some (ProcLock (Z.to_nat z)) | (15%nat, z) => Some (PipeLock z)
  | (16%nat, z) => Some (SleepLk (Z.to_nat z)) | _ => None
  end.

#[global] Program Instance lock_id_countable : Countable lock_id :=
  inj_countable lock_id_code lock_id_decode _.
Next Obligation. intros []; simpl; rewrite ?Nat2Z.id; done. Qed.

(** [struct context]: the callee-saved registers. *)
Record context := Context {
  ctx_ra : Z;
  ctx_sp : Z;
  ctx_s : list Z
}.

(** [struct thread].  [t_backup] holds the bytes of [UserTrapFrameBackup]. *)
Record thread := Thread {
  t_state : procstate;
  t_chan : option chan;
  t_killed : Z;
  t_xstate : Z;
  t_tid : Z;
  t_thread_parent : option (nat * nat);
  t_proc_parent : option nat;
  t_kstack : Z;
  t_trapframe : Z;
  t_backup : list Z;
  t_context : context;
  t_name : list Z
}.

(** [struct proc], without its lock. *)
Record proc := Proc {
  p_state : procstate;
  p_killed : Z;
  p_xstate : Z;
  p_pid : Z;
  p_threads : list thread;
  p_parent : option nat;
  p_main_thread : option nat;
  p_sz : Z;
  p_pagetable : Z;
  p_ofile : list (option nat);
  p_cwd : option nat;
  p_name : list Z;
  p_pendingSignals : Z;
  p_signalMask : Z;
  p_signalHandlers : list Z;
  p_stopped : Z;
  p_signal_mask_backup : Z;
  p_ignore_signals : Z;
  p_maskHandlers : list Z
}.

(** [struct cpu], without the saved scheduler context. *)
Record cpu := Cpu {
  c_proc : option nat;
  c_thread : option (nat * nat);
  c_noff : Z;
  c_intena : Z
}.

(** The supervisor registers of the running hart; the bits of sstatus that the
    kernel uses are separate fields. *)
Record csr := Csr {
  SIE : bool;
  SPIE : bool;
  SPP : bool;
  r_stvec : Z;
  r_sepc : Z;
  r_scause : Z;
  r_satp : Z;
  r_sip : Z;
  r_stval : Z
}.

(** The global variables.  [k_hart] is the register [tp] of the running hart,
    [k_locks] maps each held lock to the hart holding it, [k_first] is the
    static variable of [forkret] and [k_out] records the calls of [printf]. *)
Record kstate (X : Type) := KState {
  k_hart : nat;
  k_csr : csr;
  k_cpus : list cpu;
  k_locks : gmap lock_id nat;
  k_mem : gmap Z Z;
  k_freelist : Z;
  k_kernel_pagetable : Z;
  k_procs : list proc;
  k_initproc : option nat;
  k_nextpid : Z;
  k_nexttid : Z;
  k_bsems : list Z;
  k_ticks : Z;
  k_first : bool;
  k_out : list (string * list Z);
  k_ext : X
}.
Arguments KState {X} _ _ _ _ _ _ _ _ _ _ _ _ _ _ _ _.
Arguments k_hart {X} _.
Arguments k_csr {X} _.
Arguments k_cpus {X} _.
Arguments k_locks {X} _.
Arguments k_mem {X} _.
Arguments k_freelist {X} _.
Arguments k_kernel_pagetable {X} _.
Arguments k_procs {X} _.
Arguments k_initproc {X} _.
Arguments k_nextpid {X} _.
Arguments k_nexttid {X} _.
Arguments k_bsems {X} _.
Arguments k_ticks {X} _.
Arguments k_first {X} _.
Arguments k_out {X} _.
Arguments k_ext {X} _.

(** ** Field updates *)
Definition set_ctx_ra (v : Z) (x : context) : context :=
  Context v (ctx_sp x) (ctx_s x).
Definition set_ctx_sp (v : Z) (x : context) : context :=
  Context (ctx_ra x) v (ctx_s x).
Definition set_ctx_s (v : list Z) (x : context) : context :=
  Context (ctx_ra x) (ctx_sp x) v.

Definition set_t_state (v : procstate) (x : thread) : thread :=
  Thread v (t_chan x) (t_killed x) (t_xstate x) (t_tid x) (t_thread_parent x) (t_proc_parent x) (t_kstack x) (t_trapframe x) (t_backup x) (t_context x) (t_name x).
Definition set_t_chan (v : option chan) (x : thread) : thread :=
  Thread (t_state x) v (t_killed x) (t_xstate x) (t_tid x) (t_thread_parent x) (t_proc_parent x) (t_kstack x) (t_trapframe x) (t_backup x) (t_context x) (t_name x).
Definition set_t_killed (v : Z) (x : thread) : thread :=
  Thread (t_state x) (t_chan x) v (t_xstate x) (t_tid x) (t_thread_parent x) (t_proc_parent x) (t_kstack x) (t_trapframe x) (t_backup x) (t_context x) (t_name x).
Definition set_t_xstate (v : Z) (x : thread) : thread :=
  Thread (t_state x) (t_chan x) (t_killed x) v (t_tid x) (t_thread_parent x) (t_proc_parent x) (t_kstack x) (t_trapframe x) (t_backup x) (t_context x) (t_name x).
Definition set_t_tid (v : Z) (x : thread) : thread :=
  Thread (t_state x) (t_chan x) (t_killed x) (t_xstate x) v (t_thread_parent x) (t_proc_parent x) (t_kstack x) (t_trapframe x) (t_backup x) (t_context x) (t_name x).
Definition set_t_thread_parent (v : option (nat * nat)) (x : thread) : thread :=
  Thread (t_state x) (t_chan x) (t_killed x) (t_xstate x) (t_tid x) v (t_proc_parent x) (t_kstack x) (t_trapframe x) (t_backup x) (t_context x) (t_name x).
Definition set_t_proc_parent (v : option nat) (x : thread) : thread :=
  Thread (t_state x) (t_chan x) (t_killed x) (t_xstate x) (t_tid x) (t_thread_parent x) v (t_kstack x) (t_trapframe x) (t_backup x) (t_context x) (t_name x).
Definition set_t_kstack (v : Z) (x : thread) : thread :=
  Thread (t_state x) (t_chan x) (t_killed x) (t_xstate x) (t_tid x) (t_thread_parent x) (t_proc_parent x) v (t_trapframe x) (t_backup x) (t_context x) (t_name x).
Definition set_t_trapframe (v : Z) (x : thread) : thread :=
  Thread (t_state x) (t_chan x) (t_killed x) (t_xstate x) (t_tid x) (t_thread_parent x) (t_proc_parent x) (t_kstack x) v (t_backup x) (t_context x) (t_name x).
Definition set_t_backup (v : list Z) (x : thread) : thread :=
  Thread (t_state x) (t_chan x) (t_killed x) (t_xstate x) (t_tid x) (t_thread_parent x) (t_proc_parent x) (t_kstack x) (t_trapframe x) v (t_context x) (t_name x).
Definition set_t_context (v : context) (x : thread) : thread :=
  Thread (t_state x) (t_chan x) (t_killed x) (t_xstate x) (t_tid x) (t_thread_parent x) (t_proc_parent x) (t_kstack x) (t_trapframe x) (t_backup x) v (t_name x).
Definition set_t_name (v : list Z) (x : thread) : thread :=
  Thread (t_state x) (t_chan x) (t_killed x) (t_xstate x) (t_tid x) (t_thread_parent x) (t_proc_parent x) (t_kstack x) (t_trapframe x) (t_backup x) (t_context x) v.

Definition set_p_state (v : procstate) (x : proc) : proc :=
  Proc v (p_killed x) (p_xstate x) (p_pid x) (p_threads x) (p_parent x) (p_main_thread x) (p_sz x) (p_pagetable x) (p_ofile x) (p_cwd x) (p_name x) (p_pendingSignals x) (p_signalMask x) (p_signalHandlers x) (p_stopped x) (p_signal_mask_backup x) (p_ignore_signals x) (p_maskHandlers x).
Definition set_p_killed (v : Z) (x : proc) : proc :=
  Proc (p_state x) v (p_xstate x) (p_pid x) (p_threads x) (p_parent x) (p_main_thread x) (p_sz x) (p_pagetable x) (p_ofile x) (p_cwd x) (p_name x) (p_pendingSignals x) (p_signalMask x) (p_signalHandlers x) (p_stopped x) (p_signal_mask_backup x) (p_ignore_signals x) (p_maskHandlers x).
Definition set_p_xstate (v : Z) (x : proc) : proc :=
  Proc (p_state x) (p_killed x) v (p_pid x) (p_threads x) (p_parent x) (p_main_thread x) (p_sz x) (p_pagetable x) (p_ofile x) (p_cwd x) (p_name x) (p_pendingSignals x) (p_signalMask x) (p_signalHandlers x) (p_stopped x) (p_signal_mask_backup x) (p_ignore_signals x) (p_maskHandlers x).
Definition set_p_pid (v : Z) (x : proc) : proc :=
  Proc (p_state x) (p_killed x) (p_xstate x) v (p_threads x) (p_parent x) (p_main_thread x) (p_sz x) (p_pagetable x) (p_ofile x) (p_cwd x) (p_name x) (p_pendingSignals x) (p_signalMask x) (p_signalHandlers x) (p_stopped x) (p_signal_mask_backup x) (p_ignore_signals x) (p_maskHandlers x).
Definition set_p_threads (v : list thread) (x : proc) : proc :=
  Proc (p_state x) (p_killed x) (p_xstate x) (p_pid x) v (p_parent x) (p_main_thread x) (p_sz x) (p_pagetable x) (p_ofile x) (p_cwd x) (p_name x) (p_pendingSignals x) (p_signalMask x) (p_signalHandlers x) (p_stopped x) (p_signal_mask_backup x) (p_ignore_signals x) (p_maskHandlers x).
Definition set_p_parent (v : option nat) (x : proc) : proc :=
  Proc (p_state x) (p_killed x) (p_xstate x) (p_pid x) (p_threads x) v (p_main_thread x) (p_sz x) (p_pagetable x) (p_ofile x) (p_cwd x) (p_name x) (p_pendingSignals x) (p_signalMask x) (p_signalHandlers x) (p_stopped x) (p_signal_mask_backup x) (p_ignore_signals x) (p_maskHandlers x).
Definition set_p_main_thread (v : option nat) (x : proc) : proc :=
  Proc (p_state x) (p_killed x) (p_xstate x) (p_pid x) (p_threads x) (p_parent x) v (p_sz x) (p_pagetable x) (p_ofile x) (p_cwd x) (p_name x) (p_pendingSignals x) (p_signalMask x) (p_signalHandlers x) (p_stopped x) (p_signal_mask_backup x) (p_ignore_signals x) (p_maskHandlers x).
Definition set_p_sz (v : Z) (x : proc) : proc :=
  Proc (p_state x) (p_killed x) (p_xstate x) (p_pid x) (p_threads x) (p_parent x) (p_main_thread x) v (p_pagetable x) (p_ofile x) (p_cwd x) (p_name x) (p_pendingSignals x) (p_signalMask x) (p_signalHandlers x) (p_stopped x) (p_signal_mask_backup x) (p_ignore_signals x) (p_maskHandlers x).
Definition set_p_pagetable (v : Z) (x : proc) : proc :=
  Proc (p_state x) (p_killed x) (p_xstate x) (p_pid x) (p_threads x) (p_parent x) (p_main_thread x) (p_sz x) v (p_ofile x) (p_cwd x) (p_name x) (p_pendingSignals x) (p_signalMask x) (p_signalHandlers x) (p_stopped x) (p_signal_mask_backup x) (p_ignore_signals x) (p_maskHandlers x).
Definition set_p_ofile (v : list (option nat)) (x : proc) : proc :=
  Proc (p_state x) (p_killed x) (p_xstate x) (p_pid x) (p_threads x) (p_parent x) (p_main_thread x) (p_sz x) (p_pagetable x) v (p_cwd x) (p_name x) (p_pendingSignals x) (p_signalMask x) (p_signalHandlers x) (p_stopped x) (p_signal_mask_backup x) (p_ignore_signals x) (p_maskHandlers x).
Definition set_p_cwd (v : option nat) (x : proc) : proc :=
  Proc (p_state x) (p_killed x) (p_xstate x) (p_pid x) (p_threads x) (p_parent x) (p_main_thread x) (p_sz x) (p_pagetable x) (p_ofile x) v (p_name x) (p_pendingSignals x) (p_signalMask x) (p_signalHandlers x) (p_stopped x) (p_signal_mask_backup x) (p_ignore_signals x) (p_maskHandlers x).
Definition set_p_name (v : list Z) (x : proc) : proc :=
  Proc (p_state x) (p_killed x) (p_xstate x) (p_pid x) (p_threads x) (p_parent x) (p_main_thread x) (p_sz x) (p_pagetable x) (p_ofile x) (p_cwd x) v (p_pendingSignals x) (p_signalMask x) (p_signalHandlers x) (p_stopped x) (p_signal_mask_backup x) (p_ignore_signals x) (p_maskHandlers x).
Definition set_p_pendingSignals (v : Z) (x : proc) : proc :=
  Proc (p_state x) (p_killed x) (p_xstate x) (p_pid x) (p_threads x) (p_parent x) (p_main_thread x) (p_sz x) (p_pagetable x) (p_ofile x) (p_cwd x) (p_name x) v (p_signalMask x) (p_signalHandlers x) (p_stopped x) (p_signal_mask_backup x) (p_ignore_signals x) (p_maskHandlers x).
Definition set_p_signalMask (v : Z) (x : proc) : proc :=
  Proc (p_state x) (p_killed x) (p_xstate x) (p_pid x) (p_threads x) (p_parent x) (p_main_thread x) (p_sz x) (p_pagetable x) (p_ofile x) (p_cwd x) (p_name x) (p_pendingSignals x) v (p_signalHandlers x) (p_stopped x) (p_signal_mask_backup x) (p_ignore_signals x) (p_maskHandlers x).
Definition set_p_signalHandlers (v : list Z) (x : proc) : proc :=
  Proc (p_state x) (p_killed x) (p_xstate x) (p_pid x) (p_threads x) (p_parent x) (p_main_thread x) (p_sz x) (p_pagetable x) (p_ofile x) (p_cwd x) (p_name x) (p_pendingSignals x) (p_signalMask x) v (p_stopped x) (p_signal_mask_backup x) (p_ignore_signals x) (p_maskHandlers x).
Definition set_p_stopped (v : Z) (x : proc) : proc :=
  Proc (p_state x) (p_killed x) (p_xstate x) (p_pid x) (p_threads x) (p_parent x) (p_main_thread x) (p_sz x) (p_pagetable x) (p_ofile x) (p_cwd x) (p_name x) (p_pendingSignals x) (p_signalMask x) (p_signalHandlers x) v (p_signal_mask_backup x) (p_ignore_signals x) (p_maskHandlers x).
Definition set_p_signal_mask_backup (v : Z) (x : proc) : proc :=
  Proc (p_state x) (p_killed x) (p_xstate x) (p_pid x) (p_threads x) (p_parent x) (p_main_thread x) (p_sz x) (p_pagetable x) (p_ofile x) (p_cwd x) (p_name x) (p_pendingSignals x) (p_signalMask x) (p_signalHandlers x) (p_stopped x) v (p_ignore_signals x) (p_maskHandlers x).
Definition set_p_ignore_signals (v : Z) (x : proc) : proc :=
  Proc (p_state x) (p_killed x) (p_xstate x) (p_pid x) (p_threads x) (p_parent x) (p_main_thread x) (p_sz x) (p_pagetable x) (p_ofile x) (p_cwd x) (p_name x) (p_pendingSignals x) (p_signalMask x) (p_signalHandlers x) (p_stopped x) (p_signal_mask_backup x) v (p_maskHandlers x).
Definition set_p_maskHandlers (v : list Z) (x : proc) : proc :=
  Proc (p_state x) (p_killed x) (p_xstate x) (p_pid x) (p_threads x) (p_parent x) (p_main_thread x) (p_sz x) (p_pagetable x) (p_ofile x) (p_cwd x) (p_name x) (p_pendingSignals x) (p_signalMask x) (p_signalHandlers x) (p_stopped x) (p_signal_mask_backup x) (p_ignore_signals x) v.

Definition set_c_proc (v : option nat) (x : cpu) : cpu :=
  Cpu v (c_thread x) (c_noff x) (c_intena x).
Definition set_c_thread (v : option (nat * nat)) (x : cpu) : cpu :=
  Cpu (c_proc x) v (c_noff x) (c_intena x).
Definition set_c_noff (v : Z) (x : cpu) : cpu :=
  Cpu (c_proc x) (c_thread x) v (c_intena x).
Definition set_c_intena (v : Z) (x : cpu) : cpu :=
  Cpu (c_proc x) (c_thread x) (c_noff x) v.

Definition set_SIE (v : bool) (x : csr) : csr :=
  Csr v (SPIE x) (SPP x) (r_stvec x) (r_sepc x) (r_scause x) (r_satp x) (r_sip x) (r_stval x).
Definition set_SPIE (v : bool) (x : csr) : csr :=
  Csr (SIE x) v (SPP x) (r_stvec x) (r_sepc x) (r_scause x) (r_satp x) (r_sip x) (r_stval x).
Definition set_SPP (v : bool) (x : csr) : csr :=
  Csr (SIE x) (SPIE x) v (r_stvec x) (r_sepc x) (r_scause x) (r_satp x) (r_sip x) (r_stval x).
Definition set_r_stvec (v : Z) (x : csr) : csr :=
  Csr (SIE x) (SPIE x) (SPP x) v (r_sepc x) (r_scause x) (r_satp x) (r_sip x) (r_stval x).
Definition set_r_sepc (v : Z) (x : csr) : csr :=
  Csr (SIE x) (SPIE x) (SPP x) (r_stvec x) v (r_scause x) (r_satp x) (r_sip x) (r_stval x).
Definition set_r_scause (v : Z) (x : csr) : csr :=
  Csr (SIE x) (SPIE x) (SPP x) (r_stvec x) (r_sepc x) v (r_satp x) (r_sip x) (r_stval x).
Definition set_r_satp (v : Z) (x : csr) : csr :=
  Csr (SIE x) (SPIE x) (SPP x) (r_stvec x) (r_sepc x) (r_scause x) v (r_sip x) (r_stval x).
Definition set_r_sip (v : Z) (x : csr) : csr :=
  Csr (SIE x) (SPIE x) (SPP x) (r_stvec x) (r_sepc x) (r_scause x) (r_satp x) v (r_stval x).

Definition set_k_hart {X} (v : nat) (x : kstate X) : kstate X :=
  KState v (k_csr x) (k_cpus x) (k_locks x) (k_mem x) (k_freelist x) (k_kernel_pagetable x) (k_procs x) (k_initproc x) (k_nextpid x) (k_nexttid x) (k_bsems x) (k_ticks x) (k_first x) (k_out x) (k_ext x).
Definition set_k_csr {X} (v : csr) (x : kstate X) : kstate X :=
  KState (k_hart x) v (k_cpus x) (k_locks x) (k_mem x) (k_freelist x) (k_kernel_pagetable x) (k_procs x) (k_initproc x) (k_nextpid x) (k_nexttid x) (k_bsems x) (k_ticks x) (k_first x) (k_out x) (k_ext x).
Definition set_k_cpus {X} (v : list cpu) (x : kstate X) : kstate X :=
  KState (k_hart x) (k_csr x) v (k_locks x) (k_mem x) (k_freelist x) (k_kernel_pagetable x) (k_procs x) (k_initproc x) (k_nextpid x) (k_nexttid x) (k_bsems x) (k_ticks x) (k_first x) (k_out x) (k_ext x).
Definition set_k_locks {X} (v : gmap lock_id nat) (x : kstate X) : kstate X :=
  KState (k_hart x) (k_csr x) (k_cpus x) v (k_mem x) (k_freelist x) (k_kernel_pagetable x) (k_procs x) (k_initproc x) (k_nextpid x) (k_nexttid x) (k_bsems x) (k_ticks x) (k_first x) (k_out x) (k_ext x).
Definition set_k_mem {X} (v : gmap Z Z) (x : kstate X) : kstate X :=
  KState (k_hart x) (k_csr x) (k_cpus x) (k_locks x) v (k_freelist x) (k_kernel_pagetable x) (k_procs x) (k_initproc x) (k_nextpid x) (k_nexttid x) (k_bsems x) (k_ticks x) (k_first x) (k_out x) (k_ext x).
Definition set_k_freelist {X} (v : Z) (x : kstate X) : kstate X :=
  KState (k_hart x) (k_csr x) (k_cpus x) (k_locks x) (k_mem x) v (k_kernel_pagetable x) (k_procs x) (k_initproc x) (k_nextpid x) (k_nexttid x) (k_bsems x) (k_ticks x) (k_first x) (k_out x) (k_ext x).
Definition set_k_kernel_pagetable {X} (v : Z) (x : kstate X) : kstate X :=
  KState (k_hart x) (k_csr x) (k_cpus x) (k_locks x) (k_mem x) (k_freelist x) v (k_procs x) (k_initproc x) (k_nextpid x) (k_nexttid x) (k_bsems x) (k_ticks x) (k_first x) (k_out x) (k_ext x).
Definition set_k_procs {X} (v : list proc) (x : kstate X) : kstate X :=
  KState (k_hart x) (k_csr x) (k_cpus x) (k_locks x) (k_mem x) (k_freelist x) (k_kernel_pagetable x) v (k_initproc x) (k_nextpid x) (k_nexttid x) (k_bsems x) (k_ticks x) (k_first x) (k_out x) (k_ext x).
Definition set_k_initproc {X} (v : option nat) (x : kstate X) : kstate X :=
  KState (k_hart x) (k_csr x) (k_cpus x) (k_locks x) (k_mem x) (k_freelist x) (k_kernel_pagetable x) (k_procs x) v (k_nextpid x) (k_nexttid x) (k_bsems x) (k_ticks x) (k_first x) (k_out x) (k_ext x).
Definition set_k_nextpid {X} (v : Z) (x : kstate X) : kstate X :=
  KState (k_hart x) (k_csr x) (k_cpus x) (k_locks x) (k_mem x) (k_freelist x) (k_kernel_pagetable x) (k_procs x) (k_initproc x) v (k_nexttid x) (k_bsems x) (k_ticks x) (k_first x) (k_out x) (k_ext x).
Definition set_k_nexttid {X} (v : Z) (x : kstate X) : kstate X :=
  KState (k_hart x) (k_csr x) (k_cpus x) (k_locks x) (k_mem x) (k_freelist x) (k_kernel_pagetable x) (k_procs x) (k_initproc x) (k_nextpid x) v (k_bsems x) (k_ticks x) (k_first x) (k_out x) (k_ext x).
Definition set_k_bsems {X} (v : list Z) (x : kstate X) : kstate X :=
  KState (k_hart x) (k_csr x) (k_cpus x) (k_locks x) (k_mem x) (k_freelist x) (k_kernel_pagetable x) (k_procs x) (k_initproc x) (k_nextpid x) (k_nexttid x) v (k_ticks x) (k_first x) (k_out x) (k_ext x).
Definition set_k_ticks {X} (v : Z) (x : kstate X) : kstate X :=
  KState (k_hart x) (k_csr x) (k_cpus x) (k_locks x) (k_mem x) (k_freelist x) (k_kernel_pagetable x) (k_procs x) (k_initproc x) (k_nextpid x) (k_nexttid x) (k_bsems x) v (k_first x) (k_out x) (k_ext x).
Definition set_k_first {X} (v : bool) (x : kstate X) : kstate X :=
  KState (k_hart x) (k_csr x) (k_cpus x) (k_locks x) (k_mem x) (k_freelist x) (k_kernel_pagetable x) (k_procs x) (k_initproc x) (k_nextpid x) (k_nexttid x) (k_bsems x) (k_ticks x) v (k_out x) (k_ext x).
Definition set_k_out {X} (v : list (string * list Z)) (x : kstate X) : kstate X :=
  KState (k_hart x) (k_csr x) (k_cpus x) (k_locks x) (k_mem x) (k_freelist x) (k_kernel_pagetable x) (k_procs x) (k_initproc x) (k_nextpid x) (k_nexttid x) (k_bsems x) (k_ticks x) (k_first x) v (k_ext x).
Definition set_k_ext {X} (v : X) (x : kstate X) : kstate X :=
  KState (k_hart x) (k_csr x) (k_cpus x) (k_locks x) (k_mem x) (k_freelist x) (k_kernel_pagetable x) (k_procs x) (k_initproc x) (k_nextpid x) (k_nexttid x) (k_bsems x) (k_ticks x) (k_first x) (k_out x) v.

(** ** Reading and updating the tables *)

Abbreviation KM X := (M (kstate X)).

Section Access.
Context {X : Type}.

Definition get_proc (i : nat) : KM X proc := p ← gets (fun s => k_procs s !! i); of_option p.

Definition mod_proc (i : nat) (f : proc -> proc) : KM X unit :=
  modify (fun s => set_k_procs (alter f i (k_procs s)) s).

Definition get_thread (t : nat * nat) : KM X thread :=
  p ← get_proc (fst t); of_option (p_threads p !! snd t).

Definition upd_thread (j : nat) (f : thread -> thread) (p : proc) : proc :=
  set_p_threads (alter f j (p_threads p)) p.

Definition mod_thread (t : nat * nat) (f : thread -> thread) : KM X unit :=
  mod_proc (fst t) (upd_thread (snd t) f).

(** A call of the kernel's [printf]. *)
Definition printf (fmt : string) (args : list Z) : KM X unit :=
  modify (fun s => set_k_out (k_out s ++ [(fmt, args)]) s).

Definition mod_mem (f : mem -> mem) : KM X unit :=
  modify (fun s => set_k_mem (f (k_mem s)) s).

End Access.

(** ** Initial values *)
Definition zero_context : context := Context 0 0 (replicate 12 0).

Definition zero_thread : thread :=
  Thread UNUSED None 0 0 0 None None 0 0 (replicate 288 0) zero_context (replicate 16 0).

Definition zero_proc : proc :=
  Proc UNUSED 0 0 0 (replicate NTHREAD zero_thread) None None 0 0 (replicate NOFILE None) None
    (replicate 16 0) 0 0 (replicate 32 0) 0 0 0 (replicate 32 0).

Definition zero_cpu : cpu := Cpu None None 0 0.

(** The state of a hart that entered [main]: statically allocated data is zero,
    except for the initialised variables of kernel/proc.c. *)
Definition boot_state {X} (x : X) : kstate X :=
  KState 0%nat (Csr false false false 0 0 0 0 0 0) (replicate NCPU zero_cpu) ∅ ∅ 0 0
    (replicate NPROC zero_proc) None 1 1 (replicate MAX_BSEM (-1)) 0 true [] x.

(** ** Running the accessors *)

Section AccessRun.
Context {X : Type}.
Implicit Types s : kstate X.

Lemma get_proc_run i s p : k_procs s !! i = Some p -> get_proc i s = Done p s.
Proof. intros H. unfold get_proc. mrun. by rewrite H. Qed.

Lemma get_thread_run i j s p t :
  k_procs s !! i = Some p -> p_threads p !! j = Some t -> get_thread (i, j) s = Done t s.
Proof.
  intros Hp Ht. unfold get_thread. mstep (get_proc_run _ _ _ Hp). simpl. by rewrite Ht.
Qed.

Lemma mod_proc_run i f s : mod_proc i f s = Done tt (set_k_procs (alter f i (k_procs s)) s).
Proof. done. Qed.

Lemma mod_thread_run t f s :
  mod_thread t f s =
  Done tt (set_k_procs (alter (upd_thread (snd t) f) (fst t) (k_procs s)) s).
Proof. done. Qed.

End AccessRun.

(** [ks_norm] computes the field updates and projections of kernel states,
    and nothing else: in particular it leaves the memory operations alone.
    [ks_eq] proves equations between states this way. *)
Ltac ks_norm := cbv beta iota delta
      [k_hart k_csr k_cpus k_locks k_mem k_freelist
       k_kernel_pagetable k_procs k_initproc k_nextpid k_nexttid k_bsems
       k_ticks k_first k_out k_ext set_k_hart set_k_csr
       set_k_cpus set_k_locks set_k_mem set_k_freelist set_k_kernel_pagetable set_k_procs
       set_k_initproc set_k_nextpid set_k_nexttid set_k_bsems set_k_ticks set_k_first
       set_k_out set_k_ext].
Ltac ks_eq := ks_norm; reflexivity.
