(* ===== verification/Spinlock.v ===== *)
(** * Spin locks and interrupt nesting (kernel/spinlock.c)

    First part: [push_off], [pop_off], [holding], [acquire] and [release] as
    operations on the kernel state, one hart running at a time; a lock held by
    another hart makes [acquire] wait for ever.  Second part, [Module Smp]: the
    same functions as the atomic steps of several harts that share one
    [struct spinlock], with mutual exclusion, the absence of panics and a
    refinement of the atomic lock of the first part. *)

From S2P Require Import Prelude Machine Memory State.

Section Ops.
Context {X : Type}.

Definition intr_get : KM X bool := gets (fun s => SIE (k_csr s)).
Definition intr_on : KM X unit := modify (fun s => set_k_csr (set_SIE true (k_csr s)) s).
Definition intr_off : KM X unit := modify (fun s => set_k_csr (set_SIE false (k_csr s)) s).

Definition cpuid : KM X nat := gets k_hart.

(** [mycpu()->f]: the structure of the running hart. *)
Definition mycpu : KM X cpu := id ← cpuid; c ← gets (fun s => k_cpus s !! id); of_option c.

Definition mod_mycpu (f : cpu -> cpu) : KM X unit :=
  id ← cpuid; modify (fun s => set_k_cpus (alter f id (k_cpus s)) s).

Definition push_off : KM X unit :=
  old ← intr_get;
  intr_off;;
  c ← mycpu;
  when (c_noff c =? 0) (mod_mycpu (set_c_intena (Z.b2z old)));;
  mod_mycpu (fun c => set_c_noff (c_noff c + 1) c).

Definition pop_off : KM X unit :=
  b ← intr_get;
  if b : bool then panic "pop_off - interruptible" else
  c ← mycpu;
  if c_noff c <? 1 then panic "pop_off" else
  mod_mycpu (fun c => set_c_noff (c_noff c - 1) c);;
  c ← mycpu;
  when ((c_noff c =? 0) && truthy (c_intena c)) intr_on.

Definition initlock (lk : lock_id) : KM X unit :=
  modify (fun s => set_k_locks (delete lk (k_locks s)) s).

(** [lk->locked && lk->cpu == mycpu()] *)
Definition holding (lk : lock_id) : KM X bool :=
  gets (fun s => bool_decide (k_locks s !! lk = Some (k_hart s))).

Definition acquire (lk : lock_id) : KM X unit :=
  push_off;;
  h ← holding lk;
  if h : bool then panic "acquire" else
  held ← gets (fun s => bool_decide (is_Some (k_locks s !! lk)));
  if held : bool then hang else
  modify (fun s => set_k_locks (<[lk := k_hart s]> (k_locks s)) s).

Definition release (lk : lock_id) : KM X unit :=
  h ← holding lk;
  if negb h then panic "release" else
  modify (fun s => set_k_locks (delete lk (k_locks s)) s);;
  pop_off.

(** [myproc()] and [mythread()] of kernel/proc.c. *)
Definition myproc : KM X (option nat) :=
  push_off;; c ← mycpu; pop_off;; mret (c_proc c).

Definition mythread : KM X (option (nat * nat)) :=
  push_off;; c ← mycpu; pop_off;; mret (c_thread c).

End Ops.

(** ** The hardware part of the state and critical sections *)

Section Critical.
Context {X : Type}.
Implicit Types s : kstate X.

(** The fields that locks and interrupts use. *)
Definition hw_of s : nat * csr * list cpu * gmap lock_id nat :=
  (k_hart s, k_csr s, k_cpus s, k_locks s).

(** [with_hw s s'] is [s'] with the lock and interrupt fields of [s]. *)
Definition with_hw s s' : kstate X :=
  set_k_csr (k_csr s) (set_k_cpus (k_cpus s) (set_k_locks (k_locks s) s')).

(** The interrupt bookkeeping of the running hart [c] is settled: outside any
    [push_off] the saved flag is the current one, inside interrupts are off. *)
Definition quiet s (c : cpu) : Prop :=
  k_cpus s !! k_hart s = Some c /\ 0 <= c_noff c /\
  (c_noff c = 0 -> c_intena c = Z.b2z (SIE (k_csr s))) /\
  (0 < c_noff c -> SIE (k_csr s) = false).

Definition pushed s : kstate X :=
  set_k_csr (set_SIE false (k_csr s))
    (set_k_cpus (alter (fun c => set_c_noff (c_noff c + 1) c) (k_hart s) (k_cpus s)) s).

Definition acquired (lk : lock_id) s : kstate X :=
  set_k_locks (<[lk := k_hart s]> (k_locks s)) (pushed s).

Lemma mycpu_run s c : k_cpus s !! k_hart s = Some c -> mycpu s = Done c s.
Proof. intros H. unfold mycpu, cpuid. mrun. by rewrite H. Qed.

Lemma mod_mycpu_run f s :
  mod_mycpu f s = Done tt (set_k_cpus (alter f (k_hart s) (k_cpus s)) s).
Proof. done. Qed.

Lemma quiet_hw s s' c : hw_of s' = hw_of s -> quiet s c -> quiet s' c.
Proof. unfold quiet. intros [= -> -> -> _]. done. Qed.

Lemma set_SIE_id c : set_SIE (SIE c) c = c.
Proof. by destruct c. Qed.

Lemma set_c_intena_id c : set_c_intena (c_intena c) c = c.
Proof. by destruct c. Qed.

Lemma set_k_csr_id v s : k_csr s = v -> s = set_k_csr v s.
Proof. intros <-. by destruct s. Qed.

Lemma push_off_run s c : quiet s c -> push_off s = Done tt (pushed s).
Proof.
  intros (Hc & Hn & H0 & H1). unfold push_off, intr_get, intr_off. mrun.
  mstep (mycpu_run (set_k_csr (set_SIE false (k_csr s)) s) c Hc).
  unfold when. destruct (Z.eqb_spec (c_noff c) 0) as [Hz|Hz]; [|done].
  mstep (mod_mycpu_run (set_c_intena (Z.b2z (SIE (k_csr s)))) (set_k_csr (set_SIE false (k_csr s)) s)).
  rewrite mod_mycpu_run. unfold pushed. do 2 f_equal. cbn. f_equal.
  rewrite (alter_same _ _ c (set_c_intena _) Hc); [done|]. rewrite <- H0 by done. apply set_c_intena_id.
Qed.

(** [pop_off] undoes [push_off]. *)
Lemma pop_off_run s c s' :
  quiet s c -> k_hart s' = k_hart s -> k_csr s' = k_csr (pushed s) -> k_cpus s' = k_cpus (pushed s) ->
  pop_off s' = Done tt (set_k_csr (k_csr s) (set_k_cpus (k_cpus s) s')).
Proof.
  intros (Hc & Hn & H0 & H1) Hh Hcsr Hcpus. unfold pop_off, intr_get. mrun.
  rewrite Hcsr. cbn [SIE k_csr pushed set_k_csr set_SIE].
  assert (Hc' : k_cpus s' !! k_hart s' = Some (set_c_noff (c_noff c + 1) c)).
  { rewrite Hcpus, Hh. cbn. by rewrite list_lookup_alter_eq, Hc. }
  mstep (mycpu_run s' _ Hc'). cbn [c_noff set_c_noff].
  destruct (Z.ltb_spec (c_noff c + 1) 1); [lia|].
  mstep (mod_mycpu_run (fun c => set_c_noff (c_noff c - 1) c) s').
  set (s1 := set_k_cpus _ s').
  assert (Hcp : k_cpus s1 = k_cpus s).
  { unfold s1. cbn. rewrite Hcpus, Hh. cbn. rewrite alter_alter. apply (alter_same _ _ c); [done|].
    destruct c; unfold set_c_noff; cbn. f_equal. lia. }
  assert (Hc1 : k_cpus s1 !! k_hart s1 = Some c) by (rewrite Hcp; cbn; by rewrite Hh).
  mstep (mycpu_run s1 c Hc1). unfold when.
  replace (set_k_csr (k_csr s) (set_k_cpus (k_cpus s) s')) with (set_k_csr (k_csr s) s1)
    by (rewrite <- Hcp; done).
  assert (Hcs1 : k_csr s1 = set_SIE false (k_csr s)) by (unfold s1; cbn; by rewrite Hcsr).
  destruct (SIE (k_csr s)) eqn:HS.
  - destruct (Z.eqb_spec (c_noff c) 0) as [Hz|Hz]; [|by specialize (H1 ltac:(lia))].
    rewrite (H0 Hz). change (intr_on s1 = Done tt (set_k_csr (k_csr s) s1)). unfold intr_on, modify.
    rewrite Hcs1. do 2 f_equal.
    destruct (k_csr s). cbn in *. by subst.
  - assert (Hx : s1 = set_k_csr (k_csr s) s1).
    { apply set_k_csr_id. rewrite Hcs1, <- HS. apply set_SIE_id. }
    replace ((c_noff c =? 0) && truthy (c_intena c)) with false; [by rewrite <- Hx|].
    destruct (Z.eqb_spec (c_noff c) 0) as [Hz|Hz]; [by rewrite (H0 Hz)|done].
Qed.

Lemma acquire_run lk s c :
  quiet s c -> k_locks s !! lk = None -> acquire lk s = Done tt (acquired lk s).
Proof.
  intros Hq Hl. unfold acquire. mstep (push_off_run _ _ Hq). unfold holding. mrun. cbn. rewrite Hl.
  rewrite bool_decide_eq_false_2 by done. mrun. cbn. rewrite Hl. done.
Qed.

(** Taking a lock again that this hart holds panics. *)
Lemma acquire_held lk s c :
  quiet s c -> k_locks s !! lk = Some (k_hart s) -> acquire lk s = Panic "acquire" (pushed s).
Proof.
  intros Hq Hl. unfold acquire. mstep (push_off_run _ _ Hq). unfold holding. mrun. cbn. rewrite Hl.
  by rewrite bool_decide_eq_true_2.
Qed.

(** [release] ends the critical section that [acquire] opened. *)
Lemma release_run lk s c s' :
  quiet s c -> k_locks s !! lk = None -> hw_of s' = hw_of (acquired lk s) ->
  release lk s' = Done tt (with_hw s s').
Proof.
  intros Hq Hl [= Hh Hcsr Hcpus Hlk]. unfold release, holding. mrun.
  rewrite Hlk, Hh, lookup_insert_eq. rewrite bool_decide_eq_true_2 by done. cbn [negb]. mrun.
  rewrite (pop_off_run s c _ Hq); [|done..].
  unfold with_hw. do 2 f_equal. cbn. rewrite Hlk, delete_insert_id by done. done.
Qed.

(** Releasing a lock that is not held panics. *)
Lemma release_free lk s : k_locks s !! lk = None -> release lk s = Panic "release" s.
Proof. intros Hl. unfold release, holding. mrun. rewrite Hl. done. Qed.

Lemma quiet_acquired lk s c : quiet s c -> quiet (acquired lk s) (set_c_noff (c_noff c + 1) c).
Proof.
  intros (Hc & Hn & H0 & H1). unfold quiet. cbn. rewrite list_lookup_alter_eq, Hc. cbn.
  split_and!; [done|lia|lia|done].
Qed.

Lemma locks_acquired lk lk' s : lk <> lk' -> k_locks (acquired lk s) !! lk' = k_locks s !! lk'.
Proof. intros H. cbn. by rewrite lookup_insert_ne. Qed.

Lemma myproc_run s c : quiet s c -> myproc s = Done (c_proc c) s.
Proof.
  intros Hq. unfold myproc. mstep (push_off_run _ _ Hq).
  destruct Hq as (Hc & Hn & H0 & H1).
  assert (Hc' : k_cpus (pushed s) !! k_hart (pushed s) = Some (set_c_noff (c_noff c + 1) c)).
  { cbn. by rewrite list_lookup_alter_eq, Hc. }
  mstep (mycpu_run _ _ Hc').
  mstep (pop_off_run s c (pushed s) (conj Hc (conj Hn (conj H0 H1))) eq_refl eq_refl eq_refl).
  by destruct s.
Qed.

Lemma mythread_run s c : quiet s c -> mythread s = Done (c_thread c) s.
Proof.
  intros Hq. unfold mythread. mstep (push_off_run _ _ Hq).
  destruct Hq as (Hc & Hn & H0 & H1).
  assert (Hc' : k_cpus (pushed s) !! k_hart (pushed s) = Some (set_c_noff (c_noff c + 1) c)).
  { cbn. by rewrite list_lookup_alter_eq, Hc. }
  mstep (mycpu_run _ _ Hc').
  mstep (pop_off_run s c (pushed s) (conj Hc (conj Hn (conj H0 H1))) eq_refl eq_refl eq_refl).
  by destruct s.
Qed.

End Critical.

(** [hw_eq] proves that two states have the same lock and interrupt fields,
    [crit_eq] that a critical section leads to the given state. *)
Ltac hw_eq := unfold hw_of, with_hw, acquired, pushed; ks_norm; reflexivity.
Ltac crit_eq := unfold with_hw, acquired, pushed; ks_norm; reflexivity.

(** [times n m] runs [m] [n] times. *)
Fixpoint times {X} (n : nat) (m : KM X unit) : KM X unit :=
  match n with O => mret tt | S n' => m;; times n' m end.

Lemma quiet_pushed {X} (s : kstate X) c : quiet s c -> quiet (pushed s) (set_c_noff (c_noff c + 1) c).
Proof. exact (quiet_acquired KmemLock s c). Qed.

Lemma times_snoc {X} k (m : KM X unit) t t1 t2 :
  times k m t = Done tt t1 -> m t1 = Done tt t2 -> times (S k) m t = Done tt t2.
Proof.
  revert t. induction k as [|k IH]; intros t H1 H2.
  - injection H1 as ->. cbn [times]. mstep H2. done.
  - cbn [times] in H1. unfold mbind, M_bind in H1. destruct (m t) as [[] t'| | | | |] eqn:Ht; try done.
    cbn [rbind] in H1. change (times (S (S k)) m) with (m;; times (S k) m). mstep Ht. by apply IH.
Qed.

(** Calls of [push_off] and [pop_off] nest: after [n] calls of the first, for
    [n > 0], interrupts are off, and [n] calls of the second bring
    the state back exactly, with interrupts as they were before. *)
Theorem push_off_pop_off_nest {X} (n : nat) (s : kstate X) (c : cpu) :
  quiet s c ->
  exists s1, times n push_off s = Done tt s1 /\
    ((0 < n)%nat -> SIE (k_csr s1) = false) /\ times n pop_off s1 = Done tt s.
Proof.
  revert s c. induction n as [|n IH]; intros s c Hq.
  - exists s. split_and!; [done|lia|done].
  - destruct (IH _ _ (quiet_pushed s c Hq)) as (s1 & Hpush & Hoff & Hpop).
    exists s1. cbn [times]. mstep (push_off_run s c Hq). split_and!; [done| |].
    + intros _. destruct n; [|apply Hoff; lia]. injection Hpush as <-. done.
    + apply (times_snoc n pop_off s1 (pushed s) s Hpop).
      rewrite (pop_off_run s c (pushed s) Hq) by done. by destruct s.
Qed.

Lemma push_off_pop_off_nest_witness :
  exists s1, times 3 push_off (boot_state tt) = Done tt s1 /\ times 3 pop_off s1 = Done tt (boot_state tt).
Proof.
  destruct (push_off_pop_off_nest 3 (boot_state tt) zero_cpu) as (s1 & H1 & _ & H2).
  - split_and!; [reflexivity|cbn; lia|reflexivity|cbn; lia].
  - exists s1. split; assumption.
Defined.

(** ** Several harts and one lock *)

Module Smp.

(** [struct spinlock], without its name. *)
Record spinlock := Spinlock { locked : Z; lk_cpu : option nat }.

(** Where a hart is: outside; spinning in the test-and-set loop of [acquire];
    past the swap that won, before [lk->cpu = mycpu()]; in the critical
    section; in [release] after [lk->cpu = 0]; or stopped in a panic. *)
Inductive pc := Outside | Spinning | Won | Inside | Leaving | PanicAcquire | PanicRelease.

Record smp := Smp { lk : spinlock; pcs : list pc }.

(** [holding(lk)] on hart [h]. *)
Definition holding_on (h : nat) (l : spinlock) : bool :=
  truthy (locked l) && bool_decide (lk_cpu l = Some h).

(** [__sync_lock_test_and_set(&lk->locked, 1)]: the old value and the lock. *)
Definition test_and_set (l : spinlock) : Z * spinlock := (locked l, Spinlock 1 (lk_cpu l)).

(** One atomic step of hart [h], from its position [p]. *)
Definition hart_step (h : nat) (p : pc) (l : spinlock) : option (pc * spinlock) :=
  match p with
  | Outside => Some (if holding_on h l then PanicAcquire else Spinning, l)
  | Spinning =>
      let '(old, l') := test_and_set l in
      Some (if negb (old =? 0) then Spinning else Won, l')
  | Won => Some (Inside, Spinlock (locked l) (Some h))
  | Inside =>
      if negb (holding_on h l) then Some (PanicRelease, l)
      else Some (Leaving, Spinlock (locked l) None)
  | Leaving => Some (Outside, Spinlock 0 (lk_cpu l))
  | PanicAcquire | PanicRelease => None
  end.

Inductive step : smp -> smp -> Prop :=
| step_hart h p s p' l' :
    pcs s !! h = Some p -> hart_step h p (lk s) = Some (p', l') ->
    step s (Smp l' (<[h := p']> (pcs s))).

Definition init (n : nat) : smp := Smp (Spinlock 0 None) (replicate n Outside).

(** The harts between the winning swap and the store that frees the lock. *)
Definition owns (p : pc) : bool :=
  match p with Won | Inside | Leaving => true | _ => false end.

Definition owner (s : smp) (h : nat) : Prop := exists p, pcs s !! h = Some p /\ owns p = true.

Record inv (s : smp) : Prop := {
  inv_one : forall h h', owner s h -> owner s h' -> h = h';
  inv_locked : (locked (lk s) = 0 /\ forall h, ~ owner s h) \/
               (locked (lk s) = 1 /\ exists h, owner s h);
  inv_cpu : forall h, lk_cpu (lk s) = Some h <-> pcs s !! h = Some Inside;
  inv_safe : forall h p, pcs s !! h = Some p -> p <> PanicAcquire /\ p <> PanicRelease
}.

(** What the callers see: [acquire] returns on hart [h], or hart [h] calls
    [release]. *)
Inductive event := Acquired (h : nat) | Released (h : nat).

Definition events_of (h : nat) (p p' : pc) : list event :=
  match p, p' with
  | Won, Inside => [Acquired h]
  | Inside, Leaving => [Released h]
  | _, _ => []
  end.

(** The execution in which the harts of a schedule step in turn, with what the
    callers see of it; [None] when a hart that panicked would have to step. *)
Fixpoint run (sched : list nat) (s : smp) : option (list event * smp) :=
  match sched with
  | [] => Some ([], s)
  | h :: sched' =>
      p ← pcs s !! h;
      r ← hart_step h p (lk s);
      q ← run sched' (Smp (snd r) (<[h := fst r]> (pcs s)));
      Some (events_of h p (fst r) ++ fst q, snd q)
  end.

(** The lock the first part of the file assumes, free or held by a hart: only a
    free lock is acquired and only its holder releases it. *)
Definition atomic_step (a : option nat) (e : event) : option (option nat) :=
  match e, a with
  | Acquired h, None => Some (Some h)
  | Released h, Some h' => if decide (h = h') then Some None else None
  | _, _ => None
  end.

Fixpoint atomic_run (tr : list event) (a : option nat) : option (option nat) :=
  match tr with
  | [] => Some a
  | e :: tr' => a' ← atomic_step a e; atomic_run tr' a'
  end.

Lemma owner_insert s h p p' h' l :
  pcs s !! h = Some p ->
  owner (Smp l (<[h := p']> (pcs s))) h' <-> (h' = h /\ owns p' = true) \/ (h' <> h /\ owner s h').
Proof.
  intros Hp. unfold owner. cbn. destruct (decide (h' = h)) as [->|Hne].
  - rewrite list_lookup_insert_eq by (by apply lookup_lt_Some in Hp). naive_solver.
  - rewrite list_lookup_insert_ne by done. naive_solver.
Qed.

Lemma inv_init n : inv (init n).
Proof.
  assert (Hno : forall h, ~ owner (init n) h).
  { intros h (p & Hp & Ho). apply lookup_replicate in Hp as [-> _]. done. }
  split.
  - intros h h' H. by destruct (Hno h).
  - by left.
  - intros h. split; [done|]. intros Hp. apply lookup_replicate in Hp as [? _]. done.
  - intros h p Hp. apply lookup_replicate in Hp as [-> _]. done.
Qed.

(** A hart inside is the one the lock records, and only it passes [holding]. *)
Lemma holding_inside s h : inv s -> holding_on h (lk s) = true <-> pcs s !! h = Some Inside.
Proof.
  intros Hi. unfold holding_on, truthy. rewrite <- (inv_cpu _ Hi).
  destruct (inv_locked _ Hi) as [[-> Hno]|[-> _]]; cbn.
  - split; [done|]. intros Hc. apply (inv_cpu _ Hi) in Hc. destruct (Hno h). by exists Inside.
  - by rewrite bool_decide_eq_true.
Qed.

(** How one step changes the lock word and the owner. *)
Lemma inv_locked_step s h p p' l' :
  pcs s !! h = Some p -> hart_step h p (lk s) = Some (p', l') -> p' <> PanicRelease ->
  ((locked (lk s) = 0 /\ forall h, ~ owner s h) \/ (locked (lk s) = 1 /\ exists h, owner s h)) ->
  (forall h h', owner s h -> owner s h' -> h = h') ->
  let s' := Smp l' (<[h := p']> (pcs s)) in
  (locked (lk s') = 0 /\ forall h, ~ owner s' h) \/ (locked (lk s') = 1 /\ exists h, owner s' h).
Proof.
  intros Hp Hs Hpan Hl Hone s'.
  assert (Hown : forall h', owner s' h' <-> (h' = h /\ owns p' = true) \/ (h' <> h /\ owner s h'))
    by (intros h'; apply (owner_insert s h p p' h' l' Hp)).
  assert (Hh : owner s h <-> owns p = true).
  { split; [intros (q & Hq & Ho); congruence|by exists p]. }
  assert (Hkeep : owns p' = owns p -> locked l' = locked (lk s) ->
    (locked (lk s') = 0 /\ forall h, ~ owner s' h) \/ (locked (lk s') = 1 /\ exists h, owner s' h)).
  { intros Ho Hlk. assert (Hsame : forall h', owner s' h' <-> owner s h').
    { intros h'. rewrite Hown, Ho, <- Hh. destruct (decide (h' = h)) as [->|]; tauto. }
    cbn. rewrite Hlk. destruct Hl as [[H0 H]|[H0 [g H]]]; [left|right]; (split; [done|]).
    - intros h'. rewrite Hsame. apply H.
    - exists g. by rewrite Hsame. }
  destruct p; simplify_eq/=.
  - apply Hkeep; [|done]. by case_match.
  - case_match eqn:Hz.
    + apply Hkeep; [done|]. cbn. destruct Hl as [[H0 _]|[H0 _]]; rewrite H0 in *; done.
    + right. split; [done|]. exists h. rewrite Hown. by left.
  - by apply Hkeep.
  - case_match; simplify_eq. by apply Hkeep.
  - left. split; [done|]. intros h'. rewrite Hown. intros [[_ ?]|[Hne Ho]]; [done|].
    destruct Hne. apply Hone; [done|]. by apply Hh.
Qed.

Lemma inv_step s s' : inv s -> step s s' -> inv s'.
Proof.
  intros Hi Hst. destruct Hst as [h p s p' l' Hp Hs].
  assert (Hlt : (h < length (pcs s))%nat) by (by apply lookup_lt_Some in Hp).
  assert (Hsafe : p' <> PanicAcquire /\ p' <> PanicRelease).
  { destruct p; simplify_eq/=; try done; case_match; simplify_eq; try done.
    - apply (holding_inside s h Hi) in H. congruence.
    - apply negb_true_iff in H. by rewrite (proj2 (holding_inside s h Hi) Hp) in H. }
  assert (Hcpu : forall h', lk_cpu l' = Some h' <-> (<[h := p']> (pcs s)) !! h' = Some Inside).
  { intros h'. pose proof (inv_cpu _ Hi h') as Hc. destruct (decide (h' = h)) as [->|Hne].
    - rewrite list_lookup_insert_eq by done.
      destruct p; simplify_eq/=; repeat case_match; simplify_eq/=; naive_solver.
    - rewrite list_lookup_insert_ne by done. rewrite <- Hc.
      destruct p; simplify_eq/=; repeat case_match; simplify_eq/=; try done.
      all: split; [intros ?; simplify_eq|intros Hc'].
      all: try (rewrite (proj1 (inv_cpu _ Hi h')) in *; done).
      all: assert (Ho : owner s h) by (eexists; split; [exact Hp|done]).
      all: assert (Ho' : owner s h') by (exists Inside; split; [by apply Hc|done]).
      all: by destruct Hne; apply (inv_one _ Hi). }
  split; [| |exact Hcpu|].
  - intros h1 h2. rewrite !(owner_insert s h p) by done.
    pose proof (inv_one _ Hi) as Hone. pose proof (inv_locked _ Hi) as Hl.
    destruct (owns p) eqn:Hop.
    + assert (owner s h) by (by exists p). naive_solver.
    + destruct (owns p') eqn:Hop'; [|naive_solver].
      destruct p; simplify_eq/=; repeat case_match; simplify_eq/=; try done.
      destruct Hl as [[Hl Hno]|[Hl _]]; [naive_solver|]. by rewrite Hl in *.
  - apply (inv_locked_step s h p p' l'); naive_solver (eauto using inv_locked, inv_one).
  - intros h' q. destruct (decide (h' = h)) as [->|Hne]; cbn.
    + rewrite list_lookup_insert_eq by done. by intros [= <-].
    + rewrite list_lookup_insert_ne by done. apply (inv_safe _ Hi).
Qed.

Lemma inv_star n s : rtc step (init n) s -> inv s.
Proof. apply (rtc_ind_r (fun s => inv s)); [apply inv_init|eauto using inv_step]. Qed.

Lemma atomic_run_app tr tr' a : atomic_run (tr ++ tr') a = a' ← atomic_run tr a; atomic_run tr' a'.
Proof.
  revert a. induction tr as [|e tr IH]; intros a; [done|]. cbn. destruct (atomic_step a e); [apply IH|done].
Qed.

(** One step of a hart is what the atomic lock does at the events of the step. *)
Lemma step_atomic s h p p' l' :
  inv s -> pcs s !! h = Some p -> hart_step h p (lk s) = Some (p', l') ->
  atomic_run (events_of h p p') (lk_cpu (lk s)) = Some (lk_cpu l').
Proof.
  intros Hi Hp Hs. destruct p; simplify_eq/=; try done; repeat case_match; simplify_eq/=; try done.
  - destruct (lk_cpu (lk s)) as [h'|] eqn:Hc; [|done]. apply (inv_cpu _ Hi) in Hc.
    assert (h' = h) as -> by (apply (inv_one _ Hi); [by exists Inside|by exists Won]). congruence.
  - rewrite (proj2 (inv_cpu _ Hi h) Hp). cbn. by rewrite decide_True.
Qed.

Lemma hart_step_total s h p : inv s -> pcs s !! h = Some p -> exists r, hart_step h p (lk s) = Some r.
Proof.
  intros Hi Hp. destruct (inv_safe _ Hi h p Hp). destruct p; cbn; try done; try case_match; by eexists.
Qed.

Lemma run_atomic n sched s :
  inv s -> length (pcs s) = n -> Forall (fun h => (h < n)%nat) sched ->
  exists tr s', run sched s = Some (tr, s') /\ inv s' /\ atomic_run tr (lk_cpu (lk s)) = Some (lk_cpu (lk s')).
Proof.
  intros Hi Hn Hs. revert s Hi Hn. induction Hs as [|h sched Hh _ IH]; intros s Hi Hn; [by exists [], s|].
  destruct (lookup_lt_is_Some_2 (pcs s) h) as [p Hp]; [lia|].
  destruct (hart_step_total s h p Hi Hp) as [[p' l'] E].
  destruct (IH (Smp l' (<[h := p']> (pcs s)))) as (tr & s' & Hr & Hi' & Ha);
    [by apply (inv_step s); [|apply (step_hart h p)]|cbn [pcs]; by rewrite length_insert|].
  exists (events_of h p p' ++ tr), s'. cbn [run]. rewrite Hp. cbn. rewrite E. cbn. rewrite Hr. cbn.
  split_and!; [done|done|]. rewrite atomic_run_app, (step_atomic s h p p' l' Hi Hp E). exact Ha.
Qed.

(** The swap wins when the lock is free and only then. *)
Lemma swap_wins s h :
  inv s -> (exists l, hart_step h Spinning (lk s) = Some (Won, l)) <-> forall h', ~ owner s h'.
Proof.
  intros Hi. cbn. destruct (inv_locked _ Hi) as [[-> Hno]|[-> [h' Ho]]]; cbn.
  - split; [done|]. by eexists.
  - split; [by intros [l [=]]|]. intros Hno. by destruct (Hno h').
Qed.

(** ** Properties *)

(** C2: Whatever the interleaving of any number of harts that take and free one
    spin lock, no two of them are between the winning swap of [acquire] and the
    store of [release] that frees the lock, [holding] is true exactly for
    the hart in the critical section, and neither panic of [acquire] and
    [release] is reached. *)
Theorem spinlock_mutual_exclusion (n : nat) (s : smp) :
  rtc step (init n) s ->
  (forall h h', owner s h -> owner s h' -> h = h') /\
  (forall h, holding_on h (lk s) = true <-> pcs s !! h = Some Inside) /\
  (forall h p, pcs s !! h = Some p -> p <> PanicAcquire /\ p <> PanicRelease).
Proof.
  intros H. apply inv_star in H. split_and!.
  - apply (inv_one _ H).
  - intros h. by apply holding_inside.
  - apply (inv_safe _ H).
Qed.

Lemma spinlock_mutual_exclusion_witness :
  holding_on 0 (Spinlock 1 (Some 0%nat)) = true <->
  [Inside; Spinning] !! 0%nat = Some Inside.
Proof.
  refine (proj1 (proj2 (spinlock_mutual_exclusion 2 (Smp (Spinlock 1 (Some 0%nat)) [Inside; Spinning]) _)) 0%nat).
  eapply rtc_l; [eapply (step_hart 0); reflexivity|]; cbn.
  eapply rtc_l; [eapply (step_hart 0); reflexivity|]; cbn.
  eapply rtc_l; [eapply (step_hart 1); reflexivity|]; cbn.
  eapply rtc_l; [eapply (step_hart 0); reflexivity|]; cbn.
  eapply rtc_l; [eapply (step_hart 1); reflexivity|]; cbn.
  apply rtc_refl.
Defined.

(** C27: The lock refines the atomic lock that the rest of the kernel model uses.
    Whatever the order in which any number of harts step, none of them gets stuck
    in a panic; the returns of [acquire] and the calls of [release], in the order
    in which they happen, are an execution of the atomic lock, which is acquired
    only when it is free and released only by its holder; the atomic lock ends
    held by the hart in the critical section, or free when there is none; and the
    next swap of a spinning hart wins exactly when no hart owns the lock. *)
Theorem spinlock_refines_atomic (n : nat) (sched : list nat) :
  Forall (fun h => (h < n)%nat) sched ->
  exists tr s a, run sched (init n) = Some (tr, s) /\ atomic_run tr None = Some a /\
    (forall h, a = Some h <-> pcs s !! h = Some Inside) /\
    (forall h, pcs s !! h = Some Spinning ->
       (exists l, hart_step h Spinning (lk s) = Some (Won, l)) <-> forall h', ~ owner s h').
Proof.
  intros Hs. destruct (run_atomic n sched (init n) (inv_init n)) as (tr & s & Hr & Hi & Ha);
    [cbn [init pcs]; by rewrite length_replicate|done|].
  exists tr, s, (lk_cpu (lk s)). split_and!; [done|done|by apply inv_cpu|].
  intros h _. by apply swap_wins.
Qed.

Lemma spinlock_refines_atomic_witness :
  exists a, run [0; 0; 1; 0; 1; 0; 0; 1]%nat (init 2) =
      Some ([Acquired 0%nat; Released 0%nat], Smp (Spinlock 1 None) [Outside; Won]) /\
    atomic_run [Acquired 0%nat; Released 0%nat] None = Some a.
Proof.
  destruct (spinlock_refines_atomic 2 [0; 0; 1; 0; 1; 0; 0; 1]%nat) as (tr & s & a & Hr & Ha & _);
    [repeat (constructor; [lia|]); constructor|].
  exists a. split; [reflexivity|].
  assert (Htr : Some (tr, s) = Some ([Acquired 0%nat; Released 0%nat], Smp (Spinlock 1 None) [Outside; Won]))
    by (rewrite <- Hr; reflexivity).
  injection Htr as -> ->. exact Ha.
Defined.

End Smp.
