(* ===== verification/Kalloc.v ===== *)
(** * The physical page allocator (kernel/kalloc.c)

    Free pages form a linked list threaded through their first words.  The
    invariant relates it to the list of free pages, and [kalloc] and [kfree]
    refine popping from and pushing on that list. *)

From S2P Require Import Prelude Machine Memory State Spinlock.

Section Kalloc.
Context {X : Type} `{Symbols}.

Definition kfree (pa : Z) : KM X unit :=
  if negb (pa mod PGSIZE =? 0) || (pa <? sym_end) || (PHYSTOP <=? pa) then panic "kfree" else
  mod_mem (fun m => memset m pa 1 (Z.to_nat PGSIZE));;
  acquire KmemLock;;
  fl ← gets k_freelist;
  mod_mem (fun m => store64 m pa fl);;
  modify (set_k_freelist pa);;
  release KmemLock.

Definition kalloc : KM X Z :=
  acquire KmemLock;;
  r ← gets k_freelist;
  when (truthy r) (modify (fun s => set_k_freelist (load64 (k_mem s) r) s));;
  release KmemLock;;
  when (truthy r) (mod_mem (fun m => memset m r 5 (Z.to_nat PGSIZE)));;
  mret r.

(** The loop of [freerange] from address [p]. *)
Fixpoint freerange_loop (fuel : nat) (p pa_end : Z) : KM X unit :=
  match fuel with
  | O => no_fuel
  | S f =>
      if p + PGSIZE <=? pa_end
      then kfree p;; freerange_loop f (p + PGSIZE) pa_end
      else mret tt
  end.

Definition freerange (pa_start pa_end : Z) : KM X unit :=
  let p := PGROUNDUP pa_start in
  freerange_loop (S (Z.to_nat ((pa_end - p) / PGSIZE))) p pa_end.

Definition kinit : KM X unit :=
  initlock KmemLock;;
  freerange sym_end PHYSTOP.

(** ** The invariant *)

Definition valid_page (p : Z) : Prop := p mod PGSIZE = 0 /\ sym_end <= p < PHYSTOP.

Fixpoint freelist_rep (m : mem) (head : Z) (l : list Z) : Prop :=
  match l with
  | [] => head = 0
  | p :: l' => head = p /\ valid_page p /\ freelist_rep m (load64 m p) l'
  end.

(** The free list of [s] consists of the pages [l], each once. *)
Definition kmem_ok (s : kstate X) (l : list Z) : Prop :=
  freelist_rep (k_mem s) (k_freelist s) l /\ NoDup l.

(** The allocator can be called: the lock is free and interrupts are settled. *)
Definition kmem_ready (s : kstate X) : Prop :=
  (exists c, quiet s c) /\ k_locks s !! KmemLock = None.

(** Memory outside the page [p] is the same. *)
Definition same_outside (p : Z) (m m' : mem) : Prop :=
  forall a, ~ (p <= a < p + PGSIZE) -> ld8 m' a = ld8 m a.

End Kalloc.

(** ** Lemmas *)

Section KallocFacts.
Context {X : Type} `{SymbolsOk}.
Implicit Types s : kstate X.

Lemma valid_page_pos p : valid_page p -> 0 < p /\ p mod 4096 = 0 /\ p + 4096 <= 2 ^ 32.
Proof.
  intros [Hm Hr]. pose proof sym_end_range. unfold PHYSTOP, KERNBASE, PGSIZE in *. lia.
Qed.

(** Different pages do not overlap. *)
Lemma valid_page_disjoint p q : valid_page p -> valid_page q -> p <> q -> p + 4096 <= q \/ q + 4096 <= p.
Proof. intros [Hp _] [Hq _] Hne. unfold PGSIZE in *. lia. Qed.

Lemma same_outside_trans p m1 m2 m3 :
  same_outside p m1 m2 -> same_outside p m2 m3 -> same_outside p m1 m3.
Proof. intros H1 H2 a Ha. rewrite H2, H1 by done. done. Qed.

Lemma same_outside_memset p c m : same_outside p m (memset m p c (Z.to_nat PGSIZE)).
Proof. intros a Ha. unfold PGSIZE in *. rewrite ld8_memset. byte_cases. Qed.

Lemma same_outside_store64 p m v : same_outside p m (store64 m p v).
Proof.
  intros a Ha. unfold PGSIZE, store64 in *. rewrite ld8_store_le. byte_cases.
Qed.

Lemma same_outside_load64 p m m' a :
  same_outside p m m' -> a + 8 <= p \/ p + 4096 <= a -> load64 m' a = load64 m a.
Proof. intros Hs Ha. apply load64_ext. intros b Hb. apply Hs. unfold PGSIZE. lia. Qed.

(** The list survives a change inside a page that is not on it. *)
Lemma freelist_rep_frame m m' p l :
  valid_page p -> p ∉ l -> same_outside p m m' ->
  forall head, freelist_rep m head l -> freelist_rep m' head l.
Proof.
  intros Hp Hl Hs. induction l as [|q l IH]; intros head; [done|]. cbn [freelist_rep].
  intros (-> & Hq & Hr). apply not_elem_of_cons in Hl as [Hne Hl]. split_and!; [done|done|].
  rewrite (same_outside_load64 p m m' q Hs); [by apply IH|].
  destruct (valid_page_disjoint p q Hp Hq Hne); lia.
Qed.

Lemma kmem_ready_hw s s' : hw_of s' = hw_of s -> kmem_ready s -> kmem_ready s'.
Proof.
  intros Hh [[c Hc] Hl]. split; [exists c; by apply (quiet_hw s)|]. by injection Hh as _ _ _ ->.
Qed.

(** [kfree] in a state where the allocator can be called. *)
Lemma kfree_run s pa :
  kmem_ready s -> valid_page pa ->
  kfree pa s = Done tt (set_k_freelist pa
    (set_k_mem (store64 (memset (k_mem s) pa 1 (Z.to_nat PGSIZE)) pa (k_freelist s)) s)).
Proof.
  intros [[c Hq] Hl] [Hal Hr]. unfold kfree. rewrite Hal, Z.eqb_refl.
  rewrite (proj2 (Z.ltb_ge pa sym_end)), (proj2 (Z.leb_gt PHYSTOP pa)) by lia. cbn [negb orb].
  unfold mod_mem. rewrite bind_modify.
  assert (Hq1 : quiet (set_k_mem (memset (k_mem s) pa 1 (Z.to_nat PGSIZE)) s) c)
    by (apply (quiet_hw s); [hw_eq|done]).
  mstep (acquire_run KmemLock _ c Hq1 Hl). mrun.
  rewrite (release_run KmemLock _ c _ Hq1 Hl) by hw_eq. crit_eq.
Qed.

Lemma kalloc_run s :
  kmem_ready s ->
  kalloc s = Done (k_freelist s)
    (if truthy (k_freelist s)
     then set_k_mem (memset (k_mem s) (k_freelist s) 5 (Z.to_nat PGSIZE))
            (set_k_freelist (load64 (k_mem s) (k_freelist s)) s)
     else s).
Proof.
  intros [[c Hq] Hl]. unfold kalloc. mstep (acquire_run KmemLock s c Hq Hl). mrun.
  change (k_freelist (acquired KmemLock s)) with (k_freelist s).
  unfold when. destruct (truthy (k_freelist s)); mrun.
  - mstep (release_run KmemLock s c (set_k_freelist (load64 (k_mem s) (k_freelist s))
                                       (acquired KmemLock s)) Hq Hl eq_refl).
    done.
  - mstep (release_run KmemLock s c (acquired KmemLock s) Hq Hl eq_refl). by destruct s.
Qed.

Lemma freelist_rep_head m head l : freelist_rep m head l -> truthy head = bool_decide (l <> []).
Proof.
  destruct l as [|p l]; cbn [freelist_rep]; [by intros ->|]. intros (-> & Hp & _).
  apply valid_page_pos in Hp. unfold truthy. by rewrite (proj2 (Z.eqb_neq p 0)) by lia.
Qed.

Lemma free_valid s l p : kmem_ok s l -> p ∈ l -> valid_page p.
Proof.
  intros [Hrep _]. revert Hrep. generalize (k_freelist s). induction l as [|q l IH]; intros h Hrep Hp.
  - by apply elem_of_nil in Hp.
  - destruct Hrep as (-> & Hq & Hrep). apply elem_of_cons in Hp as [->|Hp]; [done|]. by apply (IH _ Hrep).
Qed.

Lemma kalloc_spec s p l :
  kmem_ready s -> kmem_ok s (p :: l) ->
  exists s', kalloc s = Done p s' /\ kmem_ok s' l /\ valid_page p /\ p ∉ l /\
    same_outside p (k_mem s) (k_mem s') /\
    (forall a, p <= a < p + PGSIZE -> ld8 (k_mem s') a = 5) /\
    s' = set_k_mem (k_mem s') (set_k_freelist (k_freelist s') s).
Proof.
  intros Hr [Hrep Hnd]. pose proof (freelist_rep_head _ _ _ Hrep) as Ht.
  cbn [freelist_rep] in Hrep. destruct Hrep as (Hh & Hp & Hrep). apply NoDup_cons in Hnd as [Hni Hnd].
  rewrite kalloc_run by done. rewrite Ht, bool_decide_eq_true_2 by done. rewrite Hh.
  eexists. split; [done|]. split_and!; try done.
  - split; [|done]. cbn. eapply (freelist_rep_frame (k_mem s)); eauto using same_outside_memset.
  - apply same_outside_memset.
  - intros a Ha. cbn -[memset]. rewrite ld8_memset. unfold PGSIZE in *. byte_cases. done.
Qed.

Lemma kfree_spec s p l :
  kmem_ready s -> kmem_ok s l -> valid_page p -> p ∉ l ->
  exists s', kfree p s = Done tt s' /\ kmem_ok s' (p :: l) /\
    same_outside p (k_mem s) (k_mem s') /\
    s' = set_k_mem (k_mem s') (set_k_freelist (k_freelist s') s).
Proof.
  intros Hr [Hrep Hnd] Hp Hni. rewrite kfree_run by done. eexists. split; [done|].
  assert (Hs : same_outside p (k_mem s)
     (store64 (memset (k_mem s) p 1 (Z.to_nat PGSIZE)) p (k_freelist s))).
  { eapply same_outside_trans; [apply same_outside_memset|apply same_outside_store64]. }
  split_and!; [|exact Hs|by destruct s]. split; [|by apply NoDup_cons]. cbn [freelist_rep].
  split_and!; [done|done|]. cbn -[store64 memset].
  rewrite load64_store64_same.
  - by apply (freelist_rep_frame (k_mem s) _ p).
  - destruct l as [|q l]; cbn [freelist_rep] in Hrep; [lia|]. destruct Hrep as (-> & Hq & _).
    apply valid_page_pos in Hq. lia.
Qed.

End KallocFacts.

(** ** Freeing a range *)

(** The pages [p], [p + PGSIZE], ..., [n] of them. *)
Fixpoint pages (p : Z) (n : nat) : list Z :=
  match n with O => [] | S n' => p :: pages (p + PGSIZE) n' end.

Section Freerange.
Context {X : Type} `{SymbolsOk}.
Implicit Types s : kstate X.

Lemma elem_of_pages p n q :
  q ∈ pages p n <-> p <= q < p + Z.of_nat n * PGSIZE /\ (q - p) mod PGSIZE = 0.
Proof.
  revert p. induction n as [|n IH]; intros p; cbn [pages].
  - rewrite elem_of_nil. unfold PGSIZE. lia.
  - rewrite elem_of_cons, IH. unfold PGSIZE. lia.
Qed.

Lemma length_pages p n : length (pages p n) = n.
Proof. revert p. induction n; intros p; cbn; auto. Qed.

Lemma NoDup_pages p n : NoDup (pages p n).
Proof.
  revert p. induction n as [|n IH]; intros p; cbn; constructor; [|apply IH].
  rewrite elem_of_pages. unfold PGSIZE. lia.
Qed.

Lemma freerange_loop_spec n p pa_end l s :
  kmem_ready s -> kmem_ok s l ->
  Forall valid_page (pages p n) -> (forall q, q ∈ pages p n -> q ∉ l) ->
  p + Z.of_nat n * PGSIZE <= pa_end < p + Z.of_nat n * PGSIZE + PGSIZE ->
  exists s', freerange_loop (S n) p pa_end s = Done tt s' /\
    kmem_ok s' (reverse (pages p n) ++ l) /\
    s' = set_k_mem (k_mem s') (set_k_freelist (k_freelist s') s).
Proof.
  revert p l s. induction n as [|n IH]; intros p l s Hr Hok Hv Hd Hend.
  - exists s. cbn [freerange_loop pages reverse rev_append app]. rewrite (proj2 (Z.leb_gt _ _)) by lia.
    split_and!; [done|done|by destruct s].
  - cbn [pages] in Hv, Hd. apply Forall_cons in Hv as [Hp Hv].
    remember (S n) as n' eqn:En. cbn [freerange_loop]. subst n'.
    rewrite (proj2 (Z.leb_le _ _)) by (unfold PGSIZE in *; lia).
    destruct (kfree_spec s p l Hr Hok Hp) as (s1 & Hrun & Hok1 & _ & Hs1); [apply Hd; by left|].
    mstep Hrun.
    destruct (IH (p + PGSIZE) (p :: l) s1) as (s' & Hrun' & Hok' & Hs').
    + apply (kmem_ready_hw s); [|done]. rewrite Hs1. hw_eq.
    + done.
    + done.
    + intros q Hq. apply not_elem_of_cons. split; [|apply Hd; by right].
      intros ->. pose proof (NoDup_pages p (S n)) as Hnd. by apply NoDup_cons in Hnd as [Hnd _].
    + lia.
    + exists s'. split_and!; [done| |].
      * cbn [pages]. rewrite reverse_cons, <- app_assoc. done.
      * rewrite Hs', Hs1. ks_eq.
Qed.

End Freerange.

(** ** Properties *)

Section Properties.
Context {X : Type} `{SymbolsOk}.

(** C3: The allocator refines a stack of free pages.  When its free list holds
    the pages [l], [kalloc] returns the first of them and leaves the rest, or 0
    when there is none; [kfree] of a page that is not on the list pushes it, and
    of anything but a page of allocatable memory panics.  No byte outside the
    page involved changes, nor any other part of the kernel state. *)
Theorem allocator_refines_stack (s : kstate X) (l : list Z) :
  kmem_ready s -> kmem_ok s l ->
  match l with
  | [] => kalloc s = Done 0 s
  | p :: l' => exists s', kalloc s = Done p s' /\ kmem_ok s' l' /\ valid_page p /\
      same_outside p (k_mem s) (k_mem s') /\
      s' = set_k_mem (k_mem s') (set_k_freelist (k_freelist s') s)
  end /\
  (forall p, valid_page p -> p ∉ l ->
     exists s', kfree p s = Done tt s' /\ kmem_ok s' (p :: l) /\
       same_outside p (k_mem s) (k_mem s') /\
       s' = set_k_mem (k_mem s') (set_k_freelist (k_freelist s') s)) /\
  (forall p, ~ valid_page p -> kfree p s = Panic "kfree" s).
Proof.
  intros Hr Hok. split_and!.
  - destruct l as [|p l].
    + rewrite kalloc_run by done. destruct Hok as [Hrep _]. cbn in Hrep. by rewrite Hrep.
    + destruct (kalloc_spec s p l Hr Hok) as (s' & H1 & H2 & H3 & _ & H4 & _ & H5). eauto 10.
  - intros p Hp Hni. by apply kfree_spec.
  - intros p Hp. unfold kfree. replace (_ || _ || _) with true; [done|].
    symmetry. unfold valid_page in Hp.
    destruct (Z.eqb_spec (p mod PGSIZE) 0), (Z.ltb_spec p sym_end), (Z.leb_spec PHYSTOP p); try done.
    destruct Hp. lia.
Qed.

(** C32: [kinit] terminates with every whole page between the end of the kernel
    image and [PHYSTOP] on the free list, each exactly once. *)
Theorem kinit_frees_all (s : kstate X) :
  (exists c, quiet s c) -> k_freelist s = 0 ->
  exists s' l, kinit s = Done tt s' /\ kmem_ok s' l /\
    forall q, q ∈ l <-> valid_page q.
Proof.
  intros [c Hq] Hfl. unfold kinit, initlock. mrun. set (s0 := set_k_locks _ s).
  assert (Hr : kmem_ready s0).
  { split; [exists c; unfold s0, quiet; by ks_norm|]. unfold s0. ks_norm. apply lookup_delete_eq. }
  assert (Hok : kmem_ok s0 []) by (split; [exact Hfl|constructor]).
  unfold freerange. pose proof sym_end_range as He. unfold PHYSTOP, KERNBASE in He.
  set (p := PGROUNDUP sym_end). set (n := Z.to_nat ((PHYSTOP - p) / PGSIZE)).
  assert (Hp : p = sym_end + 4095 - (sym_end + 4095) mod 4096) by (apply PGROUNDUP_eq; lia).
  assert (Hn : Z.of_nat n = (PHYSTOP - p) / PGSIZE).
  { unfold n, PHYSTOP, KERNBASE, PGSIZE. rewrite Z2Nat.id; lia. }
  assert (Hin : forall q, q ∈ pages p n <-> valid_page q).
  { intros q. rewrite elem_of_pages, Hn. unfold valid_page, PHYSTOP, KERNBASE, PGSIZE. lia. }
  destruct (freerange_loop_spec n p PHYSTOP [] s0 Hr Hok) as (s' & Hrun & Hok' & _).
  - apply Forall_forall. intros q Hq'. by apply Hin.
  - intros q _. apply not_elem_of_nil.
  - rewrite Hn. unfold PHYSTOP, KERNBASE, PGSIZE. lia.
  - exists s', (reverse (pages p n) ++ []). split_and!; [done|done|].
    intros q. by rewrite app_nil_r, elem_of_reverse.
Qed.

End Properties.

(** A state with the two free pages 0x80030000 and 0x80031000. *)
Definition two_free : kstate unit :=
  set_k_freelist 0x80030000
    (set_k_mem (store64 (store64 ∅ 0x80030000 0x80031000) 0x80031000 0) (boot_state tt)).

Lemma two_free_ready : @kmem_ready unit two_free.
Proof.
  split; [exists zero_cpu|reflexivity].
  split_and!; [reflexivity|cbn; lia|reflexivity|cbn; lia].
Qed.

Lemma two_free_ok : @kmem_ok unit sample_symbols two_free [0x80030000; 0x80031000].
Proof.
  split.
  - repeat split; vm_compute; congruence.
  - repeat constructor; rewrite ?not_elem_of_cons, ?elem_of_nil; intuition lia.
Qed.

Lemma allocator_refines_stack_witness :
  (exists s', @kalloc unit two_free = Done 0x80030000 s') /\
  (exists s', @kfree unit sample_symbols 0x80040000 two_free = Done tt s').
Proof.
  destruct (@allocator_refines_stack unit sample_symbols sample_symbols_ok two_free _
              two_free_ready two_free_ok) as ((s' & H & _) & Hf & _).
  split; [exists s'; exact H|].
  destruct (Hf 0x80040000) as (s'' & H' & _).
  - split; [reflexivity|vm_compute; intuition congruence].
  - rewrite !not_elem_of_cons, elem_of_nil. intuition lia.
  - exists s''. exact H'.
Defined.

Lemma kinit_frees_all_witness :
  exists s' l, @kinit unit sample_symbols (boot_state tt) = Done tt s' /\
    @kmem_ok unit sample_symbols s' l /\ 0x87fff000 ∈ l.
Proof.
  destruct (@kinit_frees_all unit sample_symbols sample_symbols_ok (boot_state tt))
    as (s' & l & H & Hok & Hl).
  - exists zero_cpu. split_and!; [reflexivity|cbn; lia|reflexivity|cbn; lia].
  - reflexivity.
  - exists s', l. split; [exact H|]. split; [exact Hok|]. apply Hl.
    split; [reflexivity|vm_compute; intuition congruence].
Defined.
