(* ===== verification/Vm.v ===== *)
(** * Page tables and user memory (kernel/vm.c)

    Sv39 page tables live in the byte memory: a page-table page holds 512
    64-bit entries, and [walk] descends the three levels through them,
    allocating missing pages on request.  Kernel buffers that are not in the
    allocatable memory (local variables, fields of kernel structures) are lists
    of bytes: [copyout] takes the bytes to write and [copyin] returns the bytes
    it read beside its result. *)

From S2P Require Import Prelude Machine Memory State Spinlock Kalloc.

Section Vm.
Context {X : Type} `{Symbols}.

Definition rd64 (a : Z) : KM X Z := gets (fun s => load64 (k_mem s) a).
Definition wr64 (a v : Z) : KM X unit := mod_mem (fun m => store64 m a v).

(** The loop of [walk] over the given levels; [None] is a return of 0. *)
Fixpoint walk_levels (levels : list Z) (pagetable va : Z) (alloc : bool) : KM X (option Z) :=
  match levels with
  | [] => mret (Some pagetable)
  | level :: levels' =>
      let pte_addr := pagetable + 8 * PX level va in
      pte ← rd64 pte_addr;
      if truthy (Z.land pte PTE_V)
      then walk_levels levels' (PTE2PA pte) va alloc
      else
        if negb alloc then mret None else
        pg ← kalloc;
        if pg =? 0 then mret None else
        mod_mem (fun m => memset m pg 0 (Z.to_nat PGSIZE));;
        wr64 pte_addr (Z.lor (PA2PTE pg) PTE_V);;
        walk_levels levels' pg va alloc
  end.

Definition walk (pagetable va : Z) (alloc : bool) : KM X Z :=
  if MAXVA <=? va then panic "walk" else
  r ← walk_levels [2; 1] pagetable va alloc;
  match r with
  | None => mret 0
  | Some pt => mret (pt + 8 * PX 0 va)
  end.

Definition walkaddr (pagetable va : Z) : KM X Z :=
  if MAXVA <=? va then mret 0 else
  pte ← walk pagetable va false;
  if pte =? 0 then mret 0 else
  v ← rd64 pte;
  if Z.land v PTE_V =? 0 then mret 0 else
  if Z.land v PTE_U =? 0 then mret 0 else
  mret (PTE2PA v).

Fixpoint mappages_loop (fuel : nat) (pagetable a last pa perm : Z) : KM X Z :=
  match fuel with
  | O => no_fuel
  | S f =>
      pte ← walk pagetable a true;
      if pte =? 0 then mret (-1) else
      v ← rd64 pte;
      if truthy (Z.land v PTE_V) then panic "remap" else
      wr64 pte (Z.lor (Z.lor (PA2PTE pa) perm) PTE_V);;
      if a =? last then mret 0
      else mappages_loop f pagetable (u64 (a + PGSIZE)) last (u64 (pa + PGSIZE)) perm
  end.

Definition mappages (pagetable va size pa perm : Z) : KM X Z :=
  let a := PGROUNDDOWN va in
  let last := PGROUNDDOWN (u64 (va + size - 1)) in
  mappages_loop (S (Z.to_nat ((last - a) / PGSIZE))) pagetable a last pa perm.

Definition kvmmap (kpgtbl va pa sz perm : Z) : KM X unit :=
  r ← mappages kpgtbl va sz pa perm;
  if negb (r =? 0) then panic "kvmmap" else mret tt.

(** [va] and the end address are page aligned, so the loop visits
    [(end - va) / PGSIZE] addresses. *)
Definition uvmunmap (pagetable va npages : Z) (do_free : bool) : KM X unit :=
  if negb (va mod PGSIZE =? 0) then panic "uvmunmap: not aligned" else
  let stop := u64 (va + npages * PGSIZE) in
  for_each (seq 0 (Z.to_nat ((stop - va) / PGSIZE))) (fun i =>
    let a := va + Z.of_nat i * PGSIZE in
    pte ← walk pagetable a false;
    if pte =? 0 then panic "uvmunmap: walk" else
    v ← rd64 pte;
    if Z.land v PTE_V =? 0 then panic "uvmunmap: not mapped" else
    if PTE_FLAGS v =? PTE_V then panic "uvmunmap: not a leaf" else
    when do_free (kfree (PTE2PA v));;
    wr64 pte 0).

Definition uvmcreate : KM X Z :=
  pagetable ← kalloc;
  if pagetable =? 0 then mret 0 else
  mod_mem (fun m => memset m pagetable 0 (Z.to_nat PGSIZE));;
  mret pagetable.

(** A write through a null pointer faults: physical page 0 is not mapped. *)
Definition check_ptr (p : Z) : KM X unit := if p =? 0 then fault else mret tt.

Definition uvminit (pagetable : Z) (src : list Z) : KM X unit :=
  if PGSIZE <=? Z.of_nat (length src) then panic "inituvm: more than a page" else
  pg ← kalloc;
  check_ptr pg;;
  mod_mem (fun m => memset m pg 0 (Z.to_nat PGSIZE));;
  mappages pagetable 0 PGSIZE pg (Z.lor (Z.lor (Z.lor PTE_W PTE_R) PTE_X) PTE_U);;
  mod_mem (fun m => write_bytes m pg src).

Definition uvmdealloc (pagetable oldsz newsz : Z) : KM X Z :=
  if oldsz <=? newsz then mret oldsz else
  when (PGROUNDUP newsz <? PGROUNDUP oldsz)
    (let npages := s32 ((PGROUNDUP oldsz - PGROUNDUP newsz) / PGSIZE) in
     uvmunmap pagetable (PGROUNDUP newsz) (u64 npages) true);;
  mret newsz.

(** The loop of [uvmalloc]: [oldsz] is the rounded size it started from. *)
Fixpoint uvmalloc_loop (fuel : nat) (pagetable a oldsz newsz : Z) : KM X Z :=
  match fuel with
  | O => no_fuel
  | S f =>
      if newsz <=? a then mret newsz else
      pg ← kalloc;
      if pg =? 0 then uvmdealloc pagetable a oldsz;; mret 0 else
      mod_mem (fun m => memset m pg 0 (Z.to_nat PGSIZE));;
      r ← mappages pagetable a PGSIZE pg (Z.lor (Z.lor (Z.lor PTE_W PTE_X) PTE_R) PTE_U);
      if negb (r =? 0) then kfree pg;; uvmdealloc pagetable a oldsz;; mret 0 else
      uvmalloc_loop f pagetable (u64 (a + PGSIZE)) oldsz newsz
  end.

Definition uvmalloc (pagetable oldsz newsz : Z) : KM X Z :=
  if newsz <? oldsz then mret oldsz else
  let oldsz' := PGROUNDUP oldsz in
  uvmalloc_loop (S (Z.to_nat ((newsz - oldsz' + PGSIZE - 1) / PGSIZE))) pagetable oldsz' oldsz' newsz.

(** [freewalk] recurses into lower-level page tables; [depth] bounds the
    nesting, and a table has three levels. *)
Fixpoint freewalk (depth : nat) (pagetable : Z) : KM X unit :=
  match depth with
  | O => no_fuel
  | S d =>
      for_each (seq 0 512) (fun i =>
        let slot := pagetable + 8 * Z.of_nat i in
        pte ← rd64 slot;
        if truthy (Z.land pte PTE_V) && (Z.land pte (Z.lor (Z.lor PTE_R PTE_W) PTE_X) =? 0)
        then freewalk d (PTE2PA pte);; wr64 slot 0
        else if truthy (Z.land pte PTE_V) then panic "freewalk: leaf" else mret tt);;
      kfree pagetable
  end.

Definition uvmfree (pagetable sz : Z) : KM X unit :=
  when (0 <? sz) (uvmunmap pagetable 0 (PGROUNDUP sz / PGSIZE) true);;
  freewalk 3 pagetable.

(** The loop of [uvmcopy] over [n] pages from address [i]. *)
Fixpoint uvmcopy_loop (n : nat) (old new i : Z) : KM X Z :=
  match n with
  | O => mret 0
  | S n' =>
      let err : KM X Z := uvmunmap new 0 (i / PGSIZE) true;; mret (-1) in
      pte ← walk old i false;
      if pte =? 0 then panic "uvmcopy: pte should exist" else
      v ← rd64 pte;
      if Z.land v PTE_V =? 0 then panic "uvmcopy: page not present" else
      let pa := PTE2PA v in
      let flags := PTE_FLAGS v in
      pg ← kalloc;
      if pg =? 0 then err else
      mod_mem (fun m => memmove m pg pa (Z.to_nat PGSIZE));;
      r ← mappages new i PGSIZE pg flags;
      if negb (r =? 0) then kfree pg;; err else
      uvmcopy_loop n' old new (u64 (i + PGSIZE))
  end.

(** [for(i = 0; i < sz; i += PGSIZE)] runs once per page that starts below
    [sz]. *)
Definition uvmcopy (old new sz : Z) : KM X Z :=
  uvmcopy_loop (Z.to_nat ((sz + PGSIZE - 1) / PGSIZE)) old new 0.

Definition uvmclear (pagetable va : Z) : KM X unit :=
  pte ← walk pagetable va false;
  if pte =? 0 then panic "uvmclear" else
  v ← rd64 pte;
  wr64 pte (Z.land v (Z.lnot PTE_U)).

(** ** Copies between kernel and user memory *)

Fixpoint copyout_loop (fuel : nat) (pagetable dstva : Z) (src : list Z) : KM X Z :=
  match fuel with
  | O => no_fuel
  | S f =>
      if Z.of_nat (length src) =? 0 then mret 0 else
      let va0 := PGROUNDDOWN dstva in
      pa0 ← walkaddr pagetable va0;
      if pa0 =? 0 then mret (-1) else
      let n := Z.to_nat (Z.min (PGSIZE - (dstva - va0)) (Z.of_nat (length src))) in
      mod_mem (fun m => write_bytes m (pa0 + (dstva - va0)) (take n src));;
      copyout_loop f pagetable (u64 (va0 + PGSIZE)) (drop n src)
  end.

Definition copyout (pagetable dstva : Z) (src : list Z) : KM X Z :=
  copyout_loop (S (length src)) pagetable dstva src.

(** [acc] holds the bytes already stored at [dst]. *)
Fixpoint copyin_loop (fuel : nat) (pagetable srcva : Z) (len : nat) (acc : list Z) : KM X (Z * list Z) :=
  match fuel with
  | O => no_fuel
  | S f =>
      if Z.of_nat len =? 0 then mret (0, acc) else
      let va0 := PGROUNDDOWN srcva in
      pa0 ← walkaddr pagetable va0;
      if pa0 =? 0 then mret (-1, acc) else
      let n := Z.to_nat (Z.min (PGSIZE - (srcva - va0)) (Z.of_nat len)) in
      bs ← gets (fun s => read_bytes (k_mem s) (pa0 + (srcva - va0)) n);
      copyin_loop f pagetable (u64 (va0 + PGSIZE)) (len - n)%nat (acc ++ bs)
  end.

Definition copyin (pagetable srcva : Z) (len : nat) : KM X (Z * list Z) :=
  copyin_loop (S len) pagetable srcva len [].

(** The inner loop of [copyinstr]: copy at most [n] bytes from [p], stopping
    after a NUL; the flag is [got_null]. *)
Fixpoint copy_until_nul (n : nat) (m : mem) (p : Z) (acc : list Z) : bool * list Z :=
  match n with
  | O => (false, acc)
  | S n' =>
      let c := ld8 m p in
      if c =? 0 then (true, acc ++ [0]) else copy_until_nul n' m (p + 1) (acc ++ [c])
  end.

Fixpoint copyinstr_loop (fuel : nat) (pagetable srcva : Z) (max : nat) (acc : list Z) : KM X (Z * list Z) :=
  match fuel with
  | O => no_fuel
  | S f =>
      if Z.of_nat max =? 0 then mret (-1, acc) else
      let va0 := PGROUNDDOWN srcva in
      pa0 ← walkaddr pagetable va0;
      if pa0 =? 0 then mret (-1, acc) else
      let n := Z.to_nat (Z.min (PGSIZE - (srcva - va0)) (Z.of_nat max)) in
      r ← gets (fun s => copy_until_nul n (k_mem s) (pa0 + (srcva - va0)) acc);
      if fst r : bool then mret (0, snd r)
      else copyinstr_loop f pagetable (u64 (va0 + PGSIZE)) (max - n)%nat (snd r)
  end.

Definition copyinstr (pagetable srcva : Z) (max : nat) : KM X (Z * list Z) :=
  copyinstr_loop (S max) pagetable srcva max [].

(** ** The kernel's page table *)

(** [proc_mapstacks] of kernel/proc.c, called by [kvmmake]. *)
Definition proc_mapstacks (kpgtbl : Z) : KM X unit :=
  for_each (seq 0 NPROC) (fun i =>
    pa ← kalloc;
    if pa =? 0 then panic "kalloc" else
    let va := KSTACK (Z.of_nat i) in
    kvmmap kpgtbl va pa PGSIZE (Z.lor PTE_R PTE_W)).

Definition kvmmake : KM X Z :=
  kpgtbl ← kalloc;
  check_ptr kpgtbl;;
  mod_mem (fun m => memset m kpgtbl 0 (Z.to_nat PGSIZE));;
  kvmmap kpgtbl UART0 UART0 PGSIZE (Z.lor PTE_R PTE_W);;
  kvmmap kpgtbl VIRTIO0 VIRTIO0 PGSIZE (Z.lor PTE_R PTE_W);;
  kvmmap kpgtbl PLIC PLIC 0x400000 (Z.lor PTE_R PTE_W);;
  kvmmap kpgtbl KERNBASE KERNBASE (sym_etext - KERNBASE) (Z.lor PTE_R PTE_X);;
  kvmmap kpgtbl sym_etext sym_etext (PHYSTOP - sym_etext) (Z.lor PTE_R PTE_W);;
  kvmmap kpgtbl TRAMPOLINE sym_trampoline PGSIZE (Z.lor PTE_R PTE_X);;
  proc_mapstacks kpgtbl;;
  mret kpgtbl.

Definition kvminit : KM X unit := pt ← kvmmake; modify (set_k_kernel_pagetable pt).

(** [MAKE_SATP] of kernel/riscv.h: mode Sv39 and the page number of the table. *)
Definition MAKE_SATP (pagetable : Z) : Z := Z.lor (Z.shiftl 8 60) (Z.shiftr pagetable 12).

Definition kvminithart : KM X unit :=
  modify (fun s => set_k_csr (set_r_satp (MAKE_SATP (k_kernel_pagetable s)) (k_csr s)) s).

End Vm.

(** ** Page tables as trees

    [page_at m p path] is the page-table page that the entries [path] lead to
    from page [p].  A table of root [root] is well formed beside the free list
    [l] when the pages of its three levels are allocatable pages, none of them
    free and no two of them the same. *)

Definition child (m : mem) (p i : Z) : option Z :=
  let pte := load64 m (p + 8 * i) in
  if truthy (Z.land pte PTE_V) then Some (PTE2PA pte) else None.

Fixpoint page_at (m : mem) (p : Z) (path : list Z) : option Z :=
  match path with
  | [] => Some p
  | i :: path' => match child m p i with Some q => page_at m q path' | None => None end
  end.

Definition index_ok (i : Z) : Prop := 0 <= i < 512.
Definition path_ok (path : list Z) : Prop := Forall index_ok path /\ (length path <= 2)%nat.

Record pt_ok `{Symbols} (m : mem) (root : Z) (l : list Z) : Prop := {
  pt_pages : forall path p, path_ok path -> page_at m root path = Some p -> valid_page p /\ p ∉ l;
  pt_inj : forall path path' p, path_ok path -> path_ok path' ->
    page_at m root path = Some p -> page_at m root path' = Some p -> path = path'
}.

(** The entry of the page of [va]; 0, which is not valid, when a table on the
    way is missing. *)
Definition pte_of (m : mem) (root va : Z) : Z :=
  match page_at m root [PX 2 va; PX 1 va] with
  | Some p => load64 m (p + 8 * PX 0 va)
  | None => 0
  end.

(** Byte [a] lies outside the page [p]. *)
Definition outside (a p : Z) : Prop := ~ (p <= a < p + PGSIZE).

Section PtFacts.
Context `{SymbolsOk}.
Implicit Types (m : mem) (path : list Z).

Lemma page_at_app m p path path' :
  page_at m p (path ++ path') =
  match page_at m p path with Some q => page_at m q path' | None => None end.
Proof. revert p. induction path as [|i path IH]; intros p; [done|]. cbn. by destruct (child m p i). Qed.

Lemma page_at_snoc m p path i :
  page_at m p (path ++ [i]) = match page_at m p path with Some q => child m q i | None => None end.
Proof. rewrite page_at_app. destruct (page_at m p path) as [q|]; [|done]. cbn. by destruct (child m q i). Qed.

Lemma path_ok_snoc path i : path_ok (path ++ [i]) -> path_ok path /\ index_ok i /\ (length path < 2)%nat.
Proof.
  intros [Hf Hl]. rewrite length_app in Hl. cbn in Hl. apply Forall_app in Hf as [Hf Hi].
  rewrite Forall_singleton in Hi. split; [split; [done|lia]|split; [done|lia]].
Qed.

Lemma path_ok_PX va : path_ok [PX 2 va; PX 1 va].
Proof.
  split; [|cbn; lia]. repeat (apply Forall_cons; split; [apply PX_range; lia|]). constructor.
Qed.

Lemma path_ok_root : path_ok [].
Proof. split; [constructor|cbn; lia]. Qed.

Lemma child_ext m m' p i : load64 m' (p + 8 * i) = load64 m (p + 8 * i) -> child m' p i = child m p i.
Proof. intros E. unfold child. by rewrite E. Qed.

Lemma child_zero m p i : load64 m (p + 8 * i) = 0 -> child m p i = None.
Proof. intros E. unfold child. by rewrite E. Qed.

(** An entry lies inside its page. *)
Lemma entry_in_page (p i : Z) : index_ok i -> p <= p + 8 * i /\ p + 8 * i + 8 <= p + PGSIZE.
Proof. unfold index_ok, PGSIZE. lia. Qed.

(** The tables do not change when the entries of the upper two levels do
    not. *)
Lemma page_at_frame m m' root :
  (forall path p i, path_ok path -> (length path < 2)%nat -> index_ok i ->
     page_at m root path = Some p -> load64 m' (p + 8 * i) = load64 m (p + 8 * i)) ->
  forall path, path_ok path -> page_at m' root path = page_at m root path.
Proof.
  intros Hs path. induction path as [|i path IH] using rev_ind; intros Hp; [done|].
  apply path_ok_snoc in Hp as (Hp & Hi & Hl). rewrite !page_at_snoc, IH by done.
  destruct (page_at m root path) as [q|] eqn:E; [|done]. apply child_ext. by apply (Hs path).
Qed.

Lemma pt_ok_ext m m' root l l' :
  (forall path, path_ok path -> page_at m' root path = page_at m root path) ->
  (forall p, p ∈ l' -> p ∈ l) -> pt_ok m root l -> pt_ok m' root l'.
Proof.
  intros Hs Hl [Hv Hi]. split.
  - intros path p Hp. rewrite Hs by done. intros E. destruct (Hv path p Hp E). split; [done|]. auto.
  - intros path path' p Hp Hp'. rewrite !Hs by done. by apply Hi.
Qed.

(** Two bytes of different pages, for the entries of two tables. *)
Lemma entry_disjoint (p q i j : Z) :
  valid_page p -> valid_page q -> index_ok i -> index_ok j -> p + 8 * i <> q + 8 * j ->
  p + 8 * i + 8 <= q + 8 * j \/ q + 8 * j + 8 <= p + 8 * i.
Proof. intros Hp Hq Hi Hj Hne. apply valid_page_pos in Hp, Hq. unfold index_ok in *. lia. Qed.

Lemma entry_inj (p q i j : Z) :
  valid_page p -> valid_page q -> index_ok i -> index_ok j -> p + 8 * i = q + 8 * j -> p = q /\ i = j.
Proof. intros Hp Hq Hi Hj Hne. apply valid_page_pos in Hp, Hq. unfold index_ok in *. lia. Qed.

Lemma load64_store_entry m p q i j v :
  valid_page p -> valid_page q -> index_ok i -> index_ok j -> p <> q \/ i <> j ->
  load64 (store64 m (p + 8 * i) v) (q + 8 * j) = load64 m (q + 8 * j).
Proof.
  intros Hp Hq Hi Hj Hne. apply load64_store64_other.
  destruct (entry_disjoint p q i j Hp Hq Hi Hj); [|lia..].
  intros E. destruct (entry_inj p q i j Hp Hq Hi Hj E). intuition.
Qed.

(** The entry that [walk] writes for a new table leads to it. *)
Lemma valid_pte_V x : truthy (Z.land (Z.lor x PTE_V) PTE_V) = true.
Proof.
  change PTE_V with 1. replace (Z.land (Z.lor x 1) 1) with 1; [done|].
  symmetry. rewrite Z.land_comm, Z.land_lor_distr_r. apply Z.bits_inj'. intros n _.
  rewrite Z.lor_spec, !Z.land_spec. destruct n as [|[]|]; try done. by destruct x as [|[]|[]].
Qed.

Lemma child_table m p i q :
  valid_page q -> load64 m (p + 8 * i) = Z.lor (PA2PTE q) PTE_V -> child m p i = Some q.
Proof.
  intros Hq E. unfold child. rewrite E, valid_pte_V. f_equal. apply valid_page_pos in Hq.
  destruct (pte_roundtrip q 0) as [Hr _]; [lia..|]. by rewrite Z.lor_0_r in Hr.
Qed.

(** [m'] is [m] with the new empty table [q] at entry [i] of the table [p]. *)
Record table_added m m' (p i q : Z) : Prop := {
  ta_entry : load64 m' (p + 8 * i) = Z.lor (PA2PTE q) PTE_V;
  ta_empty : forall j, index_ok j -> load64 m' (q + 8 * j) = 0;
  ta_other : forall x j, valid_page x -> index_ok j -> x <> q -> x <> p \/ j <> i ->
    load64 m' (x + 8 * j) = load64 m (x + 8 * j)
}.

Section Added.
Context (m m' : mem) (root : Z) (path : list Z) (p i q : Z) (l : list Z).
Hypothesis Hok : pt_ok m root (q :: l).
Hypothesis Hpath : path_ok (path ++ [i]).
Hypothesis Hat : page_at m root path = Some p.
Hypothesis Hnone : child m p i = None.
Hypothesis Hq : valid_page q.
Hypothesis Hfresh : q ∉ l.
Hypothesis Hta : table_added m m' p i q.

Lemma added_old path' x : path_ok path' -> page_at m root path' = Some x -> valid_page x /\ x <> q /\ x ∉ l.
Proof using Hok.
  intros Hp' E. destruct (pt_pages _ _ _ Hok path' x Hp' E) as [Hv Hn].
  apply not_elem_of_cons in Hn. intuition.
Qed.

Lemma added_page_at path' x :
  path_ok path' ->
  page_at m' root path' = Some x <-> page_at m root path' = Some x \/ (path' = path ++ [i] /\ x = q).
Proof using All.
  revert x. induction path' as [|j path' IH] using rev_ind; intros x Hp'.
  { cbn. split; [by left|]. intros [?|[E _]]; [done|]. by destruct path. }
  apply path_ok_snoc in Hp' as (Hp' & Hj & _). apply path_ok_snoc in Hpath as (Hpp & Hi & _).
  rewrite !page_at_snoc. destruct (page_at m root path') as [y|] eqn:Ey.
  - destruct (added_old path' y Hp' Ey) as (Hvy & Hyq & _).
    rewrite (proj2 (IH y Hp')) by by left.
    destruct (decide (path' = path /\ j = i)) as [[-> ->]|Hne].
    + assert (y = p) as -> by congruence. rewrite (child_table m' p i q Hq (ta_entry _ _ _ _ _ Hta)), Hnone.
      split; [intros [= ->]; by right|]. intros [?|[_ ->]]; done.
    + assert (child m' y j = child m y j) as ->.
      { apply child_ext, (ta_other _ _ _ _ _ Hta); [done..|].
        destruct (decide (y = p)) as [->|]; [right|by left]. intros ->. apply Hne. split; [|done].
        by apply (pt_inj _ _ _ Hok path' path p). }
      split; [by left|]. intros [?|[E _]]; [done|]. exfalso. by apply app_inj_tail in E.
  - split; [|intros [?|[E _]]; [done|]].
    + destruct (page_at m' root path') as [y|] eqn:Ey'; [|done].
      destruct (proj1 (IH y Hp') eq_refl) as [Ey''|[-> ->]]; [done|].
      rewrite (child_zero m' q j); [done|]. by apply (ta_empty _ _ _ _ _ Hta).
    + apply app_inj_tail in E as [-> ->]. congruence.
Qed.

Lemma added_pt_ok : pt_ok m' root l.
Proof using All.
  split.
  - intros path' x Hp' E. apply added_page_at in E as [E|[_ ->]]; [|done..].
    destruct (added_old path' x Hp' E) as (? & _ & ?). done.
  - intros path1 path2 x H1 H2 E1 E2. apply added_page_at in E1, E2; [|done..].
    destruct E1 as [E1|[-> ->]], E2 as [E2|[-> E]]; [|subst x|..].
    + by apply (pt_inj _ _ _ Hok path1 path2 x).
    + by destruct (added_old path1 q H1 E1) as (_ & ? & _).
    + by destruct (added_old path2 q H2 E2) as (_ & ? & _).
    + done.
Qed.

Lemma added_pte_of va : pte_of m' root va = pte_of m root va.
Proof using All.
  unfold pte_of. pose proof (path_ok_PX va) as Hp. set (path' := [PX 2 va; PX 1 va]) in *.
  assert (Hk : index_ok (PX 0 va)) by (apply PX_range; lia).
  destruct (page_at m root path') as [x|] eqn:E.
  - rewrite (proj2 (added_page_at path' x Hp)) by by left.
    destruct (added_old path' x Hp E) as (Hv & Hne & _).
    apply (ta_other _ _ _ _ _ Hta); [done..|]. left. intros ->.
    apply path_ok_snoc in Hpath as (Hpp & _ & Hlen).
    rewrite <- (pt_inj _ _ _ Hok path' path p Hp Hpp E Hat) in Hlen. cbn in Hlen. lia.
  - destruct (page_at m' root path') as [x|] eqn:E'; [|done].
    apply added_page_at in E' as [E'|[_ ->]]; [congruence| |done].
    by apply (ta_empty _ _ _ _ _ Hta).
Qed.

End Added.

(** ** Writing an entry of the lowest level *)

Section SetLeaf.
Context (m : mem) (root va : Z) (l : list Z) (p v : Z).
Hypothesis Hok : pt_ok m root l.
Hypothesis Hat : page_at m root [PX 2 va; PX 1 va] = Some p.
Hypothesis Hv : 0 <= v < 2 ^ 64.
Let m' := store64 m (p + 8 * PX 0 va) v.

Lemma leaf_page_at path : path_ok path -> page_at m' root path = page_at m root path.
Proof using All.
  apply page_at_frame. intros path' q i Hp' Hlen Hi E.
  destruct (pt_pages _ _ _ Hok _ _ (path_ok_PX va) Hat) as [Hvp _].
  destruct (pt_pages _ _ _ Hok _ _ Hp' E) as [Hvq _].
  apply load64_store_entry; [done|done|apply PX_range; lia|done|]. left. intros ->.
  rewrite (pt_inj _ _ _ Hok _ _ _ Hp' (path_ok_PX va) E Hat) in Hlen. cbn in Hlen. lia.
Qed.

Lemma leaf_pt_ok : pt_ok m' root l.
Proof using All. apply (pt_ok_ext m _ _ l); [apply leaf_page_at|done|done]. Qed.

Lemma leaf_pte_of va' :
  0 <= va < MAXVA -> 0 <= va' < MAXVA ->
  pte_of m' root va' = if PGROUNDDOWN va' =? PGROUNDDOWN va then v else pte_of m root va'.
Proof using All.
  intros Hr Hr'. unfold pte_of. rewrite leaf_page_at by apply path_ok_PX.
  destruct (Z.eqb_spec (PGROUNDDOWN va') (PGROUNDDOWN va)) as [E|E].
  - assert (Hpx : forall k, 0 <= k -> PX k va' = PX k va).
    { intros k Hk. rewrite !PX_eq by done. rewrite !PGROUNDDOWN_eq in E.
      rewrite !Z.pow_add_r, <- !Z.div_div by lia. change (2 ^ 12) with 4096.
      do 2 f_equal. lia. }
    rewrite !Hpx, Hat by lia. by apply load64_store64_same.
  - destruct (page_at m root [PX 2 va'; PX 1 va']) as [q|] eqn:Eq; [|done].
    destruct (pt_pages _ _ _ Hok _ _ (path_ok_PX va) Hat) as [Hvp _].
    destruct (pt_pages _ _ _ Hok _ _ (path_ok_PX va') Eq) as [Hvq _].
    apply load64_store_entry; [done|done|apply PX_range; lia|apply PX_range; lia|].
    destruct (decide (p = q)) as [->|]; [right|by left]. intros E0. apply E. symmetry.
    pose proof (pt_inj _ _ _ Hok _ _ _ (path_ok_PX va) (path_ok_PX va') Hat Eq) as [= E2 E1].
    by apply PX_inj.
Qed.

End SetLeaf.

End PtFacts.

(** ** [walk] *)

(** What an operation on a table does to the state: it takes pages from the
    free list [l], leaving [l'], and may add tables; it writes only to the
    tables and to the pages it takes. *)
Record pt_step {X} `{Symbols} (root : Z) (s : kstate X) (l : list Z) (s' : kstate X) (l' : list Z) : Prop := {
  ps_kmem : kmem_ok s' l';
  ps_pt : pt_ok (k_mem s') root l';
  ps_mono : forall path p, path_ok path ->
    page_at (k_mem s) root path = Some p -> page_at (k_mem s') root path = Some p;
  ps_new : forall path p, path_ok path ->
    page_at (k_mem s') root path = Some p -> page_at (k_mem s) root path = Some p \/ p ∈ l;
  ps_used : exists used, l = used ++ l';
  ps_frame : forall a, (forall p, p ∈ l -> outside a p) ->
    (forall path p, path_ok path -> page_at (k_mem s) root path = Some p -> outside a p) ->
    ld8 (k_mem s') a = ld8 (k_mem s) a;
  ps_state : s' = set_k_mem (k_mem s') (set_k_freelist (k_freelist s') s)
}.

Section Walk.
Context {X : Type} `{SymbolsOk}.
Implicit Types (s : kstate X) (m : mem) (path : list Z).

Lemma pt_step_refl root s l : kmem_ok s l -> pt_ok (k_mem s) root l -> pt_step root s l s l.
Proof. intros Hk Hp. split; eauto; [by exists []|by destruct s]. Qed.

Lemma pt_step_trans root s1 l1 s2 l2 s3 l3 :
  pt_step root s1 l1 s2 l2 -> pt_step root s2 l2 s3 l3 -> pt_step root s1 l1 s3 l3.
Proof.
  intros A B. destruct (ps_used _ _ _ _ _ A) as [u1 ->], (ps_used _ _ _ _ _ B) as [u2 ->].
  split.
  - apply B.
  - apply B.
  - intros path p Hp E. apply (ps_mono _ _ _ _ _ B), (ps_mono _ _ _ _ _ A); done.
  - intros path p Hp E. apply (ps_new _ _ _ _ _ B) in E as [E|E]; [|right; set_solver|done].
    apply (ps_new _ _ _ _ _ A) in E; done.
  - exists (u1 ++ u2). by rewrite app_assoc.
  - intros a Hl Hp. rewrite (ps_frame _ _ _ _ _ B), (ps_frame _ _ _ _ _ A); [done|done|done| |].
    + intros p Hin. apply Hl. set_solver.
    + intros path p Hpath E. apply (ps_new _ _ _ _ _ A) in E as [E|E]; [eauto|by apply Hl|done].
  - rewrite (ps_state _ _ _ _ _ B), (ps_state _ _ _ _ _ A). ks_eq.
Qed.

Lemma pt_step_ready root s l s' l' : pt_step root s l s' l' -> kmem_ready s -> kmem_ready s'.
Proof. intros A. apply kmem_ready_hw. rewrite (ps_state _ _ _ _ _ A). hw_eq. Qed.

(** A new table is allocated, cleared and entered at entry [i] of [p]. *)
Lemma grow_table s q l root path p i :
  kmem_ready s -> kmem_ok s (q :: l) -> pt_ok (k_mem s) root (q :: l) ->
  path_ok (path ++ [i]) -> page_at (k_mem s) root path = Some p -> child (k_mem s) p i = None ->
  exists s1, kalloc s = Done q s1 /\ q <> 0 /\
    let s' := set_k_mem (store64 (memset (k_mem s1) q 0 (Z.to_nat PGSIZE)) (p + 8 * i)
                           (Z.lor (PA2PTE q) PTE_V)) s1 in
    pt_step root s (q :: l) s' l /\ page_at (k_mem s') root (path ++ [i]) = Some q /\
    (forall va, pte_of (k_mem s') root va = pte_of (k_mem s) root va) /\ table_added (k_mem s) (k_mem s') p i q.
Proof.
  intros Hr Hk Hpt Hpath Hat Hnone.
  destruct (kalloc_spec s q l Hr Hk) as (s1 & Hrun & Hk1 & Hq & Hni & Hso & _ & Hs1).
  exists s1. split; [done|]. split; [apply valid_page_pos in Hq; lia|]. intros s'.
  pose proof (path_ok_snoc _ _ Hpath) as (Hpp & Hi & _).
  destruct (pt_pages _ _ _ Hpt path p Hpp Hat) as [Hvp Hnp]. apply not_elem_of_cons in Hnp as [Hpq Hpl].
  assert (Hso2 : same_outside q (k_mem s) (memset (k_mem s1) q 0 (Z.to_nat PGSIZE)))
    by (eapply same_outside_trans; [exact Hso|apply same_outside_memset]).
  assert (Hpte : 0 <= Z.lor (PA2PTE q) PTE_V < 2 ^ 64).
  { apply valid_page_pos in Hq. destruct (pte_roundtrip q 0) as (_ & _ & ?); [lia..|].
    rewrite Z.lor_0_r in *. lia. }
  assert (Hta : table_added (k_mem s) (k_mem s') p i q).
  { unfold s'. ks_norm. split.
    - by apply load64_store64_same.
    - intros j Hj. rewrite load64_store_entry by auto.
      apply load64_memset_zero; unfold index_ok, PGSIZE in *; lia.
    - intros x j Hx Hj Hxq Hne. rewrite load64_store_entry by (intuition congruence).
      apply (same_outside_load64 q _ _ _ Hso2). pose proof (entry_in_page x j Hj).
      destruct (valid_page_disjoint q x Hq Hx) as [|]; [congruence|unfold PGSIZE in *; lia..]. }
  assert (Hso3 : same_outside p (memset (k_mem s1) q 0 (Z.to_nat PGSIZE)) (k_mem s')).
  { intros a Ha. unfold s'. ks_norm. unfold store64. rewrite ld8_store_le.
    unfold PGSIZE, index_ok in *. byte_cases. }
  split; [split|split; [|split; [|exact Hta]]].
  - destruct Hk1 as [Hk1 Hnd]. split; [|done]. unfold s' at 2. ks_norm.
    apply (freelist_rep_frame _ _ p l Hvp Hpl Hso3).
    by apply (freelist_rep_frame _ _ q l Hq Hni (same_outside_memset q 0 (k_mem s1))).
  - by apply (added_pt_ok (k_mem s) _ root path p i q l).
  - intros path' x Hp' E. apply (added_page_at (k_mem s) _ root path p i q l); auto.
  - intros path' x Hp' E. apply (added_page_at (k_mem s) _ root path p i q l) in E; auto.
    destruct E as [E|[_ ->]]; [by left|right; by left].
  - by exists [q].
  - intros a Hl Hp. rewrite Hso3 by (apply (Hp path p); done). apply Hso2, Hl. by left.
  - unfold s'. rewrite Hs1. ks_eq.
  - apply (added_page_at (k_mem s) _ root path p i q l); auto.
  - intros va. by apply (added_pte_of (k_mem s) _ root path p i q l).
Qed.

Lemma child_cases m p i :
  (truthy (Z.land (load64 m (p + 8 * i)) PTE_V) = true /\ child m p i = Some (PTE2PA (load64 m (p + 8 * i)))) \/
  (truthy (Z.land (load64 m (p + 8 * i)) PTE_V) = false /\ child m p i = None).
Proof. unfold child. destruct (truthy _); auto. Qed.

(** The descent with allocation: it reaches the table it looks for, or the
    free list is exhausted. *)
Lemma walk_levels_spec levels va : forall s l root path p,
  kmem_ready s -> kmem_ok s l -> pt_ok (k_mem s) root l ->
  page_at (k_mem s) root path = Some p -> path_ok (path ++ map (fun k => PX k va) levels) ->
  exists r s' l', walk_levels levels p va true s = Done r s' /\ pt_step root s l s' l' /\
    (forall va', pte_of (k_mem s') root va' = pte_of (k_mem s) root va') /\
    (length l <= length l' + length levels)%nat /\
    match r with
    | Some p0 => page_at (k_mem s') root (path ++ map (fun k => PX k va) levels) = Some p0
    | None => l' = [] /\ (length l < length levels)%nat
    end.
Proof.
  induction levels as [|k levels IH]; intros s l root path p Hr Hk Hpt Hat Hpath; cbn [walk_levels map].
  { exists (Some p), s, l. rewrite app_nil_r. split_and!; [done|by apply pt_step_refl|done|lia|done]. }
  cbn [map] in Hpath. rewrite cons_middle, app_assoc in Hpath.
  assert (Hpath1 : path_ok (path ++ [PX k va])).
  { destruct Hpath as [Hf Hl]. apply Forall_app in Hf as [Hf _]. rewrite length_app in Hl.
    split; [done|lia]. }
  rewrite cons_middle, app_assoc. unfold rd64. mrun.
  destruct (child_cases (k_mem s) p (PX k va)) as [[-> Hc]|[-> Hc]].
  - destruct (IH s l root (path ++ [PX k va]) (PTE2PA (load64 (k_mem s) (p + 8 * PX k va))))
      as (r & s' & l' & Hrun & Hst & Hpte & Hlen & Hres); [done..|by rewrite page_at_snoc, Hat|done|].
    exists r, s', l'. split_and!; [done|done|done|cbn; lia|]. destruct r; [done|]. cbn. intuition lia.
  - cbn [negb]. destruct l as [|q l].
    + rewrite (bind_Done kalloc _ _ _ _ (kalloc_run s Hr)). destruct Hk as [Hfl Hnd]. cbn in Hfl. rewrite Hfl.
      cbn [truthy negb Z.eqb]. exists None, s, []. split_and!; [done|by apply pt_step_refl|done|cbn; lia|done|cbn; lia].
    + destruct (grow_table s q l root path p (PX k va) Hr Hk Hpt Hpath1 Hat Hc) as (s1 & Hrun1 & Hq0 & Hst & Hat1 & Hpte1 & _).
      mstep Hrun1. rewrite (proj2 (Z.eqb_neq q 0) Hq0). unfold mod_mem, wr64. mrun.
      set (s2 := set_k_mem _ _) in *.
      destruct (IH s2 l root (path ++ [PX k va]) q) as (r & s' & l' & Hrun & Hst2 & Hpte2 & Hlen & Hres);
        [by apply (pt_step_ready root s (q :: l) _ l)|apply Hst|apply Hst|done|done|].
      exists r, s', l'. split_and!; [done|by apply (pt_step_trans root s (q :: l) s2 l)| |cbn; lia|].
      { intros va'. by rewrite Hpte2, Hpte1. }
      destruct r; [done|]. cbn. intuition lia.
Qed.

Lemma walk_alloc s l root va :
  kmem_ready s -> kmem_ok s l -> pt_ok (k_mem s) root l -> 0 <= va < MAXVA ->
  exists a s' l', walk root va true s = Done a s' /\ pt_step root s l s' l' /\
    (forall va', pte_of (k_mem s') root va' = pte_of (k_mem s) root va') /\
    (length l <= length l' + 2)%nat /\
    (a = 0 /\ l' = [] /\ (length l < 2)%nat \/
     exists p, page_at (k_mem s') root [PX 2 va; PX 1 va] = Some p /\ a = p + 8 * PX 0 va /\ a <> 0).
Proof.
  intros Hr Hk Hpt Hva. unfold walk. rewrite (proj2 (Z.leb_gt MAXVA va)) by lia.
  destruct (walk_levels_spec [2; 1] va s l root [] root)
    as (r & s' & l' & Hrun & Hst & Hpte & Hlen & Hres); [done..|apply (path_ok_PX va)|].
  mstep Hrun. destruct r as [p|]; eexists _, s', l'.
  - split_and!; [reflexivity|done|done|done|]. right. exists p. split_and!; [done|done|].
    destruct (pt_pages _ _ _ (ps_pt _ _ _ _ _ Hst) _ _ (path_ok_PX va) Hres) as [Hv _].
    apply valid_page_pos in Hv. pose proof (PX_range 0 va). lia.
  - split_and!; [reflexivity|done|done|done|]. left. cbn in Hres. intuition.
Qed.

Lemma walk_levels_read s va levels : forall p,
  walk_levels levels p va false s = Done (page_at (k_mem s) p (map (fun k => PX k va) levels)) s.
Proof.
  induction levels as [|k levels IH]; intros p; cbn [walk_levels page_at map]; [done|].
  unfold rd64, child. mrun. by destruct (truthy _).
Qed.

(** Without allocation [walk] only reads. *)
Lemma walk_read s root va :
  va < MAXVA ->
  walk root va false s =
  Done (match page_at (k_mem s) root [PX 2 va; PX 1 va] with
        | Some p => p + 8 * PX 0 va | None => 0 end) s.
Proof.
  intros Hva. unfold walk. rewrite (proj2 (Z.leb_gt MAXVA va)) by lia.
  mstep (walk_levels_read s va [2; 1] root). by destruct (page_at _ _ _).
Qed.

(** The physical page of a user page, 0 when it is not mapped for the user. *)
Definition user_page m (root va : Z) : Z :=
  let v := pte_of m root va in
  if (Z.land v PTE_V =? 0) || (Z.land v PTE_U =? 0) then 0 else PTE2PA v.

Lemma walkaddr_run s root va l :
  pt_ok (k_mem s) root l -> 0 <= va < MAXVA -> walkaddr root va s = Done (user_page (k_mem s) root va) s.
Proof.
  intros Hpt Hva. unfold walkaddr, user_page, pte_of. rewrite (proj2 (Z.leb_gt MAXVA va)) by lia.
  mstep (walk_read s root va (proj2 Hva)).
  destruct (page_at (k_mem s) root [PX 2 va; PX 1 va]) as [p|] eqn:E; [|done].
  destruct (pt_pages _ _ _ Hpt _ _ (path_ok_PX va) E) as [Hv _]. apply valid_page_pos in Hv.
  pose proof (PX_range 0 va). rewrite (proj2 (Z.eqb_neq _ 0)) by lia. unfold rd64. mrun.
  destruct (_ =? 0); [done|]. by destruct (_ =? 0).
Qed.

Lemma walkaddr_high s root va : MAXVA <= va -> walkaddr root va s = Done 0 s.
Proof. intros Hva. unfold walkaddr. by rewrite (proj2 (Z.leb_le MAXVA va)). Qed.

(** Writing the entry of [va] is a step of the table. *)
Lemma leaf_step s l root va p v :
  kmem_ok s l -> pt_ok (k_mem s) root l -> 0 <= v < 2 ^ 64 ->
  page_at (k_mem s) root [PX 2 va; PX 1 va] = Some p ->
  pt_step root s l (set_k_mem (store64 (k_mem s) (p + 8 * PX 0 va) v) s) l.
Proof.
  intros Hk Hpt Hv Hat. pose proof (leaf_page_at (k_mem s) root va l p v Hpt Hat Hv) as Hsame.
  destruct (pt_pages _ _ _ Hpt _ _ (path_ok_PX va) Hat) as [Hvp Hnp].
  assert (Hso : same_outside p (k_mem s) (store64 (k_mem s) (p + 8 * PX 0 va) v)).
  { intros a Ha. unfold store64. rewrite ld8_store_le. pose proof (PX_range 0 va).
    unfold PGSIZE in *. byte_cases. }
  split; ks_norm.
  - destruct Hk as [Hk Hnd]. split; [|done]. by apply (freelist_rep_frame _ _ p l Hvp Hnp Hso).
  - by apply leaf_pt_ok.
  - intros path q Hp E. by rewrite Hsame.
  - intros path q Hp E. left. by rewrite Hsame in E.
  - by exists [].
  - intros a _ Hp. apply Hso. by apply (Hp _ _ (path_ok_PX va) Hat).
  - done.
Qed.

(** ** [mappages] *)

(** The entries after [k] pages from [a] on have been mapped to the pages from
    [pa] on. *)
Definition mapped (old : Z -> Z) (a : Z) (k : nat) (pa perm va : Z) : Z :=
  if (a <=? va) && (va <? a + Z.of_nat k * PGSIZE)
  then Z.lor (Z.lor (PA2PTE (pa + (PGROUNDDOWN va - a))) perm) PTE_V
  else old va.

(** One iteration of the loop of [mappages]. *)
Lemma map_one s l root a last pa perm n :
  kmem_ready s -> kmem_ok s l -> pt_ok (k_mem s) root l ->
  0 <= a < MAXVA -> Z.land (pte_of (k_mem s) root a) PTE_V = 0 ->
  0 <= pa < 2 ^ 56 -> pa mod 4096 = 0 -> 0 <= perm < 1024 ->
  exists s' l', pt_step root s l s' l' /\ (length l <= length l' + 2)%nat /\
    (mappages_loop (S n) root a last pa perm s = Done (-1) s' /\ l' = [] /\ (length l < 2)%nat /\
       (forall va, pte_of (k_mem s') root va = pte_of (k_mem s) root va) \/
     mappages_loop (S n) root a last pa perm s =
       (if a =? last then Done 0 s'
        else mappages_loop n root (u64 (a + PGSIZE)) last (u64 (pa + PGSIZE)) perm s') /\
     forall va, 0 <= va < MAXVA -> pte_of (k_mem s') root va =
       if PGROUNDDOWN va =? PGROUNDDOWN a then Z.lor (Z.lor (PA2PTE pa) perm) PTE_V
       else pte_of (k_mem s) root va).
Proof.
  intros Hr Hk Hpt Ha Hfree Hpa Hal Hperm. cbn [mappages_loop].
  destruct (walk_alloc s l root a Hr Hk Hpt Ha)
    as (w & s1 & l1 & Hrun & Hst & Hpte & Hlen & [(-> & -> & Hl)|(p & Hat & -> & Hnz)]).
  - exists s1, []. split_and!; [done|done|left]. mstep Hrun. by split_and!.
  - destruct (pte_roundtrip pa perm Hpa Hal Hperm) as (_ & _ & Hv).
    eexists _, l1. split_and!; [|done|right].
    + eapply pt_step_trans; [exact Hst|]. eapply (leaf_step s1 l1 root a p); [apply Hst|apply Hst| |done].
      instantiate (1 := Z.lor (Z.lor (PA2PTE pa) perm) PTE_V). lia.
    + split.
      * mstep Hrun. rewrite (proj2 (Z.eqb_neq _ 0) Hnz). unfold rd64, wr64, mod_mem. mrun.
        assert (load64 (k_mem s1) (p + 8 * PX 0 a) = pte_of (k_mem s) root a) as ->.
        { rewrite <- Hpte. unfold pte_of. by rewrite Hat. }
        rewrite Hfree. cbn [truthy Z.eqb negb]. mrun. by destruct (a =? last).
      * intros va Hva. ks_norm.
        rewrite (leaf_pte_of (k_mem s1) root a l1 p); [by rewrite Hpte|apply Hst|done|lia|done|done].
Qed.

Lemma mapped_step old new a k pa perm :
  0 <= a -> a mod 4096 = 0 -> a + Z.of_nat (S k) * PGSIZE <= MAXVA ->
  (forall va, 0 <= va < MAXVA -> new va =
     if PGROUNDDOWN va =? PGROUNDDOWN a then Z.lor (Z.lor (PA2PTE pa) perm) PTE_V else old va) ->
  forall va, 0 <= va < MAXVA ->
    mapped new (a + PGSIZE) k (pa + PGSIZE) perm va = mapped old a (S k) pa perm va.
Proof.
  intros Ha Hal Hmax Hnew va Hva. unfold mapped. rewrite Hnew by done. rewrite !PGROUNDDOWN_eq.
  unfold PGSIZE in *. rewrite Nat2Z.inj_succ in *.
  destruct (Z.leb_spec (a + 4096) va), (Z.leb_spec a va), (Z.ltb_spec va (a + 4096 + Z.of_nat k * 4096)),
    (Z.ltb_spec va (a + Z.succ (Z.of_nat k) * 4096)), (Z.eqb_spec (va - va mod 4096) (a - a mod 4096));
    cbn [andb]; try done; try lia; do 3 f_equal; lia.
Qed.

Lemma mapped_0 old a pa perm va : mapped old a 0 pa perm va = old va.
Proof.
  unfold mapped. destruct (Z.leb_spec a va); [|done].
  by rewrite (proj2 (Z.ltb_ge va (a + Z.of_nat 0 * PGSIZE))) by lia.
Qed.

Lemma mappages_loop_spec root perm : forall n s l a pa,
  kmem_ready s -> kmem_ok s l -> pt_ok (k_mem s) root l ->
  0 <= a -> a mod 4096 = 0 -> a + Z.of_nat (S n) * PGSIZE <= MAXVA ->
  (forall va, a <= va < a + Z.of_nat (S n) * PGSIZE -> Z.land (pte_of (k_mem s) root va) PTE_V = 0) ->
  0 <= pa -> pa + Z.of_nat (S n) * PGSIZE <= 2 ^ 56 -> pa mod 4096 = 0 -> 0 <= perm < 1024 ->
  exists r s' l' k, mappages_loop (S n) root a (a + Z.of_nat n * PGSIZE) pa perm s = Done r s' /\
    pt_step root s l s' l' /\
    (r = 0 /\ k = S n \/ r = -1 /\ (k <= n)%nat /\ l' = [] /\ (length l < 2 * S n)%nat) /\
    (length l <= length l' + 2 * S n)%nat /\
    forall va, 0 <= va < MAXVA ->
      pte_of (k_mem s') root va = mapped (pte_of (k_mem s) root) a k pa perm va.
Proof.
  induction n as [|n IH]; intros s l a pa Hr Hk Hpt Ha0 Hal Hmax Hfree Hpa0 Hpa Hpal Hperm.
  all: match goal with |- context [mappages_loop (S ?k) _ _ _ _ _ _] =>
    destruct (map_one s l root a (a + Z.of_nat k * PGSIZE) pa perm k)
      as (s1 & l1 & Hst & Hlen & [(Hrun & Hl1 & Hl & Hpte)|(Hrun & Hpte)]);
      [done|done|done|unfold PGSIZE in *; lia|apply Hfree; unfold PGSIZE; lia|unfold PGSIZE in *; lia
      |exact Hpal|exact Hperm|..] end.
  1,3: exists (-1), s1, l1, O; split_and!; [exact Hrun|done|right; split_and!; (done || lia)|lia|];
       intros va Hva; by rewrite Hpte, mapped_0.
  - exists 0, s1, l1, 1%nat. split_and!; [|done|by left|lia|].
    + rewrite Hrun. replace (a + Z.of_nat 0 * PGSIZE) with a by lia. by rewrite Z.eqb_refl.
    + intros va Hva. rewrite <- (mapped_step _ (pte_of (k_mem s1) root)), mapped_0; done.
  - rewrite (u64_small (a + PGSIZE)), (u64_small (pa + PGSIZE)) in Hrun
      by (change MAXVA with (2 ^ 38) in *; unfold PGSIZE in *; lia).
    rewrite (proj2 (Z.eqb_neq a _)) in Hrun by (unfold PGSIZE; lia).
    destruct (IH s1 l1 (a + PGSIZE) (pa + PGSIZE)) as (r & s' & l' & k & Hrun2 & Hst2 & Hres & Hlen2 & Hpte2).
    + by apply (pt_step_ready root s l _ l1).
    + apply Hst.
    + apply Hst.
    + unfold PGSIZE; lia.
    + unfold PGSIZE; lia.
    + lia.
    + intros va Hva. rewrite Hpte by (unfold PGSIZE in *; lia). rewrite !PGROUNDDOWN_eq.
      rewrite (proj2 (Z.eqb_neq _ _)) by (unfold PGSIZE in *; lia). apply Hfree. unfold PGSIZE in *; lia.
    + unfold PGSIZE; lia.
    + lia.
    + unfold PGSIZE; lia.
    + done.
    + exists r, s', l', (S k). split_and!; [|by apply (pt_step_trans root s l s1 l1)| |lia|].
      * rewrite <- Hrun2, Hrun. f_equal. lia.
      * destruct Hres as [[-> ->]|(-> & Hkn & -> & Hl)]; [by left|right]. split_and!; [done|lia|done|lia].
      * intros va Hva. rewrite Hpte2 by done. apply mapped_step; try done.
        destruct Hres as [[_ ->]|(_ & Hkn & _)]; unfold PGSIZE in *; lia.
Qed.

End Walk.

(** ** User memory

    The pages mapped for the user are allocatable pages that are neither free
    nor tables, and no two virtual pages share one. *)

Record user_ok `{Symbols} (m : mem) (root : Z) (l : list Z) : Prop := {
  uo_page : forall va, 0 <= va < MAXVA -> user_page m root va <> 0 ->
    valid_page (user_page m root va) /\ user_page m root va ∉ l /\
    forall path p, path_ok path -> page_at m root path = Some p -> p <> user_page m root va;
  uo_inj : forall va va', 0 <= va < MAXVA -> 0 <= va' < MAXVA -> user_page m root va <> 0 ->
    user_page m root va = user_page m root va' -> PGROUNDDOWN va = PGROUNDDOWN va'
}.

(** The physical address of a user byte, and the bytes from [va] on. *)
Definition user_addr (m : mem) (root va : Z) : Z := user_page m root va + va mod PGSIZE.
Fixpoint user_bytes (m : mem) (root va : Z) (n : nat) : list Z :=
  match n with
  | O => []
  | S n' => ld8 m (user_addr m root va) :: user_bytes m root (va + 1) n'
  end.

(** [n] bytes from [va] on are mapped for the user. *)
Definition user_range (m : mem) (root va : Z) (n : nat) : Prop :=
  forall a, va <= a < va + Z.of_nat n -> 0 <= a < MAXVA /\ user_page m root a <> 0.

Section User.
Context {X : Type} `{SymbolsOk}.
Implicit Types (s : kstate X) (m : mem).

Lemma user_page_ext m m' root va : pte_of m' root va = pte_of m root va -> user_page m' root va = user_page m root va.
Proof. intros E. unfold user_page. by rewrite E. Qed.

(** The page of an address decides its translation. *)
Lemma pte_of_page m root va va' :
  PGROUNDDOWN va = PGROUNDDOWN va' -> pte_of m root va = pte_of m root va'.
Proof.
  rewrite !PGROUNDDOWN_eq. intros E. unfold pte_of.
  assert (Hpx : forall k, 0 <= k -> PX k va = PX k va').
  { intros k Hk. rewrite !PX_eq by done. rewrite !Z.pow_add_r, <- !Z.div_div by lia.
    change (2 ^ 12) with 4096. do 2 f_equal. lia. }
  by rewrite !Hpx by lia.
Qed.

Lemma user_page_same m root va va' :
  PGROUNDDOWN va = PGROUNDDOWN va' -> user_page m root va = user_page m root va'.
Proof. intros E. unfold user_page. by rewrite (pte_of_page m root va va'). Qed.

Lemma user_page_down m root va : user_page m root (PGROUNDDOWN va) = user_page m root va.
Proof. apply user_page_same. rewrite !PGROUNDDOWN_eq. lia. Qed.

(** Bytes of a page that is not a table do not matter to the table. *)
Lemma data_frame m m' root l p :
  pt_ok m root l -> valid_page p -> same_outside p m m' ->
  (forall path q, path_ok path -> page_at m root path = Some q -> q <> p) ->
  (forall path, path_ok path -> page_at m' root path = page_at m root path) /\
  forall va, pte_of m' root va = pte_of m root va.
Proof.
  intros Hpt Hp Hso Hne.
  assert (Hld : forall path q i, path_ok path -> index_ok i -> page_at m root path = Some q ->
            load64 m' (q + 8 * i) = load64 m (q + 8 * i)).
  { intros path q i Hpath Hi E. apply (same_outside_load64 p _ _ _ Hso).
    destruct (pt_pages _ _ _ Hpt path q Hpath E) as [Hq _].
    pose proof (entry_in_page q i Hi). specialize (Hne path q Hpath E).
    destruct (valid_page_disjoint p q Hp Hq); [congruence|unfold PGSIZE in *; lia..]. }
  assert (Hat : forall path, path_ok path -> page_at m' root path = page_at m root path).
  { apply page_at_frame. intros path q i Hpath _ Hi E. by apply (Hld path). }
  split; [done|]. intros va. unfold pte_of. rewrite Hat by apply path_ok_PX.
  destruct (page_at m root _) as [q|] eqn:E; [|done].
  apply (Hld [PX 2 va; PX 1 va]); [apply path_ok_PX|apply PX_range; lia|done].
Qed.

Lemma user_ok_ext m m' root l l' :
  (forall path, path_ok path -> page_at m' root path = page_at m root path) ->
  (forall va, pte_of m' root va = pte_of m root va) -> (forall p, p ∈ l' -> p ∈ l) ->
  user_ok m root l -> user_ok m' root l'.
Proof.
  intros Hat Hpte Hl [Hp Hi]. split.
  - intros va Hva. rewrite (user_page_ext m) by done. intros Hnz.
    destruct (Hp va Hva Hnz) as (H1 & H2 & H3). split_and!; [done|auto|].
    intros path p Hpath. rewrite Hat by done. by apply H3.
  - intros va va' Hva Hva'. rewrite !(user_page_ext m m') by done. by apply Hi.
Qed.

(** ** [copyin] *)

Lemma user_bytes_app m root n : forall va k,
  user_bytes m root va (n + k) = user_bytes m root va n ++ user_bytes m root (va + Z.of_nat n) k.
Proof.
  induction n as [|n IH]; intros va k; cbn [user_bytes Nat.add app].
  - f_equal. lia.
  - rewrite IH. do 3 f_equal. lia.
Qed.

Lemma user_bytes_split m root va n k :
  (k <= n)%nat ->
  user_bytes m root va n = user_bytes m root va k ++ user_bytes m root (va + Z.of_nat k) (n - k).
Proof. intros Hk. rewrite <- user_bytes_app. f_equal. lia. Qed.

(** A chunk inside one page. *)
Lemma user_bytes_chunk m root : forall n va p o,
  user_page m root va = p -> va mod 4096 = o -> o + Z.of_nat n <= 4096 ->
  user_bytes m root va n = read_bytes m (p + o) n.
Proof.
  induction n as [|n IH]; intros va p o Hp Ho Hn; [done|]. cbn [user_bytes].
  unfold user_addr, PGSIZE. rewrite Hp, Ho.
  destruct n as [|n]; [done|]. rewrite (IH (va + 1) p (o + 1)); [|..|lia].
  - cbn [read_bytes]. by rewrite Z.add_assoc.
  - rewrite <- Hp. apply user_page_same. rewrite !PGROUNDDOWN_eq. lia.
  - lia.
Qed.

(** One round of the loops: the chunk that lies in the page of [va]. *)
Definition chunk (va len : Z) : Z := Z.min (PGSIZE - (va - PGROUNDDOWN va)) len.

Lemma chunk_spec va len :
  0 < len -> 0 < chunk va len <= len /\ va mod 4096 + chunk va len <= 4096 /\
  (chunk va len < len -> va + chunk va len = PGROUNDDOWN va + PGSIZE) /\ va - PGROUNDDOWN va = va mod 4096.
Proof. intros Hl. unfold chunk. rewrite PGROUNDDOWN_eq. unfold PGSIZE. lia. Qed.

Lemma copyin_loop_spec root l s : forall fuel va n acc,
  pt_ok (k_mem s) root l -> (n < fuel)%nat -> user_range (k_mem s) root va n ->
  copyin_loop fuel root va n acc s = Done (0, acc ++ user_bytes (k_mem s) root va n) s.
Proof.
  induction fuel as [|fuel IH]; intros va n acc Hpt Hf Hr; [lia|]. cbn [copyin_loop].
  destruct n as [|n]; [by rewrite app_nil_r|]. set (len := S n) in *.
  rewrite (proj2 (Z.eqb_neq (Z.of_nat len) 0)) by lia.
  destruct (Hr va) as [Hva Hnz]; [lia|].
  assert (Hd : 0 <= PGROUNDDOWN va < MAXVA) by (rewrite PGROUNDDOWN_eq; lia).
  mstep (walkaddr_run s root (PGROUNDDOWN va) l Hpt Hd). rewrite user_page_down.
  rewrite (proj2 (Z.eqb_neq _ 0) Hnz). mrun. fold (chunk va (Z.of_nat len)).
  destruct (chunk_spec va (Z.of_nat len)) as (Hc & Hc1 & Hc2 & Hoff); [lia|].
  set (c := chunk va (Z.of_nat len)) in *. rewrite Hoff.
  rewrite (user_bytes_split _ _ va len (Z.to_nat c)), app_assoc by lia.
  rewrite (user_bytes_chunk _ _ (Z.to_nat c) va _ _ eq_refl eq_refl) by lia.
  destruct (decide (len - Z.to_nat c = 0)%nat) as [E|E].
  - rewrite E. destruct fuel; [lia|]. by rewrite app_nil_r.
  - rewrite u64_small, IH.
    + do 4 f_equal. lia.
    + done.
    + lia.
    + intros a Ha. apply Hr. lia.
    + change MAXVA with (2 ^ 38) in *. unfold PGSIZE. lia.
Qed.

(** ** [copyout] *)

(** Bytes written inside one user page. *)
Lemma user_write_frame m root l va o bs :
  pt_ok m root l -> user_ok m root l -> 0 <= va < MAXVA -> user_page m root va <> 0 ->
  0 <= o -> o + Z.of_nat (length bs) <= 4096 ->
  let m' := write_bytes m (user_page m root va + o) bs in
  same_outside (user_page m root va) m m' /\ pt_ok m' root l /\ user_ok m' root l /\
  forall va', user_page m' root va' = user_page m root va'.
Proof.
  intros Hpt Hu Hva Hnz Ho Hlen m'. destruct (uo_page _ _ _ Hu va Hva Hnz) as (Hp & Hl & Hne).
  assert (Hso : same_outside (user_page m root va) m m').
  { intros a Ha. unfold m'. rewrite ld8_write_bytes. unfold PGSIZE in *. byte_cases. }
  destruct (data_frame m m' root l _ Hpt Hp Hso Hne) as [Hat Hpte].
  split_and!; [done|by apply (pt_ok_ext m _ _ l)|by apply (user_ok_ext m _ _ l)|].
  intros va'. by apply user_page_ext.
Qed.

(** Different user addresses are different physical addresses. *)
Lemma user_addr_ne m root l va v :
  user_ok m root l -> 0 <= va < MAXVA -> 0 <= v < MAXVA ->
  user_page m root va <> 0 -> user_page m root v <> 0 -> va <> v ->
  user_addr m root va <> user_addr m root v.
Proof.
  intros Hu Hva Hv Hn Hn' Hne E. unfold user_addr, PGSIZE in E.
  destruct (uo_page _ _ _ Hu va Hva Hn) as (Hp & _), (uo_page _ _ _ Hu v Hv Hn') as (Hp' & _).
  apply valid_page_pos in Hp, Hp'.
  assert (E1 : user_page m root va = user_page m root v) by lia.
  pose proof (uo_inj _ _ _ Hu va v Hva Hv Hn E1) as E2. rewrite !PGROUNDDOWN_eq in E2. lia.
Qed.

Lemma user_addr_chunk m root va i :
  va mod 4096 + Z.of_nat i < 4096 ->
  user_addr m root (va + Z.of_nat i) = user_page m root va + va mod 4096 + Z.of_nat i.
Proof.
  intros Hi. unfold user_addr, PGSIZE.
  rewrite (user_page_same m root (va + Z.of_nat i) va) by (rewrite !PGROUNDDOWN_eq; lia). lia.
Qed.

(** The effect of storing [src] at [va]: [m'] differs from [m] in the bytes of
    that user range only, and the tables are the same. *)
Record user_written m root l va (src : list Z) m' : Prop := {
  uw_pt : pt_ok m' root l;
  uw_user : user_ok m' root l;
  uw_page : forall va', user_page m' root va' = user_page m root va';
  uw_in : forall i c, src !! i = Some c -> ld8 m' (user_addr m root (va + Z.of_nat i)) = u8 c;
  uw_out : forall a, (forall v, va <= v < va + Z.of_nat (length src) -> a <> user_addr m root v) ->
    ld8 m' a = ld8 m a
}.

(** One chunk, then the rest. *)
Lemma user_written_chunk m root l va src (c : nat) va2 m' :
  pt_ok m root l -> user_ok m root l -> user_range m root va (length src) ->
  (0 < c <= length src)%nat -> va mod 4096 + Z.of_nat c <= 4096 ->
  ((c < length src)%nat -> va2 = va + Z.of_nat c) ->
  let m1 := write_bytes m (user_page m root va + va mod 4096) (take c src) in
  user_written m1 root l va2 (drop c src) m' -> user_written m root l va src m'.
Proof.
  intros Hpt Hu Hr Hc Hoff Hva2 m1 [W1 W2 W3 W4 W5].
  destruct (Hr va) as [Hva Hnz]; [lia|].
  assert (Hlt : length (take c src) = c) by (rewrite length_take; lia).
  assert (Hld : length (drop c src) = (length src - c)%nat) by apply length_drop.
  destruct (user_write_frame m root l va (va mod 4096) (take c src)) as (_ & _ & _ & Hup); try done; [lia..|].
  fold m1 in Hup.
  assert (Hua : forall v, user_addr m1 root v = user_addr m root v) by (intros v; unfold user_addr; by rewrite Hup).
  split; [done|done| |..].
  - intros va'. by rewrite W3, Hup.
  - intros i b Hi. pose proof (lookup_lt_Some _ _ _ Hi) as Hil.
    destruct (decide (i < c)%nat) as [Hic|Hic].
    + rewrite W5.
      * rewrite user_addr_chunk by lia. unfold m1. rewrite ld8_write_bytes, Hlt. byte_cases.
        replace (Z.to_nat _) with i by lia. by rewrite lookup_take_lt, Hi by lia.
      * intros v Hv. rewrite Hld in Hv. rewrite (Hva2 ltac:(lia)) in Hv. rewrite Hua.
        destruct (Hr v) as [Hv0 Hvn]; [lia|]. destruct (Hr (va + Z.of_nat i)) as [Hi0 Hin]; [lia|].
        apply (user_addr_ne m root l); auto. lia.
    + rewrite <- (W4 (i - c)%nat b), Hua; [|rewrite lookup_drop; rewrite <- Hi; f_equal; lia].
      do 2 f_equal. rewrite (Hva2 ltac:(lia)). lia.
  - intros a Ha. rewrite W5.
    + unfold m1. rewrite ld8_write_bytes, Hlt. byte_cases.
      exfalso. apply (Ha (va + (a - (user_page m root va + va mod 4096)))); [lia|].
      rewrite <- (Z2Nat.id (a - _)) by lia. rewrite user_addr_chunk; lia.
    + intros v Hv. rewrite Hua. apply Ha. rewrite Hld in Hv. rewrite (Hva2 ltac:(lia)) in Hv. lia.
Qed.

Lemma copyout_loop_spec root l : forall fuel va src s,
  pt_ok (k_mem s) root l -> user_ok (k_mem s) root l -> (length src < fuel)%nat ->
  user_range (k_mem s) root va (length src) ->
  exists m', copyout_loop fuel root va src s = Done 0 (set_k_mem m' s) /\
    user_written (k_mem s) root l va src m'.
Proof.
  induction fuel as [|fuel IH]; intros va src s Hpt Hu Hf Hr; [lia|]. cbn [copyout_loop].
  destruct (decide (src = [])) as [->|Hsrc].
  { exists (k_mem s). split; [by destruct s|]. split; try done. }
  assert (Hlen : (0 < length src)%nat) by (destruct src; [done|cbn; lia]).
  rewrite (proj2 (Z.eqb_neq (Z.of_nat (length src)) 0)) by lia.
  destruct (Hr va) as [Hva Hnz]; [lia|].
  assert (Hd : 0 <= PGROUNDDOWN va < MAXVA) by (rewrite PGROUNDDOWN_eq; lia).
  mstep (walkaddr_run s root (PGROUNDDOWN va) l Hpt Hd). rewrite user_page_down.
  rewrite (proj2 (Z.eqb_neq _ 0) Hnz). unfold mod_mem. mrun. fold (chunk va (Z.of_nat (length src))).
  destruct (chunk_spec va (Z.of_nat (length src))) as (Hc & Hc1 & Hc2 & Hoff); [lia|].
  set (c := chunk va (Z.of_nat (length src))) in *. rewrite Hoff.
  destruct (user_write_frame (k_mem s) root l va (va mod 4096) (take (Z.to_nat c) src))
    as (_ & Hpt1 & Hu1 & Hup); try done; [lia|rewrite length_take; lia|].
  set (m1 := write_bytes _ _ _) in *.
  assert (Hva2 : c < Z.of_nat (length src) -> u64 (PGROUNDDOWN va + PGSIZE) = va + c).
  { intros Hlt. rewrite u64_small; [symmetry; auto|]. change MAXVA with (2 ^ 38) in *. unfold PGSIZE. lia. }
  destruct (IH (u64 (PGROUNDDOWN va + PGSIZE)) (drop (Z.to_nat c) src) (set_k_mem m1 s)) as (m' & Hrun & Hw);
    [done|done|rewrite length_drop; lia| |].
  { intros a Ha. rewrite length_drop in Ha. rewrite Hva2 in Ha by lia. cbn. rewrite Hup. apply Hr. lia. }
  exists m'. split; [rewrite Hrun; ks_eq|].
  apply (user_written_chunk _ _ _ _ _ (Z.to_nat c) (u64 (PGROUNDDOWN va + PGSIZE))); try done; [lia|lia|].
  intros Hlt. rewrite Hva2; lia.
Qed.


End User.

(** ** Growing an address space *)

Record aspace_ok {X} `{Symbols} (s : kstate X) (root : Z) (l : list Z) : Prop := {
  as_ready : kmem_ready s;
  as_kmem : kmem_ok s l;
  as_pt : pt_ok (k_mem s) root l;
  as_user : user_ok (k_mem s) root l
}.

(** From [s] to [s'] the virtual pages from [lo] to [hi] became zero pages; the
    other user pages and their contents, and the rest of the state, are the
    same. *)
Record grown {X} (root : Z) (s s' : kstate X) (lo hi : Z) : Prop := {
  gr_in : forall va, lo <= va < hi ->
    user_page (k_mem s') root va <> 0 /\ ld8 (k_mem s') (user_addr (k_mem s') root va) = 0;
  gr_out : forall va, 0 <= va < MAXVA -> ~ (lo <= va < hi) ->
    user_page (k_mem s') root va = user_page (k_mem s) root va /\
    (user_page (k_mem s) root va <> 0 ->
     ld8 (k_mem s') (user_addr (k_mem s') root va) = ld8 (k_mem s) (user_addr (k_mem s) root va));
  gr_state : s' = set_k_mem (k_mem s') (set_k_freelist (k_freelist s') s)
}.

Section Grow.
Context {X : Type} `{SymbolsOk}.
Implicit Types (s : kstate X) (m : mem).

Lemma grown_refl root s a : grown root s s a a.
Proof. split; [lia|done|by destruct s]. Qed.

Lemma grown_trans root s1 s2 s3 a b c :
  0 <= a <= b -> b <= c <= MAXVA -> grown root s1 s2 a b -> grown root s2 s3 b c -> grown root s1 s3 a c.
Proof.
  intros Hab Hbc [A1 A2 A3] [B1 B2 B3]. split.
  - intros va Hva. destruct (decide (b <= va)) as [Hb|Hb]; [apply B1; lia|].
    destruct (A1 va) as [Hn Hz]; [lia|]. destruct (B2 va) as [Ep Ec]; [lia|lia|]. rewrite Ep, Ec by done. done.
  - intros va Hva Hout. destruct (A2 va) as [Ep Ec]; [lia|lia|]. destruct (B2 va) as [Ep' Ec']; [lia|lia|].
    split; [congruence|]. intros Hn. rewrite Ec', Ec; congruence.
  - rewrite B3, A3. ks_eq.
Qed.

(** A page taken from the free list and filled. *)
Lemma kalloc_fill s root q l (fill : mem -> mem) :
  aspace_ok s root (q :: l) -> (forall m, same_outside q m (fill m)) ->
  exists s1, kalloc s = Done q s1 /\ q <> 0 /\ valid_page q /\ q ∉ l /\ same_outside q (k_mem s) (k_mem s1) /\
    let s2 := set_k_mem (fill (k_mem s1)) s1 in
    aspace_ok s2 root l /\
    same_outside q (k_mem s) (k_mem s2) /\
    (forall path, path_ok path -> page_at (k_mem s2) root path = page_at (k_mem s) root path) /\
    (forall va, pte_of (k_mem s2) root va = pte_of (k_mem s) root va) /\
    s2 = set_k_mem (k_mem s2) (set_k_freelist (k_freelist s2) s).
Proof.
  intros [Hr Hk Hpt Hu] Hfill.
  destruct (kalloc_spec s q l Hr Hk) as (s1 & Hrun & Hk1 & Hq & Hni & Hso & _ & Hs1).
  exists s1. split; [done|]. split; [apply valid_page_pos in Hq; lia|]. do 3 (split; [done|]). intros s2.
  assert (Hso2 : same_outside q (k_mem s) (k_mem s2))
    by (eapply same_outside_trans; [exact Hso|apply Hfill]).
  assert (Hs2 : s2 = set_k_mem (k_mem s2) (set_k_freelist (k_freelist s2) s))
    by (unfold s2; rewrite Hs1; ks_eq).
  destruct (data_frame (k_mem s) (k_mem s2) root (q :: l) q Hpt Hq Hso2) as [Hat Hpte].
  { intros path p Hpath E ->. destruct (pt_pages _ _ _ Hpt path q Hpath E) as [_ Hn]. apply Hn. by left. }
  assert (Hsub : forall p, p ∈ l -> p ∈ q :: l) by (intros; by right).
  split_and!; [|exact Hso2|exact Hat|exact Hpte|exact Hs2]. split.
  - apply (kmem_ready_hw s); [|done]. rewrite Hs2. hw_eq.
  - destruct Hk1 as [Hk1 Hnd]. split; [|done]. by apply (freelist_rep_frame _ _ q l Hq Hni (Hfill (k_mem s1))).
  - by apply (pt_ok_ext (k_mem s) _ _ (q :: l)).
  - by apply (user_ok_ext (k_mem s) _ _ (q :: l)).
Qed.

(** A page taken from the free list and cleared. *)
Lemma kalloc_zeroed s root q l :
  aspace_ok s root (q :: l) ->
  exists s1, kalloc s = Done q s1 /\ q <> 0 /\ valid_page q /\ q ∉ l /\
    let s2 := set_k_mem (memset (k_mem s1) q 0 (Z.to_nat PGSIZE)) s1 in
    aspace_ok s2 root l /\
    same_outside q (k_mem s) (k_mem s2) /\
    (forall path, path_ok path -> page_at (k_mem s2) root path = page_at (k_mem s) root path) /\
    (forall va, pte_of (k_mem s2) root va = pte_of (k_mem s) root va) /\
    (forall a, q <= a < q + PGSIZE -> ld8 (k_mem s2) a = 0) /\
    s2 = set_k_mem (k_mem s2) (set_k_freelist (k_freelist s2) s).
Proof.
  intros Has. destruct (kalloc_fill s root q l (fun m => memset m q 0 (Z.to_nat PGSIZE)) Has (same_outside_memset q 0))
    as (s1 & Hrun & Hq0 & Hq & Hni & _ & Has2 & Hso & Hat & Hpte & Hs2).
  exists s1. do 4 (split; [done|]). intros s2. split_and!; [exact Has2|exact Hso|exact Hat|exact Hpte| |exact Hs2].
  intros a Ha. unfold s2. ks_norm. rewrite ld8_memset. unfold PGSIZE in *. byte_cases. done.
Qed.

Definition urwx : Z := Z.lor (Z.lor (Z.lor PTE_W PTE_X) PTE_R) PTE_U.

(** The permission bits of an entry. *)
Lemma pte_land pa perm b :
  0 <= pa < 2 ^ 56 -> pa mod 4096 = 0 -> 0 <= perm < 1024 -> Z.land 1023 b = b ->
  Z.land (Z.lor (Z.lor (PA2PTE pa) perm) PTE_V) b = Z.land (Z.lor perm PTE_V) b.
Proof.
  intros Hpa Hal Hperm Hb. destruct (pte_roundtrip pa perm Hpa Hal Hperm) as (_ & Hfl & _).
  rewrite <- Hfl. unfold PTE_FLAGS. rewrite <- Z.land_assoc. by rewrite Hb.
Qed.

Lemma user_page_new m root va q :
  valid_page q -> pte_of m root va = Z.lor (Z.lor (PA2PTE q) urwx) PTE_V -> user_page m root va = q.
Proof.
  intros Hq E. apply valid_page_pos in Hq. unfold user_page. rewrite E.
  rewrite !pte_land by (lia || done || (vm_compute; intuition congruence)).
  destruct (pte_roundtrip q urwx) as (Hpa & _ & _); [lia|lia|vm_compute; intuition congruence|].
  by rewrite Hpa.
Qed.

(** Mapping a page that belongs to nobody, for the user or not, keeps the address
    space well formed. *)
Lemma map_user_page s root l s' l' a q q' :
  aspace_ok s root l -> valid_page q -> q ∉ l -> q' = q \/ q' = 0 ->
  (forall path p, path_ok path -> page_at (k_mem s) root path = Some p -> p <> q) ->
  (forall va, 0 <= va < MAXVA -> user_page (k_mem s) root va <> q) ->
  pt_step root s l s' l' ->
  (forall va, 0 <= va < MAXVA ->
     user_page (k_mem s') root va = if PGROUNDDOWN va =? a then q' else user_page (k_mem s) root va) ->
  aspace_ok s' root l'.
Proof.
  intros [Hr Hk Hpt Hu] Hq Hql Hq' Hnp Hnu Hst Hup. destruct (ps_used _ _ _ _ _ Hst) as [used El].
  assert (Hsub : forall p, p ∈ l' -> p ∈ l) by (intros p Hp; rewrite El; apply elem_of_app; by right).
  split; [by apply (pt_step_ready root s l _ l')|apply Hst|apply Hst|]. split.
  - intros va Hva. rewrite (Hup va Hva). intros Hn. destruct (PGROUNDDOWN va =? a).
    + destruct Hq' as [->|]; [|done]. split_and!; [done|auto|]. intros path p Hpath E.
      apply (ps_new _ _ _ _ _ Hst) in E as [E|E]; [by apply (Hnp path)|congruence|done].
    + destruct (uo_page _ _ _ Hu va Hva Hn) as (H1 & H2 & H3). split_and!; [done|auto|].
      intros path p Hpath E. apply (ps_new _ _ _ _ _ Hst) in E as [E|E]; [by apply (H3 path)|congruence|done].
  - intros va va' Hva Hva'. rewrite (Hup va Hva), (Hup va' Hva').
    destruct (Z.eqb_spec (PGROUNDDOWN va) a), (Z.eqb_spec (PGROUNDDOWN va') a); [congruence|..].
    + intros Hn E. destruct Hq' as [->|]; [|done]. by destruct (Hnu va' Hva').
    + intros Hn E. destruct Hq' as [->| ->]; [|done]. by destruct (Hnu va Hva).
    + by apply (uo_inj _ _ _ Hu).
Qed.

Lemma mappages_page s l root a pa perm :
  kmem_ready s -> kmem_ok s l -> pt_ok (k_mem s) root l ->
  0 <= a -> a mod 4096 = 0 -> a + PGSIZE <= MAXVA -> Z.land (pte_of (k_mem s) root a) PTE_V = 0 ->
  0 <= pa -> pa + PGSIZE <= 2 ^ 56 -> pa mod 4096 = 0 -> 0 <= perm < 1024 ->
  exists r s' l', mappages root a PGSIZE pa perm s = Done r s' /\ pt_step root s l s' l' /\
    (length l <= length l' + 2)%nat /\
    (r = 0 /\ (forall va, 0 <= va < MAXVA -> pte_of (k_mem s') root va =
        if PGROUNDDOWN va =? a then Z.lor (Z.lor (PA2PTE pa) perm) PTE_V else pte_of (k_mem s) root va) \/
     r = -1 /\ (length l < 2)%nat /\ l' = [] /\
       forall va, 0 <= va < MAXVA -> pte_of (k_mem s') root va = pte_of (k_mem s) root va).
Proof.
  intros Hr Hk Hpt Ha Hal Hmax Hfree Hpa Hpa2 Hpal Hperm. unfold mappages.
  assert (Hd : PGROUNDDOWN a = a) by (rewrite PGROUNDDOWN_eq; lia).
  assert (Hd2 : PGROUNDDOWN (u64 (a + PGSIZE - 1)) = a).
  { change MAXVA with (2 ^ 38) in *. rewrite u64_small, PGROUNDDOWN_eq by (unfold PGSIZE in *; lia).
    unfold PGSIZE; lia. }
  rewrite Hd, Hd2, Z.sub_diag.
  destruct (mappages_loop_spec root perm 0 s l a pa) as (r & s' & l' & k & Hrun & Hst & Hres & Hlen & Hpte);
    try done; try lia.
  { intros va Hva. rewrite (pte_of_page _ _ va a); [done|]. rewrite !PGROUNDDOWN_eq. unfold PGSIZE in *. lia. }
  exists r, s', l'. rewrite Z.mul_0_l, Z.add_0_r in Hrun. split_and!; [done|done|lia|].
  destruct Hres as [[-> ->]|(-> & Hk0 & -> & Hl)]; [left|right].
  - split; [done|]. intros va Hva. rewrite Hpte by done. unfold mapped. rewrite PGROUNDDOWN_eq.
    destruct (Z.leb_spec a va), (Z.ltb_spec va (a + Z.of_nat 1 * PGSIZE)), (Z.eqb_spec (va - va mod 4096) a);
      cbn [andb]; unfold PGSIZE in *; try done; try lia. do 3 f_equal. lia.
  - split_and!; [done|lia|done|]. intros va Hva. rewrite Hpte by done.
    replace k with O by lia. apply mapped_0.
Qed.

(** Bytes of a page that is neither free nor a table. *)
Lemma pt_step_byte s root l s' l' p a :
  kmem_ok s l -> pt_ok (k_mem s) root l -> pt_step root s l s' l' -> valid_page p -> p ∉ l ->
  (forall path q, path_ok path -> page_at (k_mem s) root path = Some q -> q <> p) ->
  p <= a < p + PGSIZE -> ld8 (k_mem s') a = ld8 (k_mem s) a.
Proof.
  intros Hk Hpt Hst Hp Hl Hne Ha.
  assert (Hout : forall q, valid_page q -> q <> p -> outside a q).
  { intros q Hq Hqp Hin. destruct (valid_page_disjoint p q Hp Hq); [congruence|unfold PGSIZE in *; lia..]. }
  apply (ps_frame _ _ _ _ _ Hst).
  - intros q Hq. apply Hout; [by apply (free_valid s l)|congruence].
  - intros path q Hpath E. apply Hout; [by apply (pt_pages _ _ _ Hpt path)|by apply (Hne path)].
Qed.


(** What a change of one address space leaves alone: it takes pages from the free
    list only, for tables or for data, and writes nowhere else. *)
Record private_step (root : Z) s (l : list Z) s' (l' : list Z) : Prop := {
  pv_free : forall p, p ∈ l' -> p ∈ l;
  pv_tables : forall path p, path_ok path -> page_at (k_mem s') root path = Some p -> page_at (k_mem s) root path = Some p \/ p ∈ l;
  pv_frame : forall a, (forall p, p ∈ l -> outside a p) ->
    (forall path p, path_ok path -> page_at (k_mem s) root path = Some p -> outside a p) -> ld8 (k_mem s') a = ld8 (k_mem s) a
}.

(** A page is taken and filled, and then the table changes. *)
Lemma private_fill root s q l s2 s' l' :
  same_outside q (k_mem s) (k_mem s2) -> (forall path, path_ok path -> page_at (k_mem s2) root path = page_at (k_mem s) root path) ->
  pt_step root s2 l s' l' -> private_step root s (q :: l) s' l'.
Proof.
  intros Hso Hat Hst. split.
  - intros p Hp. destruct (ps_used _ _ _ _ _ Hst) as [u ->]. right. apply elem_of_app. by right.
  - intros path p Hpath E. apply (ps_new _ _ _ _ _ Hst) in E as [E|E]; [left; by rewrite <- Hat|right; by right|done].
  - intros a Hl Ht. rewrite (ps_frame _ _ _ _ _ Hst).
    + apply Hso. apply Hl. by left.
    + intros p Hp. apply Hl. by right.
    + intros path p Hpath. rewrite Hat by done. by apply Ht.
Qed.

Lemma uvmalloc_one s root l a :
  aspace_ok s root l -> (3 <= length l)%nat -> 0 <= a -> a mod 4096 = 0 -> a + PGSIZE <= MAXVA ->
  Z.land (pte_of (k_mem s) root a) PTE_V = 0 ->
  exists s' l', aspace_ok s' root l' /\ (length l <= length l' + 3)%nat /\
    grown root s s' a (a + PGSIZE) /\
    (forall va, 0 <= va < MAXVA -> ~ (a <= va < a + PGSIZE) ->
       pte_of (k_mem s') root va = pte_of (k_mem s) root va) /\
    private_step root s l s' l' /\ (forall va, a <= va < a + PGSIZE -> user_page (k_mem s') root va ∈ l) /\
    forall f oldsz newsz, a < newsz ->
      uvmalloc_loop (S f) root a oldsz newsz s = uvmalloc_loop f root (u64 (a + PGSIZE)) oldsz newsz s'.
Proof.
  intros Has Hl Ha Hal Hmax Hfree. destruct l as [|q l]; [cbn in Hl; lia|].
  destruct (kalloc_zeroed s root q l Has) as (s1 & Hrun & Hq0 & Hq & Hql & Has2 & Hso & Hat & Hpte & Hzero & Hs2).
  set (s2 := set_k_mem _ s1) in *.
  assert (Hqp := valid_page_pos q Hq).
  destruct (mappages_page s2 l root a q urwx) as (r & s' & l' & Hmap & Hst & Hlen & Hres);
    [apply Has2|apply Has2|apply Has2|done|done|done|by rewrite Hpte|lia|unfold PGSIZE; lia|lia
    |vm_compute; intuition congruence|].
  cbn in Hl. destruct Hres as [[-> Hptes]|(_ & Hl2 & _)]; [|lia].
  pose proof (pt_pages _ _ _ (as_pt _ _ _ Has)) as Hpages.
  assert (Hqpt : forall path p, path_ok path -> page_at (k_mem s2) root path = Some p -> p <> q).
  { intros path p Hpath E ->. rewrite Hat in E by done. destruct (Hpages path q Hpath E) as [_ Hn].
    apply Hn. by left. }
  assert (Hup : forall va, 0 <= va < MAXVA -> user_page (k_mem s') root va =
            if PGROUNDDOWN va =? a then q else user_page (k_mem s) root va).
  { intros va Hva. specialize (Hptes va Hva). destruct (PGROUNDDOWN va =? a).
    - by apply user_page_new.
    - apply user_page_ext. by rewrite Hptes. }
  assert (Hup2 : forall va, user_page (k_mem s2) root va = user_page (k_mem s) root va)
    by (intros va; apply user_page_ext, Hpte).
  assert (Hin : forall va, a <= va < a + PGSIZE -> PGROUNDDOWN va = a)
    by (intros va Hva; rewrite PGROUNDDOWN_eq; unfold PGSIZE in *; lia).
  assert (Hnotin : forall va, ~ (a <= va < a + PGSIZE) -> PGROUNDDOWN va =? a = false)
    by (intros va Hva; apply Z.eqb_neq; rewrite PGROUNDDOWN_eq; unfold PGSIZE in *; lia).
  exists s', l'. split_and!.
  - apply (map_user_page s2 root l s' l' a q q); [assumption..|by left|assumption| |assumption|].
    + intros va Hva E. rewrite Hup2 in E.
      destruct (uo_page _ _ _ (as_user _ _ _ Has) va Hva) as (_ & Hn & _); [congruence|].
      rewrite E in Hn. apply Hn. by left.
    + intros va Hva. by rewrite Hup, Hup2.
  - cbn. lia.
  - split.
    + intros va Hva. unfold user_addr. rewrite Hup, (Hin va Hva), Z.eqb_refl by lia. split; [done|].
      rewrite (pt_step_byte s2 root l s' l' q); [|apply Has2|apply Has2|assumption..|unfold PGSIZE; lia].
      apply Hzero. unfold PGSIZE; lia.
    + intros va Hva Hout. unfold user_addr. rewrite Hup, (Hnotin va Hout) by done. split; [done|]. intros Hn.
      destruct (uo_page _ _ _ (as_user _ _ _ Has) va Hva Hn) as (Hp & Hpl & Hpn).
      apply not_elem_of_cons in Hpl as [Hpq Hpl].
      rewrite (pt_step_byte s2 root l s' l' (user_page (k_mem s) root va));
        [|apply Has2|apply Has2|assumption..| |unfold PGSIZE; lia].
      * apply Hso. intros Hx. destruct (valid_page_disjoint q _ Hq Hp); [congruence|unfold PGSIZE in *; lia..].
      * intros path p Hpath. rewrite Hat by done. by apply Hpn.
    + rewrite (ps_state _ _ _ _ _ Hst), Hs2. ks_eq.
  - intros va Hva Hout. rewrite Hptes by done. by rewrite Hnotin, Hpte.
  - by apply (private_fill root s q l s2).
  - intros va Hva. rewrite Hup, (Hin va Hva), Z.eqb_refl by lia. by left.
  - intros f oldsz newsz Hlt. cbn [uvmalloc_loop]. rewrite (proj2 (Z.leb_gt newsz a) Hlt). mstep Hrun.
    rewrite (proj2 (Z.eqb_neq q 0) Hq0). unfold mod_mem. mrun. fold s2. mstep Hmap. done.
Qed.

Lemma uvmalloc_loop_spec root oldsz newsz : forall n s l a f,
  aspace_ok s root l -> (3 * n <= length l)%nat -> 0 <= a -> a mod 4096 = 0 ->
  a + Z.of_nat n * PGSIZE <= MAXVA -> newsz <= a + Z.of_nat n * PGSIZE ->
  (n <> O -> a + (Z.of_nat n - 1) * PGSIZE < newsz) -> (n < f)%nat ->
  (forall va, a <= va < a + Z.of_nat n * PGSIZE -> Z.land (pte_of (k_mem s) root va) PTE_V = 0) ->
  exists s' l', uvmalloc_loop f root a oldsz newsz s = Done newsz s' /\
    aspace_ok s' root l' /\ grown root s s' a (a + Z.of_nat n * PGSIZE).
Proof.
  induction n as [|n IH]; intros s l a f Has Hl Ha Hal Hmax Hnew1 Hnew2 Hf Hfree; (destruct f as [|f]; [lia|]).
  - exists s, l. cbn [uvmalloc_loop]. rewrite (proj2 (Z.leb_le newsz a)), Z.add_0_r by lia.
    split_and!; [done|done|apply grown_refl].
  - destruct (uvmalloc_one s root l a Has) as (s1 & l1 & Has1 & Hlen & Hgr & Hpte & _ & _ & Hrun);
      [lia|done|done|unfold PGSIZE in *; lia|apply Hfree; unfold PGSIZE; lia|].
    specialize (Hnew2 ltac:(lia)). rewrite Hrun by (unfold PGSIZE in *; lia).
    rewrite u64_small by (change MAXVA with (2 ^ 38) in *; unfold PGSIZE in *; lia).
    destruct (IH s1 l1 (a + PGSIZE) f) as (s' & l' & Hrun' & Has' & Hgr');
      [exact Has1|unfold PGSIZE in *; lia..| |].
    + intros va Hva. rewrite Hpte by (unfold PGSIZE in *; lia). apply Hfree. unfold PGSIZE in *; lia.
    + exists s', l'. split_and!; [done|done|].
      replace (a + Z.of_nat (S n) * PGSIZE) with (a + PGSIZE + Z.of_nat n * PGSIZE) by lia.
      apply (grown_trans root s s1 s' a (a + PGSIZE)); [unfold PGSIZE; lia|unfold PGSIZE in *; lia|done|done].
Qed.


End Grow.

(** ** Reading with unmapped pages *)

Section CopyFail.
Context {X : Type} `{SymbolsOk}.
Implicit Types (s : kstate X) (m : mem).

Lemma user_range_chunk m root va n (c : nat) va2 :
  0 <= va < MAXVA -> user_page m root va <> 0 -> va mod 4096 + Z.of_nat c <= 4096 -> (0 < c <= n)%nat ->
  ((c < n)%nat -> va2 = va + Z.of_nat c) -> user_range m root va2 (n - c) -> user_range m root va n.
Proof.
  intros Hva Hn Hc Hcn Hva2 Hr a Ha. destruct (decide (a < va + Z.of_nat c)).
  - assert (E : PGROUNDDOWN a = PGROUNDDOWN va) by (rewrite !PGROUNDDOWN_eq; lia).
    rewrite (user_page_same m root a va E). change MAXVA with (2 ^ 38) in *.
    split; [|done]. rewrite !PGROUNDDOWN_eq in E. lia.
  - apply Hr. rewrite (Hva2 ltac:(lia)). lia.
Qed.

Lemma copyin_loop_fail root l s : forall fuel va n acc,
  pt_ok (k_mem s) root l -> 0 <= va -> (n < fuel)%nat -> ~ user_range (k_mem s) root va n ->
  exists acc', copyin_loop fuel root va n acc s = Done (-1, acc') s.
Proof.
  induction fuel as [|fuel IH]; intros va n acc Hpt Hva Hf Hr; [lia|]. cbn [copyin_loop].
  destruct (decide (n = O)) as [->|Hn0]; [exfalso; apply Hr; intros a Ha; lia|].
  rewrite (proj2 (Z.eqb_neq (Z.of_nat n) 0)) by lia.
  destruct (decide (va < MAXVA)) as [Hmax|Hmax].
  2: { rewrite (bind_Done (walkaddr root (PGROUNDDOWN va)) _ s 0 s);
         [by exists acc|]. apply walkaddr_high. change MAXVA with (2 ^ 38) in *.
       rewrite PGROUNDDOWN_eq. lia. }
  assert (Hd : 0 <= PGROUNDDOWN va < MAXVA) by (rewrite PGROUNDDOWN_eq; lia).
  mstep (walkaddr_run s root (PGROUNDDOWN va) l Hpt Hd). rewrite user_page_down.
  destruct (Z.eqb_spec (user_page (k_mem s) root va) 0) as [Hz|Hnz]; [by exists acc|]. mrun.
  fold (chunk va (Z.of_nat n)).
  destruct (chunk_spec va (Z.of_nat n)) as (Hc & Hc1 & Hc2 & Hoff); [lia|].
  set (c := chunk va (Z.of_nat n)) in *. apply IH; [done|unfold u64; lia|lia|]. intros Hr2. apply Hr.
  apply (user_range_chunk _ _ _ _ (Z.to_nat c) (u64 (PGROUNDDOWN va + PGSIZE))); try done; [lia|lia|].
  intros Hlt. change MAXVA with (2 ^ 38) in *. rewrite u64_small by (unfold PGSIZE; lia). lia.
Qed.

(** [copyout] in general: it returns 0 or -1 and writes to user pages only. *)
Record user_only m root l m' : Prop := {
  un_pt : pt_ok m' root l;
  un_user : user_ok m' root l;
  un_at : forall path, path_ok path -> page_at m' root path = page_at m root path;
  un_pte : forall va, pte_of m' root va = pte_of m root va;
  un_out : forall a, (forall v, 0 <= v < MAXVA -> user_page m root v <> 0 -> outside a (user_page m root v)) ->
    ld8 m' a = ld8 m a
}.

Lemma user_only_refl m root l : pt_ok m root l -> user_ok m root l -> user_only m root l m.
Proof. by split. Qed.

Lemma user_only_write m root l va o bs m' :
  pt_ok m root l -> user_ok m root l -> 0 <= va < MAXVA -> user_page m root va <> 0 ->
  0 <= o -> o + Z.of_nat (length bs) <= 4096 ->
  user_only (write_bytes m (user_page m root va + o) bs) root l m' -> user_only m root l m'.
Proof.
  intros Hpt Hu Hva Hnz Ho Hlen [U1 U2 U3 U4 U5].
  destruct (uo_page _ _ _ Hu va Hva Hnz) as (Hp & Hl & Hne).
  destruct (user_write_frame m root l va o bs Hpt Hu Hva Hnz Ho Hlen) as (Hso & _ & _ & Hup).
  destruct (data_frame m _ root l _ Hpt Hp Hso Hne) as [Hat Hpte].
  split; [done|done| | |].
  - intros path Hpath. by rewrite U3, Hat.
  - intros v. by rewrite U4, Hpte.
  - intros a Ha. rewrite U5, Hso; [done|by apply Ha|].
    intros v Hv. rewrite Hup. by apply Ha.
Qed.

Lemma copyout_loop_total root l : forall fuel va src s,
  pt_ok (k_mem s) root l -> user_ok (k_mem s) root l -> 0 <= va -> (length src < fuel)%nat ->
  exists r m', copyout_loop fuel root va src s = Done r (set_k_mem m' s) /\ (r = 0 \/ r = -1) /\
    (~ user_range (k_mem s) root va (length src) -> r = -1) /\
    user_only (k_mem s) root l m'.
Proof.
  induction fuel as [|fuel IH]; intros va src s Hpt Hu Hva Hf; [lia|]. cbn [copyout_loop].
  assert (Hid : forall r, r = 0 \/ r = -1 -> (~ user_range (k_mem s) root va (length src) -> r = -1) ->
            exists r' m', Done r s = Done r' (set_k_mem m' s) /\ (r' = 0 \/ r' = -1) /\
            (~ user_range (k_mem s) root va (length src) -> r' = -1) /\ user_only (k_mem s) root l m').
  { intros r Hr Hr'. exists r, (k_mem s). split_and!; [by destruct s|done|done|by apply user_only_refl]. }
  destruct (Z.eqb_spec (Z.of_nat (length src)) 0) as [Hlen|Hlen].
  { apply Hid; [by left|]. intros []. intros a Ha. lia. }
  destruct (decide (va < MAXVA)) as [Hmax|Hmax].
  2: { rewrite (bind_Done (walkaddr root (PGROUNDDOWN va)) _ s 0 s); [apply Hid; [by right|done]|].
       apply walkaddr_high. change MAXVA with (2 ^ 38) in *. rewrite PGROUNDDOWN_eq. lia. }
  assert (Hd : 0 <= PGROUNDDOWN va < MAXVA) by (rewrite PGROUNDDOWN_eq; lia).
  mstep (walkaddr_run s root (PGROUNDDOWN va) l Hpt Hd). rewrite user_page_down.
  destruct (Z.eqb_spec (user_page (k_mem s) root va) 0) as [Hz|Hnz]; [apply Hid; [by right|done]|].
  unfold mod_mem. rewrite bind_modify. fold (chunk va (Z.of_nat (length src))).
  destruct (chunk_spec va (Z.of_nat (length src))) as (Hc & Hc1 & Hc2 & Hoff); [lia|].
  set (c := chunk va (Z.of_nat (length src))) in *. rewrite Hoff.
  assert (Hb : va mod 4096 + Z.of_nat (length (take (Z.to_nat c) src)) <= 4096) by (rewrite length_take; lia).
  destruct (user_write_frame (k_mem s) root l va (va mod 4096) (take (Z.to_nat c) src) Hpt Hu (conj Hva Hmax) Hnz
              ltac:(lia) Hb) as (_ & Hpt1 & Hu1 & Hup).
  destruct (IH (u64 (PGROUNDDOWN va + PGSIZE)) (drop (Z.to_nat c) src)
              (set_k_mem (write_bytes (k_mem s) (user_page (k_mem s) root va + va mod 4096) (take (Z.to_nat c) src)) s))
    as (r & m' & Hrun & Hr & Hfail & Hun); [exact Hpt1|exact Hu1|unfold u64; lia|rewrite length_drop; lia|].
  exists r, m'. split_and!; [rewrite Hrun; ks_eq|exact Hr| |].
  { intros Hnr. apply Hfail. intros Hr2. apply Hnr. rewrite length_drop in Hr2.
    apply (user_range_chunk _ _ _ _ (Z.to_nat c) (u64 (PGROUNDDOWN va + PGSIZE))); [lia|exact Hnz|lia|lia| |].
    - intros Hlt. change MAXVA with (2 ^ 38) in *. rewrite u64_small by (unfold PGSIZE; lia). lia.
    - intros a Ha. specialize (Hr2 a Ha). cbn [k_mem set_k_mem] in Hr2. by rewrite Hup in Hr2. }
  apply (user_only_write _ _ _ va (va mod 4096) (take (Z.to_nat c) src) m' Hpt Hu (conj Hva Hmax) Hnz); [lia|exact Hb|exact Hun].
Qed.


End CopyFail.

(** ** Properties *)

Section Properties.
Context {X : Type} `{SymbolsOk}.

(** C10: [mappages] over any range of unmapped pages.  It returns 0 and every
    page of the range translates to its physical page with the given
    permissions, or it returns -1, the free list is exhausted and only a prefix
    of the range is mapped; with two free pages for each page of the range it
    does not fail.  No other translation changes, the table stays well formed,
    and only tables and pages taken from the free list are written. *)
Theorem mappages_maps (s : kstate X) (l : list Z) (root va size pa perm : Z) :
  let a := PGROUNDDOWN va in
  let n := Z.to_nat ((PGROUNDDOWN (va + size - 1) - a) / PGSIZE) in
  kmem_ready s -> kmem_ok s l -> pt_ok (k_mem s) root l ->
  0 <= va -> 0 < size -> va + size <= MAXVA ->
  (forall v, va <= v < va + size -> Z.land (pte_of (k_mem s) root v) PTE_V = 0) ->
  0 <= pa -> pa + Z.of_nat (S n) * PGSIZE <= 2 ^ 56 -> pa mod PGSIZE = 0 -> 0 <= perm < 1024 ->
  exists r s' l' k, mappages root va size pa perm s = Done r s' /\
    pt_step root s l s' l' /\
    (r = 0 /\ k = S n \/ r = -1 /\ (k <= n)%nat /\ l' = [] /\ (length l < 2 * S n)%nat) /\
    forall v, 0 <= v < MAXVA -> pte_of (k_mem s') root v = mapped (pte_of (k_mem s) root) a k pa perm v.
Proof.
  intros a n Hr Hk Hpt Hva Hsz Hmax Hfree Hpa Hpa2 Hpal Hperm. change MAXVA with (2 ^ 38) in Hmax.
  assert (Ea : a = va - va mod 4096) by apply PGROUNDDOWN_eq.
  assert (El : PGROUNDDOWN (va + size - 1) = a + Z.of_nat n * PGSIZE).
  { unfold n. rewrite PGROUNDDOWN_eq. unfold PGSIZE. lia. }
  unfold mappages. fold a. rewrite u64_small by lia. fold n. rewrite El. rewrite PGROUNDDOWN_eq in El.
  destruct (mappages_loop_spec root perm n s l a pa) as (r & s' & l' & k & Hrun & Hst & Hres & _ & Hpte);
    try done; [lia|lia|change MAXVA with (2 ^ 38); unfold PGSIZE in *; lia| |].
  - intros v Hv. destruct (decide (va <= v < va + size)) as [|Hout]; [by apply Hfree|].
    destruct (decide (v < va)).
    + rewrite (pte_of_page _ _ v va) by (rewrite !PGROUNDDOWN_eq; unfold PGSIZE in *; lia). apply Hfree. lia.
    + rewrite (pte_of_page _ _ v (va + size - 1)) by (rewrite !PGROUNDDOWN_eq; unfold PGSIZE in *; lia).
      apply Hfree. lia.
  - by exists r, s', l', k.
Qed.

(** [copyin] is exact about user memory: when all the bytes are mapped for
    the user it returns 0 and those bytes, and otherwise it returns -1; it never
    changes the kernel state. *)
Theorem copyin_correct (s : kstate X) (l : list Z) (root srcva : Z) (len : nat) :
  pt_ok (k_mem s) root l -> 0 <= srcva ->
  (user_range (k_mem s) root srcva len ->
     copyin root srcva len s = Done (0, user_bytes (k_mem s) root srcva len) s) /\
  (~ user_range (k_mem s) root srcva len -> exists bs, copyin root srcva len s = Done (-1, bs) s).
Proof.
  intros Hpt Hva. split; intros Hr.
  - apply (copyin_loop_spec root l s (S len) srcva len []); [done|lia|done].
  - apply (copyin_loop_fail root l s); [done|done|lia|done].
Qed.

(** C16: what [copyout] stores in user memory [copyin] reads back, and [copyout]
    changes no byte outside that range of user memory and nothing else in the
    kernel state. *)
Theorem copyout_copyin (s : kstate X) (l : list Z) (root dstva : Z) (src : list Z) :
  pt_ok (k_mem s) root l -> user_ok (k_mem s) root l ->
  Forall (fun b => 0 <= b < 256) src -> user_range (k_mem s) root dstva (length src) ->
  exists m', copyout root dstva src s = Done 0 (set_k_mem m' s) /\
    copyin root dstva (length src) (set_k_mem m' s) = Done (0, src) (set_k_mem m' s) /\
    forall a, (forall v, dstva <= v < dstva + Z.of_nat (length src) -> a <> user_addr (k_mem s) root v) ->
      ld8 m' a = ld8 (k_mem s) a.
Proof.
  intros Hpt Hu Hb Hr.
  destruct (copyout_loop_spec root l (S (length src)) dstva src s) as (m' & Hrun & [W1 W2 W3 W4 W5]);
    [done|done|lia|done|].
  exists m'. split_and!; [exact Hrun| |exact W5]. unfold copyin.
  rewrite (copyin_loop_spec root l (set_k_mem m' s)); [|done|lia|].
  - cbn [app k_mem set_k_mem]. do 2 f_equal. revert W4 W3 Hb. clear. revert dstva.
    generalize (k_mem s) as m. intros m dstva W4 W3 Hb. revert dstva W4.
    induction src as [|b src IH]; intros dstva W4; [done|]. cbn [length user_bytes].
    apply Forall_cons in Hb as [Hb1 Hb]. f_equal.
    + specialize (W4 O b eq_refl). rewrite Z.add_0_r in W4. unfold user_addr in *.
      rewrite W3, W4. by apply u8_small.
    + apply IH; [done|]. intros i c Hi. specialize (W4 (S i) c Hi).
      replace (dstva + 1 + Z.of_nat i) with (dstva + Z.of_nat (S i)) by lia. exact W4.
  - intros a Ha. cbn. rewrite W3. by apply Hr.
Qed.

(** [copyout] never writes outside the pages mapped for the user: for any
    address and length it returns 0 when the whole range is mapped and -1
    otherwise, the page table and the mappings stay as they are, and every byte
    that is not in a user page keeps its value. *)
Theorem copyout_confined (s : kstate X) (l : list Z) (root dstva : Z) (src : list Z) :
  pt_ok (k_mem s) root l -> user_ok (k_mem s) root l -> 0 <= dstva ->
  exists r m', copyout root dstva src s = Done r (set_k_mem m' s) /\
    (user_range (k_mem s) root dstva (length src) -> r = 0) /\
    (~ user_range (k_mem s) root dstva (length src) -> r = -1) /\
    user_only (k_mem s) root l m'.
Proof.
  intros Hpt Hu Hva.
  destruct (copyout_loop_total root l (S (length src)) dstva src s Hpt Hu Hva) as (r & m' & Hrun & _ & Hfail & Hun);
    [lia|].
  exists r, m'. split_and!; [exact Hrun| |exact Hfail|exact Hun]. intros Hr.
  destruct (copyout_loop_spec root l (S (length src)) dstva src s) as (m'' & Hrun' & _); [done|done|lia|done|].
  rewrite Hrun in Hrun'. by injection Hrun'.
Qed.


End Properties.

(** ** An address space to evaluate on *)

Section Empty.
Context `{Symbols}.

(** A cleared page is an empty table. *)
Lemma empty_table_page (m : mem) root path p :
  (forall i, index_ok i -> load64 m (root + 8 * i) = 0) -> path_ok path -> page_at m root path = Some p -> path = [] /\ p = root.
Proof.
  intros Hz. destruct path as [|i path]; intros [Hp _]; cbn; [by intros [= ->]|]. apply Forall_cons in Hp as [Hi _].
  by rewrite (child_zero m root i) by auto.
Qed.

Lemma empty_table_ok (m : mem) root l :
  valid_page root -> root ∉ l -> (forall i, index_ok i -> load64 m (root + 8 * i) = 0) ->
  pt_ok m root l /\ user_ok m root l /\ forall va, pte_of m root va = 0.
Proof.
  intros Hv Hl Hz. pose proof (fun path p => empty_table_page m root path p Hz) as Hat.
  assert (Hpte : forall va, pte_of m root va = 0).
  { intros va. unfold pte_of. destruct (page_at m root _) as [p|] eqn:E; [|done].
    apply Hat in E as [E _]; [done|apply path_ok_PX]. }
  split_and!; [..|done].
  - split; [intros path p Hp E; by apply Hat in E as [_ ->]|].
    intros path path' p Hp Hp' E E'. by apply Hat in E as [-> _], E' as [-> _].
  - split; intros va; intros; unfold user_page in *; rewrite Hpte in *; done.
Qed.

End Empty.

(** Four free pages, and an empty table at 0x80050000. *)
Definition four_free : kstate unit :=
  set_k_freelist 0x80030000
    (set_k_mem (store64 (store64 (store64 (store64 ∅ 0x80030000 0x80031000) 0x80031000 0x80032000)
                           0x80032000 0x80033000) 0x80033000 0) (boot_state tt)).

Definition four_pages : list Z := [0x80030000; 0x80031000; 0x80032000; 0x80033000].

Lemma four_free_ready : @kmem_ready unit four_free.
Proof.
  split; [exists zero_cpu|reflexivity].
  split_and!; [reflexivity|cbn; lia|reflexivity|cbn; lia].
Qed.

Lemma four_free_ok : @kmem_ok unit sample_symbols four_free four_pages.
Proof.
  split; [repeat split; vm_compute; congruence|].
  repeat constructor; rewrite ?not_elem_of_cons, ?elem_of_nil; intuition lia.
Qed.

Lemma four_free_table :
  @pt_ok sample_symbols (k_mem four_free) 0x80050000 four_pages /\
  @user_ok sample_symbols (k_mem four_free) 0x80050000 four_pages /\
  forall va, pte_of (k_mem four_free) 0x80050000 va = 0.
Proof.
  apply (@empty_table_ok sample_symbols).
  - split; vm_compute; intuition congruence.
  - unfold four_pages. rewrite !not_elem_of_cons, elem_of_nil. intuition lia.
  - intros i Hi. unfold index_ok in Hi. unfold four_free. ks_norm.
    rewrite !load64_store64_other by lia. apply load64_empty.
Qed.

Lemma four_free_aspace : @aspace_ok unit sample_symbols four_free 0x80050000 four_pages.
Proof.
  destruct four_free_table as (H1 & H2 & _).
  split; [exact four_free_ready|exact four_free_ok|exact H1|exact H2].
Qed.

Lemma mappages_maps_witness :
  exists s', @mappages unit 0x80050000 0x1234 0x10 0x80040000 (Z.lor PTE_R PTE_U) four_free = Done 0 s' /\
    pte_of (k_mem s') 0x80050000 0x1000 = Z.lor (Z.lor (PA2PTE 0x80040000) (Z.lor PTE_R PTE_U)) PTE_V.
Proof.
  destruct four_free_table as (Hpt & _ & Hz).
  destruct (@mappages_maps unit sample_symbols sample_symbols_ok four_free four_pages 0x80050000 0x1234 0x10
              0x80040000 (Z.lor PTE_R PTE_U) four_free_ready four_free_ok Hpt)
    as (r & s' & l' & k & Hrun & _ & Hres & Hpte);
    [lia|lia|vm_compute; congruence|intros v _; by rewrite Hz|lia|vm_compute; congruence|reflexivity
    |vm_compute; intuition congruence|].
  destruct Hres as [[-> ->]|(_ & _ & _ & Hl)]; [|vm_compute in Hl; lia].
  exists s'. split; [exact Hrun|]. rewrite Hpte by (vm_compute; intuition congruence). reflexivity.
Defined.


(** An address space with its first page mapped. *)
Lemma one_page_aspace :
  exists (s : kstate unit) l, @aspace_ok unit sample_symbols s 0x80050000 l /\
    forall a, 0 <= a < PGSIZE -> user_page (k_mem s) 0x80050000 a <> 0 /\
      ld8 (k_mem s) (user_addr (k_mem s) 0x80050000 a) = 0.
Proof.
  destruct four_free_table as (_ & _ & Hz).
  destruct (@uvmalloc_one unit sample_symbols sample_symbols_ok four_free 0x80050000 four_pages 0
              four_free_aspace) as (s & l & Has & _ & Hgr & _);
    [vm_compute; lia|lia|reflexivity|vm_compute; congruence|by rewrite Hz|].
  exists s, l. split; [exact Has|]. intros a Ha. by apply (gr_in _ _ _ _ _ Hgr a).
Qed.

Lemma one_page_range (s : kstate unit) a n :
  (forall a, 0 <= a < PGSIZE -> user_page (k_mem s) 0x80050000 a <> 0 /\
     ld8 (k_mem s) (user_addr (k_mem s) 0x80050000 a) = 0) ->
  0 <= a -> a + Z.of_nat n <= PGSIZE -> user_range (k_mem s) 0x80050000 a n.
Proof.
  intros Hp Ha Hn v Hv. change MAXVA with (2 ^ 38). unfold PGSIZE in *. split; [lia|]. apply Hp. lia.
Qed.

Lemma copyin_correct_witness :
  exists s : kstate unit, @copyin unit 0x80050000 7 3 s = Done (0, [0; 0; 0]) s.
Proof.
  destruct one_page_aspace as (s & l & Has & Hp). exists s.
  destruct (@copyin_correct unit sample_symbols sample_symbols_ok s l 0x80050000 7 3) as [Hc _];
    [apply Has|lia|].
  rewrite Hc by (apply one_page_range; [exact Hp|lia|vm_compute; congruence]).
  cbn [user_bytes]. rewrite !(fun a Ha => proj2 (Hp a Ha)) by (unfold PGSIZE; lia). reflexivity.
Defined.

Lemma copyout_copyin_witness :
  exists s s' : kstate unit, @copyout unit 0x80050000 7 [104; 105] s = Done 0 s' /\
    @copyin unit 0x80050000 7 2 s' = Done (0, [104; 105]) s'.
Proof.
  destruct one_page_aspace as (s & l & Has & Hp).
  destruct (@copyout_copyin unit sample_symbols sample_symbols_ok s l 0x80050000 7 [104; 105])
    as (m' & H1 & H2 & _); [apply Has|apply Has|repeat constructor; lia| |].
  - apply one_page_range; [exact Hp|lia|vm_compute; congruence].
  - exists s, (set_k_mem m' s). split; [exact H1|exact H2].
Defined.

Lemma copyout_confined_witness :
  exists (s : kstate unit) m', @copyout unit 0x80050000 4095 [1; 2] s = Done (-1) (set_k_mem m' s).
Proof.
  destruct four_free_table as (Hpt & Hu & Hz). exists four_free.
  destruct (@copyout_confined unit sample_symbols sample_symbols_ok four_free four_pages 0x80050000 4095 [1; 2]
              Hpt Hu) as (r & m' & Hrun & _ & Hfail & _); [lia|].
  exists m'. rewrite Hfail in Hrun; [exact Hrun|]. intros Hr. destruct (Hr 4095) as [_ Hn]; [cbn; lia|].
  apply Hn. unfold user_page. by rewrite Hz.
Defined.
