(* ===== verification/VmSpec.v ===== *)
(** * What copying and shrinking an address space guarantee

    [uvmcopy] of Vm.v gives the child of [fork] its memory.  The copy takes fresh
    pages for the child's tables and data; the parent's tables and pages are not
    written, and the child reads the parent's bytes with the parent's permissions.
    [uvmdealloc] takes pages from an address space: they go back to the free list,
    each once, and the pages that stay keep their bytes.  The last part is about
    a table under construction: what mapping a page does when its tables exist,
    and how [uvmfree] gives back a table that could not be completed. *)

From S2P Require Import Prelude Machine Memory State Spinlock Kalloc Vm.

Section Copy.
Context {X : Type} `{SymbolsOk}.
Implicit Types (s : kstate X) (m : mem) (P : Z -> Prop).

(** The pages of [P] are neither free nor tables of [root], so that no step on
    that table writes to them. *)
Definition spared P m (root : Z) (l : list Z) : Prop :=
  forall p, P p -> valid_page p /\ p ∉ l /\ forall path q, path_ok path -> page_at m root path = Some q -> q <> p.

Definition kept P m m' : Prop := forall p a, P p -> p <= a < p + PGSIZE -> ld8 m' a = ld8 m a.

(** The pages that the table [root] is made of. *)
Definition table_page m (root p : Z) : Prop := exists path, path_ok path /\ page_at m root path = Some p.

Lemma kept_trans P m1 m2 m3 : kept P m1 m2 -> kept P m2 m3 -> kept P m1 m3.
Proof. intros A B p a Hp Ha. by rewrite (B p a Hp Ha), (A p a Hp Ha). Qed.

Lemma spared_step P s root l s' l' :
  kmem_ok s l -> pt_ok (k_mem s) root l -> spared P (k_mem s) root l -> pt_step root s l s' l' ->
  spared P (k_mem s') root l' /\ kept P (k_mem s) (k_mem s').
Proof.
  intros Hk Hpt Hsp Hst. split.
  - intros p Hp. destruct (Hsp p Hp) as (Hv & Hl & Ht). destruct (ps_used _ _ _ _ _ Hst) as [u ->]. split_and!; [done| |].
    + intros Hin. apply Hl, elem_of_app. by right.
    + intros path q Hpath E. apply (ps_new _ _ _ _ _ Hst) in E as [E|E]; [by apply (Ht path)|congruence|done].
  - intros p a Hp Ha. destruct (Hsp p Hp) as (Hv & Hl & Ht). by apply (pt_step_byte s root l s' l' p).
Qed.

Lemma kept_outside P m m' q : (forall p, P p -> valid_page p) -> valid_page q -> ~ P q -> same_outside q m m' -> kept P m m'.
Proof.
  intros Hv Hq Hn Hso p a Hp Ha. apply Hso. intros Hx.
  destruct (valid_page_disjoint p q (Hv p Hp) Hq); [congruence|unfold PGSIZE in *; lia..].
Qed.

(** A table whose pages are kept translates as before. *)
Lemma kept_table P m m' root :
  (forall p, table_page m root p -> P p) -> kept P m m' ->
  (forall path, path_ok path -> page_at m' root path = page_at m root path) /\ forall va, pte_of m' root va = pte_of m root va.
Proof.
  intros HP Hk.
  assert (Hld : forall path q i, path_ok path -> index_ok i -> page_at m root path = Some q -> load64 m' (q + 8 * i) = load64 m (q + 8 * i)).
  { intros path q i Hpath Hi E. pose proof (entry_in_page q i Hi). apply load64_ext. intros b Hb. apply (Hk q); [apply HP; by exists path|unfold PGSIZE in *; lia]. }
  assert (Hat : forall path, path_ok path -> page_at m' root path = page_at m root path).
  { apply page_at_frame. intros path q i Hpath _ Hi E. by apply (Hld path). }
  split; [done|]. intros va. unfold pte_of. rewrite Hat by apply path_ok_PX.
  destruct (page_at m root _) as [q|] eqn:E; [|done]. apply (Hld [PX 2 va; PX 1 va]); [apply path_ok_PX|apply PX_range; lia|done].
Qed.

(** The entry of the copy [q] of a page with the entry [v]. *)
Definition copy_pte (q v : Z) : Z := Z.lor (Z.lor (PA2PTE q) (PTE_FLAGS v)) PTE_V.

Lemma flags_range v : 0 <= PTE_FLAGS v < 1024.
Proof. unfold PTE_FLAGS. change 0x3FF with (Z.ones 10). rewrite Z.land_ones by lia. lia. Qed.

Lemma copy_pte_fields q v : valid_page q -> Z.land v PTE_V <> 0 ->
  PTE2PA (copy_pte q v) = q /\ PTE_FLAGS (copy_pte q v) = PTE_FLAGS v.
Proof.
  intros Hq Hv. apply valid_page_pos in Hq. pose proof (flags_range v) as Hf. destruct (pte_roundtrip q (PTE_FLAGS v)) as (H1 & H2 & _); [lia..|].
  split; [exact H1|]. unfold copy_pte. rewrite H2. apply Z.bits_inj'. intros n Hn. rewrite Z.lor_spec.
  destruct (decide (n = 0)) as [->|Hne].
  - change (Z.testbit PTE_V 0) with true. rewrite orb_true_r. unfold PTE_FLAGS. rewrite Z.land_spec. change (Z.testbit 0x3FF 0) with true. rewrite andb_true_r.
    destruct (Z.testbit v 0) eqn:E; [done|]. exfalso. apply Hv. apply Z.bits_inj'. intros k Hk. rewrite Z.land_spec, Z.bits_0.
    destruct (decide (k = 0)) as [->|]; [by rewrite E|]. change PTE_V with (2 ^ 0). rewrite Z.pow2_bits_false by lia. apply andb_false_r.
  - change PTE_V with (2 ^ 0). rewrite Z.pow2_bits_false by lia. apply orb_false_r.
Qed.

Lemma copy_user_page m root va q v : valid_page q -> pte_of m root va = copy_pte q v -> user_page m root va = q \/ user_page m root va = 0.
Proof.
  intros Hq E. unfold user_page. rewrite E. destruct (_ || _); [by right|left]. apply valid_page_pos in Hq. pose proof (flags_range v).
  by destruct (pte_roundtrip q (PTE_FLAGS v)) as (Hr1 & _); [lia..|].
Qed.

Lemma same_outside_memmove q pa m : same_outside q m (memmove m q pa (Z.to_nat PGSIZE)).
Proof. intros a Ha. rewrite ld8_memmove. unfold PGSIZE in *. byte_cases. Qed.

(** One page is copied to [q]. *)
Record page_copied P (old new a : Z) s (l : list Z) s' (l' : list Z) (q : Z) : Prop := {
  pc_aspace : aspace_ok s' new l';
  pc_used : (length l <= length l' + 3)%nat;
  pc_free : forall p, p ∈ l' -> p ∈ l;
  pc_fresh : q ∈ l;
  pc_page : valid_page q;
  pc_spared : spared (fun p => P p \/ p = q) (k_mem s') new l';
  pc_kept : kept P (k_mem s) (k_mem s');
  pc_pte : forall va, 0 <= va < MAXVA -> pte_of (k_mem s') new va =
    if PGROUNDDOWN va =? a then copy_pte q (pte_of (k_mem s) old a) else pte_of (k_mem s) new va;
  pc_bytes : forall o, 0 <= o < PGSIZE -> ld8 (k_mem s') (q + o) = ld8 (k_mem s) (PTE2PA (pte_of (k_mem s) old a) + o);
  pc_state : s' = set_k_mem (k_mem s') (set_k_freelist (k_freelist s') s)
}.

(** A page of the free list that gets the bytes of the page [pa]. *)
Lemma kalloc_copy P s root q l pa :
  aspace_ok s root (q :: l) -> spared P (k_mem s) root (q :: l) -> P pa ->
  exists s1, kalloc s = Done q s1 /\ q <> 0 /\ valid_page q /\ q ∉ l /\
    let s2 := set_k_mem (memmove (k_mem s1) q pa (Z.to_nat PGSIZE)) s1 in
    aspace_ok s2 root l /\ same_outside q (k_mem s) (k_mem s2) /\
    (forall path, path_ok path -> page_at (k_mem s2) root path = page_at (k_mem s) root path) /\
    (forall va, pte_of (k_mem s2) root va = pte_of (k_mem s) root va) /\
    spared (fun p => P p \/ p = q) (k_mem s2) root l /\ kept P (k_mem s) (k_mem s2) /\
    (forall o, 0 <= o < PGSIZE -> ld8 (k_mem s2) (q + o) = ld8 (k_mem s) (pa + o)) /\
    s2 = set_k_mem (k_mem s2) (set_k_freelist (k_freelist s2) s).
Proof.
  intros Has Hsp Hpa. destruct (kalloc_fill s root q l (fun m => memmove m q pa (Z.to_nat PGSIZE)) Has (same_outside_memmove q pa))
    as (s1 & Hrun & Hq0 & Hq & Hni & Hso1 & Has2 & Hso & Hat & Hpte & Hs2).
  assert (HnP : ~ P q) by (intros HP; destruct (Hsp q HP) as (_ & Hl & _); apply Hl; by left).
  exists s1. do 4 (split; [done|]). intros s2. do 4 (split; [done|]). split; [|split; [|split; [|exact Hs2]]].
  - intros p [Hp| ->].
    + destruct (Hsp p Hp) as (Hv & Hl & Ht). apply not_elem_of_cons in Hl as [_ Hl]. split_and!; [done|done|].
      intros path r Hpath. unfold s2. rewrite Hat by done. by apply Ht.
    + split_and!; [done|done|]. intros path r Hpath. unfold s2. rewrite Hat by done. intros E ->.
      destruct (pt_pages _ _ _ (as_pt _ _ _ Has) path q Hpath E) as [_ Hn]. apply Hn. by left.
  - apply (kept_outside P _ _ q); [intros p Hp; by apply Hsp|done|done|exact Hso].
  - intros o Ho. unfold s2. ks_norm. rewrite ld8_memmove. unfold PGSIZE in *. byte_cases. replace (pa + (q + o - q)) with (pa + o) by lia.
    apply Hso1. destruct (Hsp pa Hpa) as (Hv & _). intros Hx. destruct (valid_page_disjoint pa q Hv Hq); [congruence|unfold PGSIZE in *; lia..].
Qed.

Lemma uvmcopy_one P s l old new a :
  aspace_ok s new l -> (3 <= length l)%nat -> 0 <= a -> a mod 4096 = 0 -> a + PGSIZE <= MAXVA ->
  Z.land (pte_of (k_mem s) new a) PTE_V = 0 -> Z.land (pte_of (k_mem s) old a) PTE_V <> 0 -> P (PTE2PA (pte_of (k_mem s) old a)) ->
  (forall p, table_page (k_mem s) old p -> P p) -> spared P (k_mem s) new l ->
  exists s' l' q, page_copied P old new a s l s' l' q /\
    forall n, uvmcopy_loop (S n) old new a s = uvmcopy_loop n old new (u64 (a + PGSIZE)) s'.
Proof.
  intros Has Hl Ha Hal Hmax Hfree Hold HPa HPt Hsp. destruct l as [|q l]; [cbn in Hl; lia|]. set (v := pte_of (k_mem s) old a) in *.
  destruct (kalloc_copy P s new q l (PTE2PA v) Has Hsp HPa) as (s1 & Hrun & Hq0 & Hq & Hql & Has2 & Hso & Hat & Hpte & Hsp2 & Hk2 & Hb2 & Hs2).
  set (s2 := set_k_mem _ s1) in *. assert (Hqp := valid_page_pos q Hq). pose proof (flags_range v) as Hfl.
  destruct (mappages_page s2 l new a q (PTE_FLAGS v)) as (r & s' & l' & Hmap & Hst & Hlen & Hres);
    [apply Has2|apply Has2|apply Has2|done|done|done|by rewrite Hpte|lia|unfold PGSIZE; lia|lia|lia|].
  cbn [length] in Hl. destruct Hres as [[-> Hptes]|(_ & Hl2 & _)]; [|lia].
  destruct (spared_step _ s2 new l s' l' (as_kmem _ _ _ Has2) (as_pt _ _ _ Has2) Hsp2 Hst) as [Hsp' Hk'].
  destruct (Hsp2 q (or_intror eq_refl)) as (_ & _ & Hqt).
  assert (Ha0 : PGROUNDDOWN a = a) by (rewrite PGROUNDDOWN_eq; lia).
  assert (Eva : pte_of (k_mem s') new a = copy_pte q v) by (rewrite Hptes, Ha0, Z.eqb_refl; [done|unfold PGSIZE in *; lia]).
  exists s', l', q. split; [split|].
  - apply (map_user_page s2 new l s' l' a q (user_page (k_mem s') new a)); try assumption; [by apply (copy_user_page _ _ _ _ v)| |].
    + intros va Hva E. rewrite (user_page_ext (k_mem s)) in E by apply Hpte.
      destruct (uo_page _ _ _ (as_user _ _ _ Has) va Hva) as (_ & Hn & _); [congruence|]. rewrite E in Hn. apply Hn. by left.
    + intros va Hva. destruct (Z.eqb_spec (PGROUNDDOWN va) a) as [E|E]; [apply user_page_same; congruence|].
      apply user_page_ext. rewrite Hptes by done. by rewrite (proj2 (Z.eqb_neq _ _) E).
  - cbn [length]. lia.
  - intros p Hp. destruct (ps_used _ _ _ _ _ Hst) as [u ->]. right. apply elem_of_app. by right.
  - by left.
  - done.
  - done.
  - eapply kept_trans; [exact Hk2|]. intros p b Hp. apply Hk'. by left.
  - intros va Hva. rewrite Hptes by done. destruct (_ =? a); [done|apply Hpte].
  - intros o Ho. rewrite (Hk' q) by (by right || unfold PGSIZE in *; lia). by apply Hb2.
  - rewrite (ps_state _ _ _ _ _ Hst), Hs2. ks_eq.
  - intros n. cbn [uvmcopy_loop]. mstep (walk_read s old a ltac:(unfold PGSIZE in *; lia)).
    assert (Hwalk : exists p, page_at (k_mem s) old [PX 2 a; PX 1 a] = Some p /\ load64 (k_mem s) (p + 8 * PX 0 a) = v).
    { unfold v, pte_of in Hold |- *. destruct (page_at (k_mem s) old _) as [p|]; [by exists p|done]. }
    destruct Hwalk as (p & Ep & Ev). rewrite Ep. destruct (Hsp p) as (Hvp & _); [apply HPt; eexists; split; [apply path_ok_PX|done]|].
    apply valid_page_pos in Hvp. pose proof (PX_range 0 a). rewrite (proj2 (Z.eqb_neq _ 0)) by lia. unfold rd64. mrun. rewrite Ev.
    rewrite (proj2 (Z.eqb_neq _ 0)) by done. mstep Hrun. rewrite (proj2 (Z.eqb_neq q 0) Hq0). unfold mod_mem. mrun. fold s2. by mstep Hmap.
Qed.

(** The pages from [lo] to [hi] of [old] are copied to fresh pages of [new]; the
    rest of [new], the pages of [P] and the rest of the state are the same. *)
Record copied P (old new : Z) s (l : list Z) s' (l' : list Z) (lo hi : Z) : Prop := {
  cy_aspace : aspace_ok s' new l';
  cy_free : forall p, p ∈ l' -> p ∈ l;
  cy_kept : kept P (k_mem s) (k_mem s');
  cy_in : forall va, lo <= va < hi -> exists q, q ∈ l /\ valid_page q /\
    pte_of (k_mem s') new va = copy_pte q (pte_of (k_mem s) old va) /\
    forall o, 0 <= o < PGSIZE -> ld8 (k_mem s') (q + o) = ld8 (k_mem s) (PTE2PA (pte_of (k_mem s) old va) + o);
  cy_out : forall va, 0 <= va < MAXVA -> ~ (lo <= va < hi) -> pte_of (k_mem s') new va = pte_of (k_mem s) new va;
  cy_state : s' = set_k_mem (k_mem s') (set_k_freelist (k_freelist s') s)
}.

Lemma in_page a va : a mod 4096 = 0 -> (PGROUNDDOWN va =? a) = bool_decide (a <= va < a + PGSIZE).
Proof.
  intros Ha. rewrite PGROUNDDOWN_eq. unfold PGSIZE. destruct (Z.eqb_spec (va - va mod 4096) a), (bool_decide_reflect (a <= va < a + 4096)); try done; lia.
Qed.

Lemma uvmcopy_loop_spec old new : forall n P s l a,
  aspace_ok s new l -> (3 * n <= length l)%nat -> 0 <= a -> a mod 4096 = 0 -> a + Z.of_nat n * PGSIZE <= MAXVA ->
  (forall va, a <= va < a + Z.of_nat n * PGSIZE -> Z.land (pte_of (k_mem s) new va) PTE_V = 0 /\
     Z.land (pte_of (k_mem s) old va) PTE_V <> 0 /\ P (PTE2PA (pte_of (k_mem s) old va))) ->
  (forall p, table_page (k_mem s) old p -> P p) -> spared P (k_mem s) new l ->
  exists s' l', uvmcopy_loop n old new a s = Done 0 s' /\ copied P old new s l s' l' a (a + Z.of_nat n * PGSIZE).
Proof.
  induction n as [|n IH]; intros P s l a Has Hl Ha Hal Hmax Hva HPt Hsp.
  { exists s, l. split; [done|]. split; try done; [lia|by destruct s]. }
  destruct (Hva a) as (Hn0 & Ho0 & HP0); [unfold PGSIZE; lia|].
  destruct (uvmcopy_one P s l old new a Has ltac:(lia) Ha Hal ltac:(unfold PGSIZE in *; lia) Hn0 Ho0 HP0 HPt Hsp) as (s1 & l1 & q & Hc & Hrun).
  pose proof (in_page a) as Hpg. destruct (kept_table P (k_mem s) (k_mem s1) old HPt (pc_kept _ _ _ _ _ _ _ _ _ Hc)) as [Hat Hpte].
  assert (HP1 : forall va, a + PGSIZE <= va < a + Z.of_nat (S n) * PGSIZE -> pte_of (k_mem s1) new va = pte_of (k_mem s) new va).
  { intros va Hr. rewrite (pc_pte _ _ _ _ _ _ _ _ _ Hc) by (unfold PGSIZE in *; lia). rewrite Hpg by done. rewrite bool_decide_false; [done|lia]. }
  destruct (IH (fun p => P p \/ p = q) s1 l1 (a + PGSIZE)) as (s' & l' & Hrun' & Hc').
  - apply Hc.
  - pose proof (pc_used _ _ _ _ _ _ _ _ _ Hc). lia.
  - unfold PGSIZE. lia.
  - unfold PGSIZE. lia.
  - unfold PGSIZE in *. lia.
  - intros va Hr. rewrite HP1, Hpte by (unfold PGSIZE in *; lia). destruct (Hva va) as (? & ? & ?); [unfold PGSIZE in *; lia|]. auto.
  - intros p (path & Hpath & E). left. apply HPt. exists path. split; [done|]. by rewrite <- Hat.
  - apply Hc.
  - exists s', l'. split.
    { rewrite Hrun, u64_small; [done|]. change MAXVA with (2 ^ 38) in *. unfold PGSIZE in *. lia. }
    assert (Ehi : a + PGSIZE + Z.of_nat n * PGSIZE = a + Z.of_nat (S n) * PGSIZE) by lia. rewrite Ehi in Hc'. split.
    + apply Hc'.
    + intros p Hp. by apply (pc_free _ _ _ _ _ _ _ _ _ Hc), (cy_free _ _ _ _ _ _ _ _ _ Hc').
    + eapply kept_trans; [apply Hc|]. intros p b Hp. apply (cy_kept _ _ _ _ _ _ _ _ _ Hc'). by left.
    + intros va Hr. destruct (decide (va < a + PGSIZE)) as [Hlt|Hge].
      * exists q. split; [exact (pc_fresh _ _ _ _ _ _ _ _ _ Hc)|]. split; [exact (pc_page _ _ _ _ _ _ _ _ _ Hc)|]. rewrite (pte_of_page (k_mem s) old va a) by (rewrite !PGROUNDDOWN_eq; unfold PGSIZE in *; lia). split.
        -- rewrite (cy_out _ _ _ _ _ _ _ _ _ Hc'), (pc_pte _ _ _ _ _ _ _ _ _ Hc) by (unfold PGSIZE in *; lia). by rewrite Hpg, bool_decide_true by lia.
        -- intros o Ho. rewrite (cy_kept _ _ _ _ _ _ _ _ _ Hc' q) by (by right || unfold PGSIZE in *; lia). by apply Hc.
      * destruct (cy_in _ _ _ _ _ _ _ _ _ Hc' va ltac:(lia)) as (q' & Hq' & Hv' & Ep & Eb). rewrite Hpte in Ep, Eb. exists q'.
        split; [by apply (pc_free _ _ _ _ _ _ _ _ _ Hc)|]. split; [done|]. split; [done|]. intros o Ho. rewrite Eb by done.
        apply (pc_kept _ _ _ _ _ _ _ _ _ Hc (PTE2PA (pte_of (k_mem s) old va))); [apply Hva; lia|unfold PGSIZE in *; lia].
    + intros va Hr Hout. rewrite (cy_out _ _ _ _ _ _ _ _ _ Hc'), (pc_pte _ _ _ _ _ _ _ _ _ Hc) by (unfold PGSIZE in *; lia).
      rewrite Hpg by done. rewrite bool_decide_false; [done|unfold PGSIZE in *; lia].
    + rewrite (cy_state _ _ _ _ _ _ _ _ _ Hc'), (pc_state _ _ _ _ _ _ _ _ _ Hc). ks_eq.
Qed.

(** The pages of [old] up to [hi], tables and data. *)
Definition owned_page m (old hi p : Z) : Prop :=
  table_page m old p \/ exists va, 0 <= va < hi /\ PTE2PA (pte_of m old va) = p.

(** What the copy reads is what the original reads. *)
Lemma copied_bytes P old new s l s' l' hi : copied P old new s l s' l' 0 hi -> hi <= MAXVA ->
  (forall va, 0 <= va < hi -> Z.land (pte_of (k_mem s) old va) PTE_V <> 0) ->
  forall n va, 0 <= va -> va + Z.of_nat n <= hi -> user_range (k_mem s) old va n ->
  user_range (k_mem s') new va n /\ user_bytes (k_mem s') new va n = user_bytes (k_mem s) old va n.
Proof.
  intros Hc Hhi Hval.
  assert (Hone : forall va, 0 <= va < hi -> user_page (k_mem s) old va <> 0 ->
    user_page (k_mem s') new va <> 0 /\ ld8 (k_mem s') (user_addr (k_mem s') new va) = ld8 (k_mem s) (user_addr (k_mem s) old va)).
  { intros va Hr Hn. destruct (cy_in _ _ _ _ _ _ _ _ _ Hc va Hr) as (q & _ & Hq & Ep & Eb).
    destruct (copy_pte_fields q (pte_of (k_mem s) old va) Hq (Hval va Hr)) as [Epa Efl].
    assert (Ebit : forall b, Z.land 0x3FF b = b -> Z.land (copy_pte q (pte_of (k_mem s) old va)) b = Z.land (pte_of (k_mem s) old va) b).
    { intros b Hb. assert (Hx : forall x, Z.land x b = Z.land (PTE_FLAGS x) b) by (intros x; unfold PTE_FLAGS; by rewrite <- Z.land_assoc, Hb).
      by rewrite Hx, Efl, <- Hx. }
    assert (Eo : user_page (k_mem s) old va = PTE2PA (pte_of (k_mem s) old va)).
    { unfold user_page in *. by destruct (_ || _). }
    assert (En : user_page (k_mem s') new va = q).
    { unfold user_page in *. rewrite Ep, !Ebit, Epa by done. by destruct (_ || _). }
    unfold user_addr. rewrite En, Eo. split; [apply valid_page_pos in Hq; lia|]. apply Eb. unfold PGSIZE. lia. }
  induction n as [|n IH]; intros va Hva Hle Hrg; [split; [intros a Ha; lia|done]|].
  destruct (Hrg va ltac:(lia)) as [Hm Hp]. destruct (Hone va ltac:(lia) Hp) as [Hp' Eb].
  destruct (IH (va + 1) ltac:(lia) ltac:(lia)) as [Hr' Eb']; [intros a Ha; apply Hrg; lia|]. split.
  - intros a Ha. destruct (decide (a = va)) as [->|]; [done|]. apply Hr'. lia.
  - cbn [user_bytes]. by rewrite Eb, Eb'.
Qed.

(** C9: the memory of a child.  With three free pages for each page to copy,
    [uvmcopy] succeeds, and every address below the rounded-up size has in the new
    address space an entry with the parent's permissions and a page of its own that
    was free before; the child reads what the parent reads, the parent's table and
    the bytes of its pages are unchanged, and the new address space stays well
    formed and disjoint from the free list. *)
Theorem uvmcopy_copies s (l : list Z) (old new sz : Z) :
  let hi := PGROUNDUP sz in
  aspace_ok s new l -> 0 <= sz <= MAXVA - PGSIZE -> (3 * Z.to_nat (hi / PGSIZE) <= length l)%nat ->
  (forall va, 0 <= va < hi -> Z.land (pte_of (k_mem s) new va) PTE_V = 0 /\ Z.land (pte_of (k_mem s) old va) PTE_V <> 0) ->
  spared (owned_page (k_mem s) old hi) (k_mem s) new l ->
  exists s' l', uvmcopy old new sz s = Done 0 s' /\ aspace_ok s' new l' /\
    (forall va, pte_of (k_mem s') old va = pte_of (k_mem s) old va) /\
    (forall p a, owned_page (k_mem s) old hi p -> p <= a < p + PGSIZE -> ld8 (k_mem s') a = ld8 (k_mem s) a) /\
    (forall va, 0 <= va < hi -> PTE2PA (pte_of (k_mem s') new va) ∈ l /\
       PTE_FLAGS (pte_of (k_mem s') new va) = PTE_FLAGS (pte_of (k_mem s) old va)) /\
    (forall va n, 0 <= va -> va + Z.of_nat n <= hi -> user_range (k_mem s) old va n ->
       user_range (k_mem s') new va n /\ user_bytes (k_mem s') new va n = user_bytes (k_mem s) old va n).
Proof.
  intros hi Has Hsz Hl Hva Hsp. change MAXVA with (2 ^ 38) in *. unfold PGSIZE in Hsz.
  assert (Eh : hi = sz + 4095 - (sz + 4095) mod 4096) by (apply PGROUNDUP_eq; lia).
  set (n := Z.to_nat (hi / PGSIZE)) in *. assert (En : Z.to_nat ((sz + PGSIZE - 1) / PGSIZE) = n) by (unfold n, PGSIZE; lia).
  assert (Ehi : 0 + Z.of_nat n * PGSIZE = hi) by (unfold n, PGSIZE; lia).
  assert (HPt : forall p, table_page (k_mem s) old p -> owned_page (k_mem s) old hi p) by (intros p Hp; by left).
  destruct (uvmcopy_loop_spec old new n (owned_page (k_mem s) old hi) s l 0 Has Hl) as (s' & l' & Hrun & Hc); try done; rewrite ?Ehi.
  { change MAXVA with (2 ^ 38). lia. }
  { intros va Hr. destruct (Hva va Hr). split_and!; [done|done|]. right. by exists va. }
  rewrite Ehi in Hc. exists s', l'. split; [unfold uvmcopy; by rewrite En|]. split; [apply Hc|].
  destruct (kept_table _ _ _ old HPt (cy_kept _ _ _ _ _ _ _ _ _ Hc)) as [_ Hpte]. split; [done|]. split; [apply Hc|]. split.
  - intros va Hr. destruct (cy_in _ _ _ _ _ _ _ _ _ Hc va Hr) as (q & Hq & Hv & Ep & _). destruct (Hva va Hr) as [_ Hval].
    destruct (copy_pte_fields q _ Hv Hval) as [E1 E2]. by rewrite Ep, E1, E2.
  - intros va k H0' H1'. apply (copied_bytes _ _ _ _ _ _ _ hi Hc); try done; [change MAXVA with (2 ^ 38); lia|]. intros va' Hr. by apply Hva.
Qed.

End Copy.

(** ** Shrinking *)

Section Shrink.
Context {X : Type} `{SymbolsOk}.
Implicit Types (s : kstate X) (m : mem).

(** The [n] user pages from [lo] on are gone and free; the other user pages and
    their bytes, and the rest of the state, are the same. *)
Record shrunk (root : Z) s (l : list Z) s' (l' : list Z) (lo : Z) (n : nat) : Prop := {
  sh_aspace : aspace_ok s' root l';
  sh_free : forall p, p ∈ l' <-> p ∈ l \/ exists va, lo <= va < lo + Z.of_nat n * PGSIZE /\ user_page (k_mem s) root va = p;
  sh_count : length l' = (length l + n)%nat;
  sh_in : forall va, lo <= va < lo + Z.of_nat n * PGSIZE -> pte_of (k_mem s') root va = 0;
  sh_out : forall va, 0 <= va < MAXVA -> ~ (lo <= va < lo + Z.of_nat n * PGSIZE) ->
    pte_of (k_mem s') root va = pte_of (k_mem s) root va /\
    (user_page (k_mem s) root va <> 0 ->
     forall o, 0 <= o < PGSIZE -> ld8 (k_mem s') (user_page (k_mem s) root va + o) = ld8 (k_mem s) (user_page (k_mem s) root va + o));
  sh_state : s' = set_k_mem (k_mem s') (set_k_freelist (k_freelist s') s)
}.

(** The entry of a user page. *)
Lemma user_entry m root va : user_page m root va <> 0 ->
  exists p, page_at m root [PX 2 va; PX 1 va] = Some p /\ load64 m (p + 8 * PX 0 va) = pte_of m root va /\
    Z.land (pte_of m root va) PTE_V <> 0 /\ PTE_FLAGS (pte_of m root va) <> PTE_V /\ PTE2PA (pte_of m root va) = user_page m root va.
Proof.
  unfold user_page. set (v := pte_of m root va). intros Hn. destruct (Z.eqb_spec (Z.land v PTE_V) 0) as [|E1]; [done|].
  destruct (Z.eqb_spec (Z.land v PTE_U) 0) as [|E2]; [done|]. cbn [orb] in *. unfold v, pte_of in *.
  destruct (page_at m root [PX 2 va; PX 1 va]) as [p|]; [|done]. exists p. split_and!; try done.
  intros E. apply E2. change PTE_U with (Z.land 0x3FF PTE_U). rewrite Z.land_assoc. unfold PTE_FLAGS in E. by rewrite E.
Qed.

(** The body of the loop of [uvmunmap], with the page freed. *)
Definition unmap_page (root a : Z) : KM X unit :=
  pte ← walk root a false;
  if pte =? 0 then panic "uvmunmap: walk" else
  v ← rd64 pte;
  if Z.land v PTE_V =? 0 then panic "uvmunmap: not mapped" else
  if PTE_FLAGS v =? PTE_V then panic "uvmunmap: not a leaf" else
  when true (kfree (PTE2PA v));;
  wr64 pte 0.

(** A user page goes to the free list. *)
Lemma free_user_page s root l a :
  aspace_ok s root l -> 0 <= a < MAXVA -> user_page (k_mem s) root a <> 0 ->
  let p := user_page (k_mem s) root a in
  exists s1, kfree p s = Done tt s1 /\ kmem_ready s1 /\ kmem_ok s1 (p :: l) /\ pt_ok (k_mem s1) root (p :: l) /\
    same_outside p (k_mem s) (k_mem s1) /\ s1 = set_k_mem (k_mem s1) (set_k_freelist (k_freelist s1) s) /\
    (forall path, path_ok path -> page_at (k_mem s1) root path = page_at (k_mem s) root path) /\
    forall va, pte_of (k_mem s1) root va = pte_of (k_mem s) root va.
Proof.
  intros [Hr Hk Hpt Hu] Ha Hn p. destruct (uo_page _ _ _ Hu a Ha Hn) as (Hp & Hpl & Hpt0). fold p in Hp, Hpl, Hpt0.
  destruct (kfree_spec s p l Hr Hk Hp Hpl) as (s1 & Hrun & Hk1 & Hso & Hs1).
  destruct (data_frame (k_mem s) (k_mem s1) root l p Hpt Hp Hso Hpt0) as [Hat1 Hpte1]. exists s1. split_and!; try done.
  - apply (kmem_ready_hw s); [|done]. rewrite Hs1. hw_eq.
  - destruct Hpt as [Hv0 Hi0]. split.
    + intros path q Hpath. rewrite Hat1 by done. intros E. destruct (Hv0 path q Hpath E). split; [done|]. apply not_elem_of_cons. split; [by apply (Hpt0 path)|done].
    + intros path path' q Hp1 Hp2. rewrite !Hat1 by done. by apply Hi0.
Qed.

Lemma unmap_one s root l a :
  aspace_ok s root l -> 0 <= a -> a mod 4096 = 0 -> a + PGSIZE <= MAXVA -> user_page (k_mem s) root a <> 0 ->
  exists s', unmap_page root a s = Done tt s' /\ shrunk root s l s' (user_page (k_mem s) root a :: l) a 1.
Proof.
  intros Has Ha Hal Hmax Hn. pose proof (as_user _ _ _ Has) as Hu. assert (Har : 0 <= a < MAXVA) by (unfold PGSIZE in *; lia).
  destruct (free_user_page s root l a Has Har Hn) as (s1 & Hrun & Hr1 & Hk1 & Hpt1 & Hso & Hs1 & Hat1 & Hpte1). set (p := user_page (k_mem s) root a) in *.
  destruct (user_entry (k_mem s) root a Hn) as (t & Hat & Ev & Hv & Hf & Epa). fold p in Epa.
  assert (Ht1 : page_at (k_mem s1) root [PX 2 a; PX 1 a] = Some t) by (rewrite Hat1 by apply path_ok_PX; done).
  pose proof (leaf_step s1 (p :: l) root a t 0 Hk1 Hpt1 ltac:(lia) Ht1) as Hst.
  pose proof (leaf_page_at (k_mem s1) root a (p :: l) t 0 Hpt1 Ht1 ltac:(lia)) as Hat2.
  set (s2 := set_k_mem _ s1) in Hst. change (store64 _ _ _) with (k_mem s2) in Hat2. assert (Hd : PGROUNDDOWN a = a) by (rewrite PGROUNDDOWN_eq; lia).
  assert (Hpte2 : forall va, 0 <= va < MAXVA -> pte_of (k_mem s2) root va = if PGROUNDDOWN va =? a then 0 else pte_of (k_mem s) root va).
  { intros va Hva. unfold s2. ks_norm. rewrite (leaf_pte_of _ root a (p :: l)) by (done || lia). by rewrite Hpte1, Hd. }
  assert (Hother : forall va, 0 <= va < MAXVA -> PGROUNDDOWN va <> a -> user_page (k_mem s) root va <> 0 ->
    valid_page (user_page (k_mem s) root va) /\ user_page (k_mem s) root va ∉ p :: l /\
    forall path q, path_ok path -> page_at (k_mem s) root path = Some q -> q <> user_page (k_mem s) root va).
  { intros va Hva Hne Hnz. destruct (uo_page _ _ _ Hu va Hva Hnz) as (Hv1 & Hv2 & Hv3). split_and!; [done| |done]. apply not_elem_of_cons. split; [|done].
    intros E. apply Hne. by rewrite (uo_inj _ _ _ Hu va a Hva Har Hnz E). }
  assert (Hup : forall va, 0 <= va < MAXVA -> user_page (k_mem s2) root va = if PGROUNDDOWN va =? a then 0 else user_page (k_mem s) root va).
  { intros va Hva. unfold user_page. rewrite Hpte2 by done. by destruct (_ =? a). }
  exists s2. split; [|split; rewrite ?Z.mul_1_l].
  - unfold unmap_page. mstep (walk_read s root a (proj2 Har)). rewrite Hat. destruct (pt_pages _ _ _ (as_pt _ _ _ Has) _ _ (path_ok_PX a) Hat) as [Hvt _].
    apply valid_page_pos in Hvt. pose proof (PX_range 0 a). rewrite (proj2 (Z.eqb_neq _ 0)) by lia. unfold rd64. mrun. rewrite Ev.
    rewrite (proj2 (Z.eqb_neq _ 0) Hv), (proj2 (Z.eqb_neq _ _) Hf), when_true, Epa. by mstep Hrun.
  - split; [by apply (pt_step_ready root s1 (p :: l) _ (p :: l) Hst)|apply Hst|apply Hst|]. split.
    + intros va Hva. rewrite Hup by done. destruct (Z.eqb_spec (PGROUNDDOWN va) a) as [|Hne]; [done|]. intros Hnz.
      destruct (Hother va Hva Hne Hnz) as (Hv1 & Hv2 & Hv3). split_and!; [done|done|]. intros path q Hpath. rewrite Hat2, Hat1 by done. by apply Hv3.
    + intros va va' Hva Hva'. rewrite !Hup by done. destruct (PGROUNDDOWN va =? a); [done|]. destruct (PGROUNDDOWN va' =? a); [done|]. by apply (uo_inj _ _ _ Hu).
  - intros q. rewrite elem_of_cons. split; [intros [->|Hq]; [right; exists a; split; [unfold PGSIZE; lia|done]|by left]|].
    intros [Hq|(va & Hva & <-)]; [by right|left]. apply user_page_same. rewrite Hd, PGROUNDDOWN_eq. unfold PGSIZE in *. lia.
  - cbn [length]. lia.
  - intros va Hva. rewrite Hpte2 by (unfold PGSIZE in *; lia). by rewrite in_page, bool_decide_true by done.
  - intros va Hva Hout. rewrite Hpte2, in_page, bool_decide_false by done. split; [done|]. intros Hnz o Ho.
    assert (Hne : PGROUNDDOWN va <> a) by (intros E; apply Z.eqb_eq in E; rewrite in_page, bool_decide_false in E by done; done).
    destruct (Hother va Hva Hne Hnz) as (Hv1 & Hv2 & Hv3).
    rewrite (pt_step_byte s1 root (p :: l) s2 (p :: l) (user_page (k_mem s) root va)); try done; [|by intros path q Hpath; rewrite Hat1 by done; apply Hv3|unfold PGSIZE in *; lia].
    apply Hso. intros Hx. apply not_elem_of_cons in Hv2 as [Hne' _]. pose proof (proj1 (uo_page _ _ _ Hu a Har Hn)) as Hvp.
    destruct (valid_page_disjoint p (user_page (k_mem s) root va) Hvp Hv1); [congruence|unfold PGSIZE in *; lia..].
  - rewrite (ps_state _ _ _ _ _ Hst), Hs1. ks_eq.
Qed.

Lemma shrunk_refl root s l lo : aspace_ok s root l -> shrunk root s l s l lo 0.
Proof.
  intros Has. split; [done| |lia|lia|done|by destruct s]. intros p. split; [by left|]. intros [Hp|(va & Hr & _)]; [done|lia].
Qed.

Lemma shrunk_trans root s l s1 l1 s2 l2 lo n k :
  0 <= lo -> lo + Z.of_nat (n + k) * PGSIZE <= MAXVA ->
  shrunk root s l s1 l1 lo n -> shrunk root s1 l1 s2 l2 (lo + Z.of_nat n * PGSIZE) k -> shrunk root s l s2 l2 lo (n + k).
Proof.
  intros Hlo Hmax A B. assert (E : lo + Z.of_nat n * PGSIZE + Z.of_nat k * PGSIZE = lo + Z.of_nat (n + k) * PGSIZE) by lia.
  assert (Hout : forall va, 0 <= va < MAXVA -> ~ (lo <= va < lo + Z.of_nat n * PGSIZE) -> user_page (k_mem s1) root va = user_page (k_mem s) root va).
  { intros va Hva Hn. apply user_page_ext. by apply (sh_out _ _ _ _ _ _ _ A). }
  split.
  - apply B.
  - intros p. rewrite (sh_free _ _ _ _ _ _ _ B), (sh_free _ _ _ _ _ _ _ A). rewrite E. split.
    + intros [[Hp|(va & Hva & Ep)]|(va & Hva & Ep)]; [by left|right; exists va; split; [unfold PGSIZE in *; lia|done]|right; exists va]. rewrite Hout in Ep by (unfold PGSIZE in *; lia).
      split; [unfold PGSIZE in *; lia|done].
    + intros [Hp|(va & Hva & Ep)]; [by left; left|]. destruct (decide (va < lo + Z.of_nat n * PGSIZE)); [left; right; exists va; split; [unfold PGSIZE in *; lia|done]|right; exists va].
      rewrite Hout by (unfold PGSIZE in *; lia). split; [unfold PGSIZE in *; lia|done].
  - rewrite (sh_count _ _ _ _ _ _ _ B), (sh_count _ _ _ _ _ _ _ A). lia.
  - intros va Hva. destruct (decide (va < lo + Z.of_nat n * PGSIZE)).
    + destruct (sh_out _ _ _ _ _ _ _ B va) as [-> _]; [unfold PGSIZE in *; lia..|]. apply (sh_in _ _ _ _ _ _ _ A). lia.
    + apply (sh_in _ _ _ _ _ _ _ B). unfold PGSIZE in *. lia.
  - intros va Hva Hn. destruct (sh_out _ _ _ _ _ _ _ A va Hva) as [E1 B1]; [unfold PGSIZE in *; lia|].
    destruct (sh_out _ _ _ _ _ _ _ B va Hva) as [E2 B2]; [unfold PGSIZE in *; lia|]. split; [congruence|]. intros Hnz o Ho.
    rewrite Hout in B2 by (unfold PGSIZE in *; lia). by rewrite B2, B1.
  - rewrite (sh_state _ _ _ _ _ _ _ B), (sh_state _ _ _ _ _ _ _ A). ks_eq.
Qed.

Lemma uvmunmap_run s root l lo n :
  aspace_ok s root l -> 0 <= lo -> lo mod 4096 = 0 -> lo + Z.of_nat n * PGSIZE <= MAXVA ->
  (forall va, lo <= va < lo + Z.of_nat n * PGSIZE -> user_page (k_mem s) root va <> 0) ->
  exists s' l', uvmunmap root lo (Z.of_nat n) true s = Done tt s' /\ shrunk root s l s' l' lo n.
Proof.
  intros Has Hlo Hal Hmax Hva. unfold uvmunmap. change (lo mod PGSIZE) with (lo mod 4096). rewrite Hal, Z.eqb_refl. cbn [negb].
  rewrite u64_small by (change MAXVA with (2 ^ 38) in *; unfold PGSIZE in *; lia).
  replace (Z.to_nat ((lo + Z.of_nat n * PGSIZE - lo) / PGSIZE)) with n by (unfold PGSIZE; lia).
  destruct (for_each_inv (fun k s' => exists l', shrunk root s l s' l' lo k) (fun k => unmap_page root (lo + Z.of_nat k * PGSIZE)) n 0 s) as (s' & Hrun & l' & Hsh).
  - exists l. by apply shrunk_refl.
  - intros k s1 Hk (l1 & Hsh). destruct (unmap_one s1 root l1 (lo + Z.of_nat k * PGSIZE) (sh_aspace _ _ _ _ _ _ _ Hsh)) as (s2 & Hrun2 & Hsh2).
    + unfold PGSIZE. lia.
    + unfold PGSIZE. lia.
    + unfold PGSIZE in *. lia.
    + rewrite (user_page_ext (k_mem s)); [apply Hva; unfold PGSIZE in *; lia|]. apply (sh_out _ _ _ _ _ _ _ Hsh); unfold PGSIZE in *; lia.
    + exists s2. split; [done|]. eexists. rewrite <- Nat.add_1_r. eapply shrunk_trans; [done| |exact Hsh|exact Hsh2]. unfold PGSIZE in *. lia.
  - exists s', l'. done.
Qed.

(** C23: [uvmdealloc] shrinks an address space.  It returns the new size; the
    pages between the rounded-up sizes have no entry any more and are on the free
    list, each once, together with the pages that were free; every other user page
    keeps its entry and its bytes, and the page table, the free list and the user
    mappings stay well formed and disjoint. *)
Theorem uvmdealloc_shrinks s (l : list Z) (root oldsz newsz : Z) :
  let lo := PGROUNDUP newsz in
  let n := Z.to_nat ((PGROUNDUP oldsz - lo) / PGSIZE) in
  aspace_ok s root l -> 0 <= newsz < oldsz -> oldsz <= MAXVA - PGSIZE ->
  (forall va, lo <= va < PGROUNDUP oldsz -> user_page (k_mem s) root va <> 0) ->
  exists s' l', uvmdealloc root oldsz newsz s = Done newsz s' /\ shrunk root s l s' l' lo n /\ NoDup l'.
Proof.
  intros lo n Has Hsz Hmax Hva. change MAXVA with (2 ^ 38) in Hmax. unfold PGSIZE in Hmax.
  assert (El : lo = newsz + 4095 - (newsz + 4095) mod 4096) by (apply PGROUNDUP_eq; lia).
  assert (Eh : PGROUNDUP oldsz = oldsz + 4095 - (oldsz + 4095) mod 4096) by (apply PGROUNDUP_eq; lia).
  assert (En : PGROUNDUP oldsz = lo + Z.of_nat n * PGSIZE) by (unfold n, PGSIZE; lia).
  unfold uvmdealloc. rewrite (proj2 (Z.leb_gt oldsz newsz)) by lia. fold lo. destruct (Z.ltb_spec lo (PGROUNDUP oldsz)) as [Hlt|Hge].
  - destruct (uvmunmap_run s root l lo n Has) as (s' & l' & Hrun & Hsh);
      [lia|lia|change MAXVA with (2 ^ 38); lia|by rewrite <- En|].
    exists s', l'. split; [|split; [done|apply (as_kmem _ _ _ (sh_aspace _ _ _ _ _ _ _ Hsh))]].
    rewrite when_true. replace ((PGROUNDUP oldsz - lo) / PGSIZE) with (Z.of_nat n) by (unfold n, PGSIZE; lia).
    replace (s32 (Z.of_nat n)) with (Z.of_nat n) by (symmetry; apply s32_small; unfold n, PGSIZE; lia).
    rewrite u64_small by (unfold n, PGSIZE; lia). by mstep Hrun.
  - replace n with O by (unfold n, PGSIZE; lia). exists s, l. rewrite when_false. split; [done|]. split; [by apply shrunk_refl|apply Has].
Qed.

End Shrink.

(** ** A table under construction *)

Section Tables.
Context {X : Type} `{SymbolsOk}.
Implicit Types (s : kstate X) (m : mem).

(** [walk] allocates nothing where the tables exist. *)
Lemma walk_present s root va p :
  va < MAXVA -> page_at (k_mem s) root [PX 2 va; PX 1 va] = Some p ->
  walk root va true s = Done (p + 8 * PX 0 va) s.
Proof.
  intros Hva Hat. unfold walk. rewrite (proj2 (Z.leb_gt MAXVA va)) by lia.
  assert (Hw : walk_levels [2; 1] root va true s = Done (Some p) s); [|by mstep Hw].
  revert Hat. cbn [page_at]. unfold child. cbn [walk_levels]. unfold rd64. mrun.
  destruct (truthy (Z.land (load64 (k_mem s) (root + 8 * PX 2 va)) PTE_V)); [|done].
  mrun. destruct (truthy _); [|done]. by intros [= ->].
Qed.

(** Mapping one page where the tables exist takes no page. *)
Lemma mappages_present s l root a pa perm p :
  kmem_ok s l -> pt_ok (k_mem s) root l -> page_at (k_mem s) root [PX 2 a; PX 1 a] = Some p ->
  0 <= a -> a mod 4096 = 0 -> a + PGSIZE <= MAXVA -> Z.land (pte_of (k_mem s) root a) PTE_V = 0 ->
  0 <= pa < 2 ^ 56 -> pa mod 4096 = 0 -> 0 <= perm < 1024 ->
  exists s', mappages root a PGSIZE pa perm s = Done 0 s' /\ pt_step root s l s' l /\
    forall va, 0 <= va < MAXVA -> pte_of (k_mem s') root va =
      if PGROUNDDOWN va =? a then Z.lor (Z.lor (PA2PTE pa) perm) PTE_V else pte_of (k_mem s) root va.
Proof.
  intros Hk Hpt Hat Ha Hal Hmax Hfree Hpa Hpal Hperm. unfold mappages.
  assert (Hd : PGROUNDDOWN a = a) by (rewrite PGROUNDDOWN_eq; lia).
  assert (Hd2 : PGROUNDDOWN (u64 (a + PGSIZE - 1)) = a).
  { change MAXVA with (2 ^ 38) in *. rewrite u64_small, PGROUNDDOWN_eq by (unfold PGSIZE in *; lia).
    unfold PGSIZE; lia. }
  rewrite Hd, Hd2, Z.sub_diag. destruct (pte_roundtrip pa perm Hpa Hpal Hperm) as (_ & _ & Hv).
  destruct (pt_pages _ _ _ Hpt _ _ (path_ok_PX a) Hat) as [Hvp _]. apply valid_page_pos in Hvp.
  eexists. split_and!.
  - cbn [mappages_loop Z.to_nat Z.div]. mstep (walk_present s root a p ltac:(unfold PGSIZE in *; lia) Hat).
    pose proof (PX_range 0 a). rewrite (proj2 (Z.eqb_neq _ 0)) by lia. unfold rd64, wr64, mod_mem. mrun.
    unfold pte_of in Hfree. rewrite Hat in Hfree. rewrite Hfree. cbn [truthy Z.eqb negb]. mrun.
    rewrite Z.eqb_refl. reflexivity.
  - apply (leaf_step s l root a p); [done|done|lia|done].
  - intros va Hva. ks_norm.
    rewrite (leaf_pte_of (k_mem s) root a l p); [by rewrite Hd|done|done|lia|unfold PGSIZE in *; lia|done].
Qed.

(** [freewalk] of a table without entries frees its page. *)
Lemma freewalk_empty d p s :
  (forall j, index_ok j -> load64 (k_mem s) (p + 8 * j) = 0) -> freewalk (S d) p s = kfree p s.
Proof.
  intros Hz. cbn [freewalk]. set (body := fun i : nat => _).
  assert (Hb : for_each (seq 0 512) body s = Done tt s); [|by mstep Hb].
  apply for_each_idle. intros j Hj. apply elem_of_seq in Hj. unfold body, rd64. mrun.
  by rewrite Hz by (unfold index_ok; lia).
Qed.

(** [freewalk] of a table with one entry, for a table without entries, frees both. *)
Lemma freewalk_one d p i q s l :
  kmem_ready s -> kmem_ok s l -> valid_page p -> valid_page q -> p <> q -> p ∉ l -> q ∉ l -> index_ok i ->
  load64 (k_mem s) (p + 8 * i) = Z.lor (PA2PTE q) PTE_V ->
  (forall j, index_ok j -> j <> i -> load64 (k_mem s) (p + 8 * j) = 0) ->
  (forall j, index_ok j -> load64 (k_mem s) (q + 8 * j) = 0) ->
  exists s', freewalk (S (S d)) p s = Done tt s' /\ kmem_ok s' (p :: q :: l) /\
    s' = set_k_mem (k_mem s') (set_k_freelist (k_freelist s') s).
Proof.
  intros Hr Hk Hp Hq Hne Hpl Hql Hi He Hz Hqz.
  destruct (kfree_spec s q l Hr Hk Hq Hql) as (s1 & Hrun1 & Hk1 & Hso1 & Hs1).
  set (s2 := set_k_mem (store64 (k_mem s1) (p + 8 * i) 0) s1).
  assert (Hk2 : kmem_ok s2 (q :: l)).
  { destruct Hk1 as [Hk1 Hnd]. split; [|done]. apply (freelist_rep_frame (k_mem s1) _ p); [done|set_solver| |done].
    intros a Ha. unfold s2. ks_norm. unfold store64. rewrite ld8_store_le. unfold PGSIZE, index_ok in *. byte_cases. }
  assert (Hr2 : kmem_ready s2) by (apply (kmem_ready_hw s); [unfold s2; rewrite Hs1; hw_eq|done]).
  destruct (kfree_spec s2 p (q :: l) Hr2 Hk2 Hp ltac:(set_solver)) as (s3 & Hrun3 & Hk3 & _ & Hs3).
  exists s3. split_and!; [|done|rewrite Hs3; unfold s2; rewrite Hs1; ks_eq].
  assert (Hj2 : forall j, index_ok j -> j <> i -> load64 (k_mem s2) (p + 8 * j) = 0).
  { intros j Hj Hji. unfold s2. ks_norm. rewrite load64_store_entry by auto.
    rewrite (same_outside_load64 q _ _ _ Hso1); [by apply Hz|]. pose proof (entry_in_page p j Hj).
    destruct (valid_page_disjoint q p Hq Hp) as [|]; [congruence|unfold PGSIZE in *; lia..]. }
  remember (S d) as d1 eqn:Ed. cbn [freewalk]. set (body := fun i : nat => _). unfold index_ok in Hi.
  assert (Hb : for_each (seq 0 512) body s = Done tt s2); [|by mstep Hb].
  replace (seq 0 512) with (seq 0 (Z.to_nat i) ++ Z.to_nat i :: seq (S (Z.to_nat i)) (511 - Z.to_nat i)).
  2: { rewrite (cons_seq (511 - Z.to_nat i)). replace (S (511 - Z.to_nat i)) with (512 - Z.to_nat i)%nat by lia.
       rewrite <- seq_app. f_equal. lia. }
  rewrite (for_each_app _ _ _ _ s).
  - cbn [for_each]. assert (Hbi : body (Z.to_nat i) s = Done tt s2).
    { unfold body, rd64. rewrite Z2Nat.id by lia. mrun. rewrite He, valid_pte_V. pose proof (valid_page_pos q Hq).
      pose proof (pte_land q 0 (Z.lor (Z.lor PTE_R PTE_W) PTE_X)) as Hland. rewrite Z.lor_0_r in Hland.
      rewrite Hland by (lia || done). change (_ =? 0) with true. cbn [andb].
      destruct (pte_roundtrip q 0) as (Hrt & _); [lia..|]. rewrite Z.lor_0_r in Hrt. rewrite Hrt.
      subst d1. rewrite (bind_Done _ _ _ _ _ (eq_trans (freewalk_empty d q s Hqz) Hrun1)). reflexivity. }
    mstep Hbi. apply for_each_idle. intros j Hj. apply elem_of_seq in Hj. unfold body, rd64. mrun.
    by rewrite Hj2 by (unfold index_ok; lia).
  - apply for_each_idle. intros j Hj. apply elem_of_seq in Hj. unfold body, rd64. mrun.
    by rewrite Hz by (unfold index_ok; lia).
Qed.

(** The allocation of a table when no page is free. *)
Lemma no_page s : kmem_ready s -> kmem_ok s [] -> kalloc s = Done 0 s.
Proof. intros Hr [Hfl _]. cbn in Hfl. rewrite (kalloc_run s Hr). by rewrite Hfl. Qed.

Lemma walk_none s s' root va :
  MAXVA <=? va = false -> walk_levels [2; 1] root va true s = Done None s' -> walk root va true s = Done 0 s'.
Proof. intros Hva Hw. unfold walk. rewrite Hva. by mstep Hw. Qed.

(** With fewer than two free pages [mappages] fails in an empty table, and
    [uvmfree] gives back what was taken. *)
Lemma mappages_undone s l root a pa perm :
  kmem_ready s -> kmem_ok s l -> (length l < 2)%nat -> valid_page root -> root ∉ l ->
  (forall i, index_ok i -> load64 (k_mem s) (root + 8 * i) = 0) -> 0 <= a < MAXVA ->
  exists s1 s2, mappages root a PGSIZE pa perm s = Done (-1) s1 /\ uvmfree root 0 s1 = Done tt s2 /\
    kmem_ok s2 (root :: l) /\ s2 = set_k_mem (k_mem s2) (set_k_freelist (k_freelist s2) s).
Proof.
  intros Hr Hk Hlen Hroot Hni Hz Ha. destruct (empty_table_ok (k_mem s) root l Hroot Hni Hz) as (Hpt & _ & _).
  unfold mappages. set (a' := PGROUNDDOWN a).
  assert (Ha' : MAXVA <=? a' = false) by (apply Z.leb_gt; unfold a'; rewrite PGROUNDDOWN_eq; lia).
  assert (Hi : index_ok (PX 2 a')) by (apply PX_range; lia).
  cbn [mappages_loop]. destruct l as [|q [|]]; [..|cbn in Hlen; lia].
  - exists s. assert (Hw : walk root a' true s = Done 0 s).
    { apply (walk_none s s root a' Ha'). cbn [walk_levels]. unfold rd64. mrun. rewrite Hz by done.
      change (truthy (Z.land 0 PTE_V)) with false. cbn [negb]. by rewrite (bind_Done kalloc _ _ _ _ (no_page s Hr Hk)). }
    mstep Hw. destruct (kfree_spec s root [] Hr Hk Hroot Hni) as (s2 & Hrun2 & Hk2 & _ & Hs2). exists s2.
    split_and!; [done| |done|done]. unfold uvmfree. cbn [Z.ltb Z.compare when]. mrun.
    by rewrite (freewalk_empty 2 root s Hz).
  - destruct (grow_table s q [] root [] root (PX 2 a') Hr Hk Hpt) as (s1 & Hrun1 & Hq0 & Hst & _ & _ & Hta);
      [split; [by apply Forall_singleton|cbn; lia]|done|by apply child_zero, Hz|].
    set (s1' := set_k_mem _ s1) in *. exists s1'. pose proof (free_valid s [q] q Hk ltac:(by left)) as Hq.
    pose proof (pt_step_ready _ _ _ _ _ Hst Hr) as Hr1.
    assert (Hw : walk root a' true s = Done 0 s1').
    { apply (walk_none s s1' root a' Ha'). cbn [walk_levels]. unfold rd64. mrun. rewrite Hz by done.
      change (truthy (Z.land 0 PTE_V)) with false. cbn [negb]. mstep Hrun1. rewrite (proj2 (Z.eqb_neq q 0) Hq0). unfold wr64, mod_mem. mrun. fold s1'.
      rewrite (ta_empty _ _ _ _ _ Hta) by (apply PX_range; lia). change (truthy (Z.land 0 PTE_V)) with false. cbn [negb].
      by rewrite (bind_Done kalloc _ _ _ _ (no_page s1' Hr1 (ps_kmem _ _ _ _ _ Hst))). }
    mstep Hw. apply not_elem_of_cons in Hni as [Hne _].
    destruct (freewalk_one 1 root (PX 2 a') q s1' [] Hr1 (ps_kmem _ _ _ _ _ Hst)) as (s2 & Hrun2 & Hk2 & Hs2);
      [done|done|done|set_solver|set_solver|done|apply Hta| |apply Hta|].
    { intros j Hj Hne'. rewrite (ta_other _ _ _ _ _ Hta) by auto. by apply Hz. }
    exists s2. split_and!; [done| |done|].
    + unfold uvmfree. cbn [Z.ltb Z.compare when]. mrun. exact Hrun2.
    + rewrite Hs2, (ps_state _ _ _ _ _ Hst). ks_eq.
Qed.

End Tables.

(** ** Two address spaces to evaluate on *)

(** Seven free pages, and empty tables at 0x80050000 and 0x80060000. *)
Definition seven_pages : list Z := (fun k => 0x80030000 + 0x1000 * k) <$> seqZ 0 7.
Definition seven_free : kstate unit :=
  set_k_freelist 0x80030000 (set_k_mem
    (store64 (store64 (store64 (store64 (store64 (store64 (store64 ∅ 0x80030000 0x80031000) 0x80031000 0x80032000) 0x80032000 0x80033000) 0x80033000 0x80034000) 0x80034000 0x80035000) 0x80035000 0x80036000) 0x80036000 0)
    (boot_state tt)).

Lemma seven_free_ready : @kmem_ready unit seven_free.
Proof. split; [exists zero_cpu|reflexivity]. split_and!; [reflexivity|cbn; lia|reflexivity|cbn; lia]. Qed.

Lemma seven_free_ok : @kmem_ok unit sample_symbols seven_free seven_pages.
Proof.
  split; [repeat split; vm_compute; congruence|]. change seven_pages with [0x80030000; 0x80031000; 0x80032000; 0x80033000; 0x80034000; 0x80035000; 0x80036000].
  repeat constructor; rewrite ?not_elem_of_cons, ?elem_of_nil; intuition lia.
Qed.

Lemma seven_outside p : p ∈ seven_pages -> 0x80030000 <= p <= 0x80036000.
Proof. unfold seven_pages. intros (k & -> & Hk)%list_elem_of_fmap. apply elem_of_seqZ in Hk. lia. Qed.

Lemma seven_free_zero root i : 0x80040000 <= root -> index_ok i -> load64 (k_mem seven_free) (root + 8 * i) = 0.
Proof. intros Hr Hi. unfold index_ok in Hi. unfold seven_free. ks_norm. rewrite !load64_store64_other by lia. apply load64_empty. Qed.

(** A parent with one page and a child with none. *)
Lemma two_spaces :
  exists (s : kstate unit) l, @aspace_ok unit sample_symbols s 0x80060000 l /\ (3 <= length l)%nat /\
    (forall va, pte_of (k_mem s) 0x80060000 va = 0) /\
    (forall va, 0 <= va < PGSIZE -> user_page (k_mem s) 0x80050000 va <> 0) /\
    @spared sample_symbols (owned_page (k_mem s) 0x80050000 PGSIZE) (k_mem s) 0x80060000 l.
Proof.
  assert (Hv : forall r, 0x80040000 <= r < 0x88000000 -> r mod 4096 = 0 -> @valid_page sample_symbols r) by (intros r Hr Hm; split; [done|change (0x80021000 <= r < 0x88000000); lia]).
  assert (Hn : forall r, 0x80040000 <= r -> r ∉ seven_pages) by (intros r Hr Hin; apply seven_outside in Hin; lia).
  destruct (@empty_table_ok sample_symbols (k_mem seven_free) 0x80050000 seven_pages) as (Hpt & Hu & Hz);
    [apply Hv; [lia|done]|by apply Hn|intros i; by apply seven_free_zero|].
  assert (Has : @aspace_ok unit sample_symbols seven_free 0x80050000 seven_pages) by (split; [exact seven_free_ready|exact seven_free_ok|exact Hpt|exact Hu]).
  destruct (@uvmalloc_one unit sample_symbols sample_symbols_ok seven_free 0x80050000 seven_pages 0 Has)
    as (s & l & Has' & Hlen & Hgr & _ & [Hfree Htab Hfr] & Hdata & _); [vm_compute; lia|lia|reflexivity|vm_compute; congruence|by rewrite Hz|].
  assert (Hroot : forall path p, path_ok path -> page_at (k_mem seven_free) 0x80050000 path = Some p -> p = 0x80050000).
  { intros path p Hp E. by apply (@empty_table_page (k_mem seven_free) 0x80050000 path p) in E as [_ ->]; [|intros i; apply seven_free_zero|]. }
  assert (Hzero : forall i, index_ok i -> load64 (k_mem s) (0x80060000 + 8 * i) = 0).
  { intros i Hi. rewrite <- (seven_free_zero 0x80060000 i ltac:(lia) Hi). unfold index_ok in Hi. apply load64_ext. intros b Hb. apply Hfr.
    - intros p Hp. apply seven_outside in Hp. unfold outside, PGSIZE. lia.
    - intros path p Hp E. apply Hroot in E as ->; [|done]. unfold outside, PGSIZE. lia. }
  assert (Hn' : 0x80060000 ∉ l) by (intros Hin; apply Hfree, seven_outside in Hin; lia).
  destruct (@empty_table_ok sample_symbols (k_mem s) 0x80060000 l) as (Hpt' & Hu' & Hz'); [apply Hv; [lia|done]|done|done|].
  exists s, l. split; [split; [apply Has'|apply Has'|exact Hpt'|exact Hu']|]. split; [change (length seven_pages) with 7%nat in Hlen; lia|]. split; [exact Hz'|].
  split; [intros va Hva; by apply (gr_in _ _ _ _ _ Hgr)|]. intros p Hp.
  assert (Hpl : @valid_page sample_symbols p /\ p ∉ l /\ p <> 0x80060000).
  { destruct Hp as [(path & Hpath & E)|(va & Hva & E)].
    - destruct (pt_pages _ _ _ (as_pt _ _ _ Has') path p Hpath E) as [H1 H2]. split_and!; [done|done|].
      apply Htab in E as [E|E]; [apply Hroot in E; [lia|done]|apply seven_outside in E; lia|done].
    - assert (Eu : user_page (k_mem s) 0x80050000 va = p).
      { destruct (gr_in _ _ _ _ _ Hgr va Hva) as [Hnz _]. unfold user_page in *. by destruct (_ || _). }
      destruct (uo_page _ _ _ (as_user _ _ _ Has') va) as (H1 & H2 & _); [change MAXVA with (2 ^ 38); unfold PGSIZE in Hva; lia|by apply (gr_in _ _ _ _ _ Hgr)|].
      rewrite Eu in *. split_and!; [done|done|]. specialize (Hdata va Hva). rewrite Eu in Hdata. apply seven_outside in Hdata. lia. }
  destruct Hpl as (H1 & H2 & H3). split_and!; [done|done|]. intros path q Hpath E.
  apply (@empty_table_page (k_mem s) 0x80060000) in E as [_ ->]; [congruence|done|done].
Qed.

(** The child's copy of the first four bytes of a page. *)
Lemma uvmcopy_copies_witness :
  exists s s' : kstate unit, @uvmcopy unit sample_symbols 0x80050000 0x80060000 100 s = Done 0 s' /\
    user_bytes (k_mem s') 0x80060000 0 4 = user_bytes (k_mem s) 0x80050000 0 4.
Proof.
  destruct two_spaces as (s & l & Has & Hl & Hz & Hp & Hsp).
  assert (Hval : forall va, 0 <= va < PGSIZE -> Z.land (pte_of (k_mem s) 0x80050000 va) PTE_V <> 0).
  { intros va Hva E. apply (Hp va Hva). unfold user_page. by rewrite E. }
  destruct (@uvmcopy_copies unit sample_symbols sample_symbols_ok s l 0x80050000 0x80060000 100 Has) as (s' & l' & Hrun & _ & _ & _ & _ & Hb);
    [vm_compute; intuition congruence|exact Hl| |exact Hsp|].
  - intros va Hva. change (PGROUNDUP 100) with PGSIZE in Hva. split; [by rewrite Hz|by apply Hval].
  - exists s, s'. split; [exact Hrun|]. apply Hb; [lia|vm_compute; congruence|]. intros a Ha. split; [change MAXVA with (2 ^ 38); lia|apply Hp; unfold PGSIZE; lia].
Defined.

(** The page of a parent is given back. *)
Lemma uvmdealloc_shrinks_witness :
  exists s s' : kstate unit, @uvmdealloc unit sample_symbols 0x80050000 100 0 s = Done 0 s' /\ user_page (k_mem s') 0x80050000 50 = 0.
Proof.
  destruct one_page_aspace as (s & l & Has & Hp).
  destruct (@uvmdealloc_shrinks unit sample_symbols sample_symbols_ok s l 0x80050000 100 0 Has) as (s' & l' & Hrun & Hsh & _);
    [lia|vm_compute; congruence|intros va Hva; by apply Hp|].
  exists s, s'. split; [exact Hrun|]. unfold user_page. rewrite (sh_in _ _ _ _ _ _ _ Hsh 50) by (vm_compute; intuition congruence). reflexivity.
Defined.
