(* ===== verification/Proc.v ===== *)
(** * Processes, threads, sleeping and waking (kernel/proc.c)

    The process table and the operations on it that need nothing of the file
    system: allocation and release of slots, the memory of a process, sleep and
    wakeup, signals sent with kill.  A process is its index in the table, a
    thread the pair of its process and its index there.  [swtch] gives up the
    processor: the registers it saves in a context are the resumption of the
    computation. *)

From S2P Require Import Prelude Machine Memory State Spinlock Kalloc Vm VmSpec.

Definition is_state (x y : procstate) : bool := bool_decide (x = y).

Section Ops.
Context {X : Type} `{Symbols}.

Definition swtch (target : option (nat * nat)) : KM X unit :=
  fun s => Swtch target s (fun s' => Done tt s').

(** [&t->proc_parent->lock] *)
Definition parent_lock (t : nat * nat) : KM X lock_id :=
  th ← get_thread t; pp ← of_option (t_proc_parent th); mret (ProcLock pp).

Definition curproc : KM X nat := p ← myproc; of_option p.
Definition curthread : KM X (nat * nat) := t ← mythread; of_option t.

Definition procinit : KM X unit :=
  initlock PidLock;;
  initlock WaitLock;;
  for_each (seq 0 NPROC) (fun i =>
    initlock (ProcLock i);;
    mod_thread (i, O) (set_t_kstack (KSTACK (Z.of_nat i)))).

Definition allocpid : KM X Z :=
  acquire PidLock;;
  pid ← gets k_nextpid;
  modify (set_k_nextpid (s32 (pid + 1)));;
  release PidLock;;
  mret pid.

Definition alloctid : KM X Z :=
  acquire TidLock;;
  tid ← gets k_nexttid;
  modify (set_k_nexttid (s32 (tid + 1)));;
  release TidLock;;
  mret tid.

(** ** The memory of a process *)

Definition proc_pagetable (i : nat) : KM X Z :=
  pagetable ← uvmcreate;
  if pagetable =? 0 then mret 0 else
  r ← mappages pagetable TRAMPOLINE PGSIZE sym_trampoline (Z.lor PTE_R PTE_X);
  if r <? 0 then uvmfree pagetable 0;; mret 0 else
  p ← get_proc i;
  mt ← of_option (p_main_thread p);
  t ← get_thread (i, mt);
  r ← mappages pagetable TRAPFRAME PGSIZE (t_trapframe t) (Z.lor PTE_R PTE_W);
  if r <? 0 then uvmunmap pagetable TRAMPOLINE 1 false;; uvmfree pagetable 0;; mret 0 else
  mret pagetable.

Definition proc_freepagetable (pagetable sz : Z) : KM X unit :=
  uvmunmap pagetable TRAMPOLINE 1 false;;
  uvmunmap pagetable TRAPFRAME 1 false;;
  uvmfree pagetable sz.

(** ** Slots *)

(** [name[0] = 0] *)
Definition clear_name (name : list Z) : list Z := <[O := 0]> name.

Definition freeproc (i : nat) : KM X unit :=
  p ← get_proc i;
  when (truthy (p_pagetable p)) (proc_freepagetable (p_pagetable p) (p_sz p));;
  t ← get_thread (i, O);
  when (truthy (t_trapframe t)) (kfree (t_trapframe t));;
  mod_proc i (set_p_pagetable 0);;
  mod_proc i (set_p_sz 0);;
  mod_proc i (set_p_pid 0);;
  mod_proc i (set_p_parent None);;
  mod_proc i (fun p => set_p_name (clear_name (p_name p)) p);;
  mod_proc i (set_p_killed 0);;
  mod_proc i (set_p_xstate 0);;
  mod_proc i (set_p_state UNUSED).

(** [t == t->proc_parent->threads]; the array is part of the structure, so a
    null [proc_parent] is not dereferenced. *)
Definition is_first_thread (t : nat * nat) (th : thread) : bool :=
  bool_decide (t_proc_parent th = Some (fst t)) && bool_decide (snd t = O).

Definition freethread (t : nat * nat) : KM X unit :=
  th ← get_thread t;
  when (truthy (t_kstack th) && negb (is_first_thread t th)) (kfree (t_kstack th));;
  th ← get_thread t;
  when (negb (is_first_thread t th)) (mod_thread t (set_t_trapframe 0));;
  mod_thread t (set_t_tid 0);;
  mod_thread t (set_t_thread_parent None);;
  mod_thread t (set_t_proc_parent None);;
  mod_thread t (fun th => set_t_name (clear_name (t_name th)) th);;
  mod_thread t (set_t_chan None);;
  mod_thread t (set_t_killed 0);;
  mod_thread t (set_t_xstate 0);;
  mod_thread t (set_t_state UNUSED).

(** Undo of a failed [allocproc]. *)
Definition allocproc_fail (i : nat) : KM X (option nat) :=
  freeproc i;;
  p ← get_proc i;
  mt ← of_option (p_main_thread p);
  freethread (i, mt);;
  release (ProcLock i);;
  mret None.

(** The scan for a free slot; the lock of the slot found stays held. *)
Definition find_unused : KM X (option nat) :=
  for_until (seq 0 NPROC) (fun i =>
    acquire (ProcLock i);;
    p ← get_proc i;
    if is_state (p_state p) UNUSED then mret (Some i) else release (ProcLock i);; mret None).

(** The part after the label [found] up to the allocation of memory. *)
Definition allocproc_init (i : nat) : KM X unit :=
  pid ← allocpid;
  mod_proc i (set_p_pid pid);;
  mod_proc i (set_p_state USED);;
  mod_proc i (set_p_pendingSignals 0);;
  mod_proc i (set_p_signalMask 0);;
  mod_proc i (set_p_stopped 0);;
  mod_proc i (set_p_signal_mask_backup 0);;
  mod_proc i (set_p_ignore_signals 0);;
  mod_proc i (set_p_signalHandlers (replicate 32 SIG_DFL));;
  mod_proc i (set_p_maskHandlers (replicate 32 0));;
  mod_proc i (set_p_main_thread (Some O));;
  tid ← alloctid;
  mod_thread (i, O) (set_t_tid tid);;
  mod_thread (i, O) (set_t_state USED);;
  mod_thread (i, O) (set_t_proc_parent (Some i)).

Definition allocproc : KM X (option nat) :=
  r ← find_unused;
  match r with
  | None => mret None
  | Some i =>
      allocproc_init i;;
      tf ← kalloc;
      mod_thread (i, O) (set_t_trapframe tf);;
      if tf =? 0 then allocproc_fail i else
      pt ← proc_pagetable i;
      mod_proc i (set_p_pagetable pt);;
      if pt =? 0 then allocproc_fail i else
      mod_thread (i, O) (set_t_context zero_context);;
      mod_thread (i, O) (fun t => set_t_context (set_ctx_ra sym_forkret (t_context t)) t);;
      mod_thread (i, O) (fun t => set_t_context (set_ctx_sp (u64 (t_kstack t + PGSIZE)) (t_context t)) t);;
      mret (Some i)
  end.

(** ** Growing *)

(** [sz] is a [uint] here: the sizes are cut to 32 bits. *)
Definition growproc (n : Z) : KM X Z :=
  i ← curproc;
  acquire (ProcLock i);;
  p ← get_proc i;
  let sz := u32 (p_sz p) in
  r ← (if 0 <? n then
         sz' ← uvmalloc (p_pagetable p) sz (u32 (sz + n));
         if u32 sz' =? 0 then mret None else mret (Some (u32 sz'))
       else if n <? 0 then
         sz' ← uvmdealloc (p_pagetable p) sz (u32 (sz + n));
         mret (Some (u32 sz'))
       else mret (Some sz));
  match r with
  | None => release (ProcLock i);; mret (-1)
  | Some sz => mod_proc i (set_p_sz sz);; release (ProcLock i);; mret 0
  end.

(** ** Giving up the processor *)

Definition sched : KM X unit :=
  t ← curthread;
  lk ← parent_lock t;
  h ← holding lk;
  if negb h then panic "sched p->lock" else
  c ← mycpu;
  if negb (c_noff c =? 1) then panic "sched locks" else
  th ← get_thread t;
  if is_state (t_state th) RUNNING then panic "sched running" else
  b ← intr_get;
  if b : bool then panic "sched interruptible" else
  c ← mycpu;
  swtch None;;
  mod_mycpu (set_c_intena (c_intena c)).

Definition yield : KM X unit :=
  t ← curthread;
  lk ← parent_lock t;
  acquire lk;;
  mod_thread t (set_t_state RUNNABLE);;
  sched;;
  lk ← parent_lock t;
  release lk.

Definition sleep (ch : chan) (lk : lock_id) : KM X unit :=
  t ← curthread;
  plk ← parent_lock t;
  acquire plk;;
  release lk;;
  mod_thread t (set_t_chan (Some ch));;
  mod_thread t (set_t_state SLEEPING);;
  sched;;
  mod_thread t (set_t_chan None);;
  plk ← parent_lock t;
  release plk;;
  acquire lk.

(** The body of [wakeup] for one thread. *)
Definition wakeup_thread (ch : option chan) (t : nat * nat) : KM X unit :=
  me ← mythread;
  when (negb (bool_decide (Some t = me)))
    (th ← get_thread t;
     when (is_state (t_state th) SLEEPING && bool_decide (t_chan th = ch))
       (mod_thread t (set_t_state RUNNABLE))).

Definition wakeup (ch : option chan) : KM X unit :=
  for_each (seq 0 NPROC) (fun i =>
    acquire (ProcLock i);;
    for_each (seq 0 NTHREAD) (fun j => wakeup_thread ch (i, j));;
    release (ProcLock i)).

(** ** Signals sent to a process *)

(** The part of [kill] for SIGKILL. *)
Definition kill_proc (i : nat) : KM X unit :=
  mod_proc i (set_p_killed 1);;
  p ← get_proc i;
  when (is_state (p_state p) SLEEPING) (mod_proc i (set_p_state RUNNABLE));;
  for_each (seq 0 NTHREAD) (fun j =>
    th ← get_thread (i, j);
    when (is_state (t_state th) SLEEPING) (mod_thread (i, j) (set_t_state RUNNABLE))).

Definition kill (pid signum : Z) : KM X Z :=
  if (SIGNALS_SIZE <=? signum) || (signum <? 0) then mret (-1) else
  r ← for_until (seq 0 NPROC) (fun i =>
    acquire (ProcLock i);;
    p ← get_proc i;
    if p_pid p =? pid then
      when (signum =? SIGKILL) (kill_proc i);;
      mod_proc i (fun p => set_p_pendingSignals (Z.lor (p_pendingSignals p) (bit signum)) p);;
      release (ProcLock i);;
      mret (Some 0)
    else release (ProcLock i);; mret None);
  mret (default (-1) r).

(** ** Copies that take a user or a kernel address *)

Definition either_copyout (user_dst : bool) (dst : Z) (src : list Z) : KM X Z :=
  p0 ← myproc;
  if user_dst then
    i ← of_option p0; p ← get_proc i; copyout (p_pagetable p) dst src
  else mod_mem (fun m => write_bytes m dst src);; mret 0.

Definition either_copyin (user_src : bool) (src : Z) (len : nat) : KM X (Z * list Z) :=
  p0 ← myproc;
  if user_src then
    i ← of_option p0; p ← get_proc i; copyin (p_pagetable p) src len
  else bs ← gets (fun s => read_bytes (k_mem s) src len); mret (0, bs).

(** [procdump] prints pid, state and name of the used slots; the state names
    have a gap at [USED]. *)
Definition state_name (st : procstate) : string :=
  match st with
  | UNUSED => "unused" | USED => "???" | SLEEPING => "sleep " | RUNNABLE => "runble"
  | RUNNING => "run   " | ZOMBIE => "zombie"
  end.

Definition procdump : KM X unit :=
  printf "\n" [];;
  for_each (seq 0 NPROC) (fun i =>
    p ← get_proc i;
    if is_state (p_state p) UNUSED then mret tt else
    printf ("%d " ++ state_name (p_state p) ++ " %s") (p_pid p :: p_name p);;
    printf "\n" []).

End Ops.

(** ** Loops over the table *)

(** Every slot has its array of threads. *)
Definition table_ok (procs : list proc) : Prop :=
  length procs = NPROC /\ Forall (fun p => length (p_threads p) = NTHREAD) procs.

(** The hart can take process locks: its bookkeeping is settled and the locks
    of the processes are free. *)
Definition proc_ready {X} (s : kstate X) (c : cpu) : Prop :=
  quiet s c /\ (forall i, k_locks s !! ProcLock i = None) /\ table_ok (k_procs s).

Section Loops.
Context {X : Type} `{Symbols}.
Implicit Types s : kstate X.

Lemma table_ok_alter f i procs :
  (forall p, length (p_threads (f p)) = length (p_threads p)) -> table_ok procs -> table_ok (alter f i procs).
Proof.
  intros Hf [Hl Ht]. split; [by rewrite length_alter|]. apply Forall_alter; [done|].
  intros p _ Hp. by rewrite Hf.
Qed.

Lemma proc_ready_procs s c procs :
  proc_ready s c -> table_ok procs -> proc_ready (set_k_procs procs s) c.
Proof. intros (Hq & Hl & _) Ht. split_and!; [|exact Hl|exact Ht]. by apply (quiet_hw s). Qed.

Lemma table_lookup procs i : table_ok procs -> (i < NPROC)%nat -> exists p, procs !! i = Some p.
Proof. intros [Hl _] Hi. apply lookup_lt_is_Some_2. by rewrite Hl. Qed.

Lemma table_thread procs i p j :
  table_ok procs -> procs !! i = Some p -> (j < NTHREAD)%nat -> exists t, p_threads p !! j = Some t.
Proof.
  intros [_ Ht] Hp Hj. apply lookup_lt_is_Some_2. rewrite Forall_lookup in Ht. by rewrite (Ht i p Hp).
Qed.

(** A loop whose body updates the slot of its index. *)
Lemma for_each_procs (P : kstate X -> Prop) body f n : forall s,
  P s -> (forall i s, P s -> (i < n)%nat -> body i s = Done tt (set_k_procs (alter (f i) i (k_procs s)) s)) ->
  (forall i s, P s -> P (set_k_procs (alter (f i) i (k_procs s)) s)) ->
  for_each (seq 0 n) body s =
  Done tt (set_k_procs (foldl (fun l i => alter (f i) i l) (k_procs s) (seq 0 n)) s).
Proof.
  intros s HP Hb Hf. rewrite <- (Nat.add_0_l n) in Hb. revert s HP Hb. generalize O as k.
  induction n as [|n IH]; intros k s HP Hb; [by destruct s|]. cbn [seq for_each foldl].
  mstep (Hb k s HP ltac:(lia)). rewrite IH; [done|by apply Hf|].
  intros i s' HP' Hi. apply Hb; [done|lia].
Qed.

(** The same for the threads of the slot [i]. *)
Lemma for_each_threads (P : kstate X -> Prop) body i g n : forall s,
  P s -> (forall j s, P s -> (j < n)%nat ->
    body j s = Done tt (set_k_procs (alter (upd_thread j (g j)) i (k_procs s)) s)) ->
  (forall j s, P s -> P (set_k_procs (alter (upd_thread j (g j)) i (k_procs s)) s)) ->
  for_each (seq 0 n) body s =
  Done tt (set_k_procs (alter (fun p => set_p_threads
     (foldl (fun l j => alter (g j) j l) (p_threads p) (seq 0 n)) p) i (k_procs s)) s).
Proof.
  intros s HP Hb Hf. rewrite <- (Nat.add_0_l n) in Hb. revert s HP Hb. generalize O as k.
  induction n as [|n IH]; intros k s HP Hb.
  - cbn. rewrite alter_id_fun; [by destruct s|]. by intros [].
  - cbn [seq for_each foldl]. mstep (Hb k s HP ltac:(lia)). rewrite IH; [|by apply Hf|].
    + cbn [k_procs set_k_procs]. rewrite alter_alter. done.
    + intros j s' HP' Hj. apply Hb; [done|lia].
Qed.

End Loops.

(** ** [wakeup] *)

(** What [wakeup ch], called by [me], makes of the thread [t]. *)
Definition wake (ch : option chan) (me : option (nat * nat)) (t : nat * nat) (th : thread) : thread :=
  if negb (bool_decide (Some t = me)) && (is_state (t_state th) SLEEPING && bool_decide (t_chan th = ch))
  then set_t_state RUNNABLE th else th.

Definition wake_proc ch me (i : nat) (p : proc) : proc :=
  set_p_threads (imap (fun j => wake ch me (i, j)) (p_threads p)) p.

Section Wakeup.
Context {X : Type} `{Symbols}.
Implicit Types s : kstate X.

Lemma wakeup_thread_run ch i j s c p th :
  quiet s c -> k_procs s !! i = Some p -> p_threads p !! j = Some th ->
  wakeup_thread ch (i, j) s =
  Done tt (set_k_procs (alter (upd_thread j (wake ch (c_thread c) (i, j))) i (k_procs s)) s).
Proof.
  intros Hq Hp Ht. unfold wakeup_thread. mstep (mythread_run s c Hq). unfold when.
  assert (Hid : wake ch (c_thread c) (i, j) th = th ->
    Done tt s = Done tt (set_k_procs (alter (upd_thread j (wake ch (c_thread c) (i, j))) i (k_procs s)) s)).
  { intros E. rewrite (alter_same _ _ p _ Hp); [by destruct s|].
    unfold upd_thread. rewrite (alter_same _ _ th _ Ht E). by destruct p. }
  destruct (negb (bool_decide (Some (i, j) = c_thread c))) eqn:E1; [|apply Hid; unfold wake; by rewrite E1].
  mstep (get_thread_run i j s p th Hp Ht).
  destruct (is_state (t_state th) SLEEPING && bool_decide (t_chan th = ch)) eqn:E2;
    [|apply Hid; unfold wake; by rewrite E1, E2].
  rewrite mod_thread_run. do 2 f_equal. cbn [fst snd]. apply (alter_ext_at _ _ p); [done|].
  unfold upd_thread. f_equal. apply (alter_ext_at _ _ th); [done|]. unfold wake. by rewrite E1, E2.
Qed.

(** The locked section of one iteration. *)
Lemma locked_procs {A} i body s c (a : A) procs :
  quiet s c -> k_locks s !! ProcLock i = None ->
  body (acquired (ProcLock i) s) = Done a (set_k_procs procs (acquired (ProcLock i) s)) ->
  (acquire (ProcLock i);; r ← body; release (ProcLock i);; mret r) s = Done a (set_k_procs procs s).
Proof.
  intros Hq Hl Hb. mstep (acquire_run (ProcLock i) s c Hq Hl). mstep Hb.
  mstep (release_run (ProcLock i) s c (set_k_procs procs (acquired (ProcLock i) s)) Hq Hl eq_refl).
  by destruct s.
Qed.

Lemma wakeup_run ch s c :
  proc_ready s c ->
  wakeup ch s = Done tt (set_k_procs (imap (wake_proc ch (c_thread c)) (k_procs s)) s).
Proof.
  intros Hr. unfold wakeup.
  rewrite (for_each_procs (fun s => proc_ready s c) _ (wake_proc ch (c_thread c)) NPROC s Hr).
  - destruct Hr as (_ & _ & [Hl _]). rewrite <- Hl, foldl_alter_imap. done.
  - clear s Hr. intros i s (Hq & Hl & Ht) Hi.
    destruct (table_lookup _ i Ht Hi) as [p Hp].
    pose proof (quiet_acquired (ProcLock i) s c Hq) as Hq'.
    set (P := fun s' : kstate X => quiet s' (set_c_noff (c_noff c + 1) c) /\ table_ok (k_procs s')).
    assert (Hin : for_each (seq 0 NTHREAD) (fun j => wakeup_thread ch (i, j)) (acquired (ProcLock i) s) =
      Done tt (set_k_procs (alter (wake_proc ch (c_thread c) i) i (k_procs s)) (acquired (ProcLock i) s))).
    { rewrite (for_each_threads P _ i (fun j => wake ch (c_thread c) (i, j))); [|done|..].
      - do 2 f_equal. apply (alter_ext_at _ _ p); [exact Hp|]. unfold wake_proc. f_equal.
        destruct Ht as [_ Ht]. rewrite Forall_lookup in Ht. rewrite <- (Ht i p Hp). apply foldl_alter_imap.
      - intros j s' [Hs' Ht'] Hj. destruct (table_lookup _ i Ht' Hi) as [p' Hp'].
        destruct (table_thread _ i p' j Ht' Hp' Hj) as [th Hth].
        exact (wakeup_thread_run ch i j s' _ p' th Hs' Hp' Hth).
      - intros j s' [Hs' Ht']. split; [by apply (quiet_hw s')|]. apply table_ok_alter; [|exact Ht'].
        intros p'. apply length_alter. }
    mstep (acquire_run (ProcLock i) s c Hq (Hl i)). mstep Hin.
    rewrite (release_run (ProcLock i) s c _ Hq (Hl i)) by reflexivity. by destruct s.
  - clear s Hr. intros i s Hr. apply (proc_ready_procs s); [done|]. destruct Hr as (_ & _ & Ht).
    apply table_ok_alter; [|done]. intros p. apply length_imap.
Qed.

End Wakeup.

(** ** [kill] *)

(** What a signal makes of the process that gets it. *)
Definition unsleep (th : thread) : thread :=
  if is_state (t_state th) SLEEPING then set_t_state RUNNABLE th else th.

Definition killed_proc (p : proc) : proc :=
  set_p_threads (map unsleep (p_threads p))
    (set_p_state (if is_state (p_state p) SLEEPING then RUNNABLE else p_state p) (set_p_killed 1 p)).

Definition signalled (signum : Z) (p : proc) : proc :=
  let p' := if signum =? SIGKILL then killed_proc p else p in
  set_p_pendingSignals (Z.lor (p_pendingSignals p) (bit signum)) p'.

Section Kill.
Context {X : Type} `{Symbols}.
Implicit Types s : kstate X.

(** Taking and giving back a lock leaves no trace. *)
Lemma release_same lk s c :
  quiet s c -> k_locks s !! lk = None -> release lk (acquired lk s) = Done tt s.
Proof. intros Hq Hl. rewrite (release_run lk s c _ Hq Hl) by reflexivity. by destruct s. Qed.

Lemma unsleep_loop i s p :
  k_procs s !! i = Some p -> length (p_threads p) = NTHREAD ->
  for_each (seq 0 NTHREAD) (fun j =>
    th ← get_thread (i, j);
    when (is_state (t_state th) SLEEPING) (mod_thread (i, j) (set_t_state RUNNABLE))) s =
  Done tt (set_k_procs (<[i := set_p_threads (map unsleep (p_threads p)) p]> (k_procs s)) s).
Proof.
  intros Hp Hlen.
  rewrite (for_each_threads (fun s => exists p', k_procs s !! i = Some p' /\ length (p_threads p') = NTHREAD)
             _ i (fun _ => unsleep)).
  - do 2 f_equal. rewrite <- Hlen. rewrite (alter_insert _ _ p _ Hp).
    rewrite (foldl_alter_imap (fun _ => unsleep)). do 2 f_equal. apply imap_const.
  - by exists p.
  - intros j s' (p' & Hp' & Hl') Hj. destruct (lookup_lt_is_Some_2 (p_threads p') j) as [th Hth]; [lia|].
    mstep (get_thread_run i j s' p' th Hp' Hth). unfold when, unsleep.
    destruct (is_state (t_state th) SLEEPING) eqn:E.
    + rewrite mod_thread_run. do 2 f_equal. cbn [fst snd]. apply (alter_ext_at _ _ p'); [done|].
      unfold upd_thread. f_equal. apply (alter_ext_at _ _ th); [done|]. by rewrite E.
    + rewrite (alter_same _ _ p' _ Hp'); [by destruct s'|]. unfold upd_thread.
      rewrite (alter_same _ _ th _ Hth); [by destruct p'|]. by rewrite E.
  - intros j s' (p' & Hp' & Hl'). exists (upd_thread j unsleep p'). cbn.
    rewrite list_lookup_alter_eq, Hp'. split; [done|]. by rewrite length_alter.
Qed.

Lemma mod_proc_at i f s p :
  k_procs s !! i = Some p -> mod_proc i f s = Done tt (set_k_procs (<[i := f p]> (k_procs s)) s).
Proof. intros Hp. rewrite mod_proc_run. by rewrite (alter_insert _ _ p). Qed.

Lemma lookup_set_proc s i p q :
  k_procs s !! i = Some p -> k_procs (set_k_procs (<[i := q]> (k_procs s)) s) !! i = Some q.
Proof. intros Hp. cbn. apply list_lookup_insert_eq. by apply lookup_lt_Some in Hp. Qed.

Lemma set_proc_twice s i p q :
  set_k_procs (<[i := q]> (k_procs (set_k_procs (<[i := p]> (k_procs s)) s)))
    (set_k_procs (<[i := p]> (k_procs s)) s) = set_k_procs (<[i := q]> (k_procs s)) s.
Proof. cbn. by rewrite list_insert_insert_eq. Qed.

Lemma kill_proc_run i s p :
  k_procs s !! i = Some p -> length (p_threads p) = NTHREAD ->
  kill_proc i s = Done tt (set_k_procs (<[i := killed_proc p]> (k_procs s)) s).
Proof.
  intros Hp Hlen. unfold kill_proc. mstep (mod_proc_at i (set_p_killed 1) s p Hp).
  set (s1 := set_k_procs _ s). assert (Hp1 : k_procs s1 !! i = Some (set_p_killed 1 p)) by by apply (lookup_set_proc s i p).
  mstep (get_proc_run i s1 _ Hp1). change (p_state (set_p_killed 1 p)) with (p_state p).
  unfold killed_proc. destruct (is_state (p_state p) SLEEPING); [rewrite when_true|rewrite when_false].
  - mstep (mod_proc_at i (set_p_state RUNNABLE) s1 _ Hp1).
    rewrite (unsleep_loop i _ (set_p_state RUNNABLE (set_p_killed 1 p)));
      [|by apply (lookup_set_proc s1 i _ _ Hp1)|done].
    unfold s1. by rewrite !set_proc_twice.
  - rewrite bind_ret, (unsleep_loop i s1 (set_p_killed 1 p) Hp1 Hlen).
    unfold s1. rewrite set_proc_twice. by destruct p.
Qed.

Lemma kill_run pid signum s c :
  proc_ready s c -> 0 <= signum < SIGNALS_SIZE ->
  kill pid signum s =
  match list_find (fun p => p_pid p = pid) (k_procs s) with
  | Some (i, p) => Done 0 (set_k_procs (<[i := signalled signum p]> (k_procs s)) s)
  | None => Done (-1) s
  end.
Proof.
  intros (Hq & Hl & Ht) Hs. unfold kill.
  rewrite (proj2 (Z.leb_gt SIGNALS_SIZE signum)), (proj2 (Z.ltb_ge signum 0)) by lia. cbn [orb].
  set (body := fun i : nat => acquire (ProcLock i);; _).
  assert (Hskip : forall k p, k_procs s !! k = Some p -> p_pid p <> pid -> body k s = Done None s).
  { intros k p Hp Hne. unfold body. mstep (acquire_run (ProcLock k) s c Hq (Hl k)).
    mstep (get_proc_run k (acquired (ProcLock k) s) p Hp). rewrite (proj2 (Z.eqb_neq _ _) Hne).
    by mstep (release_same (ProcLock k) s c Hq (Hl k)). }
  destruct (list_find _ (k_procs s)) as [[i p]|] eqn:Hf.
  - apply list_find_Some in Hf as (Hp & Hpid & Hmin).
    assert (Hlen : length (p_threads p) = NTHREAD) by (destruct Ht as [_ Ht]; rewrite Forall_lookup in Ht; eauto).
    assert (Hbody : body i s = Done (Some 0) (set_k_procs (<[i := signalled signum p]> (k_procs s)) s)).
    { unfold body. mstep (acquire_run (ProcLock i) s c Hq (Hl i)). set (sA := acquired (ProcLock i) s).
      mstep (get_proc_run i sA p Hp). rewrite (proj2 (Z.eqb_eq _ _) Hpid).
      assert (He : when (signum =? SIGKILL) (kill_proc i) sA = Done tt (set_k_procs
          (<[i := if signum =? SIGKILL then killed_proc p else p]> (k_procs sA)) sA)).
      { unfold when. destruct (signum =? SIGKILL); [exact (kill_proc_run i sA p Hp Hlen)|].
        by rewrite (list_insert_id (k_procs sA) i p Hp). }
      mstep He. set (p' := if signum =? SIGKILL then _ else _) in *.
      assert (Hmod : mod_proc i (fun p => set_p_pendingSignals (Z.lor (p_pendingSignals p) (bit signum)) p)
                (set_k_procs (<[i := p']> (k_procs sA)) sA) =
              Done tt (set_k_procs (<[i := signalled signum p]> (k_procs sA)) sA)).
      { rewrite (mod_proc_at i _ _ p' (lookup_set_proc sA i p p' Hp)), set_proc_twice.
        do 3 f_equal. unfold signalled, p'. by destruct (signum =? SIGKILL). }
      mstep Hmod.
      set (s3 := set_k_procs _ sA).
      mstep (release_run (ProcLock i) s c s3 Hq (Hl i) eq_refl). by destruct s. }
    set (s4 := set_k_procs _ s) in *.
    assert (Hfu : for_until (seq 0 NPROC) body s = Done (Some 0) s4); [|by mstep Hfu].
    apply (for_until_found NPROC i); [|..|done].
    + destruct Ht as [Ht _]. rewrite <- Ht. by apply lookup_lt_Some in Hp.
    + intros k Hk. destruct (lookup_lt_is_Some_2 (k_procs s) k) as [q Hq'];
        [apply lookup_lt_Some in Hp; lia|]. apply (Hskip k q Hq'). by apply (Hmin k q).
  - apply list_find_None in Hf. rewrite (bind_Done _ _ s None s); [done|]. apply for_until_none.
    intros k Hk. apply elem_of_seq in Hk. destruct (table_lookup _ k Ht) as [q Hq']; [lia|].
    apply (Hskip k q Hq'). rewrite Forall_lookup in Hf. by apply (Hf k).
Qed.


End Kill.

(** ** [sched], [sleep] and [yield] *)

(** The hart runs thread [t] of a process whose slot it belongs to. *)
Definition running {X} (s : kstate X) (c : cpu) (t : nat * nat) (th : thread) : Prop :=
  quiet s c /\ c_thread c = Some t /\ t_proc_parent th = Some (fst t) /\
  exists p, k_procs s !! fst t = Some p /\ p_threads p !! snd t = Some th.

(** The structure of thread [t]. *)
Definition thread_at {X} (s : kstate X) (t : nat * nat) : option thread :=
  match k_procs s !! fst t with Some p => p_threads p !! snd t | None => None end.

(** [s] with thread [t] changed by [f]. *)
Definition with_thread {X} (t : nat * nat) (f : thread -> thread) (s : kstate X) : kstate X :=
  set_k_procs (alter (upd_thread (snd t) f) (fst t) (k_procs s)) s.

(** [s] with the lock [lk] given up and [lk'] taken. *)
Definition swapped {X} (lk lk' : lock_id) (s : kstate X) : kstate X :=
  set_k_locks (<[lk' := k_hart s]> (delete lk (k_locks s))) s.

Section Sched.
Context {X : Type} `{Symbols}.
Implicit Types s : kstate X.

Lemma curthread_run s c t : quiet s c -> c_thread c = Some t -> curthread s = Done t s.
Proof. intros Hq Ht. unfold curthread. mstep (mythread_run s c Hq). by rewrite Ht. Qed.

Lemma curproc_run s c i : quiet s c -> c_proc c = Some i -> curproc s = Done i s.
Proof. intros Hq Ht. unfold curproc. mstep (myproc_run s c Hq). by rewrite Ht. Qed.

Lemma parent_lock_run s t p th i :
  k_procs s !! fst t = Some p -> p_threads p !! snd t = Some th -> t_proc_parent th = Some i ->
  parent_lock t s = Done (ProcLock i) s.
Proof.
  intros Hp Ht Hi. unfold parent_lock. destruct t as [a b].
  mstep (get_thread_run a b s p th Hp Ht). by rewrite Hi.
Qed.

(** Releasing a lock while another one is held. *)
Lemma release_inner lk s c :
  quiet s c -> 1 < c_noff c -> k_locks s !! lk = Some (k_hart s) ->
  release lk s = Done tt (set_k_locks (delete lk (k_locks s))
    (set_k_cpus (alter (fun c => set_c_noff (c_noff c - 1) c) (k_hart s) (k_cpus s)) s)).
Proof.
  intros (Hc & Hn & H0 & H1) Hnoff Hl. unfold release, holding. mrun.
  rewrite bool_decide_eq_true_2 by done. cbn [negb]. mrun.
  unfold pop_off, intr_get. mrun. cbn [k_csr set_k_locks]. rewrite H1 by lia.
  set (s1 := set_k_locks _ s). mstep (mycpu_run s1 c Hc).
  rewrite (proj2 (Z.ltb_ge _ _)) by lia. mstep (mod_mycpu_run (fun c => set_c_noff (c_noff c - 1) c) s1).
  set (s2 := set_k_cpus _ s1).
  assert (Hc2 : k_cpus s2 !! k_hart s2 = Some (set_c_noff (c_noff c - 1) c)).
  { cbn. by rewrite list_lookup_alter_eq, Hc. }
  mstep (mycpu_run s2 _ Hc2). cbn [c_noff set_c_noff].
  rewrite (proj2 (Z.eqb_neq (c_noff c - 1) 0)) by lia. done.
Qed.

(** Taking [lk'] and then giving up [lk]. *)
Lemma swap_run lk lk' s c :
  quiet s c -> 1 <= c_noff c -> lk <> lk' -> k_locks s !! lk = Some (k_hart s) -> k_locks s !! lk' = None ->
  acquire lk' s = Done tt (acquired lk' s) /\ release lk (acquired lk' s) = Done tt (swapped lk lk' s).
Proof.
  intros Hq Hn Hne Hl Hl'. split; [by apply (acquire_run lk' s c)|].
  rewrite (release_inner lk _ _ (quiet_acquired lk' s c Hq)); [|cbn; lia|by rewrite locks_acquired].
  pose proof Hq as (Hc & _ & _ & HS). unfold swapped, acquired, pushed. ks_norm.
  rewrite alter_alter, (alter_same _ _ c _ Hc), delete_insert_ne by (done || (destruct c; unfold set_c_noff; cbn; f_equal; lia)).
  do 2 f_equal. destruct s; cbn in *. rewrite <- HS by lia. by rewrite set_SIE_id.
Qed.

Lemma sched_run s c t th :
  running s c t th -> c_noff c = 1 -> k_locks s !! ProcLock (fst t) = Some (k_hart s) ->
  t_state th <> RUNNING ->
  sched s = Swtch None s (mod_mycpu (set_c_intena (c_intena c))).
Proof.
  intros (Hq & Hct & Hpp & p & Hp & Ht) Hn Hl Hst. pose proof Hq as (Hc & _ & _ & HS).
  unfold sched. mstep (curthread_run s c t Hq Hct). mstep (parent_lock_run s t p th _ Hp Ht Hpp).
  unfold holding. mrun. rewrite bool_decide_eq_true_2 by done. cbn [negb].
  mstep (mycpu_run s c Hc). rewrite Hn. cbn [Z.eqb Pos.eqb negb].
  destruct t as [i j]. mstep (get_thread_run i j s p th Hp Ht).
  unfold is_state. rewrite bool_decide_eq_false_2 by done. unfold intr_get. mrun. rewrite HS by lia.
  mstep (mycpu_run s c Hc). reflexivity.
Qed.

(** [sched] insists on its locking rules. *)
Lemma sched_no_lock s c t th :
  running s c t th -> k_locks s !! ProcLock (fst t) <> Some (k_hart s) ->
  sched s = Panic "sched p->lock" s.
Proof.
  intros (Hq & Hct & Hpp & p & Hp & Ht) Hl.
  unfold sched. mstep (curthread_run s c t Hq Hct). mstep (parent_lock_run s t p th _ Hp Ht Hpp).
  unfold holding. mrun. by rewrite bool_decide_eq_false_2.
Qed.

Lemma running_thread s c t th f :
  running s c t th -> t_proc_parent (f th) = t_proc_parent th -> running (with_thread t f s) c t (f th).
Proof.
  intros (Hq & Hct & Hpp & p & Hp & Ht) Hf. split_and!; [by apply (quiet_hw s)|done|by rewrite Hf|].
  exists (upd_thread (snd t) f p). cbn. rewrite list_lookup_alter_eq, Hp. cbn.
  by rewrite list_lookup_alter_eq, Ht.
Qed.

Lemma running_locks s c t th l : running s c t th -> running (set_k_locks l s) c t th.
Proof. intros (Hq & H'). split; [exact Hq|exact H']. Qed.

Lemma mod_thread_with t f s : mod_thread t f s = Done tt (with_thread t f s).
Proof. done. Qed.

(** The state in which [sleep] gives up the processor. *)
Definition asleep (ch : chan) (lk : lock_id) (t : nat * nat) s : kstate X :=
  with_thread t (set_t_state SLEEPING) (with_thread t (set_t_chan (Some ch)) (swapped lk (ProcLock (fst t)) s)).

(** What it does when it is resumed. *)
Definition awake (lk : lock_id) (t : nat * nat) (intena : Z) : KM X unit :=
  mod_mycpu (set_c_intena intena);;
  mod_thread t (set_t_chan None);;
  plk ← parent_lock t;
  release plk;;
  acquire lk.

Lemma sleep_run ch lk s c t th :
  running s c t th -> c_noff c = 1 -> lk <> ProcLock (fst t) ->
  k_locks s !! lk = Some (k_hart s) -> k_locks s !! ProcLock (fst t) = None ->
  exists k, sleep ch lk s = Swtch None (asleep ch lk t s) k /\
    forall s', res_eq (k s') (awake lk t (c_intena c) s').
Proof.
  intros Hrun Hn Hne Hl Hl'. pose proof Hrun as (Hq & Hct & Hpp & p & Hp & Ht).
  unfold sleep. mstep (curthread_run s c t Hq Hct). mstep (parent_lock_run s t p th _ Hp Ht Hpp).
  destruct (swap_run lk (ProcLock (fst t)) s c Hq ltac:(lia) Hne Hl Hl') as [Ha Hr].
  mstep Ha. mstep Hr.
  mstep (mod_thread_with t (set_t_chan (Some ch)) (swapped lk (ProcLock (fst t)) s)).
  mstep (mod_thread_with t (set_t_state SLEEPING)
           (with_thread t (set_t_chan (Some ch)) (swapped lk (ProcLock (fst t)) s))).
  fold (asleep ch lk t s).
  assert (Hs : sched (asleep ch lk t s) = Swtch None (asleep ch lk t s) (mod_mycpu (set_c_intena (c_intena c)))).
  { apply (sched_run _ c t (set_t_state SLEEPING (set_t_chan (Some ch) th))); [|done|cbn; apply lookup_insert_eq|done].
    apply (running_thread _ c t (set_t_chan (Some ch) th)); [|done].
    apply (running_thread _ c t th); [|done]. by apply running_locks. }
  mstep Hs. eexists. split; [reflexivity|]. intros s'. apply res_eq_refl.
Qed.

(** [s] after its only lock [lk] has been given up. *)
Definition unlocked (lk : lock_id) (c : cpu) s : kstate X :=
  set_k_csr (set_SIE (truthy (c_intena c)) (k_csr s))
    (set_k_cpus (alter (set_c_noff 0) (k_hart s) (k_cpus s)) (set_k_locks (delete lk (k_locks s)) s)).

(** The saved interrupt flag is 0 or 1. *)
Definition flag (z : Z) : Prop := z = 0 \/ z = 1.

Lemma quiet_unlocked lk s c : quiet s c -> flag (c_intena c) -> quiet (unlocked lk c s) (set_c_noff 0 c).
Proof.
  intros (Hc & _) Hf. unfold quiet, unlocked. cbn. rewrite list_lookup_alter_eq, Hc.
  split_and!; [done|done| |lia]. intros _. by destruct Hf as [-> | ->].
Qed.

Lemma unlocked_acquired lk s c :
  quiet s c -> c_noff c = 1 -> k_locks s !! lk = Some (k_hart s) ->
  hw_of s = hw_of (acquired lk (unlocked lk c s)).
Proof.
  intros (Hc & _ & _ & HS) Hn Hl. unfold hw_of, acquired, pushed, unlocked. ks_norm.
  rewrite alter_alter, (alter_same _ _ c _ Hc) by (destruct c; cbn in *; by subst).
  rewrite insert_delete_id by done. destruct s; cbn in *. rewrite <- (set_SIE_id k_csr) at 1.
  by rewrite HS by lia.
Qed.

(** Giving up the only lock that is held. *)
Lemma release_last lk s c :
  quiet s c -> c_noff c = 1 -> flag (c_intena c) -> k_locks s !! lk = Some (k_hart s) ->
  release lk s = Done tt (unlocked lk c s).
Proof.
  intros Hq Hn Hf Hl.
  rewrite (release_run lk (unlocked lk c s) (set_c_noff 0 c) s);
    [by destruct s|by apply quiet_unlocked|cbn; apply lookup_delete_eq|by apply unlocked_acquired].
Qed.

(** Giving up the only lock and taking another one. *)
Lemma reacquire_run lk lk' s c :
  quiet s c -> c_noff c = 1 -> flag (c_intena c) -> lk <> lk' ->
  k_locks s !! lk = Some (k_hart s) -> k_locks s !! lk' = None ->
  acquire lk' (unlocked lk c s) = Done tt (swapped lk lk' s).
Proof.
  intros Hq Hn Hf Hne Hl Hl'.
  rewrite (acquire_run lk' _ _ (quiet_unlocked lk s c Hq Hf)) by (cbn; by rewrite lookup_delete_ne).
  do 2 f_equal. pose proof (unlocked_acquired lk s c Hq Hn Hl) as E.
  unfold hw_of, acquired, pushed, unlocked, swapped in *. revert E. ks_norm. intros E.
  injection E as E1 E2 E3. destruct s; cbn in *. congruence.
Qed.

Lemma awake_run lk (t : nat * nat) ie s c p th :
  quiet s c -> c_noff c = 1 -> flag ie -> lk <> ProcLock (fst t) ->
  k_procs s !! fst t = Some p -> p_threads p !! snd t = Some th -> t_proc_parent th = Some (fst t) ->
  k_locks s !! ProcLock (fst t) = Some (k_hart s) -> k_locks s !! lk = None ->
  awake lk t ie s = Done tt (swapped (ProcLock (fst t)) lk (with_thread t (set_t_chan None)
    (set_k_cpus (alter (set_c_intena ie) (k_hart s) (k_cpus s)) s))).
Proof.
  intros Hq Hn Hf Hne Hp Ht Hpp Hl Hl'. unfold awake. mstep (mod_mycpu_run (set_c_intena ie) s).
  set (s1 := set_k_cpus _ s). mstep (mod_thread_with t (set_t_chan None) s1).
  set (s2 := with_thread t (set_t_chan None) s1).
  assert (Hpl : parent_lock t s2 = Done (ProcLock (fst t)) s2).
  { apply (parent_lock_run s2 t (upd_thread (snd t) (set_t_chan None) p) (set_t_chan None th)); [|..|done].
    - cbn. by rewrite list_lookup_alter_eq, Hp.
    - cbn. by rewrite list_lookup_alter_eq, Ht. }
  mstep Hpl.
  assert (Hq2 : quiet s2 (set_c_intena ie c)).
  { destruct Hq as (Hc & Hq0 & Hq1 & Hq2). unfold quiet. cbn. rewrite list_lookup_alter_eq, Hc.
    split_and!; [done|done|lia|done]. }
  mstep (release_last (ProcLock (fst t)) s2 _ Hq2 Hn Hf Hl).
  apply (reacquire_run (ProcLock (fst t)) lk s2 (set_c_intena ie c) Hq2); [done|done|congruence|done|done].
Qed.


End Sched.

(** ** [allocproc] *)

(** The slot after [allocproc_init]. *)
Definition init_proc (i : nat) (pid tid : Z) (p : proc) : proc :=
  upd_thread O (fun t => set_t_proc_parent (Some i) (set_t_state USED (set_t_tid tid t)))
    (Proc USED (p_killed p) (p_xstate p) pid (p_threads p) (p_parent p) (Some O) (p_sz p) (p_pagetable p)
       (p_ofile p) (p_cwd p) (p_name p) 0 0 (replicate 32 SIG_DFL) 0 0 0 (replicate 32 0)).

Section Alloc.
Context {X : Type} `{Symbols}.
Implicit Types s : kstate X.

Lemma allocpid_run s c :
  quiet s c -> k_locks s !! PidLock = None ->
  allocpid s = Done (k_nextpid s) (set_k_nextpid (s32 (k_nextpid s + 1)) s).
Proof.
  intros Hq Hl. unfold allocpid. mstep (acquire_run PidLock s c Hq Hl). mrun.
  mstep (release_run PidLock s c (set_k_nextpid (s32 (k_nextpid s + 1)) (acquired PidLock s)) Hq Hl eq_refl).
  by destruct s.
Qed.

Lemma alloctid_run s c :
  quiet s c -> k_locks s !! TidLock = None ->
  alloctid s = Done (k_nexttid s) (set_k_nexttid (s32 (k_nexttid s + 1)) s).
Proof.
  intros Hq Hl. unfold alloctid. mstep (acquire_run TidLock s c Hq Hl). mrun.
  mstep (release_run TidLock s c (set_k_nexttid (s32 (k_nexttid s + 1)) (acquired TidLock s)) Hq Hl eq_refl).
  by destruct s.
Qed.

Lemma find_unused_run s c :
  proc_ready s c ->
  find_unused s =
  match list_find (fun p => p_state p = UNUSED) (k_procs s) with
  | Some (i, _) => Done (Some i) (acquired (ProcLock i) s)
  | None => Done None s
  end.
Proof.
  intros (Hq & Hl & Ht). unfold find_unused. set (body := fun i : nat => acquire (ProcLock i);; _).
  assert (Hskip : forall k p, k_procs s !! k = Some p -> p_state p <> UNUSED -> body k s = Done None s).
  { intros k p Hp Hne. unfold body. mstep (acquire_run (ProcLock k) s c Hq (Hl k)).
    mstep (get_proc_run k (acquired (ProcLock k) s) p Hp).
    unfold is_state. rewrite bool_decide_eq_false_2 by done. by mstep (release_same (ProcLock k) s c Hq (Hl k)). }
  destruct (list_find _ (k_procs s)) as [[i p]|] eqn:Hf.
  - apply list_find_Some in Hf as (Hp & Hst & Hmin). apply (for_until_found NPROC i).
    + destruct Ht as [Ht _]. rewrite <- Ht. by apply lookup_lt_Some in Hp.
    + intros k Hk. destruct (lookup_lt_is_Some_2 (k_procs s) k) as [q Hq'];
        [apply lookup_lt_Some in Hp; lia|]. apply (Hskip k q Hq'). by apply (Hmin k q).
    + unfold body. mstep (acquire_run (ProcLock i) s c Hq (Hl i)).
      mstep (get_proc_run i (acquired (ProcLock i) s) p Hp). unfold is_state.
      by rewrite bool_decide_eq_true_2.
  - apply list_find_None in Hf. apply for_until_none.
    intros k Hk. apply elem_of_seq in Hk. destruct (table_lookup _ k Ht) as [q Hq']; [lia|].
    apply (Hskip k q Hq'). rewrite Forall_lookup in Hf. by apply (Hf k).
Qed.

Lemma allocproc_init_run i s c p :
  quiet s c -> k_locks s !! PidLock = None -> k_locks s !! TidLock = None -> k_procs s !! i = Some p ->
  allocproc_init i s =
  Done tt (set_k_nexttid (s32 (k_nexttid s + 1)) (set_k_nextpid (s32 (k_nextpid s + 1))
    (set_k_procs (<[i := init_proc i (k_nextpid s) (k_nexttid s) p]> (k_procs s)) s))).
Proof.
  intros Hq Hl1 Hl2 Hp. unfold allocproc_init. mstep (allocpid_run s c Hq Hl1).
  unfold mod_thread, mod_proc. mrun.
  match goal with |- (alloctid ≫= _) ?st = _ => set (s1 := st) end.
  assert (Hq1 : quiet s1 c) by by apply (quiet_hw s).
  mstep (alloctid_run s1 c Hq1 Hl2). mrun. unfold modify. do 2 f_equal. unfold s1. ks_norm. cbn [fst snd].
  destruct s; cbn in *. f_equal. rewrite !alter_alter, (alter_insert _ _ p _ Hp). f_equal.
  unfold init_proc, upd_thread. destruct p. cbn. rewrite !alter_alter. reflexivity.
Qed.

End Alloc.

(** ** The first page table of a process *)

Section Pagetable.
Context {X : Type} `{SymbolsOk}.
Implicit Types s : kstate X.

Lemma uvmcreate_spec s q l :
  kmem_ready s -> kmem_ok s (q :: l) ->
  exists s', uvmcreate s = Done q s' /\ q <> 0 /\ kmem_ok s' l /\ valid_page q /\
    pt_ok (k_mem s') q l /\ (forall va, pte_of (k_mem s') q va = 0) /\
    q ∉ l /\ (forall i, index_ok i -> load64 (k_mem s') (q + 8 * i) = 0) /\
    s' = set_k_mem (k_mem s') (set_k_freelist (k_freelist s') s).
Proof.
  intros Hr Hk. destruct (kalloc_spec s q l Hr Hk) as (s1 & Hrun & Hk1 & Hq & Hni & Hso & _ & Hs1).
  pose proof (valid_page_pos q Hq) as Hqp. unfold uvmcreate. mstep Hrun.
  rewrite (proj2 (Z.eqb_neq q 0)) by lia. unfold mod_mem. mrun. eexists. split; [reflexivity|].
  set (s' := set_k_mem _ s1).
  assert (Hz : forall i, index_ok i -> load64 (k_mem s') (q + 8 * i) = 0).
  { intros i Hi. unfold s'. ks_norm. apply load64_memset_zero; unfold index_ok, PGSIZE in *; lia. }
  destruct (empty_table_ok (k_mem s') q l Hq Hni Hz) as (Hpt & _ & Hpte).
  split_and!; [lia| |exact Hq|exact Hpt|exact Hpte|exact Hni|exact Hz|].
  - destruct Hk1 as [Hk1 Hnd]. split; [|exact Hnd].
    apply (freelist_rep_frame _ _ q l Hq Hni (same_outside_memset q 0 (k_mem s1))). exact Hk1.
  - unfold s'. rewrite Hs1. ks_eq.
Qed.

(** A process's first table maps the trampoline and the trap frame, for the
    kernel only, and nothing else. *)
Lemma proc_pagetable_spec s i p mt t q l :
  kmem_ready s -> kmem_ok s (q :: l) -> (2 <= length l)%nat ->
  k_procs s !! i = Some p -> p_main_thread p = Some mt -> p_threads p !! mt = Some t ->
  valid_page (t_trapframe t) ->
  exists s' l', proc_pagetable i s = Done q s' /\ q <> 0 /\ kmem_ok s' l' /\ pt_ok (k_mem s') q l' /\
    (forall va, 0 <= va < MAXVA -> pte_of (k_mem s') q va =
       if PGROUNDDOWN va =? TRAPFRAME then Z.lor (Z.lor (PA2PTE (t_trapframe t)) (Z.lor PTE_R PTE_W)) PTE_V
       else if PGROUNDDOWN va =? TRAMPOLINE then Z.lor (Z.lor (PA2PTE sym_trampoline) (Z.lor PTE_R PTE_X)) PTE_V
       else 0) /\
    s' = set_k_mem (k_mem s') (set_k_freelist (k_freelist s') s).
Proof.
  intros Hr Hk Hl Hp Hmt Ht Htf. apply valid_page_pos in Htf.
  pose proof sym_trampoline_range as Htr. pose proof sym_trampoline_aligned as Hta.
  pose proof sym_end_range as Hend. unfold PHYSTOP, KERNBASE, PGSIZE in Htr, Hta, Hend.
  destruct (uvmcreate_spec s q l Hr Hk) as (s1 & Hrun1 & Hq0 & Hk1 & Hq & Hpt1 & Hpte1 & _ & _ & Hs1).
  unfold proc_pagetable. mstep Hrun1. rewrite (proj2 (Z.eqb_neq q 0) Hq0).
  assert (Hr1 : kmem_ready s1) by (apply (kmem_ready_hw s); [rewrite Hs1; hw_eq|exact Hr]).
  destruct (mappages_page s1 l q TRAMPOLINE sym_trampoline (Z.lor PTE_R PTE_X))
    as (r & s2 & l2 & Hrun2 & Hst2 & Hlen2 & [[-> Hpte2]|(_ & Hbad & _)]);
    [exact Hr1|exact Hk1|exact Hpt1|vm_compute; congruence|reflexivity|vm_compute; congruence|by rewrite Hpte1
    |lia|unfold PGSIZE; lia|exact Hta|vm_compute; intuition congruence| |lia].
  mstep Hrun2. cbn [Z.ltb Z.compare].
  assert (Hp2 : k_procs s2 !! i = Some p).
  { rewrite (ps_state _ _ _ _ _ Hst2), Hs1. ks_norm. exact Hp. }
  mstep (get_proc_run i s2 p Hp2). rewrite (bind_of_option _ _ _ _ Hmt). mstep (get_thread_run i mt s2 p t Hp2 Ht).
  assert (Hat : exists x, page_at (k_mem s2) q [PX 2 TRAPFRAME; PX 1 TRAPFRAME] = Some x).
  { pose proof (Hpte2 TRAMPOLINE ltac:(vm_compute; intuition congruence)) as Hv. unfold pte_of in Hv.
    change (PX 2 TRAPFRAME) with (PX 2 TRAMPOLINE). change (PX 1 TRAPFRAME) with (PX 1 TRAMPOLINE).
    destruct (page_at (k_mem s2) q _) as [x|]; [by exists x|]. exfalso.
    change (PGROUNDDOWN TRAMPOLINE =? TRAMPOLINE) with true in Hv. cbn iota in Hv.
    symmetry in Hv. by apply Z.lor_eq_0_iff in Hv as [_ Hv]. }
  destruct Hat as [x Hat].
  destruct (mappages_present s2 l2 q TRAPFRAME (t_trapframe t) (Z.lor PTE_R PTE_W) x)
    as (s3 & Hrun3 & Hst3 & Hpte3);
    [apply Hst2|apply Hst2|exact Hat|vm_compute; congruence|reflexivity
    |vm_compute; congruence| |lia|lia|vm_compute; intuition congruence|].
  { rewrite Hpte2 by (vm_compute; intuition congruence). by rewrite Hpte1. }
  mstep Hrun3. cbn [Z.ltb Z.compare]. exists s3, l2. split_and!; [done|done|apply Hst3|apply Hst3| |].
  - intros va Hva. rewrite Hpte3 by done. rewrite Hpte2 by done. by rewrite Hpte1.
  - rewrite (ps_state _ _ _ _ _ Hst3), (ps_state _ _ _ _ _ Hst2), Hs1. ks_eq.
Qed.

(** With too few pages for it the table is given back. *)
Lemma proc_pagetable_fails s i l :
  kmem_ready s -> kmem_ok s l -> (length l < 3)%nat ->
  exists s', proc_pagetable i s = Done 0 s' /\ kmem_ok s' l /\
    s' = set_k_mem (k_mem s') (set_k_freelist (k_freelist s') s).
Proof.
  intros Hr Hk Hlen. unfold proc_pagetable. destruct l as [|q l].
  - exists s. assert (Hu : uvmcreate s = Done 0 s) by (unfold uvmcreate; by mstep (no_page s Hr Hk)).
    mstep Hu. split_and!; [done|done|by destruct s].
  - destruct (uvmcreate_spec s q l Hr Hk) as (s1 & Hrun1 & Hq0 & Hk1 & Hq & _ & _ & Hni & Hz & Hs1).
    mstep Hrun1. rewrite (proj2 (Z.eqb_neq q 0) Hq0).
    destruct (mappages_undone s1 l q TRAMPOLINE sym_trampoline (Z.lor PTE_R PTE_X)) as (s2 & s3 & Hrun2 & Hrun3 & Hk3 & Hs3);
      [apply (kmem_ready_hw s); [rewrite Hs1; hw_eq|exact Hr]|exact Hk1|cbn in Hlen; lia|exact Hq|exact Hni|exact Hz
      |vm_compute; intuition congruence|].
    mstep Hrun2. cbn [Z.ltb Z.compare]. mstep Hrun3. exists s3. split_and!; [done|done|]. rewrite Hs3, Hs1. ks_eq.
Qed.

End Pagetable.

(** The slot that a successful [allocproc] returns. *)
Definition new_proc `{Symbols} (i : nat) (pid tid tf pt : Z) (p : proc) : proc :=
  upd_thread O (fun t => set_t_context (Context sym_forkret (u64 (t_kstack t + PGSIZE)) (ctx_s zero_context))
                           (set_t_trapframe tf t))
    (set_p_pagetable pt (init_proc i pid tid p)).

(** The used slots have distinct positive process ids below [next]. *)
Definition pids_ok (procs : list proc) (next : Z) : Prop :=
  (forall i p, procs !! i = Some p -> p_state p <> UNUSED -> 0 < p_pid p < next) /\
  (forall i j p q, procs !! i = Some p -> procs !! j = Some q -> p_state p <> UNUSED -> p_state q <> UNUSED ->
     p_pid p = p_pid q -> i = j).

(** The locks that [allocproc] takes besides those of the processes. *)
Definition alloc_ready {X} (s : kstate X) (c : cpu) : Prop :=
  proc_ready s c /\ k_locks s !! PidLock = None /\ k_locks s !! TidLock = None /\ k_locks s !! KmemLock = None.

Section Allocproc.
Context {X : Type} `{SymbolsOk}.
Implicit Types s : kstate X.

Lemma pids_ok_new procs next i p q :
  pids_ok procs next -> procs !! i = Some p -> p_state p = UNUSED -> p_pid q = next -> 0 < next ->
  pids_ok (<[i := q]> procs) (next + 1).
Proof.
  intros [Hr Hd] Hi Hu Hq Hn. pose proof (lookup_lt_Some _ _ _ Hi) as Hlt.
  assert (Hcase : forall j r, <[i := q]> procs !! j = Some r ->
            (j = i /\ r = q) \/ (j <> i /\ procs !! j = Some r)).
  { intros j r Hj. destruct (decide (i = j)) as [<-|Hne].
    - rewrite list_lookup_insert_eq in Hj by done. left. by injection Hj.
    - rewrite list_lookup_insert_ne in Hj by done. by right. }
  split.
  - intros j r Hj Hs. destruct (Hcase j r Hj) as [[-> ->]|[_ Hj']]; [lia|].
    specialize (Hr j r Hj' Hs). lia.
  - intros j k r r' Hj Hk Hs Hs' E.
    destruct (Hcase j r Hj) as [[-> ->]|[Hne Hj']], (Hcase k r' Hk) as [[-> ->]|[Hne' Hk']]; [done|..].
    + specialize (Hr k r' Hk' Hs'). lia.
    + specialize (Hr j r Hj' Hs). lia.
    + by apply (Hd j k r r').
Qed.

Lemma kmem_ok_mem s s' l : k_mem s' = k_mem s -> k_freelist s' = k_freelist s -> kmem_ok s l -> kmem_ok s' l.
Proof. intros E1 E2. unfold kmem_ok. by rewrite E1, E2. Qed.

(** The slot [i] after the part of [allocproc] that takes no memory. *)
Definition started (i : nat) (p : proc) s : kstate X :=
  set_k_nexttid (s32 (k_nexttid s + 1)) (set_k_nextpid (s32 (k_nextpid s + 1))
    (set_k_procs (<[i := init_proc i (k_nextpid s) (k_nexttid s) p]> (k_procs s)) (acquired (ProcLock i) s))).

(** The rest of it. *)
Definition allocproc_memory (i : nat) : KM X (option nat) :=
  tf ← kalloc;
  mod_thread (i, O) (set_t_trapframe tf);;
  if tf =? 0 then allocproc_fail i else
  pt ← proc_pagetable i;
  mod_proc i (set_p_pagetable pt);;
  if pt =? 0 then allocproc_fail i else
  mod_thread (i, O) (set_t_context zero_context);;
  mod_thread (i, O) (fun t => set_t_context (set_ctx_ra sym_forkret (t_context t)) t);;
  mod_thread (i, O) (fun t => set_t_context (set_ctx_sp (u64 (t_kstack t + PGSIZE)) (t_context t)) t);;
  mret (Some i).

Lemma allocproc_start s c i p :
  alloc_ready s c -> list_find (fun p => p_state p = UNUSED) (k_procs s) = Some (i, p) ->
  allocproc s = allocproc_memory i (started i p s) /\ kmem_ready (started i p s).
Proof.
  intros (Hpr & Hl1 & Hl2 & Hl3) Hfind.
  pose proof (find_unused_run s c Hpr) as Hfu. rewrite Hfind in Hfu.
  apply list_find_Some in Hfind as (Hp & Hst & _). destruct Hpr as (Hq & Hl & Ht).
  pose proof (quiet_acquired (ProcLock i) s c Hq) as HqA.
  assert (HlA : forall lk, (forall k, lk <> ProcLock k) -> k_locks (acquired (ProcLock i) s) !! lk = k_locks s !! lk).
  { intros lk Hne. apply locks_acquired. intros E. by apply (Hne i). }
  split.
  - unfold allocproc. mstep Hfu.
    mstep (allocproc_init_run i (acquired (ProcLock i) s) _ p HqA (eq_trans (HlA PidLock ltac:(done)) Hl1)
             (eq_trans (HlA TidLock ltac:(done)) Hl2) Hp).
    match goal with |- _ ?st = _ => change st with (started i p s) end. unfold allocproc_memory. reflexivity.
  - split; [eexists; exact HqA|]. exact (eq_trans (HlA KmemLock ltac:(done)) Hl3).
Qed.

Lemma allocproc_spec s c l i p :
  alloc_ready s c -> kmem_ok s l -> (4 <= length l)%nat ->
  list_find (fun p => p_state p = UNUSED) (k_procs s) = Some (i, p) ->
  exists s' l' tf pt, allocproc s = Done (Some i) s' /\ kmem_ok s' l' /\ valid_page tf /\
    pt_ok (k_mem s') pt l' /\
    (forall va, 0 <= va < MAXVA -> pte_of (k_mem s') pt va =
       if PGROUNDDOWN va =? TRAPFRAME then Z.lor (Z.lor (PA2PTE tf) (Z.lor PTE_R PTE_W)) PTE_V
       else if PGROUNDDOWN va =? TRAMPOLINE then Z.lor (Z.lor (PA2PTE sym_trampoline) (Z.lor PTE_R PTE_X)) PTE_V
       else 0) /\
    s' = set_k_procs (<[i := new_proc i (k_nextpid s) (k_nexttid s) tf pt p]> (k_procs s))
           (set_k_mem (k_mem s') (set_k_freelist (k_freelist s')
             (set_k_nexttid (s32 (k_nexttid s + 1)) (set_k_nextpid (s32 (k_nextpid s + 1))
               (acquired (ProcLock i) s))))).
Proof.
  intros Hrd Hk Hlen Hfind. destruct (allocproc_start s c i p Hrd Hfind) as [-> Hr1].
  apply list_find_Some in Hfind as (Hp & Hst & _). destruct Hrd as ((Hq & Hl & Ht) & _).
  set (s1 := started i p s) in *. unfold allocproc_memory.
  destruct l as [|tf l]; [cbn in Hlen; lia|].
  destruct (kalloc_spec s1 tf l Hr1 Hk) as (s2 & Hrun2 & Hk2 & Htf & _ & _ & _ & Hs2).
  generalize dependent (k_mem s2). generalize dependent (k_freelist s2). intros f2 m2 Hs2.
  subst s2. set (s2 := set_k_mem m2 (set_k_freelist f2 s1)) in *.
  mstep Hrun2. mstep (mod_thread_run (i, O) (set_t_trapframe tf) s2). cbn [fst snd].
  set (s3 := set_k_procs _ s2). pose proof (valid_page_pos tf Htf) as Htfp.
  rewrite (proj2 (Z.eqb_neq tf 0)) by lia.
  assert (Hlt : p_threads p !! O = Some (default zero_thread (p_threads p !! O))).
  { destruct (table_thread _ i p O Ht Hp) as [t Htt]; [unfold NTHREAD; lia|]. by rewrite Htt. }
  set (t0 := default zero_thread (p_threads p !! O)) in *.
  pose proof (lookup_lt_Some _ _ _ Hp) as Hi.
  assert (Hprocs2 : k_procs s2 = <[i := init_proc i (k_nextpid s) (k_nexttid s) p]> (k_procs s)).
  { reflexivity. }
  assert (Hp3 : k_procs s3 !! i = Some (upd_thread O (set_t_trapframe tf) (init_proc i (k_nextpid s) (k_nexttid s) p))).
  { unfold s3. cbn [k_procs set_k_procs]. rewrite Hprocs2, list_lookup_alter_eq, list_lookup_insert_eq by done. done. }
  destruct l as [|pt l]; [cbn in Hlen; lia|].
  destruct (proc_pagetable_spec s3 i (upd_thread O (set_t_trapframe tf) (init_proc i (k_nextpid s) (k_nexttid s) p)) O (set_t_trapframe tf (set_t_proc_parent (Some i)
              (set_t_state USED (set_t_tid (k_nexttid s) t0)))) pt l) as (s4 & l4 & Hrun4 & Hpt0 & Hk4 & Hpt4 & Hpte4 & Hs4);
    [|exact (kmem_ok_mem s2 s3 _ eq_refl eq_refl Hk2)|cbn in Hlen; lia|exact Hp3|reflexivity| | |].
  - apply (kmem_ready_hw s1); [|exact Hr1]. reflexivity.
  - cbn. by rewrite !list_lookup_alter_eq, Hlt.
  - exact Htf.
  - mstep Hrun4. mstep (mod_proc_run i (set_p_pagetable pt) s4). rewrite (proj2 (Z.eqb_neq pt 0) Hpt0).
    unfold mod_thread, mod_proc. rewrite !bind_modify. cbn [fst snd].
    assert (Hx : exists m4 f4, s4 = set_k_mem m4 (set_k_freelist f4 s3)) by eauto.
    destruct Hx as (m4 & f4 & ->).
    eexists _, l4, tf, pt. split_and!; [reflexivity|exact (kmem_ok_mem _ _ _ eq_refl eq_refl Hk4)|done
                                       |exact Hpt4|exact Hpte4|].
    unfold s3, s2, s1, started, acquired, pushed. revert Hi. clear. destruct s. ks_norm. intros Hi. f_equal.
    rewrite !alter_alter. erewrite alter_insert by by apply list_lookup_insert_eq.
    rewrite list_insert_insert_eq. f_equal. unfold new_proc, upd_thread.
    destruct (init_proc _ _ _ _). cbn. rewrite !alter_alter. reflexivity.
Qed.

(** *** Failure *)

(** What [freeproc] and [freethread] make of the slot and of its first thread. *)
Definition reset_proc (p : proc) : proc :=
  set_p_state UNUSED (set_p_xstate 0 (set_p_killed 0 (set_p_name (clear_name (p_name p))
    (set_p_parent None (set_p_pid 0 (set_p_sz 0 (set_p_pagetable 0 p))))))).
Definition reset_thread (th : thread) : thread :=
  set_t_state UNUSED (set_t_xstate 0 (set_t_killed 0 (set_t_chan None (set_t_name (clear_name (t_name th))
    (set_t_proc_parent None (set_t_thread_parent None (set_t_tid 0 th))))))).

(** The free list when the page [tf] is given back, if there is one. *)
Definition given_back (tf : Z) (l : list Z) : list Z := if tf =? 0 then l else tf :: l.

Lemma freeproc_run s i p th l :
  kmem_ready s -> kmem_ok s l -> k_procs s !! i = Some p -> p_pagetable p = 0 -> p_threads p !! O = Some th ->
  t_trapframe th = 0 \/ (valid_page (t_trapframe th) /\ t_trapframe th ∉ l) ->
  exists s', freeproc i s = Done tt s' /\ kmem_ok s' (given_back (t_trapframe th) l) /\
    s' = set_k_procs (<[i := reset_proc p]> (k_procs s)) (set_k_mem (k_mem s') (set_k_freelist (k_freelist s') s)).
Proof.
  intros Hr Hk Hp Hpt Hth Htf. unfold freeproc. mstep (get_proc_run i s p Hp). rewrite Hpt. cbn [truthy Z.eqb negb when]. mrun.
  mstep (get_thread_run i O s p th Hp Hth).
  assert (Hf : exists s1, when (truthy (t_trapframe th)) (kfree (t_trapframe th)) s = Done tt s1 /\
    kmem_ok s1 (given_back (t_trapframe th) l) /\ s1 = set_k_mem (k_mem s1) (set_k_freelist (k_freelist s1) s)).
  { unfold given_back, truthy. destruct Htf as [->|[Hv Hni]]; [exists s; split_and!; [done|done|by destruct s]|].
    pose proof (valid_page_pos _ Hv). rewrite (proj2 (Z.eqb_neq (t_trapframe th) 0)) by lia. cbn [negb when].
    destruct (kfree_spec s (t_trapframe th) l Hr Hk Hv Hni) as (s1 & Hrun & Hk1 & _ & Hs1). by exists s1. }
  destruct Hf as (s1 & Hrun & Hk1 & Hs1). mstep Hrun. unfold mod_proc. rewrite !bind_modify.
  eexists. split; [reflexivity|]. split; [exact (kmem_ok_mem s1 _ _ eq_refl eq_refl Hk1)|]. ks_norm.
  rewrite !alter_alter. rewrite Hs1. ks_norm. f_equal. by rewrite (alter_insert _ _ p _ Hp).
Qed.

Lemma freethread_first s i p th :
  k_procs s !! i = Some p -> p_threads p !! O = Some th -> t_proc_parent th = Some i ->
  freethread (i, O) s = Done tt (set_k_procs (<[i := upd_thread O reset_thread p]> (k_procs s)) s).
Proof.
  intros Hp Hth Hpp. unfold freethread. mstep (get_thread_run i O s p th Hp Hth).
  assert (Hfirst : is_first_thread (i, O) th = true)
    by (unfold is_first_thread; cbn; by rewrite Hpp, bool_decide_eq_true_2).
  rewrite Hfirst, andb_false_r. cbn [negb when]. mrun. mstep (get_thread_run i O s p th Hp Hth).
  rewrite Hfirst. cbn [negb when]. mrun. unfold mod_thread, mod_proc. rewrite !bind_modify. cbn [fst snd].
  unfold modify. f_equal. ks_norm. rewrite !alter_alter. f_equal. rewrite (alter_insert _ _ p _ Hp). f_equal.
  unfold upd_thread. destruct p. cbn. by rewrite !alter_alter.
Qed.

(** The end of a failed [allocproc], in a state where the lock is held. *)
Lemma allocproc_fail_run s c i s4 p th l :
  quiet s c -> k_locks s !! ProcLock i = None -> hw_of s4 = hw_of (acquired (ProcLock i) s) ->
  kmem_ready s4 -> kmem_ok s4 l -> k_procs s4 !! i = Some p -> p_pagetable p = 0 -> p_main_thread p = Some O ->
  p_threads p !! O = Some th -> t_proc_parent th = Some i ->
  t_trapframe th = 0 \/ (valid_page (t_trapframe th) /\ t_trapframe th ∉ l) ->
  exists s', allocproc_fail i s4 = Done None s' /\ kmem_ok s' (given_back (t_trapframe th) l) /\
    k_procs s' = <[i := upd_thread O reset_thread (reset_proc p)]> (k_procs s4) /\ k_locks s' = k_locks s.
Proof.
  intros Hq Hl Hhw Hr Hk Hp Hpt Hmt Hth Hpp Htf. unfold allocproc_fail.
  destruct (freeproc_run s4 i p th l Hr Hk Hp Hpt Hth Htf) as (s5 & Hrun5 & Hk5 & Hs5). mstep Hrun5.
  pose proof (lookup_lt_Some _ _ _ Hp) as Hi.
  assert (Hp5 : k_procs s5 !! i = Some (reset_proc p)) by (rewrite Hs5; ks_norm; by apply list_lookup_insert_eq).
  mstep (get_proc_run i s5 (reset_proc p) Hp5). rewrite (bind_of_option _ _ _ _ (Hmt : p_main_thread (reset_proc p) = Some O)).
  mstep (freethread_first s5 i (reset_proc p) th Hp5 Hth Hpp).
  set (s6 := set_k_procs _ s5).
  assert (Hhw6 : hw_of s6 = hw_of (acquired (ProcLock i) s)) by (rewrite <- Hhw; unfold s6; rewrite Hs5; hw_eq).
  mstep (release_run (ProcLock i) s c s6 Hq Hl Hhw6). eexists. split; [reflexivity|]. split_and!; [|..|done].
  - exact (kmem_ok_mem s5 _ _ eq_refl eq_refl Hk5).
  - unfold s6. rewrite Hs5. ks_norm. by rewrite list_insert_insert_eq.
Qed.

(** When fewer than four pages are free, everything is given back. *)
Lemma allocproc_no_memory s c l i p :
  alloc_ready s c -> kmem_ok s l -> (length l < 4)%nat -> p_pagetable p = 0 ->
  list_find (fun p => p_state p = UNUSED) (k_procs s) = Some (i, p) ->
  exists s' tf, allocproc s = Done None s' /\ kmem_ok s' l /\ k_locks s' = k_locks s /\
    k_procs s' = <[i := upd_thread O reset_thread (reset_proc (upd_thread O (set_t_trapframe tf)
                         (init_proc i (k_nextpid s) (k_nexttid s) p)))]> (k_procs s).
Proof.
  intros Hrd Hk Hlen Hpt0 Hfind. destruct (allocproc_start s c i p Hrd Hfind) as [-> Hr1].
  apply list_find_Some in Hfind as (Hp & Hst & _). destruct Hrd as ((Hq & Hl & Ht) & _).
  set (s1 := started i p s) in *. unfold allocproc_memory. pose proof (lookup_lt_Some _ _ _ Hp) as Hi.
  destruct (table_thread _ i p O Ht Hp) as [t0 Ht0]; [unfold NTHREAD; lia|].
  set (q := fun tf => upd_thread O (set_t_trapframe tf) (init_proc i (k_nextpid s) (k_nexttid s) p)).
  assert (Hproc : forall tf s2, k_procs s2 = k_procs s1 ->
    alter (upd_thread O (set_t_trapframe tf)) i (k_procs s2) = <[i := q tf]> (k_procs s)).
  { intros tf s2 ->. unfold s1, started. ks_norm. erewrite alter_insert by by apply list_lookup_insert_eq.
    by rewrite list_insert_insert_eq. }
  set (th := fun tf => set_t_trapframe tf (set_t_proc_parent (Some i) (set_t_state USED (set_t_tid (k_nexttid s) t0)))).
  assert (Hth : forall tf, p_threads (q tf) !! O = Some (th tf)).
  { intros tf. unfold q, init_proc. cbn. by rewrite !list_lookup_alter_eq, Ht0. }
  destruct l as [|tf l].
  - mstep (no_page s1 Hr1 Hk). mstep (mod_thread_run (i, O) (set_t_trapframe 0) s1). cbn [fst snd]. rewrite Z.eqb_refl.
    rewrite (Hproc 0 s1 eq_refl). set (s2 := set_k_procs _ s1).
    destruct (allocproc_fail_run s c i s2 (q 0) (th 0) [] Hq (Hl i) eq_refl) as (s' & Hrun & Hk' & Hp' & Hl');
      [by apply (kmem_ready_hw s1)|exact Hk|by apply list_lookup_insert_eq|exact Hpt0|reflexivity|apply Hth|reflexivity|by left|].
    exists s', 0. split_and!; [exact Hrun|exact Hk'|exact Hl'|]. rewrite Hp'. unfold s2. ks_norm. by rewrite list_insert_insert_eq.
  - destruct (kalloc_spec s1 tf l Hr1 Hk) as (s2 & Hrun2 & Hk2 & Htf & Hni & _ & _ & Hs2).
    mstep Hrun2. mstep (mod_thread_run (i, O) (set_t_trapframe tf) s2). cbn [fst snd].
    pose proof (valid_page_pos tf Htf). rewrite (proj2 (Z.eqb_neq tf 0)) by lia.
    rewrite (Hproc tf s2) by (rewrite Hs2; reflexivity). set (s3 := set_k_procs _ s2).
    assert (Hr3 : kmem_ready s3) by (apply (kmem_ready_hw s1); [unfold s3; rewrite Hs2; hw_eq|exact Hr1]).
    destruct (proc_pagetable_fails s3 i l Hr3 (kmem_ok_mem s2 s3 _ eq_refl eq_refl Hk2)) as (s4 & Hrun4 & Hk4 & Hs4);
      [cbn in Hlen; lia|].
    mstep Hrun4. mstep (mod_proc_run i (set_p_pagetable 0) s4). rewrite Z.eqb_refl. set (s5 := set_k_procs _ s4).
    assert (Hp5 : k_procs s5 = <[i := q tf]> (k_procs s)).
    { unfold s5. rewrite Hs4. unfold s3. ks_norm. apply alter_same with (x := q tf); [by apply list_lookup_insert_eq|].
      unfold q, init_proc, upd_thread. cbn. by rewrite Hpt0. }
    destruct (allocproc_fail_run s c i s5 (q tf) (th tf) l Hq (Hl i)) as (s' & Hrun & Hk' & Hp' & Hl');
      [|apply (kmem_ready_hw s3); [unfold s5; rewrite Hs4; hw_eq|exact Hr3]|exact (kmem_ok_mem s4 _ _ eq_refl eq_refl Hk4)
      |rewrite Hp5; by apply list_lookup_insert_eq|exact Hpt0|reflexivity|apply Hth|reflexivity|by right|].
    { unfold s5. rewrite Hs4. unfold s3. rewrite Hs2. unfold s1, started. hw_eq. }
    exists s', tf. split_and!; [exact Hrun| |exact Hl'|rewrite Hp', Hp5; by rewrite list_insert_insert_eq].
    revert Hk'. unfold given_back. cbn. by rewrite (proj2 (Z.eqb_neq tf 0)) by lia.
Qed.

End Allocproc.

(** ** Properties *)

Section Properties.
Context {X : Type} `{SymbolsOk}.

(** C24: no wakeup is lost.  [sleep ch lk], called by thread [t] with only [lk]
    held, gives up the processor in a state where [t] is asleep on [ch], [lk] is
    free and the lock of [t]'s process is held, so that a [wakeup] started
    afterwards runs once the scheduler has given that lock back; every such
    [wakeup ch] by another thread makes [t] runnable; and when [t] is resumed
    with its process locked it returns with [lk] held again, its process
    unlocked and its channel cleared. *)
Theorem sleep_wakeup (ch : chan) (lk : lock_id) (s : kstate X) (c : cpu) (t : nat * nat) (th : thread) :
  running s c t th -> c_noff c = 1 -> flag (c_intena c) -> lk <> ProcLock (fst t) ->
  k_locks s !! lk = Some (k_hart s) -> k_locks s !! ProcLock (fst t) = None ->
  exists s1 k, sleep ch lk s = Swtch None s1 k /\
    thread_at s1 t = Some (set_t_state SLEEPING (set_t_chan (Some ch) th)) /\
    k_locks s1 = <[ProcLock (fst t) := k_hart s]> (delete lk (k_locks s)) /\
    (forall (s2 : kstate X) c2, k_procs s2 = k_procs s1 -> proc_ready s2 c2 -> c_thread c2 <> Some t ->
       exists s3 : kstate X, wakeup (Some ch) s2 = Done tt s3 /\
         thread_at s3 t = Some (set_t_state RUNNABLE (set_t_chan (Some ch) th))) /\
    (forall (s4 : kstate X) c4 th4, running s4 c4 t th4 -> c_noff c4 = 1 ->
       k_locks s4 !! ProcLock (fst t) = Some (k_hart s4) -> k_locks s4 !! lk = None ->
       exists s5 : kstate X, k s4 = Done tt s5 /\
         k_locks s5 = <[lk := k_hart s4]> (delete (ProcLock (fst t)) (k_locks s4)) /\
         thread_at s5 t = Some (set_t_chan None th4)).
Proof.
  intros Hrun Hn Hf Hne Hl Hl'. destruct (sleep_run ch lk s c t th Hrun Hn Hne Hl Hl') as (k & Hs & Hk).
  pose proof Hrun as (_ & _ & _ & p & Hp & Ht). destruct t as [i j]. cbn [fst snd] in *.
  assert (Hp1 : k_procs (asleep ch lk (i, j) s) !! i =
    Some (upd_thread j (set_t_state SLEEPING) (upd_thread j (set_t_chan (Some ch)) p))).
  { cbn. by rewrite !list_lookup_alter_eq, Hp. }
  assert (Ht1 : p_threads (upd_thread j (set_t_state SLEEPING) (upd_thread j (set_t_chan (Some ch)) p)) !! j =
    Some (set_t_state SLEEPING (set_t_chan (Some ch) th))).
  { cbn. by rewrite !list_lookup_alter_eq, Ht. }
  exists (asleep ch lk (i, j) s), k. unfold thread_at. cbn [fst snd].
  split_and!; [exact Hs|by rewrite Hp1|done|..].
  - intros s2 c2 Hpr Hr Hct. rewrite (wakeup_run (Some ch) s2 c2 Hr). eexists. split; [reflexivity|].
    cbn [k_procs set_k_procs]. rewrite list_lookup_imap, Hpr, Hp1. cbn [fmap option_fmap option_map].
    unfold wake_proc. cbn [p_threads set_p_threads]. rewrite list_lookup_imap, Ht1.
    cbn [fmap option_fmap option_map]. unfold wake.
    rewrite (bool_decide_eq_false_2 (Some (i, j) = _)) by congruence. cbn. by rewrite bool_decide_eq_true_2.
  - intros s4 c4 th4 (Hq4 & _ & Hpp4 & p4 & Hp4 & Ht4) Hn4 Hl4 Hl4'.
    pose proof (awake_run lk (i, j) (c_intena c) s4 c4 p4 th4 Hq4 Hn4 Hf Hne Hp4 Ht4 Hpp4 Hl4 Hl4') as Ha.
    specialize (Hk s4). rewrite Ha in Hk. eexists. split; [by inversion Hk|]. split; [done|].
    cbn in *. rewrite list_lookup_alter_eq, Hp4. cbn. by rewrite list_lookup_alter_eq, Ht4.
Qed.

(** [wakeup ch] terminates and makes runnable exactly the other threads that
    sleep on [ch]; nothing else in the kernel state changes. *)
Theorem wakeup_exact (ch : option chan) (s : kstate X) (c : cpu) :
  proc_ready s c ->
  exists procs, wakeup ch s = Done tt (set_k_procs procs s) /\
    forall i j p th, k_procs s !! i = Some p -> p_threads p !! j = Some th ->
      exists p', procs !! i = Some p' /\ p' = set_p_threads (p_threads p') p /\
        p_threads p' !! j = Some (if bool_decide (Some (i, j) <> c_thread c /\ t_state th = SLEEPING /\ t_chan th = ch)
                                  then set_t_state RUNNABLE th else th).
Proof.
  intros Hr. eexists. split; [exact (wakeup_run ch s c Hr)|]. intros i j p th Hp Ht.
  exists (wake_proc ch (c_thread c) i p). rewrite list_lookup_imap, Hp. split_and!; [done|by destruct p|].
  cbn. rewrite list_lookup_imap, Ht. cbn. f_equal. unfold wake, is_state.
  repeat case_bool_decide; cbn; intuition congruence.
Qed.

(** C33: [kill] delivers a valid signal to the first slot with the given process
    id, and only to it: the signal becomes pending, and SIGKILL also marks the
    process killed and makes its sleeping threads runnable.  Without such a slot,
    or for a signal number out of range, it returns -1 and changes nothing. *)
Theorem kill_delivers (pid signum : Z) (s : kstate X) (c : cpu) :
  proc_ready s c ->
  kill pid signum s =
  if (0 <=? signum) && (signum <? SIGNALS_SIZE) then
    match list_find (fun p => p_pid p = pid) (k_procs s) with
    | Some (i, p) => Done 0 (set_k_procs (<[i := signalled signum p]> (k_procs s)) s)
    | None => Done (-1) s
    end
  else Done (-1) s.
Proof.
  intros Hr. destruct (Z.leb_spec 0 signum), (Z.ltb_spec signum SIGNALS_SIZE); cbn [andb];
    [by apply (kill_run _ _ _ c)|unfold kill..].
  - by rewrite (proj2 (Z.leb_le _ _)).
  - by rewrite (proj2 (Z.ltb_lt _ _)), orb_true_r.
  - by rewrite (proj2 (Z.leb_le _ _)).
Qed.

(** C30: [allocproc] allocates a process or gives everything back.  When no slot
    is unused it returns 0 and changes nothing.  When a slot is unused and four
    pages are free, it returns the first unused slot, locked, with a fresh
    process id, default signal handling, a trap frame page and a page table that
    maps the trampoline and that page for the kernel and nothing for the user;
    the process ids of the used slots stay distinct.  When fewer than four pages
    are free it returns 0, the slot is unused again and unlocked, and the free
    list is what it was: the trap frame, and the tables of a page table that
    could not be completed, have been freed. *)
Theorem allocproc_allocates (s : kstate X) (c : cpu) (l : list Z) :
  alloc_ready s c -> kmem_ok s l -> pids_ok (k_procs s) (k_nextpid s) -> 0 < k_nextpid s < 2 ^ 31 - 1 ->
  match list_find (fun p => p_state p = UNUSED) (k_procs s) with
  | None => allocproc s = Done None s
  | Some (i, p) =>
      ((4 <= length l)%nat ->
       exists s' l' tf pt, allocproc s = Done (Some i) s' /\ kmem_ok s' l' /\ pt_ok (k_mem s') pt l' /\
         k_procs s' = <[i := new_proc i (k_nextpid s) (k_nexttid s) tf pt p]> (k_procs s) /\
         k_locks s' = <[ProcLock i := k_hart s]> (k_locks s) /\
         pids_ok (k_procs s') (k_nextpid s') /\
         (forall va, 0 <= va < MAXVA -> user_page (k_mem s') pt va = 0) /\
         pte_of (k_mem s') pt TRAPFRAME = Z.lor (Z.lor (PA2PTE tf) (Z.lor PTE_R PTE_W)) PTE_V /\
         pte_of (k_mem s') pt TRAMPOLINE = Z.lor (Z.lor (PA2PTE sym_trampoline) (Z.lor PTE_R PTE_X)) PTE_V) /\
      ((length l < 4)%nat -> p_pagetable p = 0 ->
       exists s' q, allocproc s = Done None s' /\ kmem_ok s' l /\ k_locks s' = k_locks s /\
         k_procs s' = <[i := q]> (k_procs s) /\ p_state q = UNUSED /\ p_pid q = 0 /\ p_pagetable q = 0)
  end.
Proof.
  intros Hr Hk Hpids Hnext. destruct (list_find _ (k_procs s)) as [[i p]|] eqn:Hfind.
  2: { pose proof (find_unused_run s c (proj1 Hr)) as Hfu. rewrite Hfind in Hfu. unfold allocproc. by mstep Hfu. }
  split; intros Hlen.
  - destruct (allocproc_spec s c l i p Hr Hk Hlen Hfind) as (s' & l' & tf & pt & Hrun & Hk' & Htf & Hpt & Hpte & Hs').
    apply list_find_Some in Hfind as (Hp & Hst & _).
    exists s', l', tf, pt. split_and!; try assumption; [by rewrite Hs'|by rewrite Hs'|..].
    + rewrite Hs'. cbn [k_procs k_nextpid set_k_procs set_k_mem set_k_freelist set_k_nexttid set_k_nextpid].
      rewrite s32_small by lia. apply (pids_ok_new _ _ i p); [done..|lia].
    + intros va Hva. unfold user_page. rewrite Hpte by done. apply valid_page_pos in Htf.
      pose proof sym_trampoline_range. pose proof sym_trampoline_aligned. pose proof sym_end_range.
      unfold PHYSTOP, KERNBASE, PGSIZE in *.
      destruct (_ =? TRAPFRAME); [|destruct (_ =? TRAMPOLINE); [|done]];
        by rewrite !pte_land by (lia || done || (vm_compute; intuition congruence)).
    + rewrite Hpte by (vm_compute; intuition congruence). done.
    + rewrite Hpte by (vm_compute; intuition congruence). done.
  - intros Hpt. destruct (allocproc_no_memory s c l i p Hr Hk Hlen Hpt Hfind) as (s' & tf & Hrun & Hk' & Hl' & Hp').
    eexists s', _. split_and!; [exact Hrun|exact Hk'|exact Hl'|exact Hp'|reflexivity..].
Qed.

(** A process can be born killed.  Free slots have process id 0, so
    [kill(0, SIGKILL)] succeeds on the first of them and marks it killed, and
    [allocproc], which takes that same slot next, does not reset the mark. *)
Theorem kill_zero_marks_next (s : kstate X) (c : cpu) (i : nat) (p : proc) :
  proc_ready s c -> k_locks s !! PidLock = None -> k_locks s !! TidLock = None ->
  (forall j q, k_procs s !! j = Some q -> p_pid q = 0 <-> p_state q = UNUSED) ->
  list_find (fun p => p_state p = UNUSED) (k_procs s) = Some (i, p) ->
  exists s1 s2 s3 q, kill 0 SIGKILL s = Done 0 s1 /\ find_unused s1 = Done (Some i) s2 /\
    allocproc_init i s2 = Done tt s3 /\ k_procs s3 !! i = Some q /\ p_state q = USED /\ p_killed q = 1.
Proof.
  intros Hr Hl1 Hl2 Hz Hf. apply list_find_Some in Hf as (Hp & Hst & Hmin).
  pose proof (lookup_lt_Some _ _ _ Hp) as Hi. destruct Hr as (Hq & Hl & Ht).
  assert (Hf0 : list_find (fun p => p_pid p = 0) (k_procs s) = Some (i, p)).
  { apply list_find_Some. split_and!; [done|by apply (Hz i p)|].
    intros j q Hj Hlt Hq0. apply (Hmin j q Hj Hlt). by apply (Hz j q). }
  pose proof (kill_run 0 SIGKILL s c (conj Hq (conj Hl Ht)) ltac:(vm_compute; intuition congruence)) as Hk.
  rewrite Hf0 in Hk. set (p1 := signalled SIGKILL p) in *. set (s1 := set_k_procs _ s) in *.
  assert (Ht1 : table_ok (k_procs s1)).
  { destruct Ht as [Hlen Hth]. split; [cbn; by rewrite length_insert|]. apply Forall_insert; [done|].
    cbn. rewrite length_map. by apply (Forall_lookup_1 _ _ _ _ Hth Hp). }
  assert (Hr1 : proc_ready s1 c) by (by apply proc_ready_procs).
  assert (Hf1 : list_find (fun p => p_state p = UNUSED) (k_procs s1) = Some (i, p1)).
  { apply list_find_Some. cbn [k_procs set_k_procs s1]. split_and!.
    - by apply list_lookup_insert_eq.
    - cbn. by rewrite Hst.
    - intros j q Hj Hlt. rewrite list_lookup_insert_ne in Hj by lia. by apply (Hmin j q). }
  pose proof (find_unused_run s1 c Hr1) as Hfu. rewrite Hf1 in Hfu.
  set (s2 := acquired (ProcLock i) s1) in *.
  assert (Hp2 : k_procs s2 !! i = Some p1) by (cbn; by apply list_lookup_insert_eq).
  pose proof (allocproc_init_run i s2 _ p1 (quiet_acquired (ProcLock i) s1 c (proj1 Hr1))) as Hinit.
  eexists s1, s2, _, _. split_and!; [exact Hk|exact Hfu|apply Hinit|..].
  - unfold s2. by rewrite locks_acquired.
  - unfold s2. by rewrite locks_acquired.
  - exact Hp2.
  - cbn. apply list_lookup_insert_eq. by rewrite length_insert.
  - done.
  - done.
Qed.


End Properties.

(** ** States to evaluate on *)

(** One process, whose first thread runs on hart 0 with the given locks. *)
Definition one_proc (noff : Z) (locks : gmap lock_id nat) : kstate unit :=
  set_k_locks locks
    (set_k_cpus (<[O := Cpu (Some O) (Some (O, O)) noff 0]> (k_cpus (boot_state tt)))
      (set_k_procs (<[O := upd_thread O (fun t => set_t_state RUNNING (set_t_tid 1 (set_t_proc_parent (Some O) t)))
                             (set_p_main_thread (Some O) (set_p_pid 1 (set_p_state USED zero_proc)))]>
                      (k_procs (boot_state tt))) (set_k_nextpid 2 (boot_state tt)))).

Lemma one_proc_quiet noff locks : 0 <= noff -> quiet (one_proc noff locks) (Cpu (Some O) (Some (O, O)) noff 0).
Proof. intros Hn. split_and!; [done|done|done|done]. Qed.

Lemma one_proc_table noff locks : table_ok (k_procs (one_proc noff locks)).
Proof.
  split; [reflexivity|]. apply Forall_insert; [|reflexivity]. by apply Forall_replicate.
Qed.

Lemma one_proc_ready : proc_ready (one_proc 0 ∅) (Cpu (Some O) (Some (O, O)) 0 0).
Proof. split_and!; [by apply one_proc_quiet|intros i; apply lookup_empty|apply one_proc_table]. Qed.

Lemma one_proc_unused j q :
  k_procs (one_proc 0 ∅) !! j = Some q -> p_pid q = 0 <-> p_state q = UNUSED.
Proof.
  destruct j as [|j]; [by intros [= <-]|]. cbn -[replicate]. intros Hq. apply (lookup_replicate_1 63) in Hq as [-> _].
  done.
Qed.

Lemma sleep_wakeup_witness :
  exists s1 k, sleep ChTicks TicksLock (one_proc 1 {[TicksLock := O]}) = Swtch None s1 k /\
    k_locks s1 !! TicksLock = None.
Proof.
  set (s := one_proc 1 {[TicksLock := O]}).
  destruct (sleep_wakeup ChTicks TicksLock s (Cpu (Some O) (Some (O, O)) 1 0) (O, O)
              (set_t_state RUNNING (set_t_tid 1 (set_t_proc_parent (Some O) zero_thread))))
    as (s1 & k & Hs & _ & Hl & _).
  - split_and!; [by apply one_proc_quiet|reflexivity|reflexivity|]. eexists. split; reflexivity.
  - reflexivity.
  - by left.
  - done.
  - reflexivity.
  - reflexivity.
  - exists s1, k. split; [exact Hs|]. rewrite Hl. reflexivity.
Defined.

Lemma wakeup_exact_witness :
  exists procs, wakeup (Some ChTicks) (one_proc 0 ∅) = Done tt (set_k_procs procs (one_proc 0 ∅)).
Proof.
  destruct (wakeup_exact (Some ChTicks) (one_proc 0 ∅) _ one_proc_ready) as (procs & Hw & _).
  exists procs. exact Hw.
Defined.

Lemma kill_delivers_witness : exists s', kill 1 SIGSTOP (one_proc 0 ∅) = Done 0 s'.
Proof.
  rewrite (kill_delivers 1 SIGSTOP (one_proc 0 ∅) _ one_proc_ready). eexists. reflexivity.
Defined.

Lemma kill_zero_marks_next_witness :
  exists s1 s2 s3 q, kill 0 SIGKILL (one_proc 0 ∅) = Done 0 s1 /\ find_unused s1 = Done (Some 1%nat) s2 /\
    allocproc_init 1 s2 = Done tt s3 /\ k_procs s3 !! 1%nat = Some q /\ p_state q = USED /\ p_killed q = 1.
Proof.
  apply (kill_zero_marks_next (one_proc 0 ∅) _ 1 zero_proc one_proc_ready);
    [reflexivity|reflexivity|exact one_proc_unused|reflexivity].
Defined.

(** The process table of [one_proc] and six free pages. *)
Definition one_proc_mem : kstate unit :=
  set_k_freelist 0x80030000
    (set_k_mem (store64 (store64 (store64 (store64 (store64 (store64 ∅ 0x80030000 0x80031000)
        0x80031000 0x80032000) 0x80032000 0x80033000) 0x80033000 0x80034000) 0x80034000 0x80035000)
        0x80035000 0) (one_proc 0 ∅)).

Lemma one_proc_kmem :
  @kmem_ok unit sample_symbols one_proc_mem
    [0x80030000; 0x80031000; 0x80032000; 0x80033000; 0x80034000; 0x80035000].
Proof.
  split; [repeat split; vm_compute; congruence|].
  repeat constructor; rewrite ?not_elem_of_cons, ?elem_of_nil; intuition lia.
Qed.

Lemma one_proc_pids : pids_ok (k_procs one_proc_mem) (k_nextpid one_proc_mem).
Proof.
  assert (Hp : forall j q, k_procs one_proc_mem !! j = Some q -> p_state q <> UNUSED -> j = O /\ p_pid q = 1).
  { intros [|j] q Hq Hs; [by injection Hq as <-|]. destruct Hs. apply (one_proc_unused (S j)); [exact Hq|].
    cbn -[replicate] in Hq. apply (lookup_replicate_1 63) in Hq as [-> _]. done. }
  split.
  - intros j q Hq Hs. destruct (Hp j q Hq Hs) as [_ ->]. cbn. lia.
  - intros j k q r Hj Hk Hs Hs' _. by destruct (Hp j q Hj Hs) as [-> _], (Hp k r Hk Hs') as [-> _].
Qed.

Lemma allocproc_allocates_witness :
  exists s', @allocproc unit sample_symbols one_proc_mem = Done (Some 1%nat) s' /\ k_nextpid one_proc_mem = 2.
Proof.
  pose proof (@allocproc_allocates unit sample_symbols sample_symbols_ok one_proc_mem
              (Cpu (Some O) (Some (O, O)) 0 0)
              [0x80030000; 0x80031000; 0x80032000; 0x80033000; 0x80034000; 0x80035000]) as Ha.
  change (list_find _ (k_procs one_proc_mem)) with (Some (1%nat, zero_proc)) in Ha.
  destruct Ha as [Ha _].
  - split_and!; [|reflexivity..]. exact one_proc_ready.
  - exact one_proc_kmem.
  - exact one_proc_pids.
  - cbn. lia.
  - destruct Ha as (s' & l' & tf & pt & Hrun & _); [cbn; lia|]. exists s'. split; [exact Hrun|reflexivity].
Defined.
