(* ===== verification/Signals.v ===== *)
(** * Signals (kernel/proc.c, from [sigprocmask] to [handling_signals])

    The signal state of a process is four fields of its structure: the pending
    and the blocked set as 32-bit masks, the handlers and their masks.  A user
    handler runs on the thread's own trap frame: [usersignal] saves the frame
    and redirects it, [sigret] puts it back. *)

From S2P Require Import Prelude Machine Memory State Spinlock Kalloc Vm Proc.

Section Ops.
Context {X : Type} `{Symbols}.

(** [t->trapframe], dereferenced. *)
Definition trapframe_of (t : nat * nat) : KM X Z :=
  th ← get_thread t; check_ptr (t_trapframe th);; mret (t_trapframe th).

Definition tf_get (t : nat * nat) (field : Z) : KM X Z := tf ← trapframe_of t; rd64 (tf + field).
Definition tf_set (t : nat * nat) (field v : Z) : KM X unit := tf ← trapframe_of t; wr64 (tf + field) (u64 v).

Definition sigprocmask (sigmask : Z) : KM X Z :=
  i ← curproc;
  p ← get_proc i;
  let oldMask := p_signalMask p in
  mod_proc i (set_p_signalMask (u32 sigmask));;
  mret oldMask.

(** [sizeof(struct sigaction)]: a pointer, an [unsigned int] and padding. *)
Definition sizeof_sigaction : nat := 16.

(** [p->signalHandlers[signum]] and [p->maskHandlers[signum]] *)
Definition handler_of (p : proc) (signum : Z) : KM X Z := of_option (p_signalHandlers p !! Z.to_nat signum).
Definition mask_of (p : proc) (signum : Z) : KM X Z := of_option (p_maskHandlers p !! Z.to_nat signum).

(** The two copies of [sigaction] to [oldact].  [sizeof(8)] is the size of an
    [int]; [false] stands for the early return. *)
Definition sigaction_old (i : nat) (signum oldact : Z) : KM X bool :=
  if oldact =? 0 then mret true else
  p ← get_proc i;
  h ← handler_of p signum;
  mask ← mask_of p signum;
  r ← copyout (p_pagetable p) oldact (take 4 (le_bytes 8 h));
  if r <? 0 then mret false else
  r ← copyout (p_pagetable p) (u64 (oldact + 8)) (le_bytes 4 mask);
  mret (negb (r <? 0)).

Definition sigaction_new (i : nat) (signum act : Z) : KM X bool :=
  if act =? 0 then mret true else
  p ← get_proc i;
  r ← copyin (p_pagetable p) act sizeof_sigaction;
  if fst r <? 0 then mret false else
  let sa_handler := le_val (take 8 (snd r)) in
  let sigmask := le_val (take 4 (drop 8 (snd r))) in
  if sigmask <? 0 then mret false else
  mod_proc i (fun p => set_p_signalHandlers (<[Z.to_nat signum := sa_handler]> (p_signalHandlers p)) p);;
  mod_proc i (fun p => set_p_maskHandlers (<[Z.to_nat signum := sigmask]> (p_maskHandlers p)) p);;
  mret true.

Definition sigaction (signum act oldact : Z) : KM X Z :=
  if (signum <? 0) || (32 <=? signum) then mret (-1) else
  if (signum =? SIGSTOP) || (signum =? SIGKILL) then mret (-1) else
  i ← curproc;
  acquire (ProcLock i);;
  ok ← sigaction_old i signum oldact;
  if negb ok then mret (-1) else
  ok ← sigaction_new i signum act;
  if negb ok then mret (-1) else
  release (ProcLock i);;
  mret 0.

Definition sigret : KM X unit :=
  i ← curproc;
  t ← curthread;
  th ← get_thread t;
  tf ← trapframe_of t;
  mod_mem (fun m => write_bytes m tf (t_backup th));;
  mod_proc i (fun p => set_p_signalMask (p_signal_mask_backup p) p);;
  mod_proc i (set_p_ignore_signals 0).

(** [end_ret - start_ret] is the number of bytes of the code between them. *)
Definition usersignal (t : nat * nat) (signum : Z) : KM X unit :=
  th ← get_thread t;
  i ← of_option (t_proc_parent th);
  mod_proc i (fun p => set_p_signal_mask_backup (p_signalMask p) p);;
  p ← get_proc i;
  mask ← mask_of p signum;
  mod_proc i (set_p_signalMask mask);;
  mod_proc i (set_p_ignore_signals 1);;
  tf ← trapframe_of t;
  backup ← gets (fun s => read_bytes (k_mem s) tf sizeof_trapframe);
  mod_thread t (set_t_backup backup);;
  p ← get_proc i;
  h ← handler_of p signum;
  tf_set t tf_epc h;;
  let sigret_size := u32 (Z.of_nat (length sigret_code)) in
  sp ← tf_get t tf_sp;
  tf_set t tf_sp (sp - sigret_size);;
  sp ← tf_get t tf_sp;
  copyout (p_pagetable p) sp sigret_code;;
  tf_set t tf_a0 signum;;
  sp ← tf_get t tf_sp;
  tf_set t tf_ra sp.

Definition stopSignal (i : nat) : KM X unit := mod_proc i (set_p_stopped 1).
Definition contSignal (i : nat) : KM X unit := mod_proc i (set_p_stopped 0).

(** [p->pendingSignals ^= (1 << sig)] *)
Definition toggle_pending (i : nat) (sig : Z) : KM X unit :=
  mod_proc i (fun p => set_p_pendingSignals (Z.lxor (p_pendingSignals p) (bit sig)) p).

(** The body of the loop of [handling_signals]. *)
Definition handle_one (i : nat) (sig : Z) : KM X unit :=
  p ← get_proc i;
  if truthy (Z.land (p_pendingSignals p) (bit sig)) && negb (truthy (Z.land (p_signalMask p) (bit sig))) then
    h ← handler_of p sig;
    if h =? SIG_DFL then
      (if sig =? SIGSTOP then stopSignal i
       else if sig =? SIGCONT then contSignal i
       else kill (p_pid p) SIGKILL;; mret tt);;
      toggle_pending i sig
    else if negb (h =? SIG_IGN) then
      t ← curthread;
      usersignal t sig;;
      toggle_pending i sig
    else mret tt
  else mret tt.

(** The wait of a stopped process for SIGCONT; [fuel] bounds the rounds. *)
Definition wait_cont (fuel i : nat) : KM X unit :=
  loop fuel
    (p ← get_proc i;
     if truthy (Z.land (p_pendingSignals p) (bit SIGCONT))
     then mod_proc i (set_p_stopped 0);; toggle_pending i SIGCONT;; mret (Some tt)
     else yield;; mret None).

Definition handling_signals (fuel : nat) : KM X unit :=
  p0 ← myproc;
  match p0 with
  | None => mret tt
  | Some i =>
      p ← get_proc i;
      if (p_signalMask p =? 0xffffffff) || truthy (p_ignore_signals p) then mret tt else
      when (truthy (p_stopped p) && negb (truthy (Z.land (p_signalMask p) (bit SIGSTOP)))) (wait_cont fuel i);;
      for_each (seq 0 (Z.to_nat SIGNALS_SIZE)) (fun sig => handle_one i (Z.of_nat sig))
  end.

End Ops.

(** ** Delivery to a user handler *)

(** The page [tf] is a trap frame: neither free, nor a table, nor a user page
    of the table [root]. *)
Record frame_ok `{Symbols} (m : mem) (root : Z) (l : list Z) (tf : Z) : Prop := {
  fo_valid : valid_page tf;
  fo_table : forall path q, path_ok path -> page_at m root path = Some q -> q <> tf;
  fo_user : forall va, 0 <= va < MAXVA -> user_page m root va <> tf
}.

Section Frame.
Context `{SymbolsOk}.
Implicit Types m : mem.

Definition field_ok (f : Z) : Prop := 0 <= f /\ f + 8 <= 288.

(** Writing a field of a trap frame leaves the address space alone. *)
Lemma frame_write m root l tf f v :
  pt_ok m root l -> user_ok m root l -> frame_ok m root l tf -> field_ok f ->
  let m' := store64 m (tf + f) v in
  pt_ok m' root l /\ user_ok m' root l /\ frame_ok m' root l tf /\
  (forall va, pte_of m' root va = pte_of m root va) /\ same_outside tf m m'.
Proof.
  intros Hpt Hu [Hv Ht Hn] Hf m'.
  assert (Hso : same_outside tf m m').
  { intros a Ha. unfold m', store64. rewrite ld8_store_le. unfold PGSIZE, field_ok in *. byte_cases. }
  destruct (data_frame m m' root l tf Hpt Hv Hso Ht) as [Hat Hpte].
  split_and!; [by apply (pt_ok_ext m _ _ l)|by apply (user_ok_ext m _ _ l)| |done|done].
  split; [done| |].
  - intros path q Hp. rewrite Hat by done. by apply Ht.
  - intros va Hva. rewrite (user_page_ext m m') by done. by apply Hn.
Qed.

Lemma frame_user_only m root l tf m' :
  frame_ok m root l tf -> user_ok m root l -> user_only m root l m' ->
  frame_ok m' root l tf /\ forall a, tf <= a < tf + PGSIZE -> ld8 m' a = ld8 m a.
Proof.
  intros [Hv Ht Hn] Hu [U1 U2 U3 U4 U5]. split; [split; [done| |]|].
  - intros path q Hp. rewrite U3 by done. by apply Ht.
  - intros va Hva. rewrite (user_page_ext m m') by done. by apply Hn.
  - intros a Ha. apply U5. intros v Hv0 Hnz. destruct (uo_page _ _ _ Hu v Hv0 Hnz) as (Hp & _).
    specialize (Hn v Hv0). intros Hin.
    destruct (valid_page_disjoint _ _ Hv Hp); [congruence|unfold PGSIZE in *; lia..].
Qed.

Lemma frame_field_only m root l tf m' f :
  frame_ok m root l tf -> user_ok m root l -> user_only m root l m' -> field_ok f ->
  load64 m' (tf + f) = load64 m (tf + f).
Proof.
  intros Hfo Hu Hun Hf. apply load64_ext. intros b Hb. apply (frame_user_only m root l tf m' Hfo Hu Hun).
  unfold field_ok, PGSIZE in *. lia.
Qed.

End Frame.

(** [s] with the slot [i] set to [q] and memory [m]: the states between the
    updates of one process. *)
Definition with_proc {X} (i : nat) (q : proc) (m : mem) (s : kstate X) : kstate X :=
  set_k_mem m (set_k_procs (<[i := q]> (k_procs s)) s).

Section WithProc.
Context {X : Type}.
Implicit Types s : kstate X.

Lemma with_proc_id i p s : k_procs s !! i = Some p -> s = with_proc i p (k_mem s) s.
Proof. intros Hp. unfold with_proc. rewrite list_insert_id by done. by destruct s. Qed.

Lemma with_proc_lookup i p q m s : k_procs s !! i = Some p -> k_procs (with_proc i q m s) !! i = Some q.
Proof. intros Hp. cbn. apply list_lookup_insert_eq. by apply lookup_lt_Some in Hp. Qed.

Lemma with_proc_get i p q m s :
  k_procs s !! i = Some p -> get_proc i (with_proc i q m s) = Done q (with_proc i q m s).
Proof. intros Hp. apply get_proc_run. by apply (with_proc_lookup i p). Qed.

Lemma with_proc_mod i p q m s f :
  k_procs s !! i = Some p -> mod_proc i f (with_proc i q m s) = Done tt (with_proc i (f q) m s).
Proof.
  intros Hp. rewrite (mod_proc_at i f _ q) by by apply (with_proc_lookup i p).
  unfold with_proc. cbn. by rewrite list_insert_insert_eq.
Qed.

Lemma with_proc_mod0 i p s f :
  k_procs s !! i = Some p -> mod_proc i f s = Done tt (with_proc i (f p) (k_mem s) s).
Proof. intros Hp. rewrite (with_proc_id i p s Hp) at 1. by apply (with_proc_mod i p). Qed.

Lemma with_proc_thread i p q m s j th :
  k_procs s !! i = Some p -> p_threads q !! j = Some th ->
  get_thread (i, j) (with_proc i q m s) = Done th (with_proc i q m s).
Proof. intros Hp Ht. apply (get_thread_run i j _ q); [|done]. by apply (with_proc_lookup i p). Qed.

Lemma with_proc_mod_thread i p q m s j f :
  k_procs s !! i = Some p ->
  mod_thread (i, j) f (with_proc i q m s) = Done tt (with_proc i (upd_thread j f q) m s).
Proof. intros Hp. by apply (with_proc_mod i p q m s (upd_thread j f)). Qed.

Lemma with_proc_quiet i q m s c : quiet s c -> quiet (with_proc i q m s) c.
Proof. by apply quiet_hw. Qed.

End WithProc.

(** The process after [usersignal] has changed its fields. *)
Definition in_handler (j : nat) (mask : Z) (backup : list Z) (p : proc) : proc :=
  upd_thread j (set_t_backup backup)
    (set_p_ignore_signals 1 (set_p_signalMask mask (set_p_signal_mask_backup (p_signalMask p) p))).

Section Usersignal.
Context {X : Type} `{SymbolsOk}.
Implicit Types s : kstate X.

Lemma trapframe_of_run s i j p th :
  k_procs s !! i = Some p -> p_threads p !! j = Some th -> valid_page (t_trapframe th) ->
  trapframe_of (i, j) s = Done (t_trapframe th) s.
Proof.
  intros Hp Ht Hv. apply valid_page_pos in Hv. unfold trapframe_of.
  mstep (get_thread_run i j s p th Hp Ht). unfold check_ptr.
  by rewrite (proj2 (Z.eqb_neq _ 0)) by lia.
Qed.

Lemma tf_get_run s i j p th f :
  k_procs s !! i = Some p -> p_threads p !! j = Some th -> valid_page (t_trapframe th) ->
  tf_get (i, j) f s = Done (load64 (k_mem s) (t_trapframe th + f)) s.
Proof. intros Hp Ht Hv. unfold tf_get. by mstep (trapframe_of_run s i j p th Hp Ht Hv). Qed.

Lemma tf_set_run s i j p th f v :
  k_procs s !! i = Some p -> p_threads p !! j = Some th -> valid_page (t_trapframe th) ->
  tf_set (i, j) f v s = Done tt (set_k_mem (store64 (k_mem s) (t_trapframe th + f) (u64 v)) s).
Proof. intros Hp Ht Hv. unfold tf_set. by mstep (trapframe_of_run s i j p th Hp Ht Hv). Qed.

(** The effect of [usersignal] on memory: the frame is redirected to the
    handler [h], everything else is user memory. *)
Record redirected (m : mem) (root : Z) (l : list Z) (tf h signum : Z) (m' : mem) : Prop := {
  rd_pt : pt_ok m' root l;
  rd_user : user_ok m' root l;
  rd_frame : frame_ok m' root l tf;
  rd_epc : load64 m' (tf + tf_epc) = h;
  rd_a0 : load64 m' (tf + tf_a0) = signum;
  rd_sp : load64 m' (tf + tf_sp) = u64 (load64 m (tf + tf_sp) - Z.of_nat (length sigret_code));
  rd_ra : load64 m' (tf + tf_ra) = load64 m' (tf + tf_sp);
  rd_out : forall a, outside a tf ->
    (forall v, 0 <= v < MAXVA -> user_page m root v <> 0 -> outside a (user_page m root v)) ->
    ld8 m' a = ld8 m a
}.

Lemma fields_apart m tf f g v : field_ok f -> field_ok g -> f + 8 <= g \/ g + 8 <= f ->
  load64 (store64 m (tf + g) v) (tf + f) = load64 m (tf + f).
Proof. intros Hf Hg Hd. apply load64_store64_other. lia. Qed.

Lemma usersignal_mem s i q th j p signum h m :
  k_procs s !! i = Some p -> p_threads q !! j = Some th -> valid_page (t_trapframe th) ->
  forall root l, root = p_pagetable q ->
  pt_ok m root l -> user_ok m root l -> frame_ok m root l (t_trapframe th) ->
  0 <= h < 2 ^ 64 -> 0 <= signum < 32 ->
  exists m', (tf_set (i, j) tf_epc h;;
    let sigret_size := u32 (Z.of_nat (length sigret_code)) in
    sp ← tf_get (i, j) tf_sp;
    tf_set (i, j) tf_sp (sp - sigret_size);;
    sp ← tf_get (i, j) tf_sp;
    copyout root sp sigret_code;;
    tf_set (i, j) tf_a0 signum;;
    sp ← tf_get (i, j) tf_sp;
    tf_set (i, j) tf_ra sp) (with_proc i q m s) = Done tt (with_proc i q m' s) /\
    redirected m root l (t_trapframe th) h signum m'.
Proof.
  intros Hp Ht Hv root l _ Hpt Hu Hfo Hh Hsig. set (tf := t_trapframe th) in *.
  assert (Hl := fun m => with_proc_lookup i p q m s Hp).
  assert (Hset : forall m f v, tf_set (i, j) f v (with_proc i q m s) =
            Done tt (with_proc i q (store64 m (tf + f) (u64 v)) s)).
  { intros m0 f v. by rewrite (tf_set_run _ i j q th f v (Hl m0) Ht Hv). }
  assert (Hget : forall m f, tf_get (i, j) f (with_proc i q m s) =
            Done (load64 m (tf + f)) (with_proc i q m s)).
  { intros m0 f. by rewrite (tf_get_run _ i j q th f (Hl m0) Ht Hv). }
  pose proof sigret_code_short as Hlen.
  assert (Hf24 : field_ok tf_epc) by (split; vm_compute; congruence).
  assert (Hf48 : field_ok tf_sp) by (split; vm_compute; congruence).
  assert (Hf112 : field_ok tf_a0) by (split; vm_compute; congruence).
  assert (Hf40 : field_ok tf_ra) by (split; vm_compute; congruence).
  mstep (Hset m tf_epc h). set (m1 := store64 m _ _).
  destruct (frame_write m root l tf tf_epc (u64 h) Hpt Hu Hfo Hf24) as (Hpt1 & Hu1 & Hfo1 & Hpte1 & Hso1).
  mstep (Hget m1 tf_sp). set (sp1 := load64 m1 (tf + tf_sp)).
  mstep (Hset m1 tf_sp (sp1 - u32 (Z.of_nat (length sigret_code)))). set (m2 := store64 m1 _ _).
  destruct (frame_write m1 root l tf tf_sp (u64 (sp1 - u32 (Z.of_nat (length sigret_code)))) Hpt1 Hu1 Hfo1 Hf48)
    as (Hpt2 & Hu2 & Hfo2 & Hpte2 & Hso2).
  mstep (Hget m2 tf_sp).
  destruct (copyout_loop_total root l (S (length sigret_code)) (load64 m2 (tf + tf_sp)) sigret_code (with_proc i q m2 s))
    as (r & m3 & Hco & _ & _ & Hun); [exact Hpt2|exact Hu2|pose proof (load64_range m2 (tf + tf_sp)); lia|lia|].
  assert (Hco' : copyout root (load64 m2 (tf + tf_sp)) sigret_code (with_proc i q m2 s) =
            Done r (with_proc i q m3 s)) by exact Hco.
  mstep Hco'. mstep (Hset m3 tf_a0 signum). set (m4 := store64 m3 _ _).
  destruct (frame_user_only m2 root l tf m3 Hfo2 Hu2 Hun) as [Hfo3 Hin3].
  destruct (frame_write m3 root l tf tf_a0 (u64 signum) (un_pt _ _ _ _ Hun) (un_user _ _ _ _ Hun) Hfo3 Hf112)
    as (Hpt4 & Hu4 & Hfo4 & _ & Hso4).
  mstep (Hget m4 tf_sp). rewrite Hset. set (sp4 := load64 m4 (tf + tf_sp)). set (m5 := store64 m4 _ _).
  destruct (frame_write m4 root l tf tf_ra (u64 sp4) Hpt4 Hu4 Hfo4 Hf40) as (Hpt5 & Hu5 & Hfo5 & _ & Hso5).
  exists m5. split; [done|].
  assert (Hsp4 : u64 sp4 = sp4) by (apply u64_small, load64_range).
  assert (E3 : forall f, field_ok f -> load64 m3 (tf + f) = load64 m2 (tf + f))
    by (intros f; by apply (frame_field_only m2 root l tf m3 f Hfo2 Hu2 Hun)).
  assert (Hsp : load64 m5 (tf + tf_sp) = sp4)
    by (unfold m5; by rewrite fields_apart by (done || (right; vm_compute; congruence) || (left; vm_compute; congruence))).
  split; try assumption.
  - unfold m5, m4. rewrite !fields_apart, E3 by (done || (right; vm_compute; congruence) || (left; vm_compute; congruence)).
    unfold m2, m1. rewrite fields_apart by (done || (left; vm_compute; congruence)).
    rewrite load64_store64_same by (unfold u64; lia). by apply u64_small.
  - unfold m5, m4. rewrite fields_apart by (done || (right; vm_compute; congruence)).
    rewrite load64_store64_same by (unfold u64; lia). apply u64_small. lia.
  - rewrite Hsp. unfold sp4, m4. rewrite fields_apart, E3 by (done || (left; vm_compute; congruence)).
    unfold m2. rewrite load64_store64_same by (unfold u64; lia). rewrite u32_small by lia.
    unfold sp1, m1. by rewrite fields_apart by (done || (right; vm_compute; congruence)).
  - rewrite Hsp. unfold m5. rewrite load64_store64_same by (unfold u64; lia). exact Hsp4.
  - intros a Hout Huser. etransitivity; [exact (Hso5 a Hout)|]. etransitivity; [exact (Hso4 a Hout)|].
    etransitivity; [apply (un_out _ _ _ _ Hun a)|].
    + intros v Hv0. rewrite (user_page_ext m m2) by (etransitivity; [apply Hpte2|apply Hpte1]). by apply Huser.
    + etransitivity; [exact (Hso2 a Hout)|exact (Hso1 a Hout)].
Qed.

(** Thread [j] of process [i] can get signal [signum]: its address space and
    trap frame are in order, and [h] and [mask] are the handler and its mask. *)
Record deliverable s (i j : nat) (p : proc) (th : thread) (l : list Z) (signum h mask : Z) : Prop := {
  dl_proc : k_procs s !! i = Some p;
  dl_thread : p_threads p !! j = Some th;
  dl_parent : t_proc_parent th = Some i;
  dl_pt : pt_ok (k_mem s) (p_pagetable p) l;
  dl_user : user_ok (k_mem s) (p_pagetable p) l;
  dl_frame : frame_ok (k_mem s) (p_pagetable p) l (t_trapframe th);
  dl_handler : p_signalHandlers p !! Z.to_nat signum = Some h;
  dl_mask : p_maskHandlers p !! Z.to_nat signum = Some mask;
  dl_word : 0 <= h < 2 ^ 64;
  dl_signum : 0 <= signum < 32
}.

Lemma mask_of_run q signum mask s :
  p_maskHandlers q !! Z.to_nat signum = Some mask -> mask_of q signum s = Done mask s.
Proof. intros E. unfold mask_of. by rewrite E. Qed.

Lemma handler_of_run q signum h s :
  p_signalHandlers q !! Z.to_nat signum = Some h -> handler_of q signum s = Done h s.
Proof. intros E. unfold handler_of. by rewrite E. Qed.

Lemma usersignal_run s i j p th l signum h mask :
  deliverable s i j p th l signum h mask ->
  exists m', usersignal (i, j) signum s =
    Done tt (with_proc i (in_handler j mask (read_bytes (k_mem s) (t_trapframe th) sizeof_trapframe) p) m' s) /\
    redirected (k_mem s) (p_pagetable p) l (t_trapframe th) h signum m'.
Proof.
  intros [Hp Ht Hpp Hpt Hu Hfo Hh Hm Hw Hs]. unfold usersignal.
  mstep (get_thread_run i j s p th Hp Ht). rewrite (bind_of_option _ _ _ _ Hpp).
  assert (Hmod : forall q f, mod_proc i f (with_proc i q (k_mem s) s) = Done tt (with_proc i (f q) (k_mem s) s))
    by (intros q f; by apply (with_proc_mod i p)).
  assert (Hget : forall q, get_proc i (with_proc i q (k_mem s) s) = Done q (with_proc i q (k_mem s) s))
    by (intros q; by apply (with_proc_get i p)).
  set (m := k_mem s) in *. 
  rewrite (bind_Done _ _ _ _ _ (with_proc_mod0 i p s (fun p => set_p_signal_mask_backup (p_signalMask p) p) Hp)).
  fold m.
  set (p1 := set_p_signal_mask_backup _ p). rewrite (bind_Done _ _ _ _ _ (Hget p1)).
  rewrite (bind_Done _ _ _ _ _ (mask_of_run p1 signum mask _ Hm)).
  rewrite (bind_Done _ _ _ _ _ (Hmod p1 (set_p_signalMask mask))). set (p2 := set_p_signalMask mask p1).
  rewrite (bind_Done _ _ _ _ _ (Hmod p2 (set_p_ignore_signals 1))). set (p3 := set_p_ignore_signals 1 p2).
  assert (Htf : trapframe_of (i, j) (with_proc i p3 m s) = Done (t_trapframe th) (with_proc i p3 m s)).
  { apply (trapframe_of_run _ i j p3 th); [by apply (with_proc_lookup i p)|exact Ht|apply Hfo]. }
  rewrite (bind_Done _ _ _ _ _ Htf), bind_gets. change (k_mem (with_proc i p3 m s)) with m.
  set (bk := read_bytes m (t_trapframe th) sizeof_trapframe).
  rewrite (bind_Done _ _ _ _ _ (with_proc_mod_thread i p p3 m s j (set_t_backup bk) Hp)).
  change (upd_thread j (set_t_backup bk) p3) with (in_handler j mask bk p).
  set (p4 := in_handler j mask bk p).
  rewrite (bind_Done _ _ _ _ _ (Hget p4)). rewrite (bind_Done _ _ _ _ _ (handler_of_run p4 signum h _ Hh)).
  apply (usersignal_mem s i p4 (set_t_backup bk th) j p signum h m Hp); try assumption; [|apply Hfo|done].
  unfold p4, in_handler. cbn. by rewrite list_lookup_alter_eq, Ht.
Qed.

(** The thread after [usersignal] holds the saved frame. *)
Lemma backup_saved s i j p th mask bk m :
  k_procs s !! i = Some p -> p_threads p !! j = Some th ->
  t_backup <$> thread_at (with_proc i (in_handler j mask bk p) m s) (i, j) = Some bk.
Proof.
  intros Hp Ht. pose proof (lookup_lt_Some _ _ _ Hp). unfold thread_at.
  cbn [fst snd k_procs set_k_procs set_k_mem with_proc]. rewrite list_lookup_insert_eq by done.
  cbn. by rewrite list_lookup_alter_eq, Ht.
Qed.

(** [sigret] puts the saved frame and mask back. *)
Lemma sigret_run s c i j p th :
  quiet s c -> c_proc c = Some i -> c_thread c = Some (i, j) ->
  k_procs s !! i = Some p -> p_threads p !! j = Some th -> valid_page (t_trapframe th) ->
  sigret s = Done tt (with_proc i (set_p_ignore_signals 0 (set_p_signalMask (p_signal_mask_backup p) p))
                        (write_bytes (k_mem s) (t_trapframe th) (t_backup th)) s).
Proof.
  intros Hq Hcp Hct Hp Ht Hv. unfold sigret. mstep (curproc_run s c i Hq Hcp).
  mstep (curthread_run s c (i, j) Hq Hct). mstep (get_thread_run i j s p th Hp Ht).
  mstep (trapframe_of_run s i j p th Hp Ht Hv). unfold mod_mem. rewrite bind_modify.
  set (m' := write_bytes _ _ _).
  assert (E : set_k_mem m' s = with_proc i p m' s).
  { unfold with_proc. rewrite list_insert_id by done. by destruct s. }
  rewrite E. mstep (with_proc_mod i p p m' s (fun p => set_p_signalMask (p_signal_mask_backup p) p) Hp).
  by rewrite (with_proc_mod i p).
Qed.


(** ** [handling_signals] *)

Lemma handle_one_idle s i p sig :
  k_procs s !! i = Some p -> 0 <= sig ->
  Z.testbit (p_pendingSignals p) sig = false \/ Z.testbit (p_signalMask p) sig = true ->
  handle_one i sig s = Done tt s.
Proof.
  intros Hp Hs Hb. unfold handle_one. mstep (get_proc_run i s p Hp). rewrite !truthy_land_bit by done.
  by destruct Hb as [-> | ->]; rewrite ?andb_false_r.
Qed.

(** The process after a user signal has been delivered. *)
Definition delivered (j : nat) (sig mask : Z) (backup : list Z) (p : proc) : proc :=
  set_p_pendingSignals (Z.lxor (p_pendingSignals p) (bit sig)) (in_handler j mask backup p).

Lemma handle_one_user s c i j p th l sig h mask :
  quiet s c -> c_thread c = Some (i, j) -> deliverable s i j p th l sig h mask ->
  Z.testbit (p_pendingSignals p) sig = true -> Z.testbit (p_signalMask p) sig = false ->
  h <> SIG_DFL -> h <> SIG_IGN ->
  exists m', handle_one i sig s =
    Done tt (with_proc i (delivered j sig mask (read_bytes (k_mem s) (t_trapframe th) sizeof_trapframe) p) m' s) /\
    redirected (k_mem s) (p_pagetable p) l (t_trapframe th) h sig m'.
Proof.
  intros Hq Hct Hd Hpend Hmask Hh0 Hh1. pose proof (dl_proc _ _ _ _ _ _ _ _ _ Hd) as Hp.
  destruct (usersignal_run s i j p th l sig h mask Hd) as (m' & Hrun & Hrd).
  exists m'. split; [|done]. unfold handle_one. mstep (get_proc_run i s p Hp).
  rewrite !truthy_land_bit, Hpend, Hmask by apply Hd. cbn [negb andb].
  mstep (handler_of_run p sig h s (dl_handler _ _ _ _ _ _ _ _ _ Hd)).
  rewrite (proj2 (Z.eqb_neq h SIG_DFL) Hh0), (proj2 (Z.eqb_neq h SIG_IGN) Hh1). cbn [negb].
  mstep (curthread_run s c (i, j) Hq Hct). mstep Hrun. unfold toggle_pending.
  by rewrite (with_proc_mod i p).
Qed.


(** A field of a frame that was put back. *)
Lemma load64_restore m m0 tf f :
  field_ok f -> load64 (write_bytes m tf (read_bytes m0 tf sizeof_trapframe)) (tf + f) = load64 m0 (tf + f).
Proof.
  intros Hf. apply load64_ext. intros b Hb. rewrite ld8_write_bytes, length_read_bytes.
  unfold field_ok, sizeof_trapframe in *. byte_cases.
  rewrite lookup_read_bytes by lia. simpl. rewrite u8_ld8. f_equal. lia.
Qed.

(** A pass of [handling_signals] that delivers two signals to user handlers. *)
Section Twice.
Context (fuel : nat) (s : kstate X) (c : cpu) (i j : nat) (p : proc) (th : thread) (l : list Z).
Context (sig1 sig2 h1 h2 mask1 mask2 : Z).
Hypotheses (Hq : quiet s c) (Hcp : c_proc c = Some i) (Hct : c_thread c = Some (i, j)).
Hypotheses (D1 : deliverable s i j p th l sig1 h1 mask1) (D2 : deliverable s i j p th l sig2 h2 mask2).
Hypotheses (Hlt : sig1 < sig2) (Hpend : p_pendingSignals p = Z.lor (bit sig1) (bit sig2)).
Hypotheses (Hmask : p_signalMask p = 0) (Hign : p_ignore_signals p = 0) (Hstop : p_stopped p = 0).
Hypotheses (Hm1 : Z.testbit mask1 sig2 = false).
Hypotheses (Hh1 : h1 <> SIG_DFL) (Hh1' : h1 <> SIG_IGN) (Hh2 : h2 <> SIG_DFL) (Hh2' : h2 <> SIG_IGN).

Lemma pending_bits k : Z.testbit (p_pendingSignals p) k = (k =? sig1) || (k =? sig2).
Proof using All.
  pose proof (dl_signum _ _ _ _ _ _ _ _ _ D1). pose proof (dl_signum _ _ _ _ _ _ _ _ _ D2).
  rewrite Hpend, Z.lor_spec, !bit_testbit by lia. done.
Qed.

Lemma pending_bits1 bk k :
  Z.testbit (p_pendingSignals (delivered j sig1 mask1 bk p)) k = (k =? sig2).
Proof using All.
  pose proof (dl_signum _ _ _ _ _ _ _ _ _ D1). cbn [p_pendingSignals delivered set_p_pendingSignals].
  rewrite Z.lxor_spec, pending_bits, bit_testbit by lia.
  destruct (Z.eqb_spec k sig1), (Z.eqb_spec k sig2); try done; lia.
Qed.

(** The loop visits the two signals and skips the others. *)
Lemma pass_two st1 p1 st2 p2 :
  handle_one i sig1 s = Done tt st1 -> k_procs st1 !! i = Some p1 ->
  (forall k, Z.testbit (p_pendingSignals p1) k = (k =? sig2)) ->
  handle_one i sig2 st1 = Done tt st2 -> k_procs st2 !! i = Some p2 -> p_pendingSignals p2 = 0 ->
  handling_signals fuel s = Done tt st2.
Proof using All.
  intros R1 P1 B1 R2 P2 B2. pose proof (dl_proc _ _ _ _ _ _ _ _ _ D1) as Hp.
  pose proof (dl_signum _ _ _ _ _ _ _ _ _ D1). pose proof (dl_signum _ _ _ _ _ _ _ _ _ D2).
  unfold handling_signals. mstep (myproc_run s c Hq). rewrite Hcp. mstep (get_proc_run i s p Hp).
  rewrite Hmask, Hign, Hstop. cbn [Z.eqb truthy negb orb andb]. rewrite when_false, bind_ret.
  set (a := Z.to_nat sig1). set (b := Z.to_nat sig2).
  assert (Ea : Z.of_nat a = sig1) by (unfold a; lia). assert (Eb : Z.of_nat b = sig2) by (unfold b; lia).
  assert (Hseq : seq 0 (Z.to_nat SIGNALS_SIZE) = seq 0 a ++ a :: seq (S a) (b - S a) ++ b :: seq (S b) (31 - b)).
  { change (Z.to_nat SIGNALS_SIZE) with 32%nat. replace 32%nat with (a + S (b - S a + S (31 - b)))%nat by lia.
    rewrite !seq_split3. by replace (S (0 + a) + (b - S a))%nat with b by lia. }
  rewrite Hseq, (for_each_app _ _ _ s s).
  2: { apply for_each_idle. intros k Hk. apply elem_of_seq in Hk. apply (handle_one_idle s i p); [done|lia|left].
       rewrite pending_bits. rewrite !(proj2 (Z.eqb_neq _ _)) by lia. done. }
  cbn [for_each app]. rewrite Ea. mstep R1.
  rewrite (for_each_app _ _ _ st1 st1).
  2: { apply for_each_idle. intros k Hk. apply elem_of_seq in Hk. apply (handle_one_idle st1 i p1); [done|lia|left].
       rewrite B1, (proj2 (Z.eqb_neq _ _)) by lia. done. }
  cbn [for_each]. rewrite Eb. mstep R2.
  apply for_each_idle. intros k Hk. apply (handle_one_idle st2 i p2); [done|lia|left].
  by rewrite B2, Z.testbit_0_l.
Qed.

Lemma two_deliveries :
  exists st2 p2 th2 m1, handling_signals fuel s = Done tt st2 /\ quiet st2 c /\
    k_procs st2 !! i = Some p2 /\ p_threads p2 !! j = Some th2 /\ t_trapframe th2 = t_trapframe th /\
    t_backup th2 = read_bytes m1 (t_trapframe th) sizeof_trapframe /\ p_signal_mask_backup p2 = mask1 /\
    load64 m1 (t_trapframe th + tf_epc) = h1 /\ load64 (k_mem st2) (t_trapframe th + tf_epc) = h2.
Proof using All.
  pose proof (dl_proc _ _ _ _ _ _ _ _ _ D1) as Hp. pose proof (dl_thread _ _ _ _ _ _ _ _ _ D1) as Ht.
  pose proof (dl_signum _ _ _ _ _ _ _ _ _ D2) as Hs2.
  destruct (handle_one_user s c i j p th l sig1 h1 mask1 Hq Hct D1) as (m1 & Hrun1 & Hrd1);
    [by rewrite pending_bits, Z.eqb_refl|by rewrite Hmask, Z.testbit_0_l|done|done|].
  set (bk1 := read_bytes (k_mem s) _ _) in *. set (p1 := delivered j sig1 mask1 bk1 p) in *.
  set (st1 := with_proc i p1 m1 s) in *.
  assert (Hp1 : k_procs st1 !! i = Some p1) by by apply (with_proc_lookup i p).
  assert (Ht1 : p_threads p1 !! j = Some (set_t_backup bk1 th)) by (cbn; by rewrite list_lookup_alter_eq, Ht).
  assert (D2' : deliverable st1 i j p1 (set_t_backup bk1 th) l sig2 h2 mask2).
  { destruct Hrd1. split; try assumption; apply D2. }
  assert (Hq1 : quiet st1 c) by by apply with_proc_quiet.
  destruct (handle_one_user st1 c i j p1 (set_t_backup bk1 th) l sig2 h2 mask2 Hq1 Hct D2') as (m2 & Hrun2 & Hrd2);
    [unfold p1; by rewrite pending_bits1, Z.eqb_refl|exact Hm1|done|done|].
  set (bk2 := read_bytes (k_mem st1) _ _) in *. set (p2 := delivered j sig2 mask2 bk2 p1) in *.
  set (st2 := with_proc i p2 m2 st1) in *.
  assert (Hp2 : k_procs st2 !! i = Some p2) by by apply (with_proc_lookup i p1).
  exists st2, p2, (set_t_backup bk2 (set_t_backup bk1 th)), m1. split_and!; try done.
  - apply (pass_two st1 p1 st2 p2); try assumption; [apply pending_bits1|].
    cbn [p2 delivered p_pendingSignals set_p_pendingSignals].
    apply Z.bits_inj'. intros k Hk. rewrite Z.lxor_spec, Z.testbit_0_l, bit_testbit by lia.
    unfold p1. rewrite pending_bits1. by destruct (k =? sig2).
  - cbn. cbn in Ht1. by rewrite list_lookup_alter_eq, Ht1.
  - apply Hrd1.
  - apply Hrd2.
Qed.

End Twice.

End Usersignal.

(** ** Default actions *)

Definition pending_now (p : proc) (sig : Z) : bool :=
  Z.testbit (p_pendingSignals p) sig && negb (Z.testbit (p_signalMask p) sig).

(** What the loop makes of a process with default handlers. *)
Definition default_action (sig : Z) (p : proc) : proc :=
  if sig =? SIGSTOP then set_p_stopped 1 p
  else if sig =? SIGCONT then set_p_stopped 0 p
  else signalled SIGKILL p.

Definition default_step (p : proc) (sig : nat) : proc :=
  let sig := Z.of_nat sig in
  if pending_now p sig then
    let p' := default_action sig p in set_p_pendingSignals (Z.lxor (p_pendingSignals p') (bit sig)) p'
  else p.

(** A pending signal whose default action is to kill. *)
Definition fatal (p : proc) (sig : nat) : bool :=
  pending_now p (Z.of_nat sig) && negb (Z.of_nat sig =? SIGSTOP) && negb (Z.of_nat sig =? SIGCONT).

Section Default.
Context {X : Type} `{Symbols}.
Implicit Types s : kstate X.

Lemma default_step_same p sig :
  let p' := default_step p sig in
  p_signalMask p' = p_signalMask p /\ p_signalHandlers p' = p_signalHandlers p /\ p_pid p' = p_pid p /\
  length (p_threads p') = length (p_threads p).
Proof.
  unfold default_step, default_action, signalled. cbv zeta.
  destruct (pending_now p _); [|done]. repeat case_match; cbn; rewrite ?length_map; done.
Qed.

Lemma handle_one_default s c i p sig :
  proc_ready s c -> list_find (fun q => p_pid q = p_pid p) (k_procs s) = Some (i, p) ->
  p_signalHandlers p = replicate 32 SIG_DFL -> (sig < 32)%nat ->
  handle_one i (Z.of_nat sig) s = Done tt (set_k_procs (<[i := default_step p sig]> (k_procs s)) s).
Proof.
  intros Hr Hf Hh Hs. pose proof Hf as Hf'. apply list_find_Some in Hf' as (Hp & _ & _).
  assert (Hid : set_k_procs (<[i := p]> (k_procs s)) s = s) by (rewrite list_insert_id by done; by destruct s).
  unfold handle_one. mstep (get_proc_run i s p Hp). rewrite !truthy_land_bit by lia.
  unfold default_step. fold (pending_now p (Z.of_nat sig)).
  destruct (pending_now p (Z.of_nat sig)); [|by rewrite Hid].
  assert (Hho : handler_of p (Z.of_nat sig) s = Done SIG_DFL s).
  { apply handler_of_run. rewrite Hh, Nat2Z.id. by apply lookup_replicate_2. }
  mstep Hho. rewrite Z.eqb_refl.
  set (act := (if Z.of_nat sig =? SIGSTOP then stopSignal i else _ : KM X unit)).
  assert (Hact : act s = Done tt (set_k_procs (<[i := default_action (Z.of_nat sig) p]> (k_procs s)) s)).
  { unfold act, default_action, stopSignal, contSignal.
    destruct (Z.of_nat sig =? SIGSTOP); [by apply mod_proc_at|].
    destruct (Z.of_nat sig =? SIGCONT); [by apply mod_proc_at|].
    pose proof (kill_run (p_pid p) SIGKILL s c Hr ltac:(vm_compute; intuition congruence)) as Hk.
    rewrite Hf in Hk. by mstep Hk. }
  mstep Hact. unfold toggle_pending.
  rewrite (mod_proc_at i _ _ (default_action (Z.of_nat sig) p)) by by apply (lookup_set_proc s i p).
  by rewrite set_proc_twice.
Qed.

Lemma proc_ready_insert s c i p q :
  proc_ready s c -> k_procs s !! i = Some p -> length (p_threads q) = length (p_threads p) ->
  proc_ready (set_k_procs (<[i := q]> (k_procs s)) s) c.
Proof.
  intros Hr Hp Hl. apply proc_ready_procs; [done|]. destruct Hr as (_ & _ & [Hlen Ht]).
  split; [by rewrite length_insert|]. apply Forall_insert; [done|]. rewrite Hl.
  by apply (Forall_lookup_1 _ _ _ _ Ht Hp).
Qed.

Lemma find_pid_insert (procs : list proc) i p q pid :
  list_find (fun x => p_pid x = pid) procs = Some (i, p) -> p_pid q = pid ->
  list_find (fun x => p_pid x = pid) (<[i := q]> procs) = Some (i, q).
Proof.
  intros Hf Hq. apply list_find_Some in Hf as (Hp & _ & Hmin). apply list_find_Some. split_and!.
  - apply list_lookup_insert_eq. by apply lookup_lt_Some in Hp.
  - done.
  - intros k y Hk Hlt. rewrite list_lookup_insert_ne in Hk by lia. by apply (Hmin k y).
Qed.

(** The whole loop is a fold. *)
Lemma default_loop c i sigs : forall s p,
  proc_ready s c -> list_find (fun q => p_pid q = p_pid p) (k_procs s) = Some (i, p) ->
  p_signalHandlers p = replicate 32 SIG_DFL -> Forall (fun k => k < 32)%nat sigs ->
  for_each sigs (fun sig => handle_one i (Z.of_nat sig)) s =
  Done tt (set_k_procs (<[i := foldl default_step p sigs]> (k_procs s)) s).
Proof.
  induction sigs as [|sig sigs IH]; intros s p Hr Hf Hh Hs; cbn [for_each foldl].
  - apply list_find_Some in Hf as (Hp & _ & _). rewrite list_insert_id by done. by destruct s.
  - apply Forall_cons in Hs as [Hs1 Hs]. mstep (handle_one_default s c i p sig Hr Hf Hh Hs1).
    destruct (default_step_same p sig) as (_ & E2 & E3 & E4).
    rewrite (IH _ (default_step p sig)).
    + by rewrite set_proc_twice.
    + apply (proc_ready_insert s c i p); [done| |done]. by apply list_find_Some in Hf as (? & _).
    + rewrite E3. by apply (find_pid_insert _ i p).
    + by rewrite E2.
    + done.
Qed.

Lemma default_step_other p sig k :
  k <> sig -> fatal p sig = false -> pending_now (default_step p sig) (Z.of_nat k) = pending_now p (Z.of_nat k).
Proof.
  intros Hne Hf. unfold default_step, fatal in *. cbv zeta. destruct (pending_now p (Z.of_nat sig)) eqn:E; [|done].
  cbn [andb] in Hf. unfold pending_now, default_action. cbn [p_pendingSignals p_signalMask set_p_pendingSignals].
  destruct (Z.of_nat sig =? SIGSTOP); [|destruct (Z.of_nat sig =? SIGCONT); [|done]].
  all: cbn; rewrite Z.lxor_spec, bit_testbit by lia; rewrite (proj2 (Z.eqb_neq _ _)) by lia; by rewrite xorb_false_r.
Qed.

Lemma default_step_killed p sig :
  p_killed (default_step p sig) = if fatal p sig then 1 else p_killed p.
Proof.
  unfold default_step, fatal, default_action, signalled. cbv zeta. destruct (pending_now p _); [|done].
  by destruct (Z.of_nat sig =? SIGSTOP), (Z.of_nat sig =? SIGCONT).
Qed.

Lemma default_steps_killed_mono sigs p : p_killed p = 1 -> p_killed (foldl default_step p sigs) = 1.
Proof.
  revert p. induction sigs as [|k sigs IH]; intros p Hk; [done|]. cbn [foldl]. apply IH.
  rewrite default_step_killed. by destruct (fatal p k).
Qed.

Lemma default_steps_killed sigs : forall p, NoDup sigs ->
  p_killed (foldl default_step p sigs) = if existsb (fatal p) sigs then 1 else p_killed p.
Proof.
  induction sigs as [|k sigs IH]; intros p Hnd; [done|]. cbn [foldl existsb].
  apply NoDup_cons in Hnd as [Hk Hnd]. destruct (fatal p k) eqn:E; cbn [orb].
  - apply default_steps_killed_mono. by rewrite default_step_killed, E.
  - rewrite IH, default_step_killed, E by done.
    assert (Hf : forall k', k' ∈ sigs -> fatal (default_step p k) k' = fatal p k').
    { intros k' Hk'. unfold fatal. rewrite default_step_other; [done|congruence|done]. }
    assert (existsb (fatal (default_step p k)) sigs = existsb (fatal p) sigs) as ->; [|done].
    clear -Hf. induction sigs as [|x sigs IH]; [done|]. cbn. rewrite Hf by by left. f_equal.
    apply IH. intros k' Hk'. apply Hf. by right.
Qed.

End Default.

(** ** Bytes of user structures *)

Lemma user_bytes_range m root va n : Forall (fun b => 0 <= b < 256) (user_bytes m root va n).
Proof. revert va. induction n; intros va; constructor; [apply ld8_range|auto]. Qed.

Lemma bytes_take_drop (P : Z -> Prop) k n l : Forall P l -> Forall P (take k (drop n l)).
Proof. intros Hl. by apply Forall_take, Forall_drop. Qed.

Lemma le_val_nonneg l : Forall (fun b => 0 <= b < 256) l -> 0 <= le_val l.
Proof. induction 1; cbn; lia. Qed.

(** ** Properties *)

Section Properties.
Context {X : Type} `{SymbolsOk}.

(** C17: a signal handler returns to where the process was.  [usersignal] makes
    the thread enter the handler with the signal number as argument and its
    return address at the stack pointer; whatever the process does to its
    registers and memory afterwards, as long as the saved frame and mask are
    still there [sigret] restores all 288 bytes of the trap frame and the signal
    mask, and ends the handler. *)
Theorem usersignal_sigret (s : kstate X) (i j : nat) (p : proc) (th : thread) (l : list Z) (signum h mask : Z) :
  deliverable s i j p th l signum h mask ->
  exists s1, usersignal (i, j) signum s = Done tt s1 /\
    load64 (k_mem s1) (t_trapframe th + tf_epc) = h /\
    load64 (k_mem s1) (t_trapframe th + tf_a0) = signum /\
    load64 (k_mem s1) (t_trapframe th + tf_ra) = load64 (k_mem s1) (t_trapframe th + tf_sp) /\
    forall (s2 : kstate X) c2 p2 th2,
      quiet s2 c2 -> c_proc c2 = Some i -> c_thread c2 = Some (i, j) ->
      k_procs s2 !! i = Some p2 -> p_threads p2 !! j = Some th2 ->
      t_trapframe th2 = t_trapframe th ->
      Some (t_backup th2) = t_backup <$> thread_at s1 (i, j) ->
      Some (p_signal_mask_backup p2) = p_signal_mask_backup <$> k_procs s1 !! i ->
      exists (s3 : kstate X) p3, sigret s2 = Done tt s3 /\
        read_bytes (k_mem s3) (t_trapframe th) sizeof_trapframe = read_bytes (k_mem s) (t_trapframe th) sizeof_trapframe /\
        k_procs s3 !! i = Some p3 /\ p_signalMask p3 = p_signalMask p /\ p_ignore_signals p3 = 0.
Proof.
  intros Hd. destruct (usersignal_run s i j p th l signum h mask Hd) as (m' & Hrun & Hrd).
  eexists. split; [exact Hrun|]. split_and!; [apply Hrd|apply Hrd|apply Hrd|].
  destruct Hd as [Hp Ht _ _ _ Hfo _ _ _ _]. pose proof (lookup_lt_Some _ _ _ Hp) as Hi.
  intros s2 c2 p2 th2 Hq Hcp Hct Hp2 Ht2 Htf Hbk Hmb.
  assert (Ebk : t_backup th2 = read_bytes (k_mem s) (t_trapframe th) sizeof_trapframe).
  { rewrite (backup_saved s i j p th) in Hbk by done. by injection Hbk. }
  assert (Emb : p_signal_mask_backup p2 = p_signalMask p).
  { cbn [k_procs set_k_procs set_k_mem with_proc] in Hmb. rewrite list_lookup_insert_eq in Hmb by done.
    by injection Hmb. }
  eexists _, _. split; [apply (sigret_run s2 c2 i j p2 th2); try assumption; rewrite Htf; apply Hfo|].
  split; [|split_and!; [by apply (with_proc_lookup i p2)|exact Emb|done]].
  cbn [k_mem with_proc set_k_mem]. rewrite Htf, Ebk. apply read_write_bytes; [apply read_bytes_range|].
  apply length_read_bytes.
Qed.

(** C38: two signals in one pass lose the interrupted context.  When signals
    [sig1 < sig2] are pending and have user handlers, and the mask of the first
    handler does not block the second signal, one call of [handling_signals]
    redirects the frame twice over the single saved frame: the process enters the
    second handler, the [sigret] after it leads to the first handler, and so does
    every later one, with the first handler's mask; the frame and the mask the
    process had are gone. *)
Theorem nested_signals_lose_context (fuel : nat) (s : kstate X) (c : cpu) (i j : nat) (p : proc) (th : thread)
    (l : list Z) (sig1 sig2 h1 h2 mask1 mask2 : Z) :
  quiet s c -> c_proc c = Some i -> c_thread c = Some (i, j) ->
  deliverable s i j p th l sig1 h1 mask1 -> deliverable s i j p th l sig2 h2 mask2 -> sig1 < sig2 ->
  p_pendingSignals p = Z.lor (bit sig1) (bit sig2) -> p_signalMask p = 0 ->
  p_ignore_signals p = 0 -> p_stopped p = 0 -> Z.testbit mask1 sig2 = false ->
  h1 <> SIG_DFL -> h1 <> SIG_IGN -> h2 <> SIG_DFL -> h2 <> SIG_IGN ->
  exists s1 s2 s3 p3, handling_signals fuel s = Done tt s1 /\
    load64 (k_mem s1) (t_trapframe th + tf_epc) = h2 /\
    sigret s1 = Done tt s2 /\ load64 (k_mem s2) (t_trapframe th + tf_epc) = h1 /\
    sigret s2 = Done tt s3 /\ load64 (k_mem s3) (t_trapframe th + tf_epc) = h1 /\
    k_procs s3 !! i = Some p3 /\ p_signalMask p3 = mask1.
Proof.
  intros Hq Hcp Hct D1 D2 Hlt Hpend Hmask Hign Hstop Hm1 Hh1 Hh1' Hh2 Hh2'.
  destruct (two_deliveries fuel s c i j p th l sig1 sig2 h1 h2 mask1 mask2)
    as (st2 & p2 & th2 & m1 & Hrun & Hq2 & Hp2 & Ht2 & Htf2 & Hbk2 & Hmb2 & He1 & He2); try assumption.
  assert (Hv : valid_page (t_trapframe th2)) by (rewrite Htf2; apply (dl_frame _ _ _ _ _ _ _ _ _ D1)).
  pose proof (sigret_run st2 c i j p2 th2 Hq2 Hcp Hct Hp2 Ht2 Hv) as Hret.
  set (p3 := set_p_ignore_signals 0 _) in Hret. set (s2 := with_proc i p3 _ st2) in Hret.
  assert (Hq3 : quiet s2 c) by by apply with_proc_quiet.
  pose proof (sigret_run s2 c i j p3 th2 Hq3 Hcp Hct (with_proc_lookup i p2 _ _ _ Hp2) Ht2 Hv) as Hret2.
  eexists st2, s2, _, _. split_and!; [exact Hrun|exact He2|exact Hret| |exact Hret2| | |].
  - cbn [k_mem s2 with_proc set_k_mem]. rewrite Htf2, Hbk2, load64_restore by (vm_compute; intuition congruence). exact He1.
  - cbn [k_mem with_proc set_k_mem]. rewrite Htf2, Hbk2, load64_restore by (vm_compute; intuition congruence). exact He1.
  - apply (with_proc_lookup i p3). by apply (with_proc_lookup i p2).
  - exact Hmb2.
Qed.



(** C34: with default handlers the signals act as documented: for a process that
    is neither stopped nor in a handler, [handling_signals] terminates, changes
    that process only, and marks it killed exactly when some signal other than
    SIGSTOP and SIGCONT is pending and not blocked. *)
Theorem default_signals (fuel : nat) (s : kstate X) (c : cpu) (i : nat) (p : proc) :
  proc_ready s c -> c_proc c = Some i ->
  list_find (fun q => p_pid q = p_pid p) (k_procs s) = Some (i, p) ->
  p_signalHandlers p = replicate 32 SIG_DFL -> p_stopped p = 0 -> p_ignore_signals p = 0 ->
  p_signalMask p <> 0xffffffff ->
  exists p', handling_signals fuel s = Done tt (set_k_procs (<[i := p']> (k_procs s)) s) /\
    p_killed p' = if existsb (fatal p) (seq 0 32) then 1 else p_killed p.
Proof.
  intros Hr Hcp Hf Hh Hstop Hign Hmask. pose proof Hf as Hf'. apply list_find_Some in Hf' as (Hp & _ & _).
  pose proof (proj1 Hr) as Hq. unfold handling_signals. mstep (myproc_run s c Hq). rewrite Hcp.
  mstep (get_proc_run i s p Hp). rewrite (proj2 (Z.eqb_neq _ _) Hmask), Hign, Hstop. cbn [truthy Z.eqb negb orb andb].
  rewrite when_false, bind_ret. eexists. split.
  - apply (default_loop c i (seq 0 32) s p); [done..|]. apply Forall_forall. intros k Hk.
    apply elem_of_seq in Hk. lia.
  - apply default_steps_killed, NoDup_seq.
Qed.


(** A failed [sigaction] keeps the process locked.  When [oldact] points to
    memory that is not mapped, [sigaction] returns -1 with the lock of the
    calling process still held, and the next acquire of that lock on the same
    hart, such as a later [sigaction] or [kill] of the process, panics. *)
Theorem sigaction_error_keeps_lock (s : kstate X) (c : cpu) (i : nat) (p : proc) (l : list Z)
    (signum act oldact h mask : Z) :
  quiet s c -> c_proc c = Some i -> k_locks s !! ProcLock i = None -> k_procs s !! i = Some p ->
  pt_ok (k_mem s) (p_pagetable p) l -> user_ok (k_mem s) (p_pagetable p) l ->
  0 <= signum < 32 -> signum <> SIGSTOP -> signum <> SIGKILL ->
  p_signalHandlers p !! Z.to_nat signum = Some h -> p_maskHandlers p !! Z.to_nat signum = Some mask ->
  0 < oldact -> user_page (k_mem s) (p_pagetable p) oldact = 0 ->
  exists s' s'', sigaction signum act oldact s = Done (-1) s' /\
    k_locks s' !! ProcLock i = Some (k_hart s') /\ acquire (ProcLock i) s' = Panic "acquire" s''.
Proof.
  intros Hq Hcp Hl Hp Hpt Hu Hs Hn1 Hn2 Hh Hm Hold Hup. unfold sigaction.
  rewrite (proj2 (Z.ltb_ge signum 0)), (proj2 (Z.leb_gt 32 signum)) by lia.
  rewrite (proj2 (Z.eqb_neq _ _) Hn1), (proj2 (Z.eqb_neq _ _) Hn2). cbn [orb].
  mstep (curproc_run s c i Hq Hcp). mstep (acquire_run (ProcLock i) s c Hq Hl).
  set (sA := acquired (ProcLock i) s). unfold sigaction_old. rewrite (proj2 (Z.eqb_neq oldact 0)) by lia.
  destruct (copyout_loop_total (p_pagetable p) l 5 oldact (take 4 (le_bytes 8 h)) sA Hpt Hu)
    as (r & m' & Hco & _ & Hfail & _); [lia|cbn; lia|].
  rewrite Hfail in Hco.
  2: { intros Hr. destruct (Hr oldact) as [_ Hnz]; [cbn; lia|]. by apply Hnz. }
  assert (Ho : (p0 ← get_proc i; h0 ← handler_of p0 signum; mask0 ← mask_of p0 signum;
      r ← copyout (p_pagetable p0) oldact (take 4 (le_bytes 8 h0));
      if r <? 0 then mret false else
      r ← copyout (p_pagetable p0) (u64 (oldact + 8)) (le_bytes 4 mask0); mret (negb (r <? 0))) sA =
      Done false (set_k_mem m' sA)).
  { mstep (get_proc_run i sA p Hp). mstep (handler_of_run p signum h sA Hh).
    mstep (mask_of_run p signum mask sA Hm). unfold copyout at 1. change (S (length _)) with 5%nat. by mstep Hco. }
  mstep Ho. eexists (set_k_mem m' sA), _. split_and!; [reflexivity|cbn; apply lookup_insert_eq|].
  apply (acquire_held (ProcLock i) _ (set_c_noff (c_noff c + 1) c)); [|cbn; apply lookup_insert_eq].
  apply (quiet_hw sA); [done|]. by apply quiet_acquired.
Qed.

(** [sigaction] installs the handler and the mask that the user structure
    holds, for one signal of the calling process, and gives its lock back; it
    refuses SIGKILL, SIGSTOP and numbers out of range without any effect. *)
Theorem sigaction_installs (s : kstate X) (c : cpu) (i : nat) (p : proc) (l : list Z) (signum act : Z) :
  quiet s c -> c_proc c = Some i -> k_locks s !! ProcLock i = None -> k_procs s !! i = Some p ->
  pt_ok (k_mem s) (p_pagetable p) l -> 0 < act ->
  user_range (k_mem s) (p_pagetable p) act sizeof_sigaction ->
  let bs := user_bytes (k_mem s) (p_pagetable p) act sizeof_sigaction in
  sigaction signum act 0 s =
  if (signum <? 0) || (32 <=? signum) || (signum =? SIGSTOP) || (signum =? SIGKILL) then Done (-1) s else
  Done 0 (set_k_procs (<[i := set_p_maskHandlers (<[Z.to_nat signum := le_val (take 4 (drop 8 bs))]> (p_maskHandlers p))
    (set_p_signalHandlers (<[Z.to_nat signum := le_val (take 8 bs)]> (p_signalHandlers p)) p)]> (k_procs s)) s).
Proof.
  intros Hq Hcp Hl Hp Hpt Hact Hr bs. unfold sigaction.
  destruct ((signum <? 0) || (32 <=? signum)); cbn [orb]; [done|].
  destruct ((signum =? SIGSTOP) || (signum =? SIGKILL)); [done|].
  mstep (curproc_run s c i Hq Hcp). mstep (acquire_run (ProcLock i) s c Hq Hl).
  set (sA := acquired (ProcLock i) s). unfold sigaction_old. rewrite Z.eqb_refl, bind_ret. cbn [negb].
  pose proof (copyin_loop_spec (p_pagetable p) l sA 17 act sizeof_sigaction [] Hpt ltac:(unfold sizeof_sigaction; lia) Hr)
    as Hci.
  assert (Hn : sigaction_new i signum act sA = Done true (set_k_procs (<[i :=
      set_p_maskHandlers (<[Z.to_nat signum := le_val (take 4 (drop 8 bs))]> (p_maskHandlers p))
      (set_p_signalHandlers (<[Z.to_nat signum := le_val (take 8 bs)]> (p_signalHandlers p)) p)]> (k_procs sA)) sA)).
  { unfold sigaction_new. rewrite (proj2 (Z.eqb_neq act 0)) by lia. mstep (get_proc_run i sA p Hp).
    unfold copyin. change (S sizeof_sigaction) with 17%nat. mstep Hci. cbn [fst snd app].
    change (user_bytes (k_mem sA)) with (user_bytes (k_mem s)). fold bs. cbn [Z.ltb Z.compare].
    rewrite (proj2 (Z.ltb_ge _ 0)) by apply le_val_nonneg, bytes_take_drop, user_bytes_range.
    rewrite (bind_Done _ _ _ _ _ (mod_proc_at i _ sA p Hp)).
    rewrite (bind_Done _ _ _ _ _ (mod_proc_at i _ _ _ (lookup_set_proc sA i p _ Hp))). by rewrite set_proc_twice. }
  mstep Hn. cbn [negb]. set (s3 := set_k_procs _ sA).
  mstep (release_run (ProcLock i) s c s3 Hq Hl eq_refl). by destruct s.
Qed.


End Properties.

(** ** States to evaluate on *)

(** The process of [one_proc] with memory [m], the page table at 0x80050000, a
    trap frame at 0x80033000 and handlers for the signals 2 and 3. *)
Definition sig_proc (handlers : list Z) (pending : Z) : proc :=
  upd_thread O (fun t => set_t_trapframe 0x80033000 (set_t_proc_parent (Some O) t))
    (set_p_pendingSignals pending (set_p_signalHandlers handlers
      (set_p_pagetable 0x80050000 (set_p_pid 1 (set_p_state USED zero_proc))))).

Definition sig_state (m : mem) (handlers : list Z) (pending : Z) : kstate unit :=
  set_k_mem m (set_k_procs (<[O := sig_proc handlers pending]> (k_procs (boot_state tt))) (one_proc 0 ∅)).

Definition sig_cpu : cpu := Cpu (Some O) (Some (O, O)) 0 0.
Definition two_handlers : list Z := <[2%nat := 0x100]> (<[3%nat := 0x200]> (replicate 32 SIG_DFL)).

Lemma sig_quiet m handlers pending : quiet (sig_state m handlers pending) sig_cpu.
Proof. apply (quiet_hw (one_proc 0 ∅)); [done|]. by apply one_proc_quiet. Qed.

Lemma sig_ready m handlers pending : proc_ready (sig_state m handlers pending) sig_cpu.
Proof.
  split_and!; [apply sig_quiet|intros i; apply lookup_empty|]. split; [reflexivity|].
  apply Forall_insert; [|reflexivity]. by apply Forall_replicate.
Qed.

Definition sig_thread : thread := set_t_trapframe 0x80033000 (set_t_proc_parent (Some O) zero_thread).

Lemma sig_deliverable pending sig h :
  0 <= sig < 32 -> two_handlers !! Z.to_nat sig = Some h -> 0 <= h < 2 ^ 64 ->
  @deliverable unit sample_symbols (sig_state (k_mem four_free) two_handlers pending) O O
    (sig_proc two_handlers pending) sig_thread four_pages sig h 0.
Proof.
  intros Hs Hh Hw. destruct four_free_table as (Hpt & Hu & Hz).
  split; try reflexivity; try assumption.
  - split; [split; vm_compute; intuition congruence| |].
    + intros path q Hp E ->. destruct (pt_pages _ _ _ Hpt path _ Hp E) as [_ Hn]. apply Hn.
      unfold four_pages. rewrite !elem_of_cons. auto.
    + intros va _. change (user_page (k_mem four_free) 0x80050000 va <> 0x80033000). unfold user_page.
      rewrite (Hz va). vm_compute. congruence.
  - change (p_maskHandlers (sig_proc two_handlers pending)) with (replicate 32 0).
    apply lookup_replicate_2. lia.
Qed.

Lemma usersignal_sigret_witness :
  exists s1, @usersignal unit sample_symbols (O, O) 2 (sig_state (k_mem four_free) two_handlers 4) = Done tt s1 /\
    load64 (k_mem s1) (0x80033000 + tf_epc) = 0x100.
Proof.
  destruct (@usersignal_sigret unit sample_symbols sample_symbols_ok (sig_state (k_mem four_free) two_handlers 4)
              O O (sig_proc two_handlers 4) sig_thread four_pages 2 0x100 0) as (s1 & H1 & H2 & _).
  - apply sig_deliverable; [lia|reflexivity|lia].
  - exists s1. split; [exact H1|exact H2].
Defined.

Lemma nested_signals_lose_context_witness :
  exists s1 s2, @handling_signals unit sample_symbols 0 (sig_state (k_mem four_free) two_handlers 12) = Done tt s1 /\
    sigret s1 = Done tt s2 /\ load64 (k_mem s2) (0x80033000 + tf_epc) = 0x100.
Proof.
  destruct (@nested_signals_lose_context unit sample_symbols sample_symbols_ok O
              (sig_state (k_mem four_free) two_handlers 12) sig_cpu O O (sig_proc two_handlers 12) sig_thread four_pages
              2 3 0x100 0x200 0 0) as (s1 & s2 & s3 & p3 & H1 & _ & H2 & H3 & _);
    [apply sig_quiet|reflexivity|reflexivity|apply sig_deliverable; [lia|reflexivity|lia]
    |apply sig_deliverable; [lia|reflexivity|lia]|lia|reflexivity|reflexivity|reflexivity|reflexivity|reflexivity
    |vm_compute; congruence..|].
  exists s1, s2. split_and!; [exact H1|exact H2|exact H3].
Defined.

Lemma default_signals_witness :
  exists p', @handling_signals unit sample_symbols 0 (sig_state ∅ (replicate 32 SIG_DFL) 4) =
    Done tt (set_k_procs (<[O := p']> (k_procs (sig_state ∅ (replicate 32 SIG_DFL) 4)))
               (sig_state ∅ (replicate 32 SIG_DFL) 4)) /\ p_killed p' = 1.
Proof.
  destruct (@default_signals unit sample_symbols 0 (sig_state ∅ (replicate 32 SIG_DFL) 4) sig_cpu O
              (sig_proc (replicate 32 SIG_DFL) 4)) as (p' & H1 & H2);
    [apply sig_ready|reflexivity|reflexivity|reflexivity|reflexivity|reflexivity|cbn; lia|].
  exists p'. split; [exact H1|]. rewrite H2. reflexivity.
Defined.

Lemma sigaction_error_keeps_lock_witness :
  exists s' s'', @sigaction unit 2 0 0x1000 (sig_state (k_mem four_free) two_handlers 0) = Done (-1) s' /\
    acquire (ProcLock O) s' = Panic "acquire" s''.
Proof.
  destruct four_free_table as (Hpt & Hu & Hz).
  destruct (@sigaction_error_keeps_lock unit sample_symbols sample_symbols_ok
              (sig_state (k_mem four_free) two_handlers 0) sig_cpu O
              (sig_proc two_handlers 0) four_pages 2 0 0x1000 0x100 0) as (s' & s'' & H1 & _ & H2);
    [apply sig_quiet|reflexivity|reflexivity|reflexivity|exact Hpt|exact Hu|lia|vm_compute; congruence
    |vm_compute; congruence|reflexivity|reflexivity|lia| |exists s', s''; split; [exact H1|exact H2]].
  change (user_page (k_mem four_free) 0x80050000 0x1000 = 0). unfold user_page. by rewrite (Hz 0x1000).
Defined.

Lemma sigaction_installs_witness :
  exists (s : kstate unit) procs, sigaction 2 16 0 s = Done 0 (set_k_procs procs s) /\
    sigaction 9 16 0 s = Done (-1) s.
Proof.
  destruct one_page_aspace as (s0 & l & Has & Hp).
  exists (sig_state (k_mem s0) two_handlers 0).
  assert (Hr : user_range (k_mem (sig_state (k_mem s0) two_handlers 0)) 0x80050000 16 sizeof_sigaction)
    by (apply (one_page_range s0); [exact Hp|lia|vm_compute; congruence]).
  eexists. split.
  - rewrite (@sigaction_installs unit sample_symbols sample_symbols_ok (sig_state (k_mem s0) two_handlers 0) sig_cpu O
      (sig_proc two_handlers 0) l 2 16); [reflexivity|apply sig_quiet|reflexivity|reflexivity|reflexivity|apply Has|lia|exact Hr].
  - rewrite (@sigaction_installs unit sample_symbols sample_symbols_ok (sig_state (k_mem s0) two_handlers 0) sig_cpu O
      (sig_proc two_handlers 0) l 9 16); [reflexivity|apply sig_quiet|reflexivity|reflexivity|reflexivity|apply Has|lia|exact Hr].
Defined.
