(* ===== verification/Process.v ===== *)
(** * Creating, ending and scheduling processes (kernel/proc.c)

    [userinit], [fork], [exit], [wait] and the scheduler, on top of the process
    table of Proc.v.  What they need of files and inodes is the interface
    [FsOps]. *)

From S2P Require Import Prelude Machine Memory State Spinlock Kalloc Vm Proc Signals.

(** The operations of kernel/file.c, kernel/fs.c and kernel/log.c that the
    process code calls; a file or an inode is its index in its table. *)
Class FsOps (X : Type) := {
  op_filedup : nat -> KM X nat;
  op_fileclose : nat -> KM X unit;
  op_idup : nat -> KM X nat;
  op_iput : nat -> KM X unit;
  op_namei : list Z -> KM X (option nat);
  op_begin_op : KM X unit;
  op_end_op : KM X unit;
  op_fsinit : Z -> KM X unit
}.

(** [safestrcpy] from one array of characters to another, of which [n] bytes
    may be written. *)
Fixpoint name_copy (n : nat) (dst src : list Z) : list Z :=
  match n, dst with
  | O, _ | _, [] => dst
  | S O, _ :: d => 0 :: d
  | S n', _ :: d =>
      match src with
      | c :: src' => if c =? 0 then 0 :: clear_name d else c :: name_copy n' d src'
      | [] => dst
      end
  end.

Definition initcode : list Z :=
  [0x17; 0x05; 0x00; 0x00; 0x13; 0x05; 0x45; 0x02;
   0x97; 0x05; 0x00; 0x00; 0x93; 0x85; 0x35; 0x02;
   0x93; 0x08; 0x70; 0x00; 0x73; 0x00; 0x00; 0x00;
   0x93; 0x08; 0x20; 0x00; 0x73; 0x00; 0x00; 0x00;
   0xef; 0xf0; 0x9f; 0xff; 0x2f; 0x69; 0x6e; 0x69;
   0x74; 0x00; 0x00; 0x24; 0x00; 0x00; 0x00; 0x00;
   0x00; 0x00; 0x00; 0x00].

(** The bytes of a C string literal, with its NUL. *)
Definition c_string (s : string) : list Z :=
  (fun c => Z.of_N (Ascii.N_of_ascii c)) <$> String.list_ascii_of_string s ++ [Ascii.zero].

Section Ops.
Context {X : Type} `{Symbols} `{FsOps X}.

(** [p->main_thread], dereferenced. *)
Definition main_thread_of (i : nat) : KM X (nat * nat) :=
  p ← get_proc i; mt ← of_option (p_main_thread p); mret (i, mt).

Definition userinit : KM X unit :=
  r ← allocproc;
  modify (set_k_initproc r);;
  i ← of_option r;
  p ← get_proc i;
  uvminit (p_pagetable p) initcode;;
  mod_proc i (set_p_sz PGSIZE);;
  t ← main_thread_of i;
  tf_set t tf_epc 0;;
  t ← main_thread_of i;
  tf_set t tf_sp PGSIZE;;
  mod_proc i (fun p => set_p_name (name_copy 16 (p_name p) (c_string "initcode")) p);;
  cwd ← op_namei (c_string "/");
  mod_proc i (set_p_cwd cwd);;
  mod_proc i (set_p_pendingSignals 0);;
  mod_proc i (set_p_signalMask 0);;
  for_each (seq 0 32) (fun n =>
    mod_proc i (fun p => set_p_signalHandlers (<[n := SIG_DFL]> (p_signalHandlers p)) p));;
  mod_proc i (set_p_ignore_signals 0);;
  mod_proc i (set_p_stopped 0);;
  t ← main_thread_of i;
  mod_thread t (set_t_state RUNNABLE);;
  release (ProcLock i).

(** [if(p->ofile[fd]) np->ofile[fd] = filedup(p->ofile[fd])] *)
Definition dup_file (i n fd : nat) : KM X unit :=
  p ← get_proc i;
  f ← of_option (p_ofile p !! fd);
  match f with
  | None => mret tt
  | Some f => f' ← op_filedup f; mod_proc n (fun np => set_p_ofile (<[fd := Some f']> (p_ofile np)) np)
  end.

(** The part of [fork] that fills in the child [n] of [i], up to the first
    release of its lock; [t] is the calling thread. *)
Definition fork_copy (i n : nat) (t : nat * nat) : KM X unit :=
  p ← get_proc i;
  mod_proc n (set_p_sz (p_sz p));;
  mod_proc n (set_p_signalMask (p_signalMask p));;
  for_each (seq 0 32) (fun k =>
    p ← get_proc i;
    h ← handler_of p (Z.of_nat k);
    mod_proc n (fun np => set_p_signalHandlers (<[k := h]> (p_signalHandlers np)) np));;
  nt ← main_thread_of n;
  ntf ← trapframe_of nt;
  tf ← trapframe_of t;
  mod_mem (fun m => write_bytes m ntf (read_bytes m tf sizeof_trapframe));;
  nt ← main_thread_of n;
  tf_set nt tf_a0 0;;
  for_each (seq 0 NOFILE) (dup_file i n);;
  p ← get_proc i;
  cwd ← of_option (p_cwd p);
  cwd' ← op_idup cwd;
  mod_proc n (set_p_cwd (Some cwd'));;
  mod_proc n (fun np => set_p_name (name_copy 16 (p_name np) (p_name p)) np).

Definition fork : KM X Z :=
  i ← curproc;
  t ← curthread;
  r ← allocproc;
  match r with
  | None => mret (-1)
  | Some n =>
      p ← get_proc i;
      np ← get_proc n;
      r ← uvmcopy (p_pagetable p) (p_pagetable np) (p_sz p);
      if r <? 0 then
        freeproc n;;
        nt ← main_thread_of n;
        freethread nt;;
        release (ProcLock n);;
        mret (-1)
      else
      fork_copy i n t;;
      np ← get_proc n;
      let pid := p_pid np in
      release (ProcLock n);;
      acquire WaitLock;;
      mod_proc n (set_p_parent (Some i));;
      release WaitLock;;
      acquire (ProcLock n);;
      mod_proc n (set_p_pendingSignals 0);;
      p ← get_proc i;
      mod_proc n (set_p_signalMask (p_signalMask p));;
      mod_proc n (set_p_ignore_signals 0);;
      mod_proc n (set_p_stopped 0);;
      nt ← main_thread_of n;
      mod_thread nt (set_t_state RUNNABLE);;
      release (ProcLock n);;
      mret pid
  end.

(** [wakeup(p->main_thread)] *)
Definition wakeup_main (i : nat) : KM X unit :=
  p ← get_proc i;
  wakeup (ChThread i <$> p_main_thread p).

Definition reparent (i : nat) : KM X unit :=
  for_each (seq 0 NPROC) (fun k =>
    pp ← get_proc k;
    when (bool_decide (p_parent pp = Some i))
      (init ← gets k_initproc;
       mod_proc k (set_p_parent init);;
       init ← of_option init;
       wakeup_main init)).

Definition Treparent (t : nat * nat) : KM X unit :=
  th ← get_thread t;
  i ← of_option (t_proc_parent th);
  for_each (seq 0 NTHREAD) (fun j =>
    tt' ← get_thread (i, j);
    p ← get_proc i;
    if bool_decide (t_thread_parent tt' = Some t) && negb (bool_decide (Some t = pair i <$> p_main_thread p)) then
      mod_thread (i, j) (set_t_thread_parent (pair i <$> p_main_thread p));;
      wakeup_main i
    else if bool_decide (t_thread_parent tt' = Some t) then
      mod_proc i (set_p_main_thread (Some j));;
      printf "found a children\n" []
    else mret tt).

(** [if(p->ofile[fd])] close it. *)
Definition close_file (i fd : nat) : KM X unit :=
  p ← get_proc i;
  f ← of_option (p_ofile p !! fd);
  match f with
  | None => mret tt
  | Some f => op_fileclose f;; mod_proc i (fun p => set_p_ofile (<[fd := None]> (p_ofile p)) p)
  end.

(** [exit] up to the call of [sched]. *)
Definition exit_prepare (status : Z) (i : nat) : KM X unit :=
  for_each (seq 0 NOFILE) (close_file i);;
  op_begin_op;;
  p ← get_proc i;
  cwd ← of_option (p_cwd p);
  op_iput cwd;;
  op_end_op;;
  mod_proc i (set_p_cwd None);;
  acquire WaitLock;;
  reparent i;;
  p ← get_proc i;
  wakeup (ChProc <$> p_parent p);;
  for_each (seq 0 NTHREAD) (fun j =>
    mod_thread (i, j) (set_t_state ZOMBIE);;
    wakeup (Some (ChThread i j)));;
  acquire (ProcLock i);;
  mod_proc i (set_p_xstate status);;
  mod_proc i (set_p_state ZOMBIE);;
  release WaitLock.

Definition exit (status : Z) : KM X unit :=
  i ← curproc;
  init ← gets k_initproc;
  if bool_decide (init = Some i) then panic "init exiting" else
  exit_prepare status i;;
  sched;;
  panic "zombie exit".

(** What [wait] does with the child [n], whose lock it holds, when it is a zombie. *)
Definition reap (i n : nat) (addr : Z) : KM X Z :=
  np ← get_proc n;
  let pid := p_pid np in
  r ← (if addr =? 0 then mret 0 else
       p ← get_proc i; copyout (p_pagetable p) addr (le_bytes 4 (u32 (p_xstate np))));
  if r <? 0 then
    release (ProcLock n);;
    release WaitLock;;
    mret (-1)
  else
  for_each (seq 0 NTHREAD) (fun j =>
    th ← get_thread (n, j);
    when (negb (is_state (t_state th) UNUSED)) (freethread (n, j)));;
  freeproc n;;
  release (ProcLock n);;
  release WaitLock;;
  mret pid.

(** One scan of the table by [wait]: the value to return, if any, and whether
    children were found. *)
Fixpoint wait_scan (i : nat) (addr : Z) (l : list nat) (havekids : bool) : KM X (option Z * bool) :=
  match l with
  | [] => mret (None, havekids)
  | n :: l' =>
      np ← get_proc n;
      if bool_decide (p_parent np = Some i) then
        acquire (ProcLock n);;
        np ← get_proc n;
        if is_state (p_state np) ZOMBIE then r ← reap i n addr; mret (Some r, true)
        else release (ProcLock n);; wait_scan i addr l' true
      else wait_scan i addr l' havekids
  end.

(** [fuel] bounds the number of scans. *)
Definition wait (fuel : nat) (addr : Z) : KM X Z :=
  i ← curproc;
  acquire WaitLock;;
  loop fuel
    (r ← wait_scan i addr (seq 0 NPROC) false;
     match r with
     | (Some v, _) => mret (Some v)
     | (None, havekids) =>
         p ← get_proc i;
         if negb havekids || truthy (p_killed p) then release WaitLock;; mret (Some (-1))
         else sleep (ChProc i) WaitLock;; mret None
     end).

(** The scheduler's visit of the thread [t], whose process lock it holds. *)
Definition dispatch (t : nat * nat) : KM X unit :=
  th ← get_thread t;
  when (is_state (t_state th) RUNNABLE)
    (mod_thread t (set_t_state RUNNING);;
     mod_mycpu (set_c_thread (Some t));;
     mod_mycpu (set_c_proc (Some (fst t)));;
     swtch (Some t);;
     mod_mycpu (set_c_proc None);;
     mod_mycpu (set_c_thread None)).

Definition scheduler_round : KM X unit :=
  intr_on;;
  for_each (seq 0 NPROC) (fun i =>
    acquire (ProcLock i);;
    for_each (seq 0 NTHREAD) (fun j => dispatch (i, j));;
    release (ProcLock i)).

(** [scheduler] never returns: [fuel] is the number of rounds observed. *)
Definition scheduler (fuel : nat) : KM X unit :=
  mod_mycpu (set_c_proc None);;
  mod_mycpu (set_c_thread None);;
  loop fuel (scheduler_round;; mret None).

End Ops.
