(* ===== verification/Kthread.v ===== *)
(** * Binary semaphores and kernel threads (kernel/proc.c, from [bsems] on)

    The binary semaphores of the kernel are an array of integers, -1 for a
    free entry; the threads of a process share its address space and the page
    of its trap frames. *)

From S2P Require Import Prelude Machine Memory State Spinlock Kalloc Vm Proc Signals Process.

Section Ops.
Context {X : Type} `{Symbols} `{FsOps X}.

(** [bsems[i]]; the index is not checked, so one outside the array faults. *)
Definition bsem_get (i : Z) : KM X Z :=
  if i <? 0 then fault else v ← gets (fun s => k_bsems s !! Z.to_nat i); of_option v.

Definition bsem_set (i v : Z) : KM X unit :=
  bsem_get i;; modify (fun s => set_k_bsems (<[Z.to_nat i := v]> (k_bsems s)) s).

Definition bsem_alloc : KM X Z :=
  acquire PidLock;;
  r ← for_until (seq 0 MAX_BSEM) (fun i =>
    v ← bsem_get (Z.of_nat i);
    if v =? -1 then
      bsem_set (Z.of_nat i) 1;;
      release PidLock;;
      mret (Some (Z.of_nat i))
    else mret None);
  match r with
  | Some i => mret i
  | None => release PidLock;; mret (-1)
  end.

Definition bsem_free (i : Z) : KM X unit :=
  acquire PidLock;;
  bsem_set i (-1);;
  release PidLock.

(** [fuel] bounds the number of times the loop condition is tested. *)
Definition bsem_down (fuel : nat) (i : Z) : KM X unit :=
  acquire PidLock;;
  loop fuel
    (v ← bsem_get i;
     if v =? 0 then sleep ChChanel PidLock;; mret None else mret (Some tt));;
  bsem_set i 0;;
  release PidLock.

Definition bsem_up (i : Z) : KM X unit :=
  acquire PidLock;;
  bsem_set i 1;;
  wakeup (Some ChChanel);;
  release PidLock.

(** ** Threads *)

(** The scan of [allocthread] for a slot. *)
Definition find_thread (i : nat) : KM X (option nat) :=
  for_until (seq 0 NTHREAD) (fun j =>
    th ← get_thread (i, j);
    if is_state (t_state th) UNUSED || is_state (t_state th) ZOMBIE then mret (Some j) else mret None).

(** The slot [j] of the process [i] becomes a thread.  The trap frame is a
    pointer to [struct trapframe], so the offset is scaled by its size twice. *)
Definition allocthread_found (start_func stack : Z) (t : nat * nat) (i j : nat) : KM X (option (nat * nat)) :=
  tid ← alloctid;
  mod_thread (i, j) (set_t_tid tid);;
  mod_thread (i, j) (set_t_state USED);;
  mod_thread (i, j) (set_t_proc_parent (Some i));;
  mod_thread (i, j) (set_t_thread_parent (Some t));;
  release (ProcLock i);;
  kstack ← kalloc;
  mod_thread (i, j) (set_t_kstack kstack);;
  if kstack =? 0 then
    freethread (i, j);;
    release (ProcLock i);;
    mret None
  else
  t0 ← get_thread (i, O);
  let sizeof := Z.of_nat sizeof_trapframe in
  mod_thread (i, j) (set_t_trapframe (u64 (t_trapframe t0 + sizeof * (sizeof * Z.of_nat j))));;
  printf "(int)(t-p->threads) = %d\n" [Z.of_nat j];;
  tf ← trapframe_of (i, j);
  ctf ← trapframe_of t;
  mod_mem (fun m => memmove m tf ctf sizeof_trapframe);;
  mod_thread (i, j) (set_t_context zero_context);;
  mod_thread (i, j) (fun th => set_t_context (set_ctx_ra sym_forkret (t_context th)) th);;
  mod_thread (i, j) (fun th => set_t_context (set_ctx_sp (u64 (t_kstack th + PGSIZE)) (t_context th)) th);;
  tf_set (i, j) tf_epc start_func;;
  tf_set (i, j) tf_sp (stack + MAX_STACK_SIZE);;
  mret (Some (i, j)).

Definition allocthread (start_func stack : Z) : KM X (option (nat * nat)) :=
  t ← curthread;
  th ← get_thread t;
  i ← of_option (t_proc_parent th);
  acquire (ProcLock i);;
  r ← find_thread i;
  match r with
  | Some j => allocthread_found start_func stack t i j
  | None => release (ProcLock i);; mret None
  end.

(** [t->state = RUNNABLE] comes before the test for a null [t]. *)
Definition kthread_create (start_func stack : Z) : KM X Z :=
  r ← allocthread start_func stack;
  t ← of_option r;
  mod_thread t (set_t_state RUNNABLE);;
  th ← get_thread t;
  mret (t_tid th).

Definition kthread_id : KM X Z := t ← curthread; th ← get_thread t; mret (t_tid th).

Definition is_active (st : procstate) : bool :=
  is_state st USED || is_state st SLEEPING || is_state st RUNNABLE || is_state st RUNNING.

Definition kthread_exit (status : Z) : KM X unit :=
  t ← curthread;
  th ← get_thread t;
  printf "inside exit for tid: %d\n" [t_tid th];;
  i ← of_option (t_proc_parent th);
  acquire WaitLock;;
  Treparent t;;
  th ← get_thread t;
  match t_thread_parent th with
  | Some (i', j') => wakeup (Some (ChThread i' j'))
  | None => mret tt
  end;;
  mod_thread t (set_t_xstate status);;
  mod_thread t (set_t_state ZOMBIE);;
  th ← get_thread t;
  printf "update status for tid: %d\n" [t_tid th];;
  acquire (ProcLock i);;
  r ← for_until (seq 0 NTHREAD) (fun j =>
    tt' ← get_thread (i, j);
    mret (if is_active (t_state tt') then Some j else None));
  match r with
  | None =>
      release (ProcLock i);;
      release WaitLock;;
      exit 0;;
      panic "zombie exit"
  | Some _ =>
      release WaitLock;;
      sched;;
      panic "zombie exit"
  end.

(** [tt->state == UNUSED || ZOMBIE]: the second operand is a constant. *)
Definition ended (st : procstate) : bool := is_state st UNUSED || true.

Definition kthread_join (fuel : nat) (thread_id status : Z) : KM X Z :=
  t ← curthread;
  th ← get_thread t;
  i ← of_option (t_proc_parent th);
  acquire (ProcLock i);;
  r ← for_until (seq 0 NTHREAD) (fun j =>
    tt' ← get_thread (i, j);
    mret (if t_tid tt' =? thread_id then Some j else None));
  match r with
  | None => release (ProcLock i);; mret (-1)
  | Some j =>
      release (ProcLock i);;
      tt' ← get_thread (i, j);
      if ended (t_state tt') then mret 0 else
      loop fuel
        (sleep (ChThread (fst t) (snd t)) JoinLock;;
         tt' ← get_thread (i, j);
         if ended (t_state tt') then
           mod_mem (fun m => write_bytes m status (le_bytes 4 (u32 (t_xstate tt'))));;
           mret (Some 0)
         else mret None)
  end.

End Ops.

(** ** Running the semaphore operations *)

Section BsemRun.
Context {X : Type} `{Symbols} `{FsOps X}.
Implicit Types s : kstate X.

Definition set_bsem (i v : Z) s : kstate X := set_k_bsems (<[Z.to_nat i := v]> (k_bsems s)) s.

Lemma bsem_get_run i s v : 0 <= i -> k_bsems s !! Z.to_nat i = Some v -> bsem_get i s = Done v s.
Proof.
  intros Hi Hv. unfold bsem_get. destruct (Z.ltb_spec i 0); [lia|]. mrun. by rewrite Hv.
Qed.

Lemma bsem_set_run i v s w :
  0 <= i -> k_bsems s !! Z.to_nat i = Some w -> bsem_set i v s = Done tt (set_bsem i v s).
Proof. intros Hi Hv. unfold bsem_set. by mstep (bsem_get_run i s w Hi Hv). Qed.

(** The end of [bsem_down]. *)
Definition take_bsem (i : Z) : KM X unit := bsem_set i 0;; release PidLock.

Definition down_body (i : Z) : KM X (option unit) :=
  v ← bsem_get i;
  if v =? 0 then sleep ChChanel PidLock;; mret None else mret (Some tt).

Lemma bsem_down_eq fuel i : bsem_down fuel i = (acquire PidLock;; loop fuel (down_body i);; take_bsem i).
Proof. reflexivity. Qed.

Lemma down_open fuel i s v :
  0 <= i -> k_bsems s !! Z.to_nat i = Some v -> v <> 0 -> loop (S fuel) (down_body i) s = Done tt s.
Proof.
  intros Hi Hv Hne. apply loop_found. unfold down_body. mstep (bsem_get_run i s v Hi Hv).
  by rewrite (proj2 (Z.eqb_neq v 0)).
Qed.

Lemma bsem_down_run fuel i s c v :
  quiet s c -> k_locks s !! PidLock = None -> 0 <= i -> k_bsems s !! Z.to_nat i = Some v -> v <> 0 ->
  bsem_down (S fuel) i s = Done tt (set_bsem i 0 s).
Proof.
  intros Hq Hl Hi Hv Hne. rewrite bsem_down_eq. mstep (acquire_run PidLock s c Hq Hl).
  set (s1 := acquired PidLock s). mstep (down_open fuel i s1 v Hi Hv Hne). unfold take_bsem.
  mstep (bsem_set_run i 0 s1 v Hi Hv). rewrite (release_run PidLock s c _ Hq Hl) by reflexivity. by destruct s.
Qed.

Lemma proc_ready_acquired lk s c :
  (forall i, lk <> ProcLock i) -> proc_ready s c -> proc_ready (acquired lk s) (set_c_noff (c_noff c + 1) c).
Proof.
  intros Hne (Hq & Hl & Ht). split_and!; [by apply quiet_acquired| |exact Ht].
  intros i. rewrite locks_acquired; [apply Hl|apply Hne].
Qed.

Lemma bsem_up_run i s c v :
  proc_ready s c -> k_locks s !! PidLock = None -> 0 <= i -> k_bsems s !! Z.to_nat i = Some v ->
  bsem_up i s = Done tt (set_k_procs (imap (wake_proc (Some ChChanel) (c_thread c)) (k_procs s)) (set_bsem i 1 s)).
Proof.
  intros Hr Hl Hi Hv. pose proof Hr as (Hq & _ & Ht). unfold bsem_up. mstep (acquire_run PidLock s c Hq Hl).
  set (s1 := acquired PidLock s). mstep (bsem_set_run i 1 s1 v Hi Hv).
  assert (Hr1 : proc_ready (set_bsem i 1 s1) (set_c_noff (c_noff c + 1) c)).
  { destruct (proc_ready_acquired PidLock s c ltac:(done) Hr) as (Hq1 & Hl1 & Ht1).
    split_and!; [by apply (quiet_hw s1)|exact Hl1|exact Ht1]. }
  mstep (wakeup_run (Some ChChanel) _ _ Hr1). rewrite (release_run PidLock s c _ Hq Hl) by reflexivity.
  by destruct s.
Qed.

(** What the resumption [k] of a thread [t] that waits in [bsem_down] does, for
    the next [fuel] times it is resumed, in whatever state that happens: when the
    semaphore is closed it goes back to sleep and waits as before; when it is
    open the thread closes it and returns. *)
Fixpoint waits (fuel : nat) (i : Z) (t : nat * nat) (k : kstate X -> res (kstate X) unit) : Prop :=
  match fuel with
  | O => True
  | S fuel' =>
      forall s c th v, running s c t th -> c_noff c = 1 ->
        k_locks s !! ProcLock (fst t) = Some (k_hart s) -> k_locks s !! PidLock = None ->
        k_bsems s !! Z.to_nat i = Some v ->
        if decide (v = 0) then
          exists s' k', k s = Swtch None s' k' /\ k_bsems s' = k_bsems s /\ k_locks s' = k_locks s /\
            thread_at s' t = Some (set_t_state SLEEPING (set_t_chan (Some ChChanel) th)) /\ waits fuel' i t k'
        else
          exists s', k s = Done tt s' /\ k_bsems s' = <[Z.to_nat i := 0]> (k_bsems s) /\
            k_locks s' = delete (ProcLock (fst t)) (k_locks s)
  end.

Lemma thread_asleep ch lk t s c th :
  running s c t th -> thread_at (asleep ch lk t s) t = Some (set_t_state SLEEPING (set_t_chan (Some ch) th)).
Proof.
  intros (_ & _ & _ & p & Hp & Ht). unfold thread_at. cbn. rewrite !list_lookup_alter_eq, Hp. cbn.
  by rewrite !list_lookup_alter_eq, Ht.
Qed.

(** The state in which the loop of [bsem_down] is continued. *)
Definition woken (t : nat * nat) (ie : Z) s : kstate X :=
  swapped (ProcLock (fst t)) PidLock (with_thread t (set_t_chan None)
    (set_k_cpus (alter (set_c_intena ie) (k_hart s) (k_cpus s)) s)).

Lemma woken_running t ie s c th :
  running s c t th -> c_noff c = 1 -> running (woken t ie s) (set_c_intena ie c) t (set_t_chan None th).
Proof.
  intros (Hq & Hct & Hpp & Hth) Hn. apply running_locks, running_thread; [|done].
  destruct Hq as (Hc & Hq0 & Hq1 & Hq2). split_and!; [|done|done|exact Hth].
  unfold quiet. cbn. rewrite list_lookup_alter_eq, Hc. split_and!; [done|done|lia|done].
Qed.

(** The locks when a thread that was resumed goes back to sleep. *)
Lemma woken_locks t ie s :
  k_locks s !! ProcLock (fst t) = Some (k_hart s) -> k_locks s !! PidLock = None ->
  k_locks (asleep ChChanel PidLock t (woken t ie s)) = k_locks s.
Proof.
  intros Hl Hl'. cbn. rewrite delete_insert_id by (by rewrite lookup_delete_ne). by rewrite insert_delete_id.
Qed.

(** From the test of the loop on, with the semaphores locked. *)
Lemma down_loop fuel i t s c th v :
  running s c t th -> c_noff c = 1 -> flag (c_intena c) ->
  k_locks s !! PidLock = Some (k_hart s) -> k_locks s !! ProcLock (fst t) = None ->
  0 <= i -> k_bsems s !! Z.to_nat i = Some v ->
  if decide (v = 0) then
    exists k, rbind (loop (S fuel) (down_body i) s) (fun _ => take_bsem i) =
      Swtch None (asleep ChChanel PidLock t s) k /\ waits fuel i t k
  else rbind (loop (S fuel) (down_body i) s) (fun _ => take_bsem i) = Done tt (unlocked PidLock c (set_bsem i 0 s)).
Proof.
  revert s c th v. induction fuel as [|fuel IH]; intros s c th v Hrun Hn Hf Hl Hl' Hi Hv;
    pose proof Hrun as (Hq & _); destruct (decide (v = 0)) as [->|Hne].
  2,4: rewrite (down_open _ i s v Hi Hv Hne); cbn [rbind]; unfold take_bsem;
    mstep (bsem_set_run i 0 s v Hi Hv); by apply release_last.
  all: destruct (sleep_run ChChanel PidLock s c t th Hrun Hn ltac:(done) Hl Hl') as (k0 & Hs & Hk0).
  all: assert (Hb : down_body i s = Swtch None (asleep ChChanel PidLock t s) (fun x => rbind (k0 x) (fun _ => mret None)))
    by (unfold down_body; mstep (bsem_get_run i s 0 Hi Hv); cbn [Z.eqb]; by mstep Hs).
  all: rewrite (loop_Swtch _ (down_body i) _ _ _ _ Hb); cbn [rbind]; eexists; (split; [reflexivity|]).
  1: done.
  intros s4 c4 th4 v4 Hrun4 Hn4 Hl4 Hl4' Hv4. pose proof Hrun4 as (Hq4 & _ & Hpp4 & p4 & Hp4 & Ht4).
  pose proof (awake_run PidLock t (c_intena c) s4 c4 p4 th4 Hq4 Hn4 Hf ltac:(done) Hp4 Ht4 Hpp4 Hl4 Hl4') as Ha.
  fold (woken t (c_intena c) s4) in Ha. specialize (Hk0 s4). rewrite Ha in Hk0.
  assert (E : k0 s4 = Done tt (woken t (c_intena c) s4)) by (by inversion Hk0).
  rewrite E. cbn [rbind]. unfold mret at 1, M_ret. cbn [rbind].
  specialize (IH (woken t (c_intena c) s4) (set_c_intena (c_intena c) c4) (set_t_chan None th4) v4
    (woken_running t _ s4 c4 th4 Hrun4 Hn4) Hn4 Hf (lookup_insert_eq _ _ _) ltac:(cbn; by simpl_map) Hi Hv4).
  destruct (decide (v4 = 0)) as [->|].
  - destruct IH as (k & Hk & Hw). eexists _, k. split_and!; [exact Hk|done|by apply woken_locks| |done].
    rewrite (thread_asleep _ _ t _ _ _ (woken_running t _ s4 c4 th4 Hrun4 Hn4)). by destruct th4.
  - eexists. split_and!; [exact IH|done|]. cbn. rewrite delete_insert_id; [done|].
    by rewrite lookup_delete_ne.
Qed.

(** A thread at a closed semaphore sleeps with the semaphores unlocked. *)
Lemma bsem_down_closed fuel i s c t th :
  running s c t th -> c_noff c = 0 -> flag (c_intena c) ->
  k_locks s !! PidLock = None -> k_locks s !! ProcLock (fst t) = None ->
  0 <= i -> k_bsems s !! Z.to_nat i = Some 0 ->
  exists k, bsem_down (S fuel) i s = Swtch None (asleep ChChanel PidLock t (acquired PidLock s)) k /\
    waits fuel i t k.
Proof.
  intros Hrun Hn Hf Hl Hl' Hi Hv. pose proof Hrun as (Hq & Hct & Hpp & Hth).
  rewrite bsem_down_eq. mstep (acquire_run PidLock s c Hq Hl).
  apply (down_loop fuel i t (acquired PidLock s) (set_c_noff (c_noff c + 1) c) th 0); try done.
  - split_and!; [by apply quiet_acquired|done|done|exact Hth].
  - cbn. lia.
  - cbn. apply lookup_insert_eq.
  - by rewrite locks_acquired.
Qed.

End BsemRun.

(** ** Properties *)

Section Properties.
Context {X : Type} `{Symbols}.

(** What [bsem_alloc] answers for the semaphores [l]: the first free entry. *)
Definition free_bsem (l : list Z) : option nat := fst <$> list_find (fun v => v = -1) l.

Definition alloc_body (i : nat) : KM X (option Z) :=
  v ← bsem_get (Z.of_nat i);
  if v =? -1 then bsem_set (Z.of_nat i) 1;; release PidLock;; mret (Some (Z.of_nat i)) else mret None.

Lemma alloc_body_skip (s : kstate X) k v :
  k_bsems s !! k = Some v -> v <> -1 -> alloc_body k s = Done None s.
Proof.
  intros Hv Hne. unfold alloc_body. mstep (bsem_get_run (Z.of_nat k) s v ltac:(lia) ltac:(by rewrite Nat2Z.id)).
  by rewrite (proj2 (Z.eqb_neq v (-1))).
Qed.

Lemma alloc_body_take (s : kstate X) c i :
  quiet s c -> k_locks s !! PidLock = None -> k_bsems s !! i = Some (-1) ->
  alloc_body i (acquired PidLock s) = Done (Some (Z.of_nat i)) (set_bsem (Z.of_nat i) 1 s).
Proof.
  intros Hq Hl Hi. set (s1 := acquired PidLock s). rewrite <- (Nat2Z.id i) in Hi. unfold alloc_body.
  mstep (bsem_get_run (Z.of_nat i) s1 (-1) ltac:(lia) Hi). cbn [Z.eqb Pos.eqb].
  mstep (bsem_set_run (Z.of_nat i) 1 s1 (-1) ltac:(lia) Hi).
  mstep (release_run PidLock s c (set_bsem (Z.of_nat i) 1 s1) Hq Hl eq_refl). by destruct s.
Qed.

Lemma bsem_alloc_run (s : kstate X) c :
  quiet s c -> k_locks s !! PidLock = None -> length (k_bsems s) = MAX_BSEM ->
  bsem_alloc s = match free_bsem (k_bsems s) with
                 | Some i => Done (Z.of_nat i) (set_bsem (Z.of_nat i) 1 s)
                 | None => Done (-1) s
                 end.
Proof.
  intros Hq Hl Hlen. change bsem_alloc with (acquire PidLock;; r ← for_until (seq 0 MAX_BSEM) alloc_body;
    match r with Some i => mret i | None => release PidLock;; mret (-1) end).
  unfold free_bsem. mstep (acquire_run PidLock s c Hq Hl).
  destruct (list_find _ (k_bsems s)) as [[i v]|] eqn:E; cbn [fmap option_fmap option_map fst].
  - apply list_find_Some in E. destruct E as (Hi & -> & Hfirst). pose proof (lookup_lt_Some _ _ _ Hi) as Hlt.
    assert (Hr : for_until (seq 0 MAX_BSEM) alloc_body (acquired PidLock s) =
      Done (Some (Z.of_nat i)) (set_bsem (Z.of_nat i) 1 s)).
    { apply (for_until_found MAX_BSEM i); [lia| |by apply (alloc_body_take s c)].
      intros k Hk. destruct (lookup_lt_is_Some_2 (k_bsems s) k) as [v Hv]; [lia|].
      apply (alloc_body_skip (acquired PidLock s) k v Hv). by apply (Hfirst k v). }
    by mstep Hr.
  - apply list_find_None in E. rewrite Forall_lookup in E.
    assert (Hr : for_until (seq 0 MAX_BSEM) alloc_body (acquired PidLock s) = Done None (acquired PidLock s)).
    { apply for_until_none. intros k Hk. apply elem_of_seq in Hk.
      destruct (lookup_lt_is_Some_2 (k_bsems s) k) as [v Hv]; [lia|].
      apply (alloc_body_skip (acquired PidLock s) k v Hv). by apply (E k). }
    mstep Hr. by mstep (release_same PidLock s c Hq Hl).
Qed.

(** C28: a binary semaphore of the kernel works.  [bsem_down] of an open
    semaphore closes it at once; [bsem_up] opens it and makes every thread that
    waits runnable; [bsem_down] of a closed one puts the calling thread to sleep
    with the semaphores unlocked by the time another thread runs.  However often
    and in whatever states the thread is resumed, it goes back to sleep each time
    the semaphore is closed, with nothing changed, and the first time it finds
    the semaphore open it closes it and returns: of several threads woken by one
    [bsem_up], the first to run passes and the others sleep again. *)
Theorem bsem_blocks_until_up (fuel : nat) (i : Z) (s : kstate X) (c : cpu) (t : nat * nat) (th : thread) (v : Z) :
  running s c t th -> proc_ready s c -> c_noff c = 0 -> flag (c_intena c) -> k_locks s !! PidLock = None ->
  0 <= i -> k_bsems s !! Z.to_nat i = Some v ->
  bsem_up i s = Done tt (set_k_procs (imap (wake_proc (Some ChChanel) (Some t)) (k_procs s)) (set_bsem i 1 s)) /\
  if decide (v = 0) then
    exists s1 k, bsem_down (S fuel) i s = Swtch None s1 k /\ k_bsems s1 = k_bsems s /\
      thread_at s1 t = Some (set_t_state SLEEPING (set_t_chan (Some ChChanel) th)) /\
      k_locks s1 = <[ProcLock (fst t) := k_hart s]> (k_locks s) /\ waits fuel i t k
  else bsem_down (S fuel) i s = Done tt (set_bsem i 0 s).
Proof.
  intros Hrun Hr Hn Hf Hl Hi Hv. pose proof Hrun as (Hq & Hct & Hpp & Hth). split.
  - rewrite (bsem_up_run i s c v Hr Hl Hi Hv). by rewrite Hct.
  - destruct (decide (v = 0)) as [->|Hne]; [|by apply (bsem_down_run fuel i s c v)].
    destruct (bsem_down_closed fuel i s c t th Hrun Hn Hf Hl (proj1 (proj2 Hr) _) Hi Hv) as (k & Hd & Hk).
    exists (asleep ChChanel PidLock t (acquired PidLock s)), k.
    split_and!; [exact Hd|done| | |exact Hk].
    + apply (thread_asleep _ _ t _ (set_c_noff (c_noff c + 1) c)).
      split_and!; [by apply quiet_acquired|done|done|exact Hth].
    + cbn. by rewrite delete_insert_id.
Qed.

(** [bsem_alloc] gives the first free semaphore, open, or -1 when all
    MAX_BSEM are in use, and freeing what it gave restores the table. *)
Theorem bsem_alloc_free (s : kstate X) (c : cpu) :
  quiet s c -> k_locks s !! PidLock = None -> length (k_bsems s) = MAX_BSEM ->
  match free_bsem (k_bsems s) with
  | None => bsem_alloc s = Done (-1) s /\ Forall (fun v => v <> -1) (k_bsems s)
  | Some i => (forall j v, (j < i)%nat -> k_bsems s !! j = Some v -> v <> -1) /\
      exists s1, bsem_alloc s = Done (Z.of_nat i) s1 /\ k_bsems s1 = <[i := 1]> (k_bsems s) /\
        bsem_free (Z.of_nat i) s1 = Done tt s
  end.
Proof.
  intros Hq Hl Hlen. rewrite (bsem_alloc_run s c Hq Hl Hlen). unfold free_bsem.
  destruct (list_find _ (k_bsems s)) as [[i v]|] eqn:E; cbn [fmap option_fmap option_map fst];
    [|split; [done|]; apply list_find_None in E; exact E].
  apply list_find_Some in E. destruct E as (Hi & -> & Hfirst).
  split; [intros j v Hj Hv; by apply (Hfirst j v)|]. set (s1 := set_bsem _ 1 s). exists s1.
  assert (Hb : k_bsems s1 = <[i := 1]> (k_bsems s)) by (unfold s1; cbn; by rewrite Nat2Z.id).
  split_and!; [done|done|]. unfold bsem_free.
  assert (Hq1 : quiet s1 c) by by apply (quiet_hw s).
  mstep (acquire_run PidLock s1 c Hq1 Hl).
  mstep (bsem_set_run (Z.of_nat i) (-1) (acquired PidLock s1) 1 ltac:(lia)
    ltac:(rewrite Nat2Z.id; cbn [k_bsems acquired pushed set_k_locks set_k_csr set_k_cpus]; rewrite Hb;
          apply list_lookup_insert_eq; by apply lookup_lt_Some in Hi)).
  rewrite (release_run PidLock s1 c _ Hq1 Hl) by reflexivity. do 2 f_equal.
  unfold s1, set_bsem, with_hw, acquired, pushed. destruct s. cbn in *.
  rewrite Nat2Z.id, list_insert_insert_eq, list_insert_id by done. done.
Qed.

(** C40: [kthread_join] does not wait: for the id of any thread of the calling
    process, running or not, it returns 0 at once and stores no status. *)
Theorem kthread_join_never_waits (fuel : nat) (thread_id status : Z) (s : kstate X) (c : cpu) (t : nat * nat)
    (th : thread) (i j : nat) (p : proc) (th' : thread) :
  quiet s c -> c_thread c = Some t -> thread_at s t = Some th -> t_proc_parent th = Some i ->
  k_locks s !! ProcLock i = None -> k_procs s !! i = Some p -> length (p_threads p) = NTHREAD ->
  p_threads p !! j = Some th' -> t_tid th' = thread_id ->
  kthread_join fuel thread_id status s = Done 0 s.
Proof.
  intros Hq Hct Hth Hpp Hl Hp Hlen Ht' Htid. unfold kthread_join. mstep (curthread_run s c t Hq Hct).
  destruct t as [a b]. unfold thread_at in Hth. cbn [fst snd] in Hth.
  destruct (k_procs s !! a) as [pa|] eqn:Ha; [|done]. mstep (get_thread_run a b s pa th Ha Hth).
  rewrite (bind_of_option _ _ _ _ Hpp). mstep (acquire_run (ProcLock i) s c Hq Hl).
  set (s1 := acquired (ProcLock i) s).
  set (body := fun j : nat => tt' ← get_thread (i, j); mret (if t_tid tt' =? thread_id then Some j else None)).
  assert (Hb : forall k th, p_threads p !! k = Some th -> body k s1 =
    Done (if t_tid th =? thread_id then Some k else None) s1).
  { intros k x Hx. unfold body. by mstep (get_thread_run i k s1 p x Hp Hx). }
  assert (Hr : exists k x, for_until (seq 0 NTHREAD) body s1 = Done (Some k) s1 /\ p_threads p !! k = Some x).
  { destruct (list_find (fun x => t_tid x = thread_id) (p_threads p)) as [[k x]|] eqn:E.
    - apply list_find_Some in E. destruct E as (Hk & Hx & Hf). exists k, x. split; [|done].
      pose proof (lookup_lt_Some _ _ _ Hk). apply (for_until_found NTHREAD k); [lia| |].
      + intros m Hm. destruct (lookup_lt_is_Some_2 (p_threads p) m) as [y Hy]; [lia|]. rewrite (Hb m y Hy).
        by rewrite (proj2 (Z.eqb_neq (t_tid y) thread_id)) by (by apply (Hf m y)).
      + rewrite (Hb k x Hk). by rewrite Hx, Z.eqb_refl.
    - apply list_find_None in E. rewrite Forall_lookup in E. by destruct (E j th' Ht'). }
  destruct Hr as (k & x & Hr & Hx). mstep Hr. mstep (release_same (ProcLock i) s c Hq Hl).
  mstep (get_thread_run i k s p x Hp Hx). unfold ended. by rewrite orb_true_r.
Qed.

(** When every thread slot of the process is taken, [kthread_create]
    dereferences the null pointer that [allocthread] returned instead of
    returning -1. *)
Theorem kthread_create_full_faults (start_func stack : Z) (s : kstate X) (c : cpu) (t : nat * nat) (th : thread)
    (i : nat) (p : proc) :
  quiet s c -> c_thread c = Some t -> thread_at s t = Some th -> t_proc_parent th = Some i ->
  k_locks s !! ProcLock i = None -> k_procs s !! i = Some p -> length (p_threads p) = NTHREAD ->
  Forall (fun x => t_state x <> UNUSED /\ t_state x <> ZOMBIE) (p_threads p) ->
  kthread_create start_func stack s = Fault s.
Proof.
  intros Hq Hct Hth Hpp Hl Hp Hlen Hall. rewrite Forall_lookup in Hall.
  assert (Ha : allocthread start_func stack s = Done None s).
  { unfold allocthread. mstep (curthread_run s c t Hq Hct). destruct t as [a b]. unfold thread_at in Hth.
    cbn [fst snd] in Hth. destruct (k_procs s !! a) as [pa|] eqn:E; [|done].
    mstep (get_thread_run a b s pa th E Hth). rewrite (bind_of_option _ _ _ _ Hpp).
    mstep (acquire_run (ProcLock i) s c Hq Hl). set (s1 := acquired (ProcLock i) s).
    assert (Hf : find_thread i s1 = Done None s1).
    { apply for_until_none. intros k Hk. apply elem_of_seq in Hk.
      destruct (lookup_lt_is_Some_2 (p_threads p) k) as [x Hx]; [lia|].
      mstep (get_thread_run i k s1 p x Hp Hx). destruct (Hall k x Hx) as [H1 H2]. unfold is_state.
      by rewrite !bool_decide_eq_false_2. }
    mstep Hf. by mstep (release_same (ProcLock i) s c Hq Hl). }
  unfold kthread_create. by mstep Ha.
Qed.

End Properties.

(** ** States to evaluate on *)

Definition run_thread : thread := set_t_state RUNNING (set_t_tid 1 (set_t_proc_parent (Some O) zero_thread)).

Lemma one_proc_running : running (one_proc 0 ∅) (Cpu (Some O) (Some (O, O)) 0 0) (O, O) run_thread.
Proof. split_and!; [by apply one_proc_quiet|reflexivity|reflexivity|]. eexists. split; reflexivity. Qed.

(** A thread at the closed semaphore 0 that may be resumed three times. *)
Lemma bsem_blocks_until_up_witness :
  exists s1 k, bsem_down 4 0 (set_bsem 0 0 (one_proc 0 ∅)) = Swtch None s1 k /\ k_bsems s1 !! O = Some 0 /\
    waits 3 0 (O, O) k.
Proof.
  destruct (bsem_blocks_until_up 3 0 (set_bsem 0 0 (one_proc 0 ∅)) (Cpu (Some O) (Some (O, O)) 0 0) (O, O)
              run_thread 0) as [_ Hd];
    [exact one_proc_running|exact one_proc_ready|reflexivity|by left|reflexivity|lia|reflexivity|].
  destruct (decide (0 = 0)) as [_|Hn]; [|by destruct Hn].
  destruct Hd as (s1 & k & H1 & H2 & _ & _ & H3). exists s1, k. split_and!; [exact H1| |exact H3].
  rewrite H2. reflexivity.
Defined.

Lemma bsem_alloc_free_witness :
  exists s1, bsem_alloc (one_proc 0 ∅) = Done 0 s1 /\ bsem_free 0 s1 = Done tt (one_proc 0 ∅).
Proof.
  destruct (bsem_alloc_free (one_proc 0 ∅) (Cpu (Some O) (Some (O, O)) 0 0)) as (_ & s1 & H1 & _ & H2);
    [by apply one_proc_quiet|reflexivity|reflexivity|].
  exists s1. split; [exact H1|exact H2].
Defined.

Lemma kthread_join_never_waits_witness : kthread_join 0 1 0 (one_proc 0 ∅) = Done 0 (one_proc 0 ∅).
Proof.
  apply (kthread_join_never_waits 0 1 0 (one_proc 0 ∅) (Cpu (Some O) (Some (O, O)) 0 0) (O, O) run_thread O O
    (upd_thread O (fun t => set_t_state RUNNING (set_t_tid 1 (set_t_proc_parent (Some O) t)))
       (set_p_main_thread (Some O) (set_p_pid 1 (set_p_state USED zero_proc)))) run_thread);
    [by apply one_proc_quiet|reflexivity..].
Defined.

(** All threads of the process run. *)
Definition busy_proc : proc :=
  set_p_threads (replicate NTHREAD run_thread) (set_p_main_thread (Some O) (set_p_pid 1 (set_p_state USED zero_proc))).

Lemma kthread_create_full_faults_witness :
  exists s : kstate unit, k_procs s !! O = Some busy_proc /\ @kthread_create unit sample_symbols 0x100 0x2000 s = Fault s.
Proof.
  exists (set_k_procs (<[O := busy_proc]> (k_procs (one_proc 0 ∅))) (one_proc 0 ∅)). split; [reflexivity|].
  apply (@kthread_create_full_faults unit sample_symbols 0x100 0x2000 _ (Cpu (Some O) (Some (O, O)) 0 0) (O, O) run_thread O busy_proc);
    [apply (quiet_hw (one_proc 0 ∅)); [reflexivity|by apply one_proc_quiet]|reflexivity..|].
  apply Forall_replicate. split; discriminate.
Defined.
