(* ===== verification/Csem.v ===== *)
(** * Counting semaphores (user/Csemaphore.c)

    A counting semaphore is an integer in shared memory and two binary
    semaphores of the kernel: [bsem1] protects the integer, [bsem2] is a gate
    that is open while it is positive.  The functions are given as calls of the
    kernel, and as the atomic steps of threads that share one semaphore: a call
    of [bsem_down] or [bsem_up] is one step, since the kernel runs it under a
    lock, but the updates of [sem->count] are a load and a store. *)

From S2P Require Import Prelude Machine Memory State Spinlock Kalloc Vm Proc Signals Process Kthread.

(** [struct counting_semaphore] *)
Record counting_semaphore := CSem { bsem1 : Z; bsem2 : Z; count : Z }.

Section Calls.
Context {X : Type} `{Symbols} `{FsOps X}.

Definition csem_down (fuel : nat) (sem : counting_semaphore) : KM X counting_semaphore :=
  bsem_down fuel (bsem2 sem);;
  bsem_down fuel (bsem1 sem);;
  let sem := CSem (bsem1 sem) (bsem2 sem) (s32 (count sem - 1)) in
  when (0 <? count sem) (bsem_up (bsem2 sem));;
  bsem_up (bsem1 sem);;
  mret sem.

Definition csem_up (fuel : nat) (sem : counting_semaphore) : KM X counting_semaphore :=
  bsem_down fuel (bsem1 sem);;
  let sem := CSem (bsem1 sem) (bsem2 sem) (s32 (count sem + 1)) in
  when (count sem =? 1) (bsem_up (bsem2 sem));;
  bsem_up (bsem1 sem);;
  mret sem.

Definition csem_alloc (fuel : nat) (sem : counting_semaphore) (n : Z) : KM X (Z * counting_semaphore) :=
  b1 ← bsem_alloc;
  b2 ← bsem_alloc;
  if (b1 =? -1) || (b2 =? -1) then mret (-1, sem) else
  when (n =? 0) (bsem_down fuel b2);;
  mret (0, CSem b1 b2 n).

(** [free(sem)] is a parameter: it works on the memory of the user program. *)
Definition csem_free (free : KM X unit) (sem : counting_semaphore) : KM X unit :=
  bsem_free (bsem1 sem);;
  bsem_free (bsem2 sem);;
  free.

End Calls.

(** ** Threads sharing a semaphore *)

Module Conc.

Inductive op := Down | Up.

(** Where a thread is, named by what it does next; [v] is the loaded count. *)
Inductive pc :=
| Idle
| DGate | DMutex | DLoad | DStore (v : Z) | DTest | DOpen | DLeave
| UMutex | ULoad | UStore (v : Z) | UTest | UOpen | ULeave.

(** The two binary semaphores and the count; [taken] and [given] count the
    updates made by [csem_down] and [csem_up]. *)
Record shared := Shared { b1 : Z; b2 : Z; cnt : Z; taken : Z; given : Z }.

(** A thread: its position and the operations it still has to call. *)
Record sys := Sys { sh : shared; ths : list (pc * list op) }.

(** The atomic step of a thread; [None] when it waits or has finished. *)
Definition thread_step (t : pc * list op) (g : shared) : option (pc * list op * shared) :=
  let '(p, ops) := t in
  let '(Shared m1 m2 c k u) := g in
  match p with
  | Idle => match ops with
            | [] => None
            | Down :: ops' => Some (DGate, ops', g)
            | Up :: ops' => Some (UMutex, ops', g)
            end
  | DGate => if m2 =? 0 then None else Some (DMutex, ops, Shared m1 0 c k u)
  | DMutex => if m1 =? 0 then None else Some (DLoad, ops, Shared 0 m2 c k u)
  | DLoad => Some (DStore c, ops, g)
  | DStore v => Some (DTest, ops, Shared m1 m2 (s32 (v - 1)) (k + 1) u)
  | DTest => Some (if 0 <? c then DOpen else DLeave, ops, g)
  | DOpen => Some (DLeave, ops, Shared m1 1 c k u)
  | DLeave => Some (Idle, ops, Shared 1 m2 c k u)
  | UMutex => if m1 =? 0 then None else Some (ULoad, ops, Shared 0 m2 c k u)
  | ULoad => Some (UStore c, ops, g)
  | UStore v => Some (UTest, ops, Shared m1 m2 (s32 (v + 1)) k (u + 1))
  | UTest => Some (if c =? 1 then UOpen else ULeave, ops, g)
  | UOpen => Some (ULeave, ops, Shared m1 1 c k u)
  | ULeave => Some (Idle, ops, Shared 1 m2 c k u)
  end.

Inductive step : sys -> sys -> Prop :=
| step_thread i t s t' g' :
    ths s !! i = Some t -> thread_step t (sh s) = Some (t', g') ->
    step s (Sys g' (<[i := t']> (ths s))).

(** The state [csem_alloc] sets up, with threads that have the programs [progs]. *)
Definition init (n : Z) (progs : list (list op)) : sys :=
  Sys (Shared 1 (if n =? 0 then 0 else 1) n 0 0) (pair Idle <$> progs).

(** The execution in which the threads of a schedule step in turn. *)
Fixpoint run (sched : list nat) (s : sys) : option sys :=
  match sched with
  | [] => Some s
  | i :: sched' =>
      t ← ths s !! i; r ← thread_step t (sh s); run sched' (Sys (snd r) (<[i := fst r]> (ths s)))
  end.

Lemma run_steps sched s s' : run sched s = Some s' -> rtc step s s'.
Proof.
  revert s. induction sched as [|i sched IH]; intros s E; cbn in E; [injection E as ->; apply rtc_refl|].
  destruct (ths s !! i) as [t|] eqn:Ht; [|done]. cbn in E. destruct (thread_step t (sh s)) as [[t' g']|] eqn:Hs; [|done].
  eapply rtc_l; [by apply (step_thread i t)|by apply IH].
Qed.

(** ** The invariant *)

(** In the section that [bsem1] protects. *)
Definition inside (p : pc) : Z :=
  match p with
  | DLoad | DStore _ | DTest | DOpen | DLeave | ULoad | UStore _ | UTest | UOpen | ULeave => 1
  | _ => 0
  end.

(** The thread holds the gate, or is going to open it. *)
Definition gate (c : Z) (p : pc) : Z :=
  match p with
  | DMutex | DLoad | DStore _ | DTest | DOpen | UOpen => 1
  | UTest => if c =? 1 then 1 else 0
  | _ => 0
  end.

Definition at_test (p : pc) : Z := match p with DTest => 1 | _ => 0 end.

(** The value a thread loaded is the current one. *)
Definition fresh (c : Z) (p : pc) : Prop :=
  match p with DStore v | UStore v => v = c | DOpen => 0 < c | UOpen => c = 1 | _ => True end.

(** The calls of [csem_up] whose update is still to come. *)
Definition ups_op (o : op) : Z := match o with Up => 1 | Down => 0 end.
Definition ups (t : pc * list op) : Z :=
  match fst t with UMutex | ULoad | UStore _ => 1 | _ => 0 end + zsum ups_op (snd t).

Record inv (n total : Z) (s : sys) : Prop := {
  inv_mutex : b1 (sh s) + zsum (fun t => inside (fst t)) (ths s) = 1;
  inv_b1 : b1 (sh s) = 0 \/ b1 (sh s) = 1;
  inv_b2 : b2 (sh s) = 0 \/ b2 (sh s) = 1;
  inv_gate : b2 (sh s) + zsum (fun t => gate (cnt (sh s)) (fst t)) (ths s) =
    if (0 <? cnt (sh s)) || (0 <? zsum (fun t => at_test (fst t)) (ths s)) then 1 else 0;
  inv_fresh : forall i t, ths s !! i = Some t -> fresh (cnt (sh s)) (fst t);
  inv_count : 0 <= cnt (sh s) /\ cnt (sh s) = n - taken (sh s) + given (sh s);
  inv_taken : 0 <= taken (sh s);
  inv_ups : given (sh s) + zsum ups (ths s) = total
}.

Section Preservation.
Variables (n total : Z).
Hypothesis no_overflow : n + total < 2 ^ 31.

Lemma inside_range p : 0 <= inside p <= 1.
Proof. destruct p; cbn; lia. Qed.

Lemma gate_range c p : 0 <= gate c p <= 1.
Proof. destruct p; cbn; try lia. destruct (c =? 1); lia. Qed.

Lemma test_inside (t : pc * list op) : 0 <= inside (fst t) - at_test (fst t).
Proof. destruct t as [[] ?]; cbn; lia. Qed.

Lemma ups_nonneg t : 0 <= ups t.
Proof.
  destruct t as [p ops]. unfold ups. cbn [fst snd].
  assert (0 <= zsum ups_op ops) by (apply zsum_nonneg; intros []; cbn; lia). destruct p; lia.
Qed.

(** While a thread is inside, it is the only one. *)
Lemma alone s i t j t' :
  inv n total s -> ths s !! i = Some t -> inside (fst t) = 1 -> ths s !! j = Some t' -> j <> i ->
  inside (fst t') = 0.
Proof.
  intros Hi Ht Hin Ht' Hne. pose proof (inv_mutex _ _ _ Hi) as Hm. pose proof (inv_b1 _ _ _ Hi).
  pose proof (zsum_two (fun t => inside (fst t)) _ i j t t' (fun z => proj1 (inside_range (fst z))) Ht Ht'
    (not_eq_sym Hne)).
  pose proof (inside_range (fst t')). cbn in *. lia.
Qed.

(** The sum over the gate when the count changes from [c] to [c'] and nobody
    else is at the test of [csem_up]. *)
Lemma gate_move c c' (l : list (pc * list op)) i t t' :
  l !! i = Some t -> (forall j x, l !! j = Some x -> j <> i -> gate c' (fst x) = gate c (fst x)) ->
  zsum (fun x => gate c' (fst x)) (<[i := t']> l) =
  zsum (fun x => gate c (fst x)) l - gate c (fst t) + gate c' (fst t').
Proof.
  intros Ht Hs. rewrite <- (list_insert_insert_eq l i t' (Idle, [])).
  assert (Hi : <[i := (Idle, [])]> l !! i = Some (Idle, []))
    by (apply list_lookup_insert_eq; by apply lookup_lt_Some in Ht).
  rewrite (zsum_insert _ _ _ _ _ Hi). cbn [fst gate].
  rewrite (zsum_ext_at _ (fun x => gate c (fst x))).
  - rewrite (zsum_insert _ _ _ _ _ Ht). cbn [fst gate]. lia.
  - intros j x Hx. destruct (decide (j = i)) as [->|Hne].
    + rewrite Hi in Hx. by injection Hx as <-.
    + rewrite list_lookup_insert_ne in Hx by done. by apply (Hs j).
Qed.

Lemma gate_stable c c' p : inside p = 0 -> gate c' p = gate c p.
Proof. by destruct p. Qed.

(** How the sums of the invariant change in a step of the thread [i]. *)
Lemma step_inv s i t t' g' :
  inv n total s -> ths s !! i = Some t -> thread_step t (sh s) = Some (t', g') ->
  inv n total (Sys g' (<[i := t']> (ths s))).
Proof.
  intros Hi Ht Hstep. pose proof (inv_mutex _ _ _ Hi) as Hm. pose proof (inv_gate _ _ _ Hi) as Hg.
  pose proof (inv_b1 _ _ _ Hi) as H1. pose proof (inv_b2 _ _ _ Hi) as H2.
  pose proof (inv_fresh _ _ _ Hi i t Ht) as Hf. pose proof (inv_count _ _ _ Hi) as [Hc Hc'].
  pose proof (inv_ups _ _ _ Hi) as Hu. pose proof (inv_taken _ _ _ Hi) as Hk.
  pose proof (zsum_le (fun t => gate (cnt (sh s)) (fst t)) _ i t (fun z => proj1 (gate_range _ (fst z))) Ht) as Lg.
  pose proof (zsum_le ups _ i t ups_nonneg Ht) as Lu.
  assert (Lo : 0 <= zsum ups_op (snd t)) by (apply zsum_nonneg; intros []; cbn; lia).
  assert (LT : 0 <= zsum (fun t => at_test (fst t)) (ths s)) by (apply zsum_nonneg; intros [p ?]; destruct p; cbn; lia).
  pose proof (zsum_le (fun t => inside (fst t) - at_test (fst t)) _ i t test_inside Ht) as La.
  rewrite zsum_sub in La.
  assert (Hcs : forall c', inside (fst t) = 1 \/ c' = cnt (sh s) -> forall j x, ths s !! j = Some x -> j <> i ->
    gate c' (fst x) = gate (cnt (sh s)) (fst x)).
  { intros c' [Hin| ->] j x Hx Hne; [|done]. apply gate_stable. exact (alone s i t j x Hi Ht Hin Hx Hne). }
  assert (Hfr : forall c', inside (fst t) = 1 \/ c' = cnt (sh s) -> forall j x, ths s !! j = Some x -> j <> i ->
    fresh c' (fst x)).
  { intros c' Hor j x Hx Hne. pose proof (inv_fresh _ _ _ Hi j x Hx) as Hy. destruct Hor as [Hin| ->]; [|done].
    pose proof (alone s i t j x Hi Ht Hin Hx Hne) as H0. by destruct (fst x). }
  assert (Hor : inside (fst t) = 1 \/ cnt g' = cnt (sh s)).
  { destruct s as [[m1 m2 c k u] l], t as [[] [|[] ops]]; cbn in *; repeat case_match; simplify_eq; auto. }
  specialize (Hcs _ Hor). specialize (Hfr _ Hor). clear Hor Hi.
  assert (Hown : fresh (cnt g') (fst t') -> forall j x, <[i := t']> (ths s) !! j = Some x -> fresh (cnt g') (fst x)).
  { intros Ho j x Hx. destruct (decide (j = i)) as [->|Hne].
    - rewrite list_lookup_insert_eq in Hx by (by apply lookup_lt_Some in Ht). by injection Hx as <-.
    - rewrite list_lookup_insert_ne in Hx by done. by apply (Hfr j). }
  pose proof (gate_move _ _ _ _ _ t' Ht Hcs) as Hmove.
  pose proof (zsum_insert (fun t => inside (fst t)) _ _ _ t' Ht) as Hins.
  pose proof (zsum_insert (fun t => at_test (fst t)) _ _ _ t' Ht) as Htest.
  pose proof (zsum_insert ups _ _ _ t' Ht) as Hups.
  split; cbn [sh ths]; [rewrite Hins| | |rewrite Hmove, Htest|apply Hown| | |rewrite Hups];
    clear Hown Hmove Hins Htest Hups Hcs Hfr.
  all: destruct s as [[m1 m2 c k u] l], t as [p ops], p, ops as [|[] ops]; cbn in *;
    repeat case_match; simplify_eq; unfold ups in *; cbn in *; rewrite ?s32_small in * by lia;
    repeat (case_match; cbn in *); try lia.
Qed.

End Preservation.

(** ** Reachable states *)

Lemma csem_inv_init n progs :
  0 <= n -> inv n (zsum (zsum ups_op) progs) (init n progs).
Proof.
  intros Hn.
  assert (Hz : forall f : pc -> Z, f Idle = 0 -> zsum (fun t => f (fst t)) ((pair Idle <$> progs) : list (pc * list op)) = 0).
  { intros f Hf. apply zsum_zero. intros i x Hx. apply list_lookup_fmap_Some in Hx as (ops & -> & _). exact Hf. }
  split; cbn [init sh ths b1 b2 cnt taken given].
  - by rewrite Hz.
  - by right.
  - destruct (n =? 0); auto.
  - rewrite (Hz (gate n)), (Hz at_test) by done. destruct (Z.eqb_spec n 0), (Z.ltb_spec 0 n); cbn; lia.
  - intros i t Ht. apply list_lookup_fmap_Some in Ht as (ops & -> & _). done.
  - lia.
  - lia.
  - clear Hz. induction progs as [|x l IH]; [done|]. change (0 + (ups (Idle, x) + zsum ups (pair Idle <$> l)) =
      zsum ups_op x + zsum (zsum ups_op) l). rewrite <- IH. unfold ups at 1. cbn [fst snd]. lia.
Qed.

Lemma inv_reachable n progs s :
  0 <= n -> n + zsum (zsum ups_op) progs < 2 ^ 31 -> rtc step (init n progs) s ->
  inv n (zsum (zsum ups_op) progs) s.
Proof.
  intros Hn Hov Hr. pose proof (csem_inv_init n progs Hn) as Hi. induction Hr as [s|s s1 s2 Hs _ IH]; [done|].
  apply IH. destruct Hs as [i t s t' g' Ht Hstep]. by apply (step_inv _ _ Hov s i t).
Qed.

(** A thread that cannot move has finished or waits for a binary semaphore. *)
Lemma blocked t g :
  thread_step t g = None ->
  t = (Idle, []) \/ (fst t = DGate /\ b2 g = 0) \/ ((fst t = DMutex \/ fst t = UMutex) /\ b1 g = 0).
Proof.
  destruct t as [p ops], g as [m1 m2 c k u]. destruct p; cbn; try done.
  - destruct ops as [|[] ops]; [by left|done..].
  - destruct (Z.eqb_spec m2 0); [|done]. auto.
  - destruct (Z.eqb_spec m1 0); [|done]. auto.
  - destruct (Z.eqb_spec m1 0); [|done]. auto.
Qed.

(** ** Progress *)

(** The calls of [csem_down] whose update is still to come. *)
Definition downs_op (o : op) : Z := match o with Down => 1 | Up => 0 end.
Definition downs (t : pc * list op) : Z :=
  match fst t with DGate | DMutex | DLoad | DStore _ => 1 | _ => 0 end + zsum downs_op (snd t).

(** The atomic steps that are left to a thread, at most. *)
Definition pc_work (p : pc) : Z :=
  match p with
  | Idle => 0
  | DGate => 7 | DMutex | UMutex => 6 | DLoad | ULoad => 5 | DStore _ | UStore _ => 4
  | DTest | UTest => 3 | DOpen | UOpen => 2 | DLeave | ULeave => 1
  end.
Definition work (t : pc * list op) : Z := pc_work (fst t) + 8 * Z.of_nat (length (snd t)).

(** A program that gives its units before it takes any: a producer, a consumer,
    or a thread that first produces and then consumes. *)
Fixpoint ups_first (ops : list op) : bool :=
  match ops with
  | [] => true
  | Up :: ops' => ups_first ops'
  | Down :: ops' => forallb (fun o => match o with Down => true | Up => false end) ops'
  end.

(** What is left of such a program: no [csem_up] once [csem_down] was called. *)
Definition ordered (t : pc * list op) : Prop :=
  ups_first (snd t) = true /\
  match fst t with
  | DGate | DMutex | DLoad | DStore _ | DTest | DOpen | DLeave => zsum ups_op (snd t) = 0
  | _ => True
  end.

Lemma only_downs ops :
  forallb (fun o => match o with Down => true | Up => false end) ops = true ->
  zsum ups_op ops = 0 /\ ups_first ops = true.
Proof.
  induction ops as [|[] ops IH]; cbn; [done| |done]. intros H. destruct (IH H) as [-> _]. done.
Qed.

Lemma work_nonneg t : 0 <= work t.
Proof. destruct t as [[] ops]; unfold work; cbn; lia. Qed.

(** A step of a thread does some of its work, and keeps the balance of the calls
    of [csem_down] and the order of its program. *)
Lemma thread_step_progress t g t' g' :
  thread_step t g = Some (t', g') ->
  work t' + 1 <= work t /\ taken g' + downs t' = taken g + downs t /\ (ordered t -> ordered t').
Proof.
  destruct t as [p ops], g as [m1 m2 c k u]. unfold work, downs, ordered. intros E.
  destruct p; cbn in E; repeat case_match; simplify_eq; cbn;
    (split_and!; [lia|lia|]); intros [Hf Hz]; split; try done; cbn in *; by destruct (only_downs _ Hf).
Qed.

(** What [k] steps leave of the work, the balance of [csem_down] and the order. *)
Record progress (total_work total_downs : Z) (in_order : Prop) (k : nat) (s : sys) : Prop := {
  pr_work : Z.of_nat k + zsum work (ths s) <= total_work;
  pr_downs : taken (sh s) + zsum downs (ths s) = total_downs;
  pr_ordered : in_order -> Forall ordered (ths s)
}.

Lemma progress_steps w d (o : Prop) k s s' j :
  nsteps step j s s' -> progress w d o k s -> progress w d o (j + k) s'.
Proof.
  intros Hn. revert k. induction Hn as [s|j s s1 s2 Hs _ IH]; intros k [Hw Hd Ho]; [done|].
  replace (S j + k)%nat with (j + S k)%nat by lia. apply IH. destruct Hs as [i t s t' g' Ht E].
  destruct (thread_step_progress _ _ _ _ E) as (Hw' & Hd' & Ho').
  split; cbn [sh ths]; [rewrite (zsum_insert _ _ _ _ _ Ht); lia|rewrite (zsum_insert _ _ _ _ _ Ht); lia|].
  intros Hin. specialize (Ho Hin). apply Forall_insert; [done|]. apply Ho'.
  rewrite Forall_lookup in Ho. by apply (Ho i).
Qed.

Lemma progress_init n progs :
  progress (8 * zsum (fun ops => Z.of_nat (length ops)) progs) (zsum (zsum downs_op) progs)
    (Forall (fun ops => ups_first ops = true) progs) 0 (init n progs).
Proof.
  split; cbn [init sh ths taken].
  - induction progs as [|x l IH]; [done|]. cbn [fmap list_fmap zsum] in *. unfold work at 1. cbn [pc_work fst snd]. lia.
  - induction progs as [|x l IH]; [done|]. cbn [fmap list_fmap zsum] in *. unfold downs at 1. cbn [fst snd]. lia.
  - intros Hf. induction Hf; cbn; constructor; done.
Qed.

(** A state in which no thread can move: every thread has finished, or the count
    is 0 and it waits for a unit. *)
Lemma stuck_threads n total s :
  inv n total s -> (forall s', ~ step s s') ->
  forall i t, ths s !! i = Some t -> t = (Idle, []) \/ (fst t = DGate /\ cnt (sh s) = 0).
Proof.
  intros Hi Hstuck.
  assert (Hb : forall i t, ths s !! i = Some t -> thread_step t (sh s) = None).
  { intros i t Ht. destruct (thread_step t (sh s)) as [[t' g']|] eqn:E; [|done].
    destruct (Hstuck (Sys g' (<[i := t']> (ths s)))). by apply (step_thread i t). }
  assert (Hin : zsum (fun t => inside (fst t)) (ths s) = 0).
  { apply zsum_zero. intros i t Ht. destruct (blocked _ _ (Hb i t Ht)) as [->|[[-> _]|[[->| ->] _]]]; done. }
  pose proof (inv_mutex _ _ _ Hi) as Hm. rewrite Hin in Hm.
  assert (Hw : forall i t, ths s !! i = Some t -> t = (Idle, []) \/ (fst t = DGate /\ b2 (sh s) = 0)).
  { intros i t Ht. destruct (blocked _ _ (Hb i t Ht)) as [->|[?|[_ ?]]]; [by left|by right|lia]. }
  intros i t Ht. destruct (Hw i t Ht) as [?|[Hp H0]]; [by left|]. right. split; [done|].
  pose proof (inv_gate _ _ _ Hi) as Hg. rewrite H0 in Hg.
  rewrite zsum_zero in Hg by (intros k x Hx; by destruct (Hw k x Hx) as [->|[-> _]]).
  destruct (Z.ltb_spec 0 (cnt (sh s))); [done|]. pose proof (inv_count _ _ _ Hi). lia.
Qed.

(** Some thread can move or none can. *)
Lemma can_step s : (exists s', step s s') \/ forall s', ~ step s s'.
Proof.
  destruct (decide (Exists (fun t => thread_step t (sh s) <> None) (ths s))) as [He|He].
  - left. apply Exists_exists in He as (t & Hin & Hne). apply list_elem_of_lookup in Hin as [i Ht].
    destruct (thread_step t (sh s)) as [[t' g']|] eqn:E; [|done]. eexists. by apply (step_thread i t).
  - right. intros s' Hs. destruct Hs as [i t s t' g' Ht E]. apply He. apply Exists_exists.
    exists t. split; [by apply list_elem_of_lookup_2 in Ht|congruence].
Qed.

(** When the threads give their units first and there are enough of them, a
    state in which nothing moves has no thread left. *)
Lemma stuck_finished n total total_downs s :
  inv n total s -> taken (sh s) + zsum downs (ths s) = total_downs -> Forall ordered (ths s) ->
  total_downs <= n + total -> (forall s', ~ step s s') ->
  Forall (fun t => t = (Idle, [])) (ths s) /\ cnt (sh s) = n + total - total_downs.
Proof.
  intros Hi Hd Ho Hle Hstuck. pose proof (stuck_threads n total s Hi Hstuck) as Hst.
  rewrite Forall_lookup in Ho.
  assert (Hu : zsum ups (ths s) = 0).
  { apply zsum_zero. intros i t Ht. destruct (Hst i t Ht) as [->|[Hg _]]; [done|].
    destruct (Ho i t Ht) as [_ Hz]. unfold ups. rewrite Hg in *. cbn. lia. }
  pose proof (inv_ups _ _ _ Hi) as Hup. pose proof (inv_count _ _ _ Hi) as [_ Hc].
  assert (Hn : forall t, 0 <= downs t).
  { intros [p ops]. unfold downs. cbn [fst snd].
    assert (0 <= zsum downs_op ops) by (apply zsum_nonneg; intros []; cbn; lia). destruct p; lia. }
  assert (Hall : Forall (fun t => t = (Idle, [])) (ths s)).
  { rewrite Forall_lookup. intros i t Ht. destruct (Hst i t Ht) as [?|[Hg H0]]; [done|].
    pose proof (zsum_le downs _ i t Hn Ht) as L. destruct t as [p ops]. cbn in Hg. subst p.
    unfold downs at 1 in L. cbn [fst snd] in L.
    assert (0 <= zsum downs_op ops) by (apply zsum_nonneg; intros []; cbn; lia). lia. }
  split; [done|]. rewrite Forall_lookup in Hall.
  rewrite (zsum_zero downs) in Hd by (intros i t Ht; by rewrite (Hall i t Ht)). lia.
Qed.

(** C12: a counting semaphore counts.  In every state that threads calling
    [csem_down] and [csem_up] on one semaphore can reach, in whatever order they
    are scheduled, the count is the initial value minus the units taken plus the
    units given and is never negative, so that no more units are taken than were
    there; and no two threads are in the part of the code that updates it. *)
Theorem csem_counts (n : Z) (progs : list (list op)) (s : sys) :
  0 <= n -> n + zsum (zsum ups_op) progs < 2 ^ 31 -> rtc step (init n progs) s ->
  cnt (sh s) = n - taken (sh s) + given (sh s) /\ 0 <= taken (sh s) <= n + given (sh s) /\
  forall i j t t', ths s !! i = Some t -> ths s !! j = Some t' -> inside (fst t) = 1 -> inside (fst t') = 1 -> i = j.
Proof.
  intros Hn Hov Hr. pose proof (inv_reachable n progs s Hn Hov Hr) as Hi.
  pose proof (inv_count _ _ _ Hi) as [Hc Hc']. pose proof (inv_taken _ _ _ Hi).
  split_and!; [done|done|lia|]. intros i j t t' Ht Ht' Hin Hin'. destruct (decide (i = j)) as [|Hne]; [done|].
  pose proof (alone _ _ s i t j t' Hi Ht Hin Ht' (not_eq_sym Hne)). lia.
Qed.

(** C29: no deadlock and no livelock.  After [k] steps of threads that call
    [csem_down] and [csem_up] on one semaphore, [k] is at most eight times the
    number of their calls, so every execution ends.  A state in which no thread
    can step has only threads that have finished and threads that wait in
    [csem_down] while the count is 0: nobody is stuck while a unit is available
    or while the binary semaphores are in the wrong hands.  And when every thread
    gives its units before it takes any, and there are as many units as calls of
    [csem_down], then a state in which some thread has not finished always has a
    thread that can step, and in the end the count is what the calls leave. *)
Theorem csem_no_deadlock (n : Z) (progs : list (list op)) (k : nat) (s : sys) :
  0 <= n -> n + zsum (zsum ups_op) progs < 2 ^ 31 -> nsteps step k (init n progs) s ->
  Z.of_nat k <= 8 * zsum (fun ops => Z.of_nat (length ops)) progs /\
  ((forall s', ~ step s s') ->
     forall i t, ths s !! i = Some t -> t = (Idle, []) \/ (fst t = DGate /\ cnt (sh s) = 0)) /\
  (Forall (fun ops => ups_first ops = true) progs ->
   zsum (zsum downs_op) progs <= n + zsum (zsum ups_op) progs ->
   (exists s', step s s') \/
   (Forall (fun t => t = (Idle, [])) (ths s) /\
    cnt (sh s) = n + zsum (zsum ups_op) progs - zsum (zsum downs_op) progs)).
Proof.
  intros Hn Hov Hr. destruct (progress_steps _ _ _ 0 _ _ _ Hr (progress_init n progs)) as [Hw Hd Ho].
  rewrite Nat.add_0_r in Hw.
  pose proof (inv_reachable n progs s Hn Hov (rtc_nsteps_2 _ _ _ Hr)) as Hi.
  split_and!.
  - pose proof (zsum_nonneg work (ths s) work_nonneg). lia.
  - by apply (stuck_threads n (zsum (zsum ups_op) progs)).
  - intros Hf Hle. destruct (can_step s) as [?|Hst]; [by left|right].
    apply (stuck_finished n _ _ s Hi Hd (Ho Hf) Hle Hst).
Qed.

Lemma csem_counts_witness :
  cnt (sh (Sys (Shared 0 0 0 1 0) [(DTest, []); (Idle, [Up])])) = 1 - 1 + 0.
Proof.
  destruct (csem_counts 1 [[Down]; [Up]] (Sys (Shared 0 0 0 1 0) [(DTest, []); (Idle, [Up])])) as [Hc _];
    [lia|reflexivity| |exact Hc].
  apply (run_steps [0; 0; 0; 0; 0]%nat). reflexivity.
Defined.

(** A consumer that waits for the unit of a producer: the producer can step. *)
Lemma csem_no_deadlock_witness :
  exists s', step (Sys (Shared 1 0 0 0 0) [(DGate, []); (Idle, [Up])]) s'.
Proof.
  destruct (csem_no_deadlock 0 [[Down]; [Up]] 1 (Sys (Shared 1 0 0 0 0) [(DGate, []); (Idle, [Up])]))
    as (_ & _ & Hp); [lia|reflexivity| |].
  - eapply nsteps_l; [|apply nsteps_O]. by apply (step_thread 0 (Idle, [Down]) (init 0 [[Down]; [Up]])).
  - destruct Hp as [Hs|[Hall _]]; [by repeat constructor|cbn; lia|exact Hs|].
    apply Forall_cons in Hall as [? _]. discriminate.
Defined.

End Conc.
