(* ===== verification/FsState.v ===== *)
(** * The state of the file system and the devices

    The structures of kernel/sleeplock.h, buf.h, fs.h, file.h, log.c, pipe.c,
    console.c, uart.c and virtio.h as records, and [ext], the part of the
    kernel's global state that the layers above the process table own.  The
    devices themselves are not code of the repository: a device is reached
    through its registers, and the class [Devices] is the hardware that answers
    them. *)

From S2P Require Import Prelude Machine Memory State Spinlock.

(** The hardware behind the memory-mapped registers: what a load from an
    address gives, and what loads and stores make of the device. *)
Class Devices := {
  dev : Type;
  mmio_read : Z -> dev -> Z * dev;
  mmio_write : Z -> Z -> dev -> dev
}.

(** A machine without any device. *)
Definition no_devices : Devices := {|
  dev := unit; mmio_read := fun _ d => (0, d); mmio_write := fun _ _ d => d |}.

(** The types in [struct file]. *)
Inductive filetype := FD_NONE | FD_PIPE | FD_INODE | FD_DEVICE.

#[global] Instance filetype_eq_dec : EqDecision filetype.
Proof. solve_decision. Defined.

(** An entry of [devsw]: no functions, or those of the console. *)
Inductive devsw := NoDevice | ConsoleDevice.

(** The objects whose addresses the disk driver gives to the device: a request
    header, the data of a buffer, a status byte; or none. *)
Inductive dma := NoAddr | OpsAddr (i : Z) | DataAddr (b : nat) | StatusAddr (i : Z).

(** Constants of kernel/fs.h, virtio.h, pipe.c, console.c and uart.c. *)
Definition BSIZE : Z := 1024.
Definition ROOTINO : Z := 1.
Definition FSMAGIC : Z := 0x10203040.
Definition NDIRECT : Z := 12.
Definition NINDIRECT : Z := BSIZE / 4.
Definition MAXFILE : Z := NDIRECT + NINDIRECT.
Definition DIRSIZ : nat := 14.
Definition sizeof_dinode : Z := 64.
Definition sizeof_dirent : Z := 16.
Definition IPB : Z := BSIZE / sizeof_dinode.
Definition BPB : Z := BSIZE * 8.
Definition T_DIR : Z := 1.
Definition T_FILE : Z := 2.
Definition T_DEVICE : Z := 3.
Definition CONSOLE : Z := 1.
Definition PIPESIZE : Z := 512.
Definition INPUT_BUF : Z := 128.
Definition UART_TX_BUF_SIZE : Z := 32.
Definition NUM : nat := 8.

(** [struct sleeplock], without its spin lock and name. *)
Record sleeplock := SleepLock {
  sl_locked : Z;
  sl_pid : Z
}.

Definition set_sl_locked (v : Z) (x : sleeplock) : sleeplock :=
  SleepLock v (sl_pid x).
Definition set_sl_pid (v : Z) (x : sleeplock) : sleeplock :=
  SleepLock (sl_locked x) v.

(** [struct buf], without its lock; buffers are numbered, [NBUF] is [bcache.head]. *)
Record buf := Buf {
  b_valid : Z;
  b_disk : Z;
  b_dev : Z;
  b_blockno : Z;
  b_refcnt : Z;
  b_prev : nat;
  b_next : nat;
  b_data : list Z
}.

Definition set_b_valid (v : Z) (x : buf) : buf :=
  Buf v (b_disk x) (b_dev x) (b_blockno x) (b_refcnt x) (b_prev x) (b_next x) (b_data x).
Definition set_b_disk (v : Z) (x : buf) : buf :=
  Buf (b_valid x) v (b_dev x) (b_blockno x) (b_refcnt x) (b_prev x) (b_next x) (b_data x).
Definition set_b_dev (v : Z) (x : buf) : buf :=
  Buf (b_valid x) (b_disk x) v (b_blockno x) (b_refcnt x) (b_prev x) (b_next x) (b_data x).
Definition set_b_blockno (v : Z) (x : buf) : buf :=
  Buf (b_valid x) (b_disk x) (b_dev x) v (b_refcnt x) (b_prev x) (b_next x) (b_data x).
Definition set_b_refcnt (v : Z) (x : buf) : buf :=
  Buf (b_valid x) (b_disk x) (b_dev x) (b_blockno x) v (b_prev x) (b_next x) (b_data x).
Definition set_b_prev (v : nat) (x : buf) : buf :=
  Buf (b_valid x) (b_disk x) (b_dev x) (b_blockno x) (b_refcnt x) v (b_next x) (b_data x).
Definition set_b_next (v : nat) (x : buf) : buf :=
  Buf (b_valid x) (b_disk x) (b_dev x) (b_blockno x) (b_refcnt x) (b_prev x) v (b_data x).
Definition set_b_data (v : list Z) (x : buf) : buf :=
  Buf (b_valid x) (b_disk x) (b_dev x) (b_blockno x) (b_refcnt x) (b_prev x) (b_next x) v.

(** [struct superblock] *)
Record superblock := SuperBlock {
  sb_magic : Z;
  sb_size : Z;
  sb_nblocks : Z;
  sb_ninodes : Z;
  sb_nlog : Z;
  sb_logstart : Z;
  sb_inodestart : Z;
  sb_bmapstart : Z
}.

Definition set_sb_magic (v : Z) (x : superblock) : superblock :=
  SuperBlock v (sb_size x) (sb_nblocks x) (sb_ninodes x) (sb_nlog x) (sb_logstart x) (sb_inodestart x) (sb_bmapstart x).
Definition set_sb_size (v : Z) (x : superblock) : superblock :=
  SuperBlock (sb_magic x) v (sb_nblocks x) (sb_ninodes x) (sb_nlog x) (sb_logstart x) (sb_inodestart x) (sb_bmapstart x).
Definition set_sb_nblocks (v : Z) (x : superblock) : superblock :=
  SuperBlock (sb_magic x) (sb_size x) v (sb_ninodes x) (sb_nlog x) (sb_logstart x) (sb_inodestart x) (sb_bmapstart x).
Definition set_sb_ninodes (v : Z) (x : superblock) : superblock :=
  SuperBlock (sb_magic x) (sb_size x) (sb_nblocks x) v (sb_nlog x) (sb_logstart x) (sb_inodestart x) (sb_bmapstart x).
Definition set_sb_nlog (v : Z) (x : superblock) : superblock :=
  SuperBlock (sb_magic x) (sb_size x) (sb_nblocks x) (sb_ninodes x) v (sb_logstart x) (sb_inodestart x) (sb_bmapstart x).
Definition set_sb_logstart (v : Z) (x : superblock) : superblock :=
  SuperBlock (sb_magic x) (sb_size x) (sb_nblocks x) (sb_ninodes x) (sb_nlog x) v (sb_inodestart x) (sb_bmapstart x).
Definition set_sb_inodestart (v : Z) (x : superblock) : superblock :=
  SuperBlock (sb_magic x) (sb_size x) (sb_nblocks x) (sb_ninodes x) (sb_nlog x) (sb_logstart x) v (sb_bmapstart x).
Definition set_sb_bmapstart (v : Z) (x : superblock) : superblock :=
  SuperBlock (sb_magic x) (sb_size x) (sb_nblocks x) (sb_ninodes x) (sb_nlog x) (sb_logstart x) (sb_inodestart x) v.

(** [struct log], with the fields of its [struct logheader]; [lh_block] has [LOGSIZE] entries. *)
Record log := Log {
  log_start : Z;
  log_size : Z;
  log_outstanding : Z;
  log_committing : Z;
  log_dev : Z;
  lh_n : Z;
  lh_block : list Z
}.

Definition set_log_start (v : Z) (x : log) : log :=
  Log v (log_size x) (log_outstanding x) (log_committing x) (log_dev x) (lh_n x) (lh_block x).
Definition set_log_size (v : Z) (x : log) : log :=
  Log (log_start x) v (log_outstanding x) (log_committing x) (log_dev x) (lh_n x) (lh_block x).
Definition set_log_outstanding (v : Z) (x : log) : log :=
  Log (log_start x) (log_size x) v (log_committing x) (log_dev x) (lh_n x) (lh_block x).
Definition set_log_committing (v : Z) (x : log) : log :=
  Log (log_start x) (log_size x) (log_outstanding x) v (log_dev x) (lh_n x) (lh_block x).
Definition set_log_dev (v : Z) (x : log) : log :=
  Log (log_start x) (log_size x) (log_outstanding x) (log_committing x) v (lh_n x) (lh_block x).
Definition set_lh_n (v : Z) (x : log) : log :=
  Log (log_start x) (log_size x) (log_outstanding x) (log_committing x) (log_dev x) v (lh_block x).
Definition set_lh_block (v : list Z) (x : log) : log :=
  Log (log_start x) (log_size x) (log_outstanding x) (log_committing x) (log_dev x) (lh_n x) v.

(** [struct inode], without its lock. *)
Record inode := Inode {
  i_dev : Z;
  i_inum : Z;
  i_ref : Z;
  i_valid : Z;
  i_type : Z;
  i_major : Z;
  i_minor : Z;
  i_nlink : Z;
  i_size : Z;
  i_addrs : list Z
}.

Definition set_i_dev (v : Z) (x : inode) : inode :=
  Inode v (i_inum x) (i_ref x) (i_valid x) (i_type x) (i_major x) (i_minor x) (i_nlink x) (i_size x) (i_addrs x).
Definition set_i_inum (v : Z) (x : inode) : inode :=
  Inode (i_dev x) v (i_ref x) (i_valid x) (i_type x) (i_major x) (i_minor x) (i_nlink x) (i_size x) (i_addrs x).
Definition set_i_ref (v : Z) (x : inode) : inode :=
  Inode (i_dev x) (i_inum x) v (i_valid x) (i_type x) (i_major x) (i_minor x) (i_nlink x) (i_size x) (i_addrs x).
Definition set_i_valid (v : Z) (x : inode) : inode :=
  Inode (i_dev x) (i_inum x) (i_ref x) v (i_type x) (i_major x) (i_minor x) (i_nlink x) (i_size x) (i_addrs x).
Definition set_i_type (v : Z) (x : inode) : inode :=
  Inode (i_dev x) (i_inum x) (i_ref x) (i_valid x) v (i_major x) (i_minor x) (i_nlink x) (i_size x) (i_addrs x).
Definition set_i_major (v : Z) (x : inode) : inode :=
  Inode (i_dev x) (i_inum x) (i_ref x) (i_valid x) (i_type x) v (i_minor x) (i_nlink x) (i_size x) (i_addrs x).
Definition set_i_minor (v : Z) (x : inode) : inode :=
  Inode (i_dev x) (i_inum x) (i_ref x) (i_valid x) (i_type x) (i_major x) v (i_nlink x) (i_size x) (i_addrs x).
Definition set_i_nlink (v : Z) (x : inode) : inode :=
  Inode (i_dev x) (i_inum x) (i_ref x) (i_valid x) (i_type x) (i_major x) (i_minor x) v (i_size x) (i_addrs x).
Definition set_i_size (v : Z) (x : inode) : inode :=
  Inode (i_dev x) (i_inum x) (i_ref x) (i_valid x) (i_type x) (i_major x) (i_minor x) (i_nlink x) v (i_addrs x).
Definition set_i_addrs (v : list Z) (x : inode) : inode :=
  Inode (i_dev x) (i_inum x) (i_ref x) (i_valid x) (i_type x) (i_major x) (i_minor x) (i_nlink x) (i_size x) v.

(** [struct file]; the pipe is the address of its page, the inode its index. *)
Record file := File {
  f_type : filetype;
  f_ref : Z;
  f_readable : Z;
  f_writable : Z;
  f_pipe : Z;
  f_ip : option nat;
  f_off : Z;
  f_major : Z
}.

Definition set_f_type (v : filetype) (x : file) : file :=
  File v (f_ref x) (f_readable x) (f_writable x) (f_pipe x) (f_ip x) (f_off x) (f_major x).
Definition set_f_ref (v : Z) (x : file) : file :=
  File (f_type x) v (f_readable x) (f_writable x) (f_pipe x) (f_ip x) (f_off x) (f_major x).
Definition set_f_readable (v : Z) (x : file) : file :=
  File (f_type x) (f_ref x) v (f_writable x) (f_pipe x) (f_ip x) (f_off x) (f_major x).
Definition set_f_writable (v : Z) (x : file) : file :=
  File (f_type x) (f_ref x) (f_readable x) v (f_pipe x) (f_ip x) (f_off x) (f_major x).
Definition set_f_pipe (v : Z) (x : file) : file :=
  File (f_type x) (f_ref x) (f_readable x) (f_writable x) v (f_ip x) (f_off x) (f_major x).
Definition set_f_ip (v : option nat) (x : file) : file :=
  File (f_type x) (f_ref x) (f_readable x) (f_writable x) (f_pipe x) v (f_off x) (f_major x).
Definition set_f_off (v : Z) (x : file) : file :=
  File (f_type x) (f_ref x) (f_readable x) (f_writable x) (f_pipe x) (f_ip x) v (f_major x).
Definition set_f_major (v : Z) (x : file) : file :=
  File (f_type x) (f_ref x) (f_readable x) (f_writable x) (f_pipe x) (f_ip x) (f_off x) v.

(** [struct pipe], without its lock. *)
Record pipe := Pipe {
  pi_data : list Z;
  pi_nread : Z;
  pi_nwrite : Z;
  pi_readopen : Z;
  pi_writeopen : Z
}.

Definition set_pi_data (v : list Z) (x : pipe) : pipe :=
  Pipe v (pi_nread x) (pi_nwrite x) (pi_readopen x) (pi_writeopen x).
Definition set_pi_nread (v : Z) (x : pipe) : pipe :=
  Pipe (pi_data x) v (pi_nwrite x) (pi_readopen x) (pi_writeopen x).
Definition set_pi_nwrite (v : Z) (x : pipe) : pipe :=
  Pipe (pi_data x) (pi_nread x) v (pi_readopen x) (pi_writeopen x).
Definition set_pi_readopen (v : Z) (x : pipe) : pipe :=
  Pipe (pi_data x) (pi_nread x) (pi_nwrite x) v (pi_writeopen x).
Definition set_pi_writeopen (v : Z) (x : pipe) : pipe :=
  Pipe (pi_data x) (pi_nread x) (pi_nwrite x) (pi_readopen x) v.

(** The input buffer of the console. *)
Record console := Console {
  cons_buf : list Z;
  cons_r : Z;
  cons_w : Z;
  cons_e : Z
}.

Definition set_cons_buf (v : list Z) (x : console) : console :=
  Console v (cons_r x) (cons_w x) (cons_e x).
Definition set_cons_r (v : Z) (x : console) : console :=
  Console (cons_buf x) v (cons_w x) (cons_e x).
Definition set_cons_w (v : Z) (x : console) : console :=
  Console (cons_buf x) (cons_r x) v (cons_e x).
Definition set_cons_e (v : Z) (x : console) : console :=
  Console (cons_buf x) (cons_r x) (cons_w x) v.

(** The output buffer of the serial port. *)
Record uart := Uart {
  uart_tx_buf : list Z;
  uart_tx_w : Z;
  uart_tx_r : Z
}.

Definition set_uart_tx_buf (v : list Z) (x : uart) : uart :=
  Uart v (uart_tx_w x) (uart_tx_r x).
Definition set_uart_tx_w (v : Z) (x : uart) : uart :=
  Uart (uart_tx_buf x) v (uart_tx_r x).
Definition set_uart_tx_r (v : Z) (x : uart) : uart :=
  Uart (uart_tx_buf x) (uart_tx_w x) v.

(** [struct virtq_desc]; [vd_addr] says which object the address is of. *)
Record virtq_desc := VirtqDesc {
  vd_addr : dma;
  vd_len : Z;
  vd_flags : Z;
  vd_next : Z
}.

Definition set_vd_addr (v : dma) (x : virtq_desc) : virtq_desc :=
  VirtqDesc v (vd_len x) (vd_flags x) (vd_next x).
Definition set_vd_len (v : Z) (x : virtq_desc) : virtq_desc :=
  VirtqDesc (vd_addr x) v (vd_flags x) (vd_next x).
Definition set_vd_flags (v : Z) (x : virtq_desc) : virtq_desc :=
  VirtqDesc (vd_addr x) (vd_len x) v (vd_next x).
Definition set_vd_next (v : Z) (x : virtq_desc) : virtq_desc :=
  VirtqDesc (vd_addr x) (vd_len x) (vd_flags x) v.

(** [struct virtio_blk_req] *)
Record virtio_blk_req := BlkReq {
  req_type : Z;
  req_reserved : Z;
  req_sector : Z
}.

Definition set_req_type (v : Z) (x : virtio_blk_req) : virtio_blk_req :=
  BlkReq v (req_reserved x) (req_sector x).
Definition set_req_reserved (v : Z) (x : virtio_blk_req) : virtio_blk_req :=
  BlkReq (req_type x) v (req_sector x).
Definition set_req_sector (v : Z) (x : virtio_blk_req) : virtio_blk_req :=
  BlkReq (req_type x) (req_reserved x) v.

(** [struct disk]: the rings shared with the device and the driver's own book-keeping. *)
Record disk := Disk {
  d_desc : list virtq_desc;
  d_avail_idx : Z;
  d_avail_ring : list Z;
  d_used_dev_idx : Z;
  d_used_ring : list Z;
  d_free : list bool;
  d_used_idx : Z;
  d_info_b : list (option nat);
  d_info_status : list Z;
  d_ops : list virtio_blk_req
}.

Definition set_d_desc (v : list virtq_desc) (x : disk) : disk :=
  Disk v (d_avail_idx x) (d_avail_ring x) (d_used_dev_idx x) (d_used_ring x) (d_free x) (d_used_idx x) (d_info_b x) (d_info_status x) (d_ops x).
Definition set_d_avail_idx (v : Z) (x : disk) : disk :=
  Disk (d_desc x) v (d_avail_ring x) (d_used_dev_idx x) (d_used_ring x) (d_free x) (d_used_idx x) (d_info_b x) (d_info_status x) (d_ops x).
Definition set_d_avail_ring (v : list Z) (x : disk) : disk :=
  Disk (d_desc x) (d_avail_idx x) v (d_used_dev_idx x) (d_used_ring x) (d_free x) (d_used_idx x) (d_info_b x) (d_info_status x) (d_ops x).
Definition set_d_used_dev_idx (v : Z) (x : disk) : disk :=
  Disk (d_desc x) (d_avail_idx x) (d_avail_ring x) v (d_used_ring x) (d_free x) (d_used_idx x) (d_info_b x) (d_info_status x) (d_ops x).
Definition set_d_used_ring (v : list Z) (x : disk) : disk :=
  Disk (d_desc x) (d_avail_idx x) (d_avail_ring x) (d_used_dev_idx x) v (d_free x) (d_used_idx x) (d_info_b x) (d_info_status x) (d_ops x).
Definition set_d_free (v : list bool) (x : disk) : disk :=
  Disk (d_desc x) (d_avail_idx x) (d_avail_ring x) (d_used_dev_idx x) (d_used_ring x) v (d_used_idx x) (d_info_b x) (d_info_status x) (d_ops x).
Definition set_d_used_idx (v : Z) (x : disk) : disk :=
  Disk (d_desc x) (d_avail_idx x) (d_avail_ring x) (d_used_dev_idx x) (d_used_ring x) (d_free x) v (d_info_b x) (d_info_status x) (d_ops x).
Definition set_d_info_b (v : list (option nat)) (x : disk) : disk :=
  Disk (d_desc x) (d_avail_idx x) (d_avail_ring x) (d_used_dev_idx x) (d_used_ring x) (d_free x) (d_used_idx x) v (d_info_status x) (d_ops x).
Definition set_d_info_status (v : list Z) (x : disk) : disk :=
  Disk (d_desc x) (d_avail_idx x) (d_avail_ring x) (d_used_dev_idx x) (d_used_ring x) (d_free x) (d_used_idx x) (d_info_b x) v (d_ops x).
Definition set_d_ops (v : list virtio_blk_req) (x : disk) : disk :=
  Disk (d_desc x) (d_avail_idx x) (d_avail_ring x) (d_used_dev_idx x) (d_used_ring x) (d_free x) (d_used_idx x) (d_info_b x) (d_info_status x) v.

(** The global variables of the layers above the process table.  [e_sleep]
    holds the sleep locks of the buffers and, from [NBUF] on, of the inodes;
    [e_media] is the content of the disk by block number, [e_trace] the writes
    it has performed; [e_locking] is [pr.locking] of kernel/printf.c and
    [e_started] the flag of kernel/main.c. *)
Record ext `{Devices} := Ext {
  e_sleep : list sleeplock;
  e_bufs : list buf;
  e_sb : superblock;
  e_log : log;
  e_inodes : list inode;
  e_files : list file;
  e_pipes : gmap Z pipe;
  e_cons : console;
  e_uart : uart;
  e_vdisk : disk;
  e_panicked : bool;
  e_media : gmap Z (list Z);
  e_trace : list (Z * list Z);
  e_dev : dev;
  e_devsw : list devsw;
  e_locking : Z;
  e_started : Z
}.

Arguments Ext {_} _ _ _ _ _ _ _ _ _ _ _ _ _ _ _ _ _.

Definition set_e_sleep `{Devices} (v : list sleeplock) (x : ext) : ext :=
  Ext v (e_bufs x) (e_sb x) (e_log x) (e_inodes x) (e_files x) (e_pipes x) (e_cons x) (e_uart x) (e_vdisk x) (e_panicked x) (e_media x) (e_trace x) (e_dev x) (e_devsw x) (e_locking x) (e_started x).
Definition set_e_bufs `{Devices} (v : list buf) (x : ext) : ext :=
  Ext (e_sleep x) v (e_sb x) (e_log x) (e_inodes x) (e_files x) (e_pipes x) (e_cons x) (e_uart x) (e_vdisk x) (e_panicked x) (e_media x) (e_trace x) (e_dev x) (e_devsw x) (e_locking x) (e_started x).
Definition set_e_sb `{Devices} (v : superblock) (x : ext) : ext :=
  Ext (e_sleep x) (e_bufs x) v (e_log x) (e_inodes x) (e_files x) (e_pipes x) (e_cons x) (e_uart x) (e_vdisk x) (e_panicked x) (e_media x) (e_trace x) (e_dev x) (e_devsw x) (e_locking x) (e_started x).
Definition set_e_log `{Devices} (v : log) (x : ext) : ext :=
  Ext (e_sleep x) (e_bufs x) (e_sb x) v (e_inodes x) (e_files x) (e_pipes x) (e_cons x) (e_uart x) (e_vdisk x) (e_panicked x) (e_media x) (e_trace x) (e_dev x) (e_devsw x) (e_locking x) (e_started x).
Definition set_e_inodes `{Devices} (v : list inode) (x : ext) : ext :=
  Ext (e_sleep x) (e_bufs x) (e_sb x) (e_log x) v (e_files x) (e_pipes x) (e_cons x) (e_uart x) (e_vdisk x) (e_panicked x) (e_media x) (e_trace x) (e_dev x) (e_devsw x) (e_locking x) (e_started x).
Definition set_e_files `{Devices} (v : list file) (x : ext) : ext :=
  Ext (e_sleep x) (e_bufs x) (e_sb x) (e_log x) (e_inodes x) v (e_pipes x) (e_cons x) (e_uart x) (e_vdisk x) (e_panicked x) (e_media x) (e_trace x) (e_dev x) (e_devsw x) (e_locking x) (e_started x).
Definition set_e_pipes `{Devices} (v : gmap Z pipe) (x : ext) : ext :=
  Ext (e_sleep x) (e_bufs x) (e_sb x) (e_log x) (e_inodes x) (e_files x) v (e_cons x) (e_uart x) (e_vdisk x) (e_panicked x) (e_media x) (e_trace x) (e_dev x) (e_devsw x) (e_locking x) (e_started x).
Definition set_e_cons `{Devices} (v : console) (x : ext) : ext :=
  Ext (e_sleep x) (e_bufs x) (e_sb x) (e_log x) (e_inodes x) (e_files x) (e_pipes x) v (e_uart x) (e_vdisk x) (e_panicked x) (e_media x) (e_trace x) (e_dev x) (e_devsw x) (e_locking x) (e_started x).
Definition set_e_uart `{Devices} (v : uart) (x : ext) : ext :=
  Ext (e_sleep x) (e_bufs x) (e_sb x) (e_log x) (e_inodes x) (e_files x) (e_pipes x) (e_cons x) v (e_vdisk x) (e_panicked x) (e_media x) (e_trace x) (e_dev x) (e_devsw x) (e_locking x) (e_started x).
Definition set_e_vdisk `{Devices} (v : disk) (x : ext) : ext :=
  Ext (e_sleep x) (e_bufs x) (e_sb x) (e_log x) (e_inodes x) (e_files x) (e_pipes x) (e_cons x) (e_uart x) v (e_panicked x) (e_media x) (e_trace x) (e_dev x) (e_devsw x) (e_locking x) (e_started x).
Definition set_e_panicked `{Devices} (v : bool) (x : ext) : ext :=
  Ext (e_sleep x) (e_bufs x) (e_sb x) (e_log x) (e_inodes x) (e_files x) (e_pipes x) (e_cons x) (e_uart x) (e_vdisk x) v (e_media x) (e_trace x) (e_dev x) (e_devsw x) (e_locking x) (e_started x).
Definition set_e_media `{Devices} (v : gmap Z (list Z)) (x : ext) : ext :=
  Ext (e_sleep x) (e_bufs x) (e_sb x) (e_log x) (e_inodes x) (e_files x) (e_pipes x) (e_cons x) (e_uart x) (e_vdisk x) (e_panicked x) v (e_trace x) (e_dev x) (e_devsw x) (e_locking x) (e_started x).
Definition set_e_trace `{Devices} (v : list (Z * list Z)) (x : ext) : ext :=
  Ext (e_sleep x) (e_bufs x) (e_sb x) (e_log x) (e_inodes x) (e_files x) (e_pipes x) (e_cons x) (e_uart x) (e_vdisk x) (e_panicked x) (e_media x) v (e_dev x) (e_devsw x) (e_locking x) (e_started x).
Definition set_e_dev `{Devices} (v : dev) (x : ext) : ext :=
  Ext (e_sleep x) (e_bufs x) (e_sb x) (e_log x) (e_inodes x) (e_files x) (e_pipes x) (e_cons x) (e_uart x) (e_vdisk x) (e_panicked x) (e_media x) (e_trace x) v (e_devsw x) (e_locking x) (e_started x).
Definition set_e_devsw `{Devices} (v : list devsw) (x : ext) : ext :=
  Ext (e_sleep x) (e_bufs x) (e_sb x) (e_log x) (e_inodes x) (e_files x) (e_pipes x) (e_cons x) (e_uart x) (e_vdisk x) (e_panicked x) (e_media x) (e_trace x) (e_dev x) v (e_locking x) (e_started x).
Definition set_e_locking `{Devices} (v : Z) (x : ext) : ext :=
  Ext (e_sleep x) (e_bufs x) (e_sb x) (e_log x) (e_inodes x) (e_files x) (e_pipes x) (e_cons x) (e_uart x) (e_vdisk x) (e_panicked x) (e_media x) (e_trace x) (e_dev x) (e_devsw x) v (e_started x).
Definition set_e_started `{Devices} (v : Z) (x : ext) : ext :=
  Ext (e_sleep x) (e_bufs x) (e_sb x) (e_log x) (e_inodes x) (e_files x) (e_pipes x) (e_cons x) (e_uart x) (e_vdisk x) (e_panicked x) (e_media x) (e_trace x) (e_dev x) (e_devsw x) (e_locking x) v.

Section Access.
Context `{Devices}.

Definition get_ext {A} (f : ext -> A) : KM ext A := gets (fun s => f (k_ext s)).
Definition mod_ext (f : ext -> ext) : KM ext unit := modify (fun s => set_k_ext (f (k_ext s)) s).

(** A load from and a store to a device register. *)
Definition ReadReg (a : Z) : KM ext Z :=
  d ← get_ext e_dev; mod_ext (set_e_dev (snd (mmio_read a d)));; mret (fst (mmio_read a d)).

Definition WriteReg (a v : Z) : KM ext unit :=
  mod_ext (fun x => set_e_dev (mmio_write a v (e_dev x)) x).

Definition get_buf (b : nat) : KM ext buf := x ← get_ext (fun x => e_bufs x !! b); of_option x.
Definition mod_buf (b : nat) (f : buf -> buf) : KM ext unit :=
  mod_ext (fun x => set_e_bufs (alter f b (e_bufs x)) x).

Definition get_inode (i : nat) : KM ext inode := x ← get_ext (fun x => e_inodes x !! i); of_option x.
Definition mod_inode (i : nat) (f : inode -> inode) : KM ext unit :=
  mod_ext (fun x => set_e_inodes (alter f i (e_inodes x)) x).

Definition get_file (i : nat) : KM ext file := x ← get_ext (fun x => e_files x !! i); of_option x.
Definition mod_file (i : nat) (f : file -> file) : KM ext unit :=
  mod_ext (fun x => set_e_files (alter f i (e_files x)) x).

Definition mod_log (f : log -> log) : KM ext unit := mod_ext (fun x => set_e_log (f (e_log x)) x).

Definition get_pipe (pi : Z) : KM ext pipe := x ← get_ext (fun x => e_pipes x !! pi); of_option x.
Definition mod_pipe (pi : Z) (f : pipe -> pipe) : KM ext unit :=
  mod_ext (fun x => set_e_pipes (alter f pi (e_pipes x)) x).

End Access.

(** ** Initial values *)
Definition zero_buf : buf := Buf 0 0 0 0 0 0%nat 0%nat (replicate (Z.to_nat BSIZE) 0).
Definition zero_inode : inode := Inode 0 0 0 0 0 0 0 0 0 (replicate 13 0).
Definition zero_file : file := File FD_NONE 0 0 0 0 None 0 0.

(** Statically allocated data is zero. *)
Definition boot_ext `{Devices} (media : gmap Z (list Z)) (d : dev) : ext :=
  Ext (replicate (NBUF + NINODE) (SleepLock 0 0)) (replicate (S NBUF) zero_buf)
    (SuperBlock 0 0 0 0 0 0 0 0) (Log 0 0 0 0 0 0 (replicate (Z.to_nat LOGSIZE) 0))
    (replicate NINODE zero_inode) (replicate NFILE zero_file) ∅
    (Console (replicate (Z.to_nat INPUT_BUF) 0) 0 0 0) (Uart (replicate (Z.to_nat UART_TX_BUF_SIZE) 0) 0 0)
    (Disk (replicate NUM (VirtqDesc NoAddr 0 0 0)) 0 (replicate NUM 0) 0 (replicate NUM 0) (replicate NUM false) 0
       (replicate NUM None) (replicate NUM 0) (replicate NUM (BlkReq 0 0 0)))
    false media [] d (replicate (Z.to_nat NDEV) NoDevice) 0 0.
