(* ===== verification/Sleeplock.v ===== *)
(** * Sleep locks (kernel/sleeplock.c)

    Locks that may be held across a sleep, one for each buffer and each inode
    of the tables.  A loop that waits tests its condition at most [rounds]
    times. *)

From S2P Require Import Prelude Machine Memory State Spinlock Kalloc Vm Proc FsState.

Class Rounds := rounds : nat.

(** The numbers of the locks of a buffer and of an inode. *)
Definition buf_lock (b : nat) : nat := b.
Definition inode_lock (i : nat) : nat := NBUF + i.

Section Ops.
Context `{Devices} `{Rounds}.

Definition get_sleep (n : nat) : KM ext sleeplock := x ← get_ext (fun x => e_sleep x !! n); of_option x.
Definition mod_sleep (n : nat) (f : sleeplock -> sleeplock) : KM ext unit :=
  mod_ext (fun x => set_e_sleep (alter f n (e_sleep x)) x).

(** [myproc()->pid] *)
Definition mypid : KM ext Z := i ← curproc; p ← get_proc i; mret (p_pid p).

Definition initsleeplock (n : nat) : KM ext unit :=
  initlock (SleepLk n);;
  mod_sleep n (set_sl_locked 0);;
  mod_sleep n (set_sl_pid 0).

Definition acquiresleep (n : nat) : KM ext unit :=
  acquire (SleepLk n);;
  loop rounds
    (lk ← get_sleep n;
     if truthy (sl_locked lk) then sleep (ChSleep n) (SleepLk n);; mret None else mret (Some tt));;
  mod_sleep n (set_sl_locked 1);;
  pid ← mypid;
  mod_sleep n (set_sl_pid pid);;
  release (SleepLk n).

Definition releasesleep (n : nat) : KM ext unit :=
  acquire (SleepLk n);;
  mod_sleep n (set_sl_locked 0);;
  mod_sleep n (set_sl_pid 0);;
  wakeup (Some (ChSleep n));;
  release (SleepLk n).

Definition holdingsleep (n : nat) : KM ext bool :=
  acquire (SleepLk n);;
  lk ← get_sleep n;
  r ← (if truthy (sl_locked lk) then pid ← mypid; mret (sl_pid lk =? pid) else mret false);
  release (SleepLk n);;
  mret r.

End Ops.

(** ** Running without contention *)

(** The calling process [i] has the id [pid] and no spin lock is held. *)
Record fs_ready {X} (s : kstate X) (c : cpu) (i : nat) (pid : Z) : Prop := {
  fr_quiet : quiet s c;
  fr_locks : k_locks s = ∅;
  fr_table : table_ok (k_procs s);
  fr_cur : c_proc c = Some i;
  fr_proc : exists p, k_procs s !! i = Some p /\ p_pid p = pid
}.

(** At least one test of a waiting loop's condition is allowed. *)
Class RoundsOk `{Rounds} : Prop := rounds_pos : (0 < rounds)%nat.

(** [woken ch me s] is [s] after [wakeup ch] by the thread [me]. *)
Definition woken {X} (ch : option chan) (me : option (nat * nat)) (s : kstate X) : kstate X :=
  set_k_procs (imap (wake_proc ch me) (k_procs s)) s.

Definition with_ext {X} (f : X -> X) (s : kstate X) : kstate X := set_k_ext (f (k_ext s)) s.

(** The lock [n] becomes [lk]. *)
Definition set_sleep `{Devices} (n : nat) (lk : sleeplock) (x : ext) : ext := set_e_sleep (<[n := lk]> (e_sleep x)) x.

Section Run.
Context {X : Type}.
Implicit Types s : kstate X.

Lemma fs_ready_same s s' c i pid :
  hw_of s' = hw_of s -> k_procs s' = k_procs s -> fs_ready s c i pid -> fs_ready s' c i pid.
Proof.
  intros Hh Hp [Hq Hl Ht Hc Hpr]. split; rewrite ?Hp; [by apply (quiet_hw s)| |done..].
  injection Hh. congruence.
Qed.

Lemma fs_ready_ext s f c i pid : fs_ready s c i pid -> fs_ready (with_ext f s) c i pid.
Proof. by apply fs_ready_same. Qed.

Lemma fs_ready_woken s ch me c i pid : fs_ready s c i pid -> fs_ready (woken ch me s) c i pid.
Proof.
  intros [Hq Hl [Hlen Ht] Hc (p & Hp & Hpid)]. split; [by apply (quiet_hw s)|done| |done|].
  - split; [cbn; by rewrite length_imap|]. apply Forall_lookup. intros k q Hk. cbn in Hk.
    rewrite list_lookup_imap in Hk. destruct (k_procs s !! k) as [q'|] eqn:E; [|done]. injection Hk as <-.
    cbn. rewrite length_imap. rewrite Forall_lookup in Ht. by apply (Ht k).
  - exists (wake_proc ch me i p). cbn. by rewrite list_lookup_imap, Hp.
Qed.

Lemma fs_ready_acquire lk s c i pid :
  fs_ready s c i pid -> acquire lk s = Done tt (acquired lk s).
Proof. intros Hr. apply (acquire_run lk s c (fr_quiet _ _ _ _ Hr)). by rewrite (fr_locks _ _ _ _ Hr). Qed.

Lemma fs_ready_release lk s c i pid s' :
  fs_ready s c i pid -> hw_of s' = hw_of (acquired lk s) -> release lk s' = Done tt (with_hw s s').
Proof.
  intros Hr. apply (release_run lk s c s' (fr_quiet _ _ _ _ Hr)). by rewrite (fr_locks _ _ _ _ Hr).
Qed.

(** Inside one critical section the calling process is still known. *)
Lemma curproc_acquired lk s c i pid :
  fs_ready s c i pid -> curproc (acquired lk s) = Done i (acquired lk s).
Proof.
  intros Hr. apply (curproc_run _ (set_c_noff (c_noff c + 1) c)); [|apply Hr].
  apply quiet_acquired, Hr.
Qed.

Lemma wakeup_acquired ch lk s s' c i pid :
  fs_ready s c i pid -> (forall j, lk <> ProcLock j) -> hw_of s' = hw_of (acquired lk s) ->
  k_procs s' = k_procs s -> wakeup ch s' = Done tt (woken ch (c_thread c) s').
Proof.
  intros Hr Hlk Hh Hp. rewrite (wakeup_run ch s' (set_c_noff (c_noff c + 1) c)); [done|].
  split_and!.
  - apply (quiet_hw (acquired lk s)); [done|]. apply quiet_acquired, Hr.
  - intros j. injection Hh as _ _ _ ->. rewrite lookup_insert_ne by done.
    by rewrite (fr_locks _ _ _ _ Hr), lookup_empty.
  - rewrite Hp. apply Hr.
Qed.

End Run.

Section SleepRun.
Context `{Devices} `{RoundsOk}.
Implicit Types s : kstate ext.

Lemma get_sleep_run n s lk : e_sleep (k_ext s) !! n = Some lk -> get_sleep n s = Done lk s.
Proof. intros E. unfold get_sleep, get_ext. mrun. by rewrite E. Qed.

Lemma mypid_run lk s s' c i pid :
  fs_ready s c i pid -> hw_of s' = hw_of (acquired lk s) -> k_procs s' = k_procs s -> mypid s' = Done pid s'.
Proof.
  intros Hr Hh Hp. destruct (fr_proc _ _ _ _ Hr) as (p & Hpi & Hpid). unfold mypid.
  assert (Hc : curproc s' = Done i s').
  { apply (curproc_run _ (set_c_noff (c_noff c + 1) c)); [|apply Hr].
    apply (quiet_hw (acquired lk s)); [done|]. apply quiet_acquired, Hr. }
  mstep Hc. rewrite <- Hp in Hpi. mstep (get_proc_run i s' p Hpi). by rewrite Hpid.
Qed.

Lemma holdingsleep_run n s c i pid lk :
  fs_ready s c i pid -> e_sleep (k_ext s) !! n = Some lk ->
  holdingsleep n s = Done (truthy (sl_locked lk) && (sl_pid lk =? pid)) s.
Proof.
  intros Hr Hn. unfold holdingsleep. mstep (fs_ready_acquire (SleepLk n) s c i pid Hr).
  mstep (get_sleep_run n (acquired (SleepLk n) s) lk Hn).
  assert (Hrel : release (SleepLk n) (acquired (SleepLk n) s) = Done tt s).
  { rewrite (fs_ready_release (SleepLk n) s c i pid _ Hr) by done. by destruct s. }
  destruct (truthy (sl_locked lk)); cbn [andb].
  - assert (Hm : (pid0 ← mypid; mret (sl_pid lk =? pid0)) (acquired (SleepLk n) s) =
      Done (sl_pid lk =? pid) (acquired (SleepLk n) s)).
    { by mstep (mypid_run (SleepLk n) s _ c i pid Hr eq_refl eq_refl). }
    mstep Hm. by mstep Hrel.
  - rewrite bind_ret. by mstep Hrel.
Qed.

Lemma acquiresleep_run n s c i pid lk :
  fs_ready s c i pid -> e_sleep (k_ext s) !! n = Some lk -> sl_locked lk = 0 ->
  acquiresleep n s = Done tt (with_ext (set_sleep n (SleepLock 1 pid)) s).
Proof.
  intros Hr Hn Hz. unfold acquiresleep. mstep (fs_ready_acquire (SleepLk n) s c i pid Hr).
  set (s1 := acquired (SleepLk n) s). pose proof rounds_pos as Hp. destruct rounds as [|r]; [lia|].
  match goal with |- (loop ?k ?b ≫= _) _ = _ =>
    assert (Hl : loop k b s1 = Done tt s1) by (apply loop_found; mstep (get_sleep_run n s1 lk Hn); by rewrite Hz) end.
  mstep Hl. unfold mod_sleep, mod_ext. rewrite bind_modify. set (s2 := set_k_ext _ s1).
  mstep (mypid_run (SleepLk n) s s2 c i pid Hr eq_refl eq_refl). rewrite bind_modify.
  rewrite (fs_ready_release (SleepLk n) s c i pid _ Hr) by reflexivity.
  do 2 f_equal. unfold with_ext, set_sleep, s2, s1. destruct s; cbn in *. f_equal. f_equal.
  rewrite alter_alter, (alter_insert _ _ lk _ Hn). by destruct lk.
Qed.

Lemma releasesleep_run n s c i pid lk :
  fs_ready s c i pid -> e_sleep (k_ext s) !! n = Some lk ->
  releasesleep n s = Done tt (woken (Some (ChSleep n)) (c_thread c) (with_ext (set_sleep n (SleepLock 0 0)) s)).
Proof.
  intros Hr Hn. unfold releasesleep. mstep (fs_ready_acquire (SleepLk n) s c i pid Hr).
  unfold mod_sleep, mod_ext. rewrite !bind_modify. set (s1 := set_k_ext _ _).
  mstep (wakeup_acquired (Some (ChSleep n)) (SleepLk n) s s1 c i pid Hr ltac:(done) eq_refl eq_refl).
  rewrite (fs_ready_release (SleepLk n) s c i pid _ Hr) by reflexivity.
  do 2 f_equal. unfold woken, with_ext, set_sleep, s1. destruct s; cbn in *. f_equal. f_equal.
  rewrite alter_alter, (alter_insert _ _ lk _ Hn). by destruct lk.
Qed.

Lemma initlock_free {X} lk (s : kstate X) : k_locks s = ∅ -> initlock lk s = Done tt s.
Proof. intros E. unfold initlock, modify. rewrite E, delete_empty, <- E. by destruct s. Qed.

Lemma initsleeplock_free n s :
  k_locks s = ∅ -> e_sleep (k_ext s) !! n = Some (SleepLock 0 0) -> initsleeplock n s = Done tt s.
Proof.
  intros El Hn. unfold initsleeplock. mstep (initlock_free (SleepLk n) s El). unfold mod_sleep, mod_ext.
  rewrite bind_modify. unfold modify.
  assert (E : forall f, (forall lk, lk = SleepLock 0 0 -> f lk = lk) ->
    set_k_ext (set_e_sleep (alter f n (e_sleep (k_ext s))) (k_ext s)) s = s).
  { intros f Hf. rewrite (alter_same _ _ _ _ Hn (Hf _ eq_refl)). by destruct s as [? ? ? ? ? ? ? ? ? ? ? ? ? ? ? []]. }
  rewrite E by (by intros ? ->). by rewrite E by (by intros ? ->).
Qed.

End SleepRun.
