(* ===== verification/Bio.v ===== *)
(** * The buffer cache (kernel/bio.c)

    The buffers are numbered; [NBUF] stands for [bcache.head].  The least
    recently used order is the doubly linked list through [b_prev] and
    [b_next].  A transfer between a buffer and the disk is the operation
    [disk_rw] of the interface [DiskOps], which the driver implements. *)

From stdpp Require Import functions.
From S2P Require Import Prelude Machine Memory State Spinlock Kalloc Vm Proc FsState Sleeplock.

(** [disk_rw b write] transfers the block of buffer [b]. *)
Class DiskOps `{Devices} := { disk_rw : nat -> bool -> KM ext unit }.

(** [&bcache.head] *)
Definition head : nat := NBUF.

Section Ops.
Context `{Devices} `{Rounds} `{!DiskOps}.

(** [b->next = bcache.head.next; b->prev = &bcache.head] *)
Definition push_front (b : nat) : KM ext unit :=
  h ← get_buf head;
  mod_buf b (set_b_next (b_next h));;
  mod_buf b (set_b_prev head).

(** [bcache.head.next->prev = b; bcache.head.next = b] *)
Definition link_front (b : nat) : KM ext unit :=
  h ← get_buf head;
  mod_buf (b_next h) (set_b_prev b);;
  mod_buf head (set_b_next b).

Definition binit : KM ext unit :=
  initlock BcacheLock;;
  mod_buf head (set_b_prev head);;
  mod_buf head (set_b_next head);;
  for_each (seq 0 NBUF) (fun b =>
    push_front b;;
    initsleeplock (buf_lock b);;
    link_front b).

(** The loop of [bget] from [b] on for a buffer that holds the block. *)
Fixpoint find_cached (fuel : nat) (dev blockno : Z) (b : nat) : KM ext (option nat) :=
  match fuel with
  | O => no_fuel
  | S fuel' =>
      if Nat.eqb b head then mret None else
      x ← get_buf b;
      if (b_dev x =? dev) && (b_blockno x =? blockno) then mret (Some b)
      else find_cached fuel' dev blockno (b_next x)
  end.

(** The loop of [bget] from [b] on for an unused buffer. *)
Fixpoint find_free (fuel : nat) (b : nat) : KM ext (option nat) :=
  match fuel with
  | O => no_fuel
  | S fuel' =>
      if Nat.eqb b head then mret None else
      x ← get_buf b;
      if b_refcnt x =? 0 then mret (Some b) else find_free fuel' (b_prev x)
  end.

Definition bget (dev blockno : Z) : KM ext nat :=
  acquire BcacheLock;;
  h ← get_buf head;
  r ← find_cached (S NBUF) dev blockno (b_next h);
  match r with
  | Some b =>
      mod_buf b (fun x => set_b_refcnt (u32 (b_refcnt x + 1)) x);;
      release BcacheLock;;
      acquiresleep (buf_lock b);;
      mret b
  | None =>
      h ← get_buf head;
      r ← find_free (S NBUF) (b_prev h);
      match r with
      | Some b =>
          mod_buf b (set_b_dev dev);;
          mod_buf b (set_b_blockno blockno);;
          mod_buf b (set_b_valid 0);;
          mod_buf b (set_b_refcnt 1);;
          release BcacheLock;;
          acquiresleep (buf_lock b);;
          mret b
      | None => panic "bget: no buffers"
      end
  end.

Definition bread (dev blockno : Z) : KM ext nat :=
  b ← bget dev blockno;
  x ← get_buf b;
  when (negb (truthy (b_valid x))) (disk_rw b false;; mod_buf b (set_b_valid 1));;
  mret b.

Definition bwrite (b : nat) : KM ext unit :=
  h ← holdingsleep (buf_lock b);
  if negb h then panic "bwrite" else disk_rw b true.

Definition brelse (b : nat) : KM ext unit :=
  h ← holdingsleep (buf_lock b);
  if negb h then panic "brelse" else
  releasesleep (buf_lock b);;
  acquire BcacheLock;;
  mod_buf b (fun x => set_b_refcnt (u32 (b_refcnt x - 1)) x);;
  x ← get_buf b;
  when (b_refcnt x =? 0)
    (mod_buf (b_next x) (set_b_prev (b_prev x));;
     x ← get_buf b;
     mod_buf (b_prev x) (set_b_next (b_next x));;
     push_front b;;
     link_front b);;
  release BcacheLock.

Definition bpin (b : nat) : KM ext unit :=
  acquire BcacheLock;;
  mod_buf b (fun x => set_b_refcnt (u32 (b_refcnt x + 1)) x);;
  release BcacheLock.

Definition bunpin (b : nat) : KM ext unit :=
  acquire BcacheLock;;
  mod_buf b (fun x => set_b_refcnt (u32 (b_refcnt x - 1)) x);;
  release BcacheLock.

End Ops.

(** ** The list of buffers *)

(** Following [F] from [a] visits [l] and arrives at [z]. *)
Fixpoint chain (F : nat -> option nat) (a : nat) (l : list nat) (z : nat) : Prop :=
  match l with
  | [] => F a = Some z
  | b :: l' => F a = Some b /\ chain F b l' z
  end.

Lemma chain_app F l1 l2 a b z : chain F a (l1 ++ b :: l2) z <-> chain F a l1 b /\ chain F b l2 z.
Proof.
  revert a. induction l1 as [|x l1 IH]; intros a; cbn; [done|]. rewrite IH. tauto.
Qed.

Lemma chain_ext F G a l z : (forall x, x ∈ a :: l -> F x = G x) -> chain F a l z -> chain G a l z.
Proof.
  revert a. induction l as [|b l IH]; intros a E; cbn; rewrite <- E by left; [done|].
  intros [? Hc]. split; [done|]. apply IH; [|done]. intros x Hx. apply E. by right.
Qed.

(** [after l z] is where a chain through [l] to [z] goes first. *)
Definition after (l : list nat) (z : nat) : nat := match l with [] => z | b :: _ => b end.

Lemma chain_after F a l z : chain F a l z -> F a = Some (after l z).
Proof. destruct l; cbn; tauto. Qed.

Lemma last_cons (x a : nat) l : List.last (x :: l) a = List.last l x.
Proof. revert x a. induction l as [|y l IH]; intros x a; [done|]. cbn in *. destruct l; [done|]. apply IH. Qed.

Lemma last_in (a : nat) l : List.last l a ∈ a :: l.
Proof.
  revert a. induction l as [|x l IH]; intros a; [by left|]. rewrite last_cons. right. apply IH.
Qed.

(** Redirecting the last element of the first part to where the second part
    starts takes an element out. *)
Lemma chain_cut F G a l1 b l2 z :
  NoDup (a :: l1 ++ b :: l2) -> chain F a (l1 ++ b :: l2) z ->
  (forall x, G x = if decide (x = List.last l1 a) then Some (after l2 z) else F x) ->
  chain G a (l1 ++ l2) z.
Proof.
  revert a. induction l1 as [|x l1 IH]; intros a Hnd Hc HG; cbn [app chain] in *.
  - cbn in HG. destruct Hc as [Ha Hc]. apply NoDup_cons in Hnd as [Hn _].
    destruct l2 as [|c l2]; cbn [chain after] in *; rewrite HG, decide_True by done; [done|].
    split; [done|]. destruct Hc as [_ Hc]. apply (chain_ext F); [|done]. intros x Hx. rewrite HG, decide_False; [done|].
    intros ->. apply Hn. by right.
  - destruct Hc as [Ha Hc]. apply NoDup_cons in Hnd as [Hn Hnd]. split.
    + rewrite HG, decide_False; [done|]. intros E. apply Hn. rewrite E, last_cons, app_comm_cons.
      apply elem_of_app. left. apply last_in.
    + apply IH; [done|done|]. intros y. by rewrite HG, last_cons.
Qed.

Lemma chain_push F G a b l z :
  b ∉ a :: l -> a ∉ l -> chain F a l z ->
  (forall x, G x = if decide (x = b) then Some (after l z) else if decide (x = a) then Some b else F x) ->
  chain G a (b :: l) z.
Proof.
  intros Hb Ha Hc HG. cbn [chain]. split.
  - rewrite HG, decide_False, decide_True; [done..|]. intros ->. apply Hb. by left.
  - destruct l as [|c l]; cbn [chain after] in *; rewrite HG, decide_True by done; [done|]. split; [done|].
    destruct Hc as [_ Hc]. apply (chain_ext F); [|done]. intros x Hx. rewrite HG, !decide_False; [done|..]; intros ->.
    + by apply Ha.
    + apply Hb. by right.
Qed.

Lemma chain_snoc F G a b l z :
  b ∉ a :: l -> NoDup (a :: l) -> chain F a l z ->
  (forall x, G x = if decide (x = b) then Some z else if decide (x = List.last l a) then Some b else F x) ->
  chain G a (l ++ [b]) z.
Proof.
  revert a. induction l as [|c l IH]; intros a Hb Hnd Hc HG; cbn [chain app] in *.
  - split; rewrite HG; [|by rewrite decide_True]. rewrite decide_False, decide_True; [done..|].
    intros ->. apply Hb. by left.
  - destruct Hc as [Hac Hc]. apply NoDup_cons in Hnd as [Hn Hnd]. split.
    + rewrite HG, !decide_False; [done|..].
      * intros E. apply Hn. rewrite E, last_cons. apply last_in.
      * intros ->. apply Hb. by left.
    + apply IH; [|done|done|]; [by intros Hx; apply Hb; right|]. intros x. by rewrite HG, last_cons.
Qed.

Definition nextof (bufs : list buf) (b : nat) : option nat := b_next <$> bufs !! b.
Definition prevof (bufs : list buf) (b : nat) : option nat := b_prev <$> bufs !! b.

(** The buffers from most to least recently used are [l]. *)
Record lru (bufs : list buf) (l : list nat) : Prop := {
  lru_next : chain (nextof bufs) head l head;
  lru_prev : chain (prevof bufs) head (reverse l) head;
  lru_perm : l ≡ₚ seq 0 NBUF
}.

(** The part of a buffer that is not a link. *)
Definition payload (x : buf) : Z * Z * Z * Z * Z * list Z :=
  (b_valid x, b_disk x, b_dev x, b_blockno x, b_refcnt x, b_data x).

(** The links of [b] are changed so that it comes first. *)
Definition unlink (b : nat) (bufs : list buf) : list buf :=
  match bufs !! b with
  | None => bufs
  | Some x =>
      let bufs1 := alter (set_b_prev (b_prev x)) (b_next x) bufs in
      match bufs1 !! b with
      | None => bufs1
      | Some x => alter (set_b_next (b_next x)) (b_prev x) bufs1
      end
  end.

Definition pushed_front (b : nat) (bufs : list buf) : list buf :=
  match bufs !! head with
  | None => bufs
  | Some h => alter (set_b_prev head) b (alter (set_b_next (b_next h)) b bufs)
  end.

Definition linked_front (b : nat) (bufs : list buf) : list buf :=
  match bufs !! head with
  | None => bufs
  | Some h => alter (set_b_next b) head (alter (set_b_prev b) (b_next h) bufs)
  end.

Section Links.
Implicit Types bufs : list buf.

Lemma nextof_set v p bufs q :
  is_Some (bufs !! p) -> nextof (alter (set_b_next v) p bufs) q = if decide (q = p) then Some v else nextof bufs q.
Proof.
  intros [x Hx]. unfold nextof. destruct (decide (q = p)) as [->|Hne].
  - by rewrite list_lookup_alter_eq, Hx.
  - by rewrite list_lookup_alter_ne.
Qed.

Lemma prevof_set v p bufs q :
  is_Some (bufs !! p) -> prevof (alter (set_b_prev v) p bufs) q = if decide (q = p) then Some v else prevof bufs q.
Proof.
  intros [x Hx]. unfold prevof. destruct (decide (q = p)) as [->|Hne].
  - by rewrite list_lookup_alter_eq, Hx.
  - by rewrite list_lookup_alter_ne.
Qed.

Lemma alter_field {A} (g : buf -> A) f p bufs q :
  (forall x, g (f x) = g x) -> g <$> (alter f p bufs !! q) = g <$> bufs !! q.
Proof.
  intros Hg. destruct (decide (q = p)) as [->|Hne].
  - rewrite list_lookup_alter_eq. destruct (bufs !! p); cbn; [by rewrite Hg|done].
  - by rewrite list_lookup_alter_ne.
Qed.

Lemma lru_head bufs l : lru bufs l -> head ∉ l.
Proof. intros Hl. rewrite (lru_perm _ _ Hl), elem_of_seq. unfold head. lia. Qed.

Lemma lru_nodup bufs l : lru bufs l -> NoDup (head :: l).
Proof.
  intros Hl. apply NoDup_cons. split; [by apply (lru_head bufs)|]. rewrite (lru_perm _ _ Hl). apply NoDup_seq.
Qed.

Lemma lru_length bufs l : lru bufs l -> length l = NBUF.
Proof. intros Hl. by rewrite (lru_perm _ _ Hl), length_seq. Qed.

Lemma lru_in bufs l b : lru bufs l -> b ∈ l <-> (b < NBUF)%nat.
Proof. intros Hl. rewrite (lru_perm _ _ Hl), elem_of_seq. lia. Qed.

Lemma after_reverse l z : after (reverse l) z = List.last l z.
Proof.
  induction l as [|x l IH] using rev_ind; [done|]. by rewrite reverse_snoc, last_last.
Qed.

Lemma last_reverse l z : List.last (reverse l) z = after l z.
Proof. by rewrite <- after_reverse, reverse_involutive. Qed.

Lemma after_in l z : after l z ∈ z :: l.
Proof. destruct l; [by left|right; by left]. Qed.

(** Taking [b] out. *)
Lemma unlink_chain bufs l1 b l2 :
  length bufs = S NBUF -> lru bufs (l1 ++ b :: l2) ->
  let bufs' := unlink b bufs in
  chain (nextof bufs') head (l1 ++ l2) head /\ chain (prevof bufs') head (reverse (l1 ++ l2)) head /\
  length bufs' = S NBUF /\ forall q, payload <$> bufs' !! q = payload <$> bufs !! q.
Proof.
  intros Hlen Hl. pose proof (lru_nodup _ _ Hl) as Hnd. pose proof (lru_next _ _ Hl) as Hn.
  pose proof (lru_prev _ _ Hl) as Hp.
  assert (Hsome : forall q, q ∈ head :: l1 ++ b :: l2 -> is_Some (bufs !! q)).
  { intros q Hq. apply lookup_lt_is_Some_2. rewrite Hlen. apply elem_of_cons in Hq as [->|Hq]; [unfold head; lia|].
    apply (lru_in _ _ q Hl) in Hq. lia. }
  pose proof (proj2 (proj1 (chain_app _ _ _ _ _ _) Hn)) as Hnb. apply chain_after in Hnb.
  rewrite reverse_app, reverse_cons, <- app_assoc in Hp. cbn [app] in Hp.
  pose proof (proj2 (proj1 (chain_app _ _ _ _ _ _) Hp)) as Hpb. apply chain_after in Hpb.
  rewrite after_reverse in Hpb. unfold nextof, prevof in Hnb, Hpb.
  destruct (Hsome b) as [x Hx]; [right; apply elem_of_app; right; by left|]. rewrite Hx in Hnb, Hpb.
  injection Hnb as Hnb. injection Hpb as Hpb. unfold unlink. rewrite Hx, Hnb, Hpb.
  assert (Hne : after l2 head <> b).
  { intros E. rewrite <- E in Hnd. apply NoDup_cons in Hnd as [Hh Hnd]. apply NoDup_app in Hnd as (_ & _ & Hnd).
    apply NoDup_cons in Hnd as [Hb _]. pose proof (after_in l2 head) as Hi. apply elem_of_cons in Hi as [Hi|Hi]; [|done].
    apply Hh. apply elem_of_app. right. rewrite Hi. by left. }
  rewrite list_lookup_alter_ne by done. rewrite Hx, Hnb, Hpb.
  assert (Hin : is_Some (bufs !! after l2 head)).
  { apply Hsome. pose proof (after_in l2 head) as Hi. rewrite elem_of_cons in *. destruct Hi; [by left|right].
    apply elem_of_app. right. by right. }
  assert (Hip : is_Some (alter (set_b_prev (List.last l1 head)) (after l2 head) bufs !! List.last l1 head)).
  { apply lookup_lt_is_Some_2. rewrite length_alter. apply lookup_lt_is_Some_1, Hsome.
    pose proof (last_in head l1) as Hi. rewrite elem_of_cons in *. destruct Hi; [by left|right].
    apply elem_of_app. by left. }
  split_and!; [..|by rewrite !length_alter|].
  - apply (chain_cut (nextof bufs) _ head l1 b l2 head Hnd Hn). intros q. rewrite (nextof_set _ _ _ _ Hip).
    unfold nextof. by rewrite (alter_field b_next) by done.
  - rewrite reverse_app. apply (chain_cut (prevof bufs) _ head (reverse l2) b (reverse l1) head); [|done|].
    + assert (HP : head :: reverse l2 ++ b :: reverse l1 ≡ₚ head :: l1 ++ b :: l2).
      { rewrite !reverse_Permutation. constructor. rewrite Permutation_app_comm. cbn.
        by rewrite Permutation_middle. }
      by rewrite HP.
    + intros q. rewrite last_reverse, after_reverse.
      transitivity (prevof (alter (set_b_prev (List.last l1 head)) (after l2 head) bufs) q);
        [apply (alter_field b_prev); done|by apply prevof_set].
  - intros q. by rewrite !(alter_field payload) by done.
Qed.

(** Putting [b] in front. *)
Lemma front_chain bufs b l :
  length bufs = S NBUF -> NoDup (head :: b :: l) -> (forall q, q ∈ b :: l -> (q < NBUF)%nat) ->
  chain (nextof bufs) head l head -> chain (prevof bufs) head (reverse l) head ->
  let bufs' := linked_front b (pushed_front b bufs) in
  chain (nextof bufs') head (b :: l) head /\ chain (prevof bufs') head (reverse (b :: l)) head /\
  length bufs' = S NBUF /\ forall q, payload <$> bufs' !! q = payload <$> bufs !! q.
Proof.
  intros Hlen Hnd Hlt Hn Hp. apply NoDup_cons in Hnd as [Hh Hnd]. apply NoDup_cons in Hnd as [Hb Hnd].
  assert (Hbh : b <> head) by (specialize (Hlt b ltac:(by left)); unfold head; lia).
  assert (Hbl : b ∉ head :: l) by (rewrite elem_of_cons; tauto).
  destruct (lookup_lt_is_Some_2 bufs head) as [h Hhd]; [unfold head; lia|].
  assert (Hm : b_next h = after l head) by (apply chain_after in Hn; unfold nextof in Hn; rewrite Hhd in Hn; by injection Hn).
  unfold linked_front, pushed_front. rewrite Hhd, !list_lookup_alter_ne by done. rewrite Hhd, Hm.
  assert (Hml : (after l head < S NBUF)%nat).
  { pose proof (after_in l head) as Hi. apply elem_of_cons in Hi as [->|Hi]; [unfold head; lia|].
    specialize (Hlt (after l head) ltac:(by right)). lia. }
  assert (Hmb : after l head <> b) by (intros E; apply Hbl; rewrite <- E; apply after_in).
  split_and!; [..|by rewrite !length_alter|].
  - apply (chain_push (nextof bufs)); [done|by intros Hx; apply Hh; right|done|]. intros q.
    rewrite nextof_set by (apply lookup_lt_is_Some_2; rewrite !length_alter; unfold head; lia).
    transitivity (if decide (q = head) then Some b else nextof (alter (set_b_next (after l head)) b bufs) q).
    + destruct (decide (q = head)); [done|]. unfold nextof. by rewrite !(alter_field b_next) by done.
    + rewrite nextof_set by (apply lookup_lt_is_Some_2; specialize (Hlt b ltac:(by left)); lia).
      destruct (decide (q = head)), (decide (q = b)); congruence.
  - rewrite reverse_cons. apply (chain_snoc (prevof bufs)); [|..|done|].
    + rewrite elem_of_cons, elem_of_reverse. rewrite elem_of_cons in Hbl. tauto.
    + rewrite reverse_Permutation. apply NoDup_cons. split; [|done]. intros Hx. apply Hh. by right.
    + intros q. rewrite last_reverse.
      transitivity (prevof (alter (set_b_prev b) (after l head)
        (alter (set_b_prev head) b (alter (set_b_next (after l head)) b bufs))) q);
        [apply (alter_field b_prev); done|].
      rewrite prevof_set by (apply lookup_lt_is_Some_2; rewrite !length_alter; lia).
      rewrite prevof_set by (apply lookup_lt_is_Some_2; rewrite !length_alter; specialize (Hlt b ltac:(by left)); lia).
      assert (E : prevof (alter (set_b_next (after l head)) b bufs) q = prevof bufs q) by by apply (alter_field b_prev).
      rewrite E. destruct (decide (q = after l head)), (decide (q = b)); congruence.
  - intros q. by rewrite !(alter_field payload) by done.
Qed.

(** A released buffer becomes the most recently used one. *)
Lemma lru_move bufs l1 b l2 :
  length bufs = S NBUF -> lru bufs (l1 ++ b :: l2) ->
  let bufs' := linked_front b (pushed_front b (unlink b bufs)) in
  lru bufs' (b :: l1 ++ l2) /\ length bufs' = S NBUF /\ forall q, payload <$> bufs' !! q = payload <$> bufs !! q.
Proof.
  intros Hlen Hl. destruct (unlink_chain bufs l1 b l2 Hlen Hl) as (Hn & Hp & Hlen1 & Hpay1).
  assert (HP : b :: l1 ++ l2 ≡ₚ l1 ++ b :: l2) by apply Permutation_middle.
  destruct (front_chain (unlink b bufs) b (l1 ++ l2)) as (Hn2 & Hp2 & Hlen2 & Hpay2); [done|..|done|done|].
  - rewrite HP. by apply (lru_nodup bufs).
  - intros q Hq. rewrite HP in Hq. by apply (lru_in _ _ _ Hl).
  - split_and!; [|done|].
    + split; [done|done|]. rewrite HP. apply Hl.
    + intros q. by rewrite Hpay2, Hpay1.
Qed.

End Links.

(** ** What the disk promises *)

(** The content of block [n] on the disk. *)
Definition media `{Devices} (x : ext) (n : Z) : list Z := default (replicate (Z.to_nat BSIZE) 0) (e_media x !! n).

(** Everything the cache does not own. *)
Definition fs_frame `{Devices} (x x' : ext) : Prop :=
  e_sb x' = e_sb x /\ e_log x' = e_log x /\ e_inodes x' = e_inodes x /\ e_files x' = e_files x /\
  e_pipes x' = e_pipes x /\ e_cons x' = e_cons x /\ drop NBUF (e_sleep x') = drop NBUF (e_sleep x).

(** A transfer completes, moves the data of one block, and leaves the rest of
    the file system alone. *)
Class DiskOk `{DiskOps} : Prop := {
  disk_read : forall s c i pid b y, fs_ready s c i pid -> e_bufs (k_ext s) !! b = Some y ->
    exists s', disk_rw b false s = Done tt s' /\ fs_ready s' c i pid /\ fs_frame (k_ext s) (k_ext s') /\
      e_sleep (k_ext s') = e_sleep (k_ext s) /\
      e_bufs (k_ext s') = <[b := set_b_data (media (k_ext s) (b_blockno y)) y]> (e_bufs (k_ext s)) /\
      e_media (k_ext s') = e_media (k_ext s) /\ e_trace (k_ext s') = e_trace (k_ext s);
  disk_write : forall s c i pid b y, fs_ready s c i pid -> e_bufs (k_ext s) !! b = Some y ->
    exists s', disk_rw b true s = Done tt s' /\ fs_ready s' c i pid /\ fs_frame (k_ext s) (k_ext s') /\
      e_sleep (k_ext s') = e_sleep (k_ext s) /\ e_bufs (k_ext s') = e_bufs (k_ext s) /\
      e_media (k_ext s') = <[b_blockno y := b_data y]> (e_media (k_ext s)) /\
      e_trace (k_ext s') = e_trace (k_ext s) ++ [(b_blockno y, b_data y)]
}.

(** A disk that transfers at once. *)
#[global] Instance ideal_disk `{Devices} : DiskOps | 100 := {|
  disk_rw := fun b write =>
    y ← get_buf b;
    if write then
      mod_ext (fun x => set_e_media (<[b_blockno y := b_data y]> (e_media x)) x);;
      mod_ext (fun x => set_e_trace (e_trace x ++ [(b_blockno y, b_data y)]) x)
    else
      m ← get_ext (fun x => media x (b_blockno y));
      mod_buf b (set_b_data m) |}.

Lemma get_buf_run `{Devices} b s y : e_bufs (k_ext s) !! b = Some y -> get_buf b s = Done y s.
Proof. intros E. unfold get_buf, get_ext. mrun. by rewrite E. Qed.

Lemma mod_buf_run `{Devices} b f s y :
  e_bufs (k_ext s) !! b = Some y ->
  mod_buf b f s = Done tt (with_ext (fun x => set_e_bufs (<[b := f y]> (e_bufs x)) x) s).
Proof. intros E. unfold mod_buf, mod_ext, modify. by rewrite (alter_insert _ _ y _ E). Qed.

Lemma bind_mod_buf `{Devices} {A} b f (k : unit -> KM ext A) s :
  (mod_buf b f ≫= k) s = k tt (with_ext (fun x => set_e_bufs (alter f b (e_bufs x)) x) s).
Proof. done. Qed.

(** Two updates of one buffer are one. *)
Lemma mod_buf_twice `{Devices} {A} b f g (k : unit -> KM ext A) s :
  (mod_buf b f ≫= (fun _ => mod_buf b g ≫= k)) s = (mod_buf b (fun y => g (f y)) ≫= k) s.
Proof.
  unfold mod_buf, mod_ext. rewrite !bind_modify. f_equal. destruct s as [? ? ? ? ? ? ? ? ? ? ? ? ? ? ? x].
  unfold set_k_ext. cbn. f_equal. destruct x. unfold set_e_bufs. cbn. by rewrite alter_alter.
Qed.

#[global] Instance ideal_disk_ok `{Devices} : @DiskOk _ ideal_disk.
Proof.
  split; intros s c i pid b y Hr Hb; cbn [disk_rw ideal_disk].
  - eexists. split.
    { mstep (get_buf_run b s y Hb). unfold get_ext. rewrite bind_gets. exact (mod_buf_run b _ s y Hb). }
    split_and!; [by apply fs_ready_ext|done..].
  - eexists. split; [mstep (get_buf_run b s y Hb); reflexivity|].
    split_and!; [by apply (fs_ready_same s)|done..].
Qed.

(** ** The blocks behind the cache *)

(** Buffer [b] with content [y] is assigned to block [n] of device [dv]. *)
Definition buf_of `{Devices} (x : ext) (dv n : Z) (b : nat) (y : buf) : Prop :=
  (b < NBUF)%nat /\ e_bufs x !! b = Some y /\ b_dev y = dv /\ b_blockno y = n.

(** The cache behaves as a store of blocks: [V] is the content of each block
    seen through the cache, [R] its number of references, [L] the blocks whose
    buffers the process [pid] has locked. *)
Record cache `{Devices} (x : ext) (pid dv : Z) (V : Z -> list Z) (R : Z -> Z) (L : gset Z) : Prop := {
  ca_len : length (e_bufs x) = S NBUF;
  ca_sleep : length (e_sleep x) = (NBUF + NINODE)%nat;
  ca_lru : exists l, lru (e_bufs x) l;
  ca_uniq : forall n b b' y y', buf_of x dv n b y -> buf_of x dv n b' y' -> b = b';
  ca_buf : forall n b y, buf_of x dv n b y ->
    b_refcnt y = R n /\ (b_valid y <> 0 -> b_data y = V n) /\ (b_valid y = 0 -> V n = media x n /\ n ∉ L) /\
    e_sleep x !! b = Some (if decide (n ∈ L) then SleepLock 1 pid else SleepLock 0 0);
  ca_none : forall n, (forall b y, ~ buf_of x dv n b y) -> R n = 0 /\ V n = media x n /\ n ∉ L;
  ca_clean : forall n, R n = 0 -> V n = media x n /\ n ∉ L;
  ca_other : forall b y, (b < NBUF)%nat -> e_bufs x !! b = Some y -> b_dev y <> dv ->
    b_refcnt y = 0 /\ e_sleep x !! b = Some (SleepLock 0 0);
  ca_range : forall n, 0 <= R n
}.

(** There is room for one more block in use. *)
Definition room (R : Z -> Z) : Prop := exists pins : list Z, (forall n, 0 < R n -> n ∈ pins) /\ (length pins < NBUF)%nat.

Section Search.
Context `{Devices}.
Implicit Types s : kstate ext.

(** The test of a buffer number in the table. *)
Definition test (f : buf -> bool) (bufs : list buf) (b : nat) : bool :=
  match bufs !! b with Some y => f y | None => false end.

Lemma find_cached_run dv n s l : forall fuel b,
  (length l < fuel)%nat -> head ∉ l -> b = after l head ->
  (forall b0 l', l = b0 :: l' -> chain (nextof (e_bufs (k_ext s))) b0 l' head) ->
  find_cached fuel dv n b s =
  Done (find (test (fun y => (b_dev y =? dv) && (b_blockno y =? n)) (e_bufs (k_ext s))) l) s.
Proof.
  induction l as [|b0 l IH]; intros [|fuel] b Hf Hh -> Hc; try (cbn in Hf; lia); [done|].
  cbn [find_cached after]. rewrite (proj2 (Nat.eqb_neq b0 head)) by (intros ->; apply Hh; by left).
  specialize (Hc b0 l eq_refl). pose proof (chain_after _ _ _ _ Hc) as Ha. unfold nextof in Ha.
  destruct (e_bufs (k_ext s) !! b0) as [y|] eqn:Hy; [|done]. injection Ha as Ha.
  mstep (get_buf_run b0 s y Hy). cbn [find]. unfold test at 1. rewrite Hy.
  destruct ((b_dev y =? dv) && (b_blockno y =? n)); [done|]. apply IH; [cbn in Hf; lia| |done|].
  - intros Hx. apply Hh. by right.
  - intros b1 l' ->. by destruct Hc.
Qed.

Lemma find_free_run s l : forall fuel b,
  (length l < fuel)%nat -> head ∉ l -> b = after l head ->
  (forall b0 l', l = b0 :: l' -> chain (prevof (e_bufs (k_ext s))) b0 l' head) ->
  find_free fuel b s = Done (find (test (fun y => b_refcnt y =? 0) (e_bufs (k_ext s))) l) s.
Proof.
  induction l as [|b0 l IH]; intros [|fuel] b Hf Hh -> Hc; try (cbn in Hf; lia); [done|].
  cbn [find_free after]. rewrite (proj2 (Nat.eqb_neq b0 head)) by (intros ->; apply Hh; by left).
  specialize (Hc b0 l eq_refl). pose proof (chain_after _ _ _ _ Hc) as Ha. unfold prevof in Ha.
  destruct (e_bufs (k_ext s) !! b0) as [y|] eqn:Hy; [|done]. injection Ha as Ha.
  mstep (get_buf_run b0 s y Hy). cbn [find]. unfold test at 1. rewrite Hy.
  destruct (b_refcnt y =? 0); [done|]. apply IH; [cbn in Hf; lia| |done|].
  - intros Hx. apply Hh. by right.
  - intros b1 l' ->. by destruct Hc.
Qed.

End Search.

Section Bget.
Context `{Devices} `{RoundsOk}.
Implicit Types s : kstate ext.

(** [x] after buffer [b] has become [y] and its lock has been taken. *)
Definition taken (b : nat) (y : buf) (pid : Z) (x : ext) : ext :=
  set_sleep b (SleepLock 1 pid) (set_e_bufs (<[b := y]> (e_bufs x)) x).

(** The end of both branches of [bget]. *)
Lemma bget_finish b y y' s c i pid (f : buf -> buf) :
  fs_ready s c i pid -> e_bufs (k_ext s) !! b = Some y -> e_sleep (k_ext s) !! b = Some (SleepLock 0 0) ->
  (release BcacheLock;; acquiresleep (buf_lock b);; mret b)
    (with_ext (fun x => set_e_bufs (<[b := y']> (e_bufs x)) x) (acquired BcacheLock s)) =
  Done b (with_ext (taken b y' pid) s).
Proof.
  intros Hr Hb Hs. set (s1 := with_ext _ (acquired _ s)).
  assert (Hrel : release BcacheLock s1 = Done tt (with_ext (fun x => set_e_bufs (<[b := y']> (e_bufs x)) x) s)).
  { rewrite (fs_ready_release BcacheLock s c i pid s1 Hr) by reflexivity. by destruct s. }
  mstep Hrel. set (s2 := with_ext _ s).
  mstep (acquiresleep_run (buf_lock b) s2 c i pid (SleepLock 0 0) (fs_ready_ext s _ c i pid Hr) Hs eq_refl).
  reflexivity.
Qed.

Lemma lru_walk s l :
  lru (e_bufs (k_ext s)) l -> length (e_bufs (k_ext s)) = S NBUF ->
  exists h, e_bufs (k_ext s) !! head = Some h /\ b_next h = after l head /\ b_prev h = after (reverse l) head /\
    (forall b0 l', l = b0 :: l' -> chain (nextof (e_bufs (k_ext s))) b0 l' head) /\
    (forall b0 l', reverse l = b0 :: l' -> chain (prevof (e_bufs (k_ext s))) b0 l' head).
Proof.
  intros Hl Hlen. destruct (lookup_lt_is_Some_2 (e_bufs (k_ext s)) head) as [h Hh]; [unfold head; lia|].
  exists h. pose proof (lru_next _ _ Hl) as Hn. pose proof (lru_prev _ _ Hl) as Hp.
  split_and!; [done|..].
  - apply chain_after in Hn. unfold nextof in Hn. rewrite Hh in Hn. by injection Hn.
  - apply chain_after in Hp. unfold prevof in Hp. rewrite Hh in Hp. by injection Hp.
  - intros b0 l' ->. by destruct Hn.
  - intros b0 l' E. rewrite E in Hp. by destruct Hp.
Qed.

Lemma bget_hit dv n b y s c i pid V R L :
  fs_ready s c i pid -> cache (k_ext s) pid dv V R L -> buf_of (k_ext s) dv n b y -> n ∉ L ->
  bget dv n s = Done b (with_ext (taken b (set_b_refcnt (u32 (b_refcnt y + 1)) y) pid) s).
Proof.
  intros Hr Hc Hb Hn. destruct (ca_lru _ _ _ _ _ _ Hc) as [l Hl]. pose proof (ca_len _ _ _ _ _ _ Hc) as Hlen.
  destruct (lru_walk s l Hl Hlen) as (h & Hh & Hnx & _ & Hwalk & _).
  unfold bget. mstep (fs_ready_acquire BcacheLock s c i pid Hr). set (s1 := acquired BcacheLock s).
  mstep (get_buf_run head s1 h Hh).
  mstep (find_cached_run dv n s1 l (S NBUF) (b_next h) ltac:(rewrite (lru_length _ _ Hl); lia) (lru_head _ _ Hl) Hnx Hwalk).
  assert (Hfind : find (test (fun y => (b_dev y =? dv) && (b_blockno y =? n)) (e_bufs (k_ext s1))) l = Some b).
  { destruct (find _ l) as [b'|] eqn:E.
    - apply find_some in E as [Hin Ht]. apply list_elem_of_In in Hin. unfold test in Ht.
      destruct (e_bufs (k_ext s1) !! b') as [y'|] eqn:Hy'; [|done]. apply andb_prop in Ht as [H1' H2'].
      f_equal. apply (ca_uniq _ _ _ _ _ _ Hc n b' b y' y); [|done].
      split_and!; [by apply (lru_in _ _ _ Hl)|exact Hy'|lia|lia].
    - exfalso. destruct Hb as (Hlt & Hy & Hd & Hk).
      pose proof (find_none _ _ E b) as Hf. rewrite <- list_elem_of_In in Hf.
      specialize (Hf (proj2 (lru_in _ _ b Hl) Hlt)). unfold test in Hf. change (e_bufs (k_ext s1)) with (e_bufs (k_ext s)) in Hf.
      rewrite Hy, Hd, Hk, !Z.eqb_refl in Hf. done. }
  rewrite Hfind. destruct (ca_buf _ _ _ _ _ _ Hc n b y Hb) as (_ & _ & _ & Hs). rewrite decide_False in Hs by done.
  destruct Hb as (Hlt & Hy & _).
  mstep (mod_buf_run b (fun x => set_b_refcnt (u32 (b_refcnt x + 1)) x) s1 y Hy).
  exact (bget_finish b y (set_b_refcnt (u32 (b_refcnt y + 1)) y) s c i pid id Hr Hy Hs).
Qed.

(** Some buffer is unused. *)
Lemma free_exists x pid dv V R L l :
  cache x pid dv V R L -> lru (e_bufs x) l -> room R ->
  exists b y, find (test (fun y => b_refcnt y =? 0) (e_bufs x)) (reverse l) = Some b /\
    (b < NBUF)%nat /\ e_bufs x !! b = Some y /\ b_refcnt y = 0.
Proof.
  intros Hc Hl (pins & Hpins & Hlt). destruct (find _ (reverse l)) as [b|] eqn:E.
  - apply find_some in E as [Hin Ht]. apply list_elem_of_In in Hin. rewrite elem_of_reverse in Hin. unfold test in Ht.
    destruct (e_bufs x !! b) as [y|] eqn:Hy; [|done]. exists b, y.
    split_and!; [done|by apply (lru_in _ _ _ Hl)|done|lia].
  - exfalso. set (blk := fun b => match e_bufs x !! b with Some y => b_blockno y | None => 0 end).
    assert (Hall : forall b, (b < NBUF)%nat -> exists y, buf_of x dv (blk b) b y /\ b_refcnt y <> 0).
    { intros b Hb. destruct (lookup_lt_is_Some_2 (e_bufs x) b) as [y Hy]; [rewrite (ca_len _ _ _ _ _ _ Hc); lia|].
      pose proof (find_none _ _ E b) as Hf. rewrite <- list_elem_of_In, elem_of_reverse in Hf.
      specialize (Hf (proj2 (lru_in _ _ b Hl) Hb)). unfold test in Hf. rewrite Hy in Hf.
      exists y. assert (b_refcnt y <> 0) by lia. split; [|done]. unfold buf_of, blk. rewrite Hy.
      split_and!; [done|done| |done]. destruct (decide (b_dev y = dv)) as [|Hd]; [done|].
      by destruct (ca_other _ _ _ _ _ _ Hc b y Hb Hy Hd). }
    assert (Hsub : blk <$> seq 0 NBUF ⊆+ pins).
    { apply NoDup_submseteq.
      - apply NoDup_fmap_2_strong; [|apply NoDup_seq]. intros b b' Hb Hb' Hbb.
        apply elem_of_seq in Hb, Hb'. destruct (Hall b ltac:(lia)) as (y & Hy & _), (Hall b' ltac:(lia)) as (y' & Hy' & _).
        rewrite <- Hbb in Hy'. exact (ca_uniq _ _ _ _ _ _ Hc _ _ _ _ _ Hy Hy').
      - intros m Hm. apply list_elem_of_fmap in Hm as (b & -> & Hb). apply elem_of_seq in Hb.
        destruct (Hall b ltac:(lia)) as (y & Hy & Hne). apply Hpins.
        destruct (ca_buf _ _ _ _ _ _ Hc _ b y Hy) as [Hrc _]. pose proof (ca_range _ _ _ _ _ _ Hc (blk b)). lia. }
    apply submseteq_length in Hsub. rewrite length_fmap, length_seq in Hsub. lia.
Qed.

(** The buffer that [bget] recycles for block [n]. *)
Definition recycled (dv n : Z) (y : buf) : buf := set_b_refcnt 1 (set_b_valid 0 (set_b_blockno n (set_b_dev dv y))).

Lemma bget_miss dv n s c i pid V R L :
  fs_ready s c i pid -> cache (k_ext s) pid dv V R L -> (forall b y, ~ buf_of (k_ext s) dv n b y) -> room R ->
  exists b y, bget dv n s = Done b (with_ext (taken b (recycled dv n y) pid) s) /\
    (b < NBUF)%nat /\ e_bufs (k_ext s) !! b = Some y /\ b_refcnt y = 0 /\
    e_sleep (k_ext s) !! b = Some (SleepLock 0 0).
Proof.
  intros Hr Hc Hnone Hroom. destruct (ca_lru _ _ _ _ _ _ Hc) as [l Hl]. pose proof (ca_len _ _ _ _ _ _ Hc) as Hlen.
  destruct (lru_walk s l Hl Hlen) as (h & Hh & Hnx & Hpv & Hwalk & Hback).
  destruct (free_exists _ _ _ _ _ _ l Hc Hl Hroom) as (b & y & Hfree & Hlt & Hy & Hz).
  assert (Hs : e_sleep (k_ext s) !! b = Some (SleepLock 0 0)).
  { destruct (decide (b_dev y = dv)) as [Hd|Hd]; [|by apply (ca_other _ _ _ _ _ _ Hc b y)].
    destruct (ca_buf _ _ _ _ _ _ Hc (b_blockno y) b y) as (Hrc & _ & _ & Hsl); [by split_and!|].
    rewrite decide_False in Hsl; [done|]. apply (ca_clean _ _ _ _ _ _ Hc). congruence. }
  exists b, y. split_and!; [|done..]. unfold bget. mstep (fs_ready_acquire BcacheLock s c i pid Hr).
  set (s1 := acquired BcacheLock s). mstep (get_buf_run head s1 h Hh).
  mstep (find_cached_run dv n s1 l (S NBUF) (b_next h) ltac:(rewrite (lru_length _ _ Hl); lia) (lru_head _ _ Hl) Hnx Hwalk).
  destruct (find _ l) as [b'|] eqn:E.
  { exfalso. apply find_some in E as [Hin Ht]. apply list_elem_of_In in Hin. unfold test in Ht.
    destruct (e_bufs (k_ext s1) !! b') as [y'|] eqn:Hy'; [|done]. apply andb_prop in Ht as [H1' H2'].
    apply (Hnone b' y'). split_and!; [by apply (lru_in _ _ _ Hl)|exact Hy'|lia|lia]. }
  mstep (get_buf_run head s1 h Hh).
  mstep (find_free_run s1 (reverse l) (S NBUF) (b_prev h) ltac:(rewrite length_reverse, (lru_length _ _ Hl); lia)
    ltac:(rewrite elem_of_reverse; exact (lru_head _ _ Hl)) Hpv Hback).
  change (e_bufs (k_ext s1)) with (e_bufs (k_ext s)). rewrite Hfree.
  rewrite !mod_buf_twice. mstep (mod_buf_run b (fun x => set_b_refcnt 1 (set_b_valid 0 (set_b_blockno n (set_b_dev dv x)))) s1 y Hy).
  exact (bget_finish b y (recycled dv n y) s c i pid id Hr Hy Hs).
Qed.

End Bget.

Section Bread.
Context `{Devices} `{RoundsOk} `{!DiskOps} `{!DiskOk}.
Implicit Types (s : kstate ext) (x : ext).

(** Two buffers with the same links. *)
Definition same_links (y y' : buf) : Prop := b_prev y' = b_prev y /\ b_next y' = b_next y.

Lemma lru_insert bufs l b y y' :
  lru bufs l -> bufs !! b = Some y -> same_links y y' -> lru (<[b := y']> bufs) l.
Proof.
  intros [Hn Hp Hperm] Hy [H1' H2']. split; [..|done].
  - apply (chain_ext (nextof bufs)); [|done]. intros q _. unfold nextof. destruct (decide (q = b)) as [->|Hne].
    + rewrite Hy, list_lookup_insert_eq by (by apply lookup_lt_Some in Hy). cbn. by rewrite H2'.
    + by rewrite list_lookup_insert_ne.
  - apply (chain_ext (prevof bufs)); [|done]. intros q _. unfold prevof. destruct (decide (q = b)) as [->|Hne].
    + rewrite Hy, list_lookup_insert_eq by (by apply lookup_lt_Some in Hy). cbn. by rewrite H1'.
    + by rewrite list_lookup_insert_ne.
Qed.

Lemma buf_of_insert x x' dv b y y' n' b' z :
  e_bufs x !! b = Some y -> e_bufs x' = <[b := y']> (e_bufs x) ->
  buf_of x' dv n' b' z <->
  (b' = b /\ (b < NBUF)%nat /\ z = y' /\ b_dev y' = dv /\ b_blockno y' = n') \/ (b' <> b /\ buf_of x dv n' b' z).
Proof.
  intros Hy E. unfold buf_of. rewrite E. destruct (decide (b' = b)) as [->|Hne].
  - rewrite list_lookup_insert_eq by (by apply lookup_lt_Some in Hy). split.
    + intros (? & [= <-] & ? & ?). left. by split_and!.
    + intros [(_ & ? & -> & ? & ?)|[? _]]; [by split_and!|done].
  - rewrite list_lookup_insert_ne by done. split; [intros ?; by right|]. intros [(? & _)|[_ ?]]; done.
Qed.

(** Buffer [b], which held block [n] already or held nothing that counts, now
    holds [n] for one more user, who has locked it. *)
Lemma cache_take x x' pid dv V R L n b y y' :
  cache x pid dv V R L -> n ∉ L -> (b < NBUF)%nat -> e_bufs x !! b = Some y ->
  buf_of x dv n b y \/ ((forall b y, ~ buf_of x dv n b y) /\ b_refcnt y = 0) ->
  same_links y y' -> b_dev y' = dv -> b_blockno y' = n -> b_refcnt y' = R n + 1 -> b_valid y' <> 0 -> b_data y' = V n ->
  e_bufs x' = <[b := y']> (e_bufs x) -> e_sleep x' = <[b := SleepLock 1 pid]> (e_sleep x) -> e_media x' = e_media x ->
  cache x' pid dv V (<[n := R n + 1]> R) ({[n]} ∪ L) /\ buf_of x' dv n b y'.
Proof.
  intros Hc HnL Hb Hy Hcase Hlk Hd Hk Hrf Hv Hdata Eb Es Em.
  assert (Hm : forall m, media x' m = media x m) by (intros m; unfold media; by rewrite Em).
  assert (Hnew : buf_of x' dv n b y') by (apply (buf_of_insert x x' dv b y y' n b y' Hy Eb); left; by split_and!).
  assert (Hold : forall n' b' z, b' <> b -> buf_of x dv n' b' z -> n' <> n).
  { intros n' b' z Hne Hz ->. destruct Hcase as [Hh|[Hh _]]; [|by apply (Hh b' z)].
    apply Hne. exact (ca_uniq _ _ _ _ _ _ Hc _ _ _ _ _ Hz Hh). }
  split; [|done]. split.
  - rewrite Eb, length_insert. apply Hc.
  - rewrite Es, length_insert. apply Hc.
  - destruct (ca_lru _ _ _ _ _ _ Hc) as [l Hl]. exists l. rewrite Eb. by apply (lru_insert _ _ _ y).
  - intros n' b1 b2 z1 z2 H1' H2'. apply (buf_of_insert x x' dv b y y' _ _ _ Hy Eb) in H1', H2'.
    destruct H1' as [(-> & _ & _ & _ & Hn1)|[Hn1 H1']], H2' as [(-> & _ & _ & _ & Hn2)|[Hn2 H2']].
    + done.
    + destruct (Hold n' b2 z2 Hn2 H2'). congruence.
    + destruct (Hold n' b1 z1 Hn1 H1'). congruence.
    + exact (ca_uniq _ _ _ _ _ _ Hc _ _ _ _ _ H1' H2').
  - intros n' b' z Hz. apply (buf_of_insert x x' dv b y y' _ _ _ Hy Eb) in Hz. rewrite Es.
    destruct Hz as [(-> & _ & -> & _ & Hn')|[Hne Hz]].
    + rewrite Hk in Hn'. subst n'. rewrite list_lookup_insert_eq by (rewrite (ca_sleep _ _ _ _ _ _ Hc); lia).
      rewrite fn_lookup_insert, decide_True by set_solver. by split_and!.
    + pose proof (Hold n' b' z Hne Hz) as Hnn. rewrite list_lookup_insert_ne by done.
      rewrite fn_lookup_insert_ne by done. destruct (ca_buf _ _ _ _ _ _ Hc n' b' z Hz) as (H1' & H2' & H3' & H4').
      rewrite Hm. split_and!; [done|done| |].
      * intros Hz0. destruct (H3' Hz0). set_solver.
      * rewrite H4'. destruct (decide (n' ∈ L)) as [Hi|Hi]; [rewrite decide_True by set_solver; done|].
        rewrite decide_False; [done|]. set_solver.
  - intros n' Hnone. assert (Hnn : n' <> n) by (intros ->; by apply (Hnone b y')). rewrite fn_lookup_insert_ne, Hm by done.
    assert (Hn' : R n' = 0 /\ V n' = media x n' /\ n' ∉ L).
    { destruct (decide (b_dev y = dv /\ b_blockno y = n')) as [[Hyd Hyn]|Hyn].
      - assert (Hyb : buf_of x dv n' b y) by by split_and!.
        destruct Hcase as [(_ & _ & _ & Hk')|[_ Hz]]; [congruence|].
        destruct (ca_buf _ _ _ _ _ _ Hc n' b y Hyb) as [Hrc _]. split; [congruence|]. apply (ca_clean _ _ _ _ _ _ Hc). congruence.
      - apply (ca_none _ _ _ _ _ _ Hc). intros b' z Hz. destruct (decide (b' = b)) as [->|Hne].
        + destruct Hz as (_ & Hz & Hz1 & Hz2). rewrite Hy in Hz. injection Hz as <-. by apply Hyn.
        + apply (Hnone b' z). apply (buf_of_insert x x' dv b y y' _ _ _ Hy Eb). by right. }
    destruct Hn' as (H1' & H2' & H3'). split_and!; [done|done|set_solver].
  - intros n' Hz. destruct (decide (n' = n)) as [->|Hnn].
    + rewrite fn_lookup_insert in Hz. pose proof (ca_range _ _ _ _ _ _ Hc n). lia.
    + rewrite fn_lookup_insert_ne in Hz by done. destruct (ca_clean _ _ _ _ _ _ Hc n' Hz). rewrite Hm. set_solver.
  - intros b' z Hb' Hz Hzd. rewrite Eb in Hz. destruct (decide (b' = b)) as [->|Hne].
    + rewrite list_lookup_insert_eq in Hz by (by apply lookup_lt_Some in Hy). congruence.
    + rewrite list_lookup_insert_ne in Hz by done. rewrite Es, list_lookup_insert_ne by done.
      by apply (ca_other _ _ _ _ _ _ Hc b' z).
  - intros n'. pose proof (ca_range _ _ _ _ _ _ Hc n). destruct (decide (n' = n)) as [->|Hnn].
    + rewrite fn_lookup_insert. lia.
    + rewrite fn_lookup_insert_ne by done. apply Hc.
Qed.

(** A block has a buffer or not. *)
Lemma buf_of_dec x dv n : (exists b y, buf_of x dv n b y) \/ forall b y, ~ buf_of x dv n b y.
Proof.
  destruct (decide (Exists (fun b => test (fun y => (b_dev y =? dv) && (b_blockno y =? n)) (e_bufs x) b = true)
                      (seq 0 NBUF))) as [He|He].
  - apply Exists_exists in He as (b & Hb & Ht). apply elem_of_seq in Hb. unfold test in Ht.
    destruct (e_bufs x !! b) as [y|] eqn:Hy; [|done]. apply andb_prop in Ht as [? ?].
    left. exists b, y. split_and!; [lia|done|lia|lia].
  - right. intros b y (Hb & Hy & Hd & Hk). apply He. apply Exists_exists. exists b. split; [apply elem_of_seq; lia|].
    unfold test. by rewrite Hy, Hd, Hk, !Z.eqb_refl.
Qed.

(** Two states between which only the cache has worked. *)
Definition cache_step s s' : Prop :=
  fs_frame (k_ext s) (k_ext s') /\ e_media (k_ext s') = e_media (k_ext s) /\ e_trace (k_ext s') = e_trace (k_ext s).

Lemma fs_frame_trans x1 x2 x3 : fs_frame x1 x2 -> fs_frame x2 x3 -> fs_frame x1 x3.
Proof. unfold fs_frame. intros (? & ? & ? & ? & ? & ? & ?) (? & ? & ? & ? & ? & ? & ?). split_and!; congruence. Qed.

Lemma drop_insert_sleep b lk x : (b < NBUF)%nat -> drop NBUF (<[b := lk]> (e_sleep x)) = drop NBUF (e_sleep x).
Proof.
  intros Hb. apply list_eq. intros k. rewrite !lookup_drop, list_lookup_insert_ne by lia. done.
Qed.

(** A held block is in a valid buffer. *)
Lemma cache_held x pid dv V R L n b y :
  cache x pid dv V R L -> n ∈ L -> buf_of x dv n b y ->
  b_valid y <> 0 /\ b_data y = V n /\ 0 < R n /\ e_sleep x !! b = Some (SleepLock 1 pid) /\ b_refcnt y = R n.
Proof.
  intros Hc HL Hb. destruct (ca_buf _ _ _ _ _ _ Hc n b y Hb) as (Hrc & Hv & Hv0 & Hs). rewrite decide_True in Hs by done.
  assert (Hne : b_valid y <> 0) by (intros Hz; by destruct (Hv0 Hz)).
  split_and!; [done|by apply Hv| |done|done]. pose proof (ca_range _ _ _ _ _ _ Hc n).
  destruct (decide (R n = 0)) as [Hz|]; [|lia]. by destruct (ca_clean _ _ _ _ _ _ Hc n Hz).
Qed.

(** [bread] gives the locked buffer of the block, with its content. *)
Lemma bread_spec dv n s c i pid V R L :
  fs_ready s c i pid -> cache (k_ext s) pid dv V R L -> n ∉ L -> (R n = 0 -> room R) -> R n + 1 < 2 ^ 32 ->
  exists b y s', bread dv n s = Done b s' /\ fs_ready s' c i pid /\ cache_step s s' /\
    cache (k_ext s') pid dv V (<[n := R n + 1]> R) ({[n]} ∪ L) /\ buf_of (k_ext s') dv n b y /\ b_data y = V n /\
    (forall n' b' y', n' ∈ L -> buf_of (k_ext s) dv n' b' y' -> buf_of (k_ext s') dv n' b' y').
Proof.
  intros Hr Hc HnL Hroom Hov.
  assert (Hg : exists b y y1, bget dv n s = Done b (with_ext (taken b y1 pid) s) /\ (b < NBUF)%nat /\
    e_bufs (k_ext s) !! b = Some y /\ same_links y y1 /\ b_dev y1 = dv /\ b_blockno y1 = n /\ b_refcnt y1 = R n + 1 /\
    (buf_of (k_ext s) dv n b y \/ ((forall b y, ~ buf_of (k_ext s) dv n b y) /\ b_refcnt y = 0)) /\
    (b_valid y1 <> 0 -> b_data y1 = V n) /\ (b_valid y1 = 0 -> V n = media (k_ext s) n)).
  { assert (Hdec : (exists b y, buf_of (k_ext s) dv n b y) \/ forall b y, ~ buf_of (k_ext s) dv n b y) by apply buf_of_dec.
    destruct Hdec as [(b & y & Hb)|Hnone].
    - destruct (ca_buf _ _ _ _ _ _ Hc n b y Hb) as (Hrc & Hv & Hv0 & _). pose proof (ca_range _ _ _ _ _ _ Hc n).
      exists b, y, (set_b_refcnt (u32 (b_refcnt y + 1)) y). split; [by apply (bget_hit dv n b y s c i pid V R L)|].
      pose proof Hb as (Hlt & Hy & Hd & Hk).
      split_and!; try done; [cbn; rewrite Hrc, u32_small by lia; done|by left|by intros ?; apply Hv0].
    - destruct (ca_none _ _ _ _ _ _ Hc n Hnone) as (HR & HV & _).
      destruct (bget_miss dv n s c i pid V R L Hr Hc Hnone (Hroom HR)) as (b & y & Hrun & Hlt & Hy & Hz & _). exists b, y, (recycled dv n y).
      split_and!; try done; [cbn; lia|by right]. }
  destruct Hg as (b & y & y1 & Hrun & Hlt & Hy & Hlk & Hd & Hk & Hrf & Hcase & Hv & Hv0).
  assert (Hkeep : forall x' y', e_bufs x' = <[b := y']> (e_bufs (k_ext s)) ->
    forall n' b' z, n' ∈ L -> buf_of (k_ext s) dv n' b' z -> buf_of x' dv n' b' z).
  { intros x' y' E n' b' z HnL' Hz. apply (buf_of_insert (k_ext s) x' dv b y y' n' b' z Hy E). right. split; [|done].
    intros ->. pose proof (cache_held _ _ _ _ _ _ n' b z Hc HnL' Hz) as (_ & _ & HR & _ & Hrz).
    destruct Hz as (_ & Hz & _ & Hzk). rewrite Hy in Hz. injection Hz as <-.
    destruct Hcase as [(_ & _ & _ & Hyk)|[_ Hz]]; [|lia]. rewrite Hyk in Hzk. by subst. }
  unfold bread. mstep Hrun. set (s1 := with_ext (taken b y1 pid) s).
  assert (Hy1 : e_bufs (k_ext s1) !! b = Some y1)
    by (cbn; apply list_lookup_insert_eq; by apply lookup_lt_Some in Hy).
  mstep (get_buf_run b s1 y1 Hy1). pose proof (fs_ready_ext s (taken b y1 pid) c i pid Hr) as Hr1. fold s1 in Hr1.
  assert (Hfr1 : fs_frame (k_ext s) (k_ext s1)) by (split_and!; try done; exact (drop_insert_sleep b _ (k_ext s) Hlt)).
  destruct (truthy (b_valid y1)) eqn:Ev; cbn [negb]; [rewrite when_false|rewrite when_true].
  - assert (Hne : b_valid y1 <> 0) by (unfold truthy in Ev; lia). rewrite bind_ret.
    destruct (cache_take (k_ext s) (k_ext s1) pid dv V R L n b y y1) as [Hc' Hb']; auto.
    exists b, y1, s1. split_and!; try done; [by apply Hv|]. by apply (Hkeep _ y1).
  - assert (Hz : b_valid y1 = 0) by (unfold truthy in Ev; lia).
    destruct (disk_read s1 c i pid b y1 Hr1 Hy1) as (s2 & Hrd & Hr2 & Hfr2 & Es & Eb & Em & Et).
    rewrite Hk in Eb. set (y2 := set_b_data (media (k_ext s1) n) y1) in *.
    assert (Hy2 : e_bufs (k_ext s2) !! b = Some y2)
      by (rewrite Eb; apply list_lookup_insert_eq; by apply lookup_lt_Some in Hy1).
    assert (Hm : (disk_rw b false;; mod_buf b (set_b_valid 1)) s1 =
      Done tt (with_ext (fun x => set_e_bufs (<[b := set_b_valid 1 y2]> (e_bufs x)) x) s2)).
    { mstep Hrd. exact (mod_buf_run b (set_b_valid 1) s2 y2 Hy2). }
    mstep Hm. set (s3 := with_ext _ s2).
    assert (Eb3 : e_bufs (k_ext s3) = <[b := set_b_valid 1 y2]> (e_bufs (k_ext s))).
    { cbn. rewrite Eb. cbn. by rewrite !list_insert_insert_eq. }
    destruct (cache_take (k_ext s) (k_ext s3) pid dv V R L n b y (set_b_valid 1 y2)) as [Hc' Hb']; auto.
    + cbn. rewrite Hv0 by done. unfold media. done.
    + exists b, (set_b_valid 1 y2), s3. split_and!; try done; [by apply fs_ready_ext|..].
      * split_and!; [exact (fs_frame_trans _ _ _ Hfr1 Hfr2)|exact Em|exact Et].
      * cbn. rewrite Hv0 by done. done.
      * by apply (Hkeep _ (set_b_valid 1 y2)).
Qed.

Lemma lock_equiv pid n (L L' : gset Z) :
  (n ∈ L <-> n ∈ L') ->
  Some (if decide (n ∈ L) then SleepLock 1 pid else SleepLock 0 0) =
  Some (if decide (n ∈ L') then SleepLock 1 pid else SleepLock 0 0).
Proof. intros E. destruct (decide (n ∈ L)), (decide (n ∈ L')); try done; exfalso; naive_solver. Qed.

(** The relation looks at the functions and the set pointwise. *)
Lemma cache_equiv x pid dv V V' R R' L L' :
  (forall n, V n = V' n) -> (forall n, R n = R' n) -> (forall n, n ∈ L <-> n ∈ L') ->
  cache x pid dv V R L -> cache x pid dv V' R' L'.
Proof.
  intros EV ER EL [? ? ? ? Hb Hn Hc ? ?]. split; try done.
  - intros n b y Hy. rewrite <- EV, <- ER. destruct (Hb n b y Hy) as (? & ? & H0' & ->).
    split_and!; [done|done|rewrite <- EL; done|by rewrite (lock_equiv pid n L L')].
  - intros n. rewrite <- EV, <- ER, <- EL. apply Hn.
  - intros n. rewrite <- EV, <- ER, <- EL. apply Hc.
  - intros n. by rewrite <- ER.
Qed.

(** Buffer [b] of the block [n] is changed in place. *)
Lemma cache_change x x' pid dv V V' R R' L L' n b y y' :
  cache x pid dv V R L -> buf_of x dv n b y -> same_links y y' ->
  b_dev y' = dv -> b_blockno y' = n -> e_bufs x' = <[b := y']> (e_bufs x) -> length (e_sleep x') = length (e_sleep x) ->
  (forall k, k <> b -> e_sleep x' !! k = e_sleep x !! k) -> (forall m, m <> n -> media x' m = media x m) ->
  (forall m, m <> n -> V' m = V m /\ R' m = R m /\ (m ∈ L' <-> m ∈ L)) ->
  b_refcnt y' = R' n -> 0 <= R' n -> (b_valid y' <> 0 -> b_data y' = V' n) ->
  (b_valid y' = 0 -> V' n = media x' n /\ n ∉ L') -> (R' n = 0 -> V' n = media x' n /\ n ∉ L') ->
  e_sleep x' !! b = Some (if decide (n ∈ L') then SleepLock 1 pid else SleepLock 0 0) ->
  cache x' pid dv V' R' L'.
Proof.
  intros Hc Hb Hlk Hd Hk Eb El Es Em HVR Hrf Hrg Hv Hv0 Hcl Hsl. pose proof Hb as (Hlt & Hy & Hyd & Hyk).
  assert (Hof : forall n' b' z, buf_of x' dv n' b' z <->
    (b' = b /\ z = y' /\ n' = n) \/ (b' <> b /\ n' <> n /\ buf_of x dv n' b' z)).
  { intros n' b' z. rewrite (buf_of_insert x x' dv b y y' n' b' z Hy Eb). split.
    - intros [(-> & _ & -> & _ & <-)|[Hne Hz]]; [by left|right]. split_and!; [done| |done].
      intros ->. apply Hne. exact (ca_uniq _ _ _ _ _ _ Hc _ _ _ _ _ Hz Hb).
    - intros [(-> & -> & ->)|(Hne & _ & Hz)]; [left; by split_and!|by right]. }
  split.
  - rewrite Eb, length_insert. apply Hc.
  - rewrite El. apply Hc.
  - destruct (ca_lru _ _ _ _ _ _ Hc) as [l Hl]. exists l. rewrite Eb. by apply (lru_insert _ _ _ y).
  - intros n' b1 b2 z1 z2 H1' H2'. apply Hof in H1', H2'.
    destruct H1' as [(-> & _ & ->)|(? & ? & H1')], H2' as [(-> & _ & ?)|(? & ? & H2')]; try done.
    exact (ca_uniq _ _ _ _ _ _ Hc _ _ _ _ _ H1' H2').
  - intros n' b' z Hz. apply Hof in Hz. destruct Hz as [(-> & -> & ->)|(Hne & Hnn & Hz)]; [by split_and!|].
    destruct (HVR n' Hnn) as (-> & -> & HL). rewrite (Es b' Hne), (Em n' Hnn).
    destruct (ca_buf _ _ _ _ _ _ Hc n' b' z Hz) as (? & ? & H0' & ->).
    split_and!; [done|done|rewrite HL; done|by rewrite (lock_equiv pid n' L L')].
  - intros n' Hnone. assert (Hnn : n' <> n) by (intros ->; apply (Hnone b y'), Hof; by left).
    destruct (HVR n' Hnn) as (-> & -> & HL). rewrite (Em n' Hnn), HL. apply (ca_none _ _ _ _ _ _ Hc).
    intros b' z Hz. apply (Hnone b' z), Hof. right. split_and!; [|done|done]. intros ->. destruct Hz as (_ & Hz & _ & Hz').
    rewrite Hy in Hz. injection Hz as <-. congruence.
  - intros n' Hz. destruct (decide (n' = n)) as [->|Hnn]; [by apply Hcl|]. destruct (HVR n' Hnn) as (-> & HR & HL).
    rewrite (Em n' Hnn), HL. apply (ca_clean _ _ _ _ _ _ Hc). congruence.
  - intros b' z Hb' Hz Hzd. rewrite Eb in Hz. destruct (decide (b' = b)) as [->|Hne].
    + rewrite list_lookup_insert_eq in Hz by (by apply lookup_lt_Some in Hy). congruence.
    + rewrite list_lookup_insert_ne in Hz by done. rewrite Es by done. by apply (ca_other _ _ _ _ _ _ Hc b' z).
  - intros n'. destruct (decide (n' = n)) as [->|Hnn]; [done|]. destruct (HVR n' Hnn) as (_ & -> & _). apply Hc.
Qed.

(** Writing to the data of a locked buffer. *)
Lemma set_data_spec dv n b y d f s c i pid V R L :
  f y = set_b_data d y ->
  fs_ready s c i pid -> cache (k_ext s) pid dv V R L -> n ∈ L -> buf_of (k_ext s) dv n b y ->
  exists s', mod_buf b f s = Done tt s' /\ fs_ready s' c i pid /\ cache_step s s' /\
    cache (k_ext s') pid dv (<[n := d]> V) R L /\ buf_of (k_ext s') dv n b (set_b_data d y) /\
    (forall n' b' y', n' <> n -> buf_of (k_ext s) dv n' b' y' -> buf_of (k_ext s') dv n' b' y').
Proof.
  intros Hf Hr Hc HL Hb. pose proof (cache_held _ _ _ _ _ _ n b y Hc HL Hb) as (Hv & Hdt & HR & Hs & Hrc).
  pose proof Hb as (Hlt & Hy & Hd & Hk). pose proof (mod_buf_run b f s y Hy) as Hrun. rewrite Hf in Hrun.
  eexists. split; [exact Hrun|]. clear Hrun.
  split; [by apply fs_ready_ext|]. split; [by split_and!|]. split; [|split].
  - apply (cache_change (k_ext s) _ pid dv V _ R R L L n b y (set_b_data d y) Hc Hb); try done.
    + intros m Hm. by rewrite fn_lookup_insert_ne.
    + lia.
    + intros _. by rewrite fn_lookup_insert.
    + intros Hz. lia.
    + by rewrite decide_True.
  - eapply (buf_of_insert (k_ext s)); [exact Hy|reflexivity|]. left. by split_and!.
  - intros n' b' y' Hne Hb'. eapply (buf_of_insert (k_ext s)); [exact Hy|reflexivity|].
    right. split; [|done]. intros ->. destruct Hb' as (_ & Hy' & _ & Hk'). rewrite Hy in Hy'. injection Hy' as <-. congruence.
Qed.

(** [bwrite] writes the block to the disk. *)
Lemma bwrite_spec dv n b y s c i pid V R L :
  fs_ready s c i pid -> cache (k_ext s) pid dv V R L -> n ∈ L -> buf_of (k_ext s) dv n b y ->
  exists s', bwrite b s = Done tt s' /\ fs_ready s' c i pid /\ fs_frame (k_ext s) (k_ext s') /\
    e_bufs (k_ext s') = e_bufs (k_ext s) /\ cache (k_ext s') pid dv V R L /\
    e_media (k_ext s') = <[n := V n]> (e_media (k_ext s)) /\ e_trace (k_ext s') = e_trace (k_ext s) ++ [(n, V n)].
Proof.
  intros Hr Hc HL Hb. pose proof (cache_held _ _ _ _ _ _ n b y Hc HL Hb) as (Hv & Hdt & HR & Hs & Hrc).
  pose proof Hb as (Hlt & Hy & Hd & Hk). unfold bwrite. mstep (holdingsleep_run (buf_lock b) s c i pid _ Hr Hs).
  cbn [sl_locked sl_pid truthy Z.eqb negb andb]. rewrite Z.eqb_refl. cbn [negb].
  destruct (disk_write s c i pid b y Hr Hy) as (s' & Hw & Hr' & Hfr & Es & Eb & Em & Et).
  rewrite Hk, Hdt in Em, Et. exists s'. split_and!; try done; try apply Hfr.
  apply (cache_change (k_ext s) (k_ext s') pid dv V V R R L L n b y y Hc Hb); try done.
  - rewrite Eb. by rewrite list_insert_id.
  - by rewrite Es.
  - intros k _. by rewrite Es.
  - intros m Hm. unfold media. by rewrite Em, lookup_insert_ne.
  - lia.
  - intros Hz. lia.
  - rewrite Es, decide_True by done. done.
Qed.

(** Changing the order of the buffers changes nothing else. *)
Lemma cache_relink x x' pid dv V R L :
  cache x pid dv V R L -> length (e_bufs x') = S NBUF -> (exists l, lru (e_bufs x') l) ->
  (forall q, payload <$> e_bufs x' !! q = payload <$> e_bufs x !! q) -> e_sleep x' = e_sleep x ->
  e_media x' = e_media x -> cache x' pid dv V R L.
Proof.
  intros Hc Hlen Hl Hp Es Em.
  assert (Hof : forall b y, e_bufs x' !! b = Some y -> exists z, e_bufs x !! b = Some z /\ payload z = payload y).
  { intros b y Hy. specialize (Hp b). rewrite Hy in Hp. destruct (e_bufs x !! b) as [z|]; [|done].
    exists z. split; [done|]. cbn in Hp. congruence. }
  assert (Hbo : forall n b y, buf_of x' dv n b y -> exists z, buf_of x dv n b z /\ payload z = payload y).
  { intros n b y (Hlt & Hy & Hd & Hk). destruct (Hof b y Hy) as (z & Hz & E). exists z. split; [|done].
    injection E as E1 E2 E3 E4 E5 E6. split_and!; congruence. }
  assert (Hbo' : forall n b z, buf_of x dv n b z -> exists y, buf_of x' dv n b y).
  { intros n b z (Hlt & Hz & Hd & Hk). specialize (Hp b). rewrite Hz in Hp.
    destruct (e_bufs x' !! b) as [y|] eqn:Hy; [|done]. exists y. cbn in Hp. injection Hp as E1 E2 E3 E4 E5 E6.
    split_and!; congruence. }
  assert (Hm : forall m, media x' m = media x m) by (intros m; unfold media; by rewrite Em).
  split; rewrite ?Es; try done; try apply Hc.
  - intros n b b' y y' Hy Hy'. destruct (Hbo _ _ _ Hy) as (z & Hz & _), (Hbo _ _ _ Hy') as (z' & Hz' & _).
    exact (ca_uniq _ _ _ _ _ _ Hc _ _ _ _ _ Hz Hz').
  - intros n b y Hy. destruct (Hbo _ _ _ Hy) as (z & Hz & E). injection E as E1 E2 E3 E4 E5 E6.
    destruct (ca_buf _ _ _ _ _ _ Hc n b z Hz) as (? & ? & ? & ?). rewrite Hm, <- E1, <- E5, <- E6. by split_and!.
  - intros n Hnone. rewrite Hm. apply (ca_none _ _ _ _ _ _ Hc). intros b z Hz. destruct (Hbo' _ _ _ Hz) as [y Hy].
    by apply (Hnone b y).
  - intros n. rewrite Hm. apply (ca_clean _ _ _ _ _ _ Hc).
  - intros b y Hb Hy Hd. destruct (Hof b y Hy) as (z & Hz & E). injection E as E1 E2 E3 E4 E5 E6.
    rewrite <- E5. apply (ca_other _ _ _ _ _ _ Hc b z); congruence.
Qed.

(** The four stores that make [b] the first of the list. *)
Lemma relink_run b s y :
  e_bufs (k_ext s) !! b = Some y -> is_Some (e_bufs (k_ext s) !! head) ->
  (mod_buf (b_next y) (set_b_prev (b_prev y));;
   x ← get_buf b;
   mod_buf (b_prev x) (set_b_next (b_next x));;
   push_front b;;
   link_front b) s =
  Done tt (with_ext (fun x => set_e_bufs (linked_front b (pushed_front b (unlink b (e_bufs x)))) x) s).
Proof.
  intros Hy [h Hh]. rewrite bind_mod_buf. unfold unlink.
  set (bufs1 := alter (set_b_prev (b_prev y)) (b_next y) (e_bufs (k_ext s))).
  assert (H1' : is_Some (bufs1 !! b)) by (apply lookup_lt_is_Some_2; unfold bufs1; rewrite length_alter; by apply lookup_lt_Some in Hy).
  destruct H1' as [y1 Hy1]. set (s1 := with_ext _ s). mstep (get_buf_run b s1 y1 Hy1).
  rewrite bind_mod_buf. set (s2 := with_ext _ s1).
  set (bufs2 := alter (set_b_next (b_next y1)) (b_prev y1) bufs1).
  assert (H2' : is_Some (bufs2 !! head)).
  { apply lookup_lt_is_Some_2. unfold bufs2, bufs1. rewrite !length_alter. by apply lookup_lt_Some in Hh. }
  destruct H2' as [h2 Hh2]. unfold push_front.
  assert (E2 : e_bufs (k_ext s2) = bufs2) by reflexivity.
  set (bufs3 := alter (set_b_prev head) b (alter (set_b_next (b_next h2)) b bufs2)).
  assert (Hp : (h0 ← get_buf head; mod_buf b (set_b_next (b_next h0));; mod_buf b (set_b_prev head)) s2 =
    Done tt (with_ext (set_e_bufs bufs3) s2)).
  { mstep (get_buf_run head s2 h2 Hh2). reflexivity. }
  mstep Hp. set (s3 := with_ext _ s2).
  assert (H3' : is_Some (bufs3 !! head)).
  { apply lookup_lt_is_Some_2. unfold bufs3. rewrite !length_alter. by apply lookup_lt_Some in Hh2. }
  destruct H3' as [h3 Hh3]. unfold link_front. mstep (get_buf_run head s3 h3 Hh3).
  rewrite bind_mod_buf. unfold mod_buf, mod_ext, modify. do 2 f_equal.
  unfold with_ext, s3, s2, s1. rewrite Hy. fold bufs1. rewrite Hy1. fold bufs2. unfold pushed_front. rewrite Hh2. fold bufs3.
  unfold linked_front. rewrite Hh3. by destruct s as [? ? ? ? ? ? ? ? ? ? ? ? ? ? ? []].
Qed.

(** [brelse] unlocks the buffer and drops one reference. *)
Lemma brelse_spec dv n b y s c i pid V R L :
  fs_ready s c i pid -> cache (k_ext s) pid dv V R L -> n ∈ L -> buf_of (k_ext s) dv n b y ->
  (R n = 1 -> V n = media (k_ext s) n) -> R n < 2 ^ 32 ->
  exists s', brelse b s = Done tt s' /\ fs_ready s' c i pid /\ cache_step s s' /\
    cache (k_ext s') pid dv V (<[n := R n - 1]> R) (L ∖ {[n]}) /\
    (forall n' b' y', n' ∈ L -> n' <> n -> buf_of (k_ext s) dv n' b' y' ->
       exists z, buf_of (k_ext s') dv n' b' z /\ b_data z = b_data y').
Proof.
  intros Hr Hc HL Hb Hcl HR32. pose proof (cache_held _ _ _ _ _ _ n b y Hc HL Hb) as (Hv & Hdt & HR & Hs & Hrc).
  pose proof Hb as (Hlt & Hy & Hd & Hk). unfold brelse. mstep (holdingsleep_run (buf_lock b) s c i pid _ Hr Hs).
  cbn [sl_locked sl_pid truthy Z.eqb negb andb]. rewrite Z.eqb_refl. cbn [negb].
  mstep (releasesleep_run (buf_lock b) s c i pid _ Hr Hs). set (s1 := woken _ _ _).
  assert (Hr1 : fs_ready s1 c i pid) by by apply fs_ready_woken, fs_ready_ext.
  mstep (fs_ready_acquire BcacheLock s1 c i pid Hr1). set (s2 := acquired BcacheLock s1).
  mstep (mod_buf_run b (fun w => set_b_refcnt (u32 (b_refcnt w - 1)) w) s2 y Hy).
  set (y' := set_b_refcnt (u32 (b_refcnt y - 1)) y). set (s3 := with_ext _ s2).
  assert (Hy3 : e_bufs (k_ext s3) !! b = Some y') by (cbn; apply list_lookup_insert_eq; by apply lookup_lt_Some in Hy).
  mstep (get_buf_run b s3 y' Hy3).
  assert (Hrf : b_refcnt y' = R n - 1) by (cbn; rewrite Hrc; apply u32_small; lia).
  assert (Hc3 : cache (k_ext s3) pid dv V (<[n := R n - 1]> R) (L ∖ {[n]})).
  { apply (cache_change (k_ext s) (k_ext s3) pid dv V V R _ L _ n b y y' Hc Hb); try done.
    - cbn. by rewrite length_insert.
    - intros k Hk'. cbn. by rewrite list_lookup_insert_ne.
    - intros m Hm. rewrite fn_lookup_insert_ne by done. set_solver.
    - by rewrite fn_lookup_insert.
    - rewrite fn_lookup_insert. lia.
    - rewrite fn_lookup_insert. intros Hz. split; [apply Hcl; lia|set_solver].
    - rewrite decide_False by set_solver. cbn. apply list_lookup_insert_eq. rewrite (ca_sleep _ _ _ _ _ _ Hc). unfold buf_lock. lia. }
  assert (Hkeep : forall n' b' z, n' <> n -> buf_of (k_ext s) dv n' b' z -> buf_of (k_ext s3) dv n' b' z).
  { intros n' b' z Hne Hz. eapply (buf_of_insert (k_ext s)); [exact Hy|reflexivity|]. right. split; [|done]. intros ->.
    destruct Hz as (_ & Hz & _ & Hzk). rewrite Hy in Hz. injection Hz as <-. congruence. }
  assert (Hfin : forall s4, hw_of s4 = hw_of s2 -> k_procs s4 = k_procs s1 -> fs_frame (k_ext s) (k_ext s4) ->
    e_media (k_ext s4) = e_media (k_ext s) -> e_trace (k_ext s4) = e_trace (k_ext s) ->
    exists s', release BcacheLock s4 = Done tt s' /\ fs_ready s' c i pid /\ cache_step s s' /\ k_ext s' = k_ext s4).
  { intros s4 Hh Hp Hf Hm Ht. exists (with_hw s1 s4). split; [by apply (fs_ready_release _ _ c i pid)|].
    split; [|by split_and!]. apply (fs_ready_same s1); [|exact Hp|done]. injection Hh as Hh _ _ _. unfold hw_of. cbn. by rewrite Hh. }
  assert (Hfr3 : fs_frame (k_ext s) (k_ext s3)) by (split_and!; try done; exact (drop_insert_sleep b _ (k_ext s) Hlt)).
  rewrite Hrf. destruct (Z.eqb_spec (R n - 1) 0) as [Hz|Hz]; [rewrite when_true|rewrite when_false, bind_ret].
  - destruct (ca_lru _ _ _ _ _ _ Hc3) as [l Hl]. pose proof (ca_len _ _ _ _ _ _ Hc3) as Hlen.
    destruct (list_elem_of_split l b) as (l1 & l2 & ->); [by apply (lru_in _ _ _ Hl)|].
    destruct (lru_move _ l1 b l2 Hlen Hl) as (Hl' & Hlen' & Hpay).
    mstep (relink_run b s3 y' Hy3 ltac:(apply lookup_lt_is_Some_2; rewrite Hlen; unfold head; lia)).
    set (s4 := with_ext _ s3). destruct (Hfin s4) as (s' & Hrel & Hr' & Hst & Ex); try done.
    exists s'. split_and!; try done; try apply Hst.
    + rewrite Ex. apply (cache_relink (k_ext s3)); try done. by eexists.
    + intros n' b' z HnL Hne Hz'. rewrite Ex. destruct (Hkeep n' b' z Hne Hz') as (Hlt' & Hz3 & Hd3 & Hk3).
      specialize (Hpay b'). rewrite Hz3 in Hpay. cbn [fmap option_fmap option_map] in Hpay.
      destruct (linked_front b _ !! b') as [w|] eqn:Hw; [|done]. exists w. cbn in Hpay. injection Hpay as E1 E2 E3 E4 E5 E6.
      split; [|done]. split_and!; [done|exact Hw|congruence|congruence].
  - destruct (Hfin s3) as (s' & Hrel & Hr' & Hst & Ex); try done.
    exists s'. split_and!; try done; try apply Hst.
    + by rewrite Ex.
    + intros n' b' z HnL Hne Hz'. rewrite Ex. exists z. split; [by apply Hkeep|done].
Qed.

(** One reference more or less, without the lock. *)
Lemma ref_spec dv n b y v g s c i pid V R L :
  g y = set_b_refcnt v y ->
  fs_ready s c i pid -> cache (k_ext s) pid dv V R L -> buf_of (k_ext s) dv n b y -> 0 < R n -> 0 < v < 2 ^ 32 ->
  exists s', (acquire BcacheLock;; mod_buf b g;; release BcacheLock) s = Done tt s' /\
    fs_ready s' c i pid /\ cache_step s s' /\ cache (k_ext s') pid dv V (<[n := v]> R) L /\
    e_bufs (k_ext s') = <[b := set_b_refcnt v y]> (e_bufs (k_ext s)).
Proof.
  intros Hg Hr Hc Hb HR Hv. pose proof Hb as (Hlt & Hy & Hd & Hk). mstep (fs_ready_acquire BcacheLock s c i pid Hr).
  mstep (mod_buf_run b g (acquired BcacheLock s) y Hy). rewrite Hg. set (s1 := with_ext _ _).
  rewrite (fs_ready_release BcacheLock s c i pid s1 Hr) by reflexivity. eexists. split; [reflexivity|].
  destruct (ca_buf _ _ _ _ _ _ Hc n b y Hb) as (Hrc & Hva & Hva0 & Hs).
  split_and!; try done; [by apply (fs_ready_same s)|].
  apply (cache_change (k_ext s) _ pid dv V V R _ L L n b y (set_b_refcnt v y) Hc Hb); try done.
  - intros m Hm. by rewrite fn_lookup_insert_ne.
  - by rewrite fn_lookup_insert.
  - rewrite fn_lookup_insert. lia.
  - rewrite fn_lookup_insert. lia.
Qed.

(** The same buffers hold the same blocks. *)
Definition same_blocks s s' : Prop :=
  forall dv n b y, buf_of (k_ext s) dv n b y -> exists z, buf_of (k_ext s') dv n b z /\ b_data z = b_data y.

Lemma ref_same s s' b y v :
  e_bufs (k_ext s) !! b = Some y -> e_bufs (k_ext s') = <[b := set_b_refcnt v y]> (e_bufs (k_ext s)) -> same_blocks s s'.
Proof.
  intros Hy E dv n b' z (Hlt & Hz & Hd & Hk). unfold buf_of. rewrite E. destruct (decide (b' = b)) as [->|Hne].
  - rewrite Hy in Hz. injection Hz as <-. exists (set_b_refcnt v y).
    rewrite list_lookup_insert_eq by (by apply lookup_lt_Some in Hy). by split_and!.
  - exists z. rewrite list_lookup_insert_ne by done. by split_and!.
Qed.

Lemma ref_spec_same dv n b y v g s c i pid V R L :
  g y = set_b_refcnt v y ->
  fs_ready s c i pid -> cache (k_ext s) pid dv V R L -> buf_of (k_ext s) dv n b y -> 0 < R n -> 0 < v < 2 ^ 32 ->
  exists s', (acquire BcacheLock;; mod_buf b g;; release BcacheLock) s = Done tt s' /\
    fs_ready s' c i pid /\ cache_step s s' /\ cache (k_ext s') pid dv V (<[n := v]> R) L /\ same_blocks s s'.
Proof.
  intros Hg Hr Hc Hb HR Hv. destruct (ref_spec dv n b y v g s c i pid V R L Hg Hr Hc Hb HR Hv) as (s' & ? & ? & Hst & ? & Eb).
  exists s'. split_and!; try done; try apply Hst. apply (ref_same s s' b y v); [apply Hb|done].
Qed.

Lemma bpin_spec dv n b y s c i pid V R L :
  fs_ready s c i pid -> cache (k_ext s) pid dv V R L -> buf_of (k_ext s) dv n b y -> 0 < R n -> R n + 1 < 2 ^ 32 ->
  exists s', bpin b s = Done tt s' /\ fs_ready s' c i pid /\ cache_step s s' /\
    cache (k_ext s') pid dv V (<[n := R n + 1]> R) L /\ same_blocks s s'.
Proof.
  intros Hr Hc Hb HR Hov. destruct (ca_buf _ _ _ _ _ _ Hc n b y Hb) as (Hrc & _). pose proof Hb as (_ & Hy & _).
  apply (ref_spec_same dv n b y (R n + 1)); [|done..|lia]. by rewrite Hrc, u32_small by lia.
Qed.

Lemma bunpin_spec dv n b y s c i pid V R L :
  fs_ready s c i pid -> cache (k_ext s) pid dv V R L -> buf_of (k_ext s) dv n b y -> 1 < R n < 2 ^ 32 ->
  exists s', bunpin b s = Done tt s' /\ fs_ready s' c i pid /\ cache_step s s' /\
    cache (k_ext s') pid dv V (<[n := R n - 1]> R) L /\ same_blocks s s'.
Proof.
  intros Hr Hc Hb HR. destruct (ca_buf _ _ _ _ _ _ Hc n b y Hb) as (Hrc & _). pose proof Hb as (_ & Hy & _).
  apply (ref_spec_same dv n b y (R n - 1)); [|done..|lia|lia]. by rewrite Hrc, u32_small by lia.
Qed.

End Bread.

(** ** Initialisation *)

Section Init.
Context `{Devices} `{Rounds}.
Implicit Types (s : kstate ext) (x : ext).

(** One round of the loop of [binit]. *)
Definition binit_body (b : nat) : KM ext unit := push_front b;; initsleeplock (buf_lock b);; link_front b.

Lemma binit_body_run b s :
  k_locks s = ∅ -> is_Some (e_bufs (k_ext s) !! head) -> e_sleep (k_ext s) !! b = Some (SleepLock 0 0) ->
  binit_body b s = Done tt (with_ext (fun x => set_e_bufs (linked_front b (pushed_front b (e_bufs x))) x) s).
Proof.
  intros Hl [h Hh] Hs. unfold binit_body.
  assert (Hp : push_front b s = Done tt (with_ext (fun x => set_e_bufs (pushed_front b (e_bufs x)) x) s)).
  { unfold push_front. mstep (get_buf_run head s h Hh). unfold with_ext, pushed_front. rewrite Hh. reflexivity. }
  mstep Hp. set (s1 := with_ext _ s).
  assert (Hi : initsleeplock (buf_lock b) s1 = Done tt s1) by by apply initsleeplock_free.
  mstep Hi. assert (H1' : is_Some (e_bufs (k_ext s1) !! head)).
  { cbn. unfold pushed_front. rewrite Hh. apply lookup_lt_is_Some_2. rewrite !length_alter. by apply lookup_lt_Some in Hh. }
  destruct H1' as [h1 Hh1]. unfold link_front. mstep (get_buf_run head s1 h1 Hh1). rewrite bind_mod_buf.
  unfold mod_buf, mod_ext, modify. do 2 f_equal. unfold with_ext, linked_front.
  change (e_bufs (k_ext s1)) with (pushed_front b (e_bufs (k_ext s))) in Hh1. rewrite Hh1.
  by destruct s as [? ? ? ? ? ? ? ? ? ? ? ? ? ? ? []].
Qed.

(** The first [k] buffers are linked, the last one first. *)
Lemma binit_loop s : forall k,
  k_locks s = ∅ -> (k <= NBUF)%nat -> length (e_bufs (k_ext s)) = S NBUF ->
  (forall b, (b < NBUF)%nat -> e_sleep (k_ext s) !! b = Some (SleepLock 0 0)) ->
  nextof (e_bufs (k_ext s)) head = Some head -> prevof (e_bufs (k_ext s)) head = Some head ->
  exists bufs, for_each (seq 0 k) binit_body s = Done tt (with_ext (set_e_bufs bufs) s) /\
    chain (nextof bufs) head (reverse (seq 0 k)) head /\ chain (prevof bufs) head (seq 0 k) head /\
    length bufs = S NBUF /\ forall q, payload <$> bufs !! q = payload <$> e_bufs (k_ext s) !! q.
Proof.
  intros k Hl Hk Hlen Hsl Hn Hp. induction k as [|k IH].
  - exists (e_bufs (k_ext s)). split_and!; try done. cbn.
    unfold with_ext. by destruct s as [? ? ? ? ? ? ? ? ? ? ? ? ? ? ? []].
  - destruct (IH ltac:(lia)) as (bufs & Hrun & Hcn & Hcp & Hlen' & Hpay). rewrite seq_S, Nat.add_0_l.
    rewrite (for_each_app _ _ _ _ _ Hrun). set (s1 := with_ext _ s). cbn [for_each].
    mstep (binit_body_run k s1 Hl ltac:(apply lookup_lt_is_Some_2; cbn; rewrite Hlen'; unfold head; lia) (Hsl k ltac:(lia))).
    destruct (front_chain bufs k (reverse (seq 0 k)) Hlen') as (H1' & H2' & H3' & H4'); [..|done| |].
    + rewrite reverse_Permutation. rewrite !NoDup_cons, elem_of_cons, !elem_of_seq. unfold head.
      split_and!; [lia|lia|apply NoDup_seq].
    + intros q Hq. rewrite elem_of_cons, elem_of_reverse, elem_of_seq in Hq. lia.
    + by rewrite reverse_involutive.
    + exists (linked_front k (pushed_front k bufs)). rewrite reverse_snoc.
      rewrite reverse_cons, reverse_involutive in H2'. split_and!; try done.
      * intros q. by rewrite H4', Hpay.
Qed.

(** [binit] sets up an empty cache. *)
Lemma binit_spec s pid dv :
  k_locks s = ∅ -> length (e_bufs (k_ext s)) = S NBUF -> length (e_sleep (k_ext s)) = (NBUF + NINODE)%nat ->
  (forall b y, e_bufs (k_ext s) !! b = Some y -> b_dev y <> dv /\ b_refcnt y = 0) ->
  (forall b, (b < NBUF)%nat -> e_sleep (k_ext s) !! b = Some (SleepLock 0 0)) ->
  exists bufs, binit s = Done tt (with_ext (set_e_bufs bufs) s) /\
    cache (set_e_bufs bufs (k_ext s)) pid dv (media (k_ext s)) (fun _ => 0) ∅.
Proof.
  intros Hl Hlen Hsleep Hb Hsl. change binit with (initlock BcacheLock;; mod_buf head (set_b_prev head);;
    mod_buf head (set_b_next head);; for_each (seq 0 NBUF) binit_body).
  unfold initlock. rewrite bind_modify, !bind_mod_buf.
  match goal with |- context [with_ext _ (with_ext _ ?u)] => replace u with s
    by (destruct s; cbn in *; subst; by rewrite delete_empty) end.
  set (s1 := with_ext _ (with_ext _ s)).
  assert (Hh : is_Some (e_bufs (k_ext s) !! head)) by (apply lookup_lt_is_Some_2; rewrite Hlen; unfold head; lia).
  destruct (binit_loop s1 NBUF) as (bufs & Hrun & Hn & Hp & Hlen' & Hpay); try done.
  - cbn. by rewrite !length_alter.
  - change (nextof (alter (set_b_next head) head (alter (set_b_prev head) head (e_bufs (k_ext s)))) head = Some head).
    rewrite nextof_set, decide_True; [done|done|]. apply lookup_lt_is_Some_2. rewrite length_alter, Hlen. unfold head. lia.
  - transitivity (prevof (alter (set_b_prev head) head (e_bufs (k_ext s))) head); [apply (alter_field b_prev); done|].
    by rewrite prevof_set, decide_True.
  - exists bufs. rewrite Hrun. split; [unfold s1, with_ext; by destruct s as [? ? ? ? ? ? ? ? ? ? ? ? ? ? ? []]|].
    assert (Hpay' : forall q y, bufs !! q = Some y -> b_dev y <> dv /\ b_refcnt y = 0).
    { intros q y Hq. specialize (Hpay q). rewrite Hq in Hpay. cbn in Hpay.
      rewrite !(alter_field payload) in Hpay by done. destruct (e_bufs (k_ext s) !! q) as [z|] eqn:Hz; [|done].
      cbn in Hpay. injection Hpay as E1 E2 E3 E4 E5 E6. rewrite E3, E5. by apply (Hb q). }
    split; cbn; try done.
    + exists (reverse (seq 0 NBUF)). split; [done|by rewrite reverse_involutive|apply reverse_Permutation].
    + intros n b b' y y' (_ & Hy & Hd & _). by destruct (Hpay' b y Hy).
    + intros n b y (_ & Hy & Hd & _). by destruct (Hpay' b y Hy).
    + intros b y Hlt Hy _. split; [by apply (Hpay' b)|by apply Hsl].
Qed.

End Init.

(** ** Properties *)

Section Properties.
Context `{Devices} `{RoundsOk} `{!DiskOps} `{!DiskOk}.

(** C15: the buffer cache is a store of blocks.  A block that is read, changed,
    written and released has the new content for every later reader and on the
    disk, in one write; every other block, seen through the cache or on the
    disk, is unchanged, and the cache keeps its invariant: at most one buffer per
    block, a well-formed list in least recently used order, clean buffers equal
    to the disk, reference counts and locks in agreement. *)
Theorem cache_write_read (dv n : Z) (d : list Z) (s : kstate ext) (c : cpu) (i : nat) (pid : Z)
    (V : Z -> list Z) (R : Z -> Z) (L : gset Z) :
  fs_ready s c i pid -> cache (k_ext s) pid dv V R L -> n ∉ L -> R n = 0 -> room R ->
  exists s1, (b ← bread dv n; mod_buf b (set_b_data d);; bwrite b;; brelse b) s = Done tt s1 /\
    cache (k_ext s1) pid dv (<[n := d]> V) R L /\ fs_frame (k_ext s) (k_ext s1) /\
    e_media (k_ext s1) = <[n := d]> (e_media (k_ext s)) /\ e_trace (k_ext s1) = e_trace (k_ext s) ++ [(n, d)] /\
    exists b y s2, bread dv n s1 = Done b s2 /\ e_bufs (k_ext s2) !! b = Some y /\ b_data y = d.
Proof.
  intros Hr Hc HL HR Hroom.
  destruct (bread_spec dv n s c i pid V R L Hr Hc HL ltac:(done) ltac:(lia)) as (b & y & sa & Ha & Hra & (Hfa & Hma & Hta) & Hca & Hba & _).
  destruct (set_data_spec dv n b y d (set_b_data d) sa c i pid _ _ _ eq_refl Hra Hca ltac:(set_solver) Hba) as (sb & Hb & Hrb & (Hfb & Hmb & Htb) & Hcb & Hbb & _).
  destruct (bwrite_spec dv n b _ sb c i pid _ _ _ Hrb Hcb ltac:(set_solver) Hbb) as (sw & Hw & Hrw & Hfw & Ebw & Hcw & Hmw & Htw).
  rewrite fn_lookup_insert in Hmw, Htw.
  destruct (brelse_spec dv n b (set_b_data d y) sw c i pid _ _ _ Hrw Hcw ltac:(set_solver)) as (s1 & H1' & Hr1 & (Hf1 & Hm1 & Ht1) & Hc1 & _).
  - unfold buf_of. rewrite Ebw. exact Hbb.
  - intros _. rewrite fn_lookup_insert. unfold media. by rewrite Hmw, lookup_insert_eq.
  - rewrite fn_lookup_insert. lia.
  - assert (Hc1' : cache (k_ext s1) pid dv (<[n := d]> V) R L).
    { eapply cache_equiv; [..|exact Hc1]; [done|..].
      - intros m. destruct (decide (m = n)) as [->|Hne]; [rewrite !fn_lookup_insert; lia|by rewrite !fn_lookup_insert_ne].
      - intros m. set_solver. }
    exists s1. split_and!; [mstep Ha; mstep Hb; by mstep Hw|done|..].
    + repeat (eapply fs_frame_trans; [eassumption|]). repeat split; reflexivity.
    + congruence.
    + congruence.
    + destruct (bread_spec dv n s1 c i pid _ R L Hr1 Hc1' HL ltac:(done) ltac:(lia)) as (b2 & y2 & s2 & H2' & _ & _ & _ & Hb2 & Hd2 & _).
      exists b2, y2, s2. split_and!; [done|apply Hb2|]. by rewrite Hd2, fn_lookup_insert.
Qed.

End Properties.

(** ** States to evaluate on *)

(** [s] with the state [x] of the upper layers. *)
Definition retype {X Y} (x : Y) (s : kstate X) : kstate Y :=
  KState (k_hart s) (k_csr s) (k_cpus s) (k_locks s) (k_mem s) (k_freelist s) (k_kernel_pagetable s) (k_procs s)
    (k_initproc s) (k_nextpid s) (k_nexttid s) (k_bsems s) (k_ticks s) (k_first s) (k_out s) x.

(** One running process and an empty disk, before [binit]. *)
Definition fs_boot : kstate (@ext no_devices) := retype (@boot_ext no_devices ∅ tt) (one_proc 0 ∅).
Definition fs_cpu : cpu := Cpu (Some O) (Some (O, O)) 0 0.

Lemma fs_boot_ready : fs_ready fs_boot fs_cpu O 1.
Proof.
  split; [exact (one_proc_quiet 0 ∅ ltac:(lia))|reflexivity|exact (one_proc_table 0 ∅)|reflexivity|].
  eexists. split; reflexivity.
Qed.

#[local] Instance one_round : Rounds := 1%nat.
#[local] Instance one_round_ok : RoundsOk := Nat.lt_0_1.

Lemma fs_boot_cache :
  exists bufs, @binit no_devices fs_boot = Done tt (with_ext (@set_e_bufs no_devices bufs) fs_boot) /\
    @cache no_devices (@set_e_bufs no_devices bufs (k_ext fs_boot)) 1 1 (@media no_devices (k_ext fs_boot)) (fun _ => 0) ∅.
Proof.
  apply (@binit_spec no_devices); [reflexivity..| |].
  - intros b y Hy. apply (lookup_replicate_1 (S NBUF)) in Hy as [-> _]. done.
  - intros b Hb. apply (lookup_replicate_2 (NBUF + NINODE)). lia.
Qed.

Lemma cache_write_read_witness :
  exists (s s1 : kstate (@ext no_devices)) (b : nat) y s2,
    (b ← @bread no_devices _ ideal_disk 1 5; @mod_buf no_devices b (set_b_data [7]);;
     @bwrite no_devices ideal_disk b;; @brelse no_devices b) s = Done tt s1 /\
    @bread no_devices _ ideal_disk 1 5 s1 = Done b s2 /\ e_bufs (k_ext s2) !! b = Some y /\ b_data y = [7].
Proof.
  destruct fs_boot_cache as (bufs & _ & Hc).
  destruct (@cache_write_read no_devices _ _ ideal_disk _ 1 5 [7] (with_ext (@set_e_bufs no_devices bufs) fs_boot)
              fs_cpu O 1 _ _ _ (fs_ready_ext _ _ _ _ _ fs_boot_ready) Hc) as (s1 & H1 & _ & _ & _ & _ & b & y & s2 & H2 & H3 & H4);
    [done|done|exists []; split; [intros n Hn; lia|unfold NBUF; cbn; lia]|].
  exists (with_ext (@set_e_bufs no_devices bufs) fs_boot), s1, b, y, s2. split_and!; assumption.
Defined.
