(* ===== verification/Log.v ===== *)
(** * The log (kernel/log.c)

    A transaction's blocks are collected in the in-memory header, copied to the
    log area, committed by one write of the header block, and then installed at
    their home locations. *)

From stdpp Require Import functions.
From S2P Require Import Prelude Machine Memory State Spinlock Kalloc Vm Proc FsState Sleeplock Bio.

(** Reading and writing a little-endian field of a block's data. *)
Definition get_le (w : nat) (data : list Z) (off : Z) : Z := le_val (take w (drop (Z.to_nat off) data)).
Definition put_bytes (data : list Z) (off : Z) (bs : list Z) : list Z :=
  take (Z.to_nat off) data ++ bs ++ drop (Z.to_nat off + length bs) data.
Definition put_le (w : nat) (data : list Z) (off v : Z) : list Z := put_bytes data off (le_bytes w v).

(** [sizeof(struct logheader)] *)
Definition sizeof_logheader : Z := 4 + 4 * LOGSIZE.

(** The fields of a header block: [lh->n] and [lh->block[i]]. *)
Definition hdr_n (data : list Z) : Z := s32 (get_le 4 data 0).
Definition hdr_block (data : list Z) (i : nat) : Z := s32 (get_le 4 data (4 + 4 * Z.of_nat i)).

Section Ops.
Context `{Devices} `{Rounds} `{!DiskOps}.

Definition get_log : KM ext log := get_ext e_log.

(** [log.lh.block[i]], read and written. *)
Definition get_block (i : nat) : KM ext Z := l ← get_log; of_option (lh_block l !! i).
Definition set_block (i : nat) (v : Z) : KM ext unit :=
  get_block i;; mod_log (fun l => set_lh_block (<[i := v]> (lh_block l)) l).

Definition install_trans (recovering : bool) : KM ext unit :=
  l ← get_log;
  for_each (seq 0 (Z.to_nat (lh_n l))) (fun tail =>
    l ← get_log;
    lbuf ← bread (u32 (log_dev l)) (u32 (log_start l + Z.of_nat tail + 1));
    dst ← get_block tail;
    dbuf ← bread (u32 (log_dev l)) (u32 dst);
    lb ← get_buf lbuf;
    mod_buf dbuf (set_b_data (b_data lb));;
    bwrite dbuf;;
    when (negb recovering) (bunpin dbuf);;
    brelse lbuf;;
    brelse dbuf).

Definition read_head : KM ext unit :=
  l ← get_log;
  b ← bread (u32 (log_dev l)) (u32 (log_start l));
  hb ← get_buf b;
  mod_log (set_lh_n (hdr_n (b_data hb)));;
  for_each (seq 0 (Z.to_nat (hdr_n (b_data hb)))) (fun i => set_block i (hdr_block (b_data hb) i));;
  brelse b.

Definition write_head : KM ext unit :=
  l ← get_log;
  b ← bread (u32 (log_dev l)) (u32 (log_start l));
  mod_buf b (fun hb => set_b_data (put_le 4 (b_data hb) 0 (u32 (lh_n l))) hb);;
  for_each (seq 0 (Z.to_nat (lh_n l))) (fun i =>
    v ← get_block i;
    mod_buf b (fun hb => set_b_data (put_le 4 (b_data hb) (4 + 4 * Z.of_nat i) (u32 v)) hb));;
  bwrite b;;
  brelse b.

Definition recover_from_log : KM ext unit :=
  read_head;;
  install_trans true;;
  mod_log (set_lh_n 0);;
  write_head.

Definition initlog (dev : Z) (sb : superblock) : KM ext unit :=
  if BSIZE <=? sizeof_logheader then panic "initlog: too big logheader" else
  initlock LogLock;;
  mod_log (set_log_start (s32 (sb_logstart sb)));;
  mod_log (set_log_size (s32 (sb_nlog sb)));;
  mod_log (set_log_dev dev);;
  recover_from_log.

Definition begin_op : KM ext unit :=
  acquire LogLock;;
  loop rounds
    (l ← get_log;
     if truthy (log_committing l) then sleep ChLog LogLock;; mret None
     else if LOGSIZE <? lh_n l + (log_outstanding l + 1) * MAXOPBLOCKS then sleep ChLog LogLock;; mret None
     else
       mod_log (fun l => set_log_outstanding (log_outstanding l + 1) l);;
       release LogLock;;
       mret (Some tt)).

Definition write_log : KM ext unit :=
  l ← get_log;
  for_each (seq 0 (Z.to_nat (lh_n l))) (fun tail =>
    l ← get_log;
    to ← bread (u32 (log_dev l)) (u32 (log_start l + Z.of_nat tail + 1));
    src ← get_block tail;
    from ← bread (u32 (log_dev l)) (u32 src);
    fb ← get_buf from;
    mod_buf to (set_b_data (b_data fb));;
    bwrite to;;
    brelse from;;
    brelse to).

Definition commit : KM ext unit :=
  l ← get_log;
  when (0 <? lh_n l)
    (write_log;;
     write_head;;
     install_trans false;;
     mod_log (set_lh_n 0);;
     write_head).

Definition end_op : KM ext unit :=
  acquire LogLock;;
  mod_log (fun l => set_log_outstanding (log_outstanding l - 1) l);;
  l ← get_log;
  if truthy (log_committing l) then panic "log.committing" else
  do_commit ← (if log_outstanding l =? 0 then mod_log (set_log_committing 1);; mret true
               else wakeup (Some ChLog);; mret false);
  release LogLock;;
  when do_commit
    (commit;;
     acquire LogLock;;
     mod_log (set_log_committing 0);;
     wakeup (Some ChLog);;
     release LogLock).

(** The index at which [log_write] records block [n]: where it is already, or
    the end.  The entries are compared as unsigned numbers. *)
Fixpoint log_slot (blocks : list Z) (n : nat) (blockno : Z) (i : nat) {struct n} : nat :=
  match n with
  | O => i
  | S n' => match blocks with
            | [] => i
            | x :: blocks' => if u32 x =? blockno then i else log_slot blocks' n' blockno (S i)
            end
  end.

Definition log_write (b : nat) : KM ext unit :=
  acquire LogLock;;
  l ← get_log;
  if (LOGSIZE <=? lh_n l) || (log_size l - 1 <=? lh_n l) then panic "too big a transaction" else
  if log_outstanding l <? 1 then panic "log_write outside of trans" else
  x ← get_buf b;
  let i := log_slot (lh_block l) (Z.to_nat (lh_n l)) (b_blockno x) O in
  set_block i (s32 (b_blockno x));;
  when (Z.of_nat i =? lh_n l) (bpin b;; mod_log (fun l => set_lh_n (lh_n l + 1) l));;
  release LogLock.

End Ops.

(** ** Fields of a block *)

Lemma put_bytes_length data off bs :
  0 <= off -> (Z.to_nat off + length bs <= length data)%nat -> length (put_bytes data off bs) = length data.
Proof. intros H0 Hl. unfold put_bytes. rewrite !length_app, length_take, length_drop. lia. Qed.

Lemma put_bytes_outside data off bs k :
  (Z.to_nat off + length bs <= length data)%nat -> (k < Z.to_nat off)%nat \/ (Z.to_nat off + length bs <= k)%nat ->
  put_bytes data off bs !! k = data !! k.
Proof.
  intros Hl [Hk|Hk]; unfold put_bytes.
  - rewrite lookup_app_l by (rewrite length_take; lia). by apply lookup_take_lt.
  - rewrite lookup_app_r by (rewrite length_take; lia). rewrite length_take, Nat.min_l by lia.
    rewrite lookup_app_r by lia. rewrite lookup_drop. f_equal. lia.
Qed.

Lemma get_put_same w data off v :
  (Z.to_nat off + w <= length data)%nat -> 0 <= v < 256 ^ Z.of_nat w -> get_le w (put_le w data off v) off = v.
Proof.
  intros Hl Hv. unfold get_le, put_le, put_bytes. rewrite drop_app_length' by (rewrite length_take; lia).
  rewrite take_app_length' by (by rewrite length_le_bytes). by apply le_val_bytes.
Qed.

Lemma get_put_other w w' data off off' v :
  0 <= off -> 0 <= off' -> (Z.to_nat off' + w' <= length data)%nat -> off + Z.of_nat w <= off' \/ off' + Z.of_nat w' <= off ->
  get_le w (put_le w' data off' v) off = get_le w data off.
Proof.
  intros H0 H0' Hl Hd. unfold get_le. f_equal. apply list_eq. intros k.
  destruct (decide (k < w)%nat); [|by rewrite !lookup_take_ge by lia].
  rewrite !lookup_take_lt, !lookup_drop by lia. apply put_bytes_outside; rewrite length_le_bytes; lia.
Qed.

(** The block with the entries [bl] stored from index [k] on. *)
Fixpoint hdr_fill (k : nat) (bl : list Z) (d : list Z) : list Z :=
  match bl with
  | [] => d
  | v :: bl' => hdr_fill (S k) bl' (put_le 4 d (4 + 4 * Z.of_nat k) (u32 v))
  end.

Definition hdr_of (d : list Z) (bl : list Z) : list Z :=
  hdr_fill 0 bl (put_le 4 d 0 (u32 (Z.of_nat (length bl)))).

Lemma hdr_fill_length k bl d :
  (4 + 4 * (k + length bl) <= length d)%nat -> length (hdr_fill k bl d) = length d.
Proof.
  revert k d. induction bl as [|v bl IH]; intros k d Hl; [done|]. cbn [hdr_fill length] in *.
  assert (E : length (put_le 4 d (4 + 4 * Z.of_nat k) (u32 v)) = length d)
    by (apply put_bytes_length; rewrite ?length_le_bytes; lia).
  rewrite IH; lia.
Qed.

Lemma hdr_fill_below k bl d off :
  (4 + 4 * (k + length bl) <= length d)%nat -> 0 <= off -> off + 4 <= 4 + 4 * Z.of_nat k ->
  get_le 4 (hdr_fill k bl d) off = get_le 4 d off.
Proof.
  revert k d. induction bl as [|v bl IH]; intros k d Hl H0 Ho; [done|]. cbn [hdr_fill length] in *.
  assert (E : length (put_le 4 d (4 + 4 * Z.of_nat k) (u32 v)) = length d)
    by (apply put_bytes_length; rewrite ?length_le_bytes; lia).
  rewrite IH by lia. apply get_put_other; lia.
Qed.

Lemma hdr_fill_block k bl d j v :
  (4 + 4 * (k + length bl) <= length d)%nat -> bl !! j = Some v -> 0 <= v < 2 ^ 32 ->
  get_le 4 (hdr_fill k bl d) (4 + 4 * Z.of_nat (k + j)) = v.
Proof.
  revert k d j. induction bl as [|w bl IH]; intros k d j Hl Hj Hv; [done|]. cbn [hdr_fill length] in *.
  assert (E : length (put_le 4 d (4 + 4 * Z.of_nat k) (u32 w)) = length d)
    by (apply put_bytes_length; rewrite ?length_le_bytes; lia).
  destruct j as [|j].
  - injection Hj as ->. rewrite Nat.add_0_r, hdr_fill_below by lia. rewrite u32_small by lia.
    apply get_put_same; lia.
  - rewrite <- (IH (S k) (put_le 4 d (4 + 4 * Z.of_nat k) (u32 w)) j) by (done || lia). f_equal. lia.
Qed.

(** Block numbers that fit an [int]. *)
Definition blocks_ok (bl : list Z) : Prop := Forall (fun b => 0 <= b < 2 ^ 31) bl.

Lemma hdr_of_n d bl :
  (4 + 4 * length bl <= length d)%nat -> Z.of_nat (length bl) < 2 ^ 31 -> hdr_n (hdr_of d bl) = Z.of_nat (length bl).
Proof.
  intros Hl Hb. unfold hdr_n, hdr_of.
  rewrite hdr_fill_below; [|unfold put_le; rewrite put_bytes_length; rewrite ?length_le_bytes; lia|lia|lia].
  rewrite u32_small by lia. rewrite get_put_same by lia. apply s32_small. lia.
Qed.

Lemma hdr_of_block d bl j b :
  (4 + 4 * length bl <= length d)%nat -> blocks_ok bl -> bl !! j = Some b -> hdr_block (hdr_of d bl) j = b.
Proof.
  intros Hl Hb Hj. unfold hdr_block, hdr_of. pose proof (Forall_lookup_1 _ _ _ _ Hb Hj) as Hr. cbn in Hr.
  pose proof (hdr_fill_block 0 bl (put_le 4 d 0 (u32 (Z.of_nat (length bl)))) j b) as E. cbn [Nat.add] in E.
  rewrite E; [apply s32_small; lia| |done|lia]. unfold put_le. rewrite put_bytes_length; rewrite ?length_le_bytes; lia.
Qed.

(** ** Sequences of block writes *)

Definition view (ws : list (Z * list Z)) (V : Z -> list Z) : Z -> list Z := foldl (fun V w => <[fst w := snd w]> V) V ws.
Definition apply_writes (ws : list (Z * list Z)) (m : gmap Z (list Z)) : gmap Z (list Z) :=
  foldl (fun m w => <[fst w := snd w]> m) m ws.

Lemma view_snoc ws w V : view (ws ++ [w]) V = <[fst w := snd w]> (view ws V).
Proof. unfold view, apply_writes. by rewrite foldl_snoc. Qed.

Lemma apply_snoc ws w m : apply_writes (ws ++ [w]) m = <[fst w := snd w]> (apply_writes ws m).
Proof. unfold view, apply_writes. by rewrite foldl_snoc. Qed.

Lemma apply_app ws ws' m : apply_writes (ws ++ ws') m = apply_writes ws' (apply_writes ws m).
Proof. unfold apply_writes. by rewrite foldl_app. Qed.

Lemma view_out ws V n : n ∉ ws.*1 -> view ws V n = V n.
Proof.
  induction ws as [|w ws IH] using rev_ind; [done|]. rewrite fmap_app, elem_of_app. intros Hn.
  rewrite view_snoc, fn_lookup_insert_ne; [apply IH; tauto|]. intros E. apply Hn. right.
  apply list_elem_of_singleton. congruence.
Qed.

Lemma view_in ws V j n d : NoDup ws.*1 -> ws !! j = Some (n, d) -> view ws V n = d.
Proof.
  revert j. induction ws as [|w ws IH] using rev_ind; intros j Hnd Hj; [done|].
  rewrite view_snoc. rewrite fmap_app in Hnd. apply NoDup_app in Hnd as (Hnd & Hd & _).
  apply lookup_app_Some in Hj as [Hj|[Hl Hj]].
  - rewrite fn_lookup_insert_ne; [by apply (IH j)|]. intros E. apply (Hd n); [|apply list_elem_of_singleton; congruence].
    apply list_elem_of_fmap. exists (n, d). split; [done|]. by apply list_elem_of_lookup_2 in Hj.
  - destruct (j - length ws)%nat; [|done]. injection Hj as ->. by rewrite fn_lookup_insert.
Qed.

(** Seen block by block, writing to the disk is the same. *)
Lemma apply_view ws m n : default (replicate (Z.to_nat BSIZE) 0) (apply_writes ws m !! n) =
  view ws (fun n => default (replicate (Z.to_nat BSIZE) 0) (m !! n)) n.
Proof.
  induction ws as [|w ws IH] using rev_ind; [done|]. rewrite apply_snoc, view_snoc.
  destruct (decide (n = fst w)) as [->|Hne].
  - by rewrite lookup_insert_eq, fn_lookup_insert.
  - by rewrite lookup_insert_ne, fn_lookup_insert_ne.
Qed.

(** The number of pins of the blocks [bl]. *)
Definition pins (bl : list Z) (n : Z) : Z := if decide (n ∈ bl) then 1 else 0.

Lemma room_pins bl : (length bl < NBUF)%nat -> room (pins bl).
Proof.
  intros Hl. exists bl. split; [|done]. intros n Hn. unfold pins in Hn. by destruct (decide (n ∈ bl)).
Qed.

(** The in-memory log: a transaction of the blocks [bl] on device [dv], with the
    log area from [start] on. *)
Record log_is (l : log) (dv start : Z) (bl : list Z) : Prop := {
  li_dev : log_dev l = dv;
  li_start : log_start l = start;
  li_n : lh_n l = Z.of_nat (length bl);
  li_blocks : take (length bl) (lh_block l) = bl;
  li_len : length (lh_block l) = Z.to_nat LOGSIZE
}.

(** The disk layout the log relies on: numbers in range, home blocks distinct and
    outside the log area. *)
Record log_layout (dv start : Z) (bl : list Z) : Prop := {
  ll_dev : 0 <= dv < 2 ^ 31;
  ll_start : 0 <= start;
  ll_size : start + LOGSIZE < 2 ^ 31;
  ll_len : (length bl < Z.to_nat LOGSIZE)%nat;
  ll_blocks : blocks_ok bl;
  ll_nodup : NoDup bl;
  ll_home : forall b, b ∈ bl -> ~ start <= b < start + LOGSIZE
}.

(** The state at rest between two operations on the log. *)
Definition log_state `{Devices} (s : kstate ext) (c : cpu) (i : nat) (pid dv start : Z) (bl : list Z)
    (V : Z -> list Z) (R : Z -> Z) : Prop :=
  fs_ready s c i pid /\ cache (k_ext s) pid dv V R ∅ /\ log_is (e_log (k_ext s)) dv start bl.

(** What an operation adds to the disk. *)
Definition wrote `{Devices} (ws : list (Z * list Z)) (s s' : kstate ext) : Prop :=
  e_trace (k_ext s') = e_trace (k_ext s) ++ ws /\ e_media (k_ext s') = apply_writes ws (e_media (k_ext s)).

Section LogRun.
Context `{Devices} `{RoundsOk} `{!DiskOps} `{!DiskOk}.
Implicit Types (s : kstate ext) (x : ext).

Lemma wrote_nil s s' : e_trace (k_ext s') = e_trace (k_ext s) -> e_media (k_ext s') = e_media (k_ext s) -> wrote [] s s'.
Proof. intros Et Em. split; [by rewrite app_nil_r|done]. Qed.

Lemma wrote_trans ws ws' s1 s2 s3 : wrote ws s1 s2 -> wrote ws' s2 s3 -> wrote (ws ++ ws') s1 s3.
Proof. intros [T1 M1] [T2 M2]. split; [by rewrite T2, T1, app_assoc|by rewrite M2, M1, apply_app]. Qed.

Lemma get_log_run s : get_log s = Done (e_log (k_ext s)) s.
Proof. done. Qed.

Lemma get_block_run s dv start bl k b :
  log_is (e_log (k_ext s)) dv start bl -> bl !! k = Some b -> get_block k s = Done b s.
Proof.
  intros Hl Hk. unfold get_block. mstep (get_log_run s).
  assert (E : lh_block (e_log (k_ext s)) !! k = Some b).
  { rewrite <- Hk, <- (li_blocks _ _ _ _ Hl) at 1. symmetry. apply lookup_take_lt. by apply lookup_lt_Some in Hk. }
  by rewrite E.
Qed.

(** [fs_frame] keeps the log. *)
Lemma log_is_frame x x' dv start bl : fs_frame x x' -> log_is (e_log x) dv start bl -> log_is (e_log x') dv start bl.
Proof. intros (_ & -> & _). done. Qed.

(** The body of the loop of [write_log]. *)
Definition write_log_body (tail : nat) : KM ext unit :=
  l ← get_log;
  to ← bread (u32 (log_dev l)) (u32 (log_start l + Z.of_nat tail + 1));
  src ← get_block tail;
  from ← bread (u32 (log_dev l)) (u32 src);
  fb ← get_buf from;
  mod_buf to (set_b_data (b_data fb));;
  bwrite to;;
  brelse from;;
  brelse to.

Lemma write_log_body_spec k a s c i pid dv start bl V R :
  log_state s c i pid dv start bl V R -> log_layout dv start bl -> bl !! k = Some a ->
  (forall n, R n = pins bl n) -> (length bl < NBUF)%nat ->
  let d := start + 1 + Z.of_nat k in
  exists s', write_log_body k s = Done tt s' /\ log_state s' c i pid dv start bl (<[d := V a]> V) R /\
    wrote [(d, V a)] s s'.
Proof.
  intros (Hr & Hc & Hl) Hlay Hk HR Hroom d. unfold write_log_body. mstep (get_log_run s).
  pose proof (ll_dev _ _ _ Hlay). pose proof (ll_start _ _ _ Hlay). pose proof (ll_size _ _ _ Hlay).
  pose proof (ll_len _ _ _ Hlay) as Hll. pose proof (lookup_lt_Some _ _ _ Hk) as Hklt.
  pose proof (Forall_lookup_1 _ _ _ _ (ll_blocks _ _ _ Hlay) Hk) as Ha. cbn in Ha.
  pose proof (ll_home _ _ _ Hlay a (list_elem_of_lookup_2 _ _ _ Hk)) as Hhome. unfold LOGSIZE, MAXOPBLOCKS in *.
  rewrite (li_dev _ _ _ _ Hl), (li_start _ _ _ _ Hl), !u32_small by lia.
  replace (start + Z.of_nat k + 1) with d by (unfold d; lia).
  assert (Hd : R d = 0). { rewrite HR. unfold pins. rewrite decide_False; [done|]. intros Hin.
    apply (ll_home _ _ _ Hlay d Hin). unfold d, LOGSIZE, MAXOPBLOCKS. lia. }
  assert (HaR : R a = 1) by (rewrite HR; unfold pins; rewrite decide_True; [done|by apply list_elem_of_lookup_2 in Hk]).
  assert (Hrm : room R). { destruct (room_pins bl Hroom) as (ps & Hps & Hlt). exists ps. split; [|done].
    intros n. rewrite HR. apply Hps. }
  assert (Had : a <> d) by (unfold d; lia).
  destruct (bread_spec dv d s c i pid V R ∅ Hr Hc ltac:(set_solver) ltac:(done) ltac:(lia))
    as (to & yt & s1 & H1' & Hr1 & (Hf1 & Hm1 & Ht1) & Hc1 & Hb1 & _). mstep H1'.
  pose proof (log_is_frame _ _ _ _ _ Hf1 Hl) as Hl1. mstep (get_block_run s1 dv start bl k a Hl1 Hk).
  rewrite (u32_small a) by lia.
  destruct (bread_spec dv a s1 c i pid V _ _ Hr1 Hc1 ltac:(set_solver)) as (from & yf & s2 & H2' & Hr2 & (Hf2 & Hm2 & Ht2) & Hc2 & Hb2 & Hdf & Hk2);
    [rewrite fn_lookup_insert_ne by done; lia|rewrite fn_lookup_insert_ne by done; lia|]. mstep H2'.
  mstep (get_buf_run from s2 yf ltac:(apply Hb2)). rewrite Hdf.
  specialize (Hk2 d to yt ltac:(set_solver) Hb1).
  destruct (set_data_spec dv d to yt (V a) (set_b_data (V a)) s2 c i pid _ _ _ eq_refl Hr2 Hc2 ltac:(set_solver) Hk2)
    as (s3 & H3' & Hr3 & (Hf3 & Hm3 & Ht3) & Hc3 & Hb3 & Hk3). mstep H3'. specialize (Hk3 a from yf Had Hb2).
  destruct (bwrite_spec dv d to _ s3 c i pid _ _ _ Hr3 Hc3 ltac:(set_solver) Hb3)
    as (s4 & H4' & Hr4 & Hf4 & Eb4 & Hc4 & Hm4 & Ht4). mstep H4'. rewrite fn_lookup_insert in Hm4, Ht4.
  assert (Hb4 : forall n b y, buf_of (k_ext s3) dv n b y -> buf_of (k_ext s4) dv n b y) by (intros n b y; unfold buf_of; by rewrite Eb4).
  destruct (brelse_spec dv a from yf s4 c i pid _ _ _ Hr4 Hc4 ltac:(set_solver) (Hb4 _ _ _ Hk3))
    as (s5 & H5' & Hr5 & (Hf5 & Hm5 & Ht5) & Hc5 & Hk5).
  { rewrite fn_lookup_insert, fn_lookup_insert_ne by done. lia. }
  { rewrite fn_lookup_insert, fn_lookup_insert_ne by done. lia. }
  mstep H5'. destruct (Hk5 d to _ ltac:(set_solver) ltac:(done) (Hb4 _ _ _ Hb3)) as (yt' & Hb5 & _).
  destruct (brelse_spec dv d to yt' s5 c i pid _ _ _ Hr5 Hc5 ltac:(set_solver) Hb5) as (s6 & H6' & Hr6 & (Hf6 & Hm6 & Ht6) & Hc6 & _).
  { intros _. rewrite fn_lookup_insert. unfold media. by rewrite Hm5, Hm4, lookup_insert_eq. }
  { rewrite !fn_lookup_insert_ne, fn_lookup_insert by done. lia. }
  exists s6. split; [done|]. split; [|split; [|cbn]; congruence]. split_and!; [done| |].
  - eapply cache_equiv; [..|exact Hc6]; [done| |set_solver]. intros n.
    destruct (decide (n = d)) as [->|Hnd]; [rewrite fn_lookup_insert, !fn_lookup_insert_ne, fn_lookup_insert by done; lia|].
    rewrite fn_lookup_insert_ne by done. destruct (decide (n = a)) as [->|Hna].
    + rewrite !fn_lookup_insert, fn_lookup_insert_ne by done. lia.
    + by rewrite !fn_lookup_insert_ne.
  - do 6 (eapply log_is_frame; [eassumption|]). done.
Qed.

(** The writes of [write_log] and of [install_trans] for the entries [l] from
    index [k] on. *)
Fixpoint log_writes (start : Z) (k : nat) (l : list Z) (V : Z -> list Z) : list (Z * list Z) :=
  match l with [] => [] | a :: l' => (start + 1 + Z.of_nat k, V a) :: log_writes start (S k) l' V end.

Fixpoint install_writes (start : Z) (k : nat) (l : list Z) (V : Z -> list Z) : list (Z * list Z) :=
  match l with [] => [] | a :: l' => (a, V (start + 1 + Z.of_nat k)) :: install_writes start (S k) l' V end.

Lemma log_writes_ext start k l V V' : (forall a, a ∈ l -> V a = V' a) -> log_writes start k l V = log_writes start k l V'.
Proof.
  revert k. induction l as [|a l IH]; intros k E; [done|]. cbn. rewrite (E a) by left. f_equal. apply IH.
  intros b Hb. apply E. by right.
Qed.

Lemma install_writes_ext start k l V V' :
  (forall j, (k <= j < k + length l)%nat -> V (start + 1 + Z.of_nat j) = V' (start + 1 + Z.of_nat j)) ->
  install_writes start k l V = install_writes start k l V'.
Proof.
  revert k. induction l as [|a l IH]; intros k E; [done|]. cbn [install_writes length] in *. rewrite (E k) by lia.
  f_equal. apply IH. intros j Hj. apply E. lia.
Qed.

Lemma write_log_loop c i pid dv start bl R : forall l k s V,
  log_state s c i pid dv start bl V R -> log_layout dv start bl -> (length bl < NBUF)%nat ->
  (forall n, R n = pins bl n) -> bl = take k bl ++ l -> (k <= length bl)%nat ->
  exists s', for_each (seq k (length l)) write_log_body s = Done tt s' /\
    log_state s' c i pid dv start bl (view (log_writes start k l V) V) R /\ wrote (log_writes start k l V) s s'.
Proof.
  induction l as [|a l IH]; intros k s V Hs Hlay Hlen HR Hbl Hk.
  - exists s. split_and!; [done|apply Hs..|]. by apply wrote_nil.
  - assert (Ha : bl !! k = Some a).
    { rewrite Hbl, lookup_app_r; rewrite length_take, Nat.min_l by lia; [by rewrite Nat.sub_diag|lia]. }
    destruct (write_log_body_spec k a s c i pid dv start bl V R Hs Hlay Ha HR Hlen) as (s1 & H1' & Hs1 & Hw1).
    cbn [length seq for_each]. mstep H1'. set (d := start + 1 + Z.of_nat k) in *.
    pose proof (lookup_lt_Some _ _ _ Ha) as Hklt.
    assert (Hbl' : bl = take (S k) bl ++ l).
    { rewrite (take_S_r _ _ _ Ha), <- app_assoc. exact Hbl. }
    destruct (IH (S k) s1 (<[d := V a]> V) Hs1 Hlay Hlen HR Hbl' ltac:(lia)) as (s2 & H2' & Hs2 & Hw2).
    assert (E : log_writes start (S k) l (<[d := V a]> V) = log_writes start (S k) l V).
    { apply log_writes_ext. intros b Hb. apply fn_lookup_insert_ne. intros E. pose proof (ll_len _ _ _ Hlay).
      apply (ll_home _ _ _ Hlay b); [rewrite Hbl'; apply elem_of_app; by right|].
      unfold d, LOGSIZE, MAXOPBLOCKS in *. lia. }
    rewrite E in Hs2, Hw2. exists s2. split_and!; [done|apply Hs2..|]. exact (wrote_trans _ _ _ _ _ Hw1 Hw2).
Qed.

Lemma write_log_spec s c i pid dv start bl V R :
  log_state s c i pid dv start bl V R -> log_layout dv start bl -> (length bl < NBUF)%nat -> (forall n, R n = pins bl n) ->
  exists s', write_log s = Done tt s' /\
    log_state s' c i pid dv start bl (view (log_writes start 0 bl V) V) R /\ wrote (log_writes start 0 bl V) s s'.
Proof.
  intros Hs Hlay Hlen HR. change write_log with (l ← get_log; for_each (seq 0 (Z.to_nat (lh_n l))) write_log_body).
  mstep (get_log_run s). pose proof Hs as (_ & _ & Hl). rewrite (li_n _ _ _ _ Hl), Nat2Z.id.
  apply (write_log_loop c i pid dv start bl R bl 0 s V); try done. lia.
Qed.

(** The body of the loop of [install_trans]. *)
Definition install_body (recovering : bool) (tail : nat) : KM ext unit :=
  l ← get_log;
  lbuf ← bread (u32 (log_dev l)) (u32 (log_start l + Z.of_nat tail + 1));
  dst ← get_block tail;
  dbuf ← bread (u32 (log_dev l)) (u32 dst);
  lb ← get_buf lbuf;
  mod_buf dbuf (set_b_data (b_data lb));;
  bwrite dbuf;;
  when (negb recovering) (bunpin dbuf);;
  brelse lbuf;;
  brelse dbuf.

(** One block installed; [r] is its number of pins: 1 in a commit, 0 in a
    recovery. *)
Lemma install_body_spec (recovering : bool) k a s c i pid dv start bl V R :
  log_state s c i pid dv start bl V R -> log_layout dv start bl -> bl !! k = Some a ->
  let d := start + 1 + Z.of_nat k in
  R d = 0 -> R a = (if recovering then 0 else 1) -> room R -> (R a = 0 -> room (<[d := 1]> R)) ->
  exists s', install_body recovering k s = Done tt s' /\
    log_state s' c i pid dv start bl (<[a := V d]> V) (<[a := 0]> R) /\ wrote [(a, V d)] s s'.
Proof.
  intros (Hr & Hc & Hl) Hlay Hk d Hd HaR Hrm Hrm2. unfold install_body. mstep (get_log_run s).
  pose proof (ll_dev _ _ _ Hlay). pose proof (ll_start _ _ _ Hlay). pose proof (ll_size _ _ _ Hlay).
  pose proof (ll_len _ _ _ Hlay) as Hll. pose proof (lookup_lt_Some _ _ _ Hk) as Hklt.
  pose proof (Forall_lookup_1 _ _ _ _ (ll_blocks _ _ _ Hlay) Hk) as Ha. cbn in Ha.
  pose proof (ll_home _ _ _ Hlay a (list_elem_of_lookup_2 _ _ _ Hk)) as Hhome. unfold LOGSIZE, MAXOPBLOCKS in *.
  rewrite (li_dev _ _ _ _ Hl), (li_start _ _ _ _ Hl), !u32_small by lia.
  replace (start + Z.of_nat k + 1) with d by (unfold d; lia). assert (Had : a <> d) by (unfold d; lia).
  assert (Ha01 : 0 <= R a <= 1) by (rewrite HaR; destruct recovering; lia).
  destruct (bread_spec dv d s c i pid V R ∅ Hr Hc ltac:(set_solver) ltac:(done) ltac:(lia))
    as (lb & yl & s1 & H1' & Hr1 & (Hf1 & Hm1 & Ht1) & Hc1 & Hb1 & Hdl & _). mstep H1'.
  pose proof (log_is_frame _ _ _ _ _ Hf1 Hl) as Hl1. mstep (get_block_run s1 dv start bl k a Hl1 Hk).
  rewrite (u32_small a) by lia. rewrite Hd in Hc1.
  destruct (bread_spec dv a s1 c i pid V _ _ Hr1 Hc1 ltac:(set_solver)) as (db & yd & s2 & H2' & Hr2 & (Hf2 & Hm2 & Ht2) & Hc2 & Hb2 & _ & Hk2);
    [rewrite fn_lookup_insert_ne by done; exact Hrm2|rewrite fn_lookup_insert_ne by done; lia|]. mstep H2'.
  specialize (Hk2 d lb yl ltac:(set_solver) Hb1). mstep (get_buf_run lb s2 yl ltac:(apply Hk2)). rewrite Hdl.
  destruct (set_data_spec dv a db yd (V d) (set_b_data (V d)) s2 c i pid _ _ _ eq_refl Hr2 Hc2 ltac:(set_solver) Hb2)
    as (s3 & H3' & Hr3 & (Hf3 & Hm3 & Ht3) & Hc3 & Hb3 & Hk3). mstep H3'. specialize (Hk3 d lb yl (not_eq_sym Had) Hk2).
  destruct (bwrite_spec dv a db _ s3 c i pid _ _ _ Hr3 Hc3 ltac:(set_solver) Hb3)
    as (s4 & H4' & Hr4 & Hf4 & Eb4 & Hc4 & Hm4 & Ht4). mstep H4'. rewrite fn_lookup_insert in Hm4, Ht4.
  assert (Hb4 : forall n b y, buf_of (k_ext s3) dv n b y -> buf_of (k_ext s4) dv n b y) by (intros n b y; unfold buf_of; by rewrite Eb4).
  rewrite fn_lookup_insert_ne in Hc4 by done.
  assert (Hun : exists s5 yd' yl', when (negb recovering) (bunpin db) s4 = Done tt s5 /\ fs_ready s5 c i pid /\ cache_step s4 s5 /\
    cache (k_ext s5) pid dv (<[a := V d]> V) (<[a := 1]> (<[d := 1]> R)) ({[a]} ∪ ({[d]} ∪ ∅)) /\
    buf_of (k_ext s5) dv a db yd' /\ buf_of (k_ext s5) dv d lb yl').
  { destruct recovering; cbn [negb]; [rewrite when_false|rewrite when_true].
    - exists s4, (set_b_data (V d) yd), yl. split_and!; try done; [|by apply Hb4|by apply Hb4]. rewrite HaR in Hc4. exact Hc4.
    - destruct (bunpin_spec dv a db _ s4 c i pid _ _ _ Hr4 Hc4 (Hb4 _ _ _ Hb3)) as (s5 & H5' & Hr5 & Hst5 & Hc5 & Hk5);
        [rewrite fn_lookup_insert; lia|].
      destruct (Hk5 _ _ _ _ (Hb4 _ _ _ Hb3)) as (yd' & Hyd' & _), (Hk5 _ _ _ _ (Hb4 _ _ _ Hk3)) as (yl' & Hyl' & _).
      exists s5, yd', yl'. split_and!; try done; try apply Hst5. eapply cache_equiv; [..|exact Hc5]; [done| |done].
      intros n. destruct (decide (n = a)) as [->|Hna]; [rewrite !fn_lookup_insert; lia|].
      by rewrite !(fn_lookup_insert_ne _ a n _). }
  destruct Hun as (s5 & yd' & yl' & H5' & Hr5 & (Hf5 & Hm5 & Ht5) & Hc5 & Hbd5 & Hbl5). mstep H5'.
  assert (Hcl : V d = media (k_ext s) d) by apply (ca_clean _ _ _ _ _ _ Hc d Hd).
  destruct (brelse_spec dv d lb yl' s5 c i pid _ _ _ Hr5 Hc5 ltac:(set_solver) Hbl5)
    as (s6 & H6' & Hr6 & (Hf6 & Hm6 & Ht6) & Hc6 & Hk6).
  { intros _. rewrite fn_lookup_insert_ne by done. unfold media in *. rewrite Hm5, Hm4, lookup_insert_ne by done. congruence. }
  { rewrite fn_lookup_insert_ne, fn_lookup_insert by done. lia. }
  mstep H6'. destruct (Hk6 a db yd' ltac:(set_solver) ltac:(done) Hbd5) as (yd6 & Hbd6 & _).
  destruct (brelse_spec dv a db yd6 s6 c i pid _ _ _ Hr6 Hc6 ltac:(set_solver) Hbd6) as (s7 & H7' & Hr7 & (Hf7 & Hm7 & Ht7) & Hc7 & _).
  { intros _. rewrite fn_lookup_insert. unfold media. by rewrite Hm6, Hm5, Hm4, lookup_insert_eq. }
  { rewrite fn_lookup_insert_ne, fn_lookup_insert by done. lia. }
  exists s7. split; [done|]. split; [|split; [|cbn]; congruence]. split_and!; [done| |].
  - eapply cache_equiv; [..|exact Hc7]; [done| |set_solver]. intros n.
    destruct (decide (n = a)) as [->|Hna]; [rewrite !fn_lookup_insert, fn_lookup_insert_ne, fn_lookup_insert by done; lia|].
    rewrite !(fn_lookup_insert_ne _ a n _) by done. destruct (decide (n = d)) as [->|Hnd].
    + rewrite !fn_lookup_insert, fn_lookup_insert_ne, fn_lookup_insert by done. lia.
    + by rewrite !fn_lookup_insert_ne.
  - do 7 (eapply log_is_frame; [eassumption|]). done.
Qed.

(** The state is described up to pointwise equality of the reference counts. *)
Lemma log_state_equiv s c i pid dv start bl V V' R R' :
  (forall n, V n = V' n) -> (forall n, R n = R' n) -> log_state s c i pid dv start bl V R ->
  log_state s c i pid dv start bl V' R'.
Proof. intros EV ER (Hr & Hc & Hl). split_and!; try done. by eapply cache_equiv; [..|exact Hc]. Qed.

(** The pins left when the entries [l] are still to be installed. *)
Definition left_pins (recovering : bool) (l : list Z) (n : Z) : Z := if recovering then 0 else pins l n.

Lemma install_loop (recovering : bool) c i pid dv start bl : forall l k s V,
  log_state s c i pid dv start bl V (left_pins recovering l) -> log_layout dv start bl -> (length bl < NBUF)%nat ->
  bl = take k bl ++ l -> (k <= length bl)%nat ->
  exists s', for_each (seq k (length l)) (install_body recovering) s = Done tt s' /\
    log_state s' c i pid dv start bl (view (install_writes start k l V) V) (fun _ => 0) /\
    wrote (install_writes start k l V) s s'.
Proof.
  induction l as [|a l IH]; intros k s V Hs Hlay Hlen Hbl Hk.
  - exists s. split_and!; [done| |by apply wrote_nil]. eapply log_state_equiv; [done| |exact Hs]. by destruct recovering.
  - assert (Ha : bl !! k = Some a).
    { rewrite Hbl, lookup_app_r; rewrite length_take, Nat.min_l by lia; [by rewrite Nat.sub_diag|lia]. }
    pose proof (lookup_lt_Some _ _ _ Ha) as Hklt. pose proof (ll_len _ _ _ Hlay) as Hll.
    assert (Hsub : forall b, b ∈ a :: l -> b ∈ bl) by (intros b Hb; rewrite Hbl; apply elem_of_app; by right).
    assert (Hlog : forall j, (j < length bl)%nat -> start + 1 + Z.of_nat j ∉ a :: l).
    { intros j Hj Hin. apply (ll_home _ _ _ Hlay _ (Hsub _ Hin)). unfold LOGSIZE, MAXOPBLOCKS in *. lia. }
    assert (Hnd : a ∉ l).
    { pose proof (ll_nodup _ _ _ Hlay) as Hnd. rewrite Hbl in Hnd. apply NoDup_app in Hnd as (_ & _ & Hnd).
      by apply NoDup_cons in Hnd as [? _]. }
    assert (Hll' : (length (a :: l) <= length bl)%nat) by (rewrite Hbl, length_app; lia).
    destruct (install_body_spec recovering k a s c i pid dv start bl V (left_pins recovering (a :: l)) Hs Hlay Ha)
      as (s1 & H1' & Hs1 & Hw1).
    + unfold left_pins, pins. destruct recovering; [done|]. by rewrite decide_False by (apply Hlog; lia).
    + unfold left_pins, pins. destruct recovering; [done|]. by rewrite decide_True by left.
    + destruct recovering; [exists []; split; [cbn; lia|unfold NBUF; cbn; lia]|]. apply room_pins. lia.
    + intros Hz. exists [start + 1 + Z.of_nat k]. split; [|unfold NBUF; cbn; lia]. intros n Hn.
      destruct (decide (n = start + 1 + Z.of_nat k)) as [->|Hne]; [by left|]. rewrite fn_lookup_insert_ne in Hn by done.
      unfold left_pins, pins in *. destruct recovering; [lia|]. by rewrite decide_True in Hz by left.
    + set (d := start + 1 + Z.of_nat k) in *. cbn [length seq for_each]. mstep H1'.
      assert (Hbl' : bl = take (S k) bl ++ l) by (rewrite (take_S_r _ _ _ Ha), <- app_assoc; exact Hbl).
      apply (log_state_equiv _ _ _ _ _ _ _ _ _ _ (left_pins recovering l) (fun n => eq_refl)) in Hs1.
      2: { intros n. destruct (decide (n = a)) as [->|Hne].
           - rewrite fn_lookup_insert. unfold left_pins, pins. destruct recovering; [done|]. by rewrite decide_False.
           - rewrite fn_lookup_insert_ne by done. unfold left_pins, pins. destruct recovering; [done|].
             destruct (decide (n ∈ l)); [by rewrite decide_True by (by right)|].
             rewrite decide_False; [done|]. rewrite elem_of_cons. tauto. }
      destruct (IH (S k) s1 (<[a := V d]> V) Hs1 Hlay Hlen Hbl' ltac:(lia)) as (s2 & H2' & Hs2 & Hw2).
      assert (E : install_writes start (S k) l (<[a := V d]> V) = install_writes start (S k) l V).
      { apply install_writes_ext. intros j Hj. apply fn_lookup_insert_ne. intros E. cbn in Hll'.
        apply (Hlog j); [|rewrite <- E; by left]. rewrite Hbl, length_app, length_take, Nat.min_l by lia. cbn. lia. }
      rewrite E in Hs2, Hw2. exists s2. split_and!; [done|apply Hs2..|]. exact (wrote_trans _ _ _ _ _ Hw1 Hw2).
Qed.

Lemma install_spec (recovering : bool) s c i pid dv start bl V :
  log_state s c i pid dv start bl V (left_pins recovering bl) -> log_layout dv start bl -> (length bl < NBUF)%nat ->
  exists s', install_trans recovering s = Done tt s' /\
    log_state s' c i pid dv start bl (view (install_writes start 0 bl V) V) (fun _ => 0) /\
    wrote (install_writes start 0 bl V) s s'.
Proof.
  intros Hs Hlay Hlen.
  change (install_trans recovering) with (l ← get_log; for_each (seq 0 (Z.to_nat (lh_n l))) (install_body recovering)).
  mstep (get_log_run s). pose proof Hs as (_ & _ & Hl). rewrite (li_n _ _ _ _ Hl), Nat2Z.id.
  apply (install_loop recovering c i pid dv start bl bl 0 s V); try done. lia.
Qed.

(** Changing the log leaves the cache alone. *)
Lemma cache_log l x pid dv V R L : cache x pid dv V R L -> cache (set_e_log l x) pid dv V R L.
Proof. intros []. by split. Qed.

Lemma mod_log_state f s c i pid dv start bl bl' V R :
  log_state s c i pid dv start bl V R -> log_is (f (e_log (k_ext s))) dv start bl' ->
  exists s', mod_log f s = Done tt s' /\ log_state s' c i pid dv start bl' V R /\ wrote [] s s' /\
    e_log (k_ext s') = f (e_log (k_ext s)).
Proof.
  intros (Hr & Hc & Hl) Hl'. eexists. split; [reflexivity|]. split; [|split; [by apply wrote_nil|done]].
  split_and!; [by apply (fs_ready_same s)|by apply cache_log|done].
Qed.

(** The loop of [write_head] on the locked header block. *)
Lemma hdr_loop b c i pid dv start bl R : forall l k s V y,
  fs_ready s c i pid -> cache (k_ext s) pid dv V R {[start]} -> log_is (e_log (k_ext s)) dv start bl ->
  buf_of (k_ext s) dv start b y -> bl = take k bl ++ l -> (k <= length bl)%nat ->
  exists s' y', for_each (seq k (length l)) (fun i =>
      v ← get_block i;
      mod_buf b (fun hb => set_b_data (put_le 4 (b_data hb) (4 + 4 * Z.of_nat i) (u32 v)) hb)) s = Done tt s' /\
    fs_ready s' c i pid /\ cache (k_ext s') pid dv (<[start := hdr_fill k l (b_data y)]> V) R {[start]} /\
    cache_step s s' /\ buf_of (k_ext s') dv start b y'.
Proof.
  induction l as [|v l IH]; intros k s V y Hr Hc Hl Hb Hbl Hk.
  - exists s, y. split_and!; try done. eapply cache_equiv; [..|exact Hc]; try done. intros n. cbn [hdr_fill].
    destruct (decide (n = start)) as [->|Hne]; [|by rewrite fn_lookup_insert_ne]. rewrite fn_lookup_insert.
    symmetry. apply (cache_held _ _ _ _ _ _ start b y Hc); set_solver.
  - assert (Ha : bl !! k = Some v).
    { rewrite Hbl, lookup_app_r; rewrite length_take, Nat.min_l by lia; [by rewrite Nat.sub_diag|lia]. }
    pose proof (lookup_lt_Some _ _ _ Ha) as Hklt. cbn [length seq for_each].
    set (d := put_le 4 (b_data y) (4 + 4 * Z.of_nat k) (u32 v)).
    destruct (set_data_spec dv start b y d (fun hb => set_b_data (put_le 4 (b_data hb) (4 + 4 * Z.of_nat k) (u32 v)) hb)
      s c i pid V R {[start]} eq_refl Hr Hc ltac:(set_solver) Hb) as (s1 & H1' & Hr1 & (Hf1 & Hm1 & Ht1) & Hc1 & Hb1 & _).
    assert (Hrun : (v0 ← get_block k; mod_buf b (fun hb => set_b_data (put_le 4 (b_data hb) (4 + 4 * Z.of_nat k) (u32 v0)) hb)) s
      = Done tt s1) by (mstep (get_block_run s dv start bl k v Hl Ha); done).
    mstep Hrun. assert (Hbl' : bl = take (S k) bl ++ l) by (rewrite (take_S_r _ _ _ Ha), <- app_assoc; exact Hbl).
    destruct (IH (S k) s1 _ _ Hr1 Hc1 (log_is_frame _ _ _ _ _ Hf1 Hl) Hb1 Hbl' ltac:(lia))
      as (s2 & y2 & H2' & Hr2 & Hc2 & (Hf2 & Hm2 & Ht2) & Hb2).
    exists s2, y2. split_and!; try done; [|split_and!; [by apply (fs_frame_trans _ (k_ext s1))|congruence..]].
    eapply cache_equiv; [..|exact Hc2]; try done. intros n. destruct (decide (n = start)) as [->|Hne].
    + by rewrite !fn_lookup_insert.
    + by rewrite !fn_lookup_insert_ne.
Qed.

(** [write_head] writes the header block of the current transaction. *)
Lemma write_head_spec s c i pid dv start bl V R :
  log_state s c i pid dv start bl V R -> log_layout dv start bl -> R start = 0 -> room R ->
  exists s', write_head s = Done tt s' /\
    log_state s' c i pid dv start bl (<[start := hdr_of (V start) bl]> V) R /\
    wrote [(start, hdr_of (V start) bl)] s s'.
Proof.
  intros (Hr & Hc & Hl) Hlay HR Hrm. unfold write_head. mstep (get_log_run s).
  pose proof (ll_dev _ _ _ Hlay). pose proof (ll_start _ _ _ Hlay). pose proof (ll_size _ _ _ Hlay).
  unfold LOGSIZE, MAXOPBLOCKS in *. rewrite (li_dev _ _ _ _ Hl), (li_start _ _ _ _ Hl), (u32_small dv), (u32_small start) by lia.
  destruct (bread_spec dv start s c i pid V R ∅ Hr Hc ltac:(set_solver) ltac:(done) ltac:(lia))
    as (b & y & s1 & H1' & Hr1 & (Hf1 & Hm1 & Ht1) & Hc1 & Hb1 & Hd1 & _). mstep H1'.
  assert (Hc1' : cache (k_ext s1) pid dv V (<[start := 1]> R) {[start]}).
  { eapply cache_equiv; [..|exact Hc1]; [done| |set_solver]. by rewrite HR. }
  rewrite (li_n _ _ _ _ Hl), Nat2Z.id.
  set (d0 := put_le 4 (b_data y) 0 (u32 (Z.of_nat (length bl)))).
  destruct (set_data_spec dv start b y d0 (fun hb => set_b_data (put_le 4 (b_data hb) 0 (u32 (Z.of_nat (length bl)))) hb)
    s1 c i pid V _ _ eq_refl Hr1 Hc1' ltac:(set_solver) Hb1) as (s2 & H2' & Hr2 & (Hf2 & Hm2 & Ht2) & Hc2 & Hb2 & _). mstep H2'.
  pose proof (log_is_frame _ _ _ _ _ Hf2 (log_is_frame _ _ _ _ _ Hf1 Hl)) as Hl2.
  destruct (hdr_loop b c i pid dv start bl _ bl 0 s2 _ _ Hr2 Hc2 Hl2 Hb2 eq_refl ltac:(lia))
    as (s3 & y3 & H3' & Hr3 & Hc3 & (Hf3 & Hm3 & Ht3) & Hb3). mstep H3'.
  cbn [b_data set_b_data] in Hc3. change (hdr_fill 0 bl d0) with (hdr_of (b_data y) bl) in Hc3. rewrite Hd1 in Hc3.
  destruct (bwrite_spec dv start b y3 s3 c i pid _ _ _ Hr3 Hc3 ltac:(set_solver) Hb3)
    as (s4 & H4' & Hr4 & Hf4 & Eb4 & Hc4 & Hm4 & Ht4). mstep H4'. rewrite fn_lookup_insert in Hm4, Ht4.
  destruct (brelse_spec dv start b y3 s4 c i pid _ _ _ Hr4 Hc4 ltac:(set_solver)) as (s5 & H5' & Hr5 & (Hf5 & Hm5 & Ht5) & Hc5 & _).
  { unfold buf_of. rewrite Eb4. exact Hb3. }
  { intros _. rewrite fn_lookup_insert. unfold media. by rewrite Hm4, lookup_insert_eq. }
  { rewrite fn_lookup_insert. lia. }
  exists s5. split; [done|]. split; [|split; [|cbn]; congruence]. split_and!; [done| |].
  - eapply cache_equiv; [..|exact Hc5]; [| |set_solver]; intros n; destruct (decide (n = start)) as [->|Hne];
      rewrite ?fn_lookup_insert, ?fn_lookup_insert_ne by done; done || lia.
  - eapply log_is_frame; [exact Hf5|]. eapply log_is_frame; [exact Hf4|]. by eapply log_is_frame; [exact Hf3|].
Qed.

(** [read_head] loads the transaction recorded in the header block. *)
Lemma read_head_spec s c i pid dv start bl0 bl V R :
  log_state s c i pid dv start bl0 V R -> log_layout dv start bl -> R start = 0 -> room R ->
  hdr_n (V start) = Z.of_nat (length bl) -> (forall k b, bl !! k = Some b -> hdr_block (V start) k = b) ->
  exists s', read_head s = Done tt s' /\ log_state s' c i pid dv start bl V R /\ wrote [] s s'.
Proof.
  intros (Hr & Hc & Hl) Hlay HR Hrm Hn Hblk. unfold read_head. mstep (get_log_run s).
  pose proof (ll_dev _ _ _ Hlay). pose proof (ll_start _ _ _ Hlay). pose proof (ll_size _ _ _ Hlay).
  unfold LOGSIZE, MAXOPBLOCKS in *. rewrite (li_dev _ _ _ _ Hl), (li_start _ _ _ _ Hl), (u32_small dv), (u32_small start) by lia.
  destruct (bread_spec dv start s c i pid V R ∅ Hr Hc ltac:(set_solver) ltac:(done) ltac:(lia))
    as (b & y & s1 & H1' & Hr1 & (Hf1 & Hm1 & Ht1) & Hc1 & Hb1 & Hd1 & _). mstep H1'.
  mstep (get_buf_run b s1 y ltac:(apply Hb1)). rewrite Hd1, Hn, Nat2Z.id.
  assert (Hloop : forall k, (k <= length bl)%nat -> exists l2,
    (mod_log (set_lh_n (Z.of_nat (length bl)));; for_each (seq 0 k) (fun i => set_block i (hdr_block (V start) i))) s1 =
      Done tt (with_ext (set_e_log l2) s1) /\
    log_dev l2 = dv /\ log_start l2 = start /\ lh_n l2 = Z.of_nat (length bl) /\ take k (lh_block l2) = take k bl /\
    length (lh_block l2) = Z.to_nat LOGSIZE).
  { pose proof (log_is_frame _ _ _ _ _ Hf1 Hl) as Hl1. pose proof (ll_len _ _ _ Hlay) as Hll.
    induction k as [|k IH]; intros Hk.
    - exists (set_lh_n (Z.of_nat (length bl)) (e_log (k_ext s1))). split; [reflexivity|]. destruct Hl1. by split_and!.
    - destruct (IH ltac:(lia)) as (l2 & Hrun & H1'' & H2'' & H3'' & H4'' & H5''). rewrite seq_S. cbn [Nat.add].
      destruct (lookup_lt_is_Some_2 bl k) as [v Hv]; [lia|].
      unfold mod_log, mod_ext in *. rewrite bind_modify in *. rewrite (for_each_app _ _ _ _ _ Hrun). cbn [for_each].
      destruct (lookup_lt_is_Some_2 (lh_block l2) k) as [w Hw]; [lia|].
      assert (Hset : set_block k (hdr_block (V start) k) (with_ext (set_e_log l2) s1) =
        Done tt (with_ext (set_e_log (set_lh_block (<[k := v]> (lh_block l2)) l2)) s1)).
      { unfold set_block. assert (Hg : get_block k (with_ext (set_e_log l2) s1) = Done w (with_ext (set_e_log l2) s1))
          by (unfold get_block, get_log, get_ext; rewrite bind_gets; cbn; by rewrite Hw).
        mstep Hg. rewrite (Hblk k v Hv). reflexivity. }
      mstep Hset. eexists. split; [reflexivity|]. cbn. split_and!; try done; [|by rewrite length_insert].
      rewrite (take_S_r _ _ v) by (apply list_lookup_insert_eq; by apply lookup_lt_Some in Hw).
      rewrite take_insert_ge by lia. by rewrite (take_S_r _ _ _ Hv), H4''. }
  destruct (Hloop (length bl) ltac:(lia)) as (l2 & Hrun & H1'' & H2'' & H3'' & H4'' & H5'').
  unfold mod_log, mod_ext in *. rewrite bind_modify in *. mstep Hrun. set (s2 := with_ext _ s1).
  assert (Hr2 : fs_ready s2 c i pid) by by apply fs_ready_ext.
  assert (Hc2 : cache (k_ext s2) pid dv V (<[start := R start + 1]> R) ({[start]} ∪ ∅)) by by apply cache_log.
  destruct (brelse_spec dv start b y s2 c i pid _ _ _ Hr2 Hc2 ltac:(set_solver) Hb1) as (s3 & H3' & Hr3 & (Hf3 & Hm3 & Ht3) & Hc3 & _).
  { intros _. assert (E : V start = media (k_ext s) start) by apply (ca_clean _ _ _ _ _ _ Hc start HR).
    unfold media in *. cbn. by rewrite Hm1. }
  { rewrite fn_lookup_insert. lia. }
  exists s3. split; [done|]. split; [|apply wrote_nil; [rewrite Ht3; exact Ht1|rewrite Hm3; exact Hm1]].
  split_and!; [done| |].
  - eapply cache_equiv; [..|exact Hc3]; [done| |set_solver]. intros n. destruct (decide (n = start)) as [->|Hne];
      rewrite ?fn_lookup_insert, ?fn_lookup_insert_ne by done; done || lia.
  - eapply log_is_frame; [exact Hf3|]. split; try done. cbn. by rewrite H4'', firstn_all.
Qed.

(** ** Commit and recovery *)

Lemma log_writes_keys start k l V n : n ∈ (log_writes start k l V).*1 -> start + 1 + Z.of_nat k <= n < start + 1 + Z.of_nat (k + length l).
Proof.
  revert k. induction l as [|a l IH]; intros k Hn; [by apply elem_of_nil in Hn|]. cbn [log_writes fmap list_fmap fst length] in *.
  apply elem_of_cons in Hn as [->|Hn]; [lia|]. specialize (IH (S k) Hn). lia.
Qed.

Lemma log_writes_nodup start k l V : NoDup (log_writes start k l V).*1.
Proof.
  revert k. induction l as [|a l IH]; intros k; [constructor|]. cbn [log_writes fmap list_fmap fst]. constructor; [|apply IH].
  intros Hn. apply log_writes_keys in Hn. lia.
Qed.

Lemma log_writes_lookup start k l V j a :
  l !! j = Some a -> log_writes start k l V !! j = Some (start + 1 + Z.of_nat (k + j), V a).
Proof.
  revert k j. induction l as [|b l IH]; intros k [|j] Hj; try done.
  - injection Hj as ->. cbn. by rewrite Nat.add_0_r.
  - transitivity (log_writes start (S k) l V !! j); [done|]. rewrite (IH (S k) j Hj). do 3 f_equal. lia.
Qed.

Lemma log_writes_len start k l V : length (log_writes start k l V) = length l.
Proof. revert k. induction l; intros k; cbn; auto. Qed.

Lemma install_writes_keys start k l V : (install_writes start k l V).*1 = l.
Proof. revert k. induction l as [|a l IH]; intros k; cbn; [done|]. by rewrite IH. Qed.

Lemma install_writes_lookup start k l V j a :
  l !! j = Some a -> install_writes start k l V !! j = Some (a, V (start + 1 + Z.of_nat (k + j))).
Proof.
  revert k j. induction l as [|b l IH]; intros k [|j] Hj; try done.
  - injection Hj as ->. cbn. by rewrite Nat.add_0_r.
  - transitivity (install_writes start (S k) l V !! j); [done|]. rewrite (IH (S k) j Hj). do 4 f_equal. lia.
Qed.

(** The writes of a commit of the blocks [bl], whose contents are [V]. *)
Definition commit_writes (start : Z) (bl : list Z) (V : Z -> list Z) : list (Z * list Z) :=
  log_writes start 0 bl V ++ (start, hdr_of (V start) bl) ::
  ((fun a => (a, V a)) <$> bl) ++ [(start, hdr_of (hdr_of (V start) bl) [])].

Lemma log_is_clear l dv start bl : log_is l dv start bl -> log_is (set_lh_n 0 l) dv start [].
Proof. intros []. by split. Qed.

Lemma log_layout_nil dv start bl : log_layout dv start bl -> log_layout dv start [].
Proof. intros []. split; try done; [cbn; lia|constructor|constructor|]. intros b Hb. by apply elem_of_nil in Hb. Qed.

(** What the log area holds after [write_log]. *)
Lemma view_log start bl V j a :
  bl !! j = Some a -> view (log_writes start 0 bl V) V (start + 1 + Z.of_nat j) = V a.
Proof.
  intros Hj. apply (view_in _ _ j); [apply log_writes_nodup|]. exact (log_writes_lookup start 0 bl V j a Hj).
Qed.

Lemma install_from_log start bl V V2 :
  (forall j a, bl !! j = Some a -> V2 (start + 1 + Z.of_nat j) = V a) ->
  install_writes start 0 bl V2 = (fun a => (a, V a)) <$> bl.
Proof.
  intros HV. apply list_eq. intros j. rewrite list_lookup_fmap. destruct (bl !! j) as [a|] eqn:Hj.
  - rewrite (install_writes_lookup _ _ _ _ _ _ Hj). cbn. by rewrite (HV j a Hj).
  - apply lookup_ge_None_2. apply lookup_ge_None_1 in Hj.
    rewrite <- (length_fmap fst), install_writes_keys. done.
Qed.

Lemma commit_spec s c i pid dv start bl V :
  log_state s c i pid dv start bl V (pins bl) -> log_layout dv start bl -> bl <> [] -> (length bl < NBUF)%nat ->
  exists s' V', commit s = Done tt s' /\ log_state s' c i pid dv start [] V' (fun _ => 0) /\
    wrote (commit_writes start bl V) s s'.
Proof.
  intros Hs Hlay Hne Hlen. unfold commit. mstep (get_log_run s). pose proof Hs as (_ & _ & Hl).
  rewrite (li_n _ _ _ _ Hl). rewrite (proj2 (Z.ltb_lt _ _)) by (destruct bl; [done|cbn; lia]). rewrite when_true.
  assert (Hst : start ∉ bl). { intros Hin. apply (ll_home _ _ _ Hlay start Hin). unfold LOGSIZE, MAXOPBLOCKS. lia. }
  assert (Hps : pins bl start = 0) by (unfold pins; by rewrite decide_False).
  destruct (write_log_spec s c i pid dv start bl V (pins bl) Hs Hlay Hlen (fun _ => eq_refl)) as (s1 & H1' & Hs1 & Hw1). mstep H1'.
  set (V1 := view (log_writes start 0 bl V) V) in *.
  assert (HV1 : V1 start = V start).
  { apply view_out. intros Hin. apply log_writes_keys in Hin. lia. }
  destruct (write_head_spec s1 c i pid dv start bl V1 _ Hs1 Hlay Hps (room_pins bl Hlen)) as (s2 & H2' & Hs2 & Hw2). mstep H2'.
  rewrite HV1 in Hs2, Hw2. set (V2 := <[start := hdr_of (V start) bl]> V1) in *.
  destruct (install_spec false s2 c i pid dv start bl V2 Hs2 Hlay Hlen) as (s3 & H3' & Hs3 & Hw3). mstep H3'.
  assert (E : install_writes start 0 bl V2 = (fun a => (a, V a)) <$> bl).
  { apply install_from_log. intros j b Hj. unfold V2. rewrite fn_lookup_insert_ne by lia. by apply view_log. }
  rewrite E in Hs3, Hw3.
  set (V3 := view _ V2) in *.
  assert (HV3 : V3 start = hdr_of (V start) bl).
  { unfold V3. rewrite view_out; [apply fn_lookup_insert|]. rewrite <- list_fmap_compose.
    intros Hin. apply list_elem_of_fmap in Hin as (b & -> & Hb). done. }
  pose proof Hs3 as (_ & _ & Hl3).
  destruct (mod_log_state (set_lh_n 0) s3 c i pid dv start bl [] V3 _ Hs3 (log_is_clear _ _ _ _ Hl3)) as (s4 & H4' & Hs4 & Hw4 & _). mstep H4'.
  destruct (write_head_spec s4 c i pid dv start [] V3 _ Hs4 (log_layout_nil _ _ _ Hlay) eq_refl) as (s5 & H5' & Hs5 & Hw5).
  { exists []. split; [intros n Hn; lia|unfold NBUF; cbn; lia]. }
  rewrite HV3 in Hs5, Hw5. exists s5. eexists. split_and!; [done|apply Hs5..|].
  unfold commit_writes. pose proof (wrote_trans _ _ _ _ _ Hw1 (wrote_trans _ _ _ _ _ Hw2 (wrote_trans _ _ _ _ _ Hw3
    (wrote_trans _ _ _ _ _ Hw4 Hw5)))) as Hw. exact Hw.
Qed.

(** Recovery installs the transaction [bl] of the header block. *)
Lemma recover_spec s c i pid dv start bl0 bl V :
  log_state s c i pid dv start bl0 V (fun _ => 0) -> log_layout dv start bl -> (length bl < NBUF)%nat ->
  hdr_n (V start) = Z.of_nat (length bl) -> (forall k b, bl !! k = Some b -> hdr_block (V start) k = b) ->
  exists s' V', recover_from_log s = Done tt s' /\ log_state s' c i pid dv start [] V' (fun _ => 0) /\
    wrote (install_writes start 0 bl V ++ [(start, hdr_of (V start) [])]) s s'.
Proof.
  intros Hs Hlay Hlen Hn Hb. unfold recover_from_log.
  assert (Hrm : room (fun _ => 0)) by (exists []; split; [intros n Hx; lia|unfold NBUF; cbn; lia]).
  destruct (read_head_spec s c i pid dv start bl0 bl V _ Hs Hlay eq_refl Hrm Hn Hb) as (s1 & H1' & Hs1 & Hw1). mstep H1'.
  destruct (install_spec true s1 c i pid dv start bl V Hs1 Hlay Hlen) as (s2 & H2' & Hs2 & Hw2). mstep H2'.
  pose proof Hs2 as (_ & _ & Hl2).
  destruct (mod_log_state (set_lh_n 0) s2 c i pid dv start bl [] _ _ Hs2 (log_is_clear _ _ _ _ Hl2)) as (s3 & H3' & Hs3 & Hw3 & _). mstep H3'.
  destruct (write_head_spec s3 c i pid dv start [] _ _ Hs3 (log_layout_nil _ _ _ Hlay) eq_refl Hrm) as (s4 & H4' & Hs4 & Hw4).
  rewrite (view_out _ _ start) in Hw4.
  2: { rewrite install_writes_keys. intros Hin. apply (ll_home _ _ _ Hlay start Hin). unfold LOGSIZE, MAXOPBLOCKS. lia. }
  exists s4. eexists. split_and!; [done|apply Hs4..|].
  exact (wrote_trans _ _ _ _ _ Hw1 (wrote_trans _ _ _ _ _ Hw2 (wrote_trans _ _ _ _ _ Hw3 Hw4))).
Qed.

(** Recovery of the disk of [s], read through an empty cache. *)
Lemma recover_media s c i pid dv start bl V :
  log_state s c i pid dv start [] V (fun _ => 0) -> log_layout dv start bl -> (length bl < NBUF)%nat ->
  (4 <= length (media (k_ext s) start))%nat -> hdr_n (media (k_ext s) start) = Z.of_nat (length bl) ->
  (forall k b, bl !! k = Some b -> hdr_block (media (k_ext s) start) k = b) ->
  exists s2, recover_from_log s = Done tt s2 /\ hdr_n (media (k_ext s2) start) = 0 /\
    (forall k a, bl !! k = Some a -> media (k_ext s2) a = media (k_ext s) (start + 1 + Z.of_nat k)) /\
    (forall m, m ∉ bl -> m <> start -> media (k_ext s2) m = media (k_ext s) m).
Proof.
  intros Hs Hlay Hlen Hl4 Hn Hb. pose proof Hs as (_ & Hc & _).
  assert (HV : forall n, V n = media (k_ext s) n) by (intros n; by apply (ca_clean _ _ _ _ _ _ Hc)).
  destruct (recover_spec s c i pid dv start [] bl V Hs Hlay Hlen) as (s2 & V2 & H2' & _ & Ht & Hm);
    [by rewrite HV|intros k b; rewrite HV; apply Hb|].
  assert (HM : forall m, media (k_ext s2) m = <[start := hdr_of (V start) []]> (view (install_writes start 0 bl V) (media (k_ext s))) m).
  { intros m. unfold media at 1. rewrite Hm, apply_view, view_snoc. reflexivity. }
  assert (Hst : start ∉ bl). { intros Hin. apply (ll_home _ _ _ Hlay start Hin). unfold LOGSIZE, MAXOPBLOCKS. lia. }
  exists s2. split_and!; [done|..].
  - rewrite HM, fn_lookup_insert, hdr_of_n; [done|rewrite HV; cbn; lia|cbn; lia].
  - intros k b Hk. rewrite HM, fn_lookup_insert_ne by (intros ->; by apply list_elem_of_lookup_2 in Hk).
    rewrite (view_in _ _ k b (V (start + 1 + Z.of_nat k))); [apply HV| |exact (install_writes_lookup start 0 bl V k b Hk)].
    rewrite install_writes_keys. apply Hlay.
  - intros m Hm' Hne. rewrite HM, fn_lookup_insert_ne by done. apply view_out. by rewrite install_writes_keys.
Qed.

(** The blocks outside the log area. *)
Definition home (start m : Z) : Prop := ~ start <= m < start + LOGSIZE.

End LogRun.

(** ** Properties *)

Section Properties.
Context `{Devices} `{RoundsOk} `{!DiskOps} `{!DiskOk}.

(** The disk after a crash in the middle of a commit, at the header block, at a
    home block and at a log block. *)
Lemma crash_disk (m : gmap Z (list Z)) dv start bl (V : Z -> list Z) j :
  let D := view (take j (commit_writes start bl V)) (fun n => default (replicate (Z.to_nat BSIZE) 0) (m !! n)) in
  let D0 := fun n => default (replicate (Z.to_nat BSIZE) 0) (m !! n) in
  log_layout dv start bl -> (forall n, n ∉ bl -> V n = D0 n) ->
  ((j <= length bl)%nat -> D start = D0 start /\ forall n, home start n -> D n = D0 n) /\
  ((length bl < j <= 1 + 2 * length bl)%nat -> D start = hdr_of (V start) bl /\
     (forall n, home start n -> n ∉ bl -> D n = V n) /\
     (forall k a, bl !! k = Some a -> D (start + 1 + Z.of_nat k) = V a)) /\
  ((1 + 2 * length bl < j)%nat -> D start = hdr_of (hdr_of (V start) bl) [] /\ forall n, home start n -> D n = V n).
Proof.
  intros D D0 Hlay HV. unfold D, commit_writes. pose proof (ll_len _ _ _ Hlay) as Hll.
  assert (Hkey : forall n, home start n \/ n = start -> n ∉ (log_writes start 0 bl V).*1).
  { intros n Hn Hin. apply log_writes_keys in Hin. unfold home, LOGSIZE, MAXOPBLOCKS in *. lia. }
  assert (Hst : start ∉ bl). { intros Hin. apply (ll_home _ _ _ Hlay start Hin). unfold LOGSIZE, MAXOPBLOCKS. lia. }
  assert (Hneq : forall n, home start n -> n <> start) by (unfold home, LOGSIZE, MAXOPBLOCKS; intros n Hn; lia).
  set (w1 := log_writes start 0 bl V) in *. set (h := hdr_of (V start) bl).
  set (w3 := (fun a => (a, V a)) <$> bl). assert (Hw1 : length w1 = length bl) by apply log_writes_len.
  assert (Hw3 : w3.*1 = bl) by (unfold w3; rewrite <- list_fmap_compose; apply list_fmap_id).
  assert (Hl3 : length w3 = length bl) by apply length_fmap.
  split_and!; intros Hj.
  - rewrite take_app_le by lia.
    assert (Hk : forall n, n ∉ w1.*1 -> n ∉ (take j w1).*1).
    { intros n Hn Hin. apply Hn. rewrite fmap_take in Hin. apply elem_of_take in Hin as (q & Hq & _). by apply list_elem_of_lookup_2 in Hq. }
    split; [apply view_out, Hk, Hkey; by right|]. intros n Hn. apply view_out, Hk, Hkey. by left.
  - replace j with (length w1 + S (j - 1 - length bl))%nat by lia. rewrite firstn_app_2. cbn [take].
    rewrite take_app_le by lia. set (r := take _ w3).
    assert (Hr : forall n, n ∉ bl -> n ∉ r.*1).
    { intros n Hn Hin. apply Hn. rewrite <- Hw3. unfold r in Hin. rewrite fmap_take in Hin.
      apply elem_of_take in Hin as (q & Hq & _). by apply list_elem_of_lookup_2 in Hq. }
    assert (E : forall n, view (w1 ++ (start, h) :: r) D0 n = view r (<[start := h]> (view w1 D0)) n)
      by (intros n; unfold view; by rewrite foldl_app).
    split_and!.
    + rewrite E, view_out by (by apply Hr). by rewrite fn_lookup_insert.
    + intros n Hn Hnb. rewrite E, view_out by (by apply Hr). rewrite fn_lookup_insert_ne by (by apply not_eq_sym, Hneq).
      rewrite view_out by (apply Hkey; by left). by rewrite HV.
    + intros k b Hk. assert (Hkl : (k < length bl)%nat) by (by apply lookup_lt_Some in Hk).
      assert (Hnl : start + 1 + Z.of_nat k ∉ bl).
      { intros Hin. apply (ll_home _ _ _ Hlay _ Hin). unfold LOGSIZE, MAXOPBLOCKS in *. lia. }
      rewrite E, view_out by (by apply Hr). rewrite fn_lookup_insert_ne by lia.
      apply (view_in _ _ k); [apply log_writes_nodup|]. exact (log_writes_lookup start 0 bl V k b Hk).
  - rewrite take_ge by (rewrite length_app; cbn; rewrite length_app; cbn; lia).
    assert (E : forall n, view (w1 ++ (start, h) :: w3 ++ [(start, hdr_of h [])]) D0 n =
      <[start := hdr_of h []]> (view w3 (<[start := h]> (view w1 D0))) n).
    { intros n. unfold view. rewrite foldl_app. cbn [foldl]. by rewrite foldl_app. }
    split; [by rewrite E, fn_lookup_insert|]. intros n Hn. rewrite E, fn_lookup_insert_ne by (by apply not_eq_sym, Hneq).
    destruct (decide (n ∈ bl)) as [Hin|Hnin].
    + apply list_elem_of_lookup in Hin as [q Hq]. apply (view_in _ _ q); [rewrite Hw3; apply Hlay|].
      unfold w3. by rewrite list_lookup_fmap, Hq.
    + rewrite view_out by (by rewrite Hw3). rewrite fn_lookup_insert_ne by (by apply not_eq_sym, Hneq).
      rewrite view_out by (apply Hkey; by left). by rewrite HV.
Qed.

(** C1: a transaction is atomic across crashes.  [commit] of the blocks [bl]
    makes a sequence of block writes; if the machine stops after any number [j]
    of them and [recover_from_log] runs on the disk left behind, it terminates
    with an empty log and either every block outside the log area as before the
    transaction, when the header had not been written ([j <= length bl]), or
    every block with the transaction's content; in particular a commit that has
    returned is durable. *)
Theorem log_crash_atomic (s : kstate ext) (c : cpu) (i : nat) (pid dv start : Z) (bl : list Z) (V : Z -> list Z) :
  log_state s c i pid dv start bl V (pins bl) -> log_layout dv start bl -> bl <> [] -> (length bl < NBUF)%nat ->
  length (V start) = Z.to_nat BSIZE -> hdr_n (V start) = 0 ->
  exists s' ws, commit s = Done tt s' /\ e_trace (k_ext s') = e_trace (k_ext s) ++ ws /\ (length bl < length ws)%nat /\
    forall (j : nat) (sr : kstate ext) cr ir pr Vr,
      log_state sr cr ir pr dv start [] Vr (fun _ => 0) ->
      e_media (k_ext sr) = apply_writes (take j ws) (e_media (k_ext s)) ->
      exists s2, recover_from_log sr = Done tt s2 /\ hdr_n (media (k_ext s2) start) = 0 /\
        forall m, home start m -> media (k_ext s2) m = if decide (j <= length bl)%nat then media (k_ext s) m else V m.
Proof.
  intros Hs Hlay Hne Hlen HVl HVn. destruct (commit_spec s c i pid dv start bl V Hs Hlay Hne Hlen) as (s' & V' & Hrun & _ & Ht & _).
  exists s', (commit_writes start bl V). split_and!; [done|done| |].
  { unfold commit_writes. rewrite length_app, log_writes_len. cbn. lia. }
  intros j sr cr ir pr Vr Hsr Hm. pose proof Hs as (_ & Hc & _). pose proof (ll_len _ _ _ Hlay) as Hll.
  assert (HVm : forall n, n ∉ bl -> V n = media (k_ext s) n).
  { intros n Hn. apply (ca_clean _ _ _ _ _ _ Hc). unfold pins. by rewrite decide_False. }
  assert (Hst : start ∉ bl). { intros Hin. apply (ll_home _ _ _ Hlay start Hin). unfold LOGSIZE, MAXOPBLOCKS. lia. }
  destruct (crash_disk (e_media (k_ext s)) dv start bl V j Hlay HVm) as (Hold & Hmid & Hnew).
  set (D := view _ _) in *.
  assert (HD : forall n, media (k_ext sr) n = D n) by (intros n; unfold media; by rewrite Hm, apply_view).
  assert (Hempty : forall h, D start = h -> (4 <= length h)%nat -> hdr_n h = 0 -> exists s2, recover_from_log sr = Done tt s2 /\
    hdr_n (media (k_ext s2) start) = 0 /\ forall m, home start m -> media (k_ext s2) m = D m).
  { intros h Hh Hl4 Hn. destruct (recover_media sr cr ir pr dv start [] Vr Hsr (log_layout_nil _ _ _ Hlay)) as (s2 & H2' & Hz & _ & Ho);
      [unfold NBUF; cbn; lia|rewrite HD, Hh; lia|by rewrite HD, Hh|done|].
    exists s2. split_and!; [done|done|]. intros m Hm'. rewrite <- HD. apply Ho; [apply not_elem_of_nil|].
    unfold home, LOGSIZE, MAXOPBLOCKS in Hm'. lia. }
  assert (HB : Z.to_nat BSIZE = 1024%nat) by reflexivity. assert (HLG : Z.to_nat LOGSIZE = 30%nat) by reflexivity.
  assert (Hhl : length (hdr_of (V start) bl) = 1024%nat).
  { unfold hdr_of. rewrite hdr_fill_length; unfold put_le; rewrite put_bytes_length; rewrite ?length_le_bytes; lia. }
  destruct (decide (j <= length bl)%nat) as [Hj|Hj].
  - destruct (Hold Hj) as [Hh Hm']. destruct (Hempty _ Hh) as (s2 & H2' & Hz & Ho).
    + fold (media (k_ext s) start). rewrite <- (HVm start Hst), HVl. lia.
    + fold (media (k_ext s) start). by rewrite <- (HVm start Hst).
    + exists s2. split_and!; [done|done|]. intros m Hmh. rewrite (Ho m Hmh), (Hm' m Hmh). reflexivity.
  - destruct (decide (j <= 1 + 2 * length bl)%nat) as [Hj2|Hj2].
    + destruct (Hmid ltac:(lia)) as (Hh & Hother & Hlogb).
      destruct (recover_media sr cr ir pr dv start bl Vr Hsr Hlay Hlen) as (s2 & H2' & Hz & Hin & Hout).
      * rewrite HD, Hh. lia.
      * rewrite HD, Hh. apply hdr_of_n; lia.
      * intros k b Hk. rewrite HD, Hh. apply hdr_of_block; [lia|apply Hlay|done].
      * exists s2. split_and!; [done|done|]. intros m Hmh. destruct (decide (m ∈ bl)) as [Hmb|Hmb].
        -- apply list_elem_of_lookup in Hmb as [k Hk]. rewrite (Hin k m Hk), HD. by apply Hlogb.
        -- rewrite Hout, HD by (done || (unfold home, LOGSIZE, MAXOPBLOCKS in Hmh; lia)). by apply Hother.
    + destruct (Hnew ltac:(lia)) as [Hh Hm']. destruct (Hempty _ Hh) as (s2 & H2' & Hz & Ho).
      * unfold hdr_of at 1. cbn [hdr_fill]. unfold put_le. rewrite put_bytes_length; rewrite ?length_le_bytes; lia.
      * apply (hdr_of_n _ []); cbn; lia.
      * exists s2. split_and!; [done|done|]. intros m Hmh. by rewrite (Ho m Hmh), (Hm' m Hmh).
Qed.

(** Pinning a buffer, whatever other locks are held. *)
Lemma bpin_run (s : kstate ext) c b y :
  quiet s c -> k_locks s !! BcacheLock = None -> e_bufs (k_ext s) !! b = Some y ->
  bpin b s = Done tt (with_ext (fun x => set_e_bufs (<[b := set_b_refcnt (u32 (b_refcnt y + 1)) y]> (e_bufs x)) x) s).
Proof.
  intros Hq Hl Hy. unfold bpin. mstep (acquire_run BcacheLock s c Hq Hl).
  mstep (mod_buf_run b (fun w => set_b_refcnt (u32 (b_refcnt w + 1)) w) (acquired BcacheLock s) y Hy).
  rewrite (release_run BcacheLock s c _ Hq Hl) by reflexivity. by destruct s.
Qed.

Lemma log_slot_found n bl rest k i :
  blocks_ok bl -> bl !! k = Some n -> (forall j, (j < k)%nat -> bl !! j <> Some n) ->
  log_slot (bl ++ rest) (length bl) n i = (i + k)%nat.
Proof.
  revert k i. induction bl as [|x bl IH]; intros k i Hok Hk Hf; [done|]. apply Forall_cons in Hok as [Hx Hok].
  cbn. rewrite u32_small by lia. destruct k as [|k].
  - injection Hk as ->. rewrite Z.eqb_refl. lia.
  - rewrite (proj2 (Z.eqb_neq x n)) by (intros ->; by apply (Hf 0%nat); [lia|]).
    rewrite (IH k (S i) Hok Hk); [lia|]. intros j Hj. apply (Hf (S j)). lia.
Qed.

Lemma log_slot_absent n bl rest i :
  blocks_ok bl -> n ∉ bl -> log_slot (bl ++ rest) (length bl) n i = (i + length bl)%nat.
Proof.
  revert i. induction bl as [|x bl IH]; intros i Hok Hn; cbn; [lia|]. apply Forall_cons in Hok as [Hx Hok].
  rewrite u32_small by lia. apply not_elem_of_cons in Hn as [Hne Hn]. rewrite (proj2 (Z.eqb_neq x n)) by done.
  rewrite (IH (S i) Hok Hn). lia.
Qed.

(** The entries after block [n] has been logged. *)
Definition with_block (n : Z) (bl : list Z) : list Z := if decide (n ∈ bl) then bl else bl ++ [n].

(** The slot that [log_write] chooses for block [n]. *)
Lemma log_slot_spec l dv start bl n :
  log_is l dv start bl -> blocks_ok bl ->
  let k := log_slot (lh_block l) (Z.to_nat (lh_n l)) n 0 in
  if decide (n ∈ bl) then bl !! k = Some n else k = length bl.
Proof.
  intros Hl Hok k.
  assert (E : k = log_slot (bl ++ drop (length bl) (lh_block l)) (length bl) n 0).
  { unfold k. rewrite (li_n _ _ _ _ Hl), Nat2Z.id. rewrite <- (take_drop (length bl) (lh_block l)) at 1.
    by rewrite (li_blocks _ _ _ _ Hl). }
  destruct (decide (n ∈ bl)) as [Hin|Hnin].
  - destruct (list_find (fun x => x = n) bl) as [[q x]|] eqn:Hf.
    + apply list_find_Some in Hf as (Hq & -> & Hfirst). rewrite E, (log_slot_found n bl _ q 0 Hok Hq); [done|].
      intros j Hj Hjn. by destruct (Hfirst j n Hjn Hj).
    + apply list_find_None in Hf. rewrite Forall_forall in Hf. by destruct (Hf n Hin).
  - rewrite E. by apply log_slot_absent.
Qed.

(** Storing the number of a logged block again changes nothing that counts. *)
Lemma log_is_set l dv start bl k n :
  log_is l dv start bl -> bl !! k = Some n -> log_is (set_lh_block (<[k := n]> (lh_block l)) l) dv start bl.
Proof.
  intros [H1' H2' H3' H4' H5'] Hk. split; try done; cbn; [|by rewrite length_insert].
  rewrite take_insert_lt by (by apply lookup_lt_Some in Hk). by rewrite H4', list_insert_id.
Qed.

Lemma log_is_append l dv start bl n :
  log_is l dv start bl -> (length bl < Z.to_nat LOGSIZE)%nat ->
  log_is (set_lh_n (lh_n l + 1) (set_lh_block (<[length bl := n]> (lh_block l)) l)) dv start (bl ++ [n]).
Proof.
  intros [H1' H2' H3' H4' H5'] Hlt. split; try done; cbn.
  - rewrite H3', length_app. cbn. lia.
  - rewrite length_app, Nat.add_1_r. rewrite (take_S_r _ _ n) by (apply list_lookup_insert_eq; lia).
    by rewrite take_insert_ge, H4'.
  - by rewrite length_insert.
Qed.

(** What [log_write] keeps of the state outside the cache. *)
Definition log_frame (x x' : ext) : Prop :=
  e_sb x' = e_sb x /\ e_inodes x' = e_inodes x /\ e_files x' = e_files x /\ e_pipes x' = e_pipes x /\
  drop NBUF (e_sleep x') = drop NBUF (e_sleep x) /\ log_size (e_log x') = log_size (e_log x) /\
  log_outstanding (e_log x') = log_outstanding (e_log x).

Lemma log_write_spec (s : kstate ext) (c : cpu) (i : nat) (pid dv start : Z) (bl : list Z)
    (V : Z -> list Z) (R : Z -> Z) (L : gset Z) (n : Z) (b : nat) (y : buf) :
  fs_ready s c i pid -> cache (k_ext s) pid dv V R L -> log_is (e_log (k_ext s)) dv start bl ->
  blocks_ok (n :: bl) -> NoDup bl -> buf_of (k_ext s) dv n b y -> 0 < R n -> R n + 1 < 2 ^ 32 ->
  1 <= log_outstanding (e_log (k_ext s)) -> Z.of_nat (length bl) < LOGSIZE ->
  Z.of_nat (length bl) < log_size (e_log (k_ext s)) - 1 ->
  exists s', log_write b s = Done tt s' /\ fs_ready s' c i pid /\
    log_is (e_log (k_ext s')) dv start (with_block n bl) /\ NoDup (with_block n bl) /\
    cache (k_ext s') pid dv V (if decide (n ∈ bl) then R else <[n := R n + 1]> R) L /\ wrote [] s s' /\
    log_frame (k_ext s) (k_ext s') /\ same_blocks s s'.
Proof.
  intros Hr Hc Hl Hok Hnd Hb HR Hov Hout Hlen Hsz. apply Forall_cons in Hok as [Hn Hok].
  pose proof Hb as (Hlt & Hy & Hd & Hk). unfold log_write. mstep (fs_ready_acquire LogLock s c i pid Hr).
  set (s1 := acquired LogLock s). mstep (get_log_run s1). set (l := e_log (k_ext s)).
  change (e_log (k_ext s1)) with l. fold l in Hl, Hout, Hsz. rewrite (li_n _ _ _ _ Hl).
  rewrite (proj2 (Z.leb_gt _ _)) by lia. rewrite (proj2 (Z.leb_gt _ _)) by lia. cbn [orb].
  rewrite (proj2 (Z.ltb_ge _ _)) by lia. mstep (get_buf_run b s1 y Hy). rewrite Hk, s32_small by lia.
  pose proof (log_slot_spec l dv start bl n Hl Hok) as Hslot. rewrite (li_n _ _ _ _ Hl) in Hslot.
  set (k := log_slot _ _ n 0) in *. cbn zeta in *.
  assert (Hkl : (k < length (lh_block l))%nat).
  { rewrite (li_len _ _ _ _ Hl). destruct (decide (n ∈ bl)); [|lia].
    apply lookup_lt_Some in Hslot. lia. }
  destruct (lookup_lt_is_Some_2 _ _ Hkl) as [w Hw].
  assert (Hset : set_block k n s1 = Done tt (with_ext (set_e_log (set_lh_block (<[k := n]> (lh_block l)) l)) s1)).
  { unfold set_block. assert (Hg : get_block k s1 = Done w s1)
      by (unfold get_block, get_log, get_ext; rewrite bind_gets; change (e_log (k_ext s1)) with l; by rewrite Hw).
    by mstep Hg. }
  mstep Hset. set (s2 := with_ext _ s1). unfold with_block. destruct (decide (n ∈ bl)) as [Hin|Hnin].
  - rewrite (proj2 (Z.eqb_neq _ _)) by (apply lookup_lt_Some in Hslot; lia). rewrite when_false, bind_ret.
    rewrite (fs_ready_release LogLock s c i pid s2 Hr) by reflexivity. eexists. split; [reflexivity|].
    split_and!; [by apply (fs_ready_same s)|by apply log_is_set|done|by apply cache_log|by apply wrote_nil|done|].
    intros dv' n' b' z Hz. by exists z.
  - rewrite Hslot, Z.eqb_refl, when_true.
    assert (Hq2 : quiet s2 (set_c_noff (c_noff c + 1) c)).
    { apply (quiet_hw s1); [done|]. apply quiet_acquired, Hr. }
    assert (Hpin : (bpin b;; mod_log (fun l => set_lh_n (lh_n l + 1) l)) s2 =
      Done tt (with_ext (fun x => set_e_log (set_lh_n (lh_n l + 1) (set_lh_block (<[k := n]> (lh_block l)) l))
        (set_e_bufs (<[b := set_b_refcnt (u32 (b_refcnt y + 1)) y]> (e_bufs x)) x)) s1)).
    { mstep (bpin_run s2 _ b y Hq2 ltac:(cbn; rewrite lookup_insert_ne, (fr_locks _ _ _ _ Hr), lookup_empty; done) Hy).
      reflexivity. }
    mstep Hpin. rewrite (fs_ready_release LogLock s c i pid _ Hr) by reflexivity. eexists. split; [reflexivity|].
    split_and!; [by apply (fs_ready_same s)| | | |by apply wrote_nil|done|by apply (ref_same s _ b y (u32 (b_refcnt y + 1)) Hy)].
    + cbn [k_ext with_ext set_k_ext with_hw set_k_csr set_k_cpus set_k_locks e_log set_e_log]. rewrite Hslot.
      apply log_is_append; [done|lia].
    + apply NoDup_app. split_and!; [done| |apply NoDup_singleton]. intros m Hm Hm'.
      apply list_elem_of_singleton in Hm'. by subst.
    + apply cache_log. destruct (ca_buf _ _ _ _ _ _ Hc n b y Hb) as (Hrc & Hva & Hva0 & Hs).
      apply (cache_change (k_ext s) _ pid dv V V R _ L L n b y (set_b_refcnt (u32 (b_refcnt y + 1)) y) Hc Hb); try done.
      * intros m Hm. by rewrite fn_lookup_insert_ne.
      * rewrite fn_lookup_insert. cbn. rewrite Hrc. apply u32_small. lia.
      * rewrite fn_lookup_insert. lia.
      * rewrite fn_lookup_insert. lia.
Qed.

(** [log_write] records the block of a buffer in the current transaction
    once: a block already recorded is absorbed, a new one is appended and its
    buffer pinned, so that the entries stay distinct and the content waits in
    the cache; nothing is written to the disk. *)
Theorem log_write_records (s : kstate ext) (c : cpu) (i : nat) (pid dv start : Z) (bl : list Z)
    (V : Z -> list Z) (R : Z -> Z) (L : gset Z) (n : Z) (b : nat) (y : buf) :
  fs_ready s c i pid -> cache (k_ext s) pid dv V R L -> log_is (e_log (k_ext s)) dv start bl ->
  blocks_ok (n :: bl) -> NoDup bl -> buf_of (k_ext s) dv n b y -> 0 < R n -> R n + 1 < 2 ^ 32 ->
  1 <= log_outstanding (e_log (k_ext s)) -> Z.of_nat (length bl) < LOGSIZE ->
  Z.of_nat (length bl) < log_size (e_log (k_ext s)) - 1 ->
  exists s', log_write b s = Done tt s' /\ fs_ready s' c i pid /\
    log_is (e_log (k_ext s')) dv start (with_block n bl) /\ NoDup (with_block n bl) /\
    cache (k_ext s') pid dv V (if decide (n ∈ bl) then R else <[n := R n + 1]> R) L /\ wrote [] s s'.
Proof.
  intros Hr Hc Hl Hok Hnd Hb HR Hov Hout Hlen Hsz.
  destruct (log_write_spec s c i pid dv start bl V R L n b y Hr Hc Hl Hok Hnd Hb HR Hov Hout Hlen Hsz)
    as (s' & Hrun & Hr' & Hl' & Hnd' & Hc' & Hw & _). exists s'. by split_and!.
Qed.

(** [begin_op] when no commit is running: it counts the operation when the log
    has room for all the blocks promised so far, and otherwise sleeps. *)
Lemma begin_op_admits (s : kstate ext) c i pid :
  fs_ready s c i pid -> log_committing (e_log (k_ext s)) = 0 ->
  lh_n (e_log (k_ext s)) + (log_outstanding (e_log (k_ext s)) + 1) * MAXOPBLOCKS <= LOGSIZE ->
  begin_op s = Done tt (with_ext (fun x => set_e_log (set_log_outstanding (log_outstanding (e_log x) + 1) (e_log x)) x) s).
Proof.
  intros Hr Hcm Hle. unfold begin_op. mstep (fs_ready_acquire LogLock s c i pid Hr).
  pose proof rounds_pos as Hp. destruct rounds as [|r]; [lia|]. apply loop_found.
  mstep (get_log_run (acquired LogLock s)). change (e_log (k_ext (acquired LogLock s))) with (e_log (k_ext s)).
  rewrite Hcm, (proj2 (Z.ltb_ge LOGSIZE _)) by lia. change (truthy 0) with false.
  unfold mod_log, mod_ext. rewrite bind_modify.
  match goal with |- (release LogLock ≫= _) ?st = _ => mstep (fs_ready_release LogLock s c i pid st Hr eq_refl) end.
  by destruct s.
Qed.

Lemma begin_op_waits (s : kstate ext) c i pid t th :
  fs_ready s c i pid -> running s c t th -> c_noff c = 0 -> log_committing (e_log (k_ext s)) = 0 ->
  LOGSIZE < lh_n (e_log (k_ext s)) + (log_outstanding (e_log (k_ext s)) + 1) * MAXOPBLOCKS ->
  exists k, begin_op s = Swtch None (asleep ChLog LogLock t (acquired LogLock s)) k.
Proof.
  intros Hr (Hq & Hct & Hpp & Hth) Hn Hcm Hlt. unfold begin_op. mstep (fs_ready_acquire LogLock s c i pid Hr).
  set (s1 := acquired LogLock s).
  assert (Hrun1 : running s1 (set_c_noff (c_noff c + 1) c) t th).
  { split_and!; [by apply quiet_acquired|done|done|exact Hth]. }
  destruct (sleep_run ChLog LogLock s1 _ t th Hrun1) as (k0 & Hs & _);
    [cbn; lia|done|cbn; apply lookup_insert_eq|unfold s1; by rewrite locks_acquired, (fr_locks _ _ _ _ Hr)|].
  pose proof rounds_pos as Hp. destruct rounds as [|r]; [lia|]. eexists. eapply loop_Swtch.
  mstep (get_log_run s1). change (e_log (k_ext s1)) with (e_log (k_ext s)).
  rewrite Hcm, (proj2 (Z.ltb_lt LOGSIZE _)) by lia. change (truthy 0) with false. unfold s1 in *. unfold mbind, M_bind at 1. rewrite Hs. reflexivity.
Qed.

(** [log_write] stops the kernel when the blocks of the log area are used up. *)
Lemma log_write_full (s : kstate ext) c i pid b :
  fs_ready s c i pid -> log_size (e_log (k_ext s)) - 1 <= lh_n (e_log (k_ext s)) ->
  log_write b s = Panic "too big a transaction" (acquired LogLock s).
Proof.
  intros Hr Hle. unfold log_write. mstep (fs_ready_acquire LogLock s c i pid Hr).
  mstep (get_log_run (acquired LogLock s)). change (e_log (k_ext (acquired LogLock s))) with (e_log (k_ext s)).
  by rewrite (proj2 (Z.leb_le (log_size (e_log (k_ext s)) - 1) _)), orb_true_r by done.
Qed.

End Properties.

(** ** States to evaluate on *)

#[local] Instance one_round : Rounds := 1%nat.
#[local] Instance one_round_ok : RoundsOk := Nat.lt_0_1.
#[local] Instance the_devices : Devices := no_devices.
#[local] Instance the_disk : DiskOps := ideal_disk.

Definition sample_log (size n : Z) (outstanding : Z) (bl : list Z) : log := Log 2 size outstanding 0 1 n (bl ++ replicate (30 - length bl) 0).

(** A cache in which block 50 has been changed and pinned. *)
Lemma pinned_state :
  exists (s : kstate ext) b y V, fs_ready s fs_cpu O 1 /\ cache (k_ext s) 1 1 V (pins [50]) ∅ /\
    V 2 = replicate 1024 0 /\ buf_of (k_ext s) 1 50 b y /\ V 50 = [7].
Proof.
  destruct fs_boot_cache as (bufs & _ & Hc). set (s0 := with_ext (set_e_bufs bufs) fs_boot).
  assert (Hr : fs_ready s0 fs_cpu O 1) by apply fs_ready_ext, fs_boot_ready.
  destruct (bread_spec 1 50 s0 fs_cpu O 1 _ _ _ Hr Hc) as (b & y & s1 & _ & Hr1 & _ & Hc1 & Hb1 & _);
    [set_solver|intros _; exists []; split; [intros n Hn; lia|unfold NBUF; cbn; lia]|lia|].
  destruct (set_data_spec 1 50 b y [7] (set_b_data [7]) s1 fs_cpu O 1 _ _ _ eq_refl Hr1 Hc1 ltac:(set_solver) Hb1)
    as (s2 & _ & Hr2 & _ & Hc2 & Hb2 & _).
  destruct (bpin_spec 1 50 b _ s2 fs_cpu O 1 _ _ _ Hr2 Hc2 Hb2) as (s3 & _ & Hr3 & _ & Hc3 & Hs3);
    [rewrite fn_lookup_insert; lia|rewrite fn_lookup_insert; lia|].
  destruct (Hs3 _ _ _ _ Hb2) as (y3 & Hb3 & _).
  destruct (brelse_spec 1 50 b y3 s3 fs_cpu O 1 _ _ _ Hr3 Hc3 ltac:(set_solver) Hb3) as (s4 & _ & Hr4 & _ & Hc4 & _);
    [rewrite !fn_lookup_insert; lia|rewrite !fn_lookup_insert; lia|].
  assert (Hc4' : cache (k_ext s4) 1 1 (<[50 := [7]]> (media (k_ext fs_boot))) (pins [50]) ∅).
  { eapply cache_equiv; [..|exact Hc4]; [done| |set_solver]. intros n. unfold pins.
    destruct (decide (n = 50)) as [->|Hne]; [by rewrite !fn_lookup_insert, decide_True by set_solver|].
    by rewrite !fn_lookup_insert_ne, decide_False by (done || set_solver). }
  destruct (buf_of_dec (k_ext s4) 1 50) as [(b4 & y4 & Hb4)|Hnone].
  - exists s4, b4, y4, (<[50 := [7]]> (media (k_ext fs_boot))).
    split_and!; [done|done|reflexivity|done..].
  - destruct (ca_none _ _ _ _ _ _ Hc4' 50 Hnone) as (Hz & _). by unfold pins in Hz; rewrite decide_True in Hz by set_solver.
Qed.

Lemma sample_layout bl : blocks_ok bl -> NoDup bl -> (forall b, b ∈ bl -> 40 <= b) -> (length bl < 30)%nat -> log_layout 1 2 bl.
Proof.
  intros H1 H2 H3 H4. split; try done; try lia. intros b Hb. specialize (H3 b Hb). unfold LOGSIZE, MAXOPBLOCKS. lia.
Qed.

Lemma log_crash_atomic_witness : exists s s' : kstate ext, commit s = Done tt s'.
Proof.
  destruct pinned_state as (s & b & y & V & Hr & Hc & H2 & Hb & H7).
  destruct (log_crash_atomic (with_ext (set_e_log (sample_log 30 1 0 [50])) s) fs_cpu O 1 1 2 [50] V) as (s' & ws & Hrun & _).
  - split_and!; [by apply fs_ready_ext|by apply cache_log|by split].
  - apply sample_layout; [by repeat constructor; lia|apply NoDup_singleton| |cbn; lia].
    intros n Hn. apply list_elem_of_singleton in Hn. lia.
  - done.
  - unfold NBUF. cbn. lia.
  - by rewrite H2.
  - by rewrite H2.
  - exists (with_ext (set_e_log (sample_log 30 1 0 [50])) s), s'. exact Hrun.
Defined.

Lemma log_write_records_witness :
  exists (s s' : kstate ext) b, log_write b s = Done tt s' /\ log_is (e_log (k_ext s')) 1 2 [50].
Proof.
  destruct pinned_state as (s & b & y & V & Hr & Hc & H2 & Hb & H7).
  destruct (log_write_records (with_ext (set_e_log (sample_log 30 0 1 [])) s) fs_cpu O 1 1 2 [] V (pins [50]) ∅ 50 b y)
    as (s' & Hrun & _ & Hl & _); [by apply fs_ready_ext|by apply cache_log|by split|by repeat constructor; lia|constructor|done|
    by unfold pins; rewrite decide_True by set_solver|by unfold pins; rewrite decide_True by set_solver|cbn; lia|
    unfold LOGSIZE, MAXOPBLOCKS; cbn; lia|cbn; lia|].
  exists (with_ext (set_e_log (sample_log 30 0 1 [])) s), s', b. split; [exact Hrun|exact Hl].
Defined.
