(* ===== verification/Fs.v ===== *)
(** * Blocks, inodes, directories and path names (kernel/fs.c)

    The block allocator, the inode table and the inodes on disk, reading and
    writing the content of an inode, directories and path names, on top of the
    log.  An inode pointer is its index in the table.  A copy loop is given one
    round for each block it can touch. *)

From stdpp Require Import functions.
From S2P Require Import Prelude Machine Memory State Spinlock Kalloc Vm Proc FsState Sleeplock Bio Log.

(** ** Layout of the blocks *)

(** [IBLOCK] and [BBLOCK] *)
Definition IBLOCK (i : Z) (sb : superblock) : Z := u32 (i / IPB + sb_inodestart sb).
Definition BBLOCK (b : Z) (sb : superblock) : Z := u32 (b / BPB + sb_bmapstart sb).

(** The superblock in the data of its block. *)
Definition superblock_of (d : list Z) : superblock :=
  SuperBlock (get_le 4 d 0) (get_le 4 d 4) (get_le 4 d 8) (get_le 4 d 12)
    (get_le 4 d 16) (get_le 4 d 20) (get_le 4 d 24) (get_le 4 d 28).

(** The offset of an inode in its block. *)
Definition dinode_off (inum : Z) : Z := inum mod IPB * sizeof_dinode.

Definition dip_type (d : list Z) (inum : Z) : Z := s16 (get_le 2 d (dinode_off inum)).

(** [dip->addrs[k]] is at offset 12 + 4k. *)
Definition dip_addrs (d : list Z) (inum : Z) : list Z :=
  (fun k => get_le 4 d (dinode_off inum + 12 + 4 * Z.of_nat k)) <$> seq 0 13.

(** The copy of the fields of a dinode into the inode. *)
Definition load_dinode (d : list Z) (ip : inode) : inode :=
  let o := dinode_off (i_inum ip) in
  Inode (i_dev ip) (i_inum ip) (i_ref ip) (i_valid ip)
    (s16 (get_le 2 d o)) (s16 (get_le 2 d (o + 2))) (s16 (get_le 2 d (o + 4)))
    (s16 (get_le 2 d (o + 6))) (get_le 4 d (o + 8)) (dip_addrs d (i_inum ip)).

(** The copy of the fields of the inode into its dinode. *)
Definition store_dinode (ip : inode) (d : list Z) : list Z :=
  let o := dinode_off (i_inum ip) in
  let d := put_le 2 d o (u16 (i_type ip)) in
  let d := put_le 2 d (o + 2) (u16 (i_major ip)) in
  let d := put_le 2 d (o + 4) (u16 (i_minor ip)) in
  let d := put_le 2 d (o + 6) (u16 (i_nlink ip)) in
  let d := put_le 4 d (o + 8) (i_size ip) in
  put_bytes d (o + 12) (mjoin (le_bytes 4 <$> i_addrs ip)).

(** A fresh dinode: all zero but its type. *)
Definition fresh_dinode (inum type : Z) (d : list Z) : list Z :=
  put_le 2 (put_bytes d (dinode_off inum) (replicate (Z.to_nat sizeof_dinode) 0))
    (dinode_off inum) (u16 type).

(** ** The bitmap *)

(** [(data[bi/8] & (1 << (bi%8))) == 0] *)
Definition bit_clear (d : list Z) (bi : nat) : bool :=
  Z.land (default 0 (d !! (bi / 8)%nat)) (bit (Z.of_nat (bi mod 8))) =? 0.

Definition set_bit (bi : nat) (d : list Z) : list Z :=
  alter (fun x => u8 (Z.lor x (bit (Z.of_nat (bi mod 8))))) (bi / 8)%nat d.

Definition clear_bit (bi : nat) (d : list Z) : list Z :=
  alter (fun x => u8 (Z.land x (Z.lnot (bit (Z.of_nat (bi mod 8)))))) (bi / 8)%nat d.

(** The first clear bit from [bi] on, among [n]. *)
Fixpoint find_clear (d : list Z) (n bi : nat) : option nat :=
  match n with
  | O => None
  | S n' => if bit_clear d bi then Some bi else find_clear d n' (S bi)
  end.

(** ** Character arrays *)

(** [strncmp] and [strncpy] of kernel/string.c on arrays of characters that
    are not in user memory. *)
Fixpoint strncmp_arr (n : nat) (p q : list Z) : Z :=
  match n, p, q with
  | S n', c :: p', d :: q' => if truthy c && (c =? d) then strncmp_arr n' p' q' else c - d
  | _, _, _ => 0
  end.

Fixpoint strncpy_arr (n : nat) (dst src : list Z) : list Z :=
  match n, dst, src with
  | S n', _ :: d, c :: src' =>
      if c =? 0 then replicate (S n') 0 ++ drop n' d else c :: strncpy_arr n' d src'
  | _, _, _ => dst
  end.

Definition namecmp (s t : list Z) : Z := strncmp_arr DIRSIZ s t.

(** ** Path path_elements *)

Definition slash : Z := 47.

(** [while( *path == '/') path++;] *)
Fixpoint skip_slashes (path : list Z) : list Z :=
  match path with
  | c :: path' => if c =? slash then skip_slashes path' else path
  | [] => []
  end.

(** [while( *path != '/' && *path != 0) path++;], with the characters passed *)
Fixpoint split_elem (path : list Z) : list Z * list Z :=
  match path with
  | c :: path' =>
      if (c =? slash) || (c =? 0) then ([], path)
      else let '(s, rest) := split_elem path' in (c :: s, rest)
  | [] => ([], [])
  end.

(** [*path], where the end of the array counts as the NUL *)
Definition char_at (path : list Z) : Z := match path with c :: _ => c | [] => 0 end.

Definition skipelem (path name : list Z) : option (list Z * list Z) :=
  let path := skip_slashes path in
  if char_at path =? 0 then None else
  let '(s, rest) := split_elem path in
  let name := if (DIRSIZ <=? length s)%nat then put_bytes name 0 (take DIRSIZ s)
              else put_bytes name 0 (s ++ [0]) in
  Some (skip_slashes rest, name).

Section Ops.
Context `{Symbols} `{Devices} `{Rounds} `{!DiskOps}.

Definition get_sb : KM ext superblock := get_ext e_sb.

(** A write to the data of a buffer. *)
Definition mod_data (b : nat) (f : list Z -> list Z) : KM ext unit :=
  mod_buf b (fun x => set_b_data (f (b_data x)) x).

(** ** Blocks *)

Definition readsb (dev : Z) : KM ext unit :=
  bp ← bread dev 1;
  x ← get_buf bp;
  mod_ext (set_e_sb (superblock_of (b_data x)));;
  brelse bp.

Definition fsinit (dev : Z) : KM ext unit :=
  readsb dev;;
  sb ← get_sb;
  if negb (sb_magic sb =? FSMAGIC) then panic "invalid file system" else
  initlog dev sb.

Definition bzero (dev bno : Z) : KM ext unit :=
  bp ← bread dev (u32 bno);
  mod_buf bp (set_b_data (replicate (Z.to_nat BSIZE) 0));;
  log_write bp;;
  brelse bp.

Definition balloc (dev : Z) : KM ext Z :=
  sb ← get_sb;
  r ← for_until (seq 0 (Z.to_nat ((sb_size sb + BPB - 1) / BPB))) (fun k =>
    let b := Z.of_nat k * BPB in
    bp ← bread dev (BBLOCK b sb);
    x ← get_buf bp;
    match find_clear (b_data x) (Z.to_nat (Z.min BPB (sb_size sb - b))) 0 with
    | Some bi =>
        mod_data bp (set_bit bi);;
        log_write bp;;
        brelse bp;;
        bzero dev (b + Z.of_nat bi);;
        mret (Some (b + Z.of_nat bi))
    | None => brelse bp;; mret None
    end);
  match r with Some b => mret b | None => panic "balloc: out of blocks" end.

Definition bfree (dev b : Z) : KM ext unit :=
  sb ← get_sb;
  bp ← bread dev (BBLOCK b sb);
  let bi := Z.to_nat (b mod BPB) in
  x ← get_buf bp;
  if bit_clear (b_data x) bi then panic "freeing free block" else
  mod_data bp (clear_bit bi);;
  log_write bp;;
  brelse bp.

(** ** Inodes *)

Definition iinit : KM ext unit :=
  initlock ItableLock;;
  for_each (seq 0 NINODE) (fun i => initsleeplock (inode_lock i)).

(** The scan of the table by [iget]: the entry for the inode, or the first
    empty one. *)
Fixpoint iget_scan (dev inum : Z) (l : list nat) (empty : option nat) : KM ext (bool * option nat) :=
  match l with
  | [] => mret (false, empty)
  | i :: l' =>
      ip ← get_inode i;
      if (0 <? i_ref ip) && (i_dev ip =? dev) && (i_inum ip =? inum) then mret (true, Some i)
      else iget_scan dev inum l'
             (match empty with None => if i_ref ip =? 0 then Some i else None | Some e => Some e end)
  end.

Definition iget (dev inum : Z) : KM ext nat :=
  acquire ItableLock;;
  r ← iget_scan dev inum (seq 0 NINODE) None;
  match r with
  | (true, Some i) =>
      mod_inode i (fun ip => set_i_ref (i_ref ip + 1) ip);;
      release ItableLock;;
      mret i
  | (_, Some i) =>
      mod_inode i (set_i_dev dev);;
      mod_inode i (set_i_inum inum);;
      mod_inode i (set_i_ref 1);;
      mod_inode i (set_i_valid 0);;
      release ItableLock;;
      mret i
  | (_, None) => panic "iget: no inodes"
  end.

Definition ialloc (dev type : Z) : KM ext nat :=
  sb ← get_sb;
  r ← for_until (seq 1 (Z.to_nat (sb_ninodes sb - 1))) (fun k =>
    let inum := Z.of_nat k in
    bp ← bread dev (IBLOCK inum sb);
    x ← get_buf bp;
    if dip_type (b_data x) inum =? 0 then
      mod_data bp (fresh_dinode inum type);;
      log_write bp;;
      brelse bp;;
      ip ← iget dev inum;
      mret (Some ip)
    else brelse bp;; mret None);
  match r with Some ip => mret ip | None => panic "ialloc: no inodes" end.

Definition iupdate (i : nat) : KM ext unit :=
  ip ← get_inode i;
  sb ← get_sb;
  bp ← bread (i_dev ip) (IBLOCK (i_inum ip) sb);
  ip ← get_inode i;
  mod_data bp (store_dinode ip);;
  log_write bp;;
  brelse bp.

Definition idup (i : nat) : KM ext nat :=
  acquire ItableLock;;
  mod_inode i (fun ip => set_i_ref (i_ref ip + 1) ip);;
  release ItableLock;;
  mret i.

Definition ilock (o : option nat) : KM ext unit :=
  match o with
  | None => panic "ilock"
  | Some i =>
      ip ← get_inode i;
      if i_ref ip <? 1 then panic "ilock" else
      acquiresleep (inode_lock i);;
      ip ← get_inode i;
      when (i_valid ip =? 0)
        (sb ← get_sb;
         bp ← bread (i_dev ip) (IBLOCK (i_inum ip) sb);
         x ← get_buf bp;
         mod_inode i (load_dinode (b_data x));;
         brelse bp;;
         mod_inode i (set_i_valid 1);;
         ip ← get_inode i;
         when (i_type ip =? 0) (panic "ilock: no type"))
  end.

Definition iunlock (o : option nat) : KM ext unit :=
  match o with
  | None => panic "iunlock"
  | Some i =>
      h ← holdingsleep (inode_lock i);
      ip ← get_inode i;
      if negb h || (i_ref ip <? 1) then panic "iunlock" else
      releasesleep (inode_lock i)
  end.

(** [ip->addrs[k]] *)
Definition get_addr (i k : nat) : KM ext Z := ip ← get_inode i; of_option (i_addrs ip !! k).
Definition set_addr (i k : nat) (a : Z) : KM ext unit :=
  mod_inode i (fun ip => set_i_addrs (<[k := a]> (i_addrs ip)) ip).

(** Free the block in [ip->addrs[k]], if any. *)
Definition free_direct (i k : nat) : KM ext unit :=
  a ← get_addr i k;
  when (truthy a)
    (ip ← get_inode i;
     bfree (i_dev ip) a;;
     set_addr i k 0).

Definition itrunc (i : nat) : KM ext unit :=
  for_each (seq 0 12) (free_direct i);;
  a ← get_addr i 12;
  when (truthy a)
    (ip ← get_inode i;
     bp ← bread (i_dev ip) a;
     for_each (seq 0 256) (fun j =>
       x ← get_buf bp;
       let aj := get_le 4 (b_data x) (4 * Z.of_nat j) in
       when (truthy aj) (bfree (i_dev ip) aj));;
     brelse bp;;
     a ← get_addr i 12;
     bfree (i_dev ip) a;;
     set_addr i 12 0);;
  mod_inode i (set_i_size 0);;
  iupdate i.

Definition iput (i : nat) : KM ext unit :=
  acquire ItableLock;;
  ip ← get_inode i;
  when ((i_ref ip =? 1) && truthy (i_valid ip) && (i_nlink ip =? 0))
    (acquiresleep (inode_lock i);;
     release ItableLock;;
     itrunc i;;
     mod_inode i (set_i_type 0);;
     iupdate i;;
     mod_inode i (set_i_valid 0);;
     releasesleep (inode_lock i);;
     acquire ItableLock);;
  mod_inode i (fun ip => set_i_ref (i_ref ip - 1) ip);;
  release ItableLock.

Definition iunlockput (i : nat) : KM ext unit := iunlock (Some i);; iput i.

(** ** Inode content *)

(** The block in [ip->addrs[k]], allocated if there is none. *)
Definition addr_or_alloc (i k : nat) : KM ext Z :=
  a ← get_addr i k;
  if truthy a then mret a else
  ip ← get_inode i;
  a ← balloc (i_dev ip);
  set_addr i k a;;
  mret a.

Definition bmap (i : nat) (bn : Z) : KM ext Z :=
  if bn <? NDIRECT then addr_or_alloc i (Z.to_nat bn) else
  let bn := bn - NDIRECT in
  if bn <? NINDIRECT then
    addr ← addr_or_alloc i 12;
    ip ← get_inode i;
    bp ← bread (i_dev ip) addr;
    x ← get_buf bp;
    let a := get_le 4 (b_data x) (4 * bn) in
    addr ← (if truthy a then mret a else
      a ← balloc (i_dev ip);
      mod_data bp (fun d => put_le 4 d (4 * bn) a);;
      log_write bp;;
      mret a);
    brelse bp;;
    mret addr
  else panic "bmap: out of range".

(** [struct stat]: dev, ino, type, nlink and size, with the padding before size. *)
Definition stati (ip : inode) : list Z :=
  le_bytes 4 (u32 (i_dev ip)) ++ le_bytes 4 (i_inum ip) ++ le_bytes 2 (u16 (i_type ip)) ++
  le_bytes 2 (u16 (i_nlink ip)) ++ [0; 0; 0; 0] ++ le_bytes 8 (i_size ip).

(** The rounds that a copy of [n] bytes can take. *)
Definition copy_rounds (n : Z) : nat := Z.to_nat (n / BSIZE + 3).

(** The loop of [readi]: [emit tot bs] stores the bytes that belong at [dst+tot],
    and [acc] collects them. *)
Fixpoint readi_loop (fuel : nat) (emit : Z -> list Z -> KM ext Z) (i : nat) (off tot n : Z) (acc : list Z) :
    KM ext (Z * list Z) :=
  match fuel with
  | O => no_fuel
  | S f =>
      if negb (tot <? n) then mret (tot, acc) else
      ip ← get_inode i;
      a ← bmap i (off / BSIZE);
      bp ← bread (i_dev ip) a;
      x ← get_buf bp;
      let m := Z.min (n - tot) (BSIZE - off mod BSIZE) in
      let bs := take (Z.to_nat m) (drop (Z.to_nat (off mod BSIZE)) (b_data x)) in
      r ← emit tot bs;
      if r =? -1 then brelse bp;; mret (-1, acc)
      else brelse bp;; readi_loop f emit i (u32 (off + m)) (u32 (tot + m)) n (acc ++ bs)
  end.

Definition readi_with (emit : Z -> list Z -> KM ext Z) (i : nat) (off n : Z) : KM ext (Z * list Z) :=
  ip ← get_inode i;
  if (i_size ip <? off) || (u32 (off + n) <? off) then mret (0, []) else
  let n := if i_size ip <? u32 (off + n) then i_size ip - off else n in
  readi_loop (copy_rounds n) emit i off 0 n [].

(** [readi] to an address. *)
Definition readi (i : nat) (user_dst : bool) (dst off n : Z) : KM ext Z :=
  r ← readi_with (fun tot bs => either_copyout user_dst (u64 (dst + tot)) bs) i off n;
  mret (s32 (fst r)).

(** [readi] to a local variable of the kernel, whose bytes it returns. *)
Definition readi_local (i : nat) (off n : Z) : KM ext (Z * list Z) :=
  r ← readi_with (fun _ _ => mret 0) i off n;
  mret (s32 (fst r), snd r).

(** The loop of [writei]: [fetch tot m] reads the [m] bytes at [src+tot]; what
    it read before a failure has reached the buffer.  The result is [tot] and
    the offset reached. *)
Fixpoint writei_loop (fuel : nat) (fetch : Z -> Z -> KM ext (Z * list Z)) (i : nat) (off tot n : Z) : KM ext (Z * Z) :=
  match fuel with
  | O => no_fuel
  | S f =>
      if negb (tot <? n) then mret (tot, off) else
      ip ← get_inode i;
      a ← bmap i (off / BSIZE);
      bp ← bread (i_dev ip) a;
      let m := Z.min (n - tot) (BSIZE - off mod BSIZE) in
      r ← fetch tot m;
      mod_data bp (fun d => put_bytes d (off mod BSIZE) (snd r));;
      if fst r =? -1 then brelse bp;; mret (tot, off)
      else
        log_write bp;;
        brelse bp;;
        writei_loop f fetch i (u32 (off + m)) (u32 (tot + m)) n
  end.

Definition writei_with (fetch : Z -> Z -> KM ext (Z * list Z)) (i : nat) (off n : Z) : KM ext Z :=
  ip ← get_inode i;
  if (i_size ip <? off) || (u32 (off + n) <? off) then mret (-1) else
  if MAXFILE * BSIZE <? u32 (off + n) then mret (-1) else
  r ← writei_loop (copy_rounds n) fetch i off 0 n;
  ip ← get_inode i;
  when (i_size ip <? snd r) (mod_inode i (set_i_size (snd r)));;
  iupdate i;;
  mret (s32 (fst r)).

Definition writei (i : nat) (user_src : bool) (src off n : Z) : KM ext Z :=
  writei_with (fun tot m => either_copyin user_src (u64 (src + tot)) (Z.to_nat m)) i off n.

(** [writei] from a local variable of the kernel with the bytes [bs]. *)
Definition writei_local (i : nat) (bs : list Z) (off n : Z) : KM ext Z :=
  writei_with (fun tot m => mret (0, take (Z.to_nat m) (drop (Z.to_nat tot) bs))) i off n.

(** ** Directories *)

(** The fields of a [struct dirent]. *)
Definition de_inum (de : list Z) : Z := get_le 2 de 0.
Definition de_name (de : list Z) : list Z := drop 2 de.

(** The offsets of the entries of a directory of [size] bytes from entry [first] on. *)
Definition dir_offsets (first : nat) (size : Z) : list Z :=
  (fun k => Z.of_nat k * sizeof_dirent) <$> seq first (Z.to_nat ((size + sizeof_dirent - 1) / sizeof_dirent) - first).

(** One entry of the directory, or the panic of the caller. *)
Definition read_dirent (i : nat) (off : Z) (msg : string) : KM ext (list Z) :=
  r ← readi_local i off sizeof_dirent;
  if negb (fst r =? sizeof_dirent) then panic msg else mret (snd r).

(** The inode found and [*poff]. *)
Definition dirlookup (i : nat) (name : list Z) : KM ext (option (nat * Z)) :=
  dp ← get_inode i;
  if negb (i_type dp =? T_DIR) then panic "dirlookup not DIR" else
  for_until (dir_offsets 0 (i_size dp)) (fun off =>
    de ← read_dirent i off "dirlookup read";
    if de_inum de =? 0 then mret None
    else if namecmp name (de_name de) =? 0 then
      dp ← get_inode i;
      ip ← iget (i_dev dp) (de_inum de);
      mret (Some (ip, off))
    else mret None).

Definition dirlink (i : nat) (name : list Z) (inum : Z) : KM ext Z :=
  r ← dirlookup i name;
  match r with
  | Some (ip, _) => iput ip;; mret (-1)
  | None =>
      dp ← get_inode i;
      let offs := dir_offsets 0 (i_size dp) in
      r ← for_until offs (fun off =>
        de ← read_dirent i off "dirlink read";
        if de_inum de =? 0 then mret (Some (off, de)) else mret None);
      let '(off, de) :=
        match r with
        | Some x => x
        | None => (Z.of_nat (length offs) * sizeof_dirent, replicate (Z.to_nat sizeof_dirent) 0)
        end in
      let de := le_bytes 2 (u16 inum) ++ strncpy_arr DIRSIZ (de_name de) name in
      r ← writei_local i de (u32 off) sizeof_dirent;
      if negb (r =? sizeof_dirent) then panic "dirlink" else mret 0
  end.

(** ** Path names *)

(** The loop of [namex] from the inode [i]; the result also has [name]. *)
Fixpoint namex_loop (fuel : nat) (i : nat) (path : list Z) (nameiparent : bool) (name : list Z) :
    KM ext (option nat * list Z) :=
  match fuel with
  | O => no_fuel
  | S f =>
      match skipelem path name with
      | None => if nameiparent then iput i;; mret (None, name) else mret (Some i, name)
      | Some (path, name) =>
          ilock (Some i);;
          ip ← get_inode i;
          if negb (i_type ip =? T_DIR) then iunlockput i;; mret (None, name)
          else if nameiparent && (char_at path =? 0) then iunlock (Some i);; mret (Some i, name)
          else
            next ← dirlookup i name;
            match next with
            | None => iunlockput i;; mret (None, name)
            | Some (next, _) => iunlockput i;; namex_loop f next path nameiparent name
            end
      end
  end.

Definition namex (path : list Z) (nameiparent : bool) (name : list Z) : KM ext (option nat * list Z) :=
  i ← (if char_at path =? slash then iget ROOTDEV ROOTINO
       else c ← curproc; p ← get_proc c; cwd ← of_option (p_cwd p); idup cwd);
  namex_loop (S (length path)) i path nameiparent name.

Definition namei (path : list Z) : KM ext (option nat) :=
  r ← namex path false (replicate DIRSIZ 0); mret (fst r).

Definition nameiparent (path : list Z) : KM ext (option nat * list Z) :=
  namex path true (replicate DIRSIZ 0).

End Ops.

(** ** What path lookup walks through *)

(** The characters of a C string. *)
Fixpoint cstr (l : list Z) : list Z :=
  match l with [] => [] | c :: l' => if c =? 0 then [] else c :: cstr l' end.

(** The parts of a string between slashes. *)
Fixpoint split_on (l : list Z) : list (list Z) :=
  match l with
  | [] => [[]]
  | c :: l' =>
      if c =? slash then [] :: split_on l'
      else match split_on l' with [] => [[c]] | h :: t => (c :: h) :: t end
  end.

(** The components of a path: its parts that are not empty. *)
Definition components (path : list Z) : list (list Z) := filter (fun e => e <> []) (split_on (cstr path)).

(** Each component with the flag that it is the last one. *)
Fixpoint mark_last (l : list (list Z)) : list (list Z * bool) :=
  match l with [] => [] | e :: l' => (e, bool_decide (l' = [])) :: mark_last l' end.

(** The names that the loop of [namex] looks up, each with its test for the end
    of the path. *)
Fixpoint path_elements (fuel : nat) (path name : list Z) : option (list (list Z * bool)) :=
  match fuel with
  | O => None
  | S f =>
      match skipelem path name with
      | None => Some []
      | Some (path', name') => cons (cstr (take DIRSIZ name'), char_at path' =? 0) <$> path_elements f path' name'
      end
  end.

Lemma components_slash l : components (slash :: l) = components l.
Proof. done. Qed.

Lemma components_skip l : components (skip_slashes l) = components l.
Proof.
  induction l as [|c l IH]; [done|]. cbn [skip_slashes]. destruct (Z.eqb_spec c slash) as [->|]; [|done].
  by rewrite components_slash.
Qed.

Lemma skip_slashes_head l : char_at (skip_slashes l) <> slash.
Proof. induction l as [|c l IH]; [done|]. cbn [skip_slashes]. by destruct (Z.eqb_spec c slash). Qed.

Lemma skip_slashes_length l : (length (skip_slashes l) <= length l)%nat.
Proof. induction l as [|c l IH]; [done|]. cbn [skip_slashes length]. destruct (c =? slash); cbn [length]; lia. Qed.

(** A path whose first character is the NUL has no components. *)
Lemma components_nul l : char_at l = 0 -> components l = [].
Proof. destruct l as [|c l]; [done|]. cbn [char_at]. by intros ->. Qed.

Lemma split_elem_spec l s rest :
  split_elem l = (s, rest) ->
  l = s ++ rest /\ Forall (fun c => c <> 0 /\ c <> slash) s /\ (char_at rest = 0 \/ char_at rest = slash) /\
  (s = [] -> char_at l = 0 \/ char_at l = slash).
Proof.
  revert s rest. induction l as [|c l IH]; intros s rest E; cbn [split_elem] in E.
  - injection E as <- <-. split_and!; [done|constructor|by left|by left].
  - destruct (Z.eqb_spec c slash) as [->|Hs]; [injection E as <- <-; split_and!; [done|constructor|by right|by right]|].
    destruct (Z.eqb_spec c 0) as [->|Hz]; [injection E as <- <-; split_and!; [done|constructor|by left|by left]|].
    cbn [orb] in E. destruct (split_elem l) as [s' r'] eqn:El. injection E as <- <-.
    destruct (IH s' r' eq_refl) as (-> & Hf & Hr & _). split_and!; [done|by constructor|done|done].
Qed.

Lemma cstr_app s rest : Forall (fun c => c <> 0 /\ c <> slash) s -> cstr (s ++ rest) = s ++ cstr rest.
Proof. induction 1 as [|c s [Hc _] _ IH]; [done|]. cbn [cstr app]. by rewrite (proj2 (Z.eqb_neq _ _) Hc), IH. Qed.

Lemma split_on_nonempty l : split_on l <> [].
Proof. destruct l as [|c l]; cbn; [done|]. destruct (c =? slash); [done|]. by destruct (split_on l). Qed.

Lemma split_on_app s r h t :
  Forall (fun c => c <> 0 /\ c <> slash) s -> split_on r = h :: t -> split_on (s ++ r) = (s ++ h) :: t.
Proof.
  intros Hf E. induction Hf as [|c s [_ Hc] _ IH]; [done|]. cbn [split_on app].
  by rewrite (proj2 (Z.eqb_neq _ _) Hc), IH.
Qed.

(** The first component of a path. *)
Lemma components_elem s rest :
  Forall (fun c => c <> 0 /\ c <> slash) s -> s <> [] -> char_at rest = 0 \/ char_at rest = slash ->
  components (s ++ rest) = s :: components rest.
Proof.
  intros Hf Hs Hr. unfold components. rewrite cstr_app by done.
  assert (E : exists t, split_on (cstr rest) = [] :: t).
  { destruct rest as [|c rest]; [by exists []|]. cbn [char_at] in Hr. cbn [cstr].
    destruct (Z.eqb_spec c 0); [by exists []|]. destruct Hr as [Hr|Hr]; [done|]. subst c. cbn [split_on]. rewrite Z.eqb_refl. eauto. }
  destruct E as [t E]. rewrite (split_on_app s _ [] t Hf E), E, app_nil_r. by rewrite filter_cons_True, filter_cons_False by auto.
Qed.

(** [skipelem] takes the first component off, cut to the length of a name. *)
Lemma skipelem_first path name :
  length name = DIRSIZ ->
  match components path with
  | [] => skipelem path name = None
  | e :: l => exists path' name', skipelem path name = Some (path', name') /\ cstr (take DIRSIZ name') = take DIRSIZ e /\
      components path' = l /\ (char_at path' = 0 <-> l = []) /\ length name' = DIRSIZ /\ (length path' < length path)%nat
  end.
Proof.
  intros Hn. unfold skipelem. rewrite <- components_skip. pose proof (skip_slashes_head path) as Hh.
  pose proof (skip_slashes_length path) as Hl. set (p := skip_slashes path) in *.
  destruct (Z.eqb_spec (char_at p) 0) as [Hz|Hz]; [by rewrite components_nul|].
  destruct (split_elem p) as [s rest] eqn:Es. destruct (split_elem_spec p s rest Es) as (Ep & Hf & Hr & Hne).
  assert (Hs : s <> []) by (intros ->; by destruct (Hne eq_refl)).
  rewrite Ep, components_elem by done. do 2 eexists. split; [reflexivity|].
  assert (Hc : components (skip_slashes rest) = components rest) by apply components_skip.
  pose proof (skip_slashes_length rest) as Hlr. pose proof (skip_slashes_head rest) as Hhr.
  split; [|split; [done|split; [|split]]].
  - assert (Hcs : forall r, cstr (s ++ r) = s ++ cstr r) by (intros r; by apply cstr_app).
    unfold put_bytes. change (Z.to_nat 0) with 0%nat. rewrite take_0. cbn [app Nat.add].
    destruct (Nat.leb_spec DIRSIZ (length s)) as [Hle|Hlt].
    + rewrite take_app_le by (rewrite length_take; lia). rewrite take_take, Nat.min_id.
      rewrite <- (app_nil_r (take DIRSIZ s)) at 1. rewrite cstr_app by by apply Forall_take. by rewrite app_nil_r.
    + rewrite <- app_assoc. rewrite take_app_ge by lia. rewrite Hcs, take_ge with (l := s) by lia.
      destruct (DIRSIZ - length s)%nat as [|k] eqn:Ek; [lia|]. cbn. by rewrite app_nil_r.
  - rewrite <- Hc. split; [apply components_nul|]. intros E0. destruct (skip_slashes rest) as [|c r] eqn:Er; [done|]. cbn [char_at] in *.
    destruct (Z.eq_dec c 0) as [|Hc0]; [done|]. destruct (split_elem (c :: r)) as [s2 r2] eqn:E2.
    destruct (split_elem_spec _ _ _ E2) as (Ep2 & Hf2 & Hr2 & Hne2). rewrite Ep2, components_elem in E0; [done|done| |done].
    intros ->. by destruct (Hne2 eq_refl).
  - unfold put_bytes. change (Z.to_nat 0) with 0%nat. destruct (Nat.leb_spec DIRSIZ (length s)) as [Hle|Hlt];
      rewrite !length_app, length_drop, ?length_app, ?length_take; cbn [length]; lia.
  - rewrite Ep, length_app in Hl. destruct s; [done|]. cbn [length] in Hl. lia.
Qed.

(** C31: path names are taken apart correctly.  For every path, the loop of
    [namex] sees exactly the parts of the string between slashes that are not
    empty, in order, each cut to DIRSIZ characters, whatever the repetitions of
    slashes and whatever was left in the name buffer; and the test for the end of
    the path is true at the last component and only there.  It always ends. *)
Theorem skipelem_splits (path name : list Z) :
  length name = DIRSIZ ->
  path_elements (S (length path)) path name = Some (mark_last ((fun e => take DIRSIZ e) <$> components path)).
Proof.
  intros Hn. remember (S (length path)) as fuel eqn:Ef. assert (Hfu : (length path < fuel)%nat) by lia. clear Ef.
  revert path name Hn Hfu. induction fuel as [|fuel IH]; intros path name Hn Hfu; [lia|]. cbn [path_elements].
  pose proof (skipelem_first path name Hn) as H. destruct (components path) as [|e l]; [by rewrite H|].
  destruct H as (path' & name' & -> & -> & El & Hend & Hn' & Hlen). rewrite IH by (done || lia). rewrite El.
  cbn [fmap option_fmap option_map list_fmap mark_last]. f_equal. f_equal. f_equal.
  destruct (Z.eqb_spec (char_at path') 0) as [E0|E0]; symmetry.
  - apply bool_decide_eq_true. by rewrite (proj1 Hend E0).
  - apply bool_decide_eq_false. intros E. apply E0, Hend. by destruct l.
Qed.

Lemma skipelem_splits_witness :
  path_elements 8 [47; 97; 47; 47; 98; 98; 0] (replicate 14 5) = Some [([97], false); ([98; 98], true)].
Proof. exact (skipelem_splits [47; 97; 47; 47; 98; 98; 0] (replicate 14 5) eq_refl). Defined.
