(* ===== verification/FsSpec.v ===== *)
(** * What the block allocator and the inodes guarantee

    The operations of Fs.v inside a transaction.  [tx] is the state of a running
    transaction: the blocks logged so far, the content of every block as seen
    through the cache, and the blocks whose buffers are held.  Every update of a
    block is one step of it.  At the end, what happens when the operations that
    [begin_op] admits use all the blocks they were promised. *)

From stdpp Require Import functions.
From S2P Require Import Prelude Machine Memory State Spinlock Kalloc Vm Proc FsState Sleeplock Bio Log Fs.

(** The references of a block: one for being logged, one for being held. *)
Definition refs (bl : list Z) (L : gset Z) (n : Z) : Z := pins bl n + (if decide (n ∈ L) then 1 else 0).

Record tx `{Devices} (s : kstate ext) (c : cpu) (i : nat) (pid dv start : Z) (bl : list Z) (V : Z -> list Z) (L : gset Z) : Prop := {
  tx_ready : fs_ready s c i pid;
  tx_cache : cache (k_ext s) pid dv V (refs bl L) L;
  tx_log : log_is (e_log (k_ext s)) dv start bl;
  tx_layout : log_layout dv start bl;
  tx_out : 1 <= log_outstanding (e_log (k_ext s))
}.

(** [k] more blocks can be logged while the buffers of [L] are held. *)
Definition tx_room `{Devices} (x : ext) (bl : list Z) (L : gset Z) (k : Z) : Prop :=
  Z.of_nat (length bl) + k < LOGSIZE /\ Z.of_nat (length bl) + k <= log_size (e_log x) - 1 /\
  Z.of_nat (length bl + size L) + k <= Z.of_nat NBUF.

(** A block that may be logged. *)
Definition home_block (start n : Z) : Prop := 0 <= n < 2 ^ 31 /\ home start n.

Section Tx.
Context `{Devices} `{RoundsOk} `{!DiskOps} `{!DiskOk}.
Implicit Types (s : kstate ext) (x : ext).

(** The disk and everything outside the cache and the log entries stay. *)
Definition tx_frame s s' : Prop := log_frame (k_ext s) (k_ext s') /\ wrote [] s s'.

Lemma tx_frame_refl s : tx_frame s s.
Proof. split; [done|by apply wrote_nil]. Qed.

Lemma tx_frame_trans s1 s2 s3 : tx_frame s1 s2 -> tx_frame s2 s3 -> tx_frame s1 s3.
Proof.
  intros [(? & ? & ? & ? & ? & ? & ?) Hw] [(? & ? & ? & ? & ? & ? & ?) Hw'].
  split; [split_and!; congruence|exact (wrote_trans [] [] _ _ _ Hw Hw')].
Qed.

(** The buffers of the blocks in [L] stay where they are, too. *)
Definition held_kept (dv : Z) (L : gset Z) s s' : Prop :=
  forall n b y, n ∈ L -> buf_of (k_ext s) dv n b y -> exists z, buf_of (k_ext s') dv n b z.

Definition tx_keep (dv : Z) (L : gset Z) s s' : Prop :=
  log_frame (k_ext s) (k_ext s') /\ wrote [] s s' /\ held_kept dv L s s'.

Lemma tx_keep_frame dv L s s' : tx_keep dv L s s' -> tx_frame s s'.
Proof. by intros (? & ? & _). Qed.

Lemma tx_keep_intro dv L s s' : tx_frame s s' -> held_kept dv L s s' -> tx_keep dv L s s'.
Proof. by intros [? ?]. Qed.

Lemma tx_keep_refl dv L s : tx_keep dv L s s.
Proof. apply tx_keep_intro; [apply tx_frame_refl|]. intros n b y _ Hb. by exists y. Qed.

Lemma tx_keep_trans dv L s1 s2 s3 : tx_keep dv L s1 s2 -> tx_keep dv L s2 s3 -> tx_keep dv L s1 s3.
Proof.
  intros H12 H23. apply tx_keep_intro; [eapply tx_frame_trans; by eapply tx_keep_frame|].
  intros n b y Hn Hb. destruct H12 as (_ & _ & Hk). destruct (Hk n b y Hn Hb) as [z Hz]. by apply (proj2 (proj2 H23) n b z).
Qed.

Lemma tx_keep_sub dv L L' s s' : L' ⊆ L -> tx_keep dv L s s' -> tx_keep dv L' s s'.
Proof. intros Hs (? & ? & Hk). split_and!; try done. intros n b y Hn. apply Hk. by apply Hs. Qed.

Lemma cache_step_tx s s' : cache_step s s' -> tx_frame s s'.
Proof.
  intros ((? & El & ? & ? & ? & ? & ?) & Em & Et). split; [|by apply wrote_nil].
  split_and!; try done; by rewrite El.
Qed.

Lemma tx_frame_media s s' n : tx_frame s s' -> media (k_ext s') n = media (k_ext s) n.
Proof. intros [_ [_ Em]]. unfold media. by rewrite Em. Qed.

Lemma refs_range bl L n : 0 <= refs bl L n <= 2.
Proof. unfold refs, pins. destruct (decide _), (decide _); lia. Qed.

Lemma refs_room bl L : (length bl + size L < NBUF)%nat -> room (refs bl L).
Proof.
  intros Hl. exists (bl ++ elements L). split.
  - intros n Hn. apply elem_of_app. rewrite elem_of_elements. unfold refs, pins in Hn.
    destruct (decide (n ∈ bl)); [by left|]. destruct (decide (n ∈ L)); [by right|lia].
  - rewrite length_app. unfold size, set_size in Hl. cbn in Hl. lia.
Qed.

(** A block that is neither logged nor held is on the disk. *)
Lemma tx_clean s c i pid dv start bl V L n :
  tx s c i pid dv start bl V L -> n ∉ bl -> n ∉ L -> V n = media (k_ext s) n.
Proof.
  intros Ht Hb HL. apply (ca_clean _ _ _ _ _ _ (tx_cache _ _ _ _ _ _ _ _ _ Ht)).
  unfold refs, pins. by rewrite !decide_False.
Qed.

Lemma bread_tx n s c i pid dv start bl V L :
  tx s c i pid dv start bl V L -> n ∉ L -> (length bl + size L < NBUF)%nat ->
  exists b y s', bread dv n s = Done b s' /\ tx s' c i pid dv start bl V ({[n]} ∪ L) /\ tx_keep dv L s s' /\
    buf_of (k_ext s') dv n b y /\ b_data y = V n.
Proof.
  intros [Hr Hc Hl Hy Ho] HnL Hrm. pose proof (refs_range bl L n).
  destruct (bread_spec dv n s c i pid V _ L Hr Hc HnL (fun _ => refs_room bl L Hrm) ltac:(lia))
    as (b & y & s' & Hrun & Hr' & Hst & Hc' & Hb & Hd & Hk).
  exists b, y, s'. pose proof (cache_step_tx _ _ Hst) as Hf.
  assert (Hkeep : tx_keep dv L s s') by (apply tx_keep_intro; [done|]; intros n' b' y' Hn' Hb'; exists y'; by apply Hk).
  split_and!; try done; [|apply Hkeep..].
  split; try done.
  - eapply cache_equiv; [..|exact Hc']; [done| |done]. intros m. unfold refs.
    destruct (decide (m = n)) as [->|Hne].
    + rewrite fn_lookup_insert, (decide_False (P := n ∈ L)), decide_True by (done || set_solver). lia.
    + rewrite fn_lookup_insert_ne by done. destruct (decide (m ∈ L)); [rewrite decide_True by set_solver; done|].
      rewrite decide_False by set_solver. done.
  - eapply log_is_frame; [apply Hst|done].
  - destruct Hf as [(_ & _ & _ & _ & _ & _ & ->) _]. done.
Qed.

Lemma brelse_tx n b y s c i pid dv start bl V L :
  tx s c i pid dv start bl V L -> n ∈ L -> buf_of (k_ext s) dv n b y ->
  n ∈ bl \/ V n = media (k_ext s) n ->
  exists s', brelse b s = Done tt s' /\ tx s' c i pid dv start bl V (L ∖ {[n]}) /\ tx_frame s s' /\
    (forall n' b' y', n' ∈ L -> n' <> n -> buf_of (k_ext s) dv n' b' y' ->
       exists z, buf_of (k_ext s') dv n' b' z /\ b_data z = b_data y').
Proof.
  intros [Hr Hc Hl Hy Ho] HL Hb Hcl. pose proof (refs_range bl L n).
  assert (Hcl' : refs bl L n = 1 -> V n = media (k_ext s) n).
  { unfold refs, pins. rewrite (decide_True (P := n ∈ L)) by done. destruct (decide (n ∈ bl)); [lia|].
    by destruct Hcl. }
  destruct (brelse_spec dv n b y s c i pid V _ L Hr Hc HL Hb Hcl' ltac:(lia)) as (s' & Hrun & Hr' & Hst & Hc' & Hk).
  exists s'. pose proof (cache_step_tx _ _ Hst) as Hf. split_and!; try done. split; try done.
  - eapply cache_equiv; [..|exact Hc']; [done| |done]. intros m. unfold refs.
    destruct (decide (m = n)) as [->|Hne].
    + rewrite fn_lookup_insert, (decide_True (P := n ∈ L)), decide_False by (done || set_solver). lia.
    + rewrite fn_lookup_insert_ne by done. destruct (decide (m ∈ L)); [rewrite decide_True by set_solver; done|].
      rewrite decide_False by set_solver. done.
  - eapply log_is_frame; [apply Hst|done].
  - destruct Hf as [(_ & _ & _ & _ & _ & _ & ->) _]. done.
Qed.

Lemma log_write_tx n b y s c i pid dv start bl V L :
  tx s c i pid dv start bl V L -> n ∈ L -> buf_of (k_ext s) dv n b y -> home_block start n -> tx_room (k_ext s) bl L 1 ->
  exists s', log_write b s = Done tt s' /\ tx s' c i pid dv start (with_block n bl) V L /\ tx_frame s s' /\ same_blocks s s'.
Proof.
  intros [Hr Hc Hl Hy Ho] HL Hb [Hn Hh] (Hr1 & Hr2 & _). pose proof (refs_range bl L n).
  assert (HR : 0 < refs bl L n) by (unfold refs, pins; rewrite (decide_True (P := n ∈ L)) by done; destruct (decide _); lia).
  destruct (log_write_spec s c i pid dv start bl V _ L n b y Hr Hc Hl) as (s' & Hrun & Hr' & Hl' & Hnd & Hc' & Hw & Hf & Hs);
    try done; try lia; [constructor; [done|apply Hy]|apply Hy|].
  exists s'. split_and!; try done. split; try done.
  - eapply cache_equiv; [..|exact Hc']; [done| |done]. intros m. unfold with_block, refs, pins.
    destruct (decide (n ∈ bl)) as [|Hnb]; [done|]. destruct (decide (m = n)) as [->|Hne].
    + rewrite fn_lookup_insert. rewrite (decide_True (P := n ∈ bl ++ [n])) by set_solver. destruct (decide _); lia.
    + rewrite fn_lookup_insert_ne by done. destruct (decide (m ∈ bl)); [by rewrite (decide_True (P := m ∈ bl ++ [n])) by set_solver|].
      by rewrite (decide_False (P := m ∈ bl ++ [n])) by set_solver.
  - destruct Hy as [? ? ? Hlen Hbo Hnd0 Hho]. unfold with_block in *. destruct (decide (n ∈ bl)) as [|Hnb]; [by split|].
    split; try done.
    + rewrite length_app. cbn. lia.
    + apply Forall_app. split; [done|by apply Forall_singleton].
    + intros m [Hm|Hm]%elem_of_app; [by apply Hho|]. apply list_elem_of_singleton in Hm as ->. exact Hh.
  - destruct Hf as (_ & _ & _ & _ & _ & _ & ->). done.
Qed.

(** A held buffer is changed, logged and released. *)
Lemma update_tx n b y d f s c i pid dv start bl V L :
  f y = set_b_data d y ->
  tx s c i pid dv start bl V L -> n ∈ L -> buf_of (k_ext s) dv n b y -> home_block start n -> tx_room (k_ext s) bl L 1 ->
  exists s', (mod_buf b f;; log_write b;; brelse b) s = Done tt s' /\
    tx s' c i pid dv start (with_block n bl) (<[n := d]> V) (L ∖ {[n]}) /\ tx_frame s s' /\
    (forall n' b' y', n' ∈ L -> n' <> n -> buf_of (k_ext s) dv n' b' y' ->
       exists z, buf_of (k_ext s') dv n' b' z /\ b_data z = b_data y').
Proof.
  intros Hf [Hr Hc Hl Hy Ho] HL Hb Hh Hrm.
  destruct (set_data_spec dv n b y d f s c i pid V _ L Hf Hr Hc HL Hb) as (s1 & Hrun1 & Hr1 & Hst1 & Hc1 & Hb1 & Hk1).
  assert (Ht1 : tx s1 c i pid dv start bl (<[n := d]> V) L).
  { split; try done; [eapply log_is_frame; [apply Hst1|done]|].
    destruct (cache_step_tx _ _ Hst1) as [(_ & _ & _ & _ & _ & _ & ->) _]. done. }
  assert (Hrm1 : tx_room (k_ext s1) bl L 1).
  { destruct Hrm as (? & ? & ?). destruct (cache_step_tx _ _ Hst1) as [(_ & _ & _ & _ & _ & E & _) _].
    split_and!; try done. by rewrite E. }
  destruct (log_write_tx n b _ s1 c i pid dv start bl _ L Ht1 HL Hb1 Hh Hrm1) as (s2 & Hrun2 & Ht2 & Hf2 & Hs2).
  destruct (Hs2 _ _ _ _ Hb1) as (y2 & Hb2 & _).
  destruct (brelse_tx n b y2 s2 c i pid dv start _ _ L Ht2 HL Hb2) as (s3 & Hrun3 & Ht3 & Hf3 & Hk3).
  { left. unfold with_block. destruct (decide (n ∈ bl)); [done|set_solver]. }
  exists s3. split; [by mstep Hrun1; mstep Hrun2|]. split; [done|].
  split; [eapply tx_frame_trans; [by apply cache_step_tx|]; by eapply tx_frame_trans|].
  intros n' b' y' HL' Hne Hb'. specialize (Hk1 n' b' y' Hne Hb'). destruct (Hs2 _ _ _ _ Hk1) as (z & Hz & Ez).
  destruct (Hk3 n' b' z HL' Hne Hz) as (z' & Hz' & Ez'). exists z'. split; [done|congruence].
Qed.

(** Sets of held blocks that are equal. *)
Lemma tx_held s c i pid dv start bl V L L' :
  (forall n, n ∈ L <-> n ∈ L') -> tx s c i pid dv start bl V L -> tx s c i pid dv start bl V L'.
Proof.
  intros E. assert (L = L') as -> by set_solver. done.
Qed.

Lemma tx_room_frame s s' bl L k : tx_frame s s' -> tx_room (k_ext s) bl L k -> tx_room (k_ext s') bl L k.
Proof. intros [(_ & _ & _ & _ & _ & E & _) _] (? & ? & ?). split_and!; try done. by rewrite E. Qed.

Lemma tx_room_keep dv L' s s' bl L k : tx_keep dv L' s s' -> tx_room (k_ext s) bl L k -> tx_room (k_ext s') bl L k.
Proof. intros Hk. eapply tx_room_frame, tx_keep_frame, Hk. Qed.

Lemma length_with_block n bl : (length (with_block n bl) <= S (length bl))%nat.
Proof. unfold with_block. destruct (decide _); [lia|]. rewrite length_app. cbn. lia. Qed.

Lemma tx_room_step n x bl L k : tx_room x bl L (k + 1) -> tx_room x (with_block n bl) L k.
Proof. pose proof (length_with_block n bl). intros (? & ? & ?). split_and!; lia. Qed.

Lemma tx_room_held n x bl L k : n ∉ L -> tx_room x bl L (k + 1) -> tx_room x bl ({[n]} ∪ L) k.
Proof. intros Hn (? & ? & ?). rewrite <- (Nat.add_0_r (length bl)) in *. split_and!; try lia.
  rewrite size_union by set_solver. rewrite size_singleton. lia. Qed.

End Tx.

(** ** The bitmap *)

Definition bytes_ok (d : list Z) : Prop := Forall (fun b => 0 <= b < 256) d.

Lemma mod8 bi : 0 <= Z.of_nat (bi mod 8) < 8.
Proof. split; [apply Nat2Z.is_nonneg|]. apply (Nat2Z.inj_lt _ 8), Nat.mod_upper_bound. done. Qed.

Lemma bit_clear_testbit d bi :
  bit_clear d bi = negb (Z.testbit (default 0 (d !! (bi / 8)%nat)) (Z.of_nat (bi mod 8))).
Proof. unfold bit_clear. rewrite <- truthy_land_bit by apply mod8. unfold truthy. by rewrite negb_involutive. Qed.

Lemma u8_testbit z n : 0 <= n < 8 -> Z.testbit (u8 z) n = Z.testbit z n.
Proof. intros Hn. unfold u8. apply Z.mod_pow2_bits_low. lia. Qed.

Lemma div_mod_eq bi bj : (bi / 8 = bj / 8)%nat -> (bi mod 8 = bj mod 8)%nat -> bi = bj.
Proof. intros E1 E2. rewrite (Nat.div_mod_eq bi 8), (Nat.div_mod_eq bj 8). congruence. Qed.

(** Setting and clearing a bit change this bit and no other. *)
Lemma alter_bit (g : Z -> Z) (v : bool) bi bj d :
  (forall x k, 0 <= k < 8 -> Z.testbit (g x) k = if k =? Z.of_nat (bi mod 8) then v else Z.testbit x k) ->
  (bi / 8 < length d)%nat ->
  bit_clear (alter g (bi / 8)%nat d) bj = if decide (bi = bj) then negb v else bit_clear d bj.
Proof.
  intros Hg Hl. rewrite !bit_clear_testbit. destruct (lookup_lt_is_Some_2 _ _ Hl) as [x Hx].
  destruct (decide (bi / 8 = bj / 8)%nat) as [E|E].
  - rewrite <- E, list_lookup_alter_eq, Hx. cbn. rewrite Hg by apply mod8. destruct (decide (bi = bj)) as [<-|Hne].
    + by rewrite Z.eqb_refl.
    + rewrite (proj2 (Z.eqb_neq _ _)); [done|]. intros Em. apply Hne, div_mod_eq; [done|]. symmetry. by apply Nat2Z.inj.
  - rewrite list_lookup_alter_ne by done. destruct (decide (bi = bj)) as [<-|]; done.
Qed.

Lemma bit_clear_set bi bj d :
  (bi / 8 < length d)%nat -> bit_clear (set_bit bi d) bj = if decide (bi = bj) then false else bit_clear d bj.
Proof.
  apply (alter_bit _ true). intros x k Hk. rewrite u8_testbit, Z.lor_spec, bit_testbit by (apply mod8 || lia).
  destruct (k =? _); by rewrite ?orb_true_r, ?orb_false_r.
Qed.

Lemma bit_clear_clear bi bj d :
  (bi / 8 < length d)%nat -> bit_clear (clear_bit bi d) bj = if decide (bi = bj) then true else bit_clear d bj.
Proof.
  apply (alter_bit _ false). intros x k Hk. rewrite u8_testbit, Z.land_spec, Z.lnot_spec, bit_testbit by (apply mod8 || lia).
  destruct (k =? _); by rewrite ?andb_true_r, ?andb_false_r.
Qed.

Lemma find_clear_first d m : forall n bi,
  (bi <= m < bi + n)%nat -> (forall j, (bi <= j < m)%nat -> bit_clear d j = false) -> bit_clear d m = true ->
  find_clear d n bi = Some m.
Proof.
  induction n as [|n IH]; intros bi Hm Hlow Hc; [lia|]. cbn [find_clear].
  destruct (decide (bi = m)) as [->|Hne]; [by rewrite Hc|]. rewrite Hlow by lia. apply IH; [lia| |done].
  intros j Hj. apply Hlow. lia.
Qed.

Lemma find_clear_none d : forall n bi,
  (forall j, (bi <= j < bi + n)%nat -> bit_clear d j = false) -> find_clear d n bi = None.
Proof.
  induction n as [|n IH]; intros bi Hlow; [done|]. cbn [find_clear]. rewrite Hlow by lia. apply IH.
  intros j Hj. apply Hlow. lia.
Qed.

(** The state of block [b] in the bitmap. *)
Definition in_use (V : Z -> list Z) (sb : superblock) (b : Z) : bool :=
  negb (bit_clear (V (BBLOCK b sb)) (Z.to_nat (b mod BPB))).

(** The layout the allocator relies on: the bitmap blocks are whole blocks in
    the part of the disk that may be logged. *)
Record bitmap_ok (V : Z -> list Z) (sb : superblock) (start : Z) : Prop := {
  bo_size : 0 <= sb_size sb < 2 ^ 31;
  bo_start : 0 <= sb_bmapstart sb < 2 ^ 30;
  bo_home : forall b, 0 <= b < sb_size sb -> home_block start (BBLOCK b sb);
  bo_len : forall b, 0 <= b < sb_size sb -> length (V (BBLOCK b sb)) = Z.to_nat BSIZE
}.

Section Blocks.
Context `{Devices} `{RoundsOk} `{!DiskOps} `{!DiskOk}.
Context (c : cpu) (i : nat) (pid dv start : Z).
Implicit Types (s : kstate ext) (x : ext).

Abbreviation txs s bl V L := (tx s c i pid dv start bl V L).

(** A held block, released again. *)
Lemma txs_held_back s bl V L n : n ∉ L -> txs s bl V (({[n]} ∪ L) ∖ {[n]}) -> txs s bl V L.
Proof. intros Hn. apply tx_held. set_solver. Qed.

(** Releasing a block leaves the buffers of the others. *)
Lemma kept_but n s s' L :
  n ∉ L -> tx_frame s s' ->
  (forall n' b' y', n' ∈ {[n]} ∪ L -> n' <> n -> buf_of (k_ext s) dv n' b' y' ->
     exists z, buf_of (k_ext s') dv n' b' z /\ b_data z = b_data y') ->
  tx_keep dv L s s'.
Proof.
  intros Hn Hf Hk. apply tx_keep_intro; [done|]. intros n' b' y' Hn' Hb'.
  destruct (Hk n' b' y' ltac:(set_solver) ltac:(congruence) Hb') as (z & Hz & _). by exists z.
Qed.

(** Reading a block and releasing it unchanged. *)
Lemma release_clean n b y s s1 bl V L :
  txs s bl V L -> n ∉ L -> txs s1 bl V ({[n]} ∪ L) -> tx_keep dv L s s1 -> buf_of (k_ext s1) dv n b y ->
  exists s', brelse b s1 = Done tt s' /\ txs s' bl V L /\ tx_keep dv L s s'.
Proof.
  intros Ht Hn Ht1 Hf Hb.
  destruct (brelse_tx n b y s1 c i pid dv start bl V _ Ht1 ltac:(set_solver) Hb) as (s2 & Hrun & Ht2 & Hf2 & Hk2).
  { destruct (decide (n ∈ bl)); [by left|right]. rewrite (tx_frame_media s s1 n (tx_keep_frame _ _ _ _ Hf)). by eapply tx_clean. }
  exists s2. split; [done|]. split; [by apply (txs_held_back s2 bl V L n)|]. by eapply tx_keep_trans, kept_but.
Qed.

(** Reading a block, changing it through the log and releasing it. *)
Lemma change_block n b y d f s s1 bl V L :
  f y = set_b_data d y -> n ∉ L -> txs s1 bl V ({[n]} ∪ L) -> tx_keep dv L s s1 -> buf_of (k_ext s1) dv n b y ->
  home_block start n -> tx_room (k_ext s) bl L 2 ->
  exists s', (mod_buf b f;; log_write b;; brelse b) s1 = Done tt s' /\
    txs s' (with_block n bl) (<[n := d]> V) L /\ tx_keep dv L s s'.
Proof.
  intros Hfy Hn Ht1 Hf Hb Hh Hrm.
  destruct (update_tx n b y d f s1 c i pid dv start bl V _ Hfy Ht1 ltac:(set_solver) Hb Hh) as (s2 & Hrun & Ht2 & Hf2 & Hk2).
  { apply tx_room_held; [done|]. by eapply tx_room_keep. }
  exists s2. split; [done|]. split; [by apply (txs_held_back s2 _ _ L n)|]. by eapply tx_keep_trans, kept_but.
Qed.

Definition zero_block : list Z := replicate (Z.to_nat BSIZE) 0.

Lemma room_buffers x bl L k : 0 < k -> tx_room x bl L k -> (length bl + size L < NBUF)%nat.
Proof. intros Hk (_ & _ & ?). lia. Qed.

Lemma bzero_tx n s bl V L :
  txs s bl V L -> n ∉ L -> home_block start n -> tx_room (k_ext s) bl L 2 ->
  exists s', bzero dv n s = Done tt s' /\ txs s' (with_block n bl) (<[n := zero_block]> V) L /\ tx_keep dv L s s'.
Proof.
  intros Ht Hn Hh Hrm. destruct (bread_tx n s c i pid dv start bl V L Ht Hn (room_buffers _ _ _ 2 ltac:(lia) Hrm))
    as (b & y & s1 & Hrun & Ht1 & Hf1 & Hb & _).
  destruct (change_block n b y zero_block (set_b_data zero_block) s s1 bl V L eq_refl Hn Ht1 Hf1 Hb Hh Hrm) as (s2 & Hrun2 & Ht2 & Hf2).
  exists s2. split; [|done]. unfold bzero. rewrite u32_small by (destruct Hh; lia). mstep Hrun. exact Hrun2.
Qed.

(** [bzero] of a block that is not logged yet, up to the last place of the log. *)
Lemma bzero_new n s bl V :
  txs s bl V ∅ -> n ∉ bl -> home_block start n -> (length bl < 29)%nat -> log_size (e_log (k_ext s)) = LOGSIZE ->
  exists s', bzero dv n s = Done tt s' /\ txs s' (bl ++ [n]) (<[n := zero_block]> V) ∅ /\
    log_size (e_log (k_ext s')) = LOGSIZE.
Proof.
  intros Ht Hn Hh Hlen Hsz.
  destruct (bread_tx n s c i pid dv start bl V ∅ Ht ltac:(set_solver)) as (b & y & s1 & Hrun & Ht1 & Hf1 & Hb & _);
    [rewrite size_empty; unfold NBUF; cbn; lia|].
  pose proof (tx_keep_frame _ _ _ _ Hf1) as [(_ & _ & _ & _ & _ & E1 & _) _].
  assert (Hrm : tx_room (k_ext s1) bl ({[n]} ∪ ∅) 1).
  { unfold tx_room. rewrite E1, Hsz, union_empty_r_L, size_singleton. unfold LOGSIZE, MAXOPBLOCKS, NBUF. cbn. lia. }
  destruct (update_tx n b y zero_block (set_b_data zero_block) s1 c i pid dv start bl V _ eq_refl Ht1 ltac:(set_solver) Hb Hh Hrm)
    as (s2 & Hrun2 & Ht2 & [(_ & _ & _ & _ & _ & E2 & _) _] & _).
  exists s2. split_and!.
  - unfold bzero. rewrite u32_small by (destruct Hh; lia). mstep Hrun. exact Hrun2.
  - replace (bl ++ [n]) with (with_block n bl) by (unfold with_block; by rewrite decide_False).
    revert Ht2. apply tx_held. set_solver.
  - by rewrite E2, E1.
Qed.

Lemma bzero_all bs : forall s bl V,
  txs s bl V ∅ -> NoDup (bl ++ bs) -> Forall (home_block start) bs -> (length bl + length bs <= 29)%nat ->
  log_size (e_log (k_ext s)) = LOGSIZE ->
  exists s' V', for_each bs (bzero dv) s = Done tt s' /\ txs s' (bl ++ bs) V' ∅ /\
    log_size (e_log (k_ext s')) = LOGSIZE.
Proof.
  induction bs as [|n bs IH]; intros s bl V Ht Hnd Hh Hlen Hsz.
  { exists s, V. by rewrite app_nil_r. }
  apply Forall_cons in Hh as [Hn Hh]. cbn [length] in Hlen.
  assert (Hni : n ∉ bl) by (apply NoDup_app in Hnd as (_ & Hd & _); intros Hin; apply (Hd n Hin); by left).
  destruct (bzero_new n s bl V Ht Hni Hn ltac:(lia) Hsz) as (s1 & Hrun & Ht1 & Hsz1).
  destruct (IH s1 (bl ++ [n]) _ Ht1) as (s2 & V2 & Hrun2 & Ht2 & Hsz2);
    [by rewrite <- app_assoc|done|rewrite length_app; cbn; lia|done|].
  exists s2, V2. rewrite <- app_assoc in Ht2. split_and!; [|done|done]. cbn [for_each]. by mstep Hrun.
Qed.

(** The block for which the log has no place left. *)
Lemma bzero_full n s bl V :
  txs s bl V ∅ -> home_block start n -> length bl = 29%nat -> log_size (e_log (k_ext s)) = LOGSIZE ->
  exists s', bzero dv n s = Panic "too big a transaction" s' /\ log_is (e_log (k_ext s')) dv start bl.
Proof.
  intros Ht Hh Hlen Hsz.
  destruct (bread_tx n s c i pid dv start bl V ∅ Ht ltac:(set_solver)) as (b & y & s1 & Hrun & Ht1 & Hf1 & Hb & _);
    [rewrite size_empty; unfold NBUF; lia|].
  pose proof (tx_keep_frame _ _ _ _ Hf1) as [(_ & _ & _ & _ & _ & E1 & _) _].
  destruct Ht1 as [Hr1 Hc1 Hl1 _ _].
  destruct (set_data_spec dv n b y zero_block (set_b_data zero_block) s1 c i pid V _ _ eq_refl Hr1 Hc1 ltac:(set_solver) Hb)
    as (s2 & Hrun2 & Hr2 & Hst2 & _).
  pose proof (cache_step_tx _ _ Hst2) as [(_ & _ & _ & _ & _ & E2 & _) _].
  assert (Hl2 : log_is (e_log (k_ext s2)) dv start bl) by (eapply log_is_frame; [apply Hst2|done]).
  exists (acquired LogLock s2). split; [|exact Hl2].
  unfold bzero. rewrite u32_small by (destruct Hh; lia). mstep Hrun. fold zero_block. mstep Hrun2.
  rewrite (bind_Panic _ _ _ _ _ (log_write_full s2 c i pid b Hr2 ltac:(rewrite E2, E1, Hsz, (li_n _ _ _ _ Hl2), Hlen; by vm_compute))).
  done.
Qed.

Lemma get_sb_run s : get_sb s = Done (e_sb (k_ext s)) s.
Proof. done. Qed.

Lemma bfree_tx b s bl V L :
  txs s bl V L -> BBLOCK b (e_sb (k_ext s)) ∉ L -> home_block start (BBLOCK b (e_sb (k_ext s))) ->
  tx_room (k_ext s) bl L 2 -> in_use V (e_sb (k_ext s)) b = true ->
  let n := BBLOCK b (e_sb (k_ext s)) in
  exists s', bfree dv b s = Done tt s' /\
    txs s' (with_block n bl) (<[n := clear_bit (Z.to_nat (b mod BPB)) (V n)]> V) L /\ tx_keep dv L s s'.
Proof.
  intros Ht Hn Hh Hrm Hu n. destruct (bread_tx n s c i pid dv start bl V L Ht Hn (room_buffers _ _ _ 2 ltac:(lia) Hrm))
    as (bp & y & s1 & Hrun & Ht1 & Hf1 & Hb & Hd).
  destruct (change_block n bp y (clear_bit (Z.to_nat (b mod BPB)) (V n)) (fun w => set_b_data (clear_bit (Z.to_nat (b mod BPB)) (b_data w)) w)
              s s1 bl V L ltac:(cbv beta; by rewrite Hd) Hn Ht1 Hf1 Hb Hh Hrm) as (s2 & Hrun2 & Ht2 & Hf2).
  exists s2. split; [|done]. unfold bfree. mstep (get_sb_run s). fold n. mstep Hrun.
  mstep (get_buf_run bp s1 y ltac:(apply Hb)). rewrite Hd. unfold in_use in Hu. fold n in Hu.
  apply negb_true_iff in Hu. rewrite Hu. exact Hrun2.
Qed.

(** The body of the loop of [balloc]. *)
Definition balloc_body (sb : superblock) (k : nat) : KM ext (option Z) :=
  let b := Z.of_nat k * BPB in
  bp ← bread dv (BBLOCK b sb);
  x ← get_buf bp;
  match find_clear (b_data x) (Z.to_nat (Z.min BPB (sb_size sb - b))) 0 with
  | Some bi =>
      mod_data bp (set_bit bi);;
      log_write bp;;
      brelse bp;;
      bzero dv (b + Z.of_nat bi);;
      mret (Some (b + Z.of_nat bi))
  | None => brelse bp;; mret None
  end.

(** The block and the bit of number [k * BPB + j]. *)
Lemma bblock_split k j sb :
  (j < Z.to_nat BPB)%nat ->
  BBLOCK (Z.of_nat k * BPB + Z.of_nat j) sb = BBLOCK (Z.of_nat k * BPB) sb /\
  Z.to_nat ((Z.of_nat k * BPB + Z.of_nat j) mod BPB) = j.
Proof.
  intros Hj. unfold BBLOCK, BPB, BSIZE in *. split; [f_equal; f_equal; lia|lia].
Qed.

Lemma balloc_skip sb k s s0 bl V L :
  txs s bl V L -> tx_keep dv L s0 s -> BBLOCK (Z.of_nat k * BPB) sb ∉ L -> (length bl + size L < NBUF)%nat ->
  (forall j, (j < Z.to_nat (Z.min BPB (sb_size sb - Z.of_nat k * BPB)))%nat -> in_use V sb (Z.of_nat k * BPB + Z.of_nat j) = true) ->
  exists s', balloc_body sb k s = Done None s' /\ txs s' bl V L /\ tx_keep dv L s0 s'.
Proof.
  intros Ht Hf Hn Hrm Hu. destruct (bread_tx _ s c i pid dv start bl V L Ht Hn Hrm) as (b & y & s1 & Hrun & Ht1 & Hf1 & Hb & Hd).
  destruct (release_clean _ b y s s1 bl V L Ht Hn Ht1 Hf1 Hb) as (s2 & Hrun2 & Ht2 & Hf2).
  exists s2. split; [|split; [done|by eapply tx_keep_trans]]. unfold balloc_body. mstep Hrun.
  mstep (get_buf_run b s1 y ltac:(apply Hb)). rewrite Hd, find_clear_none; [by mstep Hrun2|].
  intros j Hj. specialize (Hu j ltac:(lia)). unfold in_use in Hu.
  destruct (bblock_split k j sb) as [E1 E2]; [lia|]. rewrite E1, E2 in Hu. by apply negb_true_iff in Hu.
Qed.

Lemma balloc_take sb k bi s bl V L :
  let b := Z.of_nat k * BPB + Z.of_nat bi in
  let n := BBLOCK b sb in
  txs s bl V L -> n ∉ L -> b ∉ L -> home_block start n -> home_block start b -> tx_room (k_ext s) bl L 3 ->
  (bi < Z.to_nat (Z.min BPB (sb_size sb - Z.of_nat k * BPB)))%nat -> in_use V sb b = false ->
  (forall j, (j < bi)%nat -> in_use V sb (Z.of_nat k * BPB + Z.of_nat j) = true) ->
  exists s', balloc_body sb k s = Done (Some b) s' /\
    txs s' (with_block b (with_block n bl)) (<[b := zero_block]> (<[n := set_bit bi (V n)]> V)) L /\ tx_keep dv L s s'.
Proof.
  intros b n Ht Hn HbL Hhn Hhb Hrm Hbi Hfree Hu. destruct (bblock_split k bi sb) as [E1 E2]; [lia|].
  fold b in E1, E2. fold n in E1.
  destruct (bread_tx n s c i pid dv start bl V L Ht Hn (room_buffers _ _ _ 3 ltac:(lia) Hrm)) as (bp & y & s1 & Hrun & Ht1 & Hf1 & Hb & Hd).
  destruct (change_block n bp y (set_bit bi (V n)) (fun w => set_b_data (set_bit bi (b_data w)) w) s s1 bl V L
              ltac:(cbv beta; by rewrite Hd) Hn Ht1 Hf1 Hb Hhn) as (s2 & Hrun2 & Ht2 & Hf2).
  { destruct Hrm as (? & ? & ?). split_and!; lia. }
  destruct (bzero_tx b s2 (with_block n bl) _ L Ht2 HbL Hhb) as (s3 & Hrun3 & Ht3 & Hf3).
  { eapply tx_room_keep; [exact Hf2|]. by apply tx_room_step. }
  exists s3. split; [|split; [done|by eapply tx_keep_trans]].
  unfold balloc_body. rewrite <- E1. mstep Hrun. mstep (get_buf_run bp s1 y ltac:(apply Hb)). rewrite Hd.
  rewrite (find_clear_first _ bi); [| lia | |].
  - unfold mod_data. rewrite (seq3_Done _ _ _ _ _ _ Hrun2). fold b. by mstep Hrun3.
  - intros j [_ Hj]. specialize (Hu j Hj). unfold in_use in Hu. destruct (bblock_split k j sb) as [F1 F2]; [lia|].
    rewrite F1, F2, <- E1 in Hu. by apply negb_true_iff in Hu.
  - unfold in_use in Hfree. fold n in Hfree. rewrite E2 in Hfree. by apply negb_false_iff in Hfree.
Qed.

Lemma balloc_eq s :
  balloc dv s =
  (r ← for_until (seq 0 (Z.to_nat ((sb_size (e_sb (k_ext s)) + BPB - 1) / BPB))) (balloc_body (e_sb (k_ext s)));
   match r with Some b => mret b | None => panic "balloc: out of blocks" end) s.
Proof. reflexivity. Qed.

Lemma balloc_tx b s bl V L :
  let sb := e_sb (k_ext s) in
  let n := BBLOCK b sb in
  txs s bl V L -> 0 <= b < sb_size sb -> in_use V sb b = false -> (forall b', 0 <= b' < b -> in_use V sb b' = true) ->
  (forall b', 0 <= b' < sb_size sb -> BBLOCK b' sb ∉ L) -> b ∉ L -> home_block start n -> home_block start b ->
  tx_room (k_ext s) bl L 3 ->
  exists s', balloc dv s = Done b s' /\
    txs s' (with_block b (with_block n bl)) (<[b := zero_block]> (<[n := set_bit (Z.to_nat (b mod BPB)) (V n)]> V)) L /\
    tx_keep dv L s s'.
Proof.
  intros sb n Ht Hb Hfree Hlow HL HbL Hhn Hhb Hrm.
  set (k := Z.to_nat (b / BPB)). set (bi := Z.to_nat (b mod BPB)).
  assert (Eb : b = Z.of_nat k * BPB + Z.of_nat bi) by (unfold k, bi, BPB, BSIZE; lia).
  assert (Hk : (k < Z.to_nat ((sb_size sb + BPB - 1) / BPB))%nat) by (unfold k, BPB, BSIZE in *; lia).
  assert (Hbi : (bi < Z.to_nat (Z.min BPB (sb_size sb - Z.of_nat k * BPB)))%nat) by (unfold bi, BPB, BSIZE in *; lia).
  destruct (for_until_inv (fun s' => txs s' bl V L /\ tx_keep dv L s s') _ (balloc_body sb) k 0 s
              (Nat.lt_le_incl _ _ Hk) (conj Ht (tx_keep_refl dv L s))) as (s1 & [Ht1 Hf1] & Hloop).
  { intros q s1 Hq [Ht1 Hf1]. apply balloc_skip; [done|done| |by apply (room_buffers _ _ _ 3 ltac:(lia) Hrm)|].
    - apply HL. unfold k, BPB, BSIZE in *. lia.
    - intros j Hj. apply Hlow. unfold k, BPB, BSIZE in *. lia. }
  destruct (balloc_take sb k bi s1 bl V L) as (s2 & Hrun & Ht2 & Hf2); rewrite <- ?Eb; try done.
  - by apply HL.
  - by eapply tx_room_keep.
  - intros j Hj. apply Hlow. lia.
  - rewrite <- Eb in Ht2, Hrun. exists s2. split; [|split; [done|by eapply tx_keep_trans]].
    rewrite balloc_eq. fold sb. replace (Z.to_nat _ - k)%nat with (S (Z.to_nat ((sb_size sb + BPB - 1) / BPB) - k - 1)) in Hloop by lia.
    cbn [Nat.add seq for_until] in Hloop. unfold mbind in Hloop at 1. unfold M_bind in Hloop at 1. rewrite Hrun in Hloop.
    cbn in Hloop. by mstep Hloop.
Qed.

(** With every block in use, the allocator panics. *)
Lemma balloc_full s bl V L :
  let sb := e_sb (k_ext s) in
  txs s bl V L -> 0 <= sb_size sb -> (forall b, 0 <= b < sb_size sb -> in_use V sb b = true /\ BBLOCK b sb ∉ L) ->
  tx_room (k_ext s) bl L 1 ->
  exists s', balloc dv s = Panic "balloc: out of blocks" s'.
Proof.
  intros sb Ht Hsz Hu Hrm. set (m := Z.to_nat ((sb_size sb + BPB - 1) / BPB)).
  destruct (for_until_inv (fun s' => txs s' bl V L /\ tx_keep dv L s s') m (balloc_body sb) m 0 s
              (le_n m) (conj Ht (tx_keep_refl dv L s))) as (s1 & _ & Hloop).
  { intros q s1 Hq [Ht1 Hf1]. apply balloc_skip; [done|done| |by apply (room_buffers _ _ _ 1 ltac:(lia) Hrm)|].
    - apply Hu. unfold m, BPB, BSIZE in *. lia.
    - intros j Hj. apply Hu. unfold m, BPB, BSIZE in *. lia. }
  exists s1. rewrite balloc_eq. fold sb m. rewrite Nat.sub_diag in Hloop. cbn [seq for_until] in Hloop. by mstep Hloop.
Qed.

End Blocks.

(** The bit of block [b] changes to [v], and the others stay. *)
Lemma in_use_change V V' sb start b b' d v :
  bitmap_ok V sb start -> 0 <= b < sb_size sb -> 0 <= b' < sb_size sb ->
  V' (BBLOCK b' sb) = (if decide (BBLOCK b' sb = BBLOCK b sb) then d else V (BBLOCK b' sb)) ->
  (forall j, bit_clear d j = if decide (Z.to_nat (b mod BPB) = j) then negb v else bit_clear (V (BBLOCK b sb)) j) ->
  in_use V' sb b' = if decide (b' = b) then v else in_use V sb b'.
Proof.
  intros [Hs Hst _ _] Hb Hb' HV Hd. unfold in_use. rewrite HV. destruct (decide (b' = b)) as [->|Hne].
  - rewrite decide_True, Hd, decide_True by done. apply negb_involutive.
  - destruct (decide (BBLOCK b' sb = BBLOCK b sb)) as [E|E]; [|done]. rewrite Hd, decide_False, E; [done|].
    intros Em. apply Hne. unfold BBLOCK in E. unfold BPB, BSIZE in *. rewrite !u32_small in E by lia. lia.
Qed.

Lemma bitmap_byte b V sb start :
  bitmap_ok V sb start -> 0 <= b < sb_size sb -> (Z.to_nat (b mod BPB) / 8 < length (V (BBLOCK b sb)))%nat.
Proof.
  intros Hm Hb. rewrite (bo_len _ _ _ Hm b Hb). apply Nat.Div0.div_lt_upper_bound. unfold BPB, BSIZE. lia.
Qed.

(** ** Inodes on disk *)

Lemma get_put_bytes_other w data off off' bs :
  0 <= off -> 0 <= off' -> (Z.to_nat off' + length bs <= length data)%nat ->
  off + Z.of_nat w <= off' \/ off' + Z.of_nat (length bs) <= off ->
  get_le w (put_bytes data off' bs) off = get_le w data off.
Proof.
  intros H0 H0' Hl Hd. unfold get_le. f_equal. apply list_eq. intros k.
  destruct (decide (k < w)%nat); [|by rewrite !lookup_take_ge by lia].
  rewrite !lookup_take_lt, !lookup_drop by lia. apply put_bytes_outside; lia.
Qed.

Lemma get_le_zero w n o : get_le w (replicate n 0) o = 0.
Proof.
  unfold get_le. rewrite drop_replicate, take_replicate. generalize (w `min` (n - Z.to_nat o))%nat. intros k. induction k as [|k IH]; [done|].
  cbn [replicate le_val]. rewrite IH. done.
Qed.

Lemma strncpy_arr_length n : forall dst src, length dst = n -> length (strncpy_arr n dst src) = n.
Proof.
  induction n as [|n IH]; intros [|c dst] [|s src] Hl; cbn in *; try done. destruct (s =? 0); cbn.
  - rewrite length_app, length_replicate, length_drop. lia.
  - rewrite IH; lia.
Qed.

Lemma put_le_length w data off v :
  0 <= off -> (Z.to_nat off + w <= length data)%nat -> length (put_le w data off v) = length data.
Proof. intros ? ?. apply put_bytes_length; [done|]. by rewrite length_le_bytes. Qed.

(** The bytes of an array of words, and one word of it. *)
Definition words (l : list Z) : list Z := mjoin (le_bytes 4 <$> l).

Lemma length_words l : length (words l) = (4 * length l)%nat.
Proof. induction l as [|v l IH]; [done|]. change (words (v :: l)) with (le_bytes 4 v ++ words l). rewrite length_app, length_le_bytes, IH. cbn. lia. Qed.

Lemma get_word l k v : forall data off,
  0 <= off -> (Z.to_nat off + 4 * length l <= length data)%nat -> l !! k = Some v -> 0 <= v < 2 ^ 32 ->
  get_le 4 (put_bytes data off (words l)) (off + 4 * Z.of_nat k) = v.
Proof.
  intros data off H0 Hl Hk Hv. unfold get_le, put_bytes.
  replace (Z.to_nat (off + 4 * Z.of_nat k)) with (Z.to_nat off + 4 * k)%nat by lia.
  rewrite <- drop_drop, drop_app_length' by (rewrite length_take; lia). clear H0 Hl.
  generalize (drop (Z.to_nat off + length (words l)) data). revert k Hk. induction l as [|w l IH]; intros k Hk rest; [done|].
  change (words (w :: l)) with (le_bytes 4 w ++ words l). rewrite <- app_assoc. destruct k as [|k].
  - injection Hk as ->. rewrite Nat.mul_0_r, drop_0, take_app_length' by (by rewrite length_le_bytes). by apply le_val_bytes.
  - replace (4 * S k)%nat with (4 + 4 * k)%nat by lia. rewrite <- drop_drop, drop_app_length' by (by rewrite length_le_bytes).
    by apply IH.
Qed.

(** The fields of an inode have the values that fit in a dinode. *)
Record inode_ok (ip : inode) : Prop := {
  io_inum : 0 <= i_inum ip;
  io_type : - 2 ^ 15 <= i_type ip < 2 ^ 15;
  io_major : - 2 ^ 15 <= i_major ip < 2 ^ 15;
  io_minor : - 2 ^ 15 <= i_minor ip < 2 ^ 15;
  io_nlink : - 2 ^ 15 <= i_nlink ip < 2 ^ 15;
  io_size : 0 <= i_size ip < 2 ^ 32;
  io_len : length (i_addrs ip) = 13%nat;
  io_addrs : Forall (fun a => 0 <= a < 2 ^ 32) (i_addrs ip)
}.

Lemma dinode_off_range n : 0 <= n -> 0 <= dinode_off n <= 960.
Proof. intros Hn. unfold dinode_off, IPB, BSIZE, sizeof_dinode. lia. Qed.

Lemma s16_u16 v : - 2 ^ 15 <= v < 2 ^ 15 -> s16 (u16 v) = v.
Proof. intros Hv. unfold s16, u16. lia. Qed.

Lemma u16_range v : 0 <= u16 v < 256 ^ Z.of_nat 2.
Proof. unfold u16. lia. Qed.

(** [plen] proves bounds on the length of a block with updated fields. *)
Ltac plen := lazymatch goal with |- context [length (put_le _ _ _ _)] => rewrite put_le_length; plen | _ => lia end.

(** [dfield] reads a field of a stored dinode: the updates of the other fields
    are skipped, the update of this one is met. *)
Ltac dfield :=
  repeat first [ rewrite get_put_same by (apply u16_range || plen) | rewrite get_put_other by plen ].

Lemma store_dinode_length ip d :
  inode_ok ip -> length d = Z.to_nat BSIZE -> length (store_dinode ip d) = Z.to_nat BSIZE.
Proof.
  intros Ho Hd. pose proof (dinode_off_range _ (io_inum _ Ho)). unfold store_dinode. fold (words (i_addrs ip)).
  assert (BSIZE = 1024) by done. pose proof (length_words (i_addrs ip)) as Hw. rewrite (io_len _ Ho) in Hw.
  rewrite put_bytes_length; plen.
Qed.

(** Reading back what [iupdate] stored. *)
Lemma load_store_dinode ip ip0 d :
  inode_ok ip -> i_inum ip0 = i_inum ip -> length d = Z.to_nat BSIZE ->
  load_dinode (store_dinode ip d) ip0 =
  Inode (i_dev ip0) (i_inum ip0) (i_ref ip0) (i_valid ip0) (i_type ip) (i_major ip) (i_minor ip) (i_nlink ip) (i_size ip) (i_addrs ip).
Proof.
  intros Ho En Hd. pose proof (dinode_off_range _ (io_inum _ Ho)) as Hof. assert (BSIZE = 1024) by done.
  unfold load_dinode, store_dinode. rewrite En. set (o := dinode_off (i_inum ip)) in *. fold (words (i_addrs ip)).
  cbv zeta. set (d5 := put_le 4 _ (o + 8) _). pose proof (length_words (i_addrs ip)) as Hw. rewrite (io_len _ Ho) in Hw.
  assert (Hl5 : length d5 = 1024%nat) by (unfold d5; plen).
  f_equal.
  - rewrite get_put_bytes_other by lia. unfold d5. dfield. apply s16_u16, Ho.
  - rewrite get_put_bytes_other by lia. unfold d5. dfield. apply s16_u16, Ho.
  - rewrite get_put_bytes_other by lia. unfold d5. dfield. apply s16_u16, Ho.
  - rewrite get_put_bytes_other by lia. unfold d5. dfield. apply s16_u16, Ho.
  - rewrite get_put_bytes_other by lia. unfold d5. pose proof (io_size _ Ho). dfield. done.
  - unfold dip_addrs. fold o. apply list_eq. intros k. rewrite list_lookup_fmap.
    destruct (i_addrs ip !! k) as [a|] eqn:Ha.
    + pose proof (lookup_lt_Some _ _ _ Ha) as Hk. rewrite (io_len _ Ho) in Hk. rewrite lookup_seq_lt by done. cbn [fmap option_fmap option_map].
      f_equal. apply get_word; [lia|rewrite (io_len _ Ho); lia|done|]. pose proof (io_addrs _ Ho) as Hf. rewrite Forall_lookup in Hf. by apply (Hf k).
    + apply lookup_ge_None in Ha. rewrite (io_len _ Ho) in Ha. by rewrite lookup_seq_ge by lia.
Qed.

(** The other inodes of the block stay. *)
Lemma load_dinode_other ip ip' d :
  inode_ok ip -> 0 <= i_inum ip' -> length d = Z.to_nat BSIZE -> i_inum ip' mod IPB <> i_inum ip mod IPB ->
  load_dinode (store_dinode ip d) ip' = load_dinode d ip'.
Proof.
  intros Ho H0 Hd Hne. pose proof (dinode_off_range _ (io_inum _ Ho)). pose proof (dinode_off_range _ H0).
  assert (Hap : dinode_off (i_inum ip') + 64 <= dinode_off (i_inum ip) \/ dinode_off (i_inum ip) + 64 <= dinode_off (i_inum ip')).
  { unfold dinode_off, sizeof_dinode in *. lia. }
  assert (BSIZE = 1024) by done. unfold load_dinode, store_dinode, dip_addrs. fold (words (i_addrs ip)).
  pose proof (length_words (i_addrs ip)) as Hw. rewrite (io_len _ Ho) in Hw.
  set (o := dinode_off (i_inum ip)) in *. set (o' := dinode_off (i_inum ip')) in *. cbv zeta.
  set (d5 := put_le 4 _ (o + 8) _). assert (Hl5 : length d5 = 1024%nat) by (unfold d5; plen).
  assert (Hf : forall w off, 0 <= off -> o' <= off -> off + Z.of_nat w <= o' + 64 ->
    get_le w (put_bytes d5 (o + 12) (words (i_addrs ip))) off = get_le w d off).
  { intros w off ? ? ?. rewrite get_put_bytes_other by lia. clear Hl5. unfold d5. assert (off + Z.of_nat w <= o \/ o + 64 <= off) by lia. clear Hap. by dfield. }
  f_equal; try (rewrite Hf by lia; done). apply list_fmap_ext. intros j k Hj. apply lookup_seq in Hj as [-> Hj].
  apply Hf; lia.
Qed.

Section Inodes.
Context `{Devices} `{RoundsOk} `{!DiskOps} `{!DiskOk}.
Context (c : cpu) (i : nat) (pid start : Z).
Implicit Types (s : kstate ext) (x : ext).

Lemma get_inode_run k s ip : e_inodes (k_ext s) !! k = Some ip -> get_inode k s = Done ip s.
Proof. intros E. unfold get_inode, get_ext. mrun. by rewrite E. Qed.

Lemma iupdate_tx k s ip bl V L :
  e_inodes (k_ext s) !! k = Some ip -> tx s c i pid (i_dev ip) start bl V L ->
  let n := IBLOCK (i_inum ip) (e_sb (k_ext s)) in
  n ∉ L -> home_block start n -> tx_room (k_ext s) bl L 2 ->
  exists s', iupdate k s = Done tt s' /\
    tx s' c i pid (i_dev ip) start (with_block n bl) (<[n := store_dinode ip (V n)]> V) L /\ tx_keep (i_dev ip) L s s'.
Proof.
  intros Hk Ht n Hn Hh Hrm.
  destruct (bread_tx n s c i pid (i_dev ip) start bl V L Ht Hn (room_buffers _ _ _ 2 ltac:(lia) Hrm)) as (bp & y & s1 & Hrun & Ht1 & Hf1 & Hb & Hd).
  destruct (change_block c i pid (i_dev ip) start n bp y (store_dinode ip (V n)) (fun w => set_b_data (store_dinode ip (b_data w)) w)
              s s1 bl V L ltac:(cbv beta; by rewrite Hd) Hn Ht1 Hf1 Hb Hh Hrm) as (s2 & Hrun2 & Ht2 & Hf2).
  exists s2. split; [|done]. unfold iupdate. mstep (get_inode_run k s ip Hk). mstep (get_sb_run s). fold n. mstep Hrun.
  assert (Hk1 : e_inodes (k_ext s1) !! k = Some ip) by (destruct Hf1 as [(_ & -> & _) _]; done).
  mstep (get_inode_run k s1 ip Hk1). exact Hrun2.
Qed.

(** The locks and the table of the inodes are not the cache's. *)
Lemma tx_inodes s f k lk dv bl V L :
  tx s c i pid dv start bl V L ->
  tx (with_ext (fun x => set_e_inodes (f (e_inodes x)) (set_sleep (inode_lock k) lk x)) s) c i pid dv start bl V L.
Proof.
  intros [Hr [] Hl Hy Ho]. split; try done; [by apply fs_ready_ext|].
  assert (Es : forall b, (b < NBUF)%nat -> <[inode_lock k := lk]> (e_sleep (k_ext s)) !! b = e_sleep (k_ext s) !! b).
  { intros b Hb. apply list_lookup_insert_ne. unfold inode_lock. lia. }
  split; try done.
  - cbn. by rewrite length_insert.
  - intros n b y Hb. cbn. rewrite Es by apply Hb. by apply ca_buf.
  - intros b y Hb Hy1 Hd. cbn. rewrite Es by done. by apply ca_other.
Qed.

Lemma tx_set_inodes s f dv bl V L :
  tx s c i pid dv start bl V L -> tx (with_ext (fun x => set_e_inodes (f (e_inodes x)) x) s) c i pid dv start bl V L.
Proof. intros [Hr [] Hl Hy Ho]. split; [by apply fs_ready_ext|by split|done..]. Qed.

Lemma tx_sleep s k lk dv bl V L :
  tx s c i pid dv start bl V L -> tx (with_ext (set_sleep (inode_lock k) lk) s) c i pid dv start bl V L.
Proof.
  intros Ht. pose proof (tx_inodes s (fun l => l) k lk dv bl V L Ht) as Ht1.
  destruct s as [? ? ? ? ? ? ? ? ? ? ? ? ? ? ? x0]. by destruct x0.
Qed.

Lemma mod_inode_run k f s ip :
  e_inodes (k_ext s) !! k = Some ip ->
  mod_inode k f s = Done tt (with_ext (fun x => set_e_inodes (<[k := f ip]> (e_inodes x)) x) s).
Proof. intros E. unfold mod_inode, mod_ext, modify. by rewrite (alter_insert _ _ ip _ E). Qed.

(** [ilock] of an entry that is not valid yet reads the inode from its block. *)
Lemma ilock_tx k s ip lk bl V L :
  e_inodes (k_ext s) !! k = Some ip -> tx s c i pid (i_dev ip) start bl V L ->
  e_sleep (k_ext s) !! inode_lock k = Some lk -> sl_locked lk = 0 -> 1 <= i_ref ip -> i_valid ip = 0 ->
  let n := IBLOCK (i_inum ip) (e_sb (k_ext s)) in
  n ∉ L -> (length bl + size L < NBUF)%nat -> i_type (load_dinode (V n) ip) <> 0 ->
  exists s', ilock (Some k) s = Done tt s' /\ tx s' c i pid (i_dev ip) start bl V L /\
    e_sb (k_ext s') = e_sb (k_ext s) /\ e_inodes (k_ext s') = <[k := set_i_valid 1 (load_dinode (V n) ip)]> (e_inodes (k_ext s)) /\
    drop NBUF (e_sleep (k_ext s')) = <[k := SleepLock 1 pid]> (drop NBUF (e_sleep (k_ext s))).
Proof.
  intros Hk Ht Hlk Hfree Href Hval n Hn Hrm Hty. pose proof (lookup_lt_Some _ _ _ Hk) as Hklt.
  unfold ilock. mstep (get_inode_run k s ip Hk). rewrite (proj2 (Z.ltb_ge _ _)) by lia.
  mstep (acquiresleep_run (inode_lock k) s c i pid lk (tx_ready _ _ _ _ _ _ _ _ _ Ht) Hlk Hfree). set (s1 := with_ext _ s).
  assert (Ht1 : tx s1 c i pid (i_dev ip) start bl V L) by (by apply tx_sleep).
  mstep (get_inode_run k s1 ip Hk). rewrite Hval, Z.eqb_refl, when_true. mstep (get_sb_run s1).
  change (e_sb (k_ext s1)) with (e_sb (k_ext s)). fold n.
  destruct (bread_tx n s1 c i pid (i_dev ip) start bl V L Ht1 Hn Hrm) as (bp & y & s2 & Hrun & Ht2 & Hf2 & Hb & Hd).
  mstep Hrun. mstep (get_buf_run bp s2 y ltac:(apply Hb)). rewrite Hd.
  assert (Ei2 : e_inodes (k_ext s2) = e_inodes (k_ext s)) by (destruct Hf2 as [(_ & -> & _) _]; done).
  mstep (mod_inode_run k (load_dinode (V n)) s2 ip ltac:(by rewrite Ei2)). set (s3 := with_ext _ s2).
  pose proof (tx_set_inodes s2 (<[k := load_dinode (V n) ip]>) _ _ _ _ Ht2) as Ht3. fold s3 in Ht3.
  destruct (brelse_tx n bp y s3 c i pid (i_dev ip) start bl V _ Ht3 ltac:(set_solver) Hb) as (s4 & Hrun4 & Ht4 & Hf4 & _).
  { destruct (decide (n ∈ bl)); [by left|right]. change (media (k_ext s3) n) with (media (k_ext s2) n).
    rewrite (tx_frame_media s1 s2 n (tx_keep_frame _ _ _ _ Hf2)). by eapply tx_clean. }
  mstep Hrun4.
  assert (Ei4 : e_inodes (k_ext s4) = <[k := load_dinode (V n) ip]> (e_inodes (k_ext s))) by (destruct Hf4 as [(_ & -> & _) _]; cbn; by rewrite Ei2).
  assert (Hk4 : e_inodes (k_ext s4) !! k = Some (load_dinode (V n) ip)) by (rewrite Ei4; by apply list_lookup_insert_eq).
  mstep (mod_inode_run k (set_i_valid 1) s4 _ Hk4). set (s5 := with_ext _ s4).
  assert (Hk5 : e_inodes (k_ext s5) !! k = Some (set_i_valid 1 (load_dinode (V n) ip)))
    by (cbn; apply list_lookup_insert_eq; by apply lookup_lt_Some in Hk4).
  mstep (get_inode_run k s5 _ Hk5). change (i_type (set_i_valid 1 ?z)) with (i_type z).
  rewrite (proj2 (Z.eqb_neq _ _)) by done. rewrite when_false. exists s5. split; [done|].
  split; [|split; [|split; [cbn; by rewrite Ei4, list_insert_insert_eq|]]].
  2:{ destruct Hf4 as [(E4 & _) _], Hf2 as [(E2 & _) _]. cbn in *. congruence. }
  2:{ destruct Hf4 as [(_ & _ & _ & _ & E4 & _) _], Hf2 as [(_ & _ & _ & _ & E2 & _) _]. cbn [s5 with_ext k_ext set_k_ext e_sleep set_e_inodes].
      rewrite E4. cbn [s3 with_ext k_ext set_k_ext e_sleep set_e_inodes]. rewrite E2. cbn. rewrite drop_insert_ge by (unfold inode_lock; lia).
      f_equal. unfold inode_lock. lia. }
  apply (tx_set_inodes s4 (<[k := set_i_valid 1 (load_dinode (V n) ip)]>)). eapply tx_held; [|exact Ht4]. set_solver.
Qed.

End Inodes.

(** One more operation in a running transaction. *)
Lemma begin_tx `{Devices} (s : kstate ext) c i pid dv start bl V L :
  tx s c i pid dv start bl V L ->
  tx (with_ext (fun x => set_e_log (set_log_outstanding (log_outstanding (e_log x) + 1) (e_log x)) x) s)
     c i pid dv start bl V L.
Proof.
  intros [Hr Hc Hl Hy Ho]. split; [by apply fs_ready_ext|by apply cache_log| |done|cbn; lia].
  destruct Hl. by split.
Qed.

Lemma snoc_view {A} (l : list A) : (0 < length l)%nat -> exists l' x, l = l' ++ [x].
Proof. destruct l as [|x l _] using rev_ind; cbn; [lia|]. intros _. by exists l, x. Qed.

Section Properties.
Context `{Devices} `{RoundsOk} `{!DiskOps} `{!DiskOk}.

(** C11: the block allocator.  [balloc] gives the lowest block that is free in
    the bitmap, marks it used, and hands it out filled with zeros, all inside the
    running transaction and without touching another block; [bfree] of that block
    makes the bitmap what it was.  When every block is in use [balloc] panics. *)
Theorem balloc_bfree (s : kstate ext) (c : cpu) (i : nat) (pid dv start : Z) (bl : list Z) (V : Z -> list Z) (L : gset Z) :
  let sb := e_sb (k_ext s) in
  tx s c i pid dv start bl V L -> bitmap_ok V sb start -> tx_room (k_ext s) bl L 4 ->
  (forall b, 0 <= b < sb_size sb -> BBLOCK b sb ∉ L) ->
  ((forall b, 0 <= b < sb_size sb -> in_use V sb b = true) ->
   exists s', balloc dv s = Panic "balloc: out of blocks" s') /\
  (forall b, 0 <= b < sb_size sb -> in_use V sb b = false -> (forall b', 0 <= b' < b -> in_use V sb b' = true) ->
   b ∉ L -> home_block start b -> (forall b', 0 <= b' < sb_size sb -> BBLOCK b' sb <> b) ->
   exists s1 bl1 V1, balloc dv s = Done b s1 /\ tx s1 c i pid dv start bl1 V1 L /\ tx_frame s s1 /\
     V1 b = zero_block /\ (forall n, n <> b -> n <> BBLOCK b sb -> V1 n = V n) /\
     (forall b', 0 <= b' < sb_size sb -> in_use V1 sb b' = if decide (b' = b) then true else in_use V sb b') /\
     exists s2 bl2 V2, bfree dv b s1 = Done tt s2 /\ tx s2 c i pid dv start bl2 V2 L /\
       forall b', 0 <= b' < sb_size sb -> in_use V2 sb b' = in_use V sb b').
Proof.
  intros sb Ht Hm Hrm HL. split.
  { intros Hall. apply (balloc_full c i pid dv start s bl V L Ht); [apply Hm| |]; [by intros b Hb; split; [apply Hall|apply HL]|].
    destruct Hrm as (? & ? & ?). split_and!; lia. }
  intros b Hb Hfree Hlow HbL Hhb Hsep. set (n := BBLOCK b sb). pose proof (bo_home _ _ _ Hm b Hb) as Hhn. fold n in Hhn.
  destruct (balloc_tx c i pid dv start b s bl V L Ht Hb Hfree Hlow HL HbL Hhn Hhb) as (s1 & Hrun1 & Ht1 & Hf1).
  { destruct Hrm as (? & ? & ?). split_and!; lia. }
  fold sb n in Ht1. set (V1 := <[b := _]> _) in Ht1. pose proof (bitmap_byte b V sb start Hm Hb) as Hby. fold n in Hby.
  assert (Hu1 : forall b', 0 <= b' < sb_size sb -> in_use V1 sb b' = if decide (b' = b) then true else in_use V sb b').
  { intros b' Hb'. apply (in_use_change V V1 sb start b b' (set_bit (Z.to_nat (b mod BPB)) (V n))); try done.
    - unfold V1. rewrite fn_lookup_insert_ne by (apply not_eq_sym, (Hsep b' Hb')). destruct (decide (BBLOCK b' sb = BBLOCK b sb)) as [->|Hne];
        [by rewrite fn_lookup_insert|by rewrite fn_lookup_insert_ne by (unfold n; done)].
    - intros j. apply bit_clear_set, Hby. }
  assert (Esb : e_sb (k_ext s1) = sb) by (destruct Hf1 as [(-> & _) _]; done).
  exists s1. do 2 eexists. split; [exact Hrun1|]. split; [exact Ht1|].
  split; [by eapply tx_keep_frame|]. split; [apply fn_lookup_insert|].
  split; [intros m Hm1 Hm2; unfold V1; by rewrite !fn_lookup_insert_ne by done|]. split; [exact Hu1|].
  destruct (bfree_tx c i pid dv start b s1 _ V1 L Ht1) as (s2 & Hrun2 & Ht2 & Hf2); rewrite ?Esb; fold n; try done.
  - by apply HL.
  - eapply tx_room_keep; [exact Hf1|]. apply tx_room_step, tx_room_step. destruct Hrm as (? & ? & ?). split_and!; lia.
  - by rewrite Hu1, decide_True.
  - rewrite Esb in Ht2. fold n in Ht2. exists s2. do 2 eexists. split; [exact Hrun2|]. split; [exact Ht2|].
    assert (E1 : V1 n = set_bit (Z.to_nat (b mod BPB)) (V n)).
    { unfold V1. rewrite fn_lookup_insert_ne by (apply not_eq_sym, (Hsep b Hb)). by rewrite fn_lookup_insert. }
    intros b' Hb'. erewrite (in_use_change V _ sb start b b' _ false Hm Hb Hb').
    + destruct (decide (b' = b)) as [->|]; [done|done].
    + rewrite E1. destruct (decide (BBLOCK b' sb = BBLOCK b sb)) as [->|Hne]; [by rewrite fn_lookup_insert|].
      rewrite fn_lookup_insert_ne by (unfold n; done). unfold V1. rewrite !fn_lookup_insert_ne; [done|unfold n; done|].
      apply not_eq_sym, (Hsep b' Hb').
    + intros j. rewrite bit_clear_clear by (unfold set_bit; by rewrite length_alter). rewrite bit_clear_set by done.
      by destruct (decide _).
Qed.

(** C14: an inode survives its eviction from the table.  [iupdate] stores the
    in-memory inode in its block, in the running transaction, and changes no other
    inode of the block and no other block; and whenever an entry of the table is
    later set up for the same inode number, [ilock] loads exactly the type, device
    numbers, link count, size and block addresses that were stored. *)
Theorem inode_persists (s : kstate ext) (c : cpu) (i : nat) (pid start : Z) (bl : list Z) (V : Z -> list Z) (L : gset Z)
    (k : nat) (ip : inode) :
  let n := IBLOCK (i_inum ip) (e_sb (k_ext s)) in
  tx s c i pid (i_dev ip) start bl V L -> e_inodes (k_ext s) !! k = Some ip -> inode_ok ip -> i_type ip <> 0 ->
  n ∉ L -> home_block start n -> length (V n) = Z.to_nat BSIZE -> tx_room (k_ext s) bl L 2 ->
  exists s1 bl1 V1, iupdate k s = Done tt s1 /\ tx s1 c i pid (i_dev ip) start bl1 V1 L /\ tx_frame s s1 /\
    (forall m, m <> n -> V1 m = V m) /\
    (forall ip', 0 <= i_inum ip' -> i_inum ip' <> i_inum ip -> i_inum ip' / IPB = i_inum ip / IPB ->
       load_dinode (V1 n) ip' = load_dinode (V n) ip') /\
    (forall s2 bl2 V2 k2 ip0 lk, tx s2 c i pid (i_dev ip) start bl2 V2 L -> e_sb (k_ext s2) = e_sb (k_ext s) -> V2 n = V1 n ->
       e_inodes (k_ext s2) !! k2 = Some ip0 -> i_dev ip0 = i_dev ip -> i_inum ip0 = i_inum ip -> 1 <= i_ref ip0 ->
       i_valid ip0 = 0 -> e_sleep (k_ext s2) !! inode_lock k2 = Some lk -> sl_locked lk = 0 -> (length bl2 + size L < NBUF)%nat ->
       exists s3, ilock (Some k2) s2 = Done tt s3 /\
         e_inodes (k_ext s3) !! k2 = Some (set_i_valid 1 (set_i_ref (i_ref ip0) ip))).
Proof.
  intros n Ht Hk Ho Hty Hn Hh Hlen Hrm.
  destruct (iupdate_tx c i pid start k s ip bl V L Hk Ht Hn Hh Hrm) as (s1 & Hrun & Ht1 & Hf1).
  exists s1. do 2 eexists. split; [exact Hrun|]. split; [exact Ht1|]. split; [by eapply tx_keep_frame|]. fold n.
  split; [intros m Hm; by rewrite fn_lookup_insert_ne|]. rewrite fn_lookup_insert. split.
  - intros ip' Hp Hne Hdiv. apply load_dinode_other; try done. intros Hmod. apply Hne.
    rewrite (Z.div_mod (i_inum ip') IPB), (Z.div_mod (i_inum ip) IPB) by done. congruence.
  - intros s2 bl2 V2 k2 ip0 lk Ht2 Esb EV Hk2 Hd0 Hi0 Href Hval Hlk Hfree Hroom. rewrite <- Hd0 in Ht2.
    assert (El : load_dinode (V2 n) ip0 = set_i_ref (i_ref ip0) (set_i_valid 0 ip)).
    { rewrite EV, load_store_dinode by done. by rewrite Hd0, Hi0, Hval. }
    destruct (ilock_tx c i pid start k2 s2 ip0 lk bl2 V2 L Hk2 Ht2 Hlk Hfree Href Hval) as (s3 & Hrun3 & _ & _ & Hk3 & _);
      rewrite ?Hi0, ?Esb; fold n; try done; [by rewrite El|].
    exists s3. split; [done|]. rewrite Hi0, Esb in Hk3. fold n in Hk3. rewrite Hk3, El.
    apply list_lookup_insert_eq. by apply lookup_lt_Some in Hk2.
Qed.

(** C39: the admission control of the log does not match its size.  Let one
    operation be running in an empty log whose area has LOGSIZE = 30 blocks, one
    of which is the header.  [begin_op] admits two more operations at once and
    only a fourth one has to wait, since each is promised MAXOPBLOCKS = 10 blocks;
    but when the three operations write the ten blocks each of them was promised,
    all different, the kernel panics in [log_write] at the last one, with 29
    blocks logged. *)
Theorem log_overcommits (s : kstate ext) (c : cpu) (i : nat) (pid dv start : Z) (V : Z -> list Z) (t : nat * nat)
    (th : thread) (b1 b2 b3 : list Z) :
  tx s c i pid dv start [] V ∅ -> running s c t th -> c_noff c = 0 ->
  log_committing (e_log (k_ext s)) = 0 -> log_outstanding (e_log (k_ext s)) = 1 ->
  log_size (e_log (k_ext s)) = LOGSIZE ->
  Forall (fun b => Z.of_nat (length b) = MAXOPBLOCKS) [b1; b2; b3] -> NoDup (b1 ++ b2 ++ b3) ->
  Forall (home_block start) (b1 ++ b2 ++ b3) ->
  exists s1 s2, begin_op s = Done tt s1 /\ begin_op s1 = Done tt s2 /\
    log_outstanding (e_log (k_ext s2)) = 3 /\ (exists s3 k, begin_op s2 = Swtch None s3 k) /\
    exists s', for_each (b1 ++ b2 ++ b3) (bzero dv) s2 = Panic "too big a transaction" s' /\
      lh_n (e_log (k_ext s')) = 29.
Proof.
  intros Ht Hrun Hn Hcm Hout Hsz Hlen Hnd Hh. pose proof (tx_log _ _ _ _ _ _ _ _ _ Ht) as Hl.
  pose proof (li_n _ _ _ _ Hl) as Hz. cbn in Hz. pose proof (tx_ready _ _ _ _ _ _ _ _ _ Ht) as Hr.
  pose proof (begin_op_admits s c i pid Hr Hcm ltac:(rewrite Hz, Hout; by vm_compute)) as Hb1.
  set (s1 := with_ext _ s) in Hb1. pose proof (begin_tx s c i pid dv start [] V ∅ Ht) as Ht1. fold s1 in Ht1.
  pose proof (begin_op_admits s1 c i pid (fs_ready_ext _ _ _ _ _ Hr) Hcm ltac:(cbn; rewrite Hz, Hout; by vm_compute)) as Hb2.
  set (s2 := with_ext _ s1) in Hb2. pose proof (begin_tx s1 c i pid dv start [] V ∅ Ht1) as Ht2. fold s2 in Ht2.
  exists s1, s2. split_and!; [done|done|cbn; by rewrite Hout|..].
  - destruct (begin_op_waits s2 c i pid t th (tx_ready _ _ _ _ _ _ _ _ _ Ht2)) as [k Hk]; [|done|done|..].
    + destruct Hrun as (Hq & Hrest). split; [by apply (quiet_hw s)|exact Hrest].
    + cbn. rewrite Hz, Hout. by vm_compute.
    + by eexists _, k.
  - rewrite !Forall_cons in Hlen. destruct Hlen as (L1 & L2 & L3 & _). unfold MAXOPBLOCKS in *.
    destruct (snoc_view b3) as (b & n & ->); [lia|]. rewrite length_app in L3. cbn in L3. rewrite !app_assoc in *.
    apply Forall_app in Hh as [Hh Hhn]. rewrite Forall_singleton in Hhn. apply NoDup_app in Hnd as (Hnd & _).
    destruct (bzero_all c i pid dv start ((b1 ++ b2) ++ b) s2 [] V Ht2) as (s3 & V3 & Hrun3 & Ht3 & Hsz3);
      [done|done|rewrite !length_app; cbn; lia|done|].
    destruct (bzero_full c i pid dv start n s3 _ V3 Ht3 Hhn) as (s4 & Hrun4 & Hl4); [rewrite !length_app; cbn; lia|done|].
    exists s4. rewrite (for_each_app _ _ _ _ _ Hrun3). cbn [for_each]. rewrite (bind_Panic _ _ _ _ _ Hrun4).
    split; [done|]. rewrite (li_n _ _ _ _ Hl4), !length_app. cbn. lia.
Qed.

End Properties.

(** ** A transaction to evaluate on *)

#[local] Instance fs_round : Rounds := 1%nat.
#[local] Instance fs_round_ok : RoundsOk := Nat.lt_0_1.
#[local] Instance fs_devices : Devices := no_devices.
#[local] Instance fs_disk : DiskOps := ideal_disk.

Definition sample_sb : superblock := SuperBlock FSMAGIC 1000 900 200 30 2 33 60.
Definition sample_inode : inode := Inode 1 5 1 1 T_FILE 0 0 1 300 (replicate 13 77).

Lemma sample_tx :
  exists s : kstate ext, tx s fs_cpu O 1 1 2 [] (fun _ => zero_block) ∅ /\ e_sb (k_ext s) = sample_sb /\
    e_inodes (k_ext s) !! O = Some sample_inode /\ log_size (e_log (k_ext s)) = 30.
Proof.
  destruct fs_boot_cache as (bufs & _ & Hc). set (s0 := with_ext (set_e_bufs bufs) fs_boot).
  exists (with_ext (fun w => set_e_inodes (<[O := sample_inode]> (e_inodes w)) w)
           (with_ext (fun w => set_e_sb sample_sb (set_e_log (sample_log 30 0 1 []) w)) s0)).
  split_and!; [|done..]. apply tx_set_inodes. split.
  - apply fs_ready_ext, fs_ready_ext, fs_boot_ready.
  - assert (Hc' : cache (set_e_sb sample_sb (set_e_log (sample_log 30 0 1 []) (k_ext s0))) 1 1 (media (k_ext fs_boot)) (fun _ => 0) ∅).
    { destruct Hc. by split. }
    eapply cache_equiv; [..|exact Hc']; [done| |done].
    intros n. unfold refs, pins. by rewrite !decide_False by set_solver.
  - by split.
  - apply sample_layout; [constructor|constructor| |cbn; lia]. intros b Hb. by apply not_elem_of_nil in Hb.
  - cbn. lia.
Qed.

Lemma sample_room (x : ext) : log_size (e_log x) = 30 -> tx_room x [] ∅ 4.
Proof. intros E. unfold tx_room, LOGSIZE, MAXOPBLOCKS, NBUF. rewrite E, size_empty. cbn. lia. Qed.

Lemma sample_home n : 33 <= n < 2 ^ 31 -> home_block 2 n.
Proof. intros Hn. split; [lia|]. unfold home, LOGSIZE, MAXOPBLOCKS. lia. Qed.

Lemma sample_bblock b : 0 <= b < 1000 -> BBLOCK b sample_sb = 60.
Proof. intros Hb. unfold BBLOCK, sample_sb, BPB, BSIZE, u32. cbn. lia. Qed.

Lemma balloc_bfree_witness : exists s s1 s2 : kstate ext, balloc 1 s = Done 0 s1 /\ bfree 1 0 s1 = Done tt s2.
Proof.
  destruct sample_tx as (s & Ht & Esb & _ & Els).
  destruct (balloc_bfree s fs_cpu O 1 1 2 [] (fun _ => zero_block) ∅ Ht) as [_ Ha]; rewrite ?Esb.
  - split; [done|done| |done]. intros b Hb. rewrite sample_bblock by done. apply sample_home. lia.
  - by apply sample_room.
  - set_solver.
  - destruct (Ha 0) as (s1 & _ & _ & H1 & _ & _ & _ & _ & _ & s2 & _ & _ & H2 & _); rewrite ?Esb.
    + done.
    + reflexivity.
    + lia.
    + set_solver.
    + split; [lia|]. unfold home, LOGSIZE, MAXOPBLOCKS. lia.
    + intros b Hb. rewrite sample_bblock by done. lia.
    + exists s, s1, s2. split; [exact H1|exact H2].
Defined.

Lemma inode_persists_witness : exists s s1 : kstate ext, iupdate 0 s = Done tt s1.
Proof.
  destruct sample_tx as (s & Ht & Esb & Hk & Els).
  destruct (inode_persists s fs_cpu O 1 2 [] (fun _ => zero_block) ∅ O sample_inode Ht Hk) as (s1 & _ & _ & H1 & _).
  - unfold sample_inode, T_FILE. split; [cbn; lia|cbn; lia|cbn; lia|cbn; lia|cbn; lia|cbn; lia|reflexivity|apply Forall_replicate; lia].
  - done.
  - set_solver.
  - rewrite Esb. apply sample_home. split; by vm_compute.
  - reflexivity.
  - destruct (sample_room _ Els) as (? & ? & ?). split_and!; lia.
  - exists s, s1. exact H1.
Defined.

(** A running operation in an empty log, and the thread that runs it. *)
Lemma overcommit_tx :
  exists (s : kstate ext) th, tx s fs_cpu O 1 1 2 [] (fun _ => zero_block) ∅ /\ running s fs_cpu (O, O) th /\
    log_committing (e_log (k_ext s)) = 0 /\ log_outstanding (e_log (k_ext s)) = 1 /\
    log_size (e_log (k_ext s)) = LOGSIZE.
Proof.
  destruct fs_boot_cache as (bufs & _ & Hc). set (s0 := with_ext (set_e_bufs bufs) fs_boot).
  exists (with_ext (set_e_log (sample_log 30 0 1 [])) s0),
    (set_t_state RUNNING (set_t_tid 1 (set_t_proc_parent (Some O) zero_thread))).
  assert (Hr : fs_ready (with_ext (set_e_log (sample_log 30 0 1 [])) s0) fs_cpu O 1)
    by apply fs_ready_ext, fs_ready_ext, fs_boot_ready.
  split_and!; [|..|done|done|done].
  - split; [exact Hr| |by split|apply sample_layout; [constructor|constructor| |cbn; lia]|cbn; lia].
    + eapply cache_equiv; [..|apply cache_log; exact Hc]; [done| |done].
      intros n. unfold refs, pins. by rewrite !decide_False by set_solver.
    + intros b Hb. by apply not_elem_of_nil in Hb.
  - split_and!; [exact (fr_quiet _ _ _ _ Hr)|reflexivity|reflexivity|]. eexists. split; reflexivity.
Qed.

(** Thirty blocks from block 100 on, ten for each operation. *)
Lemma log_overcommits_witness :
  exists s s1 s2 s' : kstate ext, begin_op s = Done tt s1 /\ begin_op s1 = Done tt s2 /\
    for_each (Z.of_nat <$> seq 100 30) (bzero 1) s2 = Panic "too big a transaction" s'.
Proof.
  destruct overcommit_tx as (s & th & Ht & Hrun & Hcm & Hout & Hsz).
  destruct (log_overcommits s fs_cpu O 1 1 2 (fun _ => zero_block) (O, O) th
              (Z.of_nat <$> seq 100 10) (Z.of_nat <$> seq 110 10) (Z.of_nat <$> seq 120 10)
              Ht Hrun eq_refl Hcm Hout Hsz) as (s1 & s2 & H1 & H2 & _ & _ & s' & H3 & _).
  - by repeat constructor.
  - rewrite <- !fmap_app. apply NoDup_fmap_2; [exact Nat2Z.inj|]. exact (NoDup_seq 100 30).
  - rewrite <- !fmap_app. apply Forall_fmap, Forall_forall. intros n Hn.
    change (n ∈ seq 100 30) in Hn. apply elem_of_seq in Hn. apply sample_home. lia.
  - exists s, s1, s2, s'. split_and!; [exact H1|exact H2|exact H3].
Defined.
