(* ===== verification/Console.v ===== *)
(** * The serial port and the console (kernel/uart.c, kernel/console.c)

    The driver of the 16550 UART, written against the registers of [Devices],
    and the console above it: echo and line editing of the input, and the reads
    and writes of the console device.  A loop that polls a register tests it at
    most [rounds] times. *)

From S2P Require Import Prelude Machine Memory State Spinlock Kalloc Vm Proc FsState Sleeplock.

(** The registers of the UART. *)
Inductive uart_reg := RHR | THR | IER | FCR | ISR | LCR | LSR.

Definition uart_offset (r : uart_reg) : Z :=
  match r with RHR => 0 | THR => 0 | IER => 1 | FCR => 2 | ISR => 2 | LCR => 3 | LSR => 5 end.
Coercion uart_offset : uart_reg >-> Z.

(** Their bits. *)
Inductive uart_bits :=
| IER_RX_ENABLE | IER_TX_ENABLE | FCR_FIFO_ENABLE | FCR_FIFO_CLEAR | LCR_EIGHT_BITS | LCR_BAUD_LATCH | LSR_RX_READY | LSR_TX_IDLE.

Definition uart_mask (b : uart_bits) : Z :=
  match b with
  | IER_RX_ENABLE => Z.shiftl 1 0 | IER_TX_ENABLE => Z.shiftl 1 1
  | FCR_FIFO_ENABLE => Z.shiftl 1 0 | FCR_FIFO_CLEAR => Z.shiftl 3 1
  | LCR_EIGHT_BITS => Z.shiftl 3 0 | LCR_BAUD_LATCH => Z.shiftl 1 7
  | LSR_RX_READY => Z.shiftl 1 0 | LSR_TX_IDLE => Z.shiftl 1 5
  end.
Coercion uart_mask : uart_bits >-> Z.

(** The address of a register. *)
Definition Reg (reg : Z) : Z := UART0 + reg.

(** Special characters of the console. *)
Definition BACKSPACE : Z := 0x100.
Definition Ctrl (c : Z) : Z := c - 64.
Definition newline : Z := 10.
Definition carriage_return : Z := 13.

Section Ops.
Context `{Devices} `{Rounds}.

Definition mod_uart (f : uart -> uart) : KM ext unit := mod_ext (fun x => set_e_uart (f (e_uart x)) x).
Definition mod_cons (f : console -> console) : KM ext unit := mod_ext (fun x => set_e_cons (f (e_cons x)) x).

(** ** kernel/uart.c *)

Definition uartinit : KM ext unit :=
  WriteReg (Reg IER) 0;;
  WriteReg (Reg LCR) LCR_BAUD_LATCH;;
  WriteReg (Reg 0) 3;;
  WriteReg (Reg 1) 0;;
  WriteReg (Reg LCR) LCR_EIGHT_BITS;;
  WriteReg (Reg FCR) (Z.lor FCR_FIFO_ENABLE FCR_FIFO_CLEAR);;
  WriteReg (Reg IER) (Z.lor IER_TX_ENABLE IER_RX_ENABLE);;
  initlock UartTxLock.

(** One turn of the loop of [uartstart]: send a buffered character if there is
    one and the port can take it. *)
Definition uartstart_turn : KM ext (option unit) :=
  u ← get_ext e_uart;
  if uart_tx_w u =? uart_tx_r u then mret (Some tt) else
  lsr ← ReadReg (Reg LSR);
  if Z.land lsr LSR_TX_IDLE =? 0 then mret (Some tt) else
  c ← of_option (uart_tx_buf u !! Z.to_nat (uart_tx_r u mod UART_TX_BUF_SIZE));
  mod_uart (fun u => set_uart_tx_r (u64 (uart_tx_r u + 1)) u);;
  wakeup (Some ChUart);;
  WriteReg (Reg THR) c;;
  mret None.

(** The buffer holds at most [UART_TX_BUF_SIZE] characters. *)
Definition uartstart : KM ext unit := loop (S (Z.to_nat UART_TX_BUF_SIZE)) uartstart_turn.

Definition uartputc (c : Z) : KM ext unit :=
  acquire UartTxLock;;
  panicked ← get_ext e_panicked;
  if panicked : bool then hang else
  loop rounds
    (u ← get_ext e_uart;
     if uart_tx_w u =? u64 (uart_tx_r u + UART_TX_BUF_SIZE) then
       sleep ChUart UartTxLock;; mret None
     else
       mod_uart (fun u => set_uart_tx_buf
         (<[Z.to_nat (uart_tx_w u mod UART_TX_BUF_SIZE) := u8 c]> (uart_tx_buf u)) u);;
       mod_uart (fun u => set_uart_tx_w (u64 (uart_tx_w u + 1)) u);;
       uartstart;;
       release UartTxLock;;
       mret (Some tt)).

Definition uartputc_sync (c : Z) : KM ext unit :=
  push_off;;
  panicked ← get_ext e_panicked;
  if panicked : bool then hang else
  loop rounds
    (lsr ← ReadReg (Reg LSR);
     mret (if Z.land lsr LSR_TX_IDLE =? 0 then None else Some tt));;
  WriteReg (Reg THR) (u8 c);;
  pop_off.

Definition uartgetc : KM ext Z :=
  lsr ← ReadReg (Reg LSR);
  if truthy (Z.land lsr 1) then ReadReg (Reg RHR) else mret (-1).

(** ** kernel/console.c *)

Definition consputc (c : Z) : KM ext unit :=
  if c =? BACKSPACE then uartputc_sync 8;; uartputc_sync 32;; uartputc_sync 8
  else uartputc_sync c.

(** The loop of [consolewrite] from index [i], with [n] characters left. *)
Fixpoint consolewrite_loop (n : nat) (user_src : bool) (src i : Z) : KM ext Z :=
  match n with
  | O => mret i
  | S n' =>
      r ← either_copyin user_src (u64 (src + i)) 1;
      if fst r =? -1 then mret i else
      c ← of_option (snd r !! O);
      uartputc c;;
      consolewrite_loop n' user_src src (i + 1)
  end.

Definition consolewrite (user_src : bool) (src n : Z) : KM ext Z :=
  consolewrite_loop (Z.to_nat n) user_src src 0.

(** The wait for input of [consoleread]: whether there is some. *)
Definition wait_input : KM ext bool :=
  loop rounds
    (x ← get_ext e_cons;
     if negb (cons_r x =? cons_w x) then mret (Some true) else
     i ← curproc; p ← get_proc i;
     if truthy (p_killed p) then mret (Some false)
     else sleep ChCons ConsLock;; mret None).

(** The loop of [consoleread] with [n] characters to read: the number left, or
    nothing when the process was killed and the lock released. *)
Fixpoint consoleread_loop (n : nat) (user_dst : bool) (dst target : Z) : KM ext (option Z) :=
  match n with
  | O => mret (Some 0)
  | S n' =>
      ok ← wait_input;
      if negb ok then release ConsLock;; mret None else
      x ← get_ext e_cons;
      c ← of_option (cons_buf x !! Z.to_nat (cons_r x mod INPUT_BUF));
      mod_cons (fun x => set_cons_r (u32 (cons_r x + 1)) x);;
      if c =? Ctrl 68 then
        when (Z.of_nat n <? target) (mod_cons (fun x => set_cons_r (u32 (cons_r x - 1)) x));;
        mret (Some (Z.of_nat n))
      else
      r ← either_copyout user_dst dst [c];
      if r =? -1 then mret (Some (Z.of_nat n))
      else if c =? newline then mret (Some (Z.of_nat n'))
      else consoleread_loop n' user_dst (u64 (dst + 1)) target
  end.

Definition consoleread (user_dst : bool) (dst n : Z) : KM ext Z :=
  acquire ConsLock;;
  r ← (if 0 <? n then consoleread_loop (Z.to_nat n) user_dst dst (u32 n) else mret (Some n));
  match r with
  | None => mret (-1)
  | Some n' => release ConsLock;; mret (s32 (u32 n - n'))
  end.

(** One turn of the loop of Control-U. *)
Definition kill_line_turn : KM ext (option unit) :=
  x ← get_ext e_cons;
  if cons_e x =? cons_w x then mret (Some tt) else
  c ← of_option (cons_buf x !! Z.to_nat (u32 (cons_e x - 1) mod INPUT_BUF));
  if c =? newline then mret (Some tt) else
  mod_cons (fun x => set_cons_e (u32 (cons_e x - 1)) x);;
  consputc BACKSPACE;;
  mret None.

(** An ordinary character. *)
Definition store_input (c : Z) : KM ext unit :=
  x ← get_ext e_cons;
  when (negb (c =? 0) && (u32 (cons_e x - cons_r x) <? INPUT_BUF))
    (let c := if c =? carriage_return then newline else c in
     consputc c;;
     mod_cons (fun x => set_cons_buf (<[Z.to_nat (cons_e x mod INPUT_BUF) := u8 c]> (cons_buf x)) x);;
     mod_cons (fun x => set_cons_e (u32 (cons_e x + 1)) x);;
     x ← get_ext e_cons;
     when ((c =? newline) || (c =? Ctrl 68) || (cons_e x =? u32 (cons_r x + INPUT_BUF)))
       (mod_cons (fun x => set_cons_w (cons_e x) x);;
        wakeup (Some ChCons))).

Definition consoleintr (c : Z) : KM ext unit :=
  acquire ConsLock;;
  (if c =? Ctrl 80 then procdump
   else if c =? Ctrl 85 then loop (S (Z.to_nat INPUT_BUF)) kill_line_turn
   else if (c =? Ctrl 72) || (c =? 127) then
     x ← get_ext e_cons;
     when (negb (cons_e x =? cons_w x))
       (mod_cons (fun x => set_cons_e (u32 (cons_e x - 1)) x);;
        consputc BACKSPACE)
   else store_input c);;
  release ConsLock.

Definition consoleinit : KM ext unit :=
  initlock ConsLock;;
  uartinit;;
  mod_ext (fun x => set_e_devsw (<[Z.to_nat CONSOLE := ConsoleDevice]> (e_devsw x)) x).

(** [uartintr] of kernel/uart.c, which feeds the console. *)
Definition uartintr : KM ext unit :=
  loop rounds
    (c ← uartgetc;
     if c =? -1 then mret (Some tt) else consoleintr c;; mret None);;
  acquire UartTxLock;;
  uartstart;;
  release UartTxLock.

End Ops.
