(* ===== verification/File.v ===== *)
(** * Pipes and open files (kernel/pipe.c, kernel/file.c)

    A file pointer is its index in [ftable.file], a pipe pointer the address of
    the page [kalloc] gave for it.  A reader or writer that waits tests its
    condition at most [rounds] times. *)

From S2P Require Import Prelude Machine Memory State Spinlock Kalloc Vm Proc Process FsState Sleeplock Bio Log Fs Console.

Section Ops.
Context `{Symbols} `{Devices} `{Rounds} `{!DiskOps}.

(** ** The file table *)

Definition fileinit : KM ext unit := initlock FtableLock.

Definition filealloc : KM ext (option nat) :=
  acquire FtableLock;;
  r ← for_until (seq 0 NFILE) (fun i =>
    f ← get_file i;
    if f_ref f =? 0 then
      mod_file i (set_f_ref 1);;
      release FtableLock;;
      mret (Some i)
    else mret None);
  match r with
  | Some i => mret (Some i)
  | None => release FtableLock;; mret None
  end.

Definition filedup (i : nat) : KM ext nat :=
  acquire FtableLock;;
  f ← get_file i;
  if f_ref f <? 1 then panic "filedup" else
  mod_file i (fun f => set_f_ref (f_ref f + 1) f);;
  release FtableLock;;
  mret i.

(** ** Pipes *)

(** [pi->data[pi->nwrite++ % PIPESIZE] = ch], and the matching read. *)
Definition pipe_put (ch : Z) (x : pipe) : pipe :=
  set_pi_nwrite (u32 (pi_nwrite x + 1))
    (set_pi_data (<[Z.to_nat (pi_nwrite x mod PIPESIZE) := ch]> (pi_data x)) x).

Definition pipe_get (x : pipe) : option Z := pi_data x !! Z.to_nat (pi_nread x mod PIPESIZE).

Definition pipe_skip (x : pipe) : pipe := set_pi_nread (u32 (pi_nread x + 1)) x.

(** The tests of the two ends. *)
Definition pipe_full (x : pipe) : bool := pi_nwrite x =? u32 (pi_nread x + PIPESIZE).
Definition pipe_empty (x : pipe) : bool := pi_nread x =? pi_nwrite x.

Definition pipeclose (pi : Z) (writable : Z) : KM ext unit :=
  acquire (PipeLock pi);;
  (if truthy writable then
     mod_pipe pi (set_pi_writeopen 0);; wakeup (Some (ChPipeRead pi))
   else
     mod_pipe pi (set_pi_readopen 0);; wakeup (Some (ChPipeWrite pi)));;
  x ← get_pipe pi;
  if (pi_readopen x =? 0) && (pi_writeopen x =? 0) then
    release (PipeLock pi);;
    mod_ext (fun x => set_e_pipes (delete pi (e_pipes x)) x);;
    kfree pi
  else release (PipeLock pi).

(** The tests at the head of the loop of [pipewrite]: false for the return of
    -1, with the lock released, and true when there is room for a byte. *)
Definition pipewrite_test (pr : nat) (pi : Z) : KM ext (option bool) :=
  x ← get_pipe pi;
  p ← get_proc pr;
  if (pi_readopen x =? 0) || truthy (p_killed p) then
    release (PipeLock pi);; mret (Some false)
  else if pipe_full x then
    wakeup (Some (ChPipeRead pi));;
    sleep (ChPipeWrite pi) (PipeLock pi);;
    mret None
  else mret (Some true).

(** The end of [pipewrite] after its loop. *)
Definition pipewrite_end (pi i : Z) : KM ext Z :=
  wakeup (Some (ChPipeRead pi));;
  release (PipeLock pi);;
  mret i.

(** The loop of [pipewrite] from index [i], with [n] bytes left. *)
Fixpoint pipewrite_loop (n : nat) (pr : nat) (pi addr i : Z) : KM ext Z :=
  match n with
  | O => pipewrite_end pi i
  | S n' =>
      room ← loop rounds (pipewrite_test pr pi);
      if negb room then mret (-1) else
      p ← get_proc pr;
      r ← copyin (p_pagetable p) (u64 (addr + i)) 1;
      if fst r =? -1 then pipewrite_end pi i
      else
        ch ← of_option (snd r !! O);
        mod_pipe pi (pipe_put ch);;
        pipewrite_loop n' pr pi addr (i + 1)
  end.

Definition pipewrite (pi addr n : Z) : KM ext Z :=
  pr ← curproc;
  acquire (PipeLock pi);;
  pipewrite_loop (Z.to_nat n) pr pi addr 0.

(** The copying loop of [piperead]. *)
Fixpoint piperead_loop (n : nat) (pr : nat) (pi addr i : Z) : KM ext Z :=
  match n with
  | O => mret i
  | S n' =>
      x ← get_pipe pi;
      if pipe_empty x then mret i else
      ch ← of_option (pipe_get x);
      mod_pipe pi pipe_skip;;
      p ← get_proc pr;
      r ← copyout (p_pagetable p) (u64 (addr + i)) [ch];
      if r =? -1 then mret i else piperead_loop n' pr pi addr (i + 1)
  end.

Definition piperead (pi addr n : Z) : KM ext Z :=
  pr ← curproc;
  acquire (PipeLock pi);;
  killed ← loop rounds
    (x ← get_pipe pi;
     if pipe_empty x && truthy (pi_writeopen x) then
       p ← get_proc pr;
       if truthy (p_killed p) then mret (Some true)
       else sleep (ChPipeRead pi) (PipeLock pi);; mret None
     else mret (Some false));
  if killed : bool then release (PipeLock pi);; mret (-1) else
  i ← piperead_loop (Z.to_nat n) pr pi addr 0;
  wakeup (Some (ChPipeWrite pi));;
  release (PipeLock pi);;
  mret i.

(** ** Files *)

Definition fileclose (i : nat) : KM ext unit :=
  acquire FtableLock;;
  f ← get_file i;
  if f_ref f <? 1 then panic "fileclose" else
  mod_file i (set_f_ref (f_ref f - 1));;
  if 0 <? f_ref f - 1 then release FtableLock else
  ff ← get_file i;
  mod_file i (set_f_ref 0);;
  mod_file i (set_f_type FD_NONE);;
  release FtableLock;;
  match f_type ff with
  | FD_PIPE => pipeclose (f_pipe ff) (f_writable ff)
  | FD_INODE | FD_DEVICE =>
      begin_op;;
      ip ← of_option (f_ip ff);
      iput ip;;
      end_op
  | FD_NONE => mret tt
  end.

(** Set up one end of a new pipe. *)
Definition pipe_end (i : nat) (pi readable writable : Z) : KM ext unit :=
  mod_file i (set_f_type FD_PIPE);;
  mod_file i (set_f_readable readable);;
  mod_file i (set_f_writable writable);;
  mod_file i (set_f_pipe pi).

(** [pipealloc] gives the two files or -1; the page of the pipe holds what
    [kalloc] left there. *)
Definition pipealloc : KM ext (option (nat * nat)) :=
  r0 ← filealloc;
  match r0 with
  | None => mret None
  | Some f0 =>
      r1 ← filealloc;
      match r1 with
      | None => fileclose f0;; mret None
      | Some f1 =>
          pi ← kalloc;
          if pi =? 0 then fileclose f0;; fileclose f1;; mret None else
          mod_ext (fun x => set_e_pipes (<[pi := Pipe (replicate (Z.to_nat PIPESIZE) 5) 0 0 1 1]> (e_pipes x)) x);;
          initlock (PipeLock pi);;
          pipe_end f0 pi 1 0;;
          pipe_end f1 pi 0 1;;
          mret (Some (f0, f1))
      end
  end.

Definition filestat (i : nat) (addr : Z) : KM ext Z :=
  pr ← curproc;
  f ← get_file i;
  if bool_decide (f_type f = FD_INODE) || bool_decide (f_type f = FD_DEVICE) then
    ilock (f_ip f);;
    n ← of_option (f_ip f);
    ip ← get_inode n;
    iunlock (f_ip f);;
    p ← get_proc pr;
    r ← copyout (p_pagetable p) addr (stati ip);
    mret (if r <? 0 then -1 else 0)
  else mret (-1).

(** [devsw[f->major]], when there is such an entry. *)
Definition device_of (f : file) : KM ext devsw :=
  if (f_major f <? 0) || (NDEV <=? f_major f) then mret NoDevice else
  d ← get_ext (fun x => e_devsw x !! Z.to_nat (f_major f));
  of_option d.

Definition fileread (i : nat) (addr n : Z) : KM ext Z :=
  f ← get_file i;
  if f_readable f =? 0 then mret (-1) else
  match f_type f with
  | FD_PIPE => piperead (f_pipe f) addr n
  | FD_DEVICE =>
      d ← device_of f;
      match d with
      | NoDevice => mret (-1)
      | ConsoleDevice => consoleread true addr n
      end
  | FD_INODE =>
      ilock (f_ip f);;
      ip ← of_option (f_ip f);
      r ← readi ip true addr (f_off f) (u32 n);
      when (0 <? r) (mod_file i (fun f => set_f_off (u32 (f_off f + r)) f));;
      iunlock (f_ip f);;
      mret r
  | FD_NONE => panic "fileread"
  end.

(** The most bytes that one transaction of [filewrite] writes. *)
Definition max_write : Z := (MAXOPBLOCKS - 1 - 1 - 2) / 2 * BSIZE.

(** The loop of [filewrite] on an inode from index [i]: the index reached. *)
Fixpoint filewrite_loop (fuel fi : nat) (addr i n : Z) : KM ext Z :=
  match fuel with
  | O => no_fuel
  | S fuel' =>
      if negb (i <? n) then mret i else
      let n1 := Z.min (n - i) max_write in
      begin_op;;
      f ← get_file fi;
      ilock (f_ip f);;
      ip ← of_option (f_ip f);
      f ← get_file fi;
      r ← writei ip true (u64 (addr + i)) (f_off f) n1;
      when (0 <? r) (mod_file fi (fun f => set_f_off (u32 (f_off f + r)) f));;
      iunlock (f_ip f);;
      end_op;;
      if negb (r =? n1) then mret i else filewrite_loop fuel' fi addr (i + r) n
  end.

Definition filewrite (i : nat) (addr n : Z) : KM ext Z :=
  f ← get_file i;
  if f_writable f =? 0 then mret (-1) else
  match f_type f with
  | FD_PIPE => pipewrite (f_pipe f) addr n
  | FD_DEVICE =>
      d ← device_of f;
      match d with
      | NoDevice => mret (-1)
      | ConsoleDevice => consolewrite true addr n
      end
  | FD_INODE =>
      k ← filewrite_loop (Z.to_nat (Z.max 0 n / max_write + 2)) i addr 0 n;
      mret (if k =? n then n else -1)
  | FD_NONE => panic "filewrite"
  end.

(** The file operations of this development, for the process code. *)
#[global] Instance fs_ops : FsOps ext := {|
  op_filedup := filedup; op_fileclose := fileclose; op_idup := idup; op_iput := iput;
  op_namei := namei; op_begin_op := begin_op; op_end_op := end_op; op_fsinit := fsinit |}.

End Ops.
