(* ===== verification/PipeSpec.v ===== *)
(** * What a pipe guarantees

    A pipe refines a bounded queue of bytes: writes append the bytes of user
    memory, reads deliver them in the same order.  The counters [nread] and
    [nwrite] wrap around at 2^32. *)

From S2P Require Import Prelude Machine Memory State Spinlock Kalloc Vm Proc Signals Process FsState Sleeplock Bio Log Fs Console File.

(** The pipe [x] holds the bytes [q], oldest first. *)
Record pipe_is (x : pipe) (q : list Z) : Prop := {
  pq_len : length (pi_data x) = Z.to_nat PIPESIZE;
  pq_read : 0 <= pi_nread x < 2 ^ 32;
  pq_size : Z.of_nat (length q) <= PIPESIZE;
  pq_write : pi_nwrite x = u32 (pi_nread x + Z.of_nat (length q));
  pq_data : forall k b, q !! k = Some b -> pi_data x !! Z.to_nat ((pi_nread x + Z.of_nat k) mod PIPESIZE) = Some b;
  pq_bytes : Forall (fun b => 0 <= b < 256) q
}.

Section Queue.
Implicit Types (x : pipe) (q : list Z).

(** The buffer size divides the period of the counters. *)
Lemma u32_mod_pipe z : u32 z mod PIPESIZE = z mod PIPESIZE.
Proof. unfold u32, PIPESIZE. lia. Qed.

Lemma pipe_full_spec x q : pipe_is x q -> pipe_full x = (Z.of_nat (length q) =? PIPESIZE).
Proof.
  intros [_ Hr Hs Hw _ _]. unfold pipe_full. rewrite Hw. unfold PIPESIZE, u32 in *.
  destruct (Z.eqb_spec (Z.of_nat (length q)) 512); [apply Z.eqb_eq|apply Z.eqb_neq]; lia.
Qed.

Lemma pipe_empty_spec x q : pipe_is x q -> pipe_empty x = bool_decide (q = []).
Proof.
  intros [_ Hr Hs Hw _ _]. unfold pipe_empty. rewrite Hw. unfold PIPESIZE, u32 in *.
  destruct q as [|b q]; [rewrite bool_decide_true by done; apply Z.eqb_eq; cbn; lia|].
  rewrite bool_decide_false by done. apply Z.eqb_neq. cbn [length] in *. lia.
Qed.

(** Two positions of the buffer less than its size apart are different. *)
Lemma slot_ne r j k : 0 <= j < k -> k < PIPESIZE -> (r + j) mod PIPESIZE <> (r + k) mod PIPESIZE.
Proof. unfold PIPESIZE. lia. Qed.

Lemma pipe_put_spec x q ch :
  pipe_is x q -> Z.of_nat (length q) < PIPESIZE -> 0 <= ch < 256 -> pipe_is (pipe_put ch x) (q ++ [ch]).
Proof.
  intros [Hl Hr Hs Hw Hd Hb] Hlt Hch. split; cbn.
  - by rewrite length_insert.
  - done.
  - rewrite length_app. cbn. lia.
  - rewrite Hw, length_app. cbn. unfold u32. lia.
  - intros k b Hk. rewrite Hw, u32_mod_pipe. destruct (decide (k = length q)) as [->|Hne].
    + rewrite lookup_app_r, Nat.sub_diag in Hk by lia. injection Hk as <-. apply list_lookup_insert_eq.
      rewrite Hl. unfold PIPESIZE. lia.
    + assert (Hk' : (k < length q)%nat) by (apply lookup_lt_Some in Hk; rewrite length_app in Hk; cbn in Hk; lia).
      rewrite lookup_app_l in Hk by done. rewrite list_lookup_insert_ne; [by apply Hd|].
      pose proof (slot_ne (pi_nread x) (Z.of_nat k) (Z.of_nat (length q)) ltac:(lia) Hlt). unfold PIPESIZE in *. lia.
  - apply Forall_app. split; [done|by apply Forall_singleton].
Qed.

Lemma pipe_get_spec x ch q : pipe_is x (ch :: q) -> pipe_get x = Some ch /\ pipe_is (pipe_skip x) q.
Proof.
  intros [Hl Hr Hs Hw Hd Hb]. split.
  - specialize (Hd O ch eq_refl). unfold pipe_get. by rewrite Z.add_0_r in Hd.
  - cbn [length] in *. split; cbn.
    + done.
    + unfold u32. lia.
    + lia.
    + rewrite Hw. unfold u32. lia.
    + intros k b Hk. specialize (Hd (S k) b Hk). rewrite <- Hd. do 2 f_equal. unfold u32, PIPESIZE. lia.
    + by apply Forall_cons in Hb as [_ Hb].
Qed.

End Queue.

(** ** The operations *)

(** Storing a byte and then the rest is storing all of them. *)
Lemma user_written_cons `{SymbolsOk} m root l va ch src m1 m2 :
  user_ok m root l -> user_range m root va (S (length src)) ->
  user_written m root l va [ch] m1 -> user_written m1 root l (va + 1) src m2 -> user_written m root l va (ch :: src) m2.
Proof.
  intros Hu Hr [A1 A2 A3 A4 A5] [B1 B2 B3 B4 B5].
  assert (Ea : forall v, user_addr m1 root v = user_addr m root v) by (intros v; unfold user_addr; by rewrite A3).
  split; [done|done| | |].
  - intros va'. by rewrite B3, A3.
  - intros [|i] b Hi; cbn in Hi.
    + injection Hi as ->. rewrite B5; [by apply (A4 O)|]. intros v Hv. rewrite Ea, Z.add_0_r.
      destruct (Hr va) as [? ?]; [lia|]. destruct (Hr v) as [? ?]; [lia|]. apply (user_addr_ne m root l); try done. lia.
    + replace (va + Z.of_nat (S i)) with (va + 1 + Z.of_nat i) by lia. rewrite <- Ea. by apply B4.
  - intros a Ha. cbn [length] in Ha. rewrite B5, A5; [done| |]; intros v Hv; rewrite ?Ea; apply Ha; cbn [length] in *; lia.
Qed.

Section PipeRun.
Context `{SymbolsOk} `{Devices} `{RoundsOk}.
Implicit Types (s : kstate ext).

(** [s] with the pipe [x] at [pi] and the memory [m]. *)
Definition piped (pi : Z) (x : pipe) (m : mem) s : kstate ext :=
  set_k_mem m (with_ext (fun w => set_e_pipes (<[pi := x]> (e_pipes w)) w) s).

Lemma get_pipe_run pi x m s : get_pipe pi (piped pi x m s) = Done x (piped pi x m s).
Proof. unfold get_pipe, get_ext. mrun. cbn. by rewrite lookup_insert_eq. Qed.

Lemma mod_pipe_run pi f x m s : mod_pipe pi f (piped pi x m s) = Done tt (piped pi (f x) m s).
Proof.
  unfold mod_pipe, mod_ext, modify. do 2 f_equal. destruct s as [? ? ? ? ? ? ? ? ? ? ? ? ? ? ? w].
  unfold piped, with_ext. ks_norm. f_equal. destruct w. cbn. unfold set_e_pipes. cbn. f_equal.
  apply map_eq. intros k. destruct (decide (k = pi)) as [->|Hne].
  - by rewrite lookup_alter_eq, !lookup_insert_eq.
  - by rewrite lookup_alter_ne, !lookup_insert_ne.
Qed.

(** A pipe that is there already. *)
Lemma piped_id pi x s : e_pipes (k_ext s) !! pi = Some x -> piped pi x (k_mem s) s = s.
Proof.
  intros E. destruct s as [? ? ? ? ? ? ? ? ? ? ? ? ? ? ? w]. unfold piped, with_ext. ks_norm. cbn in E. f_equal.
  destruct w. cbn in *. unfold set_e_pipes. cbn. f_equal. by apply insert_id.
Qed.

(** The loop of [pipewrite] when there is room for all the bytes. *)
Lemma pipewrite_loop_run pi pr p l addr s m : forall n i x q,
  k_procs s !! pr = Some p -> p_killed p = 0 -> pt_ok m (p_pagetable p) l -> 0 <= addr -> 0 <= i ->
  user_range m (p_pagetable p) (addr + i) n -> pipe_is x q -> pi_readopen x <> 0 ->
  Z.of_nat (length q + n) <= PIPESIZE ->
  exists x', pipewrite_loop n pr pi addr i (piped pi x m s) = pipewrite_end pi (i + Z.of_nat n) (piped pi x' m s) /\
    pipe_is x' (q ++ user_bytes m (p_pagetable p) (addr + i) n) /\
    pi_readopen x' = pi_readopen x /\ pi_writeopen x' = pi_writeopen x.
Proof.
  induction n as [|n IH]; intros i x q Hp Hk Hpt Ha Hi Hr Hq Hro Hsz; cbn [pipewrite_loop].
  - exists x. rewrite Z.add_0_r. cbn [user_bytes]. by rewrite app_nil_r.
  - pose proof rounds_pos as Hpos. destruct rounds as [|r]; [lia|].
    assert (Ht : pipewrite_test pr pi (piped pi x m s) = Done (Some true) (piped pi x m s)).
    { unfold pipewrite_test. mstep (get_pipe_run pi x m s). mstep (get_proc_run pr (piped pi x m s) p Hp).
      rewrite Hk, (proj2 (Z.eqb_neq _ _) Hro). cbn [orb truthy Z.eqb negb]. rewrite (pipe_full_spec x q Hq).
      by rewrite (proj2 (Z.eqb_neq _ _)) by lia. }
    mstep (loop_found r _ _ _ _ Ht). cbn [negb]. mstep (get_proc_run pr (piped pi x m s) p Hp).
    destruct (Hr (addr + i)) as [Hva _]; [lia|]. rewrite u64_small by (change MAXVA with (2 ^ 38) in Hva; lia).
    assert (Hc : copyin (p_pagetable p) (addr + i) 1 (piped pi x m s) =
      Done (0, user_bytes m (p_pagetable p) (addr + i) 1) (piped pi x m s)).
    { apply (copyin_loop_spec (p_pagetable p) l (piped pi x m s) 2 (addr + i) 1 []); [done|lia|].
      intros a Hin. apply Hr. lia. }
    mstep Hc. cbn [fst snd user_bytes Z.eqb]. change ([?b] !! 0%nat) with (Some b). cbn [of_option]. rewrite bind_ret.
    mstep (mod_pipe_run pi (pipe_put (ld8 m (user_addr m (p_pagetable p) (addr + i)))) x m s).
    set (ch := ld8 m _). pose proof (ld8_range m (user_addr m (p_pagetable p) (addr + i))) as Hch. fold ch in Hch.
    destruct (IH (i + 1) (pipe_put ch x) (q ++ [ch])) as (x' & Hrun & Hq' & E1 & E2); try done; [lia| | | |].
    + intros a Hin. apply Hr. lia.
    + apply pipe_put_spec; [done|lia|done].
    + rewrite length_app. cbn. lia.
    + exists x'. split; [rewrite Hrun; f_equal; lia|]. split; [|done]. rewrite <- app_assoc in Hq'.
      cbn [user_bytes app] in *. by rewrite Z.add_assoc in Hq'.
Qed.

(** The copying loop of [piperead]. *)
Lemma piperead_loop_run pi pr p l addr s : forall n i x q m,
  k_procs s !! pr = Some p -> pt_ok m (p_pagetable p) l -> user_ok m (p_pagetable p) l -> 0 <= addr -> 0 <= i ->
  user_range m (p_pagetable p) (addr + i) (n `min` length q) -> pipe_is x q ->
  exists x' m', piperead_loop n pr pi addr i (piped pi x m s) =
      Done (i + Z.of_nat (n `min` length q)) (piped pi x' m' s) /\
    pipe_is x' (drop n q) /\ user_written m (p_pagetable p) l (addr + i) (take n q) m' /\
    pi_readopen x' = pi_readopen x /\ pi_writeopen x' = pi_writeopen x.
Proof.
  induction n as [|n IH]; intros i x q m Hp Hpt Hu Ha Hi Hr Hq; cbn [piperead_loop].
  - exists x, m. rewrite Z.add_0_r. split; [done|]. split; [done|]. split; [by split|done].
  - mstep (get_pipe_run pi x m s). rewrite (pipe_empty_spec x q Hq). destruct q as [|ch q].
    { rewrite bool_decide_true by done. exists x, m. cbn. rewrite Z.add_0_r. split; [done|]. split; [done|]. split; [by split|done]. }
    rewrite bool_decide_false by done. destruct (pipe_get_spec x ch q Hq) as [Hg Hq1]. rewrite Hg. cbn [of_option]. rewrite bind_ret.
    mstep (mod_pipe_run pi pipe_skip x m s). mstep (get_proc_run pr (piped pi (pipe_skip x) m s) p Hp).
    cbn [length Nat.min] in Hr. destruct (Hr (addr + i)) as [Hva _]; [lia|].
    rewrite u64_small by (change MAXVA with (2 ^ 38) in Hva; lia).
    destruct (copyout_loop_spec (p_pagetable p) l 2 (addr + i) [ch] (piped pi (pipe_skip x) m s)) as (m1 & Hc & Hw); [done|done|cbn; lia| |].
    { intros a Hin. apply Hr. cbn in Hin. lia. }
    assert (Hc' : copyout (p_pagetable p) (addr + i) [ch] (piped pi (pipe_skip x) m s) =
      Done 0 (set_k_mem m1 (piped pi (pipe_skip x) m s))) by exact Hc.
    mstep Hc'. cbn [Z.eqb].
    change (k_mem (piped pi (pipe_skip x) m s)) with m in Hw.
    destruct (IH (i + 1) (pipe_skip x) q m1) as (x' & m' & Hrun & Hq' & Hw' & E1 & E2); try done; [apply Hw|apply Hw|lia| |].
    + intros a Hin. rewrite (uw_page _ _ _ _ _ _ Hw). apply Hr. lia.
    + exists x', m'. change (set_k_mem m1 (piped pi (pipe_skip x) m s)) with (piped pi (pipe_skip x) m1 s). rewrite Hrun.
      split; [f_equal; cbn [length Nat.min]; lia|]. split; [done|]. split; [|done]. cbn [take].
      apply (user_written_cons _ _ _ _ _ _ m1); [done| |done|by rewrite <- Z.add_assoc].
      rewrite length_take. exact Hr.
Qed.

(** The end of both operations: wake the other side, give the lock back. *)
Lemma wake_release pi x m s c i pid ch :
  fs_ready s c i pid ->
  exists s', (wakeup (Some ch);; release (PipeLock pi)) (piped pi x m (acquired (PipeLock pi) s)) = Done tt s' /\
    fs_ready s' c i pid /\ k_mem s' = m /\ k_ext s' = set_e_pipes (<[pi := x]> (e_pipes (k_ext s))) (k_ext s).
Proof.
  intros Hr. set (s1 := piped _ _ _ _).
  pose proof (wakeup_acquired (Some ch) (PipeLock pi) s s1 c i pid Hr ltac:(done) eq_refl eq_refl) as Hw. mstep Hw.
  rewrite (fs_ready_release (PipeLock pi) s c i pid _ Hr) by reflexivity. eexists. split; [reflexivity|].
  split; [|done]. eapply fs_ready_same; [..|exact (fs_ready_woken s (Some ch) (c_thread c) c i pid Hr)]; done.
Qed.


End PipeRun.

(** ** A process with a page of memory and a pipe about to wrap around *)

#[local] Instance pipe_round : Rounds := 1%nat.
#[local] Instance pipe_round_ok : RoundsOk := Nat.lt_0_1.
#[local] Instance pipe_devices : Devices := no_devices.

Definition wrapping_pipe : pipe := Pipe (replicate 511 0 ++ [9]) (2 ^ 32 - 1) 0 1 1.

Lemma wrapping_pipe_is : pipe_is wrapping_pipe [9].
Proof.
  split; [reflexivity|cbn; lia|unfold PIPESIZE; cbn; lia|reflexivity| |by repeat constructor].
  intros [|k] b Hk; [injection Hk as <-; reflexivity|done].
Qed.

Definition pipe_state (m : mem) : kstate (@ext no_devices) :=
  set_k_mem m (with_ext (fun w => set_e_pipes {[7 := wrapping_pipe]} w)
    (set_k_procs (alter (set_p_pagetable 0x80050000) O (k_procs fs_boot)) fs_boot)).

Lemma pipe_state_ready m : fs_ready (pipe_state m) fs_cpu O 1.
Proof.
  split; [exact (one_proc_quiet 0 ∅ ltac:(lia))|reflexivity| |reflexivity|eexists; split; reflexivity].
  apply table_ok_alter; [done|exact (one_proc_table 0 ∅)].
Qed.

Lemma pipe_state_proc m :
  exists p, k_procs (pipe_state m) !! O = Some p /\ p_killed p = 0 /\ p_pagetable p = 0x80050000.
Proof. eexists. split_and!; reflexivity. Qed.

