(* ===== verification/Virtio.v ===== *)
(** * The disk driver (kernel/virtio_disk.c)

    The driver's side of the virtio queue: descriptors, the available ring, and
    the book-keeping of the requests in flight.  The device works on the same
    rings on its own; it is not code of the repository. *)

From S2P Require Import Prelude Machine Memory State Spinlock Kalloc Vm Proc FsState Sleeplock Bio.

(** ** kernel/virtio.h *)

(** The registers of the device and their offsets. *)
Inductive virtio_reg :=
| VIRTIO_MMIO_MAGIC_VALUE | VIRTIO_MMIO_VERSION | VIRTIO_MMIO_DEVICE_ID | VIRTIO_MMIO_VENDOR_ID
| VIRTIO_MMIO_DEVICE_FEATURES | VIRTIO_MMIO_DRIVER_FEATURES | VIRTIO_MMIO_GUEST_PAGE_SIZE
| VIRTIO_MMIO_QUEUE_SEL | VIRTIO_MMIO_QUEUE_NUM_MAX | VIRTIO_MMIO_QUEUE_NUM | VIRTIO_MMIO_QUEUE_ALIGN
| VIRTIO_MMIO_QUEUE_PFN | VIRTIO_MMIO_QUEUE_READY | VIRTIO_MMIO_QUEUE_NOTIFY | VIRTIO_MMIO_INTERRUPT_STATUS | VIRTIO_MMIO_INTERRUPT_ACK | VIRTIO_MMIO_STATUS.

Definition virtio_offset (r : virtio_reg) : Z :=
  match r with
  | VIRTIO_MMIO_MAGIC_VALUE => 0x000
  | VIRTIO_MMIO_VERSION => 0x004
  | VIRTIO_MMIO_DEVICE_ID => 0x008
  | VIRTIO_MMIO_VENDOR_ID => 0x00c
  | VIRTIO_MMIO_DEVICE_FEATURES => 0x010
  | VIRTIO_MMIO_DRIVER_FEATURES => 0x020
  | VIRTIO_MMIO_GUEST_PAGE_SIZE => 0x028
  | VIRTIO_MMIO_QUEUE_SEL => 0x030
  | VIRTIO_MMIO_QUEUE_NUM_MAX => 0x034
  | VIRTIO_MMIO_QUEUE_NUM => 0x038
  | VIRTIO_MMIO_QUEUE_ALIGN => 0x03c
  | VIRTIO_MMIO_QUEUE_PFN => 0x040
  | VIRTIO_MMIO_QUEUE_READY => 0x044
  | VIRTIO_MMIO_QUEUE_NOTIFY => 0x050
  | VIRTIO_MMIO_INTERRUPT_STATUS => 0x060
  | VIRTIO_MMIO_INTERRUPT_ACK => 0x064
  | VIRTIO_MMIO_STATUS => 0x070
  end.

(** The bits of the status register. *)
Inductive virtio_status :=
| VIRTIO_CONFIG_S_ACKNOWLEDGE | VIRTIO_CONFIG_S_DRIVER | VIRTIO_CONFIG_S_DRIVER_OK | VIRTIO_CONFIG_S_FEATURES_OK.

Definition status_bit (b : virtio_status) : Z :=
  match b with
  | VIRTIO_CONFIG_S_ACKNOWLEDGE => 1
  | VIRTIO_CONFIG_S_DRIVER => 2
  | VIRTIO_CONFIG_S_DRIVER_OK => 4
  | VIRTIO_CONFIG_S_FEATURES_OK => 8
  end.

(** The feature bits by their numbers. *)
Inductive virtio_feature :=
| VIRTIO_BLK_F_RO | VIRTIO_BLK_F_SCSI | VIRTIO_BLK_F_CONFIG_WCE | VIRTIO_BLK_F_MQ
| VIRTIO_F_ANY_LAYOUT | VIRTIO_RING_F_INDIRECT_DESC | VIRTIO_RING_F_EVENT_IDX.

Definition feature_number (f : virtio_feature) : Z :=
  match f with
  | VIRTIO_BLK_F_RO => 5
  | VIRTIO_BLK_F_SCSI => 7
  | VIRTIO_BLK_F_CONFIG_WCE => 11
  | VIRTIO_BLK_F_MQ => 12
  | VIRTIO_F_ANY_LAYOUT => 27
  | VIRTIO_RING_F_INDIRECT_DESC => 28
  | VIRTIO_RING_F_EVENT_IDX => 29
  end.

Definition VRING_DESC_F_NEXT : Z := 1.
Definition VRING_DESC_F_WRITE : Z := 2.
Definition VIRTIO_BLK_T_IN : Z := 0.
Definition VIRTIO_BLK_T_OUT : Z := 1.
Definition sizeof_blk_req : Z := 16.

(** The address of a register. *)
Definition R (r : virtio_reg) : Z := VIRTIO0 + virtio_offset r.

(** [features & ~(1 << f)] *)
Definition without (f : virtio_feature) (features : Z) : Z := Z.land features (Z.lnot (bit (feature_number f))).

Section Ops.
Context `{Devices} `{Rounds}.

Definition get_disk : KM ext disk := get_ext e_vdisk.
Definition mod_disk (f : disk -> disk) : KM ext unit := mod_ext (fun x => set_e_vdisk (f (e_vdisk x)) x).
Definition mod_desc (i : Z) (f : virtq_desc -> virtq_desc) : KM ext unit :=
  mod_disk (fun d => set_d_desc (alter f (Z.to_nat i) (d_desc d)) d).

(** The four identification registers; [||] stops at the first mismatch. *)
Definition disk_missing : KM ext bool :=
  magic ← ReadReg (R VIRTIO_MMIO_MAGIC_VALUE);
  if negb (magic =? 0x74726976) then mret true else
  version ← ReadReg (R VIRTIO_MMIO_VERSION);
  if negb (version =? 1) then mret true else
  device ← ReadReg (R VIRTIO_MMIO_DEVICE_ID);
  if negb (device =? 2) then mret true else
  vendor ← ReadReg (R VIRTIO_MMIO_VENDOR_ID);
  mret (negb (vendor =? 0x554d4551)).

(** [pages] is the address of [disk.pages]. *)
Definition virtio_disk_init (pages : Z) : KM ext unit :=
  initlock VdiskLock;;
  missing ← disk_missing;
  if missing : bool then panic "could not find virtio disk" else
  let status := status_bit VIRTIO_CONFIG_S_ACKNOWLEDGE in
  WriteReg (R VIRTIO_MMIO_STATUS) status;;
  let status := Z.lor status (status_bit VIRTIO_CONFIG_S_DRIVER) in
  WriteReg (R VIRTIO_MMIO_STATUS) status;;
  features ← ReadReg (R VIRTIO_MMIO_DEVICE_FEATURES);
  let features := without VIRTIO_BLK_F_RO features in
  let features := without VIRTIO_BLK_F_SCSI features in
  let features := without VIRTIO_BLK_F_CONFIG_WCE features in
  let features := without VIRTIO_BLK_F_MQ features in
  let features := without VIRTIO_F_ANY_LAYOUT features in
  let features := without VIRTIO_RING_F_EVENT_IDX features in
  let features := without VIRTIO_RING_F_INDIRECT_DESC features in
  WriteReg (R VIRTIO_MMIO_DRIVER_FEATURES) features;;
  let status := Z.lor status (status_bit VIRTIO_CONFIG_S_FEATURES_OK) in
  WriteReg (R VIRTIO_MMIO_STATUS) status;;
  let status := Z.lor status (status_bit VIRTIO_CONFIG_S_DRIVER_OK) in
  WriteReg (R VIRTIO_MMIO_STATUS) status;;
  WriteReg (R VIRTIO_MMIO_GUEST_PAGE_SIZE) PGSIZE;;
  WriteReg (R VIRTIO_MMIO_QUEUE_SEL) 0;;
  max ← ReadReg (R VIRTIO_MMIO_QUEUE_NUM_MAX);
  if max =? 0 then panic "virtio disk has no queue 0" else
  if max <? Z.of_nat NUM then panic "virtio disk max queue too short" else
  WriteReg (R VIRTIO_MMIO_QUEUE_NUM) (Z.of_nat NUM);;
  mod_disk (fun d => Disk (replicate NUM (VirtqDesc NoAddr 0 0 0)) 0 (replicate NUM 0) 0 (replicate NUM 0)
    (d_free d) (d_used_idx d) (d_info_b d) (d_info_status d) (d_ops d));;
  WriteReg (R VIRTIO_MMIO_QUEUE_PFN) (u32 (Z.shiftr pages PGSHIFT));;
  for_each (seq 0 NUM) (fun i => mod_disk (fun d => set_d_free (<[i := true]> (d_free d)) d)).

Definition alloc_desc : KM ext Z :=
  r ← for_until (seq 0 NUM) (fun i =>
    d ← get_disk;
    free ← of_option (d_free d !! i);
    if free : bool then
      mod_disk (fun d => set_d_free (<[i := false]> (d_free d)) d);;
      mret (Some (Z.of_nat i))
    else mret None);
  mret (match r with Some i => i | None => -1 end).

Definition free_desc (i : Z) : KM ext unit :=
  if Z.of_nat NUM <=? i then panic "free_desc 1" else
  d ← get_disk;
  free ← (if i <? 0 then fault else of_option (d_free d !! Z.to_nat i));
  if free : bool then panic "free_desc 2" else
  mod_desc i (set_vd_addr NoAddr);;
  mod_desc i (set_vd_len 0);;
  mod_desc i (set_vd_flags 0);;
  mod_desc i (set_vd_next 0);;
  mod_disk (fun d => set_d_free (<[Z.to_nat i := true]> (d_free d)) d);;
  wakeup (Some ChDiskFree).

(** A chain has at most [NUM] descriptors: one that is freed twice panics. *)
Fixpoint free_chain_loop (fuel : nat) (i : Z) : KM ext unit :=
  match fuel with
  | O => no_fuel
  | S f =>
      d ← get_disk;
      desc ← of_option (d_desc d !! Z.to_nat i);
      free_desc i;;
      when (truthy (Z.land (vd_flags desc) VRING_DESC_F_NEXT)) (free_chain_loop f (vd_next desc))
  end.

Definition free_chain (i : Z) : KM ext unit := free_chain_loop (S NUM) i.

(** The three indices, or nothing with all of them given back. *)
Definition alloc3_desc : KM ext (option (Z * Z * Z)) :=
  i0 ← alloc_desc;
  if i0 <? 0 then mret None else
  i1 ← alloc_desc;
  if i1 <? 0 then free_desc i0;; mret None else
  i2 ← alloc_desc;
  if i2 <? 0 then free_desc i0;; free_desc i1;; mret None else
  mret (Some (i0, i1, i2)).

(** Format the three descriptors of a request for the buffer [b]. *)
Definition format_request (b : nat) (sector : Z) (write : bool) (i0 i1 i2 : Z) : KM ext unit :=
  mod_disk (fun d => set_d_ops (<[Z.to_nat i0 :=
    BlkReq (if write then VIRTIO_BLK_T_OUT else VIRTIO_BLK_T_IN) 0 sector]> (d_ops d)) d);;
  mod_desc i0 (set_vd_addr (OpsAddr i0));;
  mod_desc i0 (set_vd_len sizeof_blk_req);;
  mod_desc i0 (set_vd_flags VRING_DESC_F_NEXT);;
  mod_desc i0 (set_vd_next i1);;
  mod_desc i1 (set_vd_addr (DataAddr b));;
  mod_desc i1 (set_vd_len BSIZE);;
  mod_desc i1 (set_vd_flags (if write then 0 else VRING_DESC_F_WRITE));;
  mod_desc i1 (fun d => set_vd_flags (Z.lor (vd_flags d) VRING_DESC_F_NEXT) d);;
  mod_desc i1 (set_vd_next i2);;
  mod_disk (fun d => set_d_info_status (<[Z.to_nat i0 := 0xff]> (d_info_status d)) d);;
  mod_desc i2 (set_vd_addr (StatusAddr i0));;
  mod_desc i2 (set_vd_len 1);;
  mod_desc i2 (set_vd_flags VRING_DESC_F_WRITE);;
  mod_desc i2 (set_vd_next 0).

(** Hand the chain that starts at [i0] to the device. *)
Definition submit_request (b : nat) (i0 : Z) : KM ext unit :=
  mod_buf b (set_b_disk 1);;
  mod_disk (fun d => set_d_info_b (<[Z.to_nat i0 := Some b]> (d_info_b d)) d);;
  mod_disk (fun d => set_d_avail_ring
    (<[Z.to_nat (d_avail_idx d mod Z.of_nat NUM) := i0]> (d_avail_ring d)) d);;
  mod_disk (fun d => set_d_avail_idx (u16 (d_avail_idx d + 1)) d);;
  WriteReg (R VIRTIO_MMIO_QUEUE_NOTIFY) 0.

Definition virtio_disk_rw (b : nat) (write : bool) : KM ext unit :=
  x ← get_buf b;
  let sector := u32 (b_blockno x * (BSIZE / 512)) in
  acquire VdiskLock;;
  idx ← loop rounds
    (r ← alloc3_desc;
     match r with
     | Some idx => mret (Some idx)
     | None => sleep ChDiskFree VdiskLock;; mret None
     end);
  let '(i0, i1, i2) := idx in
  format_request b sector write i0 i1 i2;;
  submit_request b i0;;
  loop rounds
    (x ← get_buf b;
     if b_disk x =? 1 then sleep (ChBuf b) VdiskLock;; mret None else mret (Some tt));;
  mod_disk (fun d => set_d_info_b (<[Z.to_nat i0 := None]> (d_info_b d)) d);;
  free_chain i0;;
  release VdiskLock.

(** One turn of the loop of [virtio_disk_intr]. *)
Definition intr_turn : KM ext (option unit) :=
  d ← get_disk;
  if d_used_idx d =? d_used_dev_idx d then mret (Some tt) else
  id ← of_option (d_used_ring d !! Z.to_nat (d_used_idx d mod Z.of_nat NUM));
  status ← of_option (d_info_status d !! Z.to_nat id);
  if negb (status =? 0) then panic "virtio_disk_intr status" else
  r ← of_option (d_info_b d !! Z.to_nat id);
  b ← of_option r;
  mod_buf b (set_b_disk 0);;
  wakeup (Some (ChBuf b));;
  mod_disk (fun d => set_d_used_idx (u16 (d_used_idx d + 1)) d);;
  mret None.

Definition virtio_disk_intr : KM ext unit :=
  acquire VdiskLock;;
  st ← ReadReg (R VIRTIO_MMIO_INTERRUPT_STATUS);
  WriteReg (R VIRTIO_MMIO_INTERRUPT_ACK) (Z.land st 3);;
  loop rounds intr_turn;;
  release VdiskLock.

(** The driver as the disk of the buffer cache. *)
Definition virtio_disk : DiskOps := {| disk_rw := virtio_disk_rw |}.

End Ops.
