(* ===== verification/VirtioSpec.v ===== *)
(** * Descriptors of the disk driver

    [alloc3_desc], [format_request] and [free_chain] of Virtio.v, run with the
    driver's lock held: the descriptors of a request are exclusively its own,
    form the chain that the device expects, and all come back. *)

From S2P Require Import Prelude Machine Memory State Spinlock Kalloc Vm Proc FsState Sleeplock Bio Virtio.

(** The number of free descriptors. *)
Definition free_count (l : list bool) : nat := length (filter (fun b => b = true) l).

(** The disk after [alloc_desc] chose [i], and after [free_desc i]. *)
Definition taken (i : nat) (d : disk) : disk := set_d_free (<[i := false]> (d_free d)) d.
Definition freed (i : nat) (d : disk) : disk :=
  set_d_free (<[i := true]> (d_free d)) (set_d_desc (<[i := VirtqDesc NoAddr 0 0 0]> (d_desc d)) d).

Lemma free_count_taken l i : l !! i = Some true -> free_count l = S (free_count (<[i := false]> l)).
Proof.
  intros Hi. pose proof (lookup_lt_Some _ _ _ Hi). rewrite insert_take_drop by done.
  rewrite <- (take_drop_middle l i true Hi) at 1. unfold free_count.
  rewrite !filter_app, !length_app, filter_cons_True by done. rewrite filter_cons_False by done. cbn. lia.
Qed.

Lemma find_free l :
  (exists i, l !! i = Some true /\ (forall k, (k < i)%nat -> l !! k = Some false)) \/
  ((forall k, (k < length l)%nat -> l !! k = Some false) /\ free_count l = O).
Proof.
  induction l as [|[] l IH]; [by right; split; [intros k Hk; cbn in Hk; lia|]| |].
  - left. exists O. split; [done|]. intros k Hk. lia.
  - destruct IH as [(i & Hi & Hk)|[Hk Hc]]; [left; exists (S i); split; [done|]|right; split; [|done]];
      intros [|k] Hlt; try done; apply Hk; cbn in Hlt; lia.
Qed.

Section Driver.
Context `{Devices}.
Variables (x : ext) (m : mem) (c : cpu) (pr : nat) (pid : Z).
Implicit Types (s : kstate ext) (d : disk).

(** The process [pr] runs with the driver's lock held on the disk structure
    [d]; the other global variables and the memory are those of [x] and [m]. *)
Definition driving s d : Prop :=
  exists r : kstate ext, fs_ready r c pr pid /\ hw_of s = hw_of (acquired VdiskLock r) /\ k_procs s = k_procs r /\
    k_ext s = set_e_vdisk d x /\ k_mem s = m.

Definition with_disk d s : kstate ext := with_ext (set_e_vdisk d) s.

Lemma driving_with d d' s : driving s d -> driving (with_disk d' s) d'.
Proof. intros (r & Hr & Hh & Hp & He & Hm). exists r. split_and!; try done. cbn. by rewrite He. Qed.

Lemma driving_eq s d d' : d = d' -> driving s d -> driving s d'.
Proof. by intros ->. Qed.

Lemma get_disk_run s d : driving s d -> get_disk s = Done d s.
Proof. intros (r & _ & _ & _ & He & _). unfold get_disk, get_ext, gets. by rewrite He. Qed.

Lemma mod_disk_run f s d : driving s d -> mod_disk f s = Done tt (with_disk (f d) s).
Proof.
  intros (r & _ & _ & _ & He & _). unfold mod_disk, mod_ext, modify, with_disk, with_ext. by rewrite He.
Qed.

Lemma wakeup_driving s d : driving s d -> exists s', wakeup (Some ChDiskFree) s = Done tt s' /\ driving s' d.
Proof.
  intros (r & Hr & Hh & Hp & He & Hm). eexists. split.
  - by apply (wakeup_acquired (Some ChDiskFree) VdiskLock r s c pr pid Hr).
  - exists (woken (Some ChDiskFree) (c_thread c) r). split_and!; [by apply fs_ready_woken|done| |done|done].
    cbn. by rewrite Hp.
Qed.

Lemma alloc_desc_found i s d :
  driving s d -> length (d_free d) = NUM -> d_free d !! i = Some true ->
  (forall k, (k < i)%nat -> d_free d !! k = Some false) ->
  alloc_desc s = Done (Z.of_nat i) (with_disk (taken i d) s).
Proof.
  intros Hd Hl Hi Hk. unfold alloc_desc. pose proof (lookup_lt_Some _ _ _ Hi) as Hlt. rewrite Hl in Hlt.
  erewrite bind_Done; [|eapply (for_until_found NUM i _ s (Z.of_nat i)); [done| |]]; [done| |]; cbn beta.
  - intros k Hlt'. mstep (get_disk_run s d Hd). by rewrite (Hk k Hlt').
  - mstep (get_disk_run s d Hd). rewrite Hi. cbn [of_option]. rewrite bind_ret.
    by mstep (mod_disk_run (fun d => set_d_free (<[i := false]> (d_free d)) d) s d Hd).
Qed.

Lemma alloc_desc_none s d :
  driving s d -> (forall k, (k < NUM)%nat -> d_free d !! k = Some false) -> alloc_desc s = Done (-1) s.
Proof.
  intros Hd Hk. unfold alloc_desc. erewrite bind_Done; [|apply for_until_none]; [done|].
  intros k Hin. apply elem_of_seq in Hin. mstep (get_disk_run s d Hd). by rewrite Hk by lia.
Qed.

(** [alloc_desc] takes a free descriptor if there is one. *)
Lemma alloc_desc_run s d :
  driving s d -> length (d_free d) = NUM ->
  (free_count (d_free d) = O /\ alloc_desc s = Done (-1) s) \/
  (exists i s', alloc_desc s = Done (Z.of_nat i) s' /\ d_free d !! i = Some true /\ driving s' (taken i d)).
Proof.
  intros Hd Hl. destruct (find_free (d_free d)) as [(i & Hi & Hk)|[Hk Hc]].
  - right. eexists i, _. split; [by apply alloc_desc_found|]. split; [done|]. by eapply driving_with.
  - left. split; [done|]. apply (alloc_desc_none s d Hd). intros k Hlt. apply Hk. by rewrite Hl.
Qed.

Lemma mod_desc_run i f s d :
  driving s d -> mod_desc (Z.of_nat i) f s = Done tt (with_disk (set_d_desc (alter f i (d_desc d)) d) s).
Proof. intros Hd. unfold mod_desc. rewrite (mod_disk_run _ s d Hd), Nat2Z.id. done. Qed.

(** The same at the head of a sequence, with the table of descriptors apart. *)
Lemma mod_disk_then f s d (k : KM ext unit) (P : kstate ext -> Prop) :
  driving s d -> (forall s', driving s' (f d) -> exists s'', k s' = Done tt s'' /\ P s'') ->
  exists s'', (mod_disk f;; k) s = Done tt s'' /\ P s''.
Proof. intros Hd Hk. mstep (mod_disk_run f s _ Hd). apply Hk. exact (driving_with _ _ s Hd). Qed.

Lemma mod_desc_then i f l s d (k : KM ext unit) (P : kstate ext -> Prop) :
  driving s (set_d_desc l d) ->
  (forall s', driving s' (set_d_desc (alter f i l) d) -> exists s'', k s' = Done tt s'' /\ P s'') ->
  exists s'', (mod_desc (Z.of_nat i) f;; k) s = Done tt s'' /\ P s''.
Proof. intros Hd Hk. mstep (mod_desc_run i f s _ Hd). apply Hk. exact (driving_with _ _ s Hd). Qed.

Lemma free_desc_run i s d :
  driving s d -> (i < NUM)%nat -> d_free d !! i = Some false ->
  exists s', free_desc (Z.of_nat i) s = Done tt s' /\ driving s' (freed i d).
Proof.
  intros Hd Hi Hf. unfold free_desc. rewrite (proj2 (Z.leb_gt _ _)) by lia. mstep (get_disk_run s d Hd).
  rewrite (proj2 (Z.ltb_ge _ _)), Nat2Z.id, Hf by lia. cbn [of_option]. rewrite bind_ret.
  assert (Hd1 : driving s (set_d_desc (d_desc d) d)) by (destruct d; exact Hd). clear Hd.
  do 4 (eapply mod_desc_then; [exact Hd1|clear s Hd1; intros s Hd1]).
  eapply mod_disk_then; [exact Hd1|]. clear s Hd1. intros s Hd1.
  destruct (wakeup_driving _ _ Hd1) as (s' & Hw & Hd').
  exists s'. split; [exact Hw|]. unfold freed. rewrite (list_insert_alter (d_desc d)). cbn in Hd'.
  rewrite !list_alter_alter_eq in Hd'. exact Hd'.
Qed.

(** ** Chains *)

(** The descriptors [i0], [i1] and [i2] describe a transfer of the buffer [b]:
    the header, the data, which the device writes for a read, and the status. *)
Record request_chain (l : list virtq_desc) (b : nat) (write : bool) (i0 i1 i2 : nat) : Prop := {
  rc_header : l !! i0 = Some (VirtqDesc (OpsAddr (Z.of_nat i0)) sizeof_blk_req VRING_DESC_F_NEXT (Z.of_nat i1));
  rc_data : l !! i1 = Some (VirtqDesc (DataAddr b) BSIZE
    (if write then VRING_DESC_F_NEXT else Z.lor VRING_DESC_F_WRITE VRING_DESC_F_NEXT) (Z.of_nat i2));
  rc_status : l !! i2 = Some (VirtqDesc (StatusAddr (Z.of_nat i0)) 1 VRING_DESC_F_WRITE 0)
}.

(** All the arrays of the structure have [NUM] entries. *)
Record disk_sized (d : disk) : Prop := {
  ds_desc : length (d_desc d) = NUM;
  ds_free : length (d_free d) = NUM;
  ds_ops : length (d_ops d) = NUM;
  ds_status : length (d_info_status d) = NUM
}.

(** The disk after [format_request]. *)
Definition formatted (b : nat) (sector : Z) (write : bool) (i0 i1 i2 : nat) (d : disk) : disk :=
  set_d_desc
    (<[i2 := VirtqDesc (StatusAddr (Z.of_nat i0)) 1 VRING_DESC_F_WRITE 0]>
      (<[i1 := VirtqDesc (DataAddr b) BSIZE (Z.lor (if write then 0 else VRING_DESC_F_WRITE) VRING_DESC_F_NEXT) (Z.of_nat i2)]>
        (<[i0 := VirtqDesc (OpsAddr (Z.of_nat i0)) sizeof_blk_req VRING_DESC_F_NEXT (Z.of_nat i1)]> (d_desc d))))
    (set_d_info_status (<[i0 := 0xff]> (d_info_status d))
      (set_d_ops (<[i0 := BlkReq (if write then VIRTIO_BLK_T_OUT else VIRTIO_BLK_T_IN) 0 sector]> (d_ops d)) d)).

Lemma format_request_run b sector write i0 i1 i2 s d :
  driving s d ->
  exists s', format_request b sector write (Z.of_nat i0) (Z.of_nat i1) (Z.of_nat i2) s = Done tt s' /\
    driving s' (formatted b sector write i0 i1 i2 d).
Proof.
  intros Hd. unfold format_request. set (o := BlkReq _ _ _).
  eapply mod_disk_then; [exact Hd|]. rewrite Nat2Z.id. clear s Hd. intros s Hd.
  set (d1 := set_d_ops (<[i0 := o]> (d_ops d)) d). change (driving s (set_d_desc (d_desc d) d1)) in Hd.
  do 9 (eapply mod_desc_then; [exact Hd|clear s Hd; intros s Hd]).
  eapply mod_disk_then; [exact Hd|]. clear s Hd. intros s Hd.
  set (d2 := set_d_info_status (<[i0 := 0xff]> (d_info_status d)) d1).
  match type of Hd with driving _ (_ (set_d_desc ?l _)) => change (driving s (set_d_desc l d2)) in Hd end.
  do 3 (eapply mod_desc_then; [exact Hd|clear s Hd; intros s Hd]).
  eexists. split; [exact (mod_desc_run _ _ _ _ Hd)|]. eapply (driving_eq _ _); [|exact (driving_with _ _ s Hd)].
  unfold formatted. rewrite !(list_insert_alter (A := virtq_desc)). cbn. rewrite !list_alter_alter_eq. reflexivity.
Qed.

Lemma formatted_chain b sector write i0 i1 i2 d :
  length (d_desc d) = NUM -> (i0 < NUM)%nat -> (i1 < NUM)%nat -> (i2 < NUM)%nat -> i0 <> i1 -> i0 <> i2 -> i1 <> i2 ->
  request_chain (d_desc (formatted b sector write i0 i1 i2 d)) b write i0 i1 i2.
Proof.
  intros Hl1 H0 H1 H2 N1 N2 N3. split; cbn.
  - rewrite !list_lookup_insert_ne by done. apply list_lookup_insert_eq. by rewrite Hl1.
  - rewrite list_lookup_insert_ne by done. rewrite list_lookup_insert_eq by (rewrite length_insert, Hl1; done).
    by destruct write.
  - apply list_lookup_insert_eq. by rewrite !length_insert, Hl1.
Qed.

(** [alloc3_desc] gives back what it took when there are too few. *)
Lemma alloc3_desc_few s d :
  driving s d -> length (d_free d) = NUM -> (free_count (d_free d) < 3)%nat ->
  exists s' d', alloc3_desc s = Done None s' /\ driving s' d' /\ d_free d' = d_free d.
Proof.
  intros Hd Hl Hc. unfold alloc3_desc.
  destruct (alloc_desc_run s d Hd Hl) as [[_ H0]|(i0 & s1 & H0 & F0 & Hd1)]; mstep H0; [by exists s, d|].
  rewrite (proj2 (Z.ltb_ge _ _)) by lia. pose proof (lookup_lt_Some _ _ _ F0) as L0. rewrite Hl in L0.
  assert (E0 : d_free (taken i0 d) !! i0 = Some false) by (cbn; by rewrite list_lookup_insert_eq by (rewrite Hl; done)).
  apply free_count_taken in F0 as C0.
  destruct (alloc_desc_run s1 _ Hd1) as [[_ H1]|(i1 & s2 & H1 & F1 & Hd2)]; [cbn; by rewrite length_insert| |]; mstep H1.
  { destruct (free_desc_run i0 s1 _ Hd1 L0 E0) as (s' & Hf & Hd'). cbn [Z.ltb Z.compare]. mstep Hf.
    exists s', (freed i0 (taken i0 d)). split_and!; [done|done|cbn]. rewrite list_insert_insert_eq. by apply list_insert_id. }
  rewrite (proj2 (Z.ltb_ge _ _)) by lia. pose proof (lookup_lt_Some _ _ _ F1) as L1. cbn in L1. rewrite length_insert, Hl in L1.
  assert (N01 : i0 <> i1) by (intros ->; congruence).
  cbn in F1. apply free_count_taken in F1 as C1.
  destruct (alloc_desc_run s2 _ Hd2) as [[_ H2]|(i2 & s3 & _ & F2 & _)]; [cbn; by rewrite !length_insert| |].
  - mstep H2. cbn [Z.ltb Z.compare].
    destruct (free_desc_run i0 s2 _ Hd2 L0) as (s3 & Hf0 & Hd3).
    { cbn. rewrite list_lookup_insert_ne by done. exact E0. }
    mstep Hf0. destruct (free_desc_run i1 s3 _ Hd3 L1) as (s4 & Hf1 & Hd4).
    { cbn. rewrite list_lookup_insert_ne by done. apply list_lookup_insert_eq. by rewrite length_insert, Hl. }
    mstep Hf1. eexists s4, _. split_and!; [done|exact Hd4|]. cbn.
    rewrite (list_insert_insert_ne _ i0 i1), !list_insert_insert_eq by done.
    rewrite list_insert_id; [by apply list_insert_id|]. rewrite list_insert_id by done.
    by rewrite list_lookup_insert_ne in F1.
  - cbn in F2. apply free_count_taken in F2 as C2. lia.
Qed.

Lemma alloc3_desc_enough s d :
  driving s d -> length (d_free d) = NUM -> (3 <= free_count (d_free d))%nat ->
  exists i0 i1 i2 s', alloc3_desc s = Done (Some (Z.of_nat i0, Z.of_nat i1, Z.of_nat i2)) s' /\
    driving s' (taken i2 (taken i1 (taken i0 d))) /\ i0 <> i1 /\ i0 <> i2 /\ i1 <> i2 /\
    Forall (fun i => d_free d !! i = Some true) [i0; i1; i2].
Proof.
  intros Hd Hl Hc. unfold alloc3_desc.
  destruct (alloc_desc_run s d Hd Hl) as [[C _]|(i0 & s1 & H0 & F0 & Hd1)]; [lia|]. mstep H0.
  rewrite (proj2 (Z.ltb_ge _ _)) by lia. apply free_count_taken in F0 as C0.
  destruct (alloc_desc_run s1 _ Hd1) as [[C _]|(i1 & s2 & H1 & F1 & Hd2)]; [cbn; by rewrite length_insert|cbn [taken d_free set_d_free] in C; lia|].
  mstep H1. rewrite (proj2 (Z.ltb_ge _ _)) by lia. cbn in F1. apply free_count_taken in F1 as C1.
  destruct (alloc_desc_run s2 _ Hd2) as [[C _]|(i2 & s3 & H2 & F2 & Hd3)]; [cbn; by rewrite !length_insert|cbn [taken d_free set_d_free] in C; lia|].
  mstep H2. rewrite (proj2 (Z.ltb_ge _ _)) by lia. exists i0, i1, i2, s3. cbn in F2.
  apply list_lookup_insert_Some in F1 as [(_ & ? & _)|[N1 F1]]; [done|].
  apply list_lookup_insert_Some in F2 as [(_ & ? & _)|[N2 F2]]; [done|].
  apply list_lookup_insert_Some in F2 as [(_ & ? & _)|[N3 F2]]; [done|].
  split_and!; try done. by repeat constructor.
Qed.

(** [free_chain] follows the chain to its end. *)
Lemma free_chain_run b write i0 i1 i2 s d :
  driving s d -> request_chain (d_desc d) b write i0 i1 i2 -> i0 <> i1 -> i0 <> i2 -> i1 <> i2 ->
  Forall (fun i => (i < NUM)%nat /\ d_free d !! i = Some false) [i0; i1; i2] ->
  exists s', free_chain (Z.of_nat i0) s = Done tt s' /\ driving s' (freed i2 (freed i1 (freed i0 d))).
Proof.
  intros Hd [R0 R1 R2] N1 N2 N3 HF. rewrite !Forall_cons in HF. destruct HF as ([L0 F0] & [L1 F1] & [L2 F2] & _).
  unfold free_chain. cbn [free_chain_loop NUM]. mstep (get_disk_run s d Hd). rewrite Nat2Z.id, R0. cbn [of_option]. rewrite bind_ret.
  destruct (free_desc_run i0 s d Hd L0 F0) as (s1 & H0 & Hd1). mstep H0. cbn [vd_flags vd_next]. replace (truthy _) with true by done. rewrite when_true.
  mstep (get_disk_run s1 _ Hd1). rewrite Nat2Z.id. cbn [d_desc freed set_d_free set_d_desc].
  rewrite list_lookup_insert_ne, R1 by done. cbn [of_option]. rewrite bind_ret.
  destruct (free_desc_run i1 s1 _ Hd1 L1) as (s2 & H1 & Hd2); [cbn; by rewrite list_lookup_insert_ne|]. mstep H1.
  cbn [vd_flags vd_next]. replace (truthy _) with true by (by destruct write). rewrite when_true.
  mstep (get_disk_run s2 _ Hd2). rewrite Nat2Z.id. cbn [d_desc freed set_d_free set_d_desc].
  rewrite !list_lookup_insert_ne, R2 by done. cbn [of_option]. rewrite bind_ret.
  destruct (free_desc_run i2 s2 _ Hd2 L2) as (s3 & H2 & Hd3); [cbn; by rewrite !list_lookup_insert_ne|]. mstep H2.
  exists s3. split; [|exact Hd3]. by rewrite when_false.
Qed.

(** Three descriptors taken and given back leave the free map as it was. *)
Lemma free_map_restored (l : list bool) i0 i1 i2 :
  i0 <> i1 -> i0 <> i2 -> i1 <> i2 -> Forall (fun i => l !! i = Some true) [i0; i1; i2] ->
  <[i2 := true]> (<[i1 := true]> (<[i0 := true]> (<[i2 := false]> (<[i1 := false]> (<[i0 := false]> l))))) = l.
Proof.
  intros N1 N2 N3 HF. rewrite !Forall_cons in HF. destruct HF as (F0 & F1 & F2 & _).
  rewrite (list_insert_insert_ne _ i0 i2), (list_insert_insert_ne _ i0 i1), list_insert_insert_eq by done.
  rewrite (list_insert_id l i0) by done.
  rewrite (list_insert_insert_ne _ i1 i2), !list_insert_insert_eq, (list_insert_id l i1) by done.
  by apply list_insert_id.
Qed.

(** C26: the descriptors of disk requests are used exclusively and all come back.
    With at least three free descriptors [alloc3_desc] takes three different
    ones that were free, and otherwise takes none.  [format_request] makes them
    the chain header, data, status of the request, marks the request pending,
    and changes no other descriptor; whatever has happened meanwhile to the
    other fields of the driver's structure, [free_chain] of the first one then
    frees exactly these three, so that the map of free descriptors is as before
    the request.  No step panics. *)
Theorem request_descriptors s d :
  driving s d -> disk_sized d ->
  ((3 <= free_count (d_free d))%nat -> forall b sector write, exists i0 i1 i2 s1 s2 d2,
     NoDup [i0; i1; i2] /\ Forall (fun i => d_free d !! i = Some true) [i0; i1; i2] /\
     alloc3_desc s = Done (Some (Z.of_nat i0, Z.of_nat i1, Z.of_nat i2)) s1 /\
     format_request b sector write (Z.of_nat i0) (Z.of_nat i1) (Z.of_nat i2) s1 = Done tt s2 /\ driving s2 d2 /\
     request_chain (d_desc d2) b write i0 i1 i2 /\
     d_ops d2 !! i0 = Some (BlkReq (if write then VIRTIO_BLK_T_OUT else VIRTIO_BLK_T_IN) 0 sector) /\
     d_info_status d2 !! i0 = Some 0xff /\
     (forall j, j ∉ [i0; i1; i2] -> d_desc d2 !! j = d_desc d !! j /\ d_free d2 !! j = d_free d !! j) /\
     forall s3 d3, driving s3 d3 -> d_desc d3 = d_desc d2 -> d_free d3 = d_free d2 ->
       exists s4 d4, free_chain (Z.of_nat i0) s3 = Done tt s4 /\ driving s4 d4 /\ d_free d4 = d_free d) /\
  ((free_count (d_free d) < 3)%nat ->
     exists s' d', alloc3_desc s = Done None s' /\ driving s' d' /\ d_free d' = d_free d).
Proof.
  intros Hd [Sd Sf So Ss]. split; [|by intros; apply alloc3_desc_few]. intros Hc b sector write.
  destruct (alloc3_desc_enough s d Hd Sf Hc) as (i0 & i1 & i2 & s1 & Ha & Hd1 & N1 & N2 & N3 & HF).
  destruct (format_request_run b sector write i0 i1 i2 s1 _ Hd1) as (s2 & Hf & Hd2).
  assert (HL : forall i, d_free d !! i = Some true -> (i < NUM)%nat)
    by (intros i Hi; apply lookup_lt_Some in Hi; by rewrite Sf in Hi).
  assert (HL3 : (i0 < NUM /\ i1 < NUM /\ i2 < NUM)%nat) by (rewrite !Forall_cons in HF; destruct_and!; auto).
  destruct HL3 as (L0 & L1 & L2). eexists i0, i1, i2, s1, s2, _. split_and!; [|done|done|exact Hf|exact Hd2|..].
  - repeat constructor; set_solver.
  - by apply formatted_chain.
  - cbn. apply list_lookup_insert_eq. by rewrite So.
  - cbn. apply list_lookup_insert_eq. by rewrite Ss.
  - intros j Hj. rewrite !not_elem_of_cons in Hj. destruct_and!. cbn. by rewrite !list_lookup_insert_ne.
  - intros s3 d3 Hd3 Ed Ef. destruct (free_chain_run b write i0 i1 i2 s3 d3 Hd3) as (s4 & Hfc & Hd4); try done.
    + rewrite Ed. by apply formatted_chain.
    + rewrite Ef. cbn. rewrite !Forall_cons. split_and!; try done.
      * rewrite !list_lookup_insert_ne by done. apply list_lookup_insert_eq. by rewrite Sf.
      * rewrite list_lookup_insert_ne by done. apply list_lookup_insert_eq. by rewrite length_insert, Sf.
      * apply list_lookup_insert_eq. by rewrite !length_insert, Sf.
    + eexists s4, _. split_and!; [done|exact Hd4|]. cbn. rewrite Ef. by apply free_map_restored.
Qed.
End Driver.

(** ** The driver after [virtio_disk_init] *)

Definition idle_disk : disk :=
  Disk (replicate NUM (VirtqDesc NoAddr 0 0 0)) 0 (replicate NUM 0) 0 (replicate NUM 0) (replicate NUM true) 0
    (replicate NUM None) (replicate NUM 0) (replicate NUM (BlkReq 0 0 0)).

Definition idle_state : kstate (@ext no_devices) :=
  @with_disk no_devices idle_disk (acquired VdiskLock fs_boot).

Lemma idle_driving :
  @driving no_devices (k_ext fs_boot) (k_mem fs_boot) fs_cpu O 1 idle_state idle_disk.
Proof. exists fs_boot. split_and!; [exact fs_boot_ready|reflexivity..]. Qed.

Lemma request_descriptors_witness :
  exists i0 i1 i2 s1, @alloc3_desc no_devices idle_state = Done (Some (Z.of_nat i0, Z.of_nat i1, Z.of_nat i2)) s1 /\
    NoDup [i0; i1; i2].
Proof.
  destruct (@request_descriptors no_devices _ _ _ _ _ idle_state idle_disk idle_driving) as [He _];
    [by split|].
  destruct (He ltac:(vm_compute; lia) O 14 true) as (i0 & i1 & i2 & s1 & _ & _ & Hn & _ & Ha & _).
  exists i0, i1, i2, s1. split; [exact Ha|exact Hn].
Defined.
