(* ===== verification/Printf.v ===== *)
(** * Formatted output of the kernel (kernel/printf.c)

    [printf] and [panic] down to the characters given to [consputc].  The rest
    of the development keeps its own record of the calls of [printf] and treats
    a panic as an outcome; this file is what these calls do to the console. *)

From S2P Require Import Prelude Machine Memory State Spinlock Kalloc Vm Proc FsState Sleeplock Console.

(** An argument of [printf]: an integer for %d, %x and %p, or a string for %s,
    without its NUL, which may be the null pointer. *)
Inductive arg := AInt (z : Z) | AStr (s : option (list Z)).

(** [digits[k]] *)
Definition digit (k : Z) : Z := if k <? 10 then 48 + k else 87 + k.

(** The do-while loop of [printint]: the digits of [x], least significant
    first.  An [int] has at most 32 digits in any base from 2 on. *)
Fixpoint digits_rev (fuel : nat) (x base : Z) : list Z :=
  match fuel with
  | O => []
  | S f => digit (x mod base) :: (if x / base =? 0 then [] else digits_rev f (x / base) base)
  end.

(** The characters that [printint] writes, in order. *)
Definition printint_chars (xx base : Z) (sign : bool) : list Z :=
  let neg := sign && (xx <? 0) in
  let x := if neg then u32 (- xx) else u32 xx in
  reverse (digits_rev 32 x base ++ (if neg then [45] else [])).

(** The loop of [printptr]: [digits[x >> 60]], then [x <<= 4]. *)
Fixpoint hex_digits (n : nat) (x : Z) : list Z :=
  match n with
  | O => []
  | S n' => digit (Z.shiftr x 60) :: hex_digits n' (u64 (Z.shiftl x 4))
  end.

(** The characters of one call, or nothing when an argument is missing.  A
    format string ends at its first NUL, or at the end of the list. *)
Fixpoint format (fmt : list Z) (args : list arg) : option (list Z) :=
  match fmt with
  | [] => Some []
  | c :: fmt' =>
      if c =? 0 then Some []
      else if negb (c =? 37) then cons c <$> format fmt' args
      else match fmt' with
      | [] => Some []
      | d :: fmt'' =>
          if d =? 0 then Some []
          else if d =? 100 then
            match args with
            | AInt z :: args' => app (printint_chars (s32 z) 10 true) <$> format fmt'' args'
            | _ => None
            end
          else if d =? 120 then
            match args with
            | AInt z :: args' => app (printint_chars (s32 z) 16 true) <$> format fmt'' args'
            | _ => None
            end
          else if d =? 112 then
            match args with
            | AInt z :: args' => app (48 :: 120 :: hex_digits 16 (u64 z)) <$> format fmt'' args'
            | _ => None
            end
          else if d =? 115 then
            match args with
            | AStr s :: args' => app (default [40; 110; 117; 108; 108; 41] s) <$> format fmt'' args'
            | _ => None
            end
          else if d =? 37 then cons 37 <$> format fmt'' args
          else app [37; d] <$> format fmt'' args
      end
  end.

Section Ops.
Context `{Devices} `{Rounds}.

Definition printint (xx base : Z) (sign : bool) : KM ext unit := for_each (printint_chars xx base sign) consputc.
Definition printptr (x : Z) : KM ext unit := consputc 48;; consputc 120;; for_each (hex_digits 16 x) consputc.

(** [printf] on the console; [None] is the null format. *)
Definition kprintf (fmt : option (list Z)) (args : list arg) : KM ext unit :=
  locking ← get_ext e_locking;
  when (truthy locking) (acquire PrLock);;
  match fmt with
  | None => panic "null fmt"
  | Some fmt =>
      cs ← of_option (format fmt args);
      for_each cs consputc;;
      when (truthy locking) (release PrLock)
  end.

(** [panic] prints and stops for ever. *)
Definition kpanic (s : list Z) : KM ext unit :=
  mod_ext (set_e_locking 0);;
  kprintf (Some [112; 97; 110; 105; 99; 58; 32]) [];;
  kprintf (Some s) [];;
  kprintf (Some [10]) [];;
  mod_ext (set_e_panicked true);;
  hang.

Definition printfinit : KM ext unit :=
  initlock PrLock;;
  mod_ext (set_e_locking 1).

End Ops.

(** ** Reading numbers back *)

(** The value of a digit, of digits with the most significant first, and of
    digits after an optional minus sign. *)
Definition undigit (c : Z) : Z := if c <? 58 then c - 48 else c - 87.
Definition read_digits (base acc : Z) (cs : list Z) : Z := foldl (fun v c => v * base + undigit c) acc cs.
Definition read_int (base : Z) (cs : list Z) : Z :=
  match cs with
  | c :: cs' => if c =? 45 then - read_digits base 0 cs' else read_digits base 0 cs
  | [] => 0
  end.

Lemma undigit_digit k : 0 <= k < 16 -> undigit (digit k) = k.
Proof. intros Hk. unfold undigit, digit. repeat case_match; lia. Qed.

Lemma digit_not_minus k : 0 <= k -> digit k <> 45.
Proof. intros Hk. unfold digit. case_match; lia. Qed.

Lemma digits_rev_value fuel x base :
  2 <= base <= 16 -> 0 <= x < base ^ Z.of_nat fuel -> (0 < fuel)%nat ->
  read_digits base 0 (reverse (digits_rev fuel x base)) = x.
Proof.
  intros Hb. revert x. induction fuel as [|f IH]; intros x Hx Hf; [lia|]. cbn [digits_rev].
  rewrite Nat2Z.inj_succ, Z.pow_succ_r in Hx by lia.
  assert (0 <= x mod base < base) by (apply Z.mod_pos_bound; lia).
  assert (Hq : 0 <= x / base < base ^ Z.of_nat f)
    by (split; [apply Z.div_pos|apply Z.div_lt_upper_bound]; lia).
  assert (Hx' : x = base * (x / base) + x mod base) by (apply Z.div_mod; lia).
  unfold read_digits in *. rewrite reverse_cons, foldl_app. cbn. rewrite undigit_digit by lia.
  destruct (Z.eqb_spec (x / base) 0) as [E|E].
  - cbn. rewrite E in Hx'. lia.
  - rewrite IH; [lia|done|]. destruct f; [cbn in Hq; lia|lia].
Qed.

Lemma digits_rev_length fuel n x base :
  2 <= base -> 0 <= x < base ^ Z.of_nat n -> (0 < n)%nat -> (length (digits_rev fuel x base) <= n)%nat.
Proof.
  intros Hb. revert n x. induction fuel as [|f IH]; intros n x Hx Hn; cbn; [lia|].
  destruct n as [|n]; [lia|]. rewrite Nat2Z.inj_succ, Z.pow_succ_r in Hx by lia.
  destruct (Z.eqb_spec (x / base) 0) as [E|E]; cbn; [lia|].
  assert (Hq : 0 <= x / base < base ^ Z.of_nat n)
    by (split; [apply Z.div_pos|apply Z.div_lt_upper_bound]; lia).
  specialize (IH n (x / base) Hq). destruct n; [cbn in Hq; lia|lia].
Qed.

(** The first character printed is the last digit stored. *)
Lemma digits_rev_first fuel x base :
  0 < base -> (0 < fuel)%nat -> exists c cs, reverse (digits_rev fuel x base) = c :: cs /\ c <> 45.
Proof.
  intros Hb Hf. revert x. induction fuel as [|f IH]; intros x; [lia|]. cbn [digits_rev]. rewrite reverse_cons.
  assert (0 <= x mod base < base) by (apply Z.mod_pos_bound; lia).
  pose proof (digit_not_minus (x mod base) ltac:(lia)).
  destruct (x / base =? 0); [by eexists _, []|]. destruct f as [|f]; [by eexists _, []|].
  destruct (IH ltac:(lia) (x / base)) as (c & cs & E & Hc). rewrite E. by eexists _, _.
Qed.

Lemma hex_digits_value n x acc :
  0 <= x < 2 ^ 64 -> (n <= 16)%nat ->
  read_digits 16 acc (hex_digits n x) = acc * 16 ^ Z.of_nat n + x / 2 ^ (64 - 4 * Z.of_nat n).
Proof.
  intros Hx Hn. revert x acc Hx Hn. induction n as [|n IH]; intros x acc Hx Hn.
  - cbn [hex_digits]. rewrite Z.div_small by (cbn; lia). cbn. lia.
  - cbn [hex_digits]. unfold read_digits in *. cbn [foldl].
    rewrite Z.shiftr_div_pow2, Z.shiftl_mul_pow2 by lia.
    assert (0 <= x / 2 ^ 60 < 16) by lia. rewrite undigit_digit by done.
    rewrite IH by (unfold u64; lia). rewrite Nat2Z.inj_succ, Z.pow_succ_r by lia.
    replace (64 - 4 * Z.succ (Z.of_nat n)) with (60 - 4 * Z.of_nat n) by lia.
    set (e := 60 - 4 * Z.of_nat n). replace (64 - 4 * Z.of_nat n) with (e + 4) by (unfold e; lia).
    assert (E16 : 16 ^ Z.of_nat n * 2 ^ e = 2 ^ 60).
    { change 16 with (2 ^ 4). rewrite <- Z.pow_mul_r, <- Z.pow_add_r by lia. f_equal. unfold e. lia. }
    assert (He : 0 < 2 ^ e) by (apply Z.pow_pos_nonneg; lia).
    assert (E1 : u64 (x * 2 ^ 4) = 16 * (x mod 2 ^ 60)) by (unfold u64; lia).
    rewrite E1, Z.pow_add_r by lia. change (2 ^ 4) with 16. rewrite (Z.mul_comm 16 (x mod _)), Z.div_mul_cancel_r by lia.
    assert (Ed : x / 2 ^ e = x mod 2 ^ 60 / 2 ^ e + 16 ^ Z.of_nat n * (x / 2 ^ 60)).
    { rewrite <- Z.div_add by lia. f_equal. rewrite (Z.div_mod x (2 ^ 60)) at 1 by lia. rewrite <- E16. lia. }
    rewrite Ed. lia.
Qed.

Lemma hex_digits_length n x : length (hex_digits n x) = n.
Proof. revert x. induction n; intros x; cbn; auto. Qed.

(** C36: [printint] and [printptr] print numbers that read back as themselves.
    For every [int] and every base from 2 to 16 the characters of [printint],
    an optional minus sign and digits, denote the number, also for the least
    [int], whose negation overflows; with a base of at least 5 (the kernel uses
    10 and 16) they fit in the 16 bytes of its buffer.  [printptr] prints 16
    digits that denote its 64-bit argument in base 16. *)
Theorem printed_numbers_read_back (xx base x : Z) :
  - 2 ^ 31 <= xx < 2 ^ 31 -> 2 <= base <= 16 -> 0 <= x < 2 ^ 64 ->
  read_int base (printint_chars xx base true) = xx /\
  (5 <= base -> (length (printint_chars xx base true) <= 16)%nat) /\
  length (hex_digits 16 x) = 16%nat /\ read_digits 16 0 (hex_digits 16 x) = x.
Proof.
  intros Hxx Hb Hx. unfold printint_chars. cbn [andb].
  set (y := if xx <? 0 then u32 (- xx) else u32 xx).
  assert (Hy : y = Z.abs xx) by (unfold y, u32; destruct (Z.ltb_spec xx 0); lia).
  assert (Hy32 : 0 <= y < base ^ Z.of_nat 32).
  { pose proof (Z.pow_le_mono_l 2 base 32 ltac:(lia)). lia. }
  split_and!.
  - rewrite reverse_app. destruct (digits_rev_first 32 y base) as (c & cs & E & Hc); [lia|lia|].
    pose proof (digits_rev_value 32 y base Hb Hy32 ltac:(lia)) as Hv. rewrite E in *.
    destruct (Z.ltb_spec xx 0); cbn [reverse rev_append app read_int].
    + change (- read_digits base 0 (c :: cs) = xx). rewrite Hv. lia.
    + destruct (Z.eqb_spec c 45); [done|]. rewrite Hv. lia.
  - intros H5. pose proof (Z.pow_le_mono_l 5 base 14 ltac:(lia)).
    pose proof (digits_rev_length 32 14 y base ltac:(lia) ltac:(lia) ltac:(lia)).
    rewrite length_reverse, length_app. destruct (xx <? 0); cbn [length]; lia.
  - apply hex_digits_length.
  - rewrite hex_digits_value by lia. cbn. lia.
Qed.

Lemma printed_numbers_read_back_witness :
  read_int 10 (printint_chars (- 2 ^ 31) 10 true) = - 2 ^ 31 /\
  printint_chars (- 2 ^ 31) 10 true = [45; 50; 49; 52; 55; 52; 56; 51; 54; 52; 56].
Proof.
  split; [|reflexivity]. by apply (printed_numbers_read_back (- 2 ^ 31) 10 0).
Defined.
