(* ===== verification/Sysargs.v ===== *)
(** * Arguments of system calls (kernel/syscall.c)

    Fetching arguments from the trap frame and from user memory.  A function
    that stores through a pointer returns the value stored next to its result. *)

From S2P Require Import Prelude Machine Memory State Spinlock Kalloc Vm Proc Signals.

Section Ops.
Context {X : Type} `{Symbols}.

Definition fetchaddr (addr : Z) : KM X (Z * Z) :=
  i ← curproc;
  p ← get_proc i;
  if (p_sz p <=? addr) || (p_sz p <? u64 (addr + 8)) then mret (-1, 0) else
  r ← copyin (p_pagetable p) addr 8;
  if negb (fst r =? 0) then mret (-1, 0) else
  mret (0, le_val (snd r)).

(** The bytes stored in [buf], with the NUL, and the length without it. *)
Definition fetchstr (addr : Z) (max : nat) : KM X (Z * list Z) :=
  i ← curproc;
  p ← get_proc i;
  r ← copyinstr (p_pagetable p) addr max;
  if fst r <? 0 then mret r else
  mret (Z.of_nat (length (snd r)) - 1, snd r).

Definition argraw (n : nat) : KM X Z :=
  t ← curthread;
  match n with
  | 0%nat => tf_get t tf_a0
  | 1%nat => tf_get t tf_a1
  | 2%nat => tf_get t tf_a2
  | 3%nat => tf_get t tf_a3
  | 4%nat => tf_get t tf_a4
  | 5%nat => tf_get t tf_a5
  | _ => panic "argraw"
  end.

Definition argint (n : nat) : KM X Z := a ← argraw n; mret (s32 a).
Definition argaddr (n : nat) : KM X Z := argraw n.

Definition argstr (n max : nat) : KM X (Z * list Z) := addr ← argaddr n; fetchstr addr max.

End Ops.
