(* ===== verification/Exec.v ===== *)
(** * Loading a program (kernel/exec.c)

    [exec] reads an ELF file into a new address space, pushes the arguments and
    commits to it.  The argument strings are in kernel memory, at the addresses
    in the array [argv]. *)

From S2P Require Import Prelude Machine Memory State Spinlock Kalloc Vm Proc Signals Process FsState Sleeplock Bio Log Fs.

(** ** kernel/elf.h *)
Definition ELF_MAGIC : Z := 0x464C457F.
Definition ELF_PROG_LOAD : Z := 1.
Definition sizeof_elfhdr : Z := 64.
Definition sizeof_proghdr : Z := 56.

(** The fields the kernel reads, at their offsets. *)
Record elfhdr := Elfhdr { elf_magic : Z; elf_entry : Z; elf_phoff : Z; elf_phnum : Z }.
Definition elfhdr_of (d : list Z) : elfhdr := Elfhdr (get_le 4 d 0) (get_le 8 d 24) (get_le 8 d 32) (get_le 2 d 56).

Record proghdr := Proghdr { ph_type : Z; ph_off : Z; ph_vaddr : Z; ph_filesz : Z; ph_memsz : Z }.
Definition proghdr_of (d : list Z) : proghdr :=
  Proghdr (get_le 4 d 0) (get_le 8 d 8) (get_le 8 d 16) (get_le 8 d 32) (get_le 8 d 40).

(** The part of a path after its last slash. *)
Fixpoint last_elem (s last : list Z) : list Z :=
  match s with
  | [] => last
  | c :: s' => if c =? 0 then last else last_elem s' (if c =? slash then s' else last)
  end.

Section Ops.
Context `{Symbols} `{Devices} `{Rounds} `{!DiskOps}.

Definition loadseg (pagetable va : Z) (ip : nat) (offset sz : Z) : KM ext Z :=
  if negb (va mod PGSIZE =? 0) then panic "loadseg: va must be page aligned" else
  r ← for_until (seq 0 (Z.to_nat ((sz + PGSIZE - 1) / PGSIZE))) (fun k =>
    let i := Z.of_nat k * PGSIZE in
    pa ← walkaddr pagetable (u64 (va + i));
    if pa =? 0 then panic "loadseg: address should exist" else
    let n := if sz - i <? PGSIZE then sz - i else PGSIZE in
    r ← readi ip false pa (u32 (offset + i)) n;
    mret (if negb (u32 r =? n) then Some tt else None));
  mret (match r with Some _ => -1 | None => 0 end).

(** The loop over the program headers: whether all were loaded, and the size
    reached. *)
Fixpoint load_segments (n : nat) (pagetable : Z) (ip : nat) (off sz : Z) : KM ext (bool * Z) :=
  match n with
  | O => mret (true, sz)
  | S n' =>
      r ← readi_local ip (u32 off) sizeof_proghdr;
      if negb (fst r =? sizeof_proghdr) then mret (false, sz) else
      let ph := proghdr_of (snd r) in
      let next := s32 (off + sizeof_proghdr) in
      if negb (ph_type ph =? ELF_PROG_LOAD) then load_segments n' pagetable ip next sz else
      if ph_memsz ph <? ph_filesz ph then mret (false, sz) else
      if u64 (ph_vaddr ph + ph_memsz ph) <? ph_vaddr ph then mret (false, sz) else
      sz1 ← uvmalloc pagetable sz (u64 (ph_vaddr ph + ph_memsz ph));
      if sz1 =? 0 then mret (false, sz) else
      if negb (ph_vaddr ph mod PGSIZE =? 0) then mret (false, sz1) else
      r ← loadseg pagetable (ph_vaddr ph) ip (u32 (ph_off ph)) (u32 (ph_filesz ph));
      if r <? 0 then mret (false, sz1) else
      load_segments n' pagetable ip next sz1
  end.

(** [sp -= sp % 16] *)
Definition align16 (sp : Z) : Z := sp - sp mod 16.

(** Push the argument strings from index [argc] on: the stack pointer and
    [ustack], or nothing for the jump to [bad].  A string is at most a page. *)
Fixpoint push_args (n : nat) (pagetable stackbase : Z) (argv : list Z) (argc : nat) (sp : Z) (ustack : list Z) :
    KM ext (option (Z * list Z)) :=
  match n with
  | O => no_fuel
  | S n' =>
      a ← of_option (argv !! argc);
      if a =? 0 then mret (Some (sp, ustack)) else
      if (MAXARG <=? argc)%nat then mret None else
      len ← gets (fun s => strlen (Z.to_nat PGSIZE) (k_mem s) a);
      len ← of_option len;
      let sp := align16 (u64 (sp - (len + 1))) in
      if sp <? stackbase then mret None else
      str ← gets (fun s => read_bytes (k_mem s) a (Z.to_nat (len + 1)));
      r ← copyout pagetable sp str;
      if r <? 0 then mret None else
      push_args n' pagetable stackbase argv (S argc) sp (ustack ++ [sp])
  end.

(** The label [bad]. *)
Definition exec_bad (pagetable sz : Z) (ip : option nat) : KM ext Z :=
  when (truthy pagetable) (proc_freepagetable pagetable sz);;
  match ip with
  | Some i => iunlockput i;; end_op
  | None => mret tt
  end;;
  mret (-1).

(** The reset of the handlers at the end: only the masks of the user handlers
    are cleared, the assignment to the handler changes a local variable. *)
Definition exec_reset_signals (i : nat) : KM ext unit :=
  for_each (seq 0 32) (fun k =>
    p ← get_proc i;
    h ← handler_of p (Z.of_nat k);
    when (negb (h =? SIG_IGN) && negb (h =? SIG_DFL))
      (mod_proc i (fun p => set_p_maskHandlers (<[k := 0]> (p_maskHandlers p)) p)));;
  mod_proc i (set_p_signalMask 0).

(** From the commit to the new image on. *)
Definition exec_commit (i : nat) (t : nat * nat) (path : list Z) (pagetable sz sp entry oldsz : Z) : KM ext unit :=
  tf_set t tf_a1 sp;;
  mod_proc i (fun p => set_p_name (name_copy 16 (p_name p) (last_elem path path)) p);;
  p ← get_proc i;
  let oldpagetable := p_pagetable p in
  mod_proc i (set_p_pagetable pagetable);;
  mod_proc i (set_p_sz sz);;
  tf_set t tf_epc entry;;
  tf_set t tf_sp sp;;
  proc_freepagetable oldpagetable oldsz;;
  exec_reset_signals i.

(** The new stack: two pages, of which the lower one is a guard, and the
    arguments.  The result is [argc]. *)
Definition exec_stack (t : nat * nat) (path argv : list Z) (elf : elfhdr) (pagetable sz : Z) : KM ext Z :=
  i ← curproc;
  p ← get_proc i;
  let oldsz := p_sz p in
  let sz := PGROUNDUP sz in
  sz1 ← uvmalloc pagetable sz (u64 (sz + 2 * PGSIZE));
  if sz1 =? 0 then exec_bad pagetable sz None else
  let sz := sz1 in
  uvmclear pagetable (sz - 2 * PGSIZE);;
  let stackbase := sz - PGSIZE in
  r ← push_args (S (S MAXARG)) pagetable stackbase argv O sz [];
  match r with
  | None => exec_bad pagetable sz None
  | Some (sp, ustack) =>
      let argc := Z.of_nat (length ustack) in
      let sp := align16 (u64 (sp - (argc + 1) * 8)) in
      if sp <? stackbase then exec_bad pagetable sz None else
      r ← copyout pagetable sp (mjoin (le_bytes 8 <$> ustack ++ [0]));
      if r <? 0 then exec_bad pagetable sz None else
      exec_commit i t path pagetable sz sp (elf_entry elf) oldsz;;
      mret argc
  end.

Definition exec (path argv : list Z) : KM ext Z :=
  i ← curproc;
  t ← curthread;
  begin_op;;
  r ← namei path;
  match r with
  | None => end_op;; mret (-1)
  | Some ip =>
      ilock (Some ip);;
      r ← readi_local ip 0 sizeof_elfhdr;
      let elf := elfhdr_of (snd r) in
      if negb (fst r =? sizeof_elfhdr) then exec_bad 0 0 (Some ip) else
      if negb (elf_magic elf =? ELF_MAGIC) then exec_bad 0 0 (Some ip) else
      pagetable ← proc_pagetable i;
      if pagetable =? 0 then exec_bad 0 0 (Some ip) else
      r ← load_segments (Z.to_nat (elf_phnum elf)) pagetable ip (s32 (elf_phoff elf)) 0;
      let '(ok, sz) := r in
      if negb ok then exec_bad pagetable sz (Some ip) else
      iunlockput ip;;
      end_op;;
      exec_stack t path argv elf pagetable sz
  end.

End Ops.
