(* ===== verification/Sysfile.v ===== *)
(** * File system calls (kernel/sysfile.c)

    Argument checking and the calls into the file system.  [None] for an inode
    or a file is a null pointer. *)

From S2P Require Import Prelude Machine Memory State Spinlock Kalloc Vm Proc Signals Process FsState Sleeplock.
From S2P Require Import Bio Log Fs Console File Sysargs Exec.

Definition has_flag (omode flag : Z) : bool := truthy (Z.land omode flag).

Section Ops.
Context `{Symbols} `{Devices} `{Rounds} `{!DiskOps}.

(** The descriptor and the file. *)
Definition argfd (n : nat) : KM ext (option (nat * nat)) :=
  fd ← argint n;
  if (fd <? 0) || (Z.of_nat NOFILE <=? fd) then mret None else
  i ← curproc;
  p ← get_proc i;
  f ← of_option (p_ofile p !! Z.to_nat fd);
  mret (pair (Z.to_nat fd) <$> f).

Definition fdalloc (f : nat) : KM ext Z :=
  i ← curproc;
  r ← for_until (seq 0 NOFILE) (fun fd =>
    p ← get_proc i;
    o ← of_option (p_ofile p !! fd);
    match o with
    | None =>
        mod_proc i (fun p => set_p_ofile (<[fd := Some f]> (p_ofile p)) p);;
        mret (Some (Z.of_nat fd))
    | Some _ => mret None
    end);
  mret (default (-1) r).

(** [myproc()->ofile[fd] = 0] *)
Definition clear_fd (i : nat) (fd : Z) : KM ext unit :=
  mod_proc i (fun p => set_p_ofile (<[Z.to_nat fd := None]> (p_ofile p)) p).

Definition sys_dup : KM ext Z :=
  r ← argfd 0;
  match r with
  | None => mret (-1)
  | Some (_, f) =>
      fd ← fdalloc f;
      if fd <? 0 then mret (-1) else
      filedup f;;
      mret fd
  end.

Definition sys_read : KM ext Z :=
  r ← argfd 0;
  match r with
  | None => mret (-1)
  | Some (_, f) => n ← argint 2; p ← argaddr 1; fileread f p n
  end.

Definition sys_write : KM ext Z :=
  r ← argfd 0;
  match r with
  | None => mret (-1)
  | Some (_, f) => n ← argint 2; p ← argaddr 1; filewrite f p n
  end.

Definition sys_close : KM ext Z :=
  r ← argfd 0;
  match r with
  | None => mret (-1)
  | Some (fd, f) =>
      i ← curproc;
      clear_fd i (Z.of_nat fd);;
      fileclose f;;
      mret 0
  end.

Definition sys_fstat : KM ext Z :=
  r ← argfd 0;
  match r with
  | None => mret (-1)
  | Some (_, f) => st ← argaddr 1; filestat f st
  end.

(** [ip->nlink += d], a [short] *)
Definition add_nlink (i : nat) (d : Z) : KM ext unit :=
  mod_inode i (fun ip => set_i_nlink (s16 (i_nlink ip + d)) ip).

(** The label [bad] of [sys_link]. *)
Definition link_bad (ip : nat) : KM ext Z :=
  ilock (Some ip);;
  add_nlink ip (-1);;
  iupdate ip;;
  iunlockput ip;;
  end_op;;
  mret (-1).

Definition sys_link : KM ext Z :=
  r ← argstr 0 (Z.to_nat MAXPATH);
  let '(n, old) := r in
  if n <? 0 then mret (-1) else
  r ← argstr 1 (Z.to_nat MAXPATH);
  let '(n, new) := r in
  if n <? 0 then mret (-1) else
  begin_op;;
  r ← namei old;
  match r with
  | None => end_op;; mret (-1)
  | Some ip =>
      ilock (Some ip);;
      x ← get_inode ip;
      if i_type x =? T_DIR then iunlockput ip;; end_op;; mret (-1) else
      add_nlink ip 1;;
      iupdate ip;;
      iunlock (Some ip);;
      r ← nameiparent new;
      match r with
      | (None, _) => link_bad ip
      | (Some dp, name) =>
          ilock (Some dp);;
          d ← get_inode dp;
          x ← get_inode ip;
          r ← (if negb (i_dev d =? i_dev x) then mret (-1) else dirlink dp name (i_inum x));
          if r <? 0 then iunlockput dp;; link_bad ip else
          iunlockput dp;;
          iput ip;;
          end_op;;
          mret 0
      end
  end.

Definition isdirempty (dp : nat) : KM ext bool :=
  d ← get_inode dp;
  r ← for_until (dir_offsets 2 (i_size d)) (fun off =>
    de ← read_dirent dp off "isdirempty: readi";
    mret (if negb (de_inum de =? 0) then Some tt else None));
  mret (match r with Some _ => false | None => true end).

(** The label [bad] of [sys_unlink]. *)
Definition unlink_bad (dp : nat) : KM ext Z :=
  iunlockput dp;;
  end_op;;
  mret (-1).

(** [sys_unlink] once the entry at [off] of [dp] has been found. *)
Definition unlink_found (dp ip : nat) (off : Z) : KM ext Z :=
  ilock (Some ip);;
  x ← get_inode ip;
  if i_nlink x <? 1 then panic "unlink: nlink < 1" else
  nonempty ← (if i_type x =? T_DIR then e ← isdirempty ip; mret (negb e) else mret false);
  if nonempty : bool then iunlockput ip;; unlink_bad dp else
  r ← writei_local dp (replicate (Z.to_nat sizeof_dirent) 0) off sizeof_dirent;
  if negb (r =? sizeof_dirent) then panic "unlink: writei" else
  x ← get_inode ip;
  when (i_type x =? T_DIR) (add_nlink dp (-1);; iupdate dp);;
  iunlockput dp;;
  add_nlink ip (-1);;
  iupdate ip;;
  iunlockput ip;;
  end_op;;
  mret 0.

Definition sys_unlink : KM ext Z :=
  r ← argstr 0 (Z.to_nat MAXPATH);
  let '(n, path) := r in
  if n <? 0 then mret (-1) else
  begin_op;;
  r ← nameiparent path;
  match r with
  | (None, _) => end_op;; mret (-1)
  | (Some dp, name) =>
      ilock (Some dp);;
      if (namecmp name (c_string ".") =? 0) || (namecmp name (c_string "..") =? 0) then unlink_bad dp else
      r ← dirlookup dp name;
      match r with
      | None => unlink_bad dp
      | Some (ip, off) => unlink_found dp ip off
      end
  end.

(** The new inode of [create], once it is known that there is none. *)
Definition create_new (dp : nat) (name : list Z) (type major minor : Z) : KM ext nat :=
  d ← get_inode dp;
  ip ← ialloc (i_dev d) type;
  ilock (Some ip);;
  mod_inode ip (set_i_major major);;
  mod_inode ip (set_i_minor minor);;
  mod_inode ip (set_i_nlink 1);;
  iupdate ip;;
  x ← get_inode ip;
  when (type =? T_DIR)
    (add_nlink dp 1;;
     iupdate dp;;
     r ← dirlink ip (c_string ".") (i_inum x);
     if r <? 0 then panic "create dots" else
     r ← dirlink ip (c_string "..") (i_inum d);
     when (r <? 0) (panic "create dots"));;
  r ← dirlink dp name (i_inum x);
  if r <? 0 then panic "create: dirlink" else
  iunlockput dp;;
  mret ip.

Definition create (path : list Z) (type major minor : Z) : KM ext (option nat) :=
  r ← nameiparent path;
  match r with
  | (None, _) => mret None
  | (Some dp, name) =>
      ilock (Some dp);;
      r ← dirlookup dp name;
      match r with
      | Some (ip, _) =>
          iunlockput dp;;
          ilock (Some ip);;
          x ← get_inode ip;
          if (type =? T_FILE) && ((i_type x =? T_FILE) || (i_type x =? T_DEVICE)) then mret (Some ip)
          else iunlockput ip;; mret None
      | None => ip ← create_new dp name type major minor; mret (Some ip)
      end
  end.

(** The inode that [sys_open] opens, locked; [None] after the error has been
    cleaned up. *)
Definition open_inode (path : list Z) (omode : Z) : KM ext (option nat) :=
  if has_flag omode O_CREATE then
    r ← create path T_FILE 0 0;
    match r with
    | None => end_op;; mret None
    | Some ip => mret (Some ip)
    end
  else
    r ← namei path;
    match r with
    | None => end_op;; mret None
    | Some ip =>
        ilock (Some ip);;
        x ← get_inode ip;
        if (i_type x =? T_DIR) && negb (omode =? O_RDONLY) then iunlockput ip;; end_op;; mret None
        else mret (Some ip)
    end.

(** A file and a descriptor for it, or neither. *)
Definition open_fd : KM ext (option (nat * Z)) :=
  r ← filealloc;
  match r with
  | None => mret None
  | Some f =>
      fd ← fdalloc f;
      if fd <? 0 then fileclose f;; mret None else mret (Some (f, fd))
  end.

Definition sys_open : KM ext Z :=
  r ← argstr 0 (Z.to_nat MAXPATH);
  let '(n, path) := r in
  if n <? 0 then mret (-1) else
  omode ← argint 1;
  begin_op;;
  r ← open_inode path omode;
  match r with
  | None => mret (-1)
  | Some ip =>
      x ← get_inode ip;
      if (i_type x =? T_DEVICE) && ((i_major x <? 0) || (NDEV <=? i_major x)) then
        iunlockput ip;; end_op;; mret (-1)
      else
      r ← open_fd;
      match r with
      | None => iunlockput ip;; end_op;; mret (-1)
      | Some (f, fd) =>
          (if i_type x =? T_DEVICE then
             mod_file f (set_f_type FD_DEVICE);; mod_file f (set_f_major (i_major x))
           else
             mod_file f (set_f_type FD_INODE);; mod_file f (set_f_off 0));;
          mod_file f (set_f_ip (Some ip));;
          mod_file f (set_f_readable (if has_flag omode O_WRONLY then 0 else 1));;
          mod_file f (set_f_writable (if has_flag omode O_WRONLY || has_flag omode O_RDWR then 1 else 0));;
          when (has_flag omode O_TRUNC && (i_type x =? T_FILE)) (itrunc ip);;
          iunlock (Some ip);;
          end_op;;
          mret fd
      end
  end.

Definition sys_mkdir : KM ext Z :=
  begin_op;;
  r ← argstr 0 (Z.to_nat MAXPATH);
  let '(n, path) := r in
  o ← (if n <? 0 then mret None else create path T_DIR 0 0);
  match o with
  | None => end_op;; mret (-1)
  | Some ip => iunlockput ip;; end_op;; mret 0
  end.

Definition sys_mknod : KM ext Z :=
  begin_op;;
  r ← argstr 0 (Z.to_nat MAXPATH);
  let '(n, path) := r in
  o ← (if n <? 0 then mret None else
       major ← argint 1;
       minor ← argint 2;
       create path T_DEVICE (s16 major) (s16 minor));
  match o with
  | None => end_op;; mret (-1)
  | Some ip => iunlockput ip;; end_op;; mret 0
  end.

Definition sys_chdir : KM ext Z :=
  i ← curproc;
  begin_op;;
  r ← argstr 0 (Z.to_nat MAXPATH);
  let '(n, path) := r in
  o ← (if n <? 0 then mret None else namei path);
  match o with
  | None => end_op;; mret (-1)
  | Some ip =>
      ilock (Some ip);;
      x ← get_inode ip;
      if negb (i_type x =? T_DIR) then iunlockput ip;; end_op;; mret (-1) else
      iunlock (Some ip);;
      p ← get_proc i;
      cwd ← of_option (p_cwd p);
      iput cwd;;
      end_op;;
      mod_proc i (set_p_cwd (Some ip));;
      mret 0
  end.

(** The argument strings of [exec], copied to pages of their own, from index
    [i] on; [false] for the jump to [bad]. *)
Fixpoint fetch_args (n : nat) (uargv : Z) (i : nat) (argv : list Z) : KM ext (bool * list Z) :=
  match n with
  | O => mret (false, argv)
  | S n' =>
      r ← fetchaddr (u64 (uargv + 8 * Z.of_nat i));
      let '(ret, uarg) := r in
      if ret <? 0 then mret (false, argv) else
      if uarg =? 0 then mret (true, argv) else
      pa ← kalloc;
      let argv := <[i := pa]> argv in
      if pa =? 0 then mret (false, argv) else
      r ← fetchstr uarg (Z.to_nat PGSIZE);
      mod_mem (fun m => write_bytes m pa (snd r));;
      if fst r <? 0 then mret (false, argv) else
      fetch_args n' uargv (S i) argv
  end.

(** The loop that frees the argument pages, up to the first null pointer. *)
Fixpoint free_args (argv : list Z) : KM ext unit :=
  match argv with
  | [] => mret tt
  | a :: argv' => if a =? 0 then mret tt else kfree a;; free_args argv'
  end.

Definition sys_exec : KM ext Z :=
  r ← argstr 0 (Z.to_nat MAXPATH);
  let '(n, path) := r in
  if n <? 0 then mret (-1) else
  uargv ← argaddr 1;
  r ← fetch_args MAXARG uargv O (replicate MAXARG 0);
  let '(ok, argv) := r in
  ret ← (if ok : bool then exec path argv else mret (-1));
  free_args argv;;
  mret ret.

(** Close both ends of a pipe that could not be handed out. *)
Definition pipe_undo (rf wf : nat) : KM ext Z :=
  fileclose rf;;
  fileclose wf;;
  mret (-1).

Definition sys_pipe : KM ext Z :=
  i ← curproc;
  fdarray ← argaddr 0;
  r ← pipealloc;
  match r with
  | None => mret (-1)
  | Some (rf, wf) =>
      fd0 ← fdalloc rf;
      if fd0 <? 0 then pipe_undo rf wf else
      fd1 ← fdalloc wf;
      if fd1 <? 0 then clear_fd i fd0;; pipe_undo rf wf else
      p ← get_proc i;
      r ← copyout (p_pagetable p) fdarray (le_bytes 4 fd0);
      r ← (if r <? 0 then mret r else copyout (p_pagetable p) (u64 (fdarray + 4)) (le_bytes 4 fd1));
      if r <? 0 then
        clear_fd i fd0;;
        clear_fd i fd1;;
        pipe_undo rf wf
      else mret 0
  end.

End Ops.
