(* ===== verification/Sysproc.v ===== *)
(** * Process system calls (kernel/sysproc.c)

    The handlers of the system calls on processes, signals, semaphores and
    threads.  A call that may wait is given [rounds] tests of its condition.
    [sys_bsem_free], [sys_bsem_down] and [sys_bsem_up] return nothing, although
    the table calls them as functions that return a value: the parameter
    [leftover] is what is then found in the register. *)

From S2P Require Import Prelude Machine Memory State Spinlock Kalloc Vm Proc Signals Process Kthread.
From S2P Require Import FsState Sleeplock Sysargs.

Section Ops.
Context {X : Type} `{Symbols} `{FsOps X} `{Rounds}.

Definition sys_exit : KM X Z := n ← argint 0; exit n;; mret 0.

Definition sys_getpid : KM X Z := i ← curproc; p ← get_proc i; mret (p_pid p).

Definition sys_fork : KM X Z := fork.

Definition sys_wait : KM X Z := p ← argaddr 0; wait rounds p.

(** The old size is kept in an [int]. *)
Definition sys_sbrk : KM X Z :=
  n ← argint 0;
  i ← curproc;
  p ← get_proc i;
  let addr := s32 (p_sz p) in
  r ← growproc n;
  mret (if r <? 0 then -1 else addr).

(** [ticks - ticks0 < n] compares unsigned numbers. *)
Definition sys_sleep : KM X Z :=
  n ← argint 0;
  acquire TicksLock;;
  ticks0 ← gets k_ticks;
  loop rounds
    (ticks ← gets k_ticks;
     if u32 (ticks - ticks0) <? u32 n then
       i ← curproc;
       p ← get_proc i;
       if truthy (p_killed p) then release TicksLock;; mret (Some (-1))
       else sleep ChTicks TicksLock;; mret None
     else release TicksLock;; mret (Some 0)).

Definition sys_kill : KM X Z := pid ← argint 0; signum ← argint 1; kill pid signum.

Definition sys_uptime : KM X Z :=
  acquire TicksLock;;
  xticks ← gets k_ticks;
  release TicksLock;;
  mret xticks.

Definition sys_sigprocmask : KM X Z := mask ← argint 0; sigprocmask mask.

Definition sys_sigaction : KM X Z :=
  signum ← argint 0;
  act ← argaddr 1;
  oldact ← argaddr 2;
  sigaction signum act oldact.

Definition sys_sigret : KM X Z := sigret;; mret 0.

Definition sys_bsem_alloc : KM X Z := bsem_alloc.

Definition sys_bsem_free (leftover : Z) : KM X Z := i ← argint 0; bsem_free i;; mret leftover.

Definition sys_bsem_down (leftover : Z) : KM X Z := i ← argint 0; bsem_down rounds i;; mret leftover.

Definition sys_bsem_up (leftover : Z) : KM X Z := i ← argint 0; bsem_up i;; mret leftover.

Definition sys_kthread_create : KM X Z :=
  fn ← argaddr 0;
  stack ← argaddr 1;
  x ← kthread_create fn stack;
  printf "the value of kthread_create is: %d\n" [x];;
  mret x.

Definition sys_kthread_id : KM X Z := kthread_id.

Definition sys_kthread_exit : KM X Z := status ← argint 0; kthread_exit status;; mret 0.

Definition sys_kthread_join : KM X Z :=
  tid ← argint 0;
  t ← curthread;
  status ← tf_get t tf_a1;
  kthread_join rounds tid status.

End Ops.
