(* ===== verification/Trap.v ===== *)
(** * System call dispatch, traps and boot

    The table of system calls (kernel/syscall.c), the interrupt controller
    (kernel/plic.c), the traps from user space and from the kernel
    (kernel/trap.c), [forkret] (kernel/proc.c) and [main] (kernel/main.c).  The
    jump of [usertrapret] into the trampoline ends the model's run of the
    kernel: its result is the pair of arguments of [userret]. *)

From S2P Require Import Prelude Machine Memory State Spinlock Kalloc Vm Proc Signals Process Kthread.
From S2P Require Import FsState Sleeplock Bio Log Fs Console File Virtio Printf Sysargs Exec Sysfile Sysproc.

(** Interrupts and the addresses of the PLIC (kernel/memlayout.h). *)
Definition UART0_IRQ : Z := 10.
Definition VIRTIO0_IRQ : Z := 1.
Definition PLIC_SENABLE (hart : Z) : Z := PLIC + 0x2080 + hart * 0x100.
Definition PLIC_SPRIORITY (hart : Z) : Z := PLIC + 0x201000 + hart * 0x2000.
Definition PLIC_SCLAIM (hart : Z) : Z := PLIC + 0x201004 + hart * 0x2000.

(** The system calls, in the order of their numbers from 1 (kernel/syscall.h). *)
Inductive sysno :=
| SYS_fork | SYS_exit | SYS_wait | SYS_pipe | SYS_read | SYS_kill | SYS_exec | SYS_fstat
| SYS_chdir | SYS_dup | SYS_getpid | SYS_sbrk | SYS_sleep | SYS_uptime | SYS_open | SYS_write
| SYS_mknod | SYS_unlink | SYS_link | SYS_mkdir | SYS_close | SYS_sigprocmask | SYS_sigaction
| SYS_sigret | SYS_bsem_alloc | SYS_bsem_free | SYS_bsem_down | SYS_bsem_up
| SYS_kthread_create | SYS_kthread_id | SYS_kthread_exit | SYS_kthread_join.

Definition sysno_of (num : Z) : option sysno :=
  if num <=? 0 then None else
  [SYS_fork; SYS_exit; SYS_wait; SYS_pipe; SYS_read; SYS_kill; SYS_exec; SYS_fstat;
   SYS_chdir; SYS_dup; SYS_getpid; SYS_sbrk; SYS_sleep; SYS_uptime; SYS_open; SYS_write;
   SYS_mknod; SYS_unlink; SYS_link; SYS_mkdir; SYS_close; SYS_sigprocmask; SYS_sigaction;
   SYS_sigret; SYS_bsem_alloc; SYS_bsem_free; SYS_bsem_down; SYS_bsem_up;
   SYS_kthread_create; SYS_kthread_id; SYS_kthread_exit; SYS_kthread_join]
  !! Z.to_nat (num - 1).

Section Ops.
Context `{Symbols} `{Devices} `{Rounds} `{!DiskOps}.
Variable leftover : Z.

(** ** kernel/syscall.c *)

Definition syscalls (n : sysno) : KM ext Z :=
  match n with
  | SYS_fork => sys_fork | SYS_exit => sys_exit | SYS_wait => sys_wait | SYS_pipe => sys_pipe
  | SYS_read => sys_read | SYS_kill => sys_kill | SYS_exec => sys_exec | SYS_fstat => sys_fstat
  | SYS_chdir => sys_chdir | SYS_dup => sys_dup | SYS_getpid => sys_getpid | SYS_sbrk => sys_sbrk
  | SYS_sleep => sys_sleep | SYS_uptime => sys_uptime | SYS_open => sys_open | SYS_write => sys_write
  | SYS_mknod => sys_mknod | SYS_unlink => sys_unlink | SYS_link => sys_link | SYS_mkdir => sys_mkdir
  | SYS_close => sys_close | SYS_sigprocmask => sys_sigprocmask | SYS_sigaction => sys_sigaction
  | SYS_sigret => sys_sigret | SYS_bsem_alloc => sys_bsem_alloc | SYS_bsem_free => sys_bsem_free leftover
  | SYS_bsem_down => sys_bsem_down leftover | SYS_bsem_up => sys_bsem_up leftover
  | SYS_kthread_create => sys_kthread_create | SYS_kthread_id => sys_kthread_id
  | SYS_kthread_exit => sys_kthread_exit | SYS_kthread_join => sys_kthread_join
  end.

Definition syscall : KM ext unit :=
  t ← curthread;
  a7 ← tf_get t tf_a7;
  match sysno_of (s32 a7) with
  | Some n => r ← syscalls n; tf_set t tf_a0 r
  | None =>
      th ← get_thread t;
      printf "%d %s: unknown sys call %d\n" (t_tid th :: s32 a7 :: t_name th);;
      tf_set t tf_a0 (-1)
  end.

(** ** kernel/plic.c *)

Definition plicinit : KM ext unit :=
  WriteReg (PLIC + UART0_IRQ * 4) 1;;
  WriteReg (PLIC + VIRTIO0_IRQ * 4) 1.

Definition plicinithart : KM ext unit :=
  hart ← cpuid;
  WriteReg (PLIC_SENABLE (Z.of_nat hart)) (Z.lor (bit UART0_IRQ) (bit VIRTIO0_IRQ));;
  WriteReg (PLIC_SPRIORITY (Z.of_nat hart)) 0.

Definition plic_claim : KM ext Z :=
  hart ← cpuid; irq ← ReadReg (PLIC_SCLAIM (Z.of_nat hart)); mret (s32 irq).

Definition plic_complete (irq : Z) : KM ext unit :=
  hart ← cpuid; WriteReg (PLIC_SCLAIM (Z.of_nat hart)) (u32 irq).

(** ** kernel/trap.c *)

Definition trapinit : KM ext unit := initlock TicksLock.

Definition mod_csr (f : csr -> csr) : KM ext unit := modify (fun s => set_k_csr (f (k_csr s)) s).

Definition trapinithart : KM ext unit := mod_csr (set_r_stvec sym_kernelvec).

Definition clockintr : KM ext unit :=
  acquire TicksLock;;
  modify (fun s => set_k_ticks (u32 (k_ticks s + 1)) s);;
  wakeup (Some ChTicks);;
  release TicksLock.

(** The value of scause for external and software interrupts. *)
Definition is_external (scause : Z) : bool :=
  truthy (Z.land scause 0x8000000000000000) && (Z.land scause 0xff =? 9).

Definition devintr : KM ext Z :=
  scause ← gets (fun s => r_scause (k_csr s));
  if is_external scause then
    irq ← plic_claim;
    (if irq =? UART0_IRQ then uartintr
     else if irq =? VIRTIO0_IRQ then virtio_disk_intr
     else when (truthy irq) (printf "unexpected interrupt irq=%d\n" [irq]));;
    when (truthy irq) (plic_complete irq);;
    mret 1
  else if scause =? 0x8000000000000001 then
    hart ← cpuid;
    when (Nat.eqb hart 0) clockintr;;
    mod_csr (fun r => set_r_sip (Z.land (r_sip r) (Z.lnot 2)) r);;
    mret 2
  else mret 0.

(** The two arguments of the jump to [userret]: the address of the trap frame
    and the page table. *)
Definition usertrapret : KM ext (Z * Z) :=
  i ← curproc;
  t ← curthread;
  handling_signals rounds;;
  intr_off;;
  mod_csr (set_r_stvec (TRAMPOLINE + (sym_uservec - sym_trampoline)));;
  satp ← gets (fun s => r_satp (k_csr s));
  tf_set t tf_kernel_satp satp;;
  th ← get_thread t;
  tf_set t tf_kernel_sp (t_kstack th + PGSIZE);;
  tf_set t tf_kernel_trap sym_usertrap;;
  tp ← gets k_hart;
  tf_set t tf_kernel_hartid (Z.of_nat tp);;
  mod_csr (set_SPP false);;
  mod_csr (set_SPIE true);;
  epc ← tf_get t tf_epc;
  mod_csr (set_r_sepc epc);;
  p ← get_proc i;
  mret (TRAPFRAME + Z.of_nat sizeof_trapframe * Z.of_nat (snd t), MAKE_SATP (p_pagetable p)).

(** [if(t->proc_parent->killed) exit(-1)] *)
Definition exit_if_killed (t : nat * nat) : KM ext unit :=
  th ← get_thread t;
  i ← of_option (t_proc_parent th);
  p ← get_proc i;
  when (truthy (p_killed p)) (exit (-1)).

(** A cause that nobody handles kills the process. *)
Definition unexpected_trap (t : nat * nat) : KM ext unit :=
  r ← gets k_csr;
  th ← get_thread t;
  printf "usertrap(): unexpected scause %p tid=%d\n" [r_scause r; t_tid th];;
  printf "            sepc=%p stval=%p\n" [r_sepc r; r_stval r];;
  i ← of_option (t_proc_parent th);
  mod_proc i (set_p_killed 1).

Definition usertrap : KM ext (Z * Z) :=
  r ← gets k_csr;
  if SPP r then panic "usertrap: not from user mode" else
  mod_csr (set_r_stvec sym_kernelvec);;
  t ← curthread;
  tf_set t tf_epc (r_sepc r);;
  which_dev ← (if r_scause r =? 8 then
      exit_if_killed t;;
      epc ← tf_get t tf_epc;
      tf_set t tf_epc (epc + 4);;
      intr_on;;
      syscall;;
      mret 0
    else
      d ← devintr;
      when (d =? 0) (unexpected_trap t);;
      mret d);
  exit_if_killed t;;
  when (which_dev =? 2) yield;;
  usertrapret.

Definition kerneltrap : KM ext unit :=
  r ← gets k_csr;
  if negb (SPP r) then panic "kerneltrap: not from supervisor mode" else
  intr ← intr_get;
  if intr : bool then panic "kerneltrap: interrupts enabled" else
  which_dev ← devintr;
  if which_dev =? 0 then
    printf "scause %p\n" [r_scause r];;
    r' ← gets k_csr;
    printf "sepc=%p stval=%p\n" [r_sepc r'; r_stval r'];;
    panic "kerneltrap"
  else
  running ← (if which_dev =? 2 then
      t ← mythread;
      match t with
      | None => mret false
      | Some t => th ← get_thread t; mret (is_state (t_state th) RUNNING)
      end
    else mret false);
  when running yield;;
  mod_csr (set_r_sepc (r_sepc r));;
  mod_csr (fun r' => set_SIE (SIE r) (set_SPIE (SPIE r) (set_SPP (SPP r) r'))).

(** [forkret] of kernel/proc.c: the first run of a new process. *)
Definition forkret : KM ext (Z * Z) :=
  i ← curproc;
  release (ProcLock i);;
  first ← gets k_first;
  when first
    (modify (set_k_first false);;
     fsinit ROOTDEV);;
  usertrapret.

(** ** kernel/main.c *)

(** [pages] is the address of [disk.pages]; a hart other than the first waits
    for [started]. *)
Definition main (pages : Z) : KM ext unit :=
  hart ← cpuid;
  (if Nat.eqb hart 0 then
     consoleinit;;
     printfinit;;
     printf "\n" [];;
     printf "xv6 kernel is booting\n" [];;
     printf "\n" [];;
     kinit;;
     kvminit;;
     kvminithart;;
     procinit;;
     trapinit;;
     trapinithart;;
     plicinit;;
     plicinithart;;
     binit;;
     iinit;;
     fileinit;;
     virtio_disk_init pages;;
     userinit;;
     mod_ext (set_e_started 1)
   else
     loop rounds (started ← get_ext e_started; mret (if started =? 0 then None else Some tt));;
     hart ← cpuid;
     printf "hart %d starting\n" [Z.of_nat hart];;
     kvminithart;;
     trapinithart;;
     plicinithart);;
  scheduler rounds.

End Ops.
