(* ===== verification/TrapSpec.v ===== *)
(** * System calls that return from a signal handler

    The composition of the dispatcher of Trap.v with the signals of Signals.v. *)

From S2P Require Import Prelude Machine Memory State Spinlock Kalloc Vm Proc Signals Process Kthread.
From S2P Require Import FsState Sleeplock Bio Log Fs Console File Virtio Printf Sysargs Exec Sysfile Sysproc Trap.

Section Properties.
Context `{SymbolsOk} `{Devices} `{Rounds} `{!DiskOps}.
Variable leftover : Z.

(** The dispatcher stores the result of the handler over the restored frame. *)
Lemma syscall_sigret (s : kstate ext) c i j p th :
  quiet s c -> c_proc c = Some i -> c_thread c = Some (i, j) ->
  k_procs s !! i = Some p -> p_threads p !! j = Some th -> valid_page (t_trapframe th) ->
  sysno_of (s32 (load64 (k_mem s) (t_trapframe th + tf_a7))) = Some SYS_sigret ->
  syscall leftover s =
    Done tt (with_proc i (set_p_ignore_signals 0 (set_p_signalMask (p_signal_mask_backup p) p))
      (store64 (write_bytes (k_mem s) (t_trapframe th) (t_backup th)) (t_trapframe th + tf_a0) 0) s).
Proof.
  intros Hq Hcp Hct Hp Ht Hv Hn. unfold syscall. mstep (curthread_run s c (i, j) Hq Hct).
  mstep (tf_get_run s i j p th tf_a7 Hp Ht Hv). rewrite Hn. unfold syscalls, sys_sigret.
  mstep (bind_Done sigret (fun _ => mret 0) s _ _ (sigret_run s c i j p th Hq Hcp Hct Hp Ht Hv)).
  rewrite (tf_set_run _ i j (set_p_ignore_signals 0 (set_p_signalMask (p_signal_mask_backup p) p)) th); [done| |done|done].
  by apply (with_proc_lookup i p).
Qed.

(** C37: the system call sigret loses a register.  After a signal has been
    delivered with [usersignal], the handler returns through the system call
    [sigret]; as long as the saved frame is still there, [syscall] restores every
    register of the interrupted program except a0, which it then overwrites with
    the result 0 of the handler of the system call. *)
Theorem sigret_call_loses_a0 (s : kstate ext) (i j : nat) (p : proc) (th : thread) (l : list Z) (signum h mask : Z) :
  deliverable s i j p th l signum h mask ->
  exists s1, usersignal (i, j) signum s = Done tt s1 /\
    forall (s2 : kstate ext) c2 p2 th2,
      quiet s2 c2 -> c_proc c2 = Some i -> c_thread c2 = Some (i, j) ->
      k_procs s2 !! i = Some p2 -> p_threads p2 !! j = Some th2 -> t_trapframe th2 = t_trapframe th ->
      Some (t_backup th2) = t_backup <$> thread_at s1 (i, j) ->
      sysno_of (s32 (load64 (k_mem s2) (t_trapframe th + tf_a7))) = Some SYS_sigret ->
      exists s3, syscall leftover s2 = Done tt s3 /\
        load64 (k_mem s3) (t_trapframe th + tf_a0) = 0 /\
        forall f, field_ok f -> f + 8 <= tf_a0 \/ tf_a0 + 8 <= f ->
          load64 (k_mem s3) (t_trapframe th + f) = load64 (k_mem s) (t_trapframe th + f).
Proof.
  intros Hd. destruct (usersignal_run s i j p th l signum h mask Hd) as (m' & Hrun & _).
  eexists. split; [exact Hrun|]. destruct Hd as [Hp Ht _ _ _ Hfo _ _ _ _].
  intros s2 c2 p2 th2 Hq Hcp Hct Hp2 Ht2 Htf Hbk Hn.
  assert (Ebk : t_backup th2 = read_bytes (k_mem s) (t_trapframe th) sizeof_trapframe).
  { rewrite (backup_saved s i j p th) in Hbk by done. by injection Hbk. }
  eexists. split; [apply (syscall_sigret s2 c2 i j p2 th2); rewrite ?Htf; try done; apply Hfo|].
  cbn [k_mem with_proc set_k_mem]. rewrite Htf, Ebk. split; [by rewrite load64_store64_same|].
  intros f Hf Hfar. rewrite fields_apart; [by apply load64_restore|done|by vm_compute|done].
Qed.

End Properties.

(** ** A signal delivered to the first process *)

#[local] Instance trap_round : Rounds := 1%nat.

Definition trap_state : kstate (@ext no_devices) :=
  retype (@boot_ext no_devices ∅ tt) (sig_state (k_mem four_free) two_handlers 4).

Lemma deliverable_retype `{Symbols} {X Y} (y : Y) (s : kstate X) i j p th l signum h mask :
  deliverable s i j p th l signum h mask -> deliverable (retype y s) i j p th l signum h mask.
Proof. destruct s. intros [? ? ? ? ? ? ? ? ? ?]. split; assumption. Qed.

Lemma quiet_retype {X Y} (y : Y) (s : kstate X) c : quiet s c -> quiet (retype y s) c.
Proof. by destruct s. Qed.

Lemma sigret_call_loses_a0_witness :
  exists s2 s3 : kstate (@ext no_devices),
    @syscall sample_symbols no_devices _ (@ideal_disk no_devices) 0 s2 = Done tt s3 /\
    load64 (k_mem s3) (0x80033000 + tf_a0) = 0.
Proof.
  assert (Hd : @deliverable _ sample_symbols trap_state O O (sig_proc two_handlers 4) sig_thread four_pages 2 0x100 0).
  { apply deliverable_retype, sig_deliverable; [lia|reflexivity|lia]. }
  destruct (@sigret_call_loses_a0 sample_symbols sample_symbols_ok no_devices _ (@ideal_disk no_devices) 0 trap_state O O
              _ _ _ _ _ _ Hd) as (s1 & H1 & Hret).
  destruct (@usersignal_run _ sample_symbols sample_symbols_ok _ _ _ _ _ _ _ _ _ Hd) as (m' & H1' & _).
  rewrite H1 in H1'. injection H1' as ->. clear H1. set (bk := read_bytes _ _ _) in *. clearbody bk.
  set (m2 := store64 m' (0x80033000 + tf_a7) 24). set (p1 := in_handler _ _ bk _) in *.
  destruct (Hret (with_proc O p1 m2 trap_state) sig_cpu p1 (set_t_backup bk sig_thread)) as (s3 & H3 & H0 & _).
  - apply with_proc_quiet, quiet_retype, sig_quiet.
  - reflexivity.
  - reflexivity.
  - exact (with_proc_lookup O _ p1 m2 trap_state (dl_proc _ _ _ _ _ _ _ _ _ Hd)).
  - reflexivity.
  - reflexivity.
  - symmetry. exact (backup_saved trap_state O O _ sig_thread 0 bk m' (dl_proc _ _ _ _ _ _ _ _ _ Hd) eq_refl).
  - cbn [k_mem with_proc set_k_mem]. unfold m2. by rewrite load64_store64_same.
  - eexists _, s3. split; [exact H3|exact H0].
Defined.
