(* ===== verification/Start.v ===== *)
(** * Machine-mode start (kernel/start.c)

    [start] runs in machine mode before [main]: it sets the mode and the address
    that [mret] returns to, delegates traps, asks for timer interrupts and
    records the hart's number. *)

From S2P Require Import Prelude Machine.

(** Bits of the registers (kernel/riscv.h). *)
Inductive mbits := MSTATUS_MPP_MASK | MSTATUS_MPP_S | MSTATUS_MIE | SIE_SEIE | SIE_STIE | SIE_SSIE | MIE_MTIE.

Definition mbit_value (b : mbits) : Z :=
  match b with
  | MSTATUS_MPP_MASK => Z.shiftl 3 11 | MSTATUS_MPP_S => Z.shiftl 1 11 | MSTATUS_MIE => Z.shiftl 1 3
  | SIE_SEIE => Z.shiftl 1 9 | SIE_STIE => Z.shiftl 1 5 | SIE_SSIE => Z.shiftl 1 1
  | MIE_MTIE => Z.shiftl 1 7
  end.
Coercion mbit_value : mbits >-> Z.

(** The CLINT (kernel/memlayout.h). *)
Definition CLINT : Z := 0x2000000.
Definition CLINT_MTIMECMP (hartid : Z) : Z := CLINT + 0x4000 + 8 * hartid.
Definition CLINT_MTIME : Z := CLINT + 0xBFF8.

(** The control registers [start] uses. *)
Inductive mcsr := mhartid | mstatus | mepc | satp | medeleg | mideleg | sie | mscratch | mtvec | mie | tp.

#[export] Instance mcsr_eq_dec : EqDecision mcsr.
Proof. solve_decision. Defined.

(** The registers of a hart in machine mode, the memory-mapped words of the
    CLINT, and the rows of [timer_scratch]. *)
Record mhart := MHart { csrs : mcsr -> Z; clint : gmap Z Z; timer_scratch : list (list Z) }.

(** The accessors [w_x] of kernel/riscv.h; [r_x] is [csrs h x]. *)
Definition w_csr (x : mcsr) (v : Z) (h : mhart) : mhart :=
  MHart (fun y => if decide (y = x) then v else csrs h y) (clint h) (timer_scratch h).

Definition w_clint (a v : Z) (h : mhart) : mhart := MHart (csrs h) (<[a := v]> (clint h)) (timer_scratch h).
Definition w_scratch (id k : nat) (v : Z) (h : mhart) : mhart :=
  MHart (csrs h) (clint h) (alter (fun r => <[k := v]> r) id (timer_scratch h)).

Section Start.
(** The addresses of [main], [timervec] and [timer_scratch]. *)
Context (sym_main sym_timervec sym_timer_scratch : Z).

Definition timerinit (h : mhart) : mhart :=
  let id := s32 (csrs h mhartid) in
  let interval := 1000000 in
  let h := w_clint (CLINT_MTIMECMP id) (u64 (default 0 (clint h !! CLINT_MTIME) + interval)) h in
  let h := w_scratch (Z.to_nat id) 3 (CLINT_MTIMECMP id) h in
  let h := w_scratch (Z.to_nat id) 4 interval h in
  let h := w_csr mscratch (sym_timer_scratch + 40 * id) h in
  let h := w_csr mtvec sym_timervec h in
  let h := w_csr mstatus (Z.lor (csrs h mstatus) MSTATUS_MIE) h in
  w_csr mie (Z.lor (csrs h mie) MIE_MTIE) h.

Definition start (h : mhart) : mhart :=
  let x := Z.land (csrs h mstatus) (Z.lnot MSTATUS_MPP_MASK) in
  let h := w_csr mstatus (Z.lor x MSTATUS_MPP_S) h in
  let h := w_csr mepc sym_main h in
  let h := w_csr satp 0 h in
  let h := w_csr medeleg 0xffff h in
  let h := w_csr mideleg 0xffff h in
  let h := w_csr sie (Z.lor (Z.lor (Z.lor (csrs h sie) SIE_SEIE) SIE_STIE) SIE_SSIE) h in
  let h := timerinit h in
  w_csr tp (u64 (s32 (csrs h mhartid))) h.

End Start.
