(* ===== verification/User.v ===== *)
(** * User programs: system calls, the C library and printf

    The code that runs in user space sees the kernel through its system calls.
    Here they are the class [Sys], on a state that stands for the rest of the
    system; the user code is written against it in a monad whose outcomes are
    those of a process: it returns, exits, is replaced by [exec], accesses memory
    out of bounds, or runs out of the fuel of a loop.  A process that forks is
    followed in the parent and in the child by the result of [fork].

    A string is the list of its characters up to the terminating NUL; an array
    is a list.  [Module Ulib] is user/ulib.c, [Module Uprintf] is user/printf.c. *)

From Stdlib Require Import Ascii.
From S2P Require Import Prelude Machine Memory.

(** ** Processes *)

Inductive ures (S A : Type) : Type :=
| URet (a : A) (s : S)
| Exited (status : Z) (s : S)
| Replaced (path : list Z) (argv : list (list Z)) (s : S)
| UFault (s : S)
| UNoFuel (s : S).

Arguments URet {S A} a s.
Arguments Exited {S A} status s.
Arguments Replaced {S A} path argv s.
Arguments UFault {S A} s.
Arguments UNoFuel {S A} s.

Definition UM (S A : Type) : Type := S -> ures S A.

#[global] Instance UM_ret S : MRet (UM S) := fun A a s => URet a s.
#[global] Instance UM_bind S : MBind (UM S) := fun A B f m s =>
  match m s with
  | URet a s' => f a s'
  | Exited n s' => Exited n s'
  | Replaced p v s' => Replaced p v s'
  | UFault s' => UFault s'
  | UNoFuel s' => UNoFuel s'
  end.

Lemma ubind_URet {S A B} (m : UM S A) (f : A -> UM S B) s a s' : m s = URet a s' -> (m ≫= f) s = f a s'.
Proof. unfold mbind, UM_bind. by intros ->. Qed.

(** Run the first step of a sequence. *)
Ltac ustep H := rewrite (ubind_URet _ _ _ _ _ H).

Definition ufault {S A} : UM S A := fun s => UFault s.
Definition uno_fuel {S A} : UM S A := fun s => UNoFuel s.
Definition exit {S A} (status : Z) : UM S A := fun s => Exited status s.

Definition uwhen {S} (b : bool) (m : UM S unit) : UM S unit := if b then m else mret tt.

Fixpoint ufor {S A} (l : list A) (body : A -> UM S unit) : UM S unit :=
  match l with
  | [] => mret tt
  | x :: l' => body x;; ufor l' body
  end.

(** The fields of [struct stat] (kernel/stat.h). *)
Record stat := Stat { st_dev : Z; st_ino : Z; st_type : Z; st_nlink : Z; st_size : Z }.

(** The system calls of user/user.h that the programs use.  A negative result
    is an error; [read] and [fstat] return the bytes they store, or [None] for
    an error; [exec] tells whether the program was replaced. *)
Class Sys (S : Type) := {
  os_read : Z -> nat -> S -> option (list Z) * S;
  os_write : Z -> list Z -> S -> Z * S;
  os_open : list Z -> Z -> S -> Z * S;
  os_close : Z -> S -> Z * S;
  os_fork : S -> Z * S;
  os_wait : S -> Z * S;
  os_pipe : S -> option (Z * Z) * S;
  os_dup : Z -> S -> Z * S;
  os_exec : list Z -> list (list Z) -> S -> bool * S;
  os_chdir : list Z -> S -> Z * S;
  os_kill : Z -> Z -> S -> Z * S;
  os_link : list Z -> list Z -> S -> Z * S;
  os_unlink : list Z -> S -> Z * S;
  os_mkdir : list Z -> S -> Z * S;
  os_mknod : list Z -> Z -> Z -> S -> Z * S;
  os_fstat : Z -> S -> option stat * S;
  os_sleep : Z -> S -> Z * S
}.

Section Calls.
Context {S : Type} `{Sys S}.

Definition call {A} (f : S -> A * S) : UM S A := fun s => URet (fst (f s)) (snd (f s)).

Definition read (fd : Z) (n : nat) : UM S (option (list Z)) := call (os_read fd n).
Definition write (fd : Z) (bytes : list Z) : UM S Z := call (os_write fd bytes).
Definition open (path : list Z) (mode : Z) : UM S Z := call (os_open path mode).
Definition close (fd : Z) : UM S Z := call (os_close fd).
Definition fork : UM S Z := call os_fork.
Definition wait : UM S Z := call os_wait.
Definition pipe : UM S (option (Z * Z)) := call os_pipe.
Definition dup (fd : Z) : UM S Z := call (os_dup fd).
Definition chdir (path : list Z) : UM S Z := call (os_chdir path).
Definition kill (pid sig : Z) : UM S Z := call (os_kill pid sig).
Definition link (old new : list Z) : UM S Z := call (os_link old new).
Definition unlink (path : list Z) : UM S Z := call (os_unlink path).
Definition mkdir (path : list Z) : UM S Z := call (os_mkdir path).
Definition mknod (path : list Z) (major minor : Z) : UM S Z := call (os_mknod path major minor).
Definition fstat (fd : Z) : UM S (option stat) := call (os_fstat fd).
Definition sleep (n : Z) : UM S Z := call (os_sleep n).

(** [exec] returns only when it fails. *)
Definition exec (path : list Z) (argv : list (list Z)) : UM S unit := fun s =>
  let '(ok, s') := os_exec path argv s in if ok : bool then Replaced path argv s' else URet tt s'.

End Calls.

(** The characters of a literal. *)
Fixpoint chars (s : string) : list Z :=
  match s with
  | EmptyString => []
  | String a s' => Z.of_nat (nat_of_ascii a) :: chars s'
  end.

Definition nl : Z := 10.

(** The string in an array: the characters before the first NUL. *)
Fixpoint cstring (l : list Z) : list Z :=
  match l with
  | [] => []
  | c :: l' => if c =? 0 then [] else c :: cstring l'
  end.

(** ** user/ulib.c *)

Module Ulib.

(** Copies up to and including the NUL, which is found within [fuel] bytes. *)
Fixpoint strcpy (fuel : nat) (m : mem) (s t : Z) : option mem :=
  match fuel with
  | O => None
  | S f =>
      let m' := st8 m s (ld8 m t) in
      if ld8 m t =? 0 then Some m' else strcpy f m' (s + 1) (t + 1)
  end.

(** Characters are unsigned, so the casts to [uchar] change nothing. *)
Fixpoint strcmp (p q : list Z) : Z :=
  match p with
  | [] => 0 - hd 0 q
  | c :: p' =>
      match q with
      | d :: q' => if c =? d then strcmp p' q' else c - d
      | [] => c - 0
      end
  end.

Fixpoint strlen (s : list Z) : nat :=
  match s with
  | [] => O
  | _ :: s' => S (strlen s')
  end.

Fixpoint memset (m : mem) (dst c : Z) (n : nat) : mem :=
  match n with
  | O => m
  | S n' => memset (st8 m dst c) (dst + 1) c n'
  end.

(** The position of the first [c]; the NUL is never found. *)
Fixpoint strchr (s : list Z) (c : Z) : option nat :=
  match s with
  | [] => None
  | d :: s' => if d =? c then Some O else S <$> strchr s' c
  end.

Definition atoi (s : list Z) : Z :=
  (fix loop (n : Z) (s : list Z) : Z :=
     match s with
     | [] => n
     | c :: s' => if (48 <=? c) && (c <=? 57) then loop (s32 (n * 10 + c - 48)) s' else n
     end) 0 s.

(** The loops are those of the kernel's [memmove]. *)
Definition memmove (m : mem) (vdst vsrc n : Z) : mem :=
  if vdst <? vsrc then memmove_up m vdst vsrc (Z.to_nat n)
  else memmove_down m (vdst + n) (vsrc + n) (Z.to_nat n).

Fixpoint memcmp (m : mem) (p1 p2 : Z) (n : nat) : Z :=
  match n with
  | O => 0
  | S n' => if negb (ld8 m p1 =? ld8 m p2) then ld8 m p1 - ld8 m p2 else memcmp m (p1 + 1) (p2 + 1) n'
  end.

Definition memcpy (m : mem) (dst src n : Z) : mem := memmove m dst src n.

Section Calls.
Context {St : Type} `{Sys St}.

(** The characters stored before the final NUL; [max] counts down. *)
Fixpoint gets (max : nat) : UM St (list Z) :=
  match max with
  | O | 1%nat => mret []
  | S max' =>
      r ← read 0 1;
      match r with
      | Some (c :: _) =>
          if (c =? nl) || (c =? 13) then mret [c]
          else rest ← gets max'; mret (c :: rest)
      | _ => mret []
      end
  end.

(** The result and what [fstat] stored. *)
Definition ustat (n : list Z) : UM St (option stat) :=
  fd ← open n 0;
  if fd <? 0 then mret None else
  r ← fstat fd;
  close fd;;
  mret r.

End Calls.

End Ulib.

(** ** user/printf.c *)

Module Uprintf.

(** An argument: an integer for %d, %l, %x, %p and %c, a string for %s, which
    may be the null pointer. *)
Inductive uarg := UInt (z : Z) | UStr (s : option (list Z)).

(** [digits[k]] *)
Definition digit (k : Z) : Z := if k <? 10 then 48 + k else 55 + k.

Fixpoint digits_rev (fuel : nat) (x base : Z) : list Z :=
  match fuel with
  | O => []
  | S f => digit (x mod base) :: (if x / base =? 0 then [] else digits_rev f (x / base) base)
  end.

(** The characters that [printint] writes. *)
Definition printint_chars (xx base : Z) (sgn : bool) : list Z :=
  let neg := sgn && (xx <? 0) in
  let x := if neg then u32 (- xx) else u32 xx in
  reverse (digits_rev 32 x base ++ (if neg then [45] else [])).

Fixpoint hex_digits (n : nat) (x : Z) : list Z :=
  match n with
  | O => []
  | S n' => digit (Z.shiftr x 60) :: hex_digits n' (u64 (Z.shiftl x 4))
  end.

Section Calls.
Context {St : Type} `{Sys St}.

Definition putc (fd c : Z) : UM St unit := write fd [u8 c];; mret tt.

Definition printint (fd xx base : Z) (sgn : bool) : UM St unit := ufor (printint_chars xx base sgn) (putc fd).

Definition printptr (fd x : Z) : UM St unit := putc fd 48;; putc fd 120;; ufor (hex_digits 16 x) (putc fd).

(** The conversion [c] after a percent sign: the arguments that are left. *)
Definition conversion (fd c : Z) (args : list uarg) : UM St (list uarg) :=
  if c =? 100 then
    match args with UInt z :: args' => printint fd (s32 z) 10 true;; mret args' | _ => ufault end
  else if c =? 108 then
    match args with UInt z :: args' => printint fd (s32 z) 10 false;; mret args' | _ => ufault end
  else if c =? 120 then
    match args with UInt z :: args' => printint fd (s32 z) 16 false;; mret args' | _ => ufault end
  else if c =? 112 then
    match args with UInt z :: args' => printptr fd (u64 z);; mret args' | _ => ufault end
  else if c =? 115 then
    match args with
    | UStr s :: args' => ufor (default (chars "(null)") s) (putc fd);; mret args'
    | _ => ufault
    end
  else if c =? 99 then
    match args with UInt z :: args' => putc fd (u32 z);; mret args' | _ => ufault end
  else if c =? 37 then putc fd c;; mret args
  else putc fd 37;; putc fd c;; mret args.

(** [percent] is the variable [state]: a percent sign was read. *)
Fixpoint vprintf_loop (fd : Z) (fmt : list Z) (percent : bool) (args : list uarg) : UM St unit :=
  match fmt with
  | [] => mret tt
  | c :: fmt' =>
      if percent then args' ← conversion fd c args; vprintf_loop fd fmt' false args'
      else if c =? 37 then vprintf_loop fd fmt' true args
      else putc fd c;; vprintf_loop fd fmt' false args
  end.

Definition vprintf (fd : Z) (fmt : list Z) (args : list uarg) : UM St unit := vprintf_loop fd fmt false args.

Definition fprintf (fd : Z) (fmt : list Z) (args : list uarg) : UM St unit := vprintf fd fmt args.

Definition printf (fmt : list Z) (args : list uarg) : UM St unit := vprintf 1 fmt args.

End Calls.

End Uprintf.

(** ** A small system

    The state is the input that is left and the output so far; a read returns at
    most three bytes, every call on processes or names fails. *)
Definition filter_sys : Sys (list Z * list Z) := {|
  os_read _ n s := (Some (take (n `min` 3) (fst s)), (drop (n `min` 3) (fst s), snd s));
  os_write _ bytes s := (Z.of_nat (length bytes), (fst s, snd s ++ bytes));
  os_open _ _ s := (-1, s); os_close _ s := (-1, s); os_fork s := (-1, s); os_wait s := (-1, s);
  os_pipe s := (None, s); os_dup _ s := (-1, s); os_exec _ _ s := (false, s); os_chdir _ s := (-1, s);
  os_kill _ _ s := (-1, s); os_link _ _ s := (-1, s); os_unlink _ s := (-1, s); os_mkdir _ s := (-1, s);
  os_mknod _ _ _ s := (-1, s); os_fstat _ s := (None, s); os_sleep _ s := (-1, s)
|}.
