(* ===== verification/Grep.v ===== *)
(** * grep (user/grep.c)

    The matcher for the operators ^ . * $ and the loop that reads a file in
    pieces and prints the lines that match.  A pattern and a text are the
    characters of their strings; [re + 1] is the tail. *)

From S2P Require Import Prelude Machine Memory User.
Import Ulib Uprintf.

(** ** The program *)

(** The loop of [matchstar], for the matcher [here] of the rest of the pattern. *)
Fixpoint matchstar (here : list Z -> bool) (c : Z) (text : list Z) : bool :=
  if here text then true else
  match text with
  | [] => false
  | t :: text' => if (t =? c) || (c =? 46) then matchstar here c text' else false
  end.

Fixpoint matchhere (re text : list Z) : bool :=
  match re with
  | [] => true
  | c :: re1 =>
      let one :=
        match text with
        | [] => false
        | t :: text' => if (c =? 46) || (c =? t) then matchhere re1 text' else false
        end in
      match re1 with
      | d :: re2 => if d =? 42 then matchstar (matchhere re2) c text else one
      | [] => if c =? 36 then match text with [] => true | _ => false end else one
      end
  end.

(** The loop of [match]. *)
Fixpoint match_loop (re text : list Z) : bool :=
  if matchhere re text then true else
  match text with
  | [] => false
  | _ :: text' => match_loop re text'
  end.

Definition match_re (re text : list Z) : bool :=
  match re with
  | c :: re1 => if c =? 94 then matchhere re1 text else match_loop re text
  | [] => match_loop re text
  end.

Definition sizeof_buf : nat := 1024.

Section Ops.
Context {St : Type} `{Sys St}.

(** The inner loop on the bytes [p] of the buffer; the result is what is left
    when there is no complete line any more. *)
Fixpoint grep_lines (fuel : nat) (pattern p : list Z) : UM St (list Z) :=
  match fuel with
  | O => uno_fuel
  | S f =>
      match strchr (cstring p) nl with
      | Some q =>
          uwhen (match_re pattern (take q p)) (write 1 (take (S q) p);; mret tt);;
          grep_lines f pattern (drop (S q) p)
      | None => mret p
      end
  end.

(** [kept] is the first [m] bytes of the buffer. *)
Fixpoint grep_loop (fuel : nat) (pattern : list Z) (fd : Z) (kept : list Z) : UM St unit :=
  match fuel with
  | O => uno_fuel
  | S f =>
      r ← read fd (sizeof_buf - length kept - 1);
      match r with
      | Some (b :: bs) =>
          let buf := kept ++ b :: bs in
          rest ← grep_lines (S (length buf)) pattern buf;
          grep_loop f pattern fd rest
      | _ => mret tt
      end
  end.

Definition grep (fuel : nat) (pattern : list Z) (fd : Z) : UM St unit := grep_loop fuel pattern fd [].

Definition grep_main (fuel : nat) (argv : list (list Z)) : UM St unit :=
  match argv with
  | _ :: pattern :: files =>
      match files with
      | [] => grep fuel pattern 0;; exit 0
      | _ =>
          ufor files (fun file =>
            fd ← open file 0;
            if fd <? 0 then printf (chars "grep: cannot open %s" ++ [nl]) [UStr (Some file)];; exit 1
            else grep fuel pattern fd;; close fd;; mret tt);;
          exit 0
      end
  | _ => fprintf 2 (chars "usage: grep pattern [file ...]" ++ [nl]) [];; exit 1
  end.

End Ops.

(** ** What a pattern means *)

(** A character of the pattern other than an operator. *)
Inductive symbol := Lit (c : Z) | Any.

Definition symbol_of (c : Z) : symbol := if c =? 46 then Any else Lit c.
Definition accepts (k : symbol) (t : Z) : Prop := match k with Lit c => t = c | Any => True end.

Inductive item := One (k : symbol) | Star (k : symbol) | AtEnd.

(** The pattern as a sequence of items: a star belongs to the character before
    it, a dollar sign means the end only as the last character. *)
Fixpoint items (re : list Z) : list item :=
  match re with
  | [] => []
  | c :: re1 =>
      match re1 with
      | d :: re2 => if d =? 42 then Star (symbol_of c) :: items re2 else One (symbol_of c) :: items re1
      | [] => if c =? 36 then [AtEnd] else [One (symbol_of c)]
      end
  end.

(** [item_is x piece rest]: the item takes [piece] from the text [piece ++ rest]. *)
Inductive item_is : item -> list Z -> list Z -> Prop :=
| is_one k t rest : accepts k t -> item_is (One k) [t] rest
| is_star k piece rest : Forall (accepts k) piece -> item_is (Star k) piece rest
| is_end : item_is AtEnd [] [].

(** A prefix of the text is the concatenation of pieces for the items. *)
Inductive denotes : list item -> list Z -> Prop :=
| denotes_nil text : denotes [] text
| denotes_cons x xs piece rest : item_is x piece rest -> denotes xs rest -> denotes (x :: xs) (piece ++ rest).

Lemma symbol_accepts c t : accepts (symbol_of c) t <-> (t =? c) || (c =? 46) = true.
Proof.
  unfold symbol_of. destruct (Z.eqb_spec c 46) as [->|Hne]; cbn; [by rewrite orb_true_r|].
  rewrite orb_false_r, Z.eqb_eq. done.
Qed.

Lemma matchstar_spec here P c text :
  (forall text, here text = true <-> P text) ->
  matchstar here c text = true <->
  exists piece rest, text = piece ++ rest /\ Forall (accepts (symbol_of c)) piece /\ P rest.
Proof.
  intros Hh. induction text as [|t text IH]; cbn [matchstar].
  - destruct (here []) eqn:E; split; try done.
    + intros _. exists [], []. split_and!; [done|constructor|by apply Hh].
    + intros (piece & rest & Ht & _ & HP). symmetry in Ht. apply app_eq_nil in Ht as [-> ->]. apply Hh in HP. congruence.
  - destruct (here (t :: text)) eqn:E.
    { split; [|done]. intros _. exists [], (t :: text). split_and!; [done|constructor|by apply Hh]. }
    destruct ((t =? c) || (c =? 46)) eqn:Et.
    + rewrite IH. split; intros (piece & rest & Ht & Hp & HP).
      * exists (t :: piece), rest. subst. split_and!; [done|constructor; [by apply symbol_accepts|done]|done].
      * destruct piece as [|t' piece]; cbn in Ht; [subst rest; apply Hh in HP; congruence|].
        injection Ht as <- ->. inversion Hp; subst. by exists piece, rest.
    + split; [done|]. intros (piece & rest & Ht & Hp & HP).
      destruct piece as [|t' piece]; cbn in Ht; [subst rest; apply Hh in HP; congruence|].
      injection Ht as <- ->. inversion Hp as [|? ? Ha]; subst. apply symbol_accepts in Ha. congruence.
Qed.

Lemma denotes_cons_iff x xs text :
  denotes (x :: xs) text <-> exists piece rest, text = piece ++ rest /\ item_is x piece rest /\ denotes xs rest.
Proof.
  split; [|by intros (piece & rest & -> & Hx & Hd); econstructor].
  intros Hd. inversion Hd; subst. by eexists _, _.
Qed.

Lemma denotes_one k xs text :
  denotes (One k :: xs) text <-> exists t text', text = t :: text' /\ accepts k t /\ denotes xs text'.
Proof.
  rewrite denotes_cons_iff. split.
  - intros (piece & rest & -> & Hx & Hd). inversion Hx; subst. by eexists _, _.
  - intros (t & text' & -> & Ha & Hd). exists [t], text'. split_and!; [done|by constructor|done].
Qed.

Lemma match_one (c : Z) (re1 text : list Z) :
  (forall text, matchhere re1 text = true <-> denotes (items re1) text) ->
  match text with
  | [] => false
  | t :: text' => if (c =? 46) || (c =? t) then matchhere re1 text' else false
  end = true <-> denotes (One (symbol_of c) :: items re1) text.
Proof.
  intros IH. rewrite denotes_one. destruct text as [|t text]; [split; [done|by intros (? & ? & ? & _)]|].
  rewrite orb_comm, (Z.eqb_sym c t). destruct ((t =? c) || (c =? 46)) eqn:E.
  - rewrite IH. split; [intros Hd; exists t, text; by rewrite symbol_accepts|].
    by intros (? & ? & [= -> ->] & _ & Hd).
  - split; [done|]. intros (? & ? & [= -> ->] & Ha & _). rewrite symbol_accepts in Ha. congruence.
Qed.

(** Patterns shrink by one or two characters at a time. *)
Lemma matchhere_spec re : forall text, matchhere re text = true <-> denotes (items re) text.
Proof.
  induction re as [re IH] using (induction_ltof1 _ (@length Z)). unfold ltof in IH. intros text.
  destruct re as [|c [|d re2]]; cbn [matchhere items].
  - split; [constructor|done].
  - destruct (c =? 36).
    + rewrite denotes_cons_iff. destruct text as [|t text].
      * split; [|done]. intros _. exists [], []. by repeat constructor.
      * split; [done|]. intros (piece & rest & Ht & Hx & _). by inversion Hx; subst.
    + apply (match_one c []), IH. cbn. lia.
  - destruct (d =? 42).
    + rewrite (matchstar_spec _ (denotes (items re2))), denotes_cons_iff by (apply IH; cbn; lia).
      split; intros (piece & rest & Ht & Hp & Hd); exists piece, rest; split_and!; try done; [by constructor|by inversion Hp].
    + apply (match_one c (d :: re2)), IH. cbn. lia.
Qed.

Lemma match_loop_spec re text :
  match_loop re text = true <-> exists before after, text = before ++ after /\ matchhere re after = true.
Proof.
  induction text as [|t text IH]; cbn [match_loop].
  - destruct (matchhere re []) eqn:E; split; try done; [by exists [], []|].
    intros (b & a & Ht & Hm). symmetry in Ht. apply app_eq_nil in Ht as [-> ->]. congruence.
  - destruct (matchhere re (t :: text)) eqn:E; [split; [by exists [], (t :: text)|done]|].
    rewrite IH. split; intros (b & a & Ht & Hm).
    + exists (t :: b), a. by subst.
    + destruct b as [|t' b]; cbn in Ht; [subst; congruence|]. injection Ht as <- ->. by exists b, a.
Qed.

(** C21: [match] decides the language of the pattern.  A pattern denotes a
    sequence of items: single characters, the dot for any character, a star for
    any number of repetitions of the character before it, and a final dollar for
    the end of the text.  [match] finds out whether some part of the text, or
    after ^ a prefix of it, is a concatenation of pieces that the items accept. *)
Theorem match_language (re text : list Z) :
  match_re re text = true <->
  (exists re1, re = 94 :: re1 /\ denotes (items re1) text) \/
  (head re <> Some 94 /\ exists before after, text = before ++ after /\ denotes (items re) after).
Proof.
  assert (Hl : match_loop re text = true <-> exists before after, text = before ++ after /\ denotes (items re) after).
  { rewrite match_loop_spec. by setoid_rewrite matchhere_spec. }
  destruct re as [|c re]; cbn [match_re head].
  - rewrite Hl. split; [by right|]. by intros [(? & ? & _)|[_ ?]].
  - destruct (Z.eqb_spec c 94) as [->|Hne]; [rewrite matchhere_spec|rewrite Hl]; split.
    + left. by exists re.
    + by intros [(re1 & [= <-] & ?)|[? _]].
    + right. split; [congruence|done].
    + intros [(re1 & [= -> _] & _)|[_ ?]]; done.
Qed.

(** ** What the program prints *)

(** The complete lines of a text, without their newlines, and the rest. *)
Fixpoint lines (s : list Z) : list (list Z) * list Z :=
  match s with
  | [] => ([], [])
  | c :: s' =>
      let '(ls, r) := lines s' in
      if c =? nl then ([] :: ls, r)
      else match ls with
           | l :: ls' => ((c :: l) :: ls', r)
           | [] => ([], c :: r)
           end
  end.

Lemma lines_line l s : nl ∉ l -> lines (l ++ nl :: s) = (l :: fst (lines s), snd (lines s)).
Proof.
  induction l as [|c l IH]; intros Hn; cbn [app lines].
  - destruct (lines s). by rewrite Z.eqb_refl.
  - rewrite not_elem_of_cons in Hn. destruct Hn as [Hc Hn]. rewrite IH by done.
    by rewrite (proj2 (Z.eqb_neq _ _)) by done.
Qed.

Lemma lines_none l : nl ∉ l -> lines l = ([], l).
Proof.
  induction l as [|c l IH]; intros Hn; cbn; [done|]. rewrite not_elem_of_cons in Hn. destruct Hn as [Hc Hn].
  rewrite IH by done. by rewrite (proj2 (Z.eqb_neq _ _)) by done.
Qed.

Lemma strchr_split s c :
  (strchr s c = None /\ c ∉ s) \/
  (exists l r, s = l ++ c :: r /\ c ∉ l /\ strchr s c = Some (length l)).
Proof.
  induction s as [|d s IH]; [left; split; [done|apply not_elem_of_nil]|]. cbn.
  destruct (Z.eqb_spec d c) as [->|Hne]; [right; exists [], s; split_and!; [done|apply not_elem_of_nil|done]|].
  destruct IH as [[-> Hn]|(l & r & -> & Hn & ->)].
  - left. split; [done|]. rewrite not_elem_of_cons. auto.
  - right. exists (d :: l), r. split_and!; [done| |done]. rewrite not_elem_of_cons. auto.
Qed.

Lemma cstring_no_nul l : Forall (fun c => c <> 0) l -> cstring l = l.
Proof. induction 1 as [|c l Hc _ IH]; cbn; [done|]. by rewrite (proj2 (Z.eqb_neq _ _)), IH by done. Qed.

(** A file open for reading as [fd], and the standard output: a read returns
    some of the bytes that are left, none only at the end of the file or when
    none is asked for; a write to 1 appends to the output. *)
Class Files {St : Type} `{Sys St} (fd : Z) := {
  remaining : St -> list Z;
  output : St -> list Z;
  read_law n s : exists bs, fst (os_read fd n s) = Some bs /\ (length bs <= n)%nat /\
    remaining s = bs ++ remaining (snd (os_read fd n s)) /\ output (snd (os_read fd n s)) = output s /\
    (bs = [] -> n = O \/ remaining s = []);
  write_law bytes s : remaining (snd (os_write 1 bytes s)) = remaining s /\
    output (snd (os_write 1 bytes s)) = output s ++ bytes
}.

(** The lines of [ls] that match, each with its newline. *)
Definition matching (pattern : list Z) (ls : list (list Z)) : list Z :=
  mjoin ((fun l => l ++ [nl]) <$> filter (fun l => match_re pattern l = true) ls).

Lemma matching_cons pattern l ls :
  matching pattern (l :: ls) = (if match_re pattern l then l ++ [nl] else []) ++ matching pattern ls.
Proof.
  unfold matching. destruct (match_re pattern l) eqn:E; [rewrite filter_cons_True by done|rewrite filter_cons_False by congruence];
    cbn; by rewrite <- ?app_assoc.
Qed.

Lemma lines_app p q :
  lines (p ++ q) = (fst (lines p) ++ fst (lines (snd (lines p) ++ q)), snd (lines (snd (lines p) ++ q))).
Proof.
  induction p as [p IH] using (induction_ltof1 _ (@length Z)). unfold ltof in IH.
  destruct (strchr_split p nl) as [[_ Hn]|(l & r & -> & Hn & _)].
  - rewrite (lines_none p) by done. cbn. by destruct (lines (p ++ q)).
  - rewrite <- app_assoc. cbn [app]. rewrite !lines_line by done. cbn [fst snd]. rewrite IH; [done|].
    rewrite length_app. cbn. lia.
Qed.

Lemma lines_rest p : nl ∉ snd (lines p).
Proof.
  induction p as [p IH] using (induction_ltof1 _ (@length Z)). unfold ltof in IH.
  destruct (strchr_split p nl) as [[_ Hn]|(l & r & -> & Hn & _)]; [by rewrite lines_none|].
  rewrite lines_line by done. apply IH. rewrite length_app. cbn. lia.
Qed.

Lemma lines_rest_sub P p : Forall P p -> Forall P (snd (lines p)).
Proof.
  induction p as [p IH] using (induction_ltof1 _ (@length Z)). unfold ltof in IH. intros Hp.
  destruct (strchr_split p nl) as [[_ Hn]|(l & r & -> & Hn & _)]; [by rewrite lines_none|].
  rewrite lines_line by done. apply IH; [rewrite length_app; cbn; lia|].
  apply Forall_app in Hp as [_ Hp]. by apply Forall_cons_1 in Hp as [_ Hp].
Qed.

(** What is left of a text that has a first line is a beginning of that line. *)
Lemma lines_first kept q l ls :
  nl ∉ kept -> fst (lines (kept ++ q)) = l :: ls -> (length kept <= length l)%nat.
Proof.
  intros Hn. destruct (strchr_split q nl) as [[_ Hq]|(l' & r & -> & Hl & _)].
  - rewrite lines_none; [done|]. by rewrite elem_of_app; intros [?|?].
  - rewrite app_assoc, lines_line by (rewrite elem_of_app; intros [?|?]; done).
    intros [= <- _]. rewrite length_app. lia.
Qed.

Lemma matching_app pattern ls1 ls2 : matching pattern (ls1 ++ ls2) = matching pattern ls1 ++ matching pattern ls2.
Proof. unfold matching. by rewrite filter_app, fmap_app, join_app. Qed.

Section Grep.
Context {St : Type} `{Files St fd}.

Lemma grep_lines_run pattern p : forall fuel s,
  Forall (fun c => c <> 0) p -> (length p < fuel)%nat ->
  exists s', grep_lines fuel pattern p s = URet (snd (lines p)) s' /\
    remaining s' = remaining s /\ output s' = output s ++ matching pattern (fst (lines p)).
Proof.
  induction p as [p IH] using (induction_ltof1 _ (@length Z)). unfold ltof in IH. intros [|fuel] s Hp Hf; [lia|].
  cbn [grep_lines]. rewrite cstring_no_nul by done.
  destruct (strchr_split p nl) as [[-> Hn]|(l & r & -> & Hn & ->)].
  { rewrite lines_none by done. exists s. cbn. by rewrite app_nil_r. }
  rewrite lines_line by done. rewrite length_app in Hf. cbn [length fst snd] in *.
  apply Forall_app in Hp as [_ Hp]. apply Forall_cons_1 in Hp as [_ Hp].
  rewrite take_app_length, matching_cons, (app_assoc _ [nl] r : l ++ nl :: r = _).
  replace (S (length l)) with (length (l ++ [nl])) by (rewrite length_app; cbn; lia).
  rewrite take_app_length, drop_app_length.
  destruct (match_re pattern l); cbn [uwhen].
  - destruct (write_law (l ++ [nl]) s) as [Hr Ho].
    destruct (IH r ltac:(rewrite !length_app; cbn; lia) fuel (snd (os_write 1 (l ++ [nl]) s)) Hp ltac:(lia)) as (s' & Hrun & Hr' & Ho').
    exists s'. split_and!; [exact Hrun|congruence|]. by rewrite Ho', Ho, <- app_assoc.
  - destruct (IH r ltac:(rewrite !length_app; cbn; lia) fuel s Hp ltac:(lia)) as (s' & Hrun & Hr' & Ho').
    exists s'. split_and!; [exact Hrun|done|done].
Qed.

Lemma grep_loop_run pattern : forall fuel kept s,
  nl ∉ kept -> Forall (fun c => c <> 0) (kept ++ remaining s) ->
  Forall (fun l => (length l <= sizeof_buf - 2)%nat) (fst (lines (kept ++ remaining s))) ->
  (length (remaining s) < fuel)%nat ->
  exists s', grep_loop fuel pattern fd kept s = URet tt s' /\
    output s' = output s ++ matching pattern (fst (lines (kept ++ remaining s))).
Proof.
  induction fuel as [|fuel IH]; intros kept s Hk Hz Hl Hf; [lia|]. cbn [grep_loop].
  set (n := (sizeof_buf - length kept - 1)%nat).
  destruct (read_law n s) as (bs & Hr & _ & Hrem & Ho & He). set (s1 := snd (os_read fd n s)) in *.
  assert (Erd : read fd n s = URet (Some bs) s1) by (unfold read, call; by rewrite Hr).
  ustep Erd. destruct bs as [|b bs].
  - exists s1. split; [done|]. rewrite Ho. destruct (fst (lines (kept ++ remaining s))) as [|l ls] eqn:El.
    { cbn. by rewrite app_nil_r. }
    exfalso. destruct (He eq_refl) as [Hn|Hend].
    + apply lines_first in El; [|done]. apply Forall_cons_1 in Hl as [Hl _]. unfold n, sizeof_buf in *. lia.
    + rewrite Hend, app_nil_r, lines_none in El by done. done.
  - rewrite Hrem, app_assoc in Hz, Hl |- *. rewrite Hrem, length_app in Hf. cbn [length] in Hf.
    apply Forall_app in Hz as [Hz1 Hz2]. set (buf := kept ++ b :: bs) in *.
    destruct (grep_lines_run pattern buf (S (length buf)) s1 Hz1 ltac:(lia)) as (s2 & Hrun & Hr2 & Ho2).
    cbn zeta. fold buf. ustep Hrun. rewrite lines_app in Hl |- *. cbn [fst] in *. apply Forall_app in Hl as [_ Hl].
    destruct (IH (snd (lines buf)) s2) as (s3 & H3 & Ho3); rewrite ?Hr2; try done; [apply lines_rest| |lia|].
    { apply Forall_app. split; [|done]. by apply lines_rest_sub. }
    exists s3. split; [done|]. by rewrite Ho3, Ho2, Ho, Hr2, matching_app, app_assoc.
Qed.

(** C22: grep prints the complete lines that match.  On a text without NUL whose
    complete lines, those that end in a newline, have at most 1022 characters,
    [grep] ends and has written exactly the complete lines that match, in order
    and with their newlines, however the text is cut into the results of [read].
    A last line without newline is not looked at. *)
Theorem grep_prints_matches (pattern : list Z) (s : St) :
  Forall (fun c => c <> 0) (remaining s) ->
  Forall (fun l => (length l <= 1022)%nat) (fst (lines (remaining s))) ->
  exists s', grep (S (length (remaining s))) pattern fd s = URet tt s' /\
    output s' = output s ++ matching pattern (fst (lines (remaining s))).
Proof. intros Hz Hl. apply (grep_loop_run pattern _ [] s); [apply not_elem_of_nil|done|done|lia]. Qed.

End Grep.

(** ** A file read three bytes at a time *)

Lemma filter_read n (s : list Z * list Z) :
  exists bs, fst (@os_read _ filter_sys 0 n s) = Some bs /\ (length bs <= n)%nat /\
    fst s = bs ++ fst (snd (@os_read _ filter_sys 0 n s)) /\ snd (snd (@os_read _ filter_sys 0 n s)) = snd s /\
    (bs = [] -> n = O \/ fst s = []).
Proof.
  exists (take (n `min` 3) (fst s)). split_and!; [done|rewrite length_take; lia|symmetry; apply take_drop|done|].
  destruct n as [|n], (fst s); auto. done.
Qed.

Definition filter_files : @Files _ filter_sys 0 := {|
  remaining := fst; output := snd; read_law := filter_read; write_law bytes s := conj eq_refl eq_refl
|}.

(** The text "hello", "world" and "help" on three lines, for the pattern "^h.*l". *)
Lemma grep_prints_matches_witness :
  exists s', @grep _ filter_sys 18 (chars "^h.*l") 0
      (chars "hello" ++ [nl] ++ chars "world" ++ [nl] ++ chars "help" ++ [nl], []) = URet tt s' /\
    snd s' = chars "hello" ++ [nl] ++ chars "help" ++ [nl].
Proof.
  destruct (@grep_prints_matches _ filter_sys 0 filter_files (chars "^h.*l")
    (chars "hello" ++ [nl] ++ chars "world" ++ [nl] ++ chars "help" ++ [nl], [])) as (s' & H1 & H2);
    [apply (bool_decide_unpack _); reflexivity|apply (bool_decide_unpack _); reflexivity|].
  exists s'. split; [exact H1|exact H2].
Defined.
