(* ===== verification/Sh.v ===== *)
(** * The shell (user/sh.c)

    The parser works on a buffer: a token is a pair of positions in it, and
    [nulterminate] cuts the words out by writing NULs into the buffer after
    everything has been parsed.  A command is the tree of its structures; the
    redirections that [parseexec] puts around a command while it is still
    collecting arguments are collected in a list.  Memory allocation succeeds. *)

From S2P Require Import Prelude Machine Memory User.
Import Ulib Uprintf.

Definition MAXARGS : nat := 10.

(** A command: words are the positions of their first character and of the
    character after the last one. *)
Inductive cmd :=
| EXEC (argv : list (nat * nat))
| REDIR (c : cmd) (file efile : nat) (mode fd : Z)
| PIPE (l r : cmd)
| LIST (l r : cmd)
| BACK (c : cmd).

(** A redirection before it is put around its command. *)
Record redir := Redir { r_file : nat; r_efile : nat; r_mode : Z; r_fd : Z }.

Definition redircmd (c : cmd) (r : redir) : cmd := REDIR c (r_file r) (r_efile r) (r_mode r) (r_fd r).

(** ** Parsing *)

Definition whitespace : list Z := [32; 9; 13; 10; 11].
Definition symbols : list Z := chars "<|>&;()".

Definition found (o : option nat) : bool := match o with Some _ => true | None => false end.
Definition is_space (c : Z) : bool := found (strchr whitespace c).
Definition is_symbol (c : Z) : bool := found (strchr symbols c).
Definition is_word (c : Z) : bool := negb (is_space c) && negb (is_symbol c).

(** The number of characters at the beginning that satisfy [f]. *)
Fixpoint span (f : Z -> bool) (l : list Z) : nat :=
  match l with
  | [] => O
  | c :: l' => if f c then S (span f l') else O
  end.

(** The outcome of a parsing function: a result and the new position, or the
    message of a syntax error. *)
Inductive pres (A : Type) :=
| POk (a : A) (pos : nat)
| PError (msg : string)
| PNoFuel.

Arguments POk {A} a pos.
Arguments PError {A} msg.
Arguments PNoFuel {A}.

Definition PM (A : Type) : Type := nat -> pres A.

#[global] Instance PM_ret : MRet PM := fun A a p => POk a p.
#[global] Instance PM_bind : MBind PM := fun A B f m p =>
  match m p with
  | POk a p' => f a p'
  | PError msg => PError msg
  | PNoFuel => PNoFuel
  end.

Definition perror {A} (msg : string) : PM A := fun _ => PError msg.
Definition pno_fuel {A} : PM A := fun _ => PNoFuel.

Section Parser.
(** The string that is parsed; [es] is its end. *)
Variable text : list Z.

(** [*s], which is NUL at the end. *)
Definition char_at (s : nat) : Z := nth s text 0.

(** [while(s < es && strchr(whitespace, *s)) s++] *)
Definition skip (s : nat) : nat := (s + span is_space (drop s text))%nat.

(** The token, [*q] and [*eq]. *)
Definition gettoken : PM (Z * nat * nat) := fun ps =>
  let q := skip ps in
  let c := char_at q in
  let '(ret, s) :=
    if c =? 0 then (c, q)
    else if (c =? 124) || (c =? 40) || (c =? 41) || (c =? 59) || (c =? 38) || (c =? 60) then (c, S q)
    else if c =? 62 then (if char_at (S q) =? 62 then (43, S (S q)) else (c, S q))
    else (97, (q + span is_word (drop q text))%nat) in
  POk (ret, q, s) (skip s).

Definition peek (toks : list Z) : PM bool := fun ps =>
  let s := skip ps in
  POk (negb (char_at s =? 0) && found (strchr toks (char_at s))) s.

(** The loop of [parseredirs]: the redirections, the innermost first. *)
Fixpoint parseredirs_loop (fuel : nat) : PM (list redir) :=
  match fuel with
  | O => pno_fuel
  | S f =>
      b ← peek (chars "<>");
      if negb b then mret [] else
      t1 ← gettoken;
      let tok := fst (fst t1) in
      t2 ← gettoken;
      let '(a, q, eq) := t2 in
      if negb (a =? 97) then perror "missing file for redirection" else
      rs ← parseredirs_loop f;
      mret (if tok =? 60 then Redir q eq O_RDONLY 0 :: rs
            else if tok =? 62 then Redir q eq (Z.lor (Z.lor O_WRONLY O_CREATE) O_TRUNC) 1 :: rs
            else if tok =? 43 then Redir q eq (Z.lor O_WRONLY O_CREATE) 1 :: rs
            else rs)
  end.

(** A loop is given one turn for each character and one more. *)
Definition turns : nat := S (length text).

Definition parseredirs : PM (list redir) := parseredirs_loop turns.

(** The loop of [parseexec]: the arguments and the redirections between them. *)
Fixpoint parseargs (fuel argc : nat) : PM (list (nat * nat) * list redir) :=
  match fuel with
  | O => pno_fuel
  | S f =>
      b ← peek (chars "|)&;");
      if b : bool then mret ([], []) else
      t ← gettoken;
      let '(tok, q, eq) := t in
      if tok =? 0 then mret ([], []) else
      if negb (tok =? 97) then perror "syntax" else
      if (MAXARGS <=? S argc)%nat then perror "too many args" else
      rs ← parseredirs;
      r ← parseargs f (S argc);
      mret ((q, eq) :: fst r, rs ++ snd r)
  end.

(** [while(peek(ps, es, "&"))] *)
Fixpoint parsebacks (fuel : nat) (c : cmd) : PM cmd :=
  match fuel with
  | O => pno_fuel
  | S f =>
      b ← peek (chars "&");
      if negb b then mret c else
      gettoken;;
      parsebacks f (BACK c)
  end.

Fixpoint parseline (fuel : nat) : PM cmd :=
  match fuel with
  | O => pno_fuel
  | S f =>
      c ← parsepipe f;
      c ← parsebacks turns c;
      b ← peek (chars ";");
      if b : bool then
        gettoken;;
        r ← parseline f;
        mret (LIST c r)
      else mret c
  end
with parsepipe (fuel : nat) : PM cmd :=
  match fuel with
  | O => pno_fuel
  | S f =>
      c ← parseexec f;
      b ← peek (chars "|");
      if b : bool then
        gettoken;;
        r ← parsepipe f;
        mret (PIPE c r)
      else mret c
  end
with parseexec (fuel : nat) : PM cmd :=
  match fuel with
  | O => pno_fuel
  | S f =>
      b ← peek (chars "(");
      if b : bool then parseblock f else
      rs ← parseredirs;
      r ← parseargs turns O;
      mret (foldl redircmd (EXEC (fst r)) (rs ++ snd r))
  end
with parseblock (fuel : nat) : PM cmd :=
  match fuel with
  | O => pno_fuel
  | S f =>
      b ← peek (chars "(");
      if negb b then perror "parseblock" else
      gettoken;;
      c ← parseline f;
      b ← peek (chars ")");
      if negb b then perror "syntax - missing )" else
      gettoken;;
      rs ← parseredirs;
      mret (foldl redircmd c rs)
  end.

(** Four nested calls consume at least one character. *)
Definition depth : nat := 4 * length text + 4.

(** The command and the position after it, before the check for leftovers. *)
Definition parsecmd_line : pres cmd := (c ← parseline depth; peek [];; mret c) O.

End Parser.

(** [nulterminate] on the buffer. *)
Fixpoint nulterminate (c : cmd) (buf : list Z) : list Z :=
  match c with
  | EXEC argv => foldl (fun b w => <[snd w := 0]> b) buf argv
  | REDIR c _ efile _ _ => <[efile := 0]> (nulterminate c buf)
  | PIPE l r | LIST l r => nulterminate r (nulterminate l buf)
  | BACK c => nulterminate c buf
  end.

(** The string at a position of the buffer. *)
Definition string_at (buf : list Z) (q : nat) : list Z := cstring (drop q buf).

(** ** Running commands *)

Section Ops.
Context {St : Type} `{Sys St}.

Definition panic {A} (s : list Z) : UM St A := fprintf 2 (chars "%s" ++ [nl]) [UStr (Some s)];; exit 1.

Definition fork1 : UM St Z :=
  pid ← fork;
  if pid =? -1 then panic (chars "fork") else mret pid.

(** [parsecmd] on the string at the beginning of the buffer: the command and
    the buffer with its words terminated. *)
Definition parsecmd (buf : list Z) : UM St (cmd * list Z) :=
  let text := cstring buf in
  match parsecmd_line text with
  | POk c pos =>
      if (pos =? length text)%nat then mret (c, nulterminate c buf)
      else fprintf 2 (chars "leftovers: %s" ++ [nl]) [UStr (Some (drop pos text))];; panic (chars "syntax")
  | PError msg => panic (chars msg)
  | PNoFuel => uno_fuel
  end.

(** Never returns. *)
Fixpoint runcmd {A} (buf : list Z) (c : cmd) : UM St A :=
  match c with
  | EXEC [] => exit 1
  | EXEC ((q, eq) :: argv) =>
      let path := string_at buf q in
      exec path (string_at buf ∘ fst <$> (q, eq) :: argv);;
      fprintf 2 (chars "exec %s failed" ++ [nl]) [UStr (Some path)];;
      exit 0
  | REDIR c file _ mode fd =>
      close fd;;
      r ← open (string_at buf file) mode;
      if r <? 0 then fprintf 2 (chars "open %s failed" ++ [nl]) [UStr (Some (string_at buf file))];; exit 1
      else runcmd buf c
  | LIST l r =>
      pid ← fork1;
      if pid =? 0 then runcmd buf l else wait;; runcmd buf r
  | PIPE l r =>
      p ← pipe;
      match p with
      | None => panic (chars "pipe")
      | Some (p0, p1) =>
          pid ← fork1;
          if pid =? 0 then close 1;; dup p1;; close p0;; close p1;; runcmd buf l else
          pid ← fork1;
          if pid =? 0 then close 0;; dup p0;; close p0;; close p1;; runcmd buf r else
          close p0;; close p1;; wait;; wait;; exit 0
      end
  | BACK c =>
      pid ← fork1;
      if pid =? 0 then runcmd buf c else exit 0
  end.

(** The buffer after [getcmd], and whether there was a line; the bytes after
    the line were cleared. *)
Definition getcmd (nbuf : nat) : UM St (bool * list Z) :=
  fprintf 2 (chars "$ ") [];;
  cs ← gets nbuf;
  let buf := cs ++ replicate (nbuf - length cs) 0 in
  mret (negb (nth 0 buf 0 =? 0), buf).

(** One turn of the main loop; [false] at the end of the input. *)
Definition main_turn : UM St bool :=
  r ← getcmd 100;
  let '(ok, buf) := r in
  if negb ok then mret false else
  if (nth 0 buf 0 =? 99) && (nth 1 buf 0 =? 100) && (nth 2 buf 0 =? 32) then
    let buf := <[(strlen (cstring buf) - 1)%nat := 0]> buf in
    r ← chdir (string_at buf 3);
    uwhen (r <? 0) (fprintf 2 (chars "cannot cd %s" ++ [nl]) [UStr (Some (string_at buf 3))]);;
    mret true
  else
    pid ← fork1;
    if pid =? 0 then p ← parsecmd buf; runcmd (snd p) (fst p)
    else wait;; mret true.

Fixpoint open_console (fuel : nat) : UM St unit :=
  match fuel with
  | O => uno_fuel
  | S f =>
      fd ← open (chars "console") O_RDWR;
      if fd <? 0 then mret tt
      else if 3 <=? fd then close fd;; mret tt
      else open_console f
  end.

Fixpoint main_loop (fuel : nat) : UM St unit :=
  match fuel with
  | O => uno_fuel
  | S f => b ← main_turn; if b : bool then main_loop f else exit 0
  end.

Definition sh_main (fuel : nat) : UM St unit := open_console fuel;; main_loop fuel.

End Ops.
