(* ===== verification/ShSpec.v ===== *)
(** * What the shell's parser accepts

    A reference lexer and the grammar of the shell's language as a syntax tree.
    A text whose tokens are those of a tree is parsed to the commands of the
    tree, and after [nulterminate] every word is found at its position; a text
    that is parsed has a tree. *)

From S2P Require Import Prelude Machine Memory User Sh.
Import Ulib.

(** ** Tokens *)

(** A word from a position to another, or a symbol by the code that [gettoken]
    returns for it: [+] stands for [>>]. *)
Inductive token := TWord (q e : nat) | TSym (c : Z).

Definition flush (off : nat) (w : option nat) : list token :=
  match w with Some q => [TWord q off] | None => [] end.

(** The tokens of [l], which is at position [off]; [w] is the beginning of the
    word that is being read. *)
Fixpoint lex (off : nat) (l : list Z) (w : option nat) : list token :=
  match l with
  | [] => flush off w
  | c :: l' =>
      if is_space c then flush off w ++ lex (S off) l' None
      else if c =? 62 then
        flush off w ++
        match l' with
        | d :: l'' => if d =? 62 then TSym 43 :: lex (S (S off)) l'' None else TSym 62 :: lex (S off) l' None
        | [] => TSym 62 :: lex (S off) l' None
        end
      else if is_symbol c then flush off w ++ TSym c :: lex (S off) l' None
      else lex (S off) l' (Some (default off w))
  end.

Definition code (t : token) : Z := match t with TWord _ _ => 97 | TSym c => c end.

(** Whether the next character is one of [toks]. *)
Definition starts (toks : list Z) (ts : list token) : bool :=
  match ts with
  | TSym c :: _ => found (strchr toks (if c =? 43 then 62 else c))
  | _ => false
  end.

Lemma found_elem l c : found (strchr l c) = bool_decide (c ∈ l).
Proof.
  induction l as [|d l IH]; cbn; [done|]. destruct (Z.eqb_spec d c) as [->|Hne].
  - by rewrite bool_decide_true by left.
  - transitivity (found (strchr l c)); [by destruct (strchr l c)|]. rewrite IH. apply bool_decide_ext.
    rewrite elem_of_cons. naive_solver.
Qed.

Lemma span_le f l : (span f l <= length l)%nat.
Proof. induction l as [|c l IH]; cbn; [lia|]. case_match; lia. Qed.

Lemma span_stop f l : f (nth (span f l) l 0) = false \/ span f l = length l.
Proof. induction l as [|c l IH]; cbn; [by right|]. destruct (f c) eqn:E; [|by left]. destruct IH; [by left|right; lia]. Qed.

Lemma lex_space off l : lex off l None = lex (off + span is_space l) (drop (span is_space l) l) None.
Proof.
  revert off. induction l as [|c l IH]; intros off; cbn [span]; [by rewrite Nat.add_0_r|].
  destruct (is_space c) eqn:E; [|by rewrite Nat.add_0_r]. cbn [lex drop]. rewrite E. cbn. rewrite IH.
  by rewrite Nat.add_succ_r.
Qed.

(** A word ends at the first character that cannot be part of it. *)
Lemma lex_word off l q :
  lex off l (Some q) = TWord q (off + span is_word l) :: lex (off + span is_word l) (drop (span is_word l) l) None.
Proof.
  revert off. induction l as [|c l IH]; intros off; cbn [span]; [cbn; by rewrite Nat.add_0_r|].
  destruct (is_word c) eqn:Ew.
  - unfold is_word in Ew. apply andb_true_iff in Ew as [Es Ey]. apply negb_true_iff in Es, Ey.
    assert (Hc : c <> 62) by (intros ->; done).
    cbn [lex]. rewrite Es, (proj2 (Z.eqb_neq _ _) Hc), Ey. cbn [default drop]. rewrite IH. by rewrite Nat.add_succ_r.
  - rewrite Nat.add_0_r. cbn [lex drop]. destruct (is_space c) eqn:Es; [done|]. destruct (c =? 62); [done|].
    unfold is_word in Ew. rewrite Es in Ew. apply negb_false_iff in Ew. by rewrite Ew.
Qed.

Lemma lex_length off l w : (length (lex off l w) <= length l + length (flush off w))%nat.
Proof.
  revert off w. induction l as [l IH] using (induction_ltof1 _ (@length Z)). unfold ltof in IH. intros off w.
  destruct l as [|c l]; cbn [lex length]; [lia|].
  destruct (is_space c); [rewrite length_app; specialize (IH l ltac:(cbn; lia) (S off) None); cbn [flush length] in IH; lia|].
  destruct (c =? 62).
  - rewrite length_app. destruct l as [|d l]; [cbn; lia|]. destruct (d =? 62); cbn [length].
    + specialize (IH l ltac:(cbn; lia) (S (S off)) None). cbn [flush length] in IH. lia.
    + specialize (IH (d :: l) ltac:(cbn; lia) (S off) None). cbn [flush length] in *. lia.
  - destruct (is_symbol c).
    + rewrite length_app. cbn [length]. specialize (IH l ltac:(cbn; lia) (S off) None). cbn [flush length] in IH. lia.
    + specialize (IH l ltac:(cbn; lia) (S off) (Some (default off w))). cbn [flush length] in IH. destruct w; cbn [flush length default] in *; lia.
Qed.

Lemma is_symbol_eq c :
  is_symbol c = ((c =? 124) || (c =? 40) || (c =? 41) || (c =? 59) || (c =? 38) || (c =? 60)) || (c =? 62).
Proof.
  unfold is_symbol. rewrite found_elem. apply eq_bool_prop_intro. rewrite bool_decide_spec. unfold symbols. cbn.
  rewrite Is_true_true.  rewrite !orb_true_iff, !Z.eqb_eq, !elem_of_cons, elem_of_nil. intuition congruence.
Qed.

(** ** Reading tokens *)

Section Reading.
Variable text : list Z.
Hypothesis no_nul : Forall (fun c => c <> 0) text.

(** The tokens [ts] are left at position [p]. *)
Definition left_at (p : nat) (ts : list token) : Prop :=
  (p <= length text)%nat /\ lex p (drop p text) None = ts.

Lemma left_at_skip p ts : left_at p ts -> left_at (skip text p) ts.
Proof.
  intros [Hp Hl]. split.
  - unfold skip. pose proof (span_le is_space (drop p text)). rewrite length_drop in *. lia.
  - rewrite <- Hl, (lex_space p), drop_drop. done.
Qed.

Lemma left_at_length p ts : left_at p ts -> (length ts <= length text - p)%nat.
Proof. intros [Hp <-]. pose proof (lex_length p (drop p text) None). rewrite length_drop in *. cbn [flush length] in *. lia. Qed.

Lemma char_at_drop p : char_at text p = nth 0 (drop p text) 0.
Proof. unfold char_at. rewrite nth_lookup, (nth_lookup (drop p text)), lookup_drop. by rewrite Nat.add_0_r. Qed.

(** The character after blanks: the end, or not a blank. *)
Lemma skip_char p : (p <= length text)%nat ->
  (skip text p = length text /\ char_at text (skip text p) = 0) \/
  (exists c l, drop (skip text p) text = c :: l /\ char_at text (skip text p) = c /\ c <> 0 /\ is_space c = false).
Proof.
  intros Hp. rewrite char_at_drop. unfold skip. rewrite <- drop_drop. set (l := drop p text).
  destruct (drop (span is_space l) l) as [|c l'] eqn:E.
  - left. split; [|done]. apply (f_equal length) in E. rewrite length_drop in E. cbn in E.
    pose proof (span_le is_space l). unfold l in *. rewrite length_drop in *. lia.
  - right. exists c, l'. split_and!; [done|done| |].
    + assert (Hl : Forall (fun c => c <> 0) (c :: l')) by (rewrite <- E; by apply Forall_drop, Forall_drop).
      by inversion Hl.
    + destruct (span_stop is_space l) as [Hs|Hs].
      * rewrite nth_lookup in Hs. rewrite <- (Nat.add_0_r (span _ l)), <- lookup_drop, E in Hs. exact Hs.
      * rewrite Hs, drop_all in E. done.
Qed.

Lemma peek_run toks p ts :
  Forall (fun c => is_symbol c = true) toks -> left_at p ts ->
  exists p', peek text toks p = POk (starts toks ts) p' /\ left_at p' ts /\ (ts = [] -> p' = length text).
Proof.
  intros Ht Hl. exists (skip text p). pose proof (left_at_skip p ts Hl) as [Hp Hs]. destruct Hl as [Hle _].
  destruct (skip_char p Hle) as [[He Hc]|(c & l & Ed & Hc & Hnz & Hsp)].
  - rewrite He, drop_all in Hs. cbn in Hs. subst ts. unfold peek. rewrite Hc. split; [done|]. split; [|done].
    split; [lia|]. by rewrite He, drop_all.
  - split_and!; [|by split|].
    + unfold peek. rewrite Hc, (proj2 (Z.eqb_neq _ _) Hnz). cbn [negb andb]. f_equal. rewrite Ed in Hs. cbn [lex] in Hs.
      rewrite Hsp in Hs. destruct (Z.eqb_spec c 62) as [->|Hc'].
      { cbn in Hs. destruct l as [|d l]; [|destruct (d =? 62)]; by subst ts. }
      destruct (is_symbol c) eqn:Ey; [|rewrite lex_word in Hs]; subst ts; cbn [starts app flush].
      * destruct (Z.eqb_spec c 43) as [->|_]; [done|done].
      * rewrite found_elem. apply bool_decide_false. intros Hin. rewrite Forall_forall in Ht. apply Ht in Hin. congruence.
    + intros ->. rewrite Ed in Hs. cbn [lex] in Hs. rewrite Hsp in Hs. destruct (c =? 62).
      { destruct l as [|d l]; [|destruct (d =? 62)]; done. }
      destruct (is_symbol c); [done|]. by rewrite lex_word in Hs.
Qed.

(** After the part [s] of a token has been read. *)
Lemma left_at_drop q n : (q + n <= length text)%nat ->
  left_at (skip text (q + n)) (lex (q + n) (drop n (drop q text)) None).
Proof. intros Hn. apply left_at_skip. split; [done|]. by rewrite drop_drop. Qed.

Lemma token_run p t ts :
  left_at p (t :: ts) ->
  exists q e p', gettoken text p = POk (code t, q, e) p' /\ left_at p' ts /\
    match t with TWord q' e' => q = q' /\ e = e' | TSym _ => True end.
Proof.
  intros Hl. pose proof (left_at_skip p _ Hl) as [Hp Hs]. destruct Hl as [Hle _]. unfold gettoken.
  destruct (skip_char p Hle) as [[He Hc]|(c & l & Ed & Hc & Hnz & Hsp)].
  { rewrite He, drop_all in Hs. done. }
  set (q := skip text p) in *. rewrite Hc, (proj2 (Z.eqb_neq _ _) Hnz).
  assert (Hlen : (length (c :: l) = length text - q)%nat) by (by rewrite <- Ed, length_drop). cbn [length] in Hlen.
  pose proof (is_symbol_eq c) as Hsy. set (sy := (c =? 124) || _ || _ || _ || _ || _) in *.
  rewrite Ed in Hs. cbn [lex] in Hs. rewrite Hsp in Hs. destruct (Z.eqb_spec c 62) as [->|Hc'].
  - change sy with false. cbn iota. assert (E1 : char_at text (S q) = nth 0 l 0).
    { rewrite char_at_drop. by rewrite <- (Nat.add_1_r q), <- drop_drop, Ed. }
    rewrite E1. pose proof (left_at_drop q 1 ltac:(lia)) as H1. rewrite Ed in H1. cbn [drop] in H1. rewrite Nat.add_1_r in H1.
    destruct l as [|d l]; cbn [nth]; [injection Hs as <- <-; by eexists _, _, _|].
    destruct (d =? 62); injection Hs as <- <-; eexists _, _, _; split_and!; try done.
    pose proof (left_at_drop q 2 ltac:(cbn in Hlen; lia)) as H2. rewrite Ed in H2. cbn [drop] in H2.
    by replace (q + 2)%nat with (S (S q)) in H2 by lia.
  - rewrite orb_false_r in Hsy. rewrite <- Hsy. destruct (is_symbol c) eqn:Ey.
    + injection Hs as <- <-. pose proof (left_at_drop q 1 ltac:(lia)) as H1. rewrite Ed in H1. cbn [drop] in H1.
      rewrite Nat.add_1_r in H1. by eexists _, _, _.
    + rewrite lex_word in Hs. injection Hs as <- <-. cbn [default].
      assert (Hw : is_word c = true) by (unfold is_word; by rewrite Hsp, Ey).
      assert (Esp : span is_word (drop q text) = S (span is_word l)) by (rewrite Ed; cbn; by rewrite Hw).
      pose proof (span_le is_word l). eexists _, _, _. split; [reflexivity|]. rewrite Esp. split; [|split; [done|lia]].
      pose proof (left_at_drop q (S (span is_word l)) ltac:(lia)) as H1. rewrite Ed in H1. cbn [drop] in H1.
      by rewrite Nat.add_succ_r in H1 |- *.
Qed.

Lemma token_end p : left_at p [] -> exists q e p', gettoken text p = POk (0, q, e) p' /\ left_at p' [].
Proof.
  intros Hl. pose proof (peek_run [] p [] ltac:(constructor) Hl) as (p' & Hp & _ & He). specialize (He eq_refl).
  unfold peek in Hp. injection Hp as _ Hsk. rewrite He in Hsk. unfold gettoken. rewrite Hsk.
  assert (E : char_at text (length text) = 0) by (unfold char_at; by rewrite nth_overflow by lia). rewrite E. cbn [Z.eqb].
  eexists _, _, _. split; [reflexivity|]. apply left_at_skip. split; [lia|]. by rewrite drop_all.
Qed.
End Reading.

(** ** The grammar *)

(** A redirection: the code of its symbol and the file name. *)
Definition redir_syn : Type := Z * (nat * nat).

Inductive exec_syn :=
| Simple (rs : list redir_syn) (args : list ((nat * nat) * list redir_syn))
| Block (l : line_syn) (rs : list redir_syn)
with pipe_syn :=
| PipeEnd (e : exec_syn)
| PipeTo (e : exec_syn) (p : pipe_syn)
with line_syn :=
| LineEnd (p : pipe_syn) (amps : nat)
| LineThen (p : pipe_syn) (amps : nat) (l : line_syn).

Scheme exec_syn_ind' := Induction for exec_syn Sort Prop
with pipe_syn_ind' := Induction for pipe_syn Sort Prop
with line_syn_ind' := Induction for line_syn Sort Prop.
Combined Scheme syn_ind from exec_syn_ind', pipe_syn_ind', line_syn_ind'.

Definition word_token (w : nat * nat) : token := TWord (fst w) (snd w).

Definition redir_tokens (rs : list redir_syn) : list token :=
  mjoin ((fun r => [TSym (fst r); word_token (snd r)]) <$> rs).

Definition arg_tokens (args : list ((nat * nat) * list redir_syn)) : list token :=
  mjoin ((fun a => word_token (fst a) :: redir_tokens (snd a)) <$> args).

(** The tokens of a tree. *)
Fixpoint exec_tokens (e : exec_syn) : list token :=
  match e with
  | Simple rs args => redir_tokens rs ++ arg_tokens args
  | Block l rs => TSym 40 :: line_tokens l ++ TSym 41 :: redir_tokens rs
  end
with pipe_tokens (p : pipe_syn) : list token :=
  match p with
  | PipeEnd e => exec_tokens e
  | PipeTo e p => exec_tokens e ++ TSym 124 :: pipe_tokens p
  end
with line_tokens (l : line_syn) : list token :=
  match l with
  | LineEnd p amps => pipe_tokens p ++ replicate amps (TSym 38)
  | LineThen p amps l => pipe_tokens p ++ replicate amps (TSym 38) ++ TSym 59 :: line_tokens l
  end.

(** What a redirection means: [<], [>] and [>>]. *)
Definition redir_of (r : redir_syn) : redir :=
  let '(c, (q, e)) := r in
  if c =? 60 then Redir q e O_RDONLY 0
  else if c =? 62 then Redir q e (Z.lor (Z.lor O_WRONLY O_CREATE) O_TRUNC) 1
  else Redir q e (Z.lor O_WRONLY O_CREATE) 1.

(** The command of a tree: redirections apply from the left, the last one
    outermost; [&] puts the pipeline before it in the background; [;] and [|]
    associate to the right. *)
Fixpoint exec_cmd (e : exec_syn) : cmd :=
  match e with
  | Simple rs args => foldl redircmd (EXEC (fst <$> args)) (redir_of <$> rs ++ mjoin (snd <$> args))
  | Block l rs => foldl redircmd (line_cmd l) (redir_of <$> rs)
  end
with pipe_cmd (p : pipe_syn) : cmd :=
  match p with
  | PipeEnd e => exec_cmd e
  | PipeTo e p => PIPE (exec_cmd e) (pipe_cmd p)
  end
with line_cmd (l : line_syn) : cmd :=
  match l with
  | LineEnd p amps => Nat.iter amps BACK (pipe_cmd p)
  | LineThen p amps l => LIST (Nat.iter amps BACK (pipe_cmd p)) (line_cmd l)
  end.

(** The symbols of redirections, and fewer than [MAXARGS] arguments. *)
Definition redirs_ok (rs : list redir_syn) : Prop := Forall (fun r => fst r ∈ [60; 62; 43]) rs.

Fixpoint exec_ok (e : exec_syn) : Prop :=
  match e with
  | Simple rs args => redirs_ok rs /\ Forall (fun a => redirs_ok (snd a)) args /\ (length args < MAXARGS)%nat
  | Block l rs => line_ok l /\ redirs_ok rs
  end
with pipe_ok (p : pipe_syn) : Prop :=
  match p with
  | PipeEnd e => exec_ok e
  | PipeTo e p => exec_ok e /\ pipe_ok p
  end
with line_ok (l : line_syn) : Prop :=
  match l with
  | LineEnd p _ => pipe_ok p
  | LineThen p _ l => pipe_ok p /\ line_ok l
  end.

(** ** Parsing a tree *)

(** The next token, if any, is one of the symbols [cs]. *)
Definition follows (cs : list Z) (ts : list token) : Prop :=
  match ts with [] => True | TSym c :: _ => c ∈ cs | TWord _ _ :: _ => False end.

Lemma pbind_POk {A B} (m : PM A) (f : A -> PM B) p a p' : m p = POk a p' -> (m ≫= f) p = f a p'.
Proof. unfold mbind, PM_bind. by intros ->. Qed.

Ltac pstep H := rewrite (pbind_POk _ _ _ _ _ H).

Section Parsing.
Variable text : list Z.
Hypothesis no_nul : Forall (fun c => c <> 0) text.

(** [peek] for symbols that may and that may not come next. *)
Lemma peek_follows toks cs p ts :
  Forall (fun c => is_symbol c = true) toks -> follows cs ts ->
  Forall (fun c => found (strchr toks (if c =? 43 then 62 else c)) = false) cs -> left_at text p ts ->
  exists p', peek text toks p = POk false p' /\ left_at text p' ts.
Proof.
  intros Hs Hf Hn Hl. destruct (peek_run text no_nul toks p ts Hs Hl) as (p' & Hp & Hl' & _).
  exists p'. split; [|done]. rewrite Hp. f_equal. destruct ts as [|[q e|c] ts]; [done|done|]. cbn in *.
  rewrite Forall_forall in Hn. by apply Hn.
Qed.

Lemma parseredirs_run rs : forall fuel p ts,
  redirs_ok rs -> left_at text p (redir_tokens rs ++ ts) -> starts (chars "<>") ts = false -> (length rs < fuel)%nat ->
  exists p', parseredirs_loop text fuel p = POk (redir_of <$> rs) p' /\ left_at text p' ts.
Proof.
  induction rs as [|[c [q e]] rs IH]; intros [|fuel] p ts Hok Hl Hst Hf; [lia| |lia|]; cbn [parseredirs_loop].
  - destruct (peek_run text no_nul (chars "<>") p ts ltac:(by repeat constructor) Hl) as (p' & Hp & Hl' & _).
    rewrite Hst in Hp. pstep Hp. by exists p'.
  - apply Forall_cons in Hok as [Hc Hok]. cbn in Hc.
    change (redir_tokens ((c, (q, e)) :: rs) ++ ts) with (TSym c :: TWord q e :: redir_tokens rs ++ ts) in Hl.
    destruct (peek_run text no_nul (chars "<>") p _ ltac:(by repeat constructor) Hl) as (p1 & Hp1 & Hl1 & _).
    pstep Hp1. assert (Hst1 : starts (chars "<>") (TSym c :: TWord q e :: redir_tokens rs ++ ts) = true).
    { rewrite !elem_of_cons in Hc. destruct Hc as [->|[->|[->|Hc]]]; try done. by apply elem_of_nil in Hc. }
    rewrite Hst1. cbn [negb].
    destruct (token_run text no_nul p1 _ _ Hl1) as (q1 & e1 & p2 & Ht1 & Hl2 & _). pstep Ht1. cbn [fst code].
    destruct (token_run text no_nul p2 _ _ Hl2) as (q2 & e2 & p3 & Ht2 & Hl3 & -> & ->). pstep Ht2. cbn [code]. rewrite Z.eqb_refl. cbn [negb].
    destruct (IH fuel p3 ts Hok Hl3 Hst ltac:(cbn in Hf; lia)) as (p4 & Hr & Hl4). pstep Hr. exists p4. split; [|done].
    rewrite !elem_of_cons in Hc. destruct Hc as [->|[->|[->|Hc]]]; try done. by apply elem_of_nil in Hc.
Qed.

(** A token list at a position is shorter than the number of turns. *)
Lemma turns_enough p ts1 ts2 : left_at text p (ts1 ++ ts2) -> (length ts1 < turns text)%nat.
Proof. intros Hl. apply left_at_length in Hl. rewrite length_app in Hl. unfold turns. lia. Qed.

Lemma redir_tokens_length rs : (length rs <= length (redir_tokens rs))%nat.
Proof.
  induction rs as [|r rs IH]; [done|].
  change (redir_tokens (r :: rs)) with (TSym (fst r) :: word_token (snd r) :: redir_tokens rs). cbn [length]. lia.
Qed.

Lemma parseredirs_all rs p ts :
  redirs_ok rs -> left_at text p (redir_tokens rs ++ ts) -> starts (chars "<>") ts = false ->
  exists p', parseredirs text p = POk (redir_of <$> rs) p' /\ left_at text p' ts.
Proof.
  intros Hok Hl Hst. apply parseredirs_run; [done|done|done|].
  pose proof (redir_tokens_length rs). apply turns_enough in Hl. lia.
Qed.

Definition exec_follow : list Z := [124; 41; 38; 59].

Lemma follows_starts ts : follows exec_follow ts -> starts (chars "<>") ts = false.
Proof.
  destruct ts as [|[q e|c] ts]; [done|done|]. unfold follows, exec_follow. rewrite !elem_of_cons.
  intros [->|[->|[->|[->|Hc]]]]; try done. by apply elem_of_nil in Hc.
Qed.

Lemma parseargs_run args : forall fuel argc p ts,
  Forall (fun a => redirs_ok (snd a)) args -> left_at text p (arg_tokens args ++ ts) -> follows exec_follow ts ->
  (length args < fuel)%nat -> (argc + length args < MAXARGS)%nat ->
  exists p', parseargs text fuel argc p = POk (fst <$> args, redir_of <$> mjoin (snd <$> args)) p' /\ left_at text p' ts.
Proof.
  induction args as [|[[q e] rs] args IH]; intros [|fuel] argc p ts Hok Hl Hfo Hf Hm; [lia| |lia|]; cbn [parseargs].
  - destruct (peek_run text no_nul (chars "|)&;") p ts ltac:(by repeat constructor) Hl) as (p1 & Hp & Hl1 & _). pstep Hp.
    destruct ts as [|[q e|c] ts]; [|done|].
    + destruct (token_end text no_nul p1 Hl1) as (q & e & p2 & Ht & Hl2). cbn [starts]. pstep Ht. by exists p2.
    + exists p1. split; [|done]. unfold follows, exec_follow in Hfo. rewrite !elem_of_cons in Hfo.
      destruct Hfo as [->|[->|[->|[->|Hc]]]]; try done. by apply elem_of_nil in Hc.
  - apply Forall_cons in Hok as [Hrs Hok]. cbn [snd] in Hrs.
    change (arg_tokens (((q, e), rs) :: args) ++ ts) with ((TWord q e :: redir_tokens rs ++ arg_tokens args) ++ ts) in Hl.
    cbn [app] in Hl. rewrite <- app_assoc in Hl.
    destruct (peek_run text no_nul (chars "|)&;") p _ ltac:(by repeat constructor) Hl) as (p1 & Hp & Hl1 & _). pstep Hp.
    cbn [starts]. destruct (token_run text no_nul p1 _ _ Hl1) as (q1 & e1 & p2 & Ht & Hl2 & -> & ->). pstep Ht. cbn [code]. change (97 =? 0) with false. rewrite Z.eqb_refl. cbn [negb].
    rewrite (proj2 (Nat.leb_gt _ _)) by (cbn [length] in Hm; lia).
    destruct (parseredirs_all rs p2 (arg_tokens args ++ ts) Hrs Hl2) as (p3 & Hr & Hl3).
    { destruct args as [|[[q' e'] rs'] args]; [by apply follows_starts|done]. }
    pstep Hr. destruct (IH fuel (S argc) p3 ts Hok Hl3 Hfo) as (p4 & Ha & Hl4); [cbn in Hf; lia|cbn in Hm; lia|].
    pstep Ha. exists p4. split; [|done]. cbn. by rewrite fmap_app.
Qed.

Lemma arg_tokens_length args : (length args <= length (arg_tokens args))%nat.
Proof.
  induction args as [|a args IH]; [done|].
  change (arg_tokens (a :: args)) with ((word_token (fst a) :: redir_tokens (snd a)) ++ arg_tokens args).
  rewrite length_app. cbn [length]. lia.
Qed.

Lemma parsebacks_run amps : forall fuel c p ts,
  left_at text p (replicate amps (TSym 38) ++ ts) -> follows [41; 59] ts -> (amps < fuel)%nat ->
  exists p', parsebacks text fuel c p = POk (Nat.iter amps BACK c) p' /\ left_at text p' ts.
Proof.
  induction amps as [|amps IH]; intros [|fuel] c p ts Hl Hfo Hf; [lia| |lia|]; cbn [parsebacks].
  - destruct (peek_follows (chars "&") [41; 59] p ts) as (p1 & Hp & Hl1); try done; [by repeat constructor..|].
    pstep Hp. by exists p1.
  - cbn [replicate app] in Hl.
    destruct (peek_run text no_nul (chars "&") p _ ltac:(by repeat constructor) Hl) as (p1 & Hp & Hl1 & _). pstep Hp.
    destruct (token_run text no_nul p1 _ _ Hl1) as (q1 & e1 & p2 & Ht & Hl2 & _).
    replace (starts _ _) with true by done. cbn [negb]. pstep Ht.
    destruct (IH fuel (BACK c) p2 ts Hl2 Hfo ltac:(lia)) as (p3 & Hr & Hl3). exists p3. split; [|done].
    rewrite Nat.iter_succ_r. exact Hr.
Qed.

Lemma follows_weaken cs cs' ts : follows cs ts -> cs ⊆ cs' -> follows cs' ts.
Proof. destruct ts as [|[q e|c] ts]; [done|done|]. cbn. set_solver. Qed.

Lemma simple_no_block rs args ts :
  redirs_ok rs -> follows exec_follow ts -> starts (chars "(") (redir_tokens rs ++ arg_tokens args ++ ts) = false.
Proof.
  intros Hok Hfo. destruct rs as [|[c [q e]] rs].
  - destruct args as [|[[q e] rs'] args]; [|done]. destruct ts as [|[q e|c] ts]; [done|done|].
    unfold follows, exec_follow in Hfo. cbn -[starts]. rewrite !elem_of_cons in Hfo.
    destruct Hfo as [->|[->|[->|[->|Hc]]]]; try done. by apply elem_of_nil in Hc.
  - apply Forall_cons in Hok as [Hc _]. cbn in Hc. rewrite !elem_of_cons in Hc.
    destruct Hc as [->|[->|[->|Hc]]]; try done. by apply elem_of_nil in Hc.
Qed.

Definition exec_parses (e : exec_syn) : Prop := exec_ok e -> forall fuel p ts,
  left_at text p (exec_tokens e ++ ts) -> follows exec_follow ts -> (4 * length (exec_tokens e) < fuel)%nat ->
  exists p', parseexec text fuel p = POk (exec_cmd e) p' /\ left_at text p' ts.
Definition pipe_parses (e : pipe_syn) : Prop := pipe_ok e -> forall fuel p ts,
  left_at text p (pipe_tokens e ++ ts) -> follows [41; 38; 59] ts -> (4 * length (pipe_tokens e) + 1 < fuel)%nat ->
  exists p', parsepipe text fuel p = POk (pipe_cmd e) p' /\ left_at text p' ts.
Definition line_parses (e : line_syn) : Prop := line_ok e -> forall fuel p ts,
  left_at text p (line_tokens e ++ ts) -> follows [41] ts -> (4 * length (line_tokens e) + 2 < fuel)%nat ->
  exists p', parseline text fuel p = POk (line_cmd e) p' /\ left_at text p' ts.

(** A symbol that [peek] looks for and [gettoken] consumes. *)
Lemma peek_symbol toks c p ts :
  Forall (fun c => is_symbol c = true) toks -> found (strchr toks c) = true -> c <> 43 -> left_at text p (TSym c :: ts) ->
  exists p1 q e p2, peek text toks p = POk true p1 /\ left_at text p1 (TSym c :: ts) /\
    gettoken text p1 = POk (c, q, e) p2 /\ left_at text p2 ts.
Proof.
  intros Hs Hc Hne Hl. destruct (peek_run text no_nul toks p _ Hs Hl) as (p1 & Hp & Hl1 & _).
  destruct (token_run text no_nul p1 _ _ Hl1) as (q & e & p2 & Ht & Hl2 & _).
  exists p1, q, e, p2. split_and!; try done. rewrite Hp. cbn. by rewrite (proj2 (Z.eqb_neq _ _) Hne), Hc.
Qed.

Lemma simple_parses rs args : exec_parses (Simple rs args).
Proof.
  intros (Hrs & Hargs & Hn) [|fuel] p ts Hl Hfo Hf; [lia|]. cbn [parseexec exec_tokens] in *. rewrite <- app_assoc in Hl.
  destruct (peek_run text no_nul (chars "(") p _ ltac:(by repeat constructor) Hl) as (p1 & Hp & Hl1 & _).
  rewrite (simple_no_block rs args ts Hrs Hfo) in Hp. pstep Hp.
  destruct (parseredirs_all rs p1 (arg_tokens args ++ ts) Hrs Hl1) as (p2 & Hr & Hl2).
  { destruct args as [|[[q' e'] rs'] args]; [by apply follows_starts|done]. }
  pstep Hr. destruct (parseargs_run args (turns text) O p2 ts Hargs Hl2 Hfo) as (p3 & Ha & Hl3); [|lia|].
  { pose proof (arg_tokens_length args). apply turns_enough in Hl2. lia. }
  pstep Ha. exists p3. split; [|done]. cbn [fst snd exec_cmd]. by rewrite fmap_app.
Qed.

Lemma block_parses l rs : line_parses l -> exec_parses (Block l rs).
Proof.
  intros IH [Hlok Hrs] [|[|fuel]] p ts Hl Hfo Hf; [lia|cbn in Hf; lia|]. cbn [parseexec parseblock exec_tokens] in *.
  cbn [app length] in Hl, Hf. rewrite length_app in Hf. rewrite <- app_assoc in Hl. cbn [app] in Hl.
  destruct (peek_symbol (chars "(") 40 p _ ltac:(by repeat constructor) eq_refl ltac:(done) Hl) as (p1 & q & e & p2 & Hp & Hl1 & _).
  pstep Hp. clear q e p2.
  destruct (peek_symbol (chars "(") 40 p1 _ ltac:(by repeat constructor) eq_refl ltac:(done) Hl1) as (p2 & q & e & p3 & Hp2 & _ & Ht & Hl3).
  pstep Hp2. cbn [negb]. pstep Ht.
  destruct (IH Hlok fuel p3 (TSym 41 :: redir_tokens rs ++ ts) Hl3) as (p4 & Hr & Hl4); [cbn; set_solver|lia|].
  pstep Hr.
  destruct (peek_symbol (chars ")") 41 p4 _ ltac:(by repeat constructor) eq_refl ltac:(done) Hl4) as (p5 & q' & e' & p6 & Hp5 & _ & Ht6 & Hl6).
  pstep Hp5. cbn [negb]. pstep Ht6.
  destruct (parseredirs_all rs p6 ts Hrs Hl6) as (p7 & Hr7 & Hl7); [by apply follows_starts|].
  pstep Hr7. by exists p7.
Qed.

Lemma pipe_to_parses e p : exec_parses e -> pipe_parses p -> pipe_parses (PipeTo e p).
Proof.
  intros IHe IHp [He Hp] [|fuel] pos ts Hl Hfo Hf; [lia|]. cbn [parsepipe pipe_tokens] in *.
  rewrite length_app in Hf. cbn [length] in Hf. rewrite <- app_assoc in Hl. cbn [app] in Hl.
  destruct (IHe He fuel pos _ Hl) as (p1 & H1 & Hl1); [cbn; set_solver|lia|]. pstep H1.
  destruct (peek_symbol (chars "|") 124 p1 _ ltac:(by repeat constructor) eq_refl ltac:(done) Hl1) as (p2 & q & e' & p3 & Hp2 & _ & Ht & Hl3).
  pstep Hp2. pstep Ht. destruct (IHp Hp fuel p3 ts Hl3 Hfo ltac:(lia)) as (p4 & H4 & Hl4). pstep H4. by exists p4.
Qed.

Lemma pipe_end_parses e : exec_parses e -> pipe_parses (PipeEnd e).
Proof.
  intros IHe He [|fuel] pos ts Hl Hfo Hf; [lia|]. cbn [parsepipe pipe_tokens] in *.
  destruct (IHe He fuel pos _ Hl) as (p1 & H1 & Hl1); [eapply follows_weaken; [done|unfold exec_follow; set_solver]|lia|].
  pstep H1. destruct (peek_follows (chars "|") [41; 38; 59] p1 ts) as (p2 & Hp & Hl2); try done; [by repeat constructor..|].
  pstep Hp. by exists p2.
Qed.

(** The pipeline of a line and its ampersands. *)
Lemma pipe_backs e amps fuel p ts :
  pipe_parses e -> pipe_ok e -> left_at text p (pipe_tokens e ++ replicate amps (TSym 38) ++ ts) -> follows [41; 59] ts ->
  (4 * length (pipe_tokens e) + 1 < fuel)%nat ->
  exists p', (c ← parsepipe text fuel; parsebacks text (turns text) c) p = POk (Nat.iter amps BACK (pipe_cmd e)) p' /\
    left_at text p' ts.
Proof.
  intros IHp He Hl Hfo Hf. destruct (IHp He fuel p _ Hl) as (p1 & H1 & Hl1); [|lia|].
  { destruct amps as [|amps]; [eapply follows_weaken; [done|set_solver]|cbn; set_solver]. }
  pstep H1. apply parsebacks_run; [done|done|]. apply turns_enough in Hl1. by rewrite length_replicate in Hl1.
Qed.

Lemma pbind_assoc {A B C} (m : PM A) (f : A -> PM B) (g : B -> PM C) p :
  (a ← m; b ← f a; g b) p = (b ← (a ← m; f a); g b) p.
Proof. unfold mbind, PM_bind. by destruct (m p). Qed.

Lemma line_end_parses e amps : pipe_parses e -> line_parses (LineEnd e amps).
Proof.
  intros IHp He [|fuel] p ts Hl Hfo Hf; [lia|]. cbn [parseline line_tokens] in *. rewrite length_app in Hf.
  rewrite <- app_assoc in Hl. rewrite pbind_assoc.
  destruct (pipe_backs e amps fuel p ts IHp He Hl) as (p1 & H1 & Hl1); [eapply follows_weaken; [done|set_solver]|lia|].
  pstep H1. destruct (peek_follows (chars ";") [41] p1 ts) as (p2 & Hp & Hl2); try done; [by repeat constructor..|].
  pstep Hp. by exists p2.
Qed.

Lemma line_then_parses e amps l : pipe_parses e -> line_parses l -> line_parses (LineThen e amps l).
Proof.
  intros IHp IHl [He Hlok] [|fuel] p ts Hl Hfo Hf; [lia|]. cbn [parseline line_tokens] in *.
  rewrite !length_app in Hf. cbn [length] in Hf. rewrite <- !app_assoc in Hl. cbn [app] in Hl. rewrite pbind_assoc.
  destruct (pipe_backs e amps fuel p _ IHp He Hl) as (p1 & H1 & Hl1); [cbn; set_solver|lia|]. pstep H1.
  destruct (peek_symbol (chars ";") 59 p1 _ ltac:(by repeat constructor) eq_refl ltac:(done) Hl1) as (p2 & q & e' & p3 & Hp2 & _ & Ht & Hl3).
  pstep Hp2. pstep Ht. destruct (IHl Hlok fuel p3 ts Hl3 Hfo ltac:(lia)) as (p4 & H4 & Hl4). pstep H4. by exists p4.
Qed.

Lemma syntax_parses : (forall e, exec_parses e) /\ (forall p, pipe_parses p) /\ (forall l, line_parses l).
Proof.
  apply syn_ind; auto using simple_parses, block_parses, pipe_end_parses, pipe_to_parses, line_end_parses, line_then_parses.
Qed.

Lemma parsecmd_line_run l :
  line_ok l -> lex 0 text None = line_tokens l -> parsecmd_line text = POk (line_cmd l) (length text).
Proof.
  intros Hok Hlex. destruct syntax_parses as (_ & _ & Hp). unfold parsecmd_line.
  assert (Hl : left_at text 0 (line_tokens l ++ [])) by (split; [lia|by rewrite app_nil_r]).
  destruct (Hp l Hok (depth text) O [] Hl I) as (p1 & H1 & Hl1).
  { apply left_at_length in Hl. rewrite app_nil_r in Hl. unfold depth. lia. }
  pstep H1. destruct (peek_run text no_nul [] p1 [] ltac:(constructor) Hl1) as (p2 & H2 & _ & He). pstep H2.
  by rewrite He.
Qed.
End Parsing.

(** ** Only trees are parsed *)

(** A result of [f] at [p] satisfies [Q]. *)
Definition gives {A} (f : PM A) (p : nat) (Q : A -> nat -> Prop) : Prop :=
  match f p with POk a p' => Q a p' | _ => True end.

Lemma gives_bind {A B} (m : PM A) (f : A -> PM B) p P Q :
  gives m p P -> (forall a p', P a p' -> gives (f a) p' Q) -> gives (m ≫= f) p Q.
Proof. unfold gives, mbind, PM_bind. destruct (m p); [|done|done]. intros HP Hf. by apply Hf. Qed.

Lemma gives_ret {A} (a : A) p (Q : A -> nat -> Prop) : Q a p -> gives (mret a) p Q.
Proof. done. Qed.

(** The symbols of [lex]. *)
Definition sym_ok (t : token) : Prop :=
  match t with TWord _ _ => True | TSym c => c ∈ [124; 40; 41; 59; 38; 60; 62; 43] end.

Lemma lex_syms off l w : Forall sym_ok (lex off l w).
Proof.
  assert (Hfl : forall off w, Forall sym_ok (flush off w)) by (intros off' [q|]; repeat constructor).
  revert off w. induction l as [l IH] using (induction_ltof1 _ (@length Z)). unfold ltof in IH. intros off w.
  destruct l as [|c l]; cbn [lex]; [done|].
  destruct (is_space c); [apply Forall_app; split; [done|apply IH; cbn; lia]|].
  destruct (Z.eqb_spec c 62) as [->|Hc].
  - apply Forall_app. split; [done|]. destruct l as [|d l]; [|destruct (d =? 62)]; constructor.
    all: try (cbn; rewrite !elem_of_cons; tauto). all: apply IH; cbn; lia.
  - destruct (is_symbol c) eqn:E; [|apply IH; cbn; lia]. apply Forall_app. split; [done|].
    constructor; [|apply IH; cbn; lia]. rewrite is_symbol_eq, !orb_true_iff, !Z.eqb_eq in E.
    cbn. rewrite !elem_of_cons. tauto.
Qed.

Section Soundness.
Variable text : list Z.
Hypothesis no_nul : Forall (fun c => c <> 0) text.

(** What [ts] was at the position before, [P] says of the tokens read and the
    result, and the rest of [ts] is left. *)
Definition reads {A} (ts : list token) (P : list token -> A -> Prop) (a : A) (p' : nat) : Prop :=
  exists ts1 ts2, ts = ts1 ++ ts2 /\ P ts1 a /\ left_at text p' ts2.

Lemma left_at_syms p ts : left_at text p ts -> Forall sym_ok ts.
Proof. intros [_ <-]. apply lex_syms. Qed.

Lemma peek_gives toks p ts : Forall (fun c => is_symbol c = true) toks -> left_at text p ts ->
  gives (peek text toks) p (fun b p' => b = starts toks ts /\ left_at text p' ts).
Proof.
  intros Ht Hl. destruct (peek_run text no_nul toks p ts Ht Hl) as (p' & Hp & Hl' & _). unfold gives. by rewrite Hp.
Qed.

(** The code of the next token, 0 at the end. *)
Lemma token_gives p ts : left_at text p ts ->
  gives (gettoken text) p (fun r p' =>
    match ts with
    | [] => fst (fst r) = 0 /\ left_at text p' []
    | TWord q e :: ts' => r = (97, q, e) /\ left_at text p' ts'
    | TSym c :: ts' => fst (fst r) = c /\ c <> 0 /\ c <> 97 /\ left_at text p' ts'
    end).
Proof.
  intros Hl. destruct ts as [|t ts].
  - destruct (token_end text no_nul p Hl) as (q & e & p' & Hr & Hl'). unfold gives. by rewrite Hr.
  - destruct (token_run text no_nul p t ts Hl) as (q & e & p' & Hr & Hl' & Ht). unfold gives. rewrite Hr.
    pose proof (left_at_syms p _ Hl) as Hs. apply Forall_cons in Hs as [Hs _].
    destruct t as [q' e'|c]; cbn in *; [by destruct Ht as [-> ->]|]. split_and!; [done|..|done]; intros ->.
    all: rewrite !elem_of_cons, elem_of_nil in Hs; intuition discriminate.
Qed.

(** The symbol that [peek] found. *)
Lemma starts_sym toks ts : starts toks ts = true ->
  exists c ts', ts = TSym c :: ts' /\ (if c =? 43 then 62 else c) ∈ toks.
Proof.
  destruct ts as [|[q e|c] ts]; [done|done|]. cbn. rewrite found_elem, bool_decide_eq_true. by exists c, ts.
Qed.

(** One expected symbol is consumed. *)
Lemma symbol_gives c toks p ts :
  toks = [c] -> c <> 62 -> starts toks ts = true -> left_at text p ts ->
  gives (gettoken text) p (fun _ p' => exists ts', ts = TSym c :: ts' /\ left_at text p' ts').
Proof.
  intros -> Hne Hs Hl. destruct (starts_sym _ _ Hs) as (d & ts' & -> & Hd). apply list_elem_of_singleton in Hd.
  assert (d = c) as ->. { destruct (Z.eqb_spec d 43); [congruence|done]. }
  pose proof (token_gives p _ Hl) as Ht. unfold gives in *. destruct (gettoken text p); [|done..].
  destruct Ht as (_ & _ & _ & ?). by exists ts'.
Qed.

Lemma parseredirs_gives fuel : forall p ts, left_at text p ts ->
  gives (parseredirs_loop text fuel) p (reads ts (fun ts1 rs =>
    exists syn, ts1 = redir_tokens syn /\ redirs_ok syn /\ rs = redir_of <$> syn)).
Proof.
  induction fuel as [|fuel IH]; intros p ts Hl; [done|]. cbn [parseredirs_loop].
  eapply gives_bind; [apply peek_gives; [by repeat constructor|exact Hl]|]. intros b p1 [-> Hl1].
  destruct (starts _ ts) eqn:Hs; cbn [negb]; [|apply gives_ret; exists [], ts; split_and!; [done|exists []; split_and!; [done|constructor|done]|done]].
  destruct (starts_sym _ _ Hs) as (c & ts' & -> & Hc).
  eapply gives_bind; [by apply token_gives|]. intros [[a1 q1] e1] p2 (Ha & _ & _ & Hl2). cbn in Ha. subst a1. cbn [fst].
  eapply gives_bind; [by apply token_gives|]. intros [[a q] e] p3 H3.
  destruct ts' as [|[q' e'|d] ts'].
  - destruct H3 as [H3 _]. cbn in H3. subst a. done.
  - destruct H3 as [[= -> -> ->] Hl3]. rewrite Z.eqb_refl. cbn [negb].
    eapply gives_bind; [by apply IH|]. intros rs p4 (ts1 & ts2 & -> & (syn & -> & Hok & ->) & Hl4).
    apply gives_ret. exists (redir_tokens ((c, (q', e')) :: syn)), ts2. split_and!; [done| |done]. exists ((c, (q', e')) :: syn).
    assert (Hin : c ∈ [60; 62; 43]).
    { revert Hc. destruct (Z.eqb_spec c 43) as [->|]; [set_solver|]. cbn. set_solver. }
    split_and!; [done|by constructor|]. rewrite !elem_of_cons in Hin.
    destruct Hin as [->|[->|[->|Hin]]]; try done. by apply elem_of_nil in Hin.
  - destruct H3 as (H3 & _ & Hne & _). cbn in H3. subst a. by rewrite (proj2 (Z.eqb_neq _ _) Hne).
Qed.

Lemma parseargs_gives fuel : forall argc p ts, left_at text p ts -> (argc < MAXARGS)%nat ->
  gives (parseargs text fuel argc) p (reads ts (fun ts1 r =>
    exists args, ts1 = arg_tokens args /\ Forall (fun a => redirs_ok (snd a)) args /\
      (argc + length args < MAXARGS)%nat /\ r = (fst <$> args, redir_of <$> mjoin (snd <$> args)))).
Proof.
  induction fuel as [|fuel IH]; intros argc p ts Hl Hm; [done|]. cbn [parseargs].
  assert (Hnil : forall p1, left_at text p1 ts -> reads ts (fun ts1 r =>
    exists args, ts1 = arg_tokens args /\ Forall (fun a => redirs_ok (snd a)) args /\
      (argc + length args < MAXARGS)%nat /\ r = (fst <$> args, redir_of <$> mjoin (snd <$> args))) ([], []) p1).
  { intros p1 Hl1. exists [], ts. split_and!; [done|exists []; split_and!; [done|constructor|cbn; lia|done]|done]. }
  eapply gives_bind; [apply peek_gives; [by repeat constructor|exact Hl]|]. intros b p1 [-> Hl1].
  destruct (starts _ ts) eqn:Hs; [by apply gives_ret, Hnil|].
  eapply gives_bind; [by apply token_gives|]. intros [[a q] e] p2 H2. destruct ts as [|[q' e'|d] ts].
  - destruct H2 as [H2 Hl2]. cbn in H2. subst a. by apply gives_ret, Hnil.
  - destruct H2 as [[= -> -> ->] Hl2]. change (97 =? 0) with false. rewrite Z.eqb_refl. cbn [negb].
    destruct (Nat.leb_spec MAXARGS (S argc)) as [_|Hlt]; [done|].
    eapply gives_bind; [by apply parseredirs_gives|]. intros rs p3 (ts1 & ts2 & -> & (syn & -> & Hok & ->) & Hl3).
    eapply gives_bind; [by apply IH|]. intros r p4 (ts3 & ts4 & -> & (args & -> & Hoks & Hn & ->) & Hl4).
    apply gives_ret. exists (arg_tokens (((q', e'), syn) :: args)), ts4. split_and!; [|exists (((q', e'), syn) :: args)|done].
    { change (arg_tokens (((q', e'), syn) :: args)) with (TWord q' e' :: redir_tokens syn ++ arg_tokens args).
      cbn [app]. by rewrite <- app_assoc. }
    split_and!; [done|by constructor|cbn [length]; lia|]. cbn. by rewrite fmap_app.
  - destruct H2 as (H2 & Hn0 & Hne & _). cbn in H2. subst a.
    by rewrite (proj2 (Z.eqb_neq _ _) Hn0), (proj2 (Z.eqb_neq _ _) Hne).
Qed.

Lemma parsebacks_gives fuel : forall c p ts, left_at text p ts ->
  gives (parsebacks text fuel c) p (reads ts (fun ts1 c' =>
    exists amps, ts1 = replicate amps (TSym 38) /\ c' = Nat.iter amps BACK c)).
Proof.
  induction fuel as [|fuel IH]; intros c p ts Hl; [done|]. cbn [parsebacks].
  eapply gives_bind; [apply peek_gives; [by repeat constructor|exact Hl]|]. intros b p1 [-> Hl1].
  destruct (starts _ ts) eqn:Hs; cbn [negb]; [|apply gives_ret; exists [], ts; split_and!; [done|by exists O|done]].
  eapply gives_bind; [by apply (symbol_gives 38 (chars "&"))|]. intros _ p2 (ts' & -> & Hl2).
  pose proof (IH (BACK c) p2 ts' Hl2) as Hr. unfold gives in *. destruct (parsebacks text fuel (BACK c) p2); [|done..].
  destruct Hr as (ts1 & ts2 & -> & (amps & -> & ->) & Hl3). exists (replicate (S amps) (TSym 38)), ts2.
  split_and!; [done| |done]. exists (S amps). split; [done|]. by rewrite Nat.iter_succ_r.
Qed.

Definition line_gives (fuel : nat) : Prop := forall p ts, left_at text p ts ->
  gives (parseline text fuel) p (reads ts (fun ts1 c => exists l, ts1 = line_tokens l /\ line_ok l /\ c = line_cmd l)).
Definition pipe_gives (fuel : nat) : Prop := forall p ts, left_at text p ts ->
  gives (parsepipe text fuel) p (reads ts (fun ts1 c => exists l, ts1 = pipe_tokens l /\ pipe_ok l /\ c = pipe_cmd l)).
Definition exec_gives (fuel : nat) : Prop := forall p ts, left_at text p ts ->
  gives (parseexec text fuel) p (reads ts (fun ts1 c => exists l, ts1 = exec_tokens l /\ exec_ok l /\ c = exec_cmd l)).
Definition block_gives (fuel : nat) : Prop := forall p ts, left_at text p ts ->
  gives (parseblock text fuel) p (reads ts (fun ts1 c => exists l, ts1 = exec_tokens l /\ exec_ok l /\ c = exec_cmd l)).

Lemma line_gives_step fuel : pipe_gives fuel -> line_gives fuel -> line_gives (S fuel).
Proof.
  intros IHp IHl p ts Hl. cbn [parseline].
  eapply gives_bind; [by apply IHp|]. intros c p1 (ts1 & ts2 & -> & (e & -> & He & ->) & Hl1).
  eapply gives_bind; [by apply parsebacks_gives|]. intros c p2 (ts3 & ts4 & -> & (amps & -> & ->) & Hl2).
  eapply gives_bind; [apply peek_gives; [by repeat constructor|exact Hl2]|]. intros b p3 [-> Hl3].
  destruct (starts _ ts4) eqn:Hs.
  - eapply gives_bind; [by apply (symbol_gives 59 (chars ";"))|]. intros _ p4 (ts' & -> & Hl4).
    eapply gives_bind; [by apply IHl|]. intros c p5 (ts5 & ts6 & -> & (l & -> & Hlok & ->) & Hl5).
    apply gives_ret. exists (line_tokens (LineThen e amps l)), ts6. cbn [line_tokens]. rewrite <- !app_assoc. cbn [app].
    split_and!; [done|by exists (LineThen e amps l)|done].
  - apply gives_ret. exists (line_tokens (LineEnd e amps)), ts4. cbn [line_tokens]. rewrite <- app_assoc.
    split_and!; [done|by exists (LineEnd e amps)|done].
Qed.

Lemma pipe_gives_step fuel : exec_gives fuel -> pipe_gives fuel -> pipe_gives (S fuel).
Proof.
  intros IHe IHp p ts Hl. cbn [parsepipe].
  eapply gives_bind; [by apply IHe|]. intros c p1 (ts1 & ts2 & -> & (e & -> & He & ->) & Hl1).
  eapply gives_bind; [apply peek_gives; [by repeat constructor|exact Hl1]|]. intros b p2 [-> Hl2].
  destruct (starts _ ts2) eqn:Hs.
  - eapply gives_bind; [by apply (symbol_gives 124 (chars "|"))|]. intros _ p3 (ts' & -> & Hl3).
    eapply gives_bind; [by apply IHp|]. intros c p4 (ts3 & ts4 & -> & (l & -> & Hlok & ->) & Hl4).
    apply gives_ret. exists (pipe_tokens (PipeTo e l)), ts4. cbn [pipe_tokens]. rewrite <- app_assoc. cbn [app].
    split_and!; [done|by exists (PipeTo e l)|done].
  - apply gives_ret. exists (pipe_tokens (PipeEnd e)), ts2. split_and!; [done|by exists (PipeEnd e)|done].
Qed.

Lemma exec_gives_step fuel : block_gives fuel -> exec_gives (S fuel).
Proof.
  intros IHb p ts Hl. cbn [parseexec].
  eapply gives_bind; [apply peek_gives; [by repeat constructor|exact Hl]|]. intros b p1 [-> Hl1].
  destruct (starts _ ts) eqn:Hs; [by apply IHb|].
  eapply gives_bind; [by apply parseredirs_gives|]. intros rs p2 (ts1 & ts2 & -> & (syn & -> & Hok & ->) & Hl2).
  eapply gives_bind; [apply parseargs_gives; [exact Hl2|unfold MAXARGS; lia]|].
  intros r p3 (ts3 & ts4 & -> & (args & -> & Hoks & Hn & ->) & Hl3).
  apply gives_ret. exists (exec_tokens (Simple syn args)), ts4. cbn [exec_tokens]. rewrite <- app_assoc.
  split_and!; [done|exists (Simple syn args)|done]. cbn. by rewrite fmap_app.
Qed.

Lemma block_gives_step fuel : line_gives fuel -> block_gives (S fuel).
Proof.
  intros IHl p ts Hl. cbn [parseblock].
  eapply gives_bind; [apply peek_gives; [by repeat constructor|exact Hl]|]. intros b p1 [-> Hl1].
  destruct (starts _ ts) eqn:Hs; cbn [negb]; [|done].
  eapply gives_bind; [by apply (symbol_gives 40 (chars "("))|]. intros _ p2 (ts' & -> & Hl2).
  eapply gives_bind; [by apply IHl|]. intros c p3 (ts3 & ts4 & -> & (l & -> & Hlok & ->) & Hl3).
  eapply gives_bind; [apply peek_gives; [by repeat constructor|exact Hl3]|]. intros b p4 [-> Hl4].
  destruct (starts _ ts4) eqn:Hs4; cbn [negb]; [|done].
  eapply gives_bind; [by apply (symbol_gives 41 (chars ")"))|]. intros _ p5 (ts' & -> & Hl5).
  eapply gives_bind; [by apply parseredirs_gives|]. intros rs p6 (ts1 & ts2 & -> & (syn & -> & Hok & ->) & Hl6).
  apply gives_ret. exists (exec_tokens (Block l syn)), ts2. cbn [exec_tokens app]. rewrite <- app_assoc. cbn [app].
  split_and!; [done|by exists (Block l syn)|done].
Qed.

Lemma syntax_gives fuel : line_gives fuel /\ pipe_gives fuel /\ exec_gives fuel /\ block_gives fuel.
Proof.
  induction fuel as [|fuel (IHl & IHp & IHe & IHb)]; [done|].
  split_and!; auto using line_gives_step, pipe_gives_step, exec_gives_step, block_gives_step.
Qed.

(** A line that is parsed to its end is the line of a tree. *)
Lemma parsecmd_line_tree c :
  parsecmd_line text = POk c (length text) ->
  exists l, line_ok l /\ lex 0 text None = line_tokens l /\ c = line_cmd l.
Proof.
  intros E. assert (Hl : left_at text 0 (lex 0 text None)) by (by split; [lia|]).
  assert (Hg : gives (c ← parseline text (depth text); peek text [];; mret c) O (fun c p' =>
    reads (lex 0 text None) (fun ts1 c => exists l, ts1 = line_tokens l /\ line_ok l /\ c = line_cmd l) c p')).
  { eapply gives_bind; [by apply syntax_gives|]. intros c1 p1 (ts1 & ts2 & Hts & HP & Hl1).
    eapply gives_bind; [apply peek_gives; [constructor|exact Hl1]|]. intros _ p2 [_ Hl2]. apply gives_ret. by exists ts1, ts2. }
  unfold gives in Hg. fold (parsecmd_line text) in Hg. rewrite E in Hg.
  destruct Hg as (ts1 & ts2 & Hts & (l & -> & Hok & ->) & _ & Hend). rewrite drop_all in Hend. cbn in Hend. subst ts2.
  rewrite app_nil_r in Hts. by exists l.
Qed.
End Soundness.

(** ** Words in the buffer *)

(** The words of a command, in the order in which [nulterminate] ends them. *)
Fixpoint cmd_words (c : cmd) : list (nat * nat) :=
  match c with
  | EXEC argv => argv
  | REDIR c file efile _ _ => cmd_words c ++ [(file, efile)]
  | PIPE l r | LIST l r => cmd_words l ++ cmd_words r
  | BACK c => cmd_words c
  end.

Definition put_nuls (buf : list Z) (ws : list (nat * nat)) : list Z := foldl (fun b w => <[snd w := 0]> b) buf ws.

Lemma nulterminate_words c : forall buf, nulterminate c buf = put_nuls buf (cmd_words c).
Proof.
  unfold put_nuls. induction c as [argv|c IH file efile mode fd|l IHl r IHr|l IHl r IHr|c IH]; intros buf; cbn.
  - done.
  - by rewrite foldl_app, IH.
  - by rewrite foldl_app, IHl, IHr.
  - by rewrite foldl_app, IHl, IHr.
  - done.
Qed.

Lemma put_nuls_lookup ws j : forall buf,
  put_nuls buf ws !! j = if decide (j ∈ (snd <$> ws) /\ (j < length buf)%nat) then Some 0 else buf !! j.
Proof.
  unfold put_nuls. induction ws as [|[q e] ws IH]; intros buf; cbn [foldl fmap list_fmap snd].
  - rewrite decide_False; [done|]. intros [Hj _]. by apply elem_of_nil in Hj.
  - rewrite IH, length_insert. destruct (decide (j = e)) as [->|Hne].
    + destruct (decide (e < length buf)%nat) as [Hlt|Hge].
      * rewrite list_lookup_insert_eq by done. repeat case_decide; try done; exfalso; rewrite elem_of_cons in *; tauto.
      * rewrite list_insert_ge by lia. repeat case_decide; tauto.
    + rewrite list_lookup_insert_ne by done. apply decide_ext. rewrite elem_of_cons. tauto.
Qed.

(** A word of the text: its characters belong to words, the one after it does not. *)
Record word_span (text : list Z) (q e : nat) : Prop := {
  ws_order : (q < e <= length text)%nat;
  ws_inside : forall j, (q <= j < e)%nat -> is_word (char_at text j) = true;
  ws_end : e = length text \/ is_word (char_at text e) = false
}.

Lemma span_inside f l j : (j < span f l)%nat -> f (nth j l 0) = true.
Proof.
  revert j. induction l as [|c l IH]; intros j Hj; cbn in *; [lia|]. destruct (f c) eqn:E; [|lia].
  destruct j as [|j]; [done|]. apply IH. lia.
Qed.

Lemma nth_drop_char text p j : nth j (drop p text) 0 = char_at text (p + j).
Proof. unfold char_at. by rewrite !nth_lookup, lookup_drop. Qed.

Lemma drop_cons text p c l : drop p text = c :: l -> drop (S p) text = l /\ (p < length text)%nat /\ char_at text p = c.
Proof.
  intros E. split_and!.
  - by rewrite <- Nat.add_1_r, <- drop_drop, E.
  - apply (f_equal length) in E. rewrite length_drop in E. cbn in E. lia.
  - by rewrite char_at_drop, E.
Qed.

Lemma span_word text p c l :
  drop p text = c :: l -> is_word c = true -> word_span text p (p + span is_word (drop p text)).
Proof.
  intros E Hw. destruct (drop_cons text p c l E) as (_ & Hp & Hc).
  pose proof (span_le is_word (drop p text)) as Hle. rewrite length_drop in Hle. split.
  - split; [|lia]. rewrite E. cbn. rewrite Hw. lia.
  - intros j Hj. replace j with (p + (j - p))%nat by lia. rewrite <- nth_drop_char. apply span_inside. lia.
  - destruct (span_stop is_word (drop p text)) as [Hs|Hs]; [right; by rewrite <- nth_drop_char|left].
    rewrite Hs, length_drop. lia.
Qed.

Lemma lex_spans text q e : forall n p,
  (length text - p < n)%nat -> TWord q e ∈ lex p (drop p text) None -> word_span text q e.
Proof.
  induction n as [|n IH]; intros p Hn Hin; [lia|]. destruct (drop p text) as [|c l] eqn:E; [by apply elem_of_nil in Hin|].
  destruct (drop_cons text p c l E) as (E1 & Hp & _). cbn [lex] in Hin.
  assert (H1 : TWord q e ∈ lex (S p) l None -> word_span text q e) by (rewrite <- E1; apply IH; lia).
  destruct (is_space c) eqn:Es; [by apply H1|].
  destruct (Z.eqb_spec c 62) as [->|Hc].
  { destruct l as [|d l]; cbn [flush app] in Hin; [by apply elem_of_cons in Hin as [?|?]; auto|].
    destruct (drop_cons text (S p) d l E1) as (E2 & Hp2 & _).
    destruct (d =? 62); apply elem_of_cons in Hin as [?|Hin]; try done; [|by apply H1].
    rewrite <- E2 in Hin. apply (IH (S (S p))); [lia|exact Hin]. }
  destruct (is_symbol c) eqn:Ey; [cbn [flush app] in Hin; apply elem_of_cons in Hin as [?|Hin]; [done|by apply H1]|].
  assert (Hw : is_word c = true) by (unfold is_word; by rewrite Es, Ey).
  pose proof (span_word text p c l E Hw) as Hsp.
  assert (Esp : (p + span is_word (drop p text) = S p + span is_word l)%nat) by (rewrite E; cbn; rewrite Hw; lia).
  rewrite lex_word in Hin.
  rewrite <- Esp in Hin. apply elem_of_cons in Hin as [[= -> ->]|Hin]; [done|].
  apply (IH (p + span is_word (drop p text))%nat); [destruct Hsp; lia|].
  assert (Ed : drop (p + span is_word (drop p text)) text = drop (span is_word l) l) by (by rewrite Esp, <- drop_drop, E1).
  by rewrite Ed.
Qed.

(** A word whose end is a NUL, and none of whose characters is. *)
Lemma string_at_word text rest ws q e :
  Forall (fun c => c <> 0) text -> (forall q' e', (q', e') ∈ ws -> word_span text q' e') -> (q, e) ∈ ws ->
  string_at (put_nuls (text ++ 0 :: rest) ws) q = take (e - q) (drop q text).
Proof.
  intros Hz Hws Hin. pose proof (Hws q e Hin) as [Hqe Hins _].
  set (buf := put_nuls _ _). assert (Hend : buf !! e = Some 0).
  { unfold buf. rewrite put_nuls_lookup, decide_True; [done|]. split; [apply list_elem_of_fmap; by exists (q, e)|].
    rewrite length_app. cbn. lia. }
  assert (Hmid : forall j, (q <= j < e)%nat -> buf !! j = text !! j).
  { intros j Hj. unfold buf. rewrite put_nuls_lookup, decide_False.
    - apply lookup_app_l. lia.
    - intros [Hf _]. apply list_elem_of_fmap in Hf as ([q' e'] & -> & Hf). cbn in Hj.
      destruct (Hws _ _ Hf) as [_ _ [He|He]]; [lia|]. rewrite (Hins e') in He; [done|lia]. }
  assert (Hb : drop q buf = take (e - q) (drop q text) ++ 0 :: drop (S e) buf).
  { apply list_eq. intros j. rewrite lookup_drop. destruct (decide (j < e - q)%nat) as [Hlt|Hge].
    - rewrite lookup_app_l by (rewrite length_take, length_drop; lia).
      rewrite lookup_take_lt by lia. rewrite lookup_drop. apply Hmid. lia.
    - rewrite lookup_app_r, length_take, length_drop by (rewrite length_take, length_drop; lia).
      replace (j - (e - q) `min` (length text - q))%nat with (j - (e - q))%nat by lia.
      destruct (j - (e - q))%nat as [|k] eqn:Ej; [cbn; by replace (q + j)%nat with e by lia|].
      change ((0 :: drop (S e) buf) !! S k) with (drop (S e) buf !! k). rewrite lookup_drop. f_equal. lia. }
  unfold string_at. rewrite Hb. clear Hb Hmid Hend.
  assert (Hw : Forall (fun c => c <> 0) (take (e - q) (drop q text))) by by apply Forall_take, Forall_drop.
  induction Hw as [|c l Hc _ IH]; cbn; [done|]. by rewrite (proj2 (Z.eqb_neq _ _) Hc), IH.
Qed.

(** ** The parser ends on every text *)

(** [f] does not run out of fuel at [p], and a result satisfies [Q]. *)
Definition ends {A} (f : PM A) (p : nat) (Q : A -> nat -> Prop) : Prop :=
  match f p with POk a p' => Q a p' | PError _ => True | PNoFuel => False end.

Lemma ends_bind {A B} (m : PM A) (f : A -> PM B) p P Q :
  ends m p P -> (forall a p', P a p' -> ends (f a) p' Q) -> ends (m ≫= f) p Q.
Proof. unfold ends, mbind, PM_bind. destruct (m p); [|done|done]. intros HP Hf. by apply Hf. Qed.

Lemma ends_weaken {A} (m : PM A) p P Q : ends m p P -> (forall a p', P a p' -> Q a p') -> ends m p Q.
Proof. unfold ends. destruct (m p); auto. Qed.

Section Termination.
Variable text : list Z.
Hypothesis no_nul : Forall (fun c => c <> 0) text.

(** The new position is not before the old one, nor after the end. *)
Definition moved {A} (p : nat) (_ : A) (p' : nat) : Prop := (p <= p' <= length text)%nat.

Lemma skip_moved p : (p <= length text)%nat -> (p <= skip text p <= length text)%nat.
Proof. intros Hp. unfold skip. pose proof (span_le is_space (drop p text)). rewrite length_drop in *. lia. Qed.

Lemma peek_ends toks p : (p <= length text)%nat ->
  ends (peek text toks) p (fun b p' => moved p b p' /\ (b = true -> char_at text (skip text p') <> 0)).
Proof.
  intros Hp. unfold ends, peek. split; [by apply skip_moved|]. intros Hb. apply andb_true_iff in Hb as [Hb _].
  apply negb_true_iff, Z.eqb_neq in Hb. intros E. apply Hb. rewrite <- E. f_equal. unfold skip at 2.
  destruct (skip_char text no_nul p Hp) as [[He _]|(c & l & Ed & _ & _ & Hsp)].
  - rewrite He, drop_all. cbn. lia.
  - rewrite Ed. cbn. rewrite Hsp. lia.
Qed.

Lemma token_ends p : (p <= length text)%nat ->
  ends (gettoken text) p (fun t p' => moved p t p' /\ (char_at text (skip text p) <> 0 -> (p < p')%nat) /\
    (fst (fst t) <> 0 -> (p < p')%nat)).
Proof.
  intros Hp. unfold ends, gettoken. pose proof (skip_moved p Hp) as Hs. pose proof (skip_char text no_nul p Hp) as Hch.
  set (q := skip text p) in *. destruct Hch as [[He Hc]|(c & l & Ed & Hc & Hnz & Hsp)].
  { rewrite Hc. cbn [Z.eqb]. pose proof (skip_moved q ltac:(lia)). unfold moved. split; [lia|]. by split. }
  destruct (drop_cons text q c l Ed) as (E1 & Hq & _). rewrite Hc, (proj2 (Z.eqb_neq _ _) Hnz).
  assert (Hadv : forall (t : Z * nat * nat) s, (q < s <= length text)%nat ->
    moved p t (skip text s) /\ (c <> 0 -> (p < skip text s)%nat) /\ (fst (fst t) <> 0 -> (p < skip text s)%nat)).
  { intros t s Hss. pose proof (skip_moved s ltac:(lia)). unfold moved. split_and!; [lia|lia|lia|lia]. }
  pose proof (is_symbol_eq c) as Hsy. destruct ((c =? 124) || _ || _ || _ || _ || _); [apply Hadv; lia|].
  destruct (Z.eqb_spec c 62) as [->|Hc'].
  - destruct (Z.eqb_spec (char_at text (S q)) 62) as [E|_]; [|apply Hadv; lia]. apply Hadv. split; [lia|].
    destruct (decide (S q < length text)%nat); [lia|]. unfold char_at in E. by rewrite nth_overflow in E by lia.
  - apply Hadv. assert (Hw : is_word c = true) by (unfold is_word; by rewrite Hsp, Hsy).
    destruct (span_word text q c l Ed Hw). lia.
Qed.

Ltac pos_lia := unfold ends, mret, PM_ret, moved in *; lia.

Lemma parseredirs_ends fuel p : (p <= length text)%nat -> (length text - p < fuel)%nat ->
  ends (parseredirs_loop text fuel) p (moved p).
Proof.
  revert p. induction fuel as [|fuel IH]; intros p Hp Hf; [lia|]. cbn [parseredirs_loop].
  eapply ends_bind; [by apply peek_ends|]. intros b p1 [H1 Hb]. unfold moved in *.
  destruct b; cbn [negb]; [|pos_lia].
  eapply ends_bind; [apply token_ends; lia|]. intros t1 p2 (H2 & Ht & _). unfold moved in *. specialize (Ht (Hb eq_refl)).
  eapply ends_bind; [apply token_ends; lia|]. intros [[a q] e] p3 (H3 & _ & _). unfold moved in *.
  destruct (negb (a =? 97)); [done|]. eapply ends_bind; [apply IH; lia|]. intros rs p4 H4. pos_lia.
Qed.

Lemma parseargs_ends fuel : forall argc p, (p <= length text)%nat -> (length text - p < fuel)%nat ->
  ends (parseargs text fuel argc) p (moved p).
Proof.
  induction fuel as [|fuel IH]; intros argc p Hp Hf; [lia|]. cbn [parseargs].
  eapply ends_bind; [by apply peek_ends|]. intros b p1 [H1 _]. unfold moved in *.
  destruct b; [pos_lia|].
  eapply ends_bind; [apply token_ends; lia|]. intros [[tok q] e] p2 (H2 & _ & Ht). unfold moved in *. cbn [fst] in Ht.
  destruct (Z.eqb_spec tok 0) as [_|Hne]; [pos_lia|]. specialize (Ht Hne).
  destruct (negb (tok =? 97)); [done|]. destruct (_ <=? _)%nat; [done|].
  eapply ends_bind; [apply parseredirs_ends; unfold turns; lia|]. intros rs p3 H3. unfold moved in *.
  eapply ends_bind; [apply IH; lia|]. intros r p4 H4. pos_lia.
Qed.

Lemma parsebacks_ends fuel : forall c p, (p <= length text)%nat -> (length text - p < fuel)%nat ->
  ends (parsebacks text fuel c) p (moved p).
Proof.
  induction fuel as [|fuel IH]; intros c p Hp Hf; [lia|]. cbn [parsebacks].
  eapply ends_bind; [by apply peek_ends|]. intros b p1 [H1 Hb]. unfold moved in *.
  destruct b; cbn [negb]; [|pos_lia].
  eapply ends_bind; [apply token_ends; lia|]. intros t p2 (H2 & Ht & _). unfold moved in *. specialize (Ht (Hb eq_refl)).
  eapply ends_weaken; [apply IH; lia|]. intros c' p3. pos_lia.
Qed.

(** One step of the recursive functions, for all positions. *)
Definition line_ends (fuel : nat) : Prop := forall p, (p <= length text)%nat ->
  (4 * (length text - p) + 2 < fuel)%nat -> ends (parseline text fuel) p (moved p).
Definition pipe_ends (fuel : nat) : Prop := forall p, (p <= length text)%nat ->
  (4 * (length text - p) + 1 < fuel)%nat -> ends (parsepipe text fuel) p (moved p).
Definition exec_ends (fuel : nat) : Prop := forall p, (p <= length text)%nat ->
  (4 * (length text - p) < fuel)%nat -> ends (parseexec text fuel) p (moved p).
Definition block_ends (fuel : nat) : Prop := forall p, (p < length text)%nat ->
  (4 * (length text - p) <= fuel)%nat -> ends (parseblock text fuel) p (moved p).

Lemma pipe_ends_step fuel : exec_ends fuel -> pipe_ends fuel -> pipe_ends (S fuel).
Proof.
  intros He IH p Hp Hf. cbn [parsepipe]. eapply ends_bind; [apply He; lia|]. intros c p1 H1. unfold moved in *.
  eapply ends_bind; [apply peek_ends; lia|]. intros b p2 [H2 Hb]. destruct b; [|pos_lia].
  eapply ends_bind; [apply token_ends; pos_lia|]. intros t p3 (H3 & Ht & _). specialize (Ht (Hb eq_refl)). unfold moved in *.
  eapply ends_bind; [apply IH; lia|]. intros r p4 H4. pos_lia.
Qed.

Lemma line_ends_step fuel : pipe_ends fuel -> line_ends fuel -> line_ends (S fuel).
Proof.
  intros He IH p Hp Hf. cbn [parseline]. eapply ends_bind; [apply He; lia|]. intros c p1 H1. unfold moved in *.
  eapply ends_bind; [apply parsebacks_ends; unfold turns; lia|]. intros c' p1' H1'. unfold moved in *.
  eapply ends_bind; [apply peek_ends; lia|]. intros b p2 [H2 Hb]. destruct b; [|pos_lia].
  eapply ends_bind; [apply token_ends; pos_lia|]. intros t p3 (H3 & Ht & _). specialize (Ht (Hb eq_refl)). unfold moved in *.
  eapply ends_bind; [apply IH; lia|]. intros r p4 H4. pos_lia.
Qed.

Lemma exec_ends_step fuel : block_ends fuel -> exec_ends (S fuel).
Proof.
  intros IH p Hp Hf. cbn [parseexec]. eapply ends_bind; [by apply peek_ends|]. intros b p1 [H1 Hb]. unfold moved in *.
  destruct b.
  - assert (p1 < length text)%nat.
    { destruct (decide (p1 < length text)%nat); [done|]. exfalso. apply (Hb eq_refl).
      destruct (skip_char text no_nul p1 ltac:(lia)) as [[_ Hc]|(c & l & Ed & _)]; [done|].
      apply drop_cons in Ed as (_ & Hlt & _). pose proof (skip_moved p1 ltac:(lia)). lia. }
    eapply ends_weaken; [apply IH; lia|]. intros c p2 H2. pos_lia.
  - eapply ends_bind; [apply parseredirs_ends; unfold turns; lia|]. intros rs p2 H2. unfold moved in *.
    eapply ends_bind; [apply parseargs_ends; unfold turns; lia|]. intros r p3 H3. pos_lia.
Qed.

Lemma block_ends_step fuel : line_ends fuel -> block_ends (S fuel).
Proof.
  intros IH p Hp Hf. cbn [parseblock]. eapply ends_bind; [apply peek_ends; lia|]. intros b p1 [H1 Hb]. unfold moved in *.
  destruct b; [|done]. cbn [negb].
  eapply ends_bind; [apply token_ends; lia|]. intros t p2 (H2 & Ht & _). specialize (Ht (Hb eq_refl)). unfold moved in *.
  eapply ends_bind; [apply IH; lia|]. intros c p3 H3. unfold moved in *.
  eapply ends_bind; [apply peek_ends; lia|]. intros b p4 [H4 _]. destruct b; [|done]. cbn [negb]. unfold moved in *.
  eapply ends_bind; [apply token_ends; lia|]. intros t' p5 (H5 & _). unfold moved in *.
  eapply ends_bind; [apply parseredirs_ends; unfold turns; lia|]. intros rs p6 H6. pos_lia.
Qed.

Lemma parser_ends fuel : line_ends fuel /\ pipe_ends fuel /\ exec_ends fuel /\ block_ends fuel.
Proof.
  induction fuel as [|fuel (IHl & IHp & IHe & IHb)].
  - split_and!; intros p Hp Hf; lia.
  - split_and!; [by apply line_ends_step|by apply pipe_ends_step|by apply exec_ends_step|by apply block_ends_step].
Qed.

Lemma parsecmd_line_ends : parsecmd_line text <> PNoFuel.
Proof.
  assert (He : ends (c ← parseline text (depth text); peek text [];; mret c) 0 (moved 0)).
  { eapply ends_bind; [apply parser_ends; unfold depth; lia|]. intros c p1 H1. unfold moved in *.
    eapply ends_bind; [apply peek_ends; lia|]. intros b p2 [H2 _]. pos_lia. }
  unfold parsecmd_line. unfold ends in He. by destruct ((c ← parseline text (depth text); peek text [];; mret c) O).
Qed.
End Termination.

(** ** The words of a tree *)

Lemma cmd_words_redirs rs : forall c,
  cmd_words (foldl redircmd c rs) = cmd_words c ++ ((fun r => (r_file r, r_efile r)) <$> rs).
Proof.
  induction rs as [|r rs IH]; intros c; cbn [foldl fmap list_fmap]; [by rewrite app_nil_r|].
  rewrite IH. cbn [redircmd cmd_words]. by rewrite <- app_assoc.
Qed.

Lemma redir_of_word r : (r_file (redir_of r), r_efile (redir_of r)) = snd r.
Proof. destruct r as [c [q e]]. cbn. by destruct (c =? 60), (c =? 62). Qed.

Lemma redir_words rs w :
  w ∈ ((fun r => (r_file r, r_efile r)) <$> (redir_of <$> rs)) -> word_token w ∈ redir_tokens rs.
Proof.
  rewrite !list_elem_of_fmap. intros (r & -> & Hr). apply list_elem_of_fmap in Hr as (r0 & -> & Hr). rewrite redir_of_word.
  unfold redir_tokens. rewrite list_elem_of_join. eexists. split; [|apply list_elem_of_fmap; by exists r0].
  right. left.
Qed.

Lemma arg_words args w :
  w ∈ (fst <$> args) \/ w ∈ ((fun r => (r_file r, r_efile r)) <$> (redir_of <$> mjoin (snd <$> args))) ->
  word_token w ∈ arg_tokens args.
Proof.
  unfold arg_tokens. rewrite list_elem_of_join. intros [Hw|Hw].
  - apply list_elem_of_fmap in Hw as (a & -> & Ha). eexists. split; [left|]. apply list_elem_of_fmap. by exists a.
  - apply list_elem_of_fmap in Hw as (r & -> & Hr). apply list_elem_of_fmap in Hr as (r0 & -> & Hr).
    apply list_elem_of_join in Hr as (rs & Hr & Hrs). apply list_elem_of_fmap in Hrs as (a & -> & Ha).
    eexists. split; [right; apply redir_words|apply list_elem_of_fmap; by exists a].
    apply list_elem_of_fmap. exists (redir_of r0). split; [done|]. by apply list_elem_of_fmap_2.
Qed.

Lemma cmd_words_back n c : cmd_words (Nat.iter n BACK c) = cmd_words c.
Proof. induction n; [done|]. done. Qed.

Lemma tree_words :
  (forall e w, w ∈ cmd_words (exec_cmd e) -> word_token w ∈ exec_tokens e) /\
  (forall p w, w ∈ cmd_words (pipe_cmd p) -> word_token w ∈ pipe_tokens p) /\
  (forall l w, w ∈ cmd_words (line_cmd l) -> word_token w ∈ line_tokens l).
Proof.
  apply syn_ind.
  - intros rs args w. cbn [exec_cmd exec_tokens]. rewrite cmd_words_redirs, !fmap_app, !elem_of_app. cbn [cmd_words].
    intros [Hw|[Hw|Hw]]; [right; apply arg_words; by left|left; by apply redir_words|right; apply arg_words; by right].
  - intros l IH rs w. cbn [exec_cmd exec_tokens]. rewrite cmd_words_redirs, elem_of_cons, elem_of_app, elem_of_app, elem_of_cons.
    intros [Hw|Hw]; [auto|]. apply redir_words in Hw. auto.
  - done.
  - intros e IHe p IHp w. cbn. rewrite !elem_of_app, elem_of_cons. intros [Hw|Hw]; auto.
  - intros p IH amps w. cbn. rewrite cmd_words_back, elem_of_app. auto.
  - intros p IHp amps l IHl w. cbn. rewrite cmd_words_back, !elem_of_app, elem_of_cons. intros [Hw|Hw]; auto.
Qed.

(** ** [parsecmd] *)

Lemma cstring_app l rest : Forall (fun c => c <> 0) l -> cstring (l ++ 0 :: rest) = l.
Proof. induction 1 as [|c l Hc _ IH]; cbn; [done|]. by rewrite (proj2 (Z.eqb_neq _ _) Hc), IH. Qed.

Lemma cstring_nonzero l : Forall (fun c => c <> 0) (cstring l).
Proof. induction l as [|c l IH]; cbn; [constructor|]. destruct (Z.eqb_spec c 0); [constructor|by constructor]. Qed.

Section Properties.
Context {St : Type} `{Sys St}.

Lemma puts_ends fd cs (s : St) : exists s', ufor cs (Uprintf.putc fd) s = URet tt s'.
Proof.
  revert s. induction cs as [|c cs IH]; intros s; cbn [ufor]; [by exists s|].
  destruct (IH (snd (os_write fd [u8 c] s))) as (s' & Hs'). exists s'. rewrite <- Hs'. done.
Qed.

(** A message with one string. *)
Lemma fprintf_ends fd before after (str : list Z) (s : St) :
  Forall (fun c => c <> 37) before -> Forall (fun c => c <> 37) after ->
  exists s', Uprintf.fprintf fd (before ++ [37; 115] ++ after) [Uprintf.UStr (Some str)] s = URet tt s'.
Proof.
  assert (Hplain : forall l, Forall (fun c => c <> 37) l -> forall (fmt : list Z) args s,
    exists s', Uprintf.vprintf_loop fd (l ++ fmt) false args s = Uprintf.vprintf_loop fd fmt false args s').
  { induction 1 as [|c l Hc _ IH]; intros fmt args s0; [by exists s0|]. cbn [app Uprintf.vprintf_loop].
    rewrite (proj2 (Z.eqb_neq _ _) Hc). destruct (IH fmt args (snd (os_write fd [u8 c] s0))) as (s' & Hs').
    exists s'. rewrite <- Hs'. done. }
  intros Hb Ha. unfold Uprintf.fprintf, Uprintf.vprintf. destruct (Hplain before Hb ([37; 115] ++ after) [Uprintf.UStr (Some str)] s) as (s1 & ->).
  cbn [app Uprintf.vprintf_loop]. destruct (puts_ends fd str s1) as (s2 & H2).
  assert (Hc : Uprintf.conversion fd 115 [Uprintf.UStr (Some str)] s1 = URet [] s2) by (unfold Uprintf.conversion; cbn; by ustep H2).
  cbn [Z.eqb Pos.eqb]. ustep Hc. rewrite <- (app_nil_r after). destruct (Hplain after Ha [] [] s2) as (s3 & ->). by exists s3.
Qed.

Lemma panic_exits {A} (msg : list Z) (s : St) : exists s', @panic St _ A msg s = Exited 1 s'.
Proof.
  destruct (fprintf_ends 2 [] [nl] msg s ltac:(constructor) ltac:(by repeat constructor)) as (s' & Hf).
  exists s'. unfold panic. change (chars "%s" ++ [nl]) with ([] ++ [37; 115] ++ [nl]). by ustep Hf.
Qed.

(** What [parsecmd] does when the line is not parsed to its end. *)
Lemma parsecmd_fails (buf : list Z) (s : St) :
  (forall c, parsecmd_line (cstring buf) <> POk c (length (cstring buf))) -> exists s', parsecmd buf s = Exited 1 s'.
Proof.
  intros Hno. unfold parsecmd. pose proof (parsecmd_line_ends _ (cstring_nonzero buf)) as Hne.
  destruct (parsecmd_line (cstring buf)) as [c pos|msg|]; [|apply panic_exits|done].
  destruct (Nat.eqb_spec pos (length (cstring buf))) as [->|_]; [by destruct (Hno c)|].
  destruct (fprintf_ends 2 (chars "leftovers: ") [nl] (drop pos (cstring buf)) s) as (s1 & H1); [by repeat constructor..|].
  change (chars "leftovers: %s" ++ [nl]) with (chars "leftovers: " ++ [37; 115] ++ [nl]).
  destruct (@panic_exits (cmd * list Z) (chars "syntax") s1) as (s2 & H2). exists s2. by ustep H1.
Qed.

Lemma parsecmd_returns (buf : list Z) (s : St) c :
  parsecmd_line (cstring buf) = POk c (length (cstring buf)) -> parsecmd buf s = URet (c, nulterminate c buf) s.
Proof. intros E. unfold parsecmd. by rewrite E, Nat.eqb_refl. Qed.

(** C20: the shell's parser.  On every input [parsecmd] ends: it returns a
    command or reports an error and exits with status 1.  On a line whose tokens
    are those of a syntax tree of the grammar it returns the command of the tree,
    whatever the blanks between the tokens, and leaves a buffer in which each
    word of the command is a string of its own, equal to the word in the line.
    On a line that no tree of the grammar has, and only then, it reports the
    error and exits. *)
Theorem parsecmd_correct (buf : list Z) (s : St) :
  ((exists c buf', parsecmd buf s = URet (c, buf') s) \/ (exists s', parsecmd buf s = Exited 1 s')) /\
  (forall text rest l, buf = text ++ 0 :: rest -> Forall (fun c => c <> 0) text ->
     line_ok l -> lex 0 text None = line_tokens l ->
     exists buf', parsecmd buf s = URet (line_cmd l, buf') s /\
       forall q e, (q, e) ∈ cmd_words (line_cmd l) -> string_at buf' q = take (e - q) (drop q text)) /\
  (forall text rest, buf = text ++ 0 :: rest -> Forall (fun c => c <> 0) text ->
     (exists s', parsecmd buf s = Exited 1 s') <-> forall l, line_ok l -> lex 0 text None <> line_tokens l).
Proof.
  assert (Hcase : (exists c, parsecmd_line (cstring buf) = POk c (length (cstring buf))) \/
    forall c, parsecmd_line (cstring buf) <> POk c (length (cstring buf))).
  { destruct (parsecmd_line (cstring buf)) as [c pos| |]; [|by right..].
    destruct (decide (pos = length (cstring buf))) as [->|Hne]; [left; by exists c|right; congruence]. }
  split_and!.
  - destruct Hcase as [[c E]|E]; [left|right; by apply parsecmd_fails].
    eexists _, _. by apply parsecmd_returns.
  - intros text rest l -> Hz Hok Hlex. exists (nulterminate (line_cmd l) (text ++ 0 :: rest)). split.
    + apply parsecmd_returns. rewrite cstring_app by done. by apply parsecmd_line_run.
    + intros q e Hin. rewrite nulterminate_words. apply string_at_word; [done| |done].
      intros q' e' Hin'. apply tree_words in Hin'. rewrite <- Hlex in Hin'.
      apply (lex_spans text q' e' (S (length text)) 0); [lia|exact Hin'].
  - intros text rest -> Hz. split.
    + intros [s' Hex] l Hok Hlex. rewrite (parsecmd_returns _ s (line_cmd l)) in Hex; [done|].
      rewrite cstring_app by done. by apply parsecmd_line_run.
    + intros Hno. destruct Hcase as [[c E]|E]; [|by apply parsecmd_fails].
      rewrite cstring_app in E by done. destruct (parsecmd_line_tree text Hz c E) as (l & Hok & Hlex & _).
      by destruct (Hno l Hok).
Qed.
End Properties.

(** The line "echo hi >f| wc&". *)
Definition sample_line : line_syn :=
  LineEnd (PipeTo (Simple [] [((0, 4), []); ((5, 7), [(62%Z, (9, 10))])]%nat) (PipeEnd (Simple [] [((12, 14), [])]%nat))) 1.

Lemma parsecmd_correct_witness :
  exists buf', @parsecmd _ filter_sys (chars "echo hi >f| wc&" ++ [0]) ([], []) =
      URet (BACK (PIPE (REDIR (EXEC [(0, 4); (5, 7)]) 9 10 (Z.lor (Z.lor O_WRONLY O_CREATE) O_TRUNC) 1) (EXEC [(12, 14)])), buf')%nat ([], []) /\
    string_at buf' 5 = chars "hi".
Proof.
  destruct (@parsecmd_correct _ filter_sys (chars "echo hi >f| wc&" ++ [0]) ([], [])) as (_ & Hp & _).
  destruct (Hp (chars "echo hi >f| wc&") [] sample_line) as (buf' & H1 & H2).
  - reflexivity.
  - apply (bool_decide_unpack _); reflexivity.
  - split_and!; repeat constructor.
  - reflexivity.
  - exists buf'. split; [exact H1|]. apply (H2 5%nat 7%nat). right. left.
Defined.
