(* ===== verification/Programs.v ===== *)
(** * Small user programs

    user/cat.c, echo.c, wc.c, kill.c, ln.c, mkdir.c, rm.c, ls.c, zombie.c,
    stressfs.c, forktest.c and init.c.  A loop that reads until the end of a file or waits for processes is
    given fuel.  [argv] is the list of the arguments, the program's name first. *)

From S2P Require Import Prelude Machine Memory User.
Import Ulib Uprintf.

(** A message with a newline. *)
Definition line (s : string) : list Z := chars s ++ [nl].

Section Programs.
Context {St : Type} `{Sys St}.

(** ** user/cat.c *)

Fixpoint cat (fuel : nat) (fd : Z) : UM St unit :=
  match fuel with
  | O => uno_fuel
  | S f =>
      r ← read fd 512;
      match r with
      | Some (b :: bs) =>
          n ← write 1 (b :: bs);
          if negb (n =? Z.of_nat (length (b :: bs))) then fprintf 2 (line "cat: write error") [];; exit 1
          else cat f fd
      | Some [] => mret tt
      | None => fprintf 2 (line "cat: read error") [];; exit 1
      end
  end.

Definition cat_main (fuel : nat) (argv : list (list Z)) : UM St unit :=
  match argv with
  | _ :: file :: files =>
      ufor (file :: files) (fun file =>
        fd ← open file 0;
        if fd <? 0 then fprintf 2 (line "cat: cannot open %s") [UStr (Some file)];; exit 1
        else cat fuel fd;; close fd;; mret tt);;
      exit 0
  | _ => cat fuel 0;; exit 0
  end.

(** ** user/echo.c *)

Fixpoint echo_args (args : list (list Z)) : UM St unit :=
  match args with
  | [] => mret tt
  | a :: args' =>
      write 1 a;;
      match args' with
      | [] => write 1 [nl];; mret tt
      | _ => write 1 [32];; echo_args args'
      end
  end.

Definition echo_main (argv : list (list Z)) : UM St unit := echo_args (tail argv);; exit 0.

(** ** user/wc.c *)

(** The counters [l], [w] and [c], and whether the last character was in a word. *)
Record counts := Counts { c_lines : Z; c_words : Z; c_chars : Z; c_inword : bool }.

Definition wc_char (k : counts) (ch : Z) : counts :=
  let c := s32 (c_chars k + 1) in
  let l := if ch =? nl then s32 (c_lines k + 1) else c_lines k in
  match strchr [32; 13; 9; 10; 11] ch with
  | Some _ => Counts l (c_words k) c false
  | None => if c_inword k then Counts l (c_words k) c true else Counts l (s32 (c_words k + 1)) c true
  end.

Fixpoint wc_loop (fuel : nat) (fd : Z) (k : counts) : UM St counts :=
  match fuel with
  | O => uno_fuel
  | S f =>
      r ← read fd 512;
      match r with
      | Some (b :: bs) => wc_loop f fd (foldl wc_char k (b :: bs))
      | Some [] => mret k
      | None => printf (line "wc: read error") [];; exit 1
      end
  end.

Definition wc (fuel : nat) (fd : Z) (name : list Z) : UM St unit :=
  k ← wc_loop fuel fd (Counts 0 0 0 false);
  printf (line "%d %d %d %s") [UInt (c_lines k); UInt (c_words k); UInt (c_chars k); UStr (Some name)].

Definition wc_main (fuel : nat) (argv : list (list Z)) : UM St unit :=
  match argv with
  | _ :: file :: files =>
      ufor (file :: files) (fun file =>
        fd ← open file 0;
        if fd <? 0 then printf (line "wc: cannot open %s") [UStr (Some file)];; exit 1
        else wc fuel fd file;; close fd;; mret tt);;
      exit 0
  | _ => wc fuel 0 [];; exit 0
  end.

(** ** user/kill.c, ln.c, mkdir.c, rm.c and zombie.c *)

Definition kill_main (argv : list (list Z)) : UM St unit :=
  if (length argv <? 2)%nat then fprintf 2 (line "usage: kill pid...") [];; exit 1 else
  ufor (tail argv) (fun a => kill (atoi a) SIGKILL;; mret tt);;
  exit 0.

Definition ln_main (argv : list (list Z)) : UM St unit :=
  match argv with
  | [_; old; new] =>
      r ← link old new;
      uwhen (r <? 0) (fprintf 2 (line "link %s %s: failed") [UStr (Some old); UStr (Some new)]);;
      exit 0
  | _ => fprintf 2 (line "Usage: ln old new") [];; exit 1
  end.

(** A loop over names that stops after the first failure. *)
Fixpoint until_failure (f : list Z -> UM St Z) (msg : list Z) (names : list (list Z)) : UM St unit :=
  match names with
  | [] => mret tt
  | a :: names' =>
      r ← f a;
      if r <? 0 then fprintf 2 msg [UStr (Some a)] else until_failure f msg names'
  end.

Definition mkdir_main (argv : list (list Z)) : UM St unit :=
  if (length argv <? 2)%nat then fprintf 2 (line "Usage: mkdir files...") [];; exit 1 else
  until_failure mkdir (line "mkdir: %s failed to create") (tail argv);;
  exit 0.

Definition rm_main (argv : list (list Z)) : UM St unit :=
  if (length argv <? 2)%nat then fprintf 2 (line "Usage: rm files...") [];; exit 1 else
  until_failure unlink (line "rm: %s failed to delete") (tail argv);;
  exit 0.

Definition zombie_main : UM St unit :=
  pid ← fork;
  uwhen (0 <? pid) (sleep 5;; mret tt);;
  exit 0.

(** ** user/stressfs.c *)

(** The loop that makes the processes: the number [i] of the one that goes on. *)
Fixpoint stress_fork (n : nat) (i : Z) : UM St Z :=
  match n with
  | O => mret i
  | S n' => pid ← fork; if 0 <? pid then mret i else stress_fork n' (i + 1)
  end.

Definition stressfs_main : UM St unit :=
  printf (line "stressfs starting") [];;
  let data := replicate 512 97 in
  i ← stress_fork 4 0;
  printf (line "write %d") [UInt i];;
  let path := alter (fun b => u8 (b + i)) 8%nat (chars "stressfs0") in
  fd ← open path (Z.lor O_CREATE O_RDWR);
  ufor (seq 0 20) (fun _ => write fd data;; mret tt);;
  close fd;;
  printf (line "read") [];;
  fd ← open path O_RDONLY;
  ufor (seq 0 20) (fun _ => read fd 512;; mret tt);;
  close fd;;
  wait;;
  exit 0.

(** ** user/forktest.c *)

Definition print (s : list Z) : UM St unit := write 1 s;; mret tt.

(** The first loop: the number of children, at most [n] more. *)
Fixpoint fork_all (n : nat) (count : Z) : UM St Z :=
  match n with
  | O => mret count
  | S n' =>
      pid ← fork;
      if pid <? 0 then mret count
      else if pid =? 0 then exit 0
      else fork_all n' (count + 1)
  end.

Definition forktest : UM St unit :=
  print (line "fork test");;
  n ← fork_all 1000 0;
  if n =? 1000 then print (line "fork claimed to work N times!");; exit 1 else
  ufor (seq 0 (Z.to_nat n)) (fun _ =>
    r ← wait;
    if r <? 0 then print (line "wait stopped early");; exit 1 else mret tt);;
  r ← wait;
  if negb (r =? -1) then print (line "wait got too many");; exit 1 else
  print (line "fork test OK").

Definition forktest_main : UM St unit := forktest;; exit 0.

(** ** user/init.c *)

(** Waits for the shell [pid]; other children are orphans. *)
Fixpoint init_wait (fuel : nat) (pid : Z) : UM St unit :=
  match fuel with
  | O => uno_fuel
  | S f =>
      wpid ← wait;
      if wpid =? pid then mret tt
      else if wpid <? 0 then printf (line "init: wait returned an error") [];; exit 1
      else init_wait f pid
  end.

Fixpoint init_loop (fuel : nat) : UM St unit :=
  match fuel with
  | O => uno_fuel
  | S f =>
      printf (line "init: starting sh") [];;
      pid ← fork;
      if pid <? 0 then printf (line "init: fork failed") [];; exit 1 else
      if pid =? 0 then exec (chars "sh") [chars "sh"];; printf (line "init: exec sh failed") [];; exit 1 else
      init_wait fuel pid;;
      init_loop f
  end.

Definition init_main (fuel : nat) : UM St unit :=
  fd ← open (chars "console") O_RDWR;
  uwhen (fd <? 0) (mknod (chars "console") 1 0;; open (chars "console") O_RDWR;; mret tt);;
  dup 0;;
  dup 0;;
  init_loop fuel.

(** ** user/ls.c *)

(** The loop of [fmtname]: the position after the last slash at or before [p]. *)
Fixpoint after_slash (path : list Z) (p : nat) : nat :=
  if nth p path 0 =? 47 then S p else
  match p with
  | O => O
  | S p' => after_slash path p'
  end.

(** [DIRSIZ] of kernel/fs.h. *)
Definition name_size : nat := 14.

Definition fmtname (path : list Z) : list Z :=
  let p := drop (after_slash path (strlen path)) path in
  if (name_size <=? strlen p)%nat then p
  else p ++ replicate (name_size - strlen p) 32.

(** The entries of the directory open as [fd]; [prefix] is the path with a
    slash.  The inode number is in the first two bytes of an entry. *)
Fixpoint ls_entries (fuel : nat) (fd : Z) (prefix : list Z) : UM St unit :=
  match fuel with
  | O => uno_fuel
  | S f =>
      r ← read fd 16;
      match r with
      | Some de =>
          if negb (length de =? 16)%nat then mret tt else
          (if le_val (take 2 de) =? 0 then mret tt else
           let name := prefix ++ cstring (drop 2 de) in
           st ← ustat name;
           match st with
           | None => printf (line "ls: cannot stat %s") [UStr (Some name)]
           | Some st =>
               printf (line "%s %d %d %d")
                 [UStr (Some (fmtname name)); UInt (st_type st); UInt (st_ino st); UInt (st_size st)]
           end);;
          ls_entries f fd prefix
      | None => mret tt
      end
  end.

Definition ls (fuel : nat) (path : list Z) : UM St unit :=
  fd ← open path 0;
  if fd <? 0 then fprintf 2 (line "ls: cannot open %s") [UStr (Some path)] else
  r ← fstat fd;
  match r with
  | None => fprintf 2 (line "ls: cannot stat %s") [UStr (Some path)];; close fd;; mret tt
  | Some st =>
      (if st_type st =? 2 then
         printf (line "%s %d %d %l")
           [UStr (Some (fmtname path)); UInt (st_type st); UInt (st_ino st); UInt (st_size st)]
       else if st_type st =? 1 then
         if (512 <? strlen path + 1 + name_size + 1)%nat then printf (line "ls: path too long") []
         else ls_entries fuel fd (path ++ [47])
       else mret tt);;
      close fd;;
      mret tt
  end.

Definition ls_main (fuel : nat) (argv : list (list Z)) : UM St unit :=
  if (length argv <? 2)%nat then ls fuel (chars ".");; exit 0 else
  ufor (tail argv) (ls fuel);;
  exit 0.

End Programs.
