(* ===== verification/Umalloc.v ===== *)
(** * The user-space allocator (user/umalloc.c)

    The free blocks form a circular list in address order, threaded through a
    header at the beginning of each block; blocks are measured in units of the
    header, 16 bytes.  The state is the headers in memory by their address, the
    pointer [freep] and the end of the process's memory, which [sbrk] moves. *)

From S2P Require Import Prelude Machine Memory.

Definition unit_size : Z := 16.

Record header := Header { h_ptr : Z; h_size : Z }.

Record heap := Heap { hdrs : gmap Z header; freep : Z; brk : Z }.

Definition set_hdrs (m : gmap Z header) (h : heap) : heap := Heap m (freep h) (brk h).
Definition set_freep (p : Z) (h : heap) : heap := Heap (hdrs h) p (brk h).
Definition set_brk (b : Z) (h : heap) : heap := Heap (hdrs h) (freep h) b.

(** The header at an address; there must have been one. *)
Definition hdr (a : Z) : M heap header := x ← gets (fun h => hdrs h !! a); of_option x.

(** Stores to the two fields.  Memory that was never a header reads as zero. *)
Definition put_ptr (a v : Z) : M heap unit :=
  modify (fun h => set_hdrs (<[a := Header v (default 0 (h_size <$> hdrs h !! a))]> (hdrs h)) h).
Definition put_size (a v : Z) : M heap unit :=
  modify (fun h => set_hdrs (<[a := Header (default 0 (h_ptr <$> hdrs h !! a)) (u32 v)]> (hdrs h)) h).

(** The address [n] units after [a]. *)
Definition unit_after (a n : Z) : Z := a + unit_size * n.

(** The loop of [free]: the free block after which [bp] belongs. *)
Fixpoint find_place (fuel : nat) (bp p : Z) : M heap Z :=
  match fuel with
  | O => no_fuel
  | S f =>
      x ← hdr p;
      if (p <? bp) && (bp <? h_ptr x) then mret p else
      if (h_ptr x <=? p) && ((p <? bp) || (bp <? h_ptr x)) then mret p else
      find_place f bp (h_ptr x)
  end.

(** The first test of [free], for the headers [b] of [bp] and [x] of [p]: join
    [bp] with the block after [p]. *)
Definition join_next (bp : Z) (b x : header) : M heap unit :=
  if unit_after bp (h_size b) =? h_ptr x then
    n ← hdr (h_ptr x);
    put_size bp (h_size b + h_size n);;
    put_ptr bp (h_ptr n)
  else put_ptr bp (h_ptr x).

(** The second test: join [p] with [bp]. *)
Definition join_prev (p bp : Z) (b x : header) : M heap unit :=
  if unit_after p (h_size x) =? bp then
    put_size p (h_size x + h_size b);;
    put_ptr p (h_ptr b)
  else put_ptr p bp.

(** A turn of a loop for each header, and one more. *)
Definition free (ap : Z) : M heap unit :=
  let bp := ap - unit_size in
  h ← get_st;
  p ← find_place (S (size (hdrs h))) bp (freep h);
  b ← hdr bp;
  x ← hdr p;
  join_next bp b x;;
  b ← hdr bp;
  x ← hdr p;
  join_prev p bp b x;;
  modify (set_freep p).

Section Malloc.
(** The address of [base]; whether the kernel lets the memory that ends at [b]
    grow by [n] bytes. *)
Context (base : Z) (grants : Z -> Z -> bool).

(** The system call: the old end of the memory, or -1. *)
Definition sbrk (n : Z) : M heap Z :=
  b ← gets brk;
  if grants b n then modify (set_brk (b + n));; mret b else mret (-1).

Definition morecore (nu : Z) : M heap Z :=
  let nu := if nu <? 4096 then 4096 else nu in
  p ← sbrk (s32 (nu * unit_size));
  if p =? -1 then mret 0 else
  put_size p nu;;
  free (unit_after p 1);;
  gets freep.

(** [p] is big enough: cut the block out of the list, or cut its end off. *)
Definition take_block (nunits prevp p : Z) (x : header) : M heap Z :=
  r ← (if h_size x =? nunits then put_ptr prevp (h_ptr x);; mret p
       else
         let size := u32 (h_size x - nunits) in
         put_size p size;;
         put_size (unit_after p size) nunits;;
         mret (unit_after p size));
  modify (set_freep prevp);;
  mret (unit_after r 1).

Fixpoint malloc_loop (fuel : nat) (nunits prevp p : Z) : M heap Z :=
  match fuel with
  | O => no_fuel
  | S f =>
      x ← hdr p;
      if nunits <=? h_size x then take_block nunits prevp p x else
      fp ← gets freep;
      if p =? fp then
        p ← morecore nunits;
        if p =? 0 then mret 0 else
        x ← hdr p; malloc_loop f nunits p (h_ptr x)
      else malloc_loop f nunits p (h_ptr x)
  end.

Definition malloc (nbytes : Z) : M heap Z :=
  let nunits := u32 ((nbytes + unit_size - 1) / unit_size + 1) in
  fp ← gets freep;
  when (fp =? 0) (put_ptr base base;; modify (set_freep base);; put_size base 0);;
  h ← get_st;
  let prevp := freep h in
  x ← hdr prevp;
  malloc_loop (2 * size (hdrs h) + 4) nunits prevp (h_ptr x).

End Malloc.
