(* ===== verification/UmallocSpec.v ===== *)
(** * What the user-space allocator guarantees

    The circular list of Umalloc.v is a sequence of blocks in address order, no
    two of which touch, beginning with the empty block [base].  Blocks that were
    handed out are disjoint from these and from each other. *)

From S2P Require Import Prelude Machine Memory Umalloc.

(** A block: its address and its size in units. *)
Notation block := (Z * Z)%type.
Definition bend (b : block) : Z := unit_after (fst b) (snd b).

(** The first address of a list that continues at [e]. *)
Definition from (l : list block) (e : Z) : Z := match l with [] => e | b :: _ => fst b end.

(** The blocks of [l] are linked, and the last one points to [e]. *)
Fixpoint lseg (m : gmap Z header) (l : list block) (e : Z) : Prop :=
  match l with
  | [] => True
  | b :: l' => m !! fst b = Some (Header (from l' e) (snd b)) /\ lseg m l' e
  end.

(** The blocks lie after [lo] in address order with gaps between them, and end
    before [hi]. *)
Fixpoint ordered (lo : Z) (l : list block) (hi : Z) : Prop :=
  match l with
  | [] => lo <= hi
  | b :: l' => lo < fst b /\ 0 <= snd b /\ ordered (bend b) l' hi
  end.

Definition apart (x y : block) : Prop := bend x <= fst y \/ bend y <= fst x.

Fixpoint pairwise_apart (l : list block) : Prop :=
  match l with
  | [] => True
  | x :: l' => Forall (apart x) l' /\ pairwise_apart l'
  end.

Lemma apart_sym x y : apart x y -> apart y x.
Proof. unfold apart. tauto. Qed.

Lemma pairwise_remove l1 x l2 : pairwise_apart (l1 ++ x :: l2) -> pairwise_apart (x :: l1 ++ l2).
Proof.
  induction l1 as [|y l1 IH]; [done|]. cbn. intros [Hy Hp]. destruct (IH Hp) as [Hx Hp'].
  apply Forall_app in Hy as [Hy1 Hy2]. apply Forall_cons in Hy2 as [Hyx Hy2].
  split_and!; [constructor; [by apply apart_sym|done]|by apply Forall_app|done].
Qed.

Lemma pairwise_lookup l : forall i j x y,
  pairwise_apart l -> l !! i = Some x -> l !! j = Some y -> i <> j -> apart x y.
Proof.
  induction l as [|z l IH]; intros [|i] [|j] x y; cbn; try done; intros [Hz Hp] Hx Hy Hij.
  - injection Hx as ->. by eapply Forall_lookup_1.
  - injection Hy as ->. apply apart_sym. by eapply Forall_lookup_1.
  - by eapply (IH i j); [| | |lia].
Qed.

(** The end of the last block. *)
Fixpoint last_end (lo : Z) (l : list block) : Z :=
  match l with [] => lo | b :: l' => last_end (bend b) l' end.

Lemma ordered_app lo l1 l2 hi :
  ordered lo (l1 ++ l2) hi <-> ordered lo l1 (last_end lo l1) /\ ordered (last_end lo l1) l2 hi.
Proof. revert lo. induction l1 as [|b l1 IH]; intros lo; cbn; [intuition lia|]. rewrite IH. tauto. Qed.

Lemma ordered_le lo l hi : ordered lo l hi -> lo <= hi.
Proof.
  revert lo. induction l as [|b l IH]; intros lo; cbn; [done|]. intros (H1 & H2 & H3). apply IH in H3.
  unfold bend, unit_after, unit_size in H3. lia.
Qed.

Lemma ordered_hi lo l hi hi' : ordered lo l hi -> hi <= hi' -> ordered lo l hi'.
Proof. revert lo. induction l as [|b l IH]; intros lo; cbn; [lia|]. intros (H1 & H2 & H3) Hh. auto. Qed.

Lemma ordered_elem lo l hi b : ordered lo l hi -> b ∈ l -> lo < fst b /\ 0 <= snd b /\ bend b <= hi.
Proof.
  revert lo. induction l as [|c l IH]; intros lo Ho Hb; [by apply elem_of_nil in Hb|]. cbn in Ho. destruct Ho as (H1 & H2 & H3).
  apply elem_of_cons in Hb as [->|Hb]; [split_and!; [done|done|by apply ordered_le in H3]|].
  destruct (IH _ H3 Hb) as (? & ? & ?). unfold bend, unit_after, unit_size in *. lia.
Qed.

Lemma ordered_before lo xs b ys hi c : ordered lo (xs ++ b :: ys) hi -> c ∈ fst <$> xs -> c < fst b.
Proof.
  intros Ho Hc. apply list_elem_of_fmap in Hc as (d & -> & Hd). apply ordered_app in Ho as [Hx Ho].
  destruct (ordered_elem _ _ _ d Hx Hd) as (_ & H1 & H2). cbn in Ho. unfold bend, unit_after, unit_size in H2. lia.
Qed.

Lemma ordered_lo lo lo' l hi : ordered lo l hi -> lo' <= lo -> ordered lo' l hi.
Proof. destruct l as [|b l]; cbn; [lia|]. intros (? & ? & ?) ?. split_and!; try done. lia. Qed.

Lemma ordered_apart lo xs b ys hi : ordered lo (xs ++ b :: ys) hi -> Forall (apart b) (xs ++ ys).
Proof.
  intros Ho. apply ordered_app in Ho as [Hx Ho]. cbn in Ho. destruct Ho as (H1 & H2 & H3). apply Forall_app. split; apply Forall_forall; intros c Hc.
  - right. destruct (ordered_elem _ _ _ c Hx Hc) as (_ & _ & ?). lia.
  - left. destruct (ordered_elem _ _ _ c H3 Hc). lia.
Qed.

Lemma lseg_app m l1 l2 e : lseg m (l1 ++ l2) e <-> lseg m l1 (from l2 e) /\ lseg m l2 e.
Proof.
  induction l1 as [|b l1 IH]; cbn; [tauto|]. rewrite IH.
  replace (from (l1 ++ l2) e) with (from l1 (from l2 e)) by (by destruct l1). tauto.
Qed.

Lemma lseg_frame m l e a x : lseg m l e -> a ∉ fst <$> l -> lseg (<[a := x]> m) l e.
Proof.
  induction l as [|b l IH]; cbn; [done|]. rewrite not_elem_of_cons. intros [H1 H2] [Hn Hl].
  split; [by rewrite lookup_insert_ne|auto].
Qed.

Lemma ordered_addr lo l hi a : ordered lo l hi -> a <= lo -> a ∉ fst <$> l.
Proof.
  intros Ho Ha Hin. apply list_elem_of_fmap in Hin as (b & -> & Hb). destruct (ordered_elem _ _ _ _ Ho Hb). lia.
Qed.

Lemma ordered_nodup lo l hi : ordered lo l hi -> NoDup (fst <$> l).
Proof.
  revert lo. induction l as [|b l IH]; intros lo; cbn; [constructor|]. intros (H1 & H2 & H3). constructor; [|by eapply IH].
  eapply ordered_addr; [exact H3|]. unfold bend, unit_after, unit_size. lia.
Qed.

(** There are at least as many headers as blocks. *)
Lemma lseg_size m l e lo hi : lseg m l e -> ordered lo l hi -> (length l <= size m)%nat.
Proof.
  intros Hl Ho. rewrite <- size_dom. replace (length l) with (length (fst <$> l)) by apply length_fmap.
  rewrite <- (size_list_to_set (C := gset Z)) by (by eapply ordered_nodup). apply subseteq_size. intros a Ha.
  apply elem_of_list_to_set, list_elem_of_fmap in Ha as (b & -> & Hb). clear Ho.
  apply elem_of_dom. induction l as [|c l IH]; [by apply elem_of_nil in Hb|]. destruct Hl as [H1 H2].
  apply elem_of_cons in Hb as [->|Hb]; [by eexists|auto].
Qed.

(** The units of a list of blocks. *)
Fixpoint units (l : list block) : Z := match l with [] => 0 | b :: l' => snd b + units l' end.

Lemma units_app l1 l2 : units (l1 ++ l2) = units l1 + units l2.
Proof. induction l1 as [|b l1 IH]; cbn; lia. Qed.

Lemma last_cons_default {A} (l : list A) (a b : A) : List.last (a :: l) b = List.last l a.
Proof. revert a b. induction l as [|c l IH]; intros a b; [done|]. change (List.last (a :: c :: l) b) with (List.last (c :: l) b). by rewrite !IH. Qed.

Lemma first_fit n (r : list block) :
  Forall (fun b => snd b < n) r \/ exists r1 b r2, r = r1 ++ b :: r2 /\ Forall (fun b => snd b < n) r1 /\ n <= snd b.
Proof.
  induction r as [|c r IH]; [by left|]. destruct (Z.lt_ge_cases (snd c) n) as [Hc|Hc]; [|right; by exists [], c, r].
  destruct IH as [IH|(r1 & b & r2 & -> & H1 & H2)]; [left; by constructor|]. right. exists (c :: r1), b, r2. split_and!; try done. by constructor.
Qed.

(** In the list read from [f] around to [f], every block but the first of the
    list comes after its predecessor. *)
Lemma rotation_pred us (f : block) vs r1 b r2 b0 bs :
  vs ++ us ++ [f] = r1 ++ b :: r2 -> us ++ f :: vs = b0 :: bs -> b <> b0 ->
  exists xs q ys, us ++ f :: vs = xs ++ q :: b :: ys /\ fst q = List.last (fst <$> r1) (fst f).
Proof.
  assert (Hlast : forall us (q : block) d, List.last (fst <$> us ++ [q]) d = fst q) by (intros; rewrite fmap_app; apply last_last).
  intros E E0 Hb. apply app_eq_app in E as (w & [[Ev Ew]|[Er Ew]]); [destruct w as [|c w]|].
  - rewrite app_nil_r in Ev. subst vs. destruct us as [|u us]; cbn in Ew; injection Ew as -> Ew; cbn in E0; injection E0 as -> _; done.
  - injection Ew as <- ->. subst vs. destruct r1 as [|c r1 _] using rev_ind; [by exists us, f, w|].
    exists (us ++ f :: r1), c, w. rewrite Hlast. split; [by rewrite <- !app_assoc|done].
  - subst r1. apply app_eq_app in Ew as (v & [[Eu Ev]|[Eu Ev]]); [destruct v as [|c v]|].
    + rewrite app_nil_r in Eu. subst w. cbn in Ev. injection Ev as -> _. destruct us as [|u us _] using rev_ind; [cbn in E0; congruence|].
      exists us, u, vs. split; [by rewrite <- app_assoc|by rewrite app_assoc, Hlast].
    + injection Ev as <- ->. subst us. destruct w as [|c w _] using rev_ind; [cbn in E0; congruence|].
      exists w, c, (v ++ f :: vs). split; [by rewrite <- !app_assoc|by rewrite app_assoc, Hlast].
    + destruct v as [|c v]; cbn in Ev; [|destruct v; done]. injection Ev as -> _. rewrite app_nil_r in Eu. subst w.
      destruct us as [|u us _] using rev_ind; [cbn in E0; congruence|].
      exists us, u, vs. split; [by rewrite <- app_assoc|by rewrite app_assoc, Hlast].
Qed.

(** ** Running the allocator's steps *)

Lemma hdr_run a x h : hdrs h !! a = Some x -> hdr a h = Done x h.
Proof. intros E. unfold hdr. mrun. by rewrite E. Qed.

Lemma put_ptr_run a v x h :
  hdrs h !! a = Some x -> put_ptr a v h = Done tt (set_hdrs (<[a := Header v (h_size x)]> (hdrs h)) h).
Proof. intros E. unfold put_ptr, modify. by rewrite E. Qed.

Lemma put_size_run a v x h :
  hdrs h !! a = Some x -> put_size a v h = Done tt (set_hdrs (<[a := Header (h_ptr x) (u32 v)]> (hdrs h)) h).
Proof. intros E. unfold put_size, modify. by rewrite E. Qed.

Lemma ordered_from lo mid b ys hi e :
  ordered lo (mid ++ b :: ys) hi -> lo < from (mid ++ b :: ys) e <= fst b.
Proof.
  destruct mid as [|d mid]; cbn [from app ordered]; [lia|]. intros (H1 & H2 & H3).
  destruct (ordered_elem _ _ _ b H3) as (H4 & _); [set_solver|]. unfold bend, unit_after, unit_size in H4. lia.
Qed.

Section Free.
Context (base : Z).

(** [a] belongs after the block [p] that is followed by [ys]. *)
Definition place (a p : Z) (ys : list block) : Prop :=
  p < a /\ match ys with [] => base <= p | y :: _ => a < fst y end.

Lemma find_before a p sp ys mid : forall fuel lo hi h,
  lseg (hdrs h) (mid ++ (p, sp) :: ys) base -> ordered lo (mid ++ (p, sp) :: ys) hi -> place a p ys ->
  base <= lo + 1 -> (length mid < fuel)%nat ->
  find_place fuel a (from (mid ++ (p, sp) :: ys) base) h = Done p h.
Proof.
  induction mid as [|[c sc] mid IH]; intros [|fuel] lo hi h Hl Ho [Hp Hy] Hlo Hf; [lia| |lia|]; cbn [find_place from app fst].
  - destruct Hl as [Hx _]. cbn in Hx. mstep (hdr_run p _ h Hx). cbn [h_ptr]. cbn in Ho. destruct ys as [|[y sy] ys]; cbn [from fst] in *.
    + rewrite (proj2 (Z.ltb_lt p a)), (proj2 (Z.ltb_ge a base)), (proj2 (Z.leb_le base p)) by lia. done.
    + rewrite (proj2 (Z.ltb_lt p a)), (proj2 (Z.ltb_lt a y)) by lia. done.
  - destruct Hl as [Hx Hl]. cbn in Hx. mstep (hdr_run c _ h Hx). cbn [h_ptr]. cbn [app ordered fst snd] in Ho. destruct Ho as (H1 & H2 & H3).
    set (nx := from (mid ++ (p, sp) :: ys) base).
    pose proof (ordered_from _ _ _ _ _ base H3) as Hnx. fold nx in Hnx. unfold bend, unit_after, unit_size in Hnx. cbn in Hnx.
    rewrite (proj2 (Z.ltb_ge a nx)), (proj2 (Z.leb_gt nx c)), andb_false_r by lia. cbn [andb].
    apply (IH fuel (bend (c, sc)) hi); try done; [|cbn in Hf; lia]. unfold bend, unit_after, unit_size. cbn. lia.
Qed.

(** From a block after the place, around the end of the list. *)
Lemma find_after a p sp xs ys vs : forall fuel lo hi h,
  lseg (hdrs h) (xs ++ (p, sp) :: ys) base -> ordered (base - 1) (xs ++ (p, sp) :: ys) hi -> place a p ys ->
  from (xs ++ (p, sp) :: ys) base = base ->
  lseg (hdrs h) vs base -> ordered lo vs hi -> vs <> [] -> a < from vs base -> base <= a ->
  (length vs + length xs < fuel)%nat ->
  find_place fuel a (from vs base) h = Done p h.
Proof.
  induction vs as [|[c sc] vs IH]; intros [|fuel] lo hi h Hl Ho Hp Hb Hv Hov Hne Ha Hba Hf; [done|done|cbn in Hf; lia|].
  cbn [find_place from fst] in *. destruct Hv as [Hx Hv]. cbn in Hx. mstep (hdr_run c _ h Hx). cbn [h_ptr].
  rewrite (proj2 (Z.ltb_ge c a)) by lia. cbn [andb orb]. cbn [ordered fst snd] in Hov. destruct Hov as (H1 & H2 & H3).
  destruct vs as [|[d sd] vs].
  - cbn [from]. rewrite (proj2 (Z.leb_le base c)), (proj2 (Z.ltb_ge a base)) by lia. cbn [andb].
    rewrite <- Hb at 1. apply (find_before a p sp ys xs fuel (base - 1) hi); try done; [lia|cbn in Hf; lia].
  - cbn [from fst] in *. cbn [ordered fst snd] in H3. destruct H3 as (H4 & H5 & H6). unfold bend, unit_after, unit_size in H4. cbn in H4.
    rewrite (proj2 (Z.leb_gt d c)) by lia. cbn [andb].
    apply (IH fuel (bend (c, sc)) hi h Hl Ho Hp Hb Hv); [|done|cbn; lia|done|cbn in Hf |- *; lia].
    cbn [ordered fst snd]. unfold bend at 1, unit_after, unit_size. cbn. auto.
Qed.

(** [find_place] from any block of the list. *)
Lemma find_place_run a p sp xs ys h hi fp :
  lseg (hdrs h) (xs ++ (p, sp) :: ys) base -> ordered (base - 1) (xs ++ (p, sp) :: ys) hi -> place a p ys ->
  from (xs ++ (p, sp) :: ys) base = base -> base <= a -> fp ∈ fst <$> (xs ++ (p, sp) :: ys) ->
  find_place (S (size (hdrs h))) a fp h = Done p h.
Proof.
  intros Hl Ho Hp Hb Ha Hin. pose proof (lseg_size _ _ _ _ _ Hl Ho) as Hs. rewrite length_app in Hs. cbn in Hs.
  apply list_elem_of_fmap in Hin as ([c sc] & -> & Hc). apply elem_of_app in Hc as [Hc|Hc].
  - apply list_elem_of_split in Hc as (us & vs & ->). rewrite <- app_assoc in *. cbn [app] in *.
    apply lseg_app in Hl as [_ Hl]. apply ordered_app in Ho as [Hus Ho]. rewrite length_app in Hs. cbn in Hs.
    change (c) with (from (((c, sc) :: vs) ++ (p, sp) :: ys) base).
    apply (find_before a p sp ys ((c, sc) :: vs) _ (last_end (base - 1) us) hi); try done; [|cbn; lia].
    apply ordered_le in Hus. lia.
  - apply elem_of_cons in Hc as [[= -> ->]|Hc].
    + apply lseg_app in Hl as [_ Hl]. apply ordered_app in Ho as [Hus Ho].
      change p with (from ([] ++ (p, sp) :: ys) base) at 1.
      apply (find_before a p sp ys [] _ (last_end (base - 1) xs) hi); try done; [|cbn; lia]. apply ordered_le in Hus. lia.
    + apply list_elem_of_split in Hc as (us & vs & ->). cbn [fst].
      change c with (from ((c, sc) :: vs) base) at 1.
      pose proof Hl as Hv. apply lseg_app in Hv as [_ Hv]. destruct Hv as [_ Hv]. apply lseg_app in Hv as [_ Hv].
      pose proof Ho as Hov. apply ordered_app in Hov as [_ Hov]. cbn [ordered fst snd] in Hov. destruct Hov as (_ & _ & Hov).
      assert (Hac : a < c).
      { destruct Hp as [_ Hy]. pose proof (ordered_from _ _ _ _ _ base Hov) as Hfr. cbn [fst] in Hfr.
        destruct us as [|[u su] us]; cbn in Hy, Hfr; lia. }
      apply ordered_app in Hov as [_ Hov]. rewrite length_app in Hs. cbn in Hs.
      eapply (find_after a p sp xs _ ((c, sc) :: vs)); try done; cbn; lia.
Qed.

(** ** The invariant *)

(** A block in use, its size in its header. *)
Definition used (m : gmap Z header) (hi : Z) (x : block) : Prop :=
  base < fst x /\ 0 < snd x /\ bend x <= hi /\ h_size <$> m !! fst x = Some (snd x).

(** [l] are the free blocks, [al] the blocks in use. *)
Record heap_ok (h : heap) (l al : list block) : Prop := {
  ho_base : 0 < base < brk h;
  ho_brk : brk h < 2 ^ 36;
  ho_head : exists bs, l = (base, 0) :: bs;
  ho_list : lseg (hdrs h) l base;
  ho_order : ordered (base - 1) l (brk h);
  ho_size : Forall (fun b => fst b = base \/ 0 < snd b) l;
  ho_freep : freep h ∈ fst <$> l;
  ho_alloc : Forall (used (hdrs h) (brk h)) al;
  ho_apart : Forall (fun x => Forall (apart x) l) al;
  ho_disjoint : pairwise_apart al
}.

(** Where a block that is apart from all free blocks belongs. *)
Lemma locate (x : block) l : forall p0 sp0,
  Forall (apart x) l -> Forall (fun b => 0 < snd b) l -> 0 < snd x -> p0 < fst x -> bend (p0, sp0) <= fst x ->
  exists xs p sp ys, (p0, sp0) :: l = xs ++ (p, sp) :: ys /\ p < fst x /\ bend (p, sp) <= fst x /\
    match ys with [] => True | y :: _ => bend x <= fst y end.
Proof.
  induction l as [|[c sc] l IH]; intros p0 sp0 Ha Hs Hx H0 He; [by exists [], p0, sp0, []|].
  apply Forall_cons in Ha as [Hac Ha]. apply Forall_cons in Hs as [Hsc Hs]. cbn in Hsc. destruct Hac as [Hac|Hac].
  - by exists [], p0, sp0, ((c, sc) :: l).
  - unfold bend, unit_after, unit_size in Hac. cbn in Hac.
    destruct (IH c sc Ha Hs Hx) as (xs & p & sp & ys & E & Hr); [lia|unfold bend, unit_after, unit_size; cbn; lia|].
    exists ((p0, sp0) :: xs), p, sp, ys. split; [cbn; by rewrite E|done].
Qed.

(** A list of free blocks [l] after [lo] in the memory [m]. *)
Definition free_list (m : gmap Z header) (lo : Z) (l : list block) (hi : Z) : Prop :=
  lseg m l base /\ ordered lo l hi /\ Forall (fun b => 0 < snd b) l.

(** Joining [a], which lies before [ys], with the first of them. *)
Lemma join_next_run h a s pa ys hi x :
  hdrs h !! a = Some (Header pa s) -> h_ptr x = from ys base -> base < a -> 0 < s -> hi < 2 ^ 36 -> 0 <= base ->
  free_list (hdrs h) (a + 1) ys hi -> match ys with [] => bend (a, s) <= hi | y :: _ => bend (a, s) <= fst y end ->
  exists s1 ys1, join_next a (Header pa s) x h = Done tt (set_hdrs (<[a := Header (from ys1 base) s1]> (hdrs h)) h) /\
    s <= s1 /\ s1 + units ys1 = s + units ys /\ (length ys1 <= length ys)%nat /\ free_list (hdrs h) (bend (a, s1)) ys1 hi /\
    forall z, 0 < snd z -> apart z (a, s) -> Forall (apart z) ys -> apart z (a, s1) /\ Forall (apart z) ys1.
Proof.
  intros Ha Hx Hba Hs Hhi Hb (Hl & Ho & Hp) Hend. unfold join_next. cbn [h_size h_ptr]. rewrite Hx.
  destruct (Z.eqb_spec (unit_after a s) (from ys base)) as [E|E].
  - destruct ys as [|[n sn] ys]; cbn [from fst] in *; [unfold unit_after, unit_size in E; lia|]. destruct Hl as [Hn Hl].
    mstep (hdr_run n _ h Hn). cbn [h_size h_ptr]. mstep (put_size_run a (s + sn) _ h Ha).
    rewrite (put_ptr_run a _ (Header pa (u32 (s + sn)))) by apply lookup_insert_eq. cbn [h_size set_hdrs hdrs freep brk].
    rewrite insert_insert_eq. cbn [ordered fst snd] in Ho. destruct Ho as (H1 & H2 & H3). apply Forall_cons in Hp as [Hsn Hp].
    pose proof (ordered_le _ _ _ H3) as Hle. unfold bend, unit_after, unit_size in Hle, E. cbn in Hle, Hsn.
    exists (s + sn), ys. rewrite u32_small by lia. cbn [units length snd]. split; [done|]. split_and!; [lia|lia|lia| |].
    + split; [done|]. split; [|done]. replace (bend (a, s + sn)) with (bend (n, sn)); [done|].
      unfold bend, unit_after, unit_size. cbn. lia.
    + intros z Hz Hza Hzy. apply Forall_cons in Hzy as [Hzn Hzy]. split; [|done].
      unfold apart, bend, unit_after, unit_size in *. cbn in *. lia.
  - rewrite (put_ptr_run a _ _ h Ha). cbn [h_size]. exists s, ys. split; [done|]. split_and!; [lia|done|done| |done].
    split; [done|]. split; [|done]. destruct ys as [|[n sn] ys]; [done|]. cbn [ordered fst snd from] in *.
    split; [|tauto]. unfold bend in Hend |- *. cbn in *. lia.
Qed.

(** What replaces [p] and its successors when [a] is joined to it. *)
Record joined (m : gmap Z header) (p sp a s1 : Z) (ys1 : list block) (hi : Z) (zs : list block) : Prop := {
  jo_list : lseg m zs base;
  jo_head : exists sp' t, zs = (p, sp') :: t /\ (p = base -> sp' = sp);
  jo_order : forall lo, lo < p -> ordered lo zs hi;
  jo_size : Forall (fun b => fst b = base \/ 0 < snd b) zs;
  jo_apart : forall z, 0 < snd z -> apart z (p, sp) -> apart z (a, s1) -> Forall (apart z) ys1 -> Forall (apart z) zs;
  jo_units : units zs = sp + s1 + units ys1;
  jo_length : (length zs <= S (S (length ys1)))%nat;
  jo_big : exists b, b ∈ zs /\ s1 <= snd b
}.

Lemma join_prev_run h p sp nx a s1 ys1 hi :
  hdrs h !! p = Some (Header nx sp) -> hdrs h !! a = Some (Header (from ys1 base) s1) ->
  (p = base -> sp = 0) -> (p = base \/ 0 < sp) -> base < a -> 0 < s1 -> bend (p, sp) <= a -> p < a ->
  0 <= p -> hi < 2 ^ 36 -> free_list (hdrs h) (bend (a, s1)) ys1 hi ->
  exists x zs, join_prev p a (Header (from ys1 base) s1) (Header nx sp) h = Done tt (set_hdrs (<[p := x]> (hdrs h)) h) /\
    joined (<[p := x]> (hdrs h)) p sp a s1 ys1 hi zs.
Proof.
  intros Hp Ha Hb0 Hsp Hba Hs Hend Hpa Hp0 Hhi (Hl & Ho & Hpos). unfold join_prev. cbn [h_size h_ptr].
  pose proof (ordered_le _ _ _ Ho) as Hle.
  assert (Hny : forall c, c <= a -> c ∉ fst <$> ys1).
  { intros c Hc. apply (ordered_addr _ _ _ _ Ho). unfold bend, unit_after, unit_size. cbn. lia. }
  assert (Hpos' : Forall (fun b : block => fst b = base \/ 0 < snd b) ys1) by (eapply Forall_impl; [exact Hpos|]; auto).
  unfold bend, unit_after, unit_size in Hle, Hend. cbn in Hle, Hend.
  destruct (Z.eqb_spec (unit_after p sp) a) as [E|E].
  - mstep (put_size_run p (sp + s1) _ h Hp).
    rewrite (put_ptr_run p _ (Header nx (u32 (sp + s1)))) by apply lookup_insert_eq. cbn [h_size set_hdrs hdrs freep brk].
    rewrite insert_insert_eq. unfold unit_after, unit_size in E.
    assert (Hpb : p <> base) by (intros ->; rewrite (Hb0 eq_refl) in E; lia).
    eexists _, ((p, sp + s1) :: ys1). split; [done|]. rewrite u32_small by lia. split; cbn [units snd length].
    + split; [apply lookup_insert_eq|]. apply lseg_frame; [done|]. apply Hny. lia.
    + by exists (sp + s1), ys1.
    + intros lo Hlo. cbn [ordered fst snd]. split_and!; [done|lia|].
      replace (bend (p, sp + s1)) with (bend (a, s1)); [done|]. unfold bend, unit_after, unit_size. cbn. lia.
    + constructor; [cbn; right; lia|done].
    + intros z Hz H1 H2 H3. constructor; [|done]. unfold apart, bend, unit_after, unit_size in *. cbn in *. lia.
    + lia.
    + lia.
    + exists (p, sp + s1). split; [apply elem_of_cons; by left|cbn; lia].
  - rewrite (put_ptr_run p _ _ h Hp). cbn [h_size]. unfold unit_after, unit_size in E.
    eexists _, ((p, sp) :: (a, s1) :: ys1). split; [done|]. split; cbn [units snd length].
    + split; [apply lookup_insert_eq|]. apply lseg_frame; [by split|]. cbn. apply not_elem_of_cons. split; [lia|apply Hny; lia].
    + by exists sp, ((a, s1) :: ys1).
    + intros lo Hlo. cbn [ordered fst snd]. unfold bend at 1, unit_after, unit_size. cbn. split_and!; try done; lia.
    + constructor; [done|]. constructor; [right; cbn; lia|done].
    + intros z Hz H1 H2 H3. constructor; [done|by constructor].
    + lia.
    + lia.
    + exists (a, s1). split; [apply elem_of_cons; right; apply elem_of_cons; by left|done].
Qed.

(** The neighbours of a block in use. *)
Record neighbours (h : heap) (a s : Z) (xs : list block) (p sp : Z) (ys : list block) : Prop := {
  nb_before : p < a /\ bend (p, sp) <= a;
  nb_base : base < a /\ 0 < s /\ base <= p /\ (p = base -> sp = 0) /\ (p = base \/ 0 < sp);
  nb_hdr : exists pa, hdrs h !! a = Some (Header pa s);
  nb_prev : hdrs h !! p = Some (Header (from ys base) sp);
  nb_next : match ys with [] => bend (a, s) <= brk h | y :: _ => bend (a, s) <= fst y end;
  nb_list : free_list (hdrs h) (a + 1) ys (brk h);
  nb_place : place a p ys
}.

Lemma find_neighbours h l al a s :
  heap_ok h l al -> (a, s) ∈ al -> exists xs p sp ys, l = xs ++ (p, sp) :: ys /\ neighbours h a s xs p sp ys.
Proof.
  intros [Hb Hhi (bs & ->) Hl Ho Hs Hf Hal Hap Hd] Hin.
  rewrite Forall_forall in Hal, Hap. destruct (Hal _ Hin) as (H1 & H2 & H3 & H4). specialize (Hap _ Hin).
  apply Forall_cons in Hap as [Ha0 Hap]. cbn [fst snd] in H1, H2, H4. cbn [ordered fst snd] in Ho. destruct Ho as (Ho1 & _ & Ho).
  assert (Hbs : Forall (fun b : block => 0 < snd b) bs).
  { apply Forall_cons in Hs as [_ Hs]. rewrite Forall_forall in Hs |- *. intros b Hbb. destruct (Hs b Hbb) as [E|]; [|done].
    destruct (ordered_elem _ _ _ b Ho Hbb) as (Hlt & _). unfold bend, unit_after, unit_size in Hlt. cbn in Hlt. lia. }
  destruct (locate (a, s) bs base 0 Hap Hbs) as (xs & p & sp & ys & E & Hp & Hpe & Hy); [cbn; lia..|unfold bend, unit_after; cbn; lia|].
  exists xs, p, sp, ys. split; [done|]. cbn [fst] in *.
  assert (Ho' : ordered (base - 1) (xs ++ (p, sp) :: ys) (brk h)) by (rewrite <- E; by split_and!).
  assert (Hpb : (p = base /\ sp = 0) \/ (base < p /\ 0 < sp)).
  { assert (Hpin : (p, sp) ∈ (base, 0) :: bs) by (rewrite E; apply elem_of_app; right; apply elem_of_cons; by left).
    apply elem_of_cons in Hpin as [[= -> ->]|Hpin]; [by left|right].
    destruct (ordered_elem _ _ _ _ Ho Hpin) as (Hlt & _). rewrite Forall_forall in Hbs. pose proof (Hbs _ Hpin).
    unfold bend, unit_after in Hlt. cbn in *. lia. }
  rewrite E in Hl. apply lseg_app in Hl as [_ [Hhp Hl]]. apply ordered_app in Ho' as [_ Ho']. cbn [ordered fst snd] in Ho'.
  destruct Ho' as (_ & _ & Hoy).
  split; try done; [lia|..].
  - destruct (hdrs h !! a) as [[pa sa]|]; [|done]. cbn in H4. exists pa. congruence.
  - destruct ys as [|[y sy] ys]; [done|]. cbn in Hy |- *. done.
  - split; [done|]. split; [|].
    + destruct ys as [|[y sy] ys]; cbn [ordered fst snd] in *; [unfold bend, unit_after, unit_size in H3; cbn in H3; lia|].
      destruct Hoy as (? & ? & ?). split_and!; try done. unfold bend, unit_after, unit_size in Hy. cbn in Hy. lia.
    + destruct xs as [|x xs]; cbn in E; [injection E as _ _ ->; done|]. injection E as _ ->. apply Forall_app in Hbs as [_ Hbs]. by apply Forall_cons in Hbs as [_ Hbs].
  - split; [done|]. destruct ys as [|[y sy] ys]; [lia|]. unfold bend, unit_after, unit_size in Hy. cbn in Hy |- *. lia.
Qed.

(** The same blocks in use, none of which begins at an address that changed. *)
Lemma alloc_frame (m m' : gmap Z header) hi al :
  (forall x, x ∈ al -> m' !! fst x = m !! fst x) -> Forall (used m hi) al -> Forall (used m' hi) al.
Proof. rewrite !Forall_forall. unfold used. intros Hm H x Hx. rewrite (Hm x Hx). auto. Qed.

Lemma apart_addr (x y : block) : apart x y -> 0 < snd x -> 0 < snd y -> fst x <> fst y.
Proof. unfold apart, bend, unit_after, unit_size. lia. Qed.

(** A block in use does not begin where a free block does. *)
Lemma alloc_not_free h l al z b : heap_ok h l al -> z ∈ al -> b ∈ l -> fst z <> fst b.
Proof.
  intros Hh Hz Hb. pose proof (ho_alloc _ _ _ Hh) as Hal. pose proof (ho_apart _ _ _ Hh) as Hap. pose proof (ho_size _ _ _ Hh) as Hs.
  rewrite Forall_forall in Hal, Hap, Hs. destruct (Hal _ Hz) as (H1 & H2 & _). destruct (Hs _ Hb) as [E|Hp]; [lia|].
  specialize (Hap _ Hz). rewrite Forall_forall in Hap. by apply apart_addr; [apply Hap| |].
Qed.

(** The list that [free] leaves satisfies the invariant. *)
Lemma joined_ok h xs p sp ys a s al m zs s1 ys1 :
  heap_ok h (xs ++ (p, sp) :: ys) ((a, s) :: al) ->
  joined m p sp a s1 ys1 (brk h) zs -> p < a -> sp = 0 \/ base < p ->
  (forall c, c <> a -> c <> p -> m !! c = hdrs h !! c) ->
  (forall z, 0 < snd z -> apart z (a, s) -> Forall (apart z) ys -> apart z (a, s1) /\ Forall (apart z) ys1) ->
  heap_ok (Heap m p (brk h)) (xs ++ zs) al.
Proof.
  intros Hh [Jl (sp' & t & -> & Jh) Jo Js Ja Ju Jn Jb] Hpa Hsp Hm Hz. pose proof Hh as [Hb Hhi (bs & Hbs) Hl Ho Hs Hf Hal Hap [Hd1 Hd]].
  assert (Hbef : forall c, c ∈ fst <$> xs -> c < p) by (intros c; apply (ordered_before _ _ _ _ _ c Ho)).
  assert (Hpin : (p, sp) ∈ xs ++ (p, sp) :: ys) by (apply elem_of_app; right; apply elem_of_cons; by left).
  apply Forall_cons in Hal as [Ha Hal]. apply Forall_cons in Hap as [_ Hap].
  split; cbn [brk freep hdrs]; try done.
  - destruct xs as [|x xs]; cbn in Hbs; [|injection Hbs as -> _; by eexists]. injection Hbs as Hp0 Hs0 _. rewrite (Jh Hp0), Hs0, Hp0. by eexists.
  - apply lseg_app in Hl as [Hx _]. apply lseg_app. split; [|done]. cbn [from fst] in Hx |- *.
    assert (Hxm : forall c, c ∈ fst <$> xs -> m !! c = hdrs h !! c) by (intros c Hc; apply Hbef in Hc; apply Hm; lia).
    clear -Hx Hxm. induction xs as [|b xs IH]; [done|]. destruct Hx as [H1 H2]. split; [|apply IH; [done|intros; apply Hxm; by apply elem_of_cons; right]].
    rewrite Hxm; [done|apply elem_of_cons; by left].
  - apply ordered_app in Ho as [Hox Ho]. apply ordered_app. split; [done|]. apply Jo. cbn in Ho. lia.
  - apply Forall_app in Hs as [Hs _]. by apply Forall_app.
  - rewrite fmap_app. apply elem_of_app. right. apply elem_of_cons. by left.
  - apply (alloc_frame (hdrs h)); [|done]. intros x Hx. apply Hm.
    + rewrite Forall_forall in Hd1, Hal. destruct Ha as (_ & Ha & _). apply not_eq_sym, (apart_addr (a, s) x); [by apply Hd1|done|].
      by destruct (Hal _ Hx) as (_ & ? & _).
    + eapply (alloc_not_free _ _ _ x (p, sp) Hh); [apply elem_of_cons; by right|done].
  - rewrite Forall_forall in Hap, Hal, Hd1 |- *. intros x Hx. specialize (Hap x Hx). destruct (Hal x Hx) as (_ & Hx0 & _).
    apply Forall_app in Hap as [Hapx Hap]. apply Forall_cons in Hap as [Happ Hap].
    destruct (Hz x Hx0) as [H1 H2]; [by apply apart_sym, Hd1|done|]. apply Forall_app. split; [done|]. by apply Ja.
Qed.

Lemma heap_ok_perm h l al1 x al2 : heap_ok h l (al1 ++ x :: al2) -> heap_ok h l (x :: al1 ++ al2).
Proof.
  intros [Hb Hhi Hh Hl Ho Hs Hf Hal Hap Hd]. split; try done; [..|by apply pairwise_remove].
  - by rewrite <- Permutation_middle in Hal.
  - by rewrite <- Permutation_middle in Hap.
Qed.

(** [free] puts the block back and loses nothing. *)
Lemma free_run h l a s al :
  heap_ok h l ((a, s) :: al) ->
  exists h' l', free (unit_after a 1) h = Done tt h' /\ heap_ok h' l' al /\ brk h' = brk h /\
    units l' = units l + s /\ (length l' <= S (length l))%nat /\ exists b, b ∈ l' /\ s <= snd b.
Proof.
  intros Hh. destruct (find_neighbours h l _ a s Hh) as (xs & p & sp & ys & -> & Hn); [apply elem_of_cons; by left|].
  destruct Hn as [[Hpa Hpe] (Hba & Hs & Hbp & Hsp & Hsp') (pa & Ha) Hp Hy Hfl Hpl]. pose proof Hh as [Hb Hhi (bs & Hbs) Hl Ho _ Hf _ _ _].
  unfold free. replace (unit_after a 1 - unit_size) with a by (unfold unit_after, unit_size; lia). mrun.
  assert (E0 : find_place (S (size (hdrs h))) a (freep h) h = Done p h).
  { apply (find_place_run a p sp xs ys h (brk h)); try done; [by rewrite Hbs|lia]. }
  mstep E0.
  mstep (hdr_run a _ h Ha). mstep (hdr_run p _ h Hp).
  destruct (join_next_run h a s pa ys (brk h) (Header (from ys base) sp) Ha) as (s1 & ys1 & E1 & Hs1 & Hu1 & Hn1 & Hf1 & Hz); try done; [lia|].
  mstep E1. set (h1 := set_hdrs _ h).
  assert (Ha1 : hdrs h1 !! a = Some (Header (from ys1 base) s1)) by apply lookup_insert_eq.
  assert (Hp1 : hdrs h1 !! p = Some (Header (from ys base) sp)) by (cbn; by rewrite lookup_insert_ne by lia).
  assert (Hf1' : free_list (hdrs h1) (bend (a, s1)) ys1 (brk h)).
  { destruct Hf1 as (F1 & F2 & F3). split; [|done]. apply lseg_frame; [done|]. eapply ordered_addr; [exact F2|].
    unfold bend, unit_after, unit_size. cbn. lia. }
  mstep (hdr_run a _ h1 Ha1). mstep (hdr_run p _ h1 Hp1).
  destruct (join_prev_run h1 p sp (from ys base) a s1 ys1 (brk h)) as (x & zs & E2 & Hj); try done; [lia..|].
  mstep E2. eexists _, (xs ++ zs). split; [done|]. cbn. split_and!.
  - eapply (joined_ok h xs p sp ys a s); try done; [|intros c Hc1 Hc2; cbn; by rewrite !lookup_insert_ne by done].
    destruct Hsp'; [left; auto|]. destruct (Z.eq_dec p base); [left; auto|right; lia].
  - done.
  - rewrite !units_app, (jo_units _ _ _ _ _ _ _ _ Hj). cbn. lia.
  - rewrite !length_app. pose proof (jo_length _ _ _ _ _ _ _ _ Hj). cbn. lia.
  - destruct (jo_big _ _ _ _ _ _ _ _ Hj) as (b & Hb1 & Hb2). exists b. split; [apply elem_of_app; by right|lia].
Qed.

End Free.

Section Alloc.
Context (base : Z) (grants : Z -> Z -> bool).

(** The kernel's limit on the size of a process. *)
Hypothesis grants_bound : forall b n, grants b n = true -> b + n < 2 ^ 36.

(** ** Growing the heap *)

Lemma grow_ok h l al nu d :
  heap_ok base h l al -> 0 < nu -> unit_after (brk h) nu < 2 ^ 36 ->
  heap_ok base (Heap (<[brk h := Header d nu]> (hdrs h)) (freep h) (unit_after (brk h) nu)) l ((brk h, nu) :: al).
Proof.
  intros [Hb Hhi Hh Hl Ho Hs Hf Hal Hap Hd] Hnu Hlim. assert (Hle : brk h <= unit_after (brk h) nu) by (unfold unit_after, unit_size; lia).
  assert (Hin : forall b : block, b ∈ l -> fst b < brk h).
  { intros b Hbl. rewrite Forall_forall in Hs. destruct (ordered_elem _ _ _ b Ho Hbl) as (_ & _ & He).
    unfold bend, unit_after, unit_size in He. destruct (Hs b Hbl); lia. }
  assert (Hu : forall x : block, x ∈ al -> fst x < brk h /\ bend x <= brk h).
  { intros x Hx. rewrite Forall_forall in Hal. destruct (Hal x Hx) as (_ & Hx0 & Hxe & _). split; [|done].
    unfold bend, unit_after, unit_size in Hxe. lia. }
  split; cbn [brk hdrs freep]; try done; [lia| | | | |].
  - apply lseg_frame; [done|]. intros Hc. apply list_elem_of_fmap in Hc as (b & E & Hbl). apply Hin in Hbl. lia.
  - by eapply ordered_hi.
  - constructor.
    + unfold used. cbn [fst snd]. rewrite lookup_insert_eq. split_and!; try done; lia.
    + apply (alloc_frame _ (hdrs h)).
      * intros x Hx. apply lookup_insert_ne. apply Hu in Hx. lia.
      * eapply Forall_impl; [exact Hal|]. intros x (? & ? & ? & ?). split_and!; try done. lia.
  - constructor; [|done]. apply Forall_forall. intros b Hbl. destruct (ordered_elem _ _ _ b Ho Hbl) as (_ & _ & He). by right.
  - cbn. split; [|done]. apply Forall_forall. intros x Hx. right. by apply Hu.
Qed.

Lemma sbrk_run n h :
  sbrk grants n h = if grants (brk h) n then Done (brk h) (set_brk (brk h + n) h) else Done (-1) h.
Proof. unfold sbrk. mrun. by destruct (grants (brk h) n). Qed.

Lemma morecore_run h l al nu :
  heap_ok base h l al -> 0 < nu -> nu * unit_size < 2 ^ 31 ->
  (morecore grants nu h = Done 0 h /\ grants (brk h) (unit_size * Z.max nu 4096) = false) \/
  exists h' l', morecore grants nu h = Done (freep h') h' /\ heap_ok base h' l' al /\
    units l' = units l + Z.max nu 4096 /\ (length l' <= S (length l))%nat /\ exists b, b ∈ l' /\ nu <= snd b.
Proof.
  intros Hh Hnu Hlim. unfold morecore. replace (if nu <? 4096 then 4096 else nu) with (Z.max nu 4096) by (destruct (Z.ltb_spec nu 4096); lia).
  set (n := Z.max nu 4096) in *. pose proof (ho_base _ _ _ _ Hh) as Hb.
  unfold unit_size in Hlim. rewrite s32_small by (unfold unit_size; lia). replace (n * unit_size) with (unit_size * n) by lia.
  pose proof (sbrk_run (unit_size * n) h) as Hs. destruct (grants (brk h) (unit_size * n)) eqn:Hg; [right|left; by mstep Hs].
  mstep Hs. rewrite (proj2 (Z.eqb_neq (brk h) (-1))) by lia. unfold put_size at 1. mrun. cbn [brk hdrs freep set_brk set_hdrs].
  rewrite u32_small by lia. pose proof (grants_bound _ _ Hg) as Hbd.
  destruct (free_run base _ _ _ _ _ (grow_ok h l al n (default 0 (h_ptr <$> hdrs h !! brk h)) Hh ltac:(lia) ltac:(unfold unit_after; lia)))
    as (h' & l' & E & Hh' & _ & Hu & Hn & b & Hb1 & Hb2).
  mstep E. exists h', l'. split_and!; try done. exists b. split; [done|lia].
Qed.

(** ** Cutting a block out *)

Lemma not_first q sq p sp xs ys h al :
  heap_ok base h (xs ++ (q, sq) :: (p, sp) :: ys) al -> base < p /\ base <= q /\ q < p /\ 0 < sp.
Proof.
  intros Hh. pose proof (ho_order _ _ _ _ Hh) as Ho. apply ordered_app in Ho as [Hx Ho]. apply ordered_le in Hx.
  cbn in Ho. destruct Ho as (H1 & H2 & H3 & H4 & H5). unfold bend, unit_after, unit_size in H3. cbn in H3.
  pose proof (ho_size _ _ _ _ Hh) as Hs. apply Forall_app in Hs as [_ Hs]. apply Forall_cons in Hs as [_ Hs].
  apply Forall_cons in Hs as [[Hs|Hs] _]; cbn in Hs; lia.
Qed.

(** A block of the size wanted leaves the list. *)
Lemma take_all h xs q sq p sp ys al :
  heap_ok base h (xs ++ (q, sq) :: (p, sp) :: ys) al ->
  heap_ok base (Heap (<[q := Header (from ys base) sq]> (hdrs h)) q (brk h)) (xs ++ (q, sq) :: ys) ((p, sp) :: al).
Proof.
  intros Hh. destruct (not_first _ _ _ _ _ _ _ _ Hh) as (Hpb & Hqb & Hqp & Hsp0).
  pose proof Hh as [Hb Hhi (bs & Hbs) Hl Ho Hs Hf Hal Hap Hd]. pose proof (ordered_before _ _ _ _ _ q Ho) as Hqx. cbn [fst] in Hqx.
  pose proof (lseg_app (hdrs h) xs) as Hla. rewrite Hla in Hl. destruct Hl as [Hlx (Hlq & Hlp & Hly)]. cbn [fst snd from] in *.
  pose proof Ho as Ho'. apply ordered_app in Ho' as [Hox (Ho1 & Ho2 & Ho3 & Ho4 & Ho5)]. cbn [fst snd] in *.
  assert (Hqy : ordered (bend (q, sq)) ys (brk h)) by (eapply ordered_lo; [exact Ho5|]; unfold bend, unit_after, unit_size in *; cbn in *; lia).
  assert (Hap' : Forall (apart (p, sp)) (xs ++ (q, sq) :: ys)).
  { pose proof (ordered_apart (base - 1) (xs ++ [(q, sq)]) (p, sp) ys (brk h)) as Hx. rewrite <- !app_assoc in Hx. by apply Hx. }
  split; cbn [brk hdrs freep]; try done.
  - destruct xs as [|x xs]; injection Hbs as -> ?; [|by eexists]. subst. by eexists.
  - apply lseg_app. cbn [from lseg fst snd]. split_and!.
    + apply lseg_frame; [done|]. intros Hin. apply Hqx in Hin. lia.
    + apply lookup_insert_eq.
    + apply lseg_frame; [done|]. eapply ordered_addr; [exact Hqy|]. unfold bend, unit_after, unit_size. cbn. lia.
  - by apply ordered_app.
  - apply Forall_app in Hs as [Hs1 Hs2]. apply Forall_cons in Hs2 as [Hs2 Hs3]. apply Forall_cons in Hs3 as [_ Hs3].
    apply Forall_app. split; [done|]. by constructor.
  - rewrite fmap_app. apply elem_of_app. right. apply elem_of_cons. by left.
  - constructor.
    + unfold used. cbn [fst snd]. rewrite lookup_insert_ne, Hlp by lia. split_and!; try done. by apply ordered_le in Ho5.
    + apply (alloc_frame _ (hdrs h)); [|done]. intros x Hx. apply lookup_insert_ne. apply not_eq_sym.
      apply (alloc_not_free base _ _ _ x (q, sq) Hh Hx). apply elem_of_app. right. apply elem_of_cons. by left.
  - constructor; [done|]. eapply Forall_impl; [exact Hap|]. intros x Hx. apply Forall_app in Hx as [Hx1 Hx2].
    apply Forall_cons in Hx2 as [Hx2 Hx3]. apply Forall_cons in Hx3 as [_ Hx3]. apply Forall_app. split; [done|]. by constructor.
  - cbn. split; [|done]. eapply Forall_impl; [exact Hap|]. intros x Hx. apply Forall_app in Hx as [_ Hx].
    apply Forall_cons in Hx as [_ Hx]. apply Forall_cons in Hx as [Hx _]. by apply apart_sym.
Qed.

(** The end of a larger block is cut off. *)
Lemma take_end h xs q p sp ys al n d :
  heap_ok base h (xs ++ (p, sp) :: ys) al -> base < p -> 0 < n < sp -> q ∈ fst <$> xs ->
  heap_ok base (Heap (<[unit_after p (sp - n) := Header d n]> (<[p := Header (from ys base) (sp - n)]> (hdrs h))) q (brk h))
    (xs ++ (p, sp - n) :: ys) ((unit_after p (sp - n), n) :: al).
Proof.
  intros Hh Hpb Hn Hq. pose proof Hh as [Hb Hhi (bs & Hbs) Hl Ho Hs Hf Hal Hap Hd]. set (a := unit_after p (sp - n)).
  assert (Ha : bend (a, n) = bend (p, sp) /\ p < a /\ a < bend (p, sp) /\ bend (p, sp - n) = a)
    by (unfold a, bend, unit_after, unit_size; cbn; lia). destruct Ha as (Ha1 & Ha2 & Ha3 & Ha4).
  pose proof (fun c => ordered_before _ _ _ _ _ c Ho) as Hpx. cbn [fst] in Hpx.
  apply lseg_app in Hl as [Hlx [Hlp Hly]]. cbn [fst snd from] in *.
  pose proof Ho as Ho'. apply ordered_app in Ho' as [Hox (Ho1 & Ho2 & Ho3)]. cbn [fst snd] in *.
  assert (Hsub : forall z, 0 < snd z -> apart z (p, sp) -> apart z (a, n) /\ apart z (p, sp - n))
    by (intros z Hz; unfold a, apart, bend, unit_after, unit_size; cbn; lia).
  assert (Hp' : forall x, x ∈ al -> 0 < snd x /\ Forall (apart x) xs /\ apart x (p, sp) /\ Forall (apart x) ys).
  { intros x Hx. rewrite Forall_forall in Hal, Hap. destruct (Hal x Hx) as (_ & Hx0 & _). specialize (Hap x Hx).
    apply Forall_app in Hap as [Hx1 Hx2]. apply Forall_cons in Hx2 as [Hx2 Hx3]. done. }
  split; cbn [brk hdrs freep]; try done.
  - destruct xs as [|x xs]; [by apply elem_of_nil in Hq|]. injection Hbs as -> _. by eexists.
  - apply lseg_app. cbn [from lseg fst snd]. split_and!.
    + apply lseg_frame; [apply lseg_frame; [done|]|]; intros Hin; apply Hpx in Hin; lia.
    + rewrite lookup_insert_ne by lia. apply lookup_insert_eq.
    + apply lseg_frame; [apply lseg_frame; [done|]|]; eapply ordered_addr; try exact Ho3; lia.
  - apply ordered_app. cbn [ordered fst snd]. split_and!; try done; [lia|]. eapply ordered_lo; [exact Ho3|lia].
  - apply Forall_app in Hs as [Hs1 Hs2]. apply Forall_cons in Hs2 as [_ Hs2]. apply Forall_app. split; [done|].
    constructor; [right; cbn; lia|done].
  - rewrite fmap_app. apply elem_of_app. by left.
  - constructor.
    + unfold used. cbn [fst snd]. rewrite lookup_insert_eq, Ha1. split_and!; try done; [lia..|by apply ordered_le in Ho3].
    + apply (alloc_frame _ (hdrs h)); [|done]. intros x Hx. destruct (Hp' x Hx) as (Hx0 & _ & Hxp & _).
      rewrite !lookup_insert_ne; [done|..]; unfold apart, bend, unit_after, unit_size, a in *; cbn in *; lia.
  - constructor.
    + pose proof (ordered_apart _ _ _ _ _ Ho) as Hx. apply Forall_app in Hx as [Hx1 Hx2]. apply Forall_app.
      assert (Hsame : forall c, apart (p, sp) c -> 0 <= snd c -> apart (a, n) c) by (intros c; unfold a, apart, bend, unit_after, unit_size; cbn; lia).
      split; [|constructor; [right; cbn [fst]; lia|]]; apply Forall_forall; intros c Hc; apply Hsame.
      * rewrite Forall_forall in Hx1. auto.
      * by destruct (ordered_elem _ _ _ c Hox Hc) as (_ & ? & _).
      * rewrite Forall_forall in Hx2. auto.
      * by destruct (ordered_elem _ _ _ c Ho3 Hc) as (_ & ? & _).
    + apply Forall_forall. intros x Hx. destruct (Hp' x Hx) as (Hx0 & H1 & H2 & H3). apply Forall_app. split; [done|].
      constructor; [|done]. by apply Hsub.
  - cbn. split; [|done]. apply Forall_forall. intros x Hx. destruct (Hp' x Hx) as (Hx0 & _ & H2 & _). by apply apart_sym, Hsub.
Qed.

(** Together: a block of [n] units of [p] is in use afterwards. *)
Lemma take_run h xs q sq p sp ys al n :
  heap_ok base h (xs ++ (q, sq) :: (p, sp) :: ys) al -> 0 < n <= sp ->
  exists a h' l', take_block n q p (Header (from ys base) sp) h = Done (unit_after a 1) h' /\
    heap_ok base h' l' ((a, n) :: al) /\ units l' + n = units (xs ++ (q, sq) :: (p, sp) :: ys).
Proof.
  intros Hh Hn. destruct (not_first _ _ _ _ _ _ _ _ Hh) as (Hpb & Hqb & Hqp & _).
  pose proof (ho_list _ _ _ _ Hh) as Hl. apply lseg_app in Hl as [_ (Hlq & Hlp & _)]. cbn [fst snd from] in *.
  pose proof (ho_order _ _ _ _ Hh) as Ho. apply ordered_app in Ho as [_ (_ & _ & _ & _ & Ho)]. apply ordered_le in Ho.
  pose proof (ho_brk _ _ _ _ Hh) as Hhi. pose proof (ho_base _ _ _ _ Hh) as Hb. unfold bend, unit_after, unit_size in Ho. cbn in Ho.
  unfold take_block. cbn [h_size h_ptr]. destruct (Z.eqb_spec sp n) as [->|Hne].
  - exists p. do 2 eexists. split; [|split; [by apply (take_all _ _ _ _ _ _ _ _ Hh)|rewrite !units_app; cbn; lia]].
    assert (E : (put_ptr q (from ys base);; mret p) h = Done p (set_hdrs (<[q := Header (from ys base) sq]> (hdrs h)) h))
      by (by mstep (put_ptr_run q (from ys base) _ h Hlq)).
    by mstep E.
  - rewrite (u32_small (sp - n)) by lia. exists (unit_after p (sp - n)).
    set (h1 := set_hdrs (<[p := Header (from ys base) (sp - n)]> (hdrs h)) h).
    set (d := default 0 (h_ptr <$> hdrs h1 !! unit_after p (sp - n))).
    set (h2 := set_hdrs (<[unit_after p (sp - n) := Header d n]> (hdrs h1)) h1).
    assert (E : (put_size p (sp - n);; put_size (unit_after p (sp - n)) n;; mret (unit_after p (sp - n))) h =
                Done (unit_after p (sp - n)) h2).
    { mstep (put_size_run p (sp - n) _ h Hlp). cbn [h_ptr]. rewrite u32_small by lia. fold h1.
      unfold put_size. mrun. rewrite u32_small by lia. done. }
    do 2 eexists. split; [by mstep E|]. split.
    + apply (take_end h (xs ++ [(q, sq)]) q p sp ys al n d); rewrite <- ?app_assoc; [exact Hh|done|lia|].
      rewrite fmap_app. apply elem_of_app. right. apply elem_of_cons. by left.
    + rewrite <- app_assoc, !units_app. cbn. lia.
Qed.

(** ** Searching the list *)

(** The search from the block after [q], along [r]: it ends at the first block
    that is large enough, *)
Lemma scan_hit n p sp r2 e r1 : forall fuel q h,
  lseg (hdrs h) (r1 ++ (p, sp) :: r2) e -> Forall (fun b => snd b < n /\ fst b <> freep h) r1 -> n <= sp -> (length r1 < fuel)%nat ->
  malloc_loop grants fuel n q (from (r1 ++ (p, sp) :: r2) e) h =
  take_block n (List.last (fst <$> r1) q) p (Header (from r2 e) sp) h.
Proof.
  induction r1 as [|[c sc] r1 IH]; intros [|fuel] q h Hl Hr Hn Hf; [cbn in Hf; lia| |cbn in Hf; lia|]; cbn [malloc_loop from app fst].
  - destruct Hl as [Hx _]. cbn in Hx. mstep (hdr_run p _ h Hx). cbn [h_size]. by rewrite (proj2 (Z.leb_le n sp)) by lia.
  - destruct Hl as [Hx Hl]. cbn in Hx. apply Forall_cons in Hr as [[Hc Hcf] Hr]. cbn in Hc, Hcf.
    mstep (hdr_run c _ h Hx). cbn [h_size h_ptr]. rewrite (proj2 (Z.leb_gt n sc)) by lia. mrun.
    rewrite (proj2 (Z.eqb_neq c (freep h))) by done.
    rewrite (IH fuel c h Hl Hr Hn) by (cbn in Hf; lia). cbn [fmap list_fmap]. f_equal. symmetry. apply last_cons_default.
Qed.

(** or, when it has come around to [freep], asks for more memory. *)
Lemma scan_miss n f sf e r1 : forall fuel q h,
  lseg (hdrs h) (r1 ++ [(f, sf)]) e -> Forall (fun b => snd b < n /\ fst b <> freep h) r1 -> freep h = f -> sf < n ->
  malloc_loop grants (S (length r1) + fuel) n q (from (r1 ++ [(f, sf)]) e) h =
  (p ← morecore grants n; if p =? 0 then mret 0 else x ← hdr p; malloc_loop grants fuel n p (h_ptr x)) h.
Proof.
  induction r1 as [|[c sc] r1 IH]; intros fuel q h Hl Hr Hfp Hn; cbn [malloc_loop from app fst length Nat.add].
  - destruct Hl as [Hx _]. cbn in Hx. mstep (hdr_run f _ h Hx). cbn [h_size h_ptr]. rewrite (proj2 (Z.leb_gt n sf)) by lia. mrun.
    rewrite Hfp, Z.eqb_refl. done.
  - destruct Hl as [Hx Hl]. cbn in Hx. apply Forall_cons in Hr as [[Hc Hcf] Hr]. cbn in Hc, Hcf.
    mstep (hdr_run c _ h Hx). cbn [h_size h_ptr]. rewrite (proj2 (Z.leb_gt n sc)) by lia. mrun.
    rewrite (proj2 (Z.eqb_neq c (freep h))) by done. apply (IH fuel c h Hl Hr Hfp Hn).
Qed.

(** What a search from [freep] finds. *)
Lemma search h l al n fuel :
  heap_ok base h l al -> 0 < n ->
  exists x, hdrs h !! freep h = Some x /\
  ((exists a h' l', malloc_loop grants (length l + fuel) n (freep h) (h_ptr x) h = Done (unit_after a 1) h' /\
      heap_ok base h' l' ((a, n) :: al) /\ units l' + n = units l) \/
   (Forall (fun b => snd b < n) l /\
    malloc_loop grants (length l + fuel) n (freep h) (h_ptr x) h =
    (p ← morecore grants n; if p =? 0 then mret 0 else x ← hdr p; malloc_loop grants fuel n p (h_ptr x)) h)).
Proof.
  intros Hh Hn. pose proof Hh as [Hb Hhi (bs & Hbs) Hl Ho Hs Hf Hal Hap Hd].
  apply list_elem_of_fmap in Hf as ([f sf] & Hf & Hin). cbn in Hf. apply list_elem_of_split in Hin as (us & vs & El).
  pose proof (ordered_nodup _ _ _ Ho) as Hnd. rewrite El in Hl, Hnd. apply lseg_app in Hl as [Hlu [Hlf Hlv]]. cbn [fst snd from] in *.
  assert (Hu : forall e, from (us ++ [(f, sf)]) e = base).
  { intros e. rewrite El in Hbs. destruct us as [|u us]; cbn in Hbs |- *; injection Hbs as ->; done. }
  set (r := vs ++ us ++ [(f, sf)]). assert (Hrb : from r base = from vs base) by (unfold r; destruct vs; [apply Hu|done]).
  assert (Hr : lseg (hdrs h) r (from r base)).
  { rewrite Hrb. apply lseg_app. cbn [from]. rewrite Hu. split; [by destruct vs|]. apply lseg_app. by split. }
  assert (Hne : Forall (fun b : block => fst b <> freep h) (vs ++ us)).
  { rewrite fmap_app in Hnd. apply NoDup_app in Hnd as (_ & H1 & H2). cbn in H2. apply NoDup_cons in H2 as [H2 _].
    apply Forall_app. split; apply Forall_forall; intros b Hbb E; rewrite Hf in E.
    - apply H2. rewrite <- E. by apply list_elem_of_fmap_2.
    - apply (H1 f); [rewrite <- E; by apply list_elem_of_fmap_2|apply elem_of_cons; by left]. }
  assert (Hlen : length l = length r) by (unfold r; rewrite El, !length_app; cbn; lia).
  assert (Hfr : from r (from r base) = from r base) by (unfold r; destruct vs; [by rewrite !Hu|done]).
  eexists. split; [rewrite Hf; exact Hlf|]. cbn [h_ptr]. rewrite <- Hrb, Hlen, <- Hfr.
  destruct (first_fit n r) as [Hall|(r1 & [p sp] & r2 & Er & Hr1 & Hp)].
  - right. unfold r in *. rewrite app_assoc in *. apply Forall_app in Hall as [Hall Hsf]. rewrite Forall_singleton in Hsf. split.
    + apply Forall_app in Hall as [H1 H2]. rewrite El. apply Forall_app. split; [done|]. by constructor.
    + rewrite length_app, Nat.add_1_r. apply scan_miss; try done. by apply Forall_and.
  - left. cbn in Hp. assert (Hr1' : Forall (fun b : block => fst b <> freep h) r1).
    { unfold r in Er. rewrite app_assoc in Er. apply app_eq_app in Er as (w & [[E _]|[E Ew]]).
      - rewrite E in Hne. by apply Forall_app in Hne as [Hne _].
      - destruct w as [|c w]; [|destruct w; done]. rewrite app_nil_r in E. by rewrite E. }
    destruct (rotation_pred us (f, sf) vs r1 (p, sp) r2 (base, 0) bs) as (xs & [q sq] & ys & El' & Eq).
    { exact Er. } { by rewrite <- El. } { intros [= _ ->]. lia. }
    rewrite El, El' in Hh. destruct (take_run h xs q sq p sp ys al n Hh ltac:(lia)) as (a & h' & l' & Et & Hh' & Hu').
    exists a, h', l'. split; [|split; [done|by rewrite El, El']].
    pose proof (ho_list _ _ _ _ Hh) as Hl. apply lseg_app in Hl as [_ (_ & Hlp & _)]. cbn [fst snd] in Hlp.
    assert (Hlp' : hdrs h !! p = Some (Header (from r2 (from r base)) sp)) by (rewrite Er in Hr at 1; by apply lseg_app in Hr as [_ [Hr _]]).
    rewrite Er at 1 2. rewrite scan_hit; [|by rewrite <- Er|by apply Forall_and|done|rewrite length_app; cbn; lia].
    rewrite Hlp in Hlp'. injection Hlp' as <-. cbn in Eq. by rewrite Hf, <- Eq.
Qed.

(** ** malloc *)

(** The heap before the first call, or a heap in use. *)
Definition heap_inv (h : heap) (l al : list block) : Prop :=
  (freep h = 0 /\ l = [] /\ al = [] /\ 0 < base < brk h /\ brk h < 2 ^ 36) \/ heap_ok base h l al.

Lemma heap_ok_freep h l al : heap_ok base h l al -> freep h <> 0.
Proof.
  intros Hh. destruct (proj1 (list_elem_of_fmap _ _ _) (ho_freep _ _ _ _ Hh)) as (b & E & Hb).
  destruct (ordered_elem _ _ _ b (ho_order _ _ _ _ Hh) Hb). pose proof (ho_base _ _ _ _ Hh). lia.
Qed.

(** The first call makes the list of [base] alone. *)
Lemma heap_init h l al :
  heap_inv h l al ->
  exists h' l', when (freep h =? 0) (put_ptr base base;; modify (set_freep base);; put_size base 0) h = Done tt h' /\
    heap_ok base h' l' al /\ units l' = units l /\ (l = [] \/ l' = l) /\ brk h' = brk h.
Proof.
  intros [(Hf & -> & -> & Hb & Hhi)|Hh].
  - rewrite Hf. unfold put_ptr, put_size. mrun. eexists _, [(base, 0)]. split; [done|]. split; [|by split_and!; [|left|]].
    cbn [hdrs set_hdrs set_freep brk freep]. rewrite lookup_insert_eq, insert_insert_eq.
    split; cbn; try done; [by eexists|split; [apply lookup_insert_eq|done]|unfold bend, unit_after; cbn; lia|by repeat constructor|].
    apply elem_of_cons. by left.
  - rewrite (proj2 (Z.eqb_neq _ 0) (heap_ok_freep _ _ _ Hh)). exists h, l. by split_and!; [| | |right|].
Qed.

(** The units of a request: the header and the bytes, rounded up. *)
Definition nunits (nbytes : Z) : Z := (nbytes + 15) / 16 + 1.

Lemma malloc_run h l al nbytes :
  heap_inv h l al -> 0 <= nbytes <= 2 ^ 31 - 48 ->
  exists h' l', (malloc base grants nbytes h = Done 0 h' /\ heap_inv h' l' al /\ units l' = units l /\
                 Forall (fun b => snd b < nunits nbytes) l /\ grants (brk h) (unit_size * Z.max (nunits nbytes) 4096) = false) \/
    exists a, malloc base grants nbytes h = Done (unit_after a 1) h' /\ heap_inv h' l' ((a, nunits nbytes) :: al) /\
              (units l' + nunits nbytes = units l \/ units l' + nunits nbytes = units l + Z.max (nunits nbytes) 4096).
Proof.
  intros Hi Hn. set (n := nunits nbytes).
  assert (Hnu : 0 < n /\ n * unit_size < 2 ^ 31) by (unfold n, nunits, unit_size; lia). destruct Hnu as [Hn0 Hlim].
  destruct (heap_init h l al Hi) as (h1 & l1 & E1 & Hh1 & Hu1 & Hl1 & Hb1).
  unfold malloc. replace (u32 ((nbytes + unit_size - 1) / unit_size + 1)) with n by (rewrite u32_small; unfold n, nunits, unit_size in *; [f_equal; f_equal; lia|lia]).
  mrun. mstep E1. mrun.
  pose proof (lseg_size _ _ _ _ _ (ho_list _ _ _ _ Hh1) (ho_order _ _ _ _ Hh1)) as Hsz.
  set (fuel := (2 * size (hdrs h1) + 4 - length l1)%nat).
  replace (2 * size (hdrs h1) + 4)%nat with (length l1 + fuel)%nat by (unfold fuel; lia).
  destruct (search h1 l1 al n fuel Hh1 Hn0) as (x & Hx & [(a & h' & l' & E & Hh' & Hu)|[Hall E]]); mstep (hdr_run _ _ _ Hx).
  { exists h', l'. right. exists a. split; [exact E|]. split; [by right|left; lia]. }
  rewrite E. destruct (morecore_run h1 l1 al n Hh1 Hn0 Hlim) as [[Em Hg]|(h2 & l2 & Em & Hh2 & Hu2 & Hn2 & b & Hb2 & Hbn)]; mstep Em.
  { exists h1, l1. left. split_and!; [done|by right|done| |by rewrite <- Hb1]. destruct Hl1 as [->|<-]; [constructor|done]. }
  rewrite (proj2 (Z.eqb_neq _ 0) (heap_ok_freep _ _ _ Hh2)).
  replace fuel with (length l2 + (fuel - length l2))%nat by (unfold fuel; lia).
  destruct (search h2 l2 al n (fuel - length l2) Hh2 Hn0) as (y & Hy & [(a & h' & l' & E2 & Hh' & Hu)|[Hall2 _]]); mstep (hdr_run _ _ _ Hy).
  - exists h', l'. right. exists a. split; [exact E2|]. split; [by right|right; lia].
  - rewrite Forall_forall in Hall2. specialize (Hall2 b Hb2). cbn in Hall2. lia.
Qed.

(** ** A program that uses the allocator *)

(** A request: memory, or to give the block at a position of the live ones back. *)
Inductive request := Malloc (nbytes : Z) | Free (i : nat).

(** The requests in order; the live blocks are pairs of the pointer the program
    holds and the bytes it asked for. *)
Fixpoint client (rs : list request) (live : list (Z * Z)) : M heap (list (Z * Z)) :=
  match rs with
  | [] => mret live
  | Malloc nbytes :: rs =>
      p ← malloc base grants nbytes;
      client rs (if p =? 0 then live else (p, nbytes) :: live)
  | Free i :: rs =>
      match live !! i with
      | None => client rs live
      | Some (p, _) => free p;; client rs (delete i live)
      end
  end.

Definition in_range (r : request) : Prop := match r with Malloc n => 0 <= n <= 2 ^ 31 - 48 | Free _ => True end.

(** A live block holds the bytes asked for behind its header. *)
Definition holds (b : block) (x : Z * Z) : Prop :=
  fst x = unit_after (fst b) 1 /\ 0 <= snd x <= unit_size * (snd b - 1).

Lemma heap_inv_alloc h l al : heap_inv h l al -> Forall (used base (hdrs h) (brk h)) al /\ pairwise_apart al.
Proof. intros [(_ & _ & -> & _)|Hh]; [by split|]. split; [apply (ho_alloc _ _ _ _ Hh)|apply (ho_disjoint _ _ _ _ Hh)]. Qed.

Lemma client_run rs : forall live h l al,
  heap_inv h l al -> Forall2 holds al live -> Forall in_range rs ->
  exists live' h' l' al', client rs live h = Done live' h' /\ heap_inv h' l' al' /\ Forall2 holds al' live'.
Proof.
  induction rs as [|r rs IH]; intros live h l al Hi Hlv Hr; [by exists live, h, l, al|].
  apply Forall_cons in Hr as [Hr Hrs]. destruct r as [n|i]; cbn [client].
  - destruct (malloc_run h l al n Hi Hr) as (h' & l' & [(E & Hi' & _)|(a & E & Hi' & _)]); mstep E; [by apply (IH live _ l' al)|].
    destruct (heap_inv_alloc _ _ _ Hi') as [Hu _]. apply Forall_cons in Hu as [(Ha & _) _]. cbn in Ha.
    assert (0 < base) by (destruct Hi as [(_ & _ & _ & Hb & _)|Hh]; [lia|pose proof (ho_base _ _ _ _ Hh); lia]).
    rewrite (proj2 (Z.eqb_neq _ 0)) by (unfold unit_after, unit_size; lia). apply (IH _ _ l' ((a, nunits n) :: al)); try done.
    constructor; [|done]. split; [done|]. cbn [snd]. cbn in Hr. unfold nunits, unit_size. lia.
  - destruct (live !! i) as [[p n]|] eqn:Ei; [|by apply (IH live _ l al)].
    destruct (Forall2_lookup_r _ _ _ _ _ Hlv Ei) as ([a s] & Ea & Hp & _). cbn in Hp. subst p.
    pose proof (take_drop_middle _ _ _ Ea) as Hsp. rewrite <- Hsp in Hi.
    destruct Hi as [(_ & _ & Hnil & _)|Hh]; [by destruct (take i al)|].
    apply heap_ok_perm in Hh. destruct (free_run base h l a s _ Hh) as (h' & l' & E & Hh' & _). mstep E.
    apply (IH _ _ l' (delete i al)); [|by apply Forall2_delete|done]. rewrite delete_take_drop. by right.
Qed.

End Alloc.

(** C19: whatever blocks of at most 2^31 - 48 bytes a program asks for and gives
    back, in any order, the allocator of umalloc.c never faults and never loops,
    in a process whose memory ends above the static header [base] and stays below
    2^36; the blocks the program holds lie between [base] and the end of the
    memory and no two of them overlap; and as long as the kernel grants more
    memory the next request of that size is answered.  (For a larger request the
    size passed to [sbrk] is cut to a negative [int].) *)
Theorem malloc_free_correct (base top : Z) (grants : Z -> Z -> bool) (m : gmap Z header) (rs : list request) :
  (forall b n, grants b n = true -> b + n < 2 ^ 36) -> 0 < base -> base + unit_size <= top < 2 ^ 36 ->
  Forall in_range rs ->
  exists live h, client base grants rs [] (Heap m 0 top) = Done live h /\
    Forall (fun x => base < fst x /\ fst x + snd x <= brk h) live /\
    (forall i j p n q k, live !! i = Some (p, n) -> live !! j = Some (q, k) -> i <> j -> p + n <= q \/ q + k <= p) /\
    (forall nbytes, 0 <= nbytes <= 2 ^ 31 - 48 -> grants (brk h) (unit_size * Z.max (nunits nbytes) 4096) = true ->
       exists p h', malloc base grants nbytes h = Done p h' /\ p <> 0).
Proof.
  intros Hg Hb Ht Hrs. unfold unit_size in Ht.
  destruct (client_run base grants Hg rs [] (Heap m 0 top) [] []) as (live & h & l & al & E & Hi & Hlv); [left; cbn; split_and!; done || lia|constructor|done|].
  destruct (heap_inv_alloc _ _ _ _ Hi) as [Hu Hd]. exists live, h. split; [done|]. split_and!.
  - apply Forall_lookup. intros i [p n] Hp. destruct (Forall2_lookup_r _ _ _ _ _ Hlv Hp) as ([a s] & Ea & H1 & H2). cbn in *.
    destruct (Forall_lookup_1 _ _ _ _ Hu Ea) as (Ha & _ & He & _). unfold bend, unit_after, unit_size in *. cbn in *. lia.
  - intros i j p n q k Hp Hq Hij. destruct (Forall2_lookup_r _ _ _ _ _ Hlv Hp) as ([a s] & Ea & H1 & H2).
    destruct (Forall2_lookup_r _ _ _ _ _ Hlv Hq) as ([c t] & Ec & H3 & H4).
    pose proof (pairwise_lookup _ _ _ _ _ Hd Ea Ec Hij) as Hap. unfold apart, bend, unit_after, unit_size in *. cbn in *. lia.
  - intros nbytes Hn Hgr. destruct (malloc_run base grants Hg h l al nbytes Hi Hn) as (h' & l' & [(_ & _ & _ & _ & Hf)|(a & Em & Hi' & _)]); [congruence|].
    exists (unit_after a 1), h'. split; [done|]. destruct (heap_inv_alloc _ _ _ _ Hi') as [Hu' _]. apply Forall_cons in Hu' as [(Ha & _) _].
    unfold unit_after, unit_size. cbn in Ha. lia.
Qed.

Lemma malloc_free_correct_witness :
  exists live h, client 4096 (fun b n => b + n <=? 1000000) [Malloc 100; Malloc 5000; Malloc 32; Free 1; Free 1; Malloc 4000] []
                   (Heap ∅ 0 8192) = Done live h /\ length live = 2%nat.
Proof.
  destruct (malloc_free_correct 4096 8192 (fun b n => b + n <=? 1000000) ∅ [Malloc 100; Malloc 5000; Malloc 32; Free 1; Free 1; Malloc 4000])
    as (live & h & E & _); [intros b n ?%Z.leb_le; lia|lia|unfold unit_size; lia|repeat constructor; cbn; lia|].
  exists live, h. split; [exact E|]. vm_compute in E. injection E as <- _. reflexivity.
Defined.
