(* ===== verification/Mkfs.v ===== *)
(** * The builder of the file system image (mkfs/mkfs.c)

    A program of the build host, which is little-endian, so that [xshort] and
    [xint] are the identity.  The image is its sectors by number; reading a
    sector that was never written fails, since the file ends before it.  A failed
    assertion and an exit with status 1 are a [Panic]; what the program prints is
    left out. *)

From S2P Require Import Prelude Machine Memory State FsState Log Fs User.

(** The image and the two counters. *)
Record image := Image { sects : gmap Z (list Z); freeinode : Z; freeblock : Z }.

Definition set_sects (m : gmap Z (list Z)) (g : image) : image := Image m (freeinode g) (freeblock g).
Definition set_freeinode (n : Z) (g : image) : image := Image (sects g) n (freeblock g).
Definition set_freeblock (n : Z) (g : image) : image := Image (sects g) (freeinode g) n.

(** The layout: [nmeta] is the number of blocks before the data. *)
Definition sb : superblock :=
  let NINODES := 200 in
  let nbitmap := FSSIZE / (BSIZE * 8) + 1 in
  let ninodeblocks := NINODES / IPB + 1 in
  let nlog := LOGSIZE in
  let nmeta := 2 + nlog + ninodeblocks + nbitmap in
  SuperBlock FSMAGIC FSSIZE (FSSIZE - nmeta) NINODES nlog 2 (2 + nlog) (2 + nlog + ninodeblocks).
Definition nmeta : Z := FSSIZE - sb_nblocks sb.

Definition zeroes : list Z := replicate (Z.to_nat BSIZE) 0.

Definition wsect (sec : Z) (buf : list Z) : M image unit := modify (fun g => set_sects (<[sec := buf]> (sects g)) g).

Definition rsect (sec : Z) : M image (list Z) :=
  g ← get_st;
  match sects g !! sec with Some buf => mret buf | None => panic "read" end.

(** A dinode is its 64 bytes. *)
Definition winode (inum : Z) (din : list Z) : M image unit :=
  let bn := IBLOCK inum sb in
  buf ← rsect bn;
  wsect bn (put_bytes buf (dinode_off inum) din).

Definition rinode (inum : Z) : M image (list Z) :=
  let bn := IBLOCK inum sb in
  buf ← rsect bn;
  mret (take (Z.to_nat sizeof_dinode) (drop (Z.to_nat (dinode_off inum)) buf)).

Definition ialloc (type : Z) : M image Z :=
  inum ← gets freeinode;
  modify (set_freeinode (u32 (inum + 1)));;
  let din := replicate (Z.to_nat sizeof_dinode) 0 in
  let din := put_le 2 din 0 (u16 type) in
  let din := put_le 2 din 6 1 in
  let din := put_le 4 din 8 0 in
  winode inum din;;
  mret inum.

Definition balloc (used : Z) : M image unit :=
  if negb (used <? BSIZE * 8) then panic "used < BSIZE*8" else
  wsect (sb_bmapstart sb) (foldl (fun buf i => set_bit i buf) zeroes (seq 0 (Z.to_nat used))).

(** [freeblock++] when the word [off] of [d] is zero: the words afterwards, and
    whether there was a new block. *)
Definition block_at (d : list Z) (off : Z) : M image (list Z * bool) :=
  if get_le 4 d off =? 0 then
    b ← gets freeblock;
    modify (set_freeblock (u32 (b + 1)));;
    mret (put_le 4 d off b, true)
  else mret (d, false).

(** The block number of block [fbn] of a file. *)
Definition file_block (din : list Z) (fbn : Z) : M image (list Z * Z) :=
  if fbn <? NDIRECT then
    r ← block_at din (12 + 4 * fbn);
    mret (fst r, get_le 4 (fst r) (12 + 4 * fbn))
  else
    r ← block_at din (12 + 4 * NDIRECT);
    let din := fst r in
    let b := get_le 4 din (12 + 4 * NDIRECT) in
    indirect ← rsect b;
    r ← block_at indirect (4 * (fbn - NDIRECT));
    when (snd r) (wsect b (fst r));;
    mret (din, get_le 4 (fst r) (4 * (fbn - NDIRECT))).

(** The loop of [iappend]; each turn writes at least one byte. *)
Fixpoint iappend_loop (fuel : nat) (din : list Z) (off : Z) (p : list Z) : M image (list Z * Z) :=
  match fuel with
  | O => no_fuel
  | S f =>
      if (length p =? 0)%nat then mret (din, off) else
      let fbn := off / BSIZE in
      if negb (fbn <? MAXFILE) then panic "fbn < MAXFILE" else
      r ← file_block din fbn;
      let n1 := Z.min (Z.of_nat (length p)) ((fbn + 1) * BSIZE - off) in
      buf ← rsect (snd r);
      wsect (snd r) (put_bytes buf (off - fbn * BSIZE) (take (Z.to_nat n1) p));;
      iappend_loop f (fst r) (u32 (off + n1)) (drop (Z.to_nat n1) p)
  end.

Definition iappend (inum : Z) (p : list Z) : M image unit :=
  din ← rinode inum;
  r ← iappend_loop (S (length p)) din (get_le 4 din 8) p;
  winode inum (put_le 4 (fst r) 8 (snd r)).

(** A directory entry: [strncpy] of the name into a zeroed [struct dirent]. *)
Definition dirent (inum : Z) (name : list Z) : list Z :=
  le_bytes 2 (u16 inum) ++ strncpy_arr DIRSIZ (replicate DIRSIZ 0) (name ++ [0]).

(** The name in the image: without [user/] and then without a leading underscore;
    nothing when a slash is left. *)
Definition shortname (arg : list Z) : option (list Z) :=
  let name := if strncmp_arr 5 (arg ++ [0]) (chars "user/" ++ [0]) =? 0 then drop 5 arg else arg in
  match Ulib.strchr name 47, name with
  | Some _, _ => None
  | None, c :: name' => Some (if c =? 95 then name' else name)
  | None, [] => Some []
  end.

Section Main.
(** The host's files: what the reads of a file return one after another, at most
    [BSIZE] bytes each, or nothing when it cannot be opened; whether the image
    can be created. *)
Context (reads : list Z -> option (list (list Z))) (creates : list Z -> bool).

Definition add_file (rootino : Z) (arg : list Z) : M image unit :=
  match shortname arg with
  | None => panic "index(shortname, '/') == 0"
  | Some name =>
      match reads arg with
      | None => panic "open"
      | Some bufs =>
          inum ← ialloc T_FILE;
          iappend rootino (dirent inum name);;
          for_each bufs (iappend inum)
      end
  end.

Definition main (argv : list (list Z)) : M image unit :=
  match argv with
  | _ :: img :: files =>
      if negb (BSIZE mod sizeof_dinode =? 0) then panic "BSIZE % sizeof(struct dinode)" else
      if negb (BSIZE mod sizeof_dirent =? 0) then panic "BSIZE % sizeof(struct dirent)" else
      if negb (creates img) then panic "open" else
      modify (set_freeblock nmeta);;
      for_each (seqZ 0 FSSIZE) (fun i => wsect i zeroes);;
      wsect 1 (put_bytes zeroes 0 (mjoin (le_bytes 4 <$> [sb_magic sb; sb_size sb; sb_nblocks sb; sb_ninodes sb;
                                                            sb_nlog sb; sb_logstart sb; sb_inodestart sb; sb_bmapstart sb])));;
      rootino ← ialloc T_DIR;
      if negb (rootino =? ROOTINO) then panic "rootino == ROOTINO" else
      iappend rootino (dirent rootino (chars "."));;
      iappend rootino (dirent rootino (chars ".."));;
      for_each files (add_file rootino);;
      din ← rinode rootino;
      let off := get_le 4 din 8 in
      winode rootino (put_le 4 din 8 (u32 ((off / BSIZE + 1) * BSIZE)));;
      used ← gets freeblock;
      balloc used
  | _ => panic "usage"
  end.

End Main.
