(* ===== verification/MkfsSpec.v ===== *)
(** * What the image builder guarantees

    Files are appended to an image block by block; the invariant relates the
    bytes of the inodes, the indirect blocks and the data blocks to the content
    of the files, and keeps the files in blocks of their own. *)

From S2P Require Import Prelude Machine Memory State FsState Log Fs FsSpec User Mkfs.

(** ** The blocks of a file's content *)

(** Block [k] of [data], filled up with zeroes. *)
Definition chunk (data : list Z) (k : nat) : list Z :=
  let c := take 1024 (drop (1024 * k) data) in c ++ replicate (1024 - length c) 0.

Lemma chunk_length data k : length (chunk data k) = 1024%nat.
Proof. unfold chunk. rewrite length_app, length_replicate, length_take. lia. Qed.

Lemma chunk_other data q k : (1024 * (k + 1) <= length data)%nat -> chunk (data ++ q) k = chunk data k.
Proof.
  intros Hk. unfold chunk. replace (take 1024 (drop (1024 * k) (data ++ q))) with (take 1024 (drop (1024 * k) data)); [done|].
  rewrite drop_app_le by lia. rewrite take_app_le; [done|]. rewrite length_drop. lia.
Qed.

Lemma chunk_beyond data k : (length data <= 1024 * k)%nat -> chunk data k = replicate 1024 0.
Proof. intros Hk. unfold chunk. by rewrite drop_ge by lia. Qed.

Lemma chunk_write data q k :
  (1024 * k <= length data)%nat -> (length data + length q <= 1024 * (k + 1))%nat ->
  put_bytes (chunk data k) (Z.of_nat (length data - 1024 * k)) q = chunk (data ++ q) k.
Proof.
  intros Hk Hq. unfold chunk. rewrite drop_app_le by lia. set (d := drop (1024 * k) data).
  assert (Hd : length d = (length data - 1024 * k)%nat) by (unfold d; by rewrite length_drop).
  rewrite <- Hd, (take_ge d), (take_ge (d ++ q)) by (rewrite ?length_app; lia). unfold put_bytes. rewrite Nat2Z.id, take_app_length.
  rewrite <- app_assoc. do 2 f_equal. rewrite drop_app_ge by lia. rewrite drop_replicate, length_app. f_equal. lia.
Qed.

Lemma chunks_join n : forall data, (length data <= 1024 * n)%nat ->
  mjoin (chunk data <$> seq 0 n) = data ++ replicate (1024 * n - length data) 0.
Proof.
  induction n as [|n IH]; intros data Hl; [destruct data; [done|cbn in Hl; lia]|].
  cbn [seq fmap list_fmap mjoin list_join].
  assert (Es : chunk data <$> seq 1 n = chunk (drop 1024 data) <$> seq 0 n).
  { rewrite <- fmap_S_seq, <- list_fmap_compose. apply list_fmap_ext. intros i k _. unfold chunk. cbn [compose].
    rewrite drop_drop. by replace (1024 + 1024 * k)%nat with (1024 * S k)%nat by lia. }
  change (mjoin (chunk data 0 :: (chunk data <$> seq 1 n)) = data ++ replicate (1024 * S n - length data) 0).
  cbn [mjoin list_join]. rewrite Es. change (chunk data 0 ++ mjoin (chunk (drop 1024 data) <$> seq 0 n) = data ++ replicate (1024 * S n - length data) 0).
  rewrite IH by (rewrite length_drop; lia). unfold chunk. rewrite Nat.mul_0_r, drop_0, length_drop.
  destruct (Nat.le_gt_cases 1024 (length data)) as [H|H].
  - rewrite length_take, Nat.min_l, Nat.sub_diag by lia. cbn [replicate]. rewrite app_nil_r, app_assoc, take_drop. do 2 f_equal. lia.
  - rewrite take_ge, (drop_ge data) by lia. rewrite app_nil_l, <- app_assoc, <- replicate_add. do 2 f_equal. lia.
Qed.

(** ** Files *)

(** A file in the image: the type in its inode, its blocks in order, its indirect
    block or 0, and its content. *)
Record file := File { f_type : Z; f_blocks : list Z; f_ind : Z; f_data : list Z }.

(** The blocks of a file. *)
Definition owned (f : file) : list Z := f_blocks f ++ (if f_ind f =? 0 then [] else [f_ind f]).

(** The number of blocks for [n] blocks of content. *)
Definition cost (n : nat) : nat := (n + if (12 <? n)%nat then 1 else 0)%nat.

Lemma cost_direct n : (n <= 12)%nat -> cost n = n.
Proof. intros H. unfold cost. rewrite (proj2 (Nat.ltb_ge 12 n)) by lia. lia. Qed.

Lemma cost_indirect n : (12 < n)%nat -> cost n = S n.
Proof. intros H. unfold cost. rewrite (proj2 (Nat.ltb_lt 12 n)) by lia. lia. Qed.

(** The fields of the dinode, except the size. *)
Record din_ok (din : list Z) (f : file) : Prop := {
  di_length : length din = 64%nat;
  di_type : get_le 2 din 0 = f_type f;
  di_nlink : get_le 2 din 6 = 1;
  di_direct : forall k, (k < 12)%nat -> get_le 4 din (12 + 4 * Z.of_nat k) = default 0 (f_blocks f !! k);
  di_indirect : get_le 4 din 60 = f_ind f
}.

(** The indirect block and the blocks of the content. *)
Record body_ok (m : gmap Z (list Z)) (f : file) : Prop := {
  bo_ind : f_ind f = 0 <-> (length (f_blocks f) <= 12)%nat;
  bo_max : (length (f_blocks f) <= 268)%nat;
  bo_fits : (length (f_data f) <= 1024 * length (f_blocks f))%nat;
  bo_entries : f_ind f <> 0 -> exists d, m !! f_ind f = Some d /\ length d = 1024%nat /\
    forall k, (k < 256)%nat -> get_le 4 d (4 * Z.of_nat k) = default 0 (f_blocks f !! (12 + k)%nat);
  bo_data : forall k b, f_blocks f !! k = Some b -> m !! b = Some (chunk (f_data f) k)
}.

(** The file has its blocks for itself, below [freeblock]. *)
Definition own_ok (g : image) (f : file) : Prop :=
  NoDup (owned f) /\ Forall (fun b => nmeta <= b < freeblock g) (owned f).

(** The blocks from [freeblock] on are there and zero. *)
Definition fresh_ok (g : image) : Prop :=
  nmeta <= freeblock g /\ forall b, freeblock g <= b < FSSIZE -> sects g !! b = Some zeroes.

Lemma owned_length m f : body_ok m f -> length (owned f) = cost (length (f_blocks f)).
Proof.
  intros Hb. unfold owned, cost. rewrite length_app. destruct (Z.eqb_spec (f_ind f) 0) as [E|E].
  - apply (bo_ind _ _ Hb) in E. destruct (Nat.ltb_spec 12 (length (f_blocks f))); cbn; lia.
  - destruct (Nat.ltb_spec 12 (length (f_blocks f))) as [H|H]; [done|]. by apply (bo_ind _ _ Hb) in H.
Qed.

Lemma rsect_run g b d : sects g !! b = Some d -> rsect b g = Done d g.
Proof. intros E. unfold rsect. mrun. by rewrite E. Qed.

Lemma wsect_run g b d : wsect b d g = Done tt (set_sects (<[b := d]> (sects g)) g).
Proof. done. Qed.

Lemma block_at_old d off g : get_le 4 d off <> 0 -> block_at d off g = Done (d, false) g.
Proof. intros H. unfold block_at. by rewrite (proj2 (Z.eqb_neq _ _) H). Qed.

Lemma block_at_new d off g :
  get_le 4 d off = 0 -> nmeta <= freeblock g < FSSIZE ->
  block_at d off g = Done (put_le 4 d off (freeblock g), true) (set_freeblock (freeblock g + 1) g).
Proof.
  intros H Hf. unfold block_at. rewrite H. cbn [Z.eqb]. mrun. change FSSIZE with 1000 in Hf. change nmeta with 46 in Hf.
  by rewrite u32_small by lia.
Qed.

(** What happens to a file that gets its block [n]. *)
Record grown (g : image) (f : file) (n : nat) (din1 : list Z) (g1 : image) (f1 : file) : Prop := {
  gr_data : f_data f1 = f_data f;
  gr_type : f_type f1 = f_type f;
  gr_blocks : length (f_blocks f1) = S n;
  gr_free : freeblock g1 = freeblock g + Z.of_nat (cost (S n)) - Z.of_nat (cost (length (f_blocks f)));
  gr_inode : freeinode g1 = freeinode g;
  gr_owned : forall b, b ∈ owned f1 -> b ∈ owned f \/ freeblock g <= b;
  gr_keeps : forall b, b ∈ owned f -> b ∈ owned f1;
  gr_frame : forall b, b ∉ owned f1 -> sects g1 !! b = sects g !! b;
  gr_din : din_ok din1 f1;
  gr_body : body_ok (sects g1) f1;
  gr_own : own_ok g1 f1;
  gr_fresh : fresh_ok g1
}.

(** A file with one more block. *)
Definition add_block (f : file) (b ind : Z) : file := File (f_type f) (f_blocks f ++ [b]) ind (f_data f).

Lemma body_append m m' f b ind :
  body_ok m f -> (length (f_blocks f) < 268)%nat -> (ind = 0 <-> (length (f_blocks f) < 12)%nat) ->
  m' !! b = Some zeroes -> (forall k c, f_blocks f !! k = Some c -> m' !! c = m !! c) ->
  (ind <> 0 -> exists d, m' !! ind = Some d /\ length d = 1024%nat /\
     forall k, (k < 256)%nat -> get_le 4 d (4 * Z.of_nat k) = default 0 ((f_blocks f ++ [b]) !! (12 + k)%nat)) ->
  body_ok m' (add_block f b ind).
Proof.
  intros [Hi Hm Hf He Hd] Hlen Hind Hb Hsame Hent. split; cbn [add_block f_ind f_blocks f_data]; rewrite ?length_app; cbn [length]; try lia.
  - done.
  - intros k c Hk. apply lookup_app_Some in Hk as [Hk|[Hk1 Hk2]]; [by rewrite (Hsame k c Hk), (Hd k c Hk)|].
    apply list_lookup_singleton_Some in Hk2 as [Hk2 <-]. rewrite chunk_beyond by lia. by rewrite Hb.
Qed.

Lemma lookup_snoc_default (l : list Z) b k :
  default 0 ((l ++ [b]) !! k) = if decide (k = length l) then b else default 0 (l !! k).
Proof.
  destruct (decide (k = length l)) as [->|Hne].
  - by rewrite lookup_app_r, Nat.sub_diag by lia.
  - destruct (Nat.lt_ge_cases k (length l)); [by rewrite lookup_app_l by done|].
    rewrite lookup_app_r, (lookup_ge_None_2 l) by lia. by rewrite lookup_ge_None_2 by (cbn; lia).
Qed.

(** The words of a dinode or an indirect block when one is stored. *)
Lemma put_word d off base n v l lim :
  (Z.to_nat base + 4 * lim <= length d)%nat -> 0 <= base -> (n < lim)%nat -> off = base + 4 * Z.of_nat n -> 0 <= v < 2 ^ 32 -> length l = n ->
  (forall k, (k < lim)%nat -> get_le 4 d (base + 4 * Z.of_nat k) = default 0 (l !! k)) ->
  forall k, (k < lim)%nat -> get_le 4 (put_le 4 d off v) (base + 4 * Z.of_nat k) = default 0 ((l ++ [v]) !! k).
Proof.
  intros Hd Hb Hn -> Hv Hl H k Hk. rewrite lookup_snoc_default, Hl. destruct (decide (k = n)) as [->|Hne].
  - apply get_put_same; lia.
  - rewrite get_put_other by lia. by apply H.
Qed.

Lemma din_append din f b n :
  din_ok din f -> length (f_blocks f) = n -> (n < 12)%nat -> 0 <= b < 2 ^ 32 ->
  din_ok (put_le 4 din (12 + 4 * Z.of_nat n) b) (add_block f b (f_ind f)).
Proof.
  intros [Hl Ht Hn Hd Hi] Hlen Hlt Hb. split; cbn [add_block f_type f_blocks f_ind].
  - rewrite put_le_length; lia.
  - rewrite get_put_other by lia. done.
  - rewrite get_put_other by lia. done.
  - apply (put_word din _ 12 n b (f_blocks f) 12); lia || done.
  - rewrite get_put_other by lia. done.
Qed.

Lemma fresh_next g m b :
  fresh_ok g -> freeblock g <= b -> (forall c, freeblock g <= c -> b <= c -> m !! c = sects g !! c) ->
  fresh_ok (Image m (freeinode g) b).
Proof.
  intros [H1 H2] Hb Hm. split; cbn [freeblock sects]; [lia|]. intros c Hc. rewrite Hm by lia. apply H2. lia.
Qed.

Lemma own_add g m f b ind b' :
  own_ok g f -> NoDup (owned (add_block f b ind)) -> freeblock g <= b' ->
  (forall c, c ∈ owned (add_block f b ind) -> c ∈ owned f \/ freeblock g <= c < b') -> nmeta <= freeblock g ->
  own_ok (Image m (freeinode g) b') (add_block f b ind).
Proof.
  intros [_ Hr] Hnd Hb Hin Hm. split; [done|]. cbn [freeblock]. apply Forall_forall. intros c Hc. rewrite Forall_forall in Hr.
  destruct (Hin c Hc) as [H|H]; [specialize (Hr c H); cbn in Hr|]; lia.
Qed.

(** A new block among the direct ones. *)
Lemma grow_direct g din f n :
  din_ok din f -> body_ok (sects g) f -> own_ok g f -> fresh_ok g ->
  length (f_blocks f) = n -> (n < 12)%nat -> freeblock g < FSSIZE ->
  exists din1 g1 f1, file_block din (Z.of_nat n) g = Done (din1, default 0 (f_blocks f1 !! n)) g1 /\ grown g f n din1 g1 f1.
Proof.
  intros Hdin Hbody Hown Hfr Hlen Hn Hsp. set (b := freeblock g). pose proof (proj1 Hfr) as Hmeta. change nmeta with 46 in Hmeta. change FSSIZE with 1000 in Hsp.
  assert (Hi : f_ind f = 0) by (apply (bo_ind _ _ Hbody); lia).
  assert (E0 : get_le 4 din (12 + 4 * Z.of_nat n) = 0) by (rewrite (di_direct _ _ Hdin) by done; by rewrite lookup_ge_None_2 by lia).
  assert (Hb : b ∉ owned f) by (intros Hin; destruct Hown as [_ Hr]; rewrite Forall_forall in Hr; specialize (Hr b Hin); cbn in Hr; lia).
  assert (Ho : owned (add_block f b 0) = f_blocks f ++ [b] /\ owned f = f_blocks f) by (unfold owned; cbn; by rewrite Hi, !app_nil_r).
  destruct Ho as [Ho1 Ho].
  exists (put_le 4 din (12 + 4 * Z.of_nat n) b), (set_freeblock (b + 1) g), (add_block f b 0). split.
  - unfold file_block. rewrite (proj2 (Z.ltb_lt _ _)) by (unfold NDIRECT; lia).
    mstep (block_at_new din (12 + 4 * Z.of_nat n) g E0 ltac:(change nmeta with 46; change FSSIZE with 1000; lia)).
    cbn [fst]. rewrite get_put_same by (rewrite ?(di_length _ _ Hdin); lia). cbn [add_block f_blocks].
    rewrite lookup_app_r, Hlen, Nat.sub_diag by lia. done.
  - split; cbn [add_block f_data f_type f_blocks freeblock set_freeblock freeinode sects]; rewrite ?Ho1; try done.
    + rewrite length_app. cbn. lia.
    + rewrite Hlen, !cost_direct by lia. lia.
    + intros c Hc. rewrite Ho. apply elem_of_app in Hc as [Hc|Hc%list_elem_of_singleton]; [by left|right; lia].
    + intros c Hc. rewrite Ho in Hc. apply elem_of_app. by left.
    + rewrite <- Hi at 1. by apply din_append; [| |done|lia].
    + apply (body_append (sects g)); try done; [lia|lia|apply (proj2 Hfr); change FSSIZE with 1000; lia].
    + apply own_add; [done| |lia|rewrite Ho1, Ho|exact (proj1 Hfr)].
      * rewrite Ho1. destruct Hown as [Hnd _]. rewrite Ho in Hnd, Hb. apply NoDup_app. split; [done|]. split; [|apply NoDup_singleton].
        intros c Hc Hcb%list_elem_of_singleton. congruence.
      * intros c Hc. apply elem_of_app in Hc as [Hc|Hc%list_elem_of_singleton]; [by left|right; lia].
    + apply fresh_next; [done|lia|done].
Qed.

Lemma elem_two (c : Z) l a b : c ∈ l ++ [a; b] <-> c ∈ l \/ c = a \/ c = b.
Proof. set_solver. Qed.

Lemma owned_add f b ind : ind <> 0 -> owned (add_block f b ind) = f_blocks f ++ [b; ind].
Proof. intros H. unfold owned. cbn. rewrite (proj2 (Z.eqb_neq _ _) H). by rewrite <- app_assoc. Qed.

Lemma owned_ind f : f_ind f <> 0 -> owned f = f_blocks f ++ [f_ind f].
Proof. intros H. unfold owned. by rewrite (proj2 (Z.eqb_neq _ _) H). Qed.

Lemma not_owned g f b : own_ok g f -> freeblock g <= b -> b ∉ owned f.
Proof. intros [_ Hr] Hb Hin. rewrite Forall_forall in Hr. specialize (Hr b Hin). cbn in Hr. lia. Qed.

(** A new block in the indirect block that is there. *)
Lemma grow_indirect g din f n :
  din_ok din f -> body_ok (sects g) f -> own_ok g f -> fresh_ok g ->
  length (f_blocks f) = n -> (12 < n < 268)%nat -> freeblock g < FSSIZE ->
  exists din1 g1 f1, file_block din (Z.of_nat n) g = Done (din1, default 0 (f_blocks f1 !! n)) g1 /\ grown g f n din1 g1 f1.
Proof.
  intros Hdin Hbody Hown Hfr Hlen Hn Hsp. set (b := freeblock g). pose proof (proj1 Hfr) as Hmeta. change nmeta with 46 in Hmeta. change FSSIZE with 1000 in Hsp.
  assert (Hi : f_ind f <> 0) by (intros E; apply (bo_ind _ _ Hbody) in E; lia).
  destruct (bo_entries _ _ Hbody Hi) as (d & Hd & Hdl & He).
  pose proof (not_owned g f b Hown ltac:(lia)) as Hb. rewrite owned_ind in Hb by done. apply not_elem_of_app in Hb as [Hb1 Hb2].
  assert (Hib : f_ind f <> b) by (intros E; apply Hb2; rewrite E; by apply list_elem_of_singleton).
  assert (Hix : f_ind f ∉ f_blocks f).
  { destruct Hown as [Hnd _]. rewrite owned_ind in Hnd by done. apply NoDup_app in Hnd as (_ & Hx & _). intros Hin.
    apply (Hx _ Hin). by apply list_elem_of_singleton. }
  assert (Hrb : 46 <= f_ind f < b).
  { destruct Hown as [_ Hr]. rewrite owned_ind in Hr by done. apply Forall_app in Hr as [_ Hr]. rewrite Forall_singleton in Hr. exact Hr. }
  assert (E60 : get_le 4 din (12 + 4 * NDIRECT) = f_ind f) by apply (di_indirect _ _ Hdin).
  set (o := 4 * (Z.of_nat n - NDIRECT)).
  assert (E0 : get_le 4 d o = 0).
  { unfold o, NDIRECT. replace (4 * (Z.of_nat n - 12)) with (4 * Z.of_nat (n - 12)) by lia. rewrite He by lia. by rewrite lookup_ge_None_2 by lia. }
  exists din, (Image (<[f_ind f := put_le 4 d o b]> (sects g)) (freeinode g) (b + 1)), (add_block f b (f_ind f)). split.
  - unfold file_block. rewrite (proj2 (Z.ltb_ge _ _)) by (unfold NDIRECT; lia).
    mstep (block_at_old din (12 + 4 * NDIRECT) g ltac:(by rewrite E60)). cbn [fst snd]. rewrite E60.
    mstep (rsect_run g _ d Hd).
    mstep (block_at_new d o g E0 ltac:(change nmeta with 46; change FSSIZE with 1000; lia)). cbn [fst snd when].
    unfold wsect. mrun. rewrite get_put_same by (unfold o, NDIRECT; lia). cbn [add_block f_blocks].
    rewrite lookup_app_r, Hlen, Nat.sub_diag by lia. done.
  - split; cbn [f_data f_type f_blocks freeblock freeinode sects]; rewrite ?owned_add by done; try done.
    + cbn. rewrite length_app. cbn. lia.
    + rewrite Hlen, !cost_indirect by lia. lia.
    + intros c Hc. rewrite owned_ind by done. apply elem_two in Hc as [Hc|[-> | ->]]; [left; set_solver|right; lia|left; set_solver].
    + intros c Hc. rewrite owned_ind in Hc by done. apply elem_two. apply elem_of_app in Hc as [Hc|Hc%list_elem_of_singleton]; auto.
    + intros c Hc. apply lookup_insert_ne. intros E. apply Hc, elem_two. auto.
    + destruct Hdin as [D1 D2 D3 D4 D5]. split; cbn; try done. intros k Hk. rewrite D4 by done. by rewrite lookup_app_l by lia.
    + apply (body_append (sects g)); try done; [lia|intuition lia| | |].
      * rewrite lookup_insert_ne by done. apply (proj2 Hfr). change FSSIZE with 1000. lia.
      * intros k c Hc. apply lookup_insert_ne. intros E. apply Hix. rewrite E. by eapply list_elem_of_lookup_2.
      * intros _. eexists. split; [apply lookup_insert_eq|]. split; [rewrite put_le_length; unfold o, NDIRECT; lia|].
        intros k Hk. rewrite lookup_snoc_default, Hlen. destruct (decide (12 + k = n)%nat) as [Ek|Ek].
        -- replace (4 * Z.of_nat k) with o by (unfold o, NDIRECT; lia). apply get_put_same; unfold o, NDIRECT; lia.
        -- rewrite get_put_other by (unfold o, NDIRECT; lia). by apply He.
    + apply own_add; [done| |lia| |exact (proj1 Hfr)]; rewrite owned_add by done.
      * destruct Hown as [Hnd _]. rewrite owned_ind in Hnd by done. apply NoDup_app in Hnd as (Hnd & _ & _).
        apply NoDup_app. split; [done|]. split; [set_solver|]. apply NoDup_cons. split; [set_solver|apply NoDup_singleton].
      * rewrite owned_ind by done. intros c Hc. apply elem_of_app in Hc as [Hc|Hc]; [left; set_solver|].
        apply elem_of_cons in Hc as [->|Hc]; [right; lia|left; set_solver].
    + apply fresh_next; [done|lia|]. intros c Hc1 Hc2. apply lookup_insert_ne. lia.
Qed.

Lemma zero_word k : (k < 256)%nat -> get_le 4 zeroes (4 * Z.of_nat k) = 0.
Proof.
  intros Hk. unfold get_le, zeroes. change (Z.to_nat BSIZE) with 1024%nat. rewrite drop_replicate, take_replicate, Nat.min_l by lia. reflexivity.
Qed.

(** The first block behind the direct ones: the indirect block is new too. *)
Lemma grow_first g din f :
  din_ok din f -> body_ok (sects g) f -> own_ok g f -> fresh_ok g ->
  length (f_blocks f) = 12%nat -> freeblock g + 1 < FSSIZE ->
  exists din1 g1 f1, file_block din 12 g = Done (din1, default 0 (f_blocks f1 !! 12%nat)) g1 /\ grown g f 12 din1 g1 f1.
Proof.
  intros Hdin Hbody Hown Hfr Hlen Hsp. set (b := freeblock g). pose proof (proj1 Hfr) as Hmeta. change nmeta with 46 in Hmeta. change FSSIZE with 1000 in Hsp.
  assert (Hi : f_ind f = 0) by (apply (bo_ind _ _ Hbody); lia).
  assert (Ho : owned f = f_blocks f) by (unfold owned; rewrite Hi; apply app_nil_r).
  pose proof (not_owned g f b Hown ltac:(lia)) as Hb. pose proof (not_owned g f (b + 1) Hown ltac:(lia)) as Hb1. rewrite Ho in Hb, Hb1.
  assert (E60 : get_le 4 din (12 + 4 * NDIRECT) = 0) by (rewrite <- Hi; apply (di_indirect _ _ Hdin)).
  assert (Hz : get_le 4 zeroes 0 = 0) by reflexivity. assert (Hzl : length zeroes = 1024%nat) by reflexivity.
  set (g1 := set_freeblock (b + 1) g).
  exists (put_le 4 din (12 + 4 * NDIRECT) b), (Image (<[b := put_le 4 zeroes 0 (b + 1)]> (sects g)) (freeinode g) (b + 2)), (add_block f (b + 1) b). split.
  - unfold file_block. change (12 <? NDIRECT) with false. cbn [fst snd].
    mstep (block_at_new din (12 + 4 * NDIRECT) g E60 ltac:(change nmeta with 46; change FSSIZE with 1000; lia)). cbn [fst snd]. fold b g1.
    rewrite get_put_same by (rewrite ?(di_length _ _ Hdin); unfold NDIRECT; lia).
    mstep (rsect_run g1 b zeroes ltac:(apply (proj2 Hfr); change FSSIZE with 1000; lia)). change (4 * (12 - NDIRECT)) with 0.
    mstep (block_at_new zeroes 0 g1 Hz ltac:(change nmeta with 46; change FSSIZE with 1000; cbn; lia)). cbn [fst snd when].
    unfold wsect. mrun. cbn [g1 freeblock set_freeblock]. rewrite get_put_same by (rewrite ?Hzl; lia). cbn [add_block f_blocks].
    rewrite lookup_app_r, Hlen, Nat.sub_diag by lia. cbn. unfold set_sects, set_freeblock. cbn. by replace (b + 1 + 1) with (b + 2) by lia.
  - split; cbn [f_data f_type f_blocks freeblock freeinode sects]; rewrite ?owned_add by lia; try done.
    + cbn. rewrite length_app. cbn. lia.
    + rewrite Hlen, (cost_direct 12), cost_indirect by lia. lia.
    + intros c Hc. rewrite Ho. apply elem_two in Hc as [Hc|[-> | ->]]; [by left|right; lia|right; lia].
    + intros c Hc. rewrite Ho in Hc. apply elem_two. by left.
    + intros c Hc. apply lookup_insert_ne. intros E. apply Hc, elem_two. auto.
    + destruct Hdin as [D1 D2 D3 D4 D5]. split; cbn [add_block f_type f_blocks f_ind]; unfold NDIRECT.
      * rewrite put_le_length; lia.
      * by rewrite get_put_other by lia.
      * by rewrite get_put_other by lia.
      * intros k Hk. rewrite get_put_other by lia. rewrite D4 by done. by rewrite lookup_app_l by lia.
      * apply get_put_same; lia.
    + apply (body_append (sects g)); try done; [lia|lia| | |].
      * rewrite lookup_insert_ne by lia. apply (proj2 Hfr). change FSSIZE with 1000. lia.
      * intros k c Hc. apply lookup_insert_ne. intros E. apply Hb. rewrite E. by eapply list_elem_of_lookup_2.
      * intros _. eexists. split; [apply lookup_insert_eq|]. split; [rewrite put_le_length; rewrite ?Hzl; lia|].
        intros k Hk. rewrite lookup_snoc_default, Hlen. destruct (decide (12 + k = 12)%nat) as [Ek|Ek].
        -- replace (4 * Z.of_nat k) with 0 by lia. apply get_put_same; rewrite ?Hzl; lia.
        -- rewrite get_put_other by (rewrite ?Hzl; lia). rewrite lookup_ge_None_2 by lia. cbn. apply zero_word. lia.
    + apply own_add; [done| |lia| |exact (proj1 Hfr)]; rewrite owned_add by lia.
      * destruct Hown as [Hnd _]. rewrite Ho in Hnd. apply NoDup_app. split; [done|]. split.
        { intros c Hc Hc'. apply (elem_two c [] (b + 1) b) in Hc' as [Hc'|[-> | ->]]; [by apply elem_of_nil in Hc'|done|done]. }
        apply NoDup_cons. split; [|apply NoDup_singleton]. intros Hc%list_elem_of_singleton. lia.
      * rewrite Ho. intros c Hc. apply elem_two in Hc as [Hc|[-> | ->]]; [by left|right; lia|right; lia].
    + apply fresh_next; [done|lia|]. intros c Hc1 Hc2. apply lookup_insert_ne. lia.
Qed.

(** The block is there already. *)
Lemma file_block_old g din f n x :
  din_ok din f -> body_ok (sects g) f -> own_ok g f -> fresh_ok g -> f_blocks f !! n = Some x ->
  file_block din (Z.of_nat n) g = Done (din, x) g.
Proof.
  intros Hdin Hbody Hown Hfr Hx. pose proof (lookup_lt_Some _ _ _ Hx) as Hn. pose proof (bo_max _ _ Hbody) as Hmax.
  assert (Hr : forall c, c ∈ owned f -> c <> 0).
  { intros c Hc ->. destruct Hown as [_ Hr]. rewrite Forall_forall in Hr. specialize (Hr 0 Hc). change nmeta with 46 in Hr. lia. }
  assert (Hx0 : x <> 0) by (apply Hr, elem_of_app; left; by eapply list_elem_of_lookup_2).
  unfold file_block, NDIRECT. destruct (Z.ltb_spec (Z.of_nat n) 12) as [Hlt|Hge].
  - assert (E : get_le 4 din (12 + 4 * Z.of_nat n) = x) by (rewrite (di_direct _ _ Hdin) by lia; by rewrite Hx).
    mstep (block_at_old din (12 + 4 * Z.of_nat n) g ltac:(by rewrite E)). cbn [fst]. by rewrite E.
  - assert (Hi : f_ind f <> 0) by (intros E; apply (bo_ind _ _ Hbody) in E; lia).
    destruct (bo_entries _ _ Hbody Hi) as (d & Hd & Hdl & He).
    assert (E60 : get_le 4 din (12 + 4 * 12) = f_ind f) by apply (di_indirect _ _ Hdin).
    mstep (block_at_old din (12 + 4 * 12) g ltac:(by rewrite E60)). cbn [fst snd]. rewrite E60.
    mstep (rsect_run g _ d Hd).
    assert (E : get_le 4 d (4 * (Z.of_nat n - 12)) = x).
    { replace (4 * (Z.of_nat n - 12)) with (4 * Z.of_nat (n - 12)) by lia. rewrite He by lia.
      replace (12 + (n - 12))%nat with n by lia. by rewrite Hx. }
    mstep (block_at_old d (4 * (Z.of_nat n - 12)) g ltac:(by rewrite E)). cbn [fst snd when]. mrun. by rewrite E.
Qed.

Lemma file_block_run g din f n :
  din_ok din f -> body_ok (sects g) f -> own_ok g f -> fresh_ok g ->
  (n <= length (f_blocks f) <= S n)%nat -> (n < 268)%nat ->
  freeblock g + Z.of_nat (cost (S n)) - Z.of_nat (cost (length (f_blocks f))) <= FSSIZE ->
  exists din1 g1 f1 x, file_block din (Z.of_nat n) g = Done (din1, x) g1 /\ grown g f n din1 g1 f1 /\ f_blocks f1 !! n = Some x.
Proof.
  intros Hdin Hbody Hown Hfr Hlen Hn Hsp.
  destruct (Nat.eq_dec (length (f_blocks f)) (S n)) as [Es|Es].
  - destruct (f_blocks f !! n) as [x|] eqn:Hx; [|apply lookup_ge_None_1 in Hx; lia].
    exists din, g, f, x. split; [by apply (file_block_old g din f)|]. split; [|done]. split; try done; [rewrite Es; lia|by left].
  - assert (El : length (f_blocks f) = n) by lia. rewrite El in Hsp.
    assert (H : exists din1 g1 f1, file_block din (Z.of_nat n) g = Done (din1, default 0 (f_blocks f1 !! n)) g1 /\ grown g f n din1 g1 f1).
    { destruct (lt_eq_lt_dec n 12) as [[H|H]|H].
      - rewrite !cost_direct in Hsp by lia. apply (grow_direct g din f n); done || lia.
      - subst n. rewrite H, (cost_direct 12), cost_indirect in Hsp by lia. rewrite H. apply (grow_first g din f); done || lia.
      - rewrite !cost_indirect in Hsp by lia. apply (grow_indirect g din f n); done || lia. }
    destruct H as (din1 & g1 & f1 & E & Hg). exists din1, g1, f1, (default 0 (f_blocks f1 !! n)). split; [done|]. split; [done|].
    destruct (f_blocks f1 !! n) as [x|] eqn:Hx; [done|]. apply lookup_ge_None_1 in Hx. rewrite (gr_blocks _ _ _ _ _ _ Hg) in Hx. lia.
Qed.

(** ** Appending *)

(** The file with [q] behind its content. *)
Definition add_data (f : file) (q : list Z) : file := File (f_type f) (f_blocks f) (f_ind f) (f_data f ++ q).

Lemma write_block g f n x q :
  body_ok (sects g) f -> own_ok g f -> f_blocks f !! n = Some x -> length (f_blocks f) = S n ->
  (1024 * n <= length (f_data f))%nat -> (length (f_data f) + length q <= 1024 * (n + 1))%nat ->
  body_ok (<[x := chunk (f_data f ++ q) n]> (sects g)) (add_data f q).
Proof.
  intros [Hi Hm Hf He Hd] [Hnd Hr] Hx Hlen Hn Hq.
  assert (Hnd' : NoDup (f_blocks f)) by (unfold owned in Hnd; by apply NoDup_app in Hnd as (Hnd & _)).
  split; cbn [add_data f_ind f_blocks f_data]; try done.
  - rewrite length_app. lia.
  - intros H0. destruct (He H0) as (d & Hd1 & Hd2). exists d. split; [|done]. rewrite lookup_insert_ne; [done|]. intros E.
    rewrite owned_ind in Hnd by done. apply NoDup_app in Hnd as (_ & Hnd & _). apply (Hnd x); [by eapply list_elem_of_lookup_2|].
    apply list_elem_of_singleton. done.
  - intros k b Hb. destruct (decide (k = n)) as [->|Hk].
    + rewrite Hx in Hb. injection Hb as <-. apply lookup_insert_eq.
    + assert (Hxb : x <> b) by (intros ->; apply Hk; by eapply NoDup_lookup).
      pose proof (lookup_lt_Some _ _ _ Hb). rewrite lookup_insert_ne, (Hd k b Hb), chunk_other by (done || lia). done.
Qed.

(** The blocks that hold [n] bytes. *)
Definition blocks_of (n : nat) : nat := ((n + 1023) / 1024)%nat.

Lemma blocks_of_spec n : (n <= 1024 * blocks_of n < n + 1024)%nat.
Proof. unfold blocks_of. pose proof (Nat.div_mod_eq (n + 1023) 1024). pose proof (Nat.mod_upper_bound (n + 1023) 1024). lia. Qed.

(** What appending [q] makes of a file, in the image [g1] with the dinode [din1]. *)
Record appended (g : image) (f : file) (q din1 : list Z) (g1 : image) (f1 : file) : Prop := {
  ap_data : f_data f1 = f_data f ++ q;
  ap_type : f_type f1 = f_type f;
  ap_blocks : length (f_blocks f1) = blocks_of (length (f_data f1));
  ap_free : freeblock g1 = freeblock g + Z.of_nat (cost (length (f_blocks f1))) - Z.of_nat (cost (length (f_blocks f)));
  ap_inode : freeinode g1 = freeinode g;
  ap_owned : forall b, b ∈ owned f1 -> b ∈ owned f \/ freeblock g <= b;
  ap_keeps : forall b, b ∈ owned f -> b ∈ owned f1;
  ap_frame : forall b, b ∉ owned f1 -> sects g1 !! b = sects g !! b;
  ap_din : din_ok din1 f1;
  ap_body : body_ok (sects g1) f1;
  ap_own : own_ok g1 f1;
  ap_fresh : fresh_ok g1
}.

Lemma cost_mono a b : (a <= b)%nat -> (cost a <= cost b)%nat.
Proof.
  intros H. destruct (Nat.le_gt_cases a 12), (Nat.le_gt_cases b 12);
    rewrite ?(cost_direct a), ?(cost_direct b), ?(cost_indirect a), ?(cost_indirect b) by lia; lia.
Qed.

Lemma appended_trans g f q1 din1 g1 f1 q2 din2 g2 f2 :
  appended g f q1 din1 g1 f1 -> appended g1 f1 q2 din2 g2 f2 -> freeblock g <= freeblock g1 ->
  appended g f (q1 ++ q2) din2 g2 f2.
Proof.
  intros A B Hle. split; try apply B.
  - rewrite (ap_data _ _ _ _ _ _ B), (ap_data _ _ _ _ _ _ A). by rewrite app_assoc.
  - rewrite (ap_type _ _ _ _ _ _ B). apply A.
  - rewrite (ap_free _ _ _ _ _ _ B), (ap_free _ _ _ _ _ _ A). lia.
  - rewrite (ap_inode _ _ _ _ _ _ B). apply A.
  - intros b Hb. destruct (ap_owned _ _ _ _ _ _ B b Hb) as [H|H]; [apply (ap_owned _ _ _ _ _ _ A b H)|right; lia].
  - intros b Hb. apply (ap_keeps _ _ _ _ _ _ B), (ap_keeps _ _ _ _ _ _ A). done.
  - intros b Hb. rewrite (ap_frame _ _ _ _ _ _ B b Hb). apply (ap_frame _ _ _ _ _ _ A). intros H. apply Hb.
    by apply (ap_keeps _ _ _ _ _ _ B).
Qed.

(** One turn: block [n] is got and filled with [q]. *)
Lemma turn_run g din f n q :
  din_ok din f -> body_ok (sects g) f -> own_ok g f -> fresh_ok g ->
  length (f_blocks f) = blocks_of (length (f_data f)) -> n = (length (f_data f) / 1024)%nat -> (n < 268)%nat ->
  q <> [] -> (length (f_data f) + length q <= 1024 * (n + 1))%nat ->
  freeblock g + Z.of_nat (cost (S n)) - Z.of_nat (cost (length (f_blocks f))) <= FSSIZE ->
  exists din1 g1 f1 x buf, file_block din (Z.of_nat n) g = Done (din1, x) g1 /\ sects g1 !! x = Some buf /\
    let g2 := set_sects (<[x := put_bytes buf (Z.of_nat (length (f_data f) - 1024 * n)) q]> (sects g1)) g1 in
    appended g f q din1 g2 f1.
Proof.
  intros Hdin Hbody Hown Hfr Hlen Hn Hmax Hq Hroom Hsp.
  pose proof (blocks_of_spec (length (f_data f))) as Hbs. rewrite <- Hlen in Hbs.
  assert (Hnd : (1024 * n <= length (f_data f) < 1024 * n + 1024)%nat)
    by (pose proof (Nat.div_mod_eq (length (f_data f)) 1024); pose proof (Nat.mod_upper_bound (length (f_data f)) 1024); lia).
  assert (Hq0 : (0 < length q)%nat) by (destruct q; [done|cbn; lia]).
  destruct (file_block_run g din f n Hdin Hbody Hown Hfr) as (din1 & g1 & f1 & x & E & Hg & Hx); [lia|done|done|].
  pose proof (bo_data _ _ (gr_body _ _ _ _ _ _ Hg) n x Hx) as Hbuf. rewrite (gr_data _ _ _ _ _ _ Hg) in Hbuf.
  exists din1, g1, (add_data f1 q), x, (chunk (f_data f) n). split; [done|]. split; [done|]. cbn zeta.
  rewrite chunk_write by lia.
  assert (Hxo : x ∈ owned f1) by (apply elem_of_app; left; by eapply list_elem_of_lookup_2).
  assert (Hxb : nmeta <= x < freeblock g1) by (destruct (gr_own _ _ _ _ _ _ Hg) as [_ Hr]; rewrite Forall_forall in Hr; by apply Hr).
  pose proof (gr_blocks _ _ _ _ _ _ Hg) as Hb1.
  split; cbn [add_data f_data f_type f_blocks set_sects freeblock freeinode sects]; change (owned (add_data f1 q)) with (owned f1); try apply Hg.
  - by rewrite (gr_data _ _ _ _ _ _ Hg).
  - rewrite Hb1, (gr_data _ _ _ _ _ _ Hg). pose proof (blocks_of_spec (length (f_data f ++ q))). rewrite length_app in *. lia.
  - rewrite Hb1. apply Hg.
  - intros b Hb. rewrite lookup_insert_ne by (intros ->; done). by apply (gr_frame _ _ _ _ _ _ Hg).
  - destruct (gr_din _ _ _ _ _ _ Hg). by split.
  - rewrite <- (gr_data _ _ _ _ _ _ Hg). apply write_block; try apply Hg; try done; rewrite ?(gr_data _ _ _ _ _ _ Hg); lia.
  - destruct (gr_fresh _ _ _ _ _ _ Hg) as [F1 F2]. split; cbn; [done|]. intros b Hb. rewrite lookup_insert_ne by lia. by apply F2.
Qed.

(** The room that appending [p] needs. *)
Definition room (g : image) (f : file) (k : nat) : Prop :=
  (length (f_data f) + k <= 268 * 1024)%nat /\
  freeblock g + Z.of_nat (cost (blocks_of (length (f_data f) + k))) - Z.of_nat (cost (length (f_blocks f))) <= FSSIZE.

Lemma blocks_of_mono a b : (a <= b)%nat -> (blocks_of a <= blocks_of b)%nat.
Proof. intros H. unfold blocks_of. apply Nat.Div0.div_le_mono. lia. Qed.

Lemma room_after g f q din1 g1 f1 k :
  appended g f q din1 g1 f1 -> room g f (length q + k) -> room g1 f1 k.
Proof.
  intros A [H1 H2]. split; rewrite (ap_data _ _ _ _ _ _ A), length_app; [lia|]. rewrite (ap_free _ _ _ _ _ _ A).
  rewrite <- Nat.add_assoc. lia.
Qed.

Lemma iappend_loop_run fuel : forall g din f p,
  din_ok din f -> body_ok (sects g) f -> own_ok g f -> fresh_ok g ->
  length (f_blocks f) = blocks_of (length (f_data f)) -> room g f (length p) -> (length p < fuel)%nat ->
  exists din1 g1 f1, iappend_loop fuel din (Z.of_nat (length (f_data f))) p g =
    Done (din1, Z.of_nat (length (f_data f) + length p)) g1 /\ appended g f p din1 g1 f1.
Proof.
  induction fuel as [|fuel IH]; intros g din f p Hdin Hbody Hown Hfr Hlen Hroom Hf; [lia|]. cbn [iappend_loop].
  destruct (Nat.eqb_spec (length p) 0) as [E0|E0].
  { apply nil_length_inv in E0 as ->. exists din, g, f. split; [cbn [length]; by rewrite Nat.add_0_r|].
    split; try done; [by rewrite app_nil_r|lia|by left]. }
  destruct Hroom as [Hmax Hsp]. set (len := length (f_data f)) in *. set (n := (len / 1024)%nat).
  assert (Hn : (1024 * n <= len < 1024 * n + 1024)%nat)
    by (pose proof (Nat.div_mod_eq len 1024); pose proof (Nat.mod_upper_bound len 1024); unfold n; lia).
  assert (EZ : Z.of_nat len / BSIZE = Z.of_nat n) by (unfold n; rewrite Nat2Z.inj_div; done). rewrite EZ.
  rewrite (proj2 (Z.ltb_lt (Z.of_nat n) MAXFILE)) by (change MAXFILE with 268; lia). cbn [negb].
  set (n1 := Nat.min (length p) (1024 * (n + 1) - len)).
  replace (Z.min (Z.of_nat (length p)) ((Z.of_nat n + 1) * BSIZE - Z.of_nat len)) with (Z.of_nat n1) by (unfold n1, BSIZE; lia).
  rewrite Nat2Z.id.
  assert (Hq : length (take n1 p) = n1) by (rewrite length_take; unfold n1; lia).
  assert (Hsp1 : freeblock g + Z.of_nat (cost (S n)) - Z.of_nat (cost (length (f_blocks f))) <= FSSIZE).
  { pose proof (blocks_of_spec (len + length p)). pose proof (cost_mono (S n) (blocks_of (len + length p)) ltac:(lia)). lia. }
  destruct (turn_run g din f n (take n1 p) Hdin Hbody Hown Hfr Hlen) as (din1 & g1 & f1 & x & buf & E & Hbuf & Hap);
    [done|lia|intros Hnil; rewrite Hnil in Hq; cbn in Hq; unfold n1 in Hq; lia|fold len; unfold n1 in *; lia|done|].
  cbn zeta in Hap. fold len in Hap. mstep E. cbn [fst snd].
  mstep (rsect_run g1 x buf Hbuf).
  replace (Z.of_nat len - Z.of_nat n * BSIZE) with (Z.of_nat (len - 1024 * n)) by (unfold BSIZE; lia).
  unfold wsect at 1. rewrite bind_modify. set (g2 := set_sects _ g1) in *.
  rewrite u32_small by lia. replace (Z.of_nat len + Z.of_nat n1) with (Z.of_nat (length (f_data f1)))
    by (rewrite (ap_data _ _ _ _ _ _ Hap), length_app, Hq; fold len; lia).
  assert (Hpl : length (drop n1 p) = (length p - n1)%nat) by apply length_drop.
  destruct (IH g2 din1 f1 (drop n1 p)) as (din2 & g3 & f2 & E2 & Hap2); try apply Hap.
  { apply (room_after _ _ _ _ _ _ _ Hap). rewrite Hq, Hpl. replace (n1 + (length p - n1))%nat with (length p) by (unfold n1; lia). by split. }
  { rewrite Hpl. unfold n1. lia. }
  exists din2, g3, f2. split.
  - rewrite E2, Hpl, (ap_data _ _ _ _ _ _ Hap), length_app, Hq. fold len.
    by replace (len + n1 + (length p - n1))%nat with (len + length p)%nat by (unfold n1; lia).
  - rewrite <- (take_drop n1 p). eapply appended_trans; [exact Hap|exact Hap2|]. rewrite (ap_free _ _ _ _ _ _ Hap).
    pose proof (cost_mono (blocks_of len) (blocks_of (len + n1)) (blocks_of_mono len (len + n1) ltac:(lia))).
    rewrite (ap_blocks _ _ _ _ _ _ Hap), Hlen, (ap_data _ _ _ _ _ _ Hap), length_app, Hq. fold len. lia.
Qed.
