(* ===== verification/MkfsImage.v ===== *)
(** * The image as a list of files

    The image that mkfs builds refines a list of files, each a type and a
    content: allocating an inode adds an empty file, appending to an inode
    appends to the content.  The last theorem says what the finished image holds
    for the kernel that reads it. *)

From S2P Require Import Prelude Machine Memory State FsState Log Fs FsSpec User Mkfs MkfsSpec.

(** ** Inodes *)

(** The bytes of a dinode in its block. *)
Definition dinode_in (d : list Z) (i : Z) : list Z := take 64 (drop (Z.to_nat (dinode_off i)) d).

Lemma inode_block i : 0 <= i < 208 -> 32 <= IBLOCK i sb < 45.
Proof. intros Hi. unfold IBLOCK. change IPB with 16. change (sb_inodestart sb) with 32. rewrite u32_small; lia. Qed.

Lemma get_le_slice w d off o : (o + w <= 64)%nat ->
  get_le w (take 64 (drop off d)) (Z.of_nat o) = get_le w d (Z.of_nat off + Z.of_nat o).
Proof.
  intros H. unfold get_le. rewrite Nat2Z.id. replace (Z.to_nat (Z.of_nat off + Z.of_nat o)) with (off + o)%nat by lia.
  f_equal. rewrite <- drop_drop. generalize (drop off d). intros e. apply list_eq. intros k.
  destruct (decide (k < w)%nat); [|by rewrite !lookup_take_ge by lia].
  rewrite !lookup_take_lt, !lookup_drop by lia. apply lookup_take_lt. lia.
Qed.

Lemma dinode_put d i din : length d = 1024%nat -> length din = 64%nat -> 0 <= i ->
  length (put_bytes d (dinode_off i) din) = 1024%nat /\ dinode_in (put_bytes d (dinode_off i) din) i = din.
Proof.
  intros Hd Hl Hi. pose proof (dinode_off_range i Hi). split; [rewrite put_bytes_length; lia|].
  unfold dinode_in, put_bytes. rewrite drop_app_length' by (rewrite length_take; lia). by apply take_app_length'.
Qed.

Lemma dinode_put_other d i j din : length d = 1024%nat -> length din = 64%nat -> 0 <= i -> 0 <= j ->
  dinode_off i <> dinode_off j -> dinode_in (put_bytes d (dinode_off i) din) j = dinode_in d j.
Proof.
  intros Hd Hl Hi Hj Hne. pose proof (dinode_off_range i Hi). pose proof (dinode_off_range j Hj). unfold dinode_in. apply list_eq. intros k.
  destruct (decide (k < 64)%nat); [|by rewrite !lookup_take_ge by lia].
  rewrite !lookup_take_lt, !lookup_drop by lia. apply put_bytes_outside; [lia|].
  unfold dinode_off in *. change IPB with 16 in *. change sizeof_dinode with 64 in *. lia.
Qed.

Lemma same_slot i j : 0 <= i < 208 -> 0 <= j < 208 -> IBLOCK i sb = IBLOCK j sb -> dinode_off i = dinode_off j -> i = j.
Proof.
  intros Hi Hj. unfold IBLOCK, dinode_off. change IPB with 16. change sizeof_dinode with 64. change (sb_inodestart sb) with 32.
  rewrite !u32_small by lia. lia.
Qed.

(** The blocks of inodes are there. *)
Definition inodes_ok (m : gmap Z (list Z)) : Prop :=
  forall b, 32 <= b < 45 -> exists d, m !! b = Some d /\ length d = 1024%nat.

(** The dinode [i] of an image. *)
Definition dinode_at (m : gmap Z (list Z)) (i : Z) : list Z := dinode_in (default zeroes (m !! IBLOCK i sb)) i.

Lemma rinode_run g i : inodes_ok (sects g) -> 0 <= i < 208 -> rinode i g = Done (dinode_at (sects g) i) g.
Proof.
  intros Hok Hi. destruct (Hok _ (inode_block i Hi)) as (d & Hd & _). unfold rinode, dinode_at.
  mstep (rsect_run g _ d Hd). by rewrite Hd.
Qed.

Lemma winode_run g i din : inodes_ok (sects g) -> 0 <= i < 208 -> length din = 64%nat ->
  exists m, winode i din g = Done tt (set_sects m g) /\ inodes_ok m /\ dinode_at m i = din /\
    (forall j, 0 <= j < 208 -> j <> i -> dinode_at m j = dinode_at (sects g) j) /\
    (forall b, ~ 32 <= b < 45 -> m !! b = sects g !! b).
Proof.
  intros Hok Hi Hl. pose proof (inode_block i Hi) as Hbn. destruct (Hok _ Hbn) as (d & Hd & Hdl).
  destruct (dinode_put d i din Hdl Hl ltac:(lia)) as [Hpl Hpi].
  exists (<[IBLOCK i sb := put_bytes d (dinode_off i) din]> (sects g)). split_and!.
  - unfold winode. by mstep (rsect_run g _ d Hd).
  - intros b Hb. destruct (decide (IBLOCK i sb = b)) as [<-|Hne]; [rewrite lookup_insert_eq; eauto|rewrite lookup_insert_ne by done; auto].
  - unfold dinode_at. by rewrite lookup_insert_eq.
  - intros j Hj Hne. unfold dinode_at. destruct (decide (IBLOCK i sb = IBLOCK j sb)) as [E|E]; [|by rewrite lookup_insert_ne].
    rewrite <- E, lookup_insert_eq, Hd. cbn. apply dinode_put_other; try done; [lia|lia|]. intros Eo. apply Hne. symmetry. by apply same_slot.
  - intros b Hb. apply lookup_insert_ne. intros <-. lia.
Qed.

(** ** The invariant *)

(** The blocks of a list of files. *)
Definition need (l : list (Z * list Z)) : nat := foldr (fun x n => cost (blocks_of (length (snd x))) + n)%nat O l.

(** File [f] is inode [i] of the image. *)
Record file_ok (g : image) (i : Z) (f : file) : Prop := {
  fo_din : din_ok (dinode_at (sects g) i) f;
  fo_size : get_le 4 (dinode_at (sects g) i) 8 = Z.of_nat (length (f_data f));
  fo_body : body_ok (sects g) f;
  fo_own : own_ok g f;
  fo_blocks : length (f_blocks f) = blocks_of (length (f_data f))
}.

Record image_ok (g : image) (fs : list file) : Prop := {
  io_count : freeinode g = 1 + Z.of_nat (length fs);
  io_limit : (length fs < 208)%nat;
  io_inodes : inodes_ok (sects g);
  io_files : forall i f, fs !! i = Some f -> file_ok g (1 + Z.of_nat i) f;
  io_apart : forall i j f f' b, fs !! i = Some f -> fs !! j = Some f' -> b ∈ owned f -> b ∈ owned f' -> i = j;
  io_fresh : fresh_ok g;
  io_free : freeblock g = nmeta + Z.of_nat (need ((fun f => (f_type f, f_data f)) <$> fs))
}.

Lemma body_frame m m' f : body_ok m f -> (forall b, b ∈ owned f -> m' !! b = m !! b) -> body_ok m' f.
Proof.
  intros [Hi Hm Hf He Hd] Hs. split; try done.
  - intros H0. destruct (He H0) as (d & Hd1 & Hd2). exists d. split; [|done]. rewrite Hs; [done|]. rewrite owned_ind by done.
    apply elem_of_app. right. by apply list_elem_of_singleton.
  - intros k b Hb. rewrite Hs; [auto|]. apply elem_of_app. left. by eapply list_elem_of_lookup_2.
Qed.

Lemma own_more g g' f : own_ok g f -> freeblock g <= freeblock g' -> own_ok g' f.
Proof. intros [H1 H2] Hle. split; [done|]. eapply Forall_impl; [exact H2|]. cbn. lia. Qed.

(** A file that nothing happened to. *)
Lemma file_frame g g' i f :
  file_ok g i f -> dinode_at (sects g') i = dinode_at (sects g) i -> freeblock g <= freeblock g' ->
  (forall b, b ∈ owned f -> sects g' !! b = sects g !! b) -> file_ok g' i f.
Proof.
  intros [H1 H2 H3 H4 H5] Hd Hf Hs. split; rewrite ?Hd; try done; [by eapply body_frame|by eapply own_more].
Qed.

Lemma need_cons x l : need (x :: l) = (cost (blocks_of (length (snd x))) + need l)%nat.
Proof. done. Qed.

Lemma need_one t d : (0 < length d <= 1024)%nat -> need [(t, d)] = 1%nat.
Proof. intros Hd. rewrite need_cons. cbn [snd need foldr]. pose proof (blocks_of_spec (length d)). rewrite cost_direct by lia. lia. Qed.

Lemma need_insert l : forall i x y, l !! i = Some x ->
  (need (<[i := y]> l) + cost (blocks_of (length (snd x))) = need l + cost (blocks_of (length (snd y))))%nat.
Proof.
  induction l as [|z l IH]; intros [|i] x y Hi; cbn in Hi; [done|done|injection Hi as ->; cbn; lia|].
  specialize (IH i x y Hi). change (<[S i := y]> (z :: l)) with (z :: <[i := y]> l). rewrite !need_cons. lia.
Qed.

Lemma need_app l1 l2 : need (l1 ++ l2) = (need l1 + need l2)%nat.
Proof. induction l1 as [|x l1 IH]; [done|]. cbn [app]. rewrite !need_cons, IH. lia. Qed.

Lemma din_size din f v : din_ok din f -> 0 <= v < 2 ^ 32 ->
  din_ok (put_le 4 din 8 v) f /\ get_le 4 (put_le 4 din 8 v) 8 = v.
Proof.
  intros [H1 H2 H3 H4 H5] Hv. split; [split|apply get_put_same; lia].
  - rewrite put_le_length; lia.
  - by rewrite get_put_other by lia.
  - by rewrite get_put_other by lia.
  - intros k Hk. rewrite get_put_other by lia. auto.
  - by rewrite get_put_other by lia.
Qed.

(** The image holds the files [l], each a type and a content. *)
Definition image_is (g : image) (l : list (Z * list Z)) : Prop :=
  exists fs, image_ok g fs /\ (fun f => (f_type f, f_data f)) <$> fs = l.

(** The sectors before the inodes, and the bitmap, are not touched. *)
Definition keeps (g g' : image) : Prop := forall b, b < 32 \/ b = 45 -> sects g' !! b = sects g !! b.

(** A file among others is replaced. *)
Lemma image_replace g g' fs i f f' :
  image_ok g fs -> fs !! i = Some f -> file_ok g' (1 + Z.of_nat i) f' -> fresh_ok g' -> inodes_ok (sects g') ->
  freeinode g' = freeinode g ->
  freeblock g' = freeblock g + Z.of_nat (cost (length (f_blocks f'))) - Z.of_nat (cost (length (f_blocks f))) ->
  freeblock g <= freeblock g' ->
  (forall j, (j < length fs)%nat -> j <> i -> dinode_at (sects g') (1 + Z.of_nat j) = dinode_at (sects g) (1 + Z.of_nat j)) ->
  (forall b, 46 <= b -> b ∉ owned f' -> sects g' !! b = sects g !! b) ->
  (forall b, b ∈ owned f' -> b ∈ owned f \/ freeblock g <= b) ->
  image_ok g' (<[i := f']> fs).
Proof.
  intros [Hc Hlim Hin Hfs Hap Hfr Hfree] Hi Hf' Hfr' Hin' Hic Hfb Hle Hd Hs Ho.
  assert (Hlt : (i < length fs)%nat) by (by eapply lookup_lt_Some).
  assert (Hother : forall j fj b, fs !! j = Some fj -> j <> i -> b ∈ owned fj -> 46 <= b /\ b ∉ owned f').
  { intros j fj b Hj Hne Hb. destruct (fo_own _ _ _ (Hfs j fj Hj)) as [_ Hr]. rewrite Forall_forall in Hr.
    specialize (Hr b Hb). change nmeta with 46 in Hr. cbn in Hr. split; [lia|]. intros Hb'.
    destruct (Ho b Hb') as [H|H]; [|lia]. apply Hne. by eapply Hap. }
  split; rewrite ?length_insert; try done; [by rewrite Hic| | |].
  - intros j fj Hj. destruct (decide (j = i)) as [->|Hne].
    + rewrite list_lookup_insert_eq in Hj by done. by injection Hj as <-.
    + rewrite list_lookup_insert_ne in Hj by done. apply (file_frame g); [by apply Hfs|apply Hd; [by eapply lookup_lt_Some|done]|done|].
      intros b Hb. destruct (Hother j fj b Hj Hne Hb). by apply Hs.
  - intros j k fj fk b Hj Hk Hbj Hbk. destruct (decide (j = i)) as [->|Hj'], (decide (k = i)) as [->|Hk']; [done| | |].
    + rewrite list_lookup_insert_eq in Hj by done. injection Hj as <-. rewrite list_lookup_insert_ne in Hk by done.
      by destruct (Hother k fk b Hk Hk' Hbk).
    + rewrite list_lookup_insert_eq in Hk by done. injection Hk as <-. rewrite list_lookup_insert_ne in Hj by done.
      by destruct (Hother j fj b Hj Hj' Hbj).
    + rewrite list_lookup_insert_ne in Hj, Hk by done. by eapply Hap.
  - rewrite list_fmap_insert.
    pose proof (need_insert ((fun f => (f_type f, f_data f)) <$> fs) i (f_type f, f_data f) (f_type f', f_data f')) as Hn.
    rewrite list_lookup_fmap, Hi in Hn. specialize (Hn eq_refl). cbn [snd] in Hn.
    rewrite <- (fo_blocks _ _ _ Hf'), <- (fo_blocks _ _ _ (Hfs i f Hi)) in Hn. lia.
Qed.

(** [iappend] appends to the content. *)
Lemma iappend_run g l i t d p :
  image_is g l -> l !! i = Some (t, d) -> (length d + length p <= 268 * 1024)%nat ->
  nmeta + Z.of_nat (need (<[i := (t, d ++ p)]> l)) <= FSSIZE ->
  exists g', iappend (1 + Z.of_nat i) p g = Done tt g' /\ image_is g' (<[i := (t, d ++ p)]> l) /\ keeps g g'.
Proof.
  intros (fs & Hok & <-) Hi Hmax Hsp. apply list_lookup_fmap_Some in Hi as (f & [= -> ->] & Hf).
  pose proof (io_files _ _ Hok i f Hf) as [Hdin Hsz Hbody Hown Hbl]. pose proof (lookup_lt_Some _ _ _ Hf) as Hlt.
  pose proof (io_limit _ _ Hok) as Hlim. pose proof (io_inodes _ _ Hok) as Hin.
  pose proof (need_insert ((fun f => (f_type f, f_data f)) <$> fs) i (f_type f, f_data f) (f_type f, f_data f ++ p)) as Hn.
  rewrite list_lookup_fmap, Hf in Hn. specialize (Hn eq_refl). cbn [snd] in Hn. rewrite length_app in Hn.
  assert (Hroom : room g f (length p)) by (split; [done|]; rewrite (io_free _ _ Hok), Hbl; lia).
  unfold iappend. mstep (rinode_run g (1 + Z.of_nat i) Hin ltac:(lia)). rewrite Hsz.
  destruct (iappend_loop_run (S (length p)) g _ f p Hdin Hbody Hown (io_fresh _ _ Hok) Hbl Hroom ltac:(lia)) as (din1 & g1 & f1 & E & A).
  mstep E. cbn [fst snd].
  assert (Hdata : f_data f1 = f_data f ++ p) by apply A.
  destruct (din_size din1 f1 (Z.of_nat (length (f_data f) + length p)) (ap_din _ _ _ _ _ _ A) ltac:(lia)) as [Hdin2 Hsz2].
  assert (Hge : forall b, b ∈ owned f1 -> 46 <= b) by
    (intros b Hb; destruct (ap_own _ _ _ _ _ _ A) as [_ Hr]; rewrite Forall_forall in Hr; specialize (Hr b Hb); change nmeta with 46 in Hr; cbn in Hr; lia).
  assert (Hlow : forall b, b < 46 -> sects g1 !! b = sects g !! b) by (intros b Hb; apply (ap_frame _ _ _ _ _ _ A); intros H; apply Hge in H; lia).
  assert (Hin1 : inodes_ok (sects g1)) by (intros b Hb; rewrite Hlow by lia; auto).
  destruct (winode_run g1 (1 + Z.of_nat i) _ Hin1 ltac:(lia) (di_length _ _ Hdin2)) as (m & Ew & Hmi & Hm1 & Hm2 & Hm3).
  assert (Hle : freeblock g <= freeblock g1).
  { rewrite (ap_free _ _ _ _ _ _ A), (ap_blocks _ _ _ _ _ _ A), Hbl, Hdata, length_app.
    pose proof (cost_mono _ _ (blocks_of_mono (length (f_data f)) (length (f_data f) + length p) ltac:(lia))). lia. }
  exists (set_sects m g1). split; [done|]. split.
  - exists (<[i := f1]> fs). split; [|by rewrite list_fmap_insert, Hdata, (ap_type _ _ _ _ _ _ A)].
    apply (image_replace g _ fs i f f1); cbn [set_sects sects freeblock freeinode]; try done; try apply A.
    + split; cbn [set_sects sects]; rewrite ?Hm1; [done|rewrite Hsz2, Hdata, length_app; done| |destruct (ap_own _ _ _ _ _ _ A); by split|apply A].
      apply (body_frame (sects g1)); [apply A|]. intros b Hb. apply Hm3. apply Hge in Hb. lia.
    + split; [apply A|]. intros b Hb. cbn. cbn in Hb. rewrite Hm3; [by apply (ap_fresh _ _ _ _ _ _ A)|].
      pose proof (proj1 (ap_fresh _ _ _ _ _ _ A)) as H46. change nmeta with 46 in H46. lia.
    + intros j Hj Hne. rewrite Hm2 by lia. unfold dinode_at. pose proof (inode_block (1 + Z.of_nat j) ltac:(lia)). by rewrite Hlow by lia.
    + intros b Hb Hbo. rewrite Hm3 by lia. by apply (ap_frame _ _ _ _ _ _ A).
  - intros b Hb. cbn. rewrite Hm3 by lia. apply Hlow. lia.
Qed.

(** [ialloc] adds an empty file. *)
Lemma ialloc_run g l t :
  image_is g l -> (length l < 207)%nat -> 0 <= t < 2 ^ 16 ->
  exists g', ialloc t g = Done (1 + Z.of_nat (length l)) g' /\ image_is g' (l ++ [(t, [])]) /\ keeps g g'.
Proof.
  intros (fs & Hok & <-) Hlen Ht. rewrite length_fmap in *. pose proof Hok as [Hc Hlim Hin Hfs Hap Hfr Hfree].
  unfold ialloc. mrun. rewrite Hc, (u32_small (1 + _ + 1)) by lia. set (i := 1 + Z.of_nat (length fs)).
  set (z := replicate (Z.to_nat sizeof_dinode) 0). assert (Hz : length z = 64%nat) by reflexivity.
  assert (Hu : u16 t = t) by (unfold u16; lia). rewrite Hu.
  set (d1 := put_le 2 z 0 t). assert (H1 : length d1 = 64%nat) by (unfold d1; rewrite put_le_length; lia).
  set (d2 := put_le 2 d1 6 1). assert (H2 : length d2 = 64%nat) by (unfold d2; rewrite put_le_length; lia).
  set (d3 := put_le 4 d2 8 0). assert (H3 : length d3 = 64%nat) by (unfold d3; rewrite put_le_length; lia).
  assert (Hz3 : forall o, 12 <= o -> get_le 4 d3 o = 0).
  { intros o Ho. unfold d3. rewrite get_put_other by lia. unfold d2. rewrite get_put_other by lia.
    unfold d1. rewrite get_put_other by lia. apply get_le_zero. }
  set (g1 := set_freeinode (i + 1) g).
  destruct (winode_run g1 i d3 Hin ltac:(lia) H3) as (m & Ew & Hmi & Hm1 & Hm2 & Hm3). mstep Ew.
  assert (Hge : forall j f b, fs !! j = Some f -> b ∈ owned f -> 46 <= b).
  { intros j f b Hj Hb. destruct (fo_own _ _ _ (Hfs j f Hj)) as [_ Hr]. rewrite Forall_forall in Hr. specialize (Hr b Hb). cbn in Hr. change nmeta with 46 in Hr. lia. }
  eexists. split; [done|]. split; [|intros b Hb; cbn; by rewrite Hm3 by lia].
  exists (fs ++ [File t [] 0 []]). split; [|by rewrite fmap_app].
  split; cbn [set_sects g1 set_freeinode freeinode freeblock sects]; rewrite ?length_app; cbn [length]; try done; try lia.
  - intros j f Hj. apply lookup_app_Some in Hj as [Hj|[Hj1 Hj2]].
    + pose proof (lookup_lt_Some _ _ _ Hj). apply (file_frame g); [by apply Hfs|cbn; apply Hm2; lia|cbn; lia|].
      intros b Hb. cbn. apply Hm3. apply (Hge _ _ _ Hj) in Hb. lia.
    + apply list_lookup_singleton_Some in Hj2 as [Hj2 <-]. replace (1 + Z.of_nat j) with i by lia.
      split; cbn [set_sects sects]; rewrite ?Hm1; try done.
      * split; cbn [f_type f_blocks f_ind]; try done.
        -- unfold d3. rewrite get_put_other by lia. unfold d2. rewrite get_put_other by lia. apply get_put_same; lia.
        -- intros k Hk. rewrite lookup_nil. apply Hz3. lia.
      * split; cbn; try done; lia.
      * split; [apply NoDup_nil_2|constructor].
  - intros j k f f' b Hj Hk Hb Hb'. apply lookup_app_Some in Hj as [Hj|[_ Hj]]; [|apply list_lookup_singleton_Some in Hj as [_ <-]; by apply elem_of_nil in Hb].
    apply lookup_app_Some in Hk as [Hk|[_ Hk]]; [|apply list_lookup_singleton_Some in Hk as [_ <-]; by apply elem_of_nil in Hb']. by eapply Hap.
  - destruct Hfr as [F1 F2]. split; [done|]. intros b Hb. cbn. cbn in Hb. change nmeta with 46 in F1. rewrite Hm3 by lia. by apply F2.
  - rewrite fmap_app, need_app. cbn. lia.
Qed.

Lemma keeps_trans g g1 g2 : keeps g g1 -> keeps g1 g2 -> keeps g g2.
Proof. intros H1 H2 b Hb. rewrite H2, H1 by done. done. Qed.

Lemma need_more l i t d p q : l !! i = Some (t, d) -> (need (<[i := (t, d ++ p)]> l) <= need (<[i := (t, d ++ p ++ q)]> l))%nat.
Proof.
  intros Hi. pose proof (need_insert l i (t, d) (t, d ++ p) Hi) as H1. pose proof (need_insert l i (t, d) (t, d ++ p ++ q) Hi) as H2.
  cbn [snd] in *. pose proof (cost_mono _ _ (blocks_of_mono (length (d ++ p)) (length (d ++ p ++ q)) ltac:(rewrite !length_app; lia))). lia.
Qed.

(** The reads of a file, appended one after the other. *)
Lemma appends_run bufs : forall g l i t d,
  image_is g l -> l !! i = Some (t, d) -> (length d + length (mjoin bufs) <= 268 * 1024)%nat ->
  nmeta + Z.of_nat (need (<[i := (t, d ++ mjoin bufs)]> l)) <= FSSIZE ->
  exists g', for_each bufs (iappend (1 + Z.of_nat i)) g = Done tt g' /\ image_is g' (<[i := (t, d ++ mjoin bufs)]> l) /\ keeps g g'.
Proof.
  induction bufs as [|p bufs IH]; intros g l i t d Hg Hi Hmax Hsp.
  - exists g. split; [done|]. split; [|done]. cbn. rewrite app_nil_r. by rewrite list_insert_id.
  - change (mjoin (p :: bufs)) with (p ++ mjoin bufs) in *. rewrite length_app in Hmax. pose proof (need_more l i t d p (mjoin bufs) Hi) as Hn.
    destruct (iappend_run g l i t d p Hg Hi) as (g1 & E1 & Hg1 & Hk1); [lia|lia|]. cbn [for_each]. mstep E1.
    assert (Hlt : (i < length l)%nat) by (by eapply lookup_lt_Some).
    destruct (IH g1 (<[i := (t, d ++ p)]> l) i t (d ++ p) Hg1) as (g2 & E2 & Hg2 & Hk2).
    + by rewrite list_lookup_insert_eq.
    + rewrite length_app. lia.
    + by rewrite list_insert_insert_eq, <- app_assoc.
    + exists g2. split; [done|]. rewrite list_insert_insert_eq, <- app_assoc in Hg2. split; [done|]. by eapply keeps_trans.
Qed.

Lemma dirent_length i name : length (dirent i name) = 16%nat.
Proof. unfold dirent. by rewrite length_app, length_le_bytes, strncpy_arr_length by apply length_replicate. Qed.

(** ** Reading the image *)

(** The block number of block [k] of inode [i], as the kernel's [bmap] finds it. *)
Definition block_addr (V : Z -> list Z) (i : Z) (k : nat) : Z :=
  let a := dip_addrs (V (IBLOCK i sb)) i in
  if (k <? 12)%nat then default 0 (a !! k) else get_le 4 (V (default 0 (a !! 12%nat))) (4 * Z.of_nat (k - 12)).

(** The block numbers that [n] bytes of inode [i] use, and these bytes. *)
Definition addresses (V : Z -> list Z) (i : Z) (n : nat) : list Z :=
  (block_addr V i <$> seq 0 (blocks_of n)) ++
  (if (12 <? blocks_of n)%nat then [default 0 (dip_addrs (V (IBLOCK i sb)) i !! 12%nat)] else []).

Definition read_back (V : Z -> list Z) (i : Z) (n : nat) : list Z :=
  take n (mjoin ((fun k => V (block_addr V i k)) <$> seq 0 (blocks_of n))).

(** The sectors as a function. *)
Definition sectors (g : image) : Z -> list Z := fun b => default zeroes (sects g !! b).

Lemma dip_addr_at g i k : 0 <= i -> (k < 13)%nat ->
  dip_addrs (sectors g (IBLOCK i sb)) i !! k = Some (get_le 4 (dinode_at (sects g) i) (12 + 4 * Z.of_nat k)).
Proof.
  intros Hi Hk. pose proof (dinode_off_range i Hi). unfold dip_addrs. rewrite list_lookup_fmap, lookup_seq_lt by done. cbn [fmap option_fmap option_map].
  f_equal. unfold dinode_at, dinode_in. replace (12 + 4 * Z.of_nat k) with (Z.of_nat (12 + 4 * k)) by lia.
  rewrite get_le_slice by lia. unfold sectors. f_equal. lia.
Qed.

Lemma block_addr_at g i f k b : din_ok (dinode_at (sects g) i) f -> body_ok (sects g) f -> 0 <= i ->
  f_blocks f !! k = Some b -> block_addr (sectors g) i k = b.
Proof.
  intros Hdin Hbody Hi Hk. pose proof (lookup_lt_Some _ _ _ Hk) as Hlt. pose proof (bo_max _ _ Hbody). unfold block_addr.
  destruct (Nat.ltb_spec k 12) as [H12|H12].
  - rewrite dip_addr_at by lia. cbn. rewrite (di_direct _ _ Hdin) by done. by rewrite Hk.
  - rewrite dip_addr_at by lia. change (default 0 (Some ?x)) with x.
    replace (get_le 4 (dinode_at (sects g) i) (12 + 4 * Z.of_nat 12)) with (f_ind f) by (symmetry; apply (di_indirect _ _ Hdin)).
    assert (Hne : f_ind f <> 0) by (intros E; apply (bo_ind _ _ Hbody) in E; lia).
    destruct (bo_entries _ _ Hbody Hne) as (d & Hd & _ & He). unfold sectors. rewrite Hd. cbn [default]. rewrite He by lia.
    replace (12 + (k - 12))%nat with k by lia. by rewrite Hk.
Qed.

(** What the invariant means for the reader. *)
Lemma file_read g i f :
  din_ok (dinode_at (sects g) i) f -> body_ok (sects g) f -> length (f_blocks f) = blocks_of (length (f_data f)) -> 0 <= i ->
  addresses (sectors g) i (length (f_data f)) = owned f /\ read_back (sectors g) i (length (f_data f)) = f_data f.
Proof.
  intros Hdin Hbody Hlen Hi.
  assert (Ha : block_addr (sectors g) i <$> seq 0 (blocks_of (length (f_data f))) = f_blocks f).
  { apply list_eq. intros k. rewrite list_lookup_fmap, <- Hlen. destruct (f_blocks f !! k) as [b|] eqn:Hk.
    - rewrite lookup_seq_lt by (by eapply lookup_lt_Some). cbn. f_equal. by apply (block_addr_at g i f).
    - rewrite lookup_seq_ge by (by apply lookup_ge_None_1). done. }
  split.
  - unfold addresses, owned. rewrite Ha. f_equal. rewrite <- Hlen. rewrite dip_addr_at by lia.
    change (default 0 (Some ?x)) with x. replace (get_le 4 (dinode_at (sects g) i) (12 + 4 * Z.of_nat 12)) with (f_ind f) by (symmetry; apply (di_indirect _ _ Hdin)).
    pose proof (bo_ind _ _ Hbody) as Hb. destruct (Nat.ltb_spec 12 (length (f_blocks f))), (Z.eqb_spec (f_ind f) 0); done || lia.
  - unfold read_back. replace ((fun k => sectors g (block_addr (sectors g) i k)) <$> seq 0 (blocks_of (length (f_data f))))
      with (chunk (f_data f) <$> seq 0 (blocks_of (length (f_data f)))).
    + pose proof (blocks_of_spec (length (f_data f))). rewrite chunks_join by lia. by rewrite take_app_length.
    + apply list_fmap_ext. intros j k Hk. apply lookup_seq in Hk as [-> Hk]. cbn [Nat.add]. rewrite <- Hlen in Hk.
      destruct (lookup_lt_is_Some_2 _ _ Hk) as [b Hb]. rewrite (block_addr_at g i f j b) by done.
      unfold sectors. by rewrite (bo_data _ _ Hbody j b Hb).
Qed.

(** ** The bitmap *)

Lemma bitmap_bits n : (n <= 8 * 1024)%nat ->
  length (foldl (fun buf i => set_bit i buf) zeroes (seq 0 n)) = 1024%nat /\
  forall b, (b < 8 * 1024)%nat -> bit_clear (foldl (fun buf i => set_bit i buf) zeroes (seq 0 n)) b = negb (b <? n)%nat.
Proof.
  induction n as [|n IH]; intros Hn.
  - split; [done|]. intros b Hb. cbn. unfold bit_clear, zeroes. change (Z.to_nat BSIZE) with 1024%nat.
    rewrite lookup_replicate_2; [done|]. apply Nat.Div0.div_lt_upper_bound. lia.
  - rewrite seq_S, foldl_app. cbn [foldl Nat.add]. destruct (IH ltac:(lia)) as [Hl Hb]. set (m := foldl _ _ _) in *.
    split; [unfold set_bit; by rewrite length_alter|]. intros b Hlt.
    rewrite bit_clear_set by (rewrite Hl; apply Nat.Div0.div_lt_upper_bound; lia). rewrite Hb by done.
    destruct (decide (n = b)) as [->|Hne]; [by rewrite (proj2 (Nat.ltb_lt b (S b))) by lia|].
    destruct (Nat.ltb_spec b n), (Nat.ltb_spec b (S n)); done || lia.
Qed.

(** The end of [main]: the size of the root directory and the bitmap. *)
Definition finish : M image unit :=
  din ← rinode 1;
  winode 1 (put_le 4 din 8 (u32 ((get_le 4 din 8 / BSIZE + 1) * BSIZE)));;
  used ← gets freeblock;
  balloc used.

Definition final_size (k n : nat) : Z :=
  if (k =? 0)%nat then (Z.of_nat n / BSIZE + 1) * BSIZE else Z.of_nat n.

Lemma finish_run g fs f0 :
  image_ok g fs -> fs !! 0%nat = Some f0 -> freeblock g <= FSSIZE ->
  exists g', finish g = Done tt g' /\ freeblock g' = freeblock g /\
    sects g' !! 45 = Some (foldl (fun buf i => set_bit i buf) zeroes (seq 0 (Z.to_nat (freeblock g)))) /\
    (forall b, b < 32 \/ 46 <= b -> sects g' !! b = sects g !! b) /\ inodes_ok (sects g') /\
    (forall i f, fs !! i = Some f -> din_ok (dinode_at (sects g') (1 + Z.of_nat i)) f /\ body_ok (sects g') f /\
       get_le 4 (dinode_at (sects g') (1 + Z.of_nat i)) 8 = final_size i (length (f_data f))).
Proof.
  intros Hok H0 Hsp. pose proof (io_inodes _ _ Hok) as Hin. pose proof (io_limit _ _ Hok) as Hlim.
  pose proof (io_files _ _ Hok 0%nat f0 H0) as [Hdin Hsz Hbody Hown Hbl]. change (1 + Z.of_nat 0) with 1 in *.
  pose proof (bo_max _ _ Hbody) as Hmax. pose proof (bo_fits _ _ Hbody) as Hfits.
  set (v := (Z.of_nat (length (f_data f0)) / BSIZE + 1) * BSIZE).
  assert (Hv : 0 <= v < 2 ^ 32) by (unfold v; change BSIZE with 1024; lia).
  destruct (din_size _ f0 v Hdin Hv) as [Hdin' Hsz'].
  unfold finish. mstep (rinode_run g 1 Hin ltac:(lia)). rewrite Hsz. fold v. rewrite (u32_small v) by lia.
  destruct (winode_run g 1 _ Hin ltac:(lia) (di_length _ _ Hdin')) as (m & E & Hmi & Hm1 & Hm2 & Hm3). mstep E. mrun.
  unfold balloc. cbn [freeblock set_sects]. change FSSIZE with 1000 in Hsp. change (BSIZE * 8) with 8192. rewrite (proj2 (Z.ltb_lt _ 8192)) by lia. cbn [negb].
  change (sb_bmapstart sb) with 45. set (bm := foldl _ _ _). rewrite wsect_run. cbn [sects set_sects freeinode freeblock].
  assert (Hlow : forall i, 0 <= i < 208 -> dinode_at (<[45 := bm]> m) i = dinode_at m i).
  { intros i Hi. pose proof (inode_block i Hi). unfold dinode_at. by rewrite lookup_insert_ne by lia. }
  eexists. split; [done|]. cbn [sects freeblock freeinode set_sects]. split; [done|]. split; [apply lookup_insert_eq|]. split.
  - intros b Hb. rewrite lookup_insert_ne by lia. apply Hm3. lia.
  - split; [intros b Hb; rewrite lookup_insert_ne by lia; by apply Hmi|].
    intros i f Hi. pose proof (lookup_lt_Some _ _ _ Hi). pose proof (io_files _ _ Hok i f Hi) as [Fd Fs Fb Fo Fl]. rewrite Hlow by lia.
    assert (Hb : body_ok (<[45 := bm]> m) f).
    { apply (body_frame (sects g)); [done|]. intros b Hb. destruct Fo as [_ Hr]. rewrite Forall_forall in Hr. specialize (Hr b Hb).
      cbn in Hr. change nmeta with 46 in Hr. rewrite lookup_insert_ne by lia. apply Hm3. lia. }
    unfold final_size. destruct (Nat.eqb_spec i 0) as [->|Hne].
    + rewrite H0 in Hi. injection Hi as <-. change (1 + Z.of_nat 0) with 1. rewrite Hm1. done.
    + rewrite Hm2 by lia. done.
Qed.

(** The directory entries of names with consecutive inode numbers. *)
Fixpoint entries (inum : Z) (names : list (list Z)) : list Z :=
  match names with [] => [] | n :: names' => dirent inum n ++ entries (inum + 1) names' end.

Lemma entries_length names : forall inum, length (entries inum names) = (16 * length names)%nat.
Proof. induction names as [|n names IH]; intros inum; [done|]. cbn [entries length]. rewrite length_app, dirent_length, IH. lia. Qed.

Section Main.
Context (reads : list Z -> option (list (list Z))) (creates : list Z -> bool).

(** An argument, the name it has in the image, and the content of the file. *)
Record item := Item { it_arg : list Z; it_name : list Z; it_data : list Z }.

Definition item_ok (x : item) : Prop :=
  shortname (it_arg x) = Some (it_name x) /\ (length (it_data x) <= 268 * 1024)%nat /\
  exists bufs, reads (it_arg x) = Some bufs /\ mjoin bufs = it_data x.

Lemma add_file_run g rd fs x :
  image_is g ((T_DIR, rd) :: fs) -> item_ok x -> (length fs + 1 < 207)%nat -> (length rd + 16 <= 268 * 1024)%nat ->
  let l := (T_DIR, rd ++ dirent (2 + Z.of_nat (length fs)) (it_name x)) :: fs ++ [(T_FILE, it_data x)] in
  nmeta + Z.of_nat (need l) <= FSSIZE ->
  exists g', add_file reads 1 (it_arg x) g = Done tt g' /\ image_is g' l /\ keeps g g'.
Proof.
  intros Hg (Hname & Hmax & bufs & Hr & Hdata) Hlen Hrd l Hsp. unfold l in *. clear l. rewrite <- Hdata in *. set (l := (T_DIR, rd ++ dirent _ _) :: _) in *.
  unfold add_file. rewrite Hname, Hr.
  destruct (ialloc_run g _ T_FILE Hg) as (g1 & E1 & Hg1 & Hk1); [cbn; lia|done|]. mstep E1.
  change (length ((T_DIR, rd) :: fs)) with (S (length fs)). replace (1 + Z.of_nat (S (length fs))) with (2 + Z.of_nat (length fs)) by lia.
  set (de := dirent _ _) in *. set (d1 := rd ++ de) in *.
  assert (Hn : (need (<[0%nat := (T_DIR, d1)]> (((T_DIR, rd) :: fs) ++ [(T_FILE, [])])) <= need l)%nat).
  { change (<[0%nat := (T_DIR, d1)]> (((T_DIR, rd) :: fs) ++ [(T_FILE, [])])) with ((T_DIR, d1) :: fs ++ [(T_FILE, [] : list Z)]).
    unfold l. rewrite !need_cons, !need_app. cbn. lia. }
  destruct (iappend_run g1 _ 0 T_DIR rd de Hg1 eq_refl) as (g2 & E2 & Hg2 & Hk2); [unfold de; rewrite dirent_length; lia|fold d1; lia|].
  change (1 + Z.of_nat 0) with 1 in E2. mstep E2. fold d1 in Hg2.
  change (<[0%nat := (T_DIR, d1)]> (((T_DIR, rd) :: fs) ++ [(T_FILE, [])])) with (((T_DIR, d1) :: fs) ++ [(T_FILE, [] : list Z)]) in Hg2.
  assert (Hi : (((T_DIR, d1) :: fs) ++ [(T_FILE, [] : list Z)]) !! S (length fs) = Some (T_FILE, []))
    by (by apply (list_lookup_middle ((T_DIR, d1) :: fs) [] (T_FILE, []))).
  assert (Hins : <[S (length fs) := (T_FILE, [] ++ mjoin bufs)]> (((T_DIR, d1) :: fs) ++ [(T_FILE, [])]) = l)
    by (rewrite insert_app_r_alt by done; cbn [length]; by rewrite Nat.sub_diag).
  destruct (appends_run bufs g2 _ (S (length fs)) T_FILE [] Hg2 Hi) as (g3 & E3 & Hg3 & Hk3); [cbn [length]; lia|by rewrite Hins|].
  exists g3. split; [|split; [by rewrite Hins in Hg3|eapply keeps_trans; [exact Hk1|by eapply keeps_trans]]].
  by replace (2 + Z.of_nat (length fs)) with (1 + Z.of_nat (S (length fs))) by lia.
Qed.

(** The files of the arguments. *)
Definition regular (xs : list item) : list (Z * list Z) := (fun x => (T_FILE, it_data x)) <$> xs.

Lemma files_run xs : forall g rd fs,
  image_is g ((T_DIR, rd) :: fs) -> Forall item_ok xs -> (length fs + length xs < 207)%nat ->
  (length rd + 16 * length xs <= 268 * 1024)%nat ->
  let l := (T_DIR, rd ++ entries (2 + Z.of_nat (length fs)) (it_name <$> xs)) :: fs ++ regular xs in
  nmeta + Z.of_nat (need l) <= FSSIZE ->
  exists g', for_each (it_arg <$> xs) (add_file reads 1) g = Done tt g' /\ image_is g' l /\ keeps g g'.
Proof.
  induction xs as [|x xs IH]; intros g rd fs Hg Hok Hlen Hrd l Hsp.
  - exists g. split; [done|]. unfold l. cbn. rewrite !app_nil_r. done.
  - apply Forall_cons in Hok as [Hx Hok]. cbn [length] in *. set (d := dirent (2 + Z.of_nat (length fs)) (it_name x)).
    set (l1 := (T_DIR, rd ++ d) :: fs ++ [(T_FILE, it_data x)]).
    assert (El : l = (T_DIR, (rd ++ d) ++ entries (2 + Z.of_nat (length (fs ++ [(T_FILE, it_data x)]))) (it_name <$> xs))
                       :: (fs ++ [(T_FILE, it_data x)]) ++ regular xs).
    { unfold l. cbn [fmap list_fmap entries regular]. rewrite <- !app_assoc, length_app. cbn [length app].
      by replace (2 + Z.of_nat (length fs + 1)) with (2 + Z.of_nat (length fs) + 1) by lia. }
    assert (Hn : (need l1 <= need l)%nat).
    { rewrite El. unfold l1. rewrite !need_cons, !need_app. cbn [snd].
      pose proof (cost_mono _ _ (blocks_of_mono (length (rd ++ d)) (length ((rd ++ d) ++ entries (2 + Z.of_nat (length (fs ++ [(T_FILE, it_data x)]))) (it_name <$> xs)))
        ltac:(rewrite !length_app; lia))). lia. }
    destruct (add_file_run g rd fs x Hg Hx) as (g1 & E1 & Hg1 & Hk1); [lia|lia|fold d l1; lia|].
    cbn [fmap list_fmap for_each]. mstep E1. fold d l1 in Hg1.
    destruct (IH g1 (rd ++ d) (fs ++ [(T_FILE, it_data x)]) Hg1 Hok) as (g2 & E2 & Hg2 & Hk2).
    + rewrite length_app. cbn. lia.
    + rewrite length_app. unfold d. rewrite dirent_length. lia.
    + by rewrite <- El.
    + exists g2. split; [done|]. rewrite El. split; [done|]. by eapply keeps_trans.
Qed.

(** ** The empty image *)

Lemma clear_run bs : forall g,
  exists m, for_each bs (fun i => wsect i zeroes) g = Done tt (set_sects m g) /\
    (forall b, b ∈ bs -> m !! b = Some zeroes) /\ (forall b, b ∉ bs -> m !! b = sects g !! b).
Proof.
  induction bs as [|b bs IH]; intros g.
  - exists (sects g). split; [by destruct g|]. split; [intros b Hb; by apply elem_of_nil in Hb|done].
  - cbn [for_each]. mstep (wsect_run g b zeroes). destruct (IH (set_sects (<[b := zeroes]> (sects g)) g)) as (m & E & H1 & H2).
    exists m. split; [by rewrite E|]. cbn in H2. split; intros c Hc.
    + destruct (decide (c ∈ bs)); [auto|]. apply elem_of_cons in Hc as [->|Hc]; [|done]. rewrite H2 by done. apply lookup_insert_eq.
    + apply not_elem_of_cons in Hc as [Hc1 Hc2]. rewrite H2 by done. by apply lookup_insert_ne.
Qed.

Lemma empty_image m : (forall b, 2 <= b < FSSIZE -> m !! b = Some zeroes) -> image_is (Image m 1 nmeta) [].
Proof.
  intros Hm. exists []. split; [|done]. split; cbn; try done; [lia| |].
  - intros b Hb. exists zeroes. split; [|done]. apply Hm. change FSSIZE with 1000. lia.
  - split; [done|]. intros b Hb. apply Hm. change (freeblock _) with 46 in Hb. lia.
Qed.

(** What the finished image holds: the root directory and the files. *)
Definition image_files (xs : list item) : list (Z * list Z) :=
  (T_DIR, dirent 1 (chars ".") ++ dirent 1 (chars "..") ++ entries 2 (it_name <$> xs)) :: regular xs.

Definition sb_block : list Z :=
  put_bytes zeroes 0 (mjoin (le_bytes 4 <$> [sb_magic sb; sb_size sb; sb_nblocks sb; sb_ninodes sb;
                                               sb_nlog sb; sb_logstart sb; sb_inodestart sb; sb_bmapstart sb])).

(** The root directory is made, and the files are added to it. *)
Lemma root_run g : image_is g [] -> nmeta + 1 <= FSSIZE ->
  exists g1 g2 g3, ialloc T_DIR g = Done 1 g1 /\ iappend 1 (dirent 1 (chars ".")) g1 = Done tt g2 /\
    iappend 1 (dirent 1 (chars "..")) g2 = Done tt g3 /\
    image_is g3 [(T_DIR, dirent 1 (chars ".") ++ dirent 1 (chars ".."))] /\ keeps g g3.
Proof.
  intros Hg Hsp. destruct (ialloc_run g [] T_DIR Hg) as (g1 & E1 & Hg1 & Hk1); [cbn [length]; lia|done|].
  destruct (iappend_run g1 _ 0 T_DIR [] (dirent 1 (chars ".")) Hg1 eq_refl) as (g2 & E2 & Hg2 & Hk2).
  { rewrite dirent_length. cbn [length]. lia. }
  { change (<[0%nat := ?x]> ([] ++ [?y])) with [x]. rewrite need_one; [done|]. rewrite length_app, dirent_length. cbn [length]. lia. }
  destruct (iappend_run g2 _ 0 T_DIR _ (dirent 1 (chars "..")) Hg2 eq_refl) as (g3 & E3 & Hg3 & Hk3).
  { rewrite !length_app, !dirent_length. cbn [length]. lia. }
  { change (<[0%nat := ?x]> (<[0%nat := ?z]> ([] ++ [?y]))) with [x]. rewrite need_one; [done|]. rewrite !length_app, !dirent_length. cbn [length]. lia. }
  exists g1, g2, g3. split_and!; try done. eapply keeps_trans; [exact Hk1|]. by eapply keeps_trans.
Qed.

Lemma build_run prog img xs :
  creates img = true -> Forall item_ok xs -> (length xs <= 198)%nat -> nmeta + Z.of_nat (need (image_files xs)) <= FSSIZE ->
  exists g, image_is g (image_files xs) /\ sects g !! 1 = Some sb_block /\
    main reads creates (prog :: img :: (it_arg <$> xs)) (Image ∅ 1 0) = finish g.
Proof.
  intros Hc Hok Hlen Hsp. unfold main. change (negb (BSIZE mod sizeof_dinode =? 0)) with false. change (negb (BSIZE mod sizeof_dirent =? 0)) with false.
  rewrite Hc. cbn [negb]. rewrite bind_modify. change (set_freeblock nmeta (Image ∅ 1 0)) with (Image ∅ 1 nmeta).
  destruct (clear_run (seqZ 0 FSSIZE) (Image ∅ 1 nmeta)) as (m & E & Hm & _). mstep E. fold sb_block. mstep (wsect_run (set_sects m (Image ∅ 1 nmeta)) 1 sb_block).
  cbn [set_sects sects freeinode freeblock]. set (m1 := <[1 := sb_block]> m).
  assert (Hg0 : image_is (Image m1 1 nmeta) []).
  { apply empty_image. intros b Hb. unfold m1. rewrite lookup_insert_ne by lia. apply Hm. apply elem_of_seqZ. lia. }
  destruct (root_run (Image m1 1 nmeta) Hg0 ltac:(done)) as (g1 & g2 & g3 & E1 & E2 & E3 & Hg3 & Hk3).
  mstep E1. change (negb (1 =? ROOTINO)) with false. cbn [negb]. mstep E2. mstep E3.
  destruct (files_run xs g3 _ [] Hg3 Hok) as (g4 & E4 & Hg4 & Hk4).
  - cbn [length]. lia.
  - rewrite length_app, !dirent_length. lia.
  - cbn [length app Z.of_nat Z.add]. rewrite <- app_assoc. exact Hsp.
  - mstep E4. exists g4. cbn [length app Z.of_nat Z.add] in Hg4. rewrite <- app_assoc in Hg4. split; [exact Hg4|]. split; [|done].
    rewrite Hk4, Hk3 by lia. apply lookup_insert_eq.
Qed.

End Main.

(** The fields the kernel reads of a dinode. *)
Lemma load_dinode_at g i f n ip :
  din_ok (dinode_at (sects g) i) f -> get_le 4 (dinode_at (sects g) i) 8 = n -> 0 <= i -> i_inum ip = i -> 0 <= f_type f < 2 ^ 15 ->
  let ip' := load_dinode (sectors g (IBLOCK i sb)) ip in i_type ip' = f_type f /\ i_nlink ip' = 1 /\ i_size ip' = n.
Proof.
  intros Hdin Hn Hi Hip Ht. pose proof (dinode_off_range i Hi) as Ho.
  assert (Hg : forall w o, (o + w <= 64)%nat -> get_le w (sectors g (IBLOCK i sb)) (dinode_off i + Z.of_nat o) = get_le w (dinode_at (sects g) i) (Z.of_nat o)).
  { intros w o Hw. unfold dinode_at, dinode_in. rewrite get_le_slice by lia. unfold sectors. f_equal. lia. }
  cbn [load_dinode i_type i_nlink i_size]. rewrite Hip. pose proof (Hg 2%nat 0%nat ltac:(lia)) as E0. change (Z.of_nat 0) with 0 in E0. rewrite Z.add_0_r in E0. rewrite E0.
  pose proof (Hg 2%nat 6%nat ltac:(lia)) as E6. change (Z.of_nat 6) with 6 in E6. rewrite E6. pose proof (Hg 4%nat 8%nat ltac:(lia)) as E8. change (Z.of_nat 8) with 8 in E8. rewrite E8.
  rewrite (di_type _ _ Hdin), (di_nlink _ _ Hdin). split_and!; [|done|done]. unfold s16. lia.
Qed.

(** What the finished image [g] with the files [fs] is. *)
Record built (g : image) (fs : list file) : Prop := {
  bt_sb : superblock_of (sectors g 1) = sb;
  bt_bitmap : bitmap_ok (sectors g) sb (sb_logstart sb);
  bt_used : forall b, 0 <= b < FSSIZE -> in_use (sectors g) sb b = (b <? freeblock g);
  bt_free : nmeta <= freeblock g <= FSSIZE;
  bt_inodes : inodes_ok (sects g);
  bt_files : forall k f, fs !! k = Some f ->
    din_ok (dinode_at (sects g) (1 + Z.of_nat k)) f /\ body_ok (sects g) f /\
    get_le 4 (dinode_at (sects g) (1 + Z.of_nat k)) 8 = final_size k (length (f_data f)) /\
    own_ok g f /\ length (f_blocks f) = blocks_of (length (f_data f));
  bt_apart : forall j k f f' b, fs !! j = Some f -> fs !! k = Some f' -> b ∈ owned f -> b ∈ owned f' -> j = k
}.

Lemma mkfs_built reads creates prog img xs :
  creates img = true -> Forall (item_ok reads) xs -> (length xs <= 198)%nat -> nmeta + Z.of_nat (need (image_files xs)) <= FSSIZE ->
  exists g fs, main reads creates (prog :: img :: (it_arg <$> xs)) (Image ∅ 1 0) = Done tt g /\ built g fs /\
    (fun f => (f_type f, f_data f)) <$> fs = image_files xs.
Proof.
  intros Hc Hok Hlen Hsp. destruct (build_run reads creates prog img xs Hc Hok Hlen Hsp) as (g & (fs & Hg & Hfs) & H1 & ->).
  destruct fs as [|f0 fs0] eqn:Ef; [done|]. rewrite <- Ef in *.
  assert (Hfb : freeblock g <= FSSIZE) by (rewrite (io_free _ _ Hg), Hfs; exact Hsp).
  pose proof (proj1 (io_fresh _ _ Hg)) as Hmeta. change nmeta with 46 in Hmeta. change FSSIZE with 1000 in Hfb.
  destruct (finish_run g fs f0 Hg ltac:(by rewrite Ef) Hfb) as (g' & E & Efb & H45 & Hsame & Hin & Hfile).
  exists g', fs. split; [exact E|]. split; [|exact Hfs].
  destruct (bitmap_bits (Z.to_nat (freeblock g)) ltac:(lia)) as [Hbl Hbits].
  assert (EB : forall b, 0 <= b < 1000 -> BBLOCK b sb = 45)
    by (intros b Hb; unfold BBLOCK; change BPB with 8192; change (sb_bmapstart sb) with 45; rewrite u32_small; lia).
  assert (EV : sectors g' 45 = foldl (fun buf i => set_bit i buf) zeroes (seq 0 (Z.to_nat (freeblock g)))) by (unfold sectors; by rewrite H45).
  split; rewrite ?Efb; try done.
  - unfold sectors. rewrite Hsame, H1 by lia. vm_compute. reflexivity.
  - split; change (sb_size sb) with 1000; change (sb_bmapstart sb) with 45; [lia|lia| |]; intros b Hb; rewrite EB by done.
    + split; [lia|]. unfold home. change (sb_logstart sb) with 2. change LOGSIZE with 30. lia.
    + rewrite EV, Hbl. done.
  - intros b Hb. change FSSIZE with 1000 in Hb. unfold in_use. rewrite EB, EV by done. change BPB with 8192. rewrite Z.mod_small by lia.
    rewrite Hbits, negb_involutive by lia. destruct (Nat.ltb_spec (Z.to_nat b) (Z.to_nat (freeblock g))), (Z.ltb_spec b (freeblock g)); done || lia.
  - intros k f Hk. destruct (Hfile k f Hk) as (F1 & F2 & F3). pose proof (io_files _ _ Hg k f Hk) as [_ _ _ Fo Fb]. split_and!; try done.
    by apply (own_more g); [|lia].
  - by apply (io_apart _ _ Hg).
Qed.

(** The files of the image are the root directory and plain files. *)
Lemma image_file_at fs xs k t d :
  (fun f => (f_type f, f_data f)) <$> fs = image_files xs -> image_files xs !! k = Some (t, d) ->
  exists f, fs !! k = Some f /\ t = f_type f /\ d = f_data f /\ (f_type f = T_DIR \/ f_type f = T_FILE).
Proof.
  intros Hfs Hk. assert (Ht : t = T_DIR \/ t = T_FILE).
  { destruct k as [|k]; [injection Hk as E1 _; by left|]. cbn in Hk. apply list_lookup_fmap_Some in Hk as (x & [= E1 _] & _). by right. }
  rewrite <- Hfs in Hk. apply list_lookup_fmap_Some in Hk as (f & [= -> ->] & Hk). by exists f.
Qed.

(** C18: the image that mkfs builds is the file system it was asked for.  When the
    files exist, their names are plain and everything fits, mkfs succeeds, and a
    kernel that reads the image finds the superblock; a bitmap that it can
    allocate from, in which exactly the blocks below [freeblock] are in use; and
    for the root directory (with the entries ., .. and the files) and every file
    an inode with its type, one link and its size, whose blocks hold the content.
    No block belongs to two inodes, and all lie between the bitmap and
    [freeblock]. *)
Theorem mkfs_image (reads : list Z -> option (list (list Z))) (creates : list Z -> bool) (prog img : list Z) (xs : list item) :
  creates img = true -> Forall (item_ok reads) xs -> (length xs <= 198)%nat -> nmeta + Z.of_nat (need (image_files xs)) <= FSSIZE ->
  exists g, main reads creates (prog :: img :: (it_arg <$> xs)) (Image ∅ 1 0) = Done tt g /\
    let V := sectors g in
    superblock_of (V 1) = sb /\ bitmap_ok V sb (sb_logstart sb) /\
    (forall b, 0 <= b < FSSIZE -> in_use V sb b = (b <? freeblock g)) /\
    (forall k t d, image_files xs !! k = Some (t, d) -> let i := 1 + Z.of_nat k in
       (forall ip, i_inum ip = i -> let ip' := load_dinode (V (IBLOCK i sb)) ip in
          i_type ip' = t /\ i_nlink ip' = 1 /\ i_size ip' = final_size k (length d)) /\
       read_back V i (length d) = d /\ NoDup (addresses V i (length d)) /\
       Forall (fun b => nmeta <= b < freeblock g) (addresses V i (length d))) /\
    (forall j k t u d e b, image_files xs !! j = Some (t, d) -> image_files xs !! k = Some (u, e) ->
       b ∈ addresses V (1 + Z.of_nat j) (length d) -> b ∈ addresses V (1 + Z.of_nat k) (length e) -> j = k).
Proof.
  intros Hc Hok Hlen Hsp. destruct (mkfs_built reads creates prog img xs Hc Hok Hlen Hsp) as (g & fs & E & Hb & Hfs).
  exists g. split; [exact E|]. cbn zeta.
  assert (Hread : forall k f, fs !! k = Some f -> addresses (sectors g) (1 + Z.of_nat k) (length (f_data f)) = owned f /\
            read_back (sectors g) (1 + Z.of_nat k) (length (f_data f)) = f_data f).
  { intros k f Hk. destruct (bt_files _ _ Hb k f Hk) as (F1 & F2 & _ & _ & F5). apply file_read; try done. lia. }
  split_and!; [apply Hb..| |].
  - intros k t d Hk. destruct (image_file_at fs xs k t d Hfs Hk) as (f & Hf & -> & -> & Ht). destruct (Hread k f Hf) as [-> ->].
    destruct (bt_files _ _ Hb k f Hf) as (F1 & F2 & F3 & F4 & F5). split; [|split; [done|apply F4]].
    intros ip Hip. apply (load_dinode_at g _ f); try done; [lia|]. unfold T_DIR, T_FILE in Ht. lia.
  - intros j k t u d e b Hj Hk Hbj Hbk. destruct (image_file_at _ _ _ _ _ Hfs Hj) as (f & Hf & -> & -> & _).
    destruct (image_file_at _ _ _ _ _ Hfs Hk) as (f' & Hf' & -> & -> & _).
    rewrite (proj1 (Hread j f Hf)) in Hbj. rewrite (proj1 (Hread k f' Hf')) in Hbk. by eapply (bt_apart _ _ Hb).
Qed.

Lemma mkfs_image_witness :
  exists g, main (fun _ => Some [[104; 105]; [10]]) (fun _ => true) [chars "mkfs"; chars "fs.img"; chars "user/_cat"] (Image ∅ 1 0) = Done tt g /\
    read_back (sectors g) 2 3 = [104; 105; 10].
Proof.
  destruct (mkfs_image (fun _ => Some [[104; 105]; [10]]) (fun _ => true) (chars "mkfs") (chars "fs.img")
              [Item (chars "user/_cat") (chars "cat") [104; 105; 10]]) as (g & E & _ & _ & _ & Hfile & _).
  - reflexivity.
  - constructor; [|constructor]. split; [reflexivity|]. split; [cbn [it_data length]; lia|]. by eexists.
  - cbn [length]. lia.
  - vm_compute. discriminate.
  - exists g. split; [exact E|]. by apply (Hfile 1%nat T_FILE [104; 105; 10]).
Defined.
