(* ===== verification/FileSpec.v ===== *)
(** * What reading and writing a file guarantee

    The content of an inode as bytes, through the direct blocks and the
    indirect block, and what [bmap], [readi] and [writei] of Fs.v make of it
    inside a transaction.  [disk_ok] is the layout that the allocator and the
    inodes share, [file_ok] the well-formedness of one file, [file_step] what a
    change of one file leaves alone. *)

From stdpp Require Import functions.
From S2P Require Import Prelude Machine Memory State Spinlock Kalloc Vm Proc FsState Sleeplock Bio Log Fs FsSpec.

(** ** The blocks and the bytes of a file *)

(** The block addresses of a file: [None] is the indirect block, [Some bn] the
    block [bn] of the content; 0 when there is none. *)
Definition addr_at (V : Z -> list Z) (ip : inode) (x : option Z) : Z :=
  let ind := default 0 (i_addrs ip !! 12%nat) in
  match x with
  | None => ind
  | Some bn =>
      if (0 <=? bn) && (bn <? NDIRECT) then default 0 (i_addrs ip !! Z.to_nat bn)
      else if (NDIRECT <=? bn) && (bn <? MAXFILE) && truthy ind then get_le 4 (V ind) (4 * (bn - NDIRECT))
      else 0
  end.

Definition owns (V : Z -> list Z) (ip : inode) (n : Z) : Prop := n <> 0 /\ exists x, addr_at V ip x = n.

(** The byte at offset [k], and [n] bytes from [off] on. *)
Definition byte_at (V : Z -> list Z) (ip : inode) (k : Z) : Z :=
  V (addr_at V ip (Some (k / BSIZE))) !!! Z.to_nat (k mod BSIZE).

Definition bytes_at (V : Z -> list Z) (ip : inode) (off n : Z) : list Z := byte_at V ip <$> seqZ off n.

Definition content (V : Z -> list Z) (ip : inode) : list Z := bytes_at V ip 0 (i_size ip).

Section Layout.
Context (sb : superblock) (start : Z).
Implicit Types (V : Z -> list Z) (ip : inode).

(** A block that files can be made of: it is no block of the log, the bitmap or
    the inodes. *)
Record data_block (b : Z) : Prop := {
  db_range : 0 < b < sb_size sb;
  db_home : home_block start b;
  db_bitmap : forall b', 0 <= b' < sb_size sb -> BBLOCK b' sb <> b;
  db_inodes : forall inum, 0 <= inum < sb_ninodes sb -> IBLOCK inum sb <> b
}.

Record disk_ok V : Prop := {
  do_bitmap : bitmap_ok V sb start;
  do_free : forall b, 0 <= b < sb_size sb -> in_use V sb b = false -> data_block b;
  do_inodes : forall inum, 0 <= inum < sb_ninodes sb ->
    home_block start (IBLOCK inum sb) /\ length (V (IBLOCK inum sb)) = Z.to_nat BSIZE /\
    forall b, 0 <= b < sb_size sb -> BBLOCK b sb <> IBLOCK inum sb;
  do_inums : 0 <= sb_inodestart sb /\ sb_inodestart sb + sb_ninodes sb < 2 ^ 31
}.

Record file_ok V ip : Prop := {
  fo_inode : inode_ok ip;
  fo_inum : i_inum ip < sb_ninodes sb;
  fo_data : forall x, addr_at V ip x <> 0 ->
    data_block (addr_at V ip x) /\ in_use V sb (addr_at V ip x) = true /\ length (V (addr_at V ip x)) = Z.to_nat BSIZE;
  fo_inj : forall x y, addr_at V ip x = addr_at V ip y -> addr_at V ip x <> 0 -> x = y;
  fo_back : forall bn, 0 <= bn -> bn * BSIZE < i_size ip -> addr_at V ip (Some bn) <> 0
}.

(** What a change of the blocks of [ip] leaves alone: the addresses it had, the
    blocks that are not in the bitmap and not its own, the blocks in use. *)
Record file_step V ip V' ip' : Prop := {
  fs_disk : disk_ok V';
  fs_file : file_ok V' ip';
  fs_inode : ip' = set_i_addrs (i_addrs ip') ip;
  fs_keep : forall x, addr_at V ip x <> 0 -> addr_at V' ip' x = addr_at V ip x;
  fs_frame : forall n, (forall b, 0 <= b < sb_size sb -> BBLOCK b sb <> n) -> ~ owns V' ip' n -> V' n = V n;
  fs_fresh : forall n, owns V' ip' n -> owns V ip n \/ in_use V sb n = false;
  fs_used : forall b, 0 <= b < sb_size sb -> in_use V sb b = true -> in_use V' sb b = true
}.

Lemma file_step_refl V ip : disk_ok V -> file_ok V ip -> file_step V ip V ip.
Proof. intros Hd Hf. split; try done; [by destruct ip|by left]. Qed.

Lemma owns_step V ip V' ip' n : file_step V ip V' ip' -> owns V ip n -> owns V' ip' n.
Proof. intros Hs [Hn [x Hx]]. split; [done|]. exists x. rewrite (fs_keep _ _ _ _ Hs); congruence. Qed.

Lemma owns_range V ip n : file_ok V ip -> owns V ip n -> 0 < n < sb_size sb.
Proof. intros Hf [Hn [x <-]]. by apply (fo_data _ _ Hf). Qed.

Lemma file_step_trans V1 ip1 V2 ip2 V3 ip3 :
  file_step V1 ip1 V2 ip2 -> file_step V2 ip2 V3 ip3 -> file_step V1 ip1 V3 ip3.
Proof.
  intros H12 H23. split; [apply H23|apply H23|..].
  - rewrite (fs_inode _ _ _ _ H23), (fs_inode _ _ _ _ H12). done.
  - intros x Hx. rewrite (fs_keep _ _ _ _ H23), (fs_keep _ _ _ _ H12); try done. by rewrite (fs_keep _ _ _ _ H12).
  - intros n Hb Hn. rewrite (fs_frame _ _ _ _ H23), (fs_frame _ _ _ _ H12); try done.
    intros Ho. apply Hn. by eapply owns_step.
  - intros n Hn. destruct (fs_fresh _ _ _ _ H23 n Hn) as [H2|H2]; [by apply (fs_fresh _ _ _ _ H12)|right].
    pose proof (owns_range _ _ _ (fs_file _ _ _ _ H23) Hn). destruct (in_use V1 sb n) eqn:E; [|done].
    rewrite (fs_used _ _ _ _ H12 n ltac:(lia) E) in H2. done.
  - intros b Hb Hu. apply (fs_used _ _ _ _ H23 b Hb), (fs_used _ _ _ _ H12 b Hb Hu).
Qed.

(** ** The free blocks *)

Definition free_blocks V : list Z := filter (fun b => in_use V sb b = false) (seqZ 0 (sb_size sb)).

Lemma elem_free V b : b ∈ free_blocks V <-> 0 <= b < sb_size sb /\ in_use V sb b = false.
Proof. unfold free_blocks. rewrite list_elem_of_filter, elem_of_seqZ. intuition lia. Qed.

(** The block that [balloc] takes. *)
Lemma lowest_free V : (0 < length (free_blocks V))%nat ->
  exists b, 0 <= b < sb_size sb /\ in_use V sb b = false /\ forall b', 0 <= b' < b -> in_use V sb b' = true.
Proof.
  intros Hl. destruct (free_blocks V) as [|m l] eqn:E; [cbn in Hl; lia|].
  assert (Hm : m ∈ free_blocks V) by (rewrite E; left). apply elem_free in Hm as [Hm Hu]. clear E Hl l.
  assert (Hstep : forall n : nat, Z.of_nat n <= m + 1 -> (forall b, 0 <= b < Z.of_nat n -> in_use V sb b = true) \/
    exists b, 0 <= b < sb_size sb /\ in_use V sb b = false /\ forall b', 0 <= b' < b -> in_use V sb b' = true).
  { induction n as [|n IH]; intros Hn; [left; lia|]. destruct (IH ltac:(lia)) as [Hall|Hex]; [|by right].
    destruct (in_use V sb (Z.of_nat n)) eqn:En; [left|right].
    - intros b Hb. destruct (decide (b = Z.of_nat n)) as [->|]; [done|]. apply Hall. lia.
    - exists (Z.of_nat n). split; [lia|]. by split. }
  destruct (Hstep (Z.to_nat (m + 1)) ltac:(lia)) as [Hall|Hex]; [|done]. rewrite (Hall m) in Hu by lia. done.
Qed.

Lemma free_taken V V' b :
  0 <= b < sb_size sb -> in_use V sb b = false ->
  (forall b', 0 <= b' < sb_size sb -> in_use V' sb b' = if decide (b' = b) then true else in_use V sb b') ->
  length (free_blocks V) = S (length (free_blocks V')).
Proof.
  intros Hb Hu Hu'. change (S (length (free_blocks V'))) with (length (b :: free_blocks V')). apply Permutation_length, NoDup_Permutation.
  - apply NoDup_filter, NoDup_seqZ.
  - constructor; [|apply NoDup_filter, NoDup_seqZ]. rewrite elem_free, Hu', decide_True by done. naive_solver.
  - intros n. rewrite elem_of_cons, !elem_free. split.
    + intros [Hn Hf]. destruct (decide (n = b)) as [|Hne]; [by left|right]. split; [done|]. by rewrite Hu', decide_False by done.
    + intros [->|[Hn Hf]]; [done|]. split; [done|]. rewrite Hu' in Hf by done. by destruct (decide (n = b)).
Qed.

End Layout.

(** ** Changes of a file *)

Section Changes.
Context (sb : superblock) (start : Z).
Implicit Types (V : Z -> list Z) (ip : inode).

Lemma disk_change V V' :
  disk_ok sb start V -> (forall n, length (V n) = Z.to_nat BSIZE -> length (V' n) = Z.to_nat BSIZE) ->
  (forall b, 0 <= b < sb_size sb -> in_use V sb b = true -> in_use V' sb b = true) -> disk_ok sb start V'.
Proof.
  intros [[Hs Hst Hh Hl] Hf Hi Hn] Hlen Hu. split.
  - split; try done. intros b Hb. by apply Hlen, Hl.
  - intros b Hb Hb'. apply Hf; [done|]. destruct (in_use V sb b) eqn:E; [|done]. by rewrite (Hu b Hb E) in Hb'.
  - intros inum Hin. destruct (Hi inum Hin) as (H1 & H2 & H3). auto.
  - done.
Qed.

(** A free block [b] becomes the block of slot [x]. *)
Lemma grow_slot V ip V' ip' x b :
  disk_ok sb start V -> file_ok sb start V ip -> 0 <= b < sb_size sb -> in_use V sb b = false -> addr_at V ip x = 0 ->
  ip' = set_i_addrs (i_addrs ip') ip -> inode_ok ip' ->
  (forall y, addr_at V' ip' y = if decide (y = x) then b else addr_at V ip y) ->
  (forall b', 0 <= b' < sb_size sb -> in_use V' sb b' = if decide (b' = b) then true else in_use V sb b') ->
  (forall n, (forall b', 0 <= b' < sb_size sb -> BBLOCK b' sb <> n) -> ~ owns V' ip' n -> V' n = V n) ->
  (forall n, length (V n) = Z.to_nat BSIZE -> length (V' n) = Z.to_nat BSIZE) -> length (V' b) = Z.to_nat BSIZE ->
  file_step sb start V ip V' ip'.
Proof.
  intros Hd Hf Hb Hfree Hx Eip Ho Ha Hu Hfr Hlen Hlb. pose proof (do_free _ _ _ Hd b Hb Hfree) as Hdb.
  assert (Hold : forall y, addr_at V ip y <> 0 -> addr_at V ip y <> b).
  { intros y Hy E. destruct (fo_data _ _ _ _ Hf y Hy) as (_ & Hyu & _). rewrite E in Hyu. congruence. }
  assert (Hused : forall b', 0 <= b' < sb_size sb -> in_use V sb b' = true -> in_use V' sb b' = true).
  { intros b' Hb' E. rewrite Hu by done. by destruct (decide (b' = b)). }
  assert (Hd' : disk_ok sb start V') by by eapply disk_change.
  split; try done.
  - split; [done|rewrite Eip; apply Hf| | |].
    + intros y Hy. rewrite Ha in *. destruct (decide (y = x)) as [->|Hne]; [split_and!; [done| |done]; by rewrite Hu, decide_True|].
      destruct (fo_data _ _ _ _ Hf y Hy) as (Hy1 & Hy2 & Hy3). pose proof (db_range _ _ _ Hy1).
      split_and!; [done|apply Hused; [lia|done]|by apply Hlen].
    + intros y z. rewrite !Ha. destruct (decide (y = x)) as [->|Hy], (decide (z = x)) as [->|Hz]; try done.
      * intros E Hne. exfalso. apply (Hold z); [by rewrite <- E|done].
      * intros E Hne. exfalso. by apply (Hold y).
      * apply Hf.
    + intros bn H0 Hbn. rewrite Ha. destruct (decide _); [pose proof (db_range _ _ _ Hdb); lia|]. apply Hf; [done|].
      rewrite Eip in Hbn. exact Hbn.
  - intros y Hy. rewrite Ha. destruct (decide (y = x)) as [->|]; done.
  - intros n [Hn [y Hy]]. rewrite Ha in Hy. destruct (decide (y = x)) as [->|]; [right; by subst|left]. split; [done|by exists y].
Qed.

(** The data of block [bn] of the file changes. *)
Lemma addr_at_data V ip bn d y :
  file_ok sb start V ip -> addr_at V ip (Some bn) <> 0 ->
  addr_at (<[addr_at V ip (Some bn) := d]> V) ip y = addr_at V ip y.
Proof.
  intros Hf Hne. pose proof (fo_inj _ _ _ _ Hf (Some bn) None) as Hinj. set (a := addr_at V ip (Some bn)) in *. clearbody a.
  destruct y as [m|]; [|done]. cbn. destruct ((0 <=? m) && (m <? NDIRECT)); [done|].
  destruct (NDIRECT <=? m), (m <? MAXFILE); try done. cbn [andb].
  destruct (truthy _) eqn:Et; [|done]. rewrite fn_lookup_insert_ne; [done|]. intros E.
  by specialize (Hinj E Hne).
Qed.

Lemma in_use_data V a d b : data_block sb start a -> 0 <= b < sb_size sb -> in_use (<[a := d]> V) sb b = in_use V sb b.
Proof. intros Hdb Hb. unfold in_use. rewrite fn_lookup_insert_ne; [done|]. apply not_eq_sym. by apply Hdb. Qed.

Lemma free_same V V' : (forall b, 0 <= b < sb_size sb -> in_use V' sb b = in_use V sb b) ->
  length (free_blocks sb V') = length (free_blocks sb V).
Proof.
  intros E. apply Permutation_length, NoDup_Permutation; [apply NoDup_filter, NoDup_seqZ..|].
  intros b. rewrite !elem_free. split; intros [Hb Hu]; (split; [done|]); [by rewrite <- E|by rewrite E].
Qed.

Lemma free_data V a d : data_block sb start a -> length (free_blocks sb (<[a := d]> V)) = length (free_blocks sb V).
Proof. intros Hdb. apply free_same. intros b Hb. by apply in_use_data. Qed.

Lemma put_data V ip bn d :
  disk_ok sb start V -> file_ok sb start V ip -> addr_at V ip (Some bn) <> 0 -> length d = Z.to_nat BSIZE ->
  file_step sb start V ip (<[addr_at V ip (Some bn) := d]> V) ip.
Proof.
  intros Hd Hf Hne Hld. set (a := addr_at V ip (Some bn)) in *. set (V' := <[a := d]> V).
  destruct (fo_data _ _ _ _ Hf _ Hne) as (Hdb & _ & Hla). fold a in Hdb, Hla.
  assert (Ha : forall y, addr_at V' ip y = addr_at V ip y) by (intros y; by apply addr_at_data).
  assert (Hu : forall b, 0 <= b < sb_size sb -> in_use V' sb b = in_use V sb b).
  { intros b Hb. by apply in_use_data. }
  assert (Hlen : forall n, length (V n) = Z.to_nat BSIZE -> length (V' n) = Z.to_nat BSIZE).
  { intros n Hn. unfold V'. destruct (decide (n = a)) as [->|]; [by rewrite fn_lookup_insert|by rewrite fn_lookup_insert_ne]. }
  split.
  - apply (disk_change V); [done|done|]. intros b Hb E. by rewrite Hu.
  - split; [apply Hf|apply Hf| | |].
    + intros y Hy. rewrite Ha in *. destruct (fo_data _ _ _ _ Hf y Hy) as (H1 & H2 & H3). pose proof (db_range _ _ _ H1).
      split_and!; [done|rewrite Hu by lia; done|by apply Hlen].
    + intros y z. rewrite !Ha. apply Hf.
    + intros m Hm Hs. rewrite Ha. by apply Hf.
  - by destruct ip.
  - intros y _. apply Ha.
  - intros n _ Hn. unfold V'. rewrite fn_lookup_insert_ne; [done|]. intros <-. apply Hn. split; [done|]. exists (Some bn). apply Ha.
  - intros n [Hn [y Hy]]. left. split; [done|]. exists y. by rewrite <- Ha.
  - intros b Hb E. by rewrite Hu.
Qed.

End Changes.

(** ** Reading *)

Lemma length_bytes_at V ip off n : length (bytes_at V ip off n) = Z.to_nat n.
Proof. unfold bytes_at. by rewrite length_fmap, length_seqZ. Qed.

Lemma bytes_at_app V ip off n m : 0 <= n -> 0 <= m ->
  bytes_at V ip off (n + m) = bytes_at V ip off n ++ bytes_at V ip (off + n) m.
Proof. intros Hn Hm. unfold bytes_at. by rewrite seqZ_app, fmap_app. Qed.

Lemma lookup_bytes_at V ip off n j : (j < Z.to_nat n)%nat -> bytes_at V ip off n !! j = Some (byte_at V ip (off + Z.of_nat j)).
Proof. intros Hj. unfold bytes_at. rewrite list_lookup_fmap, lookup_seqZ_lt by lia. done. Qed.

(** The bytes of the file that are in one block. *)
Lemma bytes_block V ip off m :
  0 <= off -> 0 <= m -> off mod BSIZE + m <= BSIZE -> length (V (addr_at V ip (Some (off / BSIZE)))) = Z.to_nat BSIZE ->
  take (Z.to_nat m) (drop (Z.to_nat (off mod BSIZE)) (V (addr_at V ip (Some (off / BSIZE))))) = bytes_at V ip off m.
Proof.
  intros H0 Hm Hle Hl. apply list_eq. intros j. assert (0 < BSIZE) by done.
  destruct (decide (j < Z.to_nat m)%nat) as [Hj|Hj].
  - rewrite lookup_take_lt, lookup_drop, lookup_bytes_at by done. unfold byte_at.
    replace ((off + Z.of_nat j) / BSIZE) with (off / BSIZE) by (unfold BSIZE in *; lia).
    replace (Z.to_nat ((off + Z.of_nat j) mod BSIZE)) with (Z.to_nat (off mod BSIZE) + j)%nat by (unfold BSIZE in *; lia).
    apply list_lookup_lookup_total_lt. rewrite Hl. lia.
  - rewrite lookup_take_ge by lia. symmetry. apply lookup_ge_None. rewrite length_bytes_at. lia.
Qed.

Lemma addr_at_range V ip bn : addr_at V ip (Some bn) <> 0 -> 0 <= bn < MAXFILE.
Proof.
  cbn. destruct (Z.leb_spec 0 bn), (Z.ltb_spec bn NDIRECT), (Z.leb_spec NDIRECT bn), (Z.ltb_spec bn MAXFILE);
    cbn [andb]; unfold MAXFILE, NDIRECT, NINDIRECT, BSIZE in *; lia.
Qed.

Lemma direct_addr V ip bn : 0 <= bn < NDIRECT -> addr_at V ip (Some bn) = default 0 (i_addrs ip !! Z.to_nat bn).
Proof. intros [H1 H2]. unfold addr_at. by rewrite (proj2 (Z.leb_le _ _) H1), (proj2 (Z.ltb_lt _ _) H2). Qed.

Lemma indirect_addr V ip bn : NDIRECT <= bn < MAXFILE -> addr_at V ip None <> 0 ->
  addr_at V ip (Some bn) = get_le 4 (V (addr_at V ip None)) (4 * (bn - NDIRECT)).
Proof.
  intros [H1 H2] Hne. cbn. rewrite (proj2 (Z.ltb_ge bn NDIRECT) H1), andb_false_r, (proj2 (Z.leb_le _ _) H1), (proj2 (Z.ltb_lt _ _) H2).
  cbn [andb]. unfold truthy. by rewrite (proj2 (Z.eqb_neq _ 0)).
Qed.

Lemma indirect_none V ip bn : NDIRECT <= bn -> addr_at V ip None = 0 -> addr_at V ip (Some bn) = 0.
Proof.
  intros H1 E. unfold addr_at in *. rewrite E, (proj2 (Z.ltb_ge bn NDIRECT) H1), andb_false_r. cbn. by rewrite andb_false_r.
Qed.

Lemma length_content V ip : length (content V ip) = Z.to_nat (i_size ip).
Proof. apply length_bytes_at. Qed.

Lemma bytes_content V ip off n : 0 <= off <= i_size ip -> 0 <= n ->
  bytes_at V ip off (Z.min n (i_size ip - off)) = take (Z.to_nat n) (drop (Z.to_nat off) (content V ip)).
Proof.
  intros Hoff Hn. unfold content. replace (i_size ip) with (off + (i_size ip - off)) at 2 by lia.
  rewrite bytes_at_app by lia. rewrite drop_app_length' by (by rewrite length_bytes_at). cbn [Z.add].
  destruct (decide (n <= i_size ip - off)).
  - replace (i_size ip - off) with (n + (i_size ip - off - n)) at 2 by lia. rewrite bytes_at_app by lia.
    rewrite take_app_length' by (by rewrite length_bytes_at). f_equal. lia.
  - rewrite Z.min_r by lia. rewrite take_ge; [done|]. rewrite length_bytes_at. lia.
Qed.

(** A file is as long as its blocks allow. *)
Lemma size_max sb start V ip : file_ok sb start V ip -> i_size ip <= MAXFILE * BSIZE.
Proof.
  intros Hf. destruct (Z.le_gt_cases (i_size ip) (MAXFILE * BSIZE)) as [|Hgt]; [done|].
  pose proof (addr_at_range V ip MAXFILE (fo_back _ _ _ _ Hf MAXFILE ltac:(done) Hgt)). lia.
Qed.

(** The rounds that the loops of [readi] and [writei] still take. *)
Definition rounds_left (off tot n : Z) : Z :=
  if tot <? n then (n - tot + off mod BSIZE + BSIZE - 1) / BSIZE + 1 else 1.

Lemma rounds_positive off tot n : 1 <= rounds_left off tot n.
Proof. unfold rounds_left, BSIZE. destruct (Z.ltb_spec tot n); lia. Qed.

Lemma rounds_step off tot n : 0 <= off -> tot < n ->
  let m := Z.min (n - tot) (BSIZE - off mod BSIZE) in rounds_left (off + m) (tot + m) n + 1 <= rounds_left off tot n.
Proof.
  intros Hoff Hlt m. unfold rounds_left. rewrite (proj2 (Z.ltb_lt tot n) Hlt). unfold m, BSIZE.
  destruct (Z.ltb_spec (tot + Z.min (n - tot) (1024 - off mod 1024)) n); lia.
Qed.

Lemma rounds_enough off n : 0 <= off -> 0 <= n -> rounds_left off 0 n <= Z.of_nat (copy_rounds n).
Proof. intros Hoff Hn. unfold rounds_left, copy_rounds, BSIZE. destruct (Z.ltb_spec 0 n); lia. Qed.

Section Reading.
Context `{Devices} `{RoundsOk} `{!DiskOps} `{!DiskOk}.
Context (c : cpu) (i : nat) (pid start : Z) (sb : superblock).
Implicit Types (s : kstate ext) (x : ext).

Abbreviation txi s ip bl V := (tx s c i pid (i_dev ip) start bl V ∅).

Lemma get_addr_run k j s ip :
  e_inodes (k_ext s) !! k = Some ip -> (j < length (i_addrs ip))%nat -> get_addr k j s = Done (default 0 (i_addrs ip !! j)) s.
Proof.
  intros Hk Hj. unfold get_addr. mstep (get_inode_run k s ip Hk). destruct (lookup_lt_is_Some_2 _ _ Hj) as [a ->]. done.
Qed.

Lemma addr_found k j s ip :
  e_inodes (k_ext s) !! k = Some ip -> (j < length (i_addrs ip))%nat -> default 0 (i_addrs ip !! j) <> 0 ->
  addr_or_alloc k j s = Done (default 0 (i_addrs ip !! j)) s.
Proof.
  intros Hk Hj Hne. unfold addr_or_alloc. mstep (get_addr_run k j s ip Hk Hj). unfold truthy.
  by rewrite (proj2 (Z.eqb_neq _ _)).
Qed.

(** A block the file has. *)
Lemma bmap_read k bn s ip bl V :
  e_inodes (k_ext s) !! k = Some ip -> txi s ip bl V -> length (i_addrs ip) = 13%nat -> addr_at V ip (Some bn) <> 0 ->
  (length bl < NBUF)%nat ->
  exists s', bmap k bn s = Done (addr_at V ip (Some bn)) s' /\ txi s' ip bl V /\ tx_frame s s'.
Proof.
  intros Hk Ht Hl Hne Hrm. pose proof (addr_at_range _ _ _ Hne) as Hbn. unfold bmap.
  destruct (Z.ltb_spec bn NDIRECT) as [Hd|Hd].
  - rewrite direct_addr in * by lia. exists s. split; [|split; [done|apply tx_frame_refl]].
    apply addr_found; [done|unfold NDIRECT in Hd; lia|done].
  - rewrite (proj2 (Z.ltb_lt (bn - NDIRECT) NINDIRECT)) by (unfold MAXFILE in Hbn; lia).
    assert (Hind : addr_at V ip None <> 0) by (intros E; by rewrite indirect_none in Hne).
    mstep (addr_found k 12 s ip Hk ltac:(lia) Hind). fold (addr_at V ip None). mstep (get_inode_run k s ip Hk).
    destruct (bread_tx (addr_at V ip None) s c i pid (i_dev ip) start bl V ∅ Ht) as (b & y & s1 & Hrun & Ht1 & Hf1 & Hb & Hy);
      [set_solver|by rewrite size_empty, Nat.add_0_r|].
    mstep Hrun. mstep (get_buf_run b s1 y ltac:(apply Hb)). rewrite Hy, <- indirect_addr by (lia || done). unfold truthy.
    rewrite (proj2 (Z.eqb_neq _ 0)) by done. cbn [negb]. mrun.
    destruct (release_clean c i pid (i_dev ip) start _ b y s s1 bl V ∅ Ht (not_elem_of_empty _) Ht1 Hf1 Hb) as (s2 & Hrun2 & Ht2 & Hf2).
    mstep Hrun2. exists s2. split; [done|]. split; [done|by eapply tx_keep_frame].
Qed.

(** Reading a block of the file and giving its buffer back. *)
Lemma read_loop_run k ip bl V off0 n fuel : forall s off tot,
  e_inodes (k_ext s) !! k = Some ip -> txi s ip bl V -> file_ok sb start V ip -> (length bl < NBUF)%nat ->
  0 <= off0 -> 0 <= tot <= n -> off = off0 + tot -> off0 + n <= i_size ip ->
  rounds_left off tot n <= Z.of_nat fuel ->
  exists s', readi_loop fuel (fun _ _ => mret 0) k off tot n (bytes_at V ip off0 tot) s = Done (n, bytes_at V ip off0 n) s' /\
    txi s' ip bl V /\ tx_frame s s'.
Proof.
  pose proof (eq_refl : BSIZE = 1024) as EB.
  induction fuel as [|fuel IH]; intros s off tot Hk Ht Hf Hrm Hoff0 Htot Hoff Hn Hfuel; [pose proof (rounds_positive off tot n); lia|]. cbn [readi_loop].
  destruct (Z.ltb_spec tot n) as [Hlt|Hge]; cbn [negb].
  2:{ assert (tot = n) as -> by lia. exists s. split; [done|]. split; [done|apply tx_frame_refl]. }
  pose proof (io_size _ (fo_inode _ _ _ _ Hf)) as Hsz. mstep (get_inode_run k s ip Hk).
  assert (Hne : addr_at V ip (Some (off / BSIZE)) <> 0) by (apply (fo_back _ _ _ _ Hf); lia).
  destruct (bmap_read k (off / BSIZE) s ip bl V Hk Ht (io_len _ (fo_inode _ _ _ _ Hf)) Hne Hrm) as (s1 & Hrun1 & Ht1 & Hf1).
  mstep Hrun1. set (a := addr_at V ip (Some (off / BSIZE))) in *.
  destruct (bread_tx a s1 c i pid (i_dev ip) start bl V ∅ Ht1) as (b & y & s2 & Hrun2 & Ht2 & Hf2 & Hb & Hy);
    [set_solver|by rewrite size_empty, Nat.add_0_r|].
  mstep Hrun2. mstep (get_buf_run b s2 y ltac:(apply Hb)). rewrite Hy. set (m := Z.min _ _).
  assert (Hm : 0 < m <= n - tot /\ off mod BSIZE + m <= BSIZE) by (unfold m; lia).
  assert (Hl : length (V a) = Z.to_nat BSIZE) by by apply (fo_data _ _ _ _ Hf).
  unfold a at 1. rewrite bytes_block by (lia || done). mrun. change (0 =? -1) with false. cbv iota.
  destruct (release_clean c i pid (i_dev ip) start a b y s1 s2 bl V ∅ Ht1 (not_elem_of_empty _) Ht2 Hf2 Hb) as (s3 & Hrun3 & Ht3 & Hf3).
  mstep Hrun3. pose proof (tx_frame_trans _ _ _ Hf1 (tx_keep_frame _ _ _ _ Hf3)) as Hf13.
  replace (bytes_at V ip off0 tot ++ bytes_at V ip off m) with (bytes_at V ip off0 (tot + m)) by (rewrite Hoff; apply bytes_at_app; lia).
  rewrite !u32_small by lia.
  destruct (IH s3 (off + m) (tot + m)) as (s4 & Hrun4 & Ht4 & Hf4); try done; try lia.
  { destruct Hf13 as [(_ & -> & _) _]. done. }
  { pose proof (rounds_step off tot n ltac:(lia) Hlt). unfold m. cbv zeta in *. lia. }
  exists s4. split; [done|]. split; [done|by eapply tx_frame_trans].
Qed.

(** [readi] gives the bytes from [off] on, as far as the file goes. *)
Lemma readi_run k off n s ip bl V :
  e_inodes (k_ext s) !! k = Some ip -> txi s ip bl V -> file_ok sb start V ip -> (length bl < NBUF)%nat ->
  0 <= off -> 0 <= n -> off + n < 2 ^ 32 ->
  let bs := take (Z.to_nat n) (drop (Z.to_nat off) (content V ip)) in
  exists s', readi_local k off n s = Done (Z.of_nat (length bs), bs) s' /\ txi s' ip bl V /\ tx_frame s s'.
Proof.
  intros Hk Ht Hf Hrm Hoff Hn Hw bs. pose proof (io_size _ (fo_inode _ _ _ _ Hf)) as Hsz. pose proof (size_max _ _ _ _ Hf) as Hmax.
  assert (Hlen : Z.of_nat (length bs) < 2 ^ 31).
  { unfold bs. rewrite length_take, length_drop, length_content. unfold MAXFILE, NDIRECT, NINDIRECT, BSIZE in Hmax. lia. }
  enough (exists s', readi_with (fun _ _ => mret 0) k off n s = Done (Z.of_nat (length bs), bs) s' /\ txi s' ip bl V /\ tx_frame s s')
    as (s' & Hrun & Ht' & Hf').
  { exists s'. split; [|done]. unfold readi_local. mstep Hrun. cbn [fst snd]. by rewrite s32_small by lia. }
  unfold readi_with. mstep (get_inode_run k s ip Hk). rewrite !u32_small by lia.
  rewrite (proj2 (Z.ltb_ge (off + n) off)), orb_false_r by lia.
  destruct (Z.ltb_spec (i_size ip) off) as [Hout|Hin].
  - exists s. unfold bs. rewrite (drop_ge (content V ip)) by (rewrite length_content; lia). rewrite take_nil.
    split; [done|]. split; [done|apply tx_frame_refl].
  - set (n' := if i_size ip <? off + n then i_size ip - off else n).
    assert (Hn' : n' = Z.min n (i_size ip - off)) by (unfold n'; destruct (Z.ltb_spec (i_size ip) (off + n)); lia).
    destruct (read_loop_run k ip bl V off n' (copy_rounds n') s off 0) as (s' & Hrun & Ht' & Hf'); try done; try lia.
    { apply rounds_enough; lia. }
    change (bytes_at V ip off 0) with (@nil Z) in Hrun. exists s'. split; [|done].
    assert (Ebs : bs = bytes_at V ip off n') by (unfold bs; rewrite <- bytes_content by lia; f_equal; lia).
    rewrite Hrun, Ebs, length_bytes_at, Z2Nat.id by lia. done.
Qed.

End Reading.

(** ** Allocating *)

(** [V'] is [V] with the free block [b] marked used and filled with zeros. *)
Record taken (sb : superblock) (V V' : Z -> list Z) (b : Z) : Prop := {
  tk_range : 0 <= b < sb_size sb;
  tk_free : in_use V sb b = false;
  tk_zero : V' b = zero_block;
  tk_other : forall n, n <> b -> (forall b', 0 <= b' < sb_size sb -> BBLOCK b' sb <> n) -> V' n = V n;
  tk_used : forall b', 0 <= b' < sb_size sb -> in_use V' sb b' = if decide (b' = b) then true else in_use V sb b';
  tk_len : forall n, length (V n) = Z.to_nat BSIZE -> length (V' n) = Z.to_nat BSIZE
}.

Lemma taken_intro sb start V b :
  disk_ok sb start V -> 0 <= b < sb_size sb -> in_use V sb b = false ->
  taken sb V (<[b := zero_block]> (<[BBLOCK b sb := set_bit (Z.to_nat (b mod BPB)) (V (BBLOCK b sb))]> V)) b.
Proof.
  intros Hd Hb Hfree. set (n := BBLOCK b sb). set (V' := <[b := _]> _). pose proof (do_free _ _ _ Hd b Hb Hfree) as Hdb.
  pose proof (do_bitmap _ _ _ Hd) as Hm. pose proof (bitmap_byte b V sb start Hm Hb) as Hby. fold n in Hby.
  split; try done.
  - apply fn_lookup_insert.
  - intros m Hne Hbm. unfold V'. rewrite !fn_lookup_insert_ne; [done|by apply Hbm|done].
  - intros b' Hb'. apply (in_use_change V V' sb start b b' (set_bit (Z.to_nat (b mod BPB)) (V n))); try done.
    + unfold V'. rewrite fn_lookup_insert_ne by (apply not_eq_sym, Hdb, Hb').
      destruct (decide (BBLOCK b' sb = BBLOCK b sb)) as [->|Hne]; [by rewrite fn_lookup_insert|by rewrite fn_lookup_insert_ne by (unfold n; done)].
    + intros j. apply bit_clear_set, Hby.
  - intros m Hl. unfold V'. destruct (decide (m = b)) as [->|Hne]; [by rewrite fn_lookup_insert|]. rewrite fn_lookup_insert_ne by done.
    destruct (decide (m = n)) as [->|Hne']; [|by rewrite fn_lookup_insert_ne]. rewrite fn_lookup_insert. unfold set_bit. by rewrite length_alter.
Qed.

Section Allocating.
Context `{Devices} `{RoundsOk} `{!DiskOps} `{!DiskOk}.
Context (c : cpu) (i : nat) (pid start : Z).
Implicit Types (s : kstate ext) (x : ext).

Lemma balloc_fs dv s bl V L :
  let sb := e_sb (k_ext s) in
  tx s c i pid dv start bl V L -> disk_ok sb start V -> (0 < length (free_blocks sb V))%nat -> tx_room (k_ext s) bl L 3 ->
  (forall n, n ∈ L -> data_block sb start n /\ in_use V sb n = true) ->
  exists b s' bl' V', balloc dv s = Done b s' /\ tx s' c i pid dv start bl' V' L /\ tx_keep dv L s s' /\
    taken sb V V' b /\ (length bl' <= length bl + 2)%nat.
Proof.
  intros sb Ht Hd Hfr Hrm HL. destruct (lowest_free sb V Hfr) as (b & Hb & Hu & Hlow).
  pose proof (do_free _ _ _ Hd b Hb Hu) as Hdb.
  destruct (balloc_tx c i pid dv start b s bl V L) as (s' & Hrun & Ht' & Hk); try done.
  - intros b' Hb' Hin. destruct (HL _ Hin) as [[_ _ Hbm _] _]. by apply (Hbm b' Hb').
  - intros Hin. destruct (HL _ Hin) as [_ E]. congruence.
  - by apply (bo_home _ _ _ (do_bitmap _ _ _ Hd)).
  - apply Hdb.
  - fold sb in Ht'. exists b, s'. do 2 eexists. split; [exact Hrun|]. split; [exact Ht'|]. split; [done|]. split; [by eapply taken_intro|].
    pose proof (length_with_block b (with_block (BBLOCK b sb) bl)). pose proof (length_with_block (BBLOCK b sb) bl). lia.
Qed.

(** Everything but the entry [k] of the inode table, the log and the cache stays. *)
Definition ino_frame (k : nat) (ip : inode) s s' : Prop :=
  tx_frame (with_ext (fun w => set_e_inodes (<[k := ip]> (e_inodes w)) w) s) s'.

Lemma ino_frame_intro k ip s s' : e_inodes (k_ext s) !! k = Some ip -> tx_frame s s' -> ino_frame k ip s s'.
Proof.
  intros Hk [(? & E & ?) ?]. split; [|done]. split; [done|]. split; [|done]. cbn. rewrite E. by rewrite list_insert_id.
Qed.

Lemma ino_frame_trans k ip1 ip2 s1 s2 s3 : ino_frame k ip1 s1 s2 -> ino_frame k ip2 s2 s3 -> ino_frame k ip2 s1 s3.
Proof.
  intros [(E1 & E2 & E3 & E4 & E5 & E6 & E7) Hw] [(F1 & F2 & F3 & F4 & F5 & F6 & F7) Hw'].
  cbn in *. split; [|].
  - split_and!; cbn; try congruence. rewrite F2. cbn. rewrite E2. cbn. by rewrite list_insert_insert_eq.
  - destruct Hw as [W1 W2], Hw' as [X1 X2]. cbn in *. split; cbn; [|congruence]. by rewrite X1, W1, !app_nil_r.
Qed.

Lemma ino_frame_get k ip ip0 s s' : e_inodes (k_ext s) !! k = Some ip0 -> ino_frame k ip s s' -> e_inodes (k_ext s') !! k = Some ip.
Proof. intros Hk [(_ & -> & _) _]. cbn. apply list_lookup_insert_eq. by apply lookup_lt_Some in Hk. Qed.

Lemma ino_frame_sb k ip s s' : ino_frame k ip s s' -> e_sb (k_ext s') = e_sb (k_ext s).
Proof. by intros [(-> & _) _]. Qed.

Lemma ino_frame_room k ip s s' bl L d : ino_frame k ip s s' -> tx_room (k_ext s) bl L d -> tx_room (k_ext s') bl L d.
Proof. intros [(_ & _ & _ & _ & _ & E & _) _] (? & ? & ?). split_and!; try done. by rewrite E. Qed.

End Allocating.

(** ** The blocks of a file that grows *)

(** The slot of [ip->addrs[j]]. *)
Definition slot_of (j : nat) : option Z := if decide (j = 12%nat) then None else Some (Z.of_nat j).

Lemma slot_addr V ip j : (j <= 12)%nat -> addr_at V ip (slot_of j) = default 0 (i_addrs ip !! j).
Proof.
  intros Hj. unfold slot_of. destruct (decide _) as [->|]; [done|]. rewrite direct_addr by (unfold NDIRECT; lia). by rewrite Nat2Z.id.
Qed.

Lemma set_slot sb start V V1 ip b j y :
  disk_ok sb start V -> file_ok sb start V ip -> taken sb V V1 b -> (j <= 12)%nat -> addr_at V ip (slot_of j) = 0 ->
  addr_at V1 (set_i_addrs (<[j := b]> (i_addrs ip)) ip) y = if decide (y = slot_of j) then b else addr_at V ip y.
Proof.
  intros Hd Hf Hk Hj Hx. pose proof (io_len _ (fo_inode _ _ _ _ Hf)) as Hl. unfold slot_of in *.
  pose proof (db_range _ _ _ (do_free _ _ _ Hd b (tk_range _ _ _ _ Hk) (tk_free _ _ _ _ Hk))) as Hb.
  set (ip' := set_i_addrs _ ip). assert (Ei : i_addrs ip' = <[j := b]> (i_addrs ip)) by done.
  assert (Hnone : addr_at V1 ip' None = if decide (j = 12%nat) then b else addr_at V ip None).
  { cbn. rewrite list_lookup_insert. rewrite Hl. destruct (decide (j = 12%nat)) as [->|]; [by rewrite decide_True by lia|].
    rewrite decide_False by lia. done. }
  destruct y as [m|]; [|by rewrite Hnone; destruct (decide (j = 12%nat))].
  destruct (decide (0 <= m < NDIRECT)) as [Hm|Hm].
  { rewrite !direct_addr by done. rewrite Ei, list_lookup_insert, Hl. unfold NDIRECT in Hm. destruct (decide (j = 12%nat)) as [->|Hne].
    - rewrite (decide_False (P := Some m = None)), decide_False by (done || lia). done.
    - destruct (decide (Some m = Some (Z.of_nat j))) as [E|E]; [injection E as ->; by rewrite decide_True by lia|].
      rewrite decide_False; [done|]. intros [E' _]. apply E. f_equal. lia. }
  assert (Hx' : Some m <> (if decide (j = 12%nat) then None else Some (Z.of_nat j))).
  { destruct (decide (j = 12%nat)); [done|]. intros [= ->]. unfold NDIRECT in Hm. lia. }
  rewrite decide_False by done. destruct (decide (NDIRECT <= m < MAXFILE)) as [Hr|Hr].
  2:{ destruct (decide (addr_at V ip (Some m) = 0)) as [->|E]; [|apply addr_at_range in E; lia].
      destruct (decide (addr_at V1 ip' (Some m) = 0)) as [->|E]; [done|apply addr_at_range in E; lia]. }
  destruct (decide (j = 12%nat)) as [->|Hne].
  - rewrite (indirect_none V ip m) by (lia || done). rewrite indirect_addr by (rewrite ?Hnone; lia).
    rewrite Hnone, (tk_zero _ _ _ _ Hk). apply get_le_zero.
  - destruct (decide (addr_at V ip None = 0)) as [E|E].
    + rewrite !indirect_none; [done|lia|done|lia|by rewrite Hnone].
    + rewrite !indirect_addr by (rewrite ?Hnone; lia || done). rewrite Hnone. f_equal.
      destruct (fo_data _ _ _ _ Hf None E) as ([_ _ Hbm _] & Hu & _). apply (tk_other _ _ _ _ Hk); [|done].
      intros Eb. pose proof (tk_free _ _ _ _ Hk). congruence.
Qed.

Lemma addrs_ok ip j b : inode_ok ip -> 0 <= b < 2 ^ 32 -> inode_ok (set_i_addrs (<[j := b]> (i_addrs ip)) ip).
Proof.
  intros [] Hb. split; try done; cbn; [by rewrite length_insert|]. by apply Forall_insert.
Qed.

(** A block that [balloc] gave goes into [ip->addrs[j]]. *)
Lemma take_slot sb start V V1 ip b j :
  disk_ok sb start V -> file_ok sb start V ip -> taken sb V V1 b -> (j <= 12)%nat -> addr_at V ip (slot_of j) = 0 ->
  file_step sb start V ip V1 (set_i_addrs (<[j := b]> (i_addrs ip)) ip).
Proof.
  intros Hd Hf Hk Hj Hx. pose proof (tk_range _ _ _ _ Hk) as Hr. pose proof (do_free _ _ _ Hd b Hr (tk_free _ _ _ _ Hk)) as Hdb.
  pose proof (bo_size _ _ _ (do_bitmap _ _ _ Hd)) as Hsz.
  assert (Ha : forall y, addr_at V1 (set_i_addrs (<[j := b]> (i_addrs ip)) ip) y = if decide (y = slot_of j) then b else addr_at V ip y)
    by (intros y; by eapply set_slot).
  apply (grow_slot sb start V ip V1 _ (slot_of j) b); try done.
  - apply Hk.
  - apply addrs_ok; [apply Hf|lia].
  - apply Hk.
  - intros n Hn Ho. apply (tk_other _ _ _ _ Hk); [|done]. intros ->. apply Ho. split; [pose proof (db_range _ _ _ Hdb); lia|].
    exists (slot_of j). by rewrite Ha, decide_True.
  - apply Hk.
  - by rewrite (tk_zero _ _ _ _ Hk).
Qed.

(** A block of the file is not touched by taking another one. *)
Lemma taken_owned sb start V V1 ip b x :
  file_ok sb start V ip -> taken sb V V1 b -> addr_at V ip x <> 0 -> V1 (addr_at V ip x) = V (addr_at V ip x).
Proof.
  intros Hf Hk Hx. destruct (fo_data _ _ _ _ Hf x Hx) as ([_ _ Hbm _] & Hu & _). apply (tk_other _ _ _ _ Hk); [|done].
  intros E. pose proof (tk_free _ _ _ _ Hk). congruence.
Qed.

(** A block that [balloc] gave goes into an entry of the indirect block. *)
Definition with_entry (V : Z -> list Z) (ip : inode) (bn b : Z) : Z -> list Z :=
  <[addr_at V ip None := put_le 4 (V (addr_at V ip None)) (4 * (bn - NDIRECT)) b]> V.

Lemma with_entry_other V1 ip bn b n : n <> addr_at V1 ip None -> with_entry V1 ip bn b n = V1 n.
Proof. intros Hn. unfold with_entry. by rewrite fn_lookup_insert_ne. Qed.

Lemma set_entry sb start V V1 ip b bn y :
  disk_ok sb start V -> file_ok sb start V ip -> taken sb V V1 b -> NDIRECT <= bn < MAXFILE -> addr_at V ip None <> 0 ->
  addr_at (with_entry V1 ip bn b) ip y = if decide (y = Some bn) then b else addr_at V ip y.
Proof.
  intros Hd Hf Hk Hbn Hind. destruct y as [m|]; [|done]. pose proof (tk_range _ _ _ _ Hk) as Hr.
  pose proof (bo_size _ _ _ (do_bitmap _ _ _ Hd)) as Hsz.
  destruct (fo_data _ _ _ _ Hf None Hind) as (_ & _ & Hl). pose proof (eq_refl : BSIZE = 1024) as EB.
  destruct (decide (NDIRECT <= m < MAXFILE)) as [Hm|Hm].
  - rewrite !indirect_addr by done. unfold with_entry. change (addr_at V1 ip None) with (addr_at V ip None).
    change (addr_at (<[_ := _]> V1) ip None) with (addr_at V ip None).
    rewrite fn_lookup_insert. rewrite (taken_owned _ _ _ _ _ _ None Hf Hk Hind).
    unfold MAXFILE, NINDIRECT, NDIRECT in *. rewrite EB in Hbn, Hm.
    destruct (decide (Some m = Some bn)) as [[= ->]|Hne].
    + apply get_put_same; [rewrite Hl|]; lia.
    + rewrite get_put_other; [done|lia|lia|rewrite Hl; lia|]. assert (m <> bn) by congruence. lia.
  - rewrite decide_False by (intros [= ->]; done). destruct (decide (0 <= m < NDIRECT)); [by rewrite !direct_addr|].
    destruct (decide (addr_at V ip (Some m) = 0)) as [->|E]; [|apply addr_at_range in E; lia].
    destruct (decide (addr_at (with_entry V1 ip bn b) ip (Some m) = 0)) as [->|E]; [done|apply addr_at_range in E; lia].
Qed.

Lemma entry_used sb start V V1 ip b bn b' :
  file_ok sb start V ip -> taken sb V V1 b -> addr_at V ip None <> 0 -> 0 <= b' < sb_size sb ->
  in_use (with_entry V1 ip bn b) sb b' = if decide (b' = b) then true else in_use V sb b'.
Proof.
  intros Hf Hk Hind Hb'. destruct (fo_data _ _ _ _ Hf None Hind) as ([_ _ Hbm _] & _).
  rewrite <- (tk_used _ _ _ _ Hk b' Hb'). unfold in_use. by rewrite with_entry_other by (by apply Hbm).
Qed.

Lemma take_entry sb start V V1 ip b bn :
  disk_ok sb start V -> file_ok sb start V ip -> taken sb V V1 b -> NDIRECT <= bn < MAXFILE -> addr_at V ip None <> 0 ->
  addr_at V ip (Some bn) = 0 -> file_step sb start V ip (with_entry V1 ip bn b) ip.
Proof.
  intros Hd Hf Hk Hbn Hind Hx. pose proof (tk_range _ _ _ _ Hk) as Hr. pose proof (do_free _ _ _ Hd b Hr (tk_free _ _ _ _ Hk)) as Hdb.
  destruct (fo_data _ _ _ _ Hf None Hind) as ([_ _ Hbm _] & _ & Hl). pose proof (eq_refl : BSIZE = 1024) as EB.
  assert (Ha : forall y, addr_at (with_entry V1 ip bn b) ip y = if decide (y = Some bn) then b else addr_at V ip y)
    by (intros y; by eapply set_entry).
  assert (Hlen : forall n, length (V n) = Z.to_nat BSIZE -> length (with_entry V1 ip bn b n) = Z.to_nat BSIZE).
  { intros n Hn. destruct (decide (n = addr_at V1 ip None)) as [->|]; [|rewrite with_entry_other by done; by apply Hk].
    unfold with_entry. rewrite fn_lookup_insert. pose proof (tk_len _ _ _ _ Hk _ Hl) as Hl1.
    change (addr_at V1 ip None) with (addr_at V ip None).
    unfold MAXFILE, NINDIRECT, NDIRECT in *. rewrite put_le_length; [done|lia|]. rewrite Hl1. lia. }
  apply (grow_slot sb start V ip _ _ (Some bn) b); try done.
  - apply Hk.
  - by destruct ip.
  - apply Hf.
  - intros b' Hb'. by eapply entry_used.
  - intros n Hn Ho. rewrite with_entry_other.
    + apply (tk_other _ _ _ _ Hk); [|done]. intros ->. apply Ho. split; [pose proof (db_range _ _ _ Hdb); lia|].
      exists (Some bn). by rewrite Ha, decide_True.
    + intros ->. apply Ho. split; [done|]. exists None. by rewrite Ha, decide_False.
  - rewrite with_entry_other, (tk_zero _ _ _ _ Hk); [done|]. intros ->. pose proof (tk_free _ _ _ _ Hk).
    destruct (fo_data _ _ _ _ Hf None Hind) as (_ & Hu & _). change (addr_at V1 ip None) with (addr_at V ip None) in *. congruence.
Qed.

Section Growing.
Context `{Devices} `{RoundsOk} `{!DiskOps} `{!DiskOk}.
Context (c : cpu) (i : nat) (pid start : Z).
Implicit Types (s : kstate ext) (x : ext).

Abbreviation txi s ip bl V := (tx s c i pid (i_dev ip) start bl V ∅).

(** The file [ip] in entry [k] grew by some blocks, with at most [dl] blocks
    logged and [df] taken from the free ones; its content stayed. *)
Record grown (k : nat) s ip (bl : list Z) V s' ip' (bl' : list Z) V' (dl df : nat) : Prop := {
  gr_tx : txi s' ip' bl' V';
  gr_step : file_step (e_sb (k_ext s)) start V ip V' ip';
  gr_frame : ino_frame k ip' s s';
  gr_data : forall bn, addr_at V ip (Some bn) <> 0 -> V' (addr_at V ip (Some bn)) = V (addr_at V ip (Some bn));
  gr_log : (length bl' <= length bl + dl)%nat;
  gr_free : (length (free_blocks (e_sb (k_ext s)) V) <= length (free_blocks (e_sb (k_ext s)) V') + df)%nat
}.

(** A file in the table, in a transaction. *)
Record file_at (k : nat) s ip (bl : list Z) V : Prop := {
  fa_get : e_inodes (k_ext s) !! k = Some ip;
  fa_tx : txi s ip bl V;
  fa_disk : disk_ok (e_sb (k_ext s)) start V;
  fa_file : file_ok (e_sb (k_ext s)) start V ip
}.

Lemma grown_at k s ip bl V s' ip' bl' V' dl df :
  file_at k s ip bl V -> grown k s ip bl V s' ip' bl' V' dl df -> file_at k s' ip' bl' V'.
Proof.
  intros Hf Hg. pose proof (ino_frame_sb _ _ _ _ (gr_frame _ _ _ _ _ _ _ _ _ _ _ Hg)) as E. split.
  - eapply ino_frame_get; [apply Hf|apply Hg].
  - apply Hg.
  - rewrite E. apply Hg.
  - rewrite E. apply (gr_step _ _ _ _ _ _ _ _ _ _ _ Hg).
Qed.

Lemma grown_file_trans k s1 ip1 bl1 V1 s2 ip2 bl2 V2 s3 ip3 bl3 V3 dl df dl' df' :
  grown k s1 ip1 bl1 V1 s2 ip2 bl2 V2 dl df -> grown k s2 ip2 bl2 V2 s3 ip3 bl3 V3 dl' df' ->
  grown k s1 ip1 bl1 V1 s3 ip3 bl3 V3 (dl + dl') (df + df').
Proof.
  intros [T1 S1 F1 D1 L1 R1] [T2 S2 F2 D2 L2 R2]. rewrite (ino_frame_sb _ _ _ _ F1) in S2, R2. split; try lia.
  - done.
  - by eapply file_step_trans.
  - by eapply ino_frame_trans.
  - intros bn Hbn. pose proof (fs_keep _ _ _ _ _ _ S1 _ Hbn) as E. rewrite <- (D1 bn Hbn), <- E. apply D2. by rewrite E.
Qed.

Lemma grown_more k s ip bl V s' ip' bl' V' dl df dl' df' :
  (dl <= dl')%nat -> (df <= df')%nat -> grown k s ip bl V s' ip' bl' V' dl df -> grown k s ip bl V s' ip' bl' V' dl' df'.
Proof. intros Hl Hf []. split; try done; lia. Qed.

(** Nothing but the cache changed. *)
Lemma grown_frame k s ip bl V s' : file_at k s ip bl V -> txi s' ip bl V -> tx_frame s s' -> grown k s ip bl V s' ip bl V 0 0.
Proof.
  intros [Hk Ht Hd Hf] Ht' Hfr. split; try done; [by apply file_step_refl|by apply ino_frame_intro|lia|lia].
Qed.

Lemma tx_room_less x bl bl' L k d : (length bl' <= length bl + d)%nat -> tx_room x bl L (k + Z.of_nat d) -> tx_room x bl' L k.
Proof. intros Hl (? & ? & ?). split_and!; lia. Qed.

Lemma grown_room k s ip bl V s' ip' bl' V' dl df L r :
  grown k s ip bl V s' ip' bl' V' dl df -> tx_room (k_ext s) bl L (r + Z.of_nat dl) -> tx_room (k_ext s') bl' L r.
Proof. intros Hg Hr. eapply tx_room_less; [apply Hg|]. eapply ino_frame_room; [apply Hg|done]. Qed.

Lemma addr_alloc_run k j s ip bl V :
  file_at k s ip bl V -> (j <= 12)%nat -> tx_room (k_ext s) bl ∅ 3 -> (0 < length (free_blocks (e_sb (k_ext s)) V))%nat ->
  exists s' ip' bl' V', addr_or_alloc k j s = Done (addr_at V' ip' (slot_of j)) s' /\ addr_at V' ip' (slot_of j) <> 0 /\
    grown k s ip bl V s' ip' bl' V' 2 1.
Proof.
  intros Hfa Hj Hrm Hfr. destruct Hfa as [Hk Ht Hd Hf] eqn:Efa. clear Efa.
  pose proof (io_len _ (fo_inode _ _ _ _ Hf)) as Hl. destruct (decide (addr_at V ip (slot_of j) = 0)) as [E|E].
  2:{ exists s, ip, bl, V. split; [rewrite slot_addr in * by done; apply addr_found; [done|lia|done]|]. split; [done|].
      eapply (grown_more _ _ _ _ _ _ _ _ _ 0 0), grown_frame; [lia|lia|done|done|apply tx_frame_refl]. }
  destruct (balloc_fs c i pid start (i_dev ip) s bl V ∅ Ht Hd Hfr Hrm) as (b & s1 & bl1 & V1 & Hrun & Ht1 & Hk1 & Htk & Hl1); [set_solver|].
  set (ip1 := set_i_addrs (<[j := b]> (i_addrs ip)) ip). pose proof (tx_keep_frame _ _ _ _ Hk1) as Hf1.
  assert (Ei : e_inodes (k_ext s1) = e_inodes (k_ext s)) by (destruct Hf1 as [(_ & -> & _) _]; done).
  set (s2 := with_ext (fun w => set_e_inodes (<[k := ip1]> (e_inodes w)) w) s1).
  assert (Ea : addr_at V1 ip1 (slot_of j) = b) by (unfold ip1; rewrite (set_slot (e_sb (k_ext s)) start V) by done; by rewrite decide_True).
  exists s2, ip1, bl1, V1. rewrite Ea. split; [|split].
  - unfold addr_or_alloc. mstep (get_addr_run k j s ip Hk ltac:(lia)). rewrite <- (slot_addr V) by done. rewrite E. cbn [truthy Z.eqb negb].
    mstep (get_inode_run k s ip Hk). mstep Hrun. unfold set_addr. mstep (mod_inode_run k (fun ip => set_i_addrs (<[j := b]> (i_addrs ip)) ip) s1 ip ltac:(by rewrite Ei)).
    done.
  - pose proof (db_range _ _ _ (do_free _ _ _ Hd b (tk_range _ _ _ _ Htk) (tk_free _ _ _ _ Htk))). lia.
  - split; [by apply (tx_set_inodes c i pid start s1 (<[k := ip1]>))|by apply take_slot with (b := b)| | |lia|].
    + destruct Hf1 as [(F1 & F2 & F3 & F4 & F5 & F6 & F7) Hw]. split; [|done]. split_and!; try done. cbn. by rewrite F2.
    + intros bn Hbn. by eapply taken_owned.
    + rewrite (free_taken (e_sb (k_ext s)) V V1 b); [lia|apply Htk..].
Qed.

(** The buffer of a held block has the block's data. *)
Lemma held_data n b y s dv bl V L :
  tx s c i pid dv start bl V L -> n ∈ L -> buf_of (k_ext s) dv n b y -> b_data y = V n.
Proof.
  intros Ht Hn Hb. destruct (ca_buf _ _ _ _ _ _ (tx_cache _ _ _ _ _ _ _ _ _ Ht) n b y Hb) as (_ & Hv & Hi & _).
  destruct (decide (b_valid y = 0)) as [E|E]; [|by apply Hv]. by destruct (Hi E).
Qed.

(** An entry of the indirect block, whose buffer [bp] is held, gets a new block. *)
Lemma entry_alloc_run k bn bp y s s1 ip bl V :
  file_at k s ip bl V -> NDIRECT <= bn < MAXFILE -> addr_at V ip None <> 0 -> addr_at V ip (Some bn) = 0 ->
  tx s1 c i pid (i_dev ip) start bl V ({[addr_at V ip None]} ∪ ∅) -> tx_keep (i_dev ip) ∅ s s1 ->
  buf_of (k_ext s1) (i_dev ip) (addr_at V ip None) bp y ->
  tx_room (k_ext s) bl ∅ 4 -> (0 < length (free_blocks (e_sb (k_ext s)) V))%nat ->
  exists b s' bl' V', (a ← (a ← balloc (i_dev ip); mod_data bp (fun d => put_le 4 d (4 * (bn - NDIRECT)) a);; log_write bp;; mret a);
      brelse bp;; mret a) s1 = Done b s' /\ addr_at V' ip (Some bn) = b /\ b <> 0 /\ grown k s ip bl V s' ip bl' V' 3 1.
Proof.
  intros [Hk Ht Hd Hf] Hbn Hind Hx Ht1 Hk1 Hb Hrm Hfr. set (a := addr_at V ip None) in *.
  pose proof (tx_keep_frame _ _ _ _ Hk1) as Hf1. assert (Esb : e_sb (k_ext s1) = e_sb (k_ext s)) by (destruct Hf1 as [(-> & _) _]; done).
  assert (Hrm1 : tx_room (k_ext s1) bl ({[a]} ∪ ∅) 3) by (apply tx_room_held; [set_solver|]; by eapply tx_room_keep).
  assert (HaL : a ∈ ({[a]} ∪ ∅ : gset Z)) by set_solver.
  destruct (balloc_fs c i pid start (i_dev ip) s1 bl V ({[a]} ∪ ∅) Ht1) as (b & s2 & bl2 & V2 & Hrun2 & Ht2 & Hk2 & Htk & Hl2); rewrite ?Esb; try done.
  { intros n Hn. assert (n = a) as -> by set_solver. by destruct (fo_data _ _ _ _ Hf None Hind) as (? & ? & _). }
  rewrite Esb in Htk. destruct (proj2 (proj2 Hk2) a bp y HaL Hb) as [y2 Hb2]. pose proof (held_data _ _ _ _ _ _ _ _ Ht2 HaL Hb2) as Hd2.
  pose proof (do_free _ _ _ Hd b (tk_range _ _ _ _ Htk) (tk_free _ _ _ _ Htk)) as Hdb.
  destruct (update_tx a bp y2 (put_le 4 (V2 a) (4 * (bn - NDIRECT)) b) (fun w => set_b_data (put_le 4 (b_data w) (4 * (bn - NDIRECT)) b) w)
    s2 c i pid (i_dev ip) start bl2 V2 ({[a]} ∪ ∅) ltac:(cbv beta; by rewrite Hd2) Ht2 HaL Hb2) as (s3 & Hrun3 & Ht3 & Hf3 & _).
  { by destruct (fo_data _ _ _ _ Hf None Hind) as ([_ ? _ _] & _). }
  { eapply tx_room_keep; [exact Hk2|]. by eapply tx_room_less with (d := 2%nat). }
  exists b, s3. do 2 eexists. split; [|split_and!].
  - apply bind_Done_inv in Hrun3 as ([] & s4 & Hr4 & Hrun3). apply bind_Done_inv in Hrun3 as ([] & s5 & Hr5 & Hrun3).
    assert (Hall : (a ← balloc (i_dev ip); mod_data bp (fun d => put_le 4 d (4 * (bn - NDIRECT)) a);; log_write bp;; mret a) s1 = Done b s5).
    { mstep Hrun2. unfold mod_data. mstep Hr4. by mstep Hr5. }
    mstep Hall. by mstep Hrun3.
  - rewrite (set_entry (e_sb (k_ext s)) start V V2 ip b bn) by done. by rewrite decide_True.
  - pose proof (db_range _ _ _ Hdb). lia.
  - split.
    + eapply tx_held; [|exact Ht3]. set_solver.
    + by eapply take_entry.
    + apply ino_frame_intro; [done|]. eapply tx_frame_trans; [exact Hf1|]. eapply tx_frame_trans; [by eapply tx_keep_frame|done].
    + intros m Hm. rewrite with_entry_other; [by eapply taken_owned|]. intros E. symmetry in E. change (addr_at V2 ip None) with (addr_at V ip None) in E.
      by specialize (fo_inj _ _ _ _ Hf None (Some m) E Hind).
    + pose proof (length_with_block a bl2). lia.
    + rewrite (free_taken (e_sb (k_ext s)) V (with_entry V2 ip bn b) b); [lia|apply Htk|apply Htk|]. intros b' Hb'. by eapply entry_used.
Qed.

Lemma room_length x bl L k : 0 < k -> tx_room x bl L k -> (length bl < NBUF)%nat.
Proof. intros Hk (_ & _ & ?). lia. Qed.

(** [bmap] gives the block of the file, with new blocks for what is missing. *)
Lemma bmap_run k bn s ip bl V :
  file_at k s ip bl V -> 0 <= bn < MAXFILE -> tx_room (k_ext s) bl ∅ 6 -> (2 <= length (free_blocks (e_sb (k_ext s)) V))%nat ->
  exists s' ip' bl' V', bmap k bn s = Done (addr_at V' ip' (Some bn)) s' /\ addr_at V' ip' (Some bn) <> 0 /\
    grown k s ip bl V s' ip' bl' V' 5 2.
Proof.
  intros Hfa Hbn Hrm Hfr. unfold bmap. destruct (Z.ltb_spec bn NDIRECT) as [Hdir|Hdir].
  { destruct (addr_alloc_run k (Z.to_nat bn) s ip bl V Hfa) as (s' & ip' & bl' & V' & Hrun & Hne & Hg);
      [unfold NDIRECT in Hdir; lia|destruct Hrm as (? & ? & ?); split_and!; lia|lia|].
    assert (E : slot_of (Z.to_nat bn) = Some bn) by (unfold slot_of, NDIRECT in *; rewrite decide_False by lia; f_equal; lia).
    rewrite E in Hrun, Hne. exists s', ip', bl', V'. split; [done|]. split; [done|]. eapply grown_more; [..|exact Hg]; lia. }
  rewrite (proj2 (Z.ltb_lt (bn - NDIRECT) NINDIRECT)) by (unfold MAXFILE in Hbn; lia).
  destruct (addr_alloc_run k 12 s ip bl V Hfa) as (s1 & ip1 & bl1 & V1 & Hrun1 & Hind & Hg1);
    [lia|destruct Hrm as (? & ? & ?); split_and!; lia|lia|].
  change (slot_of 12) with (@None Z) in Hrun1, Hind. mstep Hrun1. pose proof (grown_at _ _ _ _ _ _ _ _ _ _ _ Hfa Hg1) as Hfa1.
  destruct Hfa1 as [Hk1 Ht1 Hd1 Hf1] eqn:Efa. clear Efa. mstep (get_inode_run k s1 ip1 Hk1).
  assert (Hrm1 : tx_room (k_ext s1) bl1 ∅ 4) by (eapply grown_room; [exact Hg1|exact Hrm]).
  destruct (bread_tx (addr_at V1 ip1 None) s1 c i pid (i_dev ip1) start bl1 V1 ∅ Ht1) as (bp & y & s2 & Hrun2 & Ht2 & Hk2 & Hb & Hy);
    [set_solver|by apply (room_buffers _ _ _ 4 ltac:(lia) Hrm1)|].
  mstep Hrun2. mstep (get_buf_run bp s2 y ltac:(apply Hb)). cbv zeta. rewrite Hy, <- indirect_addr by (lia || done).
  destruct (decide (addr_at V1 ip1 (Some bn) = 0)) as [E|E].
  - rewrite E. change (truthy 0) with false. cbv iota.
    destruct (entry_alloc_run k bn bp y s1 s2 ip1 bl1 V1 Hfa1) as (b & s3 & bl3 & V3 & Hrun3 & Eb & Hnb & Hg3); try done; try lia.
    { rewrite (ino_frame_sb _ _ _ _ (gr_frame _ _ _ _ _ _ _ _ _ _ _ Hg1)). pose proof (gr_free _ _ _ _ _ _ _ _ _ _ _ Hg1). lia. }
    exists s3, ip1, bl3, V3. rewrite Eb. split; [exact Hrun3|]. split; [done|]. by apply (grown_file_trans _ _ _ _ _ _ _ _ _ _ _ _ _ 2 1 3 1 Hg1).
  - unfold truthy. rewrite (proj2 (Z.eqb_neq _ 0)) by done. cbn [negb]. mrun.
    destruct (release_clean c i pid (i_dev ip1) start _ bp y s1 s2 bl1 V1 ∅ Ht1 (not_elem_of_empty _) Ht2 Hk2 Hb) as (s3 & Hrun3 & Ht3 & Hk3).
    mstep Hrun3. exists s3, ip1, bl1, V1. split; [done|]. split; [done|].
    eapply grown_more; [..|apply (grown_file_trans _ _ _ _ _ _ _ _ _ _ _ _ _ 2 1 0 0 Hg1)]; [lia|lia|].
    apply grown_frame; [done|done|by eapply tx_keep_frame].
Qed.

End Growing.

(** ** Writing *)

(** The bytes [bs] at [off], and everything else of the file as it was. *)
Record written (sb : superblock) (start : Z) V ip V' ip' (off : Z) (bs : list Z) : Prop := {
  wr_step : file_step sb start V ip V' ip';
  wr_keep : forall q, 0 <= q -> addr_at V ip (Some (q / BSIZE)) <> 0 -> ~ (off <= q < off + Z.of_nat (length bs)) ->
    byte_at V' ip' q = byte_at V ip q;
  wr_bytes : forall j v, bs !! j = Some v -> byte_at V' ip' (off + Z.of_nat j) = v;
  wr_back : forall q, off <= q < off + Z.of_nat (length bs) -> addr_at V' ip' (Some (q / BSIZE)) <> 0
}.

Lemma written_nil sb start V ip off : disk_ok sb start V -> file_ok sb start V ip -> written sb start V ip V ip off [].
Proof. intros Hd Hf. split; [by apply file_step_refl|done|done|]. cbn. lia. Qed.

Lemma written_app sb start V1 ip1 V2 ip2 V3 ip3 off bs1 bs2 :
  0 <= off -> written sb start V1 ip1 V2 ip2 off bs1 -> written sb start V2 ip2 V3 ip3 (off + Z.of_nat (length bs1)) bs2 ->
  written sb start V1 ip1 V3 ip3 off (bs1 ++ bs2).
Proof.
  intros H0 [S1 K1 B1 A1] [S2 K2 B2 A2]. split.
  - by eapply file_step_trans.
  - intros q Hq Ha Hn. rewrite length_app in Hn. pose proof (fs_keep _ _ _ _ _ _ S1 _ Ha) as E.
    rewrite K2, K1; [done|done|done|lia|done|by rewrite E|lia].
  - intros j v Hj. apply lookup_app_Some in Hj as [Hj|[Hl Hj]].
    + pose proof (lookup_lt_Some _ _ _ Hj). rewrite K2; [by apply B1|lia|apply A1; lia|lia].
    + rewrite <- (B2 _ _ Hj). f_equal. lia.
  - intros q Hq. rewrite length_app in Hq. destruct (decide (off + Z.of_nat (length bs1) <= q)); [apply A2; lia|].
    pose proof (A1 q ltac:(lia)) as Ha. by rewrite (fs_keep _ _ _ _ _ _ S2 _ Ha).
Qed.

(** The blocks did not change, up to new ones. *)
Lemma byte_grown V ip V' ip' q :
  (forall x, addr_at V ip x <> 0 -> addr_at V' ip' x = addr_at V ip x) ->
  (forall bn, addr_at V ip (Some bn) <> 0 -> V' (addr_at V ip (Some bn)) = V (addr_at V ip (Some bn))) ->
  addr_at V ip (Some (q / BSIZE)) <> 0 -> byte_at V' ip' q = byte_at V ip q.
Proof. intros Ha Hd Hne. unfold byte_at. by rewrite Ha, Hd. Qed.

(** One block is written. *)
Lemma written_block sb start V ip off bs :
  disk_ok sb start V -> file_ok sb start V ip -> 0 <= off -> off mod BSIZE + Z.of_nat (length bs) <= BSIZE ->
  let a := addr_at V ip (Some (off / BSIZE)) in
  a <> 0 -> written sb start V ip (<[a := put_bytes (V a) (off mod BSIZE) bs]> V) ip off bs.
Proof.
  intros Hd Hf Hoff Hle a Ha. set (V' := <[a := _]> V). pose proof (eq_refl : BSIZE = 1024) as EB.
  destruct (fo_data _ _ _ _ Hf _ Ha) as (_ & _ & Hl). fold a in Hl.
  assert (Hl' : (Z.to_nat (off mod BSIZE) + length bs <= length (V a))%nat) by lia.
  assert (Ea : forall y, addr_at V' ip y = addr_at V ip y) by (intros y; by eapply addr_at_data).
  assert (Hin : forall q, q / BSIZE = off / BSIZE -> byte_at V' ip q = put_bytes (V a) (off mod BSIZE) bs !!! Z.to_nat (q mod BSIZE)).
  { intros q E. unfold byte_at. rewrite Ea, E. fold a. unfold V'. by rewrite fn_lookup_insert. }
  split.
  - apply put_data; try done. by rewrite put_bytes_length by lia.
  - intros q Hq Hqa Hn. destruct (decide (q / BSIZE = off / BSIZE)) as [E|E].
    + rewrite Hin by done. unfold byte_at. rewrite E. fold a. rewrite !list_lookup_total_alt. f_equal. apply put_bytes_outside; lia.
    + unfold byte_at. rewrite Ea. unfold V'. rewrite fn_lookup_insert_ne; [done|]. intros E'. unfold a in E'.
      pose proof (fo_inj _ _ _ _ Hf _ _ E' Ha). congruence.
  - intros j v Hj. pose proof (lookup_lt_Some _ _ _ Hj). rewrite Hin by lia.
    replace (Z.to_nat ((off + Z.of_nat j) mod BSIZE)) with (Z.to_nat (off mod BSIZE) + j)%nat by lia.
    apply list_lookup_total_correct. unfold put_bytes. rewrite lookup_app_r, length_take, Nat.min_l by (rewrite ?length_take; lia).
    rewrite lookup_app_l by lia. replace (Z.to_nat (off mod BSIZE) + j - Z.to_nat (off mod BSIZE))%nat with j by lia. done.
  - intros q Hq. rewrite Ea. replace (q / BSIZE) with (off / BSIZE) by lia. done.
Qed.

(** A write after the file has grown. *)
Lemma written_grown sb start V ip V1 ip1 V2 ip2 off bs :
  file_step sb start V ip V1 ip1 ->
  (forall bn, addr_at V ip (Some bn) <> 0 -> V1 (addr_at V ip (Some bn)) = V (addr_at V ip (Some bn))) ->
  written sb start V1 ip1 V2 ip2 off bs -> written sb start V ip V2 ip2 off bs.
Proof.
  intros Hs Hdat [S K B A]. split; [by eapply file_step_trans| |done|done].
  intros q Hq Ha Hn. pose proof (fs_keep _ _ _ _ _ _ Hs _ Ha) as E. rewrite K; [|done|by rewrite E|done].
  apply byte_grown; [apply Hs|done|done].
Qed.

Section Writing.
Context `{Devices} `{RoundsOk} `{!DiskOps} `{!DiskOk}.
Context (c : cpu) (i : nat) (pid start : Z).
Implicit Types (s : kstate ext) (x : ext).

Abbreviation file_at := (file_at c i pid start).

(** The file in entry [k] had [bs] written at [off], with at most [dl] blocks
    logged. *)
Record wrote_file (k : nat) s ip (bl : list Z) V s' ip' (bl' : list Z) V' (off : Z) (bs : list Z) (dl df : nat) : Prop := {
  wf_tx : tx s' c i pid (i_dev ip') start bl' V' ∅;
  wf_written : written (e_sb (k_ext s)) start V ip V' ip' off bs;
  wf_frame : ino_frame k ip' s s';
  wf_log : (length bl' <= length bl + dl)%nat;
  wf_free : (length (free_blocks (e_sb (k_ext s)) V) <= length (free_blocks (e_sb (k_ext s)) V') + df)%nat
}.

Lemma wrote_at k s ip bl V s' ip' bl' V' off bs dl df :
  file_at k s ip bl V -> wrote_file k s ip bl V s' ip' bl' V' off bs dl df -> file_at k s' ip' bl' V'.
Proof.
  intros Hf [Ht [Hs _ _ _] Hfr _ _]. pose proof (ino_frame_sb _ _ _ _ Hfr) as E. split; rewrite ?E.
  - eapply ino_frame_get; [apply Hf|done].
  - done.
  - apply Hs.
  - apply Hs.
Qed.

Lemma wrote_app k s1 ip1 bl1 V1 s2 ip2 bl2 V2 s3 ip3 bl3 V3 off bs bs' dl df dl' df' :
  0 <= off -> wrote_file k s1 ip1 bl1 V1 s2 ip2 bl2 V2 off bs dl df ->
  wrote_file k s2 ip2 bl2 V2 s3 ip3 bl3 V3 (off + Z.of_nat (length bs)) bs' dl' df' ->
  wrote_file k s1 ip1 bl1 V1 s3 ip3 bl3 V3 off (bs ++ bs') (dl + dl') (df + df').
Proof.
  intros H0' [T1 W1 F1 L1 R1] [T2 W2 F2 L2 R2]. rewrite (ino_frame_sb _ _ _ _ F1) in W2, R2. split; try lia; [done| |].
  - by eapply written_app.
  - by eapply ino_frame_trans.
Qed.

(** One round of the loop of [writei]. *)
Lemma write_round k s ip bl V off bs {A} (rest : KM ext A) :
  file_at k s ip bl V -> 0 <= off -> off / BSIZE < MAXFILE -> off mod BSIZE + Z.of_nat (length bs) <= BSIZE ->
  tx_room (k_ext s) bl ∅ 7 -> (2 <= length (free_blocks (e_sb (k_ext s)) V))%nat ->
  exists s' ip' bl' V', (a ← bmap k (off / BSIZE); bp ← bread (i_dev ip) a;
      mod_data bp (fun d => put_bytes d (off mod BSIZE) bs);; log_write bp;; brelse bp;; rest) s = rest s' /\
    wrote_file k s ip bl V s' ip' bl' V' off bs 6 2.
Proof.
  intros Hfa Hoff Hbn Hle Hrm Hfr. pose proof (eq_refl : BSIZE = 1024) as EB.
  destruct (bmap_run c i pid start k (off / BSIZE) s ip bl V Hfa) as (s1 & ip1 & bl1 & V1 & Hrun1 & Hne & Hg);
    [lia|destruct Hrm as (? & ? & ?); split_and!; lia|done|].
  pose proof (grown_at _ _ _ _ _ _ _ _ _ _ _ _ _ _ _ Hfa Hg) as [Hk1 Ht1 Hd1 Hf1].
  pose proof (ino_frame_sb _ _ _ _ (gr_frame _ _ _ _ _ _ _ _ _ _ _ _ _ _ _ Hg)) as Esb. rewrite Esb in Hd1, Hf1.
  assert (Hdev : i_dev ip = i_dev ip1) by (rewrite (fs_inode _ _ _ _ _ _ (gr_step _ _ _ _ _ _ _ _ _ _ _ _ _ _ _ Hg)); done).
  set (a := addr_at V1 ip1 (Some (off / BSIZE))) in *.
  assert (Hrm1 : tx_room (k_ext s1) bl1 ∅ 2) by (eapply grown_room; [exact Hg|exact Hrm]).
  destruct (bread_tx a s1 c i pid (i_dev ip1) start bl1 V1 ∅ Ht1) as (bp & y & s2 & Hrun2 & Ht2 & Hk2 & Hb & Hy);
    [set_solver|by apply (room_buffers _ _ _ 2 ltac:(lia) Hrm1)|].
  destruct (change_block c i pid (i_dev ip1) start a bp y (put_bytes (V1 a) (off mod BSIZE) bs)
    (fun w => set_b_data (put_bytes (b_data w) (off mod BSIZE) bs) w) s1 s2 bl1 V1 ∅ ltac:(cbv beta; by rewrite Hy)
    (not_elem_of_empty _) Ht2 Hk2 Hb) as (s3 & Hrun3 & Ht3 & Hk3); [by apply (fo_data _ _ _ _ Hf1)|done|].
  exists s3, ip1. do 2 eexists. split.
  - mstep Hrun1. rewrite Hdev. mstep Hrun2. unfold mod_data. exact (seq3_Done _ _ _ rest _ _ Hrun3).
  - pose proof (written_block _ _ V1 ip1 off bs Hd1 Hf1 Hoff Hle Hne) as Hw. fold a in Hw. split.
    + exact Ht3.
    + eapply written_grown; [apply Hg|apply Hg|done].
    + eapply ino_frame_trans; [apply Hg|]. apply ino_frame_intro; [done|by eapply tx_keep_frame].
    + pose proof (length_with_block a bl1). pose proof (gr_log _ _ _ _ _ _ _ _ _ _ _ _ _ _ _ Hg). lia.
    + pose proof (gr_free _ _ _ _ _ _ _ _ _ _ _ _ _ _ _ Hg). rewrite (free_data _ start); [done|].
      by apply (fo_data _ _ _ _ Hf1).
Qed.

(** The loop of [writei] from round to round: each logs up to six blocks and
    takes up to two. *)
Lemma write_loop_run k bs off0 n fuel : forall s ip bl V off tot,
  let r := rounds_left off tot n - 1 in
  file_at k s ip bl V -> 0 <= off0 -> 0 <= tot <= n -> off = off0 + tot -> off0 + n <= MAXFILE * BSIZE -> n = Z.of_nat (length bs) ->
  rounds_left off tot n <= Z.of_nat fuel -> tx_room (k_ext s) bl ∅ (6 * r + 2) ->
  2 * r <= Z.of_nat (length (free_blocks (e_sb (k_ext s)) V)) ->
  exists s' ip' bl' V', writei_loop fuel (fun tot m => mret (0, take (Z.to_nat m) (drop (Z.to_nat tot) bs))) k off tot n s = Done (n, off0 + n) s' /\
    wrote_file k s ip bl V s' ip' bl' V' off (drop (Z.to_nat tot) bs) (Z.to_nat (6 * r)) (Z.to_nat (2 * r)).
Proof.
  pose proof (eq_refl : BSIZE = 1024) as EB. pose proof (eq_refl : MAXFILE = 268) as EM.
  induction fuel as [|fuel IH]; intros s ip bl V off tot r Hfa Hoff0 Htot Hoff Hmax Hn Hfuel Hrm Hfr; [pose proof (rounds_positive off tot n); lia|].
  pose proof (rounds_positive off tot n) as Hpos. cbn [writei_loop]. destruct (Z.ltb_spec tot n) as [Hlt|Hge]; cbn [negb].
  2:{ assert (tot = n) as -> by lia. exists s, ip, bl, V. subst off. split; [done|].
      rewrite drop_ge by lia. pose proof Hfa as [Hk Ht Hd Hf]. split; [done|by apply written_nil| |lia|lia].
      apply ino_frame_intro; [done|apply tx_frame_refl]. }
  mstep (get_inode_run k s ip (fa_get _ _ _ _ _ _ _ _ _ Hfa)). set (m := Z.min _ _). set (ch := take (Z.to_nat m) (drop (Z.to_nat tot) bs)).
  pose proof (rounds_step off tot n ltac:(lia) Hlt) as Hstep. cbv zeta in Hstep. fold m in Hstep.
  pose proof (rounds_positive (off + m) (tot + m) n) as Hpos'.
  assert (Hch : Z.of_nat (length ch) = m) by (unfold ch; rewrite length_take, length_drop; unfold m; lia).
  destruct (write_round k s ip bl V off ch
    (writei_loop fuel (fun tot m => mret (0, take (Z.to_nat m) (drop (Z.to_nat tot) bs))) k (u32 (off + m)) (u32 (tot + m)) n))
    as (s1 & ip1 & bl1 & V1 & Hrun & Hw); [done|lia|lia|lia| |lia|].
  { destruct Hrm as (? & ? & ?). split_and!; unfold r in *; lia. }
  pose proof (wrote_at _ _ _ _ _ _ _ _ _ _ _ _ _ Hfa Hw) as Hfa1. pose proof (ino_frame_sb _ _ _ _ (wf_frame _ _ _ _ _ _ _ _ _ _ _ _ _ Hw)) as Esb.
  pose proof (wf_free _ _ _ _ _ _ _ _ _ _ _ _ _ Hw) as Hfree. rewrite <- Esb in Hfree at 2.
  rewrite !u32_small in Hrun by lia.
  destruct (IH s1 ip1 bl1 V1 (off + m) (tot + m)) as (s2 & ip2 & bl2 & V2 & Hrun2 & Hw2); try done; try lia.
  { eapply tx_room_less; [apply Hw|]. eapply ino_frame_room; [apply Hw|]. destruct Hrm as (? & ? & ?). split_and!; unfold r in *; lia. }
  exists s2, ip2, bl2, V2. split.
  - rewrite <- Hrun2. rewrite !u32_small by lia. exact Hrun.
  - rewrite <- (take_drop (Z.to_nat m) (drop (Z.to_nat tot) bs)), drop_drop. fold ch.
    replace (Z.to_nat tot + Z.to_nat m)%nat with (Z.to_nat (tot + m)) by lia.
    replace (off + m) with (off + Z.of_nat (length ch)) in Hw2 by lia.
    assert (Hpo : 0 <= off) by lia. pose proof (wrote_app _ _ _ _ _ _ _ _ _ _ _ _ _ _ _ _ _ _ _ _ Hpo Hw Hw2) as [T W F L R].
    rewrite Hch in L, R. split; try done; unfold r in *; lia.
Qed.

End Writing.

(** ** The file after a write *)

(** The content [c] with [bs] written at [off]. *)
Definition write_at (c : list Z) (off : nat) (bs : list Z) : list Z := take off c ++ bs ++ drop (off + length bs) c.

Lemma content_written sb start V ip V' ip' off bs :
  written sb start V ip V' ip' off bs -> file_ok sb start V ip -> 0 <= off <= i_size ip ->
  content V' (set_i_size (Z.max (i_size ip) (off + Z.of_nat (length bs))) ip') = write_at (content V ip) (Z.to_nat off) bs.
Proof.
  intros Hw Hf Hoff. unfold content, write_at. cbn [i_size set_i_size]. set (sz := Z.max _ _). apply list_eq. intros j.
  pose proof (eq_refl : BSIZE = 1024) as EB.
  assert (Hl : length (bytes_at V ip 0 (i_size ip)) = Z.to_nat (i_size ip)) by apply length_bytes_at.
  assert (Hold : (j < Z.to_nat (i_size ip))%nat -> ~ (off <= Z.of_nat j < off + Z.of_nat (length bs)) ->
    byte_at V' (set_i_size sz ip') (0 + Z.of_nat j) = byte_at V ip (0 + Z.of_nat j)).
  { intros Hj Hn. change (byte_at V' (set_i_size sz ip') ?q) with (byte_at V' ip' q). apply (wr_keep _ _ _ _ _ _ _ _ Hw); [lia| |lia].
    apply (fo_back _ _ _ _ Hf); lia. }
  destruct (decide (j < Z.to_nat sz)%nat) as [Hj|Hj].
  2:{ rewrite !lookup_ge_None_2; [done| |]; rewrite ?length_app, ?length_take, ?length_drop, ?length_bytes_at; lia. }
  rewrite lookup_bytes_at by done. symmetry. destruct (decide (j < Z.to_nat off)%nat) as [H1|H1].
  { rewrite lookup_app_l by (rewrite length_take; lia). rewrite lookup_take_lt, lookup_bytes_at, Hold by lia. done. }
  rewrite lookup_app_r by (rewrite length_take; lia). rewrite length_take, Hl, Nat.min_l by lia.
  destruct (decide (j - Z.to_nat off < length bs)%nat) as [H2|H2].
  - rewrite lookup_app_l by done. destruct (lookup_lt_is_Some_2 _ _ H2) as [v Hv]. rewrite Hv. f_equal.
    change (byte_at V' (set_i_size sz ip') ?q) with (byte_at V' ip' q).
    rewrite <- (wr_bytes _ _ _ _ _ _ _ _ Hw _ _ Hv). f_equal. lia.
  - rewrite lookup_app_r by lia. rewrite lookup_drop.
    replace (Z.to_nat off + length bs + (j - Z.to_nat off - length bs))%nat with j by lia.
    rewrite lookup_bytes_at, Hold by lia. done.
Qed.

(** The blocks of a file that a change does not touch. *)
Lemma file_kept sb start V V' ip :
  file_ok sb start V ip -> (forall n, owns V ip n -> V' n = V n /\ in_use V' sb n = true) ->
  file_ok sb start V' ip /\ (forall x, addr_at V' ip x = addr_at V ip x) /\ content V' ip = content V ip.
Proof.
  intros Hf Hk. assert (Ho : forall x, addr_at V ip x <> 0 -> owns V ip (addr_at V ip x)) by (intros x Hx; split; [done|by exists x]).
  assert (Ha : forall x, addr_at V' ip x = addr_at V ip x).
  { intros [bn|]; [|done]. destruct (decide (addr_at V ip None = 0)) as [E|E].
    - unfold addr_at in *. rewrite E. change (truthy 0) with false. by rewrite !andb_false_r.
    - destruct (Hk _ (Ho None E)) as [EV _]. unfold addr_at in *. by rewrite EV. }
  split_and!; [|done|].
  - destruct Hf as [Hi Hn Hd Hj Hb]. split; try done.
    + intros x. rewrite Ha. intros Hx. destruct (Hk _ (Ho x Hx)) as [EV Eu]. destruct (Hd x Hx) as (? & ? & ?).
      split_and!; [done|done|by rewrite EV].
    + intros x y. rewrite !Ha. apply Hj.
    + intros bn ? ?. rewrite Ha. by apply Hb.
  - unfold content, bytes_at. apply list_fmap_ext. intros j q Hq. apply lookup_seqZ in Hq as [-> Hq].
    assert (Hne : addr_at V ip (Some ((0 + Z.of_nat j) / BSIZE)) <> 0) by (apply (fo_back _ _ _ _ Hf); unfold BSIZE; lia).
    unfold byte_at. rewrite Ha. by destruct (Hk _ (Ho _ Hne)) as [-> _].
Qed.

Lemma file_resize sb start V ip sz :
  file_ok sb start V ip -> 0 <= sz < 2 ^ 32 -> (forall bn, 0 <= bn -> bn * BSIZE < sz -> addr_at V ip (Some bn) <> 0) ->
  file_ok sb start V (set_i_size sz ip).
Proof. intros [[] Hn Hd Hj Hb] Hsz Hback. split; try done. Qed.

Section Others.
Context (start : Z).

(** [ip'] on the disk [V'] is the file [ip] of [V] with the content [bytes]; no
    other file and no other inode changed. *)
Record file_becomes (sb : superblock) V ip V' ip' (bytes : list Z) : Prop := {
  fb_content : content V' ip' = bytes;
  fb_inode : exists addrs, ip' = set_i_size (Z.of_nat (length bytes)) (set_i_addrs addrs ip);
  fb_stored : load_dinode (V' (IBLOCK (i_inum ip) sb)) ip' = ip';
  fb_inodes : forall ip2, 0 <= i_inum ip2 < sb_ninodes sb -> i_inum ip2 <> i_inum ip ->
    load_dinode (V' (IBLOCK (i_inum ip2) sb)) ip2 = load_dinode (V (IBLOCK (i_inum ip2) sb)) ip2;
  fb_files : forall ip2, file_ok sb start V ip2 -> (forall n, owns V ip n -> ~ owns V ip2 n) ->
    file_ok sb start V' ip2 /\ content V' ip2 = content V ip2 /\ (forall n, owns V' ip' n -> ~ owns V' ip2 n)
}.

(** The blocks of another file while this one is written. *)
Lemma other_file sb V ip V1 ip1 ip2 V3 :
  file_step sb start V ip V1 ip1 -> file_ok sb start V ip2 -> (forall n, owns V ip n -> ~ owns V ip2 n) ->
  (forall n, data_block sb start n -> V3 n = V1 n) -> (forall b, 0 <= b < sb_size sb -> in_use V3 sb b = in_use V1 sb b) ->
  file_ok sb start V3 ip2 /\ content V3 ip2 = content V ip2 /\ (forall n, owns V1 ip1 n -> ~ owns V3 ip2 n).
Proof.
  intros Hs Hf2 Hdis HV3 Hu3.
  assert (Hother : forall n, owns V ip2 n -> ~ owns V1 ip1 n).
  { intros n Hn Ho. destruct (fs_fresh _ _ _ _ _ _ Hs n Ho) as [H1|H1]; [by apply (Hdis n)|].
    destruct Hn as [Hn [y <-]]. destruct (fo_data _ _ _ _ Hf2 y Hn) as (_ & Hu & _). congruence. }
  destruct (file_kept sb start V V3 ip2 Hf2) as (Hf3 & Ha3 & Hc3).
  { intros n Hn. pose proof (owns_range _ _ _ _ _ Hf2 Hn) as Hr. pose proof (Hother n Hn) as Hno. destruct Hn as [Hn [y <-]].
    destruct (fo_data _ _ _ _ Hf2 y Hn) as (Hdb & Hu & _). rewrite HV3, Hu3 by (done || lia).
    split; [apply (fs_frame _ _ _ _ _ _ Hs); [apply Hdb|done]|apply (fs_used _ _ _ _ _ _ Hs); [lia|done]]. }
  split_and!; [done|done|]. intros n Hn [Hn0 [y Hy]]. rewrite Ha3 in Hy. apply (Hother n); [|done]. split; [done|by exists y].
Qed.

(** The blocks of the inodes are no file's. *)
Lemma step_inodes sb V ip V1 ip1 inum :
  disk_ok sb start V -> file_step sb start V ip V1 ip1 -> 0 <= inum < sb_ninodes sb -> V1 (IBLOCK inum sb) = V (IBLOCK inum sb).
Proof.
  intros Hd Hs Hin. destruct (do_inodes _ _ _ Hd inum Hin) as (_ & _ & Hb). apply (fs_frame _ _ _ _ _ _ Hs); [done|].
  intros [Hz [y Hy]]. rewrite <- Hy in Hz. destruct (fo_data _ _ _ _ (fs_file _ _ _ _ _ _ Hs) y Hz) as ([_ _ _ Hdi] & _). by apply (Hdi _ Hin).
Qed.

(** The other inodes while this one is stored. *)
Lemma other_inode sb V V1 ip ip2 d :
  disk_ok sb start V -> (forall inum, 0 <= inum < sb_ninodes sb -> V1 (IBLOCK inum sb) = V (IBLOCK inum sb)) ->
  i_inum d = i_inum ip -> inode_ok d -> 0 <= i_inum ip < sb_ninodes sb ->
  0 <= i_inum ip2 < sb_ninodes sb -> i_inum ip2 <> i_inum ip ->
  let n := IBLOCK (i_inum ip) sb in
  load_dinode (<[n := store_dinode d (V1 n)]> V1 (IBLOCK (i_inum ip2) sb)) ip2 = load_dinode (V (IBLOCK (i_inum ip2) sb)) ip2.
Proof.
  intros Hd Hs Ed Hdo Hin Hin2 Hne n. destruct (do_inums _ _ _ Hd) as [Hst Hni]. destruct (do_inodes _ _ _ Hd (i_inum ip2) Hin2) as (_ & Hl2 & _).
  pose proof (Hs _ Hin2) as E2.
  destruct (decide (IBLOCK (i_inum ip2) sb = n)) as [E|E]; [|by rewrite fn_lookup_insert_ne, E2 by done].
  rewrite E, fn_lookup_insert. rewrite E in E2, Hl2. rewrite <- E2. apply load_dinode_other; [done|lia|by rewrite E2|].
  rewrite Ed. unfold n, IBLOCK in E. change IPB with 16 in *. rewrite !u32_small in E by lia. lia.
Qed.

Lemma length_write_at c off bs : (off <= length c)%nat -> length (write_at c off bs) = Nat.max (length c) (off + length bs).
Proof. intros Hl. unfold write_at. rewrite !length_app, length_take, length_drop. lia. Qed.

(** The write, with the size and the inode stored. *)
Lemma becomes_intro sb V ip V1 ip1 off bs :
  disk_ok sb start V -> file_ok sb start V ip -> written sb start V ip V1 ip1 off bs -> 0 <= off <= i_size ip ->
  let ip2 := set_i_size (Z.max (i_size ip1) (off + Z.of_nat (length bs))) ip1 in
  let m := IBLOCK (i_inum ip) sb in
  file_ok sb start V1 ip2 ->
  file_becomes sb V ip (<[m := store_dinode ip2 (V1 m)]> V1) ip2 (write_at (content V ip) (Z.to_nat off) bs).
Proof.
  intros Hd Hf Hw Hoff ip2 m Hf2. pose proof (wr_step _ _ _ _ _ _ _ _ Hw) as Hs. pose proof (fs_inode _ _ _ _ _ _ Hs) as Ei.
  assert (En : i_inum ip2 = i_inum ip) by (unfold ip2; rewrite Ei; done). assert (Es : i_size ip1 = i_size ip) by by rewrite Ei.
  assert (Hin : 0 <= i_inum ip < sb_ninodes sb) by (pose proof (io_inum _ (fo_inode _ _ _ _ Hf)); pose proof (fo_inum _ _ _ _ Hf); lia).
  destruct (do_inodes _ _ _ (fs_disk _ _ _ _ _ _ Hs) (i_inum ip) Hin) as (_ & Hl & Hbm). fold m in Hl, Hbm. set (V3 := <[m := _]> V1).
  assert (HV3 : forall b, data_block sb start b -> V3 b = V1 b).
  { intros b [_ _ _ Hdi]. unfold V3. by rewrite fn_lookup_insert_ne by (by apply Hdi). }
  assert (Hu3 : forall b, 0 <= b < sb_size sb -> in_use V3 sb b = in_use V1 sb b).
  { intros b Hb. unfold in_use, V3. rewrite fn_lookup_insert_ne; [done|]. apply not_eq_sym. by apply Hbm. }
  destruct (file_kept sb start V1 V3 ip2 Hf2) as (Hf3 & Ha3 & Hc3).
  { intros n [Hn [y <-]]. destruct (fo_data _ _ _ _ Hf2 y Hn) as (Hdb & Hu & _). pose proof (db_range _ _ _ Hdb).
    rewrite HV3, Hu3 by (done || lia). done. }
  split.
  - rewrite Hc3, <- (content_written sb start V ip V1 ip1 off bs Hw Hf Hoff). unfold ip2. by rewrite Es.
  - exists (i_addrs ip1). rewrite length_write_at by (rewrite length_content; lia). rewrite length_content. unfold ip2. rewrite Ei.
    unfold set_i_size, set_i_addrs. cbn. f_equal. lia.
  - fold m. unfold V3. rewrite fn_lookup_insert, load_store_dinode; [by destruct ip2|apply Hf2|done|done].
  - intros p Hp Hne. apply (other_inode sb V V1 ip p ip2 Hd); [intros; by eapply step_inodes|done|apply Hf2|done..].
  - intros p Hp Hdis. destruct (other_file sb V ip V1 ip1 p V3 Hs Hp Hdis HV3 Hu3) as (H1 & H2 & H3). split_and!; [done|done|].
    intros n [Hn [y Hy]]. apply H3. split; [done|]. exists y. rewrite Ha3 in Hy. exact Hy.
Qed.

End Others.

Section WholeWrite.
Context `{Devices} `{RoundsOk} `{!DiskOps} `{!DiskOk}.
Context (c : cpu) (i : nat) (pid start : Z).
Implicit Types (s : kstate ext) (x : ext).

Abbreviation file_at := (file_at c i pid start).

(** The size of the inode in the table is raised. *)
Lemma raise_size k s ip bl V sz :
  file_at k s ip bl V -> 0 <= sz < 2 ^ 32 -> (forall bn, 0 <= bn -> bn * BSIZE < sz -> addr_at V ip (Some bn) <> 0) ->
  let ip' := set_i_size (Z.max (i_size ip) sz) ip in
  exists s', when (i_size ip <? sz) (mod_inode k (set_i_size sz)) s = Done tt s' /\ file_at k s' ip' bl V /\ ino_frame k ip' s s'.
Proof.
  intros [Hk Ht Hd Hf] Hsz Hback ip'. destruct (Z.ltb_spec (i_size ip) sz) as [Hlt|Hge].
  - unfold ip'. rewrite Z.max_r by lia. rewrite when_true, (mod_inode_run k (set_i_size sz) s ip Hk).
    eexists. split; [done|]. split; [|apply tx_frame_refl]. split.
    + cbn. apply list_lookup_insert_eq. by apply lookup_lt_Some in Hk.
    + by apply (tx_set_inodes c i pid start s (<[k := set_i_size sz ip]>)).
    + done.
    + by apply file_resize.
  - assert (ip' = ip) as -> by (unfold ip'; rewrite Z.max_l by lia; by destruct ip).
    rewrite when_false. exists s. split; [done|]. split; [done|]. apply ino_frame_intro; [done|apply tx_frame_refl].
Qed.

(** The inode is stored in its block. *)
Lemma store_inode k s ip bl V :
  file_at k s ip bl V -> tx_room (k_ext s) bl ∅ 2 ->
  let n := IBLOCK (i_inum ip) (e_sb (k_ext s)) in
  exists s', iupdate k s = Done tt s' /\ file_at k s' ip (with_block n bl) (<[n := store_dinode ip (V n)]> V) /\ ino_frame k ip s s' /\
    (forall m, owns V ip m -> n <> m) /\ (forall b, 0 <= b < sb_size (e_sb (k_ext s)) -> BBLOCK b (e_sb (k_ext s)) <> n).
Proof.
  intros [Hk Ht Hd Hf] Hrm n. set (sb := e_sb (k_ext s)) in *. pose proof (io_inum _ (fo_inode _ _ _ _ Hf)) as H0'.
  pose proof (fo_inum _ _ _ _ Hf) as Hin. destruct (do_inodes _ _ _ Hd (i_inum ip) ltac:(lia)) as (Hh & Hl & Hb). fold n in Hh, Hl, Hb.
  destruct (iupdate_tx c i pid start k s ip bl V ∅ Hk Ht) as (s' & Hrun & Ht' & Hk'); fold sb n; [set_solver|done|done|].
  fold sb n in Ht'. exists s'. split; [done|]. pose proof (tx_keep_frame _ _ _ _ Hk') as Hfr.
  assert (Hu : forall b, 0 <= b < sb_size sb -> in_use (<[n := store_dinode ip (V n)]> V) sb b = in_use V sb b).
  { intros b Hb'. unfold in_use. rewrite fn_lookup_insert_ne; [done|]. apply not_eq_sym. by apply Hb. }
  assert (Hown : forall m, owns V ip m -> n <> m).
  { intros m [Hm [y <-]] E. destruct (fo_data _ _ _ _ Hf y Hm) as ([_ _ _ Hdi] & _). by apply (Hdi (i_inum ip) ltac:(lia)). }
  split_and!; [|by apply ino_frame_intro|done|done].
  assert (Esb : e_sb (k_ext s') = sb) by (destruct Hfr as [(-> & _) _]; done). split; rewrite ?Esb.
  - destruct Hfr as [(_ & -> & _) _]. done.
  - done.
  - apply (disk_change sb start V); [done| |by intros b Hb' E; rewrite Hu].
    intros m Hm. destruct (decide (m = n)) as [->|]; [|by rewrite fn_lookup_insert_ne]. rewrite fn_lookup_insert.
    apply store_dinode_length; [apply Hf|done].
  - apply (file_kept sb start V); [done|]. intros m Hm. pose proof (owns_range _ _ _ _ _ Hf Hm).
    rewrite fn_lookup_insert_ne by (by apply Hown). split; [done|]. rewrite Hu by lia.
    destruct Hm as [Hm [y <-]]. by apply (fo_data _ _ _ _ Hf).
Qed.

(** The rounds of a write of [n] bytes at [off]; each takes up to six blocks of
    the log and two free blocks. *)
Definition write_rounds (off n : Z) : Z := rounds_left off 0 n - 1.

Lemma back_written sb V ip V1 ip1 off bs bn :
  file_ok sb start V ip -> written sb start V ip V1 ip1 off bs -> 0 <= off <= i_size ip -> 0 <= bn ->
  bn * BSIZE < off + Z.of_nat (length bs) -> addr_at V1 ip1 (Some bn) <> 0.
Proof.
  intros Hf Hw Hoff H0' Hbn. pose proof (eq_refl : BSIZE = 1024) as EB. destruct (decide (bn * BSIZE < i_size ip)) as [Hin|Hout].
  - pose proof (fo_back _ _ _ _ Hf bn H0' Hin) as Ha. by rewrite (fs_keep _ _ _ _ _ _ (wr_step _ _ _ _ _ _ _ _ Hw) _ Ha).
  - pose proof (wr_back _ _ _ _ _ _ _ _ Hw (bn * BSIZE) ltac:(lia)) as Ha. by rewrite Z.div_mul in Ha.
Qed.

Lemma writei_run k s ip bl V off bs :
  let n := Z.of_nat (length bs) in
  file_at k s ip bl V -> 0 <= off <= i_size ip -> off + n <= MAXFILE * BSIZE ->
  tx_room (k_ext s) bl ∅ (6 * write_rounds off n + 2) ->
  2 * write_rounds off n <= Z.of_nat (length (free_blocks (e_sb (k_ext s)) V)) ->
  exists s' ip' bl' V', writei_local k bs off n s = Done n s' /\ file_at k s' ip' bl' V' /\ ino_frame k ip' s s' /\
    file_becomes start (e_sb (k_ext s)) V ip V' ip' (write_at (content V ip) (Z.to_nat off) bs) /\
    Z.of_nat (length bl') <= Z.of_nat (length bl) + 6 * write_rounds off n + 1.
Proof.
  intros n Hfa Hoff Hmax Hrm Hfr. pose proof (eq_refl : MAXFILE * BSIZE = 274432) as EM. pose proof Hfa as [Hk Ht Hd Hf].
  pose proof (io_size _ (fo_inode _ _ _ _ Hf)) as Hsz. set (sb := e_sb (k_ext s)) in *.
  destruct (write_loop_run c i pid start k bs off n (copy_rounds n) s ip bl V off 0) as (s1 & ip1 & bl1 & V1 & Hrun1 & Hw); try done; try lia;
    [apply rounds_enough; lia|]. rewrite drop_0 in Hw. pose proof (wrote_at _ _ _ _ _ _ _ _ _ _ _ _ _ _ _ _ _ Hfa Hw) as Hfa1.
  pose proof (wf_written _ _ _ _ _ _ _ _ _ _ _ _ _ _ _ _ _ Hw) as Hwr. pose proof (wf_frame _ _ _ _ _ _ _ _ _ _ _ _ _ _ _ _ _ Hw) as Hfr1.
  pose proof (wr_step _ _ _ _ _ _ _ _ Hwr) as Hst. pose proof (fs_inode _ _ _ _ _ _ Hst) as Ei. fold sb in Hwr, Hst.
  assert (Es1 : i_size ip1 = i_size ip) by by rewrite Ei.
  destruct (raise_size k s1 ip1 bl1 V1 (off + n) Hfa1) as (s2 & Hrun2 & Hfa2 & Hfr2); [lia|intros; by eapply back_written|].
  set (ip2 := set_i_size _ ip1) in *. pose proof (ino_frame_trans _ _ _ _ _ _ Hfr1 Hfr2) as Hfr12.
  pose proof (ino_frame_sb _ _ _ _ Hfr12) as Esb2. pose proof (wf_log _ _ _ _ _ _ _ _ _ _ _ _ _ _ _ _ _ Hw) as Hlog.
  pose proof (rounds_positive off 0 n) as Hpos. fold (write_rounds off n) in Hlog.
  destruct (store_inode k s2 ip2 bl1 V1 Hfa2) as (s3 & Hrun3 & Hfa3 & Hfr3 & Hown & Hbm).
  { eapply tx_room_less; [exact Hlog|]. eapply ino_frame_room; [exact Hfr12|]. destruct Hrm as (? & ? & ?). unfold write_rounds in *. split_and!; lia. }
  rewrite Esb2 in Hfa3, Hbm, Hown. fold sb in Hfa3, Hbm, Hown. assert (En : i_inum ip2 = i_inum ip) by (unfold ip2; rewrite Ei; done).
  rewrite En in Hfa3, Hown, Hbm. set (m := IBLOCK (i_inum ip) sb) in *. set (V3 := <[m := _]> V1) in *.
  exists s3, ip2. do 2 eexists. split_and!.
  - unfold writei_local, writei_with. mstep (get_inode_run k s ip Hk). rewrite !u32_small by lia.
    rewrite !(proj2 (Z.ltb_ge _ _)) by lia. cbn [orb]. mstep Hrun1. mstep (get_inode_run k s1 ip1 (fa_get _ _ _ _ _ _ _ _ _ Hfa1)).
    cbn [fst snd]. mstep Hrun2. mstep Hrun3. mrun. by rewrite s32_small by lia.
  - exact Hfa3.
  - by eapply ino_frame_trans.
  - apply (becomes_intro start sb V ip V1 ip1 off bs); try done. pose proof (fa_file _ _ _ _ _ _ _ _ _ Hfa2) as Hf2. by rewrite Esb2 in Hf2.
  - pose proof (length_with_block m bl1). unfold write_rounds in *. lia.
Qed.

End WholeWrite.

Section Files.
Context `{Devices} `{RoundsOk} `{!DiskOps} `{!DiskOk}.

(** C4: a file is an array of bytes.  [writei] of [bs] at an offset inside the
    file, through the direct blocks, the indirect block and the allocator,
    returns the number of bytes and makes the content what overwriting or
    extending the array gives, stores the inode in its block, and changes no other
    inode and no byte of another file; [readi] at any offset, now or at any later
    time at which the disk is the same, returns the bytes of that array, cut at its
    end.  A write that starts behind the end or goes beyond the largest file
    returns -1 and changes nothing. *)
Theorem file_write_read (s : kstate ext) (c : cpu) (i : nat) (pid start : Z) (bl : list Z) (V : Z -> list Z)
    (k : nat) (ip : inode) (off : Z) (bs : list Z) :
  let n := Z.of_nat (length bs) in
  let sb := e_sb (k_ext s) in
  file_at c i pid start k s ip bl V -> 0 <= off -> off + n < 2 ^ 32 ->
  (i_size ip < off \/ MAXFILE * BSIZE < off + n -> writei_local k bs off n s = Done (-1) s) /\
  (off <= i_size ip -> off + n <= MAXFILE * BSIZE -> tx_room (k_ext s) bl ∅ (6 * write_rounds off n + 2) ->
   2 * write_rounds off n <= Z.of_nat (length (free_blocks sb V)) ->
   exists s' ip' bl' V', writei_local k bs off n s = Done n s' /\ file_at c i pid start k s' ip' bl' V' /\ ino_frame k ip' s s' /\
     tx_room (k_ext s') bl' ∅ 1 /\ file_becomes start sb V ip V' ip' (write_at (content V ip) (Z.to_nat off) bs) /\
     forall s2 bl2 off2 n2, file_at c i pid start k s2 ip' bl2 V' -> (length bl2 < NBUF)%nat ->
       0 <= off2 -> 0 <= n2 -> off2 + n2 < 2 ^ 32 ->
       let got := take (Z.to_nat n2) (drop (Z.to_nat off2) (write_at (content V ip) (Z.to_nat off) bs)) in
       exists s3, readi_local k off2 n2 s2 = Done (Z.of_nat (length got), got) s3 /\ file_at c i pid start k s3 ip' bl2 V').
Proof.
  intros n sb Hfa Hoff Hw. split.
  - intros Hbad. unfold writei_local, writei_with. mstep (get_inode_run k s ip (fa_get _ _ _ _ _ _ _ _ _ Hfa)).
    rewrite !u32_small by lia. rewrite (proj2 (Z.ltb_ge (off + n) off)), orb_false_r by lia.
    destruct (Z.ltb_spec (i_size ip) off); [done|]. by rewrite (proj2 (Z.ltb_lt _ _)) by lia.
  - intros Hin Hmax Hrm Hfr. destruct (writei_run c i pid start k s ip bl V off bs Hfa ltac:(lia) Hmax Hrm Hfr)
      as (s' & ip' & bl' & V' & Hrun & Hfa' & Hfr' & Hb & Hl).
    exists s', ip', bl', V'. split; [done|]. split; [done|]. split; [done|]. split.
    { fold n in Hl. eapply ino_frame_room; [exact Hfr'|]. destruct Hrm as (? & ? & ?). split_and!; lia. }
    split; [done|]. intros s2 bl2 off2 n2 Hfa2 Hl2 Ho2 Hn2 Hw2 got.
    destruct (readi_run c i pid start _ k off2 n2 s2 ip' bl2 V' (fa_get _ _ _ _ _ _ _ _ _ Hfa2) (fa_tx _ _ _ _ _ _ _ _ _ Hfa2)
      (fa_file _ _ _ _ _ _ _ _ _ Hfa2) Hl2 Ho2 Hn2 Hw2) as (s3 & Hrun3 & Ht3 & Hf3).
    rewrite (fb_content _ _ _ _ _ _ _ Hb) in Hrun3. exists s3. split; [exact Hrun3|].
    eapply grown_at; [exact Hfa2|]. by apply grown_frame.
Qed.

End Files.

(** ** A disk to evaluate on *)

#[local] Instance file_round : Rounds := 1%nat.
#[local] Instance file_round_ok : RoundsOk := Nat.lt_0_1.
#[local] Instance file_devices : Devices := no_devices.
#[local] Instance file_disk : DiskOps := ideal_disk.

(** A transaction on the disk [m], with the inode [ip] in the table. *)
Lemma disk_tx (m : gmap Z (list Z)) (sb : superblock) (ip : inode) :
  exists s : kstate ext, tx s fs_cpu O 1 1 2 [] (fun n => default zero_block (m !! n)) ∅ /\ e_sb (k_ext s) = sb /\
    e_inodes (k_ext s) !! O = Some ip /\ log_size (e_log (k_ext s)) = 30 /\
    length (e_inodes (k_ext s)) = NINODE /\ e_sleep (k_ext s) !! inode_lock O = Some (SleepLock 0 0) /\
    e_media (k_ext s) = m /\ e_inodes (k_ext s) = <[O := ip]> (replicate NINODE zero_inode) /\
    drop NBUF (e_sleep (k_ext s)) = replicate NINODE (SleepLock 0 0).
Proof.
  set (s0 := retype (@boot_ext no_devices m tt) (one_proc 0 ∅)).
  assert (Hr0 : fs_ready s0 fs_cpu O 1).
  { split; [exact (one_proc_quiet 0 ∅ ltac:(lia))|reflexivity|exact (one_proc_table 0 ∅)|reflexivity|]. eexists. split; reflexivity. }
  destruct (@binit_spec no_devices s0 1 1) as (bufs & _ & Hc); [reflexivity..| | |].
  { intros b y Hy. apply (lookup_replicate_1 (S NBUF)) in Hy as [-> _]. done. }
  { intros b Hb. apply (lookup_replicate_2 (NBUF + NINODE)). lia. }
  set (s1 := with_ext (set_e_bufs bufs) s0).
  exists (with_ext (fun w => set_e_inodes (<[O := ip]> (e_inodes w)) w)
           (with_ext (fun w => set_e_sb sb (set_e_log (sample_log 30 0 1 []) w)) s1)).
  split_and!; [|done..]. apply tx_set_inodes. split.
  - apply fs_ready_ext, fs_ready_ext, Hr0.
  - assert (Hc' : cache (set_e_sb sb (set_e_log (sample_log 30 0 1 []) (k_ext s1))) 1 1 (media (k_ext s0)) (fun _ => 0) ∅)
      by (destruct Hc; by split).
    eapply cache_equiv; [..|exact Hc']; [done| |done]. intros n. unfold refs, pins. by rewrite !decide_False by set_solver.
  - by split.
  - apply sample_layout; [constructor|constructor| |cbn; lia]. intros b Hb. by apply not_elem_of_nil in Hb.
  - cbn. lia.
Qed.

Lemma disk_room (x : ext) k : log_size (e_log x) = 30 -> k < 30 -> tx_room x [] ∅ k.
Proof. intros E Hk. unfold tx_room, LOGSIZE, MAXOPBLOCKS, NBUF. rewrite E, size_empty. cbn. lia. Qed.

(** The layout of a disk of 1000 blocks, of which the first 46 are taken. *)
Definition demo_sb : superblock := SuperBlock FSMAGIC 1000 954 200 30 2 32 45.
Definition demo_media : gmap Z (list Z) := {[ 45 := [255; 255; 255; 255; 255; 63] ++ replicate 1018 0 ]}.
Definition demo_view (n : Z) : list Z := default zero_block (demo_media !! n).
Definition demo_inode : inode := Inode 1 5 1 1 T_FILE 0 0 1 0 (replicate 13 0).

Lemma demo_bblock b : 0 <= b < 1000 -> BBLOCK b demo_sb = 45.
Proof. intros Hb. unfold BBLOCK, demo_sb, BPB, BSIZE, u32. cbn. lia. Qed.

Lemma demo_iblock inum : 0 <= inum < 200 -> 32 <= IBLOCK inum demo_sb < 45.
Proof. intros Hb. unfold IBLOCK, demo_sb, u32. change IPB with 16. cbn. lia. Qed.

Lemma demo_home n : 32 <= n < 2 ^ 31 -> home_block 2 n.
Proof. intros Hn. split; [lia|]. unfold home, LOGSIZE, MAXOPBLOCKS. lia. Qed.

Lemma demo_used b : 0 <= b < 1000 -> in_use demo_view demo_sb b = (b <? 46).
Proof.
  intros Hb. assert (Hall : Forall (fun b => in_use demo_view demo_sb b = (b <? 46)) (seqZ 0 1000)).
  { apply (bool_decide_unpack _). vm_compute. done. }
  rewrite Forall_seqZ in Hall. apply Hall. lia.
Qed.

Lemma demo_length n : length (demo_view n) = Z.to_nat BSIZE.
Proof.
  unfold demo_view, demo_media. destruct (decide (n = 45)) as [->|Hne]; [by rewrite lookup_singleton_eq|by rewrite lookup_singleton_ne].
Qed.

Lemma demo_disk : disk_ok demo_sb 2 demo_view.
Proof.
  split.
  - split; [done|done| |]; intros b Hb; [|apply demo_length]. rewrite demo_bblock by done. apply demo_home. lia.
  - intros b Hb Hu. rewrite demo_used in Hu by done. apply Z.ltb_ge in Hu. change (sb_size demo_sb) with 1000 in Hb.
    split; [cbn; lia|apply demo_home; lia| |]; intros n Hn; [rewrite demo_bblock by done; lia|].
    pose proof (demo_iblock n Hn). lia.
  - intros inum Hn. pose proof (demo_iblock inum Hn). split_and!; [apply demo_home; lia|apply demo_length|].
    intros b Hb. rewrite demo_bblock by done. lia.
  - done.
Qed.

Lemma demo_addr x : addr_at demo_view demo_inode x = 0.
Proof.
  destruct x as [bn|]; [|done]. destruct (decide (0 <= bn < NDIRECT)) as [Hb|Hb].
  - rewrite direct_addr by done. change (i_addrs demo_inode) with (replicate 13 0). rewrite lookup_replicate_2 by (unfold NDIRECT in Hb; lia). done.
  - destruct (decide (addr_at demo_view demo_inode (Some bn) = 0)) as [|E]; [done|].
    pose proof (addr_at_range _ _ _ E). by apply (indirect_none demo_view demo_inode bn); [lia|].
Qed.

Lemma demo_file : file_ok demo_sb 2 demo_view demo_inode.
Proof.
  split; try (intros; by rewrite demo_addr in *).
  - unfold demo_inode, T_FILE. split; [cbn; lia..|reflexivity|apply Forall_replicate; lia].
  - done.
  - cbn. intros. unfold BSIZE in *. lia.
Qed.

Lemma file_write_read_witness :
  exists s s1 : kstate ext, writei_local 0 [104; 105] 0 2 s = Done 2 s1 /\
    exists s2, readi_local 0 1 10 s1 = Done (1, [105]) s2.
Proof.
  destruct (disk_tx demo_media demo_sb demo_inode) as (s & Ht & Esb & Hk & Els & _).
  assert (Hfa : file_at fs_cpu O 1 2 O s demo_inode [] demo_view).
  { split; [done|done|rewrite Esb; apply demo_disk|rewrite Esb; apply demo_file]. }
  destruct (file_write_read s fs_cpu O 1 2 [] demo_view O demo_inode 0 [104; 105] Hfa) as [_ Hok]; [lia|cbn; lia|].
  destruct Hok as (s1 & ip1 & bl1 & V1 & H1 & Hfa1 & _ & Hrm & _ & Hread); [done|done|by apply disk_room| |].
  { rewrite Esb. vm_compute. done. }
  destruct (Hread s1 bl1 1 10 Hfa1) as (s2 & H2 & _); [|lia|lia|lia|].
  { by eapply room_length, Hrm. }
  exists s, s1. split; [exact H1|]. exists s2. exact H2.
Defined.
