(* ===== verification/DirSpec.v ===== *)
(** * What the directories guarantee

    A directory is a file of entries; [dirlookup] and [dirlink] of Fs.v make of
    it a finite map from names to inode numbers.  The entries are the slots of
    the content; the first slot that matches counts, and a new name goes into the
    first free slot or behind the last one. *)

From stdpp Require Import functions.
From S2P Require Import Prelude Machine Memory State Spinlock Kalloc Vm Proc FsState Sleeplock Bio Log Fs FsSpec FileSpec.

(** ** Names *)

(** A string that is long enough for a comparison of [n] characters. *)
Definition c_name (n : nat) (q : list Z) : Prop := 0 ∈ q \/ (n <= length q)%nat.

Lemma c_name_nil n : ~ c_name (S n) [].
Proof. intros [H|H]; [by apply not_elem_of_nil in H|cbn in H; lia]. Qed.

Lemma c_name_tail n a l : a <> 0 -> c_name (S n) (a :: l) -> c_name n l.
Proof. intros Ha [H|H]; [left|right; cbn in H; lia]. apply elem_of_cons in H as [E|H]; [congruence|done]. Qed.

Lemma strncmp_self n : forall p, strncmp_arr n p p = 0.
Proof.
  induction n as [|n IH]; intros [|c p]; try done. cbn. rewrite Z.eqb_refl, andb_true_r. destruct (truthy c); [apply IH|lia].
Qed.

(** Comparing with a copied name is comparing with the name. *)
Lemma strncmp_copy n : forall p d q, length d = n -> c_name n q -> strncmp_arr n p (strncpy_arr n d q) = strncmp_arr n p q.
Proof.
  induction n as [|n IH]; intros p d q Hd Hq; [done|]. destruct d as [|d0 d]; [done|].
  destruct q as [|c q]; [by apply c_name_nil in Hq|].
  cbn [strncpy_arr]. destruct p as [|e p]; [by destruct (c =? 0)|]. destruct (Z.eqb_spec c 0) as [->|Hc].
  - cbn. destruct (Z.eqb_spec e 0) as [->|He]; [done|]. by rewrite andb_false_r.
  - cbn [strncmp_arr]. destruct (truthy e && (e =? c)); [|done]. apply IH; [cbn in Hd; lia|by eapply c_name_tail].
Qed.

(** ** Slots *)

(** The entries of a directory with the content [c]. *)
Definition slots (c : list Z) : list (list Z) := (fun j => take 16 (drop (16 * j) c)) <$> seq 0 (length c / 16).

(** The entry [de] is in use for [name]. *)
Definition is_entry (name de : list Z) : Prop := de_inum de <> 0 /\ namecmp name (de_name de) = 0.

#[global] Instance is_entry_dec name de : Decision (is_entry name de) := and_dec _ _.

(** The directory as a map from names to inode numbers. *)
Definition dir_map (c : list Z) (name : list Z) : option Z := (fun r => de_inum (snd r)) <$> list_find (is_entry name) (slots c).

Definition dir_shape (c : list Z) : Prop := (length c `mod` 16 = 0)%nat.

Lemma length_slots c : length (slots c) = (length c / 16)%nat.
Proof. unfold slots. by rewrite length_fmap, length_seq. Qed.

Lemma lookup_slots c j : (j < length c / 16)%nat -> slots c !! j = Some (take 16 (drop (16 * j) c)).
Proof. intros Hj. unfold slots. by rewrite list_lookup_fmap, lookup_seq_lt. Qed.

(** A slot is overwritten, or one is added. *)
Lemma slots_write c j de :
  dir_shape c -> (j <= length c / 16)%nat -> length de = 16%nat ->
  dir_shape (write_at c (16 * j) de) /\
  slots (write_at c (16 * j) de) = if decide (j < length c / 16)%nat then <[j := de]> (slots c) else slots c ++ [de].
Proof.
  intros Hs Hj Hd. unfold dir_shape in *. pose proof (Nat.div_mod_eq (length c) 16) as Hc. rewrite Hs in Hc.
  assert (Hl : length (write_at c (16 * j) de) = Nat.max (length c) (16 * j + 16)) by (rewrite length_write_at by lia; lia).
  set (m := (length c / 16)%nat) in *.
  assert (Hm : (length (write_at c (16 * j) de) / 16 = Nat.max m (j + 1))%nat) by (rewrite Hl; symmetry; apply Nat.div_unique with 0%nat; lia).
  split; [rewrite Hl; apply Nat.Lcm0.mod_divide; exists (Nat.max m (j + 1)); lia|].
  assert (Hat : forall k, (k < Nat.max m (j + 1))%nat ->
    take 16 (drop (16 * k) (write_at c (16 * j) de)) = if decide (k = j) then de else take 16 (drop (16 * k) c)).
  { intros k Hk. unfold write_at. destruct (decide (k = j)) as [->|Hne].
    - rewrite drop_app_length' by (rewrite length_take; lia). by rewrite take_app_length' by done.
    - apply list_eq. intros p. destruct (decide (p < 16)%nat); [|by rewrite !lookup_take_ge by lia].
      rewrite !lookup_take_lt, !lookup_drop by lia. destruct (decide (k < j)%nat).
      + rewrite lookup_app_l by (rewrite length_take; lia). by rewrite lookup_take_lt by lia.
      + rewrite lookup_app_r, length_take by (rewrite length_take; lia). rewrite lookup_app_r by lia. rewrite lookup_drop. f_equal. lia. }
  apply list_eq. intros k. unfold slots at 1. rewrite list_lookup_fmap, Hm. destruct (decide (k < Nat.max m (j + 1))%nat) as [Hk|Hk].
  - rewrite lookup_seq_lt by done. cbn [fmap option_fmap option_map Nat.add]. rewrite Hat by done.
    destruct (decide (j < m)%nat) as [Hjm|Hjm].
    + destruct (decide (k = j)) as [->|Hne]; [by rewrite list_lookup_insert_eq by (rewrite length_slots; done)|].
      rewrite list_lookup_insert_ne by done. symmetry. apply lookup_slots. fold m. lia.
    + assert (j = m) as -> by lia. destruct (decide (k = m)) as [->|Hne].
      * rewrite lookup_app_r, length_slots by (by rewrite length_slots). fold m. by rewrite Nat.sub_diag.
      * rewrite lookup_app_l by (rewrite length_slots; fold m; lia). symmetry. apply lookup_slots. fold m. lia.
  - rewrite lookup_seq_ge by lia. transitivity (@None (list Z)); [done|]. symmetry. apply lookup_ge_None.
    destruct (decide (j < m)%nat); rewrite ?length_insert, ?length_app, length_slots; fold m; cbn [length]; lia.
Qed.

(** Names that both match a third one match each other. *)
Lemma strncmp_trans n : forall p q r, c_name n p -> c_name n q -> c_name n r ->
  strncmp_arr n p q = 0 -> strncmp_arr n p r = 0 -> strncmp_arr n q r = 0.
Proof.
  induction n as [|n IH]; intros p q r Hp Hq Hr; [done|].
  destruct p as [|a p], q as [|b q], r as [|c r]; try by (exfalso; eapply c_name_nil; eauto). cbn [strncmp_arr]. unfold truthy.
  destruct (Z.eqb_spec a 0) as [->|Ha]; cbn [negb andb].
  - intros E1 E2. assert (b = 0) as -> by lia. assert (c = 0) as -> by lia. done.
  - destruct (Z.eqb_spec a b) as [->|]; [|lia]. destruct (Z.eqb_spec b c) as [->|]; [|lia].
    intros E1 E2. rewrite (proj2 (Z.eqb_neq c 0)) by done. cbn [negb andb]. by apply (IH p); eauto using c_name_tail.
Qed.

(** The entry that [dirlink] writes. *)
Definition new_entry (inum : Z) (old name : list Z) : list Z := le_bytes 2 (u16 inum) ++ strncpy_arr DIRSIZ old name.

Lemma new_entry_is inum old name name' : length old = DIRSIZ -> c_name DIRSIZ name -> 0 < inum < 2 ^ 16 ->
  length (new_entry inum old name) = 16%nat /\ de_inum (new_entry inum old name) = inum /\
  (is_entry name' (new_entry inum old name) <-> namecmp name' name = 0).
Proof.
  intros Ho Hn Hi. unfold new_entry, is_entry. set (cp := strncpy_arr DIRSIZ old name).
  assert (Hi' : de_inum (le_bytes 2 (u16 inum) ++ cp) = inum).
  { unfold de_inum, get_le. rewrite drop_0, take_app_length' by (by rewrite length_le_bytes). replace (u16 inum) with inum by (unfold u16; lia). apply le_val_bytes. lia. }
  split_and!; [|done|].
  - rewrite length_app, length_le_bytes. unfold cp. by rewrite strncpy_arr_length.
  - rewrite Hi'. unfold de_name. rewrite drop_app_length' by (by rewrite length_le_bytes). unfold namecmp, cp.
    rewrite strncmp_copy by done. intuition lia.
Qed.

Lemma slot_name c j de : slots c !! j = Some de -> c_name DIRSIZ (de_name de).
Proof.
  intros Hj. pose proof (lookup_lt_Some _ _ _ Hj) as Hl. rewrite length_slots in Hl. rewrite lookup_slots in Hj by done. injection Hj as <-.
  right. unfold de_name. rewrite length_drop, length_take, length_drop. pose proof (Nat.div_mod_eq (length c) 16). unfold DIRSIZ. lia.
Qed.

Lemma dir_map_link c name inum old j name' :
  dir_shape c -> c_name DIRSIZ name -> c_name DIRSIZ name' -> 0 < inum < 2 ^ 16 -> length old = DIRSIZ -> (j <= length c / 16)%nat ->
  (forall de, slots c !! j = Some de -> de_inum de = 0) -> dir_map c name = None ->
  dir_map (write_at c (16 * j) (new_entry inum old name)) name' = if decide (namecmp name' name = 0) then Some inum else dir_map c name'.
Proof.
  intros Hs Hn Hn' Hi Ho Hj Hfree Hnone. destruct (new_entry_is inum old name name' Ho Hn Hi) as (Hl & Hde & Hent).
  set (de := new_entry inum old name) in *. destruct (slots_write c j de Hs Hj Hl) as [_ Hsl]. unfold dir_map in *. rewrite Hsl. clear Hsl.
  apply fmap_None, list_find_None in Hnone. rewrite Forall_lookup in Hnone.
  assert (Hnew : forall l, (forall k, (k < j)%nat -> l !! k = slots c !! k) -> l !! j = Some de -> namecmp name' name = 0 ->
    list_find (is_entry name') l = Some (j, de)).
  { intros l Hlk Hlj E. apply list_find_Some. split_and!; [done|by apply Hent|]. intros k y Hk Hkj [Hy1 Hy2]. rewrite Hlk in Hk by done.
    apply (Hnone k y Hk). split; [done|]. apply (strncmp_trans _ name'); try done. by eapply slot_name. }
  destruct (decide (j < length c / 16)%nat) as [Hlt|Hge]; destruct (decide (namecmp name' name = 0)) as [E|E].
  - rewrite (Hnew (<[j := de]> (slots c))); [exact (f_equal Some Hde)| |apply list_lookup_insert_eq; by rewrite length_slots|done].
    intros k Hk. apply list_lookup_insert_ne. lia.
  - destruct (list_find (is_entry name') (slots c)) as [[p y]|] eqn:Ef.
    + apply list_find_Some in Ef as (Hp & Hy & Hbefore). rewrite (proj2 (list_find_Some _ _ p y)); [done|].
      assert (p <> j) by (intros ->; destruct Hy as [Hy _]; by apply Hy, Hfree).
      split_and!; [by rewrite list_lookup_insert_ne|done|]. intros q z Hq Hqp. destruct (decide (q = j)) as [->|].
      * rewrite list_lookup_insert_eq in Hq by (by rewrite length_slots). injection Hq as <-. by rewrite Hent.
      * rewrite list_lookup_insert_ne in Hq by done. by apply (Hbefore q).
    + apply list_find_None in Ef. rewrite (proj2 (list_find_None _ _)); [done|]. apply Forall_insert; [done|by rewrite Hent].
  - rewrite (Hnew (slots c ++ [de])); [exact (f_equal Some Hde)| | |done].
    + intros k Hk. apply lookup_app_l. rewrite length_slots. lia.
    + rewrite lookup_app_r, length_slots by (rewrite length_slots; lia). by replace (j - length c / 16)%nat with O by lia.
  - destruct (list_find (is_entry name') (slots c)) as [[p y]|] eqn:Ef; [by rewrite (list_find_app_l _ _ _ _ _ Ef)|].
    rewrite (proj2 (list_find_None _ _)); [done|]. apply list_find_None in Ef. apply Forall_app. split; [done|]. constructor; [by rewrite Hent|done].
Qed.

(** ** Scanning a directory *)

Section Scan.
Context `{Devices} `{RoundsOk} `{!DiskOps} `{!DiskOk}.
Context (c : cpu) (i : nat) (pid start : Z).
Implicit Types (s : kstate ext) (x : ext).

Abbreviation file_at := (file_at c i pid start).

Lemma read_dirent_run k s dp bl V j de msg :
  file_at k s dp bl V -> (length bl < NBUF)%nat -> slots (content V dp) !! j = Some de ->
  exists s', read_dirent k (Z.of_nat j * sizeof_dirent) msg s = Done de s' /\ file_at k s' dp bl V /\ tx_frame s s'.
Proof.
  intros Hfa Hl Hj. pose proof (lookup_lt_Some _ _ _ Hj) as Hlt. rewrite length_slots in Hlt. rewrite lookup_slots in Hj by done. injection Hj as <-.
  pose proof (size_max _ _ _ _ (fa_file _ _ _ _ _ _ _ _ _ Hfa)) as Hmax. change (MAXFILE * BSIZE) with 274432 in Hmax.
  pose proof (Nat.div_mod_eq (length (content V dp)) 16) as Hdm. rewrite length_content in Hdm, Hlt.
  destruct (readi_run c i pid start _ k (Z.of_nat j * sizeof_dirent) sizeof_dirent s dp bl V (fa_get _ _ _ _ _ _ _ _ _ Hfa)
    (fa_tx _ _ _ _ _ _ _ _ _ Hfa) (fa_file _ _ _ _ _ _ _ _ _ Hfa) Hl) as (s' & Hrun & Ht & Hf); [unfold sizeof_dirent; lia..|].
  replace (Z.to_nat (Z.of_nat j * sizeof_dirent)) with (16 * j)%nat in Hrun by (unfold sizeof_dirent; lia).
  change (Z.to_nat sizeof_dirent) with 16%nat in Hrun.
  assert (Hlen : length (take 16 (drop (16 * j) (content V dp))) = 16%nat) by (rewrite length_take, length_drop, length_content; lia).
  rewrite Hlen in Hrun. exists s'. split; [|split; [|done]].
  - unfold read_dirent. mstep Hrun. done.
  - eapply grown_at; [exact Hfa|]. by apply grown_frame.
Qed.

(** The loops over the entries, of which the first that passes the test ends the
    loop. *)
Context {B : Type} (k : nat) (dp : inode) (bl : list Z) (V : Z -> list Z) (msg : string)
  (P : list Z -> Prop) `{!forall de, Decision (P de)} (body : Z -> list Z -> KM ext (option B)).
Context (Hskip : forall off de s, ~ P de -> body off de s = Done None s).

Abbreviation scan l := (for_until l (fun off => de ← read_dirent k off msg; body off de)).

Lemma scan_skip m : forall n j s,
  file_at k s dp bl V -> (length bl < NBUF)%nat -> (m <= n)%nat ->
  (forall p de, slots (content V dp) !! (j + p)%nat = Some de -> (p < m)%nat -> ~ P de) -> (j + m <= length (slots (content V dp)))%nat ->
  exists s', scan ((fun q => Z.of_nat q * sizeof_dirent) <$> seq j n) s = scan ((fun q => Z.of_nat q * sizeof_dirent) <$> seq (j + m) (n - m)) s' /\
    file_at k s' dp bl V /\ tx_frame s s'.
Proof.
  induction m as [|m IH]; intros n j s Hfa Hl Hmn Hno Hj.
  { exists s. rewrite Nat.add_0_r, Nat.sub_0_r. split; [done|]. split; [done|apply tx_frame_refl]. }
  destruct n as [|n]; [lia|]. destruct (lookup_lt_is_Some_2 (slots (content V dp)) j) as [de Hde]; [lia|].
  destruct (read_dirent_run k s dp bl V j de msg Hfa Hl Hde) as (s1 & Hrun & Hfa1 & Hf1).
  destruct (IH n (S j) s1 Hfa1 Hl ltac:(lia)) as (s2 & Hrun2 & Hfa2 & Hf2).
  { intros p de' Hp Hpm. apply (Hno (S p)); [|lia]. by rewrite Nat.add_succ_r. }
  { lia. }
  exists s2. split; [|split; [done|by eapply tx_frame_trans]].
  rewrite Nat.add_succ_r. replace (S n - S m)%nat with (n - m)%nat by lia. rewrite <- Nat.add_succ_l, <- Hrun2.
  cbn [seq fmap list_fmap for_until].
  assert (Hb : (de ← read_dirent k (Z.of_nat j * sizeof_dirent) msg; body (Z.of_nat j * sizeof_dirent) de) s = Done None s1).
  { mstep Hrun. apply Hskip. apply (Hno O); [by rewrite Nat.add_0_r|lia]. }
  by mstep Hb.
Qed.

Lemma scan_run s :
  file_at k s dp bl V -> (length bl < NBUF)%nat -> dir_shape (content V dp) ->
  match list_find P (slots (content V dp)) with
  | None => exists s', scan (dir_offsets 0 (i_size dp)) s = Done None s' /\ file_at k s' dp bl V /\ tx_frame s s'
  | Some (j, de) =>
      (j < length (content V dp) / 16)%nat /\ slots (content V dp) !! j = Some de /\ P de /\
      exists s', file_at k s' dp bl V /\ tx_frame s s' /\
        forall b s2, body (Z.of_nat j * sizeof_dirent) de s' = Done (Some b) s2 -> scan (dir_offsets 0 (i_size dp)) s = Done (Some b) s2
  end.
Proof.
  intros Hfa Hl Hsh. set (n := length (slots (content V dp))). assert (Hn : n = (length (content V dp) / 16)%nat) by apply length_slots.
  assert (Eoff : dir_offsets 0 (i_size dp) = (fun q => Z.of_nat q * sizeof_dirent) <$> seq 0 n).
  { unfold dir_offsets. f_equal. rewrite Nat.sub_0_r. f_equal. unfold dir_shape in Hsh. pose proof (Nat.div_mod_eq (length (content V dp)) 16) as Hdm.
    rewrite <- Hn, Hsh, length_content in Hdm. unfold sizeof_dirent. lia. }
  rewrite Eoff. destruct (list_find P (slots (content V dp))) as [[j de]|] eqn:Ef.
  - apply list_find_Some in Ef as (Hj & HP & Hbefore). pose proof (lookup_lt_Some _ _ _ Hj) as Hlt. fold n in Hlt.
    split; [lia|]. split; [done|]. split; [done|].
    destruct (scan_skip j n 0 s Hfa Hl ltac:(lia)) as (s1 & Hrun & Hfa1 & Hf1); [by intros p de' Hp Hpj; apply (Hbefore p)|lia|].
    destruct (read_dirent_run k s1 dp bl V j de msg Hfa1 Hl Hj) as (s2 & Hrun2 & Hfa2 & Hf2).
    exists s2. split; [done|]. split; [by eapply tx_frame_trans|]. intros b s3 Hb. rewrite Hrun.
    replace (n - j)%nat with (S (n - j - 1)) by lia. cbn [Nat.add seq fmap list_fmap for_until].
    assert (Hb' : (de ← read_dirent k (Z.of_nat j * sizeof_dirent) msg; body (Z.of_nat j * sizeof_dirent) de) s1 = Done (Some b) s3) by by mstep Hrun2.
    by mstep Hb'.
  - apply list_find_None in Ef. rewrite Forall_lookup in Ef.
    destruct (scan_skip n n 0 s Hfa Hl ltac:(lia)) as (s1 & Hrun & Hfa1 & Hf1); [by intros p de' Hp _; apply (Ef p)|unfold n; lia|].
    exists s1. rewrite Hrun, Nat.sub_diag. done.
Qed.

End Scan.

(** ** Entries of the inode table *)

Section Iget.
Context `{Devices}.
Implicit Types (s : kstate ext).

(** The entry [ip] is in use for inode [inum] of [dev]. *)
Definition entry_for (dev inum : Z) (ip : inode) : Prop := 0 < i_ref ip /\ i_dev ip = dev /\ i_inum ip = inum.

Lemma iget_scan_run dev inum s n : forall j empty,
  (j + n <= length (e_inodes (k_ext s)))%nat ->
  (forall q, empty = Some q -> exists ip, e_inodes (k_ext s) !! q = Some ip /\ i_ref ip = 0) ->
  exists found r, iget_scan dev inum (seq j n) empty s = Done (found, r) s /\
    match r with
    | Some q => exists ip, e_inodes (k_ext s) !! q = Some ip /\ (if found : bool then entry_for dev inum ip else i_ref ip = 0)
    | None => empty = None /\ forall p ip, (j <= p < j + n)%nat -> e_inodes (k_ext s) !! p = Some ip -> i_ref ip <> 0
    end.
Proof.
  induction n as [|n IH]; intros j empty Hl He; cbn [seq iget_scan].
  { exists false, empty. split; [done|]. destruct empty as [q|]; [by apply He|]. split; [done|]. lia. }
  destruct (lookup_lt_is_Some_2 (e_inodes (k_ext s)) j) as [ip Hip]; [lia|]. mstep (get_inode_run j s ip Hip).
  destruct ((0 <? i_ref ip) && (i_dev ip =? dev) && (i_inum ip =? inum)) eqn:Em.
  - apply andb_prop in Em as [[E1 E2]%andb_prop E3]. exists true, (Some j). split; [done|]. exists ip. split; [done|].
    split_and!; [by apply Z.ltb_lt|by apply Z.eqb_eq|by apply Z.eqb_eq].
  - destruct (IH (S j) (match empty with None => if i_ref ip =? 0 then Some j else None | Some e => Some e end)) as (found & r & Hrun & Hr); [lia| |].
    + intros q Hq. destruct empty as [e|]; [by apply He|]. destruct (Z.eqb_spec (i_ref ip) 0); [|done]. injection Hq as <-. by exists ip.
    + exists found, r. split; [exact Hrun|]. destruct r as [q|]; [done|]. destruct Hr as [Hr1 Hr2]. destruct empty as [e|]; [done|].
      split; [done|]. intros p ip' Hp Hip'. destruct (Z.eqb_spec (i_ref ip) 0); [done|]. destruct (decide (p = j)) as [->|]; [congruence|].
      apply (Hr2 p ip'); [lia|done].
Qed.

(** The entry [ip] becomes [ip'] with one more reference: it was in use for the
    inode, or it was free and is not loaded yet. *)
Record taken_entry (dev inum : Z) (ip ip' : inode) : Prop := {
  te_entry : entry_for dev inum ip';
  te_ref : i_ref ip' = i_ref ip + 1;
  te_loaded : (i_ref ip = 0 /\ i_valid ip' = 0) \/ (0 < i_ref ip /\ ip' = set_i_ref (i_ref ip + 1) ip)
}.

(** [iget] gives an entry for the inode, when the table has one or has room. *)
Lemma iget_run dev inum s c i pid :
  fs_ready s c i pid -> length (e_inodes (k_ext s)) = NINODE ->
  (exists p ip, e_inodes (k_ext s) !! p = Some ip /\ i_ref ip = 0) ->
  exists j ip ip', iget dev inum s = Done j (with_ext (fun w => set_e_inodes (<[j := ip']> (e_inodes w)) w) s) /\
    e_inodes (k_ext s) !! j = Some ip /\ taken_entry dev inum ip ip'.
Proof.
  intros Hr Hl (p & ip0 & Hp & Hp0). unfold iget. mstep (fs_ready_acquire ItableLock s c i pid Hr). set (s1 := acquired ItableLock s).
  assert (E1 : e_inodes (k_ext s1) = e_inodes (k_ext s)) by done.
  destruct (iget_scan_run dev inum s1 NINODE 0 None) as (found & r & Hrun & Hres); [rewrite E1; lia|done|]. mstep Hrun. rewrite E1 in Hres.
  destruct r as [j|].
  2:{ destruct Hres as [_ Hres]. apply lookup_lt_Some in Hp as Hlt. rewrite Hl in Hlt. by specialize (Hres p ip0 ltac:(lia) Hp). }
  destruct Hres as (ip & Hj & Hf). destruct found.
  - destruct Hf as (H1 & H2 & H3). exists j, ip, (set_i_ref (i_ref ip + 1) ip).
    split; [|split; [done|by split; [split; [cbn; lia|]| |right]]].
    mstep (mod_inode_run j (fun ip => set_i_ref (i_ref ip + 1) ip) s1 ip Hj).
    mstep (fs_ready_release ItableLock s c i pid (with_ext (fun w => set_e_inodes (<[j := set_i_ref (i_ref ip + 1) ip]> (e_inodes w)) w) s1) Hr eq_refl).
    by destruct s.
  - set (ip' := set_i_valid 0 (set_i_ref 1 (set_i_inum inum (set_i_dev dev ip)))). exists j, ip, ip'.
    split; [|split; [done|by split; [split; [cbn; lia|]|cbn; rewrite Hf|left]]]. unfold mod_inode, mod_ext. rewrite !bind_modify. set (s2 := set_k_ext _ _).
    mstep (fs_ready_release ItableLock s c i pid s2 Hr eq_refl). unfold s2, s1, with_ext. destruct s as [? ? ? ? ? ? ? ? ? ? ? ? ? ? ? x]. cbn in *.
    rewrite !alter_alter, (alter_insert _ _ ip _ Hj). done.
Qed.

End Iget.

(** ** Looking up and linking *)

Section Dirs.
Context `{Devices} `{RoundsOk} `{!DiskOps} `{!DiskOk}.
Context (c : cpu) (i : nat) (pid start : Z).
Implicit Types (s : kstate ext) (x : ext).

(** The inode [dp] in entry [k] is a directory. *)
Record dir_at (k : nat) s dp (bl : list Z) V : Prop := {
  da_file : file_at c i pid start k s dp bl V;
  da_type : i_type dp = T_DIR;
  da_shape : dir_shape (content V dp);
  da_room : (length bl < NBUF)%nat
}.

Definition table_room s : Prop :=
  length (e_inodes (k_ext s)) = NINODE /\ exists p ip, e_inodes (k_ext s) !! p = Some ip /\ i_ref ip = 0.

Lemma dirlookup_none k s dp bl V name :
  dir_at k s dp bl V -> dir_map (content V dp) name = None ->
  exists s', dirlookup k name s = Done None s' /\ dir_at k s' dp bl V /\ tx_frame s s'.
Proof.
  intros [Hfa Hty Hsh Hl] Hnone. apply fmap_None in Hnone. unfold dirlookup. mstep (get_inode_run k s dp (fa_get _ _ _ _ _ _ _ _ _ Hfa)).
  rewrite Hty, Z.eqb_refl. cbn [negb].
  pose proof (scan_run c i pid start k dp bl V "dirlookup read" (is_entry name) (fun off de =>
    if de_inum de =? 0 then mret None else if namecmp name (de_name de) =? 0
    then dp ← get_inode k; ip ← iget (i_dev dp) (de_inum de); mret (Some (ip, off)) else mret None)) as Hscan.
  rewrite Hnone in Hscan. destruct (Hscan) with (s := s) as (s' & Hrun & Hfa' & Hf'); try done.
  - intros off de s1 Hno. destruct (Z.eqb_spec (de_inum de) 0); [done|]. destruct (Z.eqb_spec (namecmp name (de_name de)) 0); [|done].
    exfalso. by apply Hno.
  - exists s'. split; [exact Hrun|]. done.
Qed.

Lemma dirlookup_some k s dp bl V name inum :
  dir_at k s dp bl V -> table_room s -> dir_map (content V dp) name = Some inum ->
  exists j off s' ip ip', dirlookup k name s = Done (Some (j, off)) s' /\ e_inodes (k_ext s') = <[j := ip']> (e_inodes (k_ext s)) /\
    e_inodes (k_ext s) !! j = Some ip /\ taken_entry (i_dev dp) inum ip ip' /\ tx s' c i pid (i_dev dp) start bl V ∅ /\
    e_sb (k_ext s') = e_sb (k_ext s) /\ drop NBUF (e_sleep (k_ext s')) = drop NBUF (e_sleep (k_ext s)).
Proof.
  intros [Hfa Hty Hsh Hl] [Hlen Hroom] Hsome. apply fmap_Some in Hsome as ([p de] & Hfind & ->).
  unfold dirlookup. mstep (get_inode_run k s dp (fa_get _ _ _ _ _ _ _ _ _ Hfa)). rewrite Hty, Z.eqb_refl. cbn [negb].
  pose proof (scan_run c i pid start k dp bl V "dirlookup read" (is_entry name) (fun off de =>
    if de_inum de =? 0 then mret None else if namecmp name (de_name de) =? 0
    then dp ← get_inode k; ip ← iget (i_dev dp) (de_inum de); mret (Some (ip, off)) else mret None)) as Hscan.
  rewrite Hfind in Hscan. destruct (Hscan) with (s := s) as (_ & _ & [He1 He2] & s1 & Hfa1 & Hf1 & Hrun); try done.
  { intros off de' s1 Hno. destruct (Z.eqb_spec (de_inum de') 0); [done|]. destruct (Z.eqb_spec (namecmp name (de_name de')) 0); [|done].
    exfalso. by apply Hno. }
  assert (Ei : e_inodes (k_ext s1) = e_inodes (k_ext s)) by (destruct Hf1 as [(_ & -> & _) _]; done).
  destruct (iget_run (i_dev dp) (de_inum de) s1 c i pid (tx_ready _ _ _ _ _ _ _ _ _ (fa_tx _ _ _ _ _ _ _ _ _ Hfa1))) as (j & ip & ip' & Hget & Hj & Hent);
    [by rewrite Ei|by rewrite Ei|].
  exists j, (Z.of_nat p * sizeof_dirent), (with_ext (fun w => set_e_inodes (<[j := ip']> (e_inodes w)) w) s1), ip, ip'.
  split_and!; [|by rewrite <- Ei|by rewrite <- Ei|exact Hent| |by destruct Hf1 as [(? & _) _]|by destruct Hf1 as [(_ & _ & _ & _ & ? & _) _]].
  - apply Hrun. rewrite (proj2 (Z.eqb_neq _ 0)) by done. rewrite (proj2 (Z.eqb_eq _ 0)) by done.
    mstep (get_inode_run k s1 dp (fa_get _ _ _ _ _ _ _ _ _ Hfa1)). by mstep Hget.
  - by apply (tx_set_inodes c i pid start s1 (<[j := ip']>)), Hfa1.
Qed.

(** The slot that [dirlink] fills. *)
Definition free_slot (c : list Z) : nat :=
  match list_find (fun de => de_inum de = 0) (slots c) with Some (j, _) => j | None => length c / 16 end.

Lemma free_slot_spec c' : (free_slot c' <= length c' / 16)%nat /\ forall de, slots c' !! free_slot c' = Some de -> de_inum de = 0.
Proof.
  unfold free_slot. destruct (list_find _ (slots c')) as [[j de]|] eqn:Ef.
  - apply list_find_Some in Ef as (Hj & H0' & _). pose proof (lookup_lt_Some _ _ _ Hj) as Hl. rewrite length_slots in Hl.
    split; [lia|]. intros de' Hde. congruence.
  - split; [lia|]. intros de Hde. apply lookup_lt_Some in Hde. rewrite length_slots in Hde. lia.
Qed.

Lemma find_slot_run k s dp bl V :
  dir_at k s dp bl V ->
  let offs := dir_offsets 0 (i_size dp) in
  exists r s', for_until offs (fun off => de ← read_dirent k off "dirlink read"; if de_inum de =? 0 then mret (Some (off, de)) else mret None) s = Done r s' /\
    dir_at k s' dp bl V /\ tx_frame s s' /\
    exists de, match r with Some y => y | None => (Z.of_nat (length offs) * sizeof_dirent, replicate (Z.to_nat sizeof_dirent) 0) end
               = (Z.of_nat (free_slot (content V dp)) * sizeof_dirent, de) /\ length (de_name de) = DIRSIZ.
Proof.
  intros [Hfa Hty Hsh Hl] offs.
  pose proof (scan_run c i pid start k dp bl V "dirlink read" (fun de => de_inum de = 0)
    (fun off de => if de_inum de =? 0 then mret (Some (off, de)) else mret None)) as Hscan.
  assert (Hsk : forall (off : Z) de (s1 : kstate ext), de_inum de <> 0 ->
    ((if de_inum de =? 0 then mret (Some (off, de)) else mret None) : KM ext (option (Z * list Z))) s1 = Done None s1) by (intros off de s1 Hne; by rewrite (proj2 (Z.eqb_neq _ 0))).
  specialize (Hscan Hsk s Hfa Hl Hsh). unfold free_slot. destruct (list_find _ (slots (content V dp))) as [[j de]|].
  - destruct Hscan as (Hj & Hsl & H0' & s1 & Hfa1 & Hf1 & Hrun). exists (Some (Z.of_nat j * sizeof_dirent, de)), s1.
    split; [apply Hrun; by rewrite H0'|]. split; [done|]. split; [done|]. exists de. split; [done|].
    rewrite lookup_slots in Hsl by done. injection Hsl as <-. unfold de_name. pose proof (Nat.div_mod_eq (length (content V dp)) 16).
    rewrite length_drop, length_take, length_drop. unfold DIRSIZ. lia.
  - destruct Hscan as (s1 & Hrun & Hfa1 & Hf1). exists None, s1. split; [exact Hrun|]. split; [done|]. split; [done|].
    exists (replicate (Z.to_nat sizeof_dirent) 0). split; [|done]. f_equal. f_equal. f_equal. unfold offs, dir_offsets.
    rewrite length_fmap, length_seq. unfold dir_shape in Hsh. pose proof (Nat.div_mod_eq (length (content V dp)) 16) as Hdm.
    rewrite Hsh in Hdm. rewrite length_content in *. unfold sizeof_dirent. lia.
Qed.

Lemma dirlink_run k s dp bl V name inum :
  let sb := e_sb (k_ext s) in
  dir_at k s dp bl V -> dir_map (content V dp) name = None -> c_name DIRSIZ name -> 0 < inum < 2 ^ 16 ->
  i_size dp + sizeof_dirent <= MAXFILE * BSIZE -> tx_room (k_ext s) bl ∅ 8 -> (2 <= length (free_blocks sb V))%nat ->
  exists old s' dp' bl' V', length old = DIRSIZ /\ dirlink k name inum s = Done 0 s' /\ dir_at k s' dp' bl' V' /\ ino_frame k dp' s s' /\
    file_becomes start sb V dp V' dp' (write_at (content V dp) (16 * free_slot (content V dp)) (new_entry inum old name)).
Proof.
  intros sb Hda Hnone Hn Hi Hmax Hrm Hfr. destruct (dirlookup_none k s dp bl V name Hda Hnone) as (s1 & Hrun1 & Hda1 & Hf1).
  unfold dirlink. mstep Hrun1. mstep (get_inode_run k s1 dp (fa_get _ _ _ _ _ _ _ _ _ (da_file _ _ _ _ _ Hda1))). cbv zeta.
  destruct (find_slot_run k s1 dp bl V Hda1) as (r & s2 & Hrun2 & Hda2 & Hf2 & de & Er & Hde). mstep Hrun2. rewrite Er. cbv iota beta zeta.
  set (j := free_slot (content V dp)) in *. fold (new_entry inum (de_name de) name). set (bs := new_entry inum (de_name de) name).
  destruct (new_entry_is inum (de_name de) name name Hde Hn Hi) as (Hl & _). fold bs in Hl. destruct (free_slot_spec (content V dp)) as [Hj _]. fold j in Hj.
  pose proof (tx_frame_trans _ _ _ Hf1 Hf2) as Hf. assert (Esb : e_sb (k_ext s2) = sb) by (destruct Hf as [(-> & _) _]; done).
  pose proof (io_size _ (fo_inode _ _ _ _ (fa_file _ _ _ _ _ _ _ _ _ (da_file _ _ _ _ _ Hda2)))) as Hsz.
  pose proof (Nat.div_mod_eq (length (content V dp)) 16) as Hdm. rewrite (da_shape _ _ _ _ _ Hda) in Hdm. rewrite length_content in Hdm, Hj.
  change (MAXFILE * BSIZE) with 274432 in *. unfold sizeof_dirent in *. rewrite u32_small by lia.
  assert (Hwr : write_rounds (Z.of_nat j * 16) (Z.of_nat (length bs)) = 1).
  { rewrite Hl. unfold write_rounds, rounds_left, BSIZE. change (0 <? Z.of_nat 16) with true. cbv iota. change (Z.of_nat 16) with 16. lia. }
  destruct (writei_run c i pid start k s2 dp bl V (Z.of_nat j * 16) bs (da_file _ _ _ _ _ Hda2)) as (s3 & dp3 & bl3 & V3 & Hrun3 & Hfa3 & Hfr3 & Hb3 & Hl3);
    [lia|change (MAXFILE * BSIZE) with 274432; lia|rewrite Hwr; by eapply tx_room_frame|rewrite Hwr, Esb; lia|].
  rewrite Hwr in Hl3. rewrite Esb in Hb3. replace (Z.to_nat (Z.of_nat j * 16)) with (16 * j)%nat in Hb3 by lia.
  exists (de_name de), s3, dp3, bl3, V3. split; [done|]. split.
  - rewrite Hl in Hrun3. change (Z.of_nat 16) with 16 in Hrun3. by mstep Hrun3.
  - split; [|split; [|done]].
    + destruct (fb_inode _ _ _ _ _ _ _ Hb3) as [addrs Ei]. split; [done| | |].
      * rewrite Ei. apply (da_type _ _ _ _ _ Hda).
      * rewrite (fb_content _ _ _ _ _ _ _ Hb3). apply slots_write; [apply (da_shape _ _ _ _ _ Hda)|rewrite length_content; lia|done].
      * destruct Hrm as (_ & _ & Hrm). rewrite size_empty in Hrm. lia.
    + eapply ino_frame_trans; [|exact Hfr3]. apply ino_frame_intro; [|done]. apply (fa_get _ _ _ _ _ _ _ _ _ (da_file _ _ _ _ _ Hda)).
Qed.

End Dirs.

Section Directories.
Context `{Devices} `{RoundsOk} `{!DiskOps} `{!DiskOk}.


End Directories.

(** ** An empty directory to evaluate on *)

#[local] Instance dir_round : Rounds := 1%nat.
#[local] Instance dir_round_ok : RoundsOk := Nat.lt_0_1.
#[local] Instance dir_devices : Devices := no_devices.
#[local] Instance dir_disk : DiskOps := ideal_disk.

Definition demo_dir : inode := set_i_type T_DIR demo_inode.

Lemma demo_dir_file : file_ok demo_sb 2 demo_view demo_dir.
Proof. destruct demo_file as [[] Hn Hd Hj Hb]. split; try done. Qed.

