(* ===== verification/PathSpec.v ===== *)
(** * What path lookup guarantees

    [namei] and [nameiparent] of Fs.v walk from the root or from the working
    directory through the directories of the disk, with one entry of the inode
    table held at a time.  The walk is that of the tree of directory maps; an entry
    of the table is left with one more reference when a file is found, and the
    references are as before when there is none. *)

From S2P Require Import Prelude Machine Memory State Spinlock Kalloc Vm Proc FsState Sleeplock Bio Log Fs FsSpec FileSpec DirSpec.

(** ** Names in the buffer of the walk *)

Lemma strncmp_cstr n : forall a a' b, c_name n a -> c_name n a' -> cstr (take n a) = cstr (take n a') ->
  strncmp_arr n a b = strncmp_arr n a' b.
Proof.
  induction n as [|n IH]; intros a a' b Ha Ha' E; [done|].
  destruct a as [|x a], a' as [|y a']; try by (exfalso; eapply c_name_nil; eauto). destruct b as [|z b]; [done|].
  cbn [take cstr] in E. cbn [strncmp_arr]. destruct (Z.eqb_spec x 0) as [->|Hx], (Z.eqb_spec y 0) as [->|Hy]; try done.
  injection E as -> E. by rewrite (IH a a' b) by eauto using c_name_tail.
Qed.

(** Two buffers with the same name are looked up alike. *)
Lemma dir_map_name c a a' : c_name DIRSIZ a -> c_name DIRSIZ a' -> cstr (take DIRSIZ a) = cstr (take DIRSIZ a') -> dir_map c a = dir_map c a'.
Proof.
  intros Ha Ha' E. unfold dir_map. f_equal. apply list_find_ext. intros de. unfold is_entry, namecmp. by rewrite (strncmp_cstr _ a a').
Qed.

(** The name that is looked up for the component [e]. *)
Definition elem_name (e : list Z) : list Z := take DIRSIZ e ++ [0].

Lemma cstr_idem l : cstr (cstr l) = cstr l.
Proof. induction l as [|x l IH]; [done|]. cbn [cstr]. destruct (Z.eqb_spec x 0) as [|Hx]; [done|]. cbn [cstr]. by rewrite (proj2 (Z.eqb_neq x 0)), IH. Qed.

Lemma cstr_terminated l r : cstr (l ++ 0 :: r) = cstr l.
Proof. induction l as [|x l IH]; [done|]. cbn [cstr app]. by rewrite IH. Qed.

Lemma elem_name_cstr e n : cstr (take DIRSIZ n) = take DIRSIZ e -> cstr (take DIRSIZ (elem_name e)) = cstr (take DIRSIZ n).
Proof.
  intros E. rewrite <- (cstr_idem (take DIRSIZ n)), E. unfold elem_name. destruct (decide (DIRSIZ <= length e)%nat).
  - rewrite take_app_le, take_take, Nat.min_id by (rewrite length_take; lia). done.
  - rewrite (take_ge e) by lia. rewrite (take_ge (e ++ [0])) by (rewrite length_app; cbn [length]; lia). apply cstr_terminated.
Qed.

(** ** The tree on the disk *)

Section Tree.
Context (sb : superblock) (start : Z) (V : Z -> list Z).

(** What the disk has for inode [inum]. *)
Definition disk_inode (inum : Z) : inode := load_dinode (V (IBLOCK inum sb)) (Inode 0 inum 0 0 0 0 0 0 0 []).

(** The inode that the components lead to, or that of the last one's directory. *)
Fixpoint resolve (parent : bool) (inum : Z) (l : list (list Z)) : option Z :=
  match l with
  | [] => if parent then None else Some inum
  | e :: l =>
      if negb (i_type (disk_inode inum) =? T_DIR) then None
      else if parent && bool_decide (l = []) then Some inum
      else match dir_map (content V (disk_inode inum)) (elem_name e) with
           | None => None
           | Some inum' => resolve parent inum' l
           end
  end.

(** [G] has files only, and with a directory all that its entries name. *)
Record tree (G : Z -> Prop) : Prop := {
  tr_file : forall inum, G inum -> file_ok sb start V (disk_inode inum);
  tr_type : forall inum, G inum -> i_type (disk_inode inum) <> 0;
  tr_link : forall inum, G inum -> i_nlink (disk_inode inum) <> 0;
  tr_shape : forall inum, G inum -> i_type (disk_inode inum) = T_DIR -> dir_shape (content V (disk_inode inum));
  tr_entry : forall inum name inum', G inum -> i_type (disk_inode inum) = T_DIR ->
    dir_map (content V (disk_inode inum)) name = Some inum' -> G inum'
}.

(** The entry has what the disk has. *)
Definition loaded (ip : inode) : Prop := i_valid ip = 1 /\ load_dinode (V (IBLOCK (i_inum ip) sb)) ip = ip.

Lemma loaded_fields ip : loaded ip ->
  i_type ip = i_type (disk_inode (i_inum ip)) /\ i_nlink ip = i_nlink (disk_inode (i_inum ip)) /\
  content V ip = content V (disk_inode (i_inum ip)) /\ (file_ok sb start V (disk_inode (i_inum ip)) -> file_ok sb start V ip).
Proof.
  intros [_ E]. set (d := V (IBLOCK (i_inum ip) sb)) in E. rewrite <- E. split_and!; try done.
  intros [[] Hn Hd Hj Hb]. split; [split|..]; done.
Qed.

End Tree.

(** ** The inode table during a walk *)

(** How often the walk holds the entry [j]. *)
Definition occ (hs : list nat) (j : nat) : Z := Z.of_nat (length (filter (fun h => h = j) hs)).

Lemma occ_cons h hs j : occ (h :: hs) j = (if decide (h = j) then 1 else 0) + occ hs j.
Proof. unfold occ. rewrite filter_cons. destruct (decide (h = j)); cbn [length]; lia. Qed.

Section Walk.
Context `{Devices} `{RoundsOk} `{!DiskOps} `{!DiskOk}.
Context (c : cpu) (i : nat) (pid dv start : Z) (bl : list Z) (V : Z -> list Z) (sb : superblock) (r : nat -> Z) (G : Z -> Prop).
Implicit Types (s : kstate ext) (x : ext) (ip : inode).

(** The locks of the entries are free, but for the one the walk has locked. *)
Definition sleeps (lk : option nat) s : Prop :=
  forall j, (j < NINODE)%nat -> exists l, drop NBUF (e_sleep (k_ext s)) !! j = Some l /\
    if decide (lk = Some j) then l = SleepLock 1 pid else sl_locked l = 0.

(** The others have [r j] references to the entry [j], the walk holds those of
    [hs]; what is loaded agrees with the disk. *)
Record walk s (hs : list nat) (lk : option nat) : Prop := {
  wk_tx : tx s c i pid dv start bl V ∅;
  wk_sb : e_sb (k_ext s) = sb;
  wk_len : length (e_inodes (k_ext s)) = NINODE;
  wk_ref : forall j ip, e_inodes (k_ext s) !! j = Some ip -> i_ref ip = r j + occ hs j;
  wk_load : forall j ip, e_inodes (k_ext s) !! j = Some ip -> 0 < i_ref ip -> i_dev ip = dv -> i_valid ip = 0 \/ loaded sb V ip;
  wk_sleep : sleeps lk s
}.

(** The entry [j] is for inode [inum]. *)
Definition entry_at s (j : nat) (inum : Z) : Prop := exists ip, e_inodes (k_ext s) !! j = Some ip /\ i_dev ip = dv /\ i_inum ip = inum.

(** What a walk relies on: buffers, two entries that nobody uses, and a tree. *)
Record walk_ok : Prop := {
  wo_room : (length bl < NBUF)%nat;
  wo_refs : forall j, 0 <= r j;
  wo_free : exists p q, p <> q /\ (p < NINODE)%nat /\ (q < NINODE)%nat /\ r p = 0 /\ r q = 0;
  wo_disk : disk_ok sb start V;
  wo_tree : tree sb start V G
}.

Context (Hok : walk_ok).

Lemma walk_room s hs lk : walk s hs lk -> (length hs <= 1)%nat -> table_room s.
Proof.
  intros Hw Hl. split; [apply Hw|]. destruct (wo_free Hok) as (p & q & Hne & Hp & Hq & Hrp & Hrq).
  assert (Hfree : forall j, (j < NINODE)%nat -> r j = 0 -> j ∉ hs -> exists p ip, e_inodes (k_ext s) !! p = Some ip /\ i_ref ip = 0).
  { intros j Hj Hr Hjh. rewrite <- (wk_len _ _ _ Hw) in Hj. destruct (lookup_lt_is_Some_2 _ _ Hj) as [ip Hip]. exists j, ip. split; [done|].
    rewrite (wk_ref _ _ _ Hw j ip Hip), Hr. destruct hs as [|h [|]]; [done| |cbn in Hl; lia]. rewrite occ_cons, decide_False; [done|set_solver]. }
  destruct (decide (p ∈ hs)) as [Hin|]; [|by apply (Hfree p)]. apply (Hfree q); try done.
  destruct hs as [|h [|]]; [set_solver|set_solver|cbn in Hl; lia].
Qed.

Lemma held_ref s hs lk h ip : walk s (h :: hs) lk -> e_inodes (k_ext s) !! h = Some ip -> 1 <= i_ref ip.
Proof.
  intros Hw Hh. rewrite (wk_ref _ _ _ Hw h ip Hh), occ_cons, decide_True by done. pose proof (wo_refs Hok h). unfold occ. lia.
Qed.

(** One entry changes. *)
Lemma walk_step s s' hs hs' lk lk' k ip' :
  walk s hs lk -> tx s' c i pid dv start bl V ∅ -> e_sb (k_ext s') = e_sb (k_ext s) ->
  e_inodes (k_ext s') = <[k := ip']> (e_inodes (k_ext s)) -> (k < NINODE)%nat -> i_ref ip' = r k + occ hs' k ->
  (forall j, j <> k -> occ hs' j = occ hs j) -> (0 < i_ref ip' -> i_dev ip' = dv -> i_valid ip' = 0 \/ loaded sb V ip') -> sleeps lk' s' ->
  walk s' hs' lk'.
Proof.
  intros [Ht Hs Hl Hr Hv _] Ht' Es Ei Hk Hr' Ho Hv' Hsl. split; try done; rewrite ?Es, ?Ei, ?length_insert; try done.
  - intros j ip Hj. destruct (decide (j = k)) as [->|Hne].
    + rewrite list_lookup_insert_eq in Hj by lia. by injection Hj as <-.
    + rewrite list_lookup_insert_ne in Hj by done. rewrite Ho by done. by apply Hr.
  - intros j ip Hj. destruct (decide (j = k)) as [->|Hne].
    + rewrite list_lookup_insert_eq in Hj by lia. by injection Hj as <-.
    + rewrite list_lookup_insert_ne in Hj by done. by apply (Hv j).
Qed.

Lemma sleeps_same s s' lk : drop NBUF (e_sleep (k_ext s')) = drop NBUF (e_sleep (k_ext s)) -> sleeps lk s -> sleeps lk s'.
Proof. intros E Hs j Hj. rewrite E. by apply Hs. Qed.

Lemma sleeps_set s s' k l lk : sleeps lk s -> (lk = None \/ lk = Some k) -> drop NBUF (e_sleep (k_ext s')) = <[k := l]> (drop NBUF (e_sleep (k_ext s))) ->
  (k < NINODE)%nat -> forall lk', (lk' = None /\ sl_locked l = 0) \/ (lk' = Some k /\ l = SleepLock 1 pid) -> sleeps lk' s'.
Proof.
  intros Hs Hlk E Hk lk' Hl j Hj. rewrite E. destruct (decide (j = k)) as [->|Hne].
  - destruct (Hs k Hk) as (l0 & Hl0 & _). rewrite list_lookup_insert_eq by (by apply lookup_lt_Some in Hl0). exists l. split; [done|].
    destruct Hl as [[-> Hl]|[-> ->]]; [by rewrite decide_False|by rewrite decide_True].
  - rewrite list_lookup_insert_ne by done. destruct (Hs j Hj) as (l0 & Hl0 & Hd). exists l0. split; [done|].
    rewrite decide_False in Hd by (intros ->; destruct Hlk as [|E1]; [done|by injection E1]).
    rewrite decide_False; [done|]. intros ->. destruct Hl as [[? _]|[E1 _]]; [done|by injection E1].
Qed.

Lemma sleep_lookup s lk k : sleeps lk s -> (k < NINODE)%nat -> exists l, e_sleep (k_ext s) !! inode_lock k = Some l /\
  if decide (lk = Some k) then l = SleepLock 1 pid else sl_locked l = 0.
Proof. intros Hs Hk. destruct (Hs k Hk) as (l & Hl & Hd). rewrite lookup_drop in Hl. by exists l. Qed.

Lemma drop_sleep k l (x : ext) : drop NBUF (<[inode_lock k := l]> (e_sleep x)) = <[k := l]> (drop NBUF (e_sleep x)).
Proof. rewrite drop_insert_ge by (unfold inode_lock; lia). f_equal. unfold inode_lock. lia. Qed.

Lemma entry_at_insert s s' k ip ip' j inum :
  e_inodes (k_ext s) !! k = Some ip -> i_dev ip' = i_dev ip -> i_inum ip' = i_inum ip ->
  e_inodes (k_ext s') = <[k := ip']> (e_inodes (k_ext s)) -> entry_at s j inum -> entry_at s' j inum.
Proof.
  intros Hip Hd Hn Ei (ip2 & Hj & Hd2 & Hn2). unfold entry_at. rewrite Ei. destruct (decide (j = k)) as [->|Hne].
  - exists ip'. rewrite Hip in Hj. injection Hj as <-. split; [|split; congruence]. apply list_lookup_insert_eq. by apply lookup_lt_Some in Hip.
  - exists ip2. by rewrite list_lookup_insert_ne.
Qed.

(** [ilock] of a held entry, loaded before or not. *)
Lemma ilock_walk k s hs inum :
  walk s (k :: hs) None -> entry_at s k inum -> G inum ->
  exists s' ip, ilock (Some k) s = Done tt s' /\ walk s' (k :: hs) (Some k) /\ e_inodes (k_ext s') !! k = Some ip /\
    i_dev ip = dv /\ i_inum ip = inum /\ loaded sb V ip /\ (forall j inum', entry_at s j inum' -> entry_at s' j inum').
Proof.
  intros Hw (ip & Hip & Hd & Hn) HG. pose proof (held_ref _ _ _ _ _ Hw Hip) as Href. pose proof (lookup_lt_Some _ _ _ Hip) as Hk. rewrite (wk_len _ _ _ Hw) in Hk.
  destruct (sleep_lookup s None k (wk_sleep _ _ _ Hw) Hk) as (l & Hl & Hl0). rewrite decide_False in Hl0 by done.
  pose proof (wk_tx _ _ _ Hw) as Ht. destruct (wk_load _ _ _ Hw k ip Hip ltac:(lia) Hd) as [Hv|Hld].
  - rewrite <- Hd in Ht. destruct (ilock_tx c i pid start k s ip l bl V ∅ Hip Ht Hl Hl0 Href Hv) as (s' & Hrun & Ht' & Es & Ei & Esl).
    { apply not_elem_of_empty. }
    { rewrite size_empty, Nat.add_0_r. apply Hok. }
    { rewrite (wk_sb _ _ _ Hw), Hn. pose proof (tr_type _ _ _ _ (wo_tree Hok) inum HG) as Hty. unfold disk_inode in Hty. cbn in Hty |- *. by rewrite Hn. }
    rewrite (wk_sb _ _ _ Hw) in Ei. set (ip' := set_i_valid 1 _) in Ei. assert (Hld : loaded sb V ip') by by split.
    exists s', ip'. split_and!; try done.
    + rewrite Hd in Ht'. eapply walk_step; try done; [apply (wk_ref _ _ _ Hw k ip Hip)|by right|]. eapply sleeps_set; [apply Hw|by left|done|done|by right].
    + rewrite Ei. apply list_lookup_insert_eq. by rewrite (wk_len _ _ _ Hw).
    + intros j inum'. by apply (entry_at_insert _ _ k ip ip').
  - exists (with_ext (set_sleep (inode_lock k) (SleepLock 1 pid)) s), ip. split_and!; try done.
    + unfold ilock. mstep (get_inode_run k s ip Hip). rewrite (proj2 (Z.ltb_ge _ _)) by lia.
      mstep (acquiresleep_run (inode_lock k) s c i pid l (tx_ready _ _ _ _ _ _ _ _ _ Ht) Hl Hl0). set (s1 := with_ext _ s).
      mstep (get_inode_run k s1 ip Hip). destruct Hld as [-> _]. done.
    + destruct Hw. split; try done; [by apply tx_sleep|]. eapply (sleeps_set s); [done|by left|apply drop_sleep|done|by right].
Qed.

Lemma iunlock_walk k s hs :
  walk s (k :: hs) (Some k) -> (k < NINODE)%nat ->
  exists s', iunlock (Some k) s = Done tt s' /\ walk s' (k :: hs) None /\ e_inodes (k_ext s') = e_inodes (k_ext s).
Proof.
  intros Hw Hk. destruct (sleep_lookup s (Some k) k (wk_sleep _ _ _ Hw) Hk) as (l & Hl & Hl0). rewrite decide_True in Hl0 by done. subst l.
  pose proof (wk_tx _ _ _ Hw) as Ht. pose proof (tx_ready _ _ _ _ _ _ _ _ _ Ht) as Hr.
  destruct (lookup_lt_is_Some_2 (e_inodes (k_ext s)) k) as [ip Hip]; [by rewrite (wk_len _ _ _ Hw)|].
  pose proof (held_ref _ _ _ _ _ Hw Hip) as Href.
  exists (woken (Some (ChSleep (inode_lock k))) (c_thread c) (with_ext (set_sleep (inode_lock k) (SleepLock 0 0)) s)). split_and!; [| |done].
  - unfold iunlock. mstep (holdingsleep_run (inode_lock k) s c i pid _ Hr Hl). cbn [sl_locked sl_pid]. rewrite Z.eqb_refl.
    mstep (get_inode_run k s ip Hip). rewrite (proj2 (Z.ltb_ge _ _)) by lia. change (negb (truthy 1 && true) || false) with false. cbv iota.
    by rewrite (releasesleep_run (inode_lock k) s c i pid _ Hr Hl).
  - destruct Hw. split; try done.
    + destruct (tx_sleep c i pid start s k (SleepLock 0 0) dv bl V ∅ Ht). split; try done. by apply fs_ready_woken.
    + eapply (sleeps_set s); [done|by right|apply drop_sleep|done|by left].
Qed.

(** [iput] gives the reference back; a file with links is not freed. *)
Lemma iput_walk k s hs inum :
  walk s (k :: hs) None -> entry_at s k inum -> G inum ->
  exists s', iput k s = Done tt s' /\ walk s' hs None /\ (forall j inum', entry_at s j inum' -> entry_at s' j inum').
Proof.
  intros Hw (ip & Hip & Hd & Hn) HG. pose proof (held_ref _ _ _ _ _ Hw Hip) as Href. pose proof (lookup_lt_Some _ _ _ Hip) as Hk. rewrite (wk_len _ _ _ Hw) in Hk.
  pose proof (wk_tx _ _ _ Hw) as Ht. pose proof (tx_ready _ _ _ _ _ _ _ _ _ Ht) as Hr. set (ip' := set_i_ref (i_ref ip - 1) ip).
  assert (Hno : (i_ref ip =? 1) && truthy (i_valid ip) && (i_nlink ip =? 0) = false).
  { destruct (wk_load _ _ _ Hw k ip Hip ltac:(lia) Hd) as [->|Hld]; [by rewrite andb_false_r|].
    destruct (loaded_fields sb start V ip Hld) as (_ & -> & _). rewrite Hn, (proj2 (Z.eqb_neq _ 0)); [by rewrite andb_false_r|].
    by apply (tr_link _ _ _ _ (wo_tree Hok)). }
  exists (with_ext (fun w => set_e_inodes (<[k := ip']> (e_inodes w)) w) s). split_and!.
  - unfold iput. mstep (fs_ready_acquire ItableLock s c i pid Hr). set (s1 := acquired ItableLock s). mstep (get_inode_run k s1 ip Hip).
    rewrite Hno, when_false, bind_ret. mstep (mod_inode_run k (fun ip => set_i_ref (i_ref ip - 1) ip) s1 ip Hip).
    rewrite (fs_ready_release ItableLock s c i pid (with_ext (fun w => set_e_inodes (<[k := ip']> (e_inodes w)) w) s1) Hr eq_refl). by destruct s.
  - eapply walk_step; [exact Hw|by apply (tx_set_inodes c i pid start s (<[k := ip']>))|done|done|done| | | |apply Hw].
    + cbn. rewrite (wk_ref _ _ _ Hw k ip Hip), occ_cons, decide_True by done. lia.
    + intros j Hj. by rewrite occ_cons, decide_False.
    + intros _ _. destruct (wk_load _ _ _ Hw k ip Hip ltac:(lia) Hd) as [Hv|[Hv Hld]]; [by left|right]. split; [done|].
      change (set_i_ref (i_ref ip - 1) (load_dinode (V (IBLOCK (i_inum ip) sb)) ip) = ip'). by rewrite Hld.
  - intros j inum'. by apply (entry_at_insert _ _ k ip ip').
Qed.

Lemma iunlockput_walk k s hs inum :
  walk s (k :: hs) (Some k) -> entry_at s k inum -> G inum ->
  exists s', iunlockput k s = Done tt s' /\ walk s' hs None /\ (forall j inum', entry_at s j inum' -> entry_at s' j inum').
Proof.
  intros Hw He HG. assert (Hk : (k < NINODE)%nat).
  { destruct He as (ip & Hip & _). apply lookup_lt_Some in Hip. by rewrite (wk_len _ _ _ Hw) in Hip. }
  destruct (iunlock_walk k s hs Hw Hk) as (s1 & Hrun1 & Hw1 & Ei). assert (Hsame : forall j n, entry_at s j n -> entry_at s1 j n).
  { intros j n. unfold entry_at. by rewrite Ei. }
  destruct (iput_walk k s1 hs inum Hw1 (Hsame _ _ He) HG) as (s2 & Hrun2 & Hw2 & Hs2). exists s2. split; [|by auto].
  unfold iunlockput. by mstep Hrun1.
Qed.

(** [iget] adds an entry to those the walk holds. *)
Lemma taken_walk s s' hs lk k inum ip ip' :
  walk s hs lk -> e_inodes (k_ext s) !! k = Some ip -> taken_entry dv inum ip ip' -> tx s' c i pid dv start bl V ∅ ->
  e_sb (k_ext s') = e_sb (k_ext s) -> drop NBUF (e_sleep (k_ext s')) = drop NBUF (e_sleep (k_ext s)) ->
  e_inodes (k_ext s') = <[k := ip']> (e_inodes (k_ext s)) ->
  walk s' (k :: hs) lk /\ entry_at s' k inum /\
  (forall j inum' ip0, e_inodes (k_ext s) !! j = Some ip0 -> 0 < i_ref ip0 -> entry_at s j inum' -> entry_at s' j inum').
Proof.
  intros Hw Hk [(Hp & Hd & Hn) Hr Hld] Ht Es Esl Ei. pose proof (lookup_lt_Some _ _ _ Hk) as Hlt. rewrite (wk_len _ _ _ Hw) in Hlt. split; [|split].
  - eapply walk_step; [exact Hw|done..| | | |by eapply sleeps_same; [|apply Hw]].
    + rewrite Hr, (wk_ref _ _ _ Hw k ip Hk), occ_cons, decide_True by done. lia.
    + intros j Hj. by rewrite occ_cons, decide_False.
    + intros _ _. destruct Hld as [[_ Hv]|[Hpos E]]; [by left|]. subst ip'. cbn in Hd. destruct (wk_load _ _ _ Hw k ip Hk Hpos Hd) as [Hv|[Hv Hl]]; [by left|right].
      split; [done|]. change (set_i_ref (i_ref ip + 1) (load_dinode (V (IBLOCK (i_inum ip) sb)) ip) = set_i_ref (i_ref ip + 1) ip). by rewrite Hl.
  - exists ip'. split; [|done]. rewrite Ei. apply list_lookup_insert_eq. by rewrite (wk_len _ _ _ Hw).
  - intros j inum' ip0 Hj Hpos (ip2 & Hj2 & Hd2 & Hn2). unfold entry_at. rewrite Ei. destruct (decide (j = k)) as [->|Hne].
    + exists ip'. rewrite Hk in Hj, Hj2. injection Hj as <-. injection Hj2 as <-. split; [apply list_lookup_insert_eq; by rewrite (wk_len _ _ _ Hw)|].
      destruct Hld as [[Hz _]|[_ E]]; [lia|by subst ip'].
    + exists ip2. by rewrite list_lookup_insert_ne.
Qed.

(** ** The walk *)

Lemma dirlookup_walk k s dp name :
  walk s [k] (Some k) -> e_inodes (k_ext s) !! k = Some dp -> i_dev dp = dv -> loaded sb V dp -> G (i_inum dp) -> i_type dp = T_DIR ->
  match dir_map (content V (disk_inode sb V (i_inum dp))) name with
  | None => exists s', dirlookup k name s = Done None s' /\ walk s' [k] (Some k) /\ entry_at s' k (i_inum dp)
  | Some inum => exists j off s', dirlookup k name s = Done (Some (j, off)) s' /\ walk s' [k; j] (Some k) /\
      entry_at s' j inum /\ entry_at s' k (i_inum dp)
  end.
Proof.
  intros Hw Hk Hd Hld HG Hty. destruct (loaded_fields sb start V dp Hld) as (Et & _ & Ec & Hf). rewrite <- Ec.
  assert (Hda : dir_at c i pid start k s dp bl V).
  { split; [split| | |apply Hok].
    - done.
    - rewrite Hd. apply Hw.
    - rewrite (wk_sb _ _ _ Hw). apply Hok.
    - rewrite (wk_sb _ _ _ Hw). by apply Hf, (tr_file _ _ _ _ (wo_tree Hok)).
    - done.
    - rewrite Ec. apply (tr_shape _ _ _ _ (wo_tree Hok)); [done|congruence]. }
  destruct (dir_map (content V dp) name) as [inum|] eqn:E.
  - destruct (dirlookup_some c i pid start k s dp bl V name inum Hda (walk_room _ _ _ Hw ltac:(done)) E) as (j & off & s' & ip & ip' & Hrun & Ei & Hj & Hte & Ht & Es & Esl).
    rewrite Hd in Hte, Ht. destruct (taken_walk s s' [k] (Some k) j inum ip ip' Hw Hj Hte Ht Es Esl Ei) as (Hw' & Hej & Hek).
    exists j, off, s'. split_and!; [done| |done|].
    + destruct Hw'. split; try done. intros q ip0 Hq. rewrite (wk_ref0 q ip0 Hq), !occ_cons. lia.
    + apply (Hek k _ dp Hk); [pose proof (held_ref _ _ _ _ _ Hw Hk); lia|by exists dp].
  - destruct (dirlookup_none c i pid start k s dp bl V name Hda E) as (s' & Hrun & [[Hk' Ht' _ _] _ _ _] & Hfr). exists s'. rewrite Hd in Ht'.
    split; [done|]. split; [|by exists dp]. destruct Hfr as [(Es & Ei & _ & _ & Esl & _) _]. destruct Hw. split; try done; [congruence|rewrite Ei; done..|].
    by eapply sleeps_same.
Qed.

(** The result of a walk that leads to [o]. *)
Definition walk_result (parent : bool) (comps : list (list Z)) (o : option Z) (res : option nat * list Z) s : Prop :=
  match o with
  | None => fst res = None /\ walk s [] None
  | Some inum => G inum /\ exists j, fst res = Some j /\ walk s [j] None /\ entry_at s j inum /\
      (parent = true -> forall e, last comps = Some e -> cstr (take DIRSIZ (snd res)) = take DIRSIZ e)
  end.

Lemma namex_loop_walk parent fuel : forall k path name inum s,
  (length path < fuel)%nat -> length name = DIRSIZ -> walk s [k] None -> entry_at s k inum -> G inum ->
  exists res s', namex_loop fuel k path parent name s = Done res s' /\
    walk_result parent (components path) (resolve sb V parent inum (components path)) res s'.
Proof.
  induction fuel as [|fuel IH]; intros k path name inum s Hf Hn Hw He HG; [lia|]. cbn [namex_loop].
  pose proof (skipelem_first path name Hn) as Hsk. destruct (components path) as [|e l] eqn:Ec.
  { rewrite Hsk. destruct parent.
    - destruct (iput_walk k s [] inum Hw He HG) as (s' & Hrun & Hw' & _). exists (None, name), s'. split; [by mstep Hrun|done].
    - exists (Some k, name), s. split; [done|]. split; [done|]. exists k. done. }
  destruct Hsk as (path' & name' & -> & Hname & Ec' & Hend & Hn' & Hlt). cbn [resolve].
  destruct (ilock_walk k s [] inum Hw He HG) as (s1 & dp & Hrun1 & Hw1 & Hk1 & Hd1 & Hi1 & Hld & Hs1). mstep Hrun1.
  mstep (get_inode_run k s1 dp Hk1). destruct (loaded_fields sb start V dp Hld) as (Et & _). rewrite Hi1 in Et. rewrite Et.
  pose proof (Hs1 _ _ He) as He1. destruct (Z.eqb_spec (i_type (disk_inode sb V inum)) T_DIR) as [Hty|Hty]; cbn [negb].
  2:{ destruct (iunlockput_walk k s1 [] inum Hw1 He1 HG) as (s2 & Hrun2 & Hw2 & _). exists (None, name'), s2. split; [by mstep Hrun2|done]. }
  assert (Eb : (char_at path' =? 0) = bool_decide (l = [])).
  { destruct (Z.eqb_spec (char_at path') 0) as [E|E]; [by rewrite bool_decide_true by (by apply Hend)|].
    rewrite bool_decide_false; [done|]. by rewrite <- Hend. }
  rewrite Eb. destruct (parent && bool_decide (l = [])) eqn:Ep.
  { apply andb_prop in Ep as [Ep El]. apply bool_decide_eq_true in El. subst parent.
    destruct (iunlock_walk k s1 [] Hw1) as (s2 & Hrun2 & Hw2 & Ei2).
    { apply lookup_lt_Some in Hk1. by rewrite (wk_len _ _ _ Hw1) in Hk1. }
    exists (Some k, name'), s2. split; [by mstep Hrun2|]. split; [done|]. exists k. split; [done|]. split; [done|]. split.
    - destruct He1 as (ip & ? & ?). exists ip. by rewrite Ei2.
    - intros _ e' E'. rewrite El in E'. by injection E' as <-. }
  assert (Em : dir_map (content V (disk_inode sb V inum)) (elem_name e) = dir_map (content V (disk_inode sb V inum)) name').
  { apply dir_map_name; [left; apply elem_of_app; right; left|right; lia|by apply elem_name_cstr]. }
  rewrite Em. pose proof (dirlookup_walk k s1 dp name' Hw1 Hk1 Hd1 Hld) as Hdl. rewrite Hi1 in Hdl. specialize (Hdl HG ltac:(congruence)).
  destruct (dir_map _ name') as [inum'|] eqn:Edm.
  - destruct Hdl as (j & off & s2 & Hrun2 & Hw2 & Hj2 & Hk2). mstep Hrun2.
    destruct (iunlockput_walk k s2 [j] inum Hw2 Hk2 HG) as (s3 & Hrun3 & Hw3 & Hs3). mstep Hrun3.
    pose proof (tr_entry _ _ _ _ (wo_tree Hok) inum name' inum' HG Hty Edm) as HG'.
    destruct (IH j path' name' inum' s3 ltac:(lia) Hn' Hw3 (Hs3 _ _ Hj2) HG') as (res & s4 & Hrun4 & Hres). rewrite Ec' in Hres.
    exists res, s4. split; [done|]. unfold walk_result in *. destruct (resolve _ _ _ _ l) as [inum2|]; [|done].
    destruct Hres as (HG2 & q & Hq & Hw4 & He4 & Hlast). split; [done|]. exists q. split_and!; try done.
    intros Hpar e' E'. destruct l as [|e2 l]; [|by apply Hlast]. subst parent. done.
  - destruct Hdl as (s2 & Hrun2 & Hw2 & Hk2). mstep Hrun2.
    destruct (iunlockput_walk k s2 [] inum Hw2 Hk2 HG) as (s3 & Hrun3 & Hw3 & _). exists (None, name'), s3. split; [by mstep Hrun3|done].
Qed.

(** Where the walk for [path] starts. *)
Definition starts s (path : list Z) (inum : Z) : Prop :=
  if char_at path =? slash then dv = ROOTDEV /\ inum = ROOTINO
  else exists p cwd, k_procs s !! i = Some p /\ p_cwd p = Some cwd /\ entry_at s cwd inum /\ 0 < r cwd.

Lemma namex_walk parent s path name inum :
  walk s [] None -> starts s path inum -> G inum -> length name = DIRSIZ ->
  exists res s', namex path parent name s = Done res s' /\ walk_result parent (components path) (resolve sb V parent inum (components path)) res s'.
Proof.
  intros Hw Hst HG Hn. pose proof (wk_tx _ _ _ Hw) as Ht. pose proof (tx_ready _ _ _ _ _ _ _ _ _ Ht) as Hr.
  assert (Hgo : forall (m : KM ext nat) j ip ip', m s = Done j (with_ext (fun w => set_e_inodes (<[j := ip']> (e_inodes w)) w) s) ->
    e_inodes (k_ext s) !! j = Some ip -> taken_entry dv inum ip ip' ->
    exists res s', (k ← m; namex_loop (S (length path)) k path parent name) s = Done res s' /\
      walk_result parent (components path) (resolve sb V parent inum (components path)) res s').
  { intros m j ip ip' Hm Hj Hte. set (s1 := with_ext _ s) in Hm.
    destruct (taken_walk s s1 [] None j inum ip ip' Hw Hj Hte ltac:(by apply (tx_set_inodes c i pid start s (<[j := ip']>))) eq_refl eq_refl eq_refl)
      as (Hw1 & He1 & _). mstep Hm. apply (namex_loop_walk parent (S (length path)) j path name inum s1); [lia|done..]. }
  unfold starts in Hst. unfold namex. destruct (char_at path =? slash).
  - destruct Hst as [Edv ->]. destruct (walk_room _ _ _ Hw ltac:(cbn; lia)) as [Hlen Hroom].
    destruct (iget_run dv ROOTINO s c i pid Hr Hlen Hroom) as (j & ip & ip' & Hrun & Hj & Hte). rewrite <- Edv. by apply (Hgo _ j ip ip').
  - destruct Hst as (p & cwd & Hp & Hcwd & (ip & Hip & Hd & Hi) & Hpos).
    assert (Href : 0 < i_ref ip) by (rewrite (wk_ref _ _ _ Hw cwd ip Hip); unfold occ; cbn; lia).
    apply (Hgo _ cwd ip (set_i_ref (i_ref ip + 1) ip)); [|done|split; [split_and!; cbn; done || lia|done|by right]].
    assert (Hcur : curproc s = Done i s) by (apply (curproc_run _ c); apply Hr). mstep Hcur. mstep (get_proc_run i s p Hp). rewrite Hcwd. cbn [of_option]. rewrite bind_ret.
    unfold idup. mstep (fs_ready_acquire ItableLock s c i pid Hr). set (s1 := acquired ItableLock s).
    mstep (mod_inode_run cwd (fun ip => set_i_ref (i_ref ip + 1) ip) s1 ip Hip).
    mstep (fs_ready_release ItableLock s c i pid (with_ext (fun w => set_e_inodes (<[cwd := set_i_ref (i_ref ip + 1) ip]> (e_inodes w)) w) s1) Hr eq_refl).
    by destruct s.
Qed.

End Walk.

Section Paths.
Context `{Devices} `{RoundsOk} `{!DiskOps} `{!DiskOk}.

(** C5: path lookup walks the directory tree.  On a disk whose directories form
    a tree, [namei] returns an entry of the inode table for the inode that the
    components of the path lead to from the root, or from the working directory of
    the process for a relative path, and no inode exactly when a component is
    missing or is not in a directory.  [nameiparent] returns the directory of the
    last component and leaves that component's name.  In every case the table has
    the references it had, plus one for the entry that is returned; no lock of an
    inode stays held and the disk is unchanged. *)
Theorem path_lookup (s : kstate ext) (c : cpu) (i : nat) (pid dv start : Z) (bl : list Z) (V : Z -> list Z) (sb : superblock)
    (r : nat -> Z) (G : Z -> Prop) (path : list Z) (from : Z) :
  walk_ok start bl V sb r G -> walk c i pid dv start bl V sb r s [] None -> starts i dv r s path from -> G from ->
  (exists o s1, namei path s = Done o s1 /\
     match resolve sb V false from (components path) with
     | Some inum => exists j, o = Some j /\ entry_at dv s1 j inum /\ walk c i pid dv start bl V sb r s1 [j] None
     | None => o = None /\ walk c i pid dv start bl V sb r s1 [] None
     end) /\
  (exists o name s1, nameiparent path s = Done (o, name) s1 /\
     match resolve sb V true from (components path) with
     | Some inum => exists j, o = Some j /\ entry_at dv s1 j inum /\ walk c i pid dv start bl V sb r s1 [j] None /\
         forall e, last (components path) = Some e -> cstr (take DIRSIZ name) = take DIRSIZ e
     | None => o = None /\ walk c i pid dv start bl V sb r s1 [] None
     end).
Proof.
  intros Hok Hw Hst HG. split.
  - destruct (namex_walk c i pid dv start bl V sb r G Hok false s path (replicate DIRSIZ 0) from Hw Hst HG eq_refl) as (res & s1 & Hrun & Hres).
    exists (fst res), s1. split; [unfold namei; by mstep Hrun|]. unfold walk_result in Hres. destruct (resolve sb V false from _) as [inum|]; [|done].
    destruct Hres as (_ & j & ? & ? & ? & _). by exists j.
  - destruct (namex_walk c i pid dv start bl V sb r G Hok true s path (replicate DIRSIZ 0) from Hw Hst HG eq_refl) as ([o name] & s1 & Hrun & Hres).
    exists o, name, s1. split; [done|]. unfold walk_result in Hres. destruct (resolve sb V true from _) as [inum|]; [|done].
    destruct Hres as (_ & j & ? & ? & ? & ?). exists j. auto.
Qed.

End Paths.

(** ** A root directory to evaluate on *)

#[local] Instance path_round : Rounds := 1%nat.
#[local] Instance path_round_ok : RoundsOk := Nat.lt_0_1.
#[local] Instance path_devices : Devices := no_devices.
#[local] Instance path_disk : DiskOps := ideal_disk.

(** The root directory has the entry "." in block 46. *)
Definition demo_root : inode := Inode 1 1 0 0 T_DIR 0 0 1 16 (46 :: replicate 12 0).
Definition root_media : gmap Z (list Z) :=
  <[32 := store_dinode demo_root zero_block]> (<[45 := [255; 255; 255; 255; 255; 127] ++ replicate 1018 0]>
    {[ 46 := new_entry 1 (replicate DIRSIZ 0) [46; 0] ++ replicate 1008 0 ]}).
Definition root_view (n : Z) : list Z := default zero_block (root_media !! n).

Lemma root_length n : length (root_view n) = Z.to_nat BSIZE.
Proof.
  unfold root_view, root_media. destruct (decide (n = 32)) as [->|H1]; [by rewrite lookup_insert_eq|]. rewrite lookup_insert_ne by done.
  destruct (decide (n = 45)) as [->|H2]; [by rewrite lookup_insert_eq|]. rewrite lookup_insert_ne by done.
  destruct (decide (n = 46)) as [->|H3]; [by rewrite lookup_singleton_eq|by rewrite lookup_singleton_ne].
Qed.

Lemma root_used b : 0 <= b < 1000 -> in_use root_view demo_sb b = (b <? 47).
Proof.
  intros Hb. assert (Hall : Forall (fun b => in_use root_view demo_sb b = (b <? 47)) (seqZ 0 1000)).
  { apply (bool_decide_unpack _). vm_compute. done. }
  rewrite Forall_seqZ in Hall. apply Hall. lia.
Qed.

Lemma root_disk : disk_ok demo_sb 2 root_view.
Proof.
  apply (disk_change demo_sb 2 demo_view); [apply demo_disk|intros n _; apply root_length|].
  intros b Hb Hu. change (sb_size demo_sb) with 1000 in Hb. rewrite demo_used in Hu by done. rewrite root_used by done.
  apply Z.ltb_lt in Hu. apply Z.ltb_lt. lia.
Qed.

Lemma root_inode : disk_inode demo_sb root_view 1 = set_i_dev 0 demo_root.
Proof. vm_compute. reflexivity. Qed.

Lemma root_addr x : addr_at root_view (set_i_dev 0 demo_root) x = if decide (x = Some 0) then 46 else 0.
Proof.
  destruct x as [bn|]; [|by rewrite decide_False]. destruct (decide (0 <= bn < NDIRECT)) as [Hb|Hb].
  - rewrite direct_addr by done. change (i_addrs (set_i_dev 0 demo_root)) with (46 :: replicate 12 0). unfold NDIRECT in Hb.
    destruct (decide (Some bn = Some 0)) as [E|E]; [by injection E as ->|]. assert (bn <> 0) by congruence.
    replace (Z.to_nat bn) with (S (Z.to_nat (bn - 1))) by lia.
    change ((46 :: replicate 12 0) !! S ?q) with (replicate 12 0 !! q). by rewrite lookup_replicate_2 by lia.
  - rewrite decide_False by (intros E; injection E as ->; unfold NDIRECT in Hb; lia).
    destruct (decide (addr_at root_view (set_i_dev 0 demo_root) (Some bn) = 0)) as [|E]; [done|].
    pose proof (addr_at_range _ _ _ E). by apply (indirect_none root_view (set_i_dev 0 demo_root) bn); [lia|].
Qed.

Lemma root_file : file_ok demo_sb 2 root_view (set_i_dev 0 demo_root).
Proof.
  split; try (intros x; rewrite root_addr; destruct (decide (x = Some 0)) as [->|]; [|done]).
  - unfold demo_root, T_DIR. split; [cbn; lia..|reflexivity|repeat constructor; lia].
  - done.
  - intros _. split; [|split; [by rewrite root_used|apply root_length]]. split; [cbn; lia|apply demo_home; lia| |]; intros n Hn.
    + rewrite demo_bblock by done. lia.
    + pose proof (demo_iblock n Hn). lia.
  - intros y. rewrite root_addr. by destruct (decide (y = Some 0)).
  - intros bn H0 H1. rewrite root_addr. unfold BSIZE in H1. cbn in H1. assert (bn = 0) as -> by lia. by rewrite decide_True.
Qed.

Lemma root_entry name inum : dir_map (content root_view (set_i_dev 0 demo_root)) name = Some inum -> inum = 1.
Proof.
  set (de := new_entry 1 (replicate DIRSIZ 0) [46; 0]).
  assert (E : slots (content root_view (set_i_dev 0 demo_root)) = [de]) by (vm_compute; reflexivity).
  unfold dir_map. rewrite E. cbn [list_find]. destruct (decide (is_entry name de)); [|done]. intros Hs. by injection Hs as <-.
Qed.

Lemma root_tree : tree demo_sb 2 root_view (fun inum => inum = 1).
Proof.
  split; try (intros inum ->; rewrite root_inode); [apply root_file|done|done|done|].
  intros inum name inum' ->. rewrite root_inode. intros _. apply root_entry.
Qed.

(** A walk can start when no entry of the table is in use. *)
Lemma idle_walk (s : kstate ext) c i pid dv start bl V sb :
  tx s c i pid dv start bl V ∅ -> e_sb (k_ext s) = sb -> e_inodes (k_ext s) = <[O := zero_inode]> (replicate NINODE zero_inode) ->
  drop NBUF (e_sleep (k_ext s)) = replicate NINODE (SleepLock 0 0) -> walk c i pid dv start bl V sb (fun _ => 0) s [] None.
Proof.
  intros Ht Esb Etab Esl. assert (Hzero : forall j ip, e_inodes (k_ext s) !! j = Some ip -> ip = zero_inode).
  { intros j ip. rewrite Etab. intros Hj. by apply (lookup_replicate_1 NINODE) in Hj as [-> _]. }
  split; [exact Ht|exact Esb|by rewrite Etab| | |].
  - intros j ip Hj. by rewrite (Hzero j ip Hj).
  - intros j ip Hj. rewrite (Hzero j ip Hj). cbn. lia.
  - intros j Hj. exists (SleepLock 0 0). rewrite Esl, lookup_replicate_2 by done. done.
Qed.

(** The paths "/./" and "/a". *)
Lemma path_lookup_witness :
  exists (s s1 s2 : kstate ext) j, namei [47; 46; 47; 0] s = Done (Some j) s1 /\ namei [47; 97; 0] s = Done None s2.
Proof.
  destruct (disk_tx root_media demo_sb zero_inode) as (s & Ht & Esb & _ & _ & _ & _ & _ & Etab & Esl).
  assert (Hok : walk_ok 2 [] root_view demo_sb (fun _ => 0) (fun inum => inum = 1)).
  { split; [unfold NBUF, MAXOPBLOCKS; cbn; lia|done| |apply root_disk|apply root_tree].
    exists O, 1%nat. unfold NINODE. split_and!; [done|lia|lia|done|done]. }
  assert (Hw : walk fs_cpu O 1 1 2 [] root_view demo_sb (fun _ => 0) s [] None) by (by apply idle_walk).
  destruct (path_lookup s fs_cpu O 1 1 2 [] root_view demo_sb (fun _ => 0) (fun inum => inum = 1) [47; 46; 47; 0] 1 Hok Hw) as [(o1 & s1 & H1 & E1) _]; [done|done|].
  destruct (path_lookup s fs_cpu O 1 1 2 [] root_view demo_sb (fun _ => 0) (fun inum => inum = 1) [47; 97; 0] 1 Hok Hw) as [(o2 & s2 & H2 & E2) _]; [done|done|].
  assert (R1 : resolve demo_sb root_view false 1 (components [47; 46; 47; 0]) = Some 1) by (vm_compute; reflexivity).
  assert (R2 : resolve demo_sb root_view false 1 (components [47; 97; 0]) = None) by (vm_compute; reflexivity).
  rewrite R1 in E1. rewrite R2 in E2. destruct E1 as (j & -> & _), E2 as [-> _]. exists s, s1, s2, j. done.
Defined.
