(* ===== verification/TruncSpec.v ===== *)
(** * What truncating a file guarantees

    [itrunc] of Fs.v gives all blocks of a file back to the allocator: the
    direct blocks, the blocks in the indirect block and the indirect block, and
    no others.  The bitmap is one block, as on the disk that mkfs makes; it is
    logged once however many bits change. *)

From stdpp Require Import functions.
From S2P Require Import Prelude Machine Memory State Spinlock Kalloc Vm Proc FsState Sleeplock Bio Log Fs FsSpec FileSpec.

(** ** Freed blocks *)

Section Freed.
Context (sb : superblock) (start B0 : Z) (HB : forall b, 0 <= b < sb_size sb -> BBLOCK b sb = B0).
Implicit Types (V : Z -> list Z) (D : Z -> Prop).

(** [V'] is [V] with the blocks of [D] free. *)
Record freed V V' D : Prop := {
  fd_other : forall n, n <> B0 -> V' n = V n;
  fd_len : length (V' B0) = length (V B0);
  fd_in : forall b, 0 <= b < sb_size sb -> D b -> in_use V' sb b = false;
  fd_out : forall b, 0 <= b < sb_size sb -> ~ D b -> in_use V' sb b = in_use V sb b
}.

Lemma freed_none V D : (forall b, ~ D b) -> freed V V D.
Proof. intros Hn. split; try done. intros b _ Hb. by apply Hn in Hb. Qed.

Lemma freed_equiv V V' D D' : (forall b, D b <-> D' b) -> freed V V' D -> freed V V' D'.
Proof. intros E [H1 H2 H3 H4]. split; try done; intros b Hr Hb; [apply H3|apply H4]; try done; [by apply E|by intros Hd%E]. Qed.

Lemma freed_bitmap V V' D : bitmap_ok V sb start -> freed V V' D -> bitmap_ok V' sb start.
Proof. intros [? ? ? Hl] Hf. split; try done. intros b Hb. rewrite <- (Hl b Hb), HB by done. apply Hf. Qed.

Lemma freed_step V V' D b : bitmap_ok V sb start -> freed V V' D -> 0 <= b < sb_size sb ->
  freed V (<[B0 := clear_bit (Z.to_nat (b mod BPB)) (V' B0)]> V') (fun x => D x \/ x = b).
Proof.
  intros Hm Hf Hb. pose proof (freed_bitmap V V' D Hm Hf) as Hm'. set (V2 := <[B0 := _]> V').
  pose proof (bitmap_byte b V' sb start Hm' Hb) as Hby. rewrite HB in Hby by done.
  assert (Hu : forall b', 0 <= b' < sb_size sb -> in_use V2 sb b' = if decide (b' = b) then false else in_use V' sb b').
  { intros b' Hb'. apply (in_use_change V' V2 sb start b b' (clear_bit (Z.to_nat (b mod BPB)) (V' B0))); try done.
    - rewrite !HB by done. rewrite decide_True by done. apply fn_lookup_insert.
    - intros j. rewrite HB by done. apply bit_clear_clear, Hby. }
  split.
  - intros n Hn. unfold V2. rewrite fn_lookup_insert_ne by done. by apply Hf.
  - unfold V2. rewrite fn_lookup_insert. unfold clear_bit. rewrite length_alter. apply Hf.
  - intros x Hx [Hd| ->]; rewrite Hu by done; [|by rewrite decide_True]. destruct (decide (x = b)); [done|]. by apply Hf.
  - intros x Hx Hn. rewrite Hu by done. rewrite decide_False by tauto. apply Hf; tauto.
Qed.

End Freed.

(** The blocks in the first [k] slots of the content. *)
Definition slots_below (V : Z -> list Z) (ip : inode) (k : nat) (b : Z) : Prop :=
  b <> 0 /\ exists j, (j < k)%nat /\ addr_at V ip (Some (Z.of_nat j)) = b.

Lemma slots_below_next V ip k b : addr_at V ip (Some (Z.of_nat k)) <> 0 ->
  slots_below V ip (S k) b <-> slots_below V ip k b \/ b = addr_at V ip (Some (Z.of_nat k)).
Proof.
  intros Hne. split.
  - intros [Hb (j & Hj & E)]. destruct (decide (j = k)) as [->|]; [by right|left]. split; [done|]. exists j. split; [lia|done].
  - intros [[Hb (j & Hj & E)]| ->]; (split; [done|]); [exists j; split; [lia|done]|exists k; split; [lia|done]].
Qed.

Lemma slots_below_skip V ip k b : addr_at V ip (Some (Z.of_nat k)) = 0 -> slots_below V ip (S k) b <-> slots_below V ip k b.
Proof.
  intros H0. split; intros [Hb (j & Hj & E)]; (split; [done|]); exists j; (split; [|done]); [|lia].
  destruct (decide (j = k)) as [->|]; [congruence|lia].
Qed.

(** The blocks of the file are those of the slots and the indirect block. *)
Lemma owns_slots V ip b : owns V ip b <-> slots_below V ip 268 b \/ (b <> 0 /\ b = addr_at V ip None).
Proof.
  split.
  - intros [Hb [[bn|] E]]; [left|right; by split]. assert (Hr : addr_at V ip (Some bn) <> 0) by congruence. apply addr_at_range in Hr.
    change MAXFILE with 268 in Hr. split; [done|]. exists (Z.to_nat bn). split; [lia|]. by rewrite Z2Nat.id by lia.
  - intros [[Hb (j & _ & E)]|[Hb ->]]; (split; [done|]); [by exists (Some (Z.of_nat j))|by exists None].
Qed.

Lemma owns_list V ip b :
  owns V ip b <-> b <> 0 /\ b ∈ addr_at V ip None :: ((fun j => addr_at V ip (Some (Z.of_nat j))) <$> seq 0 268).
Proof.
  rewrite owns_slots, elem_of_cons, list_elem_of_fmap. split.
  - intros [[Hb (j & Hj & E)]|[Hb E]]; (split; [done|]); [right|by left]. exists j. split; [done|]. apply elem_of_seq. lia.
  - intros [Hb [E|(j & E & Hj)]]; [by right|left]. apply elem_of_seq in Hj. split; [done|]. exists j. split; [lia|done].
Qed.

#[global] Instance owns_dec V ip b : Decision (owns V ip b).
Proof.
  refine (cast_if (decide (b <> 0 /\ b ∈ addr_at V ip None :: ((fun j => addr_at V ip (Some (Z.of_nat j))) <$> seq 0 268))));
    by rewrite owns_list.
Defined.

(** ** Freeing the blocks of a file *)

Section Trunc.
Context `{Devices} `{RoundsOk} `{!DiskOps} `{!DiskOk}.
Context (c : cpu) (i : nat) (pid start B0 : Z).
Implicit Types (s : kstate ext) (x : ext).

(** The log holds [bl], and perhaps the bitmap. *)
Definition logged (bl bt : list Z) : Prop := bt = bl \/ bt = with_block B0 bl.

Lemma with_block_twice bl : with_block B0 (with_block B0 bl) = with_block B0 bl.
Proof. unfold with_block. destruct (decide (B0 ∈ bl)); [by rewrite decide_True|]. rewrite decide_True by set_solver. done. Qed.

Lemma logged_next bl bt : logged bl bt -> logged bl (with_block B0 bt).
Proof. intros [->| ->]; [by right|right; apply with_block_twice]. Qed.

Lemma logged_room x bl bt L k : logged bl bt -> tx_room x bl L (k + 1) -> tx_room x bt L k.
Proof. intros [->| ->]; [|apply tx_room_step]. intros (? & ? & ?). split_and!; lia. Qed.

(** What stays fixed while the blocks of [ip] are freed, starting from [V]. *)
Record trunc_fix (sb : superblock) (bl : list Z) V ip : Prop := {
  tf_one : forall b, 0 <= b < sb_size sb -> BBLOCK b sb = B0;
  tf_size : 0 < sb_size sb;
  tf_disk : disk_ok sb start V;
  tf_file : file_ok sb start V ip
}.

Lemma bfree_fs sb dv b s bl bt V V1 D L ip y :
  trunc_fix sb bl V ip -> e_sb (k_ext s) = sb -> logged bl bt -> tx s c i pid dv start bt V1 L -> freed sb B0 V V1 D ->
  B0 ∉ L -> tx_room (k_ext s) bl L 3 -> addr_at V ip y = b -> b <> 0 -> ~ D b ->
  exists s' V2, bfree dv b s = Done tt s' /\ tx s' c i pid dv start (with_block B0 bt) V2 L /\ tx_keep dv L s s' /\
    freed sb B0 V V2 (fun b' => D b' \/ b' = b).
Proof.
  intros [HB Hsz Hd Hf] Esb Hlg Ht Hfd HL Hrm Hy Hb Hno. rewrite <- Hy in Hb. destruct (fo_data _ _ _ _ Hf y Hb) as ([Hr _ _ _] & Hu & _).
  rewrite Hy in *. assert (Hr' : 0 <= b < sb_size sb) by lia.
  destruct (bfree_tx c i pid dv start b s bt V1 L Ht) as (s' & Hrun & Ht' & Hk); rewrite ?Esb, ?HB by done; try done.
  - rewrite <- (HB b) by done. by apply (bo_home _ _ _ (do_bitmap _ _ _ Hd)).
  - by eapply logged_room.
  - by rewrite (fd_out _ _ _ _ _ Hfd) by done.
  - rewrite Esb, HB in Ht' by done. exists s'. eexists. split; [done|]. split; [exact Ht'|]. split; [done|].
    apply (freed_step sb start B0 HB); [apply Hd|done|done].
Qed.

(** The inode with its first [k] addresses cleared. *)
Definition cleared (k : nat) (ip : inode) : inode := set_i_addrs (replicate k 0 ++ drop k (i_addrs ip)) ip.

Lemma cleared_get k ip j : (k <= length (i_addrs ip))%nat -> (k <= j)%nat -> i_addrs (cleared k ip) !! j = i_addrs ip !! j.
Proof.
  intros Hk Hj. cbn. rewrite lookup_app_r by (by rewrite length_replicate). rewrite length_replicate, lookup_drop. f_equal. lia.
Qed.

Lemma cleared_next k ip : (k < length (i_addrs ip))%nat ->
  set_i_addrs (<[k := 0]> (i_addrs (cleared k ip))) (cleared k ip) = cleared (S k) ip.
Proof.
  intros Hk. unfold cleared, set_i_addrs. cbn [i_dev i_inum i_ref i_valid i_type i_major i_minor i_nlink i_size i_addrs]. f_equal.
  rewrite replicate_S_end, <- app_assoc. rewrite insert_app_r_alt by (by rewrite length_replicate). f_equal. rewrite length_replicate, Nat.sub_diag.
  destruct (lookup_lt_is_Some_2 _ _ Hk) as [a Ha]. rewrite (drop_S _ _ _ Ha). done.
Qed.

Lemma cleared_skip k ip : i_addrs ip !! k = Some 0 -> cleared (S k) ip = cleared k ip.
Proof.
  intros Ha. unfold cleared. rewrite (drop_S _ _ _ Ha), replicate_S_end, <- app_assoc. done.
Qed.

(** The state of the loop over the direct blocks before its turn [k]. *)
Definition direct_inv (q : nat) s0 ip (bl : list Z) V (k : nat) s : Prop :=
  exists bt V1, logged bl bt /\ tx s c i pid (i_dev ip) start bt V1 ∅ /\ freed (e_sb (k_ext s0)) B0 V V1 (slots_below V ip k) /\
    ino_frame q (cleared k ip) s0 s.

Lemma free_direct_run q s0 ip bl V k s :
  e_inodes (k_ext s0) !! q = Some ip -> trunc_fix (e_sb (k_ext s0)) bl V ip -> tx_room (k_ext s0) bl ∅ 3 -> (k < 12)%nat ->
  direct_inv q s0 ip bl V k s -> exists s', free_direct q k s = Done tt s' /\ direct_inv q s0 ip bl V (S k) s'.
Proof.
  intros Hq Hfix Hrm Hk (bt & V1 & Hlg & Ht & Hfd & Hfr). pose proof (tf_file _ _ _ _ Hfix) as Hf. pose proof (io_len _ (fo_inode _ _ _ _ Hf)) as Hl.
  pose proof (ino_frame_get _ _ _ _ _ Hq Hfr) as Hq1. pose proof (ino_frame_sb _ _ _ _ Hfr) as Esb.
  assert (Ea : default 0 (i_addrs (cleared k ip) !! k) = addr_at V ip (Some (Z.of_nat k))).
  { rewrite cleared_get by lia. rewrite direct_addr by (unfold NDIRECT; lia). by rewrite Nat2Z.id. }
  unfold free_direct. mstep (get_addr_run q k s (cleared k ip) Hq1 ltac:(cbn; rewrite length_app, length_replicate, length_drop; lia)). rewrite Ea.
  destruct (decide (addr_at V ip (Some (Z.of_nat k)) = 0)) as [E|E].
  - rewrite E. change (truthy 0) with false. rewrite when_false. exists s. split; [done|]. exists bt, V1. split; [done|]. split; [done|]. split.
    + eapply freed_equiv; [|exact Hfd]. intros b. symmetry. by apply slots_below_skip.
    + rewrite cleared_skip; [done|]. destruct (lookup_lt_is_Some_2 (i_addrs ip) k) as [a Ha]; [lia|].
      rewrite direct_addr, Nat2Z.id, Ha in E by (unfold NDIRECT; lia). cbn in E. by rewrite Ha, E.
  - unfold truthy. rewrite (proj2 (Z.eqb_neq _ 0)) by done. cbn [negb]. rewrite when_true. mstep (get_inode_run q s _ Hq1).
    destruct (bfree_fs (e_sb (k_ext s0)) (i_dev ip) (addr_at V ip (Some (Z.of_nat k))) s bl bt V V1 (slots_below V ip k) ∅ ip (Some (Z.of_nat k)))
      as (s1 & V2 & Hrun & Ht1 & Hk1 & Hfd1); try done; [by eapply ino_frame_room| |].
    { intros [_ (j & Hj & Ej)]. pose proof (fo_inj _ _ _ _ Hf _ _ (eq_sym Ej) E). simplify_eq. lia. }
    change (i_dev (cleared k ip)) with (i_dev ip). mstep Hrun. pose proof (tx_keep_frame _ _ _ _ Hk1) as Hf1.
    assert (Hq2 : e_inodes (k_ext s1) !! q = Some (cleared k ip)) by (destruct Hf1 as [(_ & -> & _) _]; done).
    unfold set_addr. rewrite (mod_inode_run q _ s1 _ Hq2). rewrite cleared_next by lia. eexists. split; [done|].
    exists (with_block B0 bt), V2. split; [by apply logged_next|]. split; [by apply (tx_set_inodes c i pid start s1 (<[q := cleared (S k) ip]>))|]. split.
    + eapply freed_equiv; [|exact Hfd1]. intros b. symmetry. by apply slots_below_next.
    + eapply ino_frame_trans; [exact Hfr|]. destruct Hf1 as [(F1 & F2 & F3 & F4 & F5 & F6 & F7) Hw]. split; [|done]. split_and!; try done. cbn. by rewrite F2.
Qed.

(** The state of the loop over the entries of the indirect block, whose buffer
    [bp] is held since [s2]. *)
Definition entries_inv s2 ip (bl : list Z) V (bp : nat) (j : nat) s : Prop :=
  exists bt V1 y, logged bl bt /\ tx s c i pid (i_dev ip) start bt V1 ({[addr_at V ip None]} ∪ ∅) /\
    freed (e_sb (k_ext s2)) B0 V V1 (slots_below V ip (12 + j)) /\ tx_frame s2 s /\ buf_of (k_ext s) (i_dev ip) (addr_at V ip None) bp y.

Lemma indirect_apart sb bl V ip : trunc_fix sb bl V ip -> addr_at V ip None <> 0 -> addr_at V ip None <> B0.
Proof.
  intros [HB Hsz Hd Hf] Hne E. destruct (fo_data _ _ _ _ Hf None Hne) as ([_ _ Hbm _] & _). apply (Hbm 0); [lia|]. rewrite HB by lia. done.
Qed.

Lemma free_entry_run s2 ip bl V bp j s :
  trunc_fix (e_sb (k_ext s2)) bl V ip -> addr_at V ip None <> 0 -> tx_room (k_ext s2) bl ∅ 4 -> (j < 256)%nat ->
  entries_inv s2 ip bl V bp j s ->
  exists s', (x ← get_buf bp; when (truthy (get_le 4 (b_data x) (4 * Z.of_nat j))) (bfree (i_dev ip) (get_le 4 (b_data x) (4 * Z.of_nat j)))) s = Done tt s' /\
    entries_inv s2 ip bl V bp (S j) s'.
Proof.
  intros Hfix Hind Hrm Hj (bt & V1 & y & Hlg & Ht & Hfd & Hfr & Hb). pose proof (tf_file _ _ _ _ Hfix) as Hf.
  pose proof (indirect_apart _ _ _ _ Hfix Hind) as HindB. set (a := addr_at V ip None) in *.
  mstep (get_buf_run bp s y ltac:(apply Hb)). assert (HaL : a ∈ ({[a]} ∪ ∅ : gset Z)) by set_solver.
  rewrite (held_data c i pid start a bp y s _ _ _ _ Ht HaL Hb), (fd_other _ _ _ _ _ Hfd a HindB).
  assert (Ea : get_le 4 (V a) (4 * Z.of_nat j) = addr_at V ip (Some (Z.of_nat (12 + j)))).
  { rewrite indirect_addr; [|change MAXFILE with 268; unfold NDIRECT; lia|done]. fold a. f_equal. unfold NDIRECT. lia. }
  rewrite Ea. unfold entries_inv. rewrite Nat.add_succ_r. destruct (decide (addr_at V ip (Some (Z.of_nat (12 + j))) = 0)) as [E|E].
  - rewrite E. change (truthy 0) with false. rewrite when_false. exists s. split; [done|]. exists bt, V1, y. split_and!; try done; try apply Hb; [].
    eapply freed_equiv; [|exact Hfd]. intros b. symmetry. by apply slots_below_skip.
  - unfold truthy. rewrite (proj2 (Z.eqb_neq _ 0)) by done. cbn [negb]. rewrite when_true.
    assert (Esb : e_sb (k_ext s) = e_sb (k_ext s2)) by (destruct Hfr as [(-> & _) _]; done).
    destruct (bfree_fs (e_sb (k_ext s2)) (i_dev ip) (addr_at V ip (Some (Z.of_nat (12 + j)))) s bl bt V V1 (slots_below V ip (12 + j)) ({[a]} ∪ ∅) ip
      (Some (Z.of_nat (12 + j)))) as (s1 & V2 & Hrun & Ht1 & Hk1 & Hfd1); try done.
    + set_solver.
    + eapply tx_room_frame; [exact Hfr|]. apply tx_room_held; [set_solver|done].
    + intros [_ (p & Hp & Ep)]. pose proof (fo_inj _ _ _ _ Hf _ _ (eq_sym Ep) E). simplify_eq. lia.
    + destruct (proj2 (proj2 Hk1) a bp y HaL Hb) as [z Hz]. exists s1. split; [done|]. exists (with_block B0 bt), V2, z.
      split; [by apply logged_next|]. split; [done|]. split; [|split; [eapply tx_frame_trans; [exact Hfr|by eapply tx_keep_frame]|done]].
      eapply freed_equiv; [|exact Hfd1]. intros b. symmetry. by apply slots_below_next.
Qed.

(** The indirect block, with what is in it. *)
Lemma free_indirect_run q ip1 s1 ip bl bt V V1 :
  let a := addr_at V ip None in
  trunc_fix (e_sb (k_ext s1)) bl V ip -> a <> 0 -> tx_room (k_ext s1) bl ∅ 4 -> logged bl bt ->
  tx s1 c i pid (i_dev ip) start bt V1 ∅ -> freed (e_sb (k_ext s1)) B0 V V1 (slots_below V ip 12) ->
  (a ∈ bl \/ V a = media (k_ext s1) a) ->
  e_inodes (k_ext s1) !! q = Some ip1 -> i_addrs ip1 !! 12%nat = Some a ->
  exists s' bt' V', (bp ← bread (i_dev ip) a;
      for_each (seq 0 256) (fun j => x ← get_buf bp; when (truthy (get_le 4 (b_data x) (4 * Z.of_nat j))) (bfree (i_dev ip) (get_le 4 (b_data x) (4 * Z.of_nat j))));;
      brelse bp;; a' ← get_addr q 12; bfree (i_dev ip) a') s1 = Done tt s' /\
    logged bl bt' /\ tx s' c i pid (i_dev ip) start bt' V' ∅ /\ freed (e_sb (k_ext s1)) B0 V V' (owns V ip) /\ tx_frame s1 s'.
Proof.
  intros a Hfix Ha Hrm Hlg Ht Hfd Hclean Hq Ha12. pose proof (indirect_apart _ _ _ _ Hfix Ha) as HaB. fold a in HaB.
  destruct (bread_tx a s1 c i pid (i_dev ip) start bt V1 ∅ Ht) as (bp & y & s2 & Hrun2 & Ht2 & Hk2 & Hb & Hy); [set_solver| |].
  { apply (room_buffers (k_ext s1) bt ∅ 3 ltac:(lia)). by eapply logged_room. }
  mstep Hrun2. pose proof (tx_keep_frame _ _ _ _ Hk2) as Hf2. assert (Esb : e_sb (k_ext s2) = e_sb (k_ext s1)) by (destruct Hf2 as [(-> & _) _]; done).
  destruct (for_each_inv (entries_inv s2 ip bl V bp) (fun j => x ← get_buf bp; when (truthy (get_le 4 (b_data x) (4 * Z.of_nat j)))
    (bfree (i_dev ip) (get_le 4 (b_data x) (4 * Z.of_nat j)))) 256 0 s2) as (s3 & Hrun3 & bt3 & V3 & y3 & Hlg3 & Ht3 & Hfd3 & Hf3 & Hb3).
  { exists bt, V1, y. split_and!; try done; try apply Hb; [|apply tx_frame_refl]. by rewrite Esb. }
  { intros j s Hj Hinv. apply free_entry_run; try done; [by rewrite Esb|by eapply tx_room_keep|lia]. }
  mstep Hrun3. fold a in Ht3, Hb3. change (0 + 256)%nat with 256%nat in Hfd3. change (12 + 256)%nat with 268%nat in Hfd3.
  assert (HaL : a ∈ ({[a]} ∪ ∅ : gset Z)) by (apply elem_of_union_l; by apply elem_of_singleton_2).
  destruct (brelse_tx a bp y3 s3 c i pid (i_dev ip) start bt3 V3 _ Ht3 HaL Hb3) as (s4 & Hrun4 & Ht4 & Hf4 & _).
  { pose proof (tx_frame_trans _ _ _ Hf2 Hf3) as Hf13. destruct Hclean as [Hin|Hcl].
    - left. destruct Hlg3 as [->| ->]; [done|]. unfold with_block. destruct (decide _); [done|]. apply elem_of_app. by left.
    - right. rewrite (fd_other _ _ _ _ _ Hfd3 a HaB), (tx_frame_media _ _ _ Hf13). done. }
  mstep Hrun4. rewrite Esb in Hfd3. pose proof (tx_frame_trans _ _ _ Hf2 (tx_frame_trans _ _ _ Hf3 Hf4)) as Hf14.
  assert (Hq4 : e_inodes (k_ext s4) !! q = Some ip1) by (destruct Hf14 as [(_ & -> & _) _]; done).
  mstep (get_addr_run q 12 s4 ip1 Hq4 ltac:(by apply lookup_lt_Some in Ha12)). rewrite Ha12. change (default 0 (Some a)) with a.
  destruct (bfree_fs (e_sb (k_ext s1)) (i_dev ip) a s4 bl bt3 V V3 (slots_below V ip 268) ∅ ip None) as (s5 & V5 & Hrun5 & Ht5 & Hk5 & Hfd5); try done.
  - destruct Hf14 as [(-> & _) _]. done.
  - apply (txs_held_back c i pid (i_dev ip) start s4 bt3 V3 ∅ a); [apply not_elem_of_empty|exact Ht4].
  - eapply tx_room_frame; [exact Hf14|]. destruct Hrm as (? & ? & ?). split_and!; lia.
  - intros [_ (p & _ & Ep)]. by pose proof (fo_inj _ _ _ _ (tf_file _ _ _ _ Hfix) None _ (eq_sym Ep) Ha).
  - exists s5, (with_block B0 bt3), V5. split; [done|]. split; [by apply logged_next|]. split; [done|].
    split; [|eapply tx_frame_trans; [exact Hf14|by eapply tx_keep_frame]].
    eapply freed_equiv; [|exact Hfd5]. intros b. rewrite owns_slots. fold a. intuition congruence.
Qed.

Lemma cleared_all ip : length (i_addrs ip) = 13%nat -> cleared 13 ip = set_i_addrs (replicate 13 0) ip.
Proof. intros Hl. unfold cleared. rewrite drop_ge by lia. by rewrite app_nil_r. Qed.

(** All blocks of the file, before the size is set and the inode is stored. *)
Lemma free_all_run q s ip bl V :
  file_at c i pid start q s ip bl V -> trunc_fix (e_sb (k_ext s)) bl V ip -> tx_room (k_ext s) bl ∅ 4 ->
  exists s' bt V', (for_each (seq 0 12) (free_direct q);;
      a ← get_addr q 12;
      when (truthy a)
        (ip ← get_inode q; bp ← bread (i_dev ip) a;
         for_each (seq 0 256) (fun j => x ← get_buf bp; let aj := get_le 4 (b_data x) (4 * Z.of_nat j) in when (truthy aj) (bfree (i_dev ip) aj));;
         brelse bp;; a ← get_addr q 12; bfree (i_dev ip) a;; set_addr q 12 0)) s = Done tt s' /\
    logged bl bt /\ tx s' c i pid (i_dev ip) start bt V' ∅ /\ freed (e_sb (k_ext s)) B0 V V' (owns V ip) /\
    ino_frame q (set_i_addrs (replicate 13 0) ip) s s'.
Proof.
  intros [Hq Ht Hd Hf] Hfix Hrm. pose proof (io_len _ (fo_inode _ _ _ _ Hf)) as Hl. assert (Hrm3 : tx_room (k_ext s) bl ∅ 3) by (destruct Hrm as (? & ? & ?); split_and!; lia).
  destruct (for_each_inv (direct_inv q s ip bl V) (free_direct q) 12 0 s) as (s1 & Hrun1 & bt & V1 & Hlg & Ht1 & Hfd & Hfr).
  { exists bl, V. split_and!; try done; [by left| |].
    - apply freed_none. intros b [_ (j & Hj & _)]. lia.
    - apply ino_frame_intro; [|apply tx_frame_refl]. rewrite Hq. f_equal. unfold cleared. cbn. by destruct ip. }
  { intros k s1 Hk Hinv. apply free_direct_run; try done. lia. }
  mstep Hrun1. change (0 + 12)%nat with 12%nat in *. pose proof (ino_frame_get _ _ _ _ _ Hq Hfr) as Hq1. pose proof (ino_frame_sb _ _ _ _ Hfr) as Esb.
  destruct (lookup_lt_is_Some_2 (i_addrs ip) 12) as [a Ha]; [lia|].
  assert (Ha12 : i_addrs (cleared 12 ip) !! 12%nat = Some a) by (rewrite cleared_get by lia; done).
  assert (Ea : addr_at V ip None = a) by (cbn; by rewrite Ha).
  mstep (get_addr_run q 12 s1 _ Hq1 ltac:(by apply lookup_lt_Some in Ha12)). rewrite Ha12. change (default 0 (Some a)) with a.
  destruct (decide (a = 0)) as [E|E].
  - rewrite E. change (truthy 0) with false. rewrite when_false. exists s1, bt, V1. split; [done|]. split; [done|]. split; [done|]. split.
    + eapply freed_equiv; [|exact Hfd]. intros b. rewrite owns_slots. split.
      * intros [Hb (j & Hj & Ej)]. left. split; [done|]. exists j. split; [lia|done].
      * intros [[Hb (j & Hj & Ej)]|[Hb Eb]]; [|congruence]. split; [done|]. exists j. split; [|done].
        destruct (decide (j < 12)%nat); [done|]. rewrite indirect_none in Ej; [congruence|unfold NDIRECT; lia|congruence].
    + rewrite <- cleared_all by done. rewrite cleared_skip by (by rewrite Ha, E). done.
  - unfold truthy. rewrite (proj2 (Z.eqb_neq _ 0)) by done. cbn [negb]. rewrite when_true. mstep (get_inode_run q s1 _ Hq1). cbv zeta.
    change (i_dev (cleared 12 ip)) with (i_dev ip).
    destruct (free_indirect_run q (cleared 12 ip) s1 ip bl bt V V1) as (s2 & bt2 & V2 & Hrun2 & Hlg2 & Ht2 & Hfd2 & Hf2);
      rewrite ?Esb, ?Ea; try done; [by eapply ino_frame_room| |].
    { destruct (decide (a ∈ bl)); [by left|right]. destruct Hfr as [_ [_ Em]]. rewrite (tx_clean _ _ _ _ _ _ _ _ _ a Ht) by (done || apply not_elem_of_empty).
      unfold media. by rewrite Em. }
    rewrite Ea in Hrun2. rewrite Esb in Hfd2. apply bind_Done_inv in Hrun2 as (bp & s3 & R3 & Hrun2).
    apply bind_Done_inv in Hrun2 as ([] & s4 & R4 & Hrun2). apply bind_Done_inv in Hrun2 as ([] & s5 & R5 & Hrun2).
    apply bind_Done_inv in Hrun2 as (a' & s6 & R6 & R7). assert (Hq2 : e_inodes (k_ext s2) !! q = Some (cleared 12 ip)) by (destruct Hf2 as [(_ & -> & _) _]; done).
    set (s8 := with_ext (fun w => set_e_inodes (<[q := cleared 13 ip]> (e_inodes w)) w) s2).
    exists s8, bt2, V2. split; [|split; [done|split; [|split; [done|]]]].
    + mstep R3. mstep R4. mstep R5. mstep R6. mstep R7. unfold set_addr. rewrite (mod_inode_run q _ s2 _ Hq2). by rewrite cleared_next by lia.
    + by apply (tx_set_inodes c i pid start s2 (<[q := cleared 13 ip]>)).
    + rewrite <- cleared_all by done. eapply ino_frame_trans; [exact Hfr|]. destruct Hf2 as [(F1 & F2 & F3 & F4 & F5 & F6 & F7) Hw].
      split; [|done]. split_and!; try done. cbn. by rewrite F2.
Qed.

End Trunc.

(** ** The property *)

(** The inode of an empty file. *)
Definition emptied (ip : inode) : inode := set_i_size 0 (set_i_addrs (replicate 13 0) ip).

Lemma emptied_addr V ip x : addr_at V (emptied ip) x = 0.
Proof.
  destruct x as [bn|]; [|done]. destruct (decide (0 <= bn < NDIRECT)) as [Hb|Hb].
  - rewrite direct_addr by done. change (i_addrs (emptied ip)) with (replicate 13 0). rewrite lookup_replicate_2 by (unfold NDIRECT in Hb; lia). done.
  - destruct (decide (addr_at V (emptied ip) (Some bn) = 0)) as [|E]; [done|].
    pose proof (addr_at_range _ _ _ E). by apply (indirect_none V (emptied ip) bn); [lia|].
Qed.

Section Emptied.
Context (sb : superblock) (start B0 : Z) (V V1 : Z -> list Z) (ip : inode).
Context (HB : forall b, 0 <= b < sb_size sb -> BBLOCK b sb = B0) (Hsz : 0 < sb_size sb).
Context (Hd : disk_ok sb start V) (Hf : file_ok sb start V ip) (Hfd : freed sb B0 V V1 (owns V ip)).

Lemma emptied_ok V' : file_ok sb start V' (emptied ip).
Proof.
  destruct (fo_inode _ _ _ _ Hf). split; try (intros; by rewrite emptied_addr in *).
  - split; try done. apply Forall_replicate. lia.
  - apply Hf.
  - cbn. intros. unfold BSIZE in *. lia.
Qed.

Let inode_block := IBLOCK (i_inum ip) sb.
Let V2 := <[inode_block := store_dinode (emptied ip) (V1 inode_block)]> V1.

Lemma emptied_inum : 0 <= i_inum ip < sb_ninodes sb.
Proof. pose proof (io_inum _ (fo_inode _ _ _ _ Hf)). pose proof (fo_inum _ _ _ _ Hf). lia. Qed.

Lemma inodes_apart inum : 0 <= inum < sb_ninodes sb -> IBLOCK inum sb <> B0.
Proof. intros Hi E. destruct (do_inodes _ _ _ Hd inum Hi) as (_ & _ & Hb). apply (Hb 0); [lia|]. by rewrite HB by lia. Qed.

Lemma emptied_use b : 0 <= b < sb_size sb -> in_use V2 sb b = in_use V1 sb b.
Proof.
  intros Hb. unfold in_use, V2. rewrite HB by done. rewrite fn_lookup_insert_ne; [done|]. apply inodes_apart, emptied_inum.
Qed.

Lemma emptied_block n : data_block sb start n -> V2 n = V n.
Proof.
  intros [Hr _ Hbm Hdi]. unfold V2. rewrite fn_lookup_insert_ne by (apply Hdi, emptied_inum). apply (fd_other _ _ _ _ _ Hfd).
  intros ->. apply (Hbm 0); [lia|]. by rewrite HB by lia.
Qed.

Lemma emptied_length n : length (V n) = Z.to_nat BSIZE -> length (V2 n) = Z.to_nat BSIZE.
Proof.
  intros Hn. assert (H1 : length (V1 n) = Z.to_nat BSIZE).
  { destruct (decide (n = B0)) as [->|]; [rewrite (fd_len _ _ _ _ _ Hfd); done|by rewrite (fd_other _ _ _ _ _ Hfd)]. }
  unfold V2. destruct (decide (n = inode_block)) as [->|]; [|by rewrite fn_lookup_insert_ne]. rewrite fn_lookup_insert.
  apply store_dinode_length; [apply (emptied_ok V)|done].
Qed.

Lemma emptied_disk : disk_ok sb start V2.
Proof.
  destruct Hd as [[Hs Hst Hh Hl] Hfree Hi Hn]. split.
  - split; try done. intros b Hb. by apply emptied_length, Hl.
  - intros b Hb Hu. rewrite emptied_use in Hu by done. destruct (in_use V sb b) eqn:E; [|by apply Hfree].
    destruct (decide (owns V ip b)) as [[Ho [x Hx]]|Hno]; [rewrite <- Hx in *; by apply (fo_data _ _ _ _ Hf)|].
    rewrite (fd_out _ _ _ _ _ Hfd) in Hu by done. congruence.
  - intros inum Hin. destruct (Hi inum Hin) as (H1 & H2 & H3). split_and!; [done|by apply emptied_length|done].
  - done.
Qed.

Lemma emptied_becomes : file_becomes start sb V ip V2 (emptied ip) [].
Proof.
  assert (Hin : forall inum, 0 <= inum < sb_ninodes sb -> V1 (IBLOCK inum sb) = V (IBLOCK inum sb))
    by (intros inum Hi; apply (fd_other _ _ _ _ _ Hfd); by apply inodes_apart).
  pose proof (fo_inode _ _ _ _ (emptied_ok V)) as Ho. split.
  - done.
  - by exists (replicate 13 0).
  - unfold V2, inode_block. rewrite fn_lookup_insert, load_store_dinode; [by destruct ip|done|done|].
    rewrite Hin by apply emptied_inum. apply (do_inodes _ _ _ Hd), emptied_inum.
  - intros ip2 Hi2 Hne. apply (other_inode start sb V V1 ip ip2 (emptied ip) Hd Hin); try done. apply emptied_inum.
  - intros ip2 Hf2 Hdis. destruct (file_kept sb start V V2 ip2 Hf2) as (H1 & H2 & H3).
    { intros n Hn. pose proof (owns_range _ _ _ _ _ Hf2 Hn). destruct Hn as [Hn0 [x Hx]]. rewrite <- Hx in *. destruct (fo_data _ _ _ _ Hf2 x Hn0) as (Hdb & Hu & _).
      split; [by apply emptied_block|]. rewrite emptied_use by lia. rewrite (fd_out _ _ _ _ _ Hfd); [done|lia|].
      intros Ho'. apply (Hdis _ Ho'). split; [done|by exists x]. }
    split_and!; [done|done|]. intros n [Hn [x Hx]]. rewrite emptied_addr in Hx. congruence.
Qed.

End Emptied.

Section Properties.
Context `{Devices} `{RoundsOk} `{!DiskOps} `{!DiskOk}.

(** C13: truncating a file gives back exactly its blocks.  On a disk with one
    bitmap block, [itrunc] of a file of any size succeeds within four blocks of the
    log: the direct blocks, the blocks listed in the indirect block and the indirect
    block are free afterwards, every other block keeps its state, the file is empty
    and its inode is stored so, and no other inode and no other file changes. *)
Theorem itrunc_frees (s : kstate ext) (c : cpu) (i : nat) (pid start : Z) (bl : list Z) (V : Z -> list Z) (k : nat) (ip : inode) (B0 : Z) :
  let sb := e_sb (k_ext s) in
  file_at c i pid start k s ip bl V -> 0 < sb_size sb -> (forall b, 0 <= b < sb_size sb -> BBLOCK b sb = B0) -> tx_room (k_ext s) bl ∅ 4 ->
  exists s' bl' V', itrunc k s = Done tt s' /\ file_at c i pid start k s' (emptied ip) bl' V' /\ ino_frame k (emptied ip) s s' /\
    (forall b, 0 <= b < sb_size sb -> in_use V' sb b = if decide (owns V ip b) then false else in_use V sb b) /\
    file_becomes start sb V ip V' (emptied ip) [].
Proof.
  intros sb Hfa Hsz HB Hrm. pose proof Hfa as [Hk Ht Hd Hf]. fold sb in Hd, Hf.
  destruct (free_all_run c i pid start B0 k s ip bl V Hfa) as (s1 & bt & V1 & Hrun1 & Hlg & Ht1 & Hfd & Hfr1); [by split|done|]. fold sb in Hfd.
  assert (Hin : 0 <= i_inum ip < sb_ninodes sb) by (pose proof (io_inum _ (fo_inode _ _ _ _ Hf)); pose proof (fo_inum _ _ _ _ Hf); lia).
  pose proof (ino_frame_get _ _ _ _ _ Hk Hfr1) as Hk1. set (s2 := with_ext (fun w => set_e_inodes (<[k := emptied ip]> (e_inodes w)) w) s1).
  assert (Hk2 : e_inodes (k_ext s2) !! k = Some (emptied ip)) by (cbn; apply list_lookup_insert_eq; by apply lookup_lt_Some in Hk1).
  assert (Hfr2 : ino_frame k (emptied ip) s s2) by (eapply ino_frame_trans; [exact Hfr1|apply tx_frame_refl]).
  pose proof (ino_frame_sb _ _ _ _ Hfr2) as Esb2. fold sb in Esb2.
  destruct (iupdate_tx c i pid start k s2 (emptied ip) bt V1 ∅ Hk2) as (s3 & Hrun3 & Ht3 & Hk3); rewrite ?Esb2; change (i_inum (emptied ip)) with (i_inum ip).
  - by apply (tx_set_inodes c i pid start s1 (<[k := emptied ip]>)).
  - apply not_elem_of_empty.
  - by apply (do_inodes _ _ _ Hd).
  - eapply ino_frame_room; [exact Hfr2|]. eapply logged_room; [exact Hlg|]. destruct Hrm as (? & ? & ?). split_and!; lia.
  - rewrite Esb2 in Ht3. change (i_inum (emptied ip)) with (i_inum ip) in Ht3. pose proof (tx_keep_frame _ _ _ _ Hk3) as Hf3.
    assert (Hfr3 : ino_frame k (emptied ip) s s3) by (eapply ino_frame_trans; [exact Hfr2|by apply ino_frame_intro]).
    exists s3. do 2 eexists. split; [|split; [|split; [exact Hfr3|split]]].
    + apply bind_Done_inv in Hrun1 as ([] & sa & Ra & Hrun1). apply bind_Done_inv in Hrun1 as (a & sb' & Rb & Rc).
      unfold itrunc. mstep Ra. mstep Rb. mstep Rc. mstep (mod_inode_run k (set_i_size 0) s1 _ Hk1). exact Hrun3.
    + split; rewrite ?(ino_frame_sb _ _ _ _ Hfr3).
      * eapply ino_frame_get; [exact Hk|exact Hfr3].
      * exact Ht3.
      * by apply (emptied_disk sb start B0 V V1 ip).
      * eapply emptied_ok; eauto.
    + intros b Hb. rewrite (emptied_use sb start B0 V V1 ip) by done. destruct (decide (owns V ip b)); by apply Hfd.
    + by apply (emptied_becomes sb start B0 V V1 ip).
Qed.

End Properties.

(** ** A file to evaluate on *)

#[local] Instance trunc_round : Rounds := 1%nat.
#[local] Instance trunc_round_ok : RoundsOk := Nat.lt_0_1.
#[local] Instance trunc_devices : Devices := no_devices.
#[local] Instance trunc_disk : DiskOps := ideal_disk.

(** Two bytes are written to a new file, which is then truncated. *)
Lemma itrunc_frees_witness :
  exists s s1 s2 : kstate ext, writei_local 0 [104; 105] 0 2 s = Done 2 s1 /\ itrunc 0 s1 = Done tt s2.
Proof.
  destruct (disk_tx demo_media demo_sb demo_inode) as (s & Ht & Esb & Hk & Els & _).
  assert (Hfa : file_at fs_cpu O 1 2 O s demo_inode [] demo_view).
  { split; [done|done|rewrite Esb; apply demo_disk|rewrite Esb; apply demo_file]. }
  destruct (writei_run fs_cpu O 1 2 O s demo_inode [] demo_view 0 [104; 105] Hfa) as (s1 & ip1 & bl1 & V1 & H1 & Hfa1 & Hfr1 & _ & Hl1);
    [done|done|by apply disk_room|rewrite Esb; vm_compute; done|].
  assert (E1 : e_sb (k_ext s1) = demo_sb) by (by rewrite (ino_frame_sb _ _ _ _ Hfr1)).
  destruct (itrunc_frees s1 fs_cpu O 1 2 bl1 V1 O ip1 45 Hfa1) as (s2 & _ & _ & H2 & _); rewrite ?E1.
  - done.
  - apply demo_bblock.
  - eapply ino_frame_room; [exact Hfr1|]. apply (tx_room_less _ [] _ _ _ 7); [|by apply disk_room].
    change (write_rounds 0 (Z.of_nat (length [104; 105]))) with 1 in Hl1. cbn [length] in *. lia.
  - exists s, s1, s2. split; [exact H1|exact H2].
Defined.
