(* ===== verification/Grind.v ===== *)
(** * user/grind.c: random system calls

    The random number generator of the program, the operations that it chooses
    from, and the processes that run them.  The generator is proved to be the
    one of Park and Miller that its comment names. *)

From S2P Require Import Prelude Machine Memory User Programs.
Import Ulib Uprintf.

(** ** The generator *)

(** The new value of [*ctx], which is also the result; [ctx] is an unsigned long,
    [hi], [lo] and [x] are longs. *)
Definition do_rand (ctx : Z) : Z :=
  let x := ctx mod 0x7ffffffe + 1 in
  let hi := x / 127773 in
  let lo := x mod 127773 in
  let x := 16807 * lo - 2836 * hi in
  let x := if x <? 0 then x + 0x7fffffff else x in
  x - 1.

(** The value of [rand] and the new [rand_next]. *)
Definition rand (rand_next : Z) : Z * Z := (s32 (do_rand rand_next), u64 (do_rand rand_next)).

(** ** The operations *)

(** The system calls of grind beyond those of [Sys]: [sbrk] and [getpid], and
    [wait] with the status it stores, if it finds a child. *)
Class GrindSys (St : Type) := {
  os_sbrk : Z -> St -> Z * St;
  os_getpid : St -> Z * St;
  os_wait_status : St -> option Z * St
}.

Section Grind.
Context {St : Type} `{Sys St} `{GrindSys St}.
(** The value of a local variable before it is set. *)
Context (unset : Z).

Definition sbrk (n : Z) : UM St Z := call (os_sbrk n).
Definition getpid : UM St Z := call os_getpid.
Definition wait_status (old : Z) : UM St Z := r ← call os_wait_status; mret (default old r).

Definition create (path : string) : UM St Z := open (chars path) (Z.lor O_CREATE O_RDWR).
Definition create_close (path : string) : UM St unit := fd ← create path; close fd;; mret tt.

(** A message and [exit(status)]. *)
Definition fail {A} (msg : string) : UM St A := printf (line msg) [];; exit 1.
Definition fail2 {A} (msg : string) (status : Z) : UM St A := fprintf 2 (line msg) [];; exit status.

(** [fork], the child's code, and the parent's with the child's pid. *)
Definition fork_child {A} (child : UM St A) (parent : Z -> UM St A) : UM St A :=
  pid ← fork;
  if pid =? 0 then child;; exit 0
  else if pid <? 0 then fail "grind: fork failed"
  else parent pid.

(** [what == 19]: a pipe that three more processes write and read. *)
Definition go_pipe : UM St unit :=
  fds ← pipe;
  match fds with
  | None => fail "grind: pipe failed"
  | Some (r, w) =>
      fork_child
        (fork;;
         fork;;
         n ← write w (chars "x");
         uwhen (negb (n =? 1)) (printf (line "grind: pipe write failed") []);;
         bs ← read r 1;
         uwhen (match bs with Some [_] => false | _ => true end) (printf (line "grind: pipe read failed") []))
        (fun _ => close r;; close w;; wait;; mret tt)
  end.

(** [what == 21]: creating a file must succeed. *)
Definition go_create : UM St unit :=
  unlink (chars "c");;
  fd1 ← create "c";
  if fd1 <? 0 then fail "grind: create c failed" else
  n ← write fd1 (chars "x");
  if negb (n =? 1) then fail "grind: write c failed" else
  st ← fstat fd1;
  match st with
  | None => fail "grind: fstat failed"
  | Some st =>
      if negb (st_size st =? 1) then printf (line "grind: fstat reports wrong size %d") [UInt (st_size st)];; exit 1 else
      if 200 <? st_ino st then printf (line "grind: fstat reports crazy i-number %d") [UInt (st_ino st)];; exit 1 else
      close fd1;;
      unlink (chars "c");;
      mret tt
  end.

(** The two children of [what == 22], between the pipes [aa] and [bb]. *)
Definition run_echo (aa bb : Z * Z) : UM St unit :=
  close (fst bb);; close (snd bb);; close (fst aa);;
  close 1;;
  n ← dup (snd aa);
  if negb (n =? 1) then fail2 "grind: dup failed" 1 else
  close (snd aa);;
  exec (chars "grindir/../echo") [chars "echo"; chars "hi"];;
  fail2 "grind: echo: not found" 2.

Definition run_cat (aa bb : Z * Z) : UM St unit :=
  close (snd aa);; close (fst bb);;
  close 0;;
  n ← dup (fst aa);
  if negb (n =? 0) then fail2 "grind: dup failed" 4 else
  close (fst aa);;
  close 1;;
  n ← dup (snd bb);
  if negb (n =? 1) then fail2 "grind: dup failed" 5 else
  close (snd bb);;
  exec (chars "/cat") [chars "cat"];;
  fail2 "grind: cat: not found" 6.

(** [read(fd, &buf[k], 1)] *)
Definition read_byte (fd : Z) (k : nat) (buf : list Z) : UM St (list Z) :=
  r ← read fd 1;
  mret (match r with Some (b :: _) => <[k := b]> buf | _ => buf end).

(** [what == 22]: echo hi | cat *)
Definition go_pipeline : UM St unit :=
  aa ← pipe;
  match aa with
  | None => fail2 "grind: pipe failed" 1
  | Some aa =>
      bb ← pipe;
      match bb with
      | None => fail2 "grind: pipe failed" 1
      | Some bb =>
          pid1 ← fork;
          if pid1 =? 0 then run_echo aa bb else
          if pid1 <? 0 then fail2 "grind: fork failed" 3 else
          pid2 ← fork;
          if pid2 =? 0 then run_cat aa bb else
          if pid2 <? 0 then fail2 "grind: fork failed" 7 else
          close (fst aa);; close (snd aa);; close (snd bb);;
          buf ← read_byte (fst bb) 0 [0; 0; 0; 0];
          buf ← read_byte (fst bb) 1 buf;
          buf ← read_byte (fst bb) 2 buf;
          close (fst bb);;
          st1 ← wait_status unset;
          st2 ← wait_status unset;
          if negb (st1 =? 0) || negb (st2 =? 0) || negb (strcmp (cstring buf) (chars "hi" ++ [nl]) =? 0) then
            printf (chars "grind: exec pipeline failed %d %d " ++ [34] ++ chars "%s" ++ [34; nl])
              [UInt st1; UInt st2; UStr (Some (cstring buf))];; exit 1
          else mret tt
      end
  end.

(** The file descriptor and the buffer that the operations share. *)
Record gvars := GVars { g_fd : Z; g_buf : list Z }.

Definition unlink_chdir : UM St unit :=
  r ← chdir (chars "grindir");
  if negb (r =? 0) then fail "grind: chdir grindir failed" else
  unlink (chars "../b");;
  chdir (chars "/");;
  mret tt.

(** The operations that do not touch [fd] and [buf]. *)
Definition go_other (what break0 : Z) : UM St unit :=
  match what with
  | 1 => create_close "grindir/../a"
  | 2 => create_close "grindir/../grindir/../b"
  | 3 => unlink (chars "grindir/../a");; mret tt
  | 4 => unlink_chdir
  | 9 => mkdir (chars "grindir/../a");; create_close "a/../a/./a";; unlink (chars "a/a");; mret tt
  | 10 => mkdir (chars "/../b");; create_close "grindir/../b/b";; unlink (chars "b/b");; mret tt
  | 11 => unlink (chars "b");; link (chars "../grindir/./../a") (chars "../b");; mret tt
  | 12 => unlink (chars "../grindir/../a");; link (chars ".././b") (chars "/grindir/../a");; mret tt
  | 13 => fork_child (mret tt) (fun _ => wait;; mret tt)
  | 14 => fork_child (fork;; fork;; mret tt) (fun _ => wait;; mret tt)
  | 15 => sbrk 6011;; mret tt
  | 16 =>
      b ← sbrk 0;
      uwhen (break0 <? b) (b ← sbrk 0; sbrk (s32 (- (b - break0)));; mret tt)
  | 17 =>
      fork_child (create_close "a") (fun pid =>
        r ← chdir (chars "../grindir/..");
        if negb (r =? 0) then fail "grind: chdir failed" else
        kill pid SIGKILL;;
        wait;;
        mret tt)
  | 18 => fork_child (pid ← getpid; kill pid SIGKILL;; mret tt) (fun _ => wait;; mret tt)
  | 19 => go_pipe
  | 20 =>
      fork_child
        (unlink (chars "a");; mkdir (chars "a");; chdir (chars "a");; unlink (chars "../a");;
         create "x";; unlink (chars "x");; mret tt)
        (fun _ => wait;; mret tt)
  | 21 => go_create
  | 22 => go_pipeline
  | _ => mret tt
  end.

Definition go_op (what break0 : Z) (v : gvars) : UM St gvars :=
  match what with
  | 5 => close (g_fd v);; fd ← create "/grindir/../a"; mret (GVars fd (g_buf v))
  | 6 => close (g_fd v);; fd ← create "/./grindir/./../b"; mret (GVars fd (g_buf v))
  | 7 => write (g_fd v) (g_buf v);; mret v
  | 8 =>
      r ← read (g_fd v) (length (g_buf v));
      mret (match r with Some bs => GVars (g_fd v) (bs ++ drop (length bs) (g_buf v)) | None => v end)
  | _ => go_other what break0;; mret v
  end.

Fixpoint go_loop (fuel : nat) (which_child : bool) (break0 iters rand_next : Z) (v : gvars) : UM St unit :=
  match fuel with
  | O => uno_fuel
  | S f =>
      let iters := u64 (iters + 1) in
      uwhen (iters mod 500 =? 0) (write 1 (chars (if which_child then "B" else "A"));; mret tt);;
      let (r, rand_next) := rand rand_next in
      v ← go_op (Z.rem r 23) break0 v;
      go_loop f which_child break0 iters rand_next v
  end.

(** [go] never returns: [fuel] is the number of operations observed. *)
Definition go (fuel : nat) (which_child : bool) (rand_next : Z) : UM St unit :=
  break0 ← sbrk 0;
  mkdir (chars "grindir");;
  r ← chdir (chars "grindir");
  if negb (r =? 0) then fail "grind: chdir grindir failed" else
  chdir (chars "/");;
  go_loop fuel which_child break0 0 rand_next (GVars (-1) (replicate 999 0)).

(** ** The processes *)

Definition iter (fuel : nat) : UM St unit :=
  unlink (chars "a");;
  unlink (chars "b");;
  pid1 ← fork;
  if pid1 <? 0 then fail "grind: fork failed" else
  if pid1 =? 0 then go fuel false 31;; exit 0 else
  pid2 ← fork;
  if pid2 <? 0 then fail "grind: fork failed" else
  if pid2 =? 0 then go fuel true 7177;; exit 0 else
  st1 ← wait_status (-1);
  uwhen (negb (st1 =? 0)) (kill pid1 SIGKILL;; kill pid2 SIGKILL;; mret tt);;
  wait_status (-1);;
  exit 0.

(** [rounds] bounds the iterations of the endless loop. *)
Fixpoint grind_main (rounds fuel : nat) : UM St unit :=
  match rounds with
  | O => uno_fuel
  | S n =>
      pid ← fork;
      if pid =? 0 then iter fuel;; exit 0 else
      uwhen (0 <? pid) (wait;; mret tt);;
      sleep 20;;
      grind_main n fuel
  end.

End Grind.

(** ** Properties of the generator *)

Lemma rand_prime_inverse : 16807 * 1407677000 = 11017 * 0x7fffffff + 1.
Proof. done. Qed.

(** The multiplier is invertible, so that no multiple of it is lost. *)
Lemma rand_cancel x y : 0 <= x < 0x7fffffff -> 0 <= y < 0x7fffffff -> (16807 * x) mod 0x7fffffff = (16807 * y) mod 0x7fffffff -> x = y.
Proof.
  intros Hx Hy E. rewrite <- (Z.mod_small x 0x7fffffff Hx), <- (Z.mod_small y 0x7fffffff Hy).
  assert (Hinv : forall z, z mod 0x7fffffff = (1407677000 * ((16807 * z) mod 0x7fffffff)) mod 0x7fffffff).
  { intros z. rewrite Z.mul_mod_idemp_r by done. replace (1407677000 * (16807 * z)) with (z + (11017 * z) * 0x7fffffff) by lia.
    by rewrite Z.mod_add. }
  by rewrite (Hinv x), (Hinv y), E.
Qed.

Lemma do_rand_value ctx : 0 <= ctx ->
  let x := ctx mod 0x7ffffffe + 1 in
  do_rand ctx + 1 = (16807 * x) mod 0x7fffffff /\ 0 <= do_rand ctx <= 0x7ffffffd /\ Z.abs (16807 * (x mod 127773) - 2836 * (x / 127773)) < 2 ^ 31.
Proof.
  intros Hc x. assert (Hx : 1 <= x <= 0x7ffffffe) by (unfold x; pose proof (Z.mod_pos_bound ctx 0x7ffffffe ltac:(lia)); lia).
  unfold do_rand. fold x. clearbody x. pose proof (Z.div_mod x 127773 ltac:(lia)) as Hd. pose proof (Z.mod_pos_bound x 127773 ltac:(lia)) as Hl.
  set (hi := x / 127773) in *. set (lo := x mod 127773) in *. assert (Hh : 0 <= hi <= 16807) by lia.
  assert (E : 16807 * x = 0x7fffffff * hi + (16807 * lo - 2836 * hi)) by lia.
  assert (Hne : 16807 * lo - 2836 * hi <> 0).
  { intros E0. rewrite E0, Z.add_0_r in E. assert (x = 0); [|lia]. apply rand_cancel; [lia|lia|]. rewrite E, Z.mul_comm, Z.mod_mul by done. done. }
  assert (Em : (16807 * x) mod 0x7fffffff = if 16807 * lo - 2836 * hi <? 0 then 16807 * lo - 2836 * hi + 0x7fffffff else 16807 * lo - 2836 * hi).
  { symmetry. destruct (Z.ltb_spec (16807 * lo - 2836 * hi) 0); [apply Z.mod_unique with (hi - 1)|apply Z.mod_unique with hi]; lia. }
  rewrite Em. destruct (Z.ltb_spec (16807 * lo - 2836 * hi) 0); split_and!; lia.
Qed.

(** C35: the generator is the one its comment names.  For every state, [do_rand]
    computes the step [7^5 * x mod (2^31 - 1)] of Park and Miller, without an
    intermediate value beyond 31 bits; the result is between 0 and 0x7ffffffd, so
    the conversions to [int] and back lose nothing and [rand() % 23] selects one of
    the 23 operations; and two different states in that range have different
    successors, so the sequence of states is a cycle that never gets stuck. *)
Theorem do_rand_park_miller (ctx : Z) :
  0 <= ctx < 2 ^ 64 ->
  let x := ctx mod 0x7ffffffe + 1 in
  do_rand ctx + 1 = (7 ^ 5 * x) mod (2 ^ 31 - 1) /\ Z.abs (16807 * (x mod 127773) - 2836 * (x / 127773)) < 2 ^ 31 /\
  0 <= do_rand ctx <= 0x7ffffffd /\ rand ctx = (do_rand ctx, do_rand ctx) /\ 0 <= Z.rem (fst (rand ctx)) 23 <= 22 /\
  forall ctx', 0 <= ctx <= 0x7ffffffd -> 0 <= ctx' <= 0x7ffffffd -> do_rand ctx = do_rand ctx' -> ctx = ctx'.
Proof.
  intros Hc x. destruct (do_rand_value ctx ltac:(lia)) as (H1 & H2 & H3).
  assert (Er : rand ctx = (do_rand ctx, do_rand ctx)) by (unfold rand; rewrite s32_small, u64_small by lia; done).
  split; [exact H1|]. split; [exact H3|]. split; [exact H2|]. split; [exact Er|]. split.
  - rewrite Er. cbn [fst]. pose proof (Z.rem_bound_pos (do_rand ctx) 23 ltac:(lia) ltac:(lia)). lia.
  - intros ctx' Hr Hr' E. destruct (do_rand_value ctx' ltac:(lia)) as (H1' & _ & _). unfold x in H1. rewrite (Z.mod_small ctx) in H1 by lia.
    rewrite (Z.mod_small ctx') in H1' by lia. assert (ctx + 1 = ctx' + 1); [|lia]. apply rand_cancel; [lia|lia|]. by rewrite <- H1, <- H1', E.
Qed.

Lemma do_rand_park_miller_witness : do_rand 31 = 537823 /\ 0 <= do_rand 31 <= 0x7ffffffd.
Proof.
  destruct (do_rand_park_miller 31) as (_ & _ & H & _); [lia|]. split; [reflexivity|exact H].
Defined.
