(* ===== verification/MountSpec.v ===== *)
(** * The kernel on an image that mkfs built

    The composition of the image builder with the kernel's file system: the
    layout that mkfs leaves satisfies what the kernel's allocator, inodes, files
    and directories rely on, and [ilock], [readi] and [dirlookup] find the files
    that mkfs was given. *)

From stdpp Require Import functions.
From S2P Require Import User Mkfs MkfsSpec MkfsImage.
From S2P Require Import Prelude Machine Memory State Spinlock Kalloc Vm Proc FsState Sleeplock Bio Log Fs FsSpec FileSpec DirSpec PathSpec.

(** ** The layout *)

Section Image.
Context (g : image) (fs : list MkfsSpec.file) (Hb : built g fs).

Lemma image_data_block b : nmeta <= b < FSSIZE -> data_block sb 2 b.
Proof.
  intros Hr. change nmeta with 46 in Hr. change FSSIZE with 1000 in Hr. split.
  - change (sb_size sb) with 1000. lia.
  - split; [lia|]. unfold home. change LOGSIZE with 30. lia.
  - intros b' Hb'. change (sb_size sb) with 1000 in Hb'. unfold BBLOCK. change BPB with 8192. change (sb_bmapstart sb) with 45. rewrite u32_small; lia.
  - intros inum Hi. change (sb_ninodes sb) with 200 in Hi. pose proof (inode_block inum ltac:(lia)). lia.
Qed.

Lemma image_disk : disk_ok sb 2 (sectors g).
Proof.
  destruct (bt_free _ _ Hb) as [Hf1 Hf2]. split.
  - apply (bt_bitmap _ _ Hb).
  - intros b Hr Hu. change (sb_size sb) with FSSIZE in Hr. rewrite (bt_used _ _ Hb) in Hu by done. apply Z.ltb_ge in Hu. apply image_data_block. lia.
  - intros inum Hi. change (sb_ninodes sb) with 200 in Hi. pose proof (inode_block inum ltac:(lia)) as Hr.
    destruct (bt_inodes _ _ Hb _ Hr) as (d & Hd & Hl). split_and!.
    + split; [lia|]. unfold home. change LOGSIZE with 30. lia.
    + unfold sectors. rewrite Hd. exact Hl.
    + intros b Hb'. change (sb_size sb) with 1000 in Hb'. unfold BBLOCK. change BPB with 8192. change (sb_bmapstart sb) with 45. rewrite u32_small; lia.
  - done.
Qed.

(** ** One file *)

Context (k : nat) (f : MkfsSpec.file) (Hk : fs !! k = Some f) (Hty : MkfsSpec.f_type f = T_DIR \/ MkfsSpec.f_type f = T_FILE) (ip0 : inode) (Hin : i_inum ip0 = 1 + Z.of_nat k).

Let ip : inode := set_i_valid 1 (load_dinode (sectors g (IBLOCK (i_inum ip0) sb)) ip0).

Lemma image_addrs j : (j < 13)%nat -> i_addrs ip !! j = Some (get_le 4 (dinode_at (sects g) (1 + Z.of_nat k)) (12 + 4 * Z.of_nat j)).
Proof. intros Hj. unfold ip. cbn [set_i_valid i_addrs load_dinode]. rewrite Hin. apply dip_addr_at; [lia|done]. Qed.

Lemma image_addr x : addr_at (sectors g) ip x =
  match x with None => f_ind f | Some bn => if 0 <=? bn then default 0 (f_blocks f !! Z.to_nat bn) else 0 end.
Proof.
  destruct (bt_files _ _ Hb k f Hk) as (F1 & F2 & _). pose proof (bo_max _ _ F2) as Hmax.
  assert (Hnone : addr_at (sectors g) ip None = f_ind f) by (cbn [addr_at]; rewrite image_addrs by lia; apply (di_indirect _ _ F1)).
  destruct x as [bn|]; [|done]. destruct (Z.leb_spec 0 bn) as [H0|H0].
  2:{ destruct (decide (addr_at (sectors g) ip (Some bn) = 0)) as [|E]; [done|]. apply addr_at_range in E. lia. }
  destruct (decide (bn < NDIRECT)) as [Hd|Hd].
  { rewrite direct_addr by done. unfold NDIRECT in Hd. rewrite image_addrs by lia. change (default 0 (Some ?v)) with v.
    rewrite (di_direct _ _ F1) by lia. done. }
  destruct (decide (bn < MAXFILE)) as [Hm|Hm].
  2:{ change MAXFILE with 268 in Hm. rewrite (lookup_ge_None_2 (f_blocks f)) by lia.
      destruct (decide (addr_at (sectors g) ip (Some bn) = 0)) as [|E]; [done|]. apply addr_at_range in E. change MAXFILE with 268 in E. lia. }
  unfold NDIRECT in Hd. change MAXFILE with 268 in Hm. destruct (decide (f_ind f = 0)) as [E|E].
  - rewrite indirect_none by (unfold NDIRECT; lia || by rewrite Hnone). apply (bo_ind _ _ F2) in E.
    by rewrite (lookup_ge_None_2 (f_blocks f)) by lia.
  - destruct (bo_entries _ _ F2 E) as (d & Hd1 & _ & He).
    rewrite indirect_addr, Hnone by (unfold NDIRECT; change MAXFILE with 268; lia || by rewrite Hnone). unfold sectors. rewrite Hd1.
    cbn [default]. unfold NDIRECT. replace (4 * (bn - 12)) with (4 * Z.of_nat (Z.to_nat bn - 12)) by lia. change (default zeroes (Some d)) with d. rewrite He by lia. do 2 f_equal. lia.
Qed.

(** Where the blocks of the slots are among those the file owns. *)
Lemma image_owned x : addr_at (sectors g) ip x <> 0 ->
  owned f !! (match x with None => length (f_blocks f) | Some bn => Z.to_nat bn end) = Some (addr_at (sectors g) ip x) /\
  match x with None => True | Some bn => 0 <= bn /\ (Z.to_nat bn < length (f_blocks f))%nat end.
Proof.
  rewrite image_addr. unfold owned. destruct x as [bn|].
  - destruct (Z.leb_spec 0 bn); [|done]. destruct (f_blocks f !! Z.to_nat bn) as [b|] eqn:E; [|done]. intros _.
    pose proof (lookup_lt_Some _ _ _ E). by rewrite lookup_app_l.
  - intros Hne. rewrite (proj2 (Z.eqb_neq _ 0)) by done. by rewrite lookup_app_r, Nat.sub_diag by lia.
Qed.

Lemma image_fields : i_type ip = MkfsSpec.f_type f /\ i_nlink ip = 1 /\ i_size ip = final_size k (length (f_data f)) /\
  i_inum ip = 1 + Z.of_nat k /\ i_dev ip = i_dev ip0.
Proof.
  destruct (bt_files _ _ Hb k f Hk) as (F1 & _ & F3 & _).
  destruct (load_dinode_at g (1 + Z.of_nat k) f _ ip0 F1 F3 ltac:(lia) Hin ltac:(unfold T_DIR, T_FILE in Hty; lia)) as (E1 & E2 & E3).
  unfold ip. rewrite Hin. split_and!; done.
Qed.

Lemma image_inode_ok : inode_ok ip.
Proof.
  destruct image_fields as (E1 & E2 & E3 & E4 & _). destruct (bt_files _ _ Hb k f Hk) as (F1 & F2 & F3 & F4 & F5).
  pose proof (bo_max _ _ F2) as Hmax. pose proof (bo_fits _ _ F2) as Hfits.
  assert (Hs16 : forall v, - 2 ^ 15 <= s16 v < 2 ^ 15) by (intros v; unfold s16; lia). split.
  - rewrite E4. lia.
  - rewrite E1. unfold T_DIR, T_FILE in Hty. lia.
  - apply Hs16.
  - apply Hs16.
  - rewrite E2. lia.
  - rewrite E3. unfold final_size. change BSIZE with 1024. destruct (Nat.eqb_spec k 0); lia.
  - unfold ip. cbn [set_i_valid i_addrs load_dinode]. unfold dip_addrs. by rewrite length_fmap, length_seq.
  - apply Forall_lookup. intros j a Hj. assert (Hj13 : (j < 13)%nat).
    { apply lookup_lt_Some in Hj. unfold ip in Hj. cbn [set_i_valid i_addrs load_dinode] in Hj. unfold dip_addrs in Hj. by rewrite length_fmap, length_seq in Hj. }
    assert (Ea : a = addr_at (sectors g) ip (slot_of j)) by (rewrite slot_addr by lia; by rewrite Hj).
    destruct (decide (a = 0)) as [->|Hne]; [lia|]. rewrite Ea in Hne. destruct (image_owned _ Hne) as [Ho _]. rewrite <- Ea in Ho.
    destruct F4 as [_ Hr]. rewrite Forall_lookup in Hr. apply Hr in Ho. destruct (bt_free _ _ Hb) as [_ Hf2]. change FSSIZE with 1000 in Hf2.
    change nmeta with 46 in Ho. lia.
Qed.

(** The size does not go beyond the last block; for the root directory this is a
    condition on the number of entries. *)
Context (Hfit : k <> O \/ (length (f_data f) mod 1024 <> 0)%nat).

Lemma image_size_fits : final_size k (length (f_data f)) <= 1024 * Z.of_nat (length (f_blocks f)) /\ Z.of_nat (length (f_data f)) <= final_size k (length (f_data f)).
Proof.
  destruct (bt_files _ _ Hb k f Hk) as (_ & _ & _ & _ & F5). rewrite F5. pose proof (blocks_of_spec (length (f_data f))) as Hs.
  unfold final_size. change BSIZE with 1024. destruct (Nat.eqb_spec k 0) as [E|E]; [|lia]. destruct Hfit as [|Hm]; [done|].
  pose proof (Nat.div_mod_eq (length (f_data f)) 1024). assert (Hq : (length (f_data f) / 1024 + 1 <= blocks_of (length (f_data f)))%nat) by lia.
  assert (Ez : Z.of_nat (length (f_data f)) / 1024 = Z.of_nat (length (f_data f) / 1024)) by (by rewrite Nat2Z.inj_div).
  rewrite Ez. pose proof (Nat.mod_upper_bound (length (f_data f)) 1024 ltac:(lia)). lia.
Qed.

Context (Hlen : (length fs <= 199)%nat).

Lemma image_file : file_ok sb 2 (sectors g) ip.
Proof.
  destruct image_fields as (E1 & E2 & E3 & E4 & _). destruct (bt_files _ _ Hb k f Hk) as (F1 & F2 & F3 & [F4 F4'] & F5).
  pose proof (lookup_lt_Some _ _ _ Hk) as Hkl. destruct (bt_free _ _ Hb) as [_ Hf2]. destruct image_size_fits as [Hfits _].
  rewrite Forall_lookup in F4'. split.
  - apply image_inode_ok.
  - rewrite E4. change (sb_ninodes sb) with 200. lia.
  - intros x Hx. destruct (image_owned x Hx) as [Ho Hr]. pose proof (F4' _ _ Ho) as Hrange. cbn in Hrange.
    split_and!; [apply image_data_block; lia| |].
    + rewrite (bt_used _ _ Hb) by (change nmeta with 46 in Hrange; lia). apply Z.ltb_lt. lia.
    + revert Hx. rewrite image_addr. unfold sectors. destruct x as [bn|].
      * destruct (Z.leb_spec 0 bn); [|done]. destruct (f_blocks f !! Z.to_nat bn) as [b|] eqn:E; [|done]. intros _.
        change (default 0 (Some b)) with b. rewrite (bo_data _ _ F2 _ _ E). change (default zeroes (Some ?v)) with v. by rewrite chunk_length.
      * intros Hne. destruct (bo_entries _ _ F2 Hne) as (d & -> & Hl & _). exact Hl.
  - intros x y Exy Hne. destruct (image_owned x Hne) as [Ho1 Hr1]. rewrite Exy in Hne. destruct (image_owned y Hne) as [Ho2 Hr2]. rewrite <- Exy in Ho2.
    pose proof (proj1 (NoDup_alt _) F4 _ _ _ Ho1 Ho2) as E. destruct x as [p|], y as [q|]; [f_equal; lia|lia|lia|done].
  - intros bn H0 Hlt. rewrite E3 in Hlt. change BSIZE with 1024 in Hlt. rewrite image_addr, (proj2 (Z.leb_le 0 bn) H0).
    destruct (lookup_lt_is_Some_2 (f_blocks f) (Z.to_nat bn)) as [b Hbn]; [lia|]. rewrite Hbn. change (default 0 (Some b)) with b.
    assert (Ho : owned f !! Z.to_nat bn = Some b) by (unfold owned; rewrite lookup_app_l; [done|by apply lookup_lt_Some in Hbn]).
    apply F4' in Ho. change nmeta with 46 in Ho. lia.
Qed.

(** The content is the file's, filled up with zeros to the size of the root
    directory. *)
Lemma image_content :
  content (sectors g) ip = f_data f ++ replicate (Z.to_nat (final_size k (length (f_data f))) - length (f_data f)) 0.
Proof.
  destruct image_fields as (_ & _ & E3 & _). destruct (bt_files _ _ Hb k f Hk) as (_ & F2 & _). destruct image_size_fits as [Hfits Hle].
  unfold content. rewrite E3. set (sz := final_size _ _) in *. apply list_eq. intros j. destruct (decide (j < Z.to_nat sz)%nat) as [Hj|Hj].
  2:{ rewrite !lookup_ge_None_2; [done| |]; rewrite ?length_app, ?length_replicate, ?length_bytes_at; lia. }
  rewrite lookup_bytes_at by done. unfold byte_at. rewrite image_addr. change BSIZE with 1024. rewrite Z.add_0_l.
  rewrite (proj2 (Z.leb_le 0 (Z.of_nat j / 1024))) by lia. replace (Z.to_nat (Z.of_nat j / 1024)) with (j / 1024)%nat by (by rewrite <- (Nat2Z.id (j / 1024)), Nat2Z.inj_div).
  pose proof (Nat.div_mod_eq j 1024) as Hdm. pose proof (Nat.mod_upper_bound j 1024 ltac:(lia)) as Hmod.
  destruct (lookup_lt_is_Some_2 (f_blocks f) (j / 1024)) as [b Hbn]; [lia|]. rewrite Hbn. change (default 0 (Some b)) with b.
  unfold sectors. rewrite (bo_data _ _ F2 _ _ Hbn). change (default zeroes (Some ?v)) with v.
  replace (Z.to_nat (Z.of_nat j mod 1024)) with (j mod 1024)%nat by (by rewrite <- (Nat2Z.id (j mod 1024)), Nat2Z.inj_mod).
  rewrite <- list_lookup_lookup_total_lt by (by rewrite chunk_length). unfold MkfsSpec.chunk. cbv zeta.
  set (q := (j / 1024)%nat) in *. set (r := (j mod 1024)%nat) in *. destruct (decide (j < length (f_data f))%nat) as [Hd|Hd].
  - rewrite !lookup_app_l by (rewrite ?length_take, ?length_drop; lia). rewrite lookup_take_lt, lookup_drop by done. f_equal. lia.
  - rewrite lookup_app_r by (rewrite length_take, length_drop; lia). rewrite (lookup_app_r (f_data f)) by lia.
    rewrite !lookup_replicate_2; [done|lia|rewrite length_take, length_drop; lia].
Qed.

End Image.

(** ** The root directory *)

Lemma slots_cons a l : length a = 16%nat -> slots (a ++ l) = a :: slots l.
Proof.
  intros Ha. unfold slots. rewrite length_app, Ha. replace ((16 + length l) / 16)%nat with (S (length l / 16)).
  - cbn [seq fmap list_fmap]. rewrite Nat.mul_0_r, drop_0, take_app_length' by done. f_equal.
    rewrite <- fmap_S_seq, <- list_fmap_compose. apply list_fmap_ext. intros i j _. cbn [compose].
    replace (16 * S j)%nat with (16 + 16 * j)%nat by lia. rewrite <- drop_drop. by rewrite drop_app_length' by done.
  - apply Nat.div_unique with (length l mod 16)%nat; [apply Nat.mod_upper_bound; lia|]. pose proof (Nat.div_mod_eq (length l) 16). lia.
Qed.

(** A name that does not match the first entry is looked up in the rest. *)
Lemma dir_map_skip inum name l q :
  0 < inum < 2 ^ 16 -> namecmp q (name ++ [0]) <> 0 -> dir_map (dirent inum name ++ l) q = dir_map l q.
Proof.
  intros Hi Hne. destruct (new_entry_is inum (replicate DIRSIZ 0) (name ++ [0]) q eq_refl ltac:(left; apply elem_of_app; right; left) Hi) as (Hl & _ & He).
  change (new_entry inum (replicate DIRSIZ 0) (name ++ [0])) with (dirent inum name) in *.
  unfold dir_map. rewrite slots_cons by done. cbn [list_find]. rewrite decide_False by (by rewrite He). by destruct (list_find _ _) as [[? ?]|].
Qed.

Lemma dir_map_hit inum name l q :
  0 < inum < 2 ^ 16 -> namecmp q (name ++ [0]) = 0 -> dir_map (dirent inum name ++ l) q = Some inum.
Proof.
  intros Hi He'. destruct (new_entry_is inum (replicate DIRSIZ 0) (name ++ [0]) q eq_refl ltac:(left; apply elem_of_app; right; left) Hi) as (Hl & Hd & He).
  change (new_entry inum (replicate DIRSIZ 0) (name ++ [0])) with (dirent inum name) in *.
  unfold dir_map. rewrite slots_cons by done. cbn [list_find]. rewrite decide_True by (by apply He). cbn [fmap option_fmap option_map snd]. by rewrite Hd.
Qed.

Lemma dir_map_entries names : forall inum j name rest,
  names !! j = Some name -> 0 < inum -> inum + Z.of_nat (length names) < 2 ^ 16 ->
  (forall p other, (p < j)%nat -> names !! p = Some other -> namecmp (name ++ [0]) (other ++ [0]) <> 0) ->
  dir_map (entries inum names ++ rest) (name ++ [0]) = Some (inum + Z.of_nat j).
Proof.
  induction names as [|n0 names IH]; intros inum j name rest Hj Hi Hmax Hdis; [done|]. cbn [entries length] in *. rewrite <- app_assoc.
  destruct j as [|j].
  - injection Hj as ->. rewrite dir_map_hit; [f_equal; lia|lia|apply strncmp_self].
  - rewrite dir_map_skip; [|lia|by apply (Hdis O); [lia|]]. rewrite (IH (inum + 1) j); try done; [f_equal; lia|lia|lia|].
    intros p other Hp Ho. apply (Hdis (S p)); [lia|done].
Qed.

(** The name of item [j] is not the name of an entry before it. *)
Definition new_name (xs : list item) (j : nat) (name : list Z) : Prop :=
  namecmp (name ++ [0]) (chars "." ++ [0]) <> 0 /\ namecmp (name ++ [0]) (chars ".." ++ [0]) <> 0 /\
  forall p y, (p < j)%nat -> xs !! p = Some y -> namecmp (name ++ [0]) (it_name y ++ [0]) <> 0.

Lemma root_map xs j x rest :
  xs !! j = Some x -> (length xs <= 198)%nat -> new_name xs j (it_name x) ->
  dir_map ((dirent 1 (chars ".") ++ dirent 1 (chars "..") ++ entries 2 (it_name <$> xs)) ++ rest) (it_name x ++ [0]) = Some (2 + Z.of_nat j).
Proof.
  intros Hj Hl (H1 & H2 & H3). rewrite <- !app_assoc, !dir_map_skip by (done || lia). apply dir_map_entries.
  - by rewrite list_lookup_fmap, Hj.
  - lia.
  - rewrite length_fmap. lia.
  - intros p other Hp Ho. apply list_lookup_fmap_Some in Ho as (y & -> & Hy). by apply (H3 p).
Qed.

Lemma length_root xs : length (dirent 1 (chars ".") ++ dirent 1 (chars "..") ++ entries 2 (it_name <$> xs)) = (32 + 16 * length xs)%nat.
Proof. rewrite !length_app, !dirent_length, entries_length, length_fmap. lia. Qed.

(** The entries of the root directory are for the inodes from 1 on. *)
Lemma dir_map_zeros n q : dir_map (replicate n 0) q = None.
Proof.
  unfold dir_map. rewrite (proj2 (list_find_None _ _)); [done|]. apply Forall_lookup. intros j de Hj [Hne _]. apply Hne. clear Hne.
  pose proof (lookup_lt_Some _ _ _ Hj) as Hl. rewrite length_slots in Hl. rewrite lookup_slots in Hj by done. injection Hj as <-.
  rewrite drop_replicate, take_replicate. apply get_le_zero.
Qed.

Lemma dir_map_range names : forall inum n q v,
  0 < inum -> inum + Z.of_nat (length names) < 2 ^ 16 -> dir_map (entries inum names ++ replicate n 0) q = Some v ->
  inum <= v < inum + Z.of_nat (length names).
Proof.
  induction names as [|n0 names IH]; intros inum n q v Hi Hmax; cbn [entries length app] in *; [by rewrite dir_map_zeros|]. rewrite <- app_assoc.
  destruct (decide (namecmp q (n0 ++ [0]) = 0)) as [E|E].
  - rewrite dir_map_hit by (done || lia). intros Ev. injection Ev as <-. lia.
  - rewrite dir_map_skip by (done || lia). intros Ev. apply IH in Ev; lia.
Qed.

Lemma root_range xs n q v :
  (length xs <= 198)%nat -> dir_map ((dirent 1 (chars ".") ++ dirent 1 (chars "..") ++ entries 2 (it_name <$> xs)) ++ replicate n 0) q = Some v ->
  1 <= v < 2 + Z.of_nat (length xs).
Proof.
  intros Hl. rewrite <- !app_assoc. destruct (decide (namecmp q (chars "." ++ [0]) = 0)) as [E|E].
  { rewrite dir_map_hit by (done || lia). intros Ev. injection Ev as <-. lia. }
  rewrite dir_map_skip by (done || lia). destruct (decide (namecmp q (chars ".." ++ [0]) = 0)) as [E'|E'].
  { rewrite dir_map_hit by (done || lia). intros Ev. injection Ev as <-. lia. }
  rewrite dir_map_skip by (done || lia). intros Ev. apply dir_map_range in Ev; rewrite ?length_fmap in *; lia.
Qed.

(** The image is a tree for path lookup. *)
Section Tree.
Context (g : image) (fs : list MkfsSpec.file) (Hb : built g fs) (xs : list item) (Hfs : (fun f => (MkfsSpec.f_type f, f_data f)) <$> fs = image_files xs).
Context (Hlen : (length xs <= 198)%nat) (Hroot : ((32 + 16 * length xs) mod 1024 <> 0)%nat).

Lemma image_count : length fs = S (length xs).
Proof.
  apply (f_equal length) in Hfs as E. unfold image_files, regular in E. rewrite length_fmap in E. cbn [length] in E. rewrite length_fmap in E. lia.
Qed.

Lemma image_root f : fs !! O = Some f -> MkfsSpec.f_type f = T_DIR /\ f_data f = dirent 1 (chars ".") ++ dirent 1 (chars "..") ++ entries 2 (it_name <$> xs).
Proof.
  intros Hf. assert (E : image_files xs !! O = Some (MkfsSpec.f_type f, f_data f)) by (by rewrite <- Hfs, list_lookup_fmap, Hf).
  split; [exact (eq_sym (f_equal fst (Some_inj (T_DIR, _) _ E)))|exact (eq_sym (f_equal snd (Some_inj (T_DIR, _) _ E)))].
Qed.

Lemma image_fit k f : fs !! k = Some f -> k <> O \/ (length (f_data f) mod 1024 <> 0)%nat.
Proof. intros Hf. destruct (decide (k = O)) as [->|]; [right|by left]. destruct (image_root f Hf) as [_ ->]. by rewrite length_root. Qed.

Lemma image_type k f : fs !! k = Some f -> MkfsSpec.f_type f = if decide (k = O) then T_DIR else T_FILE.
Proof.
  intros Hf. destruct (decide (k = O)) as [->|Hk]; [by apply image_root|]. destruct k as [|k]; [done|].
  assert (E : image_files xs !! S k = Some (MkfsSpec.f_type f, f_data f)) by (by rewrite <- Hfs, list_lookup_fmap, Hf).
  unfold image_files, regular in E. cbn [lookup list_lookup] in E. apply list_lookup_fmap_Some in E as (x & E & _). by injection E.
Qed.

(** What [disk_inode] has for a file of the image. *)
Lemma image_disk_inode inum : 1 <= inum < 2 + Z.of_nat (length xs) -> exists k f, inum = 1 + Z.of_nat k /\ fs !! k = Some f /\
  let ip := disk_inode sb (sectors g) inum in
  i_type ip = (if decide (k = O) then T_DIR else T_FILE) /\ i_nlink ip = 1 /\ file_ok sb 2 (sectors g) ip /\
  content (sectors g) ip = f_data f ++ replicate (Z.to_nat (final_size k (length (f_data f))) - length (f_data f)) 0.
Proof.
  intros Hi. destruct (lookup_lt_is_Some_2 fs (Z.to_nat (inum - 1))) as [f Hf]; [rewrite image_count; lia|]. exists (Z.to_nat (inum - 1)), f.
  assert (Ei : inum = 1 + Z.of_nat (Z.to_nat (inum - 1))) by lia. split; [done|]. split; [done|]. set (k := Z.to_nat (inum - 1)) in *. cbv zeta.
  set (ip0 := Inode 0 inum 0 0 0 0 0 0 0 []). pose proof (image_type k f Hf) as Ety.
  assert (Hty : MkfsSpec.f_type f = T_DIR \/ MkfsSpec.f_type f = T_FILE) by (rewrite Ety; destruct (decide (k = O)); auto).
  destruct (image_fields g fs Hb k f Hf Hty ip0 Ei) as (E1 & E2 & E3 & E4 & _).
  pose proof (image_file g fs Hb k f Hf Hty ip0 Ei (image_fit k f Hf) ltac:(rewrite image_count; lia)) as [[] Hn Hd Hj Hbk].
  split; [by rewrite <- Ety|]. split; [done|]. split; [by split; [split|..]|].
  apply (image_content g fs Hb k f Hf Hty ip0 Ei (image_fit k f Hf)). rewrite image_count. lia.
Qed.

Lemma image_tree : tree sb 2 (sectors g) (fun inum => 1 <= inum < 2 + Z.of_nat (length xs)).
Proof.
  assert (Hdir : forall inum, 1 <= inum < 2 + Z.of_nat (length xs) -> i_type (disk_inode sb (sectors g) inum) = T_DIR ->
    exists n, content (sectors g) (disk_inode sb (sectors g) inum) =
      (dirent 1 (chars ".") ++ dirent 1 (chars "..") ++ entries 2 (it_name <$> xs)) ++ replicate n 0 /\
      dir_shape (content (sectors g) (disk_inode sb (sectors g) inum))).
  { intros inum Hi Hty. destruct (image_disk_inode inum Hi) as (k & f & _ & Hf & Et & _ & _ & Ec). rewrite Hty in Et.
    destruct (decide (k = O)) as [->|]; [|done]. rewrite Ec. destruct (image_root f Hf) as [_ Ed]. rewrite Ed. eexists. split; [done|].
    unfold dir_shape. rewrite length_app, length_replicate, length_root. unfold final_size. cbn [Nat.eqb]. change BSIZE with 1024.
    apply Nat.Lcm0.mod_divide. exists (Z.to_nat ((Z.of_nat (32 + 16 * length xs) / 1024 + 1) * 64)). lia. }
  split.
  - intros inum Hi. by destruct (image_disk_inode inum Hi) as (k & f & _ & _ & _ & _ & Hf & _).
  - intros inum Hi. destruct (image_disk_inode inum Hi) as (k & f & _ & _ & -> & _). by destruct (decide (k = O)).
  - intros inum Hi. by destruct (image_disk_inode inum Hi) as (k & f & _ & _ & _ & -> & _).
  - intros inum Hi Hty. by destruct (Hdir inum Hi Hty) as (n & _ & ?).
  - intros inum name inum' Hi Hty. destruct (Hdir inum Hi Hty) as (n & -> & _). by apply root_range.
Qed.

(** A path with one component, the name of item [j]. *)
Lemma image_resolve j x :
  xs !! j = Some x -> new_name xs j (it_name x) -> resolve sb (sectors g) false ROOTINO [it_name x] = Some (2 + Z.of_nat j).
Proof.
  intros Hj Hnew. destruct (image_disk_inode ROOTINO) as (k & f & Ek & Hf & Et & _ & _ & Ec); [unfold ROOTINO; lia|].
  assert (k = O) as -> by (unfold ROOTINO in Ek; lia). cbn [resolve]. rewrite Et, Ec. destruct (image_root f Hf) as [_ Ed]. rewrite Ed.
  cbn [decide andb negb]. change (T_DIR =? T_DIR) with true. cbn [negb].
  rewrite (dir_map_name _ (elem_name (it_name x)) (it_name x ++ [0])); [by rewrite (root_map xs j x)|left; apply elem_of_app; right; left..|].
  unfold elem_name. destruct (decide (DIRSIZ <= length (it_name x))%nat).
  - by rewrite !take_app_le, take_take, Nat.min_id by (rewrite ?length_take; lia).
  - by rewrite (take_ge (it_name x)) by lia.
Qed.

End Tree.

(** ** The kernel on the image *)

Section Mount.
Context `{Devices} `{RoundsOk} `{!DiskOps} `{!DiskOk}.

(** Every file but the root directory is read back as it was given. *)
Lemma image_item g fs xs j x :
  built g fs -> (fun f => (MkfsSpec.f_type f, f_data f)) <$> fs = image_files xs -> (length xs <= 198)%nat -> ((32 + 16 * length xs) mod 1024 <> 0)%nat ->
  xs !! j = Some x -> let ip := disk_inode sb (sectors g) (2 + Z.of_nat j) in i_type ip = T_FILE /\ content (sectors g) ip = it_data x.
Proof.
  intros Hb Hfs Hlen Hroot Hj. pose proof (lookup_lt_Some _ _ _ Hj) as Hlt.
  destruct (image_disk_inode g fs Hb xs Hfs Hlen Hroot (2 + Z.of_nat j) ltac:(lia)) as (k & f & Ek & Hf & Et & _ & _ & Ec).
  assert (k = S j) as -> by lia. split; [exact Et|]. cbv zeta. rewrite Ec. unfold final_size. cbn [Nat.eqb]. rewrite Nat2Z.id, Nat.sub_diag, app_nil_r.
  assert (E : image_files xs !! S j = Some (MkfsSpec.f_type f, f_data f)) by (by rewrite <- Hfs, list_lookup_fmap, Hf).
  unfold image_files, regular in E. cbn [lookup list_lookup] in E.
  apply list_lookup_fmap_Some in E as (y & E & Hy). rewrite Hj in Hy. injection Hy as <-. by injection E.
Qed.

(** C6: mkfs and the kernel agree.  On an image that mkfs built from the files
    [xs] (with a root directory that does not end at a block boundary), [namei] of a
    path to one of the files finds it, whatever the inode table has loaded and as
    long as two entries of it are free; [ilock] then loads a plain file with the
    length of the file that mkfs was given, and [readi] at any offset returns the
    bytes of that file. *)
Theorem kernel_reads_image (reads : list Z -> option (list (list Z))) (creates : list Z -> bool) (prog img : list Z) (xs : list item) :
  creates img = true -> Forall (item_ok reads) xs -> (length xs <= 198)%nat -> nmeta + Z.of_nat (need (image_files xs)) <= FSSIZE ->
  ((32 + 16 * length xs) mod 1024 <> 0)%nat ->
  exists g, main reads creates (prog :: img :: (it_arg <$> xs)) (Image ∅ 1 0) = Done tt g /\ superblock_of (sectors g 1) = sb /\
    forall j x path s c i pid bl r, xs !! j = Some x -> new_name xs j (it_name x) -> char_at path = slash -> components path = [it_name x] ->
    (length bl < NBUF)%nat -> (forall q, 0 <= r q) ->
    (exists p q, p <> q /\ (p < NINODE)%nat /\ (q < NINODE)%nat /\ r p = 0 /\ r q = 0) ->
    walk c i pid ROOTDEV 2 bl (sectors g) sb r s [] None ->
    exists p s1 s2 ip, namei path s = Done (Some p) s1 /\ ilock (Some p) s1 = Done tt s2 /\
      e_inodes (k_ext s2) !! p = Some ip /\ i_inum ip = 2 + Z.of_nat j /\ i_type ip = T_FILE /\ i_size ip = Z.of_nat (length (it_data x)) /\
      forall off n, 0 <= off -> 0 <= n -> off + n <= Z.of_nat (length (it_data x)) ->
        exists s3, readi_local p off n s2 = Done (n, take (Z.to_nat n) (drop (Z.to_nat off) (it_data x))) s3.
Proof.
  intros Hc Hxs Hlen Hsp Hroot. destruct (mkfs_built reads creates prog img xs Hc Hxs Hlen Hsp) as (g & fs & E & Hb & Hfs).
  exists g. split; [exact E|]. split; [apply Hb|]. intros j x path s c i pid bl r Hj Hnew Hsl Hpath Hbl Hr Hfree Hw.
  pose proof (lookup_lt_Some _ _ _ Hj) as Hlt. set (G := fun inum => 1 <= inum < 2 + Z.of_nat (length xs)).
  assert (Hok : walk_ok 2 bl (sectors g) sb r G) by (split; [done..|by apply (image_disk g fs)|by apply (image_tree g fs)]).
  destruct (namex_walk c i pid ROOTDEV 2 bl (sectors g) sb r G Hok false s path (replicate DIRSIZ 0) ROOTINO Hw) as (res & s1 & Hrun & Hres).
  { unfold starts. by rewrite Hsl. }
  { unfold G, ROOTINO. lia. }
  { done. }
  rewrite Hpath, (image_resolve g fs Hb xs Hfs Hlen Hroot j x Hj Hnew) in Hres. destruct Hres as (HG & p & Ep & Hw1 & He1 & _).
  destruct (ilock_walk c i pid ROOTDEV 2 bl (sectors g) sb r G Hok p s1 [] _ Hw1 He1 HG) as (s2 & ip & Hrun2 & Hw2 & Hp & Hd & Hi & Hld & _).
  destruct (loaded_fields sb 2 (sectors g) ip Hld) as (Et & _ & Ec & Hf). rewrite Hi in *.
  destruct (image_item g fs xs j x Hb Hfs Hlen Hroot Hj) as [Et' Ec']. rewrite Et' in Et. rewrite Ec' in Ec.
  apply (tr_file _ _ _ _ (wo_tree _ _ _ _ _ _ Hok)) in HG. apply Hf in HG. pose proof (size_max _ _ _ _ HG) as Hmax. pose proof (io_size _ (fo_inode _ _ _ _ HG)) as Hsz.
  assert (Esz : i_size ip = Z.of_nat (length (it_data x))) by (rewrite <- Ec, length_content; lia).
  exists p, s1, s2, ip. split_and!; try done; [unfold namei; mstep Hrun; by rewrite Ep|]. intros off n H0' H1' Hle.
  change (MAXFILE * BSIZE) with 274432 in Hmax. pose proof (wk_tx _ _ _ _ _ _ _ _ _ _ _ _ Hw2) as Ht2. rewrite <- Hd in Ht2.
  rewrite <- (wk_sb _ _ _ _ _ _ _ _ _ _ _ _ Hw2) in HG.
  destruct (readi_run c i pid 2 _ p off n s2 ip bl (sectors g) Hp Ht2 HG Hbl) as (s3 & Hrun3 & _); [lia..|].
  rewrite Ec, length_take, length_drop in Hrun3. exists s3. rewrite Hrun3. do 2 f_equal. lia.
Qed.

End Mount.

(** ** An image to evaluate on *)

#[local] Instance mount_round : Rounds := 1%nat.
#[local] Instance mount_round_ok : RoundsOk := Nat.lt_0_1.
#[local] Instance mount_devices : Devices := no_devices.
#[local] Instance mount_disk : DiskOps := ideal_disk.

(** The second byte of "/cat", read by the kernel from the image. *)
Lemma kernel_reads_image_witness :
  exists g, main (fun _ => Some [[104; 105]; [10]]) (fun _ => true) [chars "mkfs"; chars "fs.img"; chars "user/_cat"] (Image ∅ 1 0) = Done tt g /\
    exists (s s1 s2 s3 : kstate ext) p, e_media (k_ext s) = sects g /\ namei (chars "/cat") s = Done (Some p) s1 /\
      ilock (Some p) s1 = Done tt s2 /\ readi_local p 1 1 s2 = Done (1, [105]) s3.
Proof.
  destruct (kernel_reads_image (fun _ => Some [[104; 105]; [10]]) (fun _ => true) (chars "mkfs") (chars "fs.img")
              [Item (chars "user/_cat") (chars "cat") [104; 105; 10]]) as (g & E & _ & Hk).
  - reflexivity.
  - constructor; [|constructor]. split; [reflexivity|]. split; [cbn [it_data length]; lia|]. by eexists.
  - cbn [length]. lia.
  - vm_compute. discriminate.
  - vm_compute. discriminate.
  - exists g. split; [exact E|]. destruct (disk_tx (sects g) sb zero_inode) as (s & Ht & Esb & _ & _ & Hlen & _ & Hm & Etab & Esl).
    destruct (Hk O (Item (chars "user/_cat") (chars "cat") [104; 105; 10]) (chars "/cat") s fs_cpu O 1 [] (fun _ => 0)) as (p & s1 & s2 & ip & H1 & H2 & _ & _ & _ & _ & Hread);
      [reflexivity| |reflexivity|reflexivity|unfold NBUF, MAXOPBLOCKS; cbn; lia|reflexivity| | |].
    + split_and!; [vm_compute; discriminate..|]. intros q y Hq. lia.
    + exists O, 1%nat. unfold NINODE. split_and!; [discriminate|lia|lia|reflexivity|reflexivity].
    + by apply idle_walk.
    + destruct (Hread 1 1) as (s3 & H3); [lia|lia|cbn; lia|]. exists s, s1, s2, s3, p. split_and!; [exact Hm|exact H1|exact H2|exact H3].
Defined.
